(* ===== verification/_CoqProject ===== *)
-Q . S2P
Prelude.v
PyStr.v
Sha256.v
PyFloat.v
Json.v
JsonFacts.v
Snapshots.v
Sqlite.v
PyBytes.v
Inflate.v
StorageTokens.v
StorageChunks.v
RunStorage.v
RunIntake.v
ReportJobs.v
BundleBoundary.v
NetworkBudget.v
PyTime.v
PyTimeFacts.v
MonitorContract.v
MonitorStore.v
MonitorGovernance.v
MonitorSandbox.v
MonitorScheduler.v
MonitorRuntime.v
MonitorApi.v
CanonicalHash.v
Orchestration.v
AcceptedEdition.v
HumanEvidence.v
ReviewDecision.v
DeliveryAuthorization.v
RunRecord.v
ReviewWork.v
ReviewSampling.v
ReviewQueue.v
ReviewService.v
ReviewWorkFacts.v
ReviewLedger.v
ReviewWorks.v
ReviewReady.v
ReviewGates.v
ReviewRuns.v
RunStore.v
