(* ===== verification/Prelude.v ===== *)
(** * NICO verification development

    NICO assesses a software repository, lets people review what it found and
    keeps watching the repository afterwards.  This library models the Python
    core that decides: what may be executed, which report a reviewer approved,
    what may be delivered, when a monitor runs.  File names below are relative
    to src/nico/; a definition carries the name of the function it translates.

    ** The program and the files of the library

    Two halves share the JSON documents they store and the SHA-256 digests that
    bind one document to another.

    Monitoring.  A monitor definition gives runs; a run observes the repository,
    compares with the last observation, and turns changes into alerts and work
    items; a work item is proposed, approved, executed in a sandbox and verified.
    - MonitorContract: the work item and its life cycle
      (monitor_execute_contract.py).  [step] is the relation its operations span.
    - MonitorStore: the table of work items, its integrity digests and the
      service methods (monitor_execute_service.py).
    - MonitorGovernance: expiry and revocation of approvals
      (monitor_approval_governance.py).
    - MonitorSandbox: path checks, patch plans, the sandbox on a file system with
      symbolic links, the pull request gateway (monitor_patch_sandbox.py).
    - MonitorScheduler: observations, change detection, alerts, the time of the
      next run (monitor_scheduler.py).
    - MonitorRuntime: definitions, leases and the completion of a run
      (monitor_runtime.py).
    - MonitorApi: the HTTP handlers over a class of services
      (monitor_execute_api.py, monitor_governed_api.py).

    Comprehensive runs.  A run record passes fixed stages; its report is bound to
    a reviewer's decision, and an approved report to a separate authorization of
    its delivery.
    - Orchestration: the stages and their contract
      (comprehensive_orchestration_contract.py).
    - CanonicalHash: the streaming digest of a record
      (comprehensive_run_record.py).
    - RunRecord: creation, stage results, decisions, validation and restoring of
      a record (the rest of comprehensive_run_record.py).
    - AcceptedEdition: the manifest of a reviewed report and its guard
      (decision_grade_accepted_edition_v2.py,
      decision_grade_accepted_edition_guard_v1.py).
    - ReviewDecision: which report a record holds, and the edition a decision
      makes of it (comprehensive_review_decision_v1.py).
    - DeliveryAuthorization: the receipt that permits delivery
      (comprehensive_delivery_authorization_v1.py).
    - BundleBoundary: the refusal of report bundles
      (ordinary_bundle_boundary_v2.py).
    - HumanEvidence: the package of strategic evidence people give
      (strategic_human_evidence_v1.py, decision_grade_human_evidence_v1.py).
    - NetworkBudget: bounded collection of evidence from GitHub
      (assessment_network_budget.py, parts of hosted_assessment.py).

    The review of a run.  Specialists work through the candidates of the final
    report before the run can be approved; what they did is a ledger in the run
    record.
    - ReviewWork: register, clusters, ledger, audit events and actions of the
      first phase (comprehensive_review_work_v1.py).
    - ReviewSampling: the second phase, which binds the ledger to its source and
      samples automated verdicts (comprehensive_review_work_v2.py).
    - ReviewQueue: the exception queue, the gate of the approval and the test of
      group decisions (comprehensive_review_work_safe_v1.py).
    - ReviewService: one request on a run record and the truth about the review
      in its report (comprehensive_review_work_runtime_v1.py,
      comprehensive_review_work_record_v1.py,
      comprehensive_review_report_truth_v1.py).
    - ReviewWorkFacts (catalog, new ledgers), ReviewLedger (what every action
      keeps), ReviewWorks (the ledgers that requests lead to, and the gate),
      ReviewReady (the projection the gate computes, through all phases),
      ReviewGates (samples and groups), ReviewRuns (the record): the proofs.

    Where runs are kept (comprehensive_run_store.py and its codecs).
    - RunStorage: the text of a stored run and its envelope
      (comprehensive_run_storage_codec_v1.py); StorageTokens and StorageChunks:
      the two reference codecs (comprehensive_run_storage_dedup_v1.py,
      comprehensive_run_storage_chunks_v1.py); Inflate: their use of zlib.
    - RunStore: runs, review commitments and browser projections.
      RunIntake: reservations of public requests.  ReportJobs: the leases of
      report renderings.
    - Snapshots: histories of transactions that act on an earlier read.
      Sqlite: what columns do with the values bound to them.

    Python itself.
    - Prelude: exceptions, the error monad [res], lemmas and tactics.
    - PyStr: [str] and [bytes].  PyBytes: base64 and packed integers.  PyFloat: binary64 floats.  PyTime and
      PyTimeFacts: UTC datetimes, [isoformat], [fromisoformat].
    - Json and JsonFacts: JSON values, [json.dumps], [json.loads] and their round
      trip.  Sha256: SHA-256, executable.

    ** How the code is modelled

    A function that can raise returns [res A]: a value or an exception with its
    class and message; guards stand in the order of the source.  A store is a
    finite map per table and a method of it a transaction: a new map, or an
    exception and the old map.  Methods that use several transactions are step
    relations ([system] in MonitorStore, [pool_step] in NetworkBudget), so that
    other callers may act in between; or they take the states their reads saw and
    the state they change, and a history lists the commits of any number of
    clients, each of which read some states of the history so far: [gov_run] in
    MonitorGovernance, whose [begin] is four transactions, and [history]
    (Snapshots) for the run store, whose methods read in one transaction and
    write in a later one.
    The sandbox acts on an explicit file system and returns it also on failure.
    Time, random tokens and the answers of a network are arguments.

    A [str] is a sequence of code points below 256: text beyond Latin-1 is not
    represented.  Integers are unbounded as in Python; the 32-bit words of
    SHA-256 and the 53-bit floats wrap and round as the machine does.  Records
    are values: where the code copies a dictionary before changing it the copy
    is the identity, and no modelled function writes to an argument it does not
    own.

    zlib is the class [Zlib] with the laws [ZlibLaws] (Inflate): what was
    compressed and flushed decompresses, in pieces of any size, to what was
    written.  [stored_zlib] is an instance made of stored blocks, so the laws can
    hold and the codecs can be run.  SQL statements are functions of the tables
    in the SQLite dialect; values that SQLite would convert for a TEXT column are
    outside the model, as are the messages of [json.loads], its limit on nesting
    and Python's limit of 4300 digits on the text of an integer.  Both limits are
    modelled in the one reader that has to withstand hostile text, the strict
    reader of BundleBoundary: it refuses longer integers, and what it cannot
    represent (characters beyond Latin-1, deeper nesting than 500) ends with
    [Unrepresented].

    Nothing is assumed of SHA-256.  A theorem that needs two texts to be the same
    because their digests are says so, or gives the colliding pair.

    ** What is proved

    - Work items: execution only with an unexpired approval of exactly that
      proposal and scope; closing only after verification of the produced
      revision; the life cycle ends; every approved item can begin.
    - Store: interleaved services refine atomic steps on items; stored items
      that were tampered with are refused; what is stored is loaded.
    - Governance: with concurrent clients, an execution starts only on the item
      that was checked, with an approval that was active when it was checked; a
      revocation committed before the check's lookup is never overlooked, one
      committed between lookup and start is.
    - Sandbox: accepted paths resolve to a place in the workspace; staging writes all files
      or reports why not; the gateway is called only in the safe order.
    - Run record: every reachable record validates; the exact effect of a stage
      result and of a decision; a complete record can be approved; a delivered
      record has a receipt for the very artifacts it holds.
    - Review of a run: every decision is a person's; the audit trail is
      append-only and its last digest fixes it; the gate of the approval opens
      only when the ledger shows a complete review, and then always, up to what
      the arguments and the numbers in the report can do; then each required
      check agrees with the very decision it saw; group decisions and samples
      are safe; a stored ledger is loaded unchanged; a request leaves a record
      the next request goes on from, except in a run without candidates.
    - Editions and authorization: what is built is what is validated; the
      manifest and the receipt fix the report's bytes; guards fail closed.
    - Runtime and schedule: leases exclude each other; a run is completed once;
      the events of a comparison are the ones the observations call for; no
      change gives no event; the next run is in bounds.
    - Collection: the pool of workers gives the serial result in every order;
      deadlines bound every request.
    - Hash, evidence, boundary, API: the streaming digest is the digest of the
      canonical text; what is normalised verifies; bundles are refused at any
      depth; a route changes the state exactly as its service method.
    - Stored runs: every form of storage gives back the record and keeps its
      limits, whatever digests collide; decoding anything ends with ValueError or
      with a record whose text has the claimed length and digest.
    - Run store, in every history of concurrent clients: the tables agree; a
      commit finds the revision it expected and extends the review history; the
      revision counts the acknowledged saves; what was written is loaded; a
      report is published once per lease; browsers are served the projection of
      the record in the row.
    - Intake: every outcome of a reservation; a settled reservation is scrubbed
      and final; a lease that was taken over has no effect.

    ** Fuel

    Recursion that is not structural takes fuel, and its sufficiency is proved
    where the result depends on it.  [hash_chunks] runs on the number of steps of
    its value ([frame_steps]), the boundary's [walk] on [walk_steps], the strict
    JSON reader on twice the text's length plus two: each is proved enough.
    [loads] uses the same bound, and [loads_dumps] shows it enough for text that
    [dumps] wrote.  [resolve] follows at most 1000 symbolic links before it
    reports a loop; a file system with more than 1000 links on one path is
    outside the model.  [bounded_loop] runs 8194 steps, one more than the limit
    that stops the loop.  The codecs read compressed input piece by piece:
    [inflate_from] runs on [input_left] plus one, [read_from] on the
    bytes it is asked for, the frame loops on the frame limit plus one, and
    [inflate_all] on the size plus one; the theorems about the decoders show that
    none of them runs out.

    ** Not modelled

    Callees whose code is outside the model are arguments: the validation of an
    operator delivery (comprehensive_operator_delivery_v1.py, which reads PDF
    bytes), the fingerprint of a candidate and the assistance and investigation
    shown next to it, the texts, HTML and PDF of a package with the rebinding of
    its manifest and the program of phases (ReviewRuns assumes they keep the
    report's identity and register), the fetching of one URL or one file, and
    the pull request gateway, which the source declares as a protocol.
    ReviewDecision takes the ledger of a record as an argument; the code passes
    [Phase2.ledger_for_record].
    Not modelled at all are the rendering and the translation of reports (prose
    and third-party renderers), the scanners and compilers (subprocesses), the
    express and mid assessments (text projections that patch each other at
    import), FastAPI's routing, the database drivers, the
    creation of tables, the PostgreSQL dialect, the installation of
    applications, the scripts and the web application. *)

From Stdlib Require Export Ascii.
From stdpp Require Export base option list gmap strings sorting.
From Stdlib Require Export ZArith Lia.

#[global] Open Scope string_scope.
#[global] Open Scope list_scope.
#[global] Open Scope Z_scope.
#[global] Arguments String.append !_ _ : simpl nomatch.

(** ** Exceptions

    A Python exception is its class and its message.  [exc_parent] is the
    inheritance relation of the classes the sources declare, so that an
    [except C] clause is [isinstance C].  Two classes are none of Python's, and no
    clause catches them: a definition that recurs on fuel ends with [OutOfFuel]
    when the fuel is too small, and one that meets a value the model cannot hold
    (text beyond Latin-1) ends with [Unrepresented], which says nothing about
    what the program does there. *)

Inductive exc_class :=
  | ValueError | OverflowError | AttributeError | TypeError | KeyError | RuntimeError
  | MonitorExecuteError | ApprovalGovernanceError
  | MonitorStoreError | MonitorItemMissing | MonitorItemDuplicate
  | MonitorRevisionConflict | MonitorIntegrityError
  | MonitorSchedulerError
  | MonitorRuntimeError | MonitorLeaseConflict | MonitorDefinitionMissing
  | PatchSandboxError | OSError | DatabaseError
  | HTTPException
  | ClientDeliveryContractError
  | ComprehensiveRunConflict | ComprehensiveRunNotFound
  | OutOfFuel | Unrepresented.

#[export] Instance exc_class_eq_dec : EqDecision exc_class.
Proof. solve_decision. Defined.

Definition exc_parent (c : exc_class) : option exc_class :=
  match c with
  | ApprovalGovernanceError => Some MonitorExecuteError
  | MonitorItemMissing | MonitorItemDuplicate | MonitorRevisionConflict
  | MonitorIntegrityError => Some MonitorStoreError
  | MonitorLeaseConflict | MonitorDefinitionMissing => Some MonitorRuntimeError
  | MonitorExecuteError | MonitorStoreError | MonitorSchedulerError
  | MonitorRuntimeError | PatchSandboxError => Some RuntimeError
  | ComprehensiveRunConflict => Some RuntimeError
  | ComprehensiveRunNotFound => Some KeyError
  | ClientDeliveryContractError => Some ValueError
  | _ => None
  end.

(** The hierarchy is at most four deep. *)
Fixpoint subclass_fuel (n : nat) (c d : exc_class) : bool :=
  if decide (c = d) then true
  else match n, exc_parent c with
       | S n, Some p => subclass_fuel n p d
       | _, _ => false
       end.
Definition subclass (c d : exc_class) : bool := subclass_fuel 4 c d.

Record exn := Exn { exn_class : exc_class; exn_msg : string }.

#[export] Instance exn_eq_dec : EqDecision exn.
Proof. solve_decision. Defined.

Definition isinstance (e : exn) (d : exc_class) : bool := subclass (exn_class e) d.

(** ** The error monad *)

Inductive res (A : Type) : Type :=
  | Ok (a : A)
  | Raise (e : exn).
Arguments Ok {A} a.
Arguments Raise {A} e.

#[export] Instance res_eq_dec {A} `{EqDecision A} : EqDecision (res A).
Proof. solve_decision. Defined.

#[export] Instance res_ret : MRet res := fun A x => Ok x.
#[export] Instance res_bind : MBind res := fun A B f m =>
  match m with Ok x => f x | Raise e => Raise e end.
#[export] Instance res_fmap : FMap res := fun A B f m =>
  match m with Ok x => Ok (f x) | Raise e => Raise e end.

Definition is_ok {A} (r : res A) : bool := match r with Ok _ => true | Raise _ => false end.

(** [fail c m] is [raise c(m)]; [unless b c m] is [if not b: raise c(m)]. *)
Definition fail {A} (c : exc_class) (m : string) : res A := Raise (Exn c m).
Definition out_of_fuel {A} : res A := fail OutOfFuel "".
Definition unrepresented {A} : res A := fail Unrepresented "".
Definition unless (b : bool) (c : exc_class) (m : string) : res unit :=
  if b then Ok tt else fail c m.

(** The monadic map: left to right, stopping at the first exception. *)
Fixpoint mapR {A B} (f : A -> res B) (l : list A) : res (list B) :=
  match l with
  | [] => Ok []
  | x :: l => y ← f x; ys ← mapR f l; Ok (y :: ys)
  end.

Lemma bind_ok_inv {A B} (m : res A) (f : A -> res B) b :
  m ≫= f = Ok b -> exists a, m = Ok a /\ f a = Ok b.
Proof. destruct m; simpl; intros H; [eauto | discriminate]. Qed.

Lemma Ok_inj {A} (a b : A) : Ok a = Ok b -> a = b.
Proof. by intros [=]. Qed.

Lemma unless_ok b c m u : unless b c m = Ok u -> b = true.
Proof. unfold unless, fail. destruct b; [done | discriminate]. Qed.

(** One monadic step, forwards: what the proofs that an operation succeeds take. *)
Lemma bind_step {A B} (m : res A) (f : A -> res B) a r : m = Ok a -> f a = r -> m ≫= f = r.
Proof. intros -> H. exact H. Qed.
Lemma unless_true b c m : b = true -> unless b c m = Ok tt.
Proof. by intros ->. Qed.

Lemma mapR_ok {A B} (f : A -> res B) l ys :
  mapR f l = Ok ys <-> Forall2 (fun x y => f x = Ok y) l ys.
Proof.
  revert ys. induction l as [|x l IH]; intros ys; simpl.
  - split; [intros [= <-]; constructor | by inversion 1].
  - split.
    + intros (y & Hy & H)%bind_ok_inv. apply bind_ok_inv in H as (ys' & Hys & [= <-]).
      constructor; [done | by apply IH].
    + inversion 1 as [|? y ? ys' Hy Hys]; subst. rewrite Hy. simpl.
      apply IH in Hys. by rewrite Hys.
Qed.

Lemma mapR_is_ok {A B} (f : A -> res B) l : is_ok (mapR f l) = true <-> forall x, x ∈ l -> is_ok (f x) = true.
Proof.
  induction l as [|x l IH]; simpl; [split; [set_solver|done]|].
  destruct (f x) as [y|e] eqn:Hx; simpl.
  - transitivity (is_ok (mapR f l) = true); [by destruct (mapR f l)|]. rewrite IH. split.
    + intros H z [->|Hz]%elem_of_cons; [by rewrite Hx|auto].
    + intros H z Hz. apply H. by right.
  - split; [discriminate|]. intros H. specialize (H x ltac:(left)). by rewrite Hx in H.
Qed.

Lemma mapR_map {A B} (f : A -> res B) (g : A -> B) l :
  Forall (fun x => f x = Ok (g x)) l -> mapR f l = Ok (map g l).
Proof.
  induction 1 as [|x l Hx _ IH]; simpl; [done|]. by rewrite Hx; simpl; rewrite IH.
Qed.

(** [inv_ok] turns every hypothesis [_ = Ok _] about a sequence of monadic
    steps into the facts about the single steps; [inv_if] splits a
    conditional in a hypothesis, discarding the raising branch. *)
Ltac inv_ok1 :=
  match goal with
  | H : _ ≫= _ = Ok _ |- _ =>
      let a := fresh "v" in let Ha := fresh "Hv" in
      apply bind_ok_inv in H as (a & Ha & H); cbv beta in H
  | H : unless _ _ _ = Ok _ |- _ => apply unless_ok in H
  | H : Ok _ = Ok _ |- _ => injection H as H; try subst
  | H : Raise _ = Ok _ |- _ => discriminate H
  | H : fail _ _ = Ok _ |- _ => discriminate H
  | H : mret _ = Ok _ |- _ => injection H as H; try subst
  | H : (if ?b then fail _ _ else _) = Ok _ |- _ =>
      let Hb := fresh "Hb" in destruct b eqn:Hb; [discriminate H |]
  | H : (if ?b then _ else fail _ _) = Ok _ |- _ =>
      let Hb := fresh "Hb" in destruct b eqn:Hb; [| discriminate H]
  end.
Ltac inv_ok := repeat inv_ok1.

(** ** Python containers *)

(** [tuple(dict.fromkeys(l))]: the first occurrence of every element. *)
Fixpoint dict_fromkeys_from {A} `{EqDecision A} (seen l : list A) : list A :=
  match l with
  | [] => []
  | x :: l => if bool_decide (x ∈ seen) then dict_fromkeys_from seen l
              else x :: dict_fromkeys_from (x :: seen) l
  end.
Definition dict_fromkeys {A} `{EqDecision A} (l : list A) : list A := dict_fromkeys_from [] l.

(** [set(l).issubset(set(k))] *)
Definition issubset {A} `{EqDecision A} (l k : list A) : bool :=
  forallb (fun x => bool_decide (x ∈ k)) l.

Section containers.
Context {A : Type} `{!EqDecision A}.
Implicit Types l k seen : list A.

Lemma elem_dict_fromkeys_from x seen l :
  x ∈ dict_fromkeys_from seen l <-> x ∈ l /\ x ∉ seen.
Proof.
  revert seen. induction l as [|y l IH]; intros seen; simpl; [set_solver|].
  case_bool_decide as Hy; rewrite ?elem_of_cons, IH; [set_solver|].
  rewrite elem_of_cons. destruct (decide (x = y)); set_solver.
Qed.

Lemma elem_dict_fromkeys x l : x ∈ dict_fromkeys l <-> x ∈ l.
Proof. unfold dict_fromkeys. rewrite elem_dict_fromkeys_from. set_solver. Qed.

Lemma NoDup_dict_fromkeys_from seen l : NoDup (dict_fromkeys_from seen l).
Proof.
  revert seen. induction l as [|y l IH]; intros seen; simpl; [constructor|].
  case_bool_decide; [apply IH | constructor; [|apply IH]].
  rewrite elem_dict_fromkeys_from. set_solver.
Qed.

Lemma NoDup_dict_fromkeys l : NoDup (dict_fromkeys l).
Proof. apply NoDup_dict_fromkeys_from. Qed.

Lemma dict_fromkeys_nil l : dict_fromkeys l = [] <-> l = [].
Proof.
  split; [|by intros ->]. destruct l as [|x l]; [done|].
  intros H. assert (x ∈ dict_fromkeys (x :: l)) as Hx by (apply elem_dict_fromkeys; set_solver).
  rewrite H in Hx. set_solver.
Qed.

Lemma dict_fromkeys_from_id seen l :
  NoDup l -> (forall x, x ∈ l -> x ∉ seen) -> dict_fromkeys_from seen l = l.
Proof.
  intros Hl. revert seen. induction Hl as [|x l Hx Hl IH]; intros seen Hs; simpl; [done|].
  rewrite bool_decide_eq_false_2 by set_solver. f_equal. apply IH. set_solver.
Qed.

Lemma dict_fromkeys_id l : NoDup l -> dict_fromkeys l = l.
Proof. intros. apply dict_fromkeys_from_id; set_solver. Qed.

Lemma issubset_spec l k : issubset l k = true <-> (forall x, x ∈ l -> x ∈ k).
Proof.
  unfold issubset. rewrite forallb_forall. split.
  - intros H x Hx. specialize (H x). rewrite bool_decide_eq_true in H.
    apply H, list_elem_of_In, Hx.
  - intros H x Hx%list_elem_of_In. apply bool_decide_eq_true, H, Hx.
Qed.
End containers.

Create HintDb nico.
Create Rewrite HintDb nico.
#[export] Hint Resolve NoDup_dict_fromkeys : nico.
#[export] Hint Rewrite @elem_dict_fromkeys @dict_fromkeys_nil @issubset_spec : nico.

(** ** Lists *)

Lemma prefix_take {A} (n : nat) (l : list A) : take n l `prefix_of` l.
Proof. exists (drop n l). by rewrite take_drop. Qed.
