(* ===== verification/PyStr.v ===== *)
(** * Python text

    [str] and [bytes] as the sources use them.  A [str] is a Rocq [string] read
    as a sequence of code points below 256 (Latin-1), a [bytes] the same type
    read as bytes; [utf8_encode] goes from the first to the second.  Within that
    range the character classes are CPython's: [str.isspace] is true of
    9-13, 28-32, 133 and 160. *)

From S2P Require Import Prelude.
From Stdlib Require DecimalString DecimalZ DecimalPos DecimalFacts.

Definition code (a : Ascii.ascii) : Z := Z.of_N (Ascii.N_of_ascii a).
Definition chr (z : Z) : Ascii.ascii := Ascii.ascii_of_N (Z.to_N z).

Definition is_space (a : Ascii.ascii) : bool :=
  let c := code a in
  ((9 <=? c) && (c <=? 13)) || ((28 <=? c) && (c <=? 32)) || (c =? 133) || (c =? 160).

(** [bool(s)] *)
Definition truthy (s : string) : bool := negb (String.eqb s "").

(** [a or b] on strings *)
Definition str_or (a b : string) : string := if truthy a then a else b.

(** [s.split()] *)
Fixpoint split_from (cur s : string) : list string :=
  match s with
  | "" => if truthy cur then [cur] else []
  | String a s =>
      if is_space a
      then if truthy cur then cur :: split_from "" s else split_from "" s
      else split_from (cur +:+ String a "") s
  end.
Definition split (s : string) : list string := split_from "" s.

(** [sep.join(l)] *)
Fixpoint join (sep : string) (l : list string) : string :=
  match l with
  | [] => ""
  | [w] => w
  | w :: l => w +:+ sep +:+ join sep l
  end.

(** [s.strip()] *)
Fixpoint lstrip (s : string) : string :=
  match s with
  | String a s' => if is_space a then lstrip s' else s
  | "" => ""
  end.
Fixpoint rstrip (s : string) : string :=
  match s with
  | String a s' =>
      let r := rstrip s' in
      if is_space a && negb (truthy r) then "" else String a r
  | "" => ""
  end.
Definition strip (s : string) : string := rstrip (lstrip s).

(** [s.lower()]: Latin-1 upper case letters are A-Z and 192-222 but 215. *)
Definition lower_ascii (a : Ascii.ascii) : Ascii.ascii :=
  let c := code a in
  if ((65 <=? c) && (c <=? 90)) || ((192 <=? c) && (c <=? 222) && negb (c =? 215))
  then chr (c + 32) else a.
Fixpoint lower (s : string) : string :=
  match s with
  | "" => ""
  | String a s => String (lower_ascii a) (lower s)
  end.

(** [s.upper()]: the sharp s is [SS].  The micro sign and the y with diaeresis,
    whose upper case lies beyond Latin-1, stay. *)
Definition upper_ascii (a : Ascii.ascii) : Ascii.ascii :=
  let c := code a in
  if ((97 <=? c) && (c <=? 122)) || ((224 <=? c) && (c <=? 254) && negb (c =? 247))
  then chr (c - 32) else a.
Fixpoint upper (s : string) : string :=
  match s with
  | "" => ""
  | String a s => (if code a =? 223 then "SS" else String (upper_ascii a) "") +:+ upper s
  end.

(** [str.casefold] on Latin-1: [lower], and the sharp s is [ss].  The micro sign,
    which folds to a letter beyond Latin-1, stays. *)
Fixpoint casefold (s : string) : string :=
  match s with
  | "" => ""
  | String a s => (if code a =? 223 then "ss" else String (lower_ascii a) "") +:+ casefold s
  end.

(** [s.startswith(p)] *)
Fixpoint startswith (p s : string) : bool :=
  match p with
  | "" => true
  | String a p => match s with String b s => Ascii.eqb a b && startswith p s | "" => false end
  end.

(** [s[n:]] for [n] within the string *)
Fixpoint str_drop (n : nat) (s : string) : string :=
  match n, s with
  | O, _ => s
  | S n, String _ s => str_drop n s
  | S _, "" => ""
  end.
Fixpoint str_take (n : nat) (s : string) : string :=
  match n, s with
  | O, _ => ""
  | S n, String a s => String a (str_take n s)
  | S _, "" => ""
  end.
Definition endswith (p s : string) : bool :=
  if decide (String.length p <= String.length s)%nat
  then String.eqb (str_drop (String.length s - String.length p)%nat s) p
  else false.

(** [a in s] for a one-character [a] *)
Fixpoint str_has (a : Ascii.ascii) (s : string) : bool :=
  match s with
  | "" => false
  | String b s => Ascii.eqb a b || str_has a s
  end.

(** [p in s] *)
Fixpoint contains (p s : string) : bool :=
  startswith p s || match s with "" => false | String _ s => contains p s end.

(** [s.replace(a, b)] for one-character [a] and [b] *)
Fixpoint replace_char (a b : Ascii.ascii) (s : string) : string :=
  match s with
  | "" => ""
  | String c s => String (if Ascii.eqb c a then b else c) (replace_char a b s)
  end.

(** [s.split(sep)] for a one-character separator: never empty *)
Fixpoint split_on (sep : Ascii.ascii) (cur s : string) : list string :=
  match s with
  | "" => [cur]
  | String a s => if Ascii.eqb a sep then cur :: split_on sep "" s
                  else split_on sep (cur +:+ String a "") s
  end.

(** [len(s)] *)
Definition blen (s : string) : Z := Z.of_nat (String.length s).

(** [s.encode("utf-8")] *)
Fixpoint utf8_encode (s : string) : string :=
  match s with
  | "" => ""
  | String a s =>
      let c := code a in
      if c <? 128 then String a (utf8_encode s)
      else String (chr (192 + Z.shiftr c 6)) (String (chr (128 + Z.land c 63)) (utf8_encode s))
  end.

(** [str(z)] and [str(b)] *)
Definition str_of_Z (z : Z) : string := DecimalString.NilZero.string_of_int (Z.to_int z).
Definition str_of_bool (b : bool) : string := if b then "True" else "False".

(** Code point order of [sorted]. *)
Definition str_leb (a b : string) : bool := String.leb a b.

(** [sorted(l)] *)
Fixpoint insert_sorted (x : string) (l : list string) : list string :=
  match l with
  | [] => [x]
  | y :: l' => if str_leb x y then x :: l else y :: insert_sorted x l'
  end.
Fixpoint sorted (l : list string) : list string :=
  match l with
  | [] => []
  | x :: l => insert_sorted x (sorted l)
  end.

(** ** Lemmas *)

Lemma code_chr z : 0 <= z < 256 -> code (chr z) = z.
Proof.
  intros Hz. unfold code, chr. rewrite Ascii.N_ascii_embedding by lia. lia.
Qed.

Lemma app_str_nil_r s : s +:+ "" = s.
Proof. induction s as [|a s IH]; simpl; [done|]. by rewrite IH. Qed.

Lemma app_str_assoc a b c : (a +:+ b) +:+ c = a +:+ (b +:+ c).
Proof. induction a as [|x a IH]; simpl; [done|]. by rewrite IH. Qed.

Lemma truthy_spec s : truthy s = true <-> s <> "".
Proof. unfold truthy. rewrite negb_true_iff, String.eqb_neq. done. Qed.

Lemma truthy_false s : truthy s = false <-> s = "".
Proof. unfold truthy. rewrite negb_false_iff, String.eqb_eq. done. Qed.

Lemma str_or_truthy a b : truthy a = true -> str_or a b = a.
Proof. unfold str_or. by intros ->. Qed.

(** A word is what [split] returns: not empty, no white space. *)
Fixpoint no_space (s : string) : bool :=
  match s with
  | "" => true
  | String a s => negb (is_space a) && no_space s
  end.
Definition is_word (s : string) : bool := truthy s && no_space s.

Lemma no_space_app a b : no_space (a +:+ b) = no_space a && no_space b.
Proof. induction a as [|x a IH]; simpl; [done|]. by rewrite IH, andb_assoc. Qed.

Lemma truthy_app a b : truthy (a +:+ b) = truthy a || truthy b.
Proof. by destruct a. Qed.

Lemma split_from_words cur s :
  no_space cur = true -> Forall (fun w => is_word w = true) (split_from cur s).
Proof.
  revert cur. induction s as [|a s IH]; intros cur Hc; simpl.
  - destruct (truthy cur) eqn:Ht; [|constructor].
    constructor; [|constructor]. unfold is_word. by rewrite Ht, Hc.
  - destruct (is_space a) eqn:Ha.
    + destruct (truthy cur) eqn:Ht; [|by apply IH].
      constructor; [|by apply IH]. unfold is_word. by rewrite Ht, Hc.
    + apply IH. by rewrite no_space_app, Hc; simpl; rewrite Ha.
Qed.

Lemma split_words s : Forall (fun w => is_word w = true) (split s).
Proof. by apply split_from_words. Qed.

Lemma split_from_word cur w s :
  no_space w = true -> split_from cur (w +:+ s) = split_from (cur +:+ w) s.
Proof.
  revert cur. induction w as [|a w IH]; intros cur Hw; simpl in *.
  - by rewrite app_str_nil_r.
  - apply andb_true_iff in Hw as [Ha%negb_true_iff Hw]. rewrite Ha.
    rewrite (IH _ Hw). by rewrite app_str_assoc.
Qed.

(** Words joined by a blank are split into the same words. *)
Lemma split_join ws : Forall (fun w => is_word w = true) ws -> split (join " " ws) = ws.
Proof.
  unfold split. induction 1 as [|w ws Hw Hws IH]; [done|].
  apply andb_true_iff in Hw as [Ht Hn]. destruct ws as [|w' ws].
  - simpl. rewrite <- (app_str_nil_r w), split_from_word by done. simpl. by rewrite Ht, app_str_nil_r.
  - change (join " " (w :: w' :: ws)) with (w +:+ " " +:+ join " " (w' :: ws)).
    rewrite split_from_word by done. simpl. rewrite Ht. f_equal. exact IH.
Qed.

Lemma split_nil_join s : join " " (split s) = "" <-> split s = [].
Proof.
  split; [|by intros ->]. pose proof (split_words s) as H. intros Hj.
  rewrite <- (split_join _ H). by rewrite Hj.
Qed.


Lemma str_drop_app a b : str_drop (String.length a) (a +:+ b) = b.
Proof. induction a as [|x a IH]; simpl; [by destruct b | done]. Qed.

Lemma str_take_app a b : str_take (String.length a) (a +:+ b) = a.
Proof. induction a as [|x a IH]; simpl; [by destruct b | by rewrite IH]. Qed.

Lemma length_str_app a b : String.length (a +:+ b) = (String.length a + String.length b)%nat.
Proof. induction a as [|x a IH]; simpl; [done|]. by rewrite IH. Qed.

Lemma endswith_app a b : endswith b (a +:+ b) = true.
Proof.
  unfold endswith. rewrite length_str_app. rewrite decide_True by lia.
  replace (String.length a + String.length b - String.length b)%nat with (String.length a) by lia.
  rewrite str_drop_app. apply String.eqb_refl.
Qed.

Lemma rstrip_no_space s : no_space s = true -> rstrip s = s.
Proof.
  induction s as [|a s IH]; simpl; [done|]. intros [Ha%negb_true_iff Hs]%andb_true_iff.
  by rewrite Ha, (IH Hs).
Qed.

Lemma strip_no_space s : no_space s = true -> strip s = s.
Proof.
  intros H. unfold strip. replace (lstrip s) with s; [by apply rstrip_no_space|].
  destruct s as [|a s]; simpl in *; [done|]. by apply andb_true_iff in H as [->%negb_true_iff _].
Qed.

Lemma insert_sorted_perm x l : insert_sorted x l ≡ₚ x :: l.
Proof.
  induction l as [|y l IH]; simpl; [done|]. destruct (str_leb x y); [done|].
  rewrite IH. constructor.
Qed.

Lemma sorted_perm l : sorted l ≡ₚ l.
Proof. induction l as [|x l IH]; simpl; [done|]. by rewrite insert_sorted_perm, IH. Qed.

Lemma str_leb_total a b : str_leb a b = true \/ str_leb b a = true.
Proof. apply String.leb_total. Qed.

Lemma str_leb_antisym a b : str_leb a b = true -> str_leb b a = true -> a = b.
Proof. apply String.leb_antisym. Qed.

Lemma ascii_compare_lt_trans a b c :
  Ascii.compare a b = Lt -> Ascii.compare b c = Lt -> Ascii.compare a c = Lt.
Proof. unfold Ascii.compare. rewrite !N.compare_lt_iff. lia. Qed.

Lemma str_compare_refl a : String.compare a a = Eq.
Proof. induction a as [|x a IH]; simpl; [done|]. unfold Ascii.compare. by rewrite N.compare_refl. Qed.

Lemma str_leb_refl a : str_leb a a = true.
Proof. unfold str_leb, String.leb. by rewrite str_compare_refl. Qed.

Lemma str_leb_trans a b c : str_leb a b = true -> str_leb b c = true -> str_leb a c = true.
Proof.
  unfold str_leb, String.leb. revert b c.
  induction a as [|x a IH]; intros [|y b] [|z c]; simpl; try done.
  destruct (Ascii.compare x y) eqn:Hxy; try done.
  - apply Ascii.compare_eq_iff in Hxy as ->.
    destruct (Ascii.compare y z) eqn:Hyz; try done. apply IH.
  - intros _. destruct (Ascii.compare y z) eqn:Hyz; try done.
    + apply Ascii.compare_eq_iff in Hyz as <-. by rewrite Hxy.
    + by rewrite (ascii_compare_lt_trans _ _ _ Hxy Hyz).
Qed.

Lemma insert_sorted_sorted x l :
  StronglySorted (fun a b => str_leb a b = true) l ->
  StronglySorted (fun a b => str_leb a b = true) (insert_sorted x l).
Proof.
  induction 1 as [|y l Hl IH Hy]; simpl; [repeat constructor|].
  destruct (str_leb x y) eqn:Hxy.
  - constructor; [by constructor|]. constructor; [done|].
    eapply Forall_impl; [exact Hy|]. intros z Hz. by eapply str_leb_trans.
  - constructor; [done|]. rewrite insert_sorted_perm. constructor; [|done].
    destruct (str_leb_total x y); congruence.
Qed.

Lemma sorted_sorted l : StronglySorted (fun a b => str_leb a b = true) (sorted l).
Proof. induction l; simpl; [constructor|]. by apply insert_sorted_sorted. Qed.

#[export] Hint Resolve split_words sorted_sorted : nico.
Create Rewrite HintDb pystr.
#[export] Hint Rewrite app_str_nil_r app_str_assoc : pystr.

(** [utf8_encode] is injective: the first byte tells a character below 128
    from a pair of bytes, and a pair gives its character back. *)
Definition utf8_pair (b1 b2 : Ascii.ascii) : Ascii.ascii :=
  chr (Z.lor (Z.shiftl (Z.land (code b1) 3) 6) (Z.land (code b2) 63)).

Lemma utf8_high a : 128 <= code a ->
  let b1 := chr (192 + Z.shiftr (code a) 6) in
  128 <= code b1 /\ utf8_pair b1 (chr (128 + Z.land (code a) 63)) = a.
Proof.
  destruct a as [[] [] [] [] [] [] [] []]; vm_compute; intros H;
    solve [exfalso; apply H; reflexivity | split; [discriminate | reflexivity]].
Qed.

Lemma utf8_encode_inj a b : utf8_encode a = utf8_encode b -> a = b.
Proof.
  revert b. induction a as [|x a IH]; intros [|y b]; cbn [utf8_encode]; [done| | |].
  - destruct (code y <? 128); discriminate.
  - destruct (code x <? 128); discriminate.
  - destruct (Z.ltb_spec (code x) 128) as [Hx|Hx], (Z.ltb_spec (code y) 128) as [Hy|Hy].
    + intros [= -> H]. by rewrite (IH b).
    + intros [= -> _]. destruct (utf8_high y Hy). lia.
    + intros [= <- _]. destruct (utf8_high x Hx). lia.
    + intros [= H1 H2 H]. rewrite (IH b H). f_equal.
      destruct (utf8_high x Hx) as [_ <-], (utf8_high y Hy) as [_ <-]. by rewrite H1, H2.
Qed.

Lemma utf8_encode_app a b : utf8_encode (a +:+ b) = utf8_encode a +:+ utf8_encode b.
Proof. induction a as [|c a IH]; simpl; [done|]. rewrite IH. by destruct (code c <? 128). Qed.

(** ** Normalised text

    [" ".join(str(value or "").split())], refused when empty: the helper
    [_required] of several modules, each with its own exception class. *)
Definition required_as (c : exc_class) (value code : string) : res string :=
  let token := join " " (split value) in
  if truthy token then Ok token else fail c code.

Definition normalized (s : string) : Prop := join " " (split s) = s /\ s <> "".

Lemma required_ok c s m t : required_as c s m = Ok t -> normalized t /\ t = join " " (split s).
Proof.
  unfold required_as. intros H. inv_ok. apply truthy_spec in Hb. split; [|done]. split; [|done].
  by rewrite split_join by apply split_words.
Qed.

Lemma required_normalized c s m : normalized s -> required_as c s m = Ok s.
Proof.
  intros [Hs Hn]. unfold required_as. rewrite Hs. by apply truthy_spec in Hn as ->.
Qed.

Lemma no_space_normalized s : no_space s = true -> s <> "" -> normalized s.
Proof.
  intros Hs Hn. split; [|done]. replace (split s) with [s]; [done|]. symmetry.
  apply (split_join [s]). constructor; [|constructor]. unfold is_word. rewrite Hs.
  by apply truthy_spec in Hn as ->.
Qed.

(** Stripping twice is stripping once. *)
Lemma rstrip_idemp s : rstrip (rstrip s) = rstrip s.
Proof.
  induction s as [|a s IH]; simpl; [done|].
  destruct (is_space a && negb (truthy (rstrip s))) eqn:Ha; [done|]. simpl. by rewrite IH, Ha.
Qed.

Lemma lstrip_head s : lstrip s = "" \/ exists a t, lstrip s = String a t /\ is_space a = false.
Proof. induction s as [|a s IH]; simpl; [by left|]. destruct (is_space a) eqn:Ha; [done|]. right. eauto. Qed.

Lemma strip_idemp s : strip (strip s) = strip s.
Proof.
  unfold strip. destruct (lstrip_head s) as [-> | (a & t & -> & Ha)]; [done|].
  simpl. rewrite Ha. simpl. rewrite Ha. simpl. by rewrite Ha, rstrip_idemp.
Qed.
