(* ===== verification/Sha256.v ===== *)
(** * SHA-256

    [hashlib.sha256(b).hexdigest()] as an executable function of a byte string,
    written from FIPS 180-4: 32-bit words are [Z] with the wrap-around of every
    sum written out.  Nothing about collisions is assumed anywhere; theorems that
    depend on a digest either do not need it to be injective or name the
    collision. *)

From S2P Require Import Prelude PyStr.

Definition w32 (z : Z) : Z := Z.land z 4294967295.
Definition rotr (n x : Z) : Z := Z.lor (Z.shiftr x n) (w32 (Z.shiftl x (32 - n))).

Definition round_constants : list Z :=
  [ 1116352408; 1899447441; 3049323471; 3921009573; 961987163; 1508970993; 2453635748;
    2870763221; 3624381080; 310598401; 607225278; 1426881987; 1925078388; 2162078206;
    2614888103; 3248222580; 3835390401; 4022224774; 264347078; 604807628; 770255983;
    1249150122; 1555081692; 1996064986; 2554220882; 2821834349; 2952996808; 3210313671;
    3336571891; 3584528711; 113926993; 338241895; 666307205; 773529912; 1294757372;
    1396182291; 1695183700; 1986661051; 2177026350; 2456956037; 2730485921; 2820302411;
    3259730800; 3345764771; 3516065817; 3600352804; 4094571909; 275423344; 430227734;
    506948616; 659060556; 883997877; 958139571; 1322822218; 1537002063; 1747873779;
    1955562222; 2024104815; 2227730452; 2361852424; 2428436474; 2756734187; 3204031479;
    3329325298 ].

Definition initial_hash : list Z :=
  [ 1779033703; 3144134277; 1013904242; 2773480762; 1359893119; 2600822924; 528734635;
    1541459225 ].

(** Padding: the bit 1, zeros up to 448 modulo 512, the length in 64 bits. *)
Definition be_bytes (n : nat) (z : Z) : list Z :=
  map (fun i => Z.land (Z.shiftr z (8 * Z.of_nat (n - 1 - i))) 255) (seq 0 n).
Definition pad (m : list Z) : list Z :=
  let len := Z.of_nat (length m) in
  m ++ 128 :: replicate (Z.to_nat ((55 - len) mod 64)) 0 ++ be_bytes 8 (8 * len).

Fixpoint words (l : list Z) : list Z :=
  match l with
  | a :: b :: c :: d :: l =>
      Z.lor (Z.shiftl a 24) (Z.lor (Z.shiftl b 16) (Z.lor (Z.shiftl c 8) d)) :: words l
  | _ => []
  end.

Fixpoint blocks (fuel : nat) (l : list Z) : list (list Z) :=
  match fuel, l with
  | _, [] => []
  | S fuel, _ => take 16 l :: blocks fuel (drop 16 l)
  | O, _ => []
  end.

Definition sigma0 x := Z.lxor (rotr 7 x) (Z.lxor (rotr 18 x) (Z.shiftr x 3)).
Definition sigma1 x := Z.lxor (rotr 17 x) (Z.lxor (rotr 19 x) (Z.shiftr x 10)).
Definition Sigma0 x := Z.lxor (rotr 2 x) (Z.lxor (rotr 13 x) (rotr 22 x)).
Definition Sigma1 x := Z.lxor (rotr 6 x) (Z.lxor (rotr 11 x) (rotr 25 x)).
Definition Ch x y z := Z.lxor (Z.land x y) (Z.land (Z.lxor x 4294967295) z).
Definition Maj x y z := Z.lxor (Z.land x y) (Z.lxor (Z.land x z) (Z.land y z)).

(** The message schedule, kept newest word first. *)
Fixpoint schedule (n : nat) (rev_w : list Z) : list Z :=
  match n with
  | O => rev rev_w
  | S n =>
      let w i := nth i rev_w 0 in
      schedule n (w32 (sigma1 (w 1%nat) + w 6%nat + sigma0 (w 14%nat) + w 15%nat) :: rev_w)
  end.

Definition hash_state := (Z * Z * Z * Z * Z * Z * Z * Z)%type.

Definition round (s : hash_state) (kw : Z * Z) : hash_state :=
  let '(a, b, c, d, e, f, g, h) := s in
  let t1 := h + Sigma1 e + Ch e f g + fst kw + snd kw in
  let t2 := Sigma0 a + Maj a b c in
  (w32 (t1 + t2), a, b, c, w32 (d + t1), e, f, g).

Definition compress (s : hash_state) (block : list Z) : hash_state :=
  let ws := schedule 48 (rev block) in
  let '(a', b', c', d', e', f', g', h') := fold_left round (combine round_constants ws) s in
  let '(a, b, c, d, e, f, g, h) := s in
  (w32 (a + a'), w32 (b + b'), w32 (c + c'), w32 (d + d'),
   w32 (e + e'), w32 (f + f'), w32 (g + g'), w32 (h + h')).

Fixpoint bytes_of (s : string) : list Z :=
  match s with
  | "" => []
  | String a s => code a :: bytes_of s
  end.

Definition hex_digit (z : Z) : Ascii.ascii := chr (if z <? 10 then 48 + z else 87 + z).
Fixpoint hex_word (n : nat) (z : Z) (acc : string) : string :=
  match n with
  | O => acc
  | S n => hex_word n (Z.shiftr z 4) (String (hex_digit (Z.land z 15)) acc)
  end.

Definition sha256_hex (b : string) : string :=
  let ws := words (pad (bytes_of b)) in
  let '(a, b, c, d, e, f, g, h) :=
    fold_left compress (blocks (length ws) ws)
      (match initial_hash with
       | [a; b; c; d; e; f; g; h] => (a, b, c, d, e, f, g, h)
       | _ => (0, 0, 0, 0, 0, 0, 0, 0)
       end) in
  foldr (fun w acc => hex_word 8 w acc) "" [a; b; c; d; e; f; g; h].

Lemma hex_digit_no_space z : is_space (hex_digit (Z.land z 15)) = false.
Proof.
  change 15 with (Z.ones 4). rewrite Z.land_ones by lia.
  pose proof (Z.mod_pos_bound z (2 ^ 4) ltac:(lia)) as H. change (2 ^ 4) with 16 in *.
  set (x := z mod 16) in *. clearbody x.
  assert (x ∈ seqZ 0 16) as Hx by (apply elem_of_seqZ; lia). clear H. revert x Hx.
  apply Forall_forall. repeat constructor.
Qed.

Lemma hex_word_no_space n z acc : no_space acc = true -> no_space (hex_word n z acc) = true.
Proof.
  revert z acc. induction n as [|n IH]; intros z acc H; cbn [hex_word]; [done|].
  apply IH. cbn [no_space]. by rewrite hex_digit_no_space, H.
Qed.

Lemma sha256_hex_no_space b : no_space (sha256_hex b) = true.
Proof.
  unfold sha256_hex. destruct (fold_left _ _ _) as [[[[[[[? ?] ?] ?] ?] ?] ?] ?].
  cbn [foldr]. by do 8 apply hex_word_no_space.
Qed.

Lemma hex_word_nonempty n z acc : truthy acc = true -> truthy (hex_word n z acc) = true.
Proof. revert z acc. induction n as [|n IH]; intros z acc H; cbn [hex_word]; [done|]. by apply IH. Qed.

Lemma sha256_hex_truthy b : truthy (sha256_hex b) = true.
Proof.
  unfold sha256_hex. destruct (fold_left _ _ _) as [[[[[[[? ?] ?] ?] ?] ?] ?] ?].
  cbn [foldr]. do 7 apply hex_word_nonempty. reflexivity.
Qed.

(** Test vectors of FIPS 180-4: the empty message, one block, two blocks. *)
Example sha256_empty :
  sha256_hex "" = "e3b0c44298fc1c149afbf4c8996fb92427ae41e4649b934ca495991b7852b855".
Proof. vm_compute. reflexivity. Qed.
Example sha256_abc :
  sha256_hex "abc" = "ba7816bf8f01cfea414140de5dae2223b00361a396177a9cb410ff61f20015ad".
Proof. vm_compute. reflexivity. Qed.
Example sha256_two_blocks :
  sha256_hex "abcdbcdecdefdefgefghfghighijhijkijkljklmklmnlmnomnopnopq"
  = "248d6a61d20638b8e5c026930c3e6039a33ce45964ff2167f6ecedd419db06c1".
Proof. vm_compute. reflexivity. Qed.

(** [f"sha256:{sha256(b).hexdigest()}"] *)
Definition sha256_tag (b : string) : string := "sha256:" +:+ sha256_hex b.

(** [f"sha256:{sha256('|'.join(parts).encode('utf-8')).hexdigest()}"]: the
    helper [_digest] of several modules. *)
Definition pipe_digest (parts : list string) : string := sha256_tag (utf8_encode (join "|" parts)).

Lemma sha256_tag_normalized b : normalized (sha256_tag b).
Proof.
  apply no_space_normalized; [|by destruct (sha256_hex b)].
  unfold sha256_tag. rewrite no_space_app. by rewrite sha256_hex_no_space.
Qed.

Lemma pipe_digest_normalized l : normalized (pipe_digest l).
Proof. apply sha256_tag_normalized. Qed.

(** Two byte strings with one digest. *)
Definition collision (a b : string) : Prop := a <> b /\ sha256_hex a = sha256_hex b.

Lemma sha256_tag_eq a b : sha256_tag a = sha256_tag b -> a = b \/ collision a b.
Proof.
  unfold sha256_tag, collision. intros [= H].
  destruct (decide (a = b)); [by left | by right].
Qed.

(** The padded message is a whole number of 512-bit blocks. *)
Lemma pad_length m : (Z.of_nat (length (pad m)) mod 64 = 0)%Z.
Proof.
  unfold pad. rewrite length_app. simpl. rewrite length_app, length_replicate.
  change (length (be_bytes 8 (8 * Z.of_nat (length m)))) with 8%nat.
  pose proof (Z.mod_pos_bound (55 - Z.of_nat (length m)) 64 ltac:(lia)) as Hb.
  replace (Z.of_nat (length m + S (Z.to_nat ((55 - Z.of_nat (length m)) mod 64) + 8)))
    with (Z.of_nat (length m) + 9 + (55 - Z.of_nat (length m)) mod 64) by lia.
  rewrite Z.add_mod_idemp_r by lia. replace (_ + 9 + _) with (64 * 1) by lia.
  by rewrite Z.mul_comm, Z.mod_mul.
Qed.

#[global] Opaque sha256_hex.
