(* ===== verification/PyFloat.v ===== *)
(** * Python floats

    [float] is IEEE 754 binary64, here the standard library's [spec_float] at
    precision 53 and exponent bound 1024, so arithmetic and comparison round and
    order exactly as the hardware does.  Decimal conversion follows CPython:
    [float_of_decimal] is the correctly rounded [float(str)], [float_repr] the
    shortest decimal that reads back as the same float, [round_half_even] and
    [float_round] are [round(x, n)], [format_fixed] is [f"{x:.nf}"]. *)

From S2P Require Import Prelude PyStr.
From Corelib Require Export SpecFloat.

Abbreviation float := spec_float.

#[export] Instance float_eq_dec : EqDecision float.
Proof. solve_decision. Defined.

Definition fadd : float -> float -> float := SFadd 53 1024.
Definition fsub : float -> float -> float := SFsub 53 1024.
Definition fmul : float -> float -> float := SFmul 53 1024.
Definition fdiv : float -> float -> float := SFdiv 53 1024.
Definition fleb : float -> float -> bool := SFleb.
Definition fltb : float -> float -> bool := SFltb.
Definition feqb : float -> float -> bool := SFeqb.

(** [min(a, b)] and [max(a, b)]: the first argument unless the second is
    strictly smaller, greater. *)
Definition fmin (a b : float) : float := if fltb b a then b else a.
Definition fmax (a b : float) : float := if fltb a b then b else a.

(** The quotient of two integers, correctly rounded. *)
Definition float_of_ratio (n d : Z) : float :=
  match n, d with
  | Z0, _ => S754_zero false
  | Zpos p, Zpos q => fdiv (S754_finite false p 0) (S754_finite false q 0)
  | Zneg p, Zpos q => fdiv (S754_finite true p 0) (S754_finite false q 0)
  | _, _ => S754_nan
  end.

(** [float(z)] *)
Definition float_of_Z (z : Z) : float := float_of_ratio z 1.

(** m * 10 ^ e *)
Definition float_of_decimal (m e : Z) : float :=
  if 0 <=? e then float_of_Z (m * 10 ^ e) else float_of_ratio m (10 ^ (- e)).

(** The exact value as a fraction, numerator and positive denominator; [None]
    on infinities and NaN. *)
Definition float_exact (f : float) : option (Z * Z) :=
  match f with
  | S754_zero _ => Some (0, 1)
  | S754_finite s m e =>
      let n := if s then Z.neg m else Z.pos m in
      Some (if 0 <=? e then (n * 2 ^ e, 1) else (n, 2 ^ (- e)))
  | _ => None
  end.

(** The integer nearest to n / d, ties to even. *)
Definition round_half_even (n d : Z) : Z :=
  let q := n / d in
  let r := 2 * (n mod d) in
  if r <? d then q
  else if d <? r then q + 1
  else if Z.even q then q else q + 1.

Definition float_sign (f : float) : bool :=
  match f with
  | S754_zero s | S754_infinity s | S754_finite s _ _ => s
  | S754_nan => false
  end.

(** [round(x, n)] for [0 <= n] *)
Definition float_round (n : Z) (f : float) : float :=
  match float_exact f with
  | Some (a, b) =>
      let m := round_half_even (a * 10 ^ n) b in
      if m =? 0 then S754_zero (float_sign f) else float_of_decimal m (- n)
  | None => f
  end.

(** [f"{x:.nf}"]: [n] decimals, [0 < n]. *)
Fixpoint zeros (n : nat) : string := match n with O => "" | S n => String "0"%char (zeros n) end.
Definition pad_left (n : nat) (s : string) : string := zeros (n - String.length s) +:+ s.
Definition format_fixed (n : nat) (f : float) : string :=
  match float_exact f with
  | Some (a, b) =>
      let m := Z.abs (round_half_even (a * 10 ^ Z.of_nat n) b) in
      (if float_sign f then "-" else "")
        +:+ str_of_Z (m / 10 ^ Z.of_nat n) +:+ "."
        +:+ pad_left n (str_of_Z (m mod 10 ^ Z.of_nat n))
  | None => match f with S754_infinity false => "inf" | S754_infinity true => "-inf" | _ => "nan" end
  end.

(** ** [repr] *)

(** The decimal exponent k with 10^(k-1) <= a/b < 10^k, searched
    downwards from a bound a few places above. *)
Fixpoint decimal_point (fuel : nat) (a b k : Z) : Z :=
  match fuel with
  | O => k
  | S fuel =>
      let below := if 0 <=? k - 1 then a <? b * 10 ^ (k - 1) else a * 10 ^ (1 - k) <? b in
      if below then decimal_point fuel a b (k - 1) else k
  end.

(** The [n]-digit decimals below and above a/b, the nearer one first. *)
Definition digit_candidates (a b k n : Z) : list Z :=
  let e := k - n in
  let '(p, q) := if 0 <=? e then (a, b * 10 ^ e) else (a * 10 ^ (- e), b) in
  let lo := p / q in
  if 2 * (p mod q) <=? q then [lo; lo + 1] else [lo + 1; lo].

Fixpoint shortest (fuel : nat) (f : float) (a b k n : Z) : option (Z * Z) :=
  match fuel with
  | O => None
  | S fuel =>
      match List.find (fun d => bool_decide (float_of_decimal d (k - n) = f))
              (digit_candidates a b k n) with
      | Some d => Some (d, k - n)
      | None => shortest fuel f a b k (n + 1)
      end
  end.

Fixpoint strip_zeros (fuel : nat) (d e : Z) : Z * Z :=
  match fuel with
  | O => (d, e)
  | S fuel => if d mod 10 =? 0 then strip_zeros fuel (d / 10) (e + 1) else (d, e)
  end.

(** Digits and exponent in CPython's [repr] layout. *)
Definition layout (d e : Z) : string :=
  let ds := str_of_Z d in
  let n := Z.of_nat (String.length ds) in
  let k := n + e in
  if (-4 <? k) && (k <=? 16) then
    if k <=? 0 then "0." +:+ zeros (Z.to_nat (- k)) +:+ ds
    else if n <=? k then ds +:+ zeros (Z.to_nat (k - n)) +:+ ".0"
    else str_take (Z.to_nat k) ds +:+ "." +:+ str_drop (Z.to_nat k) ds
  else
    str_take 1 ds
      +:+ (if 1 <? n then "." +:+ str_drop 1 ds else "")
      +:+ "e" +:+ (if k - 1 <? 0 then "-" else "+") +:+ pad_left 2 (str_of_Z (Z.abs (k - 1))).

Definition float_repr (f : float) : string :=
  match f with
  | S754_nan => "nan"
  | S754_infinity s => if s then "-inf" else "inf"
  | S754_zero s => if s then "-0.0" else "0.0"
  | S754_finite s m e =>
      let '(a, b) := if 0 <=? e then (Z.pos m * 2 ^ e, 1) else (Z.pos m, 2 ^ (- e)) in
      let k := decimal_point 8 a b ((Z.log2 a - Z.log2 b + 1) * 30103 / 100000 + 3) in
      match shortest 17 (S754_finite false m e) a b k 1 with
      | Some (d, x) =>
          let '(d, x) := strip_zeros 20 d x in
          (if s then "-" else "") +:+ layout d x
      | None => ""
      end
  end.

Example repr_tenth : float_repr (float_of_decimal 1 (-1)) = "0.1".
Proof. vm_compute. reflexivity. Qed.
Example repr_sum : float_repr (fadd (float_of_decimal 1 (-1)) (float_of_decimal 2 (-1)))
  = "0.30000000000000004".
Proof. vm_compute. reflexivity. Qed.
Example repr_large : float_repr (float_of_decimal 1 22) = "1e+22".
Proof. vm_compute. reflexivity. Qed.
Example repr_hundred : float_repr (float_of_Z 100) = "100.0".
Proof. vm_compute. reflexivity. Qed.
Example repr_small : float_repr (float_of_decimal 15 (-6)) = "1.5e-05".
Proof. vm_compute. reflexivity. Qed.
Example repr_min : float_repr (S754_finite false 1 (-1074)) = "5e-324".
Proof. vm_compute. reflexivity. Qed.
Example round_progress : float_round 2 (fmul (fdiv (float_of_Z 1) (float_of_Z 23)) (float_of_Z 100))
  = float_of_decimal 435 (-2).
Proof. vm_compute. reflexivity. Qed.
Example format_one : format_fixed 1 (float_of_decimal 125 (-2)) = "1.2".
Proof. vm_compute. reflexivity. Qed.

(** ** Comparisons *)

(** A number between two finite ones is finite. *)
Definition is_finite (f : float) : bool :=
  match f with S754_zero _ | S754_finite _ _ _ => true | _ => false end.

Lemma between_finite a b : fleb (float_of_Z 0) a = true -> fleb a (float_of_Z b) = true ->
  is_finite (float_of_Z b) = true -> is_finite a = true.
Proof.
  intros H1 H2 Hb. destruct a as [| [] | |]; try done. by destruct (float_of_Z b).
Qed.

(** The difference of a finite number and itself is a positive zero. *)
Lemma fsub_diag a : is_finite a = true -> fsub a a = S754_zero false.
Proof.
  destruct a as [s| | |s m e]; intros H; try done; unfold fsub.
  - by destruct s.
  - unfold SFsub. cbv zeta. by rewrite Z.sub_diag.
Qed.

Lemma fltb_not_fleb a b : fltb a b = true -> fleb b a = false.
Proof.
  unfold fltb, fleb, SFltb, SFleb. destruct a as [[]|[]| |[] m e], b as [[]|[]| |[] m' e']; simpl; try done.
  - destruct (Z.compare_spec e e'), (Z.compare_spec e' e); try lia; try done. 
    rewrite !Pos.compare_cont_spec; simpl; destruct (Pos.compare_spec m m'), (Pos.compare_spec m' m); try lia; done.
  - destruct (Z.compare_spec e e'), (Z.compare_spec e' e); try lia; try done.
    rewrite !Pos.compare_cont_spec; simpl; destruct (Pos.compare_spec m m'), (Pos.compare_spec m' m); try lia; done.
Qed.

#[global] Opaque fadd fsub fmul fdiv float_of_ratio.
