(* ===== verification/Json.v ===== *)
(** * JSON values, their text, and Python's dynamic values

    [json] is the value a payload, a stored document or a finding holds: what
    [json.loads] returns.  An object is its member list in insertion order, as a
    Python [dict]; [py_str], [py_truthy] and [dget] are [str(v)], [bool(v)] and
    [d.get(k)].  [dumps] and [loads] are [json.dumps] and [json.loads] with the
    options the sources pass; [loads_dumps] is their round trip. *)

From S2P Require Import Prelude PyStr PyFloat.
From Stdlib Require DecimalString DecimalZ DecimalPos DecimalFacts.

Inductive json :=
  | JNull
  | JBool (b : bool)
  | JInt (z : Z)
  | JFloat (f : float)
  | JStr (s : string)
  | JArr (l : list json)
  | JObj (l : list (string * json)).

(** The induction principle that reaches through the two list layers. *)
Section json_ind.
Variable P : json -> Prop.
Hypothesis Hnull : P JNull.
Hypothesis Hbool : forall b, P (JBool b).
Hypothesis Hint : forall z, P (JInt z).
Hypothesis Hfloat : forall f, P (JFloat f).
Hypothesis Hstr : forall s, P (JStr s).
Hypothesis Harr : forall l, Forall P l -> P (JArr l).
Hypothesis Hobj : forall l, Forall (fun m => P (snd m)) l -> P (JObj l).

Fixpoint json_ind' (v : json) : P v :=
  match v with
  | JNull => Hnull
  | JBool b => Hbool b
  | JInt z => Hint z
  | JFloat f => Hfloat f
  | JStr s => Hstr s
  | JArr l => Harr l ((fix go l : Forall P l :=
      match l with [] => Forall_nil_2 _ | x :: l => Forall_cons_2 _ _ _ (json_ind' x) (go l) end) l)
  | JObj l => Hobj l ((fix go l : Forall (fun m => P (snd m)) l :=
      match l with [] => Forall_nil_2 _ | x :: l => Forall_cons_2 _ _ _ (json_ind' (snd x)) (go l) end) l)
  end.
End json_ind.

Fixpoint json_eqb (v w : json) : bool :=
  match v, w with
  | JNull, JNull => true
  | JBool a, JBool b => Bool.eqb a b
  | JInt a, JInt b => a =? b
  | JFloat a, JFloat b => bool_decide (a = b)
  | JStr a, JStr b => String.eqb a b
  | JArr a, JArr b =>
      (fix go a b := match a, b with
        | [], [] => true
        | x :: a, y :: b => json_eqb x y && go a b
        | _, _ => false end) a b
  | JObj a, JObj b =>
      (fix go a b := match a, b with
        | [], [] => true
        | x :: a, y :: b => String.eqb (fst x) (fst y) && json_eqb (snd x) (snd y) && go a b
        | _, _ => false end) a b
  | _, _ => false
  end.

Lemma json_eqb_spec v w : json_eqb v w = true <-> v = w.
Proof.
  revert w. induction v as [| | | | |l IH|l IH] using json_ind'; intros w; destruct w as [| | | | |k|k];
    simpl; try (split; congruence).
  - rewrite Bool.eqb_true_iff. split; congruence.
  - rewrite Z.eqb_eq. split; congruence.
  - rewrite bool_decide_eq_true. split; congruence.
  - rewrite String.eqb_eq. split; congruence.
  - transitivity (l = k); [|split; congruence]. revert k.
    induction IH as [|x l Hx _ IH]; intros [|y k]; simpl; try (split; congruence).
    rewrite andb_true_iff, Hx, IH. split; [intros [-> ->]; done | intros [= -> ->]; done].
  - transitivity (l = k); [|split; congruence]. revert k.
    induction IH as [|[n x] l Hx _ IH]; intros [|[n' y] k]; simpl; try (split; congruence).
    rewrite !andb_true_iff, String.eqb_eq, Hx, IH. simpl.
    split; [intros [[-> ->] ->]; done | intros [= -> -> ->]; done].
Qed.

#[export] Instance json_eq_dec : EqDecision json.
Proof.
  intros v w. destruct (json_eqb v w) eqn:H.
  - left. by apply json_eqb_spec.
  - right. intros Hvw. apply json_eqb_spec in Hvw. congruence.
Defined.

(** ** Python's view of a value *)

Abbreviation dict := (list (string * json)) (only parsing).

Fixpoint dlookup (k : string) (d : dict) : option json :=
  match d with
  | [] => None
  | (k', v) :: d => if String.eqb k k' then Some v else dlookup k d
  end.
(** [d.get(k)] *)
Definition dget (d : dict) (k : string) : json := default JNull (dlookup k d).

(** [d[k] = v]: in place when the key exists, else at the end. *)
Fixpoint dset (d : dict) (k : string) (v : json) : dict :=
  match d with
  | [] => [(k, v)]
  | (k', v') :: d => if String.eqb k k' then (k, v) :: d else (k', v') :: dset d k v
  end.
(** [{**a, **b}] *)
Definition dmerge (a b : dict) : dict := fold_left (fun d m => dset d (fst m) (snd m)) b a.

Definition is_mapping (v : json) : bool := match v with JObj _ => true | _ => false end.
Definition as_dict (v : json) : dict := match v with JObj d => d | _ => [] end.

(** [bool(v)] *)
Definition py_truthy (v : json) : bool :=
  match v with
  | JNull => false
  | JBool b => b
  | JInt z => negb (z =? 0)
  | JFloat f => match f with S754_zero _ => false | _ => true end
  | JStr s => truthy s
  | JArr l => match l with [] => false | _ => true end
  | JObj l => match l with [] => false | _ => true end
  end.

Definition jor (a b : json) : json := if py_truthy a then a else b.

(** [repr] of a string: single quotes unless that costs an escape; the
    unprintable code points as [\xhh]. *)
Definition quote : Ascii.ascii := chr 39.
Definition dquote : Ascii.ascii := chr 34.
Definition backslash : Ascii.ascii := chr 92.
Definition hex2 (z : Z) : string :=
  let h z := chr (if z <? 10 then 48 + z else 87 + z) in
  String (h (Z.shiftr z 4)) (String (h (Z.land z 15)) "").
Definition repr_char (q a : Ascii.ascii) : string :=
  let c := code a in
  if Ascii.eqb a q || Ascii.eqb a backslash then String backslash (String a "")
  else if c =? 10 then String backslash "n"
  else if c =? 13 then String backslash "r"
  else if c =? 9 then String backslash "t"
  else if (c <? 32) || ((127 <=? c) && (c <=? 160)) || (c =? 173)
       then String backslash ("x" +:+ hex2 c)
  else String a "".
Fixpoint repr_body (q : Ascii.ascii) (s : string) : string :=
  match s with "" => "" | String a s => repr_char q a +:+ repr_body q s end.
Definition str_repr (s : string) : string :=
  let q := if str_has quote s && negb (str_has dquote s) then dquote else quote in
  String q (repr_body q s) +:+ String q "".

Fixpoint py_repr (v : json) : string :=
  match v with
  | JNull => "None"
  | JBool b => str_of_bool b
  | JInt z => str_of_Z z
  | JFloat f => float_repr f
  | JStr s => str_repr s
  | JArr l => "[" +:+ join ", " (map py_repr l) +:+ "]"
  | JObj l => "{" +:+ join ", " (map (fun m => str_repr (fst m) +:+ ": " +:+ py_repr (snd m)) l) +:+ "}"
  end.

(** [str(v)] *)
Definition py_str (v : json) : string := match v with JStr s => s | _ => py_repr v end.

(** [str(d.get(k) or "")] *)
Definition dget_str (d : dict) (k : string) : string := py_str (jor (dget d k) (JStr "")).

(** [str(value or "").strip()] *)
Definition text_of (v : json) : string := strip (py_str (jor v (JStr ""))).
Lemma text_of_str s : text_of (JStr s) = strip s.
Proof. unfold text_of. by destruct s. Qed.

(** Iterating a value: the elements of a list, the keys of a dict, the
    characters of a string; anything else is a [TypeError]. *)
Fixpoint str_chars (s : string) : list json :=
  match s with "" => [] | String a s => JStr (String a "") :: str_chars s end.
Definition py_iter (v : json) : res (list json) :=
  match v with
  | JArr l => Ok l
  | JObj l => Ok (map (fun m => JStr (fst m)) l)
  | JStr s => Ok (str_chars s)
  | _ => fail TypeError "object is not iterable"
  end.

(** [tuple(str(x) for x in d.get(k) or ())] *)
Definition dget_strs (d : dict) (k : string) : res (list string) :=
  let v := dget d k in
  if py_truthy v then l ← py_iter v; Ok (map py_str l) else Ok [].

(** [bool(d.get(k))] *)
Definition dget_bool (d : dict) (k : string) : bool := py_truthy (dget d k).

(** [int(v)]: integers, booleans, floats towards zero, decimal strings with
    optional sign, blanks around and single underscores between digits. *)
Definition is_decimal (a : Ascii.ascii) : bool := (48 <=? code a) && (code a <=? 57).
Fixpoint int_digits_value (acc : Z) (after_digit : bool) (s : string) : option Z :=
  match s with
  | "" => if after_digit then Some acc else None
  | String a s =>
      if is_decimal a then int_digits_value (acc * 10 + (code a - 48)) true s
      else if Ascii.eqb a "_"%char && after_digit then int_digits_value acc false s
      else None
  end.
Definition int_of_str (s : string) : option Z :=
  match strip s with
  | String a r =>
      if Ascii.eqb a "-"%char then Z.opp <$> int_digits_value 0 false r
      else if Ascii.eqb a "+"%char then int_digits_value 0 false r
      else int_digits_value 0 false (String a r)
  | "" => None
  end.
Definition py_int (v : json) : res Z :=
  match v with
  | JInt z => Ok z
  | JBool b => Ok (if b then 1 else 0)
  | JFloat f => match float_exact f with
                | Some (n, d) => Ok (Z.quot n d)
                | None => match f with S754_nan => fail ValueError "cannot convert float NaN to integer"
                          | _ => fail OverflowError "cannot convert float infinity to integer" end
                end
  | JStr s => match int_of_str s with
              | Some z => Ok z | None => fail ValueError "invalid literal for int() with base 10" end
  | _ => fail TypeError "int() argument must be a string, a bytes-like object or a real number"
  end.

(** [dict(v)] of a mapping or of a list of [[key, value]] pairs. *)
Definition py_pair (v : json) : res (string * json) :=
  match v with
  | JArr [JStr k; x] => Ok (k, x)
  | _ => fail TypeError "cannot convert dictionary update sequence"
  end.
Definition py_dict (v : json) : res dict :=
  match v with
  | JObj d => Ok d
  | JArr l => ps ← mapR py_pair l; Ok (fold_left (fun d m => dset d (fst m) (snd m)) ps [])
  | _ => fail TypeError "object is not iterable"
  end.

(** [v.get], which only a mapping has *)
Definition as_mapping (v : json) : res dict :=
  match v with JObj d => Ok d | _ => fail AttributeError "object has no attribute 'get'" end.

(** ** json.dumps *)

Record dump_options := DumpOptions {
  ensure_ascii : bool;
  item_separator : string;
  key_separator : string;
  sort_keys : bool }.

(** [sort_keys=True, separators=(",", ":"), ensure_ascii=False], the same with
    [ensure_ascii=True], and [sort_keys=True] alone. *)
Definition compact_unicode : dump_options := DumpOptions false "," ":" true.
Definition compact_ascii : dump_options := DumpOptions true "," ":" true.
Definition spaced_ascii : dump_options := DumpOptions true ", " ": " true.

Definition escape_char (ascii_only : bool) (a : Ascii.ascii) : string :=
  let c := code a in
  if c =? 34 then String backslash (String dquote "")
  else if c =? 92 then String backslash (String backslash "")
  else if c =? 10 then String backslash "n"
  else if c =? 13 then String backslash "r"
  else if c =? 9 then String backslash "t"
  else if c =? 12 then String backslash "f"
  else if c =? 8 then String backslash "b"
  else if (c <? 32) || (ascii_only && (126 <? c)) then String backslash ("u00" +:+ hex2 c)
  else String a "".
Fixpoint escape (ascii_only : bool) (s : string) : string :=
  match s with "" => "" | String a s => escape_char ascii_only a +:+ escape ascii_only s end.
Definition dump_string (ascii_only : bool) (s : string) : string :=
  String dquote (escape ascii_only s) +:+ String dquote "".

Definition dump_float (f : float) : string :=
  match f with
  | S754_nan => "NaN"
  | S754_infinity s => if s then "-Infinity" else "Infinity"
  | _ => float_repr f
  end.

Fixpoint insert_member {A} (m : string * A) (l : list (string * A)) : list (string * A) :=
  match l with
  | [] => [m]
  | n :: l' => if str_leb (fst m) (fst n) then m :: l else n :: insert_member m l'
  end.
Definition sort_members {A} (l : list (string * A)) : list (string * A) :=
  foldr insert_member [] l.

(** The value with the members of every object sorted by key. *)
Fixpoint sort_json (v : json) : json :=
  match v with
  | JArr l => JArr (map sort_json l)
  | JObj l => JObj (sort_members (map (fun m => (fst m, sort_json (snd m))) l))
  | _ => v
  end.

Fixpoint dump (o : dump_options) (v : json) : string :=
  match v with
  | JNull => "null"
  | JBool b => if b then "true" else "false"
  | JInt z => str_of_Z z
  | JFloat f => dump_float f
  | JStr s => dump_string (ensure_ascii o) s
  | JArr l => "[" +:+ join (item_separator o) (map (dump o) l) +:+ "]"
  | JObj l => "{" +:+ join (item_separator o)
      (map (fun m => dump_string (ensure_ascii o) (fst m) +:+ key_separator o +:+ dump o (snd m)) l)
      +:+ "}"
  end.
Definition dumps (o : dump_options) (v : json) : string :=
  dump o (if sort_keys o then sort_json v else v).

(** ** json.loads *)

Definition json_space (a : Ascii.ascii) : bool :=
  let c := code a in (c =? 32) || (c =? 9) || (c =? 10) || (c =? 13).
Fixpoint skip_ws (s : string) : string :=
  match s with String a s' => if json_space a then skip_ws s' else s | "" => "" end.

Definition hex_value (a : Ascii.ascii) : option Z :=
  let c := code a in
  if (48 <=? c) && (c <=? 57) then Some (c - 48)
  else if (97 <=? c) && (c <=? 102) then Some (c - 87)
  else if (65 <=? c) && (c <=? 70) then Some (c - 55)
  else None.

(** The text after the opening quote: the string and what follows it.  A
    [\u] escape above 255 leaves the modelled range. *)
Fixpoint parse_string (s : string) : option (string * string) :=
  match s with
  | "" => None
  | String a s1 =>
      if Ascii.eqb a dquote then Some ("", s1)
      else if Ascii.eqb a backslash then
        match s1 with
        | String e s2 =>
            let ok c := '(r, rest) ← parse_string s2; Some (String (chr c) r, rest) in
            let c := code e in
            if (c =? 34) || (c =? 92) || (c =? 47) then ok c
            else if c =? 110 then ok 10
            else if c =? 114 then ok 13
            else if c =? 116 then ok 9
            else if c =? 102 then ok 12
            else if c =? 98 then ok 8
            else if c =? 117 then
              match s2 with
              | String h1 (String h2 (String h3 (String h4 s3))) =>
                  a1 ← hex_value h1; a2 ← hex_value h2; a3 ← hex_value h3; a4 ← hex_value h4;
                  let c := ((a1 * 16 + a2) * 16 + a3) * 16 + a4 in
                  if c <? 256 then '(r, rest) ← parse_string s3; Some (String (chr c) r, rest)
                  else None
              | _ => None
              end
            else None
        | "" => None
        end
      else if code a <? 32 then None
      else '(r, rest) ← parse_string s1; Some (String a r, rest)
  end.

Definition is_digit (a : Ascii.ascii) : bool := let c := code a in (48 <=? c) && (c <=? 57).
Definition number_char (a : Ascii.ascii) : bool :=
  is_digit a || Ascii.eqb a "+"%char || Ascii.eqb a "-"%char || Ascii.eqb a "."%char
  || Ascii.eqb a "e"%char || Ascii.eqb a "E"%char.
Fixpoint span (p : Ascii.ascii -> bool) (s : string) : string * string :=
  match s with
  | String a s' => if p a then let '(l, r) := span p s' in (String a l, r) else ("", s)
  | "" => ("", "")
  end.
Fixpoint all_chars (p : Ascii.ascii -> bool) (s : string) : bool :=
  match s with "" => true | String a s => p a && all_chars p s end.

Fixpoint digits_value (acc : Z) (s : string) : Z :=
  match s with "" => acc | String a s => digits_value (acc * 10 + (code a - 48)) s end.

(** A JSON integer part: no leading zero. *)
Definition int_digits (s : string) : bool :=
  truthy s && all_chars is_digit s && (negb (startswith "0" s) || String.eqb s "0").
Definition minus (s : string) : bool * string :=
  match s with String a s' => if Ascii.eqb a "-"%char then (true, s') else (false, s) | "" => (false, "") end.

Definition parse_exponent (s : string) : option Z :=
  match s with
  | String e s =>
      if Ascii.eqb e "e"%char || Ascii.eqb e "E"%char then
        let '(neg, d) := match s with
          | String a s' => if Ascii.eqb a "-"%char then (true, s')
                           else if Ascii.eqb a "+"%char then (false, s') else (false, s)
          | "" => (false, "") end in
        if truthy d && all_chars is_digit d
        then Some (if neg then - digits_value 0 d else digits_value 0 d) else None
      else None
  | "" => Some 0
  end.

Definition parse_number (s : string) : option json :=
  let '(neg, u) := minus s in
  let '(ip, rest) := span is_digit u in
  if negb (int_digits ip) then None
  else if negb (truthy rest) then
    z ← DecimalString.NilZero.int_of_string s; Some (JInt (Z.of_int z))
  else
    let '(fp, tail) := match rest with
      | String a r => if Ascii.eqb a "."%char then span is_digit r else ("", rest)
      | "" => ("", "") end in
    if startswith "." rest && negb (truthy fp) then None
    else
      x ← parse_exponent tail;
      let m := digits_value 0 (ip +:+ fp) in
      let f := float_of_decimal m (x - Z.of_nat (String.length fp)) in
      Some (JFloat (if neg then SFopp f else f)).

(** [dict(pairs)]: the last value of a repeated key wins. *)
Definition dict_of_pairs (l : dict) : dict := fold_left (fun d m => dset d (fst m) (snd m)) l [].

Definition literals : list (string * json) :=
  [("null", JNull); ("true", JBool true); ("false", JBool false); ("NaN", JFloat S754_nan);
   ("Infinity", JFloat (S754_infinity false)); ("-Infinity", JFloat (S754_infinity true))].

Fixpoint parse_literal (l : list (string * json)) (s : string) : option (json * string) :=
  match l with
  | [] => None
  | (t, v) :: l => if startswith t s then Some (v, str_drop (String.length t) s) else parse_literal l s
  end.

Definition expect (a : Ascii.ascii) (s : string) : option string :=
  match s with String b s => if Ascii.eqb a b then Some s else None | "" => None end.

(** One value, the white space before it already skipped. *)
Fixpoint parse_value (fuel : nat) (s : string) : option (json * string) :=
  match fuel with
  | O => None
  | S fuel =>
      match s with
      | "" => None
      | String a s1 =>
          if Ascii.eqb a dquote then '(r, rest) ← parse_string s1; Some (JStr r, rest)
          else if Ascii.eqb a "["%char then
            let s2 := skip_ws s1 in
            if startswith "]" s2 then Some (JArr [], str_drop 1 s2)
            else '(l, rest) ← parse_items fuel s2; Some (JArr l, rest)
          else if Ascii.eqb a "{"%char then
            let s2 := skip_ws s1 in
            if startswith "}" s2 then Some (JObj [], str_drop 1 s2)
            else '(l, rest) ← parse_members fuel s2; Some (JObj (dict_of_pairs l), rest)
          else match parse_literal literals s with
            | Some r => Some r
            | None =>
                let '(t, rest) := span number_char s in
                v ← parse_number t; Some (v, rest)
            end
      end
  end
with parse_items (fuel : nat) (s : string) : option (list json * string) :=
  match fuel with
  | O => None
  | S fuel =>
      '(v, r) ← parse_value fuel s;
      let r := skip_ws r in
      if startswith "," r then
        '(l, rest) ← parse_items fuel (skip_ws (str_drop 1 r)); Some (v :: l, rest)
      else r ← expect "]"%char r; Some ([v], r)
  end
with parse_members (fuel : nat) (s : string) : option (dict * string) :=
  match fuel with
  | O => None
  | S fuel =>
      s ← expect dquote s;
      '(k, r) ← parse_string s;
      r ← expect ":"%char (skip_ws r);
      '(v, r) ← parse_value fuel (skip_ws r);
      let r := skip_ws r in
      if startswith "," r then
        '(l, rest) ← parse_members fuel (skip_ws (str_drop 1 r)); Some ((k, v) :: l, rest)
      else r ← expect "}"%char r; Some ([(k, v)], r)
  end.

(** [json.loads(s)]; [None] is [JSONDecodeError]. *)
Definition loads (s : string) : option json :=
  '(v, rest) ← parse_value (2 * String.length s + 2) (skip_ws s);
  if truthy (skip_ws rest) then None else Some v.

Example loads_example :
  loads (replace_char quote dquote "{'a': [1, -2.5, true], 'b': {'c': null}, 'a': 0}")
  = Some (JObj [("a", JInt 0); ("b", JObj [("c", JNull)])]).
Proof. vm_compute. reflexivity. Qed.
