(* ===== verification/JsonFacts.v ===== *)
(** * Facts about JSON text

    [loads_dumps]: the text [json.dumps] writes is read back by [json.loads] as
    the same value, its object members sorted when [sort_keys] is set.  A value
    is [json_wf] when object keys are distinct, as in every Python [dict], and
    its floats are written by [repr] as numbers that read back unchanged. *)

From S2P Require Import Prelude PyStr PyFloat Json.
From Stdlib Require DecimalString DecimalZ DecimalPos DecimalFacts.

(** ** Dictionaries *)

Definition keys {A} (l : list (string * A)) : list string := map fst l.

Lemma dlookup_None k (d : dict) : dlookup k d = None <-> k ∉ keys d.
Proof.
  induction d as [|[k' v] d IH]; simpl; [set_solver|].
  destruct (String.eqb_spec k k') as [<-|Hne]; set_solver.
Qed.

Lemma dlookup_elem k v (d : dict) : NoDup (keys d) -> dlookup k d = Some v <-> (k, v) ∈ d.
Proof.
  induction d as [|[k' v'] d IH]; simpl; [set_solver|].
  intros [Hk Hd]%NoDup_cons. destruct (String.eqb_spec k k') as [<-|Hne].
  - rewrite elem_of_cons. split; [intros [= <-]; by left|].
    intros [[= <-]|Hin]; [done|]. destruct Hk.
    apply list_elem_of_fmap. by exists (k, v).
  - rewrite elem_of_cons, IH by done. split; [by right|]. intros [[= -> ->]|?]; done.
Qed.

Lemma dlookup_perm k (d e : dict) : NoDup (keys d) -> d ≡ₚ e -> dlookup k d = dlookup k e.
Proof.
  intros Hd Hp. assert (NoDup (keys e)) as He by (unfold keys in *; by rewrite <- Hp).
  destruct (dlookup k d) as [v|] eqn:H.
  - symmetry. apply dlookup_elem; [done|]. rewrite <- Hp. by apply dlookup_elem.
  - symmetry. apply dlookup_None. apply dlookup_None in H. unfold keys in *. by rewrite <- Hp.
Qed.

Lemma dlookup_dset k k' v d :
  dlookup k (dset d k' v) = if String.eqb k k' then Some v else dlookup k d.
Proof.
  induction d as [|[k0 v0] d IH]; simpl; [done|].
  destruct (String.eqb_spec k' k0) as [<-|Hne]; simpl.
  - by destruct (String.eqb k k').
  - rewrite IH. destruct (String.eqb_spec k k0), (String.eqb_spec k k'); congruence.
Qed.

Lemma dget_dset_eq d k v : dget (dset d k v) k = v.
Proof. unfold dget. by rewrite dlookup_dset, String.eqb_refl. Qed.

Lemma dget_dset_ne d k k' v : k <> k' -> dget (dset d k' v) k = dget d k.
Proof. unfold dget. intros H%String.eqb_neq. by rewrite dlookup_dset, H. Qed.

Lemma dset_app d k v : k ∉ keys d -> dset d k v = d ++ [(k, v)].
Proof.
  induction d as [|[k0 v0] d IH]; simpl; [done|]. intros H.
  destruct (String.eqb_spec k k0) as [<-|]; [set_solver|]. rewrite IH; [done | set_solver].
Qed.

Lemma dict_of_pairs_app d l :
  NoDup (keys (d ++ l)) -> fold_left (fun d m => dset d (fst m) (snd m)) l d = d ++ l.
Proof.
  revert d. induction l as [|[k v] l IH]; intros d H; simpl; [by rewrite app_nil_r|].
  assert (NoDup (keys ((d ++ [(k, v)]) ++ l))) as H' by (by rewrite <- app_assoc).
  rewrite dset_app, IH, <- app_assoc by
    (try done; unfold keys in *; rewrite map_app in H; apply NoDup_app in H; set_solver).
  done.
Qed.

Lemma dict_of_pairs_id l : NoDup (keys l) -> dict_of_pairs l = l.
Proof. intros. by apply (dict_of_pairs_app []). Qed.

(** ** Sorting members *)

Lemma insert_member_perm {A} (m : string * A) l : insert_member m l ≡ₚ m :: l.
Proof.
  induction l as [|n l IH]; simpl; [done|]. destruct (str_leb _ _); [done|].
  rewrite IH. constructor.
Qed.
Lemma sort_members_perm {A} (l : list (string * A)) : sort_members l ≡ₚ l.
Proof. induction l as [|m l IH]; simpl; [done|]. by rewrite insert_member_perm, IH. Qed.

Lemma keys_map {A B} (f : string * A -> B) l : keys (map (fun m => (fst m, f m)) l) = keys l.
Proof. unfold keys. by rewrite map_map. Qed.

(** ** Well-formed values *)

Definition starts_number (s : string) : bool :=
  match s with
  | String a s' => is_digit a || (Ascii.eqb a "-"%char && match s' with String b _ => is_digit b | "" => false end)
  | "" => false
  end.
Definition float_ok (f : float) : bool :=
  match f with
  | S754_nan | S754_infinity _ => true
  | _ => let t := float_repr f in
         starts_number t && all_chars number_char t && bool_decide (parse_number t = Some (JFloat f))
  end.

Fixpoint json_wf (v : json) : bool :=
  match v with
  | JFloat f => float_ok f
  | JArr l => forallb json_wf l
  | JObj l => bool_decide (NoDup (map fst l)) && forallb (fun m => json_wf (snd m)) l
  | _ => true
  end.

Lemma forallb_Forall {A} (p : A -> bool) l : forallb p l = true <-> Forall (fun x => p x = true) l.
Proof. induction l as [|x l IH]; simpl; [by split|]. by rewrite andb_true_iff, Forall_cons, IH. Qed.

Lemma sort_json_wf v : json_wf v = true -> json_wf (sort_json v) = true.
Proof.
  induction v as [| | | | |l IH|l IH] using json_ind'; simpl; try done.
  - rewrite !forallb_Forall. intros H. rewrite List.Forall_map.
    revert IH H. rewrite !Forall_forall. naive_solver.
  - rewrite !andb_true_iff, !forallb_Forall, !bool_decide_eq_true. intros [Hn H]. split.
    + rewrite sort_members_perm. change (NoDup (keys (map (fun m => (fst m, sort_json (snd m))) l))).
      by rewrite keys_map.
    + rewrite sort_members_perm, List.Forall_map. revert IH H. rewrite !Forall_forall. naive_solver.
Qed.

(** ** Strings *)

Lemma parse_string_quote t : parse_string (String dquote t) = Some ("", t).
Proof. reflexivity. Qed.

Lemma parse_string_char b a t :
  parse_string (escape_char b a +:+ t) = ('(r, rest) ← parse_string t; Some (String a r, rest)).
Proof. destruct b, a as [[] [] [] [] [] [] [] []]; reflexivity. Qed.

Lemma parse_string_escape b s t :
  parse_string (escape b s +:+ String dquote t) = Some (s, t).
Proof.
  induction s as [|a s IH]; [apply parse_string_quote|].
  simpl escape. by rewrite app_str_assoc, parse_string_char, IH.
Qed.

Lemma parse_dump_string b s t :
  match dump_string b s +:+ t with String a r => a = dquote /\ parse_string r = Some (s, t) | "" => False end.
Proof.
  unfold dump_string. simpl. split; [done|]. rewrite app_str_assoc. simpl. apply parse_string_escape.
Qed.

(** ** Numbers *)

Lemma span_app p t r :
  all_chars p t = true -> match r with String a _ => p a = false | "" => True end ->
  span p (t +:+ r) = (t, r).
Proof.
  intros Ht Hr. induction t as [|a t IH]; simpl in *.
  - destruct r as [|a r]; simpl; [done|]. by rewrite Hr.
  - apply andb_true_iff in Ht as [-> Ht]. by rewrite (IH Ht).
Qed.

Lemma span_all p t : all_chars p t = true -> span p t = (t, "").
Proof. intros H. rewrite <- (app_str_nil_r t) at 1. by apply span_app. Qed.

Lemma all_chars_impl (p q : Ascii.ascii -> bool) t :
  (forall a, p a = true -> q a = true) -> all_chars p t = true -> all_chars q t = true.
Proof.
  intros Hpq. induction t as [|a t IH]; simpl; [done|]. rewrite !andb_true_iff. intros [? ?]; auto.
Qed.

Lemma digit_number_char a : is_digit a = true -> number_char a = true.
Proof. unfold number_char. by intros ->. Qed.

Lemma uint_digits d : all_chars is_digit (DecimalString.NilEmpty.string_of_uint d) = true.
Proof. induction d; simpl; try rewrite IHd; reflexivity. Qed.

Lemma to_int_norm z : Decimal.norm (Z.to_int z) = Z.to_int z.
Proof. rewrite <- DecimalZ.to_of, DecimalZ.of_to. done. Qed.

(** The digits of a normalised number: not empty, no leading zero. *)
Lemma unorm_int_digits d :
  Decimal.unorm d = d -> int_digits (DecimalString.NilZero.string_of_uint d) = true.
Proof.
  destruct d; simpl; intros H; try (unfold int_digits; simpl; by rewrite uint_digits); [done|].
  unfold Decimal.unorm in H. simpl in H.
  destruct (Decimal.nzhead d) eqn:E; try discriminate H; [by injection H as <-|].
  by apply DecimalFacts.nzhead_nonzero in E.
Qed.

Lemma int_digits_first s :
  int_digits s = true -> all_chars is_digit s = true /\ truthy s = true.
Proof. unfold int_digits. rewrite !andb_true_iff. tauto. Qed.

Lemma parse_number_int z : parse_number (str_of_Z z) = Some (JInt z).
Proof.
  unfold str_of_Z. pose proof (to_int_norm z) as Hn.
  assert (DecimalString.NilZero.int_of_string (DecimalString.NilZero.string_of_int (Z.to_int z))
    = Some (Z.to_int z)) as Hs.
  { rewrite DecimalString.NilZero.isi.
    - done.
    - intros E. rewrite E in Hn. discriminate.
    - intros E. rewrite E in Hn. discriminate. }
  unfold parse_number. destruct (Z.to_int z) as [d|d] eqn:E; simpl in Hn, Hs |- *.
  - assert (int_digits (DecimalString.NilZero.string_of_uint d) = true) as Hd
      by (apply unorm_int_digits; congruence).
    assert (minus (DecimalString.NilZero.string_of_uint d)
      = (false, DecimalString.NilZero.string_of_uint d)) as ->.
    { apply int_digits_first in Hd as [Hd _].
      destruct (DecimalString.NilZero.string_of_uint d) as [|a r]; [done|]. simpl in *.
      destruct (Ascii.eqb_spec a "-"%char) as [->|]; done. }
    rewrite span_all by (by apply int_digits_first). rewrite Hd. simpl. rewrite Hs. simpl.
    rewrite <- (DecimalZ.of_to z), E. reflexivity.
  - assert (Decimal.unorm d = d) as Hu.
    { simpl in Hn. destruct (Decimal.nzhead d) eqn:E'; [discriminate|..]; injection Hn as Hn;
        unfold Decimal.unorm; rewrite E'; done. }
    pose proof (unorm_int_digits d Hu) as Hd.
    rewrite span_all by (by apply int_digits_first). rewrite Hd. simpl.
    rewrite Hs. simpl. rewrite <- (DecimalZ.of_to z), E. reflexivity.
Qed.

Lemma starts_number_int z :
  starts_number (str_of_Z z) = true /\ all_chars number_char (str_of_Z z) = true.
Proof.
  unfold str_of_Z. pose proof (to_int_norm z) as Hn.
  destruct (Z.to_int z) as [d|d]; simpl in Hn |- *.
  - assert (int_digits (DecimalString.NilZero.string_of_uint d) = true) as Hd
      by (apply unorm_int_digits; congruence).
    apply int_digits_first in Hd as [Hd Ht].
    split; [|by eapply all_chars_impl; [apply digit_number_char|]].
    destruct (DecimalString.NilZero.string_of_uint d) as [|a r]; [done|]. simpl in *.
    by apply andb_true_iff in Hd as [-> _].
  - assert (Decimal.unorm d = d) as Hu.
    { destruct (Decimal.nzhead d) eqn:E'; [discriminate|..]; injection Hn as Hn;
        unfold Decimal.unorm; rewrite E'; done. }
    apply unorm_int_digits, int_digits_first in Hu as [Hd Ht].
    split; [|by eapply all_chars_impl; [apply digit_number_char|]].
    destruct (DecimalString.NilZero.string_of_uint d) as [|a r]; [done|]. simpl in *.
    by apply andb_true_iff in Hd as [-> _].
Qed.

(** ** The round trip *)

Definition follow (rest : string) : Prop :=
  match rest with String a _ => number_char a = false | "" => True end.
Definition value_start (a : Ascii.ascii) : Prop := json_space a = false /\ Ascii.eqb "]"%char a = false.
Definition head_not_space (s : string) : Prop :=
  match s with String a _ => value_start a | "" => False end.

Lemma skip_ws_head s : head_not_space s -> skip_ws s = s.
Proof. destruct s as [|a s]; simpl; [done|]. by intros [-> _]. Qed.

Lemma digit_head a s :
  is_digit a = true ->
  Ascii.eqb a dquote = false /\ Ascii.eqb a "["%char = false /\ Ascii.eqb a "{"%char = false /\
  parse_literal literals (String a s) = None /\ value_start a.
Proof. destruct a as [[] [] [] [] [] [] [] []]; vm_compute; try discriminate; repeat split. Qed.

Lemma minus_digit_head a s :
  is_digit a = true -> parse_literal literals (String "-"%char (String a s)) = None.
Proof. destruct a as [[] [] [] [] [] [] [] []]; vm_compute; try discriminate; auto. Qed.

Lemma starts_number_head t rest :
  starts_number t = true ->
  exists a s, t +:+ rest = String a s /\ Ascii.eqb a dquote = false /\ Ascii.eqb a "["%char = false /\
  Ascii.eqb a "{"%char = false /\ parse_literal literals (t +:+ rest) = None /\ value_start a.
Proof.
  destruct t as [|a t]; simpl; [done|]. intros [Ha|Ha]%orb_true_iff.
  - exists a, (t +:+ rest). pose proof (digit_head a (t +:+ rest) Ha). tauto.
  - apply andb_true_iff in Ha as [->%Ascii.eqb_eq Hb].
    destruct t as [|b t]; [done|]. simpl.
    exists "-"%char, (String b (t +:+ rest)). repeat split. by apply minus_digit_head.
Qed.

Lemma parse_value_number n t v rest :
  starts_number t = true -> all_chars number_char t = true -> follow rest ->
  parse_number t = Some v -> parse_value (S n) (t +:+ rest) = Some (v, rest).
Proof.
  intros Hs Hc Hf Hp. destruct (starts_number_head t rest Hs) as (a & s & E & H1 & H2 & H3 & Hl & _).
  cbn [parse_value]. rewrite E, H1, H2, H3, <- E, Hl, span_app by done. simpl. by rewrite Hp.
Qed.

(** Separators [", "], [": "] and their versions without the blank. *)
Definition sep_ok (o : dump_options) : Prop :=
  (item_separator o = "," \/ item_separator o = ", ") /\
  (key_separator o = ":" \/ key_separator o = ": ").

(** A measure of a value that bounds the fuel of the parser. *)
Fixpoint jsize (v : json) : nat :=
  match v with
  | JArr l => S (list_sum (map (fun x => S (jsize x)) l))
  | JObj l => S (list_sum (map (fun m => S (jsize (snd m))) l))
  | _ => 1
  end.

Section roundtrip.
Context (o : dump_options) (Ho : sep_ok o).

Lemma float_cases f :
  float_ok f = true ->
  (exists t, dump_float f = t /\ (forall r, parse_literal literals (t +:+ r) = Some (JFloat f, r)) /\
     exists a s, t = String a s /\ value_start a /\ Ascii.eqb a dquote = false /\
       Ascii.eqb a "["%char = false /\ Ascii.eqb a "{"%char = false) \/
  (starts_number (dump_float f) = true /\ all_chars number_char (dump_float f) = true /\
   parse_number (dump_float f) = Some (JFloat f)).
Proof.
  destruct f as [s|[]| |s m e]; intros H.
  - right. unfold float_ok in H. rewrite !andb_true_iff, bool_decide_eq_true in H. tauto.
  - left. exists "-Infinity". split; [done|]. split; [intros r; reflexivity|]. do 2 eexists. repeat split.
  - left. exists "Infinity". split; [done|]. split; [intros r; reflexivity|]. do 2 eexists. repeat split.
  - left. exists "NaN". split; [done|]. split; [intros r; reflexivity|]. do 2 eexists. repeat split.
  - right. unfold float_ok in H. rewrite !andb_true_iff, bool_decide_eq_true in H. tauto.
Qed.

Lemma dump_head v t : json_wf v = true -> head_not_space (dump o v +:+ t).
Proof.
  destruct v as [|[]|z|f|s|l|l]; simpl; intros H; try done.
  - destruct (starts_number_head _ t (proj1 (starts_number_int z))) as (a & s & -> & ?). tauto.
  - destruct (float_cases f H) as [(u & -> & _ & a & s & -> & ?)|[Hn _]]; [simpl; tauto|].
    destruct (starts_number_head _ t Hn) as (a & s & -> & ?). tauto.
Qed.

Lemma join_head {A} (f : A -> string) sep y l t :
  (forall u, head_not_space (f y +:+ u)) -> head_not_space (join sep (map f (y :: l)) +:+ t).
Proof. intros H. destruct l; cbn [join map]; rewrite ?app_str_assoc; apply H. Qed.

Definition parses (v : json) : Prop :=
  forall n rest, (jsize v <= n)%nat -> follow rest ->
  parse_value n (dump o v +:+ rest) = Some (v, rest).

Lemma item_sep_ws s : head_not_space s ->
  exists u, item_separator o +:+ s = String ","%char u /\ skip_ws u = s.
Proof.
  destruct Ho as [[-> | ->] _]; intros H; simpl; eexists; (split; [done|]); simpl; by apply skip_ws_head.
Qed.

Lemma key_sep_ws s : head_not_space s ->
  exists u, key_separator o +:+ s = String ":"%char u /\ skip_ws u = s.
Proof.
  destruct Ho as [_ [-> | ->]]; intros H; simpl; eexists; (split; [done|]); simpl; by apply skip_ws_head.
Qed.

Lemma parse_items_dump l n rest :
  l <> [] -> Forall parses l -> forallb json_wf l = true ->
  (list_sum (map (fun x => S (jsize x)) l) <= n)%nat ->
  parse_items n (join (item_separator o) (map (dump o) l) +:+ "]" +:+ rest) = Some (l, rest).
Proof.
  unfold parses. intros Hl Hp. revert n Hl. induction Hp as [|x l Hx Hp IH]; intros n Hne Hwf Hn; [done|].
  simpl in Hwf, Hn. apply andb_true_iff in Hwf as [Hwx Hwl].
  destruct n as [|n]; [lia|]. destruct l as [|y l].
  - simpl map. cbn [join parse_items].
    rewrite Hx by (simpl in *; done || lia). done.
  - change (join _ (map _ (x :: y :: l)))
      with (dump o x +:+ item_separator o +:+ join (item_separator o) (map (dump o) (y :: l))).
    rewrite !app_str_assoc. cbn [parse_items].
    destruct (item_sep_ws (join (item_separator o) (map (dump o) (y :: l)) +:+ "]" +:+ rest))
      as (u & -> & Hu).
    { simpl in Hwl. apply andb_true_iff in Hwl as [Hwy _].
      apply join_head. intros u. by apply dump_head. }
    rewrite Hx by (done || lia). simpl. rewrite Hu, IH by (done || lia). done.
Qed.

Lemma parse_members_dump l n rest :
  l <> [] -> Forall (fun m => parses (snd m)) l -> forallb (fun m => json_wf (snd m)) l = true ->
  (list_sum (map (fun m => S (jsize (snd m))) l) <= n)%nat ->
  parse_members n (join (item_separator o)
    (map (fun m => dump_string (ensure_ascii o) (fst m) +:+ key_separator o +:+ dump o (snd m)) l)
    +:+ "}" +:+ rest) = Some (l, rest).
Proof.
  unfold parses. intros Hl Hp. revert n Hl. induction Hp as [|[k x] l Hx Hp IH]; intros n Hne Hwf Hn; [done|].
  simpl in Hwf, Hn, Hx. apply andb_true_iff in Hwf as [Hwx Hwl].
  destruct n as [|n]; [lia|].
  set (f := fun m : string * json => dump_string (ensure_ascii o) (fst m) +:+ key_separator o +:+ dump o (snd m)) in *.
  assert (forall t, follow t -> parse_members (S n) (f (k, x) +:+ t) =
    (let r := skip_ws t in
     if startswith "," r then
       '(l, rest) ← parse_members n (skip_ws (str_drop 1 r)); Some ((k, x) :: l, rest)
     else r ← expect "}"%char r; Some ([(k, x)], r))) as Hstep.
  { intros t Ht. unfold f. simpl fst. simpl snd. rewrite !app_str_assoc. cbn [parse_members].
    pose proof (parse_dump_string (ensure_ascii o) k (key_separator o +:+ dump o x +:+ t)) as Hd.
    destruct (dump_string _ _ +:+ _) as [|a r]; [done|]. destruct Hd as [-> Hd].
    simpl. rewrite Hd. simpl.
    destruct (key_sep_ws (dump o x +:+ t)) as (u & -> & Hu); [by apply dump_head|].
    simpl. rewrite Hu, Hx by (done || lia). done. }
  destruct l as [|y l].
  - simpl map. cbn [join]. rewrite Hstep by done. done.
  - change (join _ (map f ((k, x) :: y :: l)))
      with (f (k, x) +:+ item_separator o +:+ join (item_separator o) (map f (y :: l))).
    rewrite !app_str_assoc.
    destruct (item_sep_ws (join (item_separator o) (map f (y :: l)) +:+ "}" +:+ rest))
      as (u & Hs & Hu).
    { apply join_head. intros u. unfold f. by rewrite !app_str_assoc. }
    rewrite Hs, Hstep by done. simpl. rewrite Hu, IH by (done || lia). done.
Qed.

Lemma dump_arr l rest :
  dump o (JArr l) +:+ rest
  = String "["%char (join (item_separator o) (map (dump o) l) +:+ "]" +:+ rest).
Proof. simpl. by rewrite app_str_assoc. Qed.
Lemma dump_obj l rest :
  dump o (JObj l) +:+ rest
  = String "{"%char (join (item_separator o)
      (map (fun m => dump_string (ensure_ascii o) (fst m) +:+ key_separator o +:+ dump o (snd m)) l)
      +:+ "}" +:+ rest).
Proof. simpl. by rewrite app_str_assoc. Qed.
Lemma parse_value_arr n s :
  parse_value (S n) (String "["%char s) =
    (if startswith "]" (skip_ws s) then Some (JArr [], str_drop 1 (skip_ws s))
     else '(l, rest) ← parse_items n (skip_ws s); Some (JArr l, rest)).
Proof. reflexivity. Qed.
Lemma parse_value_obj n s :
  parse_value (S n) (String "{"%char s) =
    (if startswith "}" (skip_ws s) then Some (JObj [], str_drop 1 (skip_ws s))
     else '(l, rest) ← parse_members n (skip_ws s); Some (JObj (dict_of_pairs l), rest)).
Proof. reflexivity. Qed.

Lemma parse_dump v : json_wf v = true -> parses v.
Proof.
  induction v as [|b|z|f|s|l IH|l IH] using json_ind'; intros Hwf n rest Hn Hf;
    (destruct n as [|n]; [simpl in Hn; lia|]).
  - done.
  - by destruct b.
  - destruct (starts_number_int z). by apply parse_value_number; [..|apply parse_number_int].
  - simpl dump. destruct (float_cases f Hwf) as [(t & -> & Hl & a & s & -> & _ & H1 & H2 & H3)|(H1 & H2 & H3)].
    + specialize (Hl rest). change (String a s +:+ rest) with (String a (s +:+ rest)) in *.
      cbn [parse_value]. by rewrite H1, H2, H3, Hl.
    + by apply parse_value_number.
  - simpl dump. cbn [parse_value].
    pose proof (parse_dump_string (ensure_ascii o) s rest) as Hd.
    destruct (dump_string _ _ +:+ _) as [|a r]; [done|]. destruct Hd as [-> Hd].
    simpl. by rewrite Hd.
  - destruct l as [|x l]; [done|]. rewrite dump_arr, parse_value_arr. simpl in Hn.
    set (t := join _ _ +:+ _).
    assert (head_not_space t) as Hh.
    { apply join_head. intros u. apply dump_head. simpl in Hwf. apply andb_true_iff in Hwf. tauto. }
    assert (startswith "]" t = false) as Ht.
    { destruct t as [|a t]; [done|]. destruct Hh as [_ Hh]. cbn [startswith]. by rewrite Hh. }
    rewrite (skip_ws_head t Hh), Ht. unfold t.
    rewrite (parse_items_dump (x :: l)); [done|done| |done|simpl; lia].
    apply forallb_Forall in Hwf. revert IH Hwf. rewrite !Forall_forall. naive_solver.
  - destruct l as [|[k x] l]; [done|]. rewrite dump_obj, parse_value_obj. simpl in Hn.
    set (t := join _ _ +:+ _). simpl in Hwf. apply andb_true_iff in Hwf as [Hk Hwf].
    assert (head_not_space t) as Hh.
    { apply join_head. intros u. by rewrite !app_str_assoc. }
    assert (startswith "}" t = false) as Ht.
    { unfold t. destruct l; reflexivity. }
    rewrite (skip_ws_head t Hh), Ht. unfold t.
    rewrite (parse_members_dump ((k, x) :: l)); [|done| |done|simpl; lia].
    + simpl. rewrite dict_of_pairs_id; [done|]. by apply bool_decide_eq_true in Hk.
    + change (forallb (fun m => json_wf (snd m)) ((k, x) :: l) = true) in Hwf.
      apply forallb_Forall in Hwf. revert IH Hwf. rewrite !Forall_forall. naive_solver.
Qed.
End roundtrip.

(** The measure is within the fuel [loads] starts with. *)
Lemma dump_length_pos o v : sep_ok o -> json_wf v = true -> (1 <= String.length (dump o v))%nat.
Proof.
  intros Ho Hwf. pose proof (dump_head o v "" Hwf) as H. rewrite app_str_nil_r in H.
  destruct (dump o v); simpl; [done | lia].
Qed.

Lemma length_app_str a b : String.length (a +:+ b) = (String.length a + String.length b)%nat.
Proof. induction a as [|x a IH]; simpl; [done|]. by rewrite IH. Qed.

Lemma join_length {A} (f : A -> string) (g : A -> nat) sep l :
  (1 <= String.length sep)%nat -> Forall (fun x => (g x <= 2 * String.length (f x))%nat) l ->
  (list_sum (map (fun x => S (g x)) l) <= 2 * String.length (join sep (map f l)) + 1)%nat.
Proof.
  intros Hs. induction 1 as [|x l Hx _ IH]; simpl; [lia|].
  destruct l as [|y l]; simpl in *; [lia|]. rewrite !length_app_str. simpl in *. lia.
Qed.

Lemma jsize_length o v : sep_ok o -> json_wf v = true -> (jsize v <= 2 * String.length (dump o v))%nat.
Proof.
  intros Ho. assert (1 <= String.length (item_separator o))%nat as Hs
    by (destruct Ho as [[-> | ->] _]; simpl; lia).
  induction v as [| | | | |l IH|l IH] using json_ind'; intros Hwf;
    try (pose proof (dump_length_pos o _ Ho Hwf); simpl jsize; lia).
  - simpl jsize. simpl dump. cbn [String.length]. rewrite length_app_str. simpl in Hwf |- *.
    apply (join_length (dump o) jsize _ l) in Hs; [lia|].
    apply forallb_Forall in Hwf. revert IH Hwf. rewrite !Forall_forall. naive_solver.
  - simpl jsize. simpl dump. cbn [String.length]. rewrite length_app_str. simpl in Hwf |- *.
    apply andb_true_iff in Hwf as [_ Hwf].
    apply (join_length (fun m => dump_string (ensure_ascii o) (fst m) +:+ key_separator o +:+ dump o (snd m))
      (fun m => jsize (snd m)) _ l) in Hs; cbv beta in Hs; [simpl in *; lia|].
    apply forallb_Forall in Hwf. revert IH Hwf. rewrite !Forall_forall.
    intros IH Hwf m Hm. rewrite !length_app_str. specialize (IH m Hm (Hwf m Hm)). lia.
Qed.

(** What [json.dumps] writes, [json.loads] reads back. *)
Lemma loads_dumps o v :
  sep_ok o -> json_wf v = true ->
  loads (dumps o v) = Some (if sort_keys o then sort_json v else v).
Proof.
  intros Ho Hwf. unfold dumps. set (w := if sort_keys o then sort_json v else v).
  assert (json_wf w = true) as Hw by (unfold w; destruct (sort_keys o); [by apply sort_json_wf | done]).
  unfold loads. rewrite <- (app_str_nil_r (dump o w)).
  rewrite (skip_ws_head _ (dump_head o w "" Hw)).
  rewrite (parse_dump o Ho w Hw); [done| |done].
  rewrite app_str_nil_r. pose proof (jsize_length o w Ho Hw). lia.
Qed.

Lemma sep_ok_compact_unicode : sep_ok compact_unicode.
Proof. split; by left. Qed.
Lemma sep_ok_compact_ascii : sep_ok compact_ascii.
Proof. split; by left. Qed.
Lemma sep_ok_spaced_ascii : sep_ok spaced_ascii.
Proof. split; by right. Qed.
#[export] Hint Resolve sep_ok_compact_unicode sep_ok_compact_ascii sep_ok_spaced_ascii : nico.

(** ** Sorted objects *)

Definition sorted_dict (d : dict) : dict := as_dict (sort_json (JObj d)).

Lemma sorted_dict_perm d : sorted_dict d ≡ₚ map (fun m => (fst m, sort_json (snd m))) d.
Proof. apply sort_members_perm. Qed.

Lemma dlookup_map (f : json -> json) d k :
  dlookup k (map (fun m => (fst m, f (snd m))) d) = f <$> dlookup k d.
Proof.
  induction d as [|[k' v] d IH]; simpl; [done|]. by destruct (String.eqb k k').
Qed.

(** Reading a member commutes with sorting. *)
Lemma dlookup_sorted d k : NoDup (keys d) -> dlookup k (sorted_dict d) = sort_json <$> dlookup k d.
Proof.
  intros Hd. rewrite (dlookup_perm k (sorted_dict d) (map (fun m => (fst m, sort_json (snd m))) d)).
  - apply dlookup_map.
  - unfold keys. rewrite sorted_dict_perm. by rewrite map_map.
  - apply sorted_dict_perm.
Qed.

Lemma dget_sorted d k : NoDup (keys d) -> dget (sorted_dict d) k = sort_json (dget d k).
Proof. intros Hd. unfold dget. rewrite dlookup_sorted by done. by destruct (dlookup k d). Qed.

Lemma keys_sorted d : keys (sorted_dict d) ≡ₚ keys d.
Proof. unfold keys. rewrite sorted_dict_perm, map_map. done. Qed.

(** Sorting twice is sorting once. *)
Definition member_le {A} (m n : string * A) : Prop := str_leb (fst m) (fst n) = true.

Lemma insert_member_sorted {A} (m : string * A) l :
  StronglySorted member_le l -> StronglySorted member_le (insert_member m l).
Proof.
  unfold member_le. induction 1 as [|n l Hl IH Hn]; simpl; [repeat constructor|].
  destruct (str_leb (fst m) (fst n)) eqn:Hmn.
  - constructor; [by constructor|]. constructor; [done|].
    eapply Forall_impl; [exact Hn|]. intros z Hz. by eapply str_leb_trans.
  - constructor; [done|]. rewrite insert_member_perm. constructor; [|done].
    destruct (str_leb_total (fst m) (fst n)); congruence.
Qed.

Lemma sort_members_sorted {A} (l : list (string * A)) : StronglySorted member_le (sort_members l).
Proof. induction l; simpl; [constructor|]. by apply insert_member_sorted. Qed.

Lemma insert_member_id {A} (m : string * A) l :
  Forall (member_le m) l -> insert_member m l = m :: l.
Proof. destruct 1 as [|n l Hn _]; simpl; [done|]. by rewrite Hn. Qed.

Lemma sort_members_id {A} (l : list (string * A)) : StronglySorted member_le l -> sort_members l = l.
Proof. induction 1 as [|m l _ IH Hm]; simpl; [done|]. by rewrite IH, insert_member_id. Qed.

Lemma insert_member_map {A B} (f : A -> B) m l :
  insert_member (fst m, f (snd m)) (map (fun m => (fst m, f (snd m))) l)
  = map (fun m => (fst m, f (snd m))) (insert_member m l).
Proof. induction l as [|n l IH]; simpl; [done|]. destruct (str_leb _ _); simpl; by rewrite ?IH. Qed.

Lemma sort_members_map {A B} (f : A -> B) l :
  sort_members (map (fun m => (fst m, f (snd m))) l) = map (fun m => (fst m, f (snd m))) (sort_members l).
Proof. induction l as [|m l IH]; simpl; [done|]. by rewrite IH, insert_member_map. Qed.

Lemma sort_json_idemp v : sort_json (sort_json v) = sort_json v.
Proof.
  induction v as [| | | | |l IH|l IH] using json_ind'; simpl; try done.
  - f_equal. rewrite map_map. apply map_ext_in. rewrite Forall_forall in IH.
    intros x Hx. by apply IH, list_elem_of_In.
  - f_equal. rewrite !(sort_members_map sort_json).
    rewrite (sort_members_id (sort_members l)) by apply sort_members_sorted.
    rewrite map_map. apply map_ext_in. rewrite Forall_forall in IH. intros m Hm. simpl. f_equal.
    apply IH. rewrite <- (sort_members_perm l). by apply list_elem_of_In.
Qed.

(** ** Values that print the same *)

Lemma dumps_sorted o v : sort_keys o = true -> dumps o (sort_json v) = dumps o v.
Proof. intros H. unfold dumps. by rewrite H, sort_json_idemp. Qed.

Lemma dumps_inj o v w : sort_keys o = true -> sep_ok o -> json_wf v = true -> json_wf w = true ->
  dumps o v = dumps o w -> sort_json v = sort_json w.
Proof.
  intros Hs Ho Hv Hw H. pose proof (loads_dumps o v Ho Hv) as Lv. pose proof (loads_dumps o w Ho Hw) as Lw.
  rewrite Hs in Lv, Lw. rewrite H, Lw in Lv. by injection Lv as ->.
Qed.

Lemma keys_nodup d : json_wf (JObj d) = true -> NoDup (keys d).
Proof. cbn [json_wf]. intros [H _]%andb_true_iff. by apply bool_decide_eq_true in H. Qed.

Lemma dget_wf d k : json_wf (JObj d) = true -> json_wf (dget d k) = true.
Proof.
  intros H. cbn [json_wf] in H. apply andb_true_iff in H as [_ H]. rewrite forallb_Forall, Forall_forall in H.
  unfold dget. destruct (dlookup k d) as [v|] eqn:Hk; [|done]. apply (H (k, v)).
  clear H. induction d as [|[k' v'] d IH]; [done|]. cbn [dlookup] in Hk. destruct (String.eqb_spec k k') as [->|].
  - injection Hk as ->. by left.
  - right. by apply IH.
Qed.
