(* ===== verification/Snapshots.v ===== *)
(** * Transactions that act on an earlier read

    A method of a store often reads in one transaction and writes in the next.
    Other clients commit in between, so what was read may be any earlier state.
    [history] is the list of commits of such clients, the newest first; a commit
    relates the state that was read, the state it is applied to, its label (the
    call with its answer) and the new state.  The lemmas carry a step-wise
    invariant and a step-wise order to all states of a history. *)

From S2P Require Import Prelude.

Section History.
Context {S L : Type} (commits : S -> S -> L -> S -> Prop) (start : S).

Definition current (ts : list (L * S)) : S := match ts with [] => start | (_, t) :: _ => t end.
Definition states (ts : list (L * S)) : list S := map snd ts ++ [start].

Inductive history : list (L * S) -> Prop :=
  | history_start : history []
  | history_commit ts seen l t : history ts -> seen ∈ states ts -> commits seen (current ts) l t -> history ((l, t) :: ts).

Lemma current_state ts : current ts ∈ states ts.
Proof. destruct ts as [|[l t] ts]; [by left|]. unfold states. cbn [map snd app]. by left. Qed.

Lemma history_app later ts : history (later ++ ts) -> history ts.
Proof. induction later as [|x later IH]; [done|]. inversion 1; subst. auto. Qed.

Lemma history_event later l t ts : history (later ++ (l, t) :: ts) ->
  exists seen, seen ∈ states ts /\ commits seen (current ts) l t.
Proof. intros H%history_app. inversion H; subst. eauto. Qed.

Section Monotone.
Context (I : S -> Prop) (R : relation S) {HR : PreOrder R} (H0 : I start).
Context (Hstep : forall seen t l t', I seen -> I t -> R seen t -> commits seen t l t' -> I t' /\ R t t').

Lemma history_monotone ts : history ts -> forall t, t ∈ states ts -> I t /\ R t (current ts).
Proof.
  induction 1 as [|ts seen l t Hts IH Hs Hc].
  - intros t Ht. unfold states in Ht. cbn [map app] in Ht. apply list_elem_of_singleton in Ht as ->. by split.
  - destruct (IH _ Hs) as [His HRs]. destruct (IH _ (current_state ts)) as [Hi _].
    destruct (Hstep _ _ _ _ His Hi HRs Hc) as [Ht HRt].
    intros u Hu. unfold states in Hu. cbn [map snd app] in Hu. apply elem_of_cons in Hu as [->|Hu].
    + by split.
    + destruct (IH u Hu) as [Hu1 Hu2]. split; [done|]. by etrans.
Qed.

Lemma history_invariant ts : history ts -> I (current ts).
Proof. intros H. apply (history_monotone ts H), current_state. Qed.

Lemma states_app later ts : current ts ∈ states (later ++ ts).
Proof.
  induction later as [|[l t] later IH]; [apply current_state|]. unfold states in *. cbn [map snd app]. by right.
Qed.

Lemma history_ordered later ts : history (later ++ ts) -> R (current ts) (current (later ++ ts)).
Proof. intros H. apply (history_monotone _ H), states_app. Qed.

(** What a commit found and left: the invariant holds of both, and what was read
    is not later. *)
Lemma history_at later l t ts : history (later ++ (l, t) :: ts) ->
  exists seen, commits seen (current ts) l t /\ I seen /\ I (current ts) /\ R seen (current ts) /\ R t (current (later ++ (l, t) :: ts)).
Proof.
  intros H. destruct (history_event _ _ _ _ H) as (seen & Hs & Hc). pose proof (history_ordered _ _ H) as Ho.
  pose proof (history_app _ _ H) as Ht. inversion Ht as [|? ? ? ? Hts]; subst.
  destruct (history_monotone _ Hts _ Hs) as [Hi Hr]. exists seen. split_and!; try done. by apply history_invariant.
Qed.

(** Events that take a state that is not [done_] to one that is, while nothing
    leads back, occur once. *)
Lemma history_once (P : L -> Prop) (done_ : S -> Prop) :
  (forall seen t l t', I seen -> I t -> R seen t -> commits seen t l t' -> P l -> ~ done_ t /\ done_ t') ->
  (forall t t', done_ t -> R t t' -> done_ t') ->
  forall later l t mid l0 t0 ts, history (later ++ (l, t) :: mid ++ (l0, t0) :: ts) -> P l -> P l0 -> False.
Proof.
  intros He Hd later l t mid l0 t0 ts H Hl Hl0. apply history_app in H.
  destruct (history_at [] l t _ H) as (seen & Hc & H1 & H2 & H3 & _).
  assert (history (mid ++ (l0, t0) :: ts)) as Hm by (inversion H; done).
  destruct (history_at mid l0 t0 ts Hm) as (seen0 & Hc0 & H4 & H5 & H6 & Hr).
  destruct (He _ _ _ _ H1 H2 H3 Hc Hl) as [Hn _]. apply Hn.
  destruct (He _ _ _ _ H4 H5 H6 Hc0 Hl0) as [_ Hy]. by eapply Hd.
Qed.

End Monotone.
End History.

(** ** Rows that only move forward *)

Section Rows.
Context {A : Type} (R : relation A) {HR : PreOrder R}.

(** Every row of [t] is kept or has moved on in [t']. *)
Definition rows_evolve (t t' : gmap string A) : Prop :=
  forall k r, t !! k = Some r -> exists r', t' !! k = Some r' /\ R r r'.

#[export] Instance rows_evolve_preorder : PreOrder rows_evolve.
Proof.
  split.
  - intros t k r H. by exists r.
  - intros t u v H1 H2 k r H. destruct (H1 k r H) as (r1 & Hr1 & HR1). destruct (H2 k r1 Hr1) as (r2 & Hr2 & HR2).
    exists r2. split; [done|]. by etrans.
Qed.

Lemma rows_evolve_insert t k r' : (forall r, t !! k = Some r -> R r r') -> rows_evolve t (<[k := r']> t).
Proof.
  intros H j r Hj. destruct (decide (j = k)) as [->|Hn].
  - exists r'. rewrite lookup_insert_eq. auto.
  - exists r. by rewrite lookup_insert_ne by done.
Qed.
End Rows.

(** [UPDATE ... SET f WHERE key = k AND p]: the table and whether a row matched. *)
Definition update_row {A} (p : A -> bool) (f : A -> A) (k : string) (t : gmap string A) : bool * gmap string A :=
  match t !! k with
  | Some r => if p r then (true, <[k := f r]> t) else (false, t)
  | None => (false, t)
  end.

Lemma update_row_cases {A} (p : A -> bool) f k (t : gmap string A) :
  (exists r, t !! k = Some r /\ p r = true /\ update_row p f k t = (true, <[k := f r]> t)) \/
  (update_row p f k t = (false, t) /\ forall r, t !! k = Some r -> p r = false).
Proof.
  unfold update_row. destruct (t !! k) as [r|] eqn:Hk; [|right; by split].
  destruct (p r) eqn:Hp; [left; by exists r|right]. split; [done|]. by intros ? [= <-].
Qed.
