(* ===== verification/Sqlite.v ===== *)
(** * Values bound to SQLite columns

    What the stores rely on of [sqlite3], whose dialect is their default: a REAL
    column keeps a float, without the sign of a zero, and stores NaN as NULL; an
    INTEGER column takes 64 bits; a TEXT column takes strings.  All columns are
    NOT NULL.  SQLite would convert numbers bound to TEXT columns: other values
    than strings are outside the model, which raises.  [_decode_json_object_payload]
    (nico/comprehensive_run_store.py) reads a payload column. *)

From S2P Require Import Prelude PyStr PyFloat Json.

Definition null_error {A} : res A := fail DatabaseError "NOT NULL constraint failed".

Definition bind_real (f : float) : option float :=
  match f with
  | S754_nan => None
  | S754_zero _ => Some (S754_zero false)
  | _ => Some f
  end.
Definition real_column (f : float) : res float :=
  match bind_real f with Some f => Ok f | None => null_error end.

(** [column <= ?]: never true of NULL. *)
Definition sql_le (a : float) (b : float) : bool :=
  match bind_real b with Some b => fleb a b | None => false end.

Definition int_column (z : Z) : res Z :=
  if (- 2 ^ 63 <=? z) && (z <? 2 ^ 63) then Ok z
  else fail OverflowError "Python int too large to convert to SQLite INTEGER".

Definition text_column (v : json) : res string :=
  match v with
  | JStr s => Ok s
  | JNull => null_error
  | JArr _ | JObj _ => fail DatabaseError "type is not supported"
  | _ => fail TypeError "outside the model"
  end.

(** [bool] in an INTEGER column, and back. *)
Definition bool_column (b : bool) : Z := if b then 1 else 0.
Definition column_bool (z : Z) : bool := negb (z =? 0).

(** A payload column holds JSON text; the methods also pass what they decoded. *)
Definition _decode_json_object_payload (payload : json) : res dict :=
  payload ← match payload with
    | JStr s => match loads s with Some v => Ok v | None => fail ValueError "Expecting value" end
    | _ => Ok payload
    end;
  match payload with JObj d => Ok d | _ => fail ValueError "persisted_payload_must_be_object" end.

Lemma column_bool_column b : column_bool (bool_column b) = b.
Proof. by destruct b. Qed.

(** A stored float is compared as the float that was given. *)
Lemma bind_real_leb f g b : bind_real f = Some g -> fleb g b = fleb f b.
Proof. destruct f as [[]| | |]; intros [= <-]; done. Qed.
Lemma sql_le_finite a b : bind_real b <> None -> sql_le a b = fleb a b.
Proof. unfold sql_le. destruct b as [[]| | |]; simpl; try done. Qed.
Lemma bind_real_idemp f g : bind_real f = Some g -> bind_real g = Some g.
Proof. destruct f; intros [= <-]; done. Qed.

(** Numbers are ordered. *)
Lemma fltb_false_fleb a b : a <> S754_nan -> b <> S754_nan -> fltb a b = false -> fleb b a = true.
Proof.
  intros Ha Hb. unfold fltb, fleb, SFltb, SFleb. destruct a as [[]|[]| |[] m e], b as [[]|[]| |[] m' e']; simpl; try done.
  - destruct (Z.compare_spec e e'), (Z.compare_spec e' e); try lia; try done.
    rewrite !Pos.compare_cont_spec; simpl; destruct (Pos.compare_spec m m'), (Pos.compare_spec m' m); try lia; done.
  - destruct (Z.compare_spec e e'), (Z.compare_spec e' e); try lia; try done.
    rewrite !Pos.compare_cont_spec; simpl; destruct (Pos.compare_spec m m'), (Pos.compare_spec m' m); try lia; done.
Qed.
Lemma fadd_nan_l f : fadd S754_nan f = S754_nan.
Proof. with_strategy transparent [fadd] reflexivity. Qed.
