(* ===== verification/PyBytes.v ===== *)
(** * Bytes: decoding, base64, packed integers, streamed JSON

    What the storage codecs use of Python's standard library: [bytes.decode],
    [json.loads] of bytes, [base64], [struct.pack] of big-endian integers,
    [zlib.crc32], and the pieces [json.JSONEncoder.iterencode] yields.  They are
    CPython 3.11's.  The round trips: [utf8_decode_encode], [b64decode_encode],
    [unpack_pack], and [cat_iterencode], by which the streamed pieces are the
    text of [json.dumps]. *)

From S2P Require Import Prelude PyStr PyFloat Json JsonFacts.

(** [b"".join(l)] *)
Definition cat (l : list string) : string := foldr String.append "" l.

(** [[s[i:i+n] for i in range(0, len(s), n)]]: a piece takes at least one of the
    [fuel] characters. *)
Fixpoint slices_from (fuel n : nat) (s : string) : list string :=
  match fuel, s with
  | S fuel, String _ _ => str_take n s :: slices_from fuel n (str_drop n s)
  | _, _ => []
  end.
Definition slices (n : nat) (s : string) : list string := slices_from (String.length s) n s.

(** ** Text of bytes *)

(** [b.decode("utf-8")]: [None] is an error or text beyond Latin-1. *)
Fixpoint utf8_decode (s : string) : option string :=
  match s with
  | "" => Some ""
  | String a s =>
      if code a <? 128 then String a <$> utf8_decode s
      else match s with
        | String b s =>
            if ((code a =? 194) || (code a =? 195)) && (Z.shiftr (code b) 6 =? 2)
            then String (utf8_pair a b) <$> utf8_decode s else None
        | "" => None
        end
  end.

(** The same for UTF-16 and UTF-32 in either byte order. *)
Fixpoint utf16_decode (be : bool) (s : string) : option string :=
  match s with
  | "" => Some ""
  | String a (String b s) =>
      let '(high, low) := if be then (a, b) else (b, a) in
      if code high =? 0 then String low <$> utf16_decode be s else None
  | _ => None
  end.
Fixpoint utf32_decode (be : bool) (s : string) : option string :=
  match s with
  | "" => Some ""
  | String a (String b (String c (String d s))) =>
      let '(high, mid, low) := if be then (code a, code c, d) else (code d, code b, a) in
      let other := if be then code b else code c in
      if (high =? 0) && (other =? 0) && (mid =? 0) then String low <$> utf32_decode be s else None
  | _ => None
  end.

Definition bytes_of (l : list Z) : string := foldr (fun z => String (chr z)) "" l.
Definition byte_at (n : nat) (s : string) : Z := default 0 (code <$> String.get n s).

(** [s.decode(json.detect_encoding(s), "surrogatepass")] *)
Definition json_text (s : string) : option string :=
  let starts l := startswith (bytes_of l) s in
  if starts [0; 0; 254; 255] then utf32_decode true (str_drop 4 s)
  else if starts [255; 254; 0; 0] then utf32_decode false (str_drop 4 s)
  else if starts [254; 255] then utf16_decode true (str_drop 2 s)
  else if starts [255; 254] then utf16_decode false (str_drop 2 s)
  else if starts [239; 187; 191] then utf8_decode (str_drop 3 s)
  else if 4 <=? blen s then
    if byte_at 0 s =? 0 then
      if negb (byte_at 1 s =? 0) then utf16_decode true s else utf32_decode true s
    else if byte_at 1 s =? 0 then
      if negb (byte_at 2 s =? 0) || negb (byte_at 3 s =? 0) then utf16_decode false s else utf32_decode false s
    else utf8_decode s
  else if blen s =? 2 then
    if byte_at 0 s =? 0 then utf16_decode true s
    else if byte_at 1 s =? 0 then utf16_decode false s else utf8_decode s
  else utf8_decode s.

(** [json.loads(b)] *)
Definition loads_bytes (s : string) : option json := t ← json_text s; loads t.

(** ** base64 *)

Definition b64_char (z : Z) : Ascii.ascii :=
  chr (if z <? 26 then 65 + z else if z <? 52 then 71 + z else if z <? 62 then z - 4
       else if z =? 62 then 43 else 47).
Definition b64_value (a : Ascii.ascii) : option Z :=
  let c := code a in
  if (65 <=? c) && (c <=? 90) then Some (c - 65)
  else if (97 <=? c) && (c <=? 122) then Some (c - 71)
  else if (48 <=? c) && (c <=? 57) then Some (c + 4)
  else if c =? 43 then Some 62 else if c =? 47 then Some 63 else None.

(** [base64.b64encode(b)] *)
Fixpoint b64encode (s : string) : string :=
  match s with
  | "" => ""
  | String a "" =>
      String (b64_char (Z.shiftr (code a) 2)) (String (b64_char (Z.shiftl (Z.land (code a) 3) 4)) "==")
  | String a (String b "") =>
      String (b64_char (Z.shiftr (code a) 2))
        (String (b64_char (Z.lor (Z.shiftl (Z.land (code a) 3) 4) (Z.shiftr (code b) 4)))
          (String (b64_char (Z.shiftl (Z.land (code b) 15) 2)) "="))
  | String a (String b (String c s)) =>
      String (b64_char (Z.shiftr (code a) 2))
        (String (b64_char (Z.lor (Z.shiftl (Z.land (code a) 3) 4) (Z.shiftr (code b) 4)))
          (String (b64_char (Z.lor (Z.shiftl (Z.land (code b) 15) 2) (Z.shiftr (code c) 6)))
            (String (b64_char (Z.land (code c) 63)) (b64encode s))))
  end.

(** [binascii.a2b_base64(s, strict_mode=True)]: the position in the group of
    four, the bits left over, the padding seen since the last character, and
    whether any was seen. *)
Fixpoint a2b_from (quad left pads : Z) (started : bool) (s : string) : option string :=
  match s with
  | "" => if quad =? 0 then Some "" else None
  | String a s =>
      if Ascii.eqb a "="%char then
        if 2 <=? quad
        then if 4 <=? quad + (pads + 1) then (if truthy s then None else Some "")
             else a2b_from quad left (pads + 1) true s
        else a2b_from quad left pads true s
      else
        v ← b64_value a;
        if started then None
        else if quad =? 0 then a2b_from 1 v 0 false s
        else if quad =? 1 then
          String (chr (Z.lor (Z.land (Z.shiftl left 2) 255) (Z.shiftr v 4))) <$> a2b_from 2 (Z.land v 15) 0 false s
        else if quad =? 2 then
          String (chr (Z.lor (Z.land (Z.shiftl left 4) 255) (Z.shiftr v 2))) <$> a2b_from 3 (Z.land v 3) 0 false s
        else String (chr (Z.lor (Z.land (Z.shiftl left 6) 255) v)) <$> a2b_from 0 0 0 false s
  end.

(** [base64.b64decode(s, validate=True)] *)
Definition b64decode (s : string) : option string :=
  if startswith "=" s then None else a2b_from 0 0 0 false s.

(** The answers of CPython 3.11.2, padding that is too long included. *)
Example b64decode_cases :
  map b64decode ["AAAA="; "AAAA=="; "AA=="; "AB=="; "AA="; "A==="; "="; "AA==AA=="; "AAA="; "AAA=A"; "AA=A"; "AAAA==="; ""; "TmljbyE="]
  = [Some (bytes_of [0; 0; 0]); Some (bytes_of [0; 0; 0]); Some (bytes_of [0]); Some (bytes_of [0]); None; None; None; None;
     Some (bytes_of [0; 0]); None; None; Some (bytes_of [0; 0; 0]); Some ""; Some "Nico!"].
Proof. vm_compute. reflexivity. Qed.

(** ** Packed integers *)

(** [n] bytes, the most significant first: [struct.pack(">I", z)] with [n = 4]
    and [">Q"] with [n = 8], of an integer in range. *)
Fixpoint pack (n : nat) (z : Z) : string :=
  match n with
  | O => ""
  | S n => String (chr (Z.land (Z.shiftr z (8 * Z.of_nat n)) 255)) (pack n z)
  end.
Fixpoint unpack_from (acc : Z) (s : string) : Z :=
  match s with "" => acc | String a s => unpack_from (acc * 256 + code a) s end.
Definition unpack (s : string) : Z := unpack_from 0 s.

(** ** zlib.crc32 *)

Definition crc_bit (c : Z) : Z :=
  if Z.testbit c 0 then Z.lxor (Z.shiftr c 1) 0xEDB88320 else Z.shiftr c 1.
Definition crc_byte (c : Z) (a : Ascii.ascii) : Z := Nat.iter 8 crc_bit (Z.lxor c (code a)).
Fixpoint crc_from (c : Z) (s : string) : Z :=
  match s with "" => c | String a s => crc_from (crc_byte c a) s end.
Definition crc32 (s : string) : Z := Z.lxor (crc_from 0xFFFFFFFF s) 0xFFFFFFFF.

Example crc32_check : crc32 "123456789" = 0xCBF43926.
Proof. vm_compute. reflexivity. Qed.

(** ** The pieces of json.JSONEncoder.iterencode

    With [sort_keys=True, separators=(",", ":"), ensure_ascii=False], of a value
    whose members are in order already: a list yields its opening bracket or a
    comma together with a scalar item, a dictionary every token by itself. *)

Definition is_container (v : json) : bool := match v with JArr _ | JObj _ => true | _ => false end.

Section Pieces.
Context (pieces : json -> list string).
(** [_iterencode_list] after its opening bracket is in [buf] *)
Fixpoint list_pieces (buf : string) (l : list json) : list string :=
  match l with
  | [] => ["]"]
  | x :: l => (if is_container x then buf :: pieces x else [buf +:+ dump compact_unicode x]) ++ list_pieces "," l
  end.
(** [_iterencode_dict] after its opening brace *)
Fixpoint dict_pieces (first : bool) (l : dict) : list string :=
  match l with
  | [] => ["}"]
  | (k, x) :: l =>
      (if first then [] else [","]) ++ [dump_string false k; ":"] ++ pieces x ++ dict_pieces false l
  end.
End Pieces.

Fixpoint pieces (v : json) : list string :=
  match v with
  | JArr l => match l with [] => ["[]"] | _ => list_pieces pieces "[" l end
  | JObj l => match l with [] => ["{}"] | _ => "{" :: dict_pieces pieces true l end
  | _ => [dump compact_unicode v]
  end.
Definition iterencode (v : json) : list string := pieces (sort_json v).

(** ** Lemmas *)

Lemma blen_app a b : blen (a +:+ b) = blen a + blen b.
Proof. unfold blen. rewrite length_str_app. lia. Qed.

Lemma blen_pos s : 0 <= blen s.
Proof. unfold blen. lia. Qed.

Lemma blen_nil s : blen s = 0 <-> s = "".
Proof. destruct s; unfold blen; simpl; split; (done || lia). Qed.

Lemma blen_cons a s : blen (String a s) = 1 + blen s.
Proof. unfold blen. simpl. lia. Qed.

Lemma cat_app l k : cat (l ++ k) = cat l +:+ cat k.
Proof. induction l as [|s l IH]; simpl; [done|]. by rewrite IH, app_str_assoc. Qed.

Lemma cat_snoc l s : cat (l ++ [s]) = cat l +:+ s.
Proof. rewrite cat_app. simpl. by rewrite app_str_nil_r. Qed.

Lemma str_take_drop n s : str_take n s +:+ str_drop n s = s.
Proof. revert s. induction n as [|n IH]; intros [|a s]; simpl; try done. by rewrite IH. Qed.

Lemma length_str_take n s : String.length (str_take n s) = Nat.min n (String.length s).
Proof. revert s. induction n as [|n IH]; intros [|a s]; simpl; try done. by rewrite IH. Qed.

Lemma length_str_drop n s : String.length (str_drop n s) = (String.length s - n)%nat.
Proof. revert s. induction n as [|n IH]; intros [|a s]; simpl; try done. Qed.

Lemma slices_from_spec fuel n s : (0 < n)%nat -> (String.length s <= fuel)%nat ->
  cat (slices_from fuel n s) = s /\
  Forall (fun p => 0 < blen p <= Z.of_nat n) (slices_from fuel n s).
Proof.
  intros Hn. revert s. induction fuel as [|fuel IH]; intros [|a s] Hs; simpl in *; try done; [lia|].
  destruct (IH (str_drop n (String a s))) as [Hc Hf].
  { rewrite length_str_drop. simpl. lia. }
  rewrite Hc, str_take_drop. split; [done|]. constructor; [|done].
  unfold blen. rewrite length_str_take. simpl. lia.
Qed.

Lemma slices_spec n s : (0 < n)%nat ->
  cat (slices n s) = s /\ Forall (fun p => 0 < blen p <= Z.of_nat n) (slices n s).
Proof. intros Hn. by apply slices_from_spec. Qed.

Lemma utf8_decode_high a s : 128 <= code a ->
  utf8_decode (String (chr (192 + Z.shiftr (code a) 6)) (String (chr (128 + Z.land (code a) 63)) s))
  = String a <$> utf8_decode s.
Proof.
  destruct a as [[] [] [] [] [] [] [] []]; intros H; try (exfalso; apply H; reflexivity); reflexivity.
Qed.

Lemma utf8_decode_encode s : utf8_decode (utf8_encode s) = Some s.
Proof.
  induction s as [|a s IH]; cbn [utf8_encode]; [done|]. destruct (Z.ltb_spec (code a) 128) as [H|H].
  - cbn [utf8_decode]. rewrite (proj2 (Z.ltb_lt _ _) H), IH. done.
  - by rewrite utf8_decode_high, IH.
Qed.

Lemma utf8_cat l : utf8_encode (cat l) = cat (map utf8_encode l).
Proof. induction l as [|s l IH]; simpl; [done|]. by rewrite utf8_encode_app, IH. Qed.

Lemma code_bound a : 0 <= code a < 256.
Proof. unfold code. pose proof (Ascii.N_ascii_bounded a). lia. Qed.

Lemma chr_code a : chr (code a) = a.
Proof. unfold chr, code. by rewrite N2Z.id, Ascii.ascii_N_embedding. Qed.

(** A text whose first two bytes are not zero and below 128 is read as UTF-8. *)
Lemma json_text_ascii a b s : 0 < code a < 128 -> 0 < code b < 128 ->
  json_text (String a (String b s)) = utf8_decode (String a (String b s)).
Proof.
  intros Ha Hb. unfold json_text.
  assert (forall z l, 128 <= z < 256 -> startswith (bytes_of (z :: l)) (String a (String b s)) = false) as Hz.
  { intros z l Hz. cbn [startswith bytes_of foldr]. apply andb_false_iff. left. apply Ascii.eqb_neq. intros <-.
    rewrite code_chr in Ha by lia. lia. }
  assert (startswith (bytes_of [0; 0; 254; 255]) (String a (String b s)) = false) as H0.
  { cbn [startswith bytes_of foldr]. apply andb_false_iff. left. apply Ascii.eqb_neq. intros <-. rewrite code_chr in Ha; lia. }
  rewrite H0, !Hz by lia. change (byte_at 0 (String a (String b s))) with (code a).
  change (byte_at 1 (String a (String b s))) with (code b).
  replace (code a =? 0) with false by lia. replace (code b =? 0) with false by lia.
  by destruct (4 <=? blen (String a (String b s))), (blen (String a (String b s)) =? 2).
Qed.

(** ** base64 *)

Lemma b64_value_char z : 0 <= z < 64 ->
  b64_value (b64_char z) = Some z /\ b64_char z <> "="%char.
Proof.
  intros Hz. assert (exists n, (n < 64)%nat /\ z = Z.of_nat n) as (n & Hn & ->) by (exists (Z.to_nat z); lia).
  do 64 (destruct n as [|n]; [by vm_compute|]). lia.
Qed.

Lemma b64_char_step quad left pads z s : 0 <= z < 64 ->
  a2b_from quad left pads false (String (b64_char z) s) =
  (if quad =? 0 then a2b_from 1 z 0 false s
   else if quad =? 1 then
     String (chr (Z.lor (Z.land (Z.shiftl left 2) 255) (Z.shiftr z 4))) <$> a2b_from 2 (Z.land z 15) 0 false s
   else if quad =? 2 then
     String (chr (Z.lor (Z.land (Z.shiftl left 4) 255) (Z.shiftr z 2))) <$> a2b_from 3 (Z.land z 3) 0 false s
   else String (chr (Z.lor (Z.land (Z.shiftl left 6) 255) z)) <$> a2b_from 0 0 0 false s).
Proof.
  intros Hz. destruct (b64_value_char z Hz) as [Hv Hc]. cbn [a2b_from].
  destruct (Ascii.eqb_spec (b64_char z) "="%char) as [Heq|_]; [done|]. by rewrite Hv.
Qed.

(** The bits of two bytes, cut and put together again: a finite check. *)
Definition all_bytes : list Z := map Z.of_nat (seq 0 256).
Definition for_bytes (p : Z -> Z -> bool) : bool := forallb (fun a => forallb (p a) all_bytes) all_bytes.

Lemma all_bytes_code a : List.In (code a) all_bytes.
Proof.
  pose proof (code_bound a). apply in_map_iff. exists (Z.to_nat (code a)). split; [lia|]. apply in_seq. lia.
Qed.

Lemma for_bytes_spec p a b : for_bytes p = true -> p (code a) (code b) = true.
Proof.
  intros H. unfold for_bytes in H. rewrite forallb_forall in H.
  specialize (H _ (all_bytes_code a)). rewrite forallb_forall in H. apply H, all_bytes_code.
Qed.

Definition six (z : Z) : bool := (0 <=? z) && (z <? 64).

(** The second and third characters of a group, of two bytes each. *)
Lemma b64_second a b :
  let v := Z.lor (Z.shiftl (Z.land (code a) 3) 4) (Z.shiftr (code b) 4) in
  0 <= v < 64 /\ Z.land v 15 = Z.shiftr (code b) 4 /\
  Z.lor (Z.land (Z.shiftl (Z.shiftr (code a) 2) 2) 255) (Z.shiftr v 4) = code a.
Proof.
  pose proof (for_bytes_spec (fun a b => let v := Z.lor (Z.shiftl (Z.land a 3) 4) (Z.shiftr b 4) in
    six v && (Z.land v 15 =? Z.shiftr b 4) && (Z.lor (Z.land (Z.shiftl (Z.shiftr a 2) 2) 255) (Z.shiftr v 4) =? a))
    a b ltac:(vm_compute; reflexivity)) as H.
  cbv beta zeta in H |- *. unfold six in H. lia.
Qed.

Lemma b64_third b c :
  let v := Z.lor (Z.shiftl (Z.land (code b) 15) 2) (Z.shiftr (code c) 6) in
  0 <= v < 64 /\
  Z.lor (Z.land (Z.shiftl (Z.shiftr (code b) 4) 4) 255) (Z.shiftr v 2)
    = Z.lor (Z.land (Z.shiftl (Z.shiftr (code b) 4) 4) 255) (Z.land (code b) 15) /\
  Z.lor (Z.land (Z.shiftl (Z.shiftr (code b) 4) 4) 255) (Z.land (code b) 15) = code b /\
  0 <= Z.land (code c) 63 < 64 /\
  Z.lor (Z.land (Z.shiftl (Z.land v 3) 6) 255) (Z.land (code c) 63) = code c.
Proof.
  pose proof (for_bytes_spec (fun b c => let v := Z.lor (Z.shiftl (Z.land b 15) 2) (Z.shiftr c 6) in
    let w := Z.land (Z.shiftl (Z.shiftr b 4) 4) 255 in
    six v && (Z.lor w (Z.shiftr v 2) =? Z.lor w (Z.land b 15)) && (Z.lor w (Z.land b 15) =? b) && six (Z.land c 63) &&
    (Z.lor (Z.land (Z.shiftl (Z.land v 3) 6) 255) (Z.land c 63) =? c))
    b c ltac:(vm_compute; reflexivity)) as H.
  cbv beta zeta in H |- *. unfold six in H. lia.
Qed.

Lemma b64_first a : 0 <= Z.shiftr (code a) 2 < 64.
Proof. pose proof (code_bound a). rewrite Z.shiftr_div_pow2 by lia. change (2 ^ 2) with 4. pose proof (Z.div_mod (code a) 4 ltac:(done)). pose proof (Z.mod_pos_bound (code a) 4 ltac:(done)). lia. Qed.

Lemma b64decode_encode_from s : a2b_from 0 0 0 false (b64encode s) = Some s.
Proof.
  remember (String.length s) as n eqn:Hn. revert s Hn. induction (lt_wf n) as [n _ IH]. intros s ->.
  destruct s as [|a [|b [|c s]]]; cbn [b64encode]; [done| | |].
  - pose proof (b64_second a "000") as (Hv & _ & Ha). change (Z.shiftr (code "000") 4) with 0 in *.
    rewrite Z.lor_0_r in *. rewrite !b64_char_step by (apply b64_first || done).
    simpl. by rewrite Ha, chr_code.
  - pose proof (b64_second a b) as (Hv & Hb & Ha). pose proof (b64_third b "000") as (Hw & Hl & Hb' & _).
    change (Z.shiftr (code "000") 6) with 0 in *. rewrite Z.lor_0_r in *.
    rewrite !b64_char_step by (apply b64_first || done).
    cbn [Z.eqb Pos.eqb]. rewrite Ha, Hb, Hl, Hb', !chr_code. done.
  - pose proof (b64_second a b) as (Hv & Hb & Ha). pose proof (b64_third b c) as (Hw & Hl & Hb' & Hc & Hc').
    rewrite !b64_char_step by (apply b64_first || done).
    cbn [Z.eqb Pos.eqb]. rewrite Ha, Hb, Hl, Hb', Hc', !chr_code, (IH (String.length s)); simpl; (done || lia).
Qed.

Lemma b64encode_no_padding s : startswith "=" (b64encode s) = false.
Proof.
  destruct s as [|a s]; [done|].
  assert (exists r, b64encode (String a s) = String (b64_char (Z.shiftr (code a) 2)) r) as [r ->]
    by (destruct s as [|b [|c s]]; cbn [b64encode]; eauto).
  destruct (b64_value_char _ (b64_first a)) as [_ H]. cbn [startswith].
  destruct (Ascii.eqb_spec "="%char (b64_char (Z.shiftr (code a) 2))) as [He|_]; [by rewrite <- He in H|done].
Qed.

Lemma b64decode_encode s : b64decode (b64encode s) = Some s.
Proof. unfold b64decode. rewrite b64encode_no_padding. apply b64decode_encode_from. Qed.

(** Four characters for every three bytes begun. *)
Lemma blen_b64encode s : blen (b64encode s) = 4 * ((blen s + 2) / 3).
Proof.
  remember (String.length s) as n eqn:Hn. revert s Hn. induction (lt_wf n) as [n _ IH]. intros s ->.
  destruct s as [|a [|b [|c s]]]; [done..|]. cbn [b64encode]. rewrite !blen_cons.
  rewrite (IH (String.length s)) by (simpl; lia). pose proof (blen_pos s).
  replace (1 + (1 + (1 + blen s)) + 2) with (blen s + 2 + 1 * 3) by lia. rewrite Z.div_add by lia. lia.
Qed.

(** ** Packed integers *)

Lemma blen_pack n z : blen (pack n z) = Z.of_nat n.
Proof. induction n as [|n IH]; cbn [pack]; [done|]. rewrite blen_cons, IH. lia. Qed.

Lemma unpack_from_pack n acc z : 0 <= z < 256 ^ Z.of_nat n ->
  unpack_from acc (pack n z) = acc * 256 ^ Z.of_nat n + z.
Proof.
  intros Hz. assert (forall acc, unpack_from acc (pack n z) = acc * 256 ^ Z.of_nat n + z mod 256 ^ Z.of_nat n) as H.
  { clear. induction n as [|n IH]; intros acc; cbn [pack unpack_from].
    - rewrite Z.mod_1_r. lia.
    - rewrite IH, code_chr.
      + change 255 with (Z.ones 8). rewrite Z.land_ones, Z.shiftr_div_pow2 by lia.
        replace (2 ^ (8 * Z.of_nat n)) with (256 ^ Z.of_nat n) by (rewrite Z.pow_mul_r by lia; done).
        change (2 ^ 8) with 256. replace (Z.of_nat (S n)) with (Z.of_nat n + 1) by lia.
        rewrite Z.pow_add_r, Z.rem_mul_r by lia. change (256 ^ 1) with 256. ring.
      + change 255 with (Z.ones 8). rewrite Z.land_ones by lia. apply Z.mod_pos_bound. lia. }
  rewrite H, Z.mod_small by done. done.
Qed.

Lemma unpack_pack n z : 0 <= z < 256 ^ Z.of_nat n -> unpack (pack n z) = z.
Proof. intros Hz. unfold unpack. by rewrite unpack_from_pack. Qed.

Lemma unpack_nonneg s : 0 <= unpack s.
Proof.
  unfold unpack. assert (forall acc, 0 <= acc -> 0 <= unpack_from acc s) as H; [|by apply H].
  induction s as [|a s IH]; intros acc Ha; [exact Ha|]. apply IH. pose proof (code_bound a). lia.
Qed.

(** ** iterencode *)

Lemma cat_pieces v : cat (pieces v) = dump compact_unicode v.
Proof.
  induction v as [| | | | |l IH|l IH] using json_ind'; cbn [pieces];
    try (apply app_str_nil_r).
  - assert (forall buf, cat (list_pieces pieces buf l) =
      match l with [] => "]" | _ => buf +:+ join "," (map (dump compact_unicode) l) +:+ "]" end) as Hl.
    { induction IH as [|x l Hx _ IHl]; intros buf; cbn [list_pieces]; [done|]. rewrite cat_app, IHl.
      assert (cat (if is_container x then buf :: pieces x else [buf +:+ dump compact_unicode x])
              = buf +:+ dump compact_unicode x) as ->
        by (destruct (is_container x); cbn [cat foldr]; [by fold (cat (pieces x)); rewrite Hx|apply app_str_nil_r]).
      destruct l as [|y l]; cbn [map join]; by rewrite ?app_str_assoc. }
    destruct l as [|x l]; [done|]. by rewrite Hl.
  - set (f := fun m : string * json => dump_string false (fst m) +:+ ":" +:+ dump compact_unicode (snd m)).
    assert (forall first, cat (dict_pieces pieces first l) =
      match l with [] => "}" | _ => (if first then "" else ",") +:+ join "," (map f l) +:+ "}" end) as Hl.
    { induction IH as [|[k x] l Hx _ IHl]; intros first; cbn [dict_pieces]; [done|].
      cbn [fst snd] in Hx. rewrite !cat_app, IHl, Hx. cbn [map]. unfold f at 2. cbn [fst snd].
      destruct l as [|y l], first; cbn [map join cat foldr]; rewrite ?app_str_assoc, ?app_str_nil_r; done. }
    destruct l as [|x l]; [done|]. cbn [cat foldr]. fold (cat (dict_pieces pieces true (x :: l))). by rewrite Hl.
Qed.

Lemma cat_iterencode v : cat (iterencode v) = dumps compact_unicode v.
Proof. apply cat_pieces. Qed.

(** The text of a dictionary starts with two characters of ASCII. *)
Lemma dict_text_utf8 d : json_text (utf8_encode (dumps compact_unicode (JObj d))) = Some (dumps compact_unicode (JObj d)).
Proof.
  assert (exists a r, dumps compact_unicode (JObj d) = String "{" (String a r) /\ 0 < code a < 128) as (a & r & Ht & Ha).
  { unfold dumps. cbn [sort_keys compact_unicode sort_json dump].
    destruct (sort_members _) as [|[k x] l]; [by exists "}"%char, ""|].
    cbn [map]. destruct l; cbn [map join]; unfold dump_string; cbn [ensure_ascii compact_unicode fst snd];
      eexists dquote, _; split; reflexivity || done. }
  rewrite Ht. cbn [utf8_encode]. change (code "{" <? 128) with true. cbn iota.
  rewrite (proj2 (Z.ltb_lt _ _) (proj2 Ha)). cbn iota.
  rewrite json_text_ascii by (done || exact Ha).
  pose proof (utf8_decode_encode (String "{" (String a r))) as H. cbn [utf8_encode] in H.
  change (code "{" <? 128) with true in H. cbn iota in H. by rewrite (proj2 (Z.ltb_lt _ _) (proj2 Ha)) in H.
Qed.

Lemma loads_bytes_dumps d : json_wf (JObj d) = true ->
  loads_bytes (utf8_encode (dumps compact_unicode (JObj d))) = Some (JObj (sorted_dict d)).
Proof.
  intros Hwf. unfold loads_bytes. rewrite dict_text_utf8. cbn [mbind option_bind].
  by rewrite loads_dumps by (exact sep_ok_compact_unicode || exact Hwf).
Qed.
