(* ===== verification/Inflate.v ===== *)
(** * Compressed streams and the bounded reader on top of them

    [Zlib] is what the storage codecs use of Python's module [zlib]: a
    compressor object, and a decompressor object that is given a piece of input
    and an upper bound of output.  [ZlibLaws] states its documented behaviour:
    what a compressor wrote is inflated to what it was given, however the input
    is cut and whatever bounds are asked; a call keeps its bound and makes
    progress.  [stored_zlib] is an instance that writes zlib streams of stored
    blocks (RFC 1950, RFC 1951) and reads them.

    [inflate_next] is one step of the generator [_inflate], which
    nico/comprehensive_run_storage_dedup_v1.py and
    nico/comprehensive_run_storage_chunks_v1.py both define, [read_stream] the
    function [read] of their decoders.  The generator runs on a measure of the
    input that is left, which is proved enough. *)

From S2P Require Import Prelude PyStr PyBytes.

Class Zlib := {
  compressor : Type;
  compressobj : compressor;
  compress : compressor -> string -> compressor * string;
  flush : compressor -> string;
  decompressor : Type;
  decompressobj : decompressor;
  (** [d.decompress(s, n)]: the object afterwards and the output; [None] is
      [zlib.error]. *)
  decompress : decompressor -> string -> Z -> option (decompressor * string);
  unconsumed_tail : decompressor -> string;
  unused_data : decompressor -> string;
  eof : decompressor -> bool }.

(** The whole output for the pieces [l]. *)
Fixpoint compress_all `{Zlib} (c : compressor) (l : list string) : string :=
  match l with
  | [] => flush c
  | s :: l => let '(c, out) := compress c s in out +:+ compress_all c l
  end.

(** [inflates d s out]: given the input [s], the object yields [out] and is then
    at the end of its stream. *)
Class ZlibLaws (zlib : Zlib) := {
  inflates : decompressor -> string -> string -> Prop;
  inflates_compress : forall l, inflates decompressobj (compress_all compressobj l) (cat l);
  inflates_step : forall d s rest out n, inflates d (s +:+ rest) out -> s <> "" -> 0 < n ->
    exists d' v out', decompress d s n = Some (d', v) /\ out = v +:+ out' /\ unused_data d' = "" /\
      inflates d' (unconsumed_tail d' +:+ rest) out';
  inflates_end : forall d out, inflates d "" out -> out = "" /\ eof d = true;
  decompress_bound : forall d s n d' v, decompress d s n = Some (d', v) -> 0 < n ->
    blen v <= n /\ blen (unconsumed_tail d') <= blen s /\
    (s <> "" -> v = "" -> blen (unconsumed_tail d') < blen s) }.

Definition CHUNK_BYTES : Z := 64 * 1024.

(** ** Results that are bound to end *)

(** [r] is a value with [Q] or one of the exceptions [E]. *)
Definition yields {A} (E : exn -> Prop) (Q : A -> Prop) (r : res A) : Prop :=
  match r with Ok a => Q a | Raise e => E e end.

Lemma yields_bind {A B} E (Q : A -> Prop) (R : B -> Prop) (m : res A) f :
  yields E Q m -> (forall a, Q a -> yields E R (f a)) -> yields E R (m ≫= f).
Proof. destruct m; simpl; auto. Qed.

Lemma yields_impl {A} E (Q R : A -> Prop) (m : res A) : yields E Q m -> (forall a, Q a -> R a) -> yields E R m.
Proof. destruct m; simpl; auto. Qed.

Lemma yields_weaken {A} (E F : exn -> Prop) (Q R : A -> Prop) (m : res A) :
  yields E Q m -> (forall e, E e -> F e) -> (forall a, Q a -> R a) -> yields F R m.
Proof. destruct m; simpl; auto. Qed.

(** The code's own errors: no want of fuel, no surprise. *)
Definition ends (e : exn) : Prop := exn_class e = ValueError.
Definition clean {A} (r : res A) : Prop := forall e, r = Raise e -> ends e.

Lemma yields_ends {A} (m : res A) : clean m -> yields ends (fun a => m = Ok a) m.
Proof. destruct m as [a|e]; intros Hf; [done|by apply Hf]. Qed.

(** A loop over a list that may raise. *)
Fixpoint foldR {A B} (f : A -> B -> res B) (l : list A) (b : B) : res B :=
  match l with
  | [] => Ok b
  | x :: l => b ← f x b; foldR f l b
  end.

Lemma yields_fold {A B} E (I : list A -> B -> Prop) (f : A -> B -> res B) l b done :
  I done b -> (forall seen x b, x ∈ l -> I seen b -> yields E (I (seen ++ [x])) (f x b)) ->
  yields E (I (done ++ l)) (foldR f l b).
Proof.
  revert b done. induction l as [|x l IH]; intros b seen Hb Hf; simpl; [by rewrite app_nil_r|].
  eapply yields_bind; [apply Hf; [left|exact Hb]|]. intros b' Hb'. cbn beta in Hb'.
  replace (seen ++ x :: l) with ((seen ++ [x]) ++ l) by (by rewrite <- app_assoc).
  apply IH; [done|]. intros s y c Hy. apply Hf. by right.
Qed.

(** A list where every element suits those before it. *)
Inductive in_order {F} (ok : list F -> F -> Prop) : list F -> Prop :=
  | in_order_nil : in_order ok []
  | in_order_snoc fs f : in_order ok fs -> ok fs f -> in_order ok (fs ++ [f]).
#[export] Hint Constructors in_order : nico.

Lemma in_order_split {F} (ok : list F -> F -> Prop) pre f post : in_order ok (pre ++ f :: post) -> ok pre f.
Proof.
  remember (pre ++ f :: post) as fs eqn:He. intros H. revert post He.
  induction H as [|fs g Hfs IH Hg]; intros post He; [by destruct pre|].
  destruct post as [|x post _] using rev_ind.
  - by apply app_inj_tail in He as [-> ->].
  - change (pre ++ f :: post ++ [x]) with (pre ++ (f :: post) ++ [x]) in He. rewrite app_assoc in He.
    apply app_inj_tail in He as [-> _]. by eapply IH.
Qed.

(** ** The bounded reader *)

Section Reader.
Context `{zlib : Zlib}.

(** The generator's variables: the object, the rest of the current slice of the
    input, the slices to come, and the output so far. *)
Record source := mkSource { decoder : decompressor; chunk : string; rest : string; total : Z }.
Definition source_of (packed : string) : source := mkSource decompressobj "" packed 0.

(** To the next [yield]; [None] is the generator's end. *)
Fixpoint inflate_from (fuel : nat) (overflow : string) (limit : Z) (g : source) : res (option (string * source)) :=
  match fuel with
  | O => out_of_fuel
  | S fuel =>
      if truthy (chunk g) then
        match decompress (decoder g) (chunk g) (Z.min CHUNK_BYTES (limit - total g + 1)) with
        | None => fail ValueError "run_storage_zlib_invalid"
        | Some (d, value) =>
            let total := total g + blen value in
            if limit <? total then fail ValueError overflow
            else if truthy (unused_data d) then fail ValueError "run_storage_trailing_compressed_data"
            else
              let g := mkSource d (unconsumed_tail d) (rest g) total in
              if truthy value then Ok (Some (value, g)) else inflate_from fuel overflow limit g
        end
      else if truthy (rest g) then
        inflate_from fuel overflow limit
          (mkSource (decoder g) (str_take (Z.to_nat CHUNK_BYTES) (rest g))
             (str_drop (Z.to_nat CHUNK_BYTES) (rest g)) (total g))
      else if eof (decoder g) then Ok None
      else fail ValueError "run_storage_zlib_incomplete"
  end.

(** A step shortens the slice or takes a slice off the rest. *)
Definition input_left (g : source) : nat := (2 * String.length (chunk g) + 3 * String.length (rest g))%nat.
Definition inflate_next (overflow : string) (limit : Z) (g : source) : res (option (string * source)) :=
  inflate_from (S (input_left g)) overflow limit g.

(** The generator and the bytes it yielded that are not read yet. *)
Record stream := mkStream { gen : source; pending : string }.
Definition stream_of (packed : string) : stream := mkStream (source_of packed) "".

(** [read(count, eof_allowed=...)]: every pull adds a byte at least. *)
Fixpoint read_from (fuel : nat) (overflow incomplete : string) (limit : Z) (eof_allowed : bool) (count : Z) (s : stream)
    : res (option (string * stream)) :=
  if blen (pending s) <? count then
    match fuel with
    | O => out_of_fuel
    | S fuel =>
        pulled ← inflate_next overflow limit (gen s);
        match pulled with
        | Some (value, g) =>
            read_from fuel overflow incomplete limit eof_allowed count (mkStream g (pending s +:+ value))
        | None => if eof_allowed && negb (truthy (pending s)) then Ok None else fail ValueError incomplete
        end
    end
  else
    let n := Z.to_nat count in
    Ok (Some (str_take n (pending s), mkStream (gen s) (str_drop n (pending s)))).
Definition read_stream (overflow incomplete : string) (limit : Z) (eof_allowed : bool) (count : Z) (s : stream) :=
  read_from (Z.to_nat count) overflow incomplete limit eof_allowed count s.

(** Without [eof_allowed] nothing but bytes is returned. *)
Definition read_bytes (overflow incomplete : string) (limit count : Z) (s : stream) : res (string * stream) :=
  r ← read_stream overflow incomplete limit false count s;
  match r with Some x => Ok x | None => fail TypeError "a bytes-like object is required" end.

(** The generator run to its end. *)
Fixpoint inflate_rest (fuel : nat) (overflow : string) (limit : Z) (g : source) : res string :=
  match fuel with
  | O => out_of_fuel
  | S fuel =>
      pulled ← inflate_next overflow limit g;
      match pulled with
      | Some (value, g) => tail ← inflate_rest fuel overflow limit g; Ok (value +:+ tail)
      | None => Ok ""
      end
  end.
(** At most one piece for every byte of output. *)
Definition inflate_all (overflow : string) (limit : Z) (packed : string) : res string :=
  inflate_rest (S (Z.to_nat limit)) overflow limit (source_of packed).

(** ** Any input *)

Context {laws : ZlibLaws zlib}.

(** A pull ends, and what it yields is not empty and within the limit. *)
Lemma inflate_from_total fuel o limit g : (input_left g < fuel)%nat -> total g <= limit ->
  clean (inflate_from fuel o limit g) /\
  forall v g', inflate_from fuel o limit g = Ok (Some (v, g')) ->
    v <> "" /\ total g' = total g + blen v /\ total g' <= limit.
Proof.
  revert g. induction fuel as [|fuel IH]; intros g Hf Ht; [lia|]. cbn [inflate_from].
  destruct (truthy (chunk g)) eqn:Hc.
  - destruct (decompress _ _ _) as [[d v]|] eqn:Hd; [|split; [by intros e [= <-]|done]].
    destruct (decompress_bound _ _ _ _ _ Hd) as (Hv & Htail & Hp); [unfold CHUNK_BYTES; lia|].
    destruct (Z.ltb_spec limit (total g + blen v)) as [|Hl]; [split; [by intros e [= <-]|done]|].
    destruct (truthy (unused_data d)); [split; [by intros e [= <-]|done]|].
    destruct (truthy v) eqn:Hv'.
    + split; [by intros e [=]|]. intros v' g' [= <- <-]. apply truthy_spec in Hv'. cbn [total]. auto.
    + apply truthy_false in Hv' as ->. change (blen "") with 0 in *. rewrite !Z.add_0_r in *.
      specialize (Hp ltac:(by apply truthy_spec) eq_refl).
      apply (IH (mkSource d (unconsumed_tail d) (rest g) (total g))); [|exact Ht]. revert Hf Hp. unfold input_left, blen. cbn [chunk rest]. lia.
  - destruct (truthy (rest g)) eqn:Hr.
    + apply (IH (mkSource (decoder g) (str_take (Z.to_nat CHUNK_BYTES) (rest g))
        (str_drop (Z.to_nat CHUNK_BYTES) (rest g)) (total g))); [|exact Ht]. apply truthy_false in Hc. apply truthy_spec in Hr. revert Hf.
      unfold input_left. cbn [chunk rest]. rewrite length_str_take, length_str_drop, Hc.
      destruct (rest g); [done|]. unfold CHUNK_BYTES. cbn [String.length]. lia.
    + destruct (eof _); (split; [intros e [=]; subst; done | intros v g' [=]]).
Qed.

Lemma inflate_next_total o limit g : total g <= limit ->
  clean (inflate_next o limit g) /\
  forall v g', inflate_next o limit g = Ok (Some (v, g')) ->
    v <> "" /\ total g' = total g + blen v /\ total g' <= limit.
Proof. intros Ht. apply inflate_from_total; [lia|exact Ht]. Qed.

(** The bytes a stream may still give. *)
Definition budget (limit : Z) (s : stream) : Z := limit - total (gen s) + blen (pending s).

Lemma read_from_total fuel o i limit b count s : (Z.to_nat (count - blen (pending s)) <= fuel)%nat ->
  0 <= count -> total (gen s) <= limit ->
  clean (read_from fuel o i limit b count s) /\
  (b = false -> read_from fuel o i limit b count s <> Ok None) /\
  forall v s', read_from fuel o i limit b count s = Ok (Some (v, s')) ->
    blen v = count /\ total (gen s') <= limit /\ budget limit s' = budget limit s - count.
Proof.
  revert s. induction fuel as [|fuel IH]; intros s Hf H0 Ht; cbn [read_from];
    destruct (Z.ltb_spec (blen (pending s)) count) as [Hc|Hc]; [lia| | |].
  2:{ destruct (inflate_next_total o limit (gen s) Ht) as [Hn Hs].
      destruct (inflate_next o limit (gen s)) as [[[v g]|]|e] eqn:He; cbn [mbind res_bind].
      - destruct (Hs v g eq_refl) as (Hv & Hg & Hl).
        destruct (IH (mkStream g (pending s +:+ v))) as (IHn & IHe & IHs).
        + cbn [pending]. rewrite blen_app. pose proof (blen_pos v). rewrite <- blen_nil in Hv. lia.
        + exact H0.
        + exact Hl.
        + split; [exact IHn|]. split; [exact IHe|]. intros w s' Hw. destruct (IHs w s' Hw) as (Hw1 & Hw2 & Hw3).
          split; [done|]. split; [done|]. rewrite Hw3. unfold budget. cbn [gen pending]. rewrite blen_app. lia.
      - destruct (b && _) eqn:Hb; (split; [intros e [=]; subst; done|]); (split; [|intros v s' [=]]); [|done].
        intros ->. done.
      - split; [intros e' [= <-]; by apply Hn|]. by split. }
  all: split; [by intros e [=]|]; split; [by intros _ [=]|]; intros v s' [= <- <-]; unfold budget; cbn [gen pending]; unfold blen in *;
    rewrite length_str_take, length_str_drop; lia.
Qed.

Lemma read_total o i limit b count s : 0 <= count -> total (gen s) <= limit ->
  clean (read_stream o i limit b count s) /\
  (b = false -> read_stream o i limit b count s <> Ok None) /\
  forall v s', read_stream o i limit b count s = Ok (Some (v, s')) ->
    blen v = count /\ total (gen s') <= limit /\ budget limit s' = budget limit s - count.
Proof. intros H0 Ht. apply read_from_total; [pose proof (blen_pos (pending s)); lia|done|done]. Qed.

(** ** Streams a compressor wrote *)

Definition feeds (g : source) (out : string) : Prop := inflates (decoder g) (chunk g +:+ rest g) out.

Lemma source_of_feeds l : feeds (source_of (compress_all compressobj l)) (cat l).
Proof. apply inflates_compress. Qed.

Lemma inflate_from_ok fuel o limit g out : (input_left g < fuel)%nat -> feeds g out -> total g + blen out <= limit ->
  if truthy out then exists v g' out', inflate_from fuel o limit g = Ok (Some (v, g')) /\ v <> "" /\
    out = v +:+ out' /\ feeds g' out' /\ total g' = total g + blen v
  else inflate_from fuel o limit g = Ok None.
Proof.
  revert g. induction fuel as [|fuel IH]; intros g Hf Hg Hl; [lia|]. cbn [inflate_from].
  pose proof (blen_pos out) as Hpos. destruct (truthy (chunk g)) eqn:Hc.
  - apply truthy_spec in Hc.
    destruct (inflates_step _ _ _ _ (Z.min CHUNK_BYTES (limit - total g + 1)) Hg Hc) as (d & v & out' & Hd & -> & Hu & Hi);
      [unfold CHUNK_BYTES; lia|].
    destruct (decompress_bound _ _ _ _ _ Hd) as (_ & _ & Hp); [unfold CHUNK_BYTES; lia|].
    rewrite Hd, Hu. rewrite blen_app in Hl, Hpos. pose proof (blen_pos out').
    destruct (Z.ltb_spec limit (total g + blen v)) as [|_]; [lia|]. cbn [truthy negb String.eqb].
    change (truthy "") with false. cbn iota. destruct (truthy v) eqn:Hv.
    + rewrite truthy_app, Hv. cbn [orb]. exists v, (mkSource d (unconsumed_tail d) (rest g) (total g + blen v)), out'.
      apply truthy_spec in Hv. split; [done|]. split; [done|]. split; [done|]. split; [exact Hi|done].
    + apply truthy_false in Hv as ->. specialize (Hp Hc eq_refl).
      change (blen "") with 0 in *. rewrite !Z.add_0_r in *. cbn [String.append] in *.
      apply (IH (mkSource d (unconsumed_tail d) (rest g) (total g))); [|exact Hi|cbn [total]; lia].
      revert Hf Hp. unfold input_left, blen. cbn [chunk rest]. lia.
  - apply truthy_false in Hc. unfold feeds in Hg. rewrite Hc in Hg. cbn [String.append] in Hg.
    destruct (truthy (rest g)) eqn:Hr.
    + apply (IH (mkSource (decoder g) (str_take (Z.to_nat CHUNK_BYTES) (rest g))
        (str_drop (Z.to_nat CHUNK_BYTES) (rest g)) (total g))); [|unfold feeds; cbn [decoder chunk rest]; by rewrite str_take_drop|exact Hl].
      apply truthy_spec in Hr. revert Hf. unfold input_left. cbn [chunk rest].
      rewrite length_str_take, length_str_drop, Hc.
      destruct (rest g); [done|]. unfold CHUNK_BYTES. cbn [String.length]. lia.
    + apply truthy_false in Hr. rewrite Hr in Hg. apply inflates_end in Hg as [-> ->]. done.
Qed.

Lemma inflate_next_ok o limit g out : feeds g out -> total g + blen out <= limit ->
  if truthy out then exists v g' out', inflate_next o limit g = Ok (Some (v, g')) /\ v <> "" /\
    out = v +:+ out' /\ feeds g' out' /\ total g' = total g + blen v
  else inflate_next o limit g = Ok None.
Proof. apply inflate_from_ok. lia. Qed.

(** The bytes the stream still has to give are [out]. *)
Definition holds (limit : Z) (s : stream) (out : string) : Prop :=
  exists later, feeds (gen s) later /\ pending s +:+ later = out /\ total (gen s) + blen later <= limit.

Lemma stream_of_holds l limit : blen (cat l) <= limit ->
  holds limit (stream_of (compress_all compressobj l)) (cat l).
Proof. intros Hl. exists (cat l). split; [apply source_of_feeds|]. split; [done|]. cbn. lia. Qed.

Lemma str_split_app a b v out : a +:+ b = v +:+ out -> blen v <= blen a ->
  str_take (String.length v) a = v /\ str_drop (String.length v) a +:+ b = out.
Proof.
  revert a. induction v as [|x v IH]; intros [|y a] H Hl; unfold blen in *; simpl in *; try (done || lia).
  injection H as -> H. destruct (IH a H) as [Ht Hd]; [unfold blen; lia|]. by rewrite Ht.
Qed.

Lemma read_from_ok fuel o i limit b s v out : (Z.to_nat (blen v - blen (pending s)) <= fuel)%nat ->
  holds limit s (v +:+ out) ->
  exists s', read_from fuel o i limit b (blen v) s = Ok (Some (v, s')) /\ holds limit s' out.
Proof.
  revert s. induction fuel as [|fuel IH]; intros s Hf (later & Hg & He & Hl); cbn [read_from];
    destruct (Z.ltb_spec (blen (pending s)) (blen v)) as [Hc|Hc]; [lia| | |].
  2:{ pose proof (inflate_next_ok o limit (gen s) later Hg Hl) as Hn. destruct (truthy later) eqn:Hlt.
      - destruct Hn as (w & g & later' & -> & Hw & -> & Hg' & Ht). cbn [mbind res_bind]. apply IH.
        + cbn [pending]. rewrite blen_app. pose proof (blen_pos w). rewrite <- blen_nil in Hw. lia.
        + exists later'. cbn [gen pending]. rewrite app_str_assoc. split; [done|]. split; [done|].
          rewrite blen_app in Hl. lia.
      - apply truthy_false in Hlt as ->. exfalso. apply (f_equal blen) in He.
        rewrite !blen_app in He. pose proof (blen_pos out). unfold blen in *. simpl in *. lia. }
  all: destruct (str_split_app _ _ _ _ He Hc) as [Ht Hd]; unfold blen at 1 2; rewrite Nat2Z.id, Ht; eexists;
    (split; [done|]); exists later; cbn [gen pending]; auto.
Qed.

Lemma read_ok o i limit b n s v out : holds limit s (v +:+ out) -> n = blen v ->
  exists s', read_stream o i limit b n s = Ok (Some (v, s')) /\ holds limit s' out.
Proof. intros H ->. apply read_from_ok; [pose proof (blen_pos (pending s)); lia|exact H]. Qed.

Lemma read_end o i limit s : holds limit s "" -> read_stream o i limit true 1 s = Ok None.
Proof.
  intros (later & Hg & He & Hl). assert (pending s = "" /\ later = "") as [Hp ->] by (by destruct (pending s), later).
  unfold read_stream. change (Z.to_nat 1) with 1%nat. cbn [read_from]. rewrite Hp. change (blen "" <? 1) with true. cbn iota.
  pose proof (inflate_next_ok o limit (gen s) "" Hg Hl) as Hn. change (truthy "") with false in Hn. cbn iota in Hn.
  by rewrite Hn.
Qed.

Lemma read_bytes_ok o i limit n s v out : holds limit s (v +:+ out) -> n = blen v ->
  exists s', read_bytes o i limit n s = Ok (v, s') /\ holds limit s' out.
Proof.
  intros Hh Hn. unfold read_bytes. destruct (read_ok o i limit false n s v out Hh Hn) as (s' & -> & Hs').
  by exists s'.
Qed.

Lemma read_bytes_total o i limit n s : 0 <= n -> total (gen s) <= limit ->
  yields ends (fun '(v, s') => blen v = n /\ total (gen s') <= limit /\ budget limit s' = budget limit s - n)
    (read_bytes o i limit n s).
Proof.
  intros Hn Ht. unfold read_bytes. destruct (read_total o i limit false n s Hn Ht) as (Hf & Hne & Hs).
  eapply yields_bind; [by apply yields_ends|]. intros [[v s']|] Hx; [by apply Hs|by apply Hne in Hx].
Qed.

(** The eager generator. *)
Lemma inflate_rest_ok fuel o limit g out : (String.length out < fuel)%nat -> feeds g out -> total g + blen out <= limit ->
  inflate_rest fuel o limit g = Ok out.
Proof.
  revert g out. induction fuel as [|fuel IH]; intros g out Hf Hg Hl; [lia|]. cbn [inflate_rest].
  pose proof (inflate_next_ok o limit g out Hg Hl) as Hn. destruct (truthy out) eqn:Ho.
  - destruct Hn as (v & g' & out' & -> & Hv & -> & Hg' & Ht). cbn [mbind res_bind].
    rewrite blen_app in Hl. rewrite (IH g' out'); [done| |done|lia].
    rewrite length_str_app in Hf. destruct v; [done|]. simpl in Hf. lia.
  - apply truthy_false in Ho as ->. by rewrite Hn.
Qed.

Lemma inflate_all_ok o limit l : blen (cat l) <= limit ->
  inflate_all o limit (compress_all compressobj l) = Ok (cat l).
Proof.
  intros Hl. apply inflate_rest_ok; [unfold blen in Hl; lia|apply source_of_feeds|exact Hl].
Qed.

Lemma inflate_rest_total fuel o limit g : (Z.to_nat (limit - total g) < fuel)%nat -> total g <= limit ->
  clean (inflate_rest fuel o limit g) /\
  forall out, inflate_rest fuel o limit g = Ok out -> total g + blen out <= limit.
Proof.
  revert g. induction fuel as [|fuel IH]; intros g Hf Ht; [lia|]. cbn [inflate_rest].
  destruct (inflate_next_total o limit g Ht) as [Hn Hs].
  destruct (inflate_next o limit g) as [[[v g']|]|e] eqn:He; cbn [mbind res_bind].
  - destruct (Hs v g' eq_refl) as (Hv & Hg & Hl). rewrite <- blen_nil in Hv. pose proof (blen_pos v).
    destruct (IH g') as [IHn IHs]; [lia|done|].
    destruct (inflate_rest fuel o limit g') as [tail|e]; cbn [mbind res_bind].
    + split; [by intros e [=]|]. intros out [= <-]. specialize (IHs tail eq_refl). rewrite blen_app. lia.
    + split; [intros e' [= <-]; by apply IHn|done].
  - split; [by intros e [=]|]. intros out [= <-]. change (blen "") with 0. lia.
  - split; [intros e' [= <-]; by apply Hn|done].
Qed.
End Reader.

(** ** The bounded writer

    What the encoders of both formats write to: the compressor, the output kept,
    and the count of bytes before compression. *)

Section Writer.
Context `{zlib : Zlib}.

Record sink := mkSink { sink_compressor : compressor; packed : string; framed : Z }.
Definition empty_sink : sink := mkSink compressobj "" 0.

(** [retain] *)
Definition retain (max_compressed : Z) (data : string) (k : sink) : res sink :=
  if max_compressed <? blen (packed k) + blen data then fail ValueError "run_storage_compressed_size_limit"
  else Ok (mkSink (sink_compressor k) (packed k +:+ data) (framed k)).

(** [retain(compressor.compress(data))] *)
Definition compress_into (max_compressed : Z) (data : string) (k : sink) : res sink :=
  let '(c, out) := compress (sink_compressor k) data in
  retain max_compressed out (mkSink c (packed k) (framed k)).

(** [retain(compressor.flush())] *)
Definition flush_into (max_compressed : Z) (k : sink) : res sink :=
  retain max_compressed (flush (sink_compressor k)) k.

Definition compressed_limit (e : exn) : Prop := e = Exn ValueError "run_storage_compressed_size_limit".

(** A text of [total] bytes is refused for its length only when it is too long. *)
Definition uncompressed_limit (mu total : Z) (e : exn) : Prop :=
  e = Exn ValueError "run_storage_uncompressed_size_limit" /\ mu < total.
Definition limit_error (mu total : Z) (e : exn) : Prop := compressed_limit e \/ uncompressed_limit mu total e.

(** The sink was given the bytes [w] and nothing is lost. *)
Definition took (k : sink) (w : string) : Prop := exists parts, cat parts = w /\
  forall more, compress_all compressobj (parts ++ more) = packed k +:+ compress_all (sink_compressor k) more.

Lemma took_empty : took empty_sink "".
Proof. by exists []. Qed.

Lemma retain_spec mc data k : yields compressed_limit
  (fun k' => k' = mkSink (sink_compressor k) (packed k +:+ data) (framed k) /\ blen (packed k') <= mc) (retain mc data k).
Proof.
  unfold retain. destruct (Z.ltb_spec mc (blen (packed k) + blen data)); [done|].
  split; [done|]. cbn [packed]. by rewrite blen_app.
Qed.

Lemma compress_into_spec mc data k w : took k w ->
  yields compressed_limit (fun k' => took k' (w +:+ data) /\ framed k' = framed k) (compress_into mc data k).
Proof.
  intros (parts & <- & Hp). unfold compress_into. destruct (compress (sink_compressor k) data) as [c out] eqn:Hc.
  eapply yields_impl; [apply retain_spec|]. intros k' [-> _]. split; [|done].
  exists (parts ++ [data]). split; [by rewrite cat_snoc|]. intros more.
  rewrite <- app_assoc, Hp. cbn [app compress_all sink_compressor packed]. by rewrite Hc, app_str_assoc.
Qed.

(** What is kept at the end is the compressed form of all that was taken. *)
Lemma flush_into_spec mc k w : took k w ->
  yields compressed_limit (fun k' => exists parts, cat parts = w /\ packed k' = compress_all compressobj parts /\
    framed k' = framed k /\ blen (packed k') <= mc) (flush_into mc k).
Proof.
  intros (parts & <- & Hp). eapply yields_impl; [apply retain_spec|]. intros k' [-> Hl].
  exists parts. specialize (Hp []). rewrite app_nil_r in Hp. by rewrite Hp.
Qed.
End Writer.

(** ** Streams of stored blocks

    The compressor writes the zlib header, a stored block for every byte, and at
    the end an empty final block and the Adler-32 checksum. *)

Record adler := mkAdler { adler_a : Z; adler_b : Z }.
Definition adler_start : adler := mkAdler 1 0.
Definition adler_byte (s : adler) (c : Ascii.ascii) : adler :=
  let a := (adler_a s + code c) mod 65521 in mkAdler a ((adler_b s + a) mod 65521).
Fixpoint adler_bytes (s : adler) (t : string) : adler :=
  match t with "" => s | String c t => adler_bytes (adler_byte s c) t end.
Definition adler_value (s : adler) : Z := adler_b s * 65536 + adler_a s.

Fixpoint stored_blocks (s : string) : string :=
  match s with "" => "" | String c s => bytes_of [0; 1; 0; 254; 255] +:+ String c (stored_blocks s) end.

Record stored_compressor := mkStored { header_written : bool; written : adler }.
Definition header_if (b : bool) : string := if b then bytes_of [120; 1] else "".
Definition stored_compress (c : stored_compressor) (s : string) : stored_compressor * string :=
  (mkStored true (adler_bytes (written c) s), header_if (negb (header_written c)) +:+ stored_blocks s).
Definition stored_flush (c : stored_compressor) : string :=
  header_if (negb (header_written c)) +:+ bytes_of [1; 0; 0; 255; 255] +:+ pack 4 (adler_value (written c)).

(** Where a decompressor is: in the header, at a block, in the length of a block
    (the bytes so far), in its data, in the checksum, or at the end. *)
Inductive phase :=
  | PHeader (cmf : option Z)
  | PBlock
  | PLength (final : bool) (seen : list Z)
  | PData (final : bool) (more : Z)
  | PCheck (seen : string)
  | PEnd.

Definition block_end (final : bool) : phase := if final then PCheck "" else PBlock.
(** One byte of input: the next phase and the byte of output, if any. *)
Definition inflate_byte (p : phase) (s : adler) (c : Ascii.ascii) : option (phase * adler * string) :=
  match p with
  | PHeader None => if code c =? 120 then Some (PHeader (Some 120), s, "") else None
  | PHeader (Some cmf) =>
      if ((cmf * 256 + code c) mod 31 =? 0) && negb (Z.testbit (code c) 5) then Some (PBlock, s, "") else None
  | PBlock => if Z.land (code c) 7 <=? 1 then Some (PLength (Z.testbit (code c) 0) [], s, "") else None
  | PLength final [l0; l1; n0] =>
      let len := l1 * 256 + l0 in
      if len + (code c * 256 + n0) =? 65535
      then Some (if len =? 0 then block_end final else PData final len, s, "") else None
  | PLength final seen => Some (PLength final (seen ++ [code c]), s, "")
  | PData final more =>
      Some (if more =? 1 then block_end final else PData final (more - 1), adler_byte s c, String c "")
  | PCheck seen =>
      let seen := seen +:+ String c "" in
      if blen seen <? 4 then Some (PCheck seen, s, "")
      else if unpack seen =? adler_value s then Some (PEnd, s, "") else None
  | PEnd => None
  end.

Record stored_decompressor := mkDecomp { at_ : phase; checksum : adler; tail_ : string; unused_ : string }.

(** Bytes are taken while there are any and output may be made. *)
Fixpoint inflate_bytes (p : phase) (k : adler) (unused s : string) (n : Z) : option (stored_decompressor * string) :=
  match s with
  | "" => Some (mkDecomp p k "" unused, "")
  | String c s' =>
      match p with
      | PEnd => Some (mkDecomp PEnd k "" (unused +:+ s), "")
      | _ =>
          if n <=? 0 then Some (mkDecomp p k s unused, "")
          else
            '(p, k, out) ← inflate_byte p k c;
            '(d, v) ← inflate_bytes p k unused s' (n - blen out);
            Some (d, out +:+ v)
      end
  end.
Definition stored_decompress (d : stored_decompressor) (s : string) (n : Z) : option (stored_decompressor * string) :=
  inflate_bytes (at_ d) (checksum d) (unused_ d) s n.

#[export] Instance stored_zlib : Zlib := {
  compressor := stored_compressor;
  compressobj := mkStored false adler_start;
  compress := stored_compress;
  flush := stored_flush;
  decompressor := stored_decompressor;
  decompressobj := mkDecomp (PHeader None) adler_start "" "";
  decompress := stored_decompress;
  unconsumed_tail := tail_;
  unused_data := unused_;
  eof d := match at_ d with PEnd => true | _ => false end }.

(** All the input at once. *)
Fixpoint stored_inflates (p : phase) (k : adler) (s out : string) : Prop :=
  match s with
  | "" => p = PEnd /\ out = ""
  | String c s => exists p' k' o out', inflate_byte p k c = Some (p', k', o) /\ out = o +:+ out' /\ stored_inflates p' k' s out'
  end.

Lemma stored_inflates_step p k c s out p' k' o : inflate_byte p k c = Some (p', k', o) ->
  stored_inflates p' k' s out -> stored_inflates p k (String c s) (o +:+ out).
Proof. intros Hb Hs. exists p', k', o, out. auto. Qed.

Lemma inflate_byte_out p k c p' k' o : inflate_byte p k c = Some (p', k', o) -> 0 <= blen o <= 1.
Proof. unfold inflate_byte. intros H. repeat case_match; simplify_eq; by vm_compute. Qed.

Lemma inflate_bytes_bound p k u s n d v : inflate_bytes p k u s n = Some (d, v) -> 0 <= n ->
  blen v <= n /\ blen (tail_ d) <= blen s /\ (0 < n -> s <> "" -> blen (tail_ d) < blen s).
Proof.
  revert p k n d v. induction s as [|c s IH]; intros p k n d v; cbn [inflate_bytes].
  { intros [= <- <-] Hn. cbn [tail_]. change (blen "") with 0. split; [done|]. split; done. }
  intros H Hn. rewrite blen_cons. pose proof (blen_pos s).
  assert (p = PEnd \/ (if n <=? 0 then Some (mkDecomp p k (String c s) u, "")
          else '(p, k, out) ← inflate_byte p k c;
               '(d, v) ← inflate_bytes p k u s (n - blen out); Some (d, out +:+ v)) = Some (d, v)) as [->|H']
    by (destruct p; (by left) || (right; exact H)).
  { injection H as <- <-. cbn [tail_]. change (blen "") with 0. lia. }
  clear H. destruct (Z.leb_spec n 0) as [Hn0|Hn0].
  { injection H' as <- <-. cbn [tail_]. rewrite blen_cons. change (blen "") with 0. lia. }
  destruct (inflate_byte p k c) as [[[p' k'] o]|] eqn:Hb; [|done]. cbn [mbind option_bind] in H'.
  destruct (inflate_bytes p' k' u s (n - blen o)) as [[d' v']|] eqn:Hr; [|done]. cbn [mbind option_bind] in H'.
  injection H' as <- <-. apply inflate_byte_out in Hb. apply IH in Hr as (Hv & Ht & _); [|lia].
  rewrite blen_app. lia.
Qed.

Lemma stored_step p k u s rest out n : stored_inflates p k (s +:+ rest) out -> 0 <= n ->
  exists d v out', inflate_bytes p k u s n = Some (d, v) /\ out = v +:+ out' /\ unused_ d = u /\
    stored_inflates (at_ d) (checksum d) (tail_ d +:+ rest) out'.
Proof.
  revert p k out n. induction s as [|c s IH]; intros p k out n Hs Hn; cbn [inflate_bytes].
  { exists (mkDecomp p k "" u), "", out. auto. }
  cbn [String.append stored_inflates] in Hs. destruct Hs as (p' & k' & o & out' & Hb & -> & Hs).
  assert (p <> PEnd) as Hp by (intros ->; done).
  destruct (Z.leb_spec n 0) as [Hn0|Hn0].
  { exists (mkDecomp p k (String c s) u), "", (o +:+ out'). split; [by destruct p|].
    split; [done|]. split; [done|]. by eapply stored_inflates_step. }
  pose proof (inflate_byte_out _ _ _ _ _ _ Hb) as Ho.
  destruct (IH p' k' out' (n - blen o) Hs) as (d & v & out2 & Hd & -> & Hu & Hi); [lia|].
  exists d, (o +:+ v), out2. split.
  - rewrite Hb. cbn [mbind option_bind]. rewrite Hd. cbn [mbind option_bind]. by destruct p.
  - by rewrite app_str_assoc.
Qed.

(** What the compressor writes. *)
Lemma stored_bytes p k l s out p' k' : (fix go p k l := match l with
    | [] => Some (p, k)
    | z :: l => match inflate_byte p k (chr z) with Some (p, k, "") => go p k l | _ => None end
    end) p k l = Some (p', k') ->
  stored_inflates p' k' s out -> stored_inflates p k (bytes_of l +:+ s) out.
Proof.
  revert p k. induction l as [|z l IH]; intros p k H Hs.
  - by injection H as -> ->.
  - destruct (inflate_byte p k (chr z)) as [[[p1 k1] o]|] eqn:Hb; [|done]. destruct o; [|done].
    change (bytes_of (z :: l) +:+ s) with (String (chr z) (bytes_of l +:+ s)).
    change out with ("" +:+ out). eapply stored_inflates_step; [exact Hb|]. by apply IH.
Qed.

Lemma stored_blocks_inflate k s rest out : stored_inflates PBlock (adler_bytes k s) rest out ->
  stored_inflates PBlock k (stored_blocks s +:+ rest) (s +:+ out).
Proof.
  revert k. induction s as [|c s IH]; intros k H; [exact H|]. cbn [stored_blocks adler_bytes] in *.
  rewrite app_str_assoc. eapply stored_bytes; [reflexivity|].
  change (String c s +:+ out) with (String c "" +:+ (s +:+ out)).
  eapply stored_inflates_step; [reflexivity|]. by apply IH.
Qed.

Definition adler_ok (k : adler) : Prop := 0 <= adler_a k < 65521 /\ 0 <= adler_b k < 65521.
Lemma adler_bytes_ok k s : adler_ok k -> adler_ok (adler_bytes k s).
Proof.
  revert k. induction s as [|c s IH]; intros k H; [exact H|]. apply IH.
  split; apply Z.mod_pos_bound; lia.
Qed.

Lemma check_inflates k a b c d : unpack (String a (String b (String c (String d "")))) = adler_value k ->
  stored_inflates (PCheck "") k (String a (String b (String c (String d "")))) "".
Proof.
  intros Hu. do 3 (eexists _, _, "", ""; split; [reflexivity|]; split; [reflexivity|]).
  exists PEnd, k, "", "". split; [|done]. cbn [inflate_byte String.append].
  rewrite Hu, Z.eqb_refl. done.
Qed.

Lemma adler_inflates k : adler_ok k -> stored_inflates (PCheck "") k (pack 4 (adler_value k)) "".
Proof.
  intros [Ha Hb]. apply check_inflates, (unpack_pack 4). unfold adler_value. simpl. lia.
Qed.

Lemma header_inflates (b : bool) k s out : stored_inflates PBlock k s out ->
  stored_inflates (if b then PBlock else PHeader None) k (header_if (negb b) +:+ s) out.
Proof. destruct b; [done|]. by apply stored_bytes. Qed.

Lemma stored_compress_inflates (c : stored_compressor) l : adler_ok (written c) ->
  stored_inflates (if header_written c then PBlock else PHeader None) (written c)
    (@compress_all stored_zlib c l) (cat l).
Proof.
  revert c. induction l as [|s l IH]; intros c Hc; cbn [compress_all flush compress stored_zlib cat foldr].
  - apply header_inflates. eapply stored_bytes; [reflexivity|]. by apply adler_inflates.
  - unfold stored_compress. cbn iota zeta beta. rewrite app_str_assoc. apply header_inflates, stored_blocks_inflate.
    exact (IH (mkStored true (adler_bytes (written c) s)) (adler_bytes_ok _ _ Hc)).
Qed.

#[export] Instance stored_zlib_laws : ZlibLaws stored_zlib.
Proof.
  refine {| inflates := fun (d : @decompressor stored_zlib) s out => unused_ d = "" /\ stored_inflates (at_ d) (checksum d) s out |}.
  - intros l. split; [done|]. by apply (stored_compress_inflates (mkStored false adler_start)).
  - intros d s rest out n [Hu Hs] _ Hn. destruct (stored_step _ _ (unused_ d) s rest out n Hs) as (d' & v & out' & Hd & -> & Hu' & Hi);
      [lia|]. exists d', v, out'. split; [exact Hd|]. split; [done|]. split; [by etransitivity|]. split; [by etransitivity|exact Hi].
  - intros d out [_ [Hd ->]]. split; [done|]. cbn [eof stored_zlib]. by rewrite Hd.
  - intros d s n d' v Hd Hn. destruct (inflate_bytes_bound _ _ _ _ _ _ _ Hd) as (Hv & Ht & Hp); [lia|].
    split; [exact Hv|]. split; [exact Ht|]. intros Hs _. exact (Hp Hn Hs).
Defined.

(** What CPython answers for [zlib.compress(b"Nico", 0)]. *)
Example stored_example :
  @inflate_all stored_zlib "overflow" 4 (bytes_of [120; 1; 1; 4; 0; 251; 255; 78; 105; 99; 111; 3; 172; 1; 138]) = Ok "Nico".
Proof. vm_compute. reflexivity. Qed.
