(* ===== verification/StorageTokens.v ===== *)
(** * Stored runs with token references (nico/comprehensive_run_storage_dedup_v1.py)

    The canonical JSON of a run comes as encoder pieces.  A piece of 4096 bytes
    or more is written once and referred to afterwards; short pieces are gathered
    into literals.  [encode_tokens] compresses the frames, [decode_tokens] expands
    them under bounds.  [zlib] is the interface of Inflate. *)

From S2P Require Import Prelude PyStr Sha256 PyBytes Inflate.

Module Tokens.

Definition MAGIC : string := "NICO-JTOK1" +:+ bytes_of [0].
Definition MIN_TOKEN_BYTES : Z := 4096.
Definition MAX_DICTIONARY_BYTES : Z := 64 * 1024 * 1024.
Definition MAX_DICTIONARY_ENTRIES : Z := 16384.

Definition _frame_limit (size : Z) : Z :=
  size + 10 * (size / MIN_TOKEN_BYTES + 1) + 5 * (size / CHUNK_BYTES + 1) + blen MAGIC.

Definition frame_size_limit : string := "run_storage_token_frame_size_limit".
Definition incomplete : string := "run_storage_token_frame_incomplete".

Section Codec.
Context `{zlib : Zlib}.

(** The variables of [encode_tokens]; [hashed] is what the digest was fed. *)
Record encoder := mkEncoder {
  out : sink;
  pending : string;
  dictionary : gmap string Z;
  dictionary_bytes : Z;
  size : Z;
  hashed : string }.
Definition with_out (e : encoder) (k : sink) : encoder :=
  mkEncoder k (pending e) (dictionary e) (dictionary_bytes e) (size e) (hashed e).
Definition with_pending (e : encoder) (s : string) : encoder :=
  mkEncoder (out e) s (dictionary e) (dictionary_bytes e) (size e) (hashed e).

(** [write(data)] *)
Definition write (mu mc : Z) (data : string) (k : sink) : res sink :=
  let k := mkSink (sink_compressor k) (packed k) (framed k + blen data) in
  if _frame_limit mu <? framed k then fail ValueError frame_size_limit
  else foldR (compress_into mc) (slices (Z.to_nat CHUNK_BYTES) data) k.

Definition flush_literal (mu mc : Z) (e : encoder) : res encoder :=
  if truthy (pending e) then
    k ← write mu mc ("L" +:+ pack 4 (blen (pending e))) (out e);
    k ← write mu mc (pending e) k;
    Ok (with_pending (with_out e k) "")
  else Ok e.

(** A part of a literal. *)
Definition extend (mu mc : Z) (part : string) (e : encoder) : res encoder :=
  e ← (if CHUNK_BYTES <? blen (pending e) + blen part then flush_literal mu mc e else Ok e);
  Ok (with_pending e (pending e +:+ part)).
Definition literal (mu mc : Z) (value : string) (e : encoder) : res encoder :=
  foldR (extend mu mc) (slices (Z.to_nat CHUNK_BYTES) value) e.

(** The body of the loop over the tokens. *)
Definition encode_token (mu mc : Z) (text : string) (e : encoder) : res encoder :=
  let value := utf8_encode text in
  let e := mkEncoder (out e) (pending e) (dictionary e) (dictionary_bytes e) (size e + blen value) (hashed e) in
  if mu <? size e then fail ValueError "run_storage_uncompressed_size_limit"
  else
    let e := mkEncoder (out e) (pending e) (dictionary e) (dictionary_bytes e) (size e) (hashed e +:+ value) in
    if MIN_TOKEN_BYTES <=? blen value then
      match dictionary e !! value with
      | Some index =>
          e ← flush_literal mu mc e;
          k ← write mu mc ("R" +:+ pack 4 index) (out e);
          Ok (with_out e k)
      | None =>
          let entries := Z.of_nat (base.size (dictionary e)) in
          if (entries <? MAX_DICTIONARY_ENTRIES) && (dictionary_bytes e + blen value <=? MAX_DICTIONARY_BYTES) then
            e ← flush_literal mu mc e;
            let e := mkEncoder (out e) (pending e) (<[value := entries]> (dictionary e))
                       (dictionary_bytes e + blen value) (size e) (hashed e) in
            k ← write mu mc ("D" +:+ pack 4 (blen value)) (out e);
            k ← write mu mc value k;
            Ok (with_out e k)
          else literal mu mc value e
      end
    else literal mu mc value e.

Definition encode_tokens (tokens : list string) (max_uncompressed max_compressed : Z) : res (Z * string * string) :=
  let mu := max_uncompressed in
  let mc := max_compressed in
  k ← write mu mc MAGIC empty_sink;
  e ← foldR (encode_token mu mc) tokens (mkEncoder k "" ∅ 0 0 "");
  e ← flush_literal mu mc e;
  k ← flush_into mc (out e);
  if _frame_limit (size e) <? framed k then fail ValueError frame_size_limit
  else Ok (size e, sha256_hex (hashed e), packed k).

(** The variables of [decode_tokens]; [output] is also what the digest was fed. *)
Record decoder_state := mkDecoder {
  stream_ : stream;
  words : list string;
  words_bytes : Z;
  output : string;
  expanded : Z }.

Definition read (size : Z) (eof_allowed : bool) (count : Z) (s : stream) : res (option (string * stream)) :=
  read_stream frame_size_limit incomplete (_frame_limit size) eof_allowed count s.
Definition read_exact (size count : Z) (s : stream) : res (string * stream) :=
  read_bytes frame_size_limit incomplete (_frame_limit size) count s.

Definition emit (size : Z) (value : string) (d : decoder_state) : res decoder_state :=
  if size <? expanded d + blen value then fail ValueError "run_storage_uncompressed_size_mismatch"
  else Ok (mkDecoder (stream_ d) (words d) (words_bytes d) (output d +:+ value) (expanded d + blen value)).

Definition with_stream (d : decoder_state) (s : stream) : decoder_state :=
  mkDecoder s (words d) (words_bytes d) (output d) (expanded d).

(** A definition or a literal: the value is read after its size is checked. *)
Definition decode_value (size : Z) (define : bool) (number : Z) (d : decoder_state) : res decoder_state :=
  if size <? expanded d + number then fail ValueError "run_storage_uncompressed_size_mismatch"
  else
    '(value, s) ← read_exact size number (stream_ d);
    let d := with_stream d s in
    emit size value
      (if define then mkDecoder (stream_ d) (words d ++ [value]) (words_bytes d + number) (output d) (expanded d) else d).

(** The body of the loop; [None] is [break]. *)
Definition decode_frame (size : Z) (d : decoder_state) : res (option decoder_state) :=
  r ← read size true 1 (stream_ d);
  match r with
  | None => Ok None
  | Some (tag, s) =>
      if negb (bool_decide (tag ∈ ["L"; "D"; "R"])) then fail ValueError "run_storage_token_tag_invalid"
      else
        '(number, s) ← read_exact size 4 s;
        let number := unpack number in
        let d := with_stream d s in
        if String.eqb tag "R" then
          match words d !! Z.to_nat number with
          | None => fail ValueError "run_storage_token_reference_invalid"
          | Some value => d ← emit size value d; Ok (Some d)
          end
        else if String.eqb tag "L" then
          if negb ((0 <? number) && (number <=? CHUNK_BYTES)) then fail ValueError "run_storage_token_literal_size_invalid"
          else d ← decode_value size false number d; Ok (Some d)
        else if (number <? MIN_TOKEN_BYTES) || (MAX_DICTIONARY_BYTES <? words_bytes d + number)
                || (MAX_DICTIONARY_ENTRIES <=? Z.of_nat (length (words d)))
        then fail ValueError "run_storage_token_dictionary_limit"
        else d ← decode_value size true number d; Ok (Some d)
  end.

Fixpoint decode_frames (fuel : nat) (size : Z) (d : decoder_state) : res decoder_state :=
  match fuel with
  | O => out_of_fuel
  | S fuel =>
      r ← decode_frame size d;
      match r with Some d => decode_frames fuel size d | None => Ok d end
  end.

(** A frame takes a byte at least, and no more than the limit are inflated. *)
Definition decode_tokens (packed : string) (size : Z) (sha256 : string) : res string :=
  '(magic, s) ← read_exact size (blen MAGIC) (stream_of packed);
  if negb (String.eqb magic MAGIC) then fail ValueError "run_storage_token_magic_invalid"
  else
    d ← decode_frames (S (Z.to_nat (_frame_limit size))) size (mkDecoder s [] 0 "" 0);
    if negb (expanded d =? size) then fail ValueError "run_storage_uncompressed_size_mismatch"
    else if negb (String.eqb (sha256_hex (output d)) sha256) then fail ValueError "run_storage_sha256_mismatch"
    else Ok (output d).

(** ** The frames

    What the encoder writes after the magic, each with the text it stands for. *)

Inductive frame :=
  | Literal (s : string)
  | Define (s : string)
  | Refer (index : Z) (s : string).

Definition frame_bytes (f : frame) : string :=
  match f with
  | Literal s => "L" +:+ pack 4 (blen s) +:+ s
  | Define s => "D" +:+ pack 4 (blen s) +:+ s
  | Refer i _ => "R" +:+ pack 4 i
  end.
Definition frame_text (f : frame) : string := match f with Literal s | Define s | Refer _ s => s end.
Definition texts (fs : list frame) : string := cat (map frame_text fs).
Definition defines (fs : list frame) : list string :=
  omap (fun f => match f with Define s => Some s | _ => None end) fs.
Definition bytes_in (l : list string) : Z := blen (cat l).
Definition framing (fs : list frame) : string := MAGIC +:+ cat (map frame_bytes fs).

(** A frame the decoder accepts when [l] is defined. *)
Definition frame_ok (l : list string) (f : frame) : Prop :=
  match f with
  | Literal s => 0 < blen s <= CHUNK_BYTES
  | Define s => MIN_TOKEN_BYTES <= blen s /\ bytes_in l + blen s <= MAX_DICTIONARY_BYTES /\
      Z.of_nat (length l) < MAX_DICTIONARY_ENTRIES
  | Refer i s => 0 <= i < MAX_DICTIONARY_ENTRIES /\ l !! Z.to_nat i = Some s
  end.
Definition frames_ok : list frame -> Prop := in_order (fun fs f => frame_ok (defines fs) f).

Lemma framing_snoc fs f : framing (fs ++ [f]) = framing fs +:+ frame_bytes f.
Proof. unfold framing. by rewrite map_app, cat_app, app_str_assoc; cbn [map cat foldr]; rewrite app_str_nil_r. Qed.
Lemma texts_snoc fs f : texts (fs ++ [f]) = texts fs +:+ frame_text f.
Proof. unfold texts. rewrite map_app. apply cat_snoc. Qed.
Lemma defines_snoc fs f :
  defines (fs ++ [f]) = defines fs ++ match f with Define s => [s] | _ => [] end.
Proof. unfold defines. rewrite omap_app. by destruct f. Qed.

(** ** The encoder *)

Lemma frame_limit_mono a b : a <= b -> _frame_limit a <= _frame_limit b.
Proof.
  intros H. unfold _frame_limit, MIN_TOKEN_BYTES, CHUNK_BYTES.
  pose proof (Z.div_le_mono a b 4096 ltac:(lia) H). pose proof (Z.div_le_mono a b (64 * 1024) ltac:(lia) H). lia.
Qed.

(** The overhead [v] of framing [s] bytes, ten for every 4096 of them. *)
Lemma frame_limit_covers s v : 0 <= s -> 65536 * v <= 160 * s + 327680 -> 11 + s + v <= _frame_limit s.
Proof.
  intros Hs Hv. unfold _frame_limit, MIN_TOKEN_BYTES. change (blen MAGIC) with 11.
  pose proof (Z.div_mod s 4096 ltac:(lia)). pose proof (Z.mod_pos_bound s 4096 ltac:(lia)).
  pose proof (Z.div_pos s CHUNK_BYTES ltac:(lia) ltac:(unfold CHUNK_BYTES; lia)). lia.
Qed.

(** The encoder has written the frames [fs]. *)
Record wrote (e : encoder) (fs : list frame) : Prop := {
  wrote_out : took (out e) (framing fs);
  wrote_count : framed (out e) = blen (framing fs);
  wrote_ok : frames_ok fs;
  wrote_pending : blen (pending e) <= CHUNK_BYTES;
  wrote_words : forall v i, dictionary e !! v = Some i ->
    0 <= i < MAX_DICTIONARY_ENTRIES /\ defines fs !! Z.to_nat i = Some v;
  wrote_size : base.size (dictionary e) = length (defines fs);
  wrote_bytes : dictionary_bytes e = bytes_in (defines fs) }.

(** The framing costs no more than 10 bytes for every 4096 of text; [extra]
    pays for a literal that is cut short. *)
Definition cost (fs : list frame) (held extra : Z) : Prop :=
  65536 * (blen (framing fs) - 11 - blen (texts fs)) + 5 * held <= 160 * (blen (texts fs) + held) + extra.

Definition content (e : encoder) (fs : list frame) : string := texts fs +:+ pending e.

Lemma write_spec mu mc data k w : took k w -> framed k = blen w -> blen w + blen data <= _frame_limit mu ->
  yields compressed_limit (fun k => took k (w +:+ data) /\ framed k = blen (w +:+ data)) (write mu mc data k).
Proof.
  intros Hk Hf Hl. unfold write. cbn [framed]. destruct (Z.ltb_spec (_frame_limit mu) (framed k + blen data)); [lia|].
  destruct (slices_spec (Z.to_nat CHUNK_BYTES) data) as [Hc _]; [unfold CHUNK_BYTES; lia|].
  eapply yields_impl; [apply (yields_fold compressed_limit (fun seen k => took k (w +:+ cat seen) /\
    framed k = blen (w +:+ data)) _ _ _ [])|].
  - rewrite app_str_nil_r, blen_app. cbn [framed]. split; [exact Hk|lia].
  - intros seen x b _ [Hb Hfb]. eapply yields_impl; [by apply compress_into_spec|].
    intros k' [Hk' ->]. by rewrite cat_snoc, <- app_str_assoc.
  - cbn [app]. intros k'. by rewrite Hc.
Qed.

Definition same_input (e e' : encoder) : Prop := size e' = size e /\ hashed e' = hashed e.
Definition same_words (e e' : encoder) : Prop := dictionary e' = dictionary e /\ dictionary_bytes e' = dictionary_bytes e.

Lemma blen_frame_bytes f : blen (frame_bytes f) = 5 + match f with Refer _ _ => 0 | _ => blen (frame_text f) end.
Proof.
  destruct f; cbn [frame_bytes frame_text]; rewrite !blen_app, blen_pack; change (blen "L") with 1;
    change (blen "D") with 1; change (blen "R") with 1; lia.
Qed.

Lemma cost_snoc fs f : blen (framing (fs ++ [f])) = blen (framing fs) + blen (frame_bytes f) /\
  blen (texts (fs ++ [f])) = blen (texts fs) + blen (frame_text f).
Proof. by rewrite framing_snoc, texts_snoc, !blen_app. Qed.

Lemma cost_limit mu fs : cost fs 0 327680 -> blen (texts fs) <= mu -> blen (framing fs) <= _frame_limit mu.
Proof.
  unfold cost. intros Hc Hm. apply frame_limit_mono in Hm. pose proof (blen_pos (texts fs)).
  pose proof (frame_limit_covers (blen (texts fs)) (blen (framing fs) - 11 - blen (texts fs))). lia.
Qed.

Lemma wrote_frame e fs f k : wrote e fs -> frame_ok (defines fs) f -> (forall s, f <> Define s) ->
  took k (framing (fs ++ [f])) -> framed k = blen (framing (fs ++ [f])) ->
  forall p, blen p <= CHUNK_BYTES -> wrote (with_pending (with_out e k) p) (fs ++ [f]).
Proof.
  intros [Ho Hc Hok Hp Hw Hs Hb] Hf Hd Hk Hfk p Hpl.
  assert (defines (fs ++ [f]) = defines fs) as Hdef
    by (rewrite defines_snoc; destruct f; [apply app_nil_r|by destruct (Hd s)|apply app_nil_r]).
  split; cbn [out with_pending with_out pending dictionary dictionary_bytes]; rewrite ?Hdef; auto.
  by constructor.
Qed.

(** Two writes, of a header and of a text. *)
Lemma write_frame_spec mu mc k fs f h : took k (framing fs) -> framed k = blen (framing fs) ->
  frame_bytes f = h +:+ frame_text f -> blen (framing (fs ++ [f])) <= _frame_limit mu ->
  yields compressed_limit (fun k => took k (framing (fs ++ [f])) /\ framed k = blen (framing (fs ++ [f])))
    (k ← write mu mc h k; write mu mc (frame_text f) k).
Proof.
  intros Hk Hf Hb Hl. rewrite framing_snoc, Hb in Hl |- *. rewrite !blen_app in Hl.
  pose proof (blen_pos (frame_text f)). eapply yields_bind; [apply write_spec; [exact Hk|exact Hf|lia]|].
  intros k' [Hk' Hf']. eapply yields_impl; [apply write_spec; [exact Hk'|exact Hf'|rewrite blen_app; lia]|].
  intros k'' [Hk'' Hf'']. by rewrite app_str_assoc in Hk'', Hf''.
Qed.

Lemma flush_literal_spec mu mc e fs : wrote e fs -> cost fs (blen (pending e)) 0 -> blen (content e fs) <= mu ->
  yields compressed_limit (fun e' => exists fs', wrote e' fs' /\ pending e' = "" /\ texts fs' = content e fs /\
    same_input e e' /\ same_words e e' /\ cost fs' 0 (327680 - 5 * blen (pending e)))
    (flush_literal mu mc e).
Proof.
  intros He Hc Hl. unfold flush_literal, content in *. destruct (truthy (pending e)) eqn:Hp.
  2:{ apply truthy_false in Hp. exists fs. rewrite Hp in Hc |- *. rewrite app_str_nil_r. unfold cost in *.
      change (blen "") with 0 in *. split_and!; try done. lia. }
  destruct (cost_snoc fs (Literal (pending e))) as [Hn Ht]. rewrite blen_frame_bytes in Hn. cbn [frame_text] in Hn, Ht.
  assert (cost (fs ++ [Literal (pending e)]) 0 (327680 - 5 * blen (pending e))) as Hcost by (unfold cost in *; lia).
  assert (0 < blen (pending e)) as Hpos by (apply truthy_spec in Hp; rewrite <- blen_nil in Hp; pose proof (blen_pos (pending e)); lia).
  assert (blen (framing (fs ++ [Literal (pending e)])) <= _frame_limit mu) as Hlim.
  { apply cost_limit; [unfold cost in *; lia|]. rewrite Ht. rewrite blen_app in Hl. lia. }
  assert (frame_bytes (Literal (pending e)) = ("L" +:+ pack 4 (blen (pending e))) +:+ pending e) as Hb
    by (cbn [frame_bytes]; by rewrite app_str_assoc).
  pose proof (write_frame_spec mu mc (out e) fs (Literal (pending e)) _ (wrote_out _ _ He) (wrote_count _ _ He) Hb Hlim) as Hw.
  cbn [frame_text] in Hw. destruct (write mu mc ("L" +:+ _) (out e)) as [k|x]; [|exact Hw]. cbn [mbind res_bind] in *.
  eapply yields_bind; [exact Hw|]. intros k' [Hk Hf]. exists (fs ++ [Literal (pending e)]).
  split; [apply wrote_frame; try done; split; [done|apply He]|].
  split; [done|]. split; [by rewrite texts_snoc|]. split; [done|]. split; [done|exact Hcost].
Qed.

Definition extended (e : encoder) (fs : list frame) (s : string) (e' : encoder) : Prop :=
  exists fs', wrote e' fs' /\ cost fs' (blen (pending e')) 0 /\ content e' fs' = content e fs +:+ s /\ same_input e e'.

Lemma extend_part_spec mu mc part e fs : wrote e fs -> cost fs (blen (pending e)) 0 -> blen (content e fs) <= mu ->
  0 < blen part <= CHUNK_BYTES -> yields compressed_limit (extended e fs part) (extend mu mc part e).
Proof.
  intros He Hc Hl Hp. unfold extend. destruct (Z.ltb_spec CHUNK_BYTES (blen (pending e) + blen part)) as [Hlt|Hge].
  - eapply yields_bind; [by apply flush_literal_spec|].
    intros e' (fs' & [Ho Hco Hok Hpe Hwo Hsi Hby] & Hn & Ht & Hs & _ & Hc'). cbn [yields]. exists fs'. rewrite Hn.
    split; [split; cbn [with_pending out pending dictionary dictionary_bytes]; auto; exact (proj2 Hp)|].
    cbn [with_pending pending String.append]. split; [unfold cost, CHUNK_BYTES in *; lia|].
    unfold content. cbn [with_pending pending String.append]. by rewrite Ht.
  - cbn [mbind res_bind yields]. destruct He as [Ho Hco Hok Hpe Hwo Hsi Hby]. exists fs.
    split; [split; cbn [with_pending out pending dictionary dictionary_bytes]; auto; by rewrite blen_app|].
    cbn [with_pending pending]. rewrite blen_app. split; [unfold cost in *; lia|].
    unfold content. cbn [with_pending pending]. by rewrite app_str_assoc.
Qed.

Lemma literal_spec mu mc value e fs : wrote e fs -> cost fs (blen (pending e)) 0 ->
  blen (content e fs) + blen value <= mu -> yields compressed_limit (extended e fs value) (literal mu mc value e).
Proof.
  intros He Hc Hl. unfold literal.
  destruct (slices_spec (Z.to_nat CHUNK_BYTES) value) as [Hv Hp]; [unfold CHUNK_BYTES; lia|].
  assert (forall l seen e', Forall (fun p => 0 < blen p <= CHUNK_BYTES) l -> blen (content e fs) + blen seen + blen (cat l) <= mu ->
    extended e fs seen e' -> yields compressed_limit (extended e fs (seen +:+ cat l)) (foldR (extend mu mc) l e')) as H.
  { induction l as [|part l IH]; intros seen e' Hf Hm Hx; cbn [foldR cat foldr]; [by rewrite app_str_nil_r|].
    apply Forall_cons in Hf as [Hpart Hf]. cbn [cat foldr] in Hm. fold (cat l) in *. rewrite blen_app in Hm.
    pose proof (blen_pos (cat l)). destruct Hx as (fs' & He' & Hc' & Hct & Hs & Hh).
    eapply yields_bind; [apply (extend_part_spec mu mc part e' fs' He' Hc')|].
    - rewrite Hct, blen_app. lia.
    - exact Hpart.
    - intros e2 (fs2 & He2 & Hc2 & Hct2 & Hs2 & Hh2). rewrite <- app_str_assoc. apply IH; [done|rewrite blen_app; lia|].
      exists fs2. split; [done|]. split; [done|]. rewrite Hct2, Hct, app_str_assoc. split; [done|]. split; congruence. }
  specialize (H (slices (Z.to_nat CHUNK_BYTES) value) "" e). rewrite Hv in H. apply H.
  - exact Hp.
  - change (blen "") with 0. lia.
  - exists fs. rewrite app_str_nil_r. by split_and!.
Qed.

(** Between two tokens: the frames and the pending literal are the text so far. *)
Definition encoding (mu : Z) (text : string) (e : encoder) : Prop := exists fs,
  wrote e fs /\ cost fs (blen (pending e)) 0 /\ content e fs = text /\ hashed e = text /\ size e = blen text /\ blen text <= mu.

Lemma extended_encoding mu e e1 fs text value : extended e1 fs value e -> content e1 fs = text ->
  hashed e1 = text +:+ value -> size e1 = blen (text +:+ value) -> size e1 <= mu -> encoding mu (text +:+ value) e.
Proof.
  intros (fs' & Hw & Hc & Ht & Hs & Hh) Htx Hh1 Hs1 Hm. exists fs'.
  split; [done|]. split; [done|]. split; [by rewrite Ht, Htx|]. split; [congruence|]. split; [congruence|lia].
Qed.

(** A frame for a token of 4096 bytes or more pays for itself and for the literal
    cut short before it. *)
Lemma big_frame_cost fs f : cost fs 0 327680 -> blen (frame_bytes f) <= 5 + blen (frame_text f) ->
  MIN_TOKEN_BYTES <= blen (frame_text f) -> cost (fs ++ [f]) 0 0.
Proof. destruct (cost_snoc fs f) as [Hn Ht]. unfold cost, MIN_TOKEN_BYTES. lia. Qed.

Lemma cost_extra fs held : cost fs 0 (327680 - 5 * blen held) -> cost fs 0 327680.
Proof. unfold cost. pose proof (blen_pos held). lia. Qed.

Lemma refer_spec mu mc e fs value i : wrote e fs -> cost fs (blen (pending e)) 0 ->
  blen (content e fs) + blen value <= mu -> MIN_TOKEN_BYTES <= blen value -> dictionary e !! value = Some i ->
  yields compressed_limit (extended e fs value)
    (e ← flush_literal mu mc e; k ← write mu mc ("R" +:+ pack 4 i) (out e); Ok (with_out e k)).
Proof.
  intros He Hc Hl Hm Hi. eapply yields_bind; [apply flush_literal_spec; [exact He|exact Hc|pose proof (blen_pos value); lia]|].
  intros e1 (fs1 & He1 & Hp & Ht & Hs & [Hd Hdb] & Hc1). apply cost_extra in Hc1. set (f := Refer i value).
  assert (cost (fs1 ++ [f]) 0 0) as Hcost
    by (apply big_frame_cost; [exact Hc1|rewrite blen_frame_bytes; pose proof (blen_pos value); cbn [f frame_text]; lia|exact Hm]).
  rewrite <- Hd in Hi. pose proof (wrote_words _ _ He1 _ _ Hi) as Hok.
  change ("R" +:+ pack 4 i) with (frame_bytes f).
  eapply yields_bind; [apply (write_spec mu mc (frame_bytes f) _ _ (wrote_out _ _ He1) (wrote_count _ _ He1))|].
  - rewrite <- blen_app, <- framing_snoc. apply cost_limit; [unfold cost in *; lia|].
    rewrite texts_snoc, blen_app, Ht. exact Hl.
  - intros k. rewrite <- framing_snoc. intros [Hk Hf]. exists (fs1 ++ [f]).
    split; [apply (wrote_frame e1 fs1 f k He1 Hok ltac:(done) Hk Hf (pending e1)), (wrote_pending _ _ He1)|].
    cbn [with_out pending]. rewrite Hp. split; [exact Hcost|].
    unfold content at 1. cbn [with_out pending]. rewrite Hp, app_str_nil_r, texts_snoc, Ht. by split.
Qed.

Lemma define_spec mu mc e fs value : wrote e fs -> cost fs (blen (pending e)) 0 ->
  blen (content e fs) + blen value <= mu -> MIN_TOKEN_BYTES <= blen value -> dictionary e !! value = None ->
  Z.of_nat (base.size (dictionary e)) < MAX_DICTIONARY_ENTRIES -> dictionary_bytes e + blen value <= MAX_DICTIONARY_BYTES ->
  yields compressed_limit (extended e fs value)
    (e1 ← flush_literal mu mc e;
     let e1 := mkEncoder (out e1) (pending e1) (<[value := Z.of_nat (base.size (dictionary e))]> (dictionary e1))
                (dictionary_bytes e1 + blen value) (size e1) (hashed e1) in
     k ← write mu mc ("D" +:+ pack 4 (blen value)) (out e1); k ← write mu mc value k; Ok (with_out e1 k)).
Proof.
  intros He Hc Hl Hm Hi Hsz Hby. eapply yields_bind; [apply flush_literal_spec; [exact He|exact Hc|pose proof (blen_pos value); lia]|].
  intros e1 (fs1 & He1 & Hp & Ht & Hs & [Hd Hdb] & Hc1). apply cost_extra in Hc1. set (f := Define value). cbv zeta. cbn [out].
  assert (cost (fs1 ++ [f]) 0 0) as Hcost
    by (apply big_frame_cost; [exact Hc1|rewrite blen_frame_bytes; cbn [f frame_text]; lia|exact Hm]).
  pose proof (write_frame_spec mu mc (out e1) fs1 f ("D" +:+ pack 4 (blen value)) (wrote_out _ _ He1) (wrote_count _ _ He1)) as Hw.
  assert (frame_ok (defines fs1) f) as Hok.
  { split; [exact Hm|]. rewrite <- (wrote_bytes _ _ He1), <- (wrote_size _ _ He1), Hd, Hdb. lia. }
  specialize (Hw ltac:(cbn [frame_bytes frame_text f]; by rewrite app_str_assoc)).
  cbn [frame_text f] in Hw. fold f in Hw.
  assert (blen (framing (fs1 ++ [f])) <= _frame_limit mu) as Hlim
    by (apply cost_limit; [unfold cost in *; lia|rewrite texts_snoc, blen_app, Ht; exact Hl]).
  specialize (Hw Hlim). destruct (write mu mc ("D" +:+ _) (out e1)) as [k|x]; [|exact Hw]. cbn [mbind res_bind] in *.
  eapply yields_bind; [exact Hw|]. intros k' [Hk Hf]. exists (fs1 ++ [f]). destruct He1 as [Ho Hco Hfs Hpe Hwo Hsi Hb].
  split.
  { split; cbn [with_out out pending dictionary dictionary_bytes];
      rewrite ?(defines_snoc fs1 f : _ = _ ++ [value]); auto.
    - by constructor.
    - rewrite Hd in Hwo, Hsi |- *. intros v j. destruct (decide (v = value)) as [->|Hne].
      + rewrite lookup_insert_eq. intros [= <-].
        split; [lia|]. rewrite Nat2Z.id, Hsi, lookup_app_r by lia. by rewrite Nat.sub_diag.
      + rewrite lookup_insert_ne by done. intros Hj. destruct (Hwo v j Hj) as [Hj0 Hl2].
        split; [exact Hj0|]. by apply lookup_app_l_Some.
    - rewrite Hd in Hsi |- *. rewrite map_size_insert_None by exact Hi. rewrite length_app, Hsi. simpl. lia.
    - unfold bytes_in. rewrite cat_snoc, blen_app, Hb. done. }
  cbn [with_out pending]. rewrite Hp. split; [exact Hcost|].
  unfold content at 1. cbn [with_out pending]. rewrite ?Hp, app_str_nil_r, texts_snoc, Ht. by split.
Qed.

Lemma encode_token_spec mu mc text e before more : encoding mu before e -> 0 <= more ->
  yields (limit_error mu (blen before + blen (utf8_encode text) + more)) (encoding mu (before +:+ utf8_encode text)) (encode_token mu mc text e).
Proof.
  intros (fs & He & Hc & Hct & Hh & Hs & Hm) Hmore. unfold encode_token. cbn [size dictionary dictionary_bytes hashed out pending].
  destruct (Z.ltb_spec mu (size e + blen (utf8_encode text))) as [|Hle]; [right; split; [done|lia]|].
  set (value := utf8_encode text) in *.
  set (e1 := mkEncoder (out e) (pending e) (dictionary e) (dictionary_bytes e) (size e + blen value) (hashed e +:+ value)).
  assert (wrote e1 fs) as He1 by (destruct He; by split).
  assert (forall r, yields compressed_limit (extended e1 fs value) r -> yields (limit_error mu (blen before + blen value + more)) (encoding mu (before +:+ value)) r) as Hx.
  { intros r Hr. eapply yields_weaken; [exact Hr|by left|]. intros e' He'.
    eapply extended_encoding; [exact He'|done|..]; cbn [e1 hashed size]; rewrite ?Hh, ?blen_app; (done || lia). }
  assert (blen (content e1 fs) + blen value <= mu) as Hl by (change (content e1 fs) with (content e fs); rewrite Hct; lia).
  destruct (Z.leb_spec MIN_TOKEN_BYTES (blen value)) as [Hbig|Hsmall]; [|by apply Hx, literal_spec].
  destruct (dictionary e !! value) as [i|] eqn:Hi.
  - apply Hx. by apply (refer_spec mu mc e1 fs value i).
  - destruct ((_ <? _) && _) eqn:Hroom; [|by apply Hx, literal_spec].
    apply Hx. apply (define_spec mu mc e1 fs value He1 Hc Hl Hbig Hi); cbn [e1 dictionary dictionary_bytes]; lia.
Qed.

Lemma encode_all_spec mu mc tokens e before : encoding mu before e ->
  yields (limit_error mu (blen before + blen (utf8_encode (cat tokens)))) (encoding mu (before +:+ utf8_encode (cat tokens))) (foldR (encode_token mu mc) tokens e).
Proof.
  revert e before. induction tokens as [|text tokens IH]; intros e before He; cbn [foldR cat foldr].
  - by rewrite app_str_nil_r.
  - fold (cat tokens). rewrite utf8_encode_app, <- app_str_assoc, blen_app, Z.add_assoc.
    eapply yields_bind; [apply encode_token_spec; [exact He|apply blen_pos]|]. intros e' He'.
    rewrite <- blen_app. by apply IH.
Qed.

(** The encoder, whole. *)
Lemma encode_tokens_spec tokens mu mc : 0 <= mu ->
  yields (limit_error mu (blen (utf8_encode (cat tokens)))) (fun '(size, sha256, packed) => exists fs parts,
      frames_ok fs /\ texts fs = utf8_encode (cat tokens) /\ cat parts = framing fs /\
      packed = compress_all compressobj parts /\ size = blen (texts fs) /\ sha256 = sha256_hex (texts fs) /\
      size <= mu /\ blen packed <= mc /\ blen (framing fs) <= _frame_limit size)
    (encode_tokens tokens mu mc).
Proof.
  intros Hmu. unfold encode_tokens.
  eapply yields_bind; [eapply yields_weaken; [apply (write_spec mu mc MAGIC empty_sink "" took_empty eq_refl)|by left|intros a H; exact H]|].
  { change (blen "") with 0. pose proof (frame_limit_covers mu 0). change (blen MAGIC) with 11. lia. }
  intros k [Hk Hf]. eapply yields_bind; [apply (encode_all_spec mu mc tokens _ "")|].
  { exists []. split; [split; cbn [out pending dictionary dictionary_bytes]; try done|]; [constructor|].
    split; [by vm_compute|]. repeat (split; [done|]). change (blen "") with 0. lia. }
  intros e (fs & He & Hc & Hct & Hh & Hs & Hm). cbn [String.append] in *.
  eapply yields_bind; [eapply yields_weaken; [apply (flush_literal_spec mu mc e fs He Hc)|by left|intros a H; exact H]|].
  { by rewrite Hct. }
  intros e1 (fs1 & He1 & Hp & Ht & [Hs1 Hh1] & _ & Hc1). apply cost_extra in Hc1.
  eapply yields_bind; [eapply yields_weaken; [apply (flush_into_spec mc (out e1) _ (wrote_out _ _ He1))|by left|intros a H; exact H]|].
  intros k1 (parts & Hpt & Hpk & Hfr & Hmc).
  assert (blen (framing fs1) <= _frame_limit (size e1)) as Hlim
    by (apply cost_limit; [exact Hc1|]; rewrite Hs1, Ht, Hct; lia).
  destruct (Z.ltb_spec (_frame_limit (size e1)) (framed k1)) as [Hlt|Hge];
    [rewrite Hfr, (wrote_count _ _ He1) in Hlt; lia|].
  exists fs1, parts. rewrite Ht, Hct, Hs1, Hs, Hh1, Hh. split; [apply He1|]. repeat (split; [done|]).
  by rewrite <- Hs, <- Hs1.
Qed.

(** ** The decoder on what the encoder wrote *)

Context {laws : ZlibLaws zlib}.

(** The frames [fs] are expanded and the stream holds [later]. *)
Definition decoding (size : Z) (fs : list frame) (later : string) (d : decoder_state) : Prop :=
  words d = defines fs /\ words_bytes d = bytes_in (defines fs) /\ output d = texts fs /\
  expanded d = blen (texts fs) /\ holds (_frame_limit size) (stream_ d) later.

Lemma emit_ok size value d : expanded d + blen value <= size -> emit size value d =
  Ok (mkDecoder (stream_ d) (words d) (words_bytes d) (output d +:+ value) (expanded d + blen value)).
Proof. intros H. unfold emit. destruct (Z.ltb_spec size (expanded d + blen value)); [lia|done]. Qed.

Lemma decode_value_ok size b fs value later d : decoding size fs (value +:+ later) d ->
  blen (texts fs) + blen value <= size ->
  exists d', decode_value size b (blen value) d = Ok d' /\
    decoding size (fs ++ [if b then Define value else Literal value]) later d'.
Proof.
  intros (Hw & Hwb & Ho & He & Hh) Hl. unfold decode_value, read_exact. rewrite He.
  destruct (Z.ltb_spec size (blen (texts fs) + blen value)); [lia|].
  destruct (read_bytes_ok frame_size_limit incomplete (_frame_limit size) (blen value) (stream_ d) value later Hh eq_refl) as (s' & -> & Hs').
  cbn [mbind res_bind]. rewrite emit_ok by (destruct b; cbn [expanded with_stream]; lia). eexists. split; [done|].
  unfold decoding. rewrite defines_snoc, texts_snoc.
  destruct b; cbn [words words_bytes output expanded stream_ with_stream frame_text]; rewrite Hw, Hwb, Ho, He, blen_app;
    (split_and!; try done).
  - unfold bytes_in. by rewrite cat_snoc, blen_app.
  - by rewrite app_nil_r.
  - by rewrite app_nil_r.
Qed.

Lemma number_in_frame s : blen s <= MAX_DICTIONARY_BYTES -> unpack (pack 4 (blen s)) = blen s.
Proof. intros H. apply unpack_pack. pose proof (blen_pos s). unfold MAX_DICTIONARY_BYTES in H. simpl. lia. Qed.

Lemma decode_frame_ok size fs f later d : decoding size fs (frame_bytes f +:+ later) d -> frame_ok (defines fs) f ->
  blen (texts (fs ++ [f])) <= size ->
  exists d', decode_frame size d = Ok (Some d') /\ decoding size (fs ++ [f]) later d'.
Proof.
  intros (Hw & Hwb & Ho & He & Hh) Hok Hl. rewrite texts_snoc, blen_app in Hl.
  assert (exists tag n tail, frame_bytes f = tag +:+ pack 4 n +:+ tail /\ blen tag = 1 /\
    (match f with Literal s => tag = "L" /\ n = blen s /\ tail = s | Define s => tag = "D" /\ n = blen s /\ tail = s
     | Refer i _ => tag = "R" /\ n = i /\ tail = "" end)) as (tag & n & tail & Hfb & Htag & Hf).
  { destruct f; [exists "L"|exists "D"|exists "R"]; eexists _, _; cbn [frame_bytes]; [done..|].
    split; [by rewrite app_str_nil_r|done]. }
  rewrite Hfb, !app_str_assoc in Hh. unfold decode_frame, read, read_exact.
  destruct (read_ok frame_size_limit incomplete _ true 1 (stream_ d) tag _ Hh (eq_sym Htag)) as (s1 & -> & Hs1).
  cbn [mbind res_bind]. rewrite bool_decide_eq_true_2 by (destruct f; destruct Hf as (-> & _); set_solver). cbn [negb].
  destruct (read_bytes_ok frame_size_limit incomplete (_frame_limit size) 4 s1 (pack 4 n) _ Hs1) as (s2 & -> & Hs2); [by rewrite blen_pack|]. cbn [mbind res_bind].
  assert (forall out, decoding size fs out (with_stream d s2) <-> holds (_frame_limit size) s2 out) as Hd
    by (intros out; unfold decoding; cbn [words words_bytes output expanded stream_ with_stream]; tauto).
  destruct f as [s|s|i s]; destruct Hf as (-> & -> & ->); cbn [frame_ok frame_text] in *.
  - rewrite number_in_frame by (unfold MAX_DICTIONARY_BYTES, CHUNK_BYTES in *; lia). cbn [String.eqb Ascii.eqb Bool.eqb].
    replace ((0 <? blen s) && (blen s <=? CHUNK_BYTES)) with true by lia. cbn [negb].
    apply Hd in Hs2. destruct (decode_value_ok size false fs s later _ Hs2 ltac:(lia)) as (d' & -> & Hd'). by exists d'.
  - pose proof (blen_pos s). assert (0 <= bytes_in (defines fs)) by apply blen_pos.
    rewrite number_in_frame by lia. cbn [String.eqb Ascii.eqb Bool.eqb]. cbn [words_bytes words with_stream].
    rewrite Hw, Hwb.
    replace ((blen s <? MIN_TOKEN_BYTES) || _ || _) with false by lia.
    apply Hd in Hs2. destruct (decode_value_ok size true fs s later _ Hs2 ltac:(lia)) as (d' & -> & Hd'). by exists d'.
  - destruct Hok as [Hi Hlk]. rewrite unpack_pack by (unfold MAX_DICTIONARY_ENTRIES in Hi; simpl; lia).
    cbn [String.eqb Ascii.eqb Bool.eqb words with_stream]. rewrite Hw, Hlk.
    rewrite emit_ok by (cbn [expanded with_stream]; lia). cbn [mbind res_bind]. eexists. split; [done|].
    unfold decoding. rewrite defines_snoc, texts_snoc, app_nil_r. cbn [words words_bytes output expanded stream_ with_stream frame_text].
    rewrite Hw, Hwb, Ho, He, blen_app. cbn [String.append] in Hs2. by split_and!.
Qed.

Lemma decode_frames_ok fuel size post fs d : (length post < fuel)%nat -> frames_ok (fs ++ post) ->
  blen (texts (fs ++ post)) <= size -> decoding size fs (cat (map frame_bytes post)) d ->
  exists d', decode_frames fuel size d = Ok d' /\ decoding size (fs ++ post) "" d'.
Proof.
  revert fuel fs d. induction post as [|f post IH]; intros fuel fs d Hf Hok Hl Hd;
    (destruct fuel as [|fuel]; [simpl in Hf; lia|]); cbn [decode_frames].
  - rewrite app_nil_r. destruct Hd as (Hw & Hwb & Ho & He & Hh). unfold decode_frame, read, read_exact.
    cbn [map cat foldr] in Hh. rewrite read_end by exact Hh. cbn [mbind res_bind]. exists d. split; [done|].
    by split_and!.
  - pose proof (in_order_split _ _ _ _ Hok) as Hfok. replace (fs ++ f :: post) with ((fs ++ [f]) ++ post) in * by (by rewrite <- app_assoc).
    destruct (decode_frame_ok size fs f (cat (map frame_bytes post)) d Hd Hfok) as (d' & -> & Hd').
    { unfold texts in *. rewrite map_app, cat_app, blen_app in Hl. pose proof (blen_pos (cat (map frame_text post))). lia. }
    cbn [mbind res_bind]. apply IH; [simpl in Hf; lia|done..].
Qed.

Lemma length_frames fs : Z.of_nat (length fs) <= blen (cat (map frame_bytes fs)).
Proof.
  induction fs as [|f fs IH]; cbn [map cat foldr length]; [done|]. fold (cat (map frame_bytes fs)).
  rewrite blen_app, blen_frame_bytes. pose proof (blen_pos (frame_text f)). destruct f; lia.
Qed.

Lemma decode_compressed fs parts size : frames_ok fs -> cat parts = framing fs -> size = blen (texts fs) ->
  blen (framing fs) <= _frame_limit size ->
  decode_tokens (compress_all compressobj parts) size (sha256_hex (texts fs)) = Ok (texts fs).
Proof.
  intros Hok Hp Hs Hl. unfold decode_tokens, read_exact.
  pose proof (stream_of_holds parts (_frame_limit size)) as Hh. rewrite Hp in Hh. specialize (Hh Hl).
  destruct (read_bytes_ok frame_size_limit incomplete (_frame_limit size) (blen MAGIC) _ MAGIC _ Hh eq_refl) as (s & -> & Hs'). cbn [mbind res_bind].
  rewrite String.eqb_refl. cbn [negb].
  destruct (decode_frames_ok (S (Z.to_nat (_frame_limit size))) size fs [] (mkDecoder s [] 0 "" 0)) as (d & -> & Hd).
  - pose proof (length_frames fs). unfold framing in Hl. rewrite blen_app in Hl. change (blen MAGIC) with 11 in Hl. lia.
  - exact Hok.
  - cbn [app]. lia.
  - by split_and!.
  - destruct Hd as (_ & _ & Ho & He & _). cbn [app mbind res_bind] in *.
    rewrite He, Ho, <- Hs, Z.eqb_refl, String.eqb_refl. done.
Qed.

(** ** The decoder on any input *)

Definition bounded (size : Z) (d : decoder_state) : Prop :=
  expanded d = blen (output d) /\ total (gen (stream_ d)) <= _frame_limit size.

(** What a step leaves: the output is counted and [n] bytes of the budget spent. *)
Definition spends (size n : Z) (d d' : decoder_state) : Prop :=
  bounded size d' /\ budget (_frame_limit size) (stream_ d') <= budget (_frame_limit size) (stream_ d) - n.

Lemma emit_total size value d d0 n : expanded d = blen (output d) -> total (gen (stream_ d)) <= _frame_limit size ->
  budget (_frame_limit size) (stream_ d) <= budget (_frame_limit size) (stream_ d0) - n ->
  yields ends (spends size n d0) (emit size value d).
Proof.
  intros He Ht Hb. unfold emit. destruct (Z.ltb_spec size (expanded d + blen value)); [done|].
  split; [|exact Hb]. split; cbn [expanded output stream_]; [rewrite blen_app; lia|exact Ht].
Qed.

Lemma decode_value_total size b number d : 0 <= number -> bounded size d ->
  yields ends (spends size 0 d) (decode_value size b number d).
Proof.
  intros Hn [He Ht]. unfold decode_value, read_exact. destruct (Z.ltb_spec size (expanded d + number)); [done|].
  eapply yields_bind; [by apply read_bytes_total|]. intros [value s] (Hv & Hs & Hb).
  apply emit_total; destruct b; cbn [expanded output stream_ with_stream]; (done || lia).
Qed.

Lemma decode_frame_total size d : bounded size d ->
  yields ends (fun r => match r with Some d' => spends size 1 d d' | None => True end) (decode_frame size d).
Proof.
  intros [He Ht]. unfold decode_frame, read, read_exact.
  destruct (read_total frame_size_limit incomplete _ true 1 (stream_ d) ltac:(lia) Ht) as (Hf & _ & Hs).
  eapply yields_bind; [by apply yields_ends|]. intros [[tag s]|] Hr; [|done].
  destruct (Hs tag s Hr) as (_ & Ht1 & Hb1). destruct (negb _); [done|].
  eapply yields_bind; [by apply read_bytes_total|]. intros [number s'] (_ & Ht2 & Hb2). cbv zeta.
  pose proof (unpack_nonneg number) as Hn. set (n := unpack number) in *.
  assert (bounded size (with_stream d s')) as Hbd by (split; [exact He|exact Ht2]).
  assert (forall d', spends size 0 (with_stream d s') d' -> spends size 1 d d') as Hsp
    by (intros d' [Hd' Hb']; split; [done|]; cbn [stream_ with_stream] in Hb'; lia).
  destruct (String.eqb tag "R").
  - destruct (words _ !! _) as [value|]; [|done]. eapply yields_bind; [apply (emit_total size value _ d 1); try done|auto].
    cbn [stream_ with_stream]. lia.
  - destruct (String.eqb tag "L"); destruct (_ : bool) at 1; try done;
      (eapply yields_bind; [by apply decode_value_total|]; intros d' Hd'; by apply Hsp).
Qed.

Lemma decode_frames_total fuel size d : bounded size d -> (Z.to_nat (budget (_frame_limit size) (stream_ d)) < fuel)%nat ->
  yields ends (bounded size) (decode_frames fuel size d).
Proof.
  revert d. induction fuel as [|fuel IH]; intros d Hd Hf; [lia|]. cbn [decode_frames].
  eapply yields_bind; [by apply decode_frame_total|]. intros [d'|] Hd'; [|exact Hd].
  destruct Hd' as [Hb Hs]. apply IH; [exact Hb|]. unfold budget in *. pose proof (blen_pos (Inflate.pending (stream_ d'))).
  destruct Hb as [_ Hb]. lia.
Qed.

(** Decoding ends on every input, and what it accepts has the size and the digest
    that were claimed. *)
Lemma decode_tokens_total packed size sha256 : 0 <= size ->
  yields ends (fun text => blen text = size /\ sha256_hex text = sha256) (decode_tokens packed size sha256).
Proof.
  intros Hs. unfold decode_tokens, read_exact. assert (0 <= _frame_limit size) as Hl by (pose proof (frame_limit_covers size 0); lia).
  eapply yields_bind; [by apply read_bytes_total|]. intros [magic s] (_ & Ht & Hb).
  destruct (negb _); [done|]. eapply yields_bind; [apply decode_frames_total|].
  - by split.
  - cbn [stream_]. rewrite Hb. unfold budget. cbn [stream_of gen source_of total Inflate.pending]. change (blen MAGIC) with 11.
    change (blen "") with 0. lia.
  - intros d [He _]. destruct (Z.eqb_spec (expanded d) size) as [Hx|]; [|done]. cbn [negb].
    destruct (String.eqb_spec (sha256_hex (output d)) sha256); [|done]. split; [lia|done].
Qed.

(** Token references lose nothing, within the limits: the text of any tokens
    that [encode_tokens] accepts is what [decode_tokens] returns for its answer,
    which keeps both limits.  A refusal is for the compressed size, or for the
    uncompressed size of a text that is longer than allowed; the bound on the
    framing is never the reason. *)
Theorem token_codec tokens mu mc : 0 <= mu ->
  let text := utf8_encode (cat tokens) in
  match encode_tokens tokens mu mc with
  | Ok (size, sha256, packed) =>
      size = blen text /\ size <= mu /\ blen packed <= mc /\ sha256 = sha256_hex text /\
      decode_tokens packed size sha256 = Ok text
  | Raise e =>
      e = Exn ValueError "run_storage_compressed_size_limit" \/
      (e = Exn ValueError "run_storage_uncompressed_size_limit" /\ mu < blen text)
  end.
Proof.
  intros Hmu. pose proof (encode_tokens_spec tokens mu mc Hmu) as H.
  destruct (encode_tokens tokens mu mc) as [[[size sha256] packed]|e]; [|exact H].
  destruct H as (fs & parts & Hok & Ht & Hp & -> & -> & -> & Hm & Hmc & Hlim). rewrite Ht in *.
  repeat (split; [done|]). rewrite <- Ht. apply decode_compressed; [done..|by rewrite Ht].
Qed.

End Codec.

(** ** An example *)

Module TokensDemo.
Definition tokens : list string := ["{"; "a"; ":"; "1"; "}"].
Definition answer : Z * string * string :=
  match encode_tokens (zlib := stored_zlib) tokens 64 256 with Ok x => x | Raise _ => (0, "", "") end.
Lemma encode_tokens_demo : encode_tokens (zlib := stored_zlib) tokens 64 256 = Ok answer.
Proof. vm_compute. reflexivity. Qed.
End TokensDemo.

Lemma token_codec_witness : exists size sha256 packed,
  encode_tokens (zlib := stored_zlib) TokensDemo.tokens 64 256 = Ok (size, sha256, packed) /\
  decode_tokens (zlib := stored_zlib) packed size sha256 = Ok "{a:1}".
Proof.
  destruct TokensDemo.answer as [[size sha256] packed] eqn:Ha. exists size, sha256, packed.
  assert (encode_tokens (zlib := stored_zlib) TokensDemo.tokens 64 256 = Ok (size, sha256, packed)) as He
    by (rewrite <- Ha; exact TokensDemo.encode_tokens_demo).
  split; [exact He|].
  pose proof (token_codec (zlib := stored_zlib) TokensDemo.tokens 64 256 ltac:(lia)) as H.
  rewrite He in H. apply H.
Defined.

End Tokens.
