(* ===== verification/StorageChunks.v ===== *)
(** * Stored runs with chunk references (nico/comprehensive_run_storage_chunks_v1.py)

    The second fallback of the storage codec.  The stream of encoder pieces is
    cut where a rolling fingerprint of the pieces says so, and a chunk that was
    written before is replaced by its offset and length.  [encode_chunks] and
    [decode_chunks] are inverse whatever SHA-256 collides: a match is compared
    byte by byte.  [zlib] is the interface of Inflate. *)

From S2P Require Import Prelude PyStr Sha256 PyBytes Inflate.

Module Chunks.

Definition MAGIC : string := "NICO-JCHK1" +:+ bytes_of [0].
Definition MIN_CHUNK_BYTES : Z := 4096.
Definition MAX_INDEX_ENTRIES : Z := 131072.
Definition MAX_GEAR_ENTRIES : Z := 1024.
Definition _MASK64 : Z := Z.shiftl 1 64 - 1.

Definition _frame_limit (size : Z) : Z := size + 13 * (size / MIN_CHUNK_BYTES + 2) + blen MAGIC.

Definition frame_size_limit : string := "run_storage_chunk_frame_size_limit".
Definition incomplete : string := "run_storage_chunk_frame_incomplete".

(** ** The chunks *)

(** The variables of [_chunks]. *)
Record chunker := mkChunker {
  held : string;
  gears : gmap string Z;
  fingerprint : Z;
  taken : Z }.

Definition gear_of (value : string) : Z := Z.land ((crc32 value + 1) * 0x9E3779B185EBCA87) _MASK64.

(** [while start < len(value)]: the chunks filled up, and what is held then.  A
    step takes a byte at least. *)
Fixpoint fill (fuel : nat) (held value : string) : list string * string :=
  match fuel, value with
  | S fuel, String _ _ =>
      let count := Z.to_nat (Z.min (CHUNK_BYTES - blen held) (blen value)) in
      let held := held +:+ str_take count value in
      let value := str_drop count value in
      if blen held =? CHUNK_BYTES then let '(l, r) := fill fuel "" value in (held :: l, r)
      else fill fuel held value
  | _, _ => ([], held)
  end.

(** The body of the loop over the tokens: the chunks it yields. *)
Definition chunk_token (maximum : Z) (token : string) (c : chunker) : res (list string * chunker) :=
  let value := utf8_encode token in
  let total := taken c + blen value in
  if maximum <? total then fail ValueError "run_storage_uncompressed_size_limit"
  else
    let cached := if blen value <=? 32 then gears c !! value else None in
    let gear := match cached with Some g => g | None => gear_of value end in
    let gears := match cached with
      | Some _ => gears c
      | None => if (blen value <=? 32) && (Z.of_nat (size (gears c)) <? MAX_GEAR_ENTRIES)
                then <[value := gear]> (gears c) else gears c
      end in
    let fingerprint := Z.land (Z.shiftl (fingerprint c) 1 + gear) _MASK64 in
    let '(full, held) := fill (String.length value) (held c) value in
    if (MIN_CHUNK_BYTES <=? blen held) && (Z.land fingerprint 1023 =? 0)
    then Ok (full ++ [held], mkChunker "" gears fingerprint total)
    else Ok (full, mkChunker held gears fingerprint total).

Section Codec.
Context `{zlib : Zlib}.

(** The variables of [encode_chunks]: the digest's input, the index by digest of
    offset, offset in the spool and length, and the spool file. *)
Record encoder := mkEncoder {
  out : sink;
  hashed : string;
  index : gmap string (Z * Z * Z);
  written : Z;
  spool : string;
  spool_size : Z }.

(** [write(value)] *)
Definition write (mu mc : Z) (value : string) (k : sink) : res sink :=
  let k := mkSink (sink_compressor k) (packed k) (framed k + blen value) in
  if _frame_limit mu <? framed k then fail ValueError frame_size_limit else compress_into mc value k.

(** [seek(offset); read(count)] *)
Definition slice (offset count : Z) (s : string) : string := str_take (Z.to_nat count) (str_drop (Z.to_nat offset) s).

(** The body of the loop over the chunks.  The spool is written at its end. *)
Definition encode_chunk (mu mc : Z) (chunk : string) (e : encoder) : res encoder :=
  let count := blen chunk in
  let hashed := hashed e +:+ chunk in
  let key := sha256_hex chunk in
  let previous := index e !! key in
  let matched := match previous with
    | Some (offset, spooled, n) => if n =? count then String.eqb (slice spooled count (spool e)) chunk else false
    | None => false
    end in
  match matched, previous with
  | true, Some (offset, _, _) =>
      k ← write mu mc ("R" +:+ pack 8 offset +:+ pack 4 count) (out e);
      Ok (mkEncoder k hashed (index e) (written e + count) (spool e) (spool_size e))
  | _, _ =>
      k ← write mu mc ("L" +:+ pack 4 count) (out e);
      k ← write mu mc chunk k;
      if (MIN_CHUNK_BYTES <=? count) && bool_decide (previous = None) && (Z.of_nat (size (index e)) <? MAX_INDEX_ENTRIES)
      then
        if mu <? spool_size e + count then fail ValueError "run_storage_chunk_spool_size_limit"
        else Ok (mkEncoder k hashed (<[key := (written e, spool_size e, count)]> (index e)) (written e + count)
                   (spool e +:+ chunk) (spool_size e + count))
      else Ok (mkEncoder k hashed (index e) (written e + count) (spool e) (spool_size e))
  end.

(** The generator yields the chunks of a token before it takes the next. *)
Definition encode_step (mu mc : Z) (token : string) (s : chunker * encoder) : res (chunker * encoder) :=
  '(chunks, c) ← chunk_token mu token (fst s);
  e ← foldR (encode_chunk mu mc) chunks (snd s);
  Ok (c, e).

Definition encode_chunks (tokens : list string) (max_uncompressed max_compressed : Z) : res (Z * string * string) :=
  let mu := max_uncompressed in
  let mc := max_compressed in
  k ← write mu mc MAGIC empty_sink;
  '(c, e) ← foldR (encode_step mu mc) tokens (mkChunker "" ∅ 0 0, mkEncoder k "" ∅ 0 "" 0);
  e ← (if truthy (held c) then encode_chunk mu mc (held c) e else Ok e);
  k ← flush_into mc (out e);
  if _frame_limit (written e) <? framed k then fail ValueError frame_size_limit
  else Ok (written e, sha256_hex (hashed e), packed k).

(** ** The decoder *)

Record decoder_state := mkDecoder { stream_ : stream; output : string; expanded : Z }.

Definition read (size : Z) (eof_allowed : bool) (count : Z) (s : stream) : res (option (string * stream)) :=
  read_stream frame_size_limit incomplete (_frame_limit size) eof_allowed count s.
Definition read_exact (size count : Z) (s : stream) : res (string * stream) :=
  read_bytes frame_size_limit incomplete (_frame_limit size) count s.

(** The end of the loop's body: [offset] is [None] for a literal. *)
Definition decode_value (size : Z) (offset : option Z) (count : Z) (s : stream) (d : decoder_state) : res decoder_state :=
  if size <? expanded d + count then fail ValueError "run_storage_uncompressed_size_mismatch"
  else
    '(value, s) ← match offset with
      | None => read_exact size count s
      | Some offset =>
          let value := slice offset count (output d) in
          if negb (blen value =? count) then fail ValueError "run_storage_chunk_reference_invalid" else Ok (value, s)
      end;
    Ok (mkDecoder s (output d +:+ value) (expanded d + count)).

Definition decode_frame (size : Z) (d : decoder_state) : res (option decoder_state) :=
  r ← read size true 1 (stream_ d);
  match r with
  | None => Ok None
  | Some (tag, s) =>
      if String.eqb tag "L" then
        '(number, s) ← read_exact size 4 s;
        let count := unpack number in
        if negb ((0 <? count) && (count <=? CHUNK_BYTES)) then fail ValueError "run_storage_chunk_literal_size_invalid"
        else d ← decode_value size None count s d; Ok (Some d)
      else if String.eqb tag "R" then
        '(reference, s) ← read_exact size 12 s;
        let offset := unpack (str_take 8 reference) in
        let count := unpack (str_drop 8 reference) in
        if negb ((MIN_CHUNK_BYTES <=? count) && (count <=? CHUNK_BYTES)) || (expanded d <? offset + count)
        then fail ValueError "run_storage_chunk_reference_invalid"
        else d ← decode_value size (Some offset) count s d; Ok (Some d)
      else fail ValueError "run_storage_chunk_tag_invalid"
  end.

Fixpoint decode_frames (fuel : nat) (size : Z) (d : decoder_state) : res decoder_state :=
  match fuel with
  | O => out_of_fuel
  | S fuel =>
      r ← decode_frame size d;
      match r with Some d => decode_frames fuel size d | None => Ok d end
  end.

(** A frame takes a byte at least, and no more than the limit are inflated. *)
Definition decode_chunks (packed : string) (size : Z) (sha256 : string) : res string :=
  '(magic, s) ← read_exact size (blen MAGIC) (stream_of packed);
  if negb (String.eqb magic MAGIC) then fail ValueError "run_storage_chunk_magic_invalid"
  else
    d ← decode_frames (S (Z.to_nat (_frame_limit size))) size (mkDecoder s "" 0);
    if negb (expanded d =? size) then fail ValueError "run_storage_uncompressed_size_mismatch"
    else if negb (String.eqb (sha256_hex (output d)) sha256) then fail ValueError "run_storage_sha256_mismatch"
    else Ok (output d).

(** ** The frames *)

Inductive frame := Literal (s : string) | Refer (offset : Z) (s : string).
Definition frame_bytes (f : frame) : string :=
  match f with
  | Literal s => "L" +:+ pack 4 (blen s) +:+ s
  | Refer i s => "R" +:+ pack 8 i +:+ pack 4 (blen s)
  end.
Definition frame_text (f : frame) : string := match f with Literal s | Refer _ s => s end.
Definition texts (fs : list frame) : string := cat (map frame_text fs).
Definition framing (fs : list frame) : string := MAGIC +:+ cat (map frame_bytes fs).

(** A reference is to [s] in the text before it. *)
Definition frame_ok (text : string) (f : frame) : Prop :=
  match f with
  | Literal s => 0 < blen s <= CHUNK_BYTES
  | Refer i s => MIN_CHUNK_BYTES <= blen s <= CHUNK_BYTES /\ 0 <= i < 2 ^ 64 /\ i + blen s <= blen text /\ slice i (blen s) text = s
  end.
Definition frames_ok : list frame -> Prop := in_order (fun fs f => frame_ok (texts fs) f).

Lemma chunk_framing_snoc fs f : framing (fs ++ [f]) = framing fs +:+ frame_bytes f.
Proof. unfold framing. rewrite map_app. cbn [map]. by rewrite cat_snoc, app_str_assoc. Qed.
Lemma chunk_texts_snoc fs f : texts (fs ++ [f]) = texts fs +:+ frame_text f.
Proof. unfold texts. rewrite map_app. apply cat_snoc. Qed.

Lemma str_take_app_l n a b : (n <= String.length a)%nat -> str_take n (a +:+ b) = str_take n a.
Proof. revert a. induction n as [|n IH]; intros [|x a] H; simpl in *; [by destruct b|done|lia|]. by rewrite IH by lia. Qed.
Lemma str_drop_app_l n a b : (n <= String.length a)%nat -> str_drop n (a +:+ b) = str_drop n a +:+ b.
Proof. revert a. induction n as [|n IH]; intros [|x a] H; simpl in *; [by destruct b|done|lia|]. by rewrite IH by lia. Qed.

Lemma slice_app_l i n a b : 0 <= i -> 0 <= n -> i + n <= blen a -> slice i n (a +:+ b) = slice i n a.
Proof.
  unfold slice, blen. intros Hi Hn H. rewrite str_drop_app_l by lia.
  apply str_take_app_l. rewrite length_str_drop. lia.
Qed.
Lemma slice_end a b : slice (blen a) (blen b) (a +:+ b) = b.
Proof.
  unfold slice, blen. rewrite !Nat2Z.id, str_drop_app. rewrite <- (app_str_nil_r b) at 2. apply str_take_app.
Qed.
Lemma blen_slice i n s : 0 <= i -> 0 <= n -> i + n <= blen s -> blen (slice i n s) = n.
Proof. unfold slice, blen. intros Hi Hn H. rewrite length_str_take, length_str_drop. lia. Qed.

(** ** The chunks of a text *)

Lemma fill_spec fuel held value l r : (String.length value <= fuel)%nat -> blen held < CHUNK_BYTES ->
  fill fuel held value = (l, r) ->
  cat l +:+ r = held +:+ value /\ Forall (fun c => blen c = CHUNK_BYTES) l /\ blen r < CHUNK_BYTES.
Proof.
  revert held value l r. induction fuel as [|fuel IH]; intros held [|a value] l r Hf Hh; cbn [fill];
    try (intros [= <- <-]; by rewrite app_str_nil_r); [simpl in Hf; lia|].
  set (v := String a value) in *. set (n := Z.to_nat (Z.min (CHUNK_BYTES - blen held) (blen v))).
  assert (0 < n <= String.length v)%nat as Hn by (unfold n, v, blen in *; cbn [String.length]; lia).
  assert (String.length (str_drop n v) <= fuel)%nat as Hd by (rewrite length_str_drop; lia).
  assert (blen (held +:+ str_take n v) <= CHUNK_BYTES) as Hle
    by (rewrite blen_app; unfold blen at 2; rewrite length_str_take; unfold n; lia).
  destruct (Z.eqb_spec (blen (held +:+ str_take n v)) CHUNK_BYTES) as [He|Hne].
  - destruct (fill fuel "" (str_drop n v)) as [l' r'] eqn:Hr. intros [= <- <-].
    apply IH in Hr as (Hc & Hfa & Hr); [|done|by vm_compute]. cbn [cat foldr]. fold (cat l').
    rewrite app_str_assoc, Hc. cbn [String.append]. rewrite app_str_assoc, str_take_drop. auto.
  - intros Hr. apply IH in Hr as (Hc & Hfa & Hr); [|done|lia]. by rewrite Hc, app_str_assoc, str_take_drop.
Qed.

Lemma chunk_token_spec maximum token c : blen (held c) < CHUNK_BYTES ->
  yields (uncompressed_limit maximum (taken c + blen (utf8_encode token))) (fun '(l, c') => cat l +:+ held c' = held c +:+ utf8_encode token /\
    Forall (fun s => MIN_CHUNK_BYTES <= blen s <= CHUNK_BYTES) l /\ blen (held c') < CHUNK_BYTES /\
    taken c' = taken c + blen (utf8_encode token) /\ taken c' <= maximum) (chunk_token maximum token c).
Proof.
  intros Hh. unfold chunk_token. set (value := utf8_encode token).
  destruct (Z.ltb_spec maximum (taken c + blen value)); [done|].
  destruct (fill _ _ _) as [l r] eqn:Hf. apply fill_spec in Hf as (Hc & Hl & Hr); [|done|done].
  assert (Forall (fun s => MIN_CHUNK_BYTES <= blen s <= CHUNK_BYTES) l) as Hl'.
  { eapply Forall_impl; [exact Hl|]. intros s ->. unfold MIN_CHUNK_BYTES, CHUNK_BYTES. lia. }
  destruct (Z.leb_spec MIN_CHUNK_BYTES (blen r)) as [Hm|Hm]; cbn [andb]; [destruct (Z.land _ 1023 =? 0)|];
    cbn [yields held taken]; rewrite ?cat_snoc, ?app_str_nil_r; (split_and!; try done).
  apply Forall_app. split; [exact Hl'|]. constructor; [lia|done].
Qed.

(** ** The encoder *)

Lemma chunk_frame_limit_mono a b : a <= b -> _frame_limit a <= _frame_limit b.
Proof.
  intros H. unfold _frame_limit, MIN_CHUNK_BYTES. pose proof (Z.div_le_mono a b 4096 ltac:(lia) H). lia.
Qed.

Record encoded (e : encoder) (fs : list frame) : Prop := {
  encoded_out : took (out e) (framing fs);
  encoded_count : framed (out e) = blen (framing fs);
  encoded_ok : frames_ok fs;
  encoded_text : hashed e = texts fs;
  encoded_size : written e = blen (texts fs);
  encoded_spool : spool_size e = blen (spool e) /\ spool_size e <= written e;
  encoded_index : forall k i j n, index e !! k = Some (i, j, n) ->
    MIN_CHUNK_BYTES <= n <= CHUNK_BYTES /\ 0 <= i /\ i + n <= blen (texts fs) /\ 0 <= j /\ j + n <= blen (spool e) /\
    slice i n (texts fs) = slice j n (spool e) }.

(** All chunks but the last have 4096 bytes: the framing fits. *)
Definition cost (fs : list frame) : Prop := blen (framing fs) <= 11 + blen (texts fs) + 13 * Z.of_nat (length fs).
Definition full (fs : list frame) : Prop := 4096 * Z.of_nat (length fs) <= blen (texts fs).

Lemma chunk_blen_frame_bytes f : blen (frame_bytes f) = match f with Literal s => 5 + blen s | Refer _ _ => 13 end.
Proof.
  destruct f; cbn [frame_bytes]; rewrite !blen_app, !blen_pack; change (blen "L") with 1; change (blen "R") with 1; lia.
Qed.

Lemma chunk_cost_snoc fs f : cost fs -> cost (fs ++ [f]).
Proof.
  unfold cost. rewrite chunk_framing_snoc, chunk_texts_snoc, !blen_app, chunk_blen_frame_bytes, length_app. cbn [length].
  destruct f as [s|i s]; cbn [frame_text]; pose proof (blen_pos s); lia.
Qed.

Lemma chunk_frame_limit_covers fs s mu : cost fs -> Z.of_nat (length fs) <= s / 4096 + 2 -> blen (texts fs) <= s -> s <= mu ->
  blen (framing fs) <= _frame_limit mu.
Proof.
  intros Hc Hl Hs Hm. apply chunk_frame_limit_mono in Hm. etransitivity; [|exact Hm].
  unfold cost, _frame_limit, MIN_CHUNK_BYTES in *. change (blen MAGIC) with 11. lia.
Qed.

Lemma full_length fs s : full fs -> blen (texts fs) <= s -> Z.of_nat (length fs) <= s / 4096.
Proof. unfold full. intros Hf Hs. apply Z.div_le_lower_bound; lia. Qed.

Lemma chunk_write_spec mu mc data k w : took k w -> framed k = blen w -> blen w + blen data <= _frame_limit mu ->
  yields compressed_limit (fun k => took k (w +:+ data) /\ framed k = blen (w +:+ data)) (write mu mc data k).
Proof.
  intros Hk Hf Hl. unfold write. cbn [framed]. destruct (Z.ltb_spec (_frame_limit mu) (framed k + blen data)); [lia|].
  eapply yields_impl; [by apply compress_into_spec|]. intros k' [Hk' ->]. cbn [framed]. rewrite blen_app. split; [done|lia].
Qed.

(** What a chunk adds: one frame with its text. *)
Definition adds (fs : list frame) (chunk : string) (e : encoder) : Prop :=
  exists f, frame_text f = chunk /\ encoded e (fs ++ [f]) /\ cost (fs ++ [f]).

Lemma index_grows fs f e : encoded e fs -> forall k i j n, index e !! k = Some (i, j, n) -> forall more,
  MIN_CHUNK_BYTES <= n <= CHUNK_BYTES /\ 0 <= i /\ i + n <= blen (texts (fs ++ [f])) /\ 0 <= j /\
  j + n <= blen (spool e +:+ more) /\ slice i n (texts (fs ++ [f])) = slice j n (spool e +:+ more).
Proof.
  intros He k i j n Hk more. destruct (encoded_index _ _ He _ _ _ _ Hk) as (Hn & Hi & Hin & Hj & Hjn & Hs).
  rewrite chunk_texts_snoc, !blen_app. pose proof (blen_pos (frame_text f)). pose proof (blen_pos more).
  unfold MIN_CHUNK_BYTES in *. split_and!; try lia. by rewrite !slice_app_l by lia.
Qed.

Lemma chunk_refer_spec mu mc e fs chunk i k0 j n : encoded e fs -> cost fs -> full fs -> mu < 2 ^ 64 ->
  blen (texts fs) + blen chunk <= mu -> index e !! k0 = Some (i, j, n) -> n = blen chunk -> slice j n (spool e) = chunk ->
  yields compressed_limit (adds fs chunk)
    (k ← write mu mc ("R" +:+ pack 8 i +:+ pack 4 (blen chunk)) (out e);
     Ok (mkEncoder k (hashed e +:+ chunk) (index e) (written e + blen chunk) (spool e) (spool_size e))).
Proof.
  intros He Hc Hf Hmu Hl Hi -> Hs. set (f := Refer i chunk). pose proof (blen_pos chunk).
  destruct (encoded_index _ _ He _ _ _ _ Hi) as (Hn & Hi0 & Hin & _ & _ & Hsl).
  eapply yields_bind; [apply (chunk_write_spec mu mc (frame_bytes f) _ _ (encoded_out _ _ He) (encoded_count _ _ He))|].
  - rewrite <- blen_app, <- chunk_framing_snoc. eapply (chunk_frame_limit_covers _ mu); [by apply chunk_cost_snoc|..].
    + rewrite length_app. cbn [length]. pose proof (full_length fs mu Hf). lia.
    + rewrite chunk_texts_snoc, blen_app. exact Hl.
    + done.
  - intros k. rewrite <- chunk_framing_snoc. intros [Hk Hfr]. exists f. split; [done|]. split; [|by apply chunk_cost_snoc].
    split; cbn [out hashed index written spool spool_size].
    + exact Hk.
    + exact Hfr.
    + constructor; [apply He|]. cbn [frame_ok f]. split; [exact Hn|]. split; [lia|]. split; [exact Hin|]. congruence.
    + by rewrite (encoded_text _ _ He), chunk_texts_snoc.
    + by rewrite (encoded_size _ _ He), chunk_texts_snoc, blen_app.
    + destruct (encoded_spool _ _ He). split; [done|lia].
    + intros k1 i1 j1 n1 Hk1. pose proof (index_grows fs f e He _ _ _ _ Hk1 "") as Hx.
      by rewrite app_str_nil_r in Hx.
Qed.

Lemma chunk_literal_spec mu mc e fs chunk : encoded e fs -> cost fs -> full fs -> blen (texts fs) + blen chunk <= mu ->
  0 < blen chunk <= CHUNK_BYTES ->
  yields compressed_limit (fun k => took k (framing (fs ++ [Literal chunk])) /\ framed k = blen (framing (fs ++ [Literal chunk])))
    (k ← write mu mc ("L" +:+ pack 4 (blen chunk)) (out e); write mu mc chunk k).
Proof.
  intros He Hc Hf Hl Hp.
  assert (blen (framing (fs ++ [Literal chunk])) <= _frame_limit mu) as Hlim.
  { eapply (chunk_frame_limit_covers _ mu); [by apply chunk_cost_snoc|..].
    - rewrite length_app. cbn [length]. pose proof (full_length fs mu Hf). lia.
    - rewrite chunk_texts_snoc, blen_app. exact Hl.
    - done. }
  assert (framing (fs ++ [Literal chunk]) = (framing fs +:+ ("L" +:+ pack 4 (blen chunk))) +:+ chunk) as Hfr0
    by (rewrite chunk_framing_snoc; cbn [frame_bytes]; by rewrite !app_str_assoc).
  rewrite Hfr0 in Hlim |- *. set (h := "L" +:+ _) in *. rewrite !blen_app in Hlim.
  eapply yields_bind; [apply (chunk_write_spec mu mc h _ _ (encoded_out _ _ He) (encoded_count _ _ He)); lia|].
  intros k [Hk Hfr]. eapply yields_impl; [apply (chunk_write_spec mu mc chunk _ _ Hk Hfr); rewrite blen_app; lia|].
  auto.
Qed.

Lemma encode_chunk_spec mu mc e fs chunk : encoded e fs -> cost fs -> full fs -> mu < 2 ^ 64 ->
  blen (texts fs) + blen chunk <= mu -> 0 < blen chunk <= CHUNK_BYTES ->
  yields compressed_limit (adds fs chunk) (encode_chunk mu mc chunk e).
Proof.
  intros He Hc Hf Hmu Hl Hp. unfold encode_chunk. set (previous := index e !! sha256_hex chunk).
  assert (yields compressed_limit (adds fs chunk)
    (k ← write mu mc ("L" +:+ pack 4 (blen chunk)) (out e); k ← write mu mc chunk k;
     if (MIN_CHUNK_BYTES <=? blen chunk) && bool_decide (previous = None) && (Z.of_nat (size (index e)) <? MAX_INDEX_ENTRIES)
     then if mu <? spool_size e + blen chunk then fail ValueError "run_storage_chunk_spool_size_limit"
       else Ok (mkEncoder k (hashed e +:+ chunk) (<[sha256_hex chunk := (written e, spool_size e, blen chunk)]> (index e))
                  (written e + blen chunk) (spool e +:+ chunk) (spool_size e + blen chunk))
     else Ok (mkEncoder k (hashed e +:+ chunk) (index e) (written e + blen chunk) (spool e) (spool_size e)))) as Hlit.
  { pose proof (chunk_literal_spec mu mc e fs chunk He Hc Hf Hl Hp) as Hw.
    destruct (write mu mc ("L" +:+ _) (out e)) as [k|x]; [|exact Hw]. cbn [mbind res_bind] in *.
    eapply yields_bind; [exact Hw|]. intros k' [Hk Hfr]. destruct (encoded_spool _ _ He) as [Hsp Hsw].
    pose proof (encoded_size _ _ He) as Hwr. set (f := Literal chunk) in *.
    assert (frames_ok (fs ++ [f])) as Hok by (constructor; [apply He|exact Hp]).
    destruct (Z.leb_spec MIN_CHUNK_BYTES (blen chunk)) as [Hmin|_]; cbn [andb];
      [destruct (bool_decide (previous = None) && _)|].
    1: destruct (Z.ltb_spec mu (spool_size e + blen chunk)); [lia|].
    all: exists f; split; [done|]; split; [|by apply chunk_cost_snoc]; split; cbn [out hashed index written spool spool_size]; try done;
      try (rewrite chunk_texts_snoc, ?blen_app; by rewrite ?(encoded_text _ _ He), ?Hwr); try (rewrite ?blen_app; lia).
    - intros k1 i j n. destruct (decide (k1 = sha256_hex chunk)) as [->|Hne].
      + rewrite lookup_insert_eq. intros [= <- <- <-]. rewrite chunk_texts_snoc, !blen_app, Hwr, Hsp. cbn [f frame_text].
        pose proof (blen_pos (texts fs)). pose proof (blen_pos (spool e)). split_and!; try lia. by rewrite !slice_end.
      + rewrite lookup_insert_ne by done. intros Hk1. by apply (index_grows fs f e He _ _ _ _ Hk1).
    - intros k1 i j n Hk1. pose proof (index_grows fs f e He _ _ _ _ Hk1 "") as Hx. by rewrite app_str_nil_r in Hx.
    - intros k1 i j n Hk1. pose proof (index_grows fs f e He _ _ _ _ Hk1 "") as Hx. by rewrite app_str_nil_r in Hx. }
  destruct previous as [[[i j] n]|] eqn:Hi; [|exact Hlit].
  destruct (Z.eqb_spec n (blen chunk)) as [Hn|]; [|exact Hlit].
  destruct (String.eqb_spec (slice j (blen chunk) (spool e)) chunk) as [Hs|]; [|exact Hlit].
  apply (chunk_refer_spec mu mc e fs chunk i _ j n He Hc Hf Hmu Hl Hi Hn). by rewrite Hn.
Qed.

Lemma full_snoc fs f : full fs -> MIN_CHUNK_BYTES <= blen (frame_text f) -> full (fs ++ [f]).
Proof. unfold full, MIN_CHUNK_BYTES. rewrite chunk_texts_snoc, blen_app, length_app. cbn [length]. lia. Qed.

(** A list of full chunks. *)
Definition packed_up (fs : list frame) (e : encoder) : Prop := encoded e fs /\ cost fs /\ full fs.

Lemma encode_full_spec mu mc chunks e fs : packed_up fs e -> mu < 2 ^ 64 ->
  Forall (fun s => MIN_CHUNK_BYTES <= blen s <= CHUNK_BYTES) chunks -> blen (texts fs) + blen (cat chunks) <= mu ->
  yields compressed_limit (fun e' => exists fs', packed_up fs' e' /\ texts fs' = texts fs +:+ cat chunks)
    (foldR (encode_chunk mu mc) chunks e).
Proof.
  intros He Hmu. revert e fs He. induction chunks as [|s chunks IH]; intros e fs He Hf Hl; cbn [foldR].
  - exists fs. by rewrite app_str_nil_r.
  - apply Forall_cons in Hf as [Hs Hf]. destruct He as (He & Hc & Hfull). cbn [cat foldr] in *. fold (cat chunks) in *.
    rewrite blen_app in Hl. pose proof (blen_pos (cat chunks)).
    eapply yields_bind; [apply (encode_chunk_spec mu mc e fs s He Hc Hfull Hmu); [lia|unfold MIN_CHUNK_BYTES in Hs; lia]|].
    intros e' (f & Ht & He' & Hc'). eapply yields_impl; [apply (IH e' (fs ++ [f])); [split; [done|split; [done|]]|done|]|].
    + apply full_snoc; [done|]. rewrite Ht. lia.
    + rewrite chunk_texts_snoc, blen_app, Ht. lia.
    + intros e2 (fs2 & He2 & Ht2). exists fs2. split; [done|]. by rewrite Ht2, chunk_texts_snoc, Ht, app_str_assoc.
Qed.

(** Between two tokens. *)
Definition encoding (mu : Z) (text : string) (s : chunker * encoder) : Prop := exists fs,
  packed_up fs (snd s) /\ texts fs +:+ held (fst s) = text /\ blen (held (fst s)) < CHUNK_BYTES /\
  taken (fst s) = blen text /\ blen text <= mu.

Lemma encode_step_spec mu mc token text s more : encoding mu text s -> mu < 2 ^ 64 -> 0 <= more ->
  yields (limit_error mu (blen text + blen (utf8_encode token) + more)) (encoding mu (text +:+ utf8_encode token)) (encode_step mu mc token s).
Proof.
  intros (fs & Hp & Ht & Hh & Htk & Hm) Hmu Hmore. unfold encode_step.
  eapply yields_bind; [eapply yields_weaken; [by apply (chunk_token_spec mu token (fst s))|intros e [He Hlt]; right; split; [done|lia]|intros a H; exact H]|].
  intros [l c] (Hc & Hl & Hh' & Htk' & Hm').
  eapply yields_bind; [eapply yields_weaken; [apply (encode_full_spec mu mc l (snd s) fs Hp Hmu Hl)|by left|intros a H; exact H]|].
  - apply (f_equal blen) in Hc, Ht. rewrite !blen_app in Hc. rewrite blen_app in Ht. pose proof (blen_pos (held c)). lia.
  - intros e (fs' & Hp' & Ht'). exists fs'. cbn [fst snd]. rewrite Ht', app_str_assoc, Hc, <- app_str_assoc, Ht, blen_app.
    split_and!; try done; lia.
Qed.

Lemma chunk_encode_all_spec mu mc tokens text s : encoding mu text s -> mu < 2 ^ 64 ->
  yields (limit_error mu (blen text + blen (utf8_encode (cat tokens)))) (encoding mu (text +:+ utf8_encode (cat tokens))) (foldR (encode_step mu mc) tokens s).
Proof.
  intros Hs Hmu. revert s text Hs. induction tokens as [|t tokens IH]; intros s text Hs; cbn [foldR cat foldr].
  - by rewrite app_str_nil_r.
  - fold (cat tokens). rewrite utf8_encode_app, <- app_str_assoc, blen_app, Z.add_assoc.
    eapply yields_bind; [apply encode_step_spec; [exact Hs|exact Hmu|apply blen_pos]|]. intros s' Hs'.
    rewrite <- blen_app. by apply IH.
Qed.

Lemma encode_last_spec mu mc c e fs text : packed_up fs e -> texts fs +:+ held c = text -> blen (held c) < CHUNK_BYTES ->
  blen text <= mu -> mu < 2 ^ 64 ->
  yields compressed_limit (fun e' => exists fs', encoded e' fs' /\ cost fs' /\ texts fs' = text /\
    Z.of_nat (length fs') <= blen text / 4096 + 2)
    (if truthy (held c) then encode_chunk mu mc (held c) e else Ok e).
Proof.
  intros (He & Hc & Hf) Ht Hh Hm Hmu. assert (blen (texts fs) <= blen text) as Hle
    by (apply (f_equal blen) in Ht; rewrite blen_app in Ht; pose proof (blen_pos (held c)); lia).
  pose proof (full_length fs (blen text) Hf Hle) as Hlen. destruct (truthy (held c)) eqn:Hh0.
  - apply truthy_spec in Hh0. rewrite <- blen_nil in Hh0. pose proof (blen_pos (held c)).
    eapply yields_impl; [apply (encode_chunk_spec mu mc e fs (held c) He Hc Hf Hmu); [rewrite <- blen_app, Ht; done|lia]|].
    intros e' (f & Hft & He' & Hc'). exists (fs ++ [f]). rewrite chunk_texts_snoc, Hft, Ht, length_app. cbn [length].
    split_and!; try done. lia.
  - apply truthy_false in Hh0. exists fs. rewrite Hh0, app_str_nil_r in Ht. split_and!; try done. lia.
Qed.

(** The encoder, whole. *)
Lemma encode_chunks_spec tokens mu mc : 0 <= mu < 2 ^ 64 ->
  yields (limit_error mu (blen (utf8_encode (cat tokens)))) (fun '(size, sha256, packed) => exists fs parts,
      frames_ok fs /\ texts fs = utf8_encode (cat tokens) /\ cat parts = framing fs /\
      packed = compress_all compressobj parts /\ size = blen (texts fs) /\ sha256 = sha256_hex (texts fs) /\
      size <= mu /\ blen packed <= mc /\ blen (framing fs) <= _frame_limit size)
    (encode_chunks tokens mu mc).
Proof.
  intros Hmu. unfold encode_chunks.
  eapply yields_bind; [eapply yields_weaken; [apply (chunk_write_spec mu mc MAGIC empty_sink "" took_empty eq_refl)|by left|intros a H; exact H]|].
  { apply (chunk_frame_limit_covers [] mu); [by vm_compute|cbn [length]; pose proof (Z.div_pos mu 4096); lia|change (blen (texts [])) with 0; lia|done]. }
  intros k [Hk Hf]. eapply yields_bind; [apply (chunk_encode_all_spec mu mc tokens "")|].
  { exists []. cbn [fst snd held taken]. split; [split; [|split; by vm_compute]|split_and!; try done; change (blen "") with 0; lia].
    split; cbn [out hashed index written spool spool_size]; try done; constructor. }
  { lia. }
  intros [c e] (fs & Hp & Ht & Hh & Htk & Hm). cbn [fst snd String.append] in *.
  eapply yields_bind; [eapply yields_weaken; [apply (encode_last_spec mu mc c e fs _ Hp Ht Hh Hm); lia|by left|intros a H; exact H]|].
  intros e1 (fs1 & He1 & Hc1 & Ht1 & Hl1).
  eapply yields_bind; [eapply yields_weaken; [apply (flush_into_spec mc (out e1) _ (encoded_out _ _ He1))|by left|intros a H; exact H]|].
  intros k1 (parts & Hpt & Hpk & Hfr & Hmc).
  pose proof (encoded_size _ _ He1) as Hsz. rewrite Ht1 in Hsz.
  assert (blen (framing fs1) <= _frame_limit (written e1)) as Hlim
    by (rewrite Hsz; apply (chunk_frame_limit_covers fs1 (blen (utf8_encode (cat tokens)))); rewrite ?Ht1; done).
  destruct (Z.ltb_spec (_frame_limit (written e1)) (framed k1)) as [Hlt|Hge];
    [rewrite Hfr, (encoded_count _ _ He1) in Hlt; lia|].
  exists fs1, parts. rewrite Ht1, Hsz, (encoded_text _ _ He1), Ht1. split; [apply He1|]. repeat (split; [done|]).
  by rewrite <- Hsz.
Qed.

(** ** The decoder on what the encoder wrote *)

Context {laws : ZlibLaws zlib}.

(** The frames [fs] are expanded and the stream holds [later]. *)
Definition decoding (size : Z) (fs : list frame) (later : string) (d : decoder_state) : Prop :=
  output d = texts fs /\ expanded d = blen (texts fs) /\ holds (_frame_limit size) (stream_ d) later.

Lemma chunk_decode_value_ok size fs f s d later : output d = texts fs -> expanded d = blen (texts fs) ->
  holds (_frame_limit size) s (match f with Literal v => v | Refer _ _ => "" end +:+ later) ->
  frame_ok (texts fs) f -> blen (texts (fs ++ [f])) <= size ->
  exists d', decode_value size (match f with Literal _ => None | Refer i _ => Some i end) (blen (frame_text f)) s d = Ok d' /\
    decoding size (fs ++ [f]) later d'.
Proof.
  intros Ho He Hh Hok Hl. rewrite chunk_texts_snoc, blen_app in Hl. unfold decode_value, read_exact. rewrite He.
  destruct (Z.ltb_spec size (blen (texts fs) + blen (frame_text f))); [lia|]. destruct f as [v|i v]; cbn [frame_text] in *.
  - destruct (read_bytes_ok frame_size_limit incomplete (_frame_limit size) (blen v) s v later Hh eq_refl) as (s' & -> & Hs').
    cbn [mbind res_bind]. eexists. split; [done|]. unfold decoding. rewrite chunk_texts_snoc, blen_app, Ho. by split_and!.
  - destruct Hok as (_ & _ & _ & Hs). rewrite Ho, Hs, Z.eqb_refl. cbn [negb mbind res_bind]. eexists. split; [done|].
    unfold decoding. rewrite chunk_texts_snoc, blen_app. by split_and!.
Qed.

Lemma chunk_decode_frame_ok size fs f later d : decoding size fs (frame_bytes f +:+ later) d -> frame_ok (texts fs) f ->
  blen (texts (fs ++ [f])) <= size ->
  exists d', decode_frame size d = Ok (Some d') /\ decoding size (fs ++ [f]) later d'.
Proof.
  intros (Ho & He & Hh) Hok Hl. unfold decode_frame, read, read_exact.
  destruct f as [v|i v]; cbn [frame_bytes] in Hh; rewrite !app_str_assoc in Hh.
  - destruct (read_ok frame_size_limit incomplete _ true 1 (stream_ d) "L" _ Hh eq_refl) as (s1 & -> & Hs1). cbn [mbind res_bind].
    cbn [String.eqb Ascii.eqb Bool.eqb].
    destruct (read_bytes_ok frame_size_limit incomplete (_frame_limit size) 4 s1 (pack 4 (blen v)) _ Hs1) as (s2 & -> & Hs2);
      [by rewrite blen_pack|]. cbn [mbind res_bind].
    cbn [frame_ok] in Hok. rewrite unpack_pack by (unfold CHUNK_BYTES in Hok; simpl; lia).
    replace ((0 <? blen v) && (blen v <=? CHUNK_BYTES)) with true by lia. cbn [negb].
    destruct (chunk_decode_value_ok size fs (Literal v) s2 d later Ho He Hs2 Hok Hl) as (d' & Hd & Hd'). cbn [frame_text] in Hd.
    rewrite Hd. by exists d'.
  - destruct (read_ok frame_size_limit incomplete _ true 1 (stream_ d) "R" _ Hh eq_refl) as (s1 & -> & Hs1). cbn [mbind res_bind].
    cbn [String.eqb Ascii.eqb Bool.eqb]. rewrite <- app_str_assoc in Hs1.
    destruct (read_bytes_ok frame_size_limit incomplete (_frame_limit size) 12 s1 (pack 8 i +:+ pack 4 (blen v)) _ Hs1) as (s2 & -> & Hs2);
      [by rewrite blen_app, !blen_pack|]. cbn [mbind res_bind].
    pose proof (str_take_app (pack 8 i) (pack 4 (blen v))) as Ht. pose proof (str_drop_app (pack 8 i) (pack 4 (blen v))) as Hd.
    change (String.length (pack 8 i)) with 8%nat in Ht, Hd. rewrite Ht, Hd.
    pose proof Hok as (Hv & Hi & Hiv & _). unfold MIN_CHUNK_BYTES, CHUNK_BYTES in Hv.
    rewrite !unpack_pack by (simpl; lia). rewrite He.
    replace (negb _ || _) with false by (unfold MIN_CHUNK_BYTES, CHUNK_BYTES; lia).
    destruct (chunk_decode_value_ok size fs (Refer i v) s2 d later Ho He Hs2 Hok Hl) as (d' & Hv' & Hd'). cbn [frame_text] in Hv'.
    rewrite Hv'. by exists d'.
Qed.

Lemma chunk_decode_frames_ok fuel size post fs d : (length post < fuel)%nat -> frames_ok (fs ++ post) ->
  blen (texts (fs ++ post)) <= size -> decoding size fs (cat (map frame_bytes post)) d ->
  exists d', decode_frames fuel size d = Ok d' /\ decoding size (fs ++ post) "" d'.
Proof.
  revert fuel fs d. induction post as [|f post IH]; intros fuel fs d Hf Hok Hl Hd;
    (destruct fuel as [|fuel]; [simpl in Hf; lia|]); cbn [decode_frames].
  - rewrite app_nil_r. destruct Hd as (Ho & He & Hh). unfold decode_frame, read.
    cbn [map cat foldr] in Hh. rewrite read_end by exact Hh. cbn [mbind res_bind]. exists d. split; [done|].
    by split_and!.
  - pose proof (in_order_split _ _ _ _ Hok) as Hfok. replace (fs ++ f :: post) with ((fs ++ [f]) ++ post) in * by (by rewrite <- app_assoc).
    destruct (chunk_decode_frame_ok size fs f (cat (map frame_bytes post)) d Hd Hfok) as (d' & -> & Hd').
    { unfold texts in *. rewrite map_app, cat_app, blen_app in Hl. pose proof (blen_pos (cat (map frame_text post))). lia. }
    cbn [mbind res_bind]. apply IH; [simpl in Hf; lia|done..].
Qed.

Lemma chunk_length_frames fs : Z.of_nat (length fs) <= blen (cat (map frame_bytes fs)).
Proof.
  induction fs as [|f fs IH]; cbn [map cat foldr length]; [done|]. fold (cat (map frame_bytes fs)).
  rewrite blen_app, chunk_blen_frame_bytes. pose proof (blen_pos (frame_text f)). destruct f; cbn [frame_text] in *; lia.
Qed.

Lemma chunk_decode_compressed fs parts size : frames_ok fs -> cat parts = framing fs -> size = blen (texts fs) ->
  blen (framing fs) <= _frame_limit size ->
  decode_chunks (compress_all compressobj parts) size (sha256_hex (texts fs)) = Ok (texts fs).
Proof.
  intros Hok Hp Hs Hl. unfold decode_chunks, read_exact.
  pose proof (stream_of_holds parts (_frame_limit size)) as Hh. rewrite Hp in Hh. specialize (Hh Hl).
  destruct (read_bytes_ok frame_size_limit incomplete (_frame_limit size) (blen MAGIC) _ MAGIC _ Hh eq_refl) as (s & -> & Hs'). cbn [mbind res_bind].
  rewrite String.eqb_refl. cbn [negb].
  destruct (chunk_decode_frames_ok (S (Z.to_nat (_frame_limit size))) size fs [] (mkDecoder s "" 0)) as (d & -> & Hd).
  - pose proof (chunk_length_frames fs). unfold framing in Hl. rewrite blen_app in Hl. change (blen MAGIC) with 11 in Hl. lia.
  - exact Hok.
  - cbn [app]. lia.
  - by split_and!.
  - destruct Hd as (Ho & He & _). cbn [app mbind res_bind] in *.
    rewrite He, Ho, <- Hs, Z.eqb_refl, String.eqb_refl. done.
Qed.

(** ** The decoder on any input *)

(** What a step leaves: the output is counted and [n] bytes of the budget spent. *)
Definition bounded (size : Z) (d : decoder_state) : Prop :=
  expanded d = blen (output d) /\ total (gen (stream_ d)) <= _frame_limit size.

Lemma chunk_decode_value_total size o count s d : 0 <= count -> expanded d = blen (output d) -> total (gen s) <= _frame_limit size ->
  yields ends (fun d' => bounded size d' /\ budget (_frame_limit size) (stream_ d') <= budget (_frame_limit size) s)
    (decode_value size o count s d).
Proof.
  intros Hn He Ht. unfold decode_value, read_exact. destruct (Z.ltb_spec size (expanded d + count)); [done|].
  assert (forall value s', blen value = count -> total (gen s') <= _frame_limit size ->
    budget (_frame_limit size) s' <= budget (_frame_limit size) s ->
    yields ends (fun d' => bounded size d' /\ budget (_frame_limit size) (stream_ d') <= budget (_frame_limit size) s)
      (Ok (mkDecoder s' (output d +:+ value) (expanded d + count)))) as Hx.
  { intros value s' Hv Ht' Hb. split; [split; [cbn [expanded output]; rewrite blen_app; lia|exact Ht']|exact Hb]. }
  destruct o as [i|].
  - destruct (Z.eqb_spec (blen (slice i count (output d))) count) as [Hv|]; [|done]. cbn [negb mbind res_bind].
    apply Hx; [exact Hv|exact Ht|lia].
  - eapply yields_bind; [by apply read_bytes_total|]. intros [value s'] (Hv & Ht' & Hb). apply Hx; [done|done|lia].
Qed.

Lemma chunk_decode_frame_total size d : bounded size d ->
  yields ends (fun r => match r with
    | Some d' => bounded size d' /\ budget (_frame_limit size) (stream_ d') <= budget (_frame_limit size) (stream_ d) - 1
    | None => True end) (decode_frame size d).
Proof.
  intros [He Ht]. unfold decode_frame, read, read_exact.
  destruct (read_total frame_size_limit incomplete _ true 1 (stream_ d) ltac:(lia) Ht) as (Hf & _ & Hs).
  eapply yields_bind; [by apply yields_ends|]. intros [[tag s]|] Hr; [|done].
  destruct (Hs tag s Hr) as (_ & Ht1 & Hb1).
  destruct (String.eqb tag "L"); [|destruct (String.eqb tag "R"); [|done]].
  all: eapply yields_bind; [by apply read_bytes_total|]; intros [number s'] (_ & Ht2 & Hb2); cbv zeta;
    destruct (_ : bool) at 1; try done; (eapply yields_bind; [apply chunk_decode_value_total; [apply unpack_nonneg|done|done]|]);
    intros d' [Hd' Hb']; (split; [done|lia]).
Qed.

Lemma chunk_decode_frames_total fuel size d : bounded size d -> (Z.to_nat (budget (_frame_limit size) (stream_ d)) < fuel)%nat ->
  yields ends (bounded size) (decode_frames fuel size d).
Proof.
  revert d. induction fuel as [|fuel IH]; intros d Hd Hf; [lia|]. cbn [decode_frames].
  eapply yields_bind; [by apply chunk_decode_frame_total|]. intros [d'|] Hd'; [|exact Hd].
  destruct Hd' as [Hb Hs]. apply IH; [exact Hb|]. unfold budget in *. pose proof (blen_pos (pending (stream_ d'))).
  destruct Hb as [_ Hb]. lia.
Qed.

(** Decoding ends on every input, and what it accepts has the size and the digest
    that were claimed. *)
Lemma decode_chunks_total packed size sha256 : 0 <= size ->
  yields ends (fun text => blen text = size /\ sha256_hex text = sha256) (decode_chunks packed size sha256).
Proof.
  intros Hs. unfold decode_chunks, read_exact.
  assert (0 <= _frame_limit size) as Hl
    by (unfold _frame_limit, MIN_CHUNK_BYTES; change (blen MAGIC) with 11; pose proof (Z.div_pos size 4096); lia).
  eapply yields_bind; [by apply read_bytes_total|]. intros [magic s] (_ & Ht & Hb).
  destruct (negb _); [done|]. eapply yields_bind; [apply chunk_decode_frames_total|].
  - by split.
  - cbn [stream_]. rewrite Hb. unfold budget. cbn [stream_of gen source_of total pending]. change (blen MAGIC) with 11.
    change (blen "") with 0. lia.
  - intros d [He _]. destruct (Z.eqb_spec (expanded d) size) as [Hx|]; [|done]. cbn [negb].
    destruct (String.eqb_spec (sha256_hex (output d)) sha256); [|done]. split; [lia|done].
Qed.

(** C36: chunk references lose nothing, within the limits, and whichever chunks
    have colliding digests: the text of any tokens that [encode_chunks] accepts is
    what [decode_chunks] returns for its answer.  A refusal is for the compressed
    size, or for the uncompressed size of a text that is longer than allowed; the
    bounds on framing and spool are never the reason. *)
Theorem chunk_codec tokens mu mc : 0 <= mu < 2 ^ 64 ->
  let text := utf8_encode (cat tokens) in
  match encode_chunks tokens mu mc with
  | Ok (size, sha256, packed) =>
      size = blen text /\ size <= mu /\ blen packed <= mc /\ sha256 = sha256_hex text /\
      decode_chunks packed size sha256 = Ok text
  | Raise e =>
      e = Exn ValueError "run_storage_compressed_size_limit" \/
      (e = Exn ValueError "run_storage_uncompressed_size_limit" /\ mu < blen text)
  end.
Proof.
  intros Hmu. pose proof (encode_chunks_spec tokens mu mc Hmu) as H.
  destruct (encode_chunks tokens mu mc) as [[[size sha256] packed]|e]; [|exact H].
  destruct H as (fs & parts & Hok & Ht & Hp & -> & -> & -> & Hm & Hmc & Hlim). rewrite Ht in *.
  repeat (split; [done|]). rewrite <- Ht. apply chunk_decode_compressed; [done..|by rewrite Ht].
Qed.

End Codec.

(** ** An example *)

Module ChunksDemo.
Definition tokens : list string := ["{"; "a"; ":"; "1"; "}"].
Definition answer : Z * string * string :=
  match encode_chunks (zlib := stored_zlib) tokens 64 256 with Ok x => x | Raise _ => (0, "", "") end.
Lemma encode_chunks_demo : encode_chunks (zlib := stored_zlib) tokens 64 256 = Ok answer.
Proof. vm_compute. reflexivity. Qed.
End ChunksDemo.

Lemma chunk_codec_witness : exists size sha256 packed,
  encode_chunks (zlib := stored_zlib) ChunksDemo.tokens 64 256 = Ok (size, sha256, packed) /\
  decode_chunks (zlib := stored_zlib) packed size sha256 = Ok "{a:1}".
Proof.
  destruct ChunksDemo.answer as [[size sha256] packed] eqn:Ha. exists size, sha256, packed.
  assert (encode_chunks (zlib := stored_zlib) ChunksDemo.tokens 64 256 = Ok (size, sha256, packed)) as He
    by (rewrite <- Ha; exact ChunksDemo.encode_chunks_demo).
  split; [exact He|].
  pose proof (chunk_codec (zlib := stored_zlib) ChunksDemo.tokens 64 256 ltac:(lia)) as H.
  rewrite He in H. apply H.
Defined.

End Chunks.
