(* ===== verification/RunStorage.v ===== *)
(** * The stored form of a run (nico/comprehensive_run_storage_codec_v1.py)

    [encode_run_storage] writes a run record as canonical JSON, or, above eight
    megabytes, as an envelope of compressed bytes bound to length and SHA-256;
    when that is too long it falls back to token references (StorageTokens) and
    then to chunk references (StorageChunks).  [decode_run_storage] reads all
    four forms.  [storage_lossless] is the round trip, [storage_outcomes] says
    which records are refused and why, [decode_storage_sound] what is accepted of
    a stored object somebody else may have written.

    [zlib] is the interface of Inflate.  [json.loads] answers [ValueError] on
    every text it cannot read; its message is not modelled. *)

From S2P Require Import Prelude PyStr Sha256 PyFloat Json JsonFacts PyBytes Inflate StorageTokens StorageChunks.

Definition ENVELOPE_KEY : string := "__nico_comprehensive_run_storage_v1__".
Definition STORAGE_SCHEMA : string := "nico.comprehensive_run_storage.v1".
Definition STORAGE_ENCODING : string := "zlib+base64".
Definition _TOKEN_SCHEMA : string := "nico.comprehensive_run_storage.v2".
Definition _TOKEN_ENCODING : string := "zlib+json-token-refs-v1+base64".
Definition _CHUNK_SCHEMA : string := "nico.comprehensive_run_storage.v3".
Definition _CHUNK_ENCODING : string := "zlib+json-chunk-refs-v1+base64".
Definition COMPRESSION_THRESHOLD_BYTES : Z := 8 * 1024 * 1024.
Definition MAX_UNCOMPRESSED_BYTES : Z := 1024 * 1024 * 1024.
Definition MAX_COMPRESSED_BYTES : Z := 128 * 1024 * 1024.
Definition _ENVELOPE_FIELDS : list string := ["schema"; "encoding"; "size_bytes"; "sha256"; "data"].

Definition too_long : string := "run_storage_compressed_size_limit".

Section Storage.
Context `{zlib : Zlib}.

(** The variables of [_encode_legacy_run_storage]: [kept] is the compressor and
    its output once there is one. *)
Record legacy := mkLegacy { waiting : string; kept : option sink; size : Z; hashed : string }.

Definition legacy_step (text : string) (l : legacy) : res legacy :=
  let chunk := utf8_encode text in
  let size := size l + blen chunk in
  if MAX_UNCOMPRESSED_BYTES <? size then fail ValueError "run_storage_uncompressed_size_limit"
  else
    let waiting := waiting l +:+ chunk in
    let kept := match kept l with
      | None => if COMPRESSION_THRESHOLD_BYTES <? size then Some empty_sink else None
      | Some k => Some k
      end in
    match kept with
    | Some k =>
        if CHUNK_BYTES <=? blen waiting
        then k ← compress_into MAX_COMPRESSED_BYTES waiting k; Ok (mkLegacy "" (Some k) size (hashed l +:+ chunk))
        else Ok (mkLegacy waiting kept size (hashed l +:+ chunk))
    | None => Ok (mkLegacy waiting kept size (hashed l +:+ chunk))
    end.

Definition envelope (schema encoding : string) (size : Z) (sha256 packed : string) : dict :=
  [(ENVELOPE_KEY, JObj
    [("schema", JStr schema); ("encoding", JStr encoding); ("size_bytes", JInt size); ("sha256", JStr sha256);
     ("data", JStr (b64encode packed))])].

Definition _encode_legacy_run_storage (record : dict) : res string :=
  if bool_decide (dlookup ENVELOPE_KEY record <> None) then fail ValueError "run_storage_reserved_envelope_key"
  else
    l ← foldR legacy_step (iterencode (JObj record)) (mkLegacy "" None 0 "");
    match kept l with
    | None => match utf8_decode (waiting l) with Some text => Ok text | None => fail ValueError "utf-8" end
    | Some k =>
        k ← compress_into MAX_COMPRESSED_BYTES (waiting l) k;
        k ← flush_into MAX_COMPRESSED_BYTES k;
        Ok (dumps compact_ascii (JObj (envelope STORAGE_SCHEMA STORAGE_ENCODING (size l) (sha256_hex (hashed l)) (packed k))))
    end.

(** [except ValueError as exc: if str(exc) != ...: raise] *)
Definition unless_too_long {A} (r : res A) (handler : res A) : res A :=
  match r with
  | Ok a => Ok a
  | Raise e => if isinstance e ValueError && String.eqb (exn_msg e) too_long then handler else Raise e
  end.

Definition encode_run_storage (record : dict) : res string :=
  unless_too_long (_encode_legacy_run_storage record)
    (let pieces := iterencode (JObj record) in
     encoded ← unless_too_long
       (x ← Tokens.encode_tokens pieces MAX_UNCOMPRESSED_BYTES MAX_COMPRESSED_BYTES; Ok (Some x)) (Ok None);
     '(schema, encoding, (size, sha256, packed)) ← match encoded with
       | Some x => Ok (_TOKEN_SCHEMA, _TOKEN_ENCODING, x)
       | None =>
           x ← Chunks.encode_chunks pieces MAX_UNCOMPRESSED_BYTES MAX_COMPRESSED_BYTES;
           Ok (_CHUNK_SCHEMA, _CHUNK_ENCODING, x)
       end;
     Ok (dumps compact_ascii (JObj (envelope schema encoding size sha256 packed)))).

(** [re.fullmatch(r"[0-9a-f]{64}", s)] *)
Definition hex_char (a : Ascii.ascii) : bool :=
  let c := code a in ((48 <=? c) && (c <=? 57)) || ((97 <=? c) && (c <=? 102)).
Definition is_sha256 (s : string) : bool := (blen s =? 64) && all_chars hex_char s.

(** [json.loads] of the recovered bytes, which must be a record. *)
Definition decoded_record (text : string) : res dict :=
  match loads_bytes text with
  | None => fail ValueError "json"
  | Some (JObj d) =>
      if bool_decide (dlookup ENVELOPE_KEY d = None) then Ok d else fail ValueError "run_storage_decoded_record_invalid"
  | Some _ => fail ValueError "run_storage_decoded_record_invalid"
  end.

(** The loop over the plain zlib form. *)
Definition inflate_record (packed : string) (size : Z) (sha256 : string) : res string :=
  output ← inflate_all "run_storage_uncompressed_size_mismatch" size packed;
  if negb (blen output =? size) then fail ValueError "run_storage_uncompressed_size_mismatch"
  else if negb (String.eqb (sha256_hex output) sha256) then fail ValueError "run_storage_sha256_mismatch"
  else Ok output.

Definition decode_run_storage (payload : dict) : res dict :=
  match dlookup ENVELOPE_KEY payload with
  | None => Ok payload
  | Some envelope =>
      if negb (forallb (fun k => String.eqb k ENVELOPE_KEY) (keys payload)) then fail ValueError "run_storage_envelope_shape_invalid"
      else match envelope with
      | JObj e =>
          if negb (forallb (fun k => bool_decide (k ∈ _ENVELOPE_FIELDS)) (keys e) &&
                   forallb (fun k => bool_decide (k ∈ keys e)) _ENVELOPE_FIELDS)
          then fail ValueError "run_storage_envelope_shape_invalid"
          else
            let versioned schema encoding := bool_decide (dget e "schema" = JStr schema) && bool_decide (dget e "encoding" = JStr encoding) in
            let token_encoding := versioned _TOKEN_SCHEMA _TOKEN_ENCODING in
            let chunk_encoding := versioned _CHUNK_SCHEMA _CHUNK_ENCODING in
            if negb token_encoding && negb chunk_encoding && negb (versioned STORAGE_SCHEMA STORAGE_ENCODING)
            then fail ValueError "run_storage_envelope_version_invalid"
            else match dget e "size_bytes" with
            | JInt size =>
                if negb ((0 <? size) && (size <=? MAX_UNCOMPRESSED_BYTES)) then fail ValueError "run_storage_uncompressed_size_invalid"
                else match dget e "sha256" with
                | JStr claimed =>
                    if negb (is_sha256 claimed) then fail ValueError "run_storage_sha256_invalid"
                    else match dget e "data" with
                    | JStr data =>
                        if 4 * ((MAX_COMPRESSED_BYTES + 2) / 3) <? blen data then fail ValueError too_long
                        else match b64decode data with
                        | None => fail ValueError "run_storage_base64_invalid"
                        | Some packed =>
                            if MAX_COMPRESSED_BYTES <? blen packed then fail ValueError too_long
                            else
                              text ← (if chunk_encoding then Chunks.decode_chunks packed size claimed
                                      else if token_encoding then Tokens.decode_tokens packed size claimed
                                      else inflate_record packed size claimed);
                              decoded_record text
                        end
                    | _ => fail ValueError too_long
                    end
                | _ => fail ValueError "run_storage_sha256_invalid"
                end
            | _ => fail ValueError "run_storage_uncompressed_size_invalid"
            end
      | _ => fail ValueError "run_storage_envelope_shape_invalid"
      end
  end.

(** ** Lemmas *)

Lemma hex_word_shape n z acc : all_chars hex_char acc = true ->
  all_chars hex_char (hex_word n z acc) = true /\ String.length (hex_word n z acc) = (n + String.length acc)%nat.
Proof.
  revert z acc. induction n as [|n IH]; intros z acc Ha; cbn [hex_word]; [done|].
  assert (hex_char (hex_digit (Z.land z 15)) = true) as Hd.
  { change 15 with (Z.ones 4). rewrite Z.land_ones by lia.
    pose proof (Z.mod_pos_bound z (2 ^ 4) ltac:(lia)) as H. change (2 ^ 4) with 16 in *.
    set (x := z mod 16) in *. clearbody x. unfold hex_char, hex_digit.
    rewrite code_chr by (destruct (x <? 10); lia). destruct (Z.ltb_spec x 10); lia. }
  destruct (IH (Z.shiftr z 4) (String (hex_digit (Z.land z 15)) acc)) as [Hc Hl].
  - cbn [all_chars]. by rewrite Hd, Ha.
  - split; [done|]. rewrite Hl. cbn [String.length]. lia.
Qed.

Lemma hex_words_shape l : all_chars hex_char (foldr (fun w acc => hex_word 8 w acc) "" l) = true /\
  String.length (foldr (fun w acc => hex_word 8 w acc) "" l) = (8 * length l)%nat.
Proof.
  induction l as [|w l [IHc IHl]]; [done|]. cbn [foldr]. destruct (hex_word_shape 8 w _ IHc) as [Hc Hl].
  split; [done|]. rewrite Hl, IHl. cbn [length]. lia.
Qed.

Lemma sha256_hex_shape s : is_sha256 (sha256_hex s) = true.
Proof.
  assert (exists l, sha256_hex s = foldr (fun w acc => hex_word 8 w acc) "" l /\ length l = 8%nat) as (l & -> & Hn).
  { with_strategy transparent [sha256_hex] unfold sha256_hex.
    destruct (fold_left _ _ _) as [[[[[[[a b] c] d] e] f] g] h]. by exists [a; b; c; d; e; f; g; h]. }
  destruct (hex_words_shape l) as [Hc Hl]. unfold is_sha256, blen. by rewrite Hc, Hl, Hn.
Qed.

(** A digest folds to itself. *)
Lemma casefold_hex s : all_chars hex_char s = true -> casefold s = s.
Proof.
  induction s as [|a s IH]; [done|]. cbn [all_chars casefold]. intros [Ha Hs]%andb_true_iff. rewrite IH by done.
  unfold hex_char, lower_ascii in *.
  replace (code a =? 223) with false by lia.
  replace (((65 <=? code a) && (code a <=? 90)) || ((192 <=? code a) && (code a <=? 222) && negb (code a =? 215)))
    with false by lia. done.
Qed.

Lemma digest_folded s : casefold (strip (sha256_hex s)) = sha256_hex s.
Proof.
  rewrite strip_no_space by apply sha256_hex_no_space. apply casefold_hex.
  pose proof (sha256_hex_shape s) as H. unfold is_sha256 in H. by apply andb_true_iff in H as [_ H].
Qed.
Lemma tag_folded s : casefold (strip (sha256_tag s)) = sha256_tag s.
Proof.
  assert (no_space (sha256_tag s) = true) as Hn by (unfold sha256_tag; by rewrite no_space_app, sha256_hex_no_space).
  rewrite strip_no_space by exact Hn. unfold sha256_tag.
  pose proof (digest_folded s) as H. rewrite strip_no_space in H by apply sha256_hex_no_space.
  cbn [String.append casefold]. by rewrite H.
Qed.

(** The envelope as [json.loads] returns it. *)
Definition envelope_read (schema encoding : string) (size : Z) (sha256 packed : string) : dict :=
  [(ENVELOPE_KEY, JObj
    [("data", JStr (b64encode packed)); ("encoding", JStr encoding); ("schema", JStr schema); ("sha256", JStr sha256);
     ("size_bytes", JInt size)])].

Lemma loads_envelope schema encoding size sha256 packed :
  loads (dumps compact_ascii (JObj (envelope schema encoding size sha256 packed)))
  = Some (JObj (envelope_read schema encoding size sha256 packed)).
Proof. rewrite loads_dumps; [reflexivity|exact sep_ok_compact_ascii|by vm_compute]. Qed.

Lemma record_dict_wf record : json_wf (JObj record) = true -> dlookup ENVELOPE_KEY record = None ->
  decoded_record (utf8_encode (dumps compact_unicode (JObj record))) = Ok (sorted_dict record).
Proof.
  intros Hwf Hk. unfold decoded_record. rewrite loads_bytes_dumps by done.
  rewrite dlookup_sorted, Hk by (cbn [json_wf] in Hwf; apply andb_true_iff in Hwf as [Hn _]; by apply bool_decide_eq_true in Hn).
  done.
Qed.

(** What the decoder does with an envelope of the encoder's. *)
Lemma decode_envelope schema encoding size sha256 packed :
  (schema, encoding) ∈ [(STORAGE_SCHEMA, STORAGE_ENCODING); (_TOKEN_SCHEMA, _TOKEN_ENCODING); (_CHUNK_SCHEMA, _CHUNK_ENCODING)] ->
  0 < size <= MAX_UNCOMPRESSED_BYTES -> is_sha256 sha256 = true -> blen packed <= MAX_COMPRESSED_BYTES ->
  decode_run_storage (envelope_read schema encoding size sha256 packed) =
    (text ← (if String.eqb schema _CHUNK_SCHEMA then Chunks.decode_chunks packed size sha256
             else if String.eqb schema _TOKEN_SCHEMA then Tokens.decode_tokens packed size sha256
             else inflate_record packed size sha256); decoded_record text).
Proof.
  intros Hv Hs Hd Hp. unfold decode_run_storage, envelope_read.
  set (e := [("data", JStr (b64encode packed)); ("encoding", JStr encoding); ("schema", JStr schema); ("sha256", JStr sha256);
     ("size_bytes", JInt size)]).
  cbn [dlookup]. rewrite String.eqb_refl.
  change (forallb (fun k => String.eqb k ENVELOPE_KEY) (keys [(ENVELOPE_KEY, JObj e)])) with true. cbn [negb].
  change (forallb (fun k => bool_decide (k ∈ _ENVELOPE_FIELDS)) (keys e) &&
    forallb (fun k => bool_decide (k ∈ keys e)) _ENVELOPE_FIELDS) with true. cbn [negb].
  change (dget e "schema") with (JStr schema). change (dget e "encoding") with (JStr encoding).
  change (dget e "size_bytes") with (JInt size). change (dget e "sha256") with (JStr sha256).
  change (dget e "data") with (JStr (b64encode packed)).
  match goal with |- (if negb ?a && negb ?b && negb ?c then _ else ?x) = _ => assert (negb a && negb b && negb c = false) as -> end.
  { rewrite !elem_of_cons in Hv. destruct Hv as [[= -> ->]|[[= -> ->]|[[= -> ->]|Hv]]]; [reflexivity..|by apply elem_of_nil in Hv]. }
  cbv iota. rewrite Hd. cbn [negb].
  replace ((0 <? size) && (size <=? MAX_UNCOMPRESSED_BYTES)) with true by lia. cbn [negb].
  rewrite blen_b64encode, b64decode_encode.
  destruct (Z.ltb_spec (4 * ((MAX_COMPRESSED_BYTES + 2) / 3)) (4 * ((blen packed + 2) / 3))) as [Hlt|_].
  { pose proof (Z.div_le_mono (blen packed + 2) (MAX_COMPRESSED_BYTES + 2) 3 ltac:(lia) ltac:(lia)). lia. }
  destruct (Z.ltb_spec MAX_COMPRESSED_BYTES (blen packed)); [lia|].
  rewrite !elem_of_cons in Hv. destruct Hv as [[= -> ->]|[[= -> ->]|[[= -> ->]|Hv]]]; [..|by apply elem_of_nil in Hv];
    reflexivity.
Qed.

(** ** What is stored *)

Definition canonical (record : dict) : string := utf8_encode (dumps compact_unicode (JObj record)).

(** The bytes the decoder gets out of an envelope. *)
Definition expand (schema packed : string) (size : Z) (sha256 : string) : res string :=
  if String.eqb schema _CHUNK_SCHEMA then Chunks.decode_chunks packed size sha256
  else if String.eqb schema _TOKEN_SCHEMA then Tokens.decode_tokens packed size sha256
  else inflate_record packed size sha256.

Definition versions : list (string * string) :=
  [(STORAGE_SCHEMA, STORAGE_ENCODING); (_TOKEN_SCHEMA, _TOKEN_ENCODING); (_CHUNK_SCHEMA, _CHUNK_ENCODING)].

Inductive stored (record : dict) : string -> Prop :=
  | stored_plain : blen (canonical record) <= COMPRESSION_THRESHOLD_BYTES ->
      stored record (dumps compact_unicode (JObj record))
  | stored_envelope schema encoding packed : (schema, encoding) ∈ versions ->
      COMPRESSION_THRESHOLD_BYTES < blen (canonical record) <= MAX_UNCOMPRESSED_BYTES -> blen packed <= MAX_COMPRESSED_BYTES ->
      expand schema packed (blen (canonical record)) (sha256_hex (canonical record)) = Ok (canonical record) ->
      stored record (dumps compact_ascii (JObj
        (envelope schema encoding (blen (canonical record)) (sha256_hex (canonical record)) packed))).

Lemma decode_stored record text : stored record text -> json_wf (JObj record) = true -> dlookup ENVELOPE_KEY record = None ->
  exists payload, loads text = Some (JObj payload) /\ decode_run_storage payload = Ok (sorted_dict record).
Proof.
  intros Hs Hwf Hk. assert (NoDup (keys record)) as Hn
    by (cbn [json_wf] in Hwf; apply andb_true_iff in Hwf as [Hn _]; by apply bool_decide_eq_true in Hn).
  destruct Hs as [Hl|schema encoding packed Hv Hl Hp He].
  - exists (sorted_dict record). split; [by rewrite loads_dumps by (done || exact sep_ok_compact_unicode)|].
    unfold decode_run_storage. by rewrite dlookup_sorted, Hk.
  - exists (envelope_read schema encoding (blen (canonical record)) (sha256_hex (canonical record)) packed).
    split; [apply loads_envelope|]. rewrite decode_envelope; [|exact Hv| |apply sha256_hex_shape|exact Hp].
    + unfold expand in He. rewrite He. cbn [mbind res_bind]. by apply record_dict_wf.
    + unfold COMPRESSION_THRESHOLD_BYTES in Hl. lia.
Qed.

(** ** The plain encoder *)

Context {laws : ZlibLaws zlib}.

(** The compressed form is too long of texts above the threshold only. *)
Definition legacy_error (total : Z) (e : exn) : Prop :=
  (compressed_limit e /\ COMPRESSION_THRESHOLD_BYTES < total) \/ uncompressed_limit MAX_UNCOMPRESSED_BYTES total e.

Definition legacy_ok (text : string) (l : legacy) : Prop :=
  hashed l = text /\ size l = blen text /\ blen text <= MAX_UNCOMPRESSED_BYTES /\
  match kept l with
  | None => waiting l = text /\ blen text <= COMPRESSION_THRESHOLD_BYTES
  | Some k => COMPRESSION_THRESHOLD_BYTES < blen text /\ exists w, took k w /\ w +:+ waiting l = text
  end.

Lemma legacy_step_spec token l text more : legacy_ok text l -> 0 <= more ->
  yields (legacy_error (blen text + blen (utf8_encode token) + more))
    (legacy_ok (text +:+ utf8_encode token)) (legacy_step token l).
Proof.
  intros (Hh & Hs & Hm & Hk) Hmore. unfold legacy_step. set (chunk := utf8_encode token) in *. cbv zeta. rewrite Hs.
  pose proof (blen_pos chunk).
  destruct (Z.ltb_spec MAX_UNCOMPRESSED_BYTES (blen text + blen chunk)) as [|Hle]; [right; split; [done|lia]|].
  set (kept' := match kept l with None => _ | Some k => Some k end).
  assert (match kept' with
    | None => waiting l = text /\ blen (text +:+ chunk) <= COMPRESSION_THRESHOLD_BYTES
    | Some k => COMPRESSION_THRESHOLD_BYTES < blen (text +:+ chunk) /\ exists w, took k w /\ w +:+ waiting l = text end) as Hk'.
  { unfold kept'. rewrite blen_app. destruct (kept l) as [k|].
    - destruct Hk as [Ht Hw]. split; [lia|exact Hw].
    - destruct Hk as [Hw Ht]. destruct (Z.ltb_spec COMPRESSION_THRESHOLD_BYTES (blen text + blen chunk)); [|by split].
      split; [done|]. exists "". split; [apply took_empty|done]. }
  destruct kept' as [k|] eqn:Hkept.
  - destruct Hk' as [Ht (w & Hw & Hwt)]. destruct (Z.leb_spec CHUNK_BYTES (blen (waiting l +:+ chunk))).
    + eapply yields_bind; [eapply yields_weaken; [by apply compress_into_spec|intros e He; left; rewrite blen_app in Ht; split; [done|lia]|intros a Ha; exact Ha]|].
      intros k' [Hk' _]. unfold legacy_ok. cbn [yields hashed size kept waiting]. rewrite Hh, blen_app in *.
      split_and!; try done. eexists. split; [exact Hk'|]. by rewrite app_str_nil_r, <- app_str_assoc, Hwt.
    + unfold legacy_ok. cbn [yields hashed size kept waiting]. rewrite Hh, blen_app in *.
      split_and!; try done. exists w. split; [done|]. by rewrite <- app_str_assoc, Hwt.
  - unfold legacy_ok. cbn [yields hashed size kept waiting]. destruct Hk' as [-> Ht]. rewrite Hh, blen_app in *. by split_and!.
Qed.

Lemma legacy_all_spec tokens l text : legacy_ok text l ->
  yields (legacy_error (blen text + blen (utf8_encode (cat tokens))))
    (legacy_ok (text +:+ utf8_encode (cat tokens))) (foldR legacy_step tokens l).
Proof.
  revert l text. induction tokens as [|t tokens IH]; intros l text Hl; cbn [foldR cat foldr].
  - by rewrite app_str_nil_r.
  - fold (cat tokens). rewrite utf8_encode_app, <- app_str_assoc, blen_app, Z.add_assoc.
    eapply yields_bind; [apply legacy_step_spec; [exact Hl|apply blen_pos]|]. intros l' Hl'.
    rewrite <- blen_app. by apply IH.
Qed.

Lemma canonical_pieces record : utf8_encode (cat (iterencode (JObj record))) = canonical record.
Proof. by rewrite cat_iterencode. Qed.

Lemma legacy_spec record : dlookup ENVELOPE_KEY record = None ->
  yields (legacy_error (blen (canonical record)))
    (fun text => stored record text /\ blen (canonical record) <= MAX_UNCOMPRESSED_BYTES) (_encode_legacy_run_storage record).
Proof.
  intros Hk. unfold _encode_legacy_run_storage. rewrite bool_decide_eq_false_2 by (rewrite Hk; by intros H).
  pose proof (legacy_all_spec (iterencode (JObj record)) (mkLegacy "" None 0 "") "") as Hall. rewrite canonical_pieces in Hall.
  eapply yields_bind; [apply Hall; unfold legacy_ok; split_and!; done|].
  intros l (Hh & Hs & Hm & Hkl). cbn [String.append] in *. rewrite Hh, Hs.
  destruct (kept l) as [k|].
  - destruct Hkl as [Ht (w & Hw & Hwt)].
    eapply yields_bind; [eapply yields_weaken; [by apply compress_into_spec|by left|intros a Ha; exact Ha]|].
    intros k1 [Hk1 _]. rewrite Hwt in Hk1.
    eapply yields_bind; [eapply yields_weaken; [by apply flush_into_spec|by left|intros a Ha; exact Ha]|].
    intros k2 (parts & Hp & Hpk & _ & Hmc). split; [|exact Hm]. apply stored_envelope; [by left|by split|exact Hmc|].
    unfold expand, inflate_record. cbn [String.eqb Ascii.eqb Bool.eqb STORAGE_SCHEMA _CHUNK_SCHEMA _TOKEN_SCHEMA].
    rewrite Hpk, inflate_all_ok, Hp by (rewrite Hp; lia). cbn [mbind res_bind]. by rewrite Z.eqb_refl, String.eqb_refl.
  - destruct Hkl as [-> Ht].
    assert (utf8_decode (canonical record) = Some (dumps compact_unicode (JObj record))) as -> by apply utf8_decode_encode. split; [by apply stored_plain|exact Hm].
Qed.

Lemma unless_too_long_spec {A} E (Q : A -> Prop) r handler : yields (fun e => compressed_limit e \/ E e) Q r ->
  yields E Q handler -> yields E Q (unless_too_long r handler).
Proof.
  destruct r as [a|e]; cbn [yields unless_too_long]; [done|]. intros [->|He] Hh; [done|].
  by destruct (_ && _).
Qed.

(** ** The codec, whole *)

Lemma envelope_stored record schema encoding size sha256 packed : (schema, encoding) ∈ versions ->
  COMPRESSION_THRESHOLD_BYTES < blen (canonical record) -> size = blen (canonical record) -> sha256 = sha256_hex (canonical record) ->
  size <= MAX_UNCOMPRESSED_BYTES -> blen packed <= MAX_COMPRESSED_BYTES ->
  expand schema packed size sha256 = Ok (canonical record) ->
  stored record (dumps compact_ascii (JObj (envelope schema encoding size sha256 packed))).
Proof. intros Hv Ht -> -> Hs Hp He. by apply stored_envelope. Qed.

Definition storage_error (record : dict) (e : exn) : Prop :=
  limit_error MAX_UNCOMPRESSED_BYTES (blen (canonical record)) e.

(** The fallbacks are reached by records above the threshold only. *)
Lemma encode_storage_spec record : dlookup ENVELOPE_KEY record = None ->
  yields (legacy_error (blen (canonical record)))
    (fun text => stored record text /\ blen (canonical record) <= MAX_UNCOMPRESSED_BYTES) (encode_run_storage record).
Proof.
  intros Hk. unfold encode_run_storage. pose proof (legacy_spec record Hk) as Hl.
  destruct (_encode_legacy_run_storage record) as [text|e]; [exact Hl|]. cbn [unless_too_long].
  destruct Hl as [[-> Ht]|[-> Hm]]; [|by right]. cbn [isinstance exn_class exn_msg].
  change (subclass ValueError ValueError && String.eqb "run_storage_compressed_size_limit" too_long) with true. cbv iota zeta.
  assert (forall e, limit_error MAX_UNCOMPRESSED_BYTES (blen (canonical record)) e -> legacy_error (blen (canonical record)) e) as Hweak
    by (intros e [He|He]; [by left|by right]).
  pose proof (Tokens.encode_tokens_spec (iterencode (JObj record)) MAX_UNCOMPRESSED_BYTES MAX_COMPRESSED_BYTES ltac:(done)) as Htok.
  pose proof (Chunks.encode_chunks_spec (iterencode (JObj record)) MAX_UNCOMPRESSED_BYTES MAX_COMPRESSED_BYTES ltac:(done)) as Hchk.
  rewrite canonical_pieces in Htok, Hchk.
  destruct (Tokens.encode_tokens _ _ _) as [[[size sha256] packed]|e]; cbn [mbind res_bind unless_too_long].
  - destruct Htok as (fs & parts & Hok & Htx & Hp & -> & -> & -> & Hm & Hmc & Hlim). rewrite Htx in *. cbn [yields].
    split; [|lia]. apply envelope_stored; try done; [set_solver|].
    unfold expand. cbn [String.eqb Ascii.eqb Bool.eqb STORAGE_SCHEMA _CHUNK_SCHEMA _TOKEN_SCHEMA].
    rewrite <- Htx. apply Tokens.decode_compressed; [done..|by rewrite Htx].
  - destruct Htok as [->|[-> Hm]]; [|by right].
    change (isinstance _ ValueError && _) with true. cbv iota. cbn [mbind res_bind].
    destruct (Chunks.encode_chunks _ _ _) as [[[size sha256] packed]|e]; cbn [mbind res_bind yields]; [|by apply Hweak].
    destruct Hchk as (fs & parts & Hok & Htx & Hp & -> & -> & -> & Hm & Hmc & Hlim). rewrite Htx in *.
    split; [|lia]. apply envelope_stored; try done; [set_solver|].
    unfold expand. cbn [String.eqb Ascii.eqb Bool.eqb STORAGE_SCHEMA _CHUNK_SCHEMA _TOKEN_SCHEMA].
    rewrite <- Htx. apply Chunks.chunk_decode_compressed; [done..|by rewrite Htx].
Qed.

(** The decoder on any stored object. *)
Lemma inflate_record_total packed size sha256 : 0 <= size ->
  yields ends (fun text => blen text = size /\ sha256_hex text = sha256) (inflate_record packed size sha256).
Proof.
  intros Hs. unfold inflate_record.
  destruct (inflate_rest_total (S (Z.to_nat size)) "run_storage_uncompressed_size_mismatch" size (source_of packed)) as [Hf _];
    [cbn [total source_of]; lia|exact Hs|].
  eapply yields_bind; [apply yields_ends; exact Hf|]. intros output _.
  destruct (Z.eqb_spec (blen output) size); [|done]. cbn [negb].
  by destruct (String.eqb_spec (sha256_hex output) sha256).
Qed.

Lemma expand_total schema packed size sha256 : 0 <= size ->
  yields ends (fun text => blen text = size /\ sha256_hex text = sha256) (expand schema packed size sha256).
Proof.
  intros Hs. unfold expand. destruct (String.eqb _ _); [by apply Chunks.decode_chunks_total|].
  destruct (String.eqb _ _); [by apply Tokens.decode_tokens_total|by apply inflate_record_total].
Qed.

Lemma encode_stored record text : encode_run_storage record = Ok text -> dlookup ENVELOPE_KEY record = None /\ stored record text.
Proof.
  intros He. destruct (dlookup ENVELOPE_KEY record) as [v|] eqn:Hk.
  { unfold encode_run_storage, _encode_legacy_run_storage in He. rewrite Hk in He. discriminate He. }
  pose proof (encode_storage_spec record Hk) as H. rewrite He in H. by destruct H as [H _].
Qed.

(** C31: storing is lossless: what [encode_run_storage] writes of a record is an
    object that [decode_run_storage] turns into the same record, its members in
    the order of their keys, whichever of the four forms was chosen. *)
Theorem storage_lossless record text : encode_run_storage record = Ok text -> json_wf (JObj record) = true ->
  exists payload, loads text = Some (JObj payload) /\ decode_run_storage payload = Ok (sorted_dict record).
Proof. intros He Hwf. apply encode_stored in He as [Hk Hs]. by apply decode_stored. Qed.

(** C32: which records are stored.  The reserved key is refused; canonical text of
    at most eight megabytes is stored as it is; longer text is stored or refused
    because no form of it is short enough; text above the limit of one gigabyte
    is always refused. *)
Theorem storage_outcomes record :
  let size := blen (canonical record) in
  let refused := Exn ValueError "run_storage_uncompressed_size_limit" in
  let incompressible := Exn ValueError "run_storage_compressed_size_limit" in
  match dlookup ENVELOPE_KEY record with
  | Some _ => encode_run_storage record = Raise (Exn ValueError "run_storage_reserved_envelope_key")
  | None =>
      if size <=? COMPRESSION_THRESHOLD_BYTES then encode_run_storage record = Ok (dumps compact_unicode (JObj record))
      else if size <=? MAX_UNCOMPRESSED_BYTES
      then is_ok (encode_run_storage record) = true \/ encode_run_storage record = Raise incompressible
      else encode_run_storage record = Raise refused \/ encode_run_storage record = Raise incompressible
  end.
Proof.
  cbv zeta. destruct (dlookup ENVELOPE_KEY record) as [v|] eqn:Hk.
  { unfold encode_run_storage, _encode_legacy_run_storage. by rewrite Hk. }
  pose proof (encode_storage_spec record Hk) as H.
  destruct (Z.leb_spec (blen (canonical record)) COMPRESSION_THRESHOLD_BYTES) as [Hs|Hs].
  - destruct (encode_run_storage record) as [text|e]; cbn [yields] in H.
    + destruct H as [[_|schema encoding packed _ Hl _ _] _]; [done|lia].
    + destruct H as [[_ Hl]|[_ Hl]]; [lia|]. unfold MAX_UNCOMPRESSED_BYTES, COMPRESSION_THRESHOLD_BYTES in *. lia.
  - destruct (Z.leb_spec (blen (canonical record)) MAX_UNCOMPRESSED_BYTES) as [Hm|Hm];
      (destruct (encode_run_storage record) as [text|e]; cbn [yields] in H).
    + by left.
    + right. destruct H as [[-> _]|[_ Hl]]; [done|lia].
    + destruct H as [_ Hl]. lia.
    + destruct H as [[-> _]|[-> _]]; [by right|by left].
Qed.

(** What decoding accepts.  On any stored object decoding ends, with a record
    or with a [ValueError].  A record that is returned is either the object
    itself, or read from a text that has the length and the SHA-256 the envelope
    claims, that is no longer than one gigabyte, and whose compressed form keeps
    its limit; a record within an envelope never claims to be an envelope. *)
Theorem decode_storage_sound payload :
  match decode_run_storage payload with
  | Raise e => exn_class e = ValueError
  | Ok record =>
      match dlookup ENVELOPE_KEY payload with
      | None => record = payload
      | Some envelope => exists e text data packed,
          envelope = JObj e /\ dget e "size_bytes" = JInt (blen text) /\ 0 < blen text <= MAX_UNCOMPRESSED_BYTES /\
          dget e "sha256" = JStr (sha256_hex text) /\ dget e "data" = JStr data /\ b64decode data = Some packed /\
          blen packed <= MAX_COMPRESSED_BYTES /\ loads_bytes text = Some (JObj record) /\ dlookup ENVELOPE_KEY record = None
      end
  end.
Proof.
  unfold decode_run_storage. destruct (dlookup ENVELOPE_KEY payload) as [envelope|]; [|done].
  destruct (negb _); [done|]. destruct envelope as [| | | | | |e]; try done.
  destruct (negb _); [done|]. cbv zeta. destruct (_ && _ && _); [done|].
  destruct (dget e "size_bytes") as [| |size| | | |] eqn:Hsize; try done.
  destruct ((0 <? size) && (size <=? MAX_UNCOMPRESSED_BYTES)) eqn:Hs; [|done]. cbn [negb].
  destruct (dget e "sha256") as [| | | |claimed| |] eqn:Hsha; try done. destruct (is_sha256 claimed); [|done]. cbn [negb].
  destruct (dget e "data") as [| | | |data| |] eqn:Hdata; try done. destruct (_ <? blen data); [done|].
  destruct (b64decode data) as [packed|] eqn:Hp; [|done].
  destruct (Z.ltb_spec MAX_COMPRESSED_BYTES (blen packed)) as [|Hpl]; [done|].
  match goal with |- match (?m ≫= _) with _ => _ end => assert (yields ends (fun text => blen text = size /\ sha256_hex text = claimed) m) as Hm end.
  { repeat match goal with |- yields _ _ (if ?b then _ else _) => destruct b end;
      [apply Chunks.decode_chunks_total|apply Tokens.decode_tokens_total|apply inflate_record_total]; lia. }
  match goal with |- match (?m ≫= _) with _ => _ end => destruct m as [text|x] end; [|exact Hm].
  cbn [mbind res_bind]. destruct Hm as [<- <-]. unfold decoded_record.
  destruct (loads_bytes text) as [[| | | | | |record]|] eqn:Hl; try done.
  destruct (bool_decide (dlookup ENVELOPE_KEY record = None)) eqn:Hk; [|done]. apply bool_decide_eq_true in Hk.
  exists e, text, data, packed. split_and!; try done; lia.
Qed.

End Storage.

(** ** An example *)

Module StorageDemo.
Definition record : dict := [("run_id", JStr "run_1"); ("revision", JInt 3); ("stages", JArr [])].
Lemma encode_storage_demo : encode_run_storage (zlib := stored_zlib) record = Ok (dumps compact_unicode (JObj record)).
Proof.
  pose proof (encode_storage_spec (zlib := stored_zlib) record eq_refl) as H.
  destruct (encode_run_storage record) as [text|e]; cbn [yields] in H.
  - destruct H as [[_|schema encoding packed _ Hl _ _] _]; [done|]. exfalso. destruct Hl as [Hl _]. vm_compute in Hl. discriminate Hl.
  - exfalso. destruct H as [[_ Hl]|[_ Hl]]; vm_compute in Hl; discriminate Hl.
Qed.
Definition reserved : dict := [(ENVELOPE_KEY, JNull)].
(** An envelope CPython made, uncompressed blocks within. *)
Definition payload : dict := [(ENVELOPE_KEY, JObj
  [("data", JStr "eAEBBwD4/3siYSI6MX0IKgIJ"); ("encoding", JStr STORAGE_ENCODING); ("schema", JStr STORAGE_SCHEMA);
   ("sha256", JStr "015abd7f5cc57a2dd94b7590f04ad8084273905ee33ec5cebeae62276a97f862"); ("size_bytes", JInt 7)])].
Lemma decoded : decode_run_storage (zlib := stored_zlib) payload = Ok [("a", JInt 1)].
Proof. vm_compute. reflexivity. Qed.
End StorageDemo.

Lemma storage_lossless_witness : exists payload,
  loads (dumps compact_unicode (JObj StorageDemo.record)) = Some (JObj payload) /\
  decode_run_storage (zlib := stored_zlib) payload
    = Ok [("revision", JInt 3); ("run_id", JStr "run_1"); ("stages", JArr [])].
Proof.
  exact (storage_lossless (zlib := stored_zlib) StorageDemo.record _ StorageDemo.encode_storage_demo eq_refl).
Defined.

Lemma storage_outcomes_witness :
  encode_run_storage (zlib := stored_zlib) StorageDemo.reserved = Raise (Exn ValueError "run_storage_reserved_envelope_key").
Proof. exact (storage_outcomes (zlib := stored_zlib) StorageDemo.reserved). Defined.

Lemma decode_storage_sound_witness : exists text,
  loads_bytes text = Some (JObj [("a", JInt 1)]) /\ blen text = 7 /\
  sha256_hex text = "015abd7f5cc57a2dd94b7590f04ad8084273905ee33ec5cebeae62276a97f862".
Proof.
  pose proof (decode_storage_sound (zlib := stored_zlib) StorageDemo.payload) as H. rewrite StorageDemo.decoded in H.
  destruct H as (e & text & data & packed & [= <-] & Hs & _ & Hd & _ & _ & _ & Hl & _).
  exists text. split; [exact Hl|]. injection Hs as <-. injection Hd as <-. done.
Defined.
