(* ===== verification/RunIntake.v ===== *)
(** * Public intake reservations (nico/comprehensive_run_store.py)

    A public request is bound to a row of [nico_comprehensive_intake_reservations]
    before any provider is asked: [reserve_public_intake] makes the row and leases
    it, an expired lease can be claimed again, and the holder of the lease settles
    the row as accepted or failed, which scrubs the request from it.

    A method is a function of the table: its answer, which may be an exception,
    and the table it commits.  [complete_public_intake], [reconcile_public_intake_accepted]
    and [fail_public_intake] read a row before their UPDATE, with other clients in
    between: they take the table they read, [seen], and the table they change.
    [uuid4().hex] and [time.time()] are arguments. *)

From S2P Require Import Prelude PyStr Sha256 PyFloat Json JsonFacts Snapshots Sqlite RunStorage.

Definition MAX_PUBLIC_INTAKE_RESERVATION_BYTES : Z := 128 * 1024.

Definition _public_intake_payload_json (payload : dict) : string := dumps compact_unicode (JObj payload).
Definition _public_intake_payload_sha256 (payload : dict) : string :=
  sha256_tag (utf8_encode (_public_intake_payload_json payload)).

Definition safe_fields : list string :=
  ["run_id"; "repository"; "provider"; "customer_id"; "project_id"; "assessment_depth"; "report_language";
   "requested_access_mode"].
(** [v not in (None, "")] *)
Definition present (v : json) : bool := match v with JNull | JStr "" => false | _ => true end.

Definition _terminal_public_intake_payload (payload : dict) : dict :=
  let terminal := omap (fun f => if present (dget payload f) then Some (f, dget payload f) else None) safe_fields in
  match dget payload "engagement_metadata" with
  | JObj engagement =>
      let engagement_sha256 := casefold (text_of (dget engagement "engagement_metadata_sha256")) in
      if truthy engagement_sha256
      then dset terminal "engagement_metadata" (JObj [("engagement_metadata_sha256", JStr engagement_sha256)])
      else terminal
  | _ => terminal
  end.

(** A row under its [run_id]. *)
Record intake_row := mkIntake {
  request_sha256 : string;
  status : string;
  lease_id : string;
  lease_until_epoch : float;
  attempt_count : Z;
  failure_code : string;
  failure_retryable : Z;
  accepted_commit_sha : string;
  updated_at : string;
  payload : string }.
Abbreviation intakes := (gmap string intake_row) (only parsing).

(** The dict the methods answer: the row, its payload and [lease_owner]. *)
Record reservation := mkReservation {
  rv_run_id : string;
  rv_row : intake_row;
  rv_payload : dict;
  lease_owner : bool }.

Definition digest_matches (supplied digest : string) : bool := String.eqb (casefold (strip supplied)) digest.

Definition _intake_reservation_row (run_id : string) (r : intake_row) (owner : bool) : res reservation :=
  p ← _decode_json_object_payload (JStr (payload r));
  if String.eqb (status r) "acquiring" && negb (digest_matches (request_sha256 r) (_public_intake_payload_sha256 p))
  then fail ValueError "public_intake_reservation_payload_hash_mismatch"
  else Ok (mkReservation run_id r p owner).

Definition tx (A : Type) : Type := intakes -> res A * intakes.

(** The UPDATE that claims an expired lease. *)
Definition claim (lease : string) (until : float) (now_text : string) (r : intake_row) : intake_row :=
  mkIntake (request_sha256 r) (status r) lease until (attempt_count r + 1) (failure_code r) (failure_retryable r)
    (accepted_commit_sha r) now_text (payload r).
Definition claimable (digest : string) (now : float) (r : intake_row) : bool :=
  String.eqb (request_sha256 r) digest && String.eqb (status r) "acquiring" && sql_le (lease_until_epoch r) now.

Definition reserve_public_intake (run_id request_sha : string) (request : dict) (now lease_seconds : float)
    (new_lease now_text : string) : tx reservation := fun t =>
  let normalized := strip run_id in
  let supplied := casefold (strip request_sha) in
  if negb (truthy normalized) || negb (truthy supplied)
  then (fail ValueError "public_intake_reservation_identity_required", t)
  else if fleb lease_seconds (float_of_Z 0) then (fail ValueError "public_intake_reservation_lease_invalid", t)
  else if MAX_PUBLIC_INTAKE_RESERVATION_BYTES <? blen (utf8_encode (_public_intake_payload_json request))
  then (fail ValueError "public_intake_reservation_payload_too_large", t)
  else
    let digest := _public_intake_payload_sha256 request in
    if negb (String.eqb supplied digest) then (fail ValueError "public_intake_reservation_payload_hash_mismatch", t)
    else match bind_real (fadd now lease_seconds) with
    | None => (null_error, t)
    | Some until =>
        match t !! normalized with
        | None =>
            let row := mkIntake digest "acquiring" new_lease until 1 "" (bool_column false) "" now_text
                         (_public_intake_payload_json request) in
            (_intake_reservation_row normalized row true, <[normalized := row]> t)
        | Some existing =>
            if negb (digest_matches (request_sha256 existing) digest)
            then (fail ComprehensiveRunConflict "public_intake_idempotency_conflict", t)
            else if negb (String.eqb (status existing) "acquiring") || fltb now (lease_until_epoch existing)
            then (_intake_reservation_row normalized existing false, t)
            else
              let '(claimed, t') := update_row (claimable digest now) (claim new_lease until now_text) normalized t in
              match t' !! normalized with
              | None => (fail ComprehensiveRunConflict ("public_intake_reservation_missing:" +:+ normalized), t')
              | Some row => (_intake_reservation_row normalized row claimed, t')
              end
        end
    end.

Definition load_public_intake (run_id : string) : tx (option reservation) := fun t =>
  let normalized := strip run_id in
  if negb (truthy normalized) then (Ok None, t)
  else match t !! normalized with
       | None => (Ok None, t)
       | Some r => (Some <$> _intake_reservation_row normalized r false, t)
       end.

(** [WHERE lease_id = ? AND status = 'acquiring'] *)
Definition held_by (lease : string) (r : intake_row) : bool :=
  String.eqb (lease_id r) lease && String.eqb (status r) "acquiring".

Definition heartbeat_public_intake (run_id lease : string) (until : float) (now_text : string) : tx bool := fun t =>
  let extend until r := mkIntake (request_sha256 r) (status r) (lease_id r) until (attempt_count r) (failure_code r)
                          (failure_retryable r) (accepted_commit_sha r) now_text (payload r) in
  match bind_real until with
  | Some until => let '(changed, t) := update_row (held_by lease) (extend until) run_id t in (Ok changed, t)
  | None => if fst (update_row (held_by lease) (extend until) run_id t) then (null_error, t) else (Ok false, t)
  end.

(** [SELECT payload ... WHERE ...; ... if existing is not None else {}] *)
Definition seen_payload (p : intake_row -> bool) (run_id : string) (seen : intakes) : res (option dict) :=
  match seen !! run_id with
  | Some r => if p r then Some <$> _decode_json_object_payload (JStr (payload r)) else Ok None
  | None => Ok None
  end.
Definition terminal_text (request : option dict) : string :=
  _public_intake_payload_json (_terminal_public_intake_payload (default [] request)).

Definition accept (commit_sha now_text text : string) (r : intake_row) : intake_row :=
  mkIntake (request_sha256 r) "accepted" "" (float_of_Z 0) (attempt_count r) "" (bool_column false)
    (casefold (strip commit_sha)) now_text text.

Definition complete_public_intake (run_id lease commit_sha now_text : string) (seen : intakes) : tx bool := fun t =>
  match seen_payload (held_by lease) run_id seen with
  | Raise e => (Raise e, t)
  | Ok request =>
      let '(changed, t) := update_row (held_by lease) (accept commit_sha now_text (terminal_text request)) run_id t in
      (Ok changed, t)
  end.

Definition requested_as (digest : string) (r : intake_row) : bool :=
  String.eqb (request_sha256 r) digest && String.eqb (status r) "acquiring".

Definition reconcile_public_intake_accepted (run_id request_sha commit_sha now_text : string) (seen : intakes) : tx bool := fun t =>
  let normalized_hash := casefold (strip request_sha) in
  match seen_payload (requested_as normalized_hash) run_id seen with
  | Raise e => (Raise e, t)
  | Ok None => (Ok false, t)
  | Ok request =>
      let '(changed, t) :=
        update_row (requested_as normalized_hash) (accept commit_sha now_text (terminal_text request)) run_id t in
      (Ok changed, t)
  end.

Definition abandon (code : string) (retryable : bool) (now_text text : string) (r : intake_row) : intake_row :=
  mkIntake (request_sha256 r) "failed" "" (float_of_Z 0) (attempt_count r) (str_or code "public_intake_failed")
    (bool_column retryable) (accepted_commit_sha r) now_text text.

Definition fail_public_intake (run_id lease code : string) (retryable : bool) (now_text : string) (seen : intakes) : tx bool := fun t =>
  match seen_payload (held_by lease) run_id seen with
  | Raise e => (Raise e, t)
  | Ok request =>
      let '(changed, t) := update_row (held_by lease) (abandon code retryable now_text (terminal_text request)) run_id t in
      (Ok changed, t)
  end.

(** ** The clients *)

Inductive call :=
  | Reserve (run_id request_sha : string) (request : dict) (now lease_seconds : float) (new_lease now_text : string)
  | Fetch (run_id : string)
  | Heartbeat (run_id lease : string) (until : float) (now_text : string)
  | Complete (run_id lease commit_sha now_text : string)
  | Reconcile (run_id request_sha commit_sha now_text : string)
  | Abandon (run_id lease code : string) (retryable : bool) (now_text : string).
Inductive reply := Reserved (r : option reservation) | Changed (b : bool).

Definition answering {A B T} (f : A -> B) (x : res A * T) : res B * T := (f <$> fst x, snd x).
Definition perform (c : call) (seen t : intakes) : res reply * intakes :=
  match c with
  | Reserve k h p now s l u => answering (fun r => Reserved (Some r)) (reserve_public_intake k h p now s l u t)
  | Fetch k => answering Reserved (load_public_intake k t)
  | Heartbeat k l e u => answering Changed (heartbeat_public_intake k l e u t)
  | Complete k l s u => answering Changed (complete_public_intake k l s u seen t)
  | Reconcile k h s u => answering Changed (reconcile_public_intake_accepted k h s u seen t)
  | Abandon k l c b u => answering Changed (fail_public_intake k l c b u seen t)
  end.

(** The request is a Python dict: no key twice, floats that print. *)
Definition call_wf (c : call) : Prop := match c with Reserve _ _ p _ _ _ _ => json_wf (JObj p) = true | _ => True end.
Definition commits (seen t : intakes) (l : call * res reply) (t' : intakes) : Prop :=
  call_wf (fst l) /\ perform (fst l) seen t = (snd l, t').
Abbreviation intake_history := (history commits (∅ : intakes)).

(** ** What rows hold *)

Definition acquiring (r : intake_row) : bool := String.eqb (status r) "acquiring".

(** [request] is what the row was made for: its text while the row is leased,
    what is left of it afterwards. *)
Record row_for (request : dict) (r : intake_row) : Prop := {
  for_wf : json_wf (JObj request) = true;
  for_digest : request_sha256 r = _public_intake_payload_sha256 request;
  for_until : bind_real (lease_until_epoch r) = Some (lease_until_epoch r);
  for_payload : if acquiring r then payload r = _public_intake_payload_json request
                else payload r = terminal_text (Some (sorted_dict request)) \/ payload r = terminal_text None }.
Definition row_ok (r : intake_row) : Prop := exists request, row_for request r.
Definition rows_ok (t : intakes) : Prop := map_Forall (fun _ r => row_ok r) t.

(** How a row moves on. *)
Record moves (r r' : intake_row) : Prop := {
  moves_digest : request_sha256 r' = request_sha256 r;
  moves_count : attempt_count r <= attempt_count r';
  moves_settled : acquiring r = false -> r' = r;
  moves_payload : acquiring r' = true -> payload r' = payload r }.

#[export] Instance moves_preorder : PreOrder moves.
Proof.
  split.
  - intros r. by split.
  - intros r s t [D1 C1 S1 P1] [D2 C2 S2 P2]. split.
    + by rewrite D2, D1.
    + lia.
    + intros H. rewrite S2; [by apply S1|]. by rewrite S1.
    + intros H. rewrite P2 by done. apply P1. destruct (acquiring s) eqn:Hs; [done|]. rewrite S2 in H by done. congruence.
Qed.

(** The requests a stored text may stand for have one digest. *)
Lemma json_sorted request : _public_intake_payload_json (sorted_dict request) = _public_intake_payload_json request.
Proof. exact (dumps_sorted compact_unicode (JObj request) eq_refl). Qed.
Lemma digest_sorted request : _public_intake_payload_sha256 (sorted_dict request) = _public_intake_payload_sha256 request.
Proof. unfold _public_intake_payload_sha256. by rewrite json_sorted. Qed.

Lemma digest_matches_same a b : digest_matches (_public_intake_payload_sha256 a) (_public_intake_payload_sha256 b)
  = String.eqb (_public_intake_payload_sha256 a) (_public_intake_payload_sha256 b).
Proof. unfold digest_matches, _public_intake_payload_sha256. by rewrite tag_folded. Qed.

Lemma decode_text request : json_wf (JObj request) = true ->
  _decode_json_object_payload (JStr (_public_intake_payload_json request)) = Ok (sorted_dict request).
Proof.
  intros H. unfold _decode_json_object_payload, _public_intake_payload_json.
  by rewrite (loads_dumps compact_unicode _ sep_ok_compact_unicode H).
Qed.

(** What the methods read out of a row that is leased. *)
Lemma row_for_request request r : row_for request r -> acquiring r = true ->
  _decode_json_object_payload (JStr (payload r)) = Ok (sorted_dict request).
Proof. intros [Hw _ _ Hp] Ha. rewrite Ha in Hp. rewrite Hp. by apply decode_text. Qed.

Lemma reservation_of request run_id r owner : row_for request r -> acquiring r = true ->
  _intake_reservation_row run_id r owner = Ok (mkReservation run_id r (sorted_dict request) owner).
Proof.
  intros H Ha. unfold _intake_reservation_row. rewrite (row_for_request _ _ H Ha). cbn [mbind res_bind].
  change (String.eqb (status r) "acquiring") with (acquiring r). rewrite Ha, (for_digest _ _ H), digest_sorted.
  rewrite digest_matches_same, String.eqb_refl. done.
Qed.

(** ** The steps *)

Lemma update_rows p f k t : (forall r, t !! k = Some r -> p r = true -> moves r (f r)) ->
  rows_evolve moves t (snd (update_row p f k t)).
Proof.
  intros H. destruct (update_row_cases p f k t) as [(r & Hr & Hp & ->)|[-> _]]; [|done].
  apply (rows_evolve_insert moves). intros r' Hr'. rewrite Hr in Hr'. injection Hr' as <-. auto.
Qed.
Lemma update_rows_ok p f k t : rows_ok t -> (forall r, t !! k = Some r -> p r = true -> row_ok (f r)) ->
  rows_ok (snd (update_row p f k t)).
Proof.
  intros Hi H. destruct (update_row_cases p f k t) as [(r & Hr & Hp & ->)|[-> _]]; [|done].
  apply map_Forall_insert_2; auto.
Qed.

(** A row that is settled: [p] picks it, [f] settles it with the text of [request]. *)
Definition settles (p : intake_row -> bool) (f : string -> intake_row -> intake_row) : Prop :=
  (forall r, p r = true -> acquiring r = true) /\
  (forall text r, acquiring (f text r) = false /\ request_sha256 (f text r) = request_sha256 r /\
    attempt_count (f text r) = attempt_count r /\ lease_until_epoch (f text r) = float_of_Z 0 /\ payload (f text r) = text).

Lemma held_settles f : (forall text r, acquiring (f text r) = false /\ request_sha256 (f text r) = request_sha256 r /\
    attempt_count (f text r) = attempt_count r /\ lease_until_epoch (f text r) = float_of_Z 0 /\ payload (f text r) = text) ->
  (forall lease, settles (held_by lease) f) /\ (forall digest, settles (requested_as digest) f).
Proof.
  intros H. split; intros l; (split; [|exact H]); intros r; unfold held_by, requested_as, acquiring;
    by intros [_ Hr]%andb_true_iff.
Qed.
Lemma accept_held commit now_text lease : settles (held_by lease) (accept commit now_text).
Proof. refine (proj1 (held_settles _ _) lease). intros text r. by split_and!. Qed.
Lemma accept_requested commit now_text digest : settles (requested_as digest) (accept commit now_text).
Proof. refine (proj2 (held_settles _ _) digest). intros text r. by split_and!. Qed.
Lemma abandon_held code b now_text lease : settles (held_by lease) (abandon code b now_text).
Proof. refine (proj1 (held_settles _ _) lease). intros text r. by split_and!. Qed.

(** What was read of the row is [None] or the request the row is for. *)
Lemma seen_request p f k seen t : settles p f -> rows_ok seen -> rows_evolve moves seen t ->
  exists q, seen_payload p k seen = Ok q /\
    forall r request, t !! k = Some r -> acquiring r = true -> row_for request r ->
      terminal_text q = terminal_text (Some (sorted_dict request)) \/ terminal_text q = terminal_text None.
Proof.
  intros [Hp _] Hs Hm. unfold seen_payload. destruct (seen !! k) as [s|] eqn:Hk; [|exists None; auto].
  destruct (p s) eqn:Hps; [|exists None; auto]. destruct (Hs k s Hk) as [request Hr].
  rewrite (row_for_request _ _ Hr (Hp s Hps)). exists (Some (sorted_dict request)). split; [done|].
  intros r request' Ht Ha Hr'. left. destruct (Hm k s Hk) as (r1 & Ht1 & [_ _ _ Hpay]). rewrite Ht in Ht1. injection Ht1 as <-.
  specialize (Hpay Ha). pose proof (row_for_request _ _ Hr' Ha) as H1. rewrite Hpay, (row_for_request _ _ Hr (Hp s Hps)) in H1.
  by injection H1 as ->.
Qed.

Lemma settle_step p f k q t : settles p f -> rows_ok t ->
  (forall r request, t !! k = Some r -> acquiring r = true -> row_for request r ->
      terminal_text q = terminal_text (Some (sorted_dict request)) \/ terminal_text q = terminal_text None) ->
  rows_ok (snd (update_row p (f (terminal_text q)) k t)) /\ rows_evolve moves t (snd (update_row p (f (terminal_text q)) k t)).
Proof.
  intros [Hp Hf] Hi Hq. split; [apply update_rows_ok; [exact Hi|]|apply update_rows];
    intros r Hr Hpr; destruct (Hf (terminal_text q) r) as (F1 & F2 & F3 & F4 & F5); pose proof (Hp r Hpr) as Ha.
  - destruct (Hi k r Hr) as [request Hreq]. exists request. destruct Hreq as [Hw Hd Hu Hpay] eqn:E. clear E.
    split; [exact Hw|by rewrite F2| |].
    + rewrite F4. by vm_compute.
    + rewrite F1, F5. apply (Hq r request Hr Ha). by split.
  - split; [done|lia|congruence|congruence].
Qed.

Lemma claim_step digest now lease until now_text k t : rows_ok t -> bind_real until = Some until ->
  rows_ok (snd (update_row (claimable digest now) (claim lease until now_text) k t)) /\
  rows_evolve moves t (snd (update_row (claimable digest now) (claim lease until now_text) k t)).
Proof.
  intros Hi Hu. split; [apply update_rows_ok; [exact Hi|]|apply update_rows]; intros r Hr Hc.
  - destruct (Hi k r Hr) as [request [Hw Hd _ Hp]]. exists request. by split.
  - split; [done|cbn; lia| |done]. unfold claimable in Hc. fold (acquiring r) in Hc. intros Ha. rewrite Ha, andb_false_r in Hc. done.
Qed.

Lemma reserve_step k h p now s l u t : json_wf (JObj p) = true -> rows_ok t ->
  rows_ok (snd (reserve_public_intake k h p now s l u t)) /\ rows_evolve moves t (snd (reserve_public_intake k h p now s l u t)).
Proof.
  intros Hw Hi. unfold reserve_public_intake.
  repeat match goal with |- context[if ?b then (fail _ _, t) else _] => destruct b; [by split|] end.
  destruct (bind_real _) as [until|] eqn:Hu; [|by split]. apply bind_real_idemp in Hu.
  destruct (t !! strip k) as [r|] eqn:Hk.
  - repeat match goal with |- context[if ?b then (_, t) else _] => destruct b; [by split|] end.
    pose proof (claim_step (_public_intake_payload_sha256 p) now l until u (strip k) t Hi Hu) as H.
    destruct (update_row _ _ _ t) as [claimed t']. cbn [snd] in H. by destruct (t' !! strip k).
  - split; [apply map_Forall_insert_2; [|exact Hi]; exists p; by split|]. apply (rows_evolve_insert moves). congruence.
Qed.

Lemma heartbeat_step k l e u t : rows_ok t ->
  rows_ok (snd (heartbeat_public_intake k l e u t)) /\ rows_evolve moves t (snd (heartbeat_public_intake k l e u t)).
Proof.
  intros Hi. unfold heartbeat_public_intake. destruct (bind_real e) as [until|] eqn:Hu; [|by destruct (fst _)].
  apply bind_real_idemp in Hu.
  set (f := fun r => _). assert (rows_ok (snd (update_row (held_by l) f k t)) /\ rows_evolve moves t (snd (update_row (held_by l) f k t))) as H.
  { split; [apply update_rows_ok; [exact Hi|]|apply update_rows]; intros r Hr Hc.
    - destruct (Hi k r Hr) as [request [Hw Hd _ Hp]]. exists request. by split.
    - split; [done|done| |done]. unfold held_by in Hc. fold (acquiring r) in Hc. intros Ha. rewrite Ha, andb_false_r in Hc. done. }
  by destruct (update_row _ _ _ _).
Qed.

Lemma perform_step seen t l t' : rows_ok seen -> rows_ok t -> rows_evolve moves seen t -> commits seen t l t' ->
  rows_ok t' /\ rows_evolve moves t t'.
Proof.
  intros Hs Hi Hm [Hwf Hp]. destruct l as [[k h p now s l u|k|k l e u|k l c u|k h c u|k l c b u] r]; cbn [fst snd perform call_wf] in *;
    unfold answering in Hp; injection Hp as _ <-.
  - by apply reserve_step.
  - unfold load_public_intake. destruct (negb _); [by split|]. by destruct (t !! strip k).
  - by apply heartbeat_step.
  - destruct (seen_request (held_by l) _ k seen t (accept_held c u l) Hs Hm) as (q & Hq & Hc).
    unfold complete_public_intake. rewrite Hq.
    pose proof (settle_step _ _ k q t (accept_held c u l) Hi Hc) as H. by destruct (update_row _ _ _ _).
  - unfold reconcile_public_intake_accepted. cbv zeta. set (d := casefold (strip h)).
    destruct (seen_request (requested_as d) _ k seen t (accept_requested c u d) Hs Hm) as (q & Hq & Hc).
    rewrite Hq. destruct q as [q|]; [|by split].
    pose proof (settle_step _ _ k (Some q) t (accept_requested c u d) Hi Hc) as H. by destruct (update_row _ _ _ _).
  - destruct (seen_request (held_by l) _ k seen t (abandon_held c b u l) Hs Hm) as (q & Hq & Hc).
    unfold fail_public_intake. rewrite Hq.
    pose proof (settle_step _ _ k q t (abandon_held c b u l) Hi Hc) as H. by destruct (update_row _ _ _ _).
Qed.

(** ** What is left of a settled request *)

Definition scrubbed (content : dict) : Prop := forall key v, (key, v) ∈ content ->
  key ∈ safe_fields \/ (key = "engagement_metadata" /\ exists digest, v = JObj [("engagement_metadata_sha256", JStr digest)]).

Lemma terminal_fields request fields : let kept := omap (fun f => if present (dget request f) then Some (f, dget request f) else None) fields in
  (forall key v, (key, v) ∈ kept -> key ∈ fields /\ v = dget request key) /\ (NoDup fields -> NoDup (keys kept)).
Proof.
  cbv zeta. induction fields as [|f fields [IH1 IH2]]; [by split; [intros key v H; inversion H|constructor]|].
  cbn [omap list_omap]. destruct (present (dget request f)).
  - split.
    + intros key v [[= -> ->]|H]%elem_of_cons; [by split; [left|]|]. destruct (IH1 key v H) as [H1 H2]. by split; [right|].
    + intros [Hf Hn]%NoDup_cons. cbn [keys map fst]. apply NoDup_cons. split; [|by apply IH2].
      intros ([key v] & -> & Hin)%list_elem_of_fmap. by apply Hf, (IH1 key v).
  - split; [|intros [_ Hn]%NoDup_cons; by apply IH2].
    intros key v H. destruct (IH1 key v H) as [H1 H2]. by split; [right|].
Qed.

Lemma terminal_wf request : json_wf (JObj request) = true ->
  json_wf (JObj (_terminal_public_intake_payload request)) = true /\ scrubbed (_terminal_public_intake_payload request).
Proof.
  intros Hw. unfold _terminal_public_intake_payload.
  set (terminal := omap _ safe_fields). destruct (terminal_fields request safe_fields) as [Hin Hnd]. fold terminal in Hin, Hnd.
  specialize (Hnd ltac:(by apply (bool_decide_eq_true_1 _); vm_compute)).
  assert (forall key v, (key, v) ∈ terminal -> json_wf v = true) as Hwf
    by (intros key v Hv; destruct (Hin key v Hv) as [_ ->]; by apply dget_wf).
  assert (forall e, json_wf (JObj (terminal ++ e)) = true <-> json_wf (JObj e) = true /\ forall k, k ∈ keys e -> k ∉ keys terminal) as Happ.
  { intros e. cbn [json_wf]. rewrite !andb_true_iff, !bool_decide_eq_true, !forallb_Forall, map_app, NoDup_app, Forall_app.
    fold (keys terminal) (keys e). assert (Forall (fun m => json_wf (snd m) = true) terminal)
      by (apply Forall_forall; intros [key v] Hv; by apply (Hwf key v)). naive_solver. }
  assert (scrubbed terminal) as Hs by (intros key v Hv; left; by apply (Hin key v)).
  assert (json_wf (JObj terminal) = true) as Ht by (rewrite <- (app_nil_r terminal); apply Happ; split; [done|set_solver]).
  destruct (dget request "engagement_metadata") as [| | | | | |e]; try (by split).
  destruct (truthy _); [|by split].
  assert ("engagement_metadata" ∉ keys terminal) as Hn.
  { intros ([key v] & Hk & Hv)%list_elem_of_fmap. cbn [fst] in Hk. subst key. destruct (Hin _ v Hv) as [Hf _].
    assert (bool_decide ("engagement_metadata" ∈ safe_fields) = false) as Hb by (vm_compute; reflexivity).
    by apply bool_decide_eq_false_1 in Hb. }
  rewrite dset_app by exact Hn. split.
  - apply Happ. split; [done|]. intros k. cbn [keys map fst]. by intros ->%list_elem_of_singleton.
  - intros key v [Hv|[= -> ->]%list_elem_of_singleton]%elem_of_app; [by apply Hs|]. right. eauto.
Qed.

Lemma scrubbed_sorted content : scrubbed content -> scrubbed (sorted_dict content).
Proof.
  intros H key v Hv. rewrite sorted_dict_perm in Hv. apply list_elem_of_fmap in Hv as ([key' w] & [= -> ->] & Hw).
  destruct (H _ _ Hw) as [Hk|(Hk & d & ->)]; [by left|]. right. split; [done|]. by exists d.
Qed.

(** What can be read out of a row. *)
Lemma row_content r : row_ok r -> exists content, _decode_json_object_payload (JStr (payload r)) = Ok content /\
  if acquiring r then _public_intake_payload_sha256 content = request_sha256 r else scrubbed content.
Proof.
  intros [request H]. destruct (acquiring r) eqn:Ha.
  - exists (sorted_dict request). split; [by apply row_for_request|]. by rewrite digest_sorted, (for_digest _ _ H).
  - destruct H as [Hw _ _ Hp]. rewrite Ha in Hp.
    assert (exists q, json_wf (JObj q) = true /\ payload r = _public_intake_payload_json (_terminal_public_intake_payload q)) as (q & Hq & ->).
    { destruct Hp as [-> | ->]; [|by exists []]. exists (sorted_dict request). split; [|done]. by apply (sort_json_wf (JObj request)). }
    destruct (terminal_wf q Hq) as [Ht Hs]. exists (sorted_dict (_terminal_public_intake_payload q)).
    split; [by apply decode_text|by apply scrubbed_sorted].
Qed.

(** ** Properties *)

(** The guards of [reserve_public_intake] before it looks at the table. *)
Definition admissible (run_id request_sha : string) (request : dict) (now lease_seconds : float) : bool :=
  truthy (strip run_id) && truthy (casefold (strip request_sha)) && negb (fleb lease_seconds (float_of_Z 0)) &&
  (blen (utf8_encode (_public_intake_payload_json request)) <=? MAX_PUBLIC_INTAKE_RESERVATION_BYTES) &&
  String.eqb (casefold (strip request_sha)) (_public_intake_payload_sha256 request) &&
  bool_decide (bind_real (fadd now lease_seconds) <> None).

(** The lease is over when it is not still running. *)
Lemma lease_over request r now : row_for request r -> now <> S754_nan ->
  negb (acquiring r) || fltb now (lease_until_epoch r) = negb (acquiring r && fleb (lease_until_epoch r) now).
Proof.
  intros Hr Hn. destruct (acquiring r); [|done]. cbn [negb orb andb].
  destruct (fltb now (lease_until_epoch r)) eqn:Hlt; [by rewrite (fltb_not_fleb _ _ Hlt)|].
  rewrite fltb_false_fleb; [done|done| |done]. intros Hx. pose proof (for_until _ _ Hr) as H. by rewrite Hx in H.
Qed.

Lemma reserve_claim request digest now lease until now_text k r t : t !! k = Some r -> row_for request r ->
  _public_intake_payload_sha256 request = digest -> now <> S754_nan ->
  acquiring r && fleb (lease_until_epoch r) now = true ->
  let row := claim lease until now_text r in
  update_row (claimable digest now) (claim lease until now_text) k t = (true, <[k := row]> t) /\
  (<[k := row]> t) !! k = Some row /\
  _intake_reservation_row k row true = Ok (mkReservation k row (sorted_dict request) true).
Proof.
  intros Hk Hr Hd Hn [Ha Hle]%andb_true_iff. cbv zeta. unfold update_row, claimable. rewrite Hk. fold (acquiring r).
  rewrite Ha, (for_digest _ _ Hr), Hd, String.eqb_refl, sql_le_finite, Hle by (by destruct now).
  split; [done|]. split; [apply lookup_insert_eq|].
  unfold _intake_reservation_row. cbn [claim payload status request_sha256]. rewrite (row_for_request _ _ Hr Ha). cbn [mbind res_bind].
  fold (acquiring r). by rewrite Ha, (for_digest _ _ Hr), digest_sorted, digest_matches_same, String.eqb_refl.
Qed.

Lemma reservation_kept request k r : row_for request r ->
  exists content, _intake_reservation_row k r false = Ok (mkReservation k r content false).
Proof.
  intros Hr. destruct (acquiring r) eqn:Ha; [exists (sorted_dict request); by apply reservation_of|].
  destruct (row_content r (ex_intro _ request Hr)) as (content & Hc & _). exists content.
  unfold _intake_reservation_row. rewrite Hc. cbn [mbind res_bind]. fold (acquiring r). by rewrite Ha.
Qed.

Local Ltac refused := eexists; split; [reflexivity|first [by left|by right]].

(** Reserving.  A request is refused, and the table left alone, when it lacks
    an identity, is too large, does not hash to its digest or has no proper lease.
    Otherwise it is leased when there is no row; it conflicts with a row for
    another digest; it takes over the row exactly when that is not settled and its
    lease is over; any other row is answered without the lease and without a
    change.  The request in an answer that carries the lease has the digest asked
    for. *)
Theorem reserve_public_intake_spec run_id request_sha request now seconds lease now_text t :
  json_wf (JObj request) = true -> rows_ok t ->
  let answer := reserve_public_intake run_id request_sha request now seconds lease now_text t in
  let k := strip run_id in
  let digest := _public_intake_payload_sha256 request in
  let owned row := exists content, answer = (Ok (mkReservation k row content true), <[k := row]> t) /\
    _public_intake_payload_sha256 content = digest in
  if admissible run_id request_sha request now seconds then
    exists until, bind_real (fadd now seconds) = Some until /\
    match t !! k with
    | None => owned (mkIntake digest "acquiring" lease until 1 "" 0 "" now_text (_public_intake_payload_json request))
    | Some r =>
        if negb (String.eqb (request_sha256 r) digest)
        then answer = (fail ComprehensiveRunConflict "public_intake_idempotency_conflict", t)
        else if acquiring r && fleb (lease_until_epoch r) now
        then owned (mkIntake digest "acquiring" lease until (attempt_count r + 1) (failure_code r) (failure_retryable r)
                      (accepted_commit_sha r) now_text (payload r))
        else exists content, answer = (Ok (mkReservation k r content false), t)
    end
  else exists e, answer = (Raise e, t) /\ (exn_class e = ValueError \/ exn_class e = DatabaseError).
Proof.
  intros Hw Hi. cbv zeta. unfold admissible, reserve_public_intake.
  destruct (truthy (strip run_id)) eqn:G1; cbn [negb orb andb]; [|refused].
  destruct (truthy (casefold (strip request_sha))) eqn:G2; cbn [negb andb]; [|refused].
  destruct (fleb seconds (float_of_Z 0)) eqn:G3; cbn [negb andb]; [refused|].
  rewrite Z.ltb_antisym. destruct (_ <=? MAX_PUBLIC_INTAKE_RESERVATION_BYTES) eqn:G4; cbn [negb andb]; [|refused].
  destruct (String.eqb_spec (casefold (strip request_sha)) (_public_intake_payload_sha256 request)) as [G5|]; cbn [negb andb]; [|refused].
  destruct (bind_real (fadd now seconds)) as [until|] eqn:Hu; [|rewrite bool_decide_eq_false_2 by (intros H; by apply H); refused].
  rewrite bool_decide_eq_true_2 by done. exists until. split; [done|].
  set (digest := _public_intake_payload_sha256 request) in *.
  destruct (t !! strip run_id) as [r|] eqn:Hk.
  - destruct (Hi _ r Hk) as [q Hr]. rewrite (for_digest _ _ Hr).
    rewrite (digest_matches_same q request : digest_matches _ digest = String.eqb _ digest).
    destruct (String.eqb_spec (_public_intake_payload_sha256 q) digest) as [Hd|]; cbn [negb]; [|done].
    assert (now <> S754_nan) as Hnow by (intros ->; by rewrite fadd_nan_l in Hu).
    fold (acquiring r). rewrite (lease_over q r now Hr Hnow).
    destruct (acquiring r && fleb (lease_until_epoch r) now) eqn:Hc.
    + destruct (reserve_claim q digest now lease until now_text (strip run_id) r t Hk Hr Hd Hnow Hc) as (-> & Hl & Hres).
      rewrite Hl, Hres. rewrite <- Hd, <- (for_digest _ _ Hr). apply andb_true_iff in Hc as [Ha _]. apply String.eqb_eq in Ha.
      exists (sorted_dict q). unfold claim. rewrite Ha. split; [done|]. by rewrite digest_sorted, (for_digest _ _ Hr).
    + destruct (reservation_kept q (strip run_id) r Hr) as [content ->]. by exists content.
  - set (row := mkIntake _ _ _ _ _ _ _ _ _ _). assert (row_for request row) as Hr by (split; [done|done|by eapply bind_real_idemp|done]).
    rewrite (reservation_of request) by done. exists (sorted_dict request). split; [done|]. by rewrite digest_sorted.
Qed.

Lemma intake_monotone ts : intake_history ts -> forall t, t ∈ states ∅ ts -> rows_ok t /\ rows_evolve moves t (current ∅ ts).
Proof.
  apply (history_monotone commits ∅ rows_ok (rows_evolve moves) (map_Forall_empty _)). exact perform_step.
Qed.

(** C29: the life of a reservation.  Whatever clients do, and however their reads
    and writes interleave, a row stays: its digest is fixed, its attempts do not
    go down, and once it is settled it does not change at all.  While it is leased
    its text is an object with that digest; once it is settled it holds nothing of
    the request but the safe fields and the digest of the engagement. *)
Theorem intake_lifecycle later ts run_id r : intake_history (later ++ ts) -> current ∅ ts !! run_id = Some r ->
  exists r' content, current ∅ (later ++ ts) !! run_id = Some r' /\
    request_sha256 r' = request_sha256 r /\ attempt_count r <= attempt_count r' /\
    (status r <> "acquiring" -> r' = r) /\
    _decode_json_object_payload (JStr (payload r')) = Ok content /\
    (status r' = "acquiring" -> _public_intake_payload_sha256 content = request_sha256 r') /\
    (status r' <> "acquiring" -> scrubbed content).
Proof.
  intros H Hr. pose proof (intake_monotone _ H) as Hm.
  destruct (Hm _ (states_app _ later ts)) as [_ Hev]. destruct (Hev _ _ Hr) as (r' & Hr' & [Hd Hc Hs _]).
  destruct (Hm _ (current_state _ _)) as [Hok _]. destruct (row_content r' (Hok _ _ Hr')) as (content & Hp & Hx).
  exists r', content. split_and!; try done.
  - intros Hn. apply Hs. by apply String.eqb_neq.
  - intros Ha. unfold acquiring in Hx. by rewrite Ha in Hx.
  - intros Ha. unfold acquiring in Hx. apply String.eqb_neq in Ha. by rewrite Ha in Hx.
Qed.

(** A call that settles the row of [run_id] and is told so. *)
Definition settles_row (run_id : string) (l : call * res reply) : Prop :=
  snd l = Ok (Changed true) /\
  match fst l with
  | Complete k _ _ _ | Reconcile k _ _ _ | Abandon k _ _ _ _ => k = run_id
  | _ => False
  end.
Definition settled (run_id : string) (t : intakes) : Prop := exists r, t !! run_id = Some r /\ acquiring r = false.

Lemma update_settles p f q k t t' : settles p f -> update_row p (f q) k t = (true, t') -> ~ settled k t /\ settled k t'.
Proof.
  intros [Hp Hf] H. destruct (update_row_cases p (f q) k t) as [(r & Hr & Hpr & He)|[He _]]; rewrite He in H; [|done].
  injection H as <-. split.
  - intros (r' & Hr' & Ha). rewrite Hr in Hr'. injection Hr' as <-. rewrite (Hp r Hpr) in Ha. done.
  - exists (f q r). rewrite lookup_insert_eq. split; [done|]. apply Hf.
Qed.

Lemma settling_event run_id seen t l t' : commits seen t l t' -> settles_row run_id l -> ~ settled run_id t /\ settled run_id t'.
Proof.
  intros [_ Hp] [Hl Hk]. destruct l as [[k h p now s l u|k|k l e u|k l c u|k h c u|k l c b u] r]; cbn [fst snd] in *; try done;
    subst k r; cbn [perform] in Hp; unfold answering in Hp.
  - unfold complete_public_intake in Hp. destruct (seen_payload _ _ _) as [q|]; [|done].
    destruct (update_row _ _ _ _) as [changed t1] eqn:Hu. injection Hp as -> ->. by eapply (update_settles _ _ _ _ _ _ (accept_held c u l)).
  - unfold reconcile_public_intake_accepted in Hp. destruct (seen_payload _ _ _) as [[q|]|]; try done.
    destruct (update_row _ _ _ _) as [changed t1] eqn:Hu. injection Hp as -> ->. by eapply (update_settles _ _ _ _ _ _ (accept_requested c u _)).
  - unfold fail_public_intake in Hp. destruct (seen_payload _ _ _) as [q|]; [|done].
    destruct (update_row _ _ _ _) as [changed t1] eqn:Hu. injection Hp as -> ->. by eapply (update_settles _ _ _ _ _ _ (abandon_held c b u l)).
Qed.

(** [l] cannot settle or extend the row. *)
Definition without_lease (run_id lease : string) (t : intakes) : Prop := forall r, t !! run_id = Some r -> held_by lease r = false.
Definition leases_as (run_id lease : string) (c : call) : Prop :=
  match c with Reserve k _ _ _ _ l _ => strip k = run_id /\ l = lease | _ => False end.

Lemma update_without p f k run_id lease t : without_lease run_id lease t ->
  (forall r, k = run_id -> t !! k = Some r -> p r = true -> held_by lease r = false -> held_by lease (f r) = false) ->
  without_lease run_id lease (snd (update_row p f k t)).
Proof.
  intros H Hf r. destruct (update_row_cases p f k t) as [(r0 & Hr0 & Hp & ->)|[-> _]]; [|apply H].
  cbn [snd]. destruct (decide (k = run_id)) as [Hk|Hn]; [|rewrite lookup_insert_ne by done; apply H].
  rewrite Hk, lookup_insert_eq. intros [= <-]. apply Hf; try done. apply H. by rewrite <- Hk.
Qed.

(** The UPDATE of the goal, with what [update_without] says of it. *)
Local Ltac updated H :=
  match goal with |- context[update_row ?p ?f ?k ?t] =>
    match type of H with without_lease ?run_id ?lease _ =>
      pose proof (update_without p f k run_id lease t H) as Hu; destruct (update_row p f k t) as [changed t'] end end.

Lemma without_step run_id lease c seen t : ~ leases_as run_id lease c -> without_lease run_id lease t ->
  without_lease run_id lease (snd (perform c seen t)).
Proof.
  intros Hc H. destruct c as [k h p now s l u|k|k l e u|k l c u|k h c u|k l c b u]; cbn [perform answering snd leases_as] in *.
  - unfold reserve_public_intake.
    repeat match goal with |- context[if ?b then (fail _ _, t) else _] => destruct b; [exact H|] end.
    destruct (bind_real _) as [until|]; [|exact H]. destruct (t !! strip k) as [r|] eqn:Hk.
    + repeat match goal with |- context[if ?b then (_, t) else _] => destruct b; [exact H|] end.
      updated H.
      cbn [snd] in Hu. destruct (t' !! strip k); apply Hu; intros r' Hk' _ _ _; unfold held_by; cbn;
        (destruct (String.eqb_spec l lease) as [->|]; [by destruct Hc|done]).
    + intros r. cbn [snd]. destruct (decide (strip k = run_id)) as [Hk'|Hn]; [|rewrite lookup_insert_ne by done; apply H].
      rewrite Hk', lookup_insert_eq. intros [= <-]. unfold held_by. cbn [lease_id status].
      destruct (String.eqb_spec l lease) as [->|]; [by destruct Hc|done].
  - unfold load_public_intake. destruct (negb _); [exact H|]. by destruct (t !! strip k).
  - unfold heartbeat_public_intake. destruct (bind_real e) as [until|]; [|by destruct (fst _)].
    updated H. apply Hu. by intros r _ _ _ Hh.
  - unfold complete_public_intake. destruct (seen_payload _ _ _); [|exact H].
    updated H. apply Hu. intros r _ _ _ _. apply andb_false_r.
  - unfold reconcile_public_intake_accepted. destruct (seen_payload _ _ _) as [[q|]|]; try exact H.
    updated H. apply Hu. intros r _ _ _ _. apply andb_false_r.
  - unfold fail_public_intake. destruct (seen_payload _ _ _); [|exact H].
    updated H. apply Hu. intros r _ _ _ _. apply andb_false_r.
Qed.

(** A reservation is settled once.  In no history do two calls that complete,
    reconcile or fail the same run both answer that they changed it: when one has,
    none before it did. *)
Theorem intake_settled_once later l t ts run_id :
  intake_history (later ++ (l, t) :: ts) -> settles_row run_id l -> forall l0 t0, (l0, t0) ∈ ts -> ~ settles_row run_id l0.
Proof.
  intros H Hl l0 t0 Hin Hl0. apply list_elem_of_split in Hin as (mid & rest & ->).
  eapply (history_once commits ∅ rows_ok (rows_evolve moves) (map_Forall_empty _) perform_step
    (settles_row run_id) (settled run_id)); [| |exact H|exact Hl|exact Hl0].
  - intros seen u l1 u' _ _ _ Hc Hs. by eapply settling_event.
  - intros u u' (r & Hr & Ha) Hev. destruct (Hev _ _ Hr) as (r' & Hr' & [_ _ Hs _]). exists r'. split; [done|].
    by rewrite (Hs Ha).
Qed.

Lemma without_history run_id lease later ts : intake_history (later ++ ts) -> without_lease run_id lease (current ∅ ts) ->
  (forall c r u, ((c, r), u) ∈ later -> ~ leases_as run_id lease c) -> without_lease run_id lease (current ∅ (later ++ ts)).
Proof.
  intros H H0. induction later as [|[[c r] u] later IH]; intros Hn; [done|]. cbn [app] in *. inversion H as [|? seen ? ? Hts Hs [Hw Hp]]; subst.
  cbn [fst snd] in Hp. change (current ∅ _) with u at 1. replace u with (snd (perform c seen (current ∅ (later ++ ts)))) by (by rewrite Hp).
  apply without_step; [apply (Hn c r u); by left|]. apply IH; [done|]. intros c' r' u' Hin. apply (Hn c' r' u'). by right.
Qed.

(** The calls of the holder of a lease. *)
Definition acts_with (run_id lease : string) (c : call) : Prop :=
  match c with
  | Heartbeat k l _ _ | Complete k l _ _ | Abandon k l _ _ _ => k = run_id /\ l = lease
  | _ => False
  end.

Lemma update_refused p f k (t : intakes) : (forall r, t !! k = Some r -> p r = false) -> update_row p f k t = (false, t).
Proof. intros H. destruct (update_row_cases p f k t) as [(r & Hr & Hp & _)|[-> _]]; [|done]. by rewrite (H r Hr) in Hp. Qed.

(** C30: a lease that was taken over is dead.  Once the row carries another lease,
    no call with the old one extends, completes or fails it any more, whatever
    other clients do and whatever was read before, as long as nobody leases the
    row under that very lease again. *)
Theorem superseded_lease_dead run_id lease later ts r c seen :
  intake_history (later ++ ts) -> current ∅ ts !! run_id = Some r -> lease_id r <> lease ->
  (forall c' a u, ((c', a), u) ∈ later -> ~ leases_as run_id lease c') -> acts_with run_id lease c ->
  fst (perform c seen (current ∅ (later ++ ts))) <> Ok (Changed true).
Proof.
  intros H Hr Hl Hn Hc. assert (without_lease run_id lease (current ∅ (later ++ ts))) as Hw.
  { apply without_history; [done| |done]. intros r' Hr'. rewrite Hr in Hr'. injection Hr' as <-.
    unfold held_by. by apply String.eqb_neq in Hl as ->. }
  destruct c as [| |k l e u|k l s u| |k l code b u]; try done; destruct Hc as [-> ->]; cbn [perform answering fst].
  - unfold heartbeat_public_intake. destruct (bind_real e); by rewrite update_refused.
  - unfold complete_public_intake. destruct (seen_payload _ _ _); [|done]. by rewrite update_refused.
  - unfold fail_public_intake. destruct (seen_payload _ _ _); [|done]. by rewrite update_refused.
Qed.

(** ** An example *)

Module IntakeDemo.
Definition request : dict := [("run_id", JStr "r1"); ("token", JStr "t")].
Definition digest : string := _public_intake_payload_sha256 request.
Definition t0 : float := float_of_Z 1000.
Definition t1 : float := float_of_Z 2000.
Definition reserve (now : float) (lease : string) : call := Reserve "r1" digest request now (float_of_Z 300) lease "2026".
Definition settle (lease : string) : call := Complete "r1" lease "ABC" "2026".
Definition after (c : call) (t : intakes) : intakes := snd (perform c t t).
Definition first : intakes := after (reserve t0 "a") ∅.
Definition second : intakes := after (reserve t1 "b") first.
Definition third : intakes := after (settle "b") second.
Definition event (c : call) (t : intakes) : (call * res reply) * intakes := ((c, fst (perform c t t)), after c t).
Definition events : list ((call * res reply) * intakes) :=
  [event (settle "b") second; event (reserve t1 "b") first; event (reserve t0 "a") ∅].
Definition row1 : intake_row :=
  mkIntake digest "acquiring" "a" (float_of_Z 1300) 1 "" 0 "" "2026" (_public_intake_payload_json request).
Lemma first_row : first !! "r1" = Some row1.
Proof. vm_compute. reflexivity. Qed.
Definition row2 : intake_row :=
  mkIntake digest "acquiring" "b" (float_of_Z 2300) 2 "" 0 "" "2026" (_public_intake_payload_json request).
Lemma second_row : second !! "r1" = Some row2.
Proof. vm_compute. reflexivity. Qed.
Lemma settled_true : snd (fst (event (settle "b") second)) = Ok (Changed true).
Proof. vm_compute. reflexivity. Qed.
Lemma admitted : admissible "r1" digest request t0 (float_of_Z 300) = true.
Proof. vm_compute. reflexivity. Qed.
Lemma happened : intake_history events.
Proof.
  repeat (eapply history_commit; [|apply current_state|split; [reflexivity|apply surjective_pairing]]).
  constructor.
Qed.
End IntakeDemo.

Lemma reserve_public_intake_spec_witness : exists row content,
  reserve_public_intake "r1" IntakeDemo.digest IntakeDemo.request IntakeDemo.t0 (float_of_Z 300) "a" "2026" ∅
    = (Ok (mkReservation "r1" row content true), <["r1" := row]> ∅) /\
  _public_intake_payload_sha256 content = IntakeDemo.digest.
Proof.
  pose proof (reserve_public_intake_spec "r1" IntakeDemo.digest IntakeDemo.request IntakeDemo.t0 (float_of_Z 300) "a" "2026" ∅
    eq_refl (map_Forall_empty _)) as H.
  cbv zeta in H. rewrite IntakeDemo.admitted in H. destruct H as (until & _ & content & H & Hd). eauto.
Defined.

Lemma intake_lifecycle_witness : exists r' content, IntakeDemo.third !! "r1" = Some r' /\
  attempt_count IntakeDemo.row1 <= attempt_count r' /\ _decode_json_object_payload (JStr (payload r')) = Ok content.
Proof.
  destruct (intake_lifecycle (take 2 IntakeDemo.events) (drop 2 IntakeDemo.events) "r1" IntakeDemo.row1
    IntakeDemo.happened IntakeDemo.first_row) as (r' & content & H1 & _ & H2 & _ & H3 & _).
  exists r', content. split_and!; [exact H1|exact H2|exact H3].
Defined.

Lemma intake_settled_once_witness : forall l0 t0, (l0, t0) ∈ drop 1 IntakeDemo.events -> ~ settles_row "r1" l0.
Proof.
  exact (intake_settled_once [] _ _ (drop 1 IntakeDemo.events) "r1" IntakeDemo.happened (conj IntakeDemo.settled_true eq_refl)).
Defined.

Lemma superseded_lease_dead_witness :
  fst (perform (IntakeDemo.settle "a") ∅ IntakeDemo.second) <> Ok (Changed true).
Proof.
  refine (superseded_lease_dead "r1" "a" [] (drop 1 IntakeDemo.events) IntakeDemo.row2 (IntakeDemo.settle "a") ∅
    (history_app commits ∅ (take 1 IntakeDemo.events) _ IntakeDemo.happened) IntakeDemo.second_row _ _ _); [done| |done].
  intros c a u H. by apply elem_of_nil in H.
Defined.
