(* ===== verification/ReportJobs.v ===== *)
(** * Final report leases (nico/comprehensive_run_store.py)

    A row of [nico_comprehensive_final_report_jobs] is the lease of one report
    rendering.  Every method is one SQL statement, so it acts on the table as it
    is; a terminal status is fenced in the statement itself.  [publish_job] is the
    statement with which [save] settles a lease in the transaction that publishes
    the report.  RunStore has the histories and the properties. *)

From S2P Require Import Prelude PyStr PyFloat Json Snapshots Sqlite.

Definition _FINAL_REPORT_JOB_TERMINAL_STATUSES : list string :=
  ["complete"; "blocked"; "failed"; "cancelled"; "superseded"; "expired"].

(** A row under its [lease_id]. *)
Record job_row := mkJob {
  job_run_id : string;
  job_status : string;
  started_epoch : float;
  heartbeat_epoch : float;
  job_updated_at : string }.
Abbreviation jobs := (gmap string job_row) (only parsing).
Definition jobs_tx (A : Type) : Type := jobs -> res A * jobs.

(** [UPDATE]; [None] is a row with a NULL. *)
Definition update_job (p : job_row -> bool) (f : job_row -> option job_row) (lease : string) : jobs_tx bool := fun t =>
  match t !! lease with
  | Some j => if p j then match f j with Some j => (Ok true, <[lease := j]> t) | None => (null_error, t) end else (Ok false, t)
  | None => (Ok false, t)
  end.

(** [str(status or "").strip().lower()] *)
Definition normalized_status (status : string) : string := lower (strip status).

Definition create_final_report_job (lease_id run_id : string) (started heartbeat : float) (now_text status : string)
    : jobs_tx (string * job_row) := fun t =>
  let lease := strip lease_id in
  let run := strip run_id in
  let status := normalized_status status in
  if negb (truthy lease) || negb (truthy run) || negb (truthy status)
  then (fail ValueError "final_report_lease_run_and_status_required", t)
  else match bind_real started, bind_real heartbeat, t !! lease with
       | Some s, Some h, None => (Ok (lease, mkJob run status started heartbeat now_text), <[lease := mkJob run status s h now_text]> t)
       | _, _, _ => (fail ComprehensiveRunConflict ("final_report_lease_exists:" +:+ lease), t)
       end.

Definition load_final_report_job (lease_id : string) : jobs_tx (option (string * job_row)) := fun t =>
  let lease := strip lease_id in
  (Ok (if truthy lease then (fun j => (lease, j)) <$> t !! lease else None), t).

Definition transition_final_report_job_to_rendering (lease_id : string) (started heartbeat : float) (now_text : string)
    : jobs_tx bool := fun t =>
  let lease := strip lease_id in
  if negb (truthy lease) then (fail ValueError "final_report_lease_required", t)
  else update_job (fun j => bool_decide (job_status j ∈ ["queued"; "running"]))
         (fun j => s ← bind_real started; h ← bind_real heartbeat; Some (mkJob (job_run_id j) "rendering" s h now_text)) lease t.

(** [(status NOT IN (...) OR status = ?)] *)
Definition terminal_guard (status : string) (j : job_row) : bool :=
  negb (bool_decide (job_status j ∈ _FINAL_REPORT_JOB_TERMINAL_STATUSES)) || String.eqb (job_status j) status.

Definition update_final_report_job (lease_id status : string) (heartbeat : float) (now_text : string) (started : option float)
    : jobs_tx bool := fun t =>
  let lease := strip lease_id in
  let status := normalized_status status in
  if negb (truthy lease) || negb (truthy status) then (fail ValueError "final_report_lease_and_status_required", t)
  else update_job (terminal_guard status)
         (fun j => s ← match started with Some s => bind_real s | None => Some (started_epoch j) end;
                   h ← bind_real heartbeat; Some (mkJob (job_run_id j) status s h now_text)) lease t.

(** The UPDATE in [save]: [lease_id], [run_id] and an active status. *)
Definition publishable_statuses : list string := ["queued"; "rendering"; "running"].
Definition publish_job (status : string) (now : float) (now_text lease run_id : string) : jobs_tx bool :=
  update_job (fun j => String.eqb (job_run_id j) run_id && bool_decide (job_status j ∈ publishable_statuses))
    (fun j => h ← bind_real now; Some (mkJob (job_run_id j) status (started_epoch j) h now_text)) lease.

(** ** Leases only move forward *)

Definition terminal (j : job_row) : bool := bool_decide (job_status j ∈ _FINAL_REPORT_JOB_TERMINAL_STATUSES).

Record job_moves (j j' : job_row) : Prop := {
  job_moves_run : job_run_id j' = job_run_id j;
  job_moves_terminal : terminal j = true -> job_status j' = job_status j }.

#[export] Instance job_moves_preorder : PreOrder job_moves.
Proof.
  split; [by split|]. intros j k l [R1 T1] [R2 T2]. split; [by rewrite R2, R1|].
  intros H. rewrite T2; [by apply T1|]. unfold terminal in *. by rewrite (T1 H).
Qed.

Abbreviation jobs_evolve := (rows_evolve job_moves).

Lemma update_job_moves p f lease t : (forall j j', p j = true -> f j = Some j' -> job_moves j j') ->
  jobs_evolve t (snd (update_job p f lease t)).
Proof.
  intros H. unfold update_job. destruct (t !! lease) as [j|] eqn:Hj; [|done]. destruct (p j) eqn:Hp; [|done].
  destruct (f j) as [j'|] eqn:Hf; [|done]. apply (rows_evolve_insert job_moves). intros k Hk. rewrite Hj in Hk.
  injection Hk as <-. by apply H.
Qed.

Lemma update_job_true p f lease t t' : update_job p f lease t = (Ok true, t') ->
  exists j j', t !! lease = Some j /\ p j = true /\ f j = Some j' /\ t' = <[lease := j']> t.
Proof.
  unfold update_job. destruct (t !! lease) as [j|]; [|done]. destruct (p j) eqn:Hp; [|done].
  destruct (f j) as [j'|] eqn:Hf; [|done]. intros [= <-]. eauto 6.
Qed.

Lemma active_not_terminal s : s ∈ publishable_statuses -> s ∉ _FINAL_REPORT_JOB_TERMINAL_STATUSES.
Proof.
  intros H. unfold publishable_statuses in H. apply (bool_decide_eq_false_1 _). rewrite !elem_of_cons, elem_of_nil in H.
  destruct H as [->|[->|[->|[]]]]; by vm_compute.
Qed.

Lemma from_active j j' : job_status j ∈ publishable_statuses -> job_run_id j' = job_run_id j -> job_moves j j'.
Proof.
  intros Hp Hr. split; [done|]. unfold terminal. intros H%bool_decide_eq_true. by apply active_not_terminal in H.
Qed.

Lemma create_job_moves l r s h u st t : jobs_evolve t (snd (create_final_report_job l r s h u st t)).
Proof.
  unfold create_final_report_job. destruct (negb _ || _ || _); [done|]. destruct (bind_real s), (bind_real h); try done.
  destruct (t !! strip l) as [j|] eqn:Hj; [done|]. apply (rows_evolve_insert job_moves). by rewrite Hj.
Qed.

Lemma transition_job_moves l s h u t : jobs_evolve t (snd (transition_final_report_job_to_rendering l s h u t)).
Proof.
  unfold transition_final_report_job_to_rendering. destruct (negb _); [done|]. apply update_job_moves.
  intros j j' Hp%bool_decide_eq_true Hf. apply from_active.
  - unfold publishable_statuses. set_solver.
  - destruct (bind_real s); [|done]. destruct (bind_real h); [|done]. by injection Hf as <-.
Qed.

Lemma update_final_job_moves l st h u s t : jobs_evolve t (snd (update_final_report_job l st h u s t)).
Proof.
  unfold update_final_report_job. destruct (_ || _); [done|]. apply update_job_moves. intros j j' Hp Hf.
  cbn [mbind option_bind] in Hf. destruct (match s with Some _ => _ | None => _ end); [|done]. cbn [mbind option_bind] in Hf.
  destruct (bind_real h); [|done]. injection Hf as <-. split; [done|]. cbn [job_status]. unfold terminal, terminal_guard in *.
  intros Ht. rewrite Ht in Hp. cbn [negb orb] in Hp. symmetry. by apply String.eqb_eq.
Qed.

Lemma publish_job_moves st now u l r t : jobs_evolve t (snd (publish_job st now u l r t)).
Proof.
  apply update_job_moves. intros j j' [_ Hp%bool_decide_eq_true]%andb_true_iff Hf. apply from_active; [done|].
  destruct (bind_real now); [|done]. by injection Hf as <-.
Qed.
