(* ===== verification/BundleBoundary.v ===== *)
(** * The boundary against report bundles (nico/ordinary_bundle_boundary_v2.py)

    Operations on single-PDF reports refuse a document that holds a report
    bundle anywhere in its report-owned containers.  [_report_json] reads the
    canonical JSON a package may hold as text: it refuses repeated keys and the
    constants JSON does not have, integers of more than 4300 digits, and decodes
    the bytes as [json.loads] does.  [has_report_bundle] walks the containers with
    the code's stack.  The [visited] map of the code guards against an object
    that contains itself; documents are trees here, so nothing is met twice. *)

From S2P Require Import Prelude PyStr PyFloat Json JsonFacts PyBytes.

Definition ERROR : string := "report_bundle_requires_v2_boundary".
Definition MAX_REPORT_JSON_BYTES : Z := 8 * 1024 * 1024.
Definition _SCHEMA_PREFIXES : list string := ["nico.ordinary-review-bundle."; "nico.ordinary-report-files."].
Definition _CONTAINERS : list string :=
  ["json"; "report_package"; "reports"; "report"; "artifacts"; "manifest";
   "accepted_edition"; "operator_approved_edition"; "operator_delivery_edition"].
Definition _REPORT_STAGES : list string :=
  ["final_comprehensive_report_generation"; "risk_reduction_and_executive_briefing"; "decision_report_generation"].

(** ** The strict reader *)

Definition json_invalid : string := "report_json_invalid_at_legacy_boundary".
Definition json_duplicate : string := "report_json_duplicate_key_at_legacy_boundary".
Definition json_too_large : string := "report_json_size_limit_at_legacy_boundary".
Definition json_object_required : string := "report_json_object_required_at_legacy_boundary".

(** A decoding error of [json.loads] is reported as [json_invalid]. *)
Definition invalid {A} : res A := fail ValueError json_invalid.
Definition decoded {A} (o : option A) : res A := match o with Some a => Ok a | None => invalid end.

(** [object_pairs]: the first repeated key is an error. *)
Fixpoint object_pairs (seen : list string) (pairs : dict) : res unit :=
  match pairs with
  | [] => Ok tt
  | (key, _) :: pairs =>
      _ ← unless (negb (bool_decide (key ∈ seen))) ValueError json_duplicate;
      object_pairs (key :: seen) pairs
  end.

(** The characters of a string, as [Json.parse_string] reads them; an escape
    beyond Latin-1 is read by the program, and has no representation here. *)
Definition push (a : Ascii.ascii) (r : res (string * string)) : res (string * string) :=
  '(s, rest) ← r; Ok (String a s, rest).
Definition short_escapes : list (Z * Z) := [(34, 34); (92, 92); (47, 47); (110, 10); (114, 13); (116, 9); (102, 12); (98, 8)].
Fixpoint short_escape (l : list (Z * Z)) (c : Z) : option Ascii.ascii :=
  match l with [] => None | (e, z) :: l => if c =? e then Some (chr z) else short_escape l c end.
(** The four digits of [\u]. *)
Definition hex4 (h1 h2 h3 h4 : Ascii.ascii) : option Z :=
  a1 ← hex_value h1; a2 ← hex_value h2; a3 ← hex_value h3; a4 ← hex_value h4;
  Some (((a1 * 16 + a2) * 16 + a3) * 16 + a4).
Fixpoint strict_string (s : string) : res (string * string) :=
  match s with
  | "" => invalid
  | String a s1 =>
      if Ascii.eqb a dquote then Ok ("", s1)
      else if Ascii.eqb a backslash then
        match s1 with
        | String e s2 =>
            match short_escape short_escapes (code e) with
            | Some c => push c (strict_string s2)
            | None =>
                if code e =? 117 then
                  match s2 with
                  | String h1 (String h2 (String h3 (String h4 s3))) =>
                      match hex4 h1 h2 h3 h4 with
                      | Some c => if c <? 256 then push (chr c) (strict_string s3) else unrepresented
                      | None => invalid
                      end
                  | _ => invalid
                  end
                else invalid
            end
        | "" => invalid
        end
      else if code a <? 32 then invalid
      else push a (strict_string s1)
  end.

(** A number: [int] refuses to read more than 4300 digits, with a [ValueError]
    of its own. *)
Definition MAX_STR_DIGITS : Z := 4300.
Definition digit_limit : string := "Exceeds the limit (4300 digits) for integer string conversion".
Definition strict_number (t : string) : res json :=
  v ← decoded (parse_number t);
  match v with
  | JInt _ => _ ← unless (blen (snd (minus t)) <=? MAX_STR_DIGITS) ValueError digit_limit; Ok v
  | _ => Ok v
  end.

(** [null], [true] and [false]; the other three literals go to
    [invalid_constant]. *)
Definition plain_literals : list (string * json) := take 3 literals.
Definition constants : list (string * json) := drop 3 literals.

(** Every level of nesting takes one level of the interpreter's recursion, which
    the program refuses to exceed.  How many are left depends on the callers;
    text nested deeper than [MAX_NESTING], of the 1000 levels of the default, has
    no representation. *)
Definition MAX_NESTING : nat := 500.

Fixpoint strict_value (fuel depth : nat) (s : string) : res (json * string) :=
  match fuel with
  | O => out_of_fuel
  | S fuel =>
      match s with
      | "" => invalid
      | String a s1 =>
          if Ascii.eqb a dquote then '(r, rest) ← strict_string s1; Ok (JStr r, rest)
          else if Ascii.eqb a "["%char then
            match depth with
            | O => unrepresented
            | S depth =>
                let s2 := skip_ws s1 in
                if startswith "]" s2 then Ok (JArr [], str_drop 1 s2)
                else '(l, rest) ← strict_items fuel depth s2; Ok (JArr l, rest)
            end
          else if Ascii.eqb a "{"%char then
            match depth with
            | O => unrepresented
            | S depth =>
                let s2 := skip_ws s1 in
                if startswith "}" s2 then Ok (JObj [], str_drop 1 s2)
                else '(l, rest) ← strict_members fuel depth s2; _ ← object_pairs [] l; Ok (JObj l, rest)
            end
          else match parse_literal plain_literals s with
            | Some r => Ok r
            | None =>
                if parse_literal constants s then invalid else
                let '(t, rest) := span number_char s in
                v ← strict_number t; Ok (v, rest)
            end
      end
  end
with strict_items (fuel depth : nat) (s : string) : res (list json * string) :=
  match fuel with
  | O => out_of_fuel
  | S fuel =>
      '(v, r) ← strict_value fuel depth s;
      let r := skip_ws r in
      if startswith "," r then
        '(l, rest) ← strict_items fuel depth (skip_ws (str_drop 1 r)); Ok (v :: l, rest)
      else r ← decoded (expect "]"%char r); Ok ([v], r)
  end
with strict_members (fuel depth : nat) (s : string) : res (dict * string) :=
  match fuel with
  | O => out_of_fuel
  | S fuel =>
      s ← decoded (expect dquote s);
      '(k, r) ← strict_string s;
      r ← decoded (expect ":"%char (skip_ws r));
      '(v, r) ← strict_value fuel depth (skip_ws r);
      let r := skip_ws r in
      if startswith "," r then
        '(l, rest) ← strict_members fuel depth (skip_ws (str_drop 1 r)); Ok ((k, v) :: l, rest)
      else r ← decoded (expect "}"%char r); Ok ([(k, v)], r)
  end.

Definition strict_text (s : string) : res json :=
  '(v, rest) ← strict_value (2 * String.length s + 2) MAX_NESTING (skip_ws s);
  if truthy (skip_ws rest) then invalid else Ok v.

(** [json.loads(data, object_pairs_hook=..., parse_constant=...)] of bytes:
    [json.detect_encoding] tells UTF-16 and UTF-32 by their zero bytes, so text
    with NUL characters is not read as it was written.  Bytes that such a
    decoding does not make Latin-1 text of are not represented. *)
Definition strict_loads (data : string) : res json :=
  match json_text data with Some s => strict_text s | None => unrepresented end.

(** [_report_json(value)] of a string: both its code points and its UTF-8 bytes
    are bounded. *)
Definition _report_json (value : string) : res dict :=
  _ ← unless (Z.of_nat (String.length value) <=? MAX_REPORT_JSON_BYTES) ValueError json_too_large;
  _ ← unless (Z.of_nat (String.length (utf8_encode value)) <=? MAX_REPORT_JSON_BYTES) ValueError json_too_large;
  parsed ← strict_loads (utf8_encode value);
  match parsed with JObj d => Ok d | _ => fail ValueError json_object_required end.

(** ** The walk *)

Definition has_marker (item : dict) : bool :=
  bool_decide ("report_bundle" ∈ keys item) || bool_decide ("report_bundle_schema" ∈ keys item) ||
  match dget item "artifact_schema" with
  | JStr schema => existsb (fun p => startswith p schema) _SCHEMA_PREFIXES | _ => false
  end.

(** What is pushed for one container: text in the [json] slot is read. *)
Definition container_child (item : dict) (key : string) : res json :=
  let child := dget item key in
  match child with
  | JStr text => if String.eqb key "json" && truthy text then d ← _report_json text; Ok (JObj d) else Ok child
  | _ => Ok child
  end.

Definition stage_children (item : dict) : list json :=
  match dget item "stage_results" with JObj stages => map (dget stages) _REPORT_STAGES | _ => [] end.

Definition children_of (item : dict) : res (list json) :=
  l ← mapR (container_child item) _CONTAINERS; Ok (l ++ stage_children item).

(** [while pending]: the head of the list is the top of the stack, so what is
    pushed last is popped first. *)
Fixpoint walk (fuel : nat) (pending : list json) : res bool :=
  match fuel with
  | O => out_of_fuel
  | S fuel =>
      match pending with
      | [] => Ok false
      | JObj item :: pending =>
          if has_marker item then Ok true
          else l ← children_of item; walk fuel (rev l ++ pending)
      | _ :: pending => walk fuel pending
      end
  end.

(** A bound on the items the walk of a value pops: a mapping pushes at most
    twelve; text in the [json] slot is as large as what it holds. *)
Fixpoint walk_steps (v : json) : nat :=
  match v with
  | JStr s => 1 + 13 * String.length s
  | JArr l => 1 + list_sum (map walk_steps l)
  | JObj l => 13 + list_sum (map (fun m => walk_steps (snd m)) l)
  | _ => 1
  end.

Definition has_report_bundle (value : json) : res bool := walk (walk_steps value + 1) [value].

(** [any(...)] stops at the first bundle. *)
Fixpoint require_legacy_single_pdf (values : list json) : res unit :=
  match values with
  | [] => Ok tt
  | value :: values =>
      found ← has_report_bundle value;
      _ ← unless (negb found) ValueError ERROR;
      require_legacy_single_pdf values
  end.

Example boundary_examples :
  let q := replace_char quote dquote in
  require_legacy_single_pdf [JObj [("json", JStr (q "{'manifest': {'report_bundle': 1}}"))]] = fail ValueError ERROR /\
  require_legacy_single_pdf [JObj [("json", JStr (q "{'a': 1, 'a': 2}"))]] = fail ValueError json_duplicate /\
  require_legacy_single_pdf [JObj [("json", JStr (q "{'a': NaN}"))]] = fail ValueError json_invalid /\
  require_legacy_single_pdf [JObj [("json", JStr (String.append (q "{'a': ") (String.append (bytes_of (repeat 57 4301)) "}")))]] = fail ValueError digit_limit /\
  require_legacy_single_pdf [JObj [("json", JStr (bytes_of [123; 0; 125; 0]))]] = Ok tt /\
  _report_json (q "{'a': '\u0141'}") = unrepresented /\
  require_legacy_single_pdf [JObj [("notes", JStr (q "{'report_bundle': 1}"))]; JNull; JArr []] = Ok tt.
Proof. split_and!; vm_compute; reflexivity. Qed.

(** ** The reader: size, fuel and agreement with [json.loads] *)

Lemma parse_string_length s r rest : parse_string s = Some (r, rest) ->
  (String.length r + String.length rest + 1 <= String.length s)%nat.
Proof.
  revert r rest. induction s as [s IH] using (induction_ltof1 _ String.length); unfold ltof in IH.
  intros r rest H. destruct s as [|a s1]; [discriminate H|]. cbn [parse_string] in H.
  assert (forall s' c r rest, (String.length s' < String.length (String a s1))%nat ->
    ('(r, rest) ← parse_string s'; Some (String c r, rest)) = Some (r, rest) ->
    (String.length r + String.length rest + 1 <= String.length s' + 1)%nat) as Hstep.
  { intros s' c r' rest' Hs He. destruct (parse_string s') as [[r0 rest0]|] eqn:Hp; [|discriminate He].
    injection He as <- <-. apply IH in Hp; [|exact Hs]. simpl. lia. }
  destruct (Ascii.eqb a dquote). { injection H as <- <-. simpl. lia. }
  destruct (Ascii.eqb a backslash).
  - destruct s1 as [|e s2]; [discriminate H|].
    repeat match type of H with
    | (if ?b then _ else _) = _ => destruct b
    | match ?x with "" => None | _ => _ end = _ => destruct x; [discriminate H|]
    | (match hex_value ?h with Some _ => _ | None => _ end) = _ => destruct (hex_value h); [|discriminate H]
    | (hex_value ?h ≫= _) = _ => destruct (hex_value h); [cbn [mbind option_bind] in H|discriminate H]
    | None = _ => discriminate H
    end; apply Hstep in H; simpl in *; lia.
  - destruct (code a <? 32); [discriminate H|]. apply Hstep in H; simpl in *; lia.
Qed.

Lemma skip_ws_length s : (String.length (skip_ws s) <= String.length s)%nat.
Proof. induction s as [|a s IH]; simpl; [lia|]. destruct (json_space a); simpl; lia. Qed.

Lemma drop_length n s : (String.length (str_drop n s) <= String.length s)%nat.
Proof. revert s. induction n as [|n IH]; intros [|a s]; simpl; [lia..|]. specialize (IH s). lia. Qed.

Lemma drop_one_length p s : startswith (String p "") s = true -> (String.length (str_drop 1 s) + 1 = String.length s)%nat.
Proof. destruct s as [|a s]; simpl; [discriminate|]. destruct s; simpl; lia. Qed.

Lemma expect_length a s r : expect a s = Some r -> (String.length r + 1 = String.length s)%nat.
Proof. destruct s as [|b s]; simpl; [discriminate|]. destruct (Ascii.eqb a b); [intros [= <-]; lia|discriminate]. Qed.

Lemma span_length p s l r : span p s = (l, r) -> (String.length l + String.length r = String.length s)%nat.
Proof.
  revert l r. induction s as [|a s IH]; intros l r H; simpl in H; [by injection H as <- <-|].
  destruct (p a); [|by injection H as <- <-]. destruct (span p s) as [l' r'] eqn:E. injection H as <- <-.
  specialize (IH _ _ eq_refl). simpl. lia.
Qed.

Lemma parse_number_steps t v : parse_number t = Some v -> (walk_steps v = 1 /\ 1 <= String.length t)%nat.
Proof.
  intros H. split.
  - unfold parse_number in H. destruct (minus t) as [neg u]. destruct (span is_digit u) as [ip rest].
    destruct (negb (int_digits ip)); [discriminate|]. destruct (negb (truthy rest)).
    + destruct (DecimalString.NilZero.int_of_string t); [|discriminate H]. injection H as <-. done.
    + destruct (match rest with String a r => _ | "" => _ end) as [fp tail].
      destruct (startswith "." rest && negb (truthy fp)); [discriminate|].
      destruct (parse_exponent tail); [|discriminate H]. injection H as <-. done.
  - destruct t as [|a t]; [vm_compute in H; discriminate H|]. simpl. lia.
Qed.

Lemma literal_steps l s v rest : (forall m, m ∈ l -> (1 <= String.length (fst m))%nat /\ walk_steps (snd m) = 1%nat) ->
  parse_literal l s = Some (v, rest) -> (walk_steps v + String.length rest <= String.length s)%nat.
Proof.
  induction l as [|[t w] l IH]; intros Hl H; simpl in H; [discriminate|].
  destruct (startswith t s) eqn:Es.
  - injection H as <- <-. destruct (Hl (t, w)) as [Ht Hw]; [set_solver|]. simpl in Ht, Hw. rewrite Hw.
    destruct t as [|a t]; [simpl in Ht; lia|]. destruct s as [|b s]; [simpl in Es; discriminate|].
    simpl. pose proof (drop_length (String.length t) s). lia.
  - apply IH; [|done]. intros m Hm. apply Hl. set_solver.
Qed.

Lemma literal_value l s v rest : parse_literal l s = Some (v, rest) -> v ∈ map snd l.
Proof.
  induction l as [|[t w] l IH]; cbn [parse_literal]; [discriminate|]. destruct (startswith t s).
  - intros [= -> _]. by left.
  - intros H. right. by apply IH.
Qed.

(** How the reader refuses: with a [ValueError], or because the text has no
    representation. *)
Definition refused (e : exn) : Prop := exn_class e = ValueError \/ exn_class e = Unrepresented.

Lemma invalid_refused {A} e : (invalid : res A) = Raise e -> refused e.
Proof. intros [= <-]. by left. Qed.

(** What the strict reader of strings accepts, [Json.parse_string] reads the same. *)
Definition reads {A} (r : res A) (o : option A) : Prop := match r with Ok p => o = Some p | Raise e => refused e end.
Lemma reads_push a r o : reads r o -> reads (push a r) ('(s, rest) ← o; Some (String a s, rest)).
Proof. destruct r as [[s rest]|e]; cbn; [by intros ->|done]. Qed.
Lemma strict_string_reads s : reads (strict_string s) (parse_string s).
Proof.
  induction s as [s IH] using (induction_ltof1 _ String.length); unfold ltof in IH.
  destruct s as [|a s1]; [by left|]. cbn [strict_string parse_string]. destruct (Ascii.eqb a dquote); [done|].
  destruct (Ascii.eqb a backslash).
  - destruct s1 as [|e s2]; [by left|]. assert (reads (strict_string s2) (parse_string s2)) as H2 by (apply IH; simpl; lia).
    unfold short_escapes. cbn [short_escape].
    repeat match goal with
    | |- context [if code e =? ?z then Some _ else _] => destruct (code e =? z) eqn:?; cbn [orb]
    end; try (apply reads_push; exact H2);
      try (match goal with H : (code e =? _) = true |- _ => apply Z.eqb_eq in H; rewrite H end; apply reads_push; exact H2).
    destruct (code e =? 117); [|by left]. destruct s2 as [|h1 [|h2 [|h3 [|h4 s3]]]]; try by left. unfold hex4.
    destruct (hex_value h1), (hex_value h2), (hex_value h3), (hex_value h4); try by left. cbn [mbind option_bind].
    destruct (_ <? 256); [|by right]. apply reads_push, IH. simpl. lia.
  - destruct (code a <? 32); [by left|]. apply reads_push, IH. simpl. lia.
Qed.

Lemma strict_number_reads t : reads (strict_number t) (parse_number t).
Proof.
  unfold strict_number. destruct (parse_number t) as [v|]; [|by left]. cbn [decoded mbind res_bind].
  destruct v; try done. unfold unless. destruct (_ <=? _); [done|by left].
Qed.

(** [within n s r]: the reader answered, with a value no larger than the text it
    consumed, or refused; [agrees r o]: what it accepts, [json.loads] reads the same. *)
Definition within {A} (size : A -> nat) (s : string) (r : res (A * string)) : Prop :=
  match r with
  | Ok (v, rest) => (size v + 13 * String.length rest <= 13 * String.length s)%nat
  | Raise e => refused e
  end.
Definition agrees {A} (r : res A) (o : option A) : Prop := forall p, r = Ok p -> o = Some p.

Definition items_steps (l : list json) : nat := list_sum (map walk_steps l).
Definition members_steps (l : dict) : nat := list_sum (map (fun m => walk_steps (snd m)) l).

Lemma items_cons v l : items_steps (v :: l) = (walk_steps v + items_steps l)%nat.
Proof. reflexivity. Qed.
Lemma members_cons k v l : members_steps ((k, v) :: l) = (walk_steps v + members_steps l)%nat.
Proof. reflexivity. Qed.
Lemma steps_pos v : (1 <= walk_steps v)%nat.
Proof. destruct v; simpl; lia. Qed.

Lemma within_bind {A C} (size : A -> nat) (sizeB : C -> nat) s s' (r : res (A * string)) (f : A * string -> res (C * string)) :
  within size s r -> (forall v rest, r = Ok (v, rest) ->
    (size v + 13 * String.length rest <= 13 * String.length s)%nat -> within sizeB s' (f (v, rest))) ->
  within sizeB s' (r ≫= f).
Proof. destruct r as [[v rest]|e]; simpl; intros H Hf; [by apply Hf|exact H]. Qed.

Lemma within_reads {A C} (sizeB : C -> nat) s' (r : res A) (o : option A) (f : A -> res (C * string)) : reads r o ->
  (forall a, o = Some a -> within sizeB s' (f a)) -> within sizeB s' (r ≫= f).
Proof. destruct r as [a|e]; simpl; intros Hr H; [by apply H|done]. Qed.

Lemma decoded_reads {A} (o : option A) : reads (decoded o) o.
Proof. destruct o; [done|by left]. Qed.

Lemma within_decoded {A C} (sizeB : C -> nat) s' (o : option A) (f : A -> res (C * string)) :
  (forall a, o = Some a -> within sizeB s' (f a)) -> within sizeB s' (decoded o ≫= f).
Proof. apply within_reads, decoded_reads. Qed.

Lemma object_pairs_class seen l e : object_pairs seen l = Raise e -> refused e.
Proof.
  revert seen. induction l as [|[k v] l IH]; intros seen; simpl; [discriminate|].
  case_bool_decide; simpl; [|apply IH]. intros [= <-]. by left.
Qed.

Lemma object_pairs_nodup seen l : object_pairs seen l = Ok tt ->
  NoDup (keys l) /\ forall k, k ∈ keys l -> k ∉ seen.
Proof.
  revert seen. induction l as [|[k v] l IH]; intros seen H; simpl in *; [split; [constructor|set_solver]|].
  case_bool_decide as Hk; simpl in H; [discriminate|]. apply IH in H as [Hn Hs]. split.
  - constructor; [|exact Hn]. intros Hin. apply (Hs k Hin). set_solver.
  - intros k' Hk'. change (keys ((k, v) :: l)) with (k :: keys l) in Hk'. set_solver.
Qed.

Lemma plain_steps m : m ∈ plain_literals -> (1 <= String.length (fst m))%nat /\ walk_steps (snd m) = 1%nat.
Proof. unfold plain_literals, literals. simpl. rewrite !elem_of_cons, elem_of_nil. intros [->|[->|[->|[]]]]; simpl; lia. Qed.

Lemma strict_within n :
  (forall k s, (2 * String.length s + 1 <= n)%nat -> within walk_steps s (strict_value n k s)) /\
  (forall k s, (2 * String.length s + 2 <= n)%nat -> within items_steps s (strict_items n k s)) /\
  (forall k s, (2 * String.length s + 2 <= n)%nat -> within members_steps s (strict_members n k s)).
Proof.
  induction n as [|n (IHv & IHi & IHm)]; [split_and!; intros; lia|]. split_and!; intros k s Hn.
  - cbn [strict_value]. destruct s as [|a s1]; [by left|]. simpl in Hn.
    pose proof (skip_ws_length s1) as Hw.
    destruct (Ascii.eqb a dquote); [|destruct (Ascii.eqb a "["%char); [|destruct (Ascii.eqb a "{"%char)]].
    + eapply within_reads; [apply strict_string_reads|]. intros [r rest] H%parse_string_length. simpl. lia.
    + destruct k as [|k]; [by right|]. destruct (startswith "]" (skip_ws s1)) eqn:E.
      { apply drop_one_length in E. cbn -[str_drop Nat.mul]. lia. }
      eapply within_bind; [apply IHi; lia|]. intros l rest _ H. cbn -[Nat.mul list_sum]. unfold items_steps in H. lia.
    + destruct k as [|k]; [by right|]. destruct (startswith "}" (skip_ws s1)) eqn:E.
      { apply drop_one_length in E. cbn -[str_drop Nat.mul]. lia. }
      eapply within_bind; [apply IHm; lia|]. intros l rest _ H. simpl mbind.
      destruct (object_pairs [] l) as [[]|e] eqn:Ho; [|by apply object_pairs_class in Ho].
      cbn -[Nat.mul list_sum]. unfold members_steps in H. lia.
    + destruct (parse_literal plain_literals (String a s1)) as [[v rest]|] eqn:E.
      { apply literal_steps in E; [|apply plain_steps]. cbn -[Nat.mul list_sum] in *. lia. }
      destruct (parse_literal constants (String a s1)); [by left|].
      destruct (span number_char (String a s1)) as [t rest] eqn:Es. apply span_length in Es.
      eapply within_reads; [apply strict_number_reads|]. intros v [H1 H2]%parse_number_steps. cbn -[Nat.mul list_sum] in *. lia.
  - cbn [strict_items]. eapply within_bind; [apply IHv; lia|]. intros v r _ Hv.
    pose proof (steps_pos v).
    pose proof (skip_ws_length r). destruct (startswith "," (skip_ws r)) eqn:E.
    + apply drop_one_length in E. pose proof (skip_ws_length (str_drop 1 (skip_ws r))).
      eapply within_bind; [apply IHi; lia|]. intros l rest _ Hl. unfold within. rewrite items_cons. lia.
    + apply within_decoded. intros r' Hr%expect_length. unfold within. rewrite items_cons. cbn. lia.
  - cbn [strict_members]. apply within_decoded. intros s1 H1%expect_length.
    eapply within_reads; [apply strict_string_reads|]. intros [key r] H2%parse_string_length. apply within_decoded. intros r1 H3%expect_length.
    pose proof (skip_ws_length r). pose proof (skip_ws_length r1).
    eapply within_bind; [apply IHv; lia|]. intros v r2 _ Hv.
    pose proof (steps_pos v).
    pose proof (skip_ws_length r2). destruct (startswith "," (skip_ws r2)) eqn:E.
    + apply drop_one_length in E. pose proof (skip_ws_length (str_drop 1 (skip_ws r2))).
      eapply within_bind; [apply IHm; lia|]. intros l rest _ Hl. unfold within. rewrite members_cons. lia.
    + apply within_decoded. intros r' Hr%expect_length. unfold within. rewrite members_cons. cbn. lia.
Qed.

Lemma agrees_bind {A C} (r : res A) (o : option A) (f : A -> res C) (g : A -> option C) :
  agrees r o -> (forall p, agrees (f p) (g p)) -> agrees (r ≫= f) (o ≫= g).
Proof. intros Hr Hf p H. apply bind_ok_inv in H as (a & Ha & H). rewrite (Hr _ Ha). simpl. by apply Hf. Qed.

Lemma agrees_reads {A} (r : res A) o : reads r o -> agrees r o.
Proof. intros H p ->. exact H. Qed.

Lemma agrees_decoded {A C} (o : option A) (f : A -> res C) (g : A -> option C) :
  (forall a, agrees (f a) (g a)) -> agrees (decoded o ≫= f) (o ≫= g).
Proof. apply agrees_bind, agrees_reads, decoded_reads. Qed.

Lemma agrees_ok {A} (p : A) : agrees (Ok p) (Some p).
Proof. by intros q [= <-]. Qed.

Lemma parse_literal_app l k s : parse_literal (l ++ k) s =
  match parse_literal l s with Some r => Some r | None => parse_literal k s end.
Proof. induction l as [|[t v] l IH]; [done|]. cbn [app parse_literal]. by destruct (startswith t s). Qed.

Lemma literals_split s : parse_literal literals s =
  match parse_literal plain_literals s with Some r => Some r | None => parse_literal constants s end.
Proof. exact (parse_literal_app plain_literals constants s). Qed.

Lemma strict_agrees n :
  (forall k s, agrees (strict_value n k s) (parse_value n s)) /\
  (forall k s, agrees (strict_items n k s) (parse_items n s)) /\
  (forall k s, agrees (strict_members n k s) (parse_members n s)).
Proof.
  induction n as [|n (IHv & IHi & IHm)]; [split_and!; intros k s p H; discriminate H|]. split_and!; intros k s.
  - cbn [strict_value parse_value]. destruct s as [|a s1]; [intros p H; discriminate H|].
    destruct (Ascii.eqb a dquote); [|destruct (Ascii.eqb a "["%char); [|destruct (Ascii.eqb a "{"%char)]].
    + apply agrees_bind; [apply agrees_reads, strict_string_reads|]. intros [r rest]. apply agrees_ok.
    + destruct k as [|k]; [intros q H; discriminate H|]. destruct (startswith "]" (skip_ws s1)); [apply agrees_ok|]. apply agrees_bind; [apply IHi|].
      intros [l rest]. apply agrees_ok.
    + destruct k as [|k]; [intros q H; discriminate H|]. destruct (startswith "}" (skip_ws s1)); [apply agrees_ok|]. apply agrees_bind; [apply IHm|].
      intros [l rest] q H. apply bind_ok_inv in H as ([] & Ho & [= <-]).
      apply object_pairs_nodup in Ho as [Ho _]. by rewrite dict_of_pairs_id.
    + rewrite literals_split. destruct (parse_literal plain_literals (String a s1)) as [r|]; [apply agrees_ok|].
      destruct (parse_literal constants (String a s1)); [intros q H; discriminate H|].
      destruct (span number_char (String a s1)) as [t rest]. apply agrees_bind; [apply agrees_reads, strict_number_reads|]. intros v. apply agrees_ok.
  - cbn [strict_items parse_items]. apply agrees_bind; [apply IHv|]. intros [v r].
    destruct (startswith "," (skip_ws r)); [|apply agrees_decoded; intros r'; apply agrees_ok].
    apply agrees_bind; [apply IHi|]. intros [l rest]. apply agrees_ok.
  - cbn [strict_members parse_members]. apply agrees_decoded. intros s1. apply agrees_bind; [apply agrees_reads, strict_string_reads|]. intros [key r].
    apply agrees_decoded. intros r1. apply agrees_bind; [apply IHv|]. intros [v r2].
    destruct (startswith "," (skip_ws r2)); [|apply agrees_decoded; intros r'; apply agrees_ok].
    apply agrees_bind; [apply IHm|]. intros [l rest]. apply agrees_ok.
Qed.

Lemma skipped_within {A} (size : A -> nat) s r : within size (skip_ws s) r -> within size s r.
Proof. pose proof (skip_ws_length s). destruct r as [[v rest]|e]; simpl; [lia|done]. Qed.

Lemma unless_class b c m e : unless b c m = Raise e -> exn_class e = c.
Proof. unfold unless, fail. destruct b; [discriminate|]. by intros [= <-]. Qed.

(** Decoding makes no text longer: of two or four bytes, one character. *)
Lemma utf16_length be s t : utf16_decode be s = Some t -> (2 * String.length t <= String.length s)%nat.
Proof.
  revert t. induction s as [s IH] using (induction_ltof1 _ String.length); unfold ltof in IH. intros t.
  destruct s as [|a [|b s]]; cbn [utf16_decode]; [intros [= <-]; simpl; lia|discriminate|].
  destruct (if be then (a, b) else (b, a)) as [high low]. destruct (code high =? 0); [|discriminate].
  destruct (utf16_decode be s) as [u|] eqn:E; [|discriminate]. intros [= <-]. apply IH in E; simpl in *; lia.
Qed.
Lemma utf32_length be s t : utf32_decode be s = Some t -> (2 * String.length t <= String.length s)%nat.
Proof.
  revert t. induction s as [s IH] using (induction_ltof1 _ String.length); unfold ltof in IH. intros t.
  destruct s as [|a [|b [|c [|d s]]]]; cbn [utf32_decode]; try discriminate; [intros [= <-]; simpl; lia|].
  destruct (if be then (code a, code c, d) else (code d, code b, a)) as [[high mid] low]. destruct (_ && _ && _); [|discriminate].
  destruct (utf32_decode be s) as [u|] eqn:E; [|discriminate]. intros [= <-]. apply IH in E; simpl in *; lia.
Qed.

(** The first byte of an encoded text is none of a byte order mark. *)
Lemma no_mark z l s : z ∈ [239; 254; 255] -> startswith (bytes_of (z :: l)) (utf8_encode s) = false.
Proof.
  intros Hz. destruct s as [|a s]; [done|]. cbn [utf8_encode]. destruct a as [[] [] [] [] [] [] [] []];
    rewrite !elem_of_cons, elem_of_nil in Hz; destruct Hz as [->|[->|[->|[]]]]; reflexivity.
Qed.
Lemma no_mark_zero s : startswith (bytes_of [0; 0; 254; 255]) (utf8_encode s) = false.
Proof.
  destruct s as [|a s]; [done|]. cbn [utf8_encode]. destruct (code a <? 128) eqn:Ha.
  - cbn [startswith bytes_of foldr]. destruct (Ascii.eqb (chr 0) a); [|done]. cbn [andb].
    destruct s as [|b s]; [done|]. cbn [utf8_encode]. destruct (code b <? 128) eqn:Hb.
    + cbn [startswith]. destruct (Ascii.eqb (chr 0) b); [|done]. exact (no_mark 254 [255] s ltac:(set_solver)).
    + destruct b as [[] [] [] [] [] [] [] []]; try discriminate Hb; reflexivity.
  - destruct a as [[] [] [] [] [] [] [] []]; try discriminate Ha; reflexivity.
Qed.

Lemma encoded_length s : (String.length (utf8_encode s) <= 2 * String.length s)%nat.
Proof. induction s as [|a s IH]; [done|]. cbn [utf8_encode]. destruct (code a <? 128); simpl; lia. Qed.

Lemma json_text_length s t : json_text (utf8_encode s) = Some t -> (String.length t <= String.length s)%nat.
Proof.
  unfold json_text. rewrite no_mark_zero, !no_mark by set_solver. rewrite utf8_decode_encode. pose proof (encoded_length s).
  repeat match goal with |- context [if ?b then _ else _] => destruct b end;
    first [intros H'%utf16_length; lia|intros H'%utf32_length; lia|intros [= <-]; lia].
Qed.

(** What the reader answers is an object that [json.loads] reads the same, no
    larger than its text. *)
Lemma report_json_spec s :
  match _report_json s with
  | Ok d => (walk_steps (JObj d) <= 13 * String.length s)%nat /\ loads_bytes (utf8_encode s) = Some (JObj d)
  | Raise e => refused e
  end.
Proof.
  unfold _report_json. destruct (unless (Z.of_nat (String.length s) <=? _) _ _) eqn:E1; cbn [mbind res_bind].
  2:{ left. exact (unless_class _ _ _ _ E1). }
  destruct (unless (Z.of_nat (String.length (utf8_encode s)) <=? _) _ _) eqn:E2; cbn [mbind res_bind].
  2:{ left. exact (unless_class _ _ _ _ E2). }
  unfold strict_loads, loads_bytes. destruct (json_text (utf8_encode s)) as [t|] eqn:Et; [|by right].
  apply json_text_length in Et. cbn [mbind option_bind]. unfold strict_text, loads.
  destruct (strict_within (2 * String.length t + 2)) as [Hv _]. destruct (strict_agrees (2 * String.length t + 2)) as [Ha _].
  pose proof (skip_ws_length t). specialize (Hv MAX_NESTING (skip_ws t) ltac:(lia)). specialize (Ha MAX_NESTING (skip_ws t)).
  destruct (strict_value (2 * String.length t + 2) MAX_NESTING (skip_ws t)) as [[v rest]|e]; [|exact Hv].
  rewrite (Ha _ eq_refl). cbn [mbind res_bind option_bind]. destruct (truthy (skip_ws rest)); [by left|]. cbn [mbind res_bind].
  unfold within in Hv. destruct v; try by left. split; [lia|done].
Qed.

Lemma report_json_steps s d : _report_json s = Ok d -> (walk_steps (JObj d) <= 13 * String.length s)%nat.
Proof. intros H. pose proof (report_json_spec s) as Hs. rewrite H in Hs. apply Hs. Qed.

Lemma strict_nodup n k s l rest : strict_value n k s = Ok (JObj l, rest) -> NoDup (keys l).
Proof.
  destruct n as [|n]; [discriminate|]. cbn [strict_value]. destruct s as [|a s1]; [discriminate|].
  destruct (Ascii.eqb a dquote); [by intros (p & _ & H)%bind_ok_inv; destruct p|].
  destruct (Ascii.eqb a "["%char).
  { destruct k as [|k]; [discriminate|]. destruct (startswith "]" (skip_ws s1)); [discriminate|]. by intros (p & _ & H)%bind_ok_inv; destruct p. }
  destruct (Ascii.eqb a "{"%char).
  { destruct k as [|k]; [discriminate|]. destruct (startswith "}" (skip_ws s1)); [intros [= <- _]; constructor|].
    intros ([m r] & _ & H)%bind_ok_inv. apply bind_ok_inv in H as ([] & Ho & H). injection H as <- _.
    by apply object_pairs_nodup in Ho as [Ho _]. }
  destruct (parse_literal plain_literals (String a s1)) as [[v r]|] eqn:E.
  { intros [= -> ->]. exfalso. apply literal_value in E. unfold plain_literals, literals in E. simpl in E.
    rewrite !elem_of_cons, elem_of_nil in E. by destruct E as [?|[?|[?|[]]]]. }
  destruct (parse_literal constants (String a s1)); [discriminate|].
  destruct (span number_char (String a s1)) as [t r]. intros (v & Hv & H)%bind_ok_inv. injection H as -> _.
  exfalso. pose proof (strict_number_reads t) as Ep. rewrite Hv in Ep.
  apply parse_number_steps in Ep as [Ep _]. simpl in Ep. lia.
Qed.

Lemma report_json_nodup s d : _report_json s = Ok d -> NoDup (keys d).
Proof.
  unfold _report_json, strict_loads. intros H. apply bind_ok_inv in H as (u1 & _ & H). apply bind_ok_inv in H as (u2 & _ & H).
  apply bind_ok_inv in H as (v & Hv & H). destruct v; try discriminate H. injection H as ->.
  destruct (json_text (utf8_encode s)) as [t|]; [|discriminate Hv]. unfold strict_text in Hv.
  apply bind_ok_inv in Hv as ([w rest] & Hw & Hv). destruct (truthy (skip_ws rest)); [discriminate|]. injection Hv as ->.
  by eapply strict_nodup.
Qed.

(** ** What the walk looks at *)

Inductive slot (item : dict) (w : json) : Prop :=
  | slot_container key : key ∈ _CONTAINERS -> container_child item key = Ok w -> slot item w
  | slot_stage : w ∈ stage_children item -> slot item w.

(** [within_reports v d]: [d] is [v] or stands in report-owned containers of [v]. *)
Inductive within_reports : json -> dict -> Prop :=
  | within_here d : within_reports (JObj d) d
  | within_slot d w e : slot d w -> within_reports w e -> within_reports (JObj d) e.

(** Every text in a [json] slot can be read. *)
Definition readable (item : dict) : Prop := is_ok (children_of item) = true.

Lemma mapR_elem {A B} (f : A -> res B) l ys y : mapR f l = Ok ys -> y ∈ ys <-> exists x, x ∈ l /\ f x = Ok y.
Proof.
  intros H%mapR_ok. induction H as [|x z l ys Hx _ IH]; [set_solver|].
  rewrite elem_of_cons, IH. split.
  - intros [->|(x' & Hx' & Hf)]; [exists x|exists x']; set_solver.
  - intros (x' & [->|Hx']%elem_of_cons & Hf); [left; congruence|right; eauto].
Qed.

Lemma children_slots item l w : children_of item = Ok l -> w ∈ l <-> slot item w.
Proof.
  unfold children_of. intros (cs & Hcs & [= <-])%bind_ok_inv. rewrite elem_of_app, (mapR_elem _ _ _ _ Hcs). split.
  - intros [(k & Hk & Hw)|H]; [by eapply slot_container|by apply slot_stage].
  - intros [k Hk Hw|H]; [left; eauto|by right].
Qed.

Lemma within_children item l d : children_of item = Ok l ->
  within_reports (JObj item) d <-> d = item \/ exists w, w ∈ l /\ within_reports w d.
Proof.
  intros H. split.
  - inversion 1 as [|? w ? Hs Hr]; subst; [by left|right]. exists w. split; [|exact Hr]. by eapply children_slots.
  - intros [->|(w & Hw & Hr)]; [constructor|]. eapply within_slot; [|exact Hr]. by eapply children_slots.
Qed.

Lemma mapR_class {A B} (f : A -> res B) (P : exn -> Prop) l e :
  (forall x e, f x = Raise e -> P e) -> mapR f l = Raise e -> P e.
Proof.
  intros Hf. induction l as [|x l IH]; simpl; [discriminate|].
  destruct (f x) as [y|e'] eqn:E; simpl; [|intros [= <-]; by eapply Hf].
  destruct (mapR f l) as [ys|e']; simpl; [discriminate|]. by intros [= <-]; apply IH.
Qed.

(** The text in the [json] slot has no representation. *)
Definition unread_text (d : dict) : Prop :=
  exists s e, dget d "json" = JStr s /\ _report_json s = Raise e /\ exn_class e = Unrepresented.

Lemma children_class item e : children_of item = Raise e -> exn_class e = ValueError \/ unread_text item.
Proof.
  unfold children_of. destruct (mapR _ _) as [l|e'] eqn:E; simpl; [discriminate|]. intros [= <-].
  revert E. apply (mapR_class _ (fun e => exn_class e = ValueError \/ unread_text item)). intros k e. unfold container_child.
  destruct (dget item k) eqn:Hd; try discriminate. destruct (String.eqb_spec k "json") as [->|_]; [|discriminate].
  destruct (_ && _); [|discriminate]. pose proof (report_json_spec s) as Hs.
  destruct (_report_json s) as [d|e0] eqn:Hr; simpl; [discriminate|]. intros [= <-]. destruct Hs as [Hs|Hs]; [by left|right; by exists s, e0].
Qed.

(** ** The walk is bounded *)

Definition slot_steps (d : dict) (k : string) : nat := walk_steps (dget d k).

Lemma child_steps item k w : container_child item k = Ok w -> (walk_steps w <= slot_steps item k)%nat.
Proof.
  unfold container_child, slot_steps. destruct (dget item k); try (intros [= <-]; lia).
  destruct (_ && _); [|intros [= <-]; lia]. intros (d & Hd%report_json_steps & [= <-])%bind_ok_inv.
  cbn [walk_steps] in *. lia.
Qed.

Lemma children_items item ks l : mapR (container_child item) ks = Ok l ->
  (items_steps l <= list_sum (map (slot_steps item) ks))%nat.
Proof.
  intros H%mapR_ok. induction H as [|k w ks l Hk _ IH]; [done|]. rewrite items_cons. simpl.
  apply child_steps in Hk. lia.
Qed.

Lemma slots_cons k v d ks : NoDup ks ->
  (list_sum (map (slot_steps ((k, v) :: d)) ks) <= walk_steps v + list_sum (map (slot_steps d) ks))%nat /\
  (k ∉ ks -> list_sum (map (slot_steps ((k, v) :: d)) ks) = list_sum (map (slot_steps d) ks)).
Proof.
  assert (forall k', slot_steps ((k, v) :: d) k' = if String.eqb k' k then walk_steps v else slot_steps d k') as Hs.
  { intros k'. unfold slot_steps, dget. simpl. by destruct (String.eqb k' k). }
  induction 1 as [|k' ks Hk _ [IH1 IH2]]; simpl; [split; [lia|done]|]. rewrite Hs.
  destruct (String.eqb_spec k' k) as [->|Hne].
  - rewrite (IH2 Hk). split; [lia|]. intros Hn. exfalso. apply Hn. set_solver.
  - split; [lia|]. intros Hn. rewrite IH2; [done|]. set_solver.
Qed.

Lemma slots_bound d ks : NoDup ks -> (list_sum (map (slot_steps d) ks) <= length ks + members_steps d)%nat.
Proof.
  intros Hks. induction d as [|[k v] d IH].
  - clear Hks. induction ks as [|k ks IH]; simpl in *; lia.
  - rewrite members_cons. destruct (slots_cons k v d ks Hks) as [H _]. lia.
Qed.

Lemma items_app l k : items_steps (l ++ k) = (items_steps l + items_steps k)%nat.
Proof. unfold items_steps. by rewrite map_app, list_sum_app. Qed.

Lemma items_rev l : items_steps (rev l) = items_steps l.
Proof.
  induction l as [|v l IH]; [done|]. cbn [rev]. rewrite items_app, !items_cons, IH. change (items_steps []) with 0%nat. lia.
Qed.

Lemma containers_nodup : NoDup ("stage_results" :: _CONTAINERS).
Proof. apply (bool_decide_unpack _). vm_compute. exact I. Qed.

Lemma report_stages_nodup : NoDup _REPORT_STAGES.
Proof. apply (bool_decide_unpack _). vm_compute. exact I. Qed.

Lemma children_bound item l : children_of item = Ok l -> (items_steps l < walk_steps (JObj item))%nat.
Proof.
  unfold children_of. intros (cs & Hcs%children_items & [= <-])%bind_ok_inv. rewrite items_app.
  pose proof (slots_bound item _ containers_nodup) as H. cbn [map] in H.
  assert (items_steps (stage_children item) <= slot_steps item "stage_results")%nat as Hst.
  { unfold stage_children, slot_steps. destruct (dget item "stage_results") as [| | | | | |stages]; try (cbn; lia).
    pose proof (slots_bound stages _ report_stages_nodup) as Hb. unfold items_steps. rewrite map_map.
    unfold slot_steps, members_steps in Hb. cbn [walk_steps]. cbn [length _REPORT_STAGES] in Hb. lia. }
  change (list_sum (?a :: ?l)) with (a + list_sum l)%nat in H. cbn [length _CONTAINERS] in H.
  change (walk_steps (JObj item)) with (13 + members_steps item)%nat. lia.
Qed.

(** ** What the walk answers *)

Definition clean (d : dict) : Prop := has_marker d = false /\ readable d.

Definition walk_answer (pending : list json) (r : res bool) : Prop :=
  match r with
  | Ok true => exists v d, v ∈ pending /\ within_reports v d /\ has_marker d = true
  | Ok false => forall v d, v ∈ pending -> within_reports v d -> clean d
  | Raise e => exists v d, v ∈ pending /\ within_reports v d /\ ~ readable d /\ (exn_class e = ValueError \/ unread_text d)
  end.

Lemma elem_rev {A} (x : A) l : x ∈ rev l <-> x ∈ l.
Proof. by rewrite !list_elem_of_In, <- in_rev. Qed.

(** Replacing the popped item by what it pushes keeps the answer. *)
Lemma walk_answer_push item l pending r : children_of item = Ok l -> has_marker item = false ->
  walk_answer (rev l ++ pending) r -> walk_answer (JObj item :: pending) r.
Proof.
  intros Hl Hm.
  assert (forall v d, v ∈ rev l ++ pending -> within_reports v d -> exists w, w ∈ JObj item :: pending /\ within_reports w d) as Hback.
  { intros v d Hv Hr. rewrite elem_of_app, elem_rev in Hv. destruct Hv as [Hv|Hv].
    - exists (JObj item). split; [set_solver|]. rewrite within_children by exact Hl. eauto.
    - exists v. set_solver. }
  destruct r as [[|]|e]; cbn [walk_answer].
  - intros (v & d & Hv & Hr & Hd). destruct (Hback v d Hv Hr) as (w & Hw & Hr'). by exists w, d.
  - intros H v d [->|Hv]%elem_of_cons Hr.
    + rewrite within_children in Hr by exact Hl. destruct Hr as [->|(w & Hw & Hr)].
      * split; [exact Hm|]. unfold readable. by rewrite Hl.
      * apply (H w d); [|exact Hr]. rewrite elem_of_app, elem_rev. by left.
    + apply (H v d); [set_solver|exact Hr].
  - intros (v & d & Hv & Hr & Hd). destruct (Hback v d Hv Hr) as (w & Hw & Hr'). by exists w, d.
Qed.

Lemma walk_answer_skip v pending r : is_mapping v = false -> walk_answer pending r -> walk_answer (v :: pending) r.
Proof.
  intros Hv. assert (forall d, ~ within_reports v d) as Hn by (intros d Hr; inversion Hr; subst; discriminate Hv).
  destruct r as [[|]|e]; cbn [walk_answer].
  - intros (w & d & Hw & Hr & Hd). exists w, d. set_solver.
  - intros H w d [->|Hw]%elem_of_cons Hr; [by destruct (Hn d)|by apply (H w d)].
  - intros (w & d & Hw & Hr & Hd). exists w, d. split; [by right|done].
Qed.

Lemma walk_spec fuel pending : (items_steps pending < fuel)%nat -> walk_answer pending (walk fuel pending).
Proof.
  revert pending. induction fuel as [|fuel IH]; intros pending Hf; [lia|]. cbn [walk].
  destruct pending as [|v pending]; [intros v d Hv; by apply elem_of_nil in Hv|].
  rewrite items_cons in Hf. pose proof (steps_pos v).
  destruct v as [| | | | | |item]; try (apply walk_answer_skip; [reflexivity|apply IH; lia]).
  destruct (has_marker item) eqn:Hm.
  { exists (JObj item), item. split_and!; [set_solver|constructor|exact Hm]. }
  destruct (children_of item) as [l|e] eqn:Hl; cbn [mbind res_bind].
  - eapply walk_answer_push; [exact Hl|exact Hm|]. apply IH. rewrite items_app, items_rev.
    apply children_bound in Hl. lia.
  - exists (JObj item), item. split_and!; [set_solver|constructor| |by eapply children_class].
    unfold readable. by rewrite Hl.
Qed.

Lemma has_report_bundle_spec v : walk_answer [v] (has_report_bundle v).
Proof. apply walk_spec. rewrite items_cons. change (items_steps []) with 0%nat. lia. Qed.

Lemma require_legacy_spec values :
  (require_legacy_single_pdf values = Ok tt <-> forall v d, v ∈ values -> within_reports v d -> clean d) /\
  (forall e, require_legacy_single_pdf values = Raise e ->
     exn_class e = ValueError \/ exists v d, v ∈ values /\ within_reports v d /\ unread_text d).
Proof.
  induction values as [|v values [IH1 IH2]]; cbn [require_legacy_single_pdf].
  { split; [|discriminate]. split; [|done]. intros _ v d Hv. by apply elem_of_nil in Hv. }
  pose proof (has_report_bundle_spec v) as Hs. destruct (has_report_bundle v) as [[|]|e]; cbn [mbind res_bind].
  - destruct Hs as (w & d & [->|[]%elem_of_nil]%elem_of_cons & Hr & Hd). split; [|intros e [= <-]; by left].
    split; [discriminate|]. intros H. destruct (H v d) as [Hm _]; [set_solver|exact Hr|congruence].
  - split; [|intros e He; destruct (IH2 e He) as [H|(w & d & Hw & H)]; [by left|right; exists w, d; split; [by right|exact H]]].
    simpl. rewrite IH1. split.
    + intros H w d [->|Hw]%elem_of_cons Hr; [by apply (Hs v d); [set_solver|]|by apply (H w d)].
    + intros H w d Hw. apply H. set_solver.
  - destruct Hs as (w & d & [->|[]%elem_of_nil]%elem_of_cons & Hr & Hd & Hc).
    split; [|intros e' [= <-]; destruct Hc; [by left|right; exists v, d; split; [by left|done]]].
    split; [discriminate|]. intros H. destruct (H v d) as [_ Hm]; [set_solver|exact Hr|contradiction].
Qed.

(** ** Documents the boundary lets pass *)

(** [unwritten] decides a membership of concrete keys. *)
Ltac unwritten := apply (bool_decide_unpack _); vm_compute; exact I.

(** The keys the walk looks at, and the values it finds nothing in. *)
Definition markers : list string := ["report_bundle"; "report_bundle_schema"].
Definition pushed : list string := "stage_results" :: _CONTAINERS.
Definition inert (v : json) : bool := match v with JNull | JBool _ => true | _ => false end.
Definition bundle_schema (item : dict) : bool :=
  match dget item "artifact_schema" with
  | JStr schema => existsb (fun p => startswith p schema) _SCHEMA_PREFIXES | _ => false
  end.

Lemma dget_absent d k : k ∉ keys d -> dget d k = JNull.
Proof. intros H. unfold dget. by rewrite (proj2 (dlookup_None k d) H). Qed.

(** [leaf d]: the walk stops at [d]. *)
Record leaf (d : dict) : Prop := Leaf {
  leaf_markers : forall k, k ∈ markers -> k ∉ keys d;
  leaf_inert : forall k, k ∈ pushed -> inert (dget d k) = true;
  leaf_schema : bundle_schema d = false }.

Lemma inert_child d key : inert (dget d key) = true -> container_child d key = Ok (dget d key).
Proof. unfold container_child. by destruct (dget d key). Qed.

Lemma leaf_clean d : leaf d -> forall e, within_reports (JObj d) e -> clean e.
Proof.
  intros [Hk Hi Hs].
  assert (children_of d = Ok (map (dget d) _CONTAINERS)) as Hc.
  { unfold children_of, stage_children. rewrite (mapR_map _ (dget d)).
    - cbn [mbind res_bind]. assert (inert (dget d "stage_results") = true) as Hst by (apply Hi; left).
      destruct (dget d "stage_results"); try discriminate; by rewrite app_nil_r.
    - apply Forall_forall. intros k Hin. apply inert_child, Hi. by right. }
  assert (clean d) as Hd.
  { split; [|unfold readable; by rewrite Hc]. unfold has_marker. fold (bundle_schema d). rewrite Hs.
    rewrite !bool_decide_eq_false_2; [done| |]; apply Hk; [right|]; left. }
  intros e He. rewrite (within_children _ _ _ Hc) in He. destruct He as [->|(w & Hw & He)]; [exact Hd|].
  apply list_elem_of_fmap in Hw as (k & -> & Hin). specialize (Hi k ltac:(by right)).
  destruct (dget d k); try discriminate; inversion He.
Qed.

Lemma within_trans v d e : within_reports v d -> within_reports (JObj d) e -> within_reports v e.
Proof. induction 1 as [d|d w d' Hs _ IH]; intros He; [exact He|]. eapply within_slot; [exact Hs|]. by apply IH. Qed.

Lemma require_legacy_all values : require_legacy_single_pdf values = Ok tt <->
  forall v, v ∈ values -> require_legacy_single_pdf [v] = Ok tt.
Proof.
  rewrite (proj1 (require_legacy_spec values)). split.
  - intros H v Hv. apply require_legacy_spec. intros w d Hw%list_elem_of_singleton. subst w. by apply H.
  - intros H v d Hv. specialize (H v Hv). rewrite (proj1 (require_legacy_spec [v])) in H. apply H. set_solver.
Qed.

Lemma require_within v d : require_legacy_single_pdf [v] = Ok tt -> within_reports v d -> require_legacy_single_pdf [JObj d] = Ok tt.
Proof.
  rewrite !(fun l => proj1 (require_legacy_spec l)). intros H Hd w e ->%list_elem_of_singleton He.
  apply (H v); [set_solver|]. by eapply within_trans.
Qed.

Lemma require_leaf d : leaf d -> require_legacy_single_pdf [JObj d] = Ok tt.
Proof. intros H. apply require_legacy_spec. intros v e ->%list_elem_of_singleton. by apply leaf_clean. Qed.

Lemma readable_spec d : readable d <-> forall key, key ∈ _CONTAINERS -> is_ok (container_child d key) = true.
Proof.
  unfold readable, children_of. rewrite <- mapR_is_ok. by destruct (mapR (container_child d) _CONTAINERS).
Qed.

(** A document whose containers hold what a passing document holds, or a
    passing document, passes. *)
Lemma boundary_update r u m :
  require_legacy_single_pdf [JObj r; JObj m] = Ok tt ->
  (forall k, k ∈ markers -> k ∉ keys u) -> bundle_schema u = false ->
  dget u "stage_results" = dget r "stage_results" ->
  (forall k, k ∈ _CONTAINERS -> dget u k = dget r k \/ dget u k = JObj m) ->
  require_legacy_single_pdf [JObj u] = Ok tt.
Proof.
  intros Hall Hmark Hschema Hst Hcon. pose proof (proj1 (proj1 (require_legacy_spec _)) Hall) as Hclean.
  assert (forall k, k ∈ _CONTAINERS -> container_child u k = container_child r k \/ container_child u k = Ok (JObj m)) as Hchild.
  { intros k Hk. unfold container_child. destruct (Hcon k Hk) as [->| ->]; [by left|by right]. }
  assert (clean r) as [_ Hr] by (apply (Hclean (JObj r)); [by left|constructor]).
  pose proof (proj1 (readable_spec r) Hr) as Hread.
  apply require_legacy_spec. intros v d ->%list_elem_of_singleton Hd. inversion Hd as [|? w ? [k Hk Hw|Hw] Hw']; subst.
  - split.
    + unfold has_marker. fold (bundle_schema d). rewrite Hschema.
      rewrite !bool_decide_eq_false_2; [done| |]; apply Hmark; [right|]; left.
    + apply readable_spec. intros k Hk. destruct (Hchild k Hk) as [->| ->]; [by apply Hread|done].
  - destruct (Hchild k Hk) as [E|E]; rewrite E in Hw.
    + apply (Hclean (JObj r)); [by left|]. eapply within_slot; [by eapply slot_container|exact Hw'].
    + injection Hw as <-. apply (Hclean (JObj m)); [right; left|exact Hw'].
  - apply (Hclean (JObj r)); [by left|]. eapply within_slot; [|exact Hw']. apply slot_stage.
    unfold stage_children in Hw |- *. by rewrite Hst in Hw.
Qed.

(** ** Properties *)

(** C37: the boundary lets no bundle pass.  On every list of values the check
    ends.  It passes exactly when no mapping that can be reached through
    report-owned containers (at any depth, in any of the values, and inside the
    canonical JSON text of a package) marks a bundle, and every such text can be
    read.  When it does not pass it raises [ValueError], except that the outcome
    is left open ([Unrepresented]) where a reachable text is read by the program
    to something without a representation here: characters beyond Latin-1,
    written as escapes or as UTF-16, or more than [MAX_NESTING] levels.  A text it
    reads is an object that [json.loads] makes of the same UTF-8 bytes, UTF-16
    and UTF-32 being detected as it does, and has no repeated key; a text it does
    not read is refused with [ValueError] or has no representation. *)
Theorem boundary_blocks_bundles values :
  (require_legacy_single_pdf values = Ok tt <->
   forall v d, v ∈ values -> within_reports v d -> has_marker d = false /\ readable d) /\
  (forall e, require_legacy_single_pdf values = Raise e ->
     exn_class e = ValueError \/ exists v d, v ∈ values /\ within_reports v d /\ unread_text d) /\
  (forall s, match _report_json s with
             | Ok d => loads_bytes (utf8_encode s) = Some (JObj d) /\ NoDup (keys d)
             | Raise e => exn_class e = ValueError \/ exn_class e = Unrepresented
             end).
Proof.
  destruct (require_legacy_spec values) as [H1 H2]. split; [exact H1|]. split; [exact H2|]. intros s.
  pose proof (report_json_spec s) as Hs. destruct (_report_json s) as [d|e] eqn:E; [|exact Hs].
  split; [apply Hs|]. by eapply report_json_nodup.
Qed.

(** From here on the walk is used through its lemmas. *)
#[global] Strategy opaque [walk has_report_bundle require_legacy_single_pdf _report_json].
