(* ===== verification/NetworkBudget.v ===== *)
(** * Bounded evidence collection (nico/assessment_network_budget.py)

    The policy under which repository evidence is fetched from GitHub: limits
    read from the environment, one deadline for the whole collection, a bounded
    pool of workers with a serial fallback, and the repository profile and
    workflow texts made of what came back.  [should_fetch_path] and
    [list_dir_names] are those of nico/hosted_assessment.py.

    The network is an argument: [http] is what a request with a timeout gives,
    [fetcher] what reading one file gives, [now] what the clock shows.  A pool
    of worker threads is a step relation: a queued path is started while a worker
    is free, and any running path may finish next. *)

From S2P Require Import Prelude PyStr PyFloat Json JsonFacts.

(** ** Limits *)

(** [_env_int]: [raw] is the variable when it is set. *)
Definition _env_int (raw : option string) (default_value minimum maximum : Z) : Z :=
  let value := match raw with
               | Some text => default default_value (int_of_str text)
               | None => default_value
               end in
  Z.max minimum (Z.min maximum value).

Record limits := Limits {
  GITHUB_REQUEST_TIMEOUT_SECONDS : Z;
  GITHUB_COLLECTION_BUDGET_SECONDS : Z;
  GITHUB_FILE_FETCH_WORKERS : Z;
  OSV_REQUEST_TIMEOUT_SECONDS : Z }.

Definition limits_of (getenv : string -> option string) : limits := {|
  GITHUB_REQUEST_TIMEOUT_SECONDS := _env_int (getenv "NICO_GITHUB_REQUEST_TIMEOUT_SECONDS") 8 2 25;
  GITHUB_COLLECTION_BUDGET_SECONDS := _env_int (getenv "NICO_GITHUB_COLLECTION_BUDGET_SECONDS") 75 30 180;
  GITHUB_FILE_FETCH_WORKERS := _env_int (getenv "NICO_GITHUB_FILE_FETCH_WORKERS") 8 1 12;
  OSV_REQUEST_TIMEOUT_SECONDS := _env_int (getenv "NICO_OSV_REQUEST_TIMEOUT_SECONDS") 8 2 20 |}.

Definition zero : float := S754_zero false.

(** [_remaining]: [deadline] is the attribute of the client, if it has one. *)
Definition _remaining (l : limits) (deadline : option float) (now : float) : float :=
  let deadline := default zero deadline in
  if fleb deadline zero then float_of_Z (GITHUB_COLLECTION_BUDGET_SECONDS l)
  else fmax zero (fsub deadline now).

(** [bounded_init] *)
Definition bounded_init (l : limits) (now : float) : float * float :=
  (now, fadd now (float_of_Z (GITHUB_COLLECTION_BUDGET_SECONDS l))).

(** Its clock is read three times at most: for a client without a start, for
    the time elapsed and for the time that remains. *)
Definition collection_budget_status (l : limits) (started deadline : option float) (now0 now1 now2 : float) : dict :=
  let elapsed := fmax zero (fsub now1 (default now0 started)) in
  let remaining := _remaining l deadline now2 in
  [("budget_seconds", JInt (GITHUB_COLLECTION_BUDGET_SECONDS l));
   ("request_timeout_seconds", JInt (GITHUB_REQUEST_TIMEOUT_SECONDS l));
   ("file_fetch_workers", JInt (GITHUB_FILE_FETCH_WORKERS l));
   ("elapsed_seconds", JFloat (float_round 2 elapsed));
   ("remaining_seconds", JFloat (float_round 2 remaining));
   ("budget_exhausted", JBool (fleb remaining zero))].

(** ** One request *)

Inductive http_outcome :=
  | RequestException
  | Response (status_code : Z) (body : option json).

Definition half : float := float_of_ratio 1 2.
Definition request_timeout (l : limits) (remaining : float) : float :=
  fmax half (fmin (float_of_Z (GITHUB_REQUEST_TIMEOUT_SECONDS l)) remaining).

Definition _bounded_get_json (l : limits) (http : float -> http_outcome) (deadline : option float) (now : float)
    : option json * option string :=
  let remaining := _remaining l deadline now in
  if fleb remaining zero
  then (None, Some "GitHub collection time budget was exhausted; remaining evidence is unavailable for this run.")
  else match http (request_timeout l remaining) with
  | RequestException => (None, Some "GitHub request did not complete within the bounded collection window.")
  | Response status body =>
      if 400 <=? status
      then (None, Some ("GitHub returned HTTP " +:+ str_of_Z status +:+ "; this evidence source is unavailable."))
      else match body with
           | Some v => (Some v, None)
           | None => (None, Some "GitHub returned a non-JSON response.")
           end
  end.

(** ** Fetching files *)

(** The text of a file and the note why there is none. *)
Definition fetched : Type := option string * option string.
Definition could_not_read (path : string) : string :=
  path +:+ " could not be read within the bounded collection window.".
(** [except Exception] around one fetch *)
Definition settle (path : string) (r : res fetched) : fetched :=
  match r with Ok v => v | Raise _ => (None, Some (could_not_read path)) end.

Definition _serial_fetch (ordered : list string) (fetcher : string -> res fetched) : gmap string fetched :=
  fold_left (fun results path => <[path := settle path (fetcher path)]> results) ordered ∅.

Definition ordered_paths (paths : list string) : list string := dict_fromkeys (List.filter truthy paths).
Definition worker_count (l : limits) (ordered : list string) : Z :=
  Z.max 1 (Z.min (GITHUB_FILE_FETCH_WORKERS l) (Z.of_nat (length ordered))).

(** The pool: what is submitted but not started, what runs, what [as_completed]
    has delivered. *)
Record pool := Pool { queued : list string; running : list string; results : gmap string fetched }.
Definition submitted (ordered : list string) : pool := Pool ordered [] ∅.
Definition finished (p : pool) : bool := bool_decide (queued p = []) && bool_decide (running p = []).

Inductive pool_step (workers : Z) (fetcher : string -> res fetched) : pool -> pool -> Prop :=
  | pool_start path q r m : Z.of_nat (length r) < workers ->
      pool_step workers fetcher (Pool (path :: q) r m) (Pool q (path :: r) m)
  | pool_finish path q r1 r2 m :
      pool_step workers fetcher (Pool q (r1 ++ path :: r2) m) (Pool q (r1 ++ r2) (<[path := settle path (fetcher path)]> m)).

(** [_parallel_fetch] with what its environment decides: the pool refuses a
    thread ([RuntimeError]), and then the files are read one by one; or it
    delivers the files in the order [completed]. *)
Inductive pool_fate := Refused | Completed (completed : list string).
Definition _parallel_fetch (fate : pool_fate) (paths : list string) (fetcher : string -> res fetched) : gmap string fetched :=
  let ordered := ordered_paths paths in
  if bool_decide (ordered = []) then ∅
  else match fate with
       | Refused => _serial_fetch ordered fetcher
       | Completed completed => fold_left (fun m path => <[path := settle path (fetcher path)]> m) completed ∅
       end.

(** ** What is fetched *)

Definition MAX_TEXT_FILES : nat := 90.
Definition MAX_FILE_BYTES : Z := 240000.
Definition TEXT_SUFFIXES : list string :=
  [".py"; ".js"; ".jsx"; ".ts"; ".tsx"; ".json"; ".yaml"; ".yml"; ".toml"; ".ini"; ".cfg";
   ".txt"; ".md"; ".sh"; ".html"; ".css"; ".xml"; ".env"; ".example"].
Definition SKIP_PATH_PARTS : list string :=
  [".git"; "node_modules"; ".next"; "dist"; "build"; ".venv"; "venv"; "__pycache__"].
Definition KNOWN_FILE_PATHS : list string :=
  ["README.md"; "package.json"; "apps/web/package.json"; "package-lock.json"; "apps/web/package-lock.json";
   "pnpm-lock.yaml"; "apps/web/pnpm-lock.yaml"; "yarn.lock"; "apps/web/yarn.lock"; "requirements.txt";
   "pyproject.toml"; "Pipfile"; "Pipfile.lock"; "poetry.lock"; "tsconfig.json"; "apps/web/tsconfig.json";
   "pytest.ini"; "Dockerfile"; "Procfile"; "render.yaml"; "railway.json"; "fly.toml"; ".env.example"].

Definition slash : Ascii.ascii := "/"%char.
Definition dot : Ascii.ascii := "."%char.
(** [s.split(".", 1)[-1]] after the first dot *)
Fixpoint after_dot (s : string) : option string :=
  match s with "" => None | String a s => if Ascii.eqb a dot then Some s else after_dot s end.
Fixpoint count (a : Ascii.ascii) (s : string) : Z :=
  match s with "" => 0 | String b s => (if Ascii.eqb a b then 1 else 0) + count a s end.

Definition should_fetch_path (path : string) (size : option Z) : bool :=
  let parts := split_on slash "" path in
  let name := default "" (last parts) in
  if existsb (fun p => bool_decide (p ∈ SKIP_PATH_PARTS)) parts then false
  else if match size with Some n => MAX_FILE_BYTES <? n | None => false end then false
  else if bool_decide (path ∈ KNOWN_FILE_PATHS) then true
  else if bool_decide (name ∈ ["Dockerfile"; "Procfile"; ".env.example"]) then true
  else
    let suffix := match after_dot name with Some s => String dot s | None => "" end in
    if negb (bool_decide (suffix ∈ TEXT_SUFFIXES)) then false
    else existsb (fun p => startswith p path)
           ["tests/"; "nico/"; "apps/web/app/"; "apps/web/styles/"; "docs/"; ".github/workflows/"]
         || (count slash path <=? 1).

Definition objects_of (l : list json) : list dict :=
  flat_map (fun v => match v with JObj d => [d] | _ => [] end) l.
(** [item.get(k, "")] of the mappings of a list, or nothing *)
Definition list_dir_names (items : json) : list json :=
  match items with
  | JArr l => map (fun d => default (JStr "") (dlookup "name" d)) (objects_of l)
  | _ => []
  end.

Definition blobs_of (tree : list json) : list dict :=
  List.filter (fun d => bool_decide (dget d "type" = JStr "blob")) (objects_of tree).
Definition with_path (blobs : list dict) : list dict := List.filter (fun d => py_truthy (dget d "path")) blobs.

(** [{path: int(size or 0)}]: the last blob of a path wins. *)
Definition sizes_of (blobs : list dict) : res (gmap string Z) :=
  l ← mapR (fun d => n ← py_int (jor (dget d "size") (JInt 0)); Ok (dget_str d "path", n)) (with_path blobs);
  Ok (fold_left (fun m x => <[fst x := snd x]> m) l ∅).

(** [candidates.extend(... if path not in candidates ...)]: the generator sees
    what was appended before. *)
Fixpoint extend_candidates (sizes : gmap string Z) (candidates tree_paths : list string) : list string :=
  match tree_paths with
  | [] => candidates
  | path :: tree_paths =>
      if negb (bool_decide (path ∈ candidates)) && should_fetch_path path (Some (default 0 (sizes !! path)))
      then extend_candidates sizes (candidates ++ [path]) tree_paths
      else extend_candidates sizes candidates tree_paths
  end.

Definition selected_paths (sizes : gmap string Z) (tree_paths : list string) : list string :=
  take MAX_TEXT_FILES (extend_candidates sizes
    (List.filter (fun path => bool_decide (path ∈ tree_paths)) KNOWN_FILE_PATHS) tree_paths).

Record profile := Profile {
  pr_root_items : list json; pr_tree_paths : list string; pr_files : list (string * string);
  pr_unavailable : list string; pr_collection_budget : dict }.

(** [files[path] = text] and the notes, for the selected paths in order *)
Definition no_result : fetched := (None, Some "File collection did not return a result.").
Definition read_files (results : gmap string fetched) (selected : list string) : list (string * string) :=
  flat_map (fun path => match default no_result (results !! path) with (Some text, _) => [(path, text)] | (None, _) => [] end)
    selected.
Definition missing_files (results : gmap string fetched) (selected : list string) : list string :=
  flat_map (fun path => match default no_result (results !! path) with
    | (Some _, _) => []
    | (None, error) => if bool_decide (path ∈ KNOWN_FILE_PATHS)
                       then [str_or (default "" error) ("Could not read " +:+ path +:+ ".")] else []
    end) selected.

Definition note (prefix : string) (error : option string) : list string :=
  match error with Some e => if truthy e then [prefix +:+ e] else [] | None => [] end.

(** [budget] is what [collection_budget_status] answers after the fetches. *)
Definition _bounded_repository_profile (fate : pool_fate) (tree : list json) (tree_error : option string)
    (root : json) (root_error : option string) (fetcher : string -> res fetched) (budget : dict) : res profile :=
  let blobs := blobs_of tree in
  let tree_paths := map (fun d => dget_str d "path") (with_path blobs) in
  sizes ← sizes_of blobs;
  let selected := selected_paths sizes tree_paths in
  let fetched := _parallel_fetch fate selected fetcher in
  let exhausted := if dget_bool budget "budget_exhausted" then
    ["GitHub collection reached its bounded runtime; unfetched evidence is marked unavailable rather than leaving the assessment request running indefinitely."]
    else [] in
  Ok {| pr_root_items := list_dir_names root; pr_tree_paths := tree_paths; pr_files := read_files fetched selected;
        pr_unavailable := sorted (dict_fromkeys (note "Root listing unavailable: " root_error ++
          note "Recursive file tree unavailable: " tree_error ++ missing_files fetched selected ++ exhausted));
        pr_collection_budget := budget |}.

(** ** Workflows *)

Definition workflow_paths (items : list json) : list string :=
  flat_map (fun d =>
    let name := dget_str d "name" in
    if (endswith ".yml" name || endswith ".yaml" name) && py_truthy (dget d "path") then [dget_str d "path"] else [])
    (objects_of items).

Definition no_workflow : fetched := (None, Some "Workflow collection did not return a result.").
(** [workflows[path] = text]: a repeated path keeps its place. *)
Definition _bounded_workflows (fate : pool_fate) (items : json) (error : option string) (fetcher : string -> res fetched)
    : dict * list string :=
  if truthy (default "" error)
  then ([], ["No readable .github/workflows directory was found through the bounded GitHub contents API."])
  else match items with
  | JArr l =>
      let paths := workflow_paths l in
      let fetched := _parallel_fetch fate paths fetcher in
      fold_left (fun acc path =>
        let '(workflows, unavailable) := acc in
        match default no_workflow (fetched !! path) with
        | (Some text, _) => (dset workflows path (JStr text), unavailable)
        | (None, e) => (workflows, unavailable ++ [str_or (default "" e) ("Could not read " +:+ path +:+ ".")])
        end) paths ([], [])
  | _ => ([], [".github/workflows exists but was not returned as a directory listing."])
  end.

Example profile_example :
  let blob p n := JObj [("type", JStr "blob"); ("path", JStr p); ("size", JInt n)] in
  let fetcher p := if String.eqb p "nico/a.py" then fail OSError "reset" else Ok (Some p, None) in
  let tree := [blob "nico/a.py" 5; blob "dist/b.py" 5; blob "README.md" 9; blob "nico/a.py" 7; blob "nico/big.py" 240001] in
  exists p, _bounded_repository_profile (Completed ["nico/a.py"; "README.md"]) tree None JNull (Some "404") fetcher [] = Ok p /\
    pr_files p = [("README.md", "README.md")] /\ pr_unavailable p = ["Root listing unavailable: 404"].
Proof. eexists. split; [|split]; vm_compute; reflexivity. Qed.

(** ** Lemmas: the pool *)

Section Pool.
Context (fetcher : string -> res fetched).
Implicit Types l k ordered : list string.

Definition put (m : gmap string fetched) (path : string) : gmap string fetched := <[path := settle path (fetcher path)]> m.

Lemma put_comm m a b : put (put m a) b = put (put m b) a.
Proof.
  unfold put. destruct (decide (a = b)) as [->|Hab]; [done|]. by apply insert_insert_ne.
Qed.

(** The order in which files are delivered does not matter. *)
Lemma put_perm l k m : l ≡ₚ k -> fold_left put l m = fold_left put k m.
Proof.
  intros H. revert m. induction H as [|x l k _ IH|x y l|l k j _ IH1 _ IH2]; intros m; simpl.
  - done.
  - apply IH.
  - by rewrite put_comm.
  - by rewrite IH1, IH2.
Qed.

Lemma put_snoc l m path : fold_left put (l ++ [path]) m = put (fold_left put l m) path.
Proof. by rewrite fold_left_app. Qed.

Lemma lookup_put l m path :
  fold_left put l m !! path = if bool_decide (path ∈ l) then Some (settle path (fetcher path)) else m !! path.
Proof.
  revert m. induction l as [|x l IH]; intros m; [done|]. simpl. rewrite IH. unfold put.
  destruct (decide (path ∈ l)) as [Hl|Hl].
  - rewrite !bool_decide_eq_true_2; [done|by right|done].
  - rewrite (bool_decide_eq_false_2 (path ∈ l)) by done. destruct (decide (x = path)) as [->|Hx].
    + rewrite lookup_insert_eq, bool_decide_eq_true_2; [done|by left].
    + rewrite lookup_insert_ne by done. rewrite bool_decide_eq_false_2; [done|]. rewrite elem_of_cons. intros [?|?]; congruence.
Qed.

(** What holds on the way: every path is queued, running or delivered. *)
Record pool_inv (workers : Z) (ordered : list string) (n : nat) (p : pool) : Prop := PoolInv {
  pi_running : Z.of_nat (length (running p)) <= workers;
  pi_steps : (n + 2 * length (queued p) + length (running p) = 2 * length ordered)%nat;
  pi_results : exists done, done ++ running p ++ queued p ≡ₚ ordered /\ results p = fold_left put done ∅ }.

Lemma pool_invariant workers ordered n p : 1 <= workers -> nsteps (pool_step workers fetcher) n (submitted ordered) p ->
  pool_inv workers ordered n p.
Proof.
  intros Hw. revert p. induction n as [|n IH]; intros p H.
  - inversion H; subst. constructor; simpl; [lia|lia|]. exists []. by split.
  - apply nsteps_inv_r in H as (p' & Hp' & Hs). destruct (IH p' Hp') as [H1 H2 (done & H3 & H4)].
    inversion Hs as [path q r m Hr|path q r1 r2 m]; subst; simpl in *.
    + constructor; simpl; [lia|lia|]. exists done. split; [|exact H4]. rewrite <- H3. by rewrite Permutation_middle.
    + rewrite length_app in H1, H2. simpl in H1, H2.
      constructor; simpl; [rewrite length_app; lia|rewrite length_app; lia|].
      exists (done ++ [path]). split; [|by rewrite put_snoc, <- H4].
      rewrite <- H3. rewrite <- !app_assoc. simpl. f_equiv. apply Permutation_middle.
Qed.

Lemma pool_moves workers p : 1 <= workers -> finished p = false -> exists p', pool_step workers fetcher p p'.
Proof.
  intros Hw. destruct p as [q r m]. destruct r as [|path r].
  - destruct q as [|path q]; [discriminate|]. intros _. eexists. apply pool_start. simpl. lia.
  - intros _. eexists. apply (pool_finish _ _ path q [] r m).
Qed.
End Pool.

Lemma serial_put ordered fetcher : _serial_fetch ordered fetcher = fold_left (put fetcher) ordered ∅.
Proof. reflexivity. Qed.

(** What the environment may decide: the pool delivers every file once. *)
Definition delivers (paths : list string) (fate : pool_fate) : Prop :=
  match fate with Refused => True | Completed completed => completed ≡ₚ ordered_paths paths end.

Lemma parallel_serial fate paths fetcher : delivers paths fate ->
  _parallel_fetch fate paths fetcher = _serial_fetch (ordered_paths paths) fetcher.
Proof.
  intros H. unfold _parallel_fetch. case_bool_decide as He; [by rewrite He|].
  destruct fate as [|completed]; [done|]. rewrite serial_put. by apply put_perm.
Qed.

Lemma worker_bounds l ordered : 1 <= worker_count l ordered <= Z.max 1 (GITHUB_FILE_FETCH_WORKERS l).
Proof. unfold worker_count. lia. Qed.

(** ** Lemmas: the selection *)

Lemma extend_spec sizes candidates tree_paths :
  exists more, extend_candidates sizes candidates tree_paths = candidates ++ more /\ NoDup more /\
    forall path, path ∈ more <-> path ∈ tree_paths /\ path ∉ candidates /\
      should_fetch_path path (Some (default 0 (sizes !! path))) = true.
Proof.
  revert candidates. induction tree_paths as [|x l IH]; intros candidates; cbn [extend_candidates].
  { exists []. rewrite app_nil_r. split; [done|]. split; [constructor|]. set_solver. }
  destruct (decide (x ∈ candidates)) as [Hx|Hx].
  - rewrite bool_decide_eq_true_2 by done. cbn [negb andb]. destruct (IH candidates) as (more & -> & Hn & Hm).
    exists more. split; [done|]. split; [done|]. intros path. rewrite Hm, elem_of_cons. split; [tauto|].
    intros ([->|?] & ? & ?); [done|tauto].
  - rewrite bool_decide_eq_false_2 by done. cbn [negb andb].
    destruct (should_fetch_path x (Some (default 0 (sizes !! x)))) eqn:Hf.
    + destruct (IH (candidates ++ [x])) as (more & -> & Hn & Hm). exists (x :: more).
      rewrite <- app_assoc. split; [done|]. split.
      * constructor; [|done]. rewrite Hm, elem_of_app, list_elem_of_singleton. tauto.
      * intros path. rewrite !elem_of_cons, Hm, elem_of_app, list_elem_of_singleton.
        destruct (decide (path = x)) as [->|]; [tauto|]. tauto.
    + destruct (IH candidates) as (more & -> & Hn & Hm). exists more. split; [done|]. split; [done|].
      intros path. rewrite Hm, elem_of_cons. split; [tauto|]. intros ([->|?] & ? & ?); [congruence|tauto].
Qed.

Lemma known_nodup : NoDup KNOWN_FILE_PATHS.
Proof. apply (bool_decide_unpack _). vm_compute. exact I. Qed.

Lemma selected_spec sizes tree_paths :
  let selected := selected_paths sizes tree_paths in
  (length selected <= MAX_TEXT_FILES)%nat /\ NoDup selected /\
  forall path, path ∈ selected -> path ∈ tree_paths /\
    (path ∈ KNOWN_FILE_PATHS \/ should_fetch_path path (Some (default 0 (sizes !! path))) = true).
Proof.
  unfold selected_paths. set (known := List.filter _ _).
  assert (forall path, path ∈ known <-> path ∈ KNOWN_FILE_PATHS /\ path ∈ tree_paths) as Hk.
  { intros path. unfold known. rewrite !list_elem_of_In, filter_In, <- !list_elem_of_In, bool_decide_eq_true. done. }
  destruct (extend_spec sizes known tree_paths) as (more & -> & Hn & Hm). split; [rewrite length_take; lia|]. split.
  - eapply sublist_NoDup; [|apply sublist_take]. apply NoDup_app. split_and!; [|by intros path Hp [_ [? _]]%Hm|exact Hn].
    unfold known. apply NoDup_ListNoDup, List.NoDup_filter, NoDup_ListNoDup, known_nodup.
  - intros path Hp. eapply elem_of_sublist in Hp; [|apply sublist_take].
    rewrite elem_of_app, Hk, Hm in Hp. tauto.
Qed.

(** The files of a profile, by the outcome of their fetch. *)
Lemma serial_lookup ordered fetcher path : path ∈ ordered ->
  _serial_fetch ordered fetcher !! path = Some (settle path (fetcher path)).
Proof. intros H. rewrite serial_put, lookup_put. by rewrite bool_decide_eq_true_2. Qed.

Lemma ordered_id l : NoDup l -> Forall (fun p => truthy p = true) l -> ordered_paths l = l.
Proof.
  intros Hn Ht. unfold ordered_paths. replace (List.filter truthy l) with l; [by apply dict_fromkeys_id|].
  clear Hn. induction Ht as [|x l Hx _ IH]; simpl; [done|]. by rewrite Hx, <- IH.
Qed.

Lemma read_files_elem results selected path text :
  (path, text) ∈ read_files results selected <-> path ∈ selected /\ fst (default no_result (results !! path)) = Some text.
Proof.
  unfold read_files. rewrite list_elem_of_In, in_flat_map. split.
  - intros (x & Hx & Hin). destruct (default no_result (results !! x)) as [[t|] e] eqn:E; [|done].
    destruct Hin as [[= <- <-]|[]]. split; [by apply list_elem_of_In|]. by rewrite E.
  - intros [Hp Ht]. exists path. split; [by apply list_elem_of_In|].
    destruct (default no_result (results !! path)) as [[t|] e]; simpl in Ht; [|discriminate]. injection Ht as ->. by left.
Qed.

Lemma read_files_keys results selected : NoDup selected -> NoDup (map fst (read_files results selected)) /\
  (length (read_files results selected) <= length selected)%nat.
Proof.
  unfold read_files. induction 1 as [|x l Hx _ [IH1 IH2]]; simpl; [by split; [constructor|]|].
  destruct (default no_result (results !! x)) as [[t|] e]; simpl; [|split; [done|lia]]. split; [|lia].
  constructor; [|done]. intros (m & Hm & Hin)%list_elem_of_fmap. apply Hx. destruct m as [p u]. simpl in Hm. subst p.
  by apply (read_files_elem results l) in Hin as [Hin _].
Qed.

(** ** Lemmas: limits *)

Lemma fltb_fleb a b : fltb a b = true -> fleb a b = true.
Proof. unfold fltb, fleb, SFltb, SFleb. destruct (SFcompare a b) as [[]|]; done. Qed.

Lemma env_int_bounds raw d lo hi : lo <= hi -> lo <= _env_int raw d lo hi <= hi.
Proof. unfold _env_int. lia. Qed.

Lemma whole_seconds z : 1 <= z <= 25 -> fleb half (float_of_Z z) = true /\ fleb (float_of_Z z) (float_of_Z z) = true.
Proof.
  intros Hz. assert (forallb (fun n => fleb half (float_of_Z (Z.of_nat n)) && fleb (float_of_Z (Z.of_nat n)) (float_of_Z (Z.of_nat n)))
    (seq 1 25) = true) as Ha by (vm_compute; reflexivity).
  rewrite forallb_forall in Ha. specialize (Ha (Z.to_nat z)). rewrite in_seq in Ha. specialize (Ha ltac:(lia)).
  rewrite Z2Nat.id in Ha by lia. by apply andb_true_iff in Ha.
Qed.

Lemma timeout_bounds l remaining : 1 <= GITHUB_REQUEST_TIMEOUT_SECONDS l <= 25 ->
  fleb half (request_timeout l remaining) = true /\
  fleb (request_timeout l remaining) (float_of_Z (GITHUB_REQUEST_TIMEOUT_SECONDS l)) = true.
Proof.
  intros [H1 H2]%whole_seconds. unfold request_timeout, fmax, fmin. set (t := float_of_Z _) in *.
  destruct (fltb remaining t) eqn:Er.
  - destruct (fltb half remaining) eqn:Eh; [|by split]. split; by apply fltb_fleb.
  - destruct (fltb half t); by split.
Qed.

(** ** Properties *)

(** The worker pool is the serial loop.  However its threads interleave,
    the pool runs at most its number of workers at once, never stops before
    every file is delivered, and is done after exactly two steps a file; then,
    and also when it refuses to start a thread, every file has the result the
    serial loop gives it, in whatever order the files were delivered. *)
Theorem parallel_fetch_spec l paths fetcher :
  let ordered := ordered_paths paths in
  let workers := worker_count l ordered in
  (forall n p, nsteps (pool_step workers fetcher) n (submitted ordered) p ->
    Z.of_nat (length (running p)) <= workers /\ (n <= 2 * length ordered)%nat /\
    (finished p = true <-> n = 2 * length ordered)%nat /\
    (finished p = false -> exists p', pool_step workers fetcher p p') /\
    (finished p = true -> results p = _serial_fetch ordered fetcher)) /\
  (forall fate, delivers paths fate -> _parallel_fetch fate paths fetcher = _serial_fetch ordered fetcher) /\
  (forall path, path ∈ ordered -> _serial_fetch ordered fetcher !! path = Some (settle path (fetcher path))).
Proof.
  intros ordered workers. pose proof (worker_bounds l ordered) as Hw. fold workers in Hw. split_and!.
  - intros n p H. destruct (pool_invariant fetcher workers ordered n p ltac:(lia) H) as [H1 H2 (done & H3 & H4)].
    split; [exact H1|]. split; [lia|]. split.
    { unfold finished. rewrite andb_true_iff, !bool_decide_eq_true. split.
      - intros [Hq Hr]. rewrite Hq, Hr in H2. simpl in H2. lia.
      - intros ->. split; apply nil_length_inv; lia. }
    split; [apply pool_moves; lia|]. unfold finished. rewrite andb_true_iff, !bool_decide_eq_true. intros [Hq Hr].
    rewrite Hq, Hr, !app_nil_r in H3. rewrite H4, serial_put. by apply put_perm.
  - intros fate Hf. by apply parallel_serial.
  - intros path Hp. by apply serial_lookup.
Qed.

(** What a profile holds.  For every way the pool may deliver the files,
    the profile is the one of the serial loop.  It has at most 90 files, each
    once; a file is in it with the text its fetch gave, and its path is a blob
    of the tree that is a known manifest or passes the path and size rules; a
    selected known manifest that gave no text leaves a note. *)
Theorem profile_spec fate tree tree_error root root_error fetcher budget p :
  (forall sizes, sizes_of (blobs_of tree) = Ok sizes ->
     delivers (selected_paths sizes (map (fun d => dget_str d "path") (with_path (blobs_of tree)))) fate) ->
  _bounded_repository_profile fate tree tree_error root root_error fetcher budget = Ok p ->
  _bounded_repository_profile Refused tree tree_error root root_error fetcher budget = Ok p /\
  (length (pr_files p) <= 90)%nat /\ NoDup (map fst (pr_files p)) /\
  exists sizes selected, sizes_of (blobs_of tree) = Ok sizes /\ selected = selected_paths sizes (pr_tree_paths p) /\
    (forall path text, (path, text) ∈ pr_files p -> path ∈ selected /\
       (truthy path = true -> fst (settle path (fetcher path)) = Some text)) /\
    (forall path, path ∈ selected -> path ∈ pr_tree_paths p /\
       (path ∈ KNOWN_FILE_PATHS \/ should_fetch_path path (Some (default 0 (sizes !! path))) = true)) /\
    (forall path, path ∈ selected -> path ∈ KNOWN_FILE_PATHS -> fst (settle path (fetcher path)) = None ->
       str_or (default "" (snd (settle path (fetcher path)))) ("Could not read " +:+ path +:+ ".") ∈ pr_unavailable p).
Proof.
  intros Hdel H. unfold _bounded_repository_profile in H |- *. apply bind_ok_inv in H as (sizes & Hs & H).
  rewrite Hs. cbn [mbind res_bind]. specialize (Hdel sizes Hs). set (paths := map _ _) in *.
  set (selected := selected_paths sizes paths) in *. destruct (selected_spec sizes paths) as (Hlen & Hn & Hsel). fold selected in Hlen, Hn, Hsel.
  rewrite (parallel_serial fate selected fetcher Hdel) in H. rewrite (parallel_serial Refused selected fetcher I).
  split; [exact H|]. apply Ok_inj in H as <-. cbn [pr_files pr_tree_paths pr_unavailable].
  destruct (read_files_keys (_serial_fetch (ordered_paths selected) fetcher) selected Hn) as [Hk Hl].
  split; [unfold MAX_TEXT_FILES in Hlen; lia|]. split; [exact Hk|]. exists sizes, selected. split; [done|]. split; [done|].
  assert (forall path, path ∈ selected -> truthy path = true ->
    _serial_fetch (ordered_paths selected) fetcher !! path = Some (settle path (fetcher path))) as Hlook.
  { intros path Hp Ht. apply serial_lookup. unfold ordered_paths. rewrite elem_dict_fromkeys, list_elem_of_In, filter_In, <- list_elem_of_In.
    by split. }
  split_and!.
  - intros path text [Hp Ht]%read_files_elem. split; [exact Hp|]. intros Htr. by rewrite (Hlook _ Hp Htr) in Ht.
  - exact Hsel.
  - intros path Hp Hkn Hnone. rewrite sorted_perm, elem_dict_fromkeys.
    rewrite !elem_of_app. right; right; left. unfold missing_files. rewrite list_elem_of_In, in_flat_map. exists path.
    split; [by apply list_elem_of_In|].
    assert (truthy path = true) as Htr.
    { assert (Forall (fun q => truthy q = true) KNOWN_FILE_PATHS) as Ha by (apply (bool_decide_unpack _); vm_compute; exact I).
      rewrite Forall_forall in Ha. by apply Ha. }
    rewrite (Hlook _ Hp Htr). cbn [default]. destruct (settle path (fetcher path)) as [[t|] e]; [discriminate|].
    rewrite bool_decide_eq_true_2 by done. by left.
Qed.

(** Collection is bounded.  Whatever the environment says, the limits stay
    in their ranges and a pool has between 1 and 12 workers; a request is made
    only while time remains, with a timeout between half a second and the
    configured limit, and after the deadline no request is made at all. *)
Theorem collection_bounded getenv :
  let l := limits_of getenv in
  2 <= GITHUB_REQUEST_TIMEOUT_SECONDS l <= 25 /\ 30 <= GITHUB_COLLECTION_BUDGET_SECONDS l <= 180 /\
  2 <= OSV_REQUEST_TIMEOUT_SECONDS l <= 20 /\ (forall ordered, 1 <= worker_count l ordered <= 12) /\
  forall http deadline now,
    if fleb (_remaining l deadline now) zero
    then forall http', _bounded_get_json l http deadline now = _bounded_get_json l http' deadline now /\
           fst (_bounded_get_json l http deadline now) = None
    else exists timeout, fleb half timeout = true /\ fleb timeout (float_of_Z (GITHUB_REQUEST_TIMEOUT_SECONDS l)) = true /\
           forall http', http' timeout = http timeout ->
             _bounded_get_json l http' deadline now = _bounded_get_json l http deadline now.
Proof.
  intros l. assert (2 <= GITHUB_REQUEST_TIMEOUT_SECONDS l <= 25) as Ht by (by apply env_int_bounds).
  assert (1 <= GITHUB_FILE_FETCH_WORKERS l <= 12) as Hw by (by apply env_int_bounds).
  assert (30 <= GITHUB_COLLECTION_BUDGET_SECONDS l <= 180) as Hb by (by apply env_int_bounds).
  assert (2 <= OSV_REQUEST_TIMEOUT_SECONDS l <= 20) as Ho by (by apply env_int_bounds).
  split; [exact Ht|]. split; [exact Hb|]. split; [exact Ho|]. split.
  - intros ordered. pose proof (worker_bounds l ordered). lia.
  - intros http deadline now. unfold _bounded_get_json. destruct (fleb (_remaining l deadline now) zero).
    + intros http'. by split.
    + exists (request_timeout l (_remaining l deadline now)). destruct (timeout_bounds l (_remaining l deadline now)) as [T1 T2]; [lia|].
      split; [exact T1|]. split; [exact T2|]. intros http' ->. done.
Qed.

(** ** Witness *)

Module BudgetDemo.
Definition blob (p : string) (n : Z) : json := JObj [("type", JStr "blob"); ("path", JStr p); ("size", JInt n)].
Definition tree : list json := [blob "nico/a.py" 5; blob "dist/b.py" 5; blob "README.md" 9; blob "nico/big.py" 240001].
Definition fetcher (p : string) : res fetched := if String.eqb p "nico/a.py" then Ok (Some "x = 1", None) else fail OSError "reset".
Definition fate : pool_fate := Completed ["nico/a.py"; "README.md"].
End BudgetDemo.

Lemma profile_spec_witness : exists p,
  _bounded_repository_profile BudgetDemo.fate BudgetDemo.tree None JNull None BudgetDemo.fetcher [] = Ok p /\
  pr_files p = [("nico/a.py", "x = 1")] /\
  _bounded_repository_profile Refused BudgetDemo.tree None JNull None BudgetDemo.fetcher [] = Ok p.
Proof.
  eexists. split; [vm_compute; reflexivity|]. split; [reflexivity|].
  refine (proj1 (profile_spec BudgetDemo.fate BudgetDemo.tree None JNull None BudgetDemo.fetcher [] _ _ _)).
  - intros sizes Hs. assert (sizes_of (blobs_of BudgetDemo.tree) =
      Ok (<["nico/big.py" := 240001]> (<["README.md" := 9]> (<["dist/b.py" := 5]> (<["nico/a.py" := 5]> ∅))))) as Hs'
      by reflexivity.
    rewrite Hs' in Hs. injection Hs as <-. vm_compute. apply Permutation_swap.
  - vm_compute. reflexivity.
Defined.
