(* ===== verification/PyTime.v ===== *)
(** * UTC datetimes

    An aware UTC [datetime] is its number of microseconds since
    0001-01-01T00:00:00Z.  [isoformat_z] is the sources' [_iso]
    ([value.isoformat()] with [+00:00] written [Z]); [fromisoformat] is CPython
    3.11's parser, its basic and week forms included; [parse_utc] is the sources'
    [_parse].  The calendar functions are those of the standard library's
    [datetime] module, and [parse_utc_iso] is the round trip. *)

From S2P Require Import Prelude PyStr.

Definition datetime := Z.

Definition us_per_second : Z := 1000000.
Definition us_per_day : Z := 86400 * us_per_second.
Definition max_ordinal : Z := 3652059.
Definition dt_valid (t : datetime) : bool := (0 <=? t) && (t <? max_ordinal * us_per_day).

(** [t + timedelta(microseconds=d)] *)
Definition dt_add (t : datetime) (d : Z) : res datetime :=
  if dt_valid (t + d) then Ok (t + d) else fail OverflowError "date value out of range".

(** ** The calendar *)

Definition is_leap (y : Z) : bool := (y mod 4 =? 0) && (negb (y mod 100 =? 0) || (y mod 400 =? 0)).
Definition days_before_year (year : Z) : Z :=
  let y := year - 1 in y * 365 + y / 4 - y / 100 + y / 400.
Definition month_days : list Z := [0; 31; 28; 31; 30; 31; 30; 31; 31; 30; 31; 30; 31].
Definition month_starts : list Z := [0; 0; 31; 59; 90; 120; 151; 181; 212; 243; 273; 304; 334].
Definition days_in_month (y m : Z) : Z :=
  if (m =? 2) && is_leap y then 29 else nth (Z.to_nat m) month_days 0.
Definition days_before_month (y m : Z) : Z :=
  nth (Z.to_nat m) month_starts 0 + (if (2 <? m) && is_leap y then 1 else 0).
Definition ymd2ord (y m d : Z) : Z := days_before_year y + days_before_month y m + d.

(** Month and day of the day [n] (from 0) of a year. *)
Definition month_day (leap : bool) (n : Z) : Z * Z :=
  let m := Z.shiftr (n + 50) 5 in
  let p := nth (Z.to_nat m) month_starts 0 + (if (2 <? m) && leap then 1 else 0) in
  if n <? p then
    let m := m - 1 in
    let p := p - (nth (Z.to_nat m) month_days 0 + (if (m =? 2) && leap then 1 else 0)) in
    (m, n - p + 1)
  else (m, n - p + 1).

Definition ord2ymd (ord : Z) : Z * Z * Z :=
  let n := ord - 1 in
  let n400 := n / 146097 in let n := n mod 146097 in
  let n100 := n / 36524 in let n := n mod 36524 in
  let n4 := n / 1461 in let n := n mod 1461 in
  let n1 := n / 365 in let n := n mod 365 in
  let year := n400 * 400 + 1 + n100 * 100 + n4 * 4 + n1 in
  if (n1 =? 4) || (n100 =? 4) then (year - 1, 12, 31)
  else
    let leap := (n1 =? 3) && (negb (n4 =? 24) || (n100 =? 3)) in
    let '(m, d) := month_day leap n in (year, m, d).

(** ** isoformat *)

(** [n] decimal digits of [z] *)
Fixpoint digits (n : nat) (z : Z) : string :=
  match n with
  | O => ""
  | S n => String (chr (48 + (z / 10 ^ Z.of_nat n) mod 10)) (digits n z)
  end.

(** [isoformat()] without the offset *)
Definition date_part (y m d : Z) : string :=
  digits 4 y +:+ "-" +:+ digits 2 m +:+ "-" +:+ digits 2 d.
Definition time_part (us : Z) : string :=
  let s := us / us_per_second in
  let f := us mod us_per_second in
  digits 2 (s / 3600) +:+ ":" +:+ digits 2 (s / 60 mod 60) +:+ ":" +:+ digits 2 (s mod 60)
    +:+ (if f =? 0 then "" else "." +:+ digits 6 f).
Definition isoformat_body (t : datetime) : string :=
  let '(y, m, d) := ord2ymd (t / us_per_day + 1) in
  date_part y m d +:+ "T" +:+ time_part (t mod us_per_day).

Definition isoformat_z (t : datetime) : string := isoformat_body t +:+ "Z".

(** ** fromisoformat *)

Definition digit_of (a : Ascii.ascii) : option Z :=
  let c := code a in if (48 <=? c) && (c <=? 57) then Some (c - 48) else None.
Definition is_dig (a : Ascii.ascii) : bool := if digit_of a then true else false.

(** Exactly [n] digits from the front. *)
Fixpoint parse_digits (n : nat) (acc : Z) (s : string) : option (Z * string) :=
  match n with
  | O => Some (acc, s)
  | S n => match s with
           | String a s => d ← digit_of a; parse_digits n (acc * 10 + d) s
           | "" => None
           end
  end.

Fixpoint all_dec (s : string) : bool :=
  match s with String a s => is_dig a && all_dec s | "" => true end.

Definition char_at (n : nat) (s : string) : option Ascii.ascii := String.get n s.
Definition has_at (n : nat) (a : Ascii.ascii) (s : string) : bool :=
  match char_at n s with Some b => Ascii.eqb a b | None => false end.

Fixpoint count_digits (s : string) : nat :=
  match s with
  | String a s => if is_dig a then S (count_digits s) else O
  | "" => O
  end.

(** Where the date ends. *)
Definition date_length (s : string) : option nat :=
  let len := String.length s in
  if (len =? 7)%nat then Some 7%nat
  else if has_at 4 "-"%char s then
    if has_at 5 "W"%char s then
      if has_at 8 "-"%char s then
        if (len =? 9)%nat then None
        else if match char_at 10 s with Some a => is_dig a | None => false end then Some 8%nat
        else Some 10%nat
      else Some 8%nat
    else Some 10%nat
  else if has_at 4 "W"%char s then
    let pos := (7 + count_digits (str_drop 7 s))%nat in
    if (pos <? 9)%nat then Some pos else if Nat.even pos then Some 7%nat else Some 8%nat
  else Some 8%nat.

Definition weekday (y m d : Z) : Z := (ymd2ord y m d + 6) mod 7.
Definition iso_week1_monday (y : Z) : Z :=
  let first := ymd2ord y 1 1 in
  let first_weekday := (first + 6) mod 7 in
  let monday := first - first_weekday in
  if 3 <? first_weekday then monday + 7 else monday.
Definition iso_to_ymd (y w d : Z) : option (Z * Z * Z) :=
  let w_ok := ((0 <? w) && (w <? 53)) ||
    ((w =? 53) && (let f := weekday y 1 1 in (f =? 3) || ((f =? 2) && is_leap y))) in
  if w_ok && (0 <? d) && (d <? 8)
  then Some (ord2ymd (iso_week1_monday y + (w - 1) * 7 + d - 1)) else None.

Definition drop_char (a : Ascii.ascii) (s : string) : option string :=
  match s with String b s => if Ascii.eqb a b then Some s else None | "" => None end.

(** The date in the first [len] characters. *)
Definition parse_date (len : nat) (s : string) : option (Z * Z * Z) :=
  '(y, p) ← parse_digits 4 0 s;
  let sep := match p with String a _ => Ascii.eqb a "-"%char | "" => false end in
  let p := if sep then str_drop 1 p else p in
  match drop_char "W"%char p with
  | Some p =>
      '(w, p) ← parse_digits 2 0 p;
      if (String.length s - String.length p <? len)%nat then
        p ← (if sep then drop_char "-"%char p else Some p);
        '(d, _) ← parse_digits 1 0 p; iso_to_ymd y w d
      else iso_to_ymd y w 1
  | None =>
      '(m, p) ← parse_digits 2 0 p;
      p ← (if sep then drop_char "-"%char p else Some p);
      '(d, _) ← parse_digits 2 0 p; Some (y, m, d)
  end.

(** The fraction of a second in the first [len] characters: six digits count,
    further ones are skipped; the flag says whether text is left. *)
Definition fraction (s : string) (len : nat) : option (Z * bool) :=
  let n := Nat.min len 6 in
  '(f, p) ← parse_digits n 0 s;
  Some (f * 10 ^ (6 - Z.of_nat n), truthy (str_drop (count_digits p) p)).

Definition sep_char (a : Ascii.ascii) : bool := Ascii.eqb a "."%char || Ascii.eqb a ","%char.

(** [HH[:MM[:SS[.ffffff]]]] up to [stop] characters from the end of the text:
    the fields, the fraction, and whether text is left. *)
Fixpoint parse_fields (i : nat) (has_sep : bool) (acc : list Z) (s : string) (stop : nat)
    : option (list Z * Z * bool) :=
  match i with
  | O => '(f, more) ← fraction s (String.length s - stop); Some (acc, f, more)
  | S i' =>
      '(v, p) ← parse_digits 2 0 s;
      let acc := acc ++ [v] in
      let has_sep := if (i =? 3)%nat then startswith ":" p else has_sep in
      if (String.length p <=? stop + 1)%nat then Some (acc, 0, truthy p)
      else if has_sep && startswith ":" p then parse_fields i' has_sep acc (str_drop 1 p) stop
      else if startswith "." p || startswith "," p then
        '(f, more) ← fraction (str_drop 1 p) (String.length p - 1 - stop); Some (acc, f, more)
      else if negb has_sep then parse_fields i' has_sep acc p stop
      else None
  end.

(** The text from the first [+], [-] or [Z]. *)
Fixpoint zone_tail (s : string) : string :=
  match s with
  | String a s' =>
      if Ascii.eqb a "+"%char || Ascii.eqb a "-"%char || Ascii.eqb a "Z"%char then s else zone_tail s'
  | "" => ""
  end.

Definition field (i : nat) (l : list Z) : Z := nth i l 0.
Definition time_us (fs : list Z) (f : Z) : Z :=
  (field 0 fs * 3600 + field 1 fs * 60 + field 2 fs) * us_per_second + f.
Definition time_ok (fs : list Z) : bool :=
  (field 0 fs <? 24) && (field 1 fs <? 60) && (field 2 fs <? 60).

(** Microseconds of the day and offset from UTC. *)
Definition parse_time (s : string) : option (Z * option Z) :=
  let tz := zone_tail s in
  '(fs, f, more) ← parse_fields 3 true [] s (String.length tz);
  if negb (time_ok fs) then None
  else match tz with
    | "" => if (more : bool) then None else Some (time_us fs f, None)
    | String c r =>
        if Ascii.eqb c "Z"%char then if truthy r then None else Some (time_us fs f, Some 0)
        else
          '(os, g, more) ← parse_fields 3 true [] r 0;
          if (more : bool) then None
          else
            let off : Z := time_us os g in
            if us_per_day <=? off then None
            else Some (time_us fs f, Some (if Ascii.eqb c "-"%char then - off else off))
    end.

Definition date_ok (y m d : Z) : bool :=
  (1 <=? y) && (y <=? 9999) && (1 <=? m) && (m <=? 12) && (1 <=? d) && (d <=? days_in_month y m).

(** [datetime.fromisoformat(s)]: the local microseconds and the offset, [None]
    for [ValueError]. *)
Definition fromisoformat (s : string) : option (Z * option Z) :=
  if (String.length s <? 7)%nat then None
  else
    n ← date_length s;
    '(y, m, d) ← parse_date n s;
    if negb (date_ok y m d) then None
    else
      let day := (ymd2ord y m d - 1) * us_per_day in
      if (n <? String.length s)%nat then
        '(t, off) ← parse_time (str_drop (n + 1) s); Some (day + t, off)
      else Some (day, None).

(** The sources' [_parse]: [Z] is [+00:00], a missing offset is UTC. *)
Definition parse_utc (value : string) : res datetime :=
  let token := strip value in
  let token := if endswith "Z" token
               then str_take (String.length token - 1) token +:+ "+00:00" else token in
  match fromisoformat token with
  | None => fail ValueError "Invalid isoformat string"
  | Some (t, None) => Ok t
  | Some (t, Some off) => dt_add t (- off)
  end.

Example parse_z : parse_utc " 2024-02-29T12:34:56.5Z " = Ok 63844806896500000.
Proof. vm_compute. reflexivity. Qed.
Example parse_offset : parse_utc "2024-02-29T14:34:56.500000+02:00" = Ok 63844806896500000.
Proof. vm_compute. reflexivity. Qed.
Example parse_basic : parse_utc "20240229T123456,5" = Ok 63844806896500000.
Proof. vm_compute. reflexivity. Qed.
Example parse_week : parse_utc "2024-W09-4T12:34:56.5" = Ok 63844806896500000.
Proof. vm_compute. reflexivity. Qed.
Example parse_bad : parse_utc "2024-02-30" = fail ValueError "Invalid isoformat string".
Proof. vm_compute. reflexivity. Qed.
Example iso_example : isoformat_z 63844806896500000 = "2024-02-29T12:34:56.500000Z".
Proof. vm_compute. reflexivity. Qed.
Example iso_whole : isoformat_z (63844806896 * 1000000) = "2024-02-29T12:34:56Z".
Proof. vm_compute. reflexivity. Qed.
