(* ===== verification/PyTimeFacts.v ===== *)
(** * Facts about datetimes

    The calendar conversions are inverse, and [parse_utc] reads back what
    [isoformat_z] writes, so a stored timestamp denotes the instant it was
    written for. *)

From S2P Require Import Prelude PyStr PyTime.

#[local] Ltac Zify.zify_post_hook ::= Z.to_euclidean_division_equations.

(** ** The calendar *)

Definition month_day_ok (leap : bool) (n : Z) : bool :=
  let '(m, d) := month_day leap n in
  (1 <=? m) && (m <=? 12) && (1 <=? d)
  && (d <=? nth (Z.to_nat m) month_days 0 + (if (m =? 2) && leap then 1 else 0))
  && (nth (Z.to_nat m) month_starts 0 + (if (2 <? m) && leap then 1 else 0) + d =? n + 1).

Lemma month_day_table :
  forallb (fun n => month_day_ok false (Z.of_nat n)) (seq 0 365) = true /\
  forallb (fun n => month_day_ok true (Z.of_nat n)) (seq 0 366) = true.
Proof. split; vm_compute; reflexivity. Qed.

Lemma month_day_spec (leap : bool) n :
  0 <= n < 365 + (if leap then 1 else 0) -> month_day_ok leap n = true.
Proof.
  intros Hn. destruct month_day_table as [Hf Ht]. rewrite forallb_forall in Hf, Ht.
  replace n with (Z.of_nat (Z.to_nat n)) by lia.
  destruct leap; [apply Ht | apply Hf]; apply in_seq; lia.
Qed.

Lemma days_in_month_table y m : 1 <= m <= 12 ->
  days_in_month y m
  = nth (Z.to_nat m) month_days 0 + (if (m =? 2) && is_leap y then 1 else 0).
Proof.
  intros Hm. unfold days_in_month. destruct (Z.eqb_spec m 2) as [->|]; simpl; [|lia].
  destruct (is_leap y); reflexivity.
Qed.

(** The year 400 a + 100 c + 4 e + g + 1. *)
Lemma days_before_year_parts a c e g :
  0 <= c <= 3 -> 0 <= e <= 24 -> 0 <= g <= 3 ->
  days_before_year (a * 400 + 1 + c * 100 + e * 4 + g)
  = 146097 * a + 36524 * c + 1461 * e + 365 * g.
Proof.
  intros Hc He Hg. unfold days_before_year.
  replace (a * 400 + 1 + c * 100 + e * 4 + g - 1) with (400 * a + 100 * c + 4 * e + g) by lia.
  rewrite <- (Z.div_unique (400 * a + 100 * c + 4 * e + g) 4 (100 * a + 25 * c + e) g) by lia.
  rewrite <- (Z.div_unique (400 * a + 100 * c + 4 * e + g) 100 (4 * a + c) (4 * e + g)) by lia.
  rewrite <- (Z.div_unique (400 * a + 100 * c + 4 * e + g) 400 a (100 * c + 4 * e + g)) by lia.
  lia.
Qed.

Lemma is_leap_parts a c e g :
  0 <= c <= 3 -> 0 <= e <= 24 -> 0 <= g <= 3 ->
  is_leap (a * 400 + 1 + c * 100 + e * 4 + g) = (g =? 3) && (negb (e =? 24) || (c =? 3)).
Proof.
  intros Hc He Hg. unfold is_leap. set (y := a * 400 + 1 + c * 100 + e * 4 + g).
  assert (y mod 4 = (g + 1) mod 4) as ->.
  { unfold y. replace (a * 400 + 1 + c * 100 + e * 4 + g) with (g + 1 + (100 * a + 25 * c + e) * 4) by lia.
    apply Z.mod_add. lia. }
  assert (y mod 100 = (4 * e + g + 1) mod 100) as ->.
  { unfold y. replace (a * 400 + 1 + c * 100 + e * 4 + g) with (4 * e + g + 1 + (4 * a + c) * 100) by lia.
    apply Z.mod_add. lia. }
  assert (y mod 400 = (100 * c + 4 * e + g + 1) mod 400) as ->.
  { unfold y. replace (a * 400 + 1 + c * 100 + e * 4 + g) with (100 * c + 4 * e + g + 1 + a * 400) by lia.
    apply Z.mod_add. lia. }
  destruct (Z.eqb_spec g 3) as [->|Hg3]; simpl.
  - destruct (Z.eqb_spec e 24) as [->|He']; simpl.
    + destruct (Z.eqb_spec c 3) as [->|Hc']; [done|]. simpl.
      rewrite (Z.mod_small _ 400) by lia. lia.
    + rewrite (Z.mod_small _ 100) by lia. lia.
  - rewrite (Z.mod_small _ 4) by lia. lia.
Qed.

(** [ord2ymd] yields a calendar date whose ordinal is the argument. *)
Definition date_of (n : Z) (ymd : Z * Z * Z) : Prop :=
  let '(y, m, d) := ymd in date_ok y m d = true /\ ymd2ord y m d = n.

Lemma last_day_of_year a n y :
  1 <= y <= 9999 -> days_before_year y = a -> is_leap y = true -> n = a + 366 ->
  date_of n (y, 12, 31).
Proof.
  intros Hy Ha Hl ->. split; unfold date_ok, ymd2ord.
  - unfold days_in_month. simpl. rewrite !andb_true_iff. lia.
  - unfold days_before_month. rewrite Ha, Hl. simpl. lia.
Qed.

Lemma ord2ymd_spec n : 1 <= n <= max_ordinal -> date_of n (ord2ymd n).
Proof.
  unfold max_ordinal. intros Hn. unfold ord2ymd.
  pose proof (Z.div_mod (n - 1) 146097 ltac:(lia)) as E1.
  pose proof (Z.mod_pos_bound (n - 1) 146097 ltac:(lia)) as B1.
  set (a := (n - 1) / 146097) in *. set (b := (n - 1) mod 146097) in *.
  pose proof (Z.div_mod b 36524 ltac:(lia)) as E2.
  pose proof (Z.mod_pos_bound b 36524 ltac:(lia)) as B2.
  set (c := b / 36524) in *. set (d := b mod 36524) in *.
  pose proof (Z.div_mod d 1461 ltac:(lia)) as E3.
  pose proof (Z.mod_pos_bound d 1461 ltac:(lia)) as B3.
  set (e := d / 1461) in *. set (f := d mod 1461) in *.
  pose proof (Z.div_mod f 365 ltac:(lia)) as E4.
  pose proof (Z.mod_pos_bound f 365 ltac:(lia)) as B4.
  set (g := f / 365) in *. set (h := f mod 365) in *.
  assert (0 <= c <= 4 /\ 0 <= e <= 24 /\ 0 <= g <= 4 /\ 0 <= a <= 24) as (Hc & He & Hg & Ha) by lia.
  destruct (Z.eqb_spec g 4) as [Hg4|Hg4]; [|destruct (Z.eqb_spec c 4) as [Hc4|Hc4]]; simpl.
  - assert (c <= 3 /\ h = 0 /\ e <= 23) as (Hc3 & Hh & He3) by lia.
    replace (a * 400 + 1 + c * 100 + e * 4 + g - 1) with (a * 400 + 1 + c * 100 + e * 4 + 3) by lia.
    eapply last_day_of_year; [lia | apply days_before_year_parts; lia | | lia].
    rewrite is_leap_parts by lia. by replace (e =? 24) with false by lia.
  - assert (e = 0 /\ g = 0 /\ h = 0) as (-> & -> & Hh) by lia.
    replace (a * 400 + 1 + c * 100 + 0 * 4 + 0 - 1) with (a * 400 + 1 + 3 * 100 + 24 * 4 + 3) by lia.
    eapply last_day_of_year; [lia | apply days_before_year_parts; lia | | lia].
    by rewrite is_leap_parts by lia.
  - set (y := a * 400 + 1 + c * 100 + e * 4 + g).
    set (leap := (g =? 3) && (negb (e =? 24) || (c =? 3))).
    assert (is_leap y = leap) as Hl by (apply is_leap_parts; lia).
    assert (days_before_year y = 146097 * a + 36524 * c + 1461 * e + 365 * g) as Hd
      by (apply days_before_year_parts; lia).
    assert (0 <= h < 365 + (if leap then 1 else 0)) as Hh.
    { unfold leap. destruct (Z.eqb_spec g 3), (Z.eqb_spec e 24), (Z.eqb_spec c 3); simpl; lia. }
    pose proof (month_day_spec leap h Hh) as Hm. unfold month_day_ok in Hm.
    destruct (month_day leap h) as [m dd]. rewrite !andb_true_iff, !Z.leb_le, Z.eqb_eq in Hm.
    destruct Hm as ((((Hm1 & Hm12) & Hd1) & Hdm) & Hs).
    split; unfold date_ok, ymd2ord.
    + rewrite days_in_month_table, Hl by lia. rewrite !andb_true_iff, !Z.leb_le.
      repeat split; lia.
    + unfold days_before_month. rewrite Hd, Hl. lia.
Qed.

(** ** Digits *)

Lemma digit_of_chr d : 0 <= d < 10 -> digit_of (chr (48 + d)) = Some d.
Proof.
  intros Hd. unfold digit_of. rewrite code_chr by lia.
  replace ((48 <=? 48 + d) && (48 + d <=? 57)) with true by lia. f_equal. lia.
Qed.

Lemma parse_digits_app n acc z s :
  parse_digits n acc (digits n z +:+ s) = Some (acc * 10 ^ Z.of_nat n + z mod 10 ^ Z.of_nat n, s).
Proof.
  revert acc. induction n as [|n IH]; intros acc.
  - simpl. rewrite Z.mod_1_r. do 2 f_equal. lia.
  - cbn [digits parse_digits String.append].
    pose proof (Z.mod_pos_bound (z / 10 ^ Z.of_nat n) 10 ltac:(lia)).
    rewrite digit_of_chr by done. cbn [mbind option_bind]. rewrite IH. do 2 f_equal.
    rewrite Nat2Z.inj_succ, Z.pow_succ_r, (Z.mul_comm 10) by lia.
    rewrite Z.rem_mul_r by lia. lia.
Qed.

Lemma parse_digits_small n z s :
  0 <= z < 10 ^ Z.of_nat n -> parse_digits n 0 (digits n z +:+ s) = Some (z, s).
Proof. intros Hz. rewrite parse_digits_app, Z.mod_small by done. done. Qed.

(** Every character of [digits] is a decimal digit. *)
Lemma digits_all n z : all_dec (digits n z) = true.
Proof.
  induction n as [|n IH]; simpl; [done|].
  pose proof (Z.mod_pos_bound (z / 10 ^ Z.of_nat n) 10 ltac:(lia)).
  unfold is_dig. by rewrite digit_of_chr, IH by done.
Qed.

Lemma digit_not a z : 0 <= z < 10 -> is_dig a = false -> Ascii.eqb a (chr (48 + z)) = false.
Proof.
  intros Hz Ha. apply Ascii.eqb_neq. intros ->. unfold is_dig in Ha. by rewrite digit_of_chr in Ha.
Qed.

Lemma dec_no_space s : all_dec s = true -> no_space s = true.
Proof.
  induction s as [|a s IH]; simpl; [done|]. intros [Ha Hs]%andb_true_iff. rewrite IH, andb_true_r by done.
  unfold is_dig, digit_of, is_space in *. destruct ((48 <=? code a) && (code a <=? 57)) eqn:E; [|done]. lia.
Qed.

Lemma digits_no_space n z : no_space (digits n z) = true.
Proof. apply dec_no_space, digits_all. Qed.

Definition no_zone (a : Ascii.ascii) : bool :=
  negb (Ascii.eqb a "+"%char || Ascii.eqb a "-"%char || Ascii.eqb a "Z"%char).

Lemma zone_tail_dec s r : all_dec s = true -> zone_tail (s +:+ r) = zone_tail r.
Proof.
  induction s as [|a s IH]; simpl; [done|]. intros [Ha Hs]%andb_true_iff.
  replace (Ascii.eqb a "+"%char || Ascii.eqb a "-"%char || Ascii.eqb a "Z"%char) with false; [by apply IH|].
  unfold is_dig in Ha. destruct a as [[] [] [] [] [] [] [] []]; vm_compute in Ha; done.
Qed.

Lemma length_digits n z : String.length (digits n z) = n.
Proof. induction n as [|n IH]; simpl; [done|]. by rewrite IH. Qed.

Lemma count_digits_plus s : count_digits (String "+"%char s) = O.
Proof. reflexivity. Qed.

(** ** The round trip *)

Lemma date_length_iso y m d r :
  date_length (date_part y m d +:+ String "T"%char r) = Some 10%nat.
Proof.
  unfold date_length, date_part. rewrite !app_str_assoc.
  rewrite !length_str_app, !length_digits. cbn [String.length].
  rewrite (proj2 (Nat.eqb_neq _ _)) by lia.
  cbn [digits String.append has_at char_at String.get]. unfold has_at, char_at. cbn [String.get].
  rewrite Ascii.eqb_refl.
  rewrite digit_not; [done | apply Z.mod_pos_bound; lia | done].
Qed.

Lemma parse_date_iso y m d r :
  date_ok y m d = true -> parse_date 10 (date_part y m d +:+ r) = Some (y, m, d).
Proof.
  intros H. unfold date_ok in H. rewrite !andb_true_iff, !Z.leb_le in H.
  assert (1 <= y <= 9999 /\ 1 <= m <= 12 /\ 1 <= d <= 31) as (Hy & Hm & Hd).
  { repeat split; try lia. etransitivity; [apply H|].
    rewrite days_in_month_table by lia. assert (m = 1 \/ m = 2 \/ m = 3 \/ m = 4 \/ m = 5 \/ m = 6 \/
      m = 7 \/ m = 8 \/ m = 9 \/ m = 10 \/ m = 11 \/ m = 12) as Hc by lia.
    repeat (destruct Hc as [->|Hc]; [simpl; try destruct (is_leap y); simpl; lia|]).
    subst. simpl. lia. }
  unfold parse_date, date_part. rewrite !app_str_assoc.
  rewrite parse_digits_small by (simpl; lia). cbn [mbind option_bind].
  cbn [String.append Ascii.eqb Bool.eqb str_drop].
  assert (drop_char "W" (digits 2 m +:+ String "-" (digits 2 d +:+ r)) = None) as ->.
  { cbn [digits String.append drop_char]. by rewrite digit_not by first [done | apply Z.mod_pos_bound; lia]. }
  rewrite parse_digits_small by (simpl; lia). cbn [mbind option_bind drop_char Ascii.eqb Bool.eqb].
  rewrite parse_digits_small by (simpl; lia). done.
Qed.

Definition utc_zone : string := "+00:00".

Lemma parse_fields_zone : parse_fields 3 true [] "00:00" 0 = Some ([0; 0], 0, false).
Proof. reflexivity. Qed.

Lemma fraction_digits f :
  0 <= f < us_per_second -> fraction (digits 6 f +:+ utc_zone) 6 = Some (f, true).
Proof.
  intros Hf. unfold fraction. rewrite parse_digits_small by done. cbn [mbind option_bind].
  change (10 ^ (6 - Z.of_nat (Nat.min 6 6))) with 1. by rewrite Z.mul_1_r.
Qed.

Lemma char_app a x : String a "" +:+ x = String a x.
Proof. reflexivity. Qed.
Lemma cons_app a x y : String a x +:+ y = String a (x +:+ y).
Proof. reflexivity. Qed.

Lemma parse_fields_colon i hs acc v q stop :
  0 <= v < 100 -> (stop < String.length q)%nat -> (S i =? 3)%nat || hs = true ->
  parse_fields (S i) hs acc (digits 2 v +:+ String ":"%char q) stop
  = parse_fields i true (acc ++ [v]) q stop.
Proof.
  intros Hv Hl Hs. cbn [parse_fields]. rewrite parse_digits_small by (simpl; lia).
  cbn [mbind option_bind]. cbn [String.length].
  rewrite (proj2 (Nat.leb_gt _ _)) by lia.
  cbn [startswith Ascii.eqb Bool.eqb andb str_drop].
  destruct (S i =? 3)%nat; simpl in Hs; [|rewrite Hs]; by destruct q.
Qed.

Lemma parse_fields_last i hs acc v q stop :
  0 <= v < 100 -> (String.length q <= stop + 1)%nat ->
  parse_fields (S i) hs acc (digits 2 v +:+ q) stop = Some (acc ++ [v], 0, truthy q).
Proof.
  intros Hv Hl. cbn [parse_fields]. rewrite parse_digits_small by (simpl; lia).
  cbn [mbind option_bind]. by rewrite (proj2 (Nat.leb_le _ _)) by lia.
Qed.

Lemma parse_fields_point hs acc v q stop :
  0 <= v < 100 -> (stop < String.length q)%nat ->
  parse_fields 1 hs acc (digits 2 v +:+ String "."%char q) stop
  = ('(f, more) ← fraction q (String.length q - stop); Some (acc ++ [v], f, more)).
Proof.
  intros Hv Hl. cbn [parse_fields]. rewrite parse_digits_small by (simpl; lia).
  cbn [mbind option_bind]. cbn [String.length].
  rewrite (proj2 (Nat.leb_gt _ _)) by lia.
  change (startswith ":" (String "."%char q)) with false.
  change (startswith "." (String "."%char q)) with (startswith "" q).
  rewrite andb_false_r. cbn [orb str_drop startswith].
  replace (S (String.length q) - 1 - stop)%nat with (String.length q - stop)%nat by lia.
  by destruct q.
Qed.

Ltac strlen :=
  repeat first [rewrite length_str_app | rewrite length_digits | progress cbn [String.length utc_zone]];
  lia.

Lemma in_wider a b c x : b <= c -> a <= x < b -> a <= x < c.
Proof. lia. Qed.

Lemma length_time_part us : (8 <= String.length (time_part us))%nat.
Proof. unfold time_part. rewrite !length_str_app, !length_digits. simpl. lia. Qed.

Lemma parse_fields_iso us :
  0 <= us < us_per_day ->
  let s := us / us_per_second in
  parse_fields 3 true [] (time_part us +:+ utc_zone) 6
  = Some ([s / 3600; s / 60 mod 60; s mod 60], us mod us_per_second, true).
Proof.
  intros Hus s. unfold time_part. fold s.
  assert (0 <= s < 86400) as Hs.
  { unfold us_per_day, us_per_second in Hus. split; [apply Z.div_pos; unfold us_per_second; lia|].
    apply Z.div_lt_upper_bound; unfold us_per_second; lia. }
  clearbody s.
  assert (0 <= s / 3600 < 100 /\ 0 <= s / 60 mod 60 < 100 /\ 0 <= s mod 60 < 100) as (H1 & H2 & H3).
  { split; [lia|]. split; eapply in_wider, Z.mod_pos_bound; lia. }
  assert (0 <= us mod us_per_second < us_per_second) as Hf0 by (by apply Z.mod_pos_bound).
  generalize dependent (us mod us_per_second). generalize dependent (s mod 60).
  generalize dependent (s / 60 mod 60). generalize dependent (s / 3600).
  clear. intros h Hh m Hm v Hv f Hf.
  rewrite !app_str_assoc, !char_app.
  rewrite parse_fields_colon;
    [|exact Hh|strlen|reflexivity].
  rewrite parse_fields_colon;
    [|exact Hm|strlen|reflexivity].
  destruct (Z.eqb_spec f 0) as [->|Hf0].
  - rewrite parse_fields_last by (simpl; lia). done.
  - rewrite !cons_app.
    rewrite parse_fields_point;
      [|exact Hv|strlen].
    rewrite length_str_app, length_digits. change (6 + String.length utc_zone - 6)%nat with 6%nat.
    by rewrite fraction_digits.
Qed.

Lemma zone_tail_time us : zone_tail (time_part us +:+ utc_zone) = utc_zone.
Proof.
  unfold time_part. rewrite !app_str_assoc.
  rewrite !zone_tail_dec by apply digits_all. cbn [String.append zone_tail Ascii.eqb Bool.eqb orb].
  rewrite !zone_tail_dec by apply digits_all. cbn [String.append zone_tail Ascii.eqb Bool.eqb orb].
  rewrite !zone_tail_dec by apply digits_all. destruct (_ =? 0); [done|].
  cbn [String.append zone_tail Ascii.eqb Bool.eqb orb]. by rewrite zone_tail_dec by apply digits_all.
Qed.

Lemma parse_time_iso us :
  0 <= us < us_per_day -> parse_time (time_part us +:+ utc_zone) = Some (us, Some 0).
Proof.
  intros Hus. unfold parse_time. rewrite zone_tail_time.
  change (String.length utc_zone) with 6%nat. rewrite parse_fields_iso by done.
  cbn [mbind option_bind].
  set (s := us / us_per_second).
  assert (time_ok [s / 3600; s / 60 mod 60; s mod 60] = true) as ->.
  { unfold time_ok, field. simpl nth. rewrite !andb_true_iff, !Z.ltb_lt.
    unfold us_per_day, us_per_second in *. subst s. lia. }
  cbn [negb utc_zone Ascii.eqb Bool.eqb]. rewrite parse_fields_zone. cbn [mbind option_bind].
  cbn -[us_per_second]. do 2 f_equal. unfold time_us, field. simpl nth.
  unfold us_per_second in *. subst s. lia.
Qed.

Lemma date_part_no_space y m d : no_space (date_part y m d) = true.
Proof. unfold date_part. by rewrite !no_space_app, !digits_no_space. Qed.
Lemma time_part_no_space us : no_space (time_part us) = true.
Proof.
  unfold time_part. rewrite !no_space_app, !digits_no_space.
  destruct (_ =? 0); [done|]. by rewrite no_space_app, digits_no_space.
Qed.

(** The text of an instant denotes that instant. *)
Lemma parse_utc_iso t : dt_valid t = true -> parse_utc (isoformat_z t) = Ok t.
Proof.
  unfold dt_valid. rewrite andb_true_iff, Z.leb_le, Z.ltb_lt. intros Ht.
  assert (1 <= t / us_per_day + 1 <= max_ordinal) as Ho.
  { unfold us_per_day, us_per_second, max_ordinal in *. lia. }
  pose proof (ord2ymd_spec _ Ho) as Hd. unfold parse_utc, isoformat_z, isoformat_body.
  destruct (ord2ymd (t / us_per_day + 1)) as [[y m] d]. destruct Hd as [Hok Hord].
  set (us := t mod us_per_day).
  assert (0 <= us < us_per_day) as Hus by (apply Z.mod_pos_bound; done).
  set (body := date_part y m d +:+ "T" +:+ time_part us).
  rewrite strip_no_space by (unfold body;
    by rewrite !no_space_app, date_part_no_space, time_part_no_space).
  rewrite endswith_app, length_str_app.
  replace (String.length body + String.length "Z" - 1)%nat with (String.length body) by (simpl; lia).
  rewrite str_take_app. unfold fromisoformat.
  assert (String.length (date_part y m d) = 10%nat) as Hl.
  { unfold date_part. rewrite !length_str_app, !length_digits. done. }
  rewrite (proj2 (Nat.ltb_ge _ _)).
  2:{ unfold body. rewrite !length_str_app, Hl. lia. }
  unfold body. rewrite !app_str_assoc. rewrite char_app.
  rewrite date_length_iso. cbn [mbind option_bind]. rewrite parse_date_iso by done.
  cbn [mbind option_bind]. rewrite Hok. cbn [negb].
  rewrite (proj2 (Nat.ltb_lt _ _)) by (rewrite length_str_app, Hl; simpl; lia).
  change (str_drop (10 + 1)) with (str_drop 11).
  assert (str_drop 11 (date_part y m d +:+ String "T"%char (time_part us +:+ "+00:00"))
    = time_part us +:+ utc_zone) as ->.
  { rewrite <- char_app. rewrite <- app_str_assoc.
    replace 11%nat with (String.length (date_part y m d +:+ "T")) by (rewrite length_str_app, Hl; done).
    apply str_drop_app. }
  rewrite parse_time_iso by done. cbn [mbind option_bind].
  assert ((ymd2ord y m d - 1) * us_per_day + us = t) as ->.
  { unfold us. rewrite Hord. pose proof (Z.div_mod t us_per_day ltac:(done)). lia. }
  unfold dt_add. change (- 0) with 0. rewrite Z.add_0_r. unfold dt_valid.
  by replace ((0 <=? t) && (t <? max_ordinal * us_per_day)) with true by lia.
Qed.
#[export] Hint Resolve parse_utc_iso : nico.
#[export] Hint Rewrite parse_utc_iso using done : nico.
