(* ===== verification/MonitorContract.v ===== *)
(** * The oversight work item (nico/monitor_execute_contract.py)

    A monitored finding becomes a work item that is proposed, approved,
    executed and verified.  Every operation of the source is a function from an
    item and the keyword arguments to the next item or the exception; [now] is
    the string [_utc_now()] returns at the call.  [step] is the relation the
    operations span and [reachable] the items a client can obtain. *)

From S2P Require Import Prelude PyStr Sha256 PyFloat Json.

Inductive WorkItemState :=
  | OBSERVED | PROPOSED | APPROVED | EXECUTING | VERIFYING | CLOSED | BLOCKED | REJECTED.
#[export] Instance WorkItemState_eq_dec : EqDecision WorkItemState.
Proof. solve_decision. Defined.

(** [state.value] *)
Definition state_value (s : WorkItemState) : string :=
  match s with
  | OBSERVED => "observed" | PROPOSED => "proposed" | APPROVED => "approved"
  | EXECUTING => "executing" | VERIFYING => "verifying" | CLOSED => "closed"
  | BLOCKED => "blocked" | REJECTED => "rejected"
  end.

Record OversightIdentity := mkIdentity {
  work_item_id : string;
  repository : string;
  immutable_sha : string;
  customer_id : string;
  project_id : string;
  evidence_id : string }.

Record RemediationProposal := mkProposal {
  proposal_id : string;
  finding_id : string;
  title : string;
  rationale : string;
  smallest_reversible_change : string;
  affected_paths : list string;
  verification_plan : string;
  rollback_plan : string;
  risk_level : string;
  requested_by : string;
  created_at : string;
  production_impacting : bool }.

Record ApprovalRecord := mkApproval {
  ap_proposal_id : string;
  approver_id : string;
  approved : bool;
  scope : list string;
  approved_at : string;
  expires_at : string;
  reason : string;
  approval_sha256 : string }.

Record ExecutionRecord := mkExecution {
  ex_proposal_id : string;
  executor_id : string;
  started_at : string;
  completed_at : string;
  before_sha : string;
  after_sha : string;
  changed_paths : list string;
  command_fingerprint : string;
  outcome : string;
  logs_fingerprint : string }.

Record VerificationRecord := mkVerification {
  ve_proposal_id : string;
  verifier_id : string;
  verified_at : string;
  passed : bool;
  exact_sha : string;
  checks : list string;
  evidence_fingerprint : string;
  residual_risk : string }.

Record OversightWorkItem := mkItem {
  identity : OversightIdentity;
  state : WorkItemState;
  finding : dict;
  proposal : option RemediationProposal;
  approval : option ApprovalRecord;
  execution : option ExecutionRecord;
  verification : option VerificationRecord;
  human_review_required : bool;
  client_delivery_allowed : bool;
  revision : Z }.

#[export] Instance OversightIdentity_eq_dec : EqDecision OversightIdentity.
Proof. solve_decision. Defined.
#[export] Instance RemediationProposal_eq_dec : EqDecision RemediationProposal.
Proof. solve_decision. Defined.
#[export] Instance ApprovalRecord_eq_dec : EqDecision ApprovalRecord.
Proof. solve_decision. Defined.
#[export] Instance ExecutionRecord_eq_dec : EqDecision ExecutionRecord.
Proof. solve_decision. Defined.
#[export] Instance VerificationRecord_eq_dec : EqDecision VerificationRecord.
Proof. solve_decision. Defined.
#[export] Instance OversightWorkItem_eq_dec : EqDecision OversightWorkItem.
Proof. solve_decision. Defined.

Definition merr {A} (m : string) : res A := fail MonitorExecuteError m.

Definition _required (value code : string) : res string := required_as MonitorExecuteError value code.
Definition _digest (parts : list string) : string := pipe_digest parts.

Definition create_work_item (work_item_id repository immutable_sha customer_id project_id
    evidence_id : string) (finding : dict) : res OversightWorkItem :=
  wid ← _required work_item_id "monitor_work_item_id_required";
  repo ← _required repository "monitor_repository_required";
  sha ← _required immutable_sha "monitor_immutable_sha_required";
  cust ← _required customer_id "monitor_customer_id_required";
  proj ← _required project_id "monitor_project_id_required";
  evid ← _required evidence_id "monitor_evidence_id_required";
  match finding with
  | [] => merr "monitor_finding_required"
  | _ => Ok (mkItem (mkIdentity wid repo sha cust proj evid) OBSERVED finding
               None None None None true false 1)
  end.

(** [tuple(dict.fromkeys(_required(x, code) for x in l))] *)
Definition required_unique (l : list string) (code : string) : res (list string) :=
  xs ← mapR (fun x => _required x code) l; Ok (dict_fromkeys xs).

Definition propose_remediation (now : string) (item : OversightWorkItem)
    (proposal_id finding_id title rationale smallest_reversible_change : string)
    (affected_paths : list string)
    (verification_plan rollback_plan risk_level requested_by : string)
    (production_impacting : bool) (created_at : string) : res OversightWorkItem :=
  if negb (bool_decide (state item = OBSERVED)) then merr "monitor_proposal_invalid_state"
  else
    paths ← required_unique affected_paths "monitor_affected_path_invalid";
    if bool_decide (paths = []) then merr "monitor_affected_paths_required"
    else
      pid ← _required proposal_id "monitor_proposal_id_required";
      fid ← _required finding_id "monitor_finding_id_required";
      ti ← _required title "monitor_proposal_title_required";
      ra ← _required rationale "monitor_proposal_rationale_required";
      ch ← _required smallest_reversible_change "monitor_reversible_change_required";
      vp ← _required verification_plan "monitor_verification_plan_required";
      rp ← _required rollback_plan "monitor_rollback_plan_required";
      rl ← _required risk_level "monitor_risk_level_required";
      rq ← _required requested_by "monitor_requester_required";
      let p := mkProposal pid fid ti ra ch paths vp rp rl rq (str_or created_at now)
                 production_impacting in
      Ok (mkItem (identity item) PROPOSED (finding item) (Some p) (approval item)
            (execution item) (verification item) (human_review_required item)
            (client_delivery_allowed item) (revision item + 1)).

Definition record_approval (now : string) (item : OversightWorkItem)
    (approver_id : string) (approved : bool) (scope : list string)
    (reason approved_at expires_at : string) : res OversightWorkItem :=
  match bool_decide (state item = PROPOSED), proposal item with
  | true, Some p =>
      normalized_scope ← required_unique scope "monitor_approval_scope_invalid";
      if approved && bool_decide (normalized_scope = []) then merr "monitor_approval_scope_required"
      else
        let timestamp := str_or approved_at now in
        approver ← _required approver_id "monitor_approver_required";
        rsn ← _required reason "monitor_approval_reason_required";
        let record := mkApproval (proposal_id p) approver approved normalized_scope timestamp
          (strip expires_at) rsn
          (_digest [proposal_id p; approver_id; str_of_bool approved; join "," normalized_scope;
                    timestamp; expires_at]) in
        Ok (mkItem (identity item) (if approved then APPROVED else REJECTED) (finding item)
              (proposal item) (Some record) (execution item) (verification item)
              (human_review_required item) (client_delivery_allowed item) (revision item + 1))
  | _, _ => merr "monitor_approval_invalid_state"
  end.

Definition begin_execution (item : OversightWorkItem) (executor_id : string)
    (requested_paths : list string) (current_sha : string) : res OversightWorkItem :=
  match bool_decide (state item = APPROVED), proposal item, approval item with
  | true, Some p, Some a =>
      if negb (approved a) then merr "monitor_execution_approval_rejected"
      else if negb (String.eqb current_sha (immutable_sha (identity item)))
      then merr "monitor_execution_snapshot_drift"
      else if bool_decide (requested_paths = []) || negb (issubset requested_paths (affected_paths p))
      then merr "monitor_execution_outside_proposal_scope"
      else if negb (issubset requested_paths (scope a))
      then merr "monitor_execution_outside_approval_scope"
      else
        _ ← _required executor_id "monitor_executor_required";
        Ok (mkItem (identity item) EXECUTING (finding item) (proposal item) (approval item)
              (execution item) (verification item) (human_review_required item)
              (client_delivery_allowed item) (revision item + 1))
  | _, _, _ => merr "monitor_execution_requires_approval"
  end.

Definition record_execution (item : OversightWorkItem)
    (executor_id before_sha after_sha : string) (changed_paths : list string)
    (command_fingerprint outcome logs_fingerprint started_at completed_at : string)
    : res OversightWorkItem :=
  match bool_decide (state item = EXECUTING), proposal item, approval item with
  | true, Some p, Some a =>
      if negb (String.eqb before_sha (immutable_sha (identity item)))
      then merr "monitor_execution_before_sha_mismatch"
      else
        let paths := dict_fromkeys changed_paths in
        if bool_decide (paths = []) || negb (issubset paths (scope a))
        then merr "monitor_execution_changed_paths_outside_scope"
        else
          ex ← _required executor_id "monitor_executor_required";
          st ← _required started_at "monitor_execution_started_at_required";
          co ← _required completed_at "monitor_execution_completed_at_required";
          bs ← _required before_sha "monitor_execution_before_sha_required";
          af ← _required after_sha "monitor_execution_after_sha_required";
          cf ← _required command_fingerprint "monitor_command_fingerprint_required";
          oc ← _required outcome "monitor_execution_outcome_required";
          lf ← _required logs_fingerprint "monitor_logs_fingerprint_required";
          let record := mkExecution (proposal_id p) ex st co bs af paths cf oc lf in
          Ok (mkItem (identity item) (if String.eqb outcome "success" then VERIFYING else BLOCKED)
                (finding item) (proposal item) (approval item) (Some record) (verification item)
                (human_review_required item) (client_delivery_allowed item) (revision item + 1))
  | _, _, _ => merr "monitor_execution_record_invalid_state"
  end.

Definition record_verification (now : string) (item : OversightWorkItem)
    (verifier_id : string) (passed : bool) (exact_sha : string) (checks : list string)
    (evidence_fingerprint residual_risk verified_at : string) : res OversightWorkItem :=
  match bool_decide (state item = VERIFYING), execution item, proposal item with
  | true, Some e, Some p =>
      if negb (String.eqb exact_sha (after_sha e)) then merr "monitor_verification_sha_mismatch"
      else
        normalized_checks ← required_unique checks "monitor_verification_check_invalid";
        if bool_decide (normalized_checks = []) then merr "monitor_verification_checks_required"
        else
          vid ← _required verifier_id "monitor_verifier_required";
          ef ← _required evidence_fingerprint "monitor_verification_evidence_required";
          rr ← _required residual_risk "monitor_residual_risk_required";
          let v := mkVerification (proposal_id p) vid (str_or verified_at now) passed exact_sha
                     normalized_checks ef rr in
          Ok (mkItem (identity item) (if passed then CLOSED else BLOCKED) (finding item)
                (proposal item) (approval item) (execution item) (Some v)
                (human_review_required item) (client_delivery_allowed item) (revision item + 1))
  | _, _, _ => merr "monitor_verification_invalid_state"
  end.

(** ** safe_work_item: the document of an item *)

Definition jstrs (l : list string) : json := JArr (map JStr l).

Definition identity_json (i : OversightIdentity) : json := JObj
  [("work_item_id", JStr (work_item_id i)); ("repository", JStr (repository i));
   ("immutable_sha", JStr (immutable_sha i)); ("customer_id", JStr (customer_id i));
   ("project_id", JStr (project_id i)); ("evidence_id", JStr (evidence_id i))].

Definition proposal_json (p : RemediationProposal) : json := JObj
  [("proposal_id", JStr (proposal_id p)); ("finding_id", JStr (finding_id p));
   ("title", JStr (title p)); ("rationale", JStr (rationale p));
   ("smallest_reversible_change", JStr (smallest_reversible_change p));
   ("affected_paths", jstrs (affected_paths p));
   ("verification_plan", JStr (verification_plan p)); ("rollback_plan", JStr (rollback_plan p));
   ("risk_level", JStr (risk_level p)); ("requested_by", JStr (requested_by p));
   ("created_at", JStr (created_at p)); ("production_impacting", JBool (production_impacting p))].

Definition approval_json (a : ApprovalRecord) : json := JObj
  [("proposal_id", JStr (ap_proposal_id a)); ("approver_id", JStr (approver_id a));
   ("approved", JBool (approved a)); ("scope", jstrs (scope a));
   ("approved_at", JStr (approved_at a)); ("expires_at", JStr (expires_at a));
   ("reason", JStr (reason a)); ("approval_sha256", JStr (approval_sha256 a))].

Definition execution_json (e : ExecutionRecord) : json := JObj
  [("proposal_id", JStr (ex_proposal_id e)); ("executor_id", JStr (executor_id e));
   ("started_at", JStr (started_at e)); ("completed_at", JStr (completed_at e));
   ("before_sha", JStr (before_sha e)); ("after_sha", JStr (after_sha e));
   ("changed_paths", jstrs (changed_paths e));
   ("command_fingerprint", JStr (command_fingerprint e)); ("outcome", JStr (outcome e));
   ("logs_fingerprint", JStr (logs_fingerprint e))].

Definition verification_json (v : VerificationRecord) : json := JObj
  [("proposal_id", JStr (ve_proposal_id v)); ("verifier_id", JStr (verifier_id v));
   ("verified_at", JStr (verified_at v)); ("passed", JBool (passed v));
   ("exact_sha", JStr (exact_sha v)); ("checks", jstrs (checks v));
   ("evidence_fingerprint", JStr (evidence_fingerprint v));
   ("residual_risk", JStr (residual_risk v))].

Definition opt_json {A} (f : A -> json) (o : option A) : json :=
  match o with None => JNull | Some a => f a end.

Definition safe_work_item (item : OversightWorkItem) : dict :=
  [("identity", identity_json (identity item));
   ("state", JStr (state_value (state item)));
   ("finding", JObj (finding item));
   ("proposal", opt_json proposal_json (proposal item));
   ("approval", opt_json approval_json (approval item));
   ("execution", opt_json execution_json (execution item));
   ("verification", opt_json verification_json (verification item));
   ("human_review_required", JBool true);
   ("client_delivery_allowed", JBool false);
   ("production_execution_requires_explicit_approval", JBool true);
   ("revision", JInt (revision item))].

(** ** The operations as one step relation *)

Inductive op :=
  | Propose (now pid fid ti ra ch : string) (paths : list string) (vp rp rl rq : string)
      (prod : bool) (created : string)
  | Approve (now approver : string) (ok : bool) (scope : list string) (reason at_ expires : string)
  | Begin (executor : string) (paths : list string) (sha : string)
  | Execute (executor before after : string) (paths : list string)
      (cmd outcome logs started completed : string)
  | Verify (now verifier : string) (ok : bool) (sha : string) (checks : list string)
      (evidence risk at_ : string).

Definition apply_op (o : op) (i : OversightWorkItem) : res OversightWorkItem :=
  match o with
  | Propose now pid fid ti ra ch paths vp rp rl rq prod created =>
      propose_remediation now i pid fid ti ra ch paths vp rp rl rq prod created
  | Approve now approver ok sc reason at_ expires =>
      record_approval now i approver ok sc reason at_ expires
  | Begin executor paths sha => begin_execution i executor paths sha
  | Execute executor before after paths cmd oc logs started completed =>
      record_execution i executor before after paths cmd oc logs started completed
  | Verify now verifier ok sha cs evidence risk at_ =>
      record_verification now i verifier ok sha cs evidence risk at_
  end.

Definition step (i j : OversightWorkItem) : Prop := exists o, apply_op o i = Ok j.

Inductive reachable : OversightWorkItem -> Prop :=
  | reach_create wid repo sha cust proj evid finding i :
      create_work_item wid repo sha cust proj evid finding = Ok i -> reachable i
  | reach_step i j : reachable i -> step i j -> reachable j.

(** The edges of the life cycle. *)
Definition edge (s t : WorkItemState) : bool :=
  match s, t with
  | OBSERVED, PROPOSED | PROPOSED, APPROVED | PROPOSED, REJECTED | APPROVED, EXECUTING
  | EXECUTING, VERIFYING | EXECUTING, BLOCKED | VERIFYING, CLOSED | VERIFYING, BLOCKED => true
  | _, _ => false
  end.

Lemma required_unique_ok l c ys :
  required_unique l c = Ok ys -> NoDup ys /\ Forall normalized ys /\ (ys = [] <-> l = []).
Proof.
  unfold required_unique. intros H. inv_ok. apply mapR_ok in Hv.
  assert (Forall normalized v) as Hn.
  { induction Hv as [|x y l' k Hxy _ IH]; constructor; [|done]. by apply required_ok in Hxy as [? _]. }
  split; [apply NoDup_dict_fromkeys|]. split.
  - rewrite Forall_forall in Hn |- *. intros y. rewrite elem_dict_fromkeys. auto.
  - rewrite dict_fromkeys_nil. split; intros ->; by inversion Hv.
Qed.

(** ** The facts an operation establishes

    [op_*] are the inversion lemmas of the operations: the guards that held and
    the item that results. *)

Definition set_proposal (i : OversightWorkItem) (p : RemediationProposal) : OversightWorkItem :=
  mkItem (identity i) PROPOSED (finding i) (Some p) (approval i) (execution i) (verification i)
    (human_review_required i) (client_delivery_allowed i) (revision i + 1).
Definition set_approval (i : OversightWorkItem) (a : ApprovalRecord) : OversightWorkItem :=
  mkItem (identity i) (if approved a then APPROVED else REJECTED) (finding i) (proposal i) (Some a)
    (execution i) (verification i) (human_review_required i) (client_delivery_allowed i)
    (revision i + 1).
Definition set_executing (i : OversightWorkItem) : OversightWorkItem :=
  mkItem (identity i) EXECUTING (finding i) (proposal i) (approval i) (execution i) (verification i)
    (human_review_required i) (client_delivery_allowed i) (revision i + 1).
Definition set_execution (i : OversightWorkItem) (e : ExecutionRecord) (s : WorkItemState)
    : OversightWorkItem :=
  mkItem (identity i) s (finding i) (proposal i) (approval i) (Some e) (verification i)
    (human_review_required i) (client_delivery_allowed i) (revision i + 1).
Definition set_verification (i : OversightWorkItem) (v : VerificationRecord) : OversightWorkItem :=
  mkItem (identity i) (if passed v then CLOSED else BLOCKED) (finding i) (proposal i) (approval i)
    (execution i) (Some v) (human_review_required i) (client_delivery_allowed i) (revision i + 1).

Definition proposal_wf (p : RemediationProposal) : Prop :=
  normalized (proposal_id p) /\ NoDup (affected_paths p) /\ affected_paths p <> [] /\
  Forall normalized (affected_paths p) /\ normalized (verification_plan p) /\
  normalized (rollback_plan p) /\ normalized (requested_by p).

Lemma op_propose now i pid fid ti ra ch paths vp rp rl rq prod created j :
  propose_remediation now i pid fid ti ra ch paths vp rp rl rq prod created = Ok j ->
  state i = OBSERVED /\ exists p, proposal_wf p /\ j = set_proposal i p.
Proof.
  unfold propose_remediation, merr. intros H. inv_ok.
  apply negb_false_iff, bool_decide_eq_true in Hb. apply bool_decide_eq_false in Hb0.
  apply required_unique_ok in Hv as (Hd & Hn & _).
  repeat match goal with H : _required _ _ = Ok _ |- _ => apply required_ok in H as [? _] end.
  split; [done|]. eexists. split; [|reflexivity]. unfold proposal_wf; simpl. by split_and!.
Qed.

Definition approval_wf (p : RemediationProposal) (a : ApprovalRecord) : Prop :=
  ap_proposal_id a = proposal_id p /\ normalized (approver_id a) /\ normalized (reason a) /\
  NoDup (scope a) /\ Forall normalized (scope a) /\ (approved a = true -> scope a <> []) /\
  normalized (approval_sha256 a).

Lemma op_approve now i approver ok sc reason at_ expires j :
  record_approval now i approver ok sc reason at_ expires = Ok j ->
  state i = PROPOSED /\ exists p a, proposal i = Some p /\ approval_wf p a /\ approved a = ok /\
    j = set_approval i a.
Proof.
  unfold record_approval, merr. intros H.
  destruct (bool_decide _) eqn:Hs; [|discriminate]. apply bool_decide_eq_true in Hs.
  destruct (proposal i) as [p|] eqn:Hp; [|discriminate]. inv_ok.
  apply required_unique_ok in Hv as (Hd & Hn & _).
  repeat match goal with H : _required _ _ = Ok _ |- _ => apply required_ok in H as [? _] end.
  split; [done|]. eexists p, (mkApproval _ _ _ _ _ _ _ _). split; [done|].
  split; [|split; [|unfold set_approval; rewrite Hp; reflexivity]]; [|done].
  unfold approval_wf; simpl. split_and!; try done; [|apply pipe_digest_normalized].
  intros ->. simpl in Hb. by apply bool_decide_eq_false in Hb.
Qed.

Lemma op_begin i executor paths sha j :
  begin_execution i executor paths sha = Ok j ->
  state i = APPROVED /\ exists p a, proposal i = Some p /\ approval i = Some a /\
    approved a = true /\ sha = immutable_sha (identity i) /\ paths <> [] /\
    (forall x, x ∈ paths -> x ∈ affected_paths p /\ x ∈ scope a) /\ j = set_executing i.
Proof.
  unfold begin_execution, merr. intros H.
  destruct (bool_decide _) eqn:Hs; [|discriminate]. apply bool_decide_eq_true in Hs.
  destruct (proposal i) as [p|] eqn:Hp; [|discriminate].
  destruct (approval i) as [a|] eqn:Ha; [|discriminate]. inv_ok.
  apply negb_false_iff in Hb, Hb0, Hb2. apply orb_false_iff in Hb1 as [Hn Hsub%negb_false_iff].
  apply String.eqb_eq in Hb0. apply bool_decide_eq_false in Hn.
  rewrite issubset_spec in Hsub, Hb2.
  split; [done|]. exists p, a. split_and!; eauto.
  unfold set_executing. by rewrite Hp, Ha.
Qed.

Lemma op_execute i executor before after paths cmd oc logs started completed j :
  record_execution i executor before after paths cmd oc logs started completed = Ok j ->
  state i = EXECUTING /\ exists p a e, proposal i = Some p /\ approval i = Some a /\
    ex_proposal_id e = proposal_id p /\ before = immutable_sha (identity i) /\
    before_sha e = join " " (split before) /\ normalized (after_sha e) /\
    changed_paths e <> [] /\ (forall x, x ∈ changed_paths e <-> x ∈ paths) /\
    (forall x, x ∈ changed_paths e -> x ∈ scope a) /\
    j = set_execution i e (if String.eqb oc "success" then VERIFYING else BLOCKED) /\
    (oc = "success" -> outcome e = "success").
Proof.
  unfold record_execution, merr. intros H.
  destruct (bool_decide _) eqn:Hs; [|discriminate]. apply bool_decide_eq_true in Hs.
  destruct (proposal i) as [p|] eqn:Hp; [|discriminate].
  destruct (approval i) as [a|] eqn:Ha; [|discriminate]. inv_ok.
  apply negb_false_iff, String.eqb_eq in Hb. apply orb_false_iff in Hb0 as [Hn Hsub%negb_false_iff].
  apply bool_decide_eq_false in Hn. rewrite issubset_spec in Hsub.
  repeat match goal with H : _required _ _ = Ok _ |- _ => apply required_ok in H as [? ?] end.
  split; [done|].
  match goal with |- context [Some (mkExecution ?a1 ?a2 ?a3 ?a4 ?a5 ?a6 ?a7 ?a8 ?a9 ?b1)] =>
    exists p, a, (mkExecution a1 a2 a3 a4 a5 a6 a7 a8 a9 b1) end.
  split_and!; simpl; try done.
  - intros x. by rewrite elem_dict_fromkeys.
  - unfold set_execution. by rewrite Hp, Ha.
  - intros ->. by subst.
Qed.

Lemma op_verify now i verifier ok sha cs evidence risk at_ j :
  record_verification now i verifier ok sha cs evidence risk at_ = Ok j ->
  state i = VERIFYING /\ exists p e v, proposal i = Some p /\ execution i = Some e /\
    ve_proposal_id v = proposal_id p /\ exact_sha v = after_sha e /\ checks v <> [] /\
    NoDup (checks v) /\ normalized (verifier_id v) /\ normalized (evidence_fingerprint v) /\
    passed v = ok /\ j = set_verification i v.
Proof.
  unfold record_verification, merr. intros H.
  destruct (bool_decide _) eqn:Hs; [|discriminate]. apply bool_decide_eq_true in Hs.
  destruct (execution i) as [e|] eqn:He; [|discriminate].
  destruct (proposal i) as [p|] eqn:Hp; [|discriminate]. inv_ok.
  apply negb_false_iff, String.eqb_eq in Hb. apply bool_decide_eq_false in Hb0.
  apply required_unique_ok in Hv as (Hd & _ & _).
  repeat match goal with H : _required _ _ = Ok _ |- _ => apply required_ok in H as [? _] end.
  split; [done|].
  match goal with |- context [Some (mkVerification ?a1 ?a2 ?a3 ?a4 ?a5 ?a6 ?a7 ?a8)] =>
    exists p, e, (mkVerification a1 a2 a3 a4 a5 a6 a7 a8) end.
  split_and!; simpl; try done. unfold set_verification. by rewrite He, Hp.
Qed.

(** Every step follows an edge of the life cycle, counts one revision and
    keeps the identity, the finding and the two release flags. *)
Lemma step_frame i j :
  step i j ->
  edge (state i) (state j) = true /\ revision j = revision i + 1 /\ identity j = identity i /\
  finding j = finding i /\ human_review_required j = human_review_required i /\
  client_delivery_allowed j = client_delivery_allowed i.
Proof.
  intros [o H]. destruct o; simpl in H.
  - apply op_propose in H as (-> & p & _ & ->). done.
  - apply op_approve in H as (-> & p & a & _ & _ & _ & ->). simpl. by destruct (approved a).
  - apply op_begin in H as (-> & p & a & H). destruct H as (_ & _ & _ & _ & _ & _ & ->). done.
  - apply op_execute in H as (-> & p & a & e & H).
    destruct H as (_ & _ & _ & _ & _ & _ & _ & _ & _ & -> & _). simpl. by destruct (String.eqb _ _).
  - apply op_verify in H as (-> & p & e & v & H).
    destruct H as (_ & _ & _ & _ & _ & _ & _ & _ & _ & ->). simpl. by destruct (passed v).
Qed.

(** ** The invariant of reachable items *)

Definition approved_by (i : OversightWorkItem) (ok : bool) : Prop :=
  exists p a, proposal i = Some p /\ proposal_wf p /\ approval i = Some a /\ approval_wf p a /\
    approved a = ok.

Definition executed (i : OversightWorkItem) (e : ExecutionRecord) : Prop :=
  execution i = Some e /\ before_sha e = immutable_sha (identity i) /\ normalized (after_sha e) /\
  changed_paths e <> [] /\
  exists p a, proposal i = Some p /\ approval i = Some a /\ approved a = true /\
    ex_proposal_id e = proposal_id p /\ (forall x, x ∈ changed_paths e -> x ∈ scope a).

Definition verified (i : OversightWorkItem) (e : ExecutionRecord) (ok : bool) : Prop :=
  exists v, verification i = Some v /\ passed v = ok /\ exact_sha v = after_sha e /\
    checks v <> [] /\ NoDup (checks v) /\ normalized (verifier_id v) /\
    normalized (evidence_fingerprint v).

Definition identity_wf (d : OversightIdentity) : Prop :=
  Forall normalized [work_item_id d; repository d; immutable_sha d; customer_id d; project_id d;
    evidence_id d].

(** What an item records in each state of its life cycle. *)
Definition phase (i : OversightWorkItem) : Prop :=
  match state i with
  | OBSERVED => proposal i = None /\ approval i = None /\ execution i = None /\ verification i = None /\
                revision i = 1
  | PROPOSED => (exists p, proposal i = Some p /\ proposal_wf p) /\ approval i = None /\
                execution i = None /\ verification i = None /\ revision i = 2
  | REJECTED => approved_by i false /\ execution i = None /\ verification i = None /\ revision i = 3
  | APPROVED => approved_by i true /\ execution i = None /\ verification i = None /\ revision i = 3
  | EXECUTING => approved_by i true /\ execution i = None /\ verification i = None /\ revision i = 4
  | VERIFYING => approved_by i true /\ (exists e, executed i e /\ outcome e = "success") /\
                 verification i = None /\ revision i = 5
  | CLOSED => approved_by i true /\
              (exists e, executed i e /\ outcome e = "success" /\ verified i e true) /\ revision i = 6
  | BLOCKED => approved_by i true /\
               ((exists e, executed i e) /\ verification i = None /\ revision i = 5 \/
                (exists e, executed i e /\ outcome e = "success" /\ verified i e false) /\ revision i = 6)
  end.

Definition item_inv (i : OversightWorkItem) : Prop :=
  identity_wf (identity i) /\ finding i <> [] /\ human_review_required i = true /\
  client_delivery_allowed i = false /\ phase i.

Lemma create_inv wid repo sha cust proj evid fnd i :
  create_work_item wid repo sha cust proj evid fnd = Ok i -> item_inv i.
Proof.
  unfold create_work_item, merr. intros H. inv_ok.
  repeat match goal with H : _required _ _ = Ok _ |- _ => apply required_ok in H as [? _] end.
  split_and!; try done.
  unfold identity_wf. simpl. repeat (constructor; [done|]). constructor.
Qed.

Lemma phase_step i j : item_inv i -> step i j -> phase j.
Proof.
  intros (Hid & _ & _ & _ & Hi) [o H]. destruct o; simpl in H.
  - apply op_propose in H as (Hs & p & Hp & ->). unfold phase in *. rewrite Hs in Hi. simpl.
    destruct Hi as (_ & ? & ? & ? & ?). split_and!; eauto; lia.
  - apply op_approve in H as (Hs & p & a & Hp & Ha & <- & ->). unfold phase in *. rewrite Hs in Hi.
    destruct Hi as ((p' & Hp' & Hwf) & _ & ? & ? & ?). rewrite Hp in Hp'. injection Hp' as <-.
    destruct (approved a) eqn:Hok; simpl; rewrite Hok; split_and!; try done; try lia; by exists p, a.
  - apply op_begin in H as (Hs & p & a & H). destruct H as (_ & _ & _ & _ & _ & _ & ->).
    unfold phase in *. rewrite Hs in Hi. simpl. destruct Hi as (? & ? & ? & ?). split_and!; auto; lia.
  - apply op_execute in H as (Hs & p & a & e & H).
    destruct H as (Hp & Ha & Hpe & Hb & Hbe & Haf & Hne & _ & Hsc & -> & Hoc).
    unfold phase in *. rewrite Hs in Hi. destruct Hi as (Hap & _ & Hv & Hr).
    assert (forall s, executed (set_execution i e s) e) as Hex.
    { intros s. unfold executed. simpl. split; [done|]. split.
      - rewrite Hbe, Hb. unfold identity_wf in Hid. rewrite !Forall_cons in Hid. apply Hid.
      - destruct Hap as (p' & a' & Hp' & _ & Ha' & _ & Hok). split_and!; try done.
        exists p, a. rewrite Ha in Ha'. injection Ha' as <-. by split_and!. }
    destruct (String.eqb_spec outcome0 "success") as [->|]; simpl.
    + split_and!; [done| |done|lia]. exists e. auto.
    + split; [done|]. left. split_and!; [eauto|done|lia].
  - apply op_verify in H as (Hs & p & e & v & H).
    destruct H as (Hp & He & Hpv & Hsha & Hch & Hnd & Hvf & Hev & <- & ->).
    unfold phase in *. rewrite Hs in Hi. destruct Hi as (Hap & (e' & Hex & Hoc) & Hv & Hr).
    assert (e' = e) as -> by (destruct Hex as [Hex _]; congruence).
    assert (verified (set_verification i v) e (passed v)) as Hver by (exists v; by split_and!).
    destruct (passed v) eqn:Hok; simpl; rewrite Hok; split; try done.
    + split; [|lia]. exists e. by split_and!.
    + right. split; [|lia]. exists e. by split_and!.
Qed.

Lemma reachable_inv i : reachable i -> item_inv i.
Proof.
  induction 1 as [wid repo sha cust proj evid fnd i H | i j _ IH H].
  - by eapply create_inv.
  - pose proof (step_frame _ _ H) as (_ & _ & Hid & Hf & Hh & Hc).
    pose proof (phase_step _ _ IH H) as Hp. destruct IH as (H1 & H2 & H3 & H4 & _).
    unfold item_inv. rewrite Hid, Hf, Hh, Hc. by split_and!.
Qed.

Lemma reachable_nsteps i n j : reachable i -> nsteps step n i j -> reachable j.
Proof. intros Hi Hn. induction Hn; [done|]. apply IHHn. by eapply reach_step. Qed.

Lemma nsteps_revision i n j : nsteps step n i j -> revision j = revision i + Z.of_nat n.
Proof.
  induction 1 as [|n i k j H _ IH]; [lia|]. apply step_frame in H as (_ & H & _). lia.
Qed.

Lemma phase_revision i : phase i -> 1 <= revision i <= 6.
Proof. unfold phase. destruct (state i); lia. Qed.

(** Running a list of operations; what runs is reachable. *)
Definition run (ops : list op) (r : res OversightWorkItem) : res OversightWorkItem :=
  fold_left (fun r o => i ← r; apply_op o i) ops r.

Lemma run_raise ops e : run ops (Raise e) = Raise e.
Proof. by induction ops. Qed.

Lemma run_nsteps ops i j : run ops (Ok i) = Ok j -> nsteps step (length ops) i j.
Proof.
  revert i. induction ops as [|o ops IH]; simpl; intros i H; [injection H as ->; constructor|].
  destruct (apply_op o i) as [k|e] eqn:Hk; [|by rewrite run_raise in H].
  econstructor; [by exists o | by apply IH].
Qed.

Lemma run_reachable ops wid repo sha cust proj evid fnd j :
  run ops (create_work_item wid repo sha cust proj evid fnd) = Ok j -> reachable j.
Proof.
  destruct (create_work_item _ _ _ _ _ _ _) as [i|e] eqn:Hi; [|by rewrite run_raise].
  intros H%run_nsteps. eapply reachable_nsteps; [|done]. by eapply reach_create.
Qed.

(** A life cycle run on concrete inputs, for the witnesses. *)
Module Demo.
Definition created : res OversightWorkItem :=
  create_work_item "w1" "acme/app" "sha0" "c1" "p1" "ev1" [("rule", JStr "B101")].
Definition propose_op : op :=
  Propose "2024-01-01T00:00:00Z" "pr1" "f1" "Pin the parser" "Unsafe load" "Use safe_load"
    ["src/a.py"; "src/b.py"] "pytest" "git revert" "low" "bob" false "".
Definition approve_op : op :=
  Approve "2024-01-01T01:00:00Z" "alice" true ["src/a.py"; "docs/x.md"] "reviewed" ""
    "2024-01-02T00:00:00Z".
Definition begin_op : op := Begin "runner" ["src/a.py"] "sha0".
Definition execute_op : op :=
  Execute "runner" "sha0" "sha1" ["src/a.py"] "cmd" "success" "logs" "t0" "t1".
Definition verify_op : op :=
  Verify "2024-01-01T02:00:00Z" "carol" true "sha1" ["unit tests"] "evd" "none" "".
Definition ops : list op := [propose_op; approve_op; begin_op; execute_op; verify_op].
Definition item (n : nat) : OversightWorkItem :=
  match run (take n ops) created with
  | Ok i => i
  | Raise _ => mkItem (mkIdentity "" "" "" "" "" "") OBSERVED [] None None None None true false 0
  end.

Lemma item_reachable n : (n <= 5)%nat -> reachable (item n).
Proof.
  intros Hn. assert (run (take n ops) created = Ok (item n)) as H.
  { destruct n as [|[|[|[|[|[|n]]]]]]; [vm_compute; reflexivity ..| lia]. }
  by eapply run_reachable.
Defined.
End Demo.

(** ** Properties *)

(** C12: no change without approval.  In every reachable work item that carries
    an execution record, a human approved exactly the recorded proposal, the
    paths changed are inside the approved scope and not empty, and the execution
    started from the item's immutable revision. *)
Theorem execution_requires_approval i e :
  reachable i -> execution i = Some e ->
  exists p a, proposal i = Some p /\ approval i = Some a /\ approved a = true /\
    ap_proposal_id a = proposal_id p /\ ex_proposal_id e = proposal_id p /\
    (forall x, x ∈ changed_paths e -> x ∈ scope a) /\ changed_paths e <> [] /\
    before_sha e = immutable_sha (identity i).
Proof.
  intros (_ & _ & _ & _ & Hp)%reachable_inv He.
  assert (approved_by i true /\ exists e, executed i e) as [(p & a & Hpp & _ & Ha & Hw & Hok) (e' & Hx)].
  { unfold phase in Hp. destruct (state i); try (exfalso; naive_solver); naive_solver. }
  destruct Hx as (He' & Hb & _ & Hne & p' & a' & Hp' & Ha' & _ & Hid & Hsc).
  simplify_eq. exists p, a. destruct Hw as [Hw _]. by split_and!.
Qed.
Lemma execution_requires_approval_witness :
  exists e p a, execution (Demo.item 4) = Some e /\ proposal (Demo.item 4) = Some p /\
    approval (Demo.item 4) = Some a /\ approved a = true.
Proof.
  destruct (execution_requires_approval (Demo.item 4)
    (mkExecution "pr1" "runner" "t0" "t1" "sha0" "sha1" ["src/a.py"] "cmd" "success" "logs")
    (Demo.item_reachable 4 ltac:(lia)) ltac:(vm_compute; reflexivity)) as (p & a & Hp & Ha & Hok & _).
  eexists _, p, a. split; [vm_compute; reflexivity | auto].
Defined.

(** C13: a closed item is a verified item.  Every reachable item in the state
    CLOSED carries an approved proposal, a successful execution inside the
    approved scope, and a passed verification of exactly the revision the
    execution produced, with at least one check. *)
Theorem closed_is_verified i :
  reachable i -> state i = CLOSED ->
  exists p a e v, proposal i = Some p /\ approval i = Some a /\ execution i = Some e /\
    verification i = Some v /\ approved a = true /\ outcome e = "success" /\ passed v = true /\
    exact_sha v = after_sha e /\ checks v <> [] /\ (forall x, x ∈ changed_paths e -> x ∈ scope a).
Proof.
  intros (_ & _ & _ & _ & Hp)%reachable_inv Hs. unfold phase in Hp. rewrite Hs in Hp.
  destruct Hp as ((p & a & Hpp & _ & Ha & _ & Hok) & (e & Hx & Hoc & v & Hv) & _).
  destruct Hx as (He & _ & _ & _ & p' & a' & _ & Ha' & _ & _ & Hsc). simplify_eq.
  exists p, a, e, v. by destruct_and! Hv; split_and!.
Qed.
Lemma closed_is_verified_witness :
  exists p a e v, proposal (Demo.item 5) = Some p /\ approval (Demo.item 5) = Some a /\
    execution (Demo.item 5) = Some e /\ verification (Demo.item 5) = Some v /\ passed v = true.
Proof.
  destruct (closed_is_verified (Demo.item 5) (Demo.item_reachable 5 ltac:(lia))
    ltac:(vm_compute; reflexivity)) as (p & a & e & v & Hp & Ha & He & Hv & _ & _ & Hok & _).
  exists p, a, e, v. auto.
Defined.

(** C14: termination.  From a reachable item at revision r no run has more than
    6 - r operations, each operation counts one revision and follows an edge of
    the life cycle; in CLOSED, REJECTED and BLOCKED every operation raises. *)
Theorem lifecycle_terminates i :
  reachable i ->
  (forall n j, nsteps step n i j -> Z.of_nat n <= 6 - revision i /\ revision j = revision i + Z.of_nat n) /\
  (forall j, step i j -> edge (state i) (state j) = true) /\
  (state i = CLOSED \/ state i = REJECTED \/ state i = BLOCKED -> forall o, is_ok (apply_op o i) = false).
Proof.
  intros Hi. split_and!.
  - intros n j Hn. pose proof (nsteps_revision _ _ _ Hn) as Hr.
    pose proof (reachable_inv _ (reachable_nsteps _ _ _ Hi Hn)) as (_ & _ & _ & _ & Hp%phase_revision).
    lia.
  - intros j Hj. by apply step_frame in Hj as [? _].
  - intros Hs o. destruct (apply_op o i) as [j|] eqn:Ho; [|done].
    assert (step i j) as [He _]%step_frame by (by exists o).
    by destruct Hs as [Hs|[Hs|Hs]]; rewrite Hs in He.
Qed.
Lemma lifecycle_terminates_witness :
  Z.of_nat 4 <= 6 - revision (Demo.item 1) /\ is_ok (apply_op Demo.verify_op (Demo.item 5)) = false.
Proof.
  split.
  - destruct (lifecycle_terminates (Demo.item 1) (Demo.item_reachable 1 ltac:(lia))) as [H _].
    apply (H 4%nat (Demo.item 5)).
    apply (run_nsteps [Demo.approve_op; Demo.begin_op; Demo.execute_op; Demo.verify_op]).
    vm_compute. reflexivity.
  - destruct (lifecycle_terminates (Demo.item 5) (Demo.item_reachable 5 ltac:(lia))) as (_ & _ & H).
    apply H. left. vm_compute. reflexivity.
Defined.

(** An approved item can start exactly when its proposal and its approval
    share a path, and one that shares none is stuck: no operation applies to it
    ever again. *)
Theorem approved_can_begin_iff i p a :
  reachable i -> state i = APPROVED -> proposal i = Some p -> approval i = Some a ->
  ((exists j, step i j) <-> exists x, x ∈ affected_paths p /\ x ∈ scope a).
Proof.
  intros (_ & _ & _ & _ & Hi)%reachable_inv Hs Hp Ha. split.
  - intros (j & o & H). destruct o; simpl in H.
    + apply op_propose in H as [H _]. congruence.
    + apply op_approve in H as [H _]. congruence.
    + apply op_begin in H as (_ & p' & a' & Hp' & Ha' & _ & _ & Hne & Hsub & _). simplify_eq.
      destruct paths as [|x paths]; [done|]. exists x. apply Hsub. set_solver.
    + apply op_execute in H as [H _]. congruence.
    + apply op_verify in H as [H _]. congruence.
  - intros (x & Hxp & Hxa). exists (set_executing i), (Begin "x" [x] (immutable_sha (identity i))).
    simpl. unfold begin_execution. rewrite bool_decide_eq_true_2, Hp, Ha by done.
    unfold phase in Hi. rewrite Hs in Hi. destruct Hi as ((p' & a' & _ & _ & Ha' & _ & Hok) & _).
    assert (approved a = true) as -> by congruence. rewrite String.eqb_refl. simpl.
    rewrite !bool_decide_eq_true_2 by done. unfold set_executing. by rewrite Hp, Ha.
Qed.
Lemma approved_can_begin_iff_witness :
  exists j, step (Demo.item 2) j.
Proof.
  destruct (proposal (Demo.item 2)) as [p|] eqn:Hp; [|by vm_compute in Hp].
  destruct (approval (Demo.item 2)) as [a|] eqn:Ha; [|by vm_compute in Ha].
  apply (approved_can_begin_iff (Demo.item 2) p a (Demo.item_reachable 2 ltac:(lia))
    ltac:(vm_compute; reflexivity) Hp Ha).
  exists "src/a.py". vm_compute in Hp, Ha. injection Hp as <-. injection Ha as <-.
  split; apply list_elem_of_In; simpl; auto.
Defined.

(** The recorded execution is checked against the approved scope only, not
    against the proposal: a reachable, successfully executed item can have
    changed a path its proposal never named. *)
Theorem execution_may_leave_proposal :
  exists i p e, reachable i /\ state i = VERIFYING /\ proposal i = Some p /\ execution i = Some e /\
    exists x, x ∈ changed_paths e /\ x ∉ affected_paths p.
Proof.
  set (exe := Execute "runner" "sha0" "sha1" ["docs/x.md"] "cmd" "success" "logs" "t0" "t1").
  destruct (run [Demo.propose_op; Demo.approve_op; Demo.begin_op; exe] Demo.created) as [i|] eqn:Hi;
    [|vm_compute in Hi; discriminate].
  exists i. unfold Demo.created in Hi. pose proof (run_reachable _ _ _ _ _ _ _ _ _ Hi) as Hr.
  vm_compute in Hi. injection Hi as <-. do 2 eexists. split_and!; [done|done|done|done|].
  exists "docs/x.md". simpl. set_solver.
Qed.

(** The digest that identifies an approval joins its parts without escaping
    them, so two approvals of one proposal with different scopes can carry the
    same [approval_sha256]. *)
Theorem approval_digest_ambiguous :
  exists i j k, reachable i /\ reachable j /\ reachable k /\ step i j /\ step i k /\
    exists a b, approval j = Some a /\ approval k = Some b /\ scope a <> scope b /\
      approval_sha256 a = approval_sha256 b.
Proof.
  set (ap s := Approve "2024-01-01T01:00:00Z" "alice" true s "reviewed" "" "").
  destruct (apply_op (ap ["a,b"]) (Demo.item 1)) as [j|] eqn:Hj; [|vm_compute in Hj; discriminate].
  destruct (apply_op (ap ["a"; "b"]) (Demo.item 1)) as [k|] eqn:Hk; [|vm_compute in Hk; discriminate].
  assert (step (Demo.item 1) j) as Sj by (by exists (ap ["a,b"])).
  assert (step (Demo.item 1) k) as Sk by (by exists (ap ["a"; "b"])).
  pose proof (Demo.item_reachable 1 ltac:(lia)) as Hi.
  exists (Demo.item 1), j, k. split_and!; [done|by eapply reach_step|by eapply reach_step|done|done|].
  vm_compute in Hj, Hk. injection Hj as <-. injection Hk as <-.
  do 2 eexists. split_and!; [done|done|done|reflexivity].
Qed.
