(* ===== verification/MonitorStore.v ===== *)
(** * The work item store and service (nico/monitor_execute_service.py)

    The table [nico_monitor_work_items] is a finite map from its primary key to
    a row; a method of the store is a transaction, which either commits a new
    table or raises and leaves the table as it was (the source rolls back or
    closes the connection without a commit).  [now] is the string the method's
    [_utc_now()] returns.  [_mutate] is a load and a save in two transactions,
    so [system] interleaves them; [interleaving_refines] shows that the revision
    check makes every save act on the item that is stored. *)

From S2P Require Import Prelude PyStr Sha256 PyFloat Json JsonFacts MonitorContract.

Record StoredMonitorItem := mkStored {
  item : OversightWorkItem;
  integrity_sha256 : string;
  updated_at : string }.

(** A row of [nico_monitor_work_items] under its [work_item_id]. *)
Record row := mkRow {
  row_repository : string;
  row_immutable_sha : string;
  row_customer_id : string;
  row_project_id : string;
  row_state : string;
  row_revision : Z;
  payload_json : string;
  row_integrity : string;
  row_updated_at : string }.

Abbreviation table := (gmap string row) (only parsing).
Definition tx (A : Type) : Type := table -> res (A * table).

Definition _canonical_json (i : OversightWorkItem) : string :=
  dumps compact_unicode (JObj (safe_work_item i)).
Definition _integrity (payload : string) : string := sha256_tag (utf8_encode payload).

(** ** _deserialize *)

Definition identity_of (d : dict) : OversightIdentity :=
  mkIdentity (dget_str d "work_item_id") (dget_str d "repository") (dget_str d "immutable_sha")
    (dget_str d "customer_id") (dget_str d "project_id") (dget_str d "evidence_id").

Definition proposal_of (d : dict) : res RemediationProposal :=
  paths ← dget_strs d "affected_paths";
  Ok (mkProposal (dget_str d "proposal_id") (dget_str d "finding_id") (dget_str d "title")
    (dget_str d "rationale") (dget_str d "smallest_reversible_change") paths
    (dget_str d "verification_plan") (dget_str d "rollback_plan") (dget_str d "risk_level")
    (dget_str d "requested_by") (dget_str d "created_at") (dget_bool d "production_impacting")).

Definition approval_of (d : dict) : res ApprovalRecord :=
  sc ← dget_strs d "scope";
  Ok (mkApproval (dget_str d "proposal_id") (dget_str d "approver_id") (dget_bool d "approved") sc
    (dget_str d "approved_at") (dget_str d "expires_at") (dget_str d "reason")
    (dget_str d "approval_sha256")).

Definition execution_of (d : dict) : res ExecutionRecord :=
  paths ← dget_strs d "changed_paths";
  Ok (mkExecution (dget_str d "proposal_id") (dget_str d "executor_id") (dget_str d "started_at")
    (dget_str d "completed_at") (dget_str d "before_sha") (dget_str d "after_sha") paths
    (dget_str d "command_fingerprint") (dget_str d "outcome") (dget_str d "logs_fingerprint")).

Definition verification_of (d : dict) : res VerificationRecord :=
  cs ← dget_strs d "checks";
  Ok (mkVerification (dget_str d "proposal_id") (dget_str d "verifier_id") (dget_str d "verified_at")
    (dget_bool d "passed") (dget_str d "exact_sha") cs (dget_str d "evidence_fingerprint")
    (dget_str d "residual_risk")).

(** [None] unless the value is a mapping *)
Definition opt_of {A} (f : dict -> res A) (v : json) : res (option A) :=
  match v with JObj d => a ← f d; Ok (Some a) | _ => Ok None end.

(** [WorkItemState(s)] *)
Definition state_of (s : string) : res WorkItemState :=
  match List.find (fun st => String.eqb (state_value st) s)
          [OBSERVED; PROPOSED; APPROVED; EXECUTING; VERIFYING; CLOSED; BLOCKED; REJECTED] with
  | Some st => Ok st
  | None => fail ValueError "is not a valid WorkItemState"
  end.

Definition _deserialize (payload : string) : res OversightWorkItem :=
  match loads payload with
  | None => fail MonitorIntegrityError "monitor_payload_json_invalid"
  | Some v =>
      data ← as_mapping v;
      identity_data ← as_mapping (jor (dget data "identity") (JObj []));
      p ← opt_of proposal_of (dget data "proposal");
      a ← opt_of approval_of (dget data "approval");
      e ← opt_of execution_of (dget data "execution");
      v ← opt_of verification_of (dget data "verification");
      st ← state_of (py_str (jor (dget data "state") (JStr "observed")));
      fnd ← py_dict (jor (dget data "finding") (JObj []));
      rev ← py_int (jor (dget data "revision") (JInt 1));
      Ok (mkItem (identity_of identity_data) st fnd p a e v true false rev)
  end.

(** ** MonitorExecuteStore *)

Definition create (now : string) (i : OversightWorkItem) : tx StoredMonitorItem := fun t =>
  let payload := _canonical_json i in
  let integrity := _integrity payload in
  let d := identity i in
  match t !! work_item_id d with
  | Some _ => fail MonitorItemDuplicate "monitor_work_item_already_exists"
  | None =>
      let r := mkRow (repository d) (immutable_sha d) (customer_id d) (project_id d)
        (state_value (state i)) (revision i) payload integrity now in
      Ok (mkStored i integrity now, <[work_item_id d := r]> t)
  end.

Definition load (wid : string) : tx StoredMonitorItem := fun t =>
  match t !! wid with
  | None => fail MonitorItemMissing "monitor_work_item_not_found"
  | Some r =>
      if negb (String.eqb (row_integrity r) (_integrity (payload_json r)))
      then fail MonitorIntegrityError "monitor_work_item_integrity_mismatch"
      else
        i ← _deserialize (payload_json r);
        Ok (mkStored i (row_integrity r) (row_updated_at r), t)
  end.

Definition save (now : string) (i : OversightWorkItem) (expected_revision : Z)
    : tx StoredMonitorItem := fun t =>
  if negb (revision i =? expected_revision + 1)
  then fail MonitorRevisionConflict "monitor_revision_increment_invalid"
  else
    let payload := _canonical_json i in
    let integrity := _integrity payload in
    match t !! work_item_id (identity i) with
    | Some r =>
        if row_revision r =? expected_revision then
          let r' := mkRow (row_repository r) (row_immutable_sha r) (row_customer_id r)
            (row_project_id r) (state_value (state i)) (revision i) payload integrity now in
          Ok (mkStored i integrity now, <[work_item_id (identity i) := r']> t)
        else fail MonitorRevisionConflict "monitor_revision_conflict"
    | None => fail MonitorRevisionConflict "monitor_revision_conflict"
    end.

(** ** MonitorExecuteService *)

Definition _response (s : StoredMonitorItem) : dict :=
  dmerge (safe_work_item (item s))
    [("integrity_sha256", JStr (integrity_sha256 s)); ("updated_at", JStr (updated_at s))].

Definition status (wid : string) : tx dict := fun t =>
  '(s, t) ← load wid t; Ok (_response s, t).

Definition service_create (now : string) (payload : dict) : tx dict := fun t =>
  i ← create_work_item (dget_str payload "work_item_id") (dget_str payload "repository")
        (dget_str payload "immutable_sha") (dget_str payload "customer_id")
        (dget_str payload "project_id") (dget_str payload "evidence_id")
        (as_dict (dget payload "finding"));
  '(s, t) ← create now i t; Ok (_response s, t).

Definition _mutate (now wid : string) (operation : OversightWorkItem -> res OversightWorkItem)
    : tx dict := fun t =>
  '(stored, t) ← load wid t;
  updated ← operation (item stored);
  '(s, t) ← save now updated (revision (item stored)) t;
  Ok (_response s, t).

(** The operation a payload asks for; iterating a value that is not iterable
    raises while the arguments are built. *)
Definition propose_payload (now : string) (payload : dict) (i : OversightWorkItem)
    : res OversightWorkItem :=
  paths ← dget_strs payload "affected_paths";
  propose_remediation now i (dget_str payload "proposal_id") (dget_str payload "finding_id")
    (dget_str payload "title") (dget_str payload "rationale")
    (dget_str payload "smallest_reversible_change") paths
    (dget_str payload "verification_plan") (dget_str payload "rollback_plan")
    (dget_str payload "risk_level") (dget_str payload "requested_by")
    (dget_bool payload "production_impacting") (dget_str payload "created_at").

Definition approve_payload (now : string) (payload : dict) (i : OversightWorkItem)
    : res OversightWorkItem :=
  sc ← dget_strs payload "scope";
  record_approval now i (dget_str payload "approver_id") (dget_bool payload "approved") sc
    (dget_str payload "reason") (dget_str payload "approved_at") (dget_str payload "expires_at").

Definition begin_payload (payload : dict) (i : OversightWorkItem) : res OversightWorkItem :=
  paths ← dget_strs payload "requested_paths";
  begin_execution i (dget_str payload "executor_id") paths (dget_str payload "current_sha").

Definition complete_payload (payload : dict) (i : OversightWorkItem) : res OversightWorkItem :=
  paths ← dget_strs payload "changed_paths";
  record_execution i (dget_str payload "executor_id") (dget_str payload "before_sha")
    (dget_str payload "after_sha") paths (dget_str payload "command_fingerprint")
    (dget_str payload "outcome") (dget_str payload "logs_fingerprint")
    (dget_str payload "started_at") (dget_str payload "completed_at").

Definition verify_payload (now : string) (payload : dict) (i : OversightWorkItem)
    : res OversightWorkItem :=
  cs ← dget_strs payload "checks";
  record_verification now i (dget_str payload "verifier_id") (dget_bool payload "passed")
    (dget_str payload "exact_sha") cs (dget_str payload "evidence_fingerprint")
    (dget_str payload "residual_risk") (dget_str payload "verified_at").

Definition propose (now wid : string) (payload : dict) : tx dict :=
  _mutate now wid (propose_payload now payload).
Definition approve (now wid : string) (payload : dict) : tx dict :=
  _mutate now wid (approve_payload now payload).
Definition begin (now wid : string) (payload : dict) : tx dict :=
  _mutate now wid (begin_payload payload).
Definition complete_execution (now wid : string) (payload : dict) : tx dict :=
  _mutate now wid (complete_payload payload).
Definition verify (now wid : string) (payload : dict) : tx dict :=
  _mutate now wid (verify_payload now payload).

(** ** Reading back what was written *)

(** The item a stored payload denotes: the finding's keys in order, the two
    release flags as every payload has them. *)
Definition canon (i : OversightWorkItem) : OversightWorkItem :=
  mkItem (identity i) (state i) (sorted_dict (finding i)) (proposal i) (approval i) (execution i)
    (verification i) true false (revision i).

Definition finding_wf (i : OversightWorkItem) : Prop := json_wf (JObj (finding i)) = true.

Lemma py_str_jor s : py_str (jor (JStr s) (JStr "")) = s.
Proof.
  unfold jor. simpl. destruct (truthy s) eqn:H; [done|]. by apply truthy_false in H as ->.
Qed.

Lemma dget_str_eq d k s : dget d k = JStr s -> dget_str d k = s.
Proof. unfold dget_str. intros ->. apply py_str_jor. Qed.

Lemma dget_strs_eq d k l : dget d k = jstrs l -> dget_strs d k = Ok l.
Proof.
  unfold dget_strs. intros ->. destruct l as [|x l]; [done|]. simpl. do 2 f_equal.
  rewrite map_map. simpl. apply map_id.
Qed.

Lemma dget_bool_eq d k b : dget d k = JBool b -> dget_bool d k = b.
Proof. unfold dget_bool. by intros ->. Qed.

Lemma sort_jstrs l : sort_json (jstrs l) = jstrs l.
Proof. unfold jstrs. simpl. rewrite map_map. done. Qed.

(** The fields of a record read from its sorted document. *)
Ltac read_field :=
  first [apply dget_str_eq | apply dget_strs_eq | apply dget_bool_eq];
  rewrite <- ?sort_jstrs; reflexivity.

Lemma identity_roundtrip i : identity_of (as_dict (sort_json (identity_json i))) = i.
Proof. destruct i. unfold identity_of. f_equal; read_field. Qed.

Ltac read_record f :=
  unfold f; erewrite dget_strs_eq by (rewrite <- sort_jstrs; reflexivity);
  simpl; do 2 f_equal; read_field.

Lemma proposal_roundtrip p : proposal_of (as_dict (sort_json (proposal_json p))) = Ok p.
Proof. destruct p. read_record proposal_of. Qed.

Lemma approval_roundtrip a : approval_of (as_dict (sort_json (approval_json a))) = Ok a.
Proof. destruct a. read_record approval_of. Qed.

Lemma execution_roundtrip e : execution_of (as_dict (sort_json (execution_json e))) = Ok e.
Proof. destruct e. read_record execution_of. Qed.

Lemma verification_roundtrip v : verification_of (as_dict (sort_json (verification_json v))) = Ok v.
Proof. destruct v. read_record verification_of. Qed.

Lemma opt_roundtrip {A} (f : dict -> res A) (g : A -> json) (o : option A) :
  (forall a, is_mapping (g a) = true) -> (forall a, f (as_dict (sort_json (g a))) = Ok a) ->
  opt_of f (sort_json (opt_json g o)) = Ok o.
Proof.
  intros Hm Hf. destruct o as [a|]; simpl; [|done]. specialize (Hm a). specialize (Hf a).
  destruct (g a); try done. simpl in *. by rewrite Hf.
Qed.

Lemma state_roundtrip s : state_of (py_str (jor (JStr (state_value s)) (JStr "observed"))) = Ok s.
Proof. by destruct s. Qed.

Lemma document_keys i : NoDup (keys (safe_work_item i)).
Proof. apply (bool_decide_unpack _). vm_compute. reflexivity. Qed.

Lemma jstrs_wf l : json_wf (jstrs l) = true.
Proof. simpl. apply forallb_forall. by intros x (y & <- & _)%in_map_iff. Qed.

Ltac record_wf :=
  match goal with |- json_wf (?f _) = true => unfold f end;
  cbn [json_wf forallb snd]; rewrite ?jstrs_wf; reflexivity.

Lemma identity_json_wf i : json_wf (identity_json i) = true.
Proof. record_wf. Qed.
Lemma proposal_json_wf p : json_wf (proposal_json p) = true.
Proof. record_wf. Qed.
Lemma approval_json_wf a : json_wf (approval_json a) = true.
Proof. record_wf. Qed.
Lemma execution_json_wf e : json_wf (execution_json e) = true.
Proof. record_wf. Qed.
Lemma verification_json_wf v : json_wf (verification_json v) = true.
Proof. record_wf. Qed.

Lemma opt_json_wf {A} (f : A -> json) o :
  (forall a, json_wf (f a) = true) -> json_wf (opt_json f o) = true.
Proof. destruct o; simpl; auto. Qed.

Lemma document_wf i : finding_wf i -> json_wf (JObj (safe_work_item i)) = true.
Proof.
  intros Hf. cbn [json_wf]. apply andb_true_iff. split.
  - apply bool_decide_eq_true, document_keys.
  - unfold safe_work_item. cbn [forallb snd]. unfold finding_wf in Hf.
    rewrite Hf, identity_json_wf, !opt_json_wf
      by auto using proposal_json_wf, approval_json_wf, execution_json_wf, verification_json_wf.
    reflexivity.
Qed.

(** [_deserialize] inverts [_canonical_json]. *)
Lemma deserialize_canonical i :
  finding_wf i -> revision i <> 0 -> _deserialize (_canonical_json i) = Ok (canon i).
Proof.
  intros Hf Hr. unfold _deserialize, _canonical_json.
  rewrite loads_dumps by (auto using document_wf with nico). cbn [compact_unicode sort_keys].
  change (sort_json (JObj (safe_work_item i))) with (JObj (sorted_dict (safe_work_item i))).
  cbn [as_mapping mbind res_bind].
  rewrite !dget_sorted by apply document_keys.
  change (dget (safe_work_item i) "identity") with (identity_json (identity i)).
  change (dget (safe_work_item i) "proposal") with (opt_json proposal_json (proposal i)).
  change (dget (safe_work_item i) "approval") with (opt_json approval_json (approval i)).
  change (dget (safe_work_item i) "execution") with (opt_json execution_json (execution i)).
  change (dget (safe_work_item i) "verification") with (opt_json verification_json (verification i)).
  change (dget (safe_work_item i) "state") with (JStr (state_value (state i))).
  change (dget (safe_work_item i) "finding") with (JObj (finding i)).
  change (dget (safe_work_item i) "revision") with (JInt (revision i)).
  replace (as_mapping _) with (Ok (as_dict (sort_json (identity_json (identity i))))) by reflexivity.
  cbn [mbind res_bind].
  rewrite (opt_roundtrip _ proposal_json _ ltac:(done) proposal_roundtrip),
    (opt_roundtrip _ approval_json _ ltac:(done) approval_roundtrip),
    (opt_roundtrip _ execution_json _ ltac:(done) execution_roundtrip),
    (opt_roundtrip _ verification_json _ ltac:(done) verification_roundtrip).
  cbn [mbind res_bind sort_json]. rewrite state_roundtrip, identity_roundtrip. cbn [mbind res_bind].
  unfold canon, jor. cbn [py_truthy]. rewrite (proj2 (Z.eqb_neq _ _) Hr). cbn [negb py_int].
  change (sort_members _) with (sorted_dict (finding i)).
  by destruct (sorted_dict (finding i)).
Qed.

Lemma canon_idemp i : canon (canon i) = canon i.
Proof.
  unfold canon; simpl. f_equal. unfold sorted_dict.
  change (JObj (as_dict (sort_json (JObj (finding i))))) with (sort_json (JObj (finding i))).
  by rewrite sort_json_idemp.
Qed.

Lemma canon_wf i : finding_wf i -> finding_wf (canon i).
Proof. intros H. by apply (sort_json_wf (JObj (finding i))) in H. Qed.

Lemma canonical_canon i : _canonical_json (canon i) = _canonical_json i.
Proof.
  unfold _canonical_json, dumps. cbn [compact_unicode sort_keys]. f_equal.
  assert (sort_json (JObj (sorted_dict (finding i))) = sort_json (JObj (finding i))) as H.
  { change (JObj (sorted_dict (finding i))) with (sort_json (JObj (finding i))).
    apply sort_json_idemp. }
  change (sort_json (JObj ?d)) with (JObj (sort_members (map (fun m => (fst m, sort_json (snd m))) d))).
  do 2 f_equal. unfold safe_work_item, canon.
  cbn [identity state finding proposal approval execution verification revision map fst snd].
  by rewrite H.
Qed.

(** ** The abstract store: a map of work items, every call atomic *)

Inductive verb := VPropose | VApprove | VBegin | VComplete | VVerify.

Definition operation (now : string) (v : verb) (payload : dict) : OversightWorkItem -> res OversightWorkItem :=
  match v with
  | VPropose => propose_payload now payload
  | VApprove => approve_payload now payload
  | VBegin => begin_payload payload
  | VComplete => complete_payload payload
  | VVerify => verify_payload now payload
  end.

(** The method of the service behind a verb. *)
Definition call (now wid : string) (v : verb) (payload : dict) : tx dict :=
  match v with
  | VPropose => propose now wid payload
  | VApprove => approve now wid payload
  | VBegin => begin now wid payload
  | VComplete => complete_execution now wid payload
  | VVerify => verify now wid payload
  end.

Abbreviation items := (gmap string OversightWorkItem) (only parsing).

Inductive event :=
  | ECreate (payload : dict)
  | EVerb (now wid : string) (v : verb) (payload : dict).

Definition created_item (payload : dict) : res OversightWorkItem :=
  create_work_item (dget_str payload "work_item_id") (dget_str payload "repository")
    (dget_str payload "immutable_sha") (dget_str payload "customer_id")
    (dget_str payload "project_id") (dget_str payload "evidence_id")
    (as_dict (dget payload "finding")).

Definition apply_event (e : event) (a : items) : res items :=
  match e with
  | ECreate payload =>
      i ← created_item payload;
      match a !! work_item_id (identity i) with
      | Some _ => fail MonitorItemDuplicate "monitor_work_item_already_exists"
      | None => Ok (<[work_item_id (identity i) := canon i]> a)
      end
  | EVerb now wid v payload =>
      match a !! wid with
      | None => fail MonitorItemMissing "monitor_work_item_not_found"
      | Some i => j ← operation now v payload i; Ok (<[wid := j]> a)
      end
  end.

Definition replay (es : list event) : res items :=
  fold_left (fun r e => a ← r; apply_event e a) es (Ok ∅).

(** ** The table represents the abstract store *)

Record represents (k : string) (r : row) (i : OversightWorkItem) : Prop := mkRepresents {
  rep_payload : payload_json r = _canonical_json i;
  rep_integrity : row_integrity r = _integrity (_canonical_json i);
  rep_revision : row_revision r = revision i;
  rep_state : row_state r = state_value (state i);
  rep_key : work_item_id (identity i) = k;
  rep_wf : finding_wf i;
  rep_canon : canon i = i;
  rep_reachable : reachable i }.

Definition rep (t : table) (a : items) : Prop := forall k, option_Forall2 (represents k) (t !! k) (a !! k).

Lemma rep_insert t a k r i : rep t a -> represents k r i -> rep (<[k := r]> t) (<[k := i]> a).
Proof.
  intros H Hr k'. destruct (decide (k = k')) as [<-|Hk].
  - rewrite !lookup_insert_eq. by constructor.
  - rewrite !lookup_insert_ne by done. apply H.
Qed.

Lemma rep_lookup t a k i : rep t a -> a !! k = Some i -> exists r, t !! k = Some r /\ represents k r i.
Proof. intros H Hk. specialize (H k). rewrite Hk in H. inversion H; eauto. Qed.

Lemma rep_None t a k : rep t a -> a !! k = None -> t !! k = None.
Proof. intros H Hk. specialize (H k). rewrite Hk in H. by inversion H. Qed.

Lemma represents_revision k r i : represents k r i -> 1 <= revision i.
Proof.
  intros H. destruct (reachable_inv _ (rep_reachable _ _ _ H)) as (_ & _ & _ & _ & Hp%phase_revision). lia.
Qed.

Lemma operation_step now v payload i j : operation now v payload i = Ok j -> step i j.
Proof.
  intros H. destruct v; simpl in H;
    unfold propose_payload, approve_payload, begin_payload, complete_payload, verify_payload in H; inv_ok.
  - by eexists (Propose _ _ _ _ _ _ _ _ _ _ _ _ _).
  - by eexists (Approve _ _ _ _ _ _ _).
  - by eexists (Begin _ _ _).
  - by eexists (Execute _ _ _ _ _ _ _ _ _).
  - by eexists (Verify _ _ _ _ _ _ _ _).
Qed.

(** An item one step from a canonical one is canonical. *)
Lemma step_canon i j : canon i = i -> step i j -> canon j = j.
Proof.
  intros Hc Hs. apply step_frame in Hs as (_ & _ & _ & Hf & Hh & Hd).
  unfold canon in *. rewrite Hf. destruct i, j; simpl in *. congruence.
Qed.

Lemma step_wf i j : finding_wf i -> step i j -> finding_wf j.
Proof. intros H Hs. apply step_frame in Hs as (_ & _ & _ & Hf & _). unfold finding_wf. by rewrite Hf. Qed.

(** Creating with the sorted finding gives the canonical item. *)
Lemma sorted_dict_nil d : sorted_dict d = [] <-> d = [].
Proof.
  pose proof (sorted_dict_perm d) as H. split; intros E; rewrite E in *; [|done].
  apply Permutation_nil_l in H. by destruct d.
Qed.

Lemma create_canon wid repo sha cust proj evid fnd i :
  create_work_item wid repo sha cust proj evid fnd = Ok i ->
  create_work_item wid repo sha cust proj evid (sorted_dict fnd) = Ok (canon i).
Proof.
  unfold create_work_item, merr. intros H.
  repeat match type of H with _ ≫= _ = Ok _ =>
    apply bind_ok_inv in H as (? & -> & H); cbv beta in H; cbn [mbind res_bind] end.
  destruct fnd as [|m d]; [discriminate|]. injection H as <-. unfold canon. cbn [finding].
  destruct (sorted_dict (m :: d)) as [|m2 d2] eqn:Hs; [by apply (proj1 (sorted_dict_nil (m :: d))) in Hs | done].
Qed.

Lemma create_fields wid repo sha cust proj evid fnd i :
  create_work_item wid repo sha cust proj evid fnd = Ok i -> finding i = fnd /\ revision i = 1.
Proof.
  unfold create_work_item, merr. intros H.
  repeat match type of H with _ ≫= _ = Ok _ => apply bind_ok_inv in H as (? & _ & H); cbv beta in H end.
  destruct fnd; [discriminate|]. by injection H as <-.
Qed.

Lemma created_canon payload i :
  json_wf (JObj payload) = true -> created_item payload = Ok i ->
  finding_wf i /\ reachable (canon i) /\ revision i = 1.
Proof.
  intros Hw H. unfold created_item in H. pose proof (create_canon _ _ _ _ _ _ _ _ H) as Hc.
  apply create_fields in H as [Hf Hr]. split_and!; [|by eapply reach_create|done].
  unfold finding_wf. rewrite Hf. apply (dget_wf _ "finding") in Hw. by destruct (dget payload "finding").
Qed.

(** ** The methods of the store, against the abstract store *)

Definition stored_as (s : StoredMonitorItem) (i : OversightWorkItem) : Prop :=
  item s = i /\ integrity_sha256 s = _integrity (_canonical_json i).

Lemma load_spec t a wid : rep t a ->
  match a !! wid with
  | Some i => exists s, load wid t = Ok (s, t) /\ stored_as s i
  | None => load wid t = fail MonitorItemMissing "monitor_work_item_not_found"
  end.
Proof.
  intros H. unfold load. destruct (a !! wid) as [i|] eqn:Ha.
  - destruct (rep_lookup _ _ _ _ H Ha) as (r & -> & Hr).
    rewrite (rep_integrity _ _ _ Hr), (rep_payload _ _ _ Hr), String.eqb_refl. simpl.
    pose proof (represents_revision _ _ _ Hr).
    rewrite deserialize_canonical by (try lia; apply Hr). simpl. rewrite (rep_canon _ _ _ Hr).
    eexists. split; [reflexivity|]. by split.
  - by rewrite (rep_None _ _ _ H Ha).
Qed.

Lemma save_spec t a now j n : rep t a -> finding_wf j -> canon j = j -> reachable j ->
  (exists i, a !! work_item_id (identity j) = Some i /\ revision i = n /\ revision j = n + 1 /\
     exists s t', save now j n t = Ok (s, t') /\ item s = j /\
       rep t' (<[work_item_id (identity j) := j]> a)) \/
  ((forall i, a !! work_item_id (identity j) = Some i -> revision i = n -> revision j <> n + 1) /\
   exists m, save now j n t = fail MonitorRevisionConflict m).
Proof.
  intros H Hw Hc Hj. unfold save. destruct (Z.eqb_spec (revision j) (n + 1)) as [Hn|Hn]; simpl; [|eauto].
  destruct (a !! work_item_id (identity j)) as [i|] eqn:Ha.
  - destruct (rep_lookup _ _ _ _ H Ha) as (r & -> & Hr). rewrite (rep_revision _ _ _ Hr).
    destruct (Z.eqb_spec (revision i) n) as [Hi|Hi].
    + left. exists i. split_and!; try done. do 2 eexists. split_and!; [reflexivity|done|].
      apply rep_insert; [done|]. by constructor.
    + right. split; [|eauto]. intros i' [= <-]. lia.
  - rewrite (rep_None _ _ _ H Ha). right. split; [done|eauto].
Qed.

Lemma create_spec t a now payload : rep t a -> json_wf (JObj payload) = true ->
  match apply_event (ECreate payload) a with
  | Ok a' => exists d t', service_create now payload t = Ok (d, t') /\ rep t' a'
  | Raise e => service_create now payload t = Raise e
  end.
Proof.
  intros H Hw. simpl. unfold service_create, created_item.
  pose proof (fun i => created_canon payload i Hw) as Hcr. unfold created_item in Hcr.
  destruct (create_work_item _ _ _ _ _ _ _) as [i|e]; [|done]. simpl.
  specialize (Hcr i eq_refl) as (Hf & Hr & Hrev). unfold create.
  destruct (a !! _) as [i'|] eqn:Ha.
  - by destruct (rep_lookup _ _ _ _ H Ha) as (r & -> & _).
  - rewrite (rep_None _ _ _ H Ha). simpl. do 2 eexists. split; [reflexivity|].
    apply rep_insert; [done|].
    constructor; rewrite ?canonical_canon; auto using canon_wf, canon_idemp.
Qed.

(** ** Interleaving *)

(** A call between its load and its save. *)
Record inflight := mkInflight {
  c_wid : string; c_verb : verb; c_payload : dict; c_item : OversightWorkItem }.

Record system := mkSystem { sys_table : table; sys_calls : list inflight }.

(** A run of the service with any number of clients, and the events that
    committed.  [create] is one transaction; a mutating call loads, computes and
    saves, and other clients' transactions come between. *)
Inductive sys_run : list event -> system -> Prop :=
  | sys_init : sys_run [] (mkSystem ∅ [])
  | sys_create es s now payload d t :
      sys_run es s -> json_wf (JObj payload) = true ->
      service_create now payload (sys_table s) = Ok (d, t) ->
      sys_run (es ++ [ECreate payload]) (mkSystem t (sys_calls s))
  | sys_load es s wid v payload st t :
      sys_run es s -> load wid (sys_table s) = Ok (st, t) ->
      sys_run es (mkSystem t (mkInflight wid v payload (item st) :: sys_calls s))
  | sys_commit es s c cs1 cs2 now j st t :
      sys_run es s -> sys_calls s = cs1 ++ c :: cs2 ->
      operation now (c_verb c) (c_payload c) (c_item c) = Ok j ->
      save now j (revision (c_item c)) (sys_table s) = Ok (st, t) ->
      sys_run (es ++ [EVerb now (c_wid c) (c_verb c) (c_payload c)]) (mkSystem t (cs1 ++ cs2))
  | sys_fail es s c cs1 cs2 :
      sys_run es s -> sys_calls s = cs1 ++ c :: cs2 ->
      sys_run es (mkSystem (sys_table s) (cs1 ++ cs2)).

(** What a call holds is an earlier version of what is stored, or the same. *)
Definition item_ok (i : OversightWorkItem) : Prop := finding_wf i /\ canon i = i /\ reachable i.

Definition call_ok (a : items) (c : inflight) : Prop :=
  item_ok (c_item c) /\ work_item_id (identity (c_item c)) = c_wid c /\
  exists i, a !! c_wid c = Some i /\ revision (c_item c) <= revision i /\
    (revision (c_item c) = revision i -> c_item c = i).

Definition sys_inv (es : list event) (s : system) : Prop :=
  exists a, replay es = Ok a /\ rep (sys_table s) a /\ Forall (call_ok a) (sys_calls s).

Lemma replay_snoc es e a : replay es = Ok a -> replay (es ++ [e]) = apply_event e a.
Proof. unfold replay. rewrite fold_left_app. by intros ->. Qed.

Lemma item_ok_step i j : item_ok i -> step i j -> item_ok j.
Proof.
  intros (Hw & Hc & Hr) H. split_and!; eauto using step_wf, step_canon. by eapply reach_step.
Qed.

Lemma call_ok_insert a k i j c :
  a !! k = Some i -> revision i < revision j -> call_ok a c -> call_ok (<[k := j]> a) c.
Proof.
  intros Hk Hr (Hok & Hw & i' & Hi & Hle & Heq). split_and!; [done..|].
  destruct (decide (k = c_wid c)) as [->|Hne].
  - exists j. rewrite lookup_insert_eq. simplify_eq. split_and!; [done|lia|lia].
  - exists i'. by rewrite lookup_insert_ne.
Qed.

Lemma call_ok_fresh a k j c : a !! k = None -> call_ok a c -> call_ok (<[k := j]> a) c.
Proof.
  intros Hk (Hok & Hw & i & Hi & H). split_and!; [done..|]. exists i.
  rewrite lookup_insert_ne; [done|congruence].
Qed.

Lemma call_ok_load a t wid v payload i :
  rep t a -> a !! wid = Some i -> call_ok a (mkInflight wid v payload i).
Proof.
  intros H Hi. destruct (rep_lookup _ _ _ _ H Hi) as (r & _ & Hr). destruct Hr.
  split_and!; simpl; try done. exists i. by split_and!.
Qed.

Lemma Forall_drop {A} (P : A -> Prop) l1 x l2 : Forall P (l1 ++ x :: l2) -> P x /\ Forall P (l1 ++ l2).
Proof. rewrite !Forall_app, Forall_cons. tauto. Qed.

(** A save that commits acts on the item that is stored at that moment. *)
Lemma commit_sim a t c now j st t' :
  rep t a -> call_ok a c ->
  operation now (c_verb c) (c_payload c) (c_item c) = Ok j ->
  save now j (revision (c_item c)) t = Ok (st, t') ->
  a !! c_wid c = Some (c_item c) /\ rep t' (<[c_wid c := j]> a) /\ revision (c_item c) < revision j.
Proof.
  intros H (Hok & Hw & i & Hi & Hle & Heq) Hop Hsv. pose proof (operation_step _ _ _ _ _ Hop) as Hst.
  pose proof (step_frame _ _ Hst) as (_ & Hrev & Hid & _).
  destruct (item_ok_step _ _ Hok Hst) as (Hjw & Hjc & Hjr).
  destruct (save_spec t a now j (revision (c_item c)) H Hjw Hjc Hjr)
    as [(i' & Hi' & Hri & _ & s & t2 & Hsv' & _ & Hrep) | (_ & m & Hsv')]; rewrite Hsv in Hsv';
    [|discriminate]. injection Hsv' as -> ->.
  rewrite Hid, Hw in *. simplify_eq. rewrite Heq by done. split_and!; [done|done|].
  rewrite Heq in Hrev by done. lia.
Qed.

Lemma sys_run_inv es s : sys_run es s -> sys_inv es s.
Proof.
  induction 1 as [|es s now payload d t _ IH Hw Hc|es s wid v payload st t _ IH Hl
    |es s c cs1 cs2 now j st t _ IH Hcs Hop Hsv|es s c cs1 cs2 _ IH Hcs];
    try destruct IH as (a & Ha & Hr & Hcalls).
  - exists ∅. split_and!; [done| |constructor]. intros k. simpl. rewrite !lookup_empty. constructor.
  - pose proof (create_spec _ _ now _ Hr Hw) as Hs. destruct (apply_event (ECreate payload) a) as [a'|e] eqn:He.
    + destruct Hs as (d' & t' & Hs & Hr'). rewrite Hs in Hc. injection Hc as <- <-. exists a'.
      split_and!; [by rewrite (replay_snoc _ _ _ Ha)|done|]. simpl in He.
      apply bind_ok_inv in He as (i & _ & He). destruct (a !! _) eqn:Hk; [discriminate|].
      injection He as <-.
      eapply Forall_impl; [exact Hcalls|]. intros c. by apply call_ok_fresh.
    + by rewrite Hs in Hc.
  - pose proof (load_spec _ _ wid Hr) as Hs. destruct (a !! wid) as [i|] eqn:Hi; [|by rewrite Hs in Hl].
    destruct Hs as (s' & Hs & <- & _). rewrite Hs in Hl. injection Hl as <- <-. exists a.
    split_and!; [done|done|]. constructor; [|done]. by eapply call_ok_load.
  - rewrite Hcs in Hcalls. apply Forall_drop in Hcalls as [Hc Hcalls].
    destruct (commit_sim _ _ _ _ _ _ _ Hr Hc Hop Hsv) as (Hi & Hr' & Hlt).
    exists (<[c_wid c := j]> a). split_and!; [|done|].
    + rewrite (replay_snoc _ _ _ Ha). simpl. rewrite Hi. simpl. by rewrite Hop.
    + eapply Forall_impl; [exact Hcalls|]. intros c'. by eapply call_ok_insert.
  - rewrite Hcs in Hcalls. apply Forall_drop in Hcalls as [_ Hcalls]. by exists a.
Qed.

Lemma call_mutate now wid v payload t :
  call now wid v payload t = _mutate now wid (operation now v payload) t.
Proof. by destruct v. Qed.

(** A mutating call on a table that represents a map of items. *)
Lemma mutate_spec t a now wid v payload :
  rep t a ->
  match a !! wid with
  | None => _mutate now wid (operation now v payload) t
            = fail MonitorItemMissing "monitor_work_item_not_found"
  | Some i =>
      match operation now v payload i with
      | Raise e => _mutate now wid (operation now v payload) t = Raise e
      | Ok j => exists t', _mutate now wid (operation now v payload) t
                  = Ok (_response (mkStored j (_integrity (_canonical_json j)) now), t') /\
                rep t' (<[wid := j]> a)
      end
  end.
Proof.
  intros H. unfold _mutate. pose proof (load_spec _ _ wid H) as Hl.
  destruct (a !! wid) as [i|] eqn:Hi; [|by rewrite Hl]. destruct Hl as (s & -> & <- & Hint). simpl.
  destruct (operation now v payload (item s)) as [j|e] eqn:Hop; [|done]. simpl.
  pose proof (call_ok_load _ _ _ v payload _ H Hi) as Hc.
  destruct (rep_lookup _ _ _ _ H Hi) as (r & Ht & Hr).
  pose proof (operation_step _ _ _ _ _ Hop) as Hst.
  pose proof (step_frame _ _ Hst) as (_ & Hrev & Hid & _).
  assert (exists s' t', save now j (revision (item s)) t = Ok (s', t') /\
    s' = mkStored j (_integrity (_canonical_json j)) now) as (s' & t' & Hsv & ->).
  { unfold save. rewrite Hrev, Z.eqb_refl, Hid, (rep_key _ _ _ Hr), Ht, (rep_revision _ _ _ Hr), Z.eqb_refl.
    simpl. eauto. }
  destruct (commit_sim _ _ (mkInflight wid v payload (item s)) _ _ _ _ H Hc Hop Hsv) as (_ & Hrep & _).
  rewrite Hsv. simpl in *. eauto.
Qed.

Lemma call_ok_inv t a now wid v payload d t' :
  rep t a -> call now wid v payload t = Ok (d, t') ->
  exists i j, a !! wid = Some i /\ operation now v payload i = Ok j /\ rep t' (<[wid := j]> a).
Proof.
  intros H Hc. rewrite call_mutate in Hc. pose proof (mutate_spec _ _ now wid v payload H) as Hm.
  destruct (a !! wid) as [i|]; [|by rewrite Hm in Hc].
  destruct (operation now v payload i) as [j|e] eqn:Hop; [|by rewrite Hm in Hc].
  destruct Hm as (t2 & Hm & Hr). rewrite Hm in Hc. injection Hc as <- <-. eauto.
Qed.

(** ** Properties *)

Lemma load_stored now wid t i r :
  finding_wf i -> revision i <> 0 -> t !! wid = Some r -> payload_json r = _canonical_json i ->
  row_integrity r = _integrity (_canonical_json i) -> row_updated_at r = now ->
  load wid t = Ok (mkStored (canon i) (_integrity (_canonical_json i)) now, t).
Proof.
  intros Hw Hr Ht Hp Hi <-. unfold load. rewrite Ht, Hi, Hp, String.eqb_refl. simpl.
  by rewrite deserialize_canonical.
Qed.

(** C15: interleaving.  Whatever clients run concurrently, the committed calls
    replay one after the other, in commit order, on the abstract map of items:
    no update is lost or applied to a stale item, the table represents the
    replayed map, and every stored item is reachable in the work item life
    cycle. *)
Theorem interleaving_refines es s :
  sys_run es s ->
  exists a, replay es = Ok a /\ rep (sys_table s) a /\ forall k i, a !! k = Some i -> reachable i.
Proof.
  intros (a & Ha & Hr & _)%sys_run_inv. exists a. split_and!; [done..|].
  intros k i Hk. destruct (rep_lookup _ _ _ _ Hr Hk) as (r & _ & Hri). by destruct Hri.
Qed.

Module StoreDemo.
Definition payload : dict :=
  [("work_item_id", JStr "w1"); ("repository", JStr "acme/app"); ("immutable_sha", JStr "sha0");
   ("customer_id", JStr "c1"); ("project_id", JStr "p1"); ("evidence_id", JStr "ev1");
   ("finding", JObj [("rule", JStr "B101"); ("line", JInt 3)])].
Definition proposing (title : string) : dict :=
  [("proposal_id", JStr "pr1"); ("finding_id", JStr "f1"); ("title", JStr title);
   ("rationale", JStr "Unsafe load"); ("smallest_reversible_change", JStr "Use safe_load");
   ("affected_paths", jstrs ["src/a.py"]); ("verification_plan", JStr "pytest");
   ("rollback_plan", JStr "git revert"); ("risk_level", JStr "low"); ("requested_by", JStr "bob")].
Definition created : OversightWorkItem :=
  match created_item payload with Ok i => i | Raise _ => mkItem (mkIdentity "" "" "" "" "" "") OBSERVED [] None None None None true false 0 end.
Definition proposed : OversightWorkItem :=
  match propose_payload "now1" (proposing "Pin the parser") (canon created) with
  | Ok i => i | Raise _ => created end.
Definition t1 : table :=
  match service_create "now0" payload ∅ with Ok (_, t) => t | Raise _ => ∅ end.
Definition t2 : table :=
  match save "now1" proposed 1 t1 with Ok (_, t) => t | Raise _ => ∅ end.
Definition second : inflight := mkInflight "w1" VPropose (proposing "Another title") (canon created).
End StoreDemo.

Lemma interleaving_refines_witness :
  let s := mkSystem StoreDemo.t2 [StoreDemo.second] in
  (exists a, rep (sys_table s) a) /\
  is_ok (save "now2" (mkItem (identity StoreDemo.proposed) PROPOSED (finding StoreDemo.proposed)
           None None None None true false 2) 1 StoreDemo.t2) = false.
Proof.
  set (first := mkInflight "w1" VPropose (StoreDemo.proposing "Pin the parser") (canon StoreDemo.created)).
  assert (sys_run [ECreate StoreDemo.payload] (mkSystem StoreDemo.t1 [StoreDemo.second; first])) as H.
  { assert (forall v p cs, sys_run [ECreate StoreDemo.payload] (mkSystem StoreDemo.t1 cs) ->
      sys_run [ECreate StoreDemo.payload] (mkSystem StoreDemo.t1 (mkInflight "w1" v p (canon StoreDemo.created) :: cs))) as Hl.
    { intros v p cs H. eapply (sys_load _ (mkSystem StoreDemo.t1 cs) "w1" v p
        (mkStored (canon StoreDemo.created) _ _) _ H). simpl. vm_compute. reflexivity. }
    apply Hl, Hl. eapply (sys_create [] (mkSystem ∅ []) "now0" StoreDemo.payload _ StoreDemo.t1);
      [apply sys_init | vm_compute; reflexivity | vm_compute; reflexivity]. }
  split; [|vm_compute; reflexivity].
  destruct (interleaving_refines ([ECreate StoreDemo.payload] ++ [EVerb "now1" "w1" VPropose (StoreDemo.proposing "Pin the parser")])
    (mkSystem StoreDemo.t2 [StoreDemo.second])) as (a & _ & Hr & _); [|by exists a].
  eapply (sys_commit _ _ first [StoreDemo.second] [] "now1" StoreDemo.proposed _ _ H eq_refl);
    vm_compute; reflexivity.
Defined.

(** The service implements the abstract store, on every branch.  On a table
    that represents a map of items, a mutating call returns the document of the
    next item and leaves a table that represents the updated map exactly when
    the item exists and the operation accepts it; a missing item and a refused
    operation raise the same exception as the abstract call. *)
Theorem call_spec t a now wid v payload :
  rep t a ->
  match apply_event (EVerb now wid v payload) a with
  | Ok a' => exists j d t', a' !! wid = Some j /\ call now wid v payload t = Ok (d, t') /\ rep t' a' /\
               d = dmerge (safe_work_item j)
                     [("integrity_sha256", JStr (_integrity (_canonical_json j))); ("updated_at", JStr now)]
  | Raise e => call now wid v payload t = Raise e
  end.
Proof.
  intros H. rewrite call_mutate. pose proof (mutate_spec _ _ now wid v payload H) as Hm. simpl.
  destruct (a !! wid) as [i|]; [|done]. destruct (operation now v payload i) as [j|e]; [|done].
  destruct Hm as (t' & -> & Hr). exists j. do 2 eexists. rewrite lookup_insert_eq. by split_and!.
Qed.
Lemma call_spec_witness :
  exists d t', call "now1" "w1" VPropose (StoreDemo.proposing "Pin the parser") StoreDemo.t1 = Ok (d, t').
Proof.
  assert (rep StoreDemo.t1 {[ "w1" := canon StoreDemo.created ]}) as H.
  { assert (rep ∅ ∅) as H0 by (intros k; rewrite !lookup_empty; constructor).
    pose proof (create_spec _ _ "now0" StoreDemo.payload H0 ltac:(vm_compute; reflexivity)) as H.
    destruct (apply_event (ECreate StoreDemo.payload) ∅) as [a|] eqn:Ha; [|vm_compute in Ha; discriminate].
    assert (a = {[ "w1" := canon StoreDemo.created ]}) as <- by (vm_compute in Ha; injection Ha as <-; vm_compute; reflexivity).
    destruct H as (d & t & Hc & Hr). unfold StoreDemo.t1. by rewrite Hc. }
  pose proof (call_spec _ _ "now1" "w1" VPropose (StoreDemo.proposing "Pin the parser") H) as Hs.
  assert (exists a', apply_event (EVerb "now1" "w1" VPropose (StoreDemo.proposing "Pin the parser"))
    {[ "w1" := canon StoreDemo.created ]} = Ok a') as [a' Ha] by (eexists; vm_compute; reflexivity).
  rewrite Ha in Hs. destruct Hs as (j & d & t' & _ & Hc & _). exists d, t'. exact Hc.
Defined.

(** C16: tampering.  When the payload of a stored row is replaced and its digest
    is not, [load] raises the integrity error, unless the two payloads are a
    SHA-256 collision. *)
Theorem tampering_detected t a wid r q :
  rep t a -> t !! wid = Some r -> q <> payload_json r ->
  load wid (<[wid := mkRow (row_repository r) (row_immutable_sha r) (row_customer_id r) (row_project_id r)
                       (row_state r) (row_revision r) q (row_integrity r) (row_updated_at r)]> t)
  = fail MonitorIntegrityError "monitor_work_item_integrity_mismatch"
  \/ collision (utf8_encode q) (utf8_encode (payload_json r)).
Proof.
  intros H Ht Hq. specialize (H wid). rewrite Ht in H. inversion H as [? i Hr|]; subst.
  unfold load. rewrite lookup_insert_eq. simpl.
  rewrite (rep_integrity _ _ _ Hr), <- (rep_payload _ _ _ Hr).
  destruct (String.eqb_spec (_integrity (payload_json r)) (_integrity q)) as [He|]; [|by left].
  right. symmetry in He. apply sha256_tag_eq in He as [He|]; [|done]. by apply utf8_encode_inj in He.
Qed.
Lemma tampering_detected_witness :
  exists r q, StoreDemo.t1 !! "w1" = Some r /\ q <> payload_json r /\
    (load "w1" (<["w1" := mkRow (row_repository r) (row_immutable_sha r) (row_customer_id r) (row_project_id r)
                       (row_state r) (row_revision r) q (row_integrity r) (row_updated_at r)]> StoreDemo.t1)
     = fail MonitorIntegrityError "monitor_work_item_integrity_mismatch"
     \/ collision (utf8_encode q) (utf8_encode (payload_json r))).
Proof.
  assert (rep ∅ ∅) as H0 by (intros k; rewrite !lookup_empty; constructor).
  pose proof (create_spec _ _ "now0" StoreDemo.payload H0 ltac:(vm_compute; reflexivity)) as H.
  destruct (apply_event (ECreate StoreDemo.payload) ∅) as [a|] eqn:Ha; [|vm_compute in Ha; discriminate].
  destruct H as (d & t & Hc & Hr). assert (StoreDemo.t1 = t) as <- by (unfold StoreDemo.t1; by rewrite Hc).
  destruct (StoreDemo.t1 !! "w1") as [r|] eqn:Ht; [|vm_compute in Ht; discriminate].
  assert ("{}" <> payload_json r) as Hq.
  { vm_compute in Ht. injection Ht as <-. vm_compute. discriminate. }
  exists r, "{}". split_and!; [done|done|]. exact (tampering_detected _ _ "w1" r "{}" Hr Ht Hq).
Defined.

(** Storing an item and loading it gives the item back, its finding's keys
    in order; a duplicate key raises, and leaves the stored item. *)
Theorem store_roundtrip now i t :
  finding_wf i -> revision i <> 0 ->
  let wid := work_item_id (identity i) in
  match t !! wid with
  | Some _ => create now i t = fail MonitorItemDuplicate "monitor_work_item_already_exists"
  | None => exists t', create now i t = Ok (mkStored i (_integrity (_canonical_json i)) now, t') /\
              load wid t' = Ok (mkStored (canon i) (_integrity (_canonical_json i)) now, t') /\
              canon (canon i) = canon i /\ forall k, k <> wid -> t' !! k = t !! k
  end.
Proof.
  intros Hw Hr wid. unfold create. fold wid. destruct (t !! wid) eqn:Ht; [done|].
  eexists. split_and!; [reflexivity| |apply canon_idemp|].
  - eapply load_stored; [done|done|apply lookup_insert_eq|reflexivity..].
  - intros k Hk. by rewrite lookup_insert_ne.
Qed.
Lemma store_roundtrip_witness :
  exists t', create "now0" StoreDemo.created ∅ = Ok (mkStored StoreDemo.created (_integrity (_canonical_json StoreDemo.created)) "now0", t') /\
    item <$> (fst <$> load "w1" t') = Ok (canon StoreDemo.created).
Proof.
  assert (work_item_id (identity StoreDemo.created) = "w1") as Hk by (vm_compute; reflexivity).
  pose proof (store_roundtrip "now0" StoreDemo.created ∅ ltac:(vm_compute; reflexivity)
    ltac:(vm_compute; discriminate)) as H.
  cbv zeta in H. rewrite Hk, lookup_empty in H. destruct H as (t' & Hc & Hl & _).
  exists t'. split; [exact Hc|]. by rewrite Hl.
Defined.
