(* ===== verification/MonitorGovernance.v ===== *)
(** * Approval expiry and revocation (nico/monitor_approval_governance.py)

    A second table holds revoked approvals under their digest.  The governed
    service checks a work item's approval against that table and the clock
    before it starts an execution.  [clock] is the [datetime] the service's
    clock returns, [now] the text the item store stamps a row with.

    A method is several transactions, each on a connection of its own: [begin]
    loads the item, looks its approval up among the revocations, loads the item
    again and saves it.  So a method takes the tables its reads saw, and acts on
    the tables as they are when it commits; [gov_run] is the relation the commits
    of any number of clients span, every read being of the state some earlier
    commit left, in the order of the program. *)

From S2P Require Import Prelude PyStr Sha256 PyFloat Json JsonFacts PyTime PyTimeFacts.
From S2P Require Import MonitorContract MonitorStore.

Record ApprovalRevocation := mkRevocation {
  rv_approval_sha256 : string;
  rv_proposal_id : string;
  rv_work_item_id : string;
  revoked_by : string;
  revoked_at : string;
  rv_reason : string;
  revocation_sha256 : string }.

Abbreviation revocations := (gmap string ApprovalRevocation) (only parsing).

Definition aerr {A} (m : string) : res A := fail ApprovalGovernanceError m.
Definition _required (value code : string) : res string := required_as ApprovalGovernanceError value code.
Definition _digest (parts : list string) : string := pipe_digest parts.

(** The empty token is refused first; [fromisoformat]'s [ValueError] becomes
    [code], the [OverflowError] of [astimezone] is not caught. *)
Definition _parse_time (value code : string) : res datetime :=
  if negb (truthy (strip value)) then aerr code
  else match parse_utc value with
       | Ok t => Ok t
       | Raise e => if isinstance e ValueError then aerr code else Raise e
       end.

(** ** ApprovalRevocationStore *)

Definition revoke_record (clock : datetime) (a : ApprovalRecord) (wid by_ reason_ at_ : string)
    (rs : revocations) : res (ApprovalRevocation * revocations) :=
  if negb (approved a) then aerr "approval_rejected_record_cannot_be_revoked"
  else
    let timestamp := str_or at_ (isoformat_z clock) in
    _ ← _parse_time timestamp "approval_revocation_time_invalid";
    sha ← _required (approval_sha256 a) "approval_identity_required";
    pid ← _required (ap_proposal_id a) "approval_proposal_required";
    w ← _required wid "approval_work_item_required";
    by_' ← _required by_ "approval_revoker_required";
    rsn ← _required reason_ "approval_revocation_reason_required";
    let record := mkRevocation sha pid w by_' timestamp rsn
      (_digest [approval_sha256 a; ap_proposal_id a; wid; by_; timestamp; reason_]) in
    match rs !! sha with
    | Some _ => aerr "approval_already_revoked"
    | None => Ok (record, <[sha := record]> rs)
    end.

Definition find (rs : revocations) (sha : string) : option ApprovalRevocation := rs !! sha.

Definition validate_active_approval (clock : datetime) (rs : revocations) (i : OversightWorkItem)
    : res ApprovalRecord :=
  match bool_decide (state i = APPROVED), approval i, proposal i with
  | true, Some a, Some p =>
      if negb (approved a) then aerr "monitor_execution_approval_rejected"
      else if negb (String.eqb (ap_proposal_id a) (proposal_id p))
      then aerr "approval_proposal_identity_mismatch"
      else if bool_decide (find rs (approval_sha256 a) <> None)
      then aerr "monitor_execution_approval_revoked"
      else
        approved_at_ ← _parse_time (approved_at a) "approval_approved_at_invalid";
        if clock <? approved_at_ then aerr "approval_not_yet_valid"
        else if truthy (expires_at a) then
          expires ← _parse_time (expires_at a) "approval_expiry_invalid";
          if expires <=? approved_at_ then aerr "approval_expiry_must_follow_approval"
          else if expires <=? clock then aerr "monitor_execution_approval_expired"
          else Ok a
        else Ok a
  | _, _, _ => aerr "monitor_execution_requires_approval"
  end.

(** ** GovernedMonitorExecuteService *)

Record gov := mkGov { g_items : table; g_revs : revocations }.

Definition gtx (A : Type) : Type := gov -> res (A * gov).

(** A transaction on the item table alone. *)
Definition on_items {A} (f : tx A) : gtx A := fun g =>
  '(r, t) ← f (g_items g); Ok (r, mkGov t (g_revs g)).

(** [_mutate], with its two transactions apart: the load saw [loaded]. *)
Definition mutate_after (loaded : table) (now wid : string) (operation : OversightWorkItem -> res OversightWorkItem)
    : tx dict := fun t =>
  '(stored, _) ← load wid loaded;
  updated ← operation (item stored);
  '(s, t) ← save now updated (revision (item stored)) t;
  Ok (_response s, t).

(** [begin]: the item is loaded from [seen] and its approval looked up in
    [revoked]; [super().begin] loads from [loaded], and saves. *)
Definition governed_begin (clock : datetime) (now wid : string) (payload : dict)
    (seen : table) (revoked : revocations) (loaded : table) : gtx dict := fun g =>
  '(stored, _) ← load wid seen;
  _ ← validate_active_approval clock revoked (item stored);
  on_items (mutate_after loaded now wid (begin_payload payload)) g.

(** [record.__dict__] *)
Definition revocation_json (r : ApprovalRevocation) : json := JObj
  [("approval_sha256", JStr (rv_approval_sha256 r)); ("proposal_id", JStr (rv_proposal_id r));
   ("work_item_id", JStr (rv_work_item_id r)); ("revoked_by", JStr (revoked_by r));
   ("revoked_at", JStr (revoked_at r)); ("reason", JStr (rv_reason r));
   ("revocation_sha256", JStr (revocation_sha256 r))].

(** [revoke]: the item is loaded from [seen], the revocation is an insertion of
    its own. *)
Definition governed_revoke (clock : datetime) (wid : string) (payload : dict) (seen : table) : gtx dict := fun g =>
  '(stored, _) ← load wid seen;
  match approval (item stored) with
  | None => aerr "approval_record_not_found"
  | Some a =>
      '(record, rs) ← revoke_record clock a wid (dget_str payload "revoked_by")
         (dget_str payload "reason") (dget_str payload "revoked_at") (g_revs g);
      Ok (dmerge (_response stored)
            [("approval_active", JBool false); ("approval_revocation", revocation_json record);
             ("production_execution_requires_explicit_approval", JBool true);
             ("client_delivery_allowed", JBool false)],
          mkGov (g_items g) rs)
  end.

(** The revocations are looked up twice: in [found] for the document, in
    [checked] by the check. *)
Definition approval_status (clock : datetime) (wid : string) (seen : table) (found checked : revocations) : res dict :=
  '(stored, _) ← load wid seen;
  match approval (item stored) with
  | None => Ok (dmerge (_response stored)
                  [("approval_active", JBool false); ("approval_reason", JStr "not_approved")])
  | Some a =>
      let revoked := find found (approval_sha256 a) in
      '(active, why) ←
        match validate_active_approval clock checked (item stored) with
        | Ok _ => Ok (true, "active")
        | Raise e => if isinstance e ApprovalGovernanceError then Ok (false, exn_msg e) else Raise e
        end;
      Ok (dmerge (_response stored)
            [("approval_active", JBool active); ("approval_reason", JStr why);
             ("approval_revocation", opt_json revocation_json revoked)])
  end.

(** ** Concurrent clients *)

Definition gov_init : gov := mkGov ∅ ∅.

(** [reads gs h]: the transactions that read [gs], the last one first, ran one
    after the other in the history [h], whose head is the present state. *)
Fixpoint reads (gs h : list gov) : Prop :=
  match gs with
  | [] => True
  | g :: gs => exists h', (g :: h') `suffix_of` h /\ reads gs (g :: h')
  end.

(** The histories of the two tables: a call adds a state when it commits. *)
Inductive gov_run : list gov -> Prop :=
  | gr_init : gov_run [gov_init]
  | gr_create g h now payload d g' :
      gov_run (g :: h) -> json_wf (JObj payload) = true ->
      on_items (service_create now payload) g = Ok (d, g') -> gov_run (g' :: g :: h)
  | gr_call g h now wid v payload loaded d g' :
      gov_run (g :: h) -> v <> VBegin -> reads [loaded] (g :: h) ->
      on_items (mutate_after (g_items loaded) now wid (operation now v payload)) g = Ok (d, g') ->
      gov_run (g' :: g :: h)
  | gr_begin g h clock now wid payload seen revoked loaded d g' :
      gov_run (g :: h) -> reads [loaded; revoked; seen] (g :: h) ->
      governed_begin clock now wid payload (g_items seen) (g_revs revoked) (g_items loaded) g = Ok (d, g') ->
      gov_run (g' :: g :: h)
  | gr_revoke g h clock wid payload seen d g' :
      gov_run (g :: h) -> reads [seen] (g :: h) ->
      governed_revoke clock wid payload (g_items seen) g = Ok (d, g') -> gov_run (g' :: g :: h).

(** ** Lemmas *)

Lemma on_items_ok {A} (f : tx A) g x g' :
  on_items f g = Ok (x, g') -> exists t, f (g_items g) = Ok (x, t) /\ g' = mkGov t (g_revs g).
Proof. unfold on_items. intros H. apply bind_ok_inv in H as ([y t] & Hf & [= <- <-]). eauto. Qed.

(** What lets an approval start an execution. *)
Record active (clock : datetime) (rs : revocations) (i : OversightWorkItem) (a : ApprovalRecord) : Prop := {
  act_state : state i = APPROVED;
  act_approval : approval i = Some a;
  act_approved : approved a = true;
  act_proposal : exists p, proposal i = Some p /\ ap_proposal_id a = proposal_id p;
  act_not_revoked : find rs (approval_sha256 a) = None;
  act_window : exists t0, _parse_time (approved_at a) "approval_approved_at_invalid" = Ok t0 /\
    t0 <= clock /\ (expires_at a <> "" -> exists t1,
      _parse_time (expires_at a) "approval_expiry_invalid" = Ok t1 /\ t0 < t1 /\ clock < t1) }.

Lemma active_approval_spec clock rs i a :
  validate_active_approval clock rs i = Ok a <-> active clock rs i a.
Proof.
  unfold validate_active_approval, aerr. split.
  - intros H. destruct (bool_decide _) eqn:Hs; [|discriminate]. apply bool_decide_eq_true in Hs.
    destruct (approval i) as [a'|] eqn:Ha; [|discriminate].
    destruct (proposal i) as [p|] eqn:Hp; [|discriminate].
    destruct (approved a') eqn:Hok; [|discriminate].
    destruct (String.eqb_spec (ap_proposal_id a') (proposal_id p)) as [Hid|]; [|discriminate].
    cbn [negb] in H. case_bool_decide as Hf; [discriminate|].
    apply bind_ok_inv in H as (t0 & Ht0 & H). destruct (Z.ltb_spec clock t0) as [|Hc]; [discriminate|].
    assert (a' = a /\ (expires_at a' <> "" -> exists t1,
      _parse_time (expires_at a') "approval_expiry_invalid" = Ok t1 /\ t0 < t1 /\ clock < t1)) as [<- Hw].
    { destruct (truthy (expires_at a')) eqn:Ht.
      - apply bind_ok_inv in H as (t1 & Ht1 & H). destruct (Z.leb_spec t1 t0); [discriminate|].
        destruct (Z.leb_spec t1 clock); [discriminate|]. injection H as ->. eauto.
      - injection H as ->. apply truthy_false in Ht. done. }
    constructor; eauto.
  - intros [-> -> -> (p & -> & ->) -> (t0 & -> & Ht0 & Hw)]. rewrite String.eqb_refl. simpl.
    rewrite (proj2 (Z.ltb_ge _ _) Ht0). destruct (truthy (expires_at a)) eqn:Ht; [|done].
    apply truthy_spec in Ht. destruct (Hw Ht) as (t1 & -> & H1 & H2). simpl.
    by rewrite (proj2 (Z.leb_gt _ _) H1), (proj2 (Z.leb_gt _ _) H2).
Qed.

(** Only [record_approval] sets the approval, and only in [PROPOSED], where
    there is none yet. *)
Lemma approval_kept i j a : reachable i -> approval i = Some a -> step i j -> approval j = Some a.
Proof.
  intros (_ & _ & _ & _ & Hi)%reachable_inv Ha [o H]. destruct o; simpl in H.
  - apply op_propose in H as (Hs & p & _ & ->). by simpl.
  - apply op_approve in H as (Hs & _). unfold phase in Hi. rewrite Hs in Hi. naive_solver.
  - apply op_begin in H as (_ & p & b & _ & _ & _ & _ & _ & _ & ->). by simpl.
  - apply op_execute in H as (_ & p & b & e & H).
    destruct H as (_ & _ & _ & _ & _ & _ & _ & _ & _ & -> & _). by simpl.
  - apply op_verify in H as (_ & p & e & v & H). destruct H as (_ & _ & _ & _ & _ & _ & _ & _ & _ & ->). by simpl.
Qed.

Lemma reachable_approval i a : reachable i -> approval i = Some a -> normalized (approval_sha256 a).
Proof.
  intros (_ & _ & _ & _ & Hi)%reachable_inv Ha.
  assert (exists p, approval_wf p a) as (p & Hw).
  { unfold phase, approved_by in Hi. destruct (state i); naive_solver. }
  by destruct Hw as (_ & _ & _ & _ & _ & _ & Hn).
Qed.

Lemma mutate_after_same t now wid f : mutate_after t now wid f t = _mutate now wid f t.
Proof.
  unfold mutate_after, _mutate, load. destruct (t !! wid); [|done]. destruct (negb _); [done|].
  by destruct (_deserialize _).
Qed.

Lemma governed_begin_ok clock now wid payload seen revoked loaded g d g' :
  governed_begin clock now wid payload seen revoked loaded g = Ok (d, g') ->
  exists s t a, load wid seen = Ok (s, t) /\ active clock revoked (item s) a /\
    exists t', mutate_after loaded now wid (operation now VBegin payload) (g_items g) = Ok (d, t') /\
      g' = mkGov t' (g_revs g).
Proof.
  unfold governed_begin. intros H. apply bind_ok_inv in H as ([s t] & Hl & H).
  apply bind_ok_inv in H as (a & Ha & H). apply active_approval_spec in Ha. apply on_items_ok in H.
  exists s, t, a. by split_and!.
Qed.

Lemma revoke_record_ok clock a wid by_ why at_ rs r rs' :
  revoke_record clock a wid by_ why at_ rs = Ok (r, rs') -> normalized (approval_sha256 a) ->
  approved a = true /\ rs !! approval_sha256 a = None /\ rs' = <[approval_sha256 a := r]> rs.
Proof.
  unfold revoke_record, aerr. intros H Hn. destruct (approved a) eqn:Hok; [|discriminate].
  cbn [negb] in H. unfold _required in H. rewrite (required_normalized _ _ _ Hn) in H.
  cbn [mbind res_bind] in H.
  repeat match type of H with _ ≫= _ = Ok _ => apply bind_ok_inv in H as (? & _ & H); cbv beta in H end.
  destruct (rs !! approval_sha256 a) eqn:Hr; [discriminate|]. injection H as <- <-. by split_and!.
Qed.

Lemma governed_revoke_ok clock wid payload seen g d g' :
  governed_revoke clock wid payload seen g = Ok (d, g') ->
  exists s t a r, load wid seen = Ok (s, t) /\ approval (item s) = Some a /\
    (normalized (approval_sha256 a) -> approved a = true /\ g_revs g !! approval_sha256 a = None /\
       g' = mkGov (g_items g) (<[approval_sha256 a := r]> (g_revs g))).
Proof.
  unfold governed_revoke, aerr. intros H. apply bind_ok_inv in H as ([s t] & Hl & H).
  destruct (approval (item s)) as [a|] eqn:Ha; [|discriminate].
  apply bind_ok_inv in H as ([r rs] & Hr & [= _ <-]). exists s, t, a, r. split_and!; [done|done|].
  intros Hn. apply revoke_record_ok in Hr as (Hok & Hn' & ->); [|done]. by split_and!.
Qed.

(** ** What a history keeps *)

Lemma approved_revision i : reachable i -> state i = APPROVED -> revision i = 3.
Proof. intros (_ & _ & _ & _ & Hi)%reachable_inv Hs. unfold phase in Hi. rewrite Hs in Hi. tauto. Qed.

Lemma elem_of_suffix {A} (x : A) l : x ∈ l -> exists k, (x :: k) `suffix_of` l.
Proof. intros (l1 & l2 & ->)%list_elem_of_split. exists l2. by exists l1. Qed.

(** Later versions of an item: its approval and what it says stay. *)
Lemma later_item i j : reachable i -> rtc step i j ->
  reachable j /\ revision i <= revision j /\ (revision i = revision j -> i = j) /\
  (forall ap, approval i = Some ap -> approval j = Some ap).
Proof.
  intros Hi H. induction H as [i|i k j Hs _ IH]; [by split_and!|].
  destruct (IH (reach_step _ _ Hi Hs)) as (Hj & Hle & _ & Hap). pose proof (step_frame _ _ Hs) as (_ & Hr & _).
  split_and!; [done|lia|lia|]. intros ap Ha. by apply Hap, (approval_kept i).
Qed.

(** A table represents one map of items. *)
Lemma rep_inj t a b : rep t a -> rep t b -> a = b.
Proof.
  intros Ha Hb. apply map_eq. intros k. pose proof (load_spec _ _ k Ha) as H1. pose proof (load_spec _ _ k Hb) as H2.
  destruct (a !! k), (b !! k); try done.
  - destruct H1 as (s1 & E1 & <- & _), H2 as (s2 & E2 & <- & _). rewrite E1 in E2. by injection E2 as ->.
  - destruct H1 as (s1 & E1 & _). by rewrite E1 in H2.
  - destruct H2 as (s2 & E2 & _). by rewrite E2 in H1.
Qed.

Lemma load_rep t a wid s t' : rep t a -> load wid t = Ok (s, t') -> a !! wid = Some (item s).
Proof.
  intros H Hl. pose proof (load_spec _ _ wid H) as Hs. destruct (a !! wid); [|by rewrite Hs in Hl].
  destruct Hs as (s' & Hs & <- & _). rewrite Hs in Hl. by injection Hl as <- _.
Qed.

(** [older g a g' a']: of two states, with the items their tables represent, the
    second continues the first. *)
Definition older (g : gov) (a : items) (g' : gov) (a' : items) : Prop :=
  (forall wid i, a !! wid = Some i -> exists i', a' !! wid = Some i' /\ rtc step i i') /\ g_revs g ⊆ g_revs g'.

Lemma older_refl g a : older g a g a.
Proof. split; [|done]. intros wid i Hi. exists i. split; [done|apply rtc_refl]. Qed.

Lemma older_trans g1 a1 g2 a2 g3 a3 : older g1 a1 g2 a2 -> older g2 a2 g3 a3 -> older g1 a1 g3 a3.
Proof.
  intros [H1 R1] [H2 R2]. split; [|by etrans]. intros wid i Hi. destruct (H1 _ _ Hi) as (j & Hj & Hij).
  destruct (H2 _ _ Hj) as (k & Hk & Hjk). exists k. split; [done|by etrans].
Qed.

Lemma older_step g a t wid i j : a !! wid = Some i -> step i j -> older g a (mkGov t (g_revs g)) (<[wid := j]> a).
Proof.
  intros Hi Hs. split; [|done]. intros w i0 Hw. destruct (decide (wid = w)) as [<-|Hne].
  - exists j. rewrite lookup_insert_eq. simplify_eq. split; [done|by apply rtc_once].
  - exists i0. rewrite lookup_insert_ne by done. split; [done|apply rtc_refl].
Qed.

(** A mutation whose load saw an earlier state acts on the item that is stored,
    or does not commit. *)
Lemma mutate_after_ok gl al g a now wid v payload d t' :
  rep (g_items gl) al -> rep (g_items g) a -> older gl al g a ->
  mutate_after (g_items gl) now wid (operation now v payload) (g_items g) = Ok (d, t') ->
  exists i j, al !! wid = Some i /\ a !! wid = Some i /\ operation now v payload i = Ok j /\ rep t' (<[wid := j]> a).
Proof.
  intros Hl Hr [Ho _] H. unfold mutate_after in H. apply bind_ok_inv in H as ([s t] & Hld & H).
  apply bind_ok_inv in H as (j & Hop & H). apply bind_ok_inv in H as ([st t2] & Hsv & H). injection H as _ <-.
  pose proof (load_rep _ _ _ _ _ Hl Hld) as Hi. destruct (call_ok_load _ _ wid v payload _ Hl Hi) as (Hok & Hw & _).
  destruct (Ho _ _ Hi) as (i' & Hi' & Hst). destruct (later_item _ _ (proj2 (proj2 Hok)) Hst) as (_ & Hle & Heq & _).
  assert (call_ok a (mkInflight wid v payload (item s))) as Hc by (split_and!; [apply Hok..|done|]; by exists i').
  destruct (commit_sim _ _ _ _ _ _ _ Hr Hc Hop Hsv) as (Ha & Hr' & _). by exists (item s), j.
Qed.

(** Every state of a history represents some items, and continues the ones
    before it. *)
Definition continued (h : list gov) (g : gov) (a : items) : Prop :=
  rep (g_items g) a /\ forall g0, g0 ∈ h -> exists a0, rep (g_items g0) a0 /\ older g0 a0 g a.

Lemma continued_cons h g a g' a' : continued (g :: h) g a -> rep (g_items g') a' -> older g a g' a' ->
  continued (g' :: g :: h) g' a'.
Proof.
  intros [Hr H] Hr' Ho. split; [done|]. intros g0 [->|Hin]%elem_of_cons; [exists a'; by auto using older_refl|].
  destruct (H g0 Hin) as (a0 & Hr0 & Ho0). exists a0. split; [done|]. by eapply older_trans.
Qed.

Lemma suffix_elem {A} (x : A) l k : (x :: l) `suffix_of` k -> x ∈ k.
Proof. intros (l0 & ->). rewrite elem_of_app. right. by left. Qed.

Lemma gov_run_inv g h : gov_run (g :: h) -> exists a, continued (g :: h) g a.
Proof.
  intros H. remember (g :: h) as gh eqn:E. revert g h E.
  induction H as [|g h now payload d g' _ IH Hw H|g h now wid v payload loaded d g' _ IH _ (h0 & Hs & _) H
    |g h clock now wid payload seen revoked loaded d g' _ IH (h0 & Hs & _) H|g h clock wid payload seen d g' _ IH (h0 & Hs & _) H];
    intros g0 h1 [= <- <-]; try (destruct (IH _ _ eq_refl) as (a & Hc); pose proof Hc as [Hr Hold]).
  - exists ∅. assert (rep (g_items gov_init) ∅) as Hr by (intros k; simpl; rewrite !lookup_empty; constructor).
    split; [done|]. intros g ->%list_elem_of_singleton. exists ∅. by auto using older_refl.
  - apply on_items_ok in H as (t & H & ->). pose proof (create_spec _ _ now _ Hr Hw) as Hcr.
    destruct (apply_event (ECreate payload) a) as [a'|] eqn:Ha; [|by rewrite Hcr in H].
    destruct Hcr as (d' & t' & Hcr & Hr'). rewrite Hcr in H. injection H as <- <-. exists a'.
    apply (continued_cons _ _ a); [done|done|]. simpl in Ha. apply bind_ok_inv in Ha as (i & _ & Ha).
    destruct (a !! _) eqn:Hk; [discriminate|]. injection Ha as <-. split; [|done].
    intros w i0 Hi0. exists i0. rewrite lookup_insert_ne by congruence. split; [done|apply rtc_refl].
  - destruct (Hold _ (suffix_elem _ _ _ Hs)) as (al & Hrl & Ho). apply on_items_ok in H as (t & H & ->).
    destruct (mutate_after_ok _ _ _ _ _ _ _ _ _ _ Hrl Hr Ho H) as (i & j & _ & Hi & Hop%operation_step & Hr').
    exists (<[wid := j]> a). apply (continued_cons _ _ a); [done|done|]. by eapply older_step.
  - destruct (Hold _ (suffix_elem _ _ _ Hs)) as (al & Hrl & Ho). apply governed_begin_ok in H as (s & t & ap & _ & _ & t' & H & ->).
    destruct (mutate_after_ok _ _ _ _ _ _ _ _ _ _ Hrl Hr Ho H) as (i & j & _ & Hi & Hop%operation_step & Hr').
    exists (<[wid := j]> a). apply (continued_cons _ _ a); [done|done|]. by eapply older_step.
  - destruct (Hold _ (suffix_elem _ _ _ Hs)) as (as_ & Hrs & _). apply governed_revoke_ok in H as (s & t & ap & r & Hl & Ha & H).
    apply (load_rep _ _ _ _ _ Hrs) in Hl. destruct (rep_lookup _ _ _ _ Hrs Hl) as (ro & _ & Hri).
    destruct H as (_ & Hn & ->); [eapply reachable_approval; [apply Hri|done]|].
    exists a. apply (continued_cons _ _ a); [done|done|]. split; [apply (older_refl g a)|]. simpl. by apply insert_subseteq.
Qed.

(** Reading the present state, and the one before. *)
Lemma reads_now g h gs : reads gs (g :: h) -> reads (g :: gs) (g :: h).
Proof. intros H. exists h. split; [reflexivity|exact H]. Qed.
Lemma reads_before g0 g h gs : reads (g :: gs) (g :: h) -> reads (g :: gs) (g0 :: g :: h).
Proof. intros (h' & Hs & H). exists h'. split; [by apply suffix_cons_r|exact H]. Qed.

(** A history is one at each of its moments. *)
Lemma gov_run_suffix h g h' : gov_run h -> (g :: h') `suffix_of` h -> gov_run (g :: h').
Proof.
  intros H Hs. induction h as [|g1 h IH]; [by apply suffix_cons_nil_inv in Hs|].
  apply suffix_cons_inv in Hs as [[= <- <-]|Hs]; [done|].
  apply IH; [|done]. inversion H; subst; [by apply suffix_cons_nil_inv in Hs|done..].
Qed.

(** Of two moments, the later continues the earlier. *)
Lemma moments h g h1 g0 h0 : gov_run h -> (g :: h1) `suffix_of` h -> (g0 :: h0) `suffix_of` (g :: h1) ->
  exists a a0, rep (g_items g) a /\ rep (g_items g0) a0 /\ older g0 a0 g a.
Proof.
  intros H H1 H0. destruct (gov_run_inv _ _ (gov_run_suffix _ _ _ H H1)) as (a & Hr & Hold).
  destruct (Hold g0 (suffix_elem _ _ _ H0)) as (a0 & Hr0 & Ho). by exists a, a0.
Qed.

(** A created, proposed and approved item, for the witnesses. *)
Module GovDemo.
Definition approving : dict :=
  [("approver_id", JStr "alice"); ("approved", JBool true); ("scope", jstrs ["src/a.py"]);
   ("reason", JStr "reviewed"); ("approved_at", JStr "2024-01-01T00:00:00Z");
   ("expires_at", JStr "2024-01-02T00:00:00Z")].
Definition beginning : dict :=
  [("executor_id", JStr "runner"); ("requested_paths", jstrs ["src/a.py"]); ("current_sha", JStr "sha0")].
Definition revoking : dict :=
  [("revoked_by", JStr "bob"); ("reason", JStr "regression"); ("revoked_at", JStr "")].
Definition noon : datetime := Eval vm_compute in
  match parse_utc "2024-01-01T12:00:00Z" with Ok t => t | Raise _ => 0 end.
Definition table_of (r : res (dict * gov)) : gov := match r with Ok (_, g) => g | Raise _ => gov_init end.
(** A call with nothing in between. *)
Definition alone (now wid : string) (v : verb) (payload : dict) (g : gov) : res (dict * gov) :=
  on_items (mutate_after (g_items g) now wid (operation now v payload)) g.
Definition g1 : gov := Eval vm_compute in table_of (on_items (service_create "now0" StoreDemo.payload) gov_init).
Definition g2 : gov := Eval vm_compute in
  table_of (alone "now1" "w1" VPropose (StoreDemo.proposing "Pin the parser") g1).
Definition g3 : gov := Eval vm_compute in table_of (alone "now2" "w1" VApprove approving g2).
Definition s3 : StoredMonitorItem := Eval vm_compute in
  match load "w1" (g_items g3) with Ok (s, _) => s | Raise _ => mkStored StoreDemo.created "" "" end.
Definition a3 : ApprovalRecord := Eval vm_compute in
  match approval (item s3) with Some a => a | None => mkApproval "" "" false [] "" "" "" "" end.
Definition past : list gov := [g2; g1; gov_init].
(** The history after bob has revoked the approval. *)
Definition g4 : gov := Eval vm_compute in table_of (governed_revoke noon "w1" revoking (g_items g3) g3).

Lemma run3 : gov_run (g3 :: past).
Proof.
  assert (forall g h, reads [g] (g :: h)) as Hr by (intros g h; by apply reads_now).
  eapply (gr_call _ _ "now2" "w1" VApprove approving g2); [|discriminate|apply Hr|vm_compute; reflexivity].
  eapply (gr_call _ _ "now1" "w1" VPropose (StoreDemo.proposing "Pin the parser") g1); [|discriminate|apply Hr|vm_compute; reflexivity].
  eapply (gr_create _ _ "now0" StoreDemo.payload); [apply gr_init|vm_compute; reflexivity|vm_compute; reflexivity].
Defined.
End GovDemo.

(** ** Properties *)

(** C17: the governed start, with any number of concurrent clients.  When
    [begin] commits in a history whose states its four transactions saw in order,
    it acts on the very item that was checked: the item stored at the commit, that
    it started from, and that was loaded for the check are the same.  Its approval
    is an approved one of its own proposal, the clock is inside its window, no
    revocation of it had been committed when it was looked up, nor before; the
    paths are inside both the proposal and the approved scope; and the commit
    stores the item in the state EXECUTING and nothing else.  Between the lookup
    and the commit nothing is checked: [revocation_race]. *)
Theorem governed_begin_safe g h clock now wid payload seen revoked loaded d g' :
  gov_run (g :: h) -> reads [loaded; revoked; seen] (g :: h) ->
  governed_begin clock now wid payload (g_items seen) (g_revs revoked) (g_items loaded) g = Ok (d, g') ->
  exists a i ap p paths,
    rep (g_items g) a /\ a !! wid = Some i /\
    (item <$> (fst <$> load wid (g_items seen))) = Ok i /\ (item <$> (fst <$> load wid (g_items loaded))) = Ok i /\
    active clock (g_revs revoked) i ap /\
    (forall h0 g0, (revoked :: h0) `suffix_of` (g :: h) -> g0 ∈ revoked :: h0 -> find (g_revs g0) (approval_sha256 ap) = None) /\
    proposal i = Some p /\ dget_strs payload "requested_paths" = Ok paths /\ paths <> [] /\
    (forall x, x ∈ paths -> x ∈ affected_paths p /\ x ∈ scope ap) /\
    rep (g_items g') (<[wid := set_executing i]> a) /\ g_revs g' = g_revs g.
Proof.
  intros Hg (hl & Hl & hr & Hrv & hs & Hs & _) H.
  destruct (moments _ _ _ _ _ Hg (reflexivity (g :: h)) Hl) as (a & al & Hr & Hrl & Hol).
  assert ((seen :: hs) `suffix_of` loaded :: hl) as Hsl by by etrans.
  destruct (moments _ _ _ _ _ Hg Hl Hsl) as (al' & as_ & Hrl' & Hrs & Hos).
  pose proof (rep_inj _ _ _ Hrl' Hrl) as ->.
  apply governed_begin_ok in H as (s & t & ap & Hld & Hact & t' & H & ->).
  destruct (mutate_after_ok _ _ _ _ _ _ _ _ _ _ Hrl Hr Hol H) as (i & j & Hil & Hi & Hop & Hr').
  simpl in Hop. unfold begin_payload in Hop. apply bind_ok_inv in Hop as (paths & Hpaths & Hop).
  apply op_begin in Hop as (Hst & p & ap' & Hp & Hap & _ & _ & Hne & Hsub & ->).
  pose proof (load_rep _ _ _ _ _ Hrs Hld) as His. destruct (proj1 Hos _ _ His) as (i' & Hi' & Hsteps).
  assert (i' = i) as -> by congruence. destruct (rep_lookup _ _ _ _ Hrs His) as (ro & _ & Hro).
  destruct (later_item _ _ (rep_reachable _ _ _ Hro) Hsteps) as (Hri & _ & Heq & _).
  assert (item s = i) as <-.
  { apply Heq. rewrite !approved_revision; [done|done|done|apply Hro|by eapply act_state]. }
  assert (ap' = ap) as -> by (pose proof (act_approval _ _ _ _ Hact); congruence).
  exists a, (item s), ap, p, paths. split_and!; try done.
  - by rewrite Hld.
  - pose proof (load_spec _ _ wid Hrl) as Hx. rewrite Hil in Hx. destruct Hx as (s2 & -> & <- & _). done.
  - intros h0 g0 Hh0 Hg0. apply elem_of_suffix in Hg0 as (h1 & Hh1).
    destruct (moments _ _ _ _ _ Hg Hh0 Hh1) as (_ & _ & _ & _ & _ & Hsub0).
    pose proof (act_not_revoked _ _ _ _ Hact) as Hn. unfold find in *. by eapply lookup_weaken_None.
Qed.
Lemma governed_begin_safe_witness :
  exists ap i, active GovDemo.noon (g_revs GovDemo.g3) i ap.
Proof.
  assert (exists d g', governed_begin GovDemo.noon "now3" "w1" GovDemo.beginning (g_items GovDemo.g3)
    (g_revs GovDemo.g3) (g_items GovDemo.g3) GovDemo.g3 = Ok (d, g')) as (d & g' & H) by (do 2 eexists; vm_compute; reflexivity).
  assert (reads [GovDemo.g3; GovDemo.g3; GovDemo.g3] (GovDemo.g3 :: GovDemo.past)) as Hr
    by (do 3 apply reads_now; exact I).
  destruct (governed_begin_safe _ _ _ _ _ _ _ _ _ _ _ GovDemo.run3 Hr H)
    as (_ & i & ap & _ & _ & _ & _ & _ & _ & Hact & _).
  by exists ap, i.
Defined.

(** A revocation is final.  Once [revoke] has committed on a work item, no call
    of [begin] on it that looks the revocations up at that moment or later
    succeeds, whatever calls come in between, whichever state its other reads see
    and whatever the clock says. *)
Theorem revocation_final g h clock wid payload seen d g1 :
  gov_run (g :: h) -> reads [seen] (g :: h) ->
  governed_revoke clock wid payload (g_items seen) g = Ok (d, g1) ->
  forall h2 revoked hr seen' hs, gov_run h2 ->
    (revoked :: hr) `suffix_of` h2 -> (g1 :: g :: h) `suffix_of` (revoked :: hr) -> (seen' :: hs) `suffix_of` h2 ->
  forall clock' now payload' loaded g2,
    is_ok (governed_begin clock' now wid payload' (g_items seen') (g_revs revoked) loaded g2) = false.
Proof.
  intros Hg (h0 & Hh0 & _) Hrv h2 revoked hr seen' hs H2 Hsr Hs1 Hss clock' now payload' loaded g2.
  destruct h2 as [|gt ht]; [by apply suffix_cons_nil_inv in Hsr|]. destruct (gov_run_inv _ _ H2) as (a & Hr & Hold).
  assert ((seen :: h0) `suffix_of` gt :: ht) as Hseen.
  { etrans; [exact Hh0|]. etrans; [|exact Hsr]. etrans; [|exact Hs1]. by apply suffix_cons_r. }
  destruct (Hold _ (suffix_elem _ _ _ Hseen)) as (a0 & Hr0 & [Ho0 _]).
  destruct (Hold _ (suffix_elem _ _ _ Hss)) as (a' & Hr' & [Ho' _]).
  apply governed_revoke_ok in Hrv as (s & t & ap & r & Hl & Ha & Hrv). apply (load_rep _ _ _ _ _ Hr0) in Hl.
  destruct (rep_lookup _ _ _ _ Hr0 Hl) as (ro & _ & Hro). pose proof (rep_reachable _ _ _ Hro) as Hreach.
  destruct Hrv as (_ & _ & ->); [by eapply reachable_approval|].
  destruct (governed_begin _ _ _ _ _ _ _ _) as [[d2 g3]|e] eqn:Hb; [|done].
  apply governed_begin_ok in Hb as (s2 & t2 & ap2 & Hl2 & Hact & _). apply (load_rep _ _ _ _ _ Hr') in Hl2.
  destruct (rep_lookup _ _ _ _ Hr' Hl2) as (ro2 & _ & Hro2).
  destruct (Ho0 _ _ Hl) as (i & Hi & Hst). destruct (Ho' _ _ Hl2) as (i2 & Hi2 & Hst2).
  pose proof (proj2 (proj2 (proj2 (later_item _ _ Hreach Hst))) _ Ha) as Hap.
  pose proof (proj2 (proj2 (proj2 (later_item _ _ (rep_reachable _ _ _ Hro2) Hst2))) _ (act_approval _ _ _ _ Hact)) as Hap2.
  simplify_eq. destruct (moments _ _ _ _ _ H2 Hsr Hs1) as (_ & _ & _ & _ & _ & Hsub).
  pose proof (act_not_revoked _ _ _ _ Hact) as Hn. unfold find in Hn. eapply lookup_weaken_None in Hn; [|exact Hsub].
  simpl in Hn. by rewrite lookup_insert_eq in Hn.
Qed.
Lemma revocation_final_witness :
  is_ok (governed_begin GovDemo.noon "now3" "w1" GovDemo.beginning (g_items GovDemo.g3) (g_revs GovDemo.g4)
    (g_items GovDemo.g4) GovDemo.g4) = false.
Proof.
  assert (exists d, governed_revoke GovDemo.noon "w1" GovDemo.revoking (g_items GovDemo.g3) GovDemo.g3 = Ok (d, GovDemo.g4))
    as (d & H) by (eexists; vm_compute; reflexivity).
  assert (reads [GovDemo.g3] (GovDemo.g3 :: GovDemo.past)) as Hr by (apply reads_now; exact I).
  apply (revocation_final _ _ _ _ _ _ _ _ GovDemo.run3 Hr H (GovDemo.g4 :: GovDemo.g3 :: GovDemo.past) GovDemo.g4
    (GovDemo.g3 :: GovDemo.past) GovDemo.g3 GovDemo.past);
    [exact (gr_revoke _ _ _ _ _ _ _ _ GovDemo.run3 Hr H)|reflexivity|reflexivity|apply suffix_cons_r; reflexivity].
Defined.

(** What [approval_status] reports.  It says an approval is active exactly
    when [begin]'s check accepts it at that time, and names the failing check
    otherwise. *)
Theorem approval_status_spec clock wid seen found checked s t ap :
  load wid seen = Ok (s, t) -> approval (item s) = Some ap ->
  match approval_status clock wid seen found checked with
  | Ok d => (dget d "approval_active" = JBool true <-> exists a, active clock checked (item s) a) /\
      (forall m, dget d "approval_active" = JBool false /\ dget d "approval_reason" = JStr m <->
         exists c, validate_active_approval clock checked (item s) = Raise (Exn c m)) /\
      dget d "client_delivery_allowed" = JBool false
  | Raise e => isinstance e ApprovalGovernanceError = false /\
      validate_active_approval clock checked (item s) = Raise e
  end.
Proof.
  intros Hl Ha. unfold approval_status. rewrite Hl. cbn [mbind res_bind]. rewrite Ha.
  destruct (validate_active_approval clock checked (item s)) as [a|e] eqn:Hv.
  - cbn [mbind res_bind]. split_and!; [|intros m|reflexivity].
    + split; [|done]. intros _. exists a. by apply active_approval_spec.
    + split; [intros [H _]; discriminate H|]. intros (c & H). discriminate H.
  - destruct (isinstance e ApprovalGovernanceError) eqn:He; cbn [mbind res_bind]; [|done].
    split_and!; [|intros m|reflexivity].
    + split; [intros H; discriminate H|]. intros (a & Hact%active_approval_spec). congruence.
    + replace (dget _ "approval_active") with (JBool false) by reflexivity.
      replace (dget _ "approval_reason") with (JStr (exn_msg e)) by reflexivity.
      destruct e as [c0 m0]. simpl. split; [intros [_ [= ->]]; by exists c0|].
      by intros (c & [= -> ->]).
Qed.
Lemma approval_status_spec_witness :
  exists a, active GovDemo.noon (g_revs GovDemo.g3) (item GovDemo.s3) a.
Proof.
  assert (load "w1" (g_items GovDemo.g3) = Ok (GovDemo.s3, g_items GovDemo.g3)) as Hl
    by (vm_compute; reflexivity).
  assert (approval (item GovDemo.s3) = Some GovDemo.a3) as Ha by (vm_compute; reflexivity).
  assert (exists d, approval_status GovDemo.noon "w1" (g_items GovDemo.g3) (g_revs GovDemo.g3) (g_revs GovDemo.g3) = Ok d /\ dget d "approval_active" = JBool true)
    as (d & Hd & Hact) by (eexists; split; [vm_compute; reflexivity | vm_compute; reflexivity]).
  pose proof (approval_status_spec GovDemo.noon _ _ (g_revs GovDemo.g3) (g_revs GovDemo.g3) _ _ _ Hl Ha) as H. rewrite Hd in H.
  destruct H as [[H _] _]. exact (H Hact).
Defined.

(** The check and the start are transactions of their own.  A revocation that
    commits between the lookup and the start is not noticed: [begin] commits, in a
    history in which the approval is revoked by then. *)
Theorem revocation_race :
  exists g g' h a d,
    gov_run (g :: h) /\ (exists seen, reads [g; seen; seen] (g :: h) /\
      governed_begin GovDemo.noon "now" "w1" GovDemo.beginning (g_items seen) (g_revs seen) (g_items g) g = Ok (d, g') /\
      (exists i, active GovDemo.noon (g_revs seen) i a)) /\
    gov_run (g' :: g :: h) /\ find (g_revs g) (approval_sha256 a) <> None.
Proof.
  assert (exists d, governed_revoke GovDemo.noon "w1" GovDemo.revoking (g_items GovDemo.g3) GovDemo.g3 = Ok (d, GovDemo.g4))
    as (d & H) by (eexists; vm_compute; reflexivity).
  assert (gov_run (GovDemo.g4 :: GovDemo.g3 :: GovDemo.past)) as H4.
  { eapply gr_revoke; [exact GovDemo.run3|apply reads_now; exact I|exact H]. }
  assert (reads [GovDemo.g4; GovDemo.g3; GovDemo.g3] (GovDemo.g4 :: GovDemo.g3 :: GovDemo.past)) as Hr.
  { apply reads_now, reads_before, reads_now, reads_now. exact I. }
  assert (exists d g', governed_begin GovDemo.noon "now" "w1" GovDemo.beginning (g_items GovDemo.g3) (g_revs GovDemo.g3)
    (g_items GovDemo.g4) GovDemo.g4 = Ok (d, g')) as (d' & g' & Hb) by (do 2 eexists; vm_compute; reflexivity).
  exists GovDemo.g4, g', (GovDemo.g3 :: GovDemo.past), GovDemo.a3, d'. split; [exact H4|]. split.
  - exists GovDemo.g3. split; [exact Hr|]. split; [exact Hb|]. exists (item GovDemo.s3).
    apply active_approval_spec. vm_compute. reflexivity.
  - split; [exact (gr_begin _ _ _ _ _ _ _ _ _ _ _ H4 Hr Hb)|]. vm_compute. discriminate.
Qed.
