(* ===== verification/MonitorSandbox.v ===== *)
(** * Patch plans, the local sandbox and the pull request gateway
    (nico/monitor_patch_sandbox.py)

    [_safe_relative_path] is the text function that decides which paths a plan
    may name.  The sandbox acts on a model of the file system: a finite map from
    absolute component lists to files, directories and symbolic links, where
    [resolve] follows links as [Path.resolve] does; an operation returns its
    outcome and the file system it leaves, also when it raises.  The pull
    request gateway is the source's [Protocol]: a record of operations, each
    call logged in order. *)

From S2P Require Import Prelude PyStr Sha256.

Record FileReplacement := mkReplacement { path : string; content : string; expected_sha256 : string }.

Record PatchPlan := mkPlan {
  proposal_id : string;
  plan_repository : string;
  base_sha : string;
  branch_name : string;
  commit_message : string;
  pull_request_title : string;
  pull_request_body : string;
  replacements : list FileReplacement;
  approved_paths : list string }.

Abbreviation fingerprints := (list (string * string)) (only parsing).

Record PatchResult := mkPatchResult {
  pr_proposal_id : string;
  pr_repository : string;
  pr_base_sha : string;
  pr_branch_name : string;
  changed_paths : list string;
  before_fingerprints : fingerprints;
  after_fingerprints : fingerprints;
  patch_fingerprint : string;
  commit_sha : string;
  pull_request_url : string;
  production_modified : bool }.

Definition perr {A} (m : string) : res A := fail PatchSandboxError m.
Definition _sha256_bytes (value : string) : string := sha256_tag value.

(** ** Paths *)

Definition slash : Ascii.ascii := "/".
Definition backslash_char : Ascii.ascii := chr 92.

(** [PurePosixPath(token).parts] without the root: empty and [.] components are
    dropped. *)
Definition path_parts (token : string) : list string :=
  List.filter (fun s => negb (String.eqb s "" || String.eqb s ".")) (split_on slash "" token).
Definition is_absolute (token : string) : bool := startswith "/" token.
(** [str(PurePosixPath(token))] of a relative path *)
Definition path_str (parts : list string) : string :=
  match parts with [] => "." | _ => join "/" parts end.

Definition _safe_relative_path (value : string) : res string :=
  let token := strip (replace_char backslash_char slash value) in
  let parts := path_parts token in
  if negb (truthy token) || is_absolute token || bool_decide (".." ∈ parts) || bool_decide ("." ∈ parts)
  then perr "patch_path_invalid"
  else if existsb (fun p => String.eqb p ".git" || String.eqb p ".github") parts
  then perr "patch_protected_path_forbidden"
  else Ok (path_str parts).

Definition branch_char (a : Ascii.ascii) : bool :=
  let c := code a in
  ((97 <=? c) && (c <=? 122)) || ((65 <=? c) && (c <=? 90)) || ((48 <=? c) && (c <=? 57))
  || (c =? 45) || (c =? 95) || (c =? 47) || (c =? 46).
Fixpoint all_in (p : Ascii.ascii -> bool) (s : string) : bool :=
  match s with "" => true | String a s => p a && all_in p s end.

Definition _validate_branch (value : string) : res string :=
  let token := strip value in
  if negb (truthy token) || startswith "-" token || contains ".." token || endswith "/" token
  then perr "patch_branch_invalid"
  else if negb (all_in branch_char token) then perr "patch_branch_invalid"
  else if bool_decide (token ∈ ["main"; "master"; "production"])
  then perr "patch_production_branch_forbidden"
  else Ok token.

(** The loop over the replacements: [changed] grows at its end. *)
Fixpoint check_replacements (approved changed : list string) (l : list FileReplacement)
    : res (list string) :=
  match l with
  | [] => Ok changed
  | r :: l =>
      p ← _safe_relative_path (path r);
      if negb (bool_decide (p ∈ approved)) then perr "patch_path_outside_approval_scope"
      else if bool_decide (p ∈ changed) then perr "patch_duplicate_path"
      else if negb (startswith "sha256:" (expected_sha256 r)) then perr "patch_expected_fingerprint_required"
      else check_replacements approved (changed ++ [p]) l
  end.

Definition validate_patch_plan (plan : PatchPlan) : res (list string) :=
  if negb (truthy (proposal_id plan)) || negb (truthy (plan_repository plan)) || negb (truthy (base_sha plan))
  then perr "patch_identity_required"
  else
    _ ← _validate_branch (branch_name plan);
    if negb (truthy (commit_message plan)) || negb (truthy (pull_request_title plan))
       || negb (truthy (pull_request_body plan))
    then perr "patch_review_metadata_required"
    else
      approved ← mapR _safe_relative_path (approved_paths plan);
      if bool_decide (approved = []) then perr "patch_approved_paths_required"
      else
        changed ← check_replacements approved [] (replacements plan);
        if bool_decide (changed = []) then perr "patch_replacements_required" else Ok changed.

(** ** The file system *)

Abbreviation fpath := (list string) (only parsing).

Inductive node :=
  | NFile (bytes : string)
  | NDir
  | NLink (absolute : bool) (target : fpath).

Abbreviation fsys := (gmap (list string) node) (only parsing).

Definition is_symlink (fs : fsys) (p : fpath) : bool :=
  match fs !! p with Some (NLink _ _) => true | _ => false end.

(** [os.path.realpath]: component by component, a link's target in place of the
    link; [links] bounds the links followed. *)
Fixpoint realpath (links : nat) (fs : fsys) : fpath -> fpath -> option fpath :=
  fix go (p rest : fpath) : option fpath :=
    match rest with
    | [] => Some p
    | name :: rest =>
        if String.eqb name "" || String.eqb name "." then go p rest
        else if String.eqb name ".." then go (removelast p) rest
        else match fs !! (p ++ [name]) with
             | Some (NLink absolute target) =>
                 match links with
                 | O => None
                 | S k => realpath k fs (if absolute then [] else p) (target ++ rest)
                 end
             | _ => go (p ++ [name]) rest
             end
    end.
Definition link_budget : nat := 1000.

(** [Path.resolve()]; a link loop is a [RuntimeError]. *)
Definition resolve (fs : fsys) (p : fpath) : res fpath :=
  match realpath link_budget fs [] p with
  | Some q => Ok q
  | None => fail RuntimeError "Symlink loop"
  end.

Definition is_prefix (p q : fpath) : bool := bool_decide (take (length p) q = p).

(** The proper prefixes [w ++ [p1]], [w ++ [p1; p2]], ... of [w ++ parts]. *)
Fixpoint parents (w parts : fpath) : list fpath :=
  match parts with
  | [] => []
  | [_] => []
  | p :: parts => (w ++ [p]) :: parents (w ++ [p]) parts
  end.

(** ** LocalPatchSandbox *)

Definition _target (fs : fsys) (workspace : fpath) (relative : string) : res fpath :=
  safe ← _safe_relative_path relative;
  target ← resolve fs (workspace ++ path_parts safe);
  if negb (is_prefix workspace target) then perr "patch_path_escaped_workspace"
  else if existsb (is_symlink fs) (parents workspace (path_parts safe))
  then perr "patch_symlink_parent_forbidden"
  else if is_symlink fs target then perr "patch_symlink_target_forbidden"
  else Ok target.

(** [target.read_bytes() if target.exists() else b""] *)
Definition read_existing (fs : fsys) (target : fpath) : res string :=
  match fs !! target with
  | None => Ok ""
  | Some (NFile b) => Ok b
  | Some _ => fail OSError "Is a directory"
  end.

(** The first loop of [stage]. *)
Fixpoint stage_check (fs : fsys) (workspace : fpath) (l : list FileReplacement)
    (before after : fingerprints) : res (fingerprints * fingerprints) :=
  match l with
  | [] => Ok (before, after)
  | r :: l =>
      p ← _safe_relative_path (path r);
      target ← _target fs workspace p;
      existing ← read_existing fs target;
      let observed := _sha256_bytes existing in
      if negb (String.eqb observed (expected_sha256 r)) then perr "patch_source_fingerprint_mismatch"
      else stage_check fs workspace l (before ++ [(p, observed)])
             (after ++ [(p, _sha256_bytes (utf8_encode (content r)))])
  end.

(** [p.mkdir(parents=True, exist_ok=True)] for the ancestors of a path, from
    the root down. *)
Fixpoint mkdirs (fs : fsys) (dirs : list fpath) : option fsys :=
  match dirs with
  | [] => Some fs
  | d :: dirs =>
      match fs !! d with
      | Some NDir => mkdirs fs dirs
      | None => mkdirs (<[d := NDir]> fs) dirs
      | Some _ => None
      end
  end.

Definition temp_name (pid name : string) : string := "." +:+ name +:+ ".nico-tmp-" +:+ pid.
Definition temp_path (pid : string) (target : fpath) : fpath :=
  removelast target ++ [temp_name pid (List.last target "")].

(** The root always is a directory. *)
Definition is_dir (fs : fsys) (p : fpath) : bool :=
  bool_decide (p = []) || match fs !! p with Some NDir => true | _ => false end.

(** [write_text] then [replace]: the outcome and the file system left behind. *)
Definition write_file (pid : string) (fs : fsys) (target : fpath) (text : string) : res unit * fsys :=
  match mkdirs fs (parents [] target) with
  | None => (fail OSError "Not a directory", fs)
  | Some fs1 =>
      if bool_decide (target = []) then (fail ValueError "has an empty name", fs1)
      else
        let temporary := temp_path pid target in
        match realpath link_budget fs1 [] temporary with
        | None => (fail OSError "Too many levels of symbolic links", fs1)
        | Some dst =>
            match is_dir fs1 (removelast dst), fs1 !! dst with
            | true, Some NDir => (fail OSError "Is a directory", fs1)
            | false, _ => (fail OSError "No such file or directory", fs1)
            | true, _ =>
                let fs2 := <[dst := NFile (utf8_encode text)]> fs1 in
                match fs2 !! target, fs2 !! temporary with
                | Some NDir, _ => (fail OSError "Is a directory", fs2)
                | _, Some n => (Ok tt, <[target := n]> (delete temporary fs2))
                | _, None => (fail OSError "No such file or directory", fs2)
                end
            end
        end
  end.

(** The second loop of [stage]. *)
Fixpoint stage_write (pid : string) (fs : fsys) (workspace : fpath) (l : list FileReplacement)
    : res unit * fsys :=
  match l with
  | [] => (Ok tt, fs)
  | r :: l =>
      match p ← _safe_relative_path (path r); _target fs workspace p with
      | Raise e => (Raise e, fs)
      | Ok target =>
          match write_file pid fs target (content r) with
          | (Ok _, fs') => stage_write pid fs' workspace l
          | (Raise e, fs') => (Raise e, fs')
          end
      end
  end.

Definition stage (pid : string) (workspace : fpath) (plan : PatchPlan) (fs : fsys)
    : res (fingerprints * fingerprints) * fsys :=
  match _ ← validate_patch_plan plan; stage_check fs workspace (replacements plan) [] [] with
  | Raise e => (Raise e, fs)
  | Ok fingerprints_ =>
      let '(r, fs') := stage_write pid fs workspace (replacements plan) in
      ((_ ← r; Ok fingerprints_), fs')
  end.

(** ** The gateway and submit_patch_plan *)

Record PullRequestGateway := mkGateway {
  create_branch : string -> string -> string -> res unit;
  replace_files : string -> string -> list (string * string) -> string -> res string;
  open_pull_request : string -> string -> string -> string -> string -> res string }.

Inductive gateway_call :=
  | CallCreateBranch (repository branch base : string)
  | CallReplaceFiles (repository branch : string) (files : list (string * string)) (message : string)
  | CallOpenPullRequest (repository branch base title body : string).

(** [{k: v for k, v in l}] *)
Definition dict_comp (l : list (string * string)) : list (string * string) :=
  fold_left (fun d m =>
    if bool_decide (fst m ∈ map fst d)
    then map (fun e => if String.eqb (fst e) (fst m) then m else e) d else d ++ [m]) l [].
Definition str_lookup (k : string) (d : list (string * string)) : res string :=
  match List.find (fun m => String.eqb (fst m) k) d with
  | Some m => Ok (snd m)
  | None => fail KeyError k
  end.

(** The part of [submit_patch_plan] before the gateway is called. *)
Definition prepare_submission (plan : PatchPlan) (base_branch : string)
    : res (list string * fingerprints * fingerprints * fingerprints * string) :=
  paths ← validate_patch_plan plan;
  if negb (String.eqb base_branch "main") then perr "patch_base_branch_must_be_main"
  else
    let files := dict_comp (map (fun r => (path r, content r)) (replacements plan)) in
    let before := dict_comp (map (fun r => (path r, expected_sha256 r)) (replacements plan)) in
    let after := map (fun f => (fst f, _sha256_bytes (utf8_encode (snd f)))) files in
    lines ← mapR (fun p => b ← str_lookup p before; a ← str_lookup p after;
                           Ok (p +:+ "|" +:+ b +:+ "|" +:+ a)) (sorted paths);
    Ok (paths, files, before, after, _sha256_bytes (utf8_encode (join (String (chr 10) "") lines))).

Definition submit_patch_plan (gw : PullRequestGateway) (plan : PatchPlan) (base_branch : string)
    : res PatchResult * list gateway_call :=
  match prepare_submission plan base_branch with
  | Raise e => (Raise e, [])
  | Ok (paths, files, before, after, fingerprint) =>
      let repo := plan_repository plan in
      let branch := branch_name plan in
      let call1 := CallCreateBranch repo branch (base_sha plan) in
      match create_branch gw repo branch (base_sha plan) with
      | Raise e => (Raise e, [call1])
      | Ok _ =>
          let call2 := CallReplaceFiles repo branch files (commit_message plan) in
          match replace_files gw repo branch files (commit_message plan) with
          | Raise e => (Raise e, [call1; call2])
          | Ok sha =>
              let call3 := CallOpenPullRequest repo branch base_branch (pull_request_title plan)
                             (pull_request_body plan) in
              match open_pull_request gw repo branch base_branch (pull_request_title plan)
                      (pull_request_body plan) with
              | Raise e => (Raise e, [call1; call2; call3])
              | Ok url =>
                  if negb (truthy sha) || negb (truthy url)
                  then (perr "patch_gateway_result_incomplete", [call1; call2; call3])
                  else (Ok (mkPatchResult (proposal_id plan) repo (base_sha plan) branch paths before
                              after fingerprint sha url false), [call1; call2; call3])
              end
          end
      end
  end.

(** ** Lemmas on paths *)

Lemma split_on_no_sep sep cur s :
  str_has sep cur = false -> Forall (fun w => str_has sep w = false) (split_on sep cur s).
Proof.
  revert cur. induction s as [|a s IH]; intros cur Hc; simpl; [by repeat constructor|].
  destruct (Ascii.eqb_spec a sep) as [->|Hne].
  - constructor; [done|]. by apply IH.
  - apply IH. revert Hc. clear IH. induction cur as [|b cur IHc]; simpl.
    + intros _. rewrite orb_false_r. apply Ascii.eqb_neq. congruence.
    + rewrite !orb_false_iff. intros [? ?]. auto.
Qed.

Lemma split_on_app sep cur w s :
  str_has sep w = false -> split_on sep cur (w +:+ s) = split_on sep (cur +:+ w) s.
Proof.
  revert cur. induction w as [|a w IH]; intros cur Hw; simpl in *; [by rewrite app_str_nil_r|].
  apply orb_false_iff in Hw as [Ha Hw]. rewrite Ascii.eqb_sym, Ha, (IH _ Hw). by rewrite app_str_assoc.
Qed.

Lemma split_on_join ps :
  ps <> [] -> Forall (fun w => str_has slash w = false) ps -> split_on slash "" (join "/" ps) = ps.
Proof.
  intros Hne H. induction H as [|w ps Hw Hps IH]; [done|]. destruct ps as [|w' ps].
  - simpl. rewrite <- (app_str_nil_r w), split_on_app by done. simpl. by rewrite app_str_nil_r.
  - change (join "/" (w :: w' :: ps)) with (w +:+ "/" +:+ join "/" (w' :: ps)).
    rewrite split_on_app by done. simpl. f_equal. apply IH. done.
Qed.

(** A component as [path_parts] returns it, and one the checks let through. *)
Definition component (c : string) : Prop := c <> "" /\ c <> "." /\ str_has slash c = false.
Definition clean (c : string) : Prop := component c /\ c <> "..".

Lemma path_parts_component t : Forall component (path_parts t).
Proof.
  unfold path_parts. apply Forall_forall. intros c Hc%list_elem_of_In.
  apply filter_In in Hc as [Hin Hf]. apply negb_true_iff, orb_false_iff in Hf as [H1 H2].
  apply String.eqb_neq in H1, H2. split_and!; [done|done|].
  pose proof (split_on_no_sep slash "" t eq_refl) as Hs. rewrite Forall_forall in Hs.
  by apply Hs, list_elem_of_In.
Qed.

Lemma filter_components l : Forall component l ->
  List.filter (fun s => negb (String.eqb s "" || String.eqb s ".")) l = l.
Proof.
  induction 1 as [|c l (H1 & H2 & _) _ IH]; simpl; [done|].
  apply String.eqb_neq in H1, H2. by rewrite H1, H2, IH.
Qed.

Lemma path_parts_str ps : Forall component ps -> path_parts (path_str ps) = ps.
Proof.
  intros H. destruct ps as [|c ps]; [done|]. unfold path_str, path_parts.
  rewrite split_on_join, filter_components; [done|done|done|].
  eapply Forall_impl; [exact H|]. by intros x (_ & _ & Hx).
Qed.

Lemma safe_path_ok v p :
  _safe_relative_path v = Ok p ->
  exists ps, p = path_str ps /\ path_parts p = ps /\ Forall clean ps /\ ".git" ∉ ps /\ ".github" ∉ ps /\
    ps = path_parts (strip (replace_char backslash_char slash v)).
Proof.
  unfold _safe_relative_path, perr. set (t := strip _). intros H.
  destruct (negb (truthy t) || is_absolute t || bool_decide (".." ∈ path_parts t)
    || bool_decide ("." ∈ path_parts t)) eqn:Hb; [discriminate|].
  destruct (existsb _ (path_parts t)) eqn:He; [discriminate|]. injection H as <-.
  apply orb_false_iff in Hb as [Hb _]. apply orb_false_iff in Hb as [_ Hdd%bool_decide_eq_false].
  pose proof (path_parts_component t) as Hc. exists (path_parts t).
  assert (forall c, c ∈ path_parts t -> c <> ".git" /\ c <> ".github") as Hg.
  { intros c Hin. split; intros ->; apply list_elem_of_In in Hin;
      assert (existsb (fun p => String.eqb p ".git" || String.eqb p ".github") (path_parts t) = true)
        as Ht by (apply existsb_exists; eexists; split; [exact Hin | reflexivity]); congruence. }
  split_and!; [done|by apply path_parts_str| |by intros H; apply Hg in H as []|by intros H; apply Hg in H as []|done].
  rewrite Forall_forall in Hc |- *. intros c Hin. split; [by apply Hc|]. by intros ->.
Qed.

(** ** Lemmas on a file system without links *)

Definition no_links (fs : fsys) : Prop := forall p, is_symlink fs p = false.

Lemma no_links_insert fs p n :
  no_links fs -> (forall b t, n <> NLink b t) -> no_links (<[p := n]> fs).
Proof.
  intros H Hn q. unfold is_symlink. destruct (decide (p = q)) as [->|Hne].
  - rewrite lookup_insert_eq. destruct n; [done|done|]. by destruct (Hn absolute target).
  - rewrite lookup_insert_ne by done. apply H.
Qed.

Lemma no_links_delete fs p : no_links fs -> no_links (delete p fs).
Proof.
  intros H q. unfold is_symlink. destruct (decide (p = q)) as [->|Hne].
  - by rewrite lookup_delete_eq.
  - rewrite lookup_delete_ne by done. apply H.
Qed.

Lemma realpath_id k fs p rest : no_links fs -> Forall clean rest -> realpath k fs p rest = Some (p ++ rest).
Proof.
  intros Hn H. destruct k; revert p; induction H as [|c rest [(H1 & H2 & _) H3] _ IH]; intros p;
    cbn [realpath]; try (by rewrite app_nil_r);
    apply String.eqb_neq in H1, H2, H3; rewrite H1, H2, H3; cbn [orb];
    specialize (Hn (p ++ [c])) as Hc; unfold is_symlink in Hc;
    destruct (fs !! (p ++ [c])) as [[]|]; try discriminate; cbn [realpath] in IH;
    rewrite IH, <- app_assoc; reflexivity.
Qed.

Lemma resolve_id fs p : no_links fs -> Forall clean p -> resolve fs p = Ok p.
Proof. intros Hn Hp. unfold resolve. by rewrite realpath_id. Qed.

Lemma target_no_links fs w s q :
  no_links fs -> Forall clean w -> _safe_relative_path s = Ok q ->
  _target fs w s = Ok (w ++ path_parts q).
Proof.
  intros Hn Hw Hs. unfold _target. rewrite Hs. cbn [mbind res_bind].
  apply safe_path_ok in Hs as (ps & -> & -> & Hps & _).
  rewrite resolve_id by (rewrite ?Forall_app; done). cbn [mbind res_bind].
  unfold is_prefix. rewrite take_app_length, bool_decide_eq_true_2 by done. cbn [negb].
  rewrite (Hn (w ++ ps)). replace (existsb (is_symlink fs) _) with false; [done|].
  symmetry. apply not_true_iff_false. intros (p & _ & Hp)%existsb_exists. by rewrite Hn in Hp.
Qed.

(** [mkdirs] only adds the missing directories. *)
Definition extends (dirs : list fpath) (fs fs' : fsys) : Prop :=
  forall q, fs' !! q = fs !! q \/ (fs !! q = None /\ fs' !! q = Some NDir /\ q ∈ dirs).

Lemma mkdirs_extends dirs fs fs' : mkdirs fs dirs = Some fs' -> extends dirs fs fs'.
Proof.
  revert fs. induction dirs as [|d dirs IH]; intros fs; cbn [mkdirs]; [intros [= ->]; by left|].
  destruct (fs !! d) as [[b| |]|] eqn:Hd; try discriminate.
  - intros H q. destruct (IH _ H q) as [|(? & ? & ?)]; [by left|right; set_solver].
  - intros H q. destruct (IH _ H q) as [E|(E & ? & ?)].
    + destruct (decide (d = q)) as [->|Hne]; [rewrite lookup_insert_eq in E; right; set_solver|].
      rewrite lookup_insert_ne in E by done. by left.
    + destruct (decide (d = q)) as [->|Hne]; [by rewrite lookup_insert_eq in E|].
      rewrite lookup_insert_ne in E by done. right. set_solver.
Qed.

Lemma mkdirs_no_links dirs fs fs' : mkdirs fs dirs = Some fs' -> no_links fs -> no_links fs'.
Proof.
  intros H Hn q. destruct (mkdirs_extends _ _ _ H q) as [E|(_ & E & _)];
    unfold is_symlink; rewrite E; [apply Hn|done].
Qed.

Lemma temp_name_clean pid name : str_has slash pid = false -> str_has slash name = false -> clean (temp_name pid name).
Proof.
  assert (forall a b, str_has slash (a +:+ b) = str_has slash a || str_has slash b) as Happ.
  { intros a b. induction a as [|c a IH]; simpl; [done|]. by rewrite IH, orb_assoc. }
  intros Hp Hn. unfold temp_name. split; [split_and!|].
  - done.
  - by destruct name.
  - rewrite !Happ, Hp, Hn. done.
  - destruct name as [|a [|b name]]; simpl; [done|congruence|congruence].
Qed.

Lemma Forall_removelast {A} (P : A -> Prop) l : Forall P l -> Forall P (removelast l).
Proof.
  induction 1 as [|x l Hx Hl IH]; simpl; [constructor|]. destruct l; [constructor|]. by constructor.
Qed.

Lemma last_clean p : p <> [] -> Forall clean p -> clean (List.last p "").
Proof.
  intros Hne H. induction H as [|x l Hx Hl IH]; [done|]. destruct l; [done|]. by apply IH.
Qed.

(** What a write that succeeds leaves: the text at the target, the missing
    ancestors, nothing at the temporary name, the rest as it was. *)
Definition wrote (pid : string) (target : fpath) (text : string) (fs fs' : fsys) : Prop :=
  fs' !! target = Some (NFile (utf8_encode text)) /\
  forall q, q <> target -> q <> temp_path pid target ->
    fs' !! q = fs !! q \/ (fs !! q = None /\ fs' !! q = Some NDir /\ q ∈ parents [] target).

Lemma write_file_ok pid fs target text fs' :
  no_links fs -> Forall clean target -> str_has slash pid = false ->
  write_file pid fs target text = (Ok tt, fs') -> wrote pid target text fs fs' /\ no_links fs'.
Proof.
  intros Hn Ht Hp. unfold write_file.
  destruct (mkdirs fs _) as [fs1|] eqn:Hm; [|discriminate].
  case_bool_decide as Hne; [discriminate|].
  pose proof (mkdirs_no_links _ _ _ Hm Hn) as Hn1.
  rewrite realpath_id; [|done|].
  2: { unfold temp_path. rewrite Forall_app. split; [by apply Forall_removelast|].
       constructor; [|constructor]. apply temp_name_clean; [done|]. by apply last_clean in Ht as [(_ & _ & ?) _]. }
  cbn [app]. set (tmp := temp_path pid target).
  destruct (is_dir fs1 (removelast tmp)); [|discriminate].
  intros H.
  assert (fs' = <[target := NFile (utf8_encode text)]> (delete tmp (<[tmp := NFile (utf8_encode text)]> fs1))) as ->.
  { destruct (fs1 !! tmp) as [[]|]; try discriminate; rewrite lookup_insert_eq in H;
      destruct (<[tmp := _]> fs1 !! target) as [[]|]; try discriminate; by injection H as <-. }
  split; [split|].
  - by rewrite lookup_insert_eq.
  - intros q Hq1 Hq2. rewrite lookup_insert_ne, lookup_delete_ne, lookup_insert_ne by (unfold tmp; congruence).
    by apply mkdirs_extends.
  - apply no_links_insert; [|done]. apply no_links_delete. by apply no_links_insert.
Qed.

(** A failed write raises something other than a [PatchSandboxError]. *)
Lemma write_file_error pid fs target text e fs' :
  write_file pid fs target text = (Raise e, fs') -> isinstance e PatchSandboxError = false.
Proof.
  unfold write_file, fail. destruct (mkdirs _ _); [|by intros [= <- _]].
  case_bool_decide; [by intros [= <- _]|].
  destruct (realpath _ _ _ _); [|by intros [= <- _]].
  destruct (is_dir _ _); [|by intros [= <- _]].
  destruct (_ !! l) as [[]|]; try (by intros [= <- _]);
    repeat match goal with |- context [<[?a := ?b]> ?c !! ?d] => destruct (<[a := b]> c !! d) as [[]|] end;
    by intros [= <- _].
Qed.

(** ** Staging *)

Definition target_of (w : fpath) (r : FileReplacement) : fpath :=
  match p ← _safe_relative_path (path r); _safe_relative_path p with
  | Ok q => w ++ path_parts q
  | Raise _ => []
  end.

(** The path of a replacement passes the check, and passes it again. *)
Definition names_target (r : FileReplacement) : Prop :=
  exists p q, _safe_relative_path (path r) = Ok p /\ _safe_relative_path p = Ok q.

Lemma target_of_spec fs w r : no_links fs -> Forall clean w -> names_target r ->
  (p ← _safe_relative_path (path r); _target fs w p) = Ok (target_of w r).
Proof.
  intros Hn Hw (p & q & Hp & Hq). unfold target_of. rewrite Hp. cbn [mbind res_bind].
  rewrite Hq. by apply target_no_links.
Qed.

Lemma target_of_clean w r : Forall clean w -> Forall clean (target_of w r).
Proof.
  intros Hw. unfold target_of.
  destruct (_ ≫= _) as [q|] eqn:H; [|constructor]. apply bind_ok_inv in H as (p & _ & Hq).
  apply safe_path_ok in Hq as (ps & _ & -> & Hps & _). by apply Forall_app.
Qed.

(** [_target] of a path that fails the check fails as well. *)
Lemma target_names fs w r t :
  (p ← _safe_relative_path (path r); _target fs w p) = Ok t -> names_target r.
Proof.
  intros H. apply bind_ok_inv in H as (p & Hp & H). unfold _target in H.
  apply bind_ok_inv in H as (q & Hq & _). by exists p, q.
Qed.

Definition checked (fs : fsys) (w : fpath) (r : FileReplacement) : Prop :=
  names_target r /\ exists old, read_existing fs (target_of w r) = Ok old /\ _sha256_bytes old = expected_sha256 r.

Lemma stage_check_ok fs w l b a b' a' : no_links fs -> Forall clean w ->
  stage_check fs w l b a = Ok (b', a') -> Forall (checked fs w) l.
Proof.
  intros Hn Hw. revert b a. induction l as [|r l IH]; intros b a H; [constructor|].
  cbn [stage_check] in H. apply bind_ok_inv in H as (p & Hp & H). apply bind_ok_inv in H as (t & Ht & H).
  assert (names_target r) as Hr by (apply (target_names fs w r t); by rewrite Hp).
  pose proof (target_of_spec fs w r Hn Hw Hr) as Ht'. rewrite Hp in Ht'. cbn [mbind res_bind] in Ht'.
  rewrite Ht in Ht'. injection Ht' as ->.
  apply bind_ok_inv in H as (old & Ho & H).
  destruct (String.eqb_spec (_sha256_bytes old) (expected_sha256 r)); [|discriminate].
  cbn [negb] in H. constructor; [|by eapply IH]. split; [done|]. by exists old.
Qed.

Lemma stage_write_ok pid w l : Forall clean w -> str_has slash pid = false -> forall fs fs', no_links fs ->
  stage_write pid fs w l = (Ok tt, fs') -> Forall names_target l ->
  let ts := map (target_of w) l in
  (forall q, q ∉ ts -> q ∉ map (temp_path pid) ts ->
     fs' !! q = fs !! q \/ (fs !! q = None /\ fs' !! q = Some NDir)) /\
  (NoDup ts -> (forall t u, t ∈ ts -> u ∈ ts -> t <> temp_path pid u) ->
     forall r, r ∈ l -> fs' !! target_of w r = Some (NFile (utf8_encode (content r)))).
Proof.
  intros Hw Hp. induction l as [|r l IH]; intros fs fs' Hn H Hl; cbn [stage_write map] in *.
  { injection H as <-. split; [by left|]. intros _ _ r Hr. set_solver. }
  apply Forall_cons in Hl as [Hr Hl]. rewrite target_of_spec in H by done.
  destruct (write_file pid fs (target_of w r) (content r)) as [[[]|e] fs1] eqn:Hwr; [|discriminate].
  apply write_file_ok in Hwr as [[Hat Hrest] Hn1]; [|done|by apply target_of_clean|done].
  destruct (IH _ _ Hn1 H Hl) as [IH1 IH2]. clear IH. split.
  - intros q [Hq1 Hq2]%not_elem_of_cons [Hqt1 Hqt2]%not_elem_of_cons.
    destruct (Hrest q Hq1 Hqt1) as [E'|(E1' & E2' & _)], (IH1 q Hq2 Hqt2) as [E|[E1 E2]].
    + left. congruence.
    + right. split; congruence.
    + right. split; congruence.
    + right. split; congruence.
  - intros Hd Hne r' Hr'. apply NoDup_cons in Hd as [Hd1 Hd].
    assert (fs' !! target_of w r = Some (NFile (utf8_encode (content r)))) as Hfirst.
    { destruct (IH1 (target_of w r)) as [E|[E _]]; [done| |congruence|congruence].
      intros (u & Hu & Hin)%list_elem_of_fmap. apply (Hne (target_of w r) u); [set_solver|set_solver|done]. }
    apply elem_of_cons in Hr' as [->|Hr']; [done|]. apply IH2; [done| |done].
    intros t u Ht Hu. apply Hne; set_solver.
Qed.

Lemma stage_write_error pid w l fs e fs' : Forall clean w -> str_has slash pid = false -> no_links fs ->
  stage_write pid fs w l = (Raise e, fs') -> Forall names_target l -> isinstance e PatchSandboxError = false.
Proof.
  intros Hw Hp. revert fs. induction l as [|r l IH]; intros fs Hn H Hl; cbn [stage_write] in *; [discriminate|].
  apply Forall_cons in Hl as [Hr Hl]. rewrite target_of_spec in H by done.
  destruct (write_file pid fs (target_of w r) (content r)) as [[[]|e'] fs1] eqn:Hwr.
  - apply write_file_ok in Hwr as [_ Hn1]; [|done|by apply target_of_clean|done]. by apply (IH fs1).
  - injection H as <- <-. by eapply write_file_error.
Qed.

Lemma checked_names fs w l : Forall (checked fs w) l -> Forall names_target l.
Proof. intros H. eapply Forall_impl; [exact H|]. by intros r []. Qed.

(** ** Submitting *)

Lemma check_replacements_ok approved l : forall changed paths,
  check_replacements approved changed l = Ok paths -> NoDup changed ->
  NoDup paths /\ exists ps, paths = changed ++ ps /\
    Forall2 (fun r p => _safe_relative_path (path r) = Ok p /\ p ∈ approved) l ps.
Proof.
  induction l as [|r l IH]; intros changed paths H Hd; cbn [check_replacements] in H.
  { injection H as <-. split; [done|]. exists []. rewrite app_nil_r. by split. }
  apply bind_ok_inv in H as (p & Hp & H).
  destruct (bool_decide (p ∈ approved)) eqn:Hin; [|discriminate]. apply bool_decide_eq_true in Hin.
  destruct (bool_decide (p ∈ changed)) eqn:Hc; [discriminate|]. apply bool_decide_eq_false in Hc.
  destruct (startswith "sha256:" _); [|discriminate]. cbn [negb] in H.
  apply IH in H as (Hnd & ps & -> & Hps).
  - split; [done|]. exists (p :: ps). rewrite <- app_assoc. split; [done|]. by constructor.
  - apply NoDup_app. split; [done|]. split; [set_solver|]. apply NoDup_singleton.
Qed.

Definition valid_plan (plan : PatchPlan) (paths : list string) : Prop :=
  NoDup paths /\ paths <> [] /\
  (exists b, _validate_branch (branch_name plan) = Ok b /\ b ∉ ["main"; "master"; "production"]) /\
  exists approved, mapR _safe_relative_path (approved_paths plan) = Ok approved /\
    Forall2 (fun r p => _safe_relative_path (path r) = Ok p /\ p ∈ approved) (replacements plan) paths.

Lemma validate_branch_ok v b : _validate_branch v = Ok b -> b ∉ ["main"; "master"; "production"].
Proof.
  unfold _validate_branch, perr. set (t := strip v).
  destruct (_ || _ || _ || _); [discriminate|]. destruct (negb _); [discriminate|].
  destruct (bool_decide _) eqn:Hb; [discriminate|]. intros [= <-]. by apply bool_decide_eq_false in Hb.
Qed.

Lemma validate_plan_ok plan paths : validate_patch_plan plan = Ok paths -> valid_plan plan paths.
Proof.
  unfold validate_patch_plan, perr. intros H.
  destruct (_ || _ || _); [discriminate|]. apply bind_ok_inv in H as (b & Hb & H).
  destruct (_ || _ || _); [discriminate|]. apply bind_ok_inv in H as (approved & Ha & H).
  destruct (bool_decide (approved = [])); [discriminate|]. apply bind_ok_inv in H as (changed & Hc & H).
  destruct (bool_decide (changed = [])) eqn:Hn; [discriminate|]. injection H as ->.
  apply bool_decide_eq_false in Hn. apply check_replacements_ok in Hc as (Hd & ps & -> & Hps); [|constructor].
  split_and!; [done|done| |by exists approved]. exists b. split; [done|]. by eapply validate_branch_ok.
Qed.

(** A dict comprehension over distinct keys is the list itself. *)
Lemma dict_comp_id l : NoDup (map fst l) -> dict_comp l = l.
Proof.
  unfold dict_comp. intros H.
  assert (forall acc, NoDup (map fst (acc ++ l)) ->
    fold_left (fun d m => if bool_decide (fst m ∈ map fst d)
      then map (fun e => if String.eqb (fst e) (fst m) then m else e) d else d ++ [m]) l acc = acc ++ l) as Hacc.
  { clear H. induction l as [|m l IH]; intros acc H; cbn [fold_left]; [by rewrite app_nil_r|].
    rewrite bool_decide_eq_false_2.
    - rewrite IH; by rewrite <- app_assoc.
    - rewrite map_app in H. apply NoDup_app in H as (_ & H & _). intros Hin. apply (H _ Hin). simpl. set_solver. }
  by apply Hacc.
Qed.

Lemma dict_comp_keys l k : k ∈ map fst (dict_comp l) <-> k ∈ map fst l.
Proof.
  unfold dict_comp.
  assert (forall acc, k ∈ map fst (fold_left (fun d m => if bool_decide (fst m ∈ map fst d)
      then map (fun e => if String.eqb (fst e) (fst m) then m else e) d else d ++ [m]) l acc)
    <-> k ∈ map fst acc \/ k ∈ map fst l) as Hacc; [|rewrite Hacc; simpl; set_solver].
  induction l as [|m l IH]; intros acc; cbn [fold_left]; [set_solver|]. rewrite IH.
  case_bool_decide as Hm.
  - assert (map fst (map (fun e => if String.eqb (fst e) (fst m) then m else e) acc) = map fst acc) as ->.
    { rewrite map_map. apply map_ext. intros e. by destruct (String.eqb_spec (fst e) (fst m)) as [->|]. }
    simpl. set_solver.
  - rewrite map_app. simpl. set_solver.
Qed.

Lemma str_lookup_ok k d : is_ok (str_lookup k d) = true <-> k ∈ map fst d.
Proof.
  unfold str_lookup. destruct (List.find _ d) as [m|] eqn:Hf.
  - apply find_some in Hf as [Hm <-%String.eqb_eq]. simpl. split; [|done]. intros _.
    apply list_elem_of_In. by apply in_map.
  - simpl. split; [done|]. intros (m & Hm & Hin)%list_elem_of_fmap.
    apply list_elem_of_In in Hin. pose proof (find_none _ _ Hf _ Hin) as Hk. simpl in Hk.
    subst k. by rewrite String.eqb_refl in Hk.
Qed.

(** The raw paths of the replacements are the approved ones, in some order. *)
Definition raw_paths_match (plan : PatchPlan) (paths : list string) : Prop :=
  map path (replacements plan) ≡ₚ paths.

(** The fingerprint lines are computed exactly when every normalised path is
    also a raw one; the paths are distinct, so the two lists then agree. *)
Lemma lines_ok plan paths (f g : FileReplacement -> string * string) (h : string * string -> string * string) :
  valid_plan plan paths -> (forall r, fst (f r) = path r) -> (forall r, fst (g r) = path r) ->
  (forall m, fst (h m) = fst m) ->
  is_ok (mapR (fun p => b ← str_lookup p (dict_comp (map g (replacements plan)));
                        a ← str_lookup p (map h (dict_comp (map f (replacements plan))));
                        Ok (p +:+ "|" +:+ b +:+ "|" +:+ a)) (sorted paths)) = true
  <-> raw_paths_match plan paths.
Proof.
  intros (Hd & _ & _ & ap & _ & H2) Hf Hg Hh.
  assert (forall k (u : FileReplacement -> string * string), (forall r, fst (u r) = path r) ->
    k ∈ map fst (dict_comp (map u (replacements plan))) <-> k ∈ map path (replacements plan)) as Hk.
  { intros k u Hu. rewrite dict_comp_keys, map_map. by rewrite (map_ext _ _ Hu). }
  rewrite mapR_is_ok. unfold raw_paths_match. split.
  - intros H. symmetry. apply submseteq_length_Permutation.
    + apply NoDup_submseteq; [done|]. intros p Hp. rewrite <- (sorted_perm paths) in Hp.
      specialize (H p Hp). destruct (str_lookup p (dict_comp _)) as [b|] eqn:Hb; [|done].
      apply (Hk p g Hg). apply str_lookup_ok. by rewrite Hb.
    + rewrite length_map. apply Forall2_length in H2. lia.
  - intros Hp p Hin. rewrite sorted_perm, <- Hp in Hin.
    pose proof (proj2 (Hk p g Hg) Hin) as Hb%str_lookup_ok.
    destruct (str_lookup p (dict_comp _)); [|done]. cbn [mbind res_bind].
    assert (p ∈ map fst (map h (dict_comp (map f (replacements plan))))) as Ha%str_lookup_ok.
    { rewrite map_map, (map_ext _ _ Hh). by apply (Hk p f Hf). }
    by destruct (str_lookup p (map h _)).
Qed.

(** The calls of a plan that passes. *)
Definition plan_calls (plan : PatchPlan) : list gateway_call :=
  [CallCreateBranch (plan_repository plan) (branch_name plan) (base_sha plan);
   CallReplaceFiles (plan_repository plan) (branch_name plan)
     (map (fun r => (path r, content r)) (replacements plan)) (commit_message plan);
   CallOpenPullRequest (plan_repository plan) (branch_name plan) "main" (pull_request_title plan)
     (pull_request_body plan)].

(** ** Normalising twice *)

Lemma has_app a x y : str_has a (x +:+ y) = str_has a x || str_has a y.
Proof. induction x as [|c x IH]; simpl; [done|]. by rewrite IH, orb_assoc. Qed.

Lemma has_replace a b s : a <> b -> str_has a (replace_char a b s) = false.
Proof.
  intros Hab. induction s as [|c s IH]; simpl; [done|]. rewrite IH, orb_false_r.
  destruct (Ascii.eqb_spec c a); apply Ascii.eqb_neq; congruence.
Qed.

Lemma has_lstrip a s : str_has a s = false -> str_has a (lstrip s) = false.
Proof.
  induction s as [|c s IH]; simpl; [done|]. intros H. destruct (is_space c); [|done].
  apply orb_false_iff in H as [_ H]. auto.
Qed.

Lemma has_rstrip a s : str_has a s = false -> str_has a (rstrip s) = false.
Proof.
  induction s as [|c s IH]; simpl; [done|]. intros [H1 H2]%orb_false_iff.
  destruct (is_space c && _); simpl; [done|]. rewrite H1. auto.
Qed.

Lemma has_split_on a sep cur s :
  str_has a cur = false -> str_has a s = false -> Forall (fun w => str_has a w = false) (split_on sep cur s).
Proof.
  revert cur. induction s as [|c s IH]; intros cur Hc Hs; simpl in *; [by repeat constructor|].
  apply orb_false_iff in Hs as [H1 H2]. destruct (Ascii.eqb c sep); [constructor; [done|]; by apply IH|].
  apply IH; [|done]. rewrite has_app. simpl. by rewrite Hc, H1.
Qed.

Lemma has_join a sep ps :
  str_has a sep = false -> Forall (fun w => str_has a w = false) ps -> str_has a (join sep ps) = false.
Proof.
  intros Hsep H. induction H as [|w ps Hw H IH]; [done|]. destruct ps as [|w' ps]; [done|].
  change (join sep (w :: w' :: ps)) with (w +:+ sep +:+ join sep (w' :: ps)).
  by rewrite !has_app, Hw, Hsep, IH.
Qed.

Lemma replace_absent a b s : str_has a s = false -> replace_char a b s = s.
Proof.
  induction s as [|c s IH]; simpl; [done|]. intros [H1 H2]%orb_false_iff.
  rewrite Ascii.eqb_sym, H1. by rewrite (IH H2).
Qed.

Lemma safe_path_no_backslash v p : _safe_relative_path v = Ok p -> str_has backslash_char p = false.
Proof.
  intros H. apply safe_path_ok in H as (ps & -> & _ & _ & _ & _ & ->).
  set (t := strip _). assert (str_has backslash_char t = false) as Ht
    by (by apply has_rstrip, has_lstrip, has_replace).
  unfold path_str. destruct (path_parts t) as [|c ps] eqn:E; [done|]. apply has_join; [done|].
  rewrite <- E. pose proof (has_split_on _ slash "" t eq_refl Ht) as Hs.
  unfold path_parts. rewrite Forall_forall in Hs |- *. intros w Hw%list_elem_of_In.
  apply filter_In in Hw as [Hw _]. by apply Hs, list_elem_of_In.
Qed.

Lemma path_str_relative ps : Forall clean ps -> truthy (path_str ps) = true /\ is_absolute (path_str ps) = false.
Proof.
  intros H. unfold path_str. destruct H as [|c ps [(H1 & _ & H2) _] _]; [done|].
  destruct c as [|a c]; [done|]. apply orb_false_iff in H2 as [H2 _].
  assert (forall x, startswith "/" (String a x) = false) as Hs.
  { intros x. change (startswith "/" (String a x)) with (Ascii.eqb slash a && true). by rewrite H2. }
  unfold is_absolute. destruct ps; (split; [done|]); apply Hs.
Qed.

Lemma safe_path_idempotent v p : _safe_relative_path v = Ok p -> strip p = p -> _safe_relative_path p = Ok p.
Proof.
  intros H Hs. pose proof (safe_path_no_backslash _ _ H) as Hb.
  apply safe_path_ok in H as (ps & -> & Hps & Hc & Hg & Hgh & _). unfold _safe_relative_path.
  rewrite replace_absent, Hs, Hps by done. destruct (path_str_relative _ Hc) as [-> ->]. cbn [negb orb].
  rewrite !bool_decide_eq_false_2; [|intros Hin; rewrite Forall_forall in Hc; by destruct (Hc _ Hin) as [(_ & ? & _) _]
    |intros Hin; rewrite Forall_forall in Hc; by destruct (Hc _ Hin)]. cbn [orb].
  destruct (existsb _ ps) eqn:He; [|done]. apply existsb_exists in He as (c & Hin & Heq).
  apply list_elem_of_In in Hin. by apply orb_true_iff in Heq as [->%String.eqb_eq| ->%String.eqb_eq].
Qed.

Lemma safe_path_refused v e : _safe_relative_path v = Raise e ->
  let given := strip (replace_char backslash_char slash v) in
  exn_class e = PatchSandboxError /\
  (given = "" \/ is_absolute given = true \/ exists c, c ∈ path_parts given /\ c ∈ [".."; ".git"; ".github"]).
Proof.
  intros H given. unfold _safe_relative_path, perr, fail in H. fold given in H.
  destruct (negb (truthy given)) eqn:H1; [injection H as <-; split; [done|left]; by destruct given|].
  destruct (is_absolute given) eqn:H2; [injection H as <-; auto|]. cbn [orb] in H.
  case_bool_decide as H3; [injection H as <-; split; [done|right; right; exists ".."; set_solver]|].
  case_bool_decide as H4; cbn [orb] in H.
  { pose proof (path_parts_component given) as Hc. rewrite Forall_forall in Hc. by destruct (Hc _ H4) as (_ & Hd & _). }
  destruct (existsb _ _) eqn:H5; [|discriminate]. injection H as <-. split; [done|right; right].
  apply existsb_exists in H5 as (c & Hin%list_elem_of_In & Heq). exists c. split; [done|].
  apply orb_true_iff in Heq as [->%String.eqb_eq| ->%String.eqb_eq]; set_solver.
Qed.

(** What [_target] answers lies in the workspace. *)
Lemma target_inv fs w v p t : _safe_relative_path v = Ok p -> _target fs w v = Ok t ->
  resolve fs (w ++ path_parts p) = Ok t /\ w `prefix_of` t /\
  forall d, d ∈ parents w (path_parts p) -> is_symlink fs d = false.
Proof.
  unfold _target, perr. intros -> H. cbn [mbind res_bind] in H. apply bind_ok_inv in H as (q & Hq & H).
  destruct (is_prefix w q) eqn:Hp; [|discriminate]. cbn [negb] in H. apply bool_decide_eq_true in Hp.
  destruct (existsb _ _) eqn:Hx; [discriminate|]. destruct (is_symlink fs q); [discriminate|]. injection H as <-.
  split_and!; [done| |].
  - exists (drop (length w) q). rewrite <- Hp at 1. by rewrite take_drop.
  - intros d Hd. apply not_true_iff_false. intros Hl. apply not_true_iff_false in Hx. apply Hx.
    apply existsb_exists. exists d. by rewrite <- list_elem_of_In.
Qed.

Lemma safe_path_given v p : _safe_relative_path v = Ok p ->
  let given := strip (replace_char backslash_char slash v) in given <> "" /\ is_absolute given = false.
Proof.
  intros H given. unfold _safe_relative_path, perr, fail in H. fold given in H.
  destruct (truthy given) eqn:H1; [|discriminate]. destruct (is_absolute given); [discriminate|].
  split; [|done]. intros E. by rewrite E in H1.
Qed.

(** White space the first pass leaves at an edge is stripped by the second. *)
Example safe_path_not_idempotent :
  _safe_relative_path "./ a" = Ok " a" /\ _safe_relative_path " a" = Ok "a".
Proof. split; vm_compute; reflexivity. Qed.

(** ** Properties *)


(** Staging, on a file system without links.  A staged plan leaves at
    every target the approved text, whose previous content had the expected
    fingerprint, inside the workspace; apart from the targets, the temporary
    names and directories that were missing nothing changes.  A plan that is
    refused leaves the file system untouched. *)
Theorem stage_spec pid w plan fs :
  no_links fs -> Forall clean w -> str_has slash pid = false ->
  let ts := map (target_of w) (replacements plan) in
  match stage pid w plan fs with
  | (Ok (before, after), fs') =>
      Forall (checked fs w) (replacements plan) /\
      (forall t, t ∈ ts -> w `prefix_of` t) /\
      (forall q, q ∉ ts -> q ∉ map (temp_path pid) ts ->
         fs' !! q = fs !! q \/ (fs !! q = None /\ fs' !! q = Some NDir)) /\
      (NoDup ts -> (forall t u, t ∈ ts -> u ∈ ts -> t <> temp_path pid u) ->
         forall r, r ∈ replacements plan -> fs' !! target_of w r = Some (NFile (utf8_encode (content r))))
  | (Raise e, fs') => isinstance e PatchSandboxError = true -> fs' = fs
  end.
Proof.
  intros Hn Hw Hp ts. unfold stage.
  destruct (_ ≫= _) as [[b a]|e] eqn:Hc; [|done].
  apply bind_ok_inv in Hc as (paths & _ & Hc). apply stage_check_ok in Hc; [|done|done].
  pose proof (checked_names _ _ _ Hc) as Hnames.
  destruct (stage_write pid fs w (replacements plan)) as [[[]|e] fs'] eqn:Hwr; cbn [mbind res_bind].
  - apply (stage_write_ok pid w) in Hwr as [H1 H2]; [|done..]. split_and!; [done| |done|done].
    intros t (r & -> & Hr)%list_elem_of_fmap. rewrite Forall_forall in Hnames.
    destruct (Hnames _ Hr) as (p & q & Hpp & Hq). unfold target_of. rewrite Hpp. cbn [mbind res_bind].
    rewrite Hq. by exists (path_parts q).
  - intros He. apply (stage_write_error pid w) in Hwr; [congruence|done..].
Qed.

Module SandboxDemo.
Definition fs : fsys :=
  <[["ws"; "src"; "a.py"] := NFile "x"]> (<[["ws"; "src"] := NDir]> (<[["ws"] := NDir]> ∅)).
Definition sha_x : string := Eval vm_compute in _sha256_bytes "x".
Definition plan_of (raw : string) : PatchPlan :=
  mkPlan "pr1" "acme/app" "sha0" "nico/pr1" "Use safe_load" "Use safe_load" "Details"
    [mkReplacement raw "y" sha_x] ["src/a.py"].
Definition gw : PullRequestGateway :=
  mkGateway (fun _ _ _ => Ok tt) (fun _ _ _ _ => Ok "sha1") (fun _ _ _ _ _ => Ok "https://example/1").
(** [docs/x] is a link to a file the plan does not name. *)
Definition linked : fsys :=
  <[["ws"; "docs"; "x"] := NLink false [".."; "src"; "a.py"]]> (<[["ws"; "docs"] := NDir]> fs).
Definition link_plan : PatchPlan :=
  mkPlan "pr1" "acme/app" "sha0" "nico/pr1" "Edit docs" "Edit docs" "Details"
    [mkReplacement "docs/x" "y" sha_x] ["docs/x"].
Lemma fs_no_links : no_links fs.
Proof.
  unfold fs. repeat (apply no_links_insert; [|done]). intros p. unfold is_symlink. by rewrite lookup_empty.
Defined.
End SandboxDemo.

Lemma stage_spec_witness :
  exists b a fs', stage "7" ["ws"] (SandboxDemo.plan_of "src/a.py") SandboxDemo.fs = (Ok (b, a), fs') /\
    fs' !! ["ws"; "src"; "a.py"] = Some (NFile "y").
Proof.
  assert (exists b a fs', stage "7" ["ws"] (SandboxDemo.plan_of "src/a.py") SandboxDemo.fs = (Ok (b, a), fs'))
    as (b & a & fs' & H) by (do 3 eexists; vm_compute; reflexivity).
  assert (Forall clean ["ws"]) as Hw by (repeat constructor; done).
  pose proof (stage_spec "7" ["ws"] (SandboxDemo.plan_of "src/a.py") SandboxDemo.fs
    SandboxDemo.fs_no_links Hw eq_refl) as Hs. cbv zeta in Hs. rewrite H in Hs.
  destruct Hs as (_ & _ & _ & Hs). exists b, a, fs'. split; [done|].
  set (r := mkReplacement "src/a.py" "y" SandboxDemo.sha_x).
  assert (target_of ["ws"] r = ["ws"; "src"; "a.py"]) as Ht by (vm_compute; reflexivity).
  change (replacements (SandboxDemo.plan_of "src/a.py")) with [r] in Hs. cbn [map] in Hs.
  rewrite Ht in Hs. specialize (Hs (NoDup_singleton _)). rewrite <- Ht. apply Hs.
  - intros t u ->%list_elem_of_singleton ->%list_elem_of_singleton. vm_compute. discriminate.
  - by apply list_elem_of_singleton.
Defined.

Lemma prepare_ok plan base paths files before after fp :
  prepare_submission plan base = Ok (paths, files, before, after, fp) ->
  validate_patch_plan plan = Ok paths /\ base = "main" /\ raw_paths_match plan paths /\
  files = map (fun r => (path r, content r)) (replacements plan).
Proof.
  unfold prepare_submission, perr. intros H. apply bind_ok_inv in H as (ps & Hv & H).
  destruct (String.eqb_spec base "main") as [->|]; [|discriminate]. cbn [negb] in H.
  apply bind_ok_inv in H as (lines & Hl & H). injection H as -> <- _ _ _.
  assert (raw_paths_match plan paths) as Hm.
  { eapply (lines_ok plan paths (fun r => (path r, content r)) (fun r => (path r, expected_sha256 r))
      (fun f => (fst f, _sha256_bytes (utf8_encode (snd f))))); [by apply validate_plan_ok|done|done|done|].
    by rewrite Hl. }
  split_and!; [done|done|done|]. apply dict_comp_id. rewrite map_map. simpl.
  apply validate_plan_ok in Hv as [Hd _]. unfold raw_paths_match in Hm. by rewrite Hm.
Qed.

Lemma prepare_total plan paths :
  validate_patch_plan plan = Ok paths -> raw_paths_match plan paths ->
  is_ok (prepare_submission plan "main") = true.
Proof.
  intros Hv Hm. unfold prepare_submission. rewrite Hv. cbn [mbind res_bind negb].
  rewrite String.eqb_refl. cbn [negb].
  eapply (lines_ok plan paths (fun r => (path r, content r)) (fun r => (path r, expected_sha256 r))
    (fun f => (fst f, _sha256_bytes (utf8_encode (snd f))))) in Hm; [|by apply validate_plan_ok|done|done|done].
  by destruct (mapR _ _).
Qed.

(** The part of [submit_patch_plan] that talks to the gateway. *)
Lemma submit_prepared gw plan base paths files before after fp :
  prepare_submission plan base = Ok (paths, files, before, after, fp) ->
  let '(r, calls) := submit_patch_plan gw plan base in
  calls <> [] /\ calls `prefix_of` plan_calls plan /\
  (forall x, r = Ok x -> calls = plan_calls plan /\ production_modified x = false /\
     commit_sha x <> "" /\ pull_request_url x <> "" /\ changed_paths x = paths).
Proof.
  intros H. pose proof (prepare_ok _ _ _ _ _ _ _ H) as (_ & -> & _ & ->).
  unfold submit_patch_plan. rewrite H. unfold plan_calls, perr, fail.
  destruct (create_branch _ _ _ _); [|split_and!; [done|by eexists|done]].
  destruct (replace_files _ _ _ _ _) as [sha|]; [|split_and!; [done|by eexists|done]].
  destruct (open_pull_request _ _ _ _ _ _) as [url|]; [|split_and!; [done|by eexists|done]].
  destruct (truthy sha) eqn:Hs, (truthy url) eqn:Hu; cbn [negb orb];
    (split_and!; [done|by exists []|]); try done.
  apply truthy_spec in Hs, Hu. by intros x [= <-].
Qed.

(** Submitting.  The gateway is called exactly when the plan is valid, the
    base branch is main and the raw paths of the replacements are the approved
    normalised ones (otherwise nothing is called, even for a valid plan); the
    calls are, in order, the branch, the files and the pull request, on a branch
    that is none of main, master and production; and a result means that all
    three were made. *)
Theorem submit_calls gw plan base :
  let '(r, calls) := submit_patch_plan gw plan base in
  (calls <> [] <-> exists paths, validate_patch_plan plan = Ok paths /\ base = "main" /\ raw_paths_match plan paths) /\
  calls `prefix_of` plan_calls plan /\
  (calls <> [] -> exists b, _validate_branch (branch_name plan) = Ok b /\ b ∉ ["main"; "master"; "production"]) /\
  (forall x, r = Ok x -> calls = plan_calls plan /\ production_modified x = false /\
     commit_sha x <> "" /\ pull_request_url x <> "" /\ map path (replacements plan) ≡ₚ changed_paths x).
Proof.
  destruct (prepare_submission plan base) as [[[[[paths files] before] after] fp]|e] eqn:Hp.
  - pose proof (submit_prepared gw _ _ _ _ _ _ _ Hp) as Hs.
    destruct (submit_patch_plan gw plan base) as [r calls]. destruct Hs as (Hne & Hpre & Hok).
    pose proof (prepare_ok _ _ _ _ _ _ _ Hp) as (Hv & -> & Hm & _). split_and!; [by split; eauto|done| |].
    + intros _. by apply validate_plan_ok in Hv as (_ & _ & ? & _).
    + intros x Hx. destruct (Hok x Hx) as (? & ? & ? & ? & ->). by split_and!.
  - unfold submit_patch_plan. rewrite Hp. split_and!; [|apply prefix_nil|done|done]. split; [done|].
    intros (paths & Hv & -> & Hm). pose proof (prepare_total _ _ Hv Hm). by rewrite Hp in *.
Qed.

(** A link as the last component.  [_target] resolves the path before it
    asks whether it is a link, so a plan approved for [docs/x] only rewrites the
    file that [docs/x] links to, which it was never approved for. *)
Theorem stage_follows_link :
  exists fs', snd (stage "7" ["ws"] SandboxDemo.link_plan SandboxDemo.linked) = fs' /\
    is_ok (fst (stage "7" ["ws"] SandboxDemo.link_plan SandboxDemo.linked)) = true /\
    approved_paths SandboxDemo.link_plan = ["docs/x"] /\
    SandboxDemo.linked !! ["ws"; "src"; "a.py"] = Some (NFile "x") /\
    fs' !! ["ws"; "src"; "a.py"] = Some (NFile "y").
Proof. eexists. split_and!; [reflexivity|vm_compute; reflexivity ..]. Qed.

(** A valid plan whose raw path is not the normalised one raises [KeyError]. *)
Example submit_key_error :
  is_ok (validate_patch_plan (SandboxDemo.plan_of "src//a.py")) = true /\
  submit_patch_plan SandboxDemo.gw (SandboxDemo.plan_of "src//a.py") "main" = (fail KeyError "src/a.py", []).
Proof. split; vm_compute; reflexivity. Qed.
