(* ===== verification/MonitorScheduler.v ===== *)
(** * Observations, change events, alerts and the run schedule
    (nico/monitor_scheduler.py)

    Two observations of a repository give change events, events give alerts and
    work items, and a run's outcome gives the time of the next one.  Scores are
    binary64 floats, findings JSON objects; [detect_changes] compares exactly
    as the source does, in the source's order. *)

From S2P Require Import Prelude PyStr Sha256 PyFloat Json JsonFacts PyTime PyTimeFacts.
From S2P Require Import MonitorContract MonitorStore.

Record MonitorCadence := mkCadence {
  interval_seconds : Z;
  stale_after_seconds : Z;
  max_consecutive_failures : Z }.

Definition serr {A} (m : string) : res A := fail MonitorSchedulerError m.

Definition cadence_validate (c : MonitorCadence) : res unit :=
  if interval_seconds c <? 60 then serr "monitor_interval_too_short"
  else if stale_after_seconds c <? interval_seconds c then serr "monitor_stale_window_too_short"
  else if max_consecutive_failures c <? 1 then serr "monitor_failure_limit_invalid"
  else Ok tt.

Record RepositoryObservation := mkObservation {
  ob_repository : string;
  ob_immutable_sha : string;
  observed_at : string;
  canonical_score : float;
  evidence_completeness : float;
  deployment_state : string;
  provider_state : string;
  findings : list dict;
  artifact_digest : string;
  ob_human_review_required : bool;
  ob_client_delivery_allowed : bool }.

Record ChangeEvent := mkEvent {
  event_id : string;
  ev_repository : string;
  ev_before_sha : string;
  ev_after_sha : string;
  change_type : string;
  severity : string;
  summary : string;
  evidence_ids : list string;
  dedup_key : string;
  detected_at : string }.

Record AlertPolicy := mkPolicy {
  minimum_severity : string;
  score_drop_threshold : float;
  evidence_drop_threshold : float;
  escalation_after_seconds : Z;
  destinations : list string }.
Definition default_policy : AlertPolicy :=
  mkPolicy "medium" (float_of_Z 5) (float_of_Z 10) 3600 ["dashboard"].

Record AlertRecord := mkAlert {
  alert_id : string;
  al_event_id : string;
  destination : string;
  al_status : string;
  al_created_at : string;
  acknowledged_at : string;
  escalated_at : string }.

Record MonitorRunState := mkRunState {
  monitor_id : string;
  rs_repository : string;
  rs_customer_id : string;
  rs_project_id : string;
  last_sha : string;
  last_observed_at : string;
  next_run_at : string;
  consecutive_failures : Z;
  last_error : string;
  rs_revision : Z }.

Definition _digest (parts : list string) : string := pipe_digest parts.

Definition _severity_rank (value : string) : Z :=
  match List.find (fun e => String.eqb (fst e) (lower value))
          [("info", 0); ("low", 1); ("medium", 2); ("high", 3); ("critical", 4)] with
  | Some e => snd e
  | None => 0
  end.

Definition _finding_id (f : dict) : string :=
  py_str (jor (dget f "finding_id") (jor (dget f "id") (JStr
    (_digest [dget_str f "rule"; dget_str f "path"; dget_str f "line"; dget_str f "title"])))).

Definition issue (b : bool) (m : string) : list string := if b then [m] else [].

Definition validate_observation (o : RepositoryObservation) : list string :=
  issue (negb (truthy (ob_repository o))) "monitor_observation_repository_required" ++
  issue (negb (truthy (ob_immutable_sha o))) "monitor_observation_sha_required" ++
  issue (negb (truthy (observed_at o))) "monitor_observation_time_required" ++
  issue (negb (startswith "sha256:" (artifact_digest o))) "monitor_observation_artifact_digest_required" ++
  issue (negb (fleb (float_of_Z 0) (canonical_score o) && fleb (canonical_score o) (float_of_Z 100)))
    "monitor_observation_score_invalid" ++
  issue (negb (fleb (float_of_Z 0) (evidence_completeness o) && fleb (evidence_completeness o) (float_of_Z 100)))
    "monitor_observation_evidence_invalid" ++
  issue (negb (ob_human_review_required o)) "monitor_observation_human_review_required" ++
  issue (ob_client_delivery_allowed o) "monitor_observation_delivery_must_be_blocked".

Definition _event (previous current : RepositoryObservation) (change_type severity summary : string)
    (evidence_ids : list string) : ChangeEvent :=
  let evidence := dict_fromkeys (List.filter truthy evidence_ids) in
  let dedup := _digest [ob_repository current; change_type; join "," evidence; ob_immutable_sha current] in
  mkEvent (_digest [dedup; observed_at current]) (ob_repository current) (ob_immutable_sha previous)
    (ob_immutable_sha current) change_type severity summary evidence dedup (observed_at current).

(** The five comparisons of the observations themselves. *)
Definition state_events (selected : AlertPolicy) (previous current : RepositoryObservation) : list ChangeEvent :=
  let ev := _event previous current in
  let score_drop := fsub (canonical_score previous) (canonical_score current) in
  let evidence_drop := fsub (evidence_completeness previous) (evidence_completeness current) in
  (if negb (String.eqb (ob_immutable_sha previous) (ob_immutable_sha current))
   then [ev "repository_revision_changed" "info"
           "The monitored repository advanced to a new immutable revision." []] else []) ++
  (if fleb (score_drop_threshold selected) score_drop
   then [ev "canonical_score_regressed" (if fleb (float_of_Z 15) score_drop then "high" else "medium")
           ("Canonical score decreased by " +:+ format_fixed 1 score_drop +:+ " points.") []] else []) ++
  (if fleb (evidence_drop_threshold selected) evidence_drop
   then [ev "evidence_completeness_regressed" "medium"
           ("Evidence completeness decreased by " +:+ format_fixed 1 evidence_drop +:+ " points.") []] else []) ++
  (if String.eqb (provider_state previous) "ready" && negb (String.eqb (provider_state current) "ready")
   then [ev "provider_collection_degraded" "high"
           ("Provider collection changed from ready to " +:+ provider_state current +:+ ".") []] else []) ++
  (if String.eqb (deployment_state previous) "success" && negb (String.eqb (deployment_state current) "success")
   then [ev "deployment_degraded" "critical"
           ("Deployment state changed from success to " +:+ deployment_state current +:+ ".") []] else []).

(** [{_finding_id(item): item for item in l}[fid]]: the last finding of that id. *)
Fixpoint finding_by_id (fid : string) (l : list dict) : dict :=
  match l with
  | [] => []
  | f :: l => if bool_decide (fid ∈ map _finding_id l) then finding_by_id fid l
              else if String.eqb (_finding_id f) fid then f else []
  end.

(** [sorted(set(current) - set(previous))] *)
Definition new_finding_ids (previous current : RepositoryObservation) : list string :=
  sorted (List.filter (fun i => negb (bool_decide (i ∈ map _finding_id (findings previous))))
            (dict_fromkeys (map _finding_id (findings current)))).

Definition finding_event (previous current : RepositoryObservation) (fid : string) : ChangeEvent :=
  let f := finding_by_id fid (findings current) in
  _event previous current "new_finding" (lower (py_str (jor (dget f "severity") (JStr "medium"))))
    (py_str (jor (dget f "title") (JStr ("New finding " +:+ fid)))) [fid; dget_str f "evidence_id"].

(** [unique.setdefault(event.dedup_key, event)] for the events that pass. *)
Fixpoint unique_events (seen : list string) (l : list ChangeEvent) : list ChangeEvent :=
  match l with
  | [] => []
  | e :: l => if bool_decide (dedup_key e ∈ seen) then unique_events seen l
              else e :: unique_events (dedup_key e :: seen) l
  end.

Definition passes (selected : AlertPolicy) (e : ChangeEvent) : bool :=
  String.eqb (change_type e) "repository_revision_changed"
  || (_severity_rank (minimum_severity selected) <=? _severity_rank (severity e)).

Definition detect_changes (previous current : RepositoryObservation) (policy : option AlertPolicy)
    : res (list ChangeEvent) :=
  let selected := default default_policy policy in
  let issues := validate_observation previous ++ validate_observation current in
  if bool_decide (issues <> []) then serr (join "," issues)
  else if negb (String.eqb (ob_repository previous) (ob_repository current))
  then serr "monitor_repository_identity_drift"
  else
    let events := state_events selected previous current ++
      map (finding_event previous current) (new_finding_ids previous current) in
    Ok (unique_events [] (List.filter (passes selected) events)).

Definition event_alerts (policy : AlertPolicy) (e : ChangeEvent) : list AlertRecord :=
  map (fun d => mkAlert (_digest [event_id e; d]) (event_id e) d "pending" (detected_at e) "" "")
    (destinations policy).

(** The loop of [build_alerts]: [seen] holds the keys met so far. *)
Fixpoint alerts_from (policy : AlertPolicy) (seen : list string) (l : list ChangeEvent) : list AlertRecord :=
  match l with
  | [] => []
  | e :: l => if bool_decide (dedup_key e ∈ seen) then alerts_from policy seen l
              else event_alerts policy e ++ alerts_from policy (dedup_key e :: seen) l
  end.
Definition build_alerts (events : list ChangeEvent) (policy : AlertPolicy) (existing : list string)
    : list AlertRecord := alerts_from policy existing events.

(** [(a - b).total_seconds() < n] *)
Definition elapsed_below (a b : datetime) (n : Z) : bool :=
  fltb (float_of_ratio (a - b) us_per_second) (float_of_Z n).

Definition escalate_alert (alert : AlertRecord) (policy : AlertPolicy) (now : string) : res AlertRecord :=
  if negb (bool_decide (al_status alert ∈ ["pending"; "sent"])) || truthy (acknowledged_at alert)
  then Ok alert
  else
    t ← parse_utc now;
    t0 ← parse_utc (al_created_at alert);
    if elapsed_below t t0 (escalation_after_seconds policy) then Ok alert
    else Ok (mkAlert (alert_id alert) (al_event_id alert) (destination alert) "escalated"
               (al_created_at alert) (acknowledged_at alert) now).

(** Seconds to the next run.  [failures] counts, so it is never negative. *)
Definition run_delay (c : MonitorCadence) (failures : Z) : Z :=
  if failures =? 0 then interval_seconds c
  else Z.min (stale_after_seconds c) (interval_seconds c * 2 ^ Z.min failures 8).

Definition next_run_state (s : MonitorRunState) (c : MonitorCadence) (success : bool)
    (observed_sha error : string) (current : datetime) : res MonitorRunState :=
  _ ← cadence_validate c;
  let failures := if success then 0 else consecutive_failures s + 1 in
  next ← dt_add current (run_delay c failures * us_per_second);
  Ok (mkRunState (monitor_id s) (rs_repository s) (rs_customer_id s) (rs_project_id s)
        (str_or observed_sha (last_sha s))
        (if success then isoformat_z current else last_observed_at s)
        (isoformat_z next) failures
        (if success then "" else str_or error "monitor_run_failed")
        (rs_revision s + 1)).

(** The payload of the work item of an event. *)
Definition first_evidence (e : ChangeEvent) : string :=
  match evidence_ids e with i :: _ => i | [] => event_id e end.
Definition remediation_payload (o : RepositoryObservation) (customer_id project_id : string) (e : ChangeEvent)
    : dict :=
  [("work_item_id", JStr (_digest [ob_repository o; dedup_key e]));
   ("repository", JStr (ob_repository o)); ("immutable_sha", JStr (ob_immutable_sha o));
   ("customer_id", JStr customer_id); ("project_id", JStr project_id);
   ("evidence_id", JStr (first_evidence e));
   ("finding", JObj [("finding_id", JStr (first_evidence e)); ("severity", JStr (severity e));
                     ("title", JStr (summary e)); ("change_event_id", JStr (event_id e))])].

Definition remediable (e : ChangeEvent) : bool :=
  String.eqb (change_type e) "new_finding" && (_severity_rank "high" <=? _severity_rank (severity e)).

(** Every creation is a transaction of its own: what was created before an
    exception stays. *)
Fixpoint create_remediation_work_items (now : string) (o : RepositoryObservation)
    (customer_id project_id : string) (events : list ChangeEvent) (t : table) : res (list dict) * table :=
  match events with
  | [] => (Ok [], t)
  | e :: events =>
      if negb (remediable e) then create_remediation_work_items now o customer_id project_id events t
      else match service_create now (remediation_payload o customer_id project_id e) t with
           | Raise x => (Raise x, t)
           | Ok (d, t') =>
               let '(r, t'') := create_remediation_work_items now o customer_id project_id events t' in
               ((ds ← r; Ok (d :: ds)), t'')
           end
  end.

Definition observation_digest (o : RepositoryObservation) : string :=
  sha256_tag (utf8_encode (dumps spaced_ascii (JObj
    [("repository", JStr (ob_repository o)); ("immutable_sha", JStr (ob_immutable_sha o));
     ("canonical_score", JFloat (canonical_score o));
     ("evidence_completeness", JFloat (evidence_completeness o));
     ("deployment_state", JStr (deployment_state o)); ("provider_state", JStr (provider_state o));
     ("finding_ids", jstrs (sorted (map _finding_id (findings o))));
     ("artifact_digest", JStr (artifact_digest o))]))).

(** ** Lemmas *)

Lemma unique_events_spec l : forall seen,
  NoDup (map dedup_key (unique_events seen l)) /\
  (forall e, e ∈ unique_events seen l -> e ∈ l /\ dedup_key e ∉ seen) /\
  (forall e, e ∈ l -> dedup_key e ∉ seen -> exists e', e' ∈ unique_events seen l /\ dedup_key e' = dedup_key e).
Proof.
  induction l as [|e l IH]; intros seen; cbn [unique_events].
  { split_and!; [constructor|set_solver|set_solver]. }
  case_bool_decide as Hs.
  - destruct (IH seen) as (H1 & H2 & H3). split_and!; [done| |].
    + intros e' He'. destruct (H2 e' He'). set_solver.
    + intros e' [->|He']%elem_of_cons Hn; [done|]. by apply H3.
  - destruct (IH (dedup_key e :: seen)) as (H1 & H2 & H3). split_and!.
    + simpl. constructor; [|done]. intros (e' & Hk & He')%list_elem_of_fmap.
      apply H2 in He' as [_ Hn]. rewrite Hk in Hn. set_solver.
    + intros e' [->|He']%elem_of_cons; [set_solver|]. apply H2 in He'. set_solver.
    + intros e' [->|He']%elem_of_cons Hn; [exists e; set_solver|].
      destruct (decide (dedup_key e' = dedup_key e)) as [Hk|Hk]; [exists e; set_solver|].
      destruct (H3 e' He') as (e2 & ? & ?); [set_solver|]. exists e2. set_solver.
Qed.

Lemma new_finding_ids_spec previous current fid :
  fid ∈ new_finding_ids previous current <->
  fid ∈ map _finding_id (findings current) /\ fid ∉ map _finding_id (findings previous).
Proof.
  unfold new_finding_ids. rewrite sorted_perm, list_elem_of_In, filter_In, <- list_elem_of_In, elem_dict_fromkeys.
  by rewrite negb_true_iff, bool_decide_eq_false.
Qed.

(** What two observations call for, one reason at a time: a new revision, a drop
    of the canonical score or of the evidence by the policy's threshold, a
    provider that is no longer ready, a deployment that no longer succeeds, and a
    finding whose id the old observation does not have. *)
Inductive called_for (selected : AlertPolicy) (previous current : RepositoryObservation) : ChangeEvent -> Prop :=
  | for_revision : ob_immutable_sha previous <> ob_immutable_sha current ->
      called_for selected previous current (_event previous current "repository_revision_changed" "info"
        "The monitored repository advanced to a new immutable revision." [])
  | for_score drop : drop = fsub (canonical_score previous) (canonical_score current) ->
      fleb (score_drop_threshold selected) drop = true ->
      called_for selected previous current (_event previous current "canonical_score_regressed"
        (if fleb (float_of_Z 15) drop then "high" else "medium")
        ("Canonical score decreased by " +:+ format_fixed 1 drop +:+ " points.") [])
  | for_evidence drop : drop = fsub (evidence_completeness previous) (evidence_completeness current) ->
      fleb (evidence_drop_threshold selected) drop = true ->
      called_for selected previous current (_event previous current "evidence_completeness_regressed" "medium"
        ("Evidence completeness decreased by " +:+ format_fixed 1 drop +:+ " points.") [])
  | for_provider : provider_state previous = "ready" -> provider_state current <> "ready" ->
      called_for selected previous current (_event previous current "provider_collection_degraded" "high"
        ("Provider collection changed from ready to " +:+ provider_state current +:+ ".") [])
  | for_deployment : deployment_state previous = "success" -> deployment_state current <> "success" ->
      called_for selected previous current (_event previous current "deployment_degraded" "critical"
        ("Deployment state changed from success to " +:+ deployment_state current +:+ ".") [])
  | for_finding fid : fid ∈ map _finding_id (findings current) -> fid ∉ map _finding_id (findings previous) ->
      called_for selected previous current (finding_event previous current fid).

Lemma elem_if {A} (b : bool) (x y : A) : x ∈ (if b then [y] else []) <-> b = true /\ x = y.
Proof. destruct b; rewrite ?list_elem_of_singleton, ?elem_of_nil; intuition discriminate. Qed.

(** The source looks for each of them. *)
Lemma called_for_iff selected previous current e :
  e ∈ state_events selected previous current ++ map (finding_event previous current) (new_finding_ids previous current) <->
  called_for selected previous current e.
Proof.
  unfold state_events. rewrite !elem_of_app, !elem_if, !andb_true_iff, !negb_true_iff, !String.eqb_neq, !String.eqb_eq.
  split.
  - intros [[[H ->]|[[H ->]|[[H ->]|[[[H1 H2] ->]|[[H1 H2] ->]]]]]|(fid & -> & [H1 H2]%new_finding_ids_spec)%list_elem_of_fmap].
    + by apply for_revision.
    + exact (for_score _ _ _ _ eq_refl H).
    + exact (for_evidence _ _ _ _ eq_refl H).
    + by apply for_provider.
    + by apply for_deployment.
    + by apply for_finding.
  - destruct 1; subst; rewrite ?list_elem_of_fmap; try tauto. right. exists fid. by rewrite new_finding_ids_spec.
Qed.

Lemma detect_ok previous current policy evs :
  detect_changes previous current policy = Ok evs ->
  validate_observation previous = [] /\ validate_observation current = [] /\
  ob_repository previous = ob_repository current /\
  evs = unique_events [] (List.filter (passes (default default_policy policy))
    (state_events (default default_policy policy) previous current ++
     map (finding_event previous current) (new_finding_ids previous current))).
Proof.
  unfold detect_changes, serr. intros H. case_bool_decide as Hi; [discriminate|].
  destruct (String.eqb_spec (ob_repository previous) (ob_repository current)); [|discriminate].
  injection H as <-. apply app_eq_nil in Hi as [? ?]. done.
Qed.

Lemma issue_nil b m l : issue b m ++ l = [] <-> b = false /\ l = [].
Proof. destruct b; simpl; [split; [done|by intros []]|by split; [|intros []]]. Qed.

Lemma validate_finite o : validate_observation o = [] ->
  is_finite (canonical_score o) = true /\ is_finite (evidence_completeness o) = true.
Proof.
  unfold validate_observation. rewrite !issue_nil, !negb_false_iff, !andb_true_iff.
  intros (_ & _ & _ & _ & [H1 H2] & [H3 H4] & _).
  split; (eapply between_finite; [done|done|vm_compute; reflexivity]).
Qed.

(** The first events of their key, outside [seen]. *)
Lemma alerts_unique policy seen l : alerts_from policy seen l = flat_map (event_alerts policy) (unique_events seen l).
Proof.
  revert seen. induction l as [|e l IH]; intros seen; cbn [alerts_from unique_events]; [done|].
  case_bool_decide; [done|]. cbn [flat_map]. by rewrite IH.
Qed.

Lemma unique_events_none seen l : (forall e, e ∈ l -> dedup_key e ∈ seen) -> unique_events seen l = [].
Proof.
  induction l as [|e l IH]; intros H; cbn [unique_events]; [done|].
  rewrite bool_decide_eq_true_2 by (apply H; set_solver). apply IH. set_solver.
Qed.

Lemma cadence_valid c u : cadence_validate c = Ok u ->
  60 <= interval_seconds c <= stale_after_seconds c /\ 1 <= max_consecutive_failures c.
Proof.
  unfold cadence_validate, serr. destruct (Z.ltb_spec (interval_seconds c) 60); [discriminate|].
  destruct (Z.ltb_spec (stale_after_seconds c) (interval_seconds c)); [discriminate|].
  destruct (Z.ltb_spec (max_consecutive_failures c) 1); [discriminate|]. lia.
Qed.

Lemma run_delay_bounds c n : 60 <= interval_seconds c <= stale_after_seconds c -> 0 <= n ->
  interval_seconds c <= run_delay c n <= stale_after_seconds c /\ run_delay c n <= run_delay c (n + 1).
Proof.
  intros Hc Hn. unfold run_delay.
  assert (forall k, 0 <= k -> 1 <= 2 ^ k) as H1.
  { intros k Hk. pose proof (Z.pow_le_mono_r 2 0 k ltac:(lia) Hk). lia. }
  pose proof (H1 (Z.min n 8) ltac:(lia)). pose proof (H1 (Z.min (n + 1) 8) ltac:(lia)).
  pose proof (Z.pow_le_mono_r 2 (Z.min n 8) (Z.min (n + 1) 8) ltac:(lia) ltac:(lia)).
  destruct (Z.eqb_spec n 0), (Z.eqb_spec (n + 1) 0); try lia; nia.
Qed.

(** Consecutive failures double the delay up to the stale window. *)
Lemma next_run_ok s c success sha err t s' :
  next_run_state s c success sha err t = Ok s' ->
  exists next, dt_add t (run_delay c (consecutive_failures s') * us_per_second) = Ok next /\
    next_run_at s' = isoformat_z next /\
    consecutive_failures s' = (if success then 0 else consecutive_failures s + 1) /\
    rs_revision s' = rs_revision s + 1 /\ monitor_id s' = monitor_id s.
Proof.
  unfold next_run_state. intros H. apply bind_ok_inv in H as (u & _ & H).
  apply bind_ok_inv in H as (next & Hn & [= <-]). exists next. by split_and!.
Qed.

Lemma dt_add_ok t d u : dt_add t d = Ok u -> u = t + d /\ dt_valid u = true.
Proof. unfold dt_add. destruct (dt_valid (t + d)) eqn:H; [intros [= <-]; by rewrite H|discriminate]. Qed.

Lemma state_events_self policy o :
  validate_observation o = [] ->
  fltb (float_of_Z 0) (score_drop_threshold policy) = true ->
  fltb (float_of_Z 0) (evidence_drop_threshold policy) = true ->
  state_events policy o o = [].
Proof.
  intros [H1 H2]%validate_finite Hs He. unfold state_events.
  assert (float_of_Z 0 = S754_zero false) as Hz by (vm_compute; reflexivity). rewrite Hz in Hs, He.
  rewrite String.eqb_refl, !fsub_diag, !fltb_not_fleb by done.
  by destruct (String.eqb (provider_state o) "ready"), (String.eqb (deployment_state o) "success").
Qed.

Module SchedulerDemo.
Definition obs (sha state : string) (score : Z) (fs : list dict) : RepositoryObservation :=
  mkObservation "acme/app" sha "2024-01-01T00:00:00Z" (float_of_Z score) (float_of_Z 90) state "ready" fs
    "sha256:abc" true false.
Definition old : RepositoryObservation := obs "sha0" "success" 80 [[("finding_id", JStr "f1")]].
Definition new : RepositoryObservation :=
  obs "sha1" "failed" 60 [[("finding_id", JStr "f1")]; [("finding_id", JStr "f2"); ("severity", JStr "High")]].
Definition cadence : MonitorCadence := mkCadence 3600 7200 5.
Definition fresh : MonitorRunState := mkRunState "m1" "acme/app" "c1" "p1" "" "" "" 7 "" 1.
Definition events : list ChangeEvent := Eval vm_compute in
  match detect_changes old new None with Ok l => l | Raise _ => [] end.
End SchedulerDemo.

(** ** Properties *)

(** No false alarms.  With positive thresholds a valid observation compared
    with itself gives no change event at all. *)
Theorem self_comparison_silent o policy :
  validate_observation o = [] ->
  fltb (float_of_Z 0) (score_drop_threshold (default default_policy policy)) = true ->
  fltb (float_of_Z 0) (evidence_drop_threshold (default default_policy policy)) = true ->
  detect_changes o o policy = Ok [].
Proof.
  intros Ho Hs He. unfold detect_changes. rewrite Ho. cbn [app].
  rewrite bool_decide_eq_false_2 by (intros Hn; by apply Hn). rewrite String.eqb_refl. cbn [negb].
  rewrite state_events_self by done.
  replace (new_finding_ids o o) with (@nil string); [done|]. symmetry.
  destruct (new_finding_ids o o) as [|fid l] eqn:Hl; [done|].
  assert (fid ∈ new_finding_ids o o) as [? ?]%new_finding_ids_spec by (rewrite Hl; set_solver). done.
Qed.
Lemma self_comparison_silent_witness : detect_changes SchedulerDemo.old SchedulerDemo.old None = Ok [].
Proof.
  apply self_comparison_silent; vm_compute; reflexivity.
Defined.

(** C39: what a comparison reports.  Two valid observations of one repository
    are compared, and anything else is refused.  Every event of the answer is one
    the observations call for and passes the policy's severity; the events have
    distinct deduplication keys; and of everything the observations call for (a
    new revision, each of the four regressions, each new finding), what passes the
    policy is reported, under its own key. *)
Theorem detect_changes_spec previous current policy :
  let selected := default default_policy policy in
  match detect_changes previous current policy with
  | Ok evs =>
      validate_observation previous = [] /\ validate_observation current = [] /\
      ob_repository previous = ob_repository current /\
      NoDup (map dedup_key evs) /\
      (forall e, e ∈ evs -> called_for selected previous current e /\ passes selected e = true) /\
      (forall e, called_for selected previous current e -> passes selected e = true ->
         exists e', e' ∈ evs /\ dedup_key e' = dedup_key e)
  | Raise e =>
      exn_class e = MonitorSchedulerError /\
      (validate_observation previous <> [] \/ validate_observation current <> [] \/
       ob_repository previous <> ob_repository current)
  end.
Proof.
  intros selected. destruct (detect_changes previous current policy) as [evs|e] eqn:E.
  - apply detect_ok in E as (Hp & Hc & Hr & ->). split_and!; [done..| | |].
    all: destruct (unique_events_spec (List.filter (passes selected) (state_events selected previous current ++
      map (finding_event previous current) (new_finding_ids previous current))) []) as (H1 & H2 & H3).
    + exact H1.
    + intros e He. apply H2 in He as [He%list_elem_of_In%filter_In _]. rewrite <- called_for_iff, list_elem_of_In. tauto.
    + intros e He Hpass. apply H3; [|by intros Hn%elem_of_nil]. apply list_elem_of_In, filter_In. split; [|done].
      by apply list_elem_of_In, called_for_iff.
  - revert E. unfold detect_changes, serr, fail. case_bool_decide as Hi.
    + intros [= <-]. split; [done|]. destruct (validate_observation previous); [|by left].
      destruct (validate_observation current); [|by right; left]. by destruct Hi.
    + destruct (String.eqb_spec (ob_repository previous) (ob_repository current)); [discriminate|].
      intros [= <-]. auto.
Qed.

(** The comparison of the demonstration reports its four changes. *)
Example detect_changes_demo : map change_type SchedulerDemo.events =
  ["repository_revision_changed"; "canonical_score_regressed"; "deployment_degraded"; "new_finding"].
Proof. vm_compute. reflexivity. Qed.

(** One alert per event and destination.  The alerts are those of the
    first event of every deduplication key that is not yet recorded, one for
    each destination in order; once the keys are recorded, the same events give
    no alert again. *)
Theorem build_alerts_once events policy existing :
  (exists firsts, build_alerts events policy existing = flat_map (event_alerts policy) firsts /\
     NoDup (map dedup_key firsts) /\
     (forall e, e ∈ firsts -> e ∈ events /\ dedup_key e ∉ existing) /\
     (forall e, e ∈ events -> dedup_key e ∉ existing -> exists e', e' ∈ firsts /\ dedup_key e' = dedup_key e)) /\
  build_alerts events policy (existing ++ map dedup_key events) = [].
Proof.
  unfold build_alerts. rewrite !alerts_unique. split.
  - destruct (unique_events_spec events existing) as (H1 & H2 & H3). by eexists.
  - rewrite unique_events_none; [done|]. intros e He. apply elem_of_app. right.
    apply list_elem_of_fmap. eauto.
Qed.

(** The schedule.  With a valid cadence the next run is scheduled between
    the interval and the stale window after the current time, and the stored
    text reads back as that time; a success resets the failure count and the
    delay to the interval; the delay never shrinks as failures accumulate; and
    the failure limit of the cadence has no influence: a monitor that keeps
    failing is scheduled for ever. *)
Theorem next_run_state_spec s c success sha err t s' :
  0 <= consecutive_failures s -> next_run_state s c success sha err t = Ok s' ->
  exists next, parse_utc (next_run_at s') = Ok next /\
    interval_seconds c * us_per_second <= next - t <= stale_after_seconds c * us_per_second /\
    (success = true -> next = t + interval_seconds c * us_per_second /\ consecutive_failures s' = 0) /\
    (success = false -> consecutive_failures s' = consecutive_failures s + 1) /\
    rs_revision s' = rs_revision s + 1 /\
    run_delay c (consecutive_failures s') <= run_delay c (consecutive_failures s' + 1) /\
    (forall limit, 1 <= limit ->
       next_run_state s (mkCadence (interval_seconds c) (stale_after_seconds c) limit) success sha err t = Ok s').
Proof.
  intros Hs H. pose proof H as Hc. unfold next_run_state in Hc. apply bind_ok_inv in Hc as (u & Hc & Hrest).
  apply cadence_valid in Hc as [Hc Hl]. apply next_run_ok in H as (next & Hn & Hat & Hf & Hr & _).
  apply dt_add_ok in Hn as [-> Hv]. exists (t + run_delay c (consecutive_failures s') * us_per_second).
  assert (0 <= consecutive_failures s') as Hpos by (rewrite Hf; destruct success; lia).
  destruct (run_delay_bounds c _ Hc Hpos) as [Hb Hm].
  split_and!.
  - rewrite Hat. by apply parse_utc_iso.
  - unfold us_per_second. lia.
  - unfold us_per_second. lia.
  - intros ->. rewrite Hf. done.
  - intros ->. done.
  - done.
  - done.
  - intros limit Hlim. unfold next_run_state. unfold cadence_validate at 1. cbn [interval_seconds stale_after_seconds max_consecutive_failures].
    rewrite (proj2 (Z.ltb_ge _ _)) by lia. rewrite (proj2 (Z.ltb_ge _ _)) by lia.
    rewrite (proj2 (Z.ltb_ge _ _)) by lia. exact Hrest.
Qed.
Lemma next_run_state_spec_witness :
  exists s' next, next_run_state SchedulerDemo.fresh SchedulerDemo.cadence false "" "timeout" 63844806896500000 = Ok s' /\
    parse_utc (next_run_at s') = Ok next /\ consecutive_failures s' = 8.
Proof.
  destruct (next_run_state SchedulerDemo.fresh SchedulerDemo.cadence false "" "timeout" 63844806896500000)
    as [s'|e] eqn:H; [|vm_compute in H; discriminate].
  destruct (next_run_state_spec SchedulerDemo.fresh _ _ _ _ _ _ ltac:(vm_compute; discriminate) H)
    as (next & Hp & _ & _ & Hf & _).
  exists s', next. split_and!; [done|done|by apply Hf].
Defined.

(** What committed before a batch of creations stopped. *)
Definition create_event (o : RepositoryObservation) (customer_id project_id : string) (e : ChangeEvent) : event :=
  ECreate (remediation_payload o customer_id project_id e).

Definition apply_events (es : list event) (a : items) : res items :=
  fold_left (fun r e => a ← r; apply_event e a) es (Ok a).

Lemma apply_events_cons e es a a1 : apply_event e a = Ok a1 -> apply_events (e :: es) a = apply_events es a1.
Proof. unfold apply_events. simpl. by intros ->. Qed.

(** Remediation work items.  The batch creates, in order, the items of the
    high and critical new findings, each as one call of the abstract store; when
    one creation raises, the ones before it stay and the later ones are not
    attempted, so a finding that already has its item blocks every finding
    after it. *)
Theorem remediation_in_order now o customer project events t a :
  rep t a ->
  let todo := List.filter remediable events in
  let '(r, t') := create_remediation_work_items now o customer project events t in
  exists committed a', committed `prefix_of` todo /\
    apply_events (map (create_event o customer project) committed) a = Ok a' /\ rep t' a' /\
    match r with
    | Ok ds => committed = todo /\ length ds = length todo
    | Raise x => exists e rest, todo = committed ++ e :: rest /\
        apply_event (create_event o customer project e) a' = Raise x
    end.
Proof.
  revert t a. induction events as [|e events IH]; intros t a Hr; cbn [create_remediation_work_items].
  { exists [], a. by split_and!. }
  cbn [List.filter]. destruct (remediable e) eqn:He; cbn [negb]; [|by apply IH].
  assert (json_wf (JObj (remediation_payload o customer project e)) = true) as Hw by reflexivity.
  pose proof (create_spec _ _ now _ Hr Hw) as Hc. change (ECreate _) with (create_event o customer project e) in Hc.
  destruct (apply_event (create_event o customer project e) a) as [a1|x] eqn:Ha.
  - destruct Hc as (d & t1 & -> & Hr1). specialize (IH _ _ Hr1).
    destruct (create_remediation_work_items now o customer project events t1) as [r t2].
    destruct IH as (committed & a' & Hpre & Hap & Hr2 & Hres). exists (e :: committed), a'. split_and!.
    + by apply prefix_cons.
    + cbn [map]. by rewrite (apply_events_cons _ _ _ _ Ha).
    + done.
    + destruct r as [ds|x]; simpl.
      * destruct Hres as [-> Hlen]. by rewrite Hlen.
      * destruct Hres as (e' & rest & -> & Hx). exists e', rest. by split.
  - rewrite Hc. exists [], a. split_and!; [apply prefix_nil|done|done|]. by exists e, (List.filter remediable events).
Qed.
Lemma remediation_in_order_witness :
  exists ds t' a', create_remediation_work_items "now" SchedulerDemo.new "c1" "p1" SchedulerDemo.events ∅ = (Ok ds, t') /\
    rep t' a' /\ length ds = 1%nat.
Proof.
  assert (rep ∅ ∅) as H0 by (intros k; rewrite !lookup_empty; constructor).
  pose proof (remediation_in_order "now" SchedulerDemo.new "c1" "p1" SchedulerDemo.events ∅ ∅ H0) as H.
  assert (length (List.filter remediable SchedulerDemo.events) = 1%nat) as Hl by (vm_compute; reflexivity).
  cbv zeta in H. rewrite Hl in H.
  assert (exists ds t', create_remediation_work_items "now" SchedulerDemo.new "c1" "p1" SchedulerDemo.events ∅ = (Ok ds, t'))
    as (ds & t' & Hc) by (do 2 eexists; vm_compute; reflexivity).
  rewrite Hc in H. destruct H as (c & a' & _ & _ & Hr & _ & Hds).
  exists ds, t', a'. split; [exact Hc | split; [exact Hr | exact Hds]].
Defined.
