(* ===== verification/MonitorRuntime.v ===== *)
(** * Monitor definitions, leases and runs (nico/monitor_runtime.py)

    Four tables: definitions, run states, leases and observations.  Every method
    of the store is a transaction on them: it commits a new database or raises
    and leaves the old one.  [complete_run] reads the definition and the state in
    transactions of their own before its final one, [complete_commit], which
    checks the lease and the state's revision again. *)

From S2P Require Import Prelude PyStr Sha256 PyFloat Json JsonFacts PyTime PyTimeFacts.
From S2P Require Import MonitorContract MonitorScheduler.

Record MonitorDefinition := mkDefinition {
  df_monitor_id : string;
  df_repository : string;
  df_customer_id : string;
  df_project_id : string;
  cadence : MonitorCadence;
  enabled : bool;
  df_revision : Z }.

Record MonitorLease := mkLease {
  ls_monitor_id : string;
  lease_id : string;
  owner_id : string;
  acquired_at : string;
  expires_at : string }.

Record definition_row := mkDefRow {
  dr_repository : string; dr_customer_id : string; dr_project_id : string;
  dr_enabled : Z; dr_revision : Z; dr_payload : string; dr_integrity : string; dr_updated_at : string }.
Record state_row := mkStateRow {
  sr_next_run_at : string; sr_revision : Z; sr_payload : string; sr_integrity : string;
  sr_updated_at : string }.
Record lease_row := mkLeaseRow {
  lr_lease_id : string; lr_owner_id : string; lr_acquired_at : string; lr_expires_at : string }.
Record observation_row := mkObsRow {
  or_monitor_id : string; or_immutable_sha : string; or_observed_at : string; or_payload : string;
  or_integrity : string }.

Record db := mkDb {
  d_definitions : gmap string definition_row;
  d_states : gmap string state_row;
  d_leases : gmap string lease_row;
  d_observations : gmap string observation_row }.

Definition rerr {A} (m : string) : res A := fail MonitorRuntimeError m.
Definition _required (value code : string) : res string := required_as MonitorRuntimeError value code.
Definition _digest (parts : list string) : string := pipe_digest parts.

(** ** Payloads *)

(** [cadence.__dict__] *)
Definition cadence_dict (c : MonitorCadence) : dict :=
  [("interval_seconds", JInt (interval_seconds c));
   ("stale_after_seconds", JInt (stale_after_seconds c));
   ("max_consecutive_failures", JInt (max_consecutive_failures c))].

Definition definition_dict (d : MonitorDefinition) : dict :=
  [("monitor_id", JStr (df_monitor_id d)); ("repository", JStr (df_repository d));
   ("customer_id", JStr (df_customer_id d)); ("project_id", JStr (df_project_id d));
   ("cadence", JObj (cadence_dict (cadence d))); ("enabled", JBool (enabled d));
   ("revision", JInt (df_revision d))].
Definition _definition_payload (d : MonitorDefinition) : string :=
  dumps compact_ascii (JObj (definition_dict d)).

(** [state.__dict__] *)
Definition state_dict (s : MonitorRunState) : dict :=
  [("monitor_id", JStr (monitor_id s)); ("repository", JStr (rs_repository s));
   ("customer_id", JStr (rs_customer_id s)); ("project_id", JStr (rs_project_id s));
   ("last_sha", JStr (last_sha s)); ("last_observed_at", JStr (last_observed_at s));
   ("next_run_at", JStr (next_run_at s)); ("consecutive_failures", JInt (consecutive_failures s));
   ("last_error", JStr (last_error s)); ("revision", JInt (rs_revision s))].
Definition _state_payload (s : MonitorRunState) : string := dumps compact_ascii (JObj (state_dict s)).

(** Reading a member as the dataclass's type: [d[k]] raises when it is missing,
    [T( **d )] takes the default.  The dataclasses do not check types; a member
    of another type is outside the model and raises here. *)
Definition member {A} (read : json -> option A) (missing : res A) (d : dict) (k : string) : res A :=
  match dlookup k d with
  | None => missing
  | Some v => match read v with Some a => Ok a | None => fail TypeError k end
  end.
Definition as_str (v : json) : option string := match v with JStr s => Some s | _ => None end.
Definition as_int (v : json) : option Z := match v with JInt z => Some z | _ => None end.
Definition need_str (d : dict) (k : string) : res string := member as_str (fail KeyError k) d k.
Definition opt_str (d : dict) (k default_ : string) : res string := member as_str (Ok default_) d k.
Definition opt_int (d : dict) (k : string) (default_ : Z) : res Z := member as_int (Ok default_) d k.

(** [d[k]] *)
Definition need (d : dict) (k : string) : res json :=
  match dlookup k d with Some v => Ok v | None => fail KeyError k end.

(** The keyword arguments of a call must name fields. *)
Definition keywords_ok (fields : list string) (d : dict) : bool :=
  forallb (fun m => bool_decide (fst m ∈ fields)) d.

Definition cadence_of (v : json) : res MonitorCadence :=
  match v with
  | JObj d =>
      if negb (keywords_ok ["interval_seconds"; "stale_after_seconds"; "max_consecutive_failures"] d)
      then fail TypeError "unexpected keyword argument"
      else
        i ← opt_int d "interval_seconds" 3600;
        s ← opt_int d "stale_after_seconds" 7200;
        m ← opt_int d "max_consecutive_failures" 5;
        Ok (mkCadence i s m)
  | _ => fail TypeError "argument after ** must be a mapping"
  end.

Definition definition_of (v : json) : res MonitorDefinition :=
  data ← match v with JObj d => Ok d | _ => fail TypeError "indices must be integers" end;
  mid ← need_str data "monitor_id";
  repo ← need_str data "repository";
  cust ← need_str data "customer_id";
  proj ← need_str data "project_id";
  cv ← need data "cadence";
  c ← cadence_of cv;
  en ← need data "enabled";
  rv ← need data "revision";
  rev ← py_int rv;
  Ok (mkDefinition mid repo cust proj c (py_truthy en) rev).

Definition state_fields : list string :=
  ["monitor_id"; "repository"; "customer_id"; "project_id"; "last_sha"; "last_observed_at";
   "next_run_at"; "consecutive_failures"; "last_error"; "revision"].

Definition run_state_of (v : json) : res MonitorRunState :=
  match v with
  | JObj d =>
      if negb (keywords_ok state_fields d) then fail TypeError "unexpected keyword argument"
      else
        let required k := member as_str (fail TypeError "missing required argument") d k in
        mid ← required "monitor_id";
        repo ← required "repository";
        cust ← required "customer_id";
        proj ← required "project_id";
        sha ← opt_str d "last_sha" "";
        obs ← opt_str d "last_observed_at" "";
        next ← opt_str d "next_run_at" "";
        fails ← opt_int d "consecutive_failures" 0;
        err ← opt_str d "last_error" "";
        rev ← opt_int d "revision" 1;
        Ok (mkRunState mid repo cust proj sha obs next fails err rev)
  | _ => fail TypeError "argument after ** must be a mapping"
  end.

(** [json.loads]; a [JSONDecodeError] is a [ValueError]. *)
Definition json_loads (payload : string) : res json :=
  match loads payload with Some v => Ok v | None => fail ValueError "Expecting value" end.

(** ** MonitorRuntimeStore *)

Definition create_definition (now : datetime) (d : MonitorDefinition) (s : db) : res (MonitorDefinition * db) :=
  _ ← cadence_validate (cadence d);
  if negb (truthy (df_monitor_id d)) || negb (truthy (df_repository d)) || negb (truthy (df_customer_id d))
     || negb (truthy (df_project_id d))
  then rerr "monitor_definition_identity_required"
  else
    let timestamp := isoformat_z now in
    let payload := _definition_payload d in
    let mid := df_monitor_id d in
    let st := mkRunState mid (df_repository d) (df_customer_id d) (df_project_id d) "" "" timestamp 0 "" 1 in
    let state_payload := _state_payload st in
    match d_definitions s !! mid, d_states s !! mid with
    | None, None =>
        Ok (d, mkDb
          (<[mid := mkDefRow (df_repository d) (df_customer_id d) (df_project_id d)
                      (if enabled d then 1 else 0) (df_revision d) payload (_digest [payload]) timestamp]>
             (d_definitions s))
          (<[mid := mkStateRow timestamp (rs_revision st) state_payload (_digest [state_payload]) timestamp]>
             (d_states s))
          (d_leases s) (d_observations s))
    | _, _ => rerr "monitor_definition_already_exists"
    end.

Definition load_definition (mid : string) (s : db) : res MonitorDefinition :=
  match d_definitions s !! mid with
  | None => fail MonitorDefinitionMissing "monitor_definition_not_found"
  | Some r =>
      if negb (String.eqb (dr_integrity r) (_digest [dr_payload r]))
      then rerr "monitor_definition_integrity_mismatch"
      else v ← json_loads (dr_payload r); definition_of v
  end.

Definition load_state (mid : string) (s : db) : res MonitorRunState :=
  match d_states s !! mid with
  | None => fail MonitorDefinitionMissing "monitor_runtime_state_not_found"
  | Some r =>
      if negb (String.eqb (sr_integrity r) (_digest [sr_payload r]))
      then rerr "monitor_runtime_state_integrity_mismatch"
      else v ← json_loads (sr_payload r); run_state_of v
  end.

(** [ORDER BY next_run_at], a stable sort: SQL leaves the order of ties open. *)
Fixpoint insert_due (m : string * string) (l : list (string * string)) : list (string * string) :=
  match l with
  | [] => [m]
  | n :: l' => if str_leb (snd m) (snd n) then m :: l else n :: insert_due m l'
  end.
Definition is_due (now : datetime) (s : db) (mid : string) (r : state_row) : bool :=
  str_leb (sr_next_run_at r) (isoformat_z now) &&
  match d_definitions s !! mid with Some d => dr_enabled d =? 1 | None => false end.
Definition due (now : datetime) (limit : Z) (s : db) : list string :=
  take (Z.to_nat (Z.max 1 (Z.min 500 limit)))
    (map fst (foldr insert_due []
      (map (fun m => (fst m, sr_next_run_at (snd m)))
        (List.filter (fun m => is_due now s (fst m) (snd m)) (map_to_list (d_states s)))))).

Definition acquire_lease (mid owner : string) (lease_seconds : Z) (current : datetime) (s : db)
    : res (MonitorLease * db) :=
  owner ← _required owner "monitor_lease_owner_required";
  if (lease_seconds <? 30) || (3600 <? lease_seconds) then rerr "monitor_lease_duration_invalid"
  else
    let lid := _digest [mid; owner; isoformat_z current] in
    expires ← dt_add current (lease_seconds * us_per_second);
    let lease := mkLease mid lid owner (isoformat_z current) (isoformat_z expires) in
    let grant := Ok (lease, mkDb (d_definitions s) (d_states s)
      (<[mid := mkLeaseRow lid owner (isoformat_z current) (isoformat_z expires)]> (d_leases s))
      (d_observations s)) in
    match d_leases s !! mid with
    | None => grant
    | Some r =>
        e ← parse_utc (lr_expires_at r);
        if current <? e then fail MonitorLeaseConflict "monitor_lease_active" else grant
    end.

(** [DELETE ... WHERE monitor_id = ? AND lease_id = ?] *)
Definition delete_lease (mid lid : string) (ls : gmap string lease_row) : gmap string lease_row :=
  match ls !! mid with
  | Some r => if String.eqb (lr_lease_id r) lid then delete mid ls else ls
  | None => ls
  end.

Definition release_lease (lease : MonitorLease) (s : db) : db :=
  mkDb (d_definitions s) (d_states s) (delete_lease (ls_monitor_id lease) (lease_id lease) (d_leases s))
    (d_observations s).

(** [{**observation.__dict__, "findings": [dict(item) for item in findings]}] *)
Definition observation_dict (o : RepositoryObservation) : dict :=
  [("repository", JStr (ob_repository o)); ("immutable_sha", JStr (ob_immutable_sha o));
   ("observed_at", JStr (observed_at o)); ("canonical_score", JFloat (canonical_score o));
   ("evidence_completeness", JFloat (evidence_completeness o));
   ("deployment_state", JStr (deployment_state o)); ("provider_state", JStr (provider_state o));
   ("findings", JArr (map JObj (findings o))); ("artifact_digest", JStr (artifact_digest o));
   ("human_review_required", JBool (ob_human_review_required o));
   ("client_delivery_allowed", JBool (ob_client_delivery_allowed o))].

(** The final transaction of [complete_run]. *)
Definition complete_commit (lease : MonitorLease) (expected : Z) (next : MonitorRunState)
    (observation : option RepositoryObservation) (current : datetime) (s : db) : res (MonitorRunState * db) :=
  let mid := ls_monitor_id lease in
  let lost := fail MonitorLeaseConflict "monitor_lease_missing_or_expired" in
  match d_leases s !! mid with
  | None => lost
  | Some r =>
      if negb (String.eqb (lr_lease_id r) (lease_id lease)) then lost
      else
        e ← parse_utc (lr_expires_at r);
        if e <=? current then lost
        else
          let payload := _state_payload next in
          states ← match d_states s !! mid with
                   | Some sr =>
                       if sr_revision sr =? expected
                       then Ok (<[mid := mkStateRow (next_run_at next) (rs_revision next) payload
                                   (_digest [payload]) (isoformat_z current)]> (d_states s))
                       else rerr "monitor_state_revision_conflict"
                   | None => rerr "monitor_state_revision_conflict"
                   end;
          observations ← match observation with
            | None => Ok (d_observations s)
            | Some o =>
                let text := dumps compact_ascii (JObj (observation_dict o)) in
                let oid := _digest [mid; ob_immutable_sha o; observed_at o] in
                match d_observations s !! oid with
                | Some _ => fail DatabaseError "UNIQUE constraint failed"
                | None => Ok (<[oid := mkObsRow mid (ob_immutable_sha o) (observed_at o) text
                                         (_digest [text])]> (d_observations s))
                end
            end;
          Ok (next, mkDb (d_definitions s) states (delete_lease mid (lease_id lease) (d_leases s))
                      observations)
  end.

Definition complete_run (lease : MonitorLease) (success : bool)
    (observation : option RepositoryObservation) (error : string) (current : datetime) (s : db)
    : res (MonitorRunState * db) :=
  definition ← load_definition (ls_monitor_id lease) s;
  st ← load_state (ls_monitor_id lease) s;
  if success && negb (bool_decide (is_Some observation)) then rerr "monitor_success_observation_required"
  else
    let sha := match observation with None => "" | Some o => ob_immutable_sha o end in
    next ← next_run_state st (cadence definition) success sha error current;
    complete_commit lease (rs_revision st) next observation current s.

(** ** Payloads read back *)

Lemma definition_roundtrip d : definition_of (sort_json (JObj (definition_dict d))) = Ok d.
Proof. destruct d as [? ? ? ? [] ? ?]. vm_compute. reflexivity. Qed.

Lemma run_state_roundtrip st : run_state_of (sort_json (JObj (state_dict st))) = Ok st.
Proof. destruct st. vm_compute. reflexivity. Qed.

Lemma definition_payload_loads d : json_loads (_definition_payload d) = Ok (sort_json (JObj (definition_dict d))).
Proof.
  unfold json_loads, _definition_payload. rewrite loads_dumps; [done|apply sep_ok_compact_ascii|].
  destruct d as [? ? ? ? [] ? ?]. vm_compute. reflexivity.
Qed.

Lemma state_payload_loads st : json_loads (_state_payload st) = Ok (sort_json (JObj (state_dict st))).
Proof.
  unfold json_loads, _state_payload. rewrite loads_dumps; [done|apply sep_ok_compact_ascii|].
  destruct st. vm_compute. reflexivity.
Qed.

(** A row that holds a state, or a definition. *)
Definition holds_state (r : state_row) (st : MonitorRunState) : Prop :=
  sr_payload r = _state_payload st /\ sr_integrity r = _digest [_state_payload st] /\
  sr_revision r = rs_revision st /\ sr_next_run_at r = next_run_at st.
Definition holds_definition (r : definition_row) (d : MonitorDefinition) : Prop :=
  dr_payload r = _definition_payload d /\ dr_integrity r = _digest [_definition_payload d].

Lemma load_state_holds mid s r st : d_states s !! mid = Some r -> holds_state r st -> load_state mid s = Ok st.
Proof.
  intros Hr (Hp & Hi & _). unfold load_state. rewrite Hr, Hp, Hi, String.eqb_refl. cbn [negb].
  rewrite state_payload_loads. cbn [mbind res_bind]. apply run_state_roundtrip.
Qed.

Lemma load_definition_holds mid s r d :
  d_definitions s !! mid = Some r -> holds_definition r d -> load_definition mid s = Ok d.
Proof.
  intros Hr (Hp & Hi). unfold load_definition. rewrite Hr, Hp, Hi, String.eqb_refl. cbn [negb].
  rewrite definition_payload_loads. cbn [mbind res_bind]. apply definition_roundtrip.
Qed.

(** ** Leases *)

Definition row_of (l : MonitorLease) : lease_row :=
  mkLeaseRow (lease_id l) (owner_id l) (acquired_at l) (expires_at l).

Lemma acquire_ok mid owner n t s l s' :
  acquire_lease mid owner n t s = Ok (l, s') ->
  ls_monitor_id l = mid /\ 30 <= n <= 3600 /\ dt_valid (t + n * us_per_second) = true /\
  expires_at l = isoformat_z (t + n * us_per_second) /\
  (forall r, d_leases s !! mid = Some r -> exists e, parse_utc (lr_expires_at r) = Ok e /\ e <= t) /\
  s' = mkDb (d_definitions s) (d_states s) (<[mid := row_of l]> (d_leases s)) (d_observations s).
Proof.
  unfold acquire_lease, rerr. intros H. apply bind_ok_inv in H as (o & _ & H).
  destruct (Z.ltb_spec n 30); [discriminate|]. destruct (Z.ltb_spec 3600 n); [discriminate|]. cbn [orb] in H.
  apply bind_ok_inv in H as (x & Hx & H). apply dt_add_ok in Hx as [-> Hv].
  destruct (d_leases s !! mid) as [r|] eqn:Hr.
  - apply bind_ok_inv in H as (e & He & H). destruct (Z.ltb_spec t e); [discriminate|].
    injection H as <- <-. split_and!; [done|lia|lia|done|done| |done]. intros r' [= <-]. eauto.
  - injection H as <- <-. split_and!; [done|lia|lia|done|done|done|done].
Qed.

Lemma delete_lease_other mid lid ls mid' r :
  ls !! mid' = Some r -> mid <> mid' \/ lid <> lr_lease_id r -> delete_lease mid lid ls !! mid' = Some r.
Proof.
  intros Hr H. unfold delete_lease. destruct (ls !! mid) as [r'|] eqn:Hm; [|done].
  destruct (String.eqb_spec (lr_lease_id r') lid) as [<-|]; [|done].
  destruct (decide (mid = mid')) as [<-|Hne]; [|by rewrite lookup_delete_ne].
  simplify_eq. by destruct H.
Qed.

Lemma complete_commit_ok lease n next ob t s st s' :
  complete_commit lease n next ob t s = Ok (st, s') ->
  let mid := ls_monitor_id lease in
  st = next /\
  (exists r e, d_leases s !! mid = Some r /\ lr_lease_id r = lease_id lease /\
     parse_utc (lr_expires_at r) = Ok e /\ t < e) /\
  (exists sr sr', d_states s !! mid = Some sr /\ sr_revision sr = n /\ holds_state sr' next /\
     d_states s' = <[mid := sr']> (d_states s)) /\
  d_definitions s' = d_definitions s /\ d_leases s' = delete mid (d_leases s) /\
  match ob with
  | None => d_observations s' = d_observations s
  | Some o => exists oid row, d_observations s !! oid = None /\ or_monitor_id row = mid /\
      or_immutable_sha row = ob_immutable_sha o /\ d_observations s' = <[oid := row]> (d_observations s)
  end.
Proof.
  unfold complete_commit, rerr, fail. intros H. set (mid := ls_monitor_id lease) in *.
  destruct (d_leases s !! mid) as [r|] eqn:Hr; [|discriminate].
  destruct (String.eqb_spec (lr_lease_id r) (lease_id lease)) as [Hid|]; [|discriminate]. cbn [negb] in H.
  apply bind_ok_inv in H as (e & He & H). destruct (Z.leb_spec e t); [discriminate|].
  apply bind_ok_inv in H as (states & Hst & H). apply bind_ok_inv in H as (obs & Hob & H).
  injection H as <- <-. cbn [d_definitions d_states d_leases d_observations].
  destruct (d_states s !! mid) as [sr|] eqn:Hsr; [|discriminate].
  destruct (Z.eqb_spec (sr_revision sr) n) as [Hn|]; [|discriminate]. injection Hst as <-.
  split_and!; [done|by exists r, e| |done| |].
  - exists sr. eexists. split_and!; [done|done| |reflexivity]. by split_and!.
  - unfold delete_lease. by rewrite Hr, Hid, String.eqb_refl.
  - destruct ob as [o|]; [|by injection Hob as <-].
    match type of Hob with match ?x with _ => _ end = _ => destruct x eqn:Ho; [discriminate|] end.
    injection Hob as <-. exists (_digest [mid; ob_immutable_sha o; observed_at o]), (mkObsRow mid (ob_immutable_sha o)
      (observed_at o) (dumps compact_ascii (JObj (observation_dict o)))
      (_digest [dumps compact_ascii (JObj (observation_dict o))])). by split_and!.
Qed.

Lemma complete_run_ok lease ok ob err t s st' s' :
  complete_run lease ok ob err t s = Ok (st', s') ->
  exists d st sha, load_definition (ls_monitor_id lease) s = Ok d /\ load_state (ls_monitor_id lease) s = Ok st /\
    (ok = true -> is_Some ob) /\ next_run_state st (cadence d) ok sha err t = Ok st' /\
    complete_commit lease (rs_revision st) st' ob t s = Ok (st', s').
Proof.
  unfold complete_run, rerr. intros H. apply bind_ok_inv in H as (d & Hd & H).
  apply bind_ok_inv in H as (st & Hst & H). destruct (ok && negb (bool_decide (is_Some ob))) eqn:Hb; [discriminate|].
  apply bind_ok_inv in H as (next & Hn & H).
  pose proof (complete_commit_ok _ _ _ _ _ _ _ _ H) as (-> & _).
  exists d, st, (match ob with None => "" | Some o => ob_immutable_sha o end). split_and!; try done.
  intros ->. apply negb_false_iff, bool_decide_eq_true in Hb. done.
Qed.

(** ** While a lease is held *)

(** What other clients, and calls on other monitors, can do to the database
    before the time [T] without giving the lease [l] back. *)
Inductive other_step (l : MonitorLease) (T : datetime) : db -> db -> Prop :=
  | os_create s now d d' s' : create_definition now d s = Ok (d', s') -> other_step l T s s'
  | os_acquire s mid owner n t l' s' :
      t < T -> acquire_lease mid owner n t s = Ok (l', s') -> other_step l T s s'
  | os_release s l' :
      ls_monitor_id l' <> ls_monitor_id l \/ lease_id l' <> lease_id l ->
      other_step l T s (release_lease l' s)
  | os_complete s l' ok ob err t st s' :
      ls_monitor_id l' <> ls_monitor_id l \/ lease_id l' <> lease_id l ->
      complete_run l' ok ob err t s = Ok (st, s') -> other_step l T s s'.

Definition held (l : MonitorLease) (T : datetime) (s : db) : Prop :=
  d_leases s !! ls_monitor_id l = Some (row_of l) /\ parse_utc (expires_at l) = Ok T.

Lemma held_blocks l T s owner n t :
  held l T s -> t < T -> is_ok (acquire_lease (ls_monitor_id l) owner n t s) = false.
Proof.
  intros [Hl He] Ht. destruct (acquire_lease _ _ _ _ _) as [[l' s']|] eqn:H; [|done].
  apply acquire_ok in H as (_ & _ & _ & _ & H & _). destruct (H _ Hl) as (e & He' & Hle). simpl in He'.
  rewrite He in He'. injection He' as <-. lia.
Qed.

Lemma other_step_held l T s s' : other_step l T s s' -> held l T s -> held l T s'.
Proof.
  intros H Hh. pose proof Hh as [Hl He]. destruct H as [s now d d' s' H|s mid owner n t l' s' Ht H|s l' Hne|s l' ok ob err t st s' Hne H].
  - unfold create_definition, rerr in H. apply bind_ok_inv in H as (u & _ & H).
    destruct (_ || _ || _ || _); [discriminate|].
    destruct (d_definitions s !! _); [discriminate|]. destruct (d_states s !! _); [discriminate|].
    by injection H as _ <-.
  - destruct (decide (mid = ls_monitor_id l)) as [->|Hmid].
    + pose proof (held_blocks l T s owner n t Hh Ht) as Hb. by rewrite H in Hb.
    + apply acquire_ok in H as (_ & _ & _ & _ & _ & ->). split; [|done]. cbn [d_leases].
      by rewrite lookup_insert_ne.
  - split; [|done]. cbn [release_lease d_leases]. apply delete_lease_other; [done|]. simpl. tauto.
  - apply complete_run_ok in H as (d & st0 & sha & _ & _ & _ & _ & H).
    apply complete_commit_ok in H as (_ & (r & e & Hr & Hid & _) & _ & _ & Hd & _). split; [|done].
    rewrite Hd. destruct (decide (ls_monitor_id l' = ls_monitor_id l)) as [E|E].
    + rewrite E, Hl in Hr. injection Hr as <-. simpl in Hid. by destruct Hne.
    + by rewrite lookup_delete_ne.
Qed.

Lemma other_steps_held l T s s' : rtc (other_step l T) s s' -> held l T s -> held l T s'.
Proof. induction 1; eauto using other_step_held. Qed.

Lemma truthy_words s : split s <> [] -> truthy (join " " (split s)) = true.
Proof.
  pose proof (split_words s) as H. destruct H as [|w ws Hw _]; [done|]. intros _.
  apply andb_true_iff in Hw as [Hw _]. destruct w; [done|]. by destruct ws.
Qed.

Module RuntimeDemo.
Definition def : MonitorDefinition := mkDefinition "m1" "acme/app" "c1" "p1" (mkCadence 3600 7200 5) true 1.
Definition empty : db := mkDb ∅ ∅ ∅ ∅.
Definition t0 : datetime := 63844806896000000.
Definition s1 : db := Eval vm_compute in
  match create_definition t0 def empty with Ok (_, s) => s | Raise _ => empty end.
Definition lease : MonitorLease := Eval vm_compute in
  match acquire_lease "m1" "worker" 900 t0 s1 with Ok (l, _) => l | Raise _ => mkLease "" "" "" "" "" end.
Definition s2 : db := Eval vm_compute in
  match acquire_lease "m1" "worker" 900 t0 s1 with Ok (_, s) => s | Raise _ => empty end.
Lemma acquired : acquire_lease "m1" "worker" 900 t0 s1 = Ok (lease, s2).
Proof. vm_compute. reflexivity. Qed.
End RuntimeDemo.

(** ** Properties *)

(** C38: leases exclude each other.  After a lease on a monitor is granted, and
    as long as it is not itself released or completed, whatever other clients do,
    no acquisition of that monitor succeeds before the lease's end; from its end
    on a well-formed acquisition succeeds. *)
Theorem lease_exclusive mid owner n t s l s1 s2 :
  acquire_lease mid owner n t s = Ok (l, s1) ->
  rtc (other_step l (t + n * us_per_second)) s1 s2 ->
  (forall owner' n' t', t' < t + n * us_per_second -> is_ok (acquire_lease mid owner' n' t' s2) = false) /\
  (forall owner' n' t', t + n * us_per_second <= t' -> split owner' <> [] -> 30 <= n' <= 3600 ->
     dt_valid (t' + n' * us_per_second) = true -> is_ok (acquire_lease mid owner' n' t' s2) = true).
Proof.
  intros H Hsteps. apply acquire_ok in H as (Hm & _ & Hv & He & _ & ->).
  assert (parse_utc (expires_at l) = Ok (t + n * us_per_second)) as Hp by (rewrite He; by apply parse_utc_iso).
  assert (held l (t + n * us_per_second) s2) as Hh.
  { eapply other_steps_held; [exact Hsteps|]. split; [|done]. cbn [d_leases]. rewrite Hm. apply lookup_insert_eq. }
  rewrite <- Hm. split; [intros; by eapply held_blocks|].
  intros owner' n' t' Ht Ho Hn Hv'. destruct Hh as [Hl _]. unfold acquire_lease, _required.
  assert (truthy (join " " (split owner')) = true) as Hw by (by apply truthy_words).
  unfold required_as. rewrite Hw. cbn [mbind res_bind].
  rewrite (proj2 (Z.ltb_ge _ _)), (proj2 (Z.ltb_ge _ _)) by lia. cbn [orb].
  unfold dt_add. rewrite Hv'. cbn [mbind res_bind]. rewrite Hl. cbn [row_of lr_expires_at]. rewrite Hp.
  cbn [mbind res_bind]. by rewrite (proj2 (Z.ltb_ge _ _)) by lia.
Qed.
Lemma lease_exclusive_witness :
  is_ok (acquire_lease "m1" "other" 60 (RuntimeDemo.t0 + 1) RuntimeDemo.s2) = false.
Proof.
  apply (lease_exclusive _ _ _ _ _ _ _ _ RuntimeDemo.acquired (rtc_refl _ _)). vm_compute. reflexivity.
Defined.

(** A completed run.  [complete_run] succeeds only with the lease that is
    stored and not yet over; it then stores exactly the next state, one revision
    on, which reads back, records the observation if there is one, gives the
    lease back and touches no other monitor, so the same lease cannot complete a
    second run. *)
Theorem complete_run_spec lease ok ob err t s st' s' :
  complete_run lease ok ob err t s = Ok (st', s') ->
  let mid := ls_monitor_id lease in
  exists d st r e, load_definition mid s = Ok d /\ load_state mid s = Ok st /\
    d_leases s !! mid = Some r /\ lr_lease_id r = lease_id lease /\ parse_utc (lr_expires_at r) = Ok e /\ t < e /\
    (ok = true -> is_Some ob) /\ rs_revision st' = rs_revision st + 1 /\
    consecutive_failures st' = (if ok then 0 else consecutive_failures st + 1) /\
    load_state mid s' = Ok st' /\ d_definitions s' = d_definitions s /\ d_leases s' = delete mid (d_leases s) /\
    (forall m, m <> mid -> d_states s' !! m = d_states s !! m) /\
    size (d_observations s') = (size (d_observations s) + if ob then 1 else 0)%nat /\
    (forall ok2 ob2 err2 t2, is_ok (complete_run lease ok2 ob2 err2 t2 s') = false).
Proof.
  intros H mid. apply complete_run_ok in H as (d & st & sha & Hd & Hst & Hob & Hn & H). fold mid in Hd, Hst.
  apply next_run_ok in Hn as (next & _ & _ & Hf & Hrev & _).
  apply complete_commit_ok in H as (_ & (r & e & Hr & Hid & He & Ht) & (sr & sr' & _ & _ & Hholds & Hs') & Hdef & Hl & Hobs).
  exists d, st, r, e. split_and!; try done.
  - eapply load_state_holds; [|exact Hholds]. rewrite Hs'. apply lookup_insert_eq.
  - intros m Hm. rewrite Hs'. by rewrite lookup_insert_ne.
  - destruct ob as [o|]; [|rewrite Hobs; lia]. destruct Hobs as (oid & row & Ho & _ & _ & ->).
    rewrite map_size_insert_None by done. lia.
  - intros ok2 ob2 err2 t2. destruct (complete_run lease ok2 ob2 err2 t2 s') as [[st2 s2]|] eqn:H2; [|done].
    apply complete_run_ok in H2 as (d2 & st2' & sha2 & _ & _ & _ & _ & H2).
    apply complete_commit_ok in H2 as (_ & (r2 & _ & Hr2 & _) & _). rewrite Hl in Hr2.
    by rewrite lookup_delete_eq in Hr2.
Qed.
Lemma complete_run_spec_witness :
  exists st' s', complete_run RuntimeDemo.lease false None "timeout" (RuntimeDemo.t0 + 1) RuntimeDemo.s2 = Ok (st', s') /\
    load_state "m1" s' = Ok st' /\ consecutive_failures st' = 1.
Proof.
  destruct (complete_run RuntimeDemo.lease false None "timeout" (RuntimeDemo.t0 + 1) RuntimeDemo.s2)
    as [[st' s']|e] eqn:H; [|vm_compute in H; discriminate].
  destruct (complete_run_spec _ _ _ _ _ _ _ _ H) as (d & st & r & e & _ & Hst & _ & _ & _ & _ & _ & _ & Hf & Hl & _).
  exists st', s'. split; [reflexivity|]. split; [exact Hl|]. rewrite Hf.
  assert (load_state "m1" RuntimeDemo.s2 = load_state (ls_monitor_id RuntimeDemo.lease) RuntimeDemo.s2) as E by reflexivity.
  rewrite <- E in Hst. vm_compute in Hst. injection Hst as <-. reflexivity.
Defined.

(** A definition is stored as it is.  After [create_definition] the
    definition and a fresh run state, due at once, load back unchanged for every
    field, creating the monitor again raises, and no other monitor is touched. *)
Theorem create_definition_roundtrip now d d' s s' :
  create_definition now d s = Ok (d', s') ->
  let mid := df_monitor_id d in
  d' = d /\ load_definition mid s' = Ok d /\
  load_state mid s' = Ok (mkRunState mid (df_repository d) (df_customer_id d) (df_project_id d) "" ""
                            (isoformat_z now) 0 "" 1) /\
  (forall now2 d2, df_monitor_id d2 = mid -> is_ok (create_definition now2 d2 s') = false) /\
  d_leases s' = d_leases s /\ d_observations s' = d_observations s /\
  (forall m, m <> mid -> d_definitions s' !! m = d_definitions s !! m /\ d_states s' !! m = d_states s !! m).
Proof.
  unfold create_definition, rerr, fail. intros H. set (mid := df_monitor_id d) in *.
  apply bind_ok_inv in H as (u & Hc & H). destruct (_ || _ || _ || _); [discriminate|].
  destruct (d_definitions s !! mid) eqn:Hd; [discriminate|]. destruct (d_states s !! mid) eqn:Hs; [discriminate|].
  injection H as <- <-. split_and!; try done.
  - eapply load_definition_holds; [apply lookup_insert_eq|]. by split.
  - eapply load_state_holds; [apply lookup_insert_eq|]. by split_and!.
  - intros now2 d2 Hd2. rewrite Hd2. cbn [d_definitions]. rewrite lookup_insert_eq.
    destruct (cadence_validate (cadence d2)); [|done]. cbn [mbind res_bind].
    by destruct (_ || _ || _ || _).
  - intros m Hm. cbn [d_definitions d_states]. by rewrite !lookup_insert_ne.
Qed.
Lemma create_definition_roundtrip_witness :
  load_definition "m1" RuntimeDemo.s1 = Ok RuntimeDemo.def.
Proof.
  assert (create_definition RuntimeDemo.t0 RuntimeDemo.def RuntimeDemo.empty = Ok (RuntimeDemo.def, RuntimeDemo.s1)) as H
    by (vm_compute; reflexivity).
  destruct (create_definition_roundtrip _ _ _ _ _ H) as (_ & Hl & _). exact Hl.
Defined.

(** The order of timestamps is that of their text.  [due] compares the
    stored text with the current time's text, and a whole second is written
    without a fraction: a monitor that is due is not listed for the rest of the
    second its run falls on. *)
Theorem due_misses_the_second :
  exists s t now, load_state "m1" s = Ok t /\ parse_utc (next_run_at t) = Ok RuntimeDemo.t0 /\
    RuntimeDemo.t0 < now /\ due now 100 s = [] /\ due (RuntimeDemo.t0 + us_per_second) 100 s = ["m1"].
Proof.
  exists RuntimeDemo.s1. eexists. exists (RuntimeDemo.t0 + 500000).
  split; [vm_compute; reflexivity|]. split; [vm_compute; reflexivity|].
  split; [vm_compute; reflexivity|]. split; vm_compute; reflexivity.
Qed.
