(* ===== verification/MonitorApi.v ===== *)
(** * The HTTP routes (nico/monitor_execute_api.py, nico/monitor_governed_api.py)

    A route handler runs a service method on the request's JSON body and turns
    exceptions into HTTP errors.  [WorkItemService] is what the routes need of a
    service; the plain and the governed service are its instances, so the same
    [execution/begin] route runs the governed check when the governed service is
    configured.  A request is handled alone here: the reads of its method all see
    the state it started from; what other clients may commit in between is the
    subject of [MonitorStore] and [MonitorGovernance].  FastAPI's routing and JSON encoding are not modelled. *)

From S2P Require Import Prelude PyStr Sha256 PyFloat Json JsonFacts PyTime PyTimeFacts.
From S2P Require Import MonitorContract MonitorStore MonitorGovernance.

(** ** The service interface *)

Class WorkItemService (S : Type) := {
  sv_create : string -> dict -> S -> res (dict * S);
  sv_status : string -> S -> res (dict * S);
  sv_call : datetime -> string -> string -> verb -> dict -> S -> res (dict * S);
  sv_items : S -> table;
  (** The laws: a method acts on the items as the plain service's does, or
      raises. *)
  sv_create_items : forall now payload s d s',
    sv_create now payload s = Ok (d, s') -> service_create now payload (sv_items s) = Ok (d, sv_items s');
  sv_status_items : forall wid s d s',
    sv_status wid s = Ok (d, s') -> status wid (sv_items s) = Ok (d, sv_items s');
  sv_call_items : forall clock now wid v payload s d s',
    sv_call clock now wid v payload s = Ok (d, s') -> call now wid v payload (sv_items s) = Ok (d, sv_items s')
}.

#[export] Program Instance plain_service : WorkItemService table := {
  sv_create := service_create;
  sv_status := status;
  sv_call := fun _ now wid v payload => call now wid v payload;
  sv_items := fun t => t
}.
Solve All Obligations with done.

Definition governed_call (clock : datetime) (now wid : string) (v : verb) (payload : dict) : gtx dict := fun g =>
  match v with
  | VBegin => governed_begin clock now wid payload (g_items g) (g_revs g) (g_items g) g
  | _ => on_items (call now wid v payload) g
  end.

#[export] Program Instance governed_service : WorkItemService gov := {
  sv_create := fun now payload => on_items (service_create now payload);
  sv_status := fun wid => on_items (status wid);
  sv_call := governed_call;
  sv_items := g_items
}.
Next Obligation. simpl. intros now payload g d g' H. by apply on_items_ok in H as (t & H & ->). Qed.
Next Obligation. simpl. intros wid g d g' H. by apply on_items_ok in H as (t & H & ->). Qed.
Next Obligation.
  simpl. intros clock now wid v payload g d g' H. destruct v; simpl in H;
    try (by apply on_items_ok in H as (t & H & ->)).
  apply governed_begin_ok in H as (s & t & ap & _ & _ & t' & H & ->). rewrite mutate_after_same in H. exact H.
Qed.

(** ** Replies *)

Inductive reply :=
  | Reply (body : dict)
  | HttpError (status_code : Z) (detail : string)
  | Unhandled (e : exn).

Definition VERSION : string := "nico.monitor_execute_api.v1".

(** [raise _safe_error(exc)] *)
Definition _safe_error (e : exn) : reply :=
  if isinstance e MonitorItemMissing then HttpError 404 (exn_msg e)
  else if isinstance e MonitorItemDuplicate || isinstance e MonitorRevisionConflict
  then HttpError 409 (exn_msg e)
  else if isinstance e MonitorIntegrityError then HttpError 500 "monitor_integrity_verification_failed"
  else if isinstance e MonitorExecuteError then HttpError 422 (exn_msg e)
  else HttpError 500 "monitor_execute_operation_failed".

(** The request body: [None] when it is not JSON. *)
Definition _payload (body : option json) : dict + reply :=
  match body with
  | Some (JObj d) => inl d
  | _ => inr (HttpError 422 "request_body_must_be_object")
  end.

Definition api_response (payload : dict) (operation : string) : dict :=
  dmerge (dmerge [("artifact_schema", JStr VERSION); ("service_id", JStr "monitor_execute");
                  ("operation", JStr operation)] payload)
    [("human_review_required", JBool true); ("client_delivery_allowed", JBool false);
     ("production_execution_requires_explicit_approval", JBool true)].

(** [try: return _response(f(...)) except HTTPException: raise except Exception: ...] *)
Definition answer {S : Type} (operation : string) (r : res (dict * S)) (s : S) : reply * S :=
  match r with
  | Ok (d, s') => (Reply (api_response d operation), s')
  | Raise e => (_safe_error e, s)
  end.

Definition operation_name (v : verb) : string :=
  match v with
  | VPropose => "proposed" | VApprove => "approval_recorded" | VBegin => "execution_authorized"
  | VComplete => "execution_recorded" | VVerify => "verification_recorded"
  end.

(** ** The routes of a configured service *)

Section routes.
Context {S : Type} `{!WorkItemService S}.

(** [_service(request)] raises when no service is configured; it runs before
    the body is read. *)
Definition unconfigured : reply := HttpError 503 "monitor_execute_service_not_configured".

Definition post_work_item (now : string) (configured : bool) (body : option json) (s : S) : reply * S :=
  if negb configured then (unconfigured, s)
  else match _payload body with
       | inr e => (e, s)
       | inl payload => answer "created" (sv_create now payload s) s
       end.

Definition get_work_item (configured : bool) (wid : string) (s : S) : reply * S :=
  if negb configured then (unconfigured, s) else answer "status" (sv_status wid s) s.

Definition post_verb (clock : datetime) (now wid : string) (v : verb) (configured : bool) (body : option json)
    (s : S) : reply * S :=
  if negb configured then (unconfigured, s)
  else match _payload body with
       | inr e => (e, s)
       | inl payload => answer (operation_name v) (sv_call clock now wid v payload s) s
       end.

(** ** Registration *)

Definition monitor_execute_routes : list (string * string) :=
  [("POST", "/monitor/work-items"); ("GET", "/monitor/work-items/{work_item_id}");
   ("POST", "/monitor/work-items/{work_item_id}/proposal");
   ("POST", "/monitor/work-items/{work_item_id}/approval");
   ("POST", "/monitor/work-items/{work_item_id}/execution/begin");
   ("POST", "/monitor/work-items/{work_item_id}/execution/complete");
   ("POST", "/monitor/work-items/{work_item_id}/verification")].

(** An application: its routes and the service in its state. *)
Record app := mkApp { app_routes : list (string * string); app_service : option S }.

Definition register_monitor_execute_routes (service : option S) (a : app) : res app :=
  let overlap := List.filter (fun r => bool_decide (r ∈ app_routes a)) monitor_execute_routes in
  let installed := match service with Some s => Some s | None => app_service a end in
  if bool_decide (overlap <> []) then
    if bool_decide (overlap = monitor_execute_routes) then Ok (mkApp (app_routes a) installed)
    else fail RuntimeError "monitor_execute_partial_route_group_detected"
  else Ok (mkApp (app_routes a ++ monitor_execute_routes) installed).
End routes.

(** ** The governance routes *)

Definition governance_unconfigured : reply := HttpError 503 "governed_monitor_execute_service_not_configured".

(** Only an [ApprovalGovernanceError] becomes an HTTP error here. *)
Definition governance_answer (r : res dict) : reply :=
  match r with
  | Ok d => Reply (dmerge (dmerge [("artifact_schema", JStr "nico.monitor_approval_governance.v1")] d)
              [("human_review_required", JBool true); ("client_delivery_allowed", JBool false)])
  | Raise e => if isinstance e ApprovalGovernanceError then HttpError 422 (exn_msg e) else Unhandled e
  end.

Definition get_approval_status (clock : datetime) (configured : bool) (wid : string) (g : gov) : reply :=
  if negb configured then governance_unconfigured else governance_answer (approval_status clock wid (g_items g) (g_revs g) (g_revs g)).

Definition revoke_approval (clock : datetime) (configured : bool) (wid : string) (body : option json) (g : gov)
    : reply * gov :=
  if negb configured then (governance_unconfigured, g)
  else match _payload body with
       | inr e => (e, g)
       | inl payload =>
           match governed_revoke clock wid payload (g_items g) g with
           | Ok (d, g') => (governance_answer (Ok d), g')
           | Raise e => (governance_answer (Raise e), g)
           end
       end.

(** ** Lemmas *)

Lemma safe_error_codes e : exists c m, _safe_error e = HttpError c m /\ c ∈ [404; 409; 422; 500].
Proof.
  unfold _safe_error. repeat match goal with |- context [if ?b then _ else _] => destruct b end;
    do 2 eexists; (split; [reflexivity|]); set_solver.
Qed.

Lemma api_response_flags d op :
  dget (api_response d op) "client_delivery_allowed" = JBool false /\
  dget (api_response d op) "human_review_required" = JBool true /\
  dget (api_response d op) "production_execution_requires_explicit_approval" = JBool true.
Proof.
  unfold api_response, dmerge at 1 3 5. cbn [fold_left fst snd].
  split_and!; rewrite ?dget_dset_eq, ?dget_dset_ne by discriminate; rewrite ?dget_dset_eq, ?dget_dset_ne by discriminate;
    rewrite ?dget_dset_eq; reflexivity.
Qed.

Lemma overlap_all {S : Type} (a : app (S := S)) :
  List.filter (fun r => bool_decide (r ∈ app_routes a)) monitor_execute_routes = monitor_execute_routes
  <-> forall r, r ∈ monitor_execute_routes -> r ∈ app_routes a.
Proof.
  split.
  - intros H r Hr. rewrite <- H in Hr. apply list_elem_of_In, filter_In in Hr as [_ Hr].
    by apply bool_decide_eq_true in Hr.
  - generalize monitor_execute_routes. intros l. induction l as [|r l IH]; simpl; intros H; [done|].
    rewrite bool_decide_eq_true_2 by set_solver. f_equal. apply IH. set_solver.
Qed.

Lemma register_again {S : Type} (a : app (S := S)) service :
  (forall r, r ∈ monitor_execute_routes -> r ∈ app_routes a) ->
  exists s, register_monitor_execute_routes service a = Ok (mkApp (app_routes a) s).
Proof.
  intros H. unfold register_monitor_execute_routes. apply overlap_all in H as Hf. rewrite Hf.
  rewrite bool_decide_eq_true_2 by done. rewrite bool_decide_eq_true_2 by done. eauto.
Qed.

(** ** Properties *)

(** What a mutating route does, for every service behind the interface.  A
    successful reply means that the body was an object, the item existed and the
    life cycle accepted the operation, and the stored items are updated by it;
    the reply always denies client delivery and requires human review, whatever
    the stored document says.  Every other outcome is an HTTP error with one of
    five codes, and leaves the service as it was; no exception escapes. *)
Theorem route_effect {S : Type} `{!WorkItemService S} clock now wid v configured body (s : S) a :
  rep (sv_items s) a ->
  match post_verb clock now wid v configured body s with
  | (Reply b, s') =>
      exists payload i j, body = Some (JObj payload) /\ configured = true /\ a !! wid = Some i /\
        operation now v payload i = Ok j /\ rep (sv_items s') (<[wid := j]> a) /\
        dget b "client_delivery_allowed" = JBool false /\ dget b "human_review_required" = JBool true
  | (HttpError c m, s') => s' = s /\ c ∈ [404; 409; 422; 500; 503]
  | (Unhandled e, _) => False
  end.
Proof.
  intros Hr. unfold post_verb. destruct configured; cbn [negb]; [|split; [done|set_solver]].
  destruct body as [[]|]; cbn [_payload]; try (split; [done|set_solver]).
  destruct (sv_call clock now wid v l s) as [[d s']|e] eqn:Hc; cbn [answer].
  - apply sv_call_items in Hc. destruct (call_ok_inv _ _ _ _ _ _ _ _ Hr Hc) as (i & j & Hi & Hop & Hr').
    destruct (api_response_flags d (operation_name v)) as (H1 & H2 & _).
    exists l, i, j. by split_and!.
  - destruct (safe_error_codes e) as (c & m & -> & Hin). split; [done|]. set_solver.
Qed.
Lemma route_effect_witness :
  exists b g', post_verb GovDemo.noon "now3" "w1" VBegin true (Some (JObj GovDemo.beginning)) GovDemo.g3 = (Reply b, g') /\
    dget b "client_delivery_allowed" = JBool false.
Proof.
  destruct (gov_run_inv _ _ GovDemo.run3) as (a & Hr & _).
  pose proof (route_effect GovDemo.noon "now3" "w1" VBegin true (Some (JObj GovDemo.beginning)) GovDemo.g3 a Hr) as H.
  assert (exists b g', post_verb GovDemo.noon "now3" "w1" VBegin true (Some (JObj GovDemo.beginning)) GovDemo.g3
    = (Reply b, g')) as (b & g' & Hp) by (do 2 eexists; vm_compute; reflexivity).
  rewrite Hp in H. destruct H as (p & i & j & _ & _ & _ & _ & _ & Hd & _).
  exists b, g'. split; [exact Hp | exact Hd].
Defined.

(** The two route groups disagree on a missing item.  The work item route
    answers 404; the approval route of the governance group lets the store's
    exception escape. *)
Theorem missing_item_replies clock wid g a :
  rep (g_items g) a -> a !! wid = None ->
  get_work_item true wid g = (HttpError 404 "monitor_work_item_not_found", g) /\
  get_approval_status clock true wid g = Unhandled (Exn MonitorItemMissing "monitor_work_item_not_found") /\
  (forall body payload, body = Some (JObj payload) ->
     revoke_approval clock true wid body g
     = (Unhandled (Exn MonitorItemMissing "monitor_work_item_not_found"), g)).
Proof.
  intros Hr Ha. pose proof (load_spec _ _ wid Hr) as Hl. rewrite Ha in Hl. split_and!.
  - unfold get_work_item. simpl. unfold on_items, status. by rewrite Hl.
  - unfold get_approval_status, approval_status. by rewrite Hl.
  - intros body payload ->. unfold revoke_approval, governed_revoke. simpl. by rewrite Hl.
Qed.
Lemma missing_item_replies_witness :
  get_approval_status 0 true "w9" gov_init = Unhandled (Exn MonitorItemMissing "monitor_work_item_not_found").
Proof. apply (missing_item_replies 0 "w9" gov_init ∅); [intros k; simpl; rewrite !lookup_empty; constructor|reflexivity]. Defined.

(** Registration is all or nothing.  Registering on an application without
    these routes adds all of them; registering again adds none and installs the
    new service; on an application with only some of them it raises. *)
Theorem registration_spec {S : Type} (a : app (S := S)) service :
  match register_monitor_execute_routes service a with
  | Ok a' => (forall r, r ∈ monitor_execute_routes -> r ∈ app_routes a') /\
      (forall r, r ∈ app_routes a' <-> r ∈ app_routes a \/ r ∈ monitor_execute_routes) /\
      (forall s, service = Some s -> app_service a' = Some s) /\
      (forall service2, exists s2, register_monitor_execute_routes service2 a' = Ok (mkApp (app_routes a') s2))
  | Raise e => exn_class e = RuntimeError /\
      (exists r, r ∈ monitor_execute_routes /\ r ∈ app_routes a) /\
      (exists r, r ∈ monitor_execute_routes /\ r ∉ app_routes a)
  end.
Proof.
  pose proof (register_again (S := S)) as Hagain.
  destruct (register_monitor_execute_routes service a) as [a'|e] eqn:H; pose proof H as Hreg;
    unfold register_monitor_execute_routes in H; case_bool_decide as Hne; try case_bool_decide as Hall;
    try discriminate; try (injection H as <-); cbn [app_routes app_service].
  - assert (forall r, r ∈ monitor_execute_routes -> r ∈ app_routes a) as Hin by (by apply overlap_all).
    split_and!; [done| |by intros s ->|].
    + intros r. split; [by left|]. intros [?|?]; auto.
    + intros service2. by apply (Hagain (mkApp _ _)).
  - split_and!; [|apply elem_of_app|by intros s ->|].
    + intros r Hr. apply elem_of_app. by right.
    + intros service2. apply (Hagain (mkApp _ _)). intros r Hr. apply elem_of_app. by right.
  - split; [done|]. split.
    + destruct (List.filter _ _) as [|r l] eqn:Hf; [done|]. exists r.
      assert (r ∈ List.filter (fun r => bool_decide (r ∈ app_routes a)) monitor_execute_routes) as Hr
        by (rewrite Hf; by constructor).
      apply list_elem_of_In, filter_In in Hr as [Hr Hb]. apply bool_decide_eq_true in Hb.
      split; [by apply list_elem_of_In|done].
    + destruct (decide (Forall (fun r => r ∈ app_routes a) monitor_execute_routes)) as [Hd|Hd].
      * exfalso. apply Hall, overlap_all. by rewrite Forall_forall in Hd.
      * apply not_Forall_Exists in Hd; [|apply _]. apply Exists_exists in Hd as (r & Hr & Hn). eauto.
Qed.
