(* ===== verification/CanonicalHash.v ===== *)
(** * The canonical hash of a run record (nico/comprehensive_run_record.py,
    [_bounded_native_json], [_canonical_hash_chunks], [_canonical_hash])

    The digest of a record is computed from a stream of text chunks: an explicit
    stack of iterator frames walks the value, small subtrees are encoded in one
    piece, and the bytes are gathered in batches.  [canonical_hash_reference]
    shows that stack, size estimate and batches do not matter: the digest is that
    of the plain canonical encoding. *)

From S2P Require Import Prelude PyStr Sha256 PyFloat Json JsonFacts.

Definition _HASH_BATCH_BYTES : Z := 65536.
Definition _HASH_NATIVE_NODE_LIMIT : Z := 8192.
Definition _HASH_NATIVE_BYTES_LIMIT : Z := 1048576.

(** [int.bit_length] *)
Definition bit_length (z : Z) : Z := if z =? 0 then 0 else Z.log2 (Z.abs z) + 1.

(** The loop of [_bounded_native_json]: [pending] is the stack of values with
    their depths, its last element first. *)
Fixpoint bounded_loop (fuel : nat) (pending : list (json * Z)) (max_depth nodes_left bytes_left : Z) : bool :=
  match fuel with
  | O => false
  | S fuel =>
      match pending with
      | [] => true
      | (item, depth) :: pending =>
          let nodes_left := nodes_left - 1 in
          let go pending bytes_left :=
            if bytes_left <? 0 then false else bounded_loop fuel pending max_depth nodes_left bytes_left in
          if nodes_left <? 0 then false
          else match item with
            | JObj l =>
                if max_depth <=? depth then false
                else if nodes_left <? Z.of_nat (length pending) + 2 * Z.of_nat (length l) then false
                else go (rev (map (fun m => (JStr (fst m), depth + 1)) l ++
                              map (fun m => (snd m, depth + 1)) l) ++ pending)
                       (bytes_left - (2 + 2 * Z.of_nat (length l)))
            | JArr l =>
                if max_depth <=? depth then false
                else if nodes_left <? Z.of_nat (length pending) + Z.of_nat (length l) then false
                else go (rev (map (fun v => (v, depth + 1)) l) ++ pending)
                       (bytes_left - (2 + Z.of_nat (length l)))
            | JStr s => go pending (bytes_left - (2 + 6 * blen s))
            | JInt z => go pending (bytes_left - (3 + bit_length z / 3))
            | JFloat _ => go pending (bytes_left - 32)
            | JBool _ | JNull => go pending (bytes_left - 5)
            end
      end
  end.

(** The node budget bounds the iterations. *)
Definition _bounded_native_json (value : json) (max_depth : Z) : bool :=
  bounded_loop 8194 [(value, 0)] max_depth _HASH_NATIVE_NODE_LIMIT _HASH_NATIVE_BYTES_LIMIT.

(** ** The chunk generator *)

(** [frames], its last element first.  An item frame holds the items its
    iterator has left and its index. *)
Inductive frame :=
  | FValue (v : json)
  | FDict (items : dict) (index : Z)
  | FList (items : list json) (index : Z)
  | FClose (closing : string).

(** The generator runs to its end, raises [_LegacyHashEncodingRequired], or
    stops because [fuel] is too small. *)
Inductive outcome :=
  | Done (chunks : list string)
  | Legacy
  | OutOfFuel.

Definition emit (cs : list string) (o : outcome) : outcome :=
  match o with Done l => Done (cs ++ l) | _ => o end.

(** [encoder.encode] and [encoder.iterencode] joined: the encoder sorts keys. *)
Definition encode (v : json) : string := dumps compact_unicode v.

(** [depth] is [len(ancestors)].  A value from JSON is a tree, so no container
    is its own ancestor. *)
Fixpoint hash_chunks (fuel : nat) (frames : list frame) (depth : Z) : outcome :=
  match fuel with
  | O => OutOfFuel
  | S fuel =>
      match frames with
      | [] => Done []
      | FClose closing :: frames => emit [closing] (hash_chunks fuel frames (depth - 1))
      | FDict [] _ :: frames | FList [] _ :: frames => hash_chunks fuel frames depth
      | FDict ((key, item) :: items) index :: frames =>
          emit ((if index =? 0 then [] else [","]) ++ [encode (JStr key); ":"])
            (hash_chunks fuel (FValue item :: FDict items (index + 1) :: frames) depth)
      | FList (item :: items) index :: frames =>
          emit (if index =? 0 then [] else [","])
            (hash_chunks fuel (FValue item :: FList items (index + 1) :: frames) depth)
      | FValue v :: frames =>
          match v with
          | JStr _ => emit [encode v] (hash_chunks fuel frames depth)
          | JInt z => emit [str_of_Z z] (hash_chunks fuel frames depth)
          | JBool b => emit [if b then "true" else "false"] (hash_chunks fuel frames depth)
          | JNull => emit ["null"] (hash_chunks fuel frames depth)
          | JFloat _ | JObj _ | JArr _ =>
              if 64 <=? depth then Legacy
              else if _bounded_native_json v (64 - depth)
              then emit [encode v] (hash_chunks fuel frames depth)
              else match v with
                | JObj l => emit ["{"]
                    (hash_chunks fuel (FDict (sort_members l) 0 :: FClose "}" :: frames) (depth + 1))
                | JArr l => emit ["["]
                    (hash_chunks fuel (FList l 0 :: FClose "]" :: frames) (depth + 1))
                | _ => Legacy
                end
          end
      end
  end.

(** One step for every frame a value gives rise to. *)
Fixpoint frame_steps (v : json) : nat :=
  match v with
  | JObj l => 3 + list_sum (map (fun m => S (frame_steps (snd m))) l)
  | JArr l => 3 + list_sum (map (fun x => S (frame_steps x)) l)
  | _ => 1
  end.

(** ** The digest *)

(** The state of the digest is the bytes fed to it, after [pending]. *)
Record batch := mkBatch { fed : string; pending : string }.

Definition absorb (b : batch) (chunk : string) : batch :=
  let encoded := utf8_encode chunk in
  if _HASH_BATCH_BYTES <=? blen encoded
  then mkBatch (fed b +:+ pending b +:+ encoded) ""
  else if _HASH_BATCH_BYTES <? blen (pending b) + blen encoded
  then mkBatch (fed b +:+ pending b) encoded
  else mkBatch (fed b) (pending b +:+ encoded).

Definition _canonical_hash (payload : json) : string :=
  match hash_chunks (S (frame_steps payload)) [FValue payload] 0 with
  | Done chunks =>
      let b := fold_left absorb chunks (mkBatch "" "") in
      sha256_hex (fed b +:+ pending b)
  | _ => sha256_hex (utf8_encode (encode payload))
  end.

(** ** Lemmas *)

Lemma emit_emit a b o : emit a (emit b o) = emit (a ++ b) o.
Proof. destruct o; simpl; [by rewrite app_assoc|done|done]. Qed.

(** The text of a list of chunks. *)
Definition text (cs : list string) : string := foldr String.append "" cs.

Lemma text_app a b : text (a ++ b) = text a +:+ text b.
Proof. induction a as [|x a IH]; simpl; [done|]. by rewrite IH, app_str_assoc. Qed.

(** From [frames] with [n] more steps than it needs, the generator spells [t]
    and goes on with [rest], or asks for the fallback. *)
Definition spells (t : string) (run : nat -> outcome) (rest : nat -> outcome) (steps : nat) : Prop :=
  forall n, run (steps + n)%nat = Legacy \/
    exists cs n', text cs = t /\ (n <= n')%nat /\ run (steps + n)%nat = emit cs (rest n').

Lemma spells_one t run rest cs :
  text cs = t -> (forall n, run (S n) = emit cs (rest n)) -> spells t run rest 1.
Proof. intros Ht H n. right. exists cs, n. by split_and!. Qed.

Lemma spells_emit t cs run rest mid steps :
  (forall n, run (S n) = emit cs (mid n)) -> spells t mid rest steps ->
  spells (text cs +:+ t) run rest (S steps).
Proof.
  intros H Hm n. cbn [Nat.add]. rewrite H. destruct (Hm n) as [->|(cs' & n' & Ht & Hn & ->)]; [by left|].
  right. exists (cs ++ cs'), n'. by rewrite text_app, Ht, emit_emit.
Qed.

Lemma spells_seq t1 t2 run mid rest s1 s2 :
  spells t1 run mid s1 -> spells t2 mid rest s2 -> spells (t1 +:+ t2) run rest (s1 + s2).
Proof.
  intros H1 H2 n. rewrite <- Nat.add_assoc.
  destruct (H1 (s2 + n)%nat) as [->|(cs & n1 & Ht1 & Hn1 & ->)]; [by left|].
  destruct (H2 (n1 - s2)%nat) as [Hl|(cs2 & n2 & Ht2 & Hn2 & He)];
    replace (s2 + (n1 - s2))%nat with n1 in * by lia; [left; by rewrite Hl|].
  right. exists (cs ++ cs2), n2. rewrite text_app, Ht1, Ht2, He, emit_emit. split_and!; [done|lia|done].
Qed.

(** Fuel that is not used does no harm. *)
Lemma spells_more t run rest s1 s2 : (s1 <= s2)%nat -> spells t run rest s1 -> spells t run rest s2.
Proof.
  intros Hle H n. replace (s2 + n)%nat with (s1 + (s2 - s1 + n))%nat by lia.
  destruct (H (s2 - s1 + n)%nat) as [->|(cs & n' & Ht & Hn & ->)]; [by left|].
  right. exists cs, n'. split_and!; [done|lia|done].
Qed.

(** [", ".join] from an item that is not the first. *)
Fixpoint tail_text (l : list string) : string :=
  match l with [] => "" | x :: l => "," +:+ x +:+ tail_text l end.
Lemma join_tail x l : join "," (x :: l) = x +:+ tail_text l.
Proof.
  revert x. induction l as [|y l IH]; intros x; [simpl; by rewrite app_str_nil_r|].
  change (join "," (x :: y :: l)) with (x +:+ "," +:+ join "," (y :: l)). by rewrite IH.
Qed.
Definition items_text (index : Z) (l : list string) : string :=
  if index =? 0 then join "," l else tail_text l.
Lemma items_text_cons index x l : 0 <= index ->
  items_text index (x :: l) = (if index =? 0 then "" else ",") +:+ x +:+ items_text (index + 1) l.
Proof.
  intros H. unfold items_text. rewrite (proj2 (Z.eqb_neq (index + 1) 0)) by lia.
  destruct (Z.eqb_spec index 0); [by rewrite join_tail|done].
Qed.

Definition spells_value (v : json) : Prop :=
  forall frames depth, spells (dump compact_unicode (sort_json v))
    (fun n => hash_chunks n (FValue v :: frames) depth) (fun n => hash_chunks n frames depth) (frame_steps v).

Definition member_text (m : string * json) : string :=
  dump_string false (fst m) +:+ ":" +:+ dump compact_unicode (sort_json (snd m)).

Lemma list_sum_cons x l : list_sum (x :: l) = (x + list_sum l)%nat.
Proof. reflexivity. Qed.

Lemma spells_list l frames depth : Forall spells_value l -> forall index, 0 <= index ->
  spells (items_text index (map (fun v => dump compact_unicode (sort_json v)) l))
    (fun n => hash_chunks n (FList l index :: frames) depth) (fun n => hash_chunks n frames depth)
    (S (list_sum (map (fun x => S (frame_steps x)) l))).
Proof.
  induction 1 as [|v l Hv _ IH]; intros index Hi.
  - apply (spells_one _ _ _ []); [unfold items_text; by destruct (index =? 0)|]. intros n. cbn. by destruct (hash_chunks n frames depth).
  - cbn [map]. rewrite list_sum_cons, items_text_cons by done.
    replace (if index =? 0 then "" else ",") with (text (if index =? 0 then [] else [","])) by (by destruct (index =? 0)).
    eapply spells_emit; [intros n; reflexivity|].
    eapply spells_more; [|eapply spells_seq; [apply Hv | apply IH; lia]]. lia.
Qed.

Lemma spells_dict l frames depth : Forall (fun m => spells_value (snd m)) l -> forall index, 0 <= index ->
  spells (items_text index (map member_text l))
    (fun n => hash_chunks n (FDict l index :: frames) depth) (fun n => hash_chunks n frames depth)
    (S (list_sum (map (fun m => S (frame_steps (snd m))) l))).
Proof.
  induction 1 as [|[k v] l Hv _ IH]; intros index Hi.
  - apply (spells_one _ _ _ []); [unfold items_text; by destruct (index =? 0)|]. intros n. cbn. by destruct (hash_chunks n frames depth).
  - cbn [map fst snd] in *. rewrite list_sum_cons, items_text_cons by done.
    replace ((if index =? 0 then "" else ",") +:+ member_text (k, v) +:+ items_text (index + 1) (map member_text l))
      with (text ((if index =? 0 then [] else [","]) ++ [encode (JStr k); ":"]) +:+
            (dump compact_unicode (sort_json v) +:+ items_text (index + 1) (map member_text l))).
    2: { rewrite text_app. unfold member_text. cbn [fst snd]. destruct (index =? 0); cbn [text foldr];
         unfold encode, dumps; cbn [compact_unicode sort_keys sort_json dump ensure_ascii];
         by rewrite ?app_str_nil_r, !app_str_assoc. }
    eapply spells_emit; [intros n; reflexivity|].
    eapply spells_more; [|eapply spells_seq; [apply Hv | apply IH; lia]]. lia.
Qed.

Lemma list_sum_perm l k : l ≡ₚ k -> list_sum l = list_sum k.
Proof. induction 1; rewrite ?list_sum_cons; lia. Qed.

Lemma encode_eq v : encode v = dump compact_unicode (sort_json v).
Proof. reflexivity. Qed.

Lemma spells_native v frames depth run :
  (forall n, run (S n) = emit [encode v] (hash_chunks n frames depth)) ->
  spells (dump compact_unicode (sort_json v)) run (fun n => hash_chunks n frames depth) 1.
Proof. intros H. apply (spells_one _ _ _ [encode v]); [|done]. cbn [text foldr]. by rewrite app_str_nil_r, encode_eq. Qed.

Lemma frame_steps_pos v : (1 <= frame_steps v)%nat.
Proof. destruct v; simpl; lia. Qed.

(** A container: fallback, one native chunk, or brackets around its items. *)
Lemma spells_container v frames depth (inside : list frame) op cl body steps :
  (forall n, hash_chunks (S n) (FValue v :: frames) depth =
     if 64 <=? depth then Legacy
     else if _bounded_native_json v (64 - depth) then emit [encode v] (hash_chunks n frames depth)
     else emit [op] (hash_chunks n (inside ++ FClose cl :: frames) (depth + 1))) ->
  dump compact_unicode (sort_json v) = op +:+ body +:+ cl ->
  spells body (fun n => hash_chunks n (inside ++ FClose cl :: frames) (depth + 1))
    (fun n => hash_chunks n (FClose cl :: frames) (depth + 1)) steps ->
  spells (dump compact_unicode (sort_json v)) (fun n => hash_chunks n (FValue v :: frames) depth)
    (fun n => hash_chunks n frames depth) (S (steps + 1)).
Proof.
  intros Hrun Hd Hbody. destruct (64 <=? depth); [intros n; left; by rewrite Nat.add_succ_l, Hrun|].
  destruct (_bounded_native_json v (64 - depth)).
  { eapply spells_more; [|by eapply spells_native]. lia. }
  rewrite Hd. replace op with (text [op]) at 1 by (cbn; by rewrite app_str_nil_r).
  eapply spells_emit; [exact Hrun|]. eapply spells_seq; [exact Hbody|].
  apply (spells_one _ _ _ [cl]); [cbn; by rewrite app_str_nil_r|]. intros n. cbn [hash_chunks].
  by replace (depth + 1 - 1) with depth by lia.
Qed.

Lemma value_spells v : spells_value v.
Proof.
  induction v as [|b|z|f|s|l IH|l IH] using json_ind'; intros frames depth.
  - by apply (spells_one _ _ _ ["null"]).
  - apply (spells_one _ _ _ [if b then "true" else "false"]); [by destruct b|done].
  - apply (spells_one _ _ _ [str_of_Z z]); [cbn [text foldr]; by rewrite app_str_nil_r|done].
  - intros n. cbn [frame_steps Nat.add hash_chunks]. destruct (64 <=? depth); [by left|].
    replace (_bounded_native_json (JFloat f) (64 - depth)) with true by reflexivity.
    right. exists [encode (JFloat f)], n. split_and!; [cbn [text foldr]; by rewrite app_str_nil_r|done|done].
  - by apply spells_native.
  - eapply spells_more; [|eapply (spells_container _ _ _ [FList l 0] "[" "]" _ _); [reflexivity| |]].
    2: { cbn [sort_json dump compact_unicode item_separator]. rewrite map_map. reflexivity. }
    2: { apply (spells_list l (FClose "]" :: frames) (depth + 1) IH 0). lia. }
    cbn [frame_steps]. lia.
  - eapply spells_more; [|eapply (spells_container _ _ _ [FDict (sort_members l) 0] "{" "}" _ _); [reflexivity| |]].
    2: { cbn [sort_json dump compact_unicode item_separator key_separator ensure_ascii].
         rewrite (sort_members_map sort_json), map_map. reflexivity. }
    2: { apply (spells_dict (sort_members l) (FClose "}" :: frames) (depth + 1)); [|lia].
         by rewrite sort_members_perm. }
    cbn [frame_steps]. rewrite (list_sum_perm _ (map (fun m => S (frame_steps (snd m))) l)); [lia|].
    by rewrite sort_members_perm.
Qed.

Lemma absorb_text b cs :
  let b' := fold_left absorb cs b in
  fed b' +:+ pending b' = fed b +:+ pending b +:+ utf8_encode (text cs).
Proof.
  revert b. induction cs as [|c cs IH]; intros b; cbn [fold_left text foldr]; [by rewrite app_str_nil_r|].
  specialize (IH (absorb b c)). cbv zeta in IH |- *. rewrite IH, utf8_encode_app. unfold absorb.
  destruct (_HASH_BATCH_BYTES <=? _); [cbn; by rewrite !app_str_assoc|].
  destruct (_HASH_BATCH_BYTES <? _); cbn; by rewrite !app_str_assoc.
Qed.

Lemma hash_run v :
  hash_chunks (S (frame_steps v)) [FValue v] 0 = Legacy \/
  exists cs, text cs = dumps compact_unicode v /\ hash_chunks (S (frame_steps v)) [FValue v] 0 = Done cs.
Proof.
  destruct (value_spells v [] 0 1%nat) as [H|(cs & n' & Ht & Hn & H)];
    replace (frame_steps v + 1)%nat with (S (frame_steps v)) in H by lia; rewrite H; [by left|]. right.
  destruct n' as [|n']; [lia|]. exists cs. split; [exact Ht|]. cbn [hash_chunks emit]. by rewrite app_nil_r.
Qed.

Lemma canonical_hash_plain v : _canonical_hash v = sha256_hex (utf8_encode (dumps compact_unicode v)).
Proof.
  unfold _canonical_hash. destruct (hash_run v) as [->|(cs & Ht & ->)]; [done|].
  rewrite absorb_text. by rewrite Ht.
Qed.

(** ** Property *)

(** C40: the streamed digest is the plain one.  For every value, whatever the
    sizes, the depth and the batching decide, [_canonical_hash] is the SHA-256
    of the canonical JSON text (keys sorted, no spaces, UTF-8); in particular
    the generator always ends within one step for every frame. *)
Theorem canonical_hash_reference v :
  _canonical_hash v = sha256_hex (utf8_encode (dumps compact_unicode v)) /\
  hash_chunks (S (frame_steps v)) [FValue v] 0 <> OutOfFuel.
Proof.
  split; [apply canonical_hash_plain|]. by destruct (hash_run v) as [->|(cs & _ & ->)].
Qed.
