(* ===== verification/Orchestration.v ===== *)
(** * The stages of a Comprehensive run (nico/comprehensive_orchestration_contract.py)

    The fixed sequence of stages, the contract document that lists them and its
    validation. *)

From S2P Require Import Prelude PyStr PyFloat Json JsonFacts.

Definition EXPRESS_STAGES : list string :=
  ["authorization_and_scope"; "immutable_repository_snapshot"; "repository_and_delivery_evidence";
   "dependency_security_static_analysis"; "ci_cd_architecture_complexity_velocity";
   "evidence_reconciliation_and_scoring"; "decision_report_generation"].

Definition COMPREHENSIVE_ONLY_STAGES : list string :=
  ["deep_scanner_triage"; "functional_qa"; "platform_parity"; "deployment_and_infrastructure";
   "architecture_and_data_flow"; "developer_delivery_process"; "stakeholder_and_business_alignment";
   "requirements_traceability"; "historical_trends_and_change_failure"; "six_month_roadmap";
   "staffing_sequencing_and_cost"; "risk_reduction_and_executive_briefing";
   "final_comprehensive_report_generation"].

Definition TERMINAL_STAGES : list string :=
  ["cross_format_truth_verification"; "human_review_request"; "client_acceptance_pending"].

Definition COMPREHENSIVE_STAGES : list string :=
  EXPRESS_STAGES ++ COMPREHENSIVE_ONLY_STAGES ++ TERMINAL_STAGES.

Definition contract_schema : string := "nico.comprehensive_orchestration_contract.v2".

Definition blockers_of (repository : string) (authorized : bool) (commit_sha : option string) : list string :=
  (if truthy (strip repository) then [] else ["repository_required"]) ++
  (if authorized then [] else ["explicit_authorization_required"]) ++
  match commit_sha with
  | Some sha => if truthy (strip sha) then [] else ["commit_sha_must_not_be_blank"]
  | None => []
  end.

Definition stage_entry (blocked : bool) (stage : string) : json := JObj
  [("id", JStr stage); ("status", JStr (if blocked then "blocked" else "pending"));
   ("required", JBool true); ("customer_visible", JBool true)].

Definition build_comprehensive_contract (repository : string) (authorized : bool) (commit_sha : option string)
    : dict :=
  let blockers := blockers_of repository authorized commit_sha in
  let blocked := negb (bool_decide (blockers = [])) in
  [("artifact_schema", JStr contract_schema); ("service_id", JStr "comprehensive");
   ("customer_service_name", JStr "NICO Comprehensive Technical Assessment");
   ("repository", JStr (strip repository));
   ("commit_sha", match commit_sha with Some sha => JStr (strip sha) | None => JNull end);
   ("authorized", JBool authorized);
   ("status", JStr (if blocked then "blocked" else "ready"));
   ("blockers", JArr (map JStr blockers));
   ("one_snapshot", JBool true); ("one_run_id", JBool true); ("one_evidence_ledger", JBool true);
   ("one_canonical_score", JBool true); ("one_final_report_package", JBool true);
   ("includes_everything_in_express",
     JBool (bool_decide (take (length EXPRESS_STAGES) COMPREHENSIVE_STAGES = EXPRESS_STAGES)));
   ("stages", JArr (map (stage_entry blocked) COMPREHENSIVE_STAGES));
   ("human_review_required", JBool true); ("client_delivery_allowed", JBool false)].

(** [[str(item.get("id")) for item in contract.get("stages") or [] if isinstance(item, dict)]] *)
Definition iter_or_empty (v : json) : res (list json) := if py_truthy v then py_iter v else Ok [].
Definition objects (l : list json) : list dict :=
  flat_map (fun v => match v with JObj d => [d] | _ => [] end) l.
Definition contract_stages (contract : dict) : res (list dict) :=
  l ← iter_or_empty (dget contract "stages"); Ok (objects l).

Definition count_str (x : string) (l : list string) : nat := count_occ String.string_dec l x.

Definition missing (stages ids : list string) : list string :=
  List.filter (fun s => negb (bool_decide (s ∈ ids))) stages.

Definition one_fields : list string :=
  ["one_snapshot"; "one_run_id"; "one_evidence_ledger"; "one_canonical_score"; "one_final_report_package"].

Definition is_true (v : json) : bool := match v with JBool b => b | _ => false end.
Definition is_false (v : json) : bool := match v with JBool b => negb b | _ => false end.
Definition when (b : bool) (m : string) : list string := if b then [m] else [].

Definition contract_violations (contract : dict) (ids : list string) : list string :=
  let duplicates := sorted (dict_fromkeys (List.filter (fun s => (1 <? count_str s ids)%nat) ids)) in
  when (negb (bool_decide (dget contract "service_id" = JStr "comprehensive"))) "service_id_must_be_comprehensive" ++
  when (negb (bool_decide (missing EXPRESS_STAGES ids = []))) "missing_express_stages" ++
  when (negb (bool_decide (missing COMPREHENSIVE_ONLY_STAGES ids = []))) "missing_comprehensive_stages" ++
  when (negb (bool_decide (missing TERMINAL_STAGES ids = []))) "missing_terminal_stages" ++
  when (negb (bool_decide (duplicates = []))) "duplicate_stages" ++
  when (negb (is_true (dget contract "human_review_required"))) "human_review_required" ++
  when (negb (is_false (dget contract "client_delivery_allowed"))) "client_delivery_must_remain_blocked" ++
  flat_map (fun f => when (negb (is_true (dget contract f))) (f +:+ "_required")) one_fields.

Definition validate_comprehensive_contract (contract : dict) : res dict :=
  stages ← contract_stages contract;
  let ids := map (fun d => py_str (dget d "id")) stages in
  let violations := contract_violations contract ids in
  Ok [("status", JStr (if bool_decide (violations = []) then "valid" else "invalid"));
      ("artifact_schema", JStr "nico.comprehensive_orchestration_validation.v2");
      ("violations", JArr (map JStr violations));
      ("missing_express_stages", JArr (map JStr (missing EXPRESS_STAGES ids)));
      ("missing_comprehensive_stages", JArr (map JStr (missing COMPREHENSIVE_ONLY_STAGES ids)));
      ("missing_terminal_stages", JArr (map JStr (missing TERMINAL_STAGES ids)));
      ("duplicate_stages",
        JArr (map JStr (sorted (dict_fromkeys (List.filter (fun s => (1 <? count_str s ids)%nat) ids)))));
      ("stage_count", JInt (Z.of_nat (length ids)));
      ("expected_stage_count", JInt (Z.of_nat (length COMPREHENSIVE_STAGES)))].

Definition stage_contract (contract : dict) (stage_id : string) : res (option dict) :=
  stages ← contract_stages contract;
  Ok (List.find (fun d => bool_decide (dget d "id" = JStr stage_id)) stages).

(** ** Lemmas *)

Lemma stages_nodup : NoDup COMPREHENSIVE_STAGES.
Proof. apply (bool_decide_unpack _). vm_compute. reflexivity. Qed.

Lemma when_nil b m : when b m = [] <-> b = false.
Proof. by destruct b. Qed.

Lemma missing_nil stages ids : missing stages ids = [] <-> forall s, s ∈ stages -> s ∈ ids.
Proof.
  unfold missing. split.
  - intros H s Hs. destruct (decide (s ∈ ids)); [done|]. exfalso.
    assert (s ∈ List.filter (fun s => negb (bool_decide (s ∈ ids))) stages) as Hin.
    { apply list_elem_of_In, filter_In. split; [by apply list_elem_of_In|]. by rewrite bool_decide_eq_false_2. }
    rewrite H in Hin. by apply not_elem_of_nil in Hin.
  - intros H. induction stages as [|s stages IH]; [done|]. cbn [List.filter].
    rewrite bool_decide_eq_true_2 by (apply H; set_solver). apply IH. set_solver.
Qed.

Lemma duplicates_nil ids :
  sorted (dict_fromkeys (List.filter (fun s => (1 <? count_str s ids)%nat) ids)) = [] <-> NoDup ids.
Proof.
  assert (forall l : list string, sorted l = [] <-> l = []) as Hs.
  { intros l. split; [|by intros ->]. intros H. pose proof (sorted_perm l) as Hp. rewrite H in Hp.
    by apply Permutation_nil_l in Hp. }
  rewrite Hs, dict_fromkeys_nil. rewrite NoDup_ListNoDup, (NoDup_count_occ String.string_dec). unfold count_str. split.
  - intros H x. destruct (in_dec String.string_dec x ids) as [Hx|Hx].
    + destruct (Nat.ltb_spec 1 (count_occ String.string_dec ids x)) as [Hlt|]; [|done]. exfalso.
      assert (In x (List.filter (fun s => (1 <? count_occ String.string_dec ids s)%nat) ids)) as Hin.
      { apply filter_In. split; [done|]. by apply Nat.ltb_lt. }
      by rewrite H in Hin.
    + apply (count_occ_not_In String.string_dec) in Hx. lia.
  - intros H. assert (forall l, (forall x, In x l -> (count_occ String.string_dec ids x <= 1)%nat) ->
      List.filter (fun s => (1 <? count_occ String.string_dec ids s)%nat) l = []) as Hl; [|by apply Hl].
    induction l as [|x l IH]; intros Hx; [done|]. cbn [List.filter].
    rewrite (proj2 (Nat.ltb_ge _ _)) by (apply Hx; by left). apply IH. intros y Hy. apply Hx. by right.
Qed.

Lemma violations_nil contract ids : contract_violations contract ids = [] <->
  dget contract "service_id" = JStr "comprehensive" /\
  (forall s, s ∈ COMPREHENSIVE_STAGES -> s ∈ ids) /\ NoDup ids /\
  dget contract "human_review_required" = JBool true /\ dget contract "client_delivery_allowed" = JBool false /\
  Forall (fun f => dget contract f = JBool true) one_fields.
Proof.
  assert (forall v, negb (is_true v) = false <-> v = JBool true) as Ht.
  { intros v. split; [|by intros ->]. destruct v; try discriminate. by destruct b. }
  assert (forall v, negb (is_false v) = false <-> v = JBool false) as Hf.
  { intros v. split; [|by intros ->]. destruct v; try discriminate. by destruct b. }
  assert (forall l, flat_map (fun f => when (negb (is_true (dget contract f))) (f +:+ "_required")) l = []
    <-> Forall (fun f => dget contract f = JBool true) l) as Hone.
  { induction l as [|f l IH]; simpl; [by split|]. rewrite app_nil, when_nil, Ht, IH, Forall_cons. done. }
  unfold contract_violations. rewrite !app_nil, !when_nil, Hone, Ht, Hf, !negb_false_iff, !bool_decide_eq_true,
    !missing_nil, duplicates_nil.
  unfold COMPREHENSIVE_STAGES. split.
  - intros (H1 & H2 & H3 & H4 & H5 & H6 & H7 & H8). split_and!; try done.
    intros s [Hs|[Hs|Hs]%elem_of_app]%elem_of_app; auto.
  - intros (H1 & H2 & H3 & H4 & H5 & H6). split_and!; try done; intros s Hs; apply H2; rewrite !elem_of_app; auto.
Qed.

Lemma built_ids blocked :
  map (fun d => py_str (dget d "id")) (objects (map (stage_entry blocked) COMPREHENSIVE_STAGES)) = COMPREHENSIVE_STAGES.
Proof. by destruct blocked. Qed.

(** ** Property *)

(** The contract.  A contract is valid exactly when it names the service,
    holds every stage at least once and none twice, keeps the five single-source
    promises, requires human review and blocks delivery; every contract that is
    built is valid, ready exactly when it has no blocker, and otherwise lists
    all its stages as blocked. *)
Theorem contract_spec :
  (forall contract stages, contract_stages contract = Ok stages ->
     let ids := map (fun d => py_str (dget d "id")) stages in
     exists report, validate_comprehensive_contract contract = Ok report /\
       (dget report "status" = JStr "valid" <->
        dget contract "service_id" = JStr "comprehensive" /\
        (forall s, s ∈ COMPREHENSIVE_STAGES -> s ∈ ids) /\ NoDup ids /\
        dget contract "human_review_required" = JBool true /\
        dget contract "client_delivery_allowed" = JBool false /\
        Forall (fun f => dget contract f = JBool true) one_fields)) /\
  (forall repository authorized commit_sha,
     let contract := build_comprehensive_contract repository authorized commit_sha in
     (exists report, validate_comprehensive_contract contract = Ok report /\ dget report "status" = JStr "valid") /\
     (dget contract "status" = JStr "ready" <->
      strip repository <> "" /\ authorized = true /\ forall sha, commit_sha = Some sha -> strip sha <> "")).
Proof.
  split.
  - intros contract stages Hs ids. unfold validate_comprehensive_contract. rewrite Hs. cbn [mbind res_bind].
    fold ids. eexists. split; [reflexivity|]. rewrite <- violations_nil.
    case_bool_decide as Hv; (split; [intros H|intros H; done]); [done|discriminate H].
  - intros repository authorized commit_sha contract. split.
    + unfold validate_comprehensive_contract.
      assert (contract_stages contract = Ok (objects
        (map (stage_entry (negb (bool_decide (blockers_of repository authorized commit_sha = [])))) COMPREHENSIVE_STAGES)))
        as -> by reflexivity.
      cbn [mbind res_bind]. rewrite built_ids. eexists. split; [reflexivity|].
      rewrite (proj2 (violations_nil contract COMPREHENSIVE_STAGES)); [done|].
      split_and!; try done; [apply stages_nodup|]. repeat (constructor; [done|]). constructor.
    + change (dget contract "status") with
        (JStr (if negb (bool_decide (blockers_of repository authorized commit_sha = [])) then "blocked" else "ready")).
      transitivity (blockers_of repository authorized commit_sha = []).
      { case_bool_decide; (split; [intros H'|intros H']); done. }
      unfold blockers_of. rewrite !app_nil, <- truthy_spec.
      destruct (truthy (strip repository)), authorized, commit_sha as [sha|]; try (split; [by intros (?&?&?)|by intros (?&?&?)]);
        try (by split; [split_and!|]).
      specialize (truthy_spec (strip sha)) as Ht. destruct (truthy (strip sha)).
      * split; [|done]. intros _. split_and!; [done|done|]. intros sha' [= <-]. by apply Ht.
      * split; [by intros (_ & _ & ?)|]. intros (_ & _ & H). specialize (H sha eq_refl). by apply Ht in H.
Qed.
