(* ===== verification/AcceptedEdition.v ===== *)
(** * Accepted report editions (nico/decision_grade_accepted_edition_v2.py,
    nico/decision_grade_accepted_edition_guard_v1.py)

    A reviewer's decision on a report package is bound to the digests of its
    exact artifacts.  [build_accepted_report_edition] makes the manifest,
    [validate_accepted_edition] checks a manifest against a package again.  The
    test for report bundles (nico/ordinary_bundle_boundary_v2.py) that both run
    first is an argument, [bundle_check]: it raises or does nothing. *)

From S2P Require Import Prelude PyStr Sha256 PyFloat Json JsonFacts PyBytes Orchestration.

(** An artifact is a JSON value or, for the PDF, bytes. *)
Inductive artifact := AJson (v : json) | ABytes (b : string).

Definition edition_version : string := "nico.decision_grade_accepted_edition.v2".
Definition guard_version : string := "nico.decision_grade_accepted_edition_guard.v1".

Definition _bytes (a : artifact) : string :=
  match a with
  | ABytes b => b
  | AJson (JStr s) => utf8_encode s
  | AJson v => utf8_encode (dumps compact_unicode v)
  end.

(** [value in (None, "", b"")] *)
Definition absent (a : artifact) : bool :=
  match a with
  | ABytes b => negb (truthy b)
  | AJson JNull => true
  | AJson (JStr s) => negb (truthy s)
  | AJson _ => false
  end.

(** ** Building an edition *)

Definition _REQUIRED_ARTIFACTS : list string := ["markdown"; "html"; "pdf"; "json"].
Definition _ALLOWED_DECISIONS : list string := ["approved"; "rejected"; "request_more_evidence"].

Definition artifacts := list (string * artifact).
Definition artifact_get (d : artifacts) (k : string) : artifact :=
  match List.find (fun m => String.eqb (fst m) k) d with Some m => snd m | None => AJson JNull end.

Definition digest_entry (a : artifact) : json :=
  JObj [("sha256", JStr (sha256_hex (_bytes a))); ("size_bytes", JInt (Z.of_nat (String.length (_bytes a))))].

(** The digests of the named artifacts that are there. *)
Definition digests_of (names : list string) (d : artifacts) : dict :=
  flat_map (fun n => if absent (artifact_get d n) then [] else [(n, digest_entry (artifact_get d n))]) names.

Definition identity_fields : list string :=
  ["repository"; "commit_sha"; "tree_sha"; "run_id"; "scanner_run_id"; "evidence_bundle_hash";
   "report_language"; "assessment_depth"].

(** [_required_text]: the normalised value and the error it adds. *)
Definition _required_text (value field : string) : string * list string :=
  let normalized := strip value in
  (normalized, if truthy normalized then [] else ["missing_" +:+ field]).

Definition json_digest (v : json) : string := sha256_hex (utf8_encode (dumps compact_unicode v)).

Record edition_identity := mkEditionIdentity {
  id_repository : string; id_commit_sha : string; id_tree_sha : string; id_run_id : string;
  id_scanner_run_id : string; id_evidence_bundle_hash : string; id_report_language : string;
  id_assessment_depth : string }.
(** Its values in the order of [identity_fields]. *)
Definition identity_values (i : edition_identity) : list string :=
  [id_repository i; id_commit_sha i; id_tree_sha i; id_run_id i; id_scanner_run_id i;
   id_evidence_bundle_hash i; id_report_language i; id_assessment_depth i].

Record edition_request := mkRequest {
  rq_identity : edition_identity;
  rq_artifacts : artifacts;
  rq_reviewer : string;
  rq_reviewer_role : string;
  rq_decision : string;
  rq_decision_reason : string;
  rq_decided_at : option string }.

Definition request_identity (r : edition_request) : list string := map strip (identity_values (rq_identity r)).

Definition missing_artifacts (r : edition_request) : list string :=
  List.filter (fun n => absent (artifact_get (rq_artifacts r) n)) _REQUIRED_ARTIFACTS.

(** [decided_at or datetime.now(...)], stripped; [now] is the second branch. *)
Definition edition_timestamp (now : string) (r : edition_request) : string :=
  strip (str_or (default "" (rq_decided_at r)) now).

Definition edition_errors (now : string) (r : edition_request) : list string :=
  flat_map (fun m => snd (_required_text (snd m) ("identity:" +:+ fst m))) 
    (combine identity_fields (identity_values (rq_identity r))) ++
  snd (_required_text (rq_reviewer r) "reviewer") ++
  snd (_required_text (rq_reviewer_role r) "reviewer_role") ++
  snd (_required_text (rq_decision_reason r) "decision_reason") ++
  when (negb (bool_decide (casefold (strip (rq_decision r)) ∈ _ALLOWED_DECISIONS))) "invalid_decision" ++
  when (negb (bool_decide (missing_artifacts r = [])))
    ("missing_required_artifacts:" +:+ join "," (missing_artifacts r)) ++
  when (negb (truthy (edition_timestamp now r))) "missing_decided_at".

Definition edition_digests (r : edition_request) : dict :=
  digests_of _REQUIRED_ARTIFACTS (rq_artifacts r) ++ digests_of ["evidence_manifest"] (rq_artifacts r).

(** The hash of a document is its last member. *)
Definition sealed (k : string) (d : dict) : dict := d ++ [(k, JStr (json_digest (JObj d)))].

Definition review_certificate (now : string) (r : edition_request) : dict :=
  let decision := casefold (strip (rq_decision r)) in
  sealed "approval_certificate_sha256"
    [("reviewer", JStr (strip (rq_reviewer r))); ("reviewer_role", JStr (strip (rq_reviewer_role r)));
     ("decision", JStr (str_or decision "invalid")); ("reason", JStr (strip (rq_decision_reason r)));
     ("decided_at", JStr (edition_timestamp now r));
     ("report_artifact_digest", JStr (json_digest (JObj (edition_digests r))));
     ("evidence_bundle_hash", JStr (strip (id_evidence_bundle_hash (rq_identity r))))].

Definition build_accepted_report_edition (bundle_check : res unit) (now : string) (r : edition_request) : res dict :=
  _ ← bundle_check;
  let errors := edition_errors now r in
  let approved := String.eqb (casefold (strip (rq_decision r))) "approved" && bool_decide (errors = []) in
  Ok (sealed "accepted_edition_manifest_sha256"
    ([("artifact_schema", JStr edition_version)] ++
     combine identity_fields (map JStr (request_identity r)) ++
     [("report_artifact_digest", JStr (json_digest (JObj (edition_digests r))));
      ("artifact_digests", JObj (edition_digests r));
      ("review", JObj (review_certificate now r));
      ("validation_errors", JArr (map JStr errors));
      ("accepted_edition", JBool approved);
      ("delivery_status", JStr (if approved then "pending_authorization" else "blocked"));
      ("human_review_required", JBool true); ("client_delivery_allowed", JBool false)])).

(** ** The guard *)

Definition manifest_keys : list string :=
  ["artifact_manifest"; "evidence_manifest_json"; "evidence_manifest_sha256"; "draft_artifact_identity"].
(** [any(package.get(key) not in (None, "") for key in ...)] *)
Definition has_manifest (package : dict) : bool :=
  existsb (fun k => negb (absent (AJson (dget package k)))) manifest_keys.

Definition package_pdf (package : dict) : string := default "" (b64decode (dget_str package "pdf_base64")).

Definition package_artifacts (package : dict) : artifacts :=
  [("markdown", AJson (dget package "markdown")); ("html", AJson (dget package "html"));
   ("pdf", ABytes (package_pdf package)); ("json", AJson (dget package "json"))] ++
  (if has_manifest package then [("evidence_manifest", AJson (dget package "evidence_manifest_json"))] else []).

Definition package_names (package : dict) : list string :=
  _REQUIRED_ARTIFACTS ++ (if has_manifest package then ["evidence_manifest"] else []).

Definition current_report_artifact_digests (package : dict) : dict :=
  digests_of (package_names package) (package_artifacts package).
Definition current_report_artifact_digest (package : dict) : string :=
  json_digest (JObj (current_report_artifact_digests package)).

(** Python's [==] on JSON values: numbers by value, dicts by key. *)
Definition num_eq (v w : json) : option bool :=
  let int v := match v with JBool b => Some (if b then 1 else 0) | JInt z => Some z | _ => None end in
  match int v, int w, v, w with
  | Some a, Some b, _, _ => Some (a =? b)
  | Some a, None, _, JFloat f | None, Some a, JFloat f, _ =>
      Some (match float_exact f with Some (n, d) => a * d =? n | None => false end)
  | None, None, JFloat f, JFloat g => Some (feqb f g)
  | _, _, _, _ => None
  end.
Fixpoint py_eq (v w : json) : bool :=
  match v, w with
  | JNull, JNull => true
  | JStr a, JStr b => String.eqb a b
  | JArr a, JArr b =>
      (fix go a b := match a, b with
        | [], [] => true
        | x :: a, y :: b => py_eq x y && go a b
        | _, _ => false end) a b
  | JObj a, JObj b =>
      (length a =? length b)%nat &&
      forallb (fun m => match dlookup (fst m) b with Some y => py_eq (snd m) y | None => false end) a
  | _, _ => default false (num_eq v w)
  end.

Definition bound_fields : list string :=
  ["repository"; "commit_sha"; "run_id"; "report_language"; "assessment_depth"].

(** The identity a field must have: the report's own, else the trusted one. *)
Definition expected_field (package : dict) (trusted : option dict) (field : string) : string :=
  let canonical := as_dict (dget package "json") in
  let own := text_of (dget (as_dict (dget canonical "identity")) field) in
  if truthy own then own
  else match trusted with Some t => text_of (dget t field) | None => own end.

Definition field_errors (package candidate : dict) (trusted : option dict) (field : string) : list string :=
  let expected := expected_field package trusted field in
  if negb (truthy expected) then ["current_report_identity_missing:" +:+ field]
  else when (negb (String.eqb (text_of (dget candidate field)) expected))
         ("accepted_edition_identity_mismatch:" +:+ field).

Definition candidate_review (candidate : dict) : dict := as_dict (dget candidate "review").

Definition edition_guard_errors (package candidate : dict) (trusted : option dict) : res (list string) :=
  recorded ← iter_or_empty (dget candidate "validation_errors");
  let delivery_allowed := is_true (dget candidate "client_delivery_allowed") in
  let review := candidate_review candidate in
  let expected_digests := current_report_artifact_digests package in
  let expected_digest := current_report_artifact_digest package in
  Ok (
    when (negb (bool_decide (dget candidate "artifact_schema" = JStr edition_version)))
      "accepted_edition_schema_mismatch" ++
    when (negb (is_true (dget candidate "accepted_edition"))) "accepted_edition_not_approved" ++
    when (negb (String.eqb (dget_str candidate "delivery_status")
                  (if delivery_allowed then "approved_for_delivery" else "pending_authorization")))
      "accepted_edition_delivery_status_invalid" ++
    when (negb (bool_decide (recorded = []))) "accepted_edition_contains_validation_errors" ++
    when (negb (String.eqb (casefold (dget_str review "decision")) "approved"))
      "accepted_edition_review_decision_invalid" ++
    when (negb (truthy (text_of (dget review "reviewer")))) "accepted_edition_reviewer_required" ++
    when (negb (truthy (text_of (dget review "reviewer_role")))) "accepted_edition_reviewer_role_required" ++
    when (negb (forallb (fun n => bool_decide (n ∈ keys expected_digests)) (package_names package)))
      "current_report_required_artifacts_missing" ++
    when (negb (py_eq (JObj expected_digests) (dget candidate "artifact_digests")))
      "accepted_edition_artifact_digests_mismatch" ++
    when (negb (String.eqb (dget_str candidate "report_artifact_digest") expected_digest))
      "accepted_edition_report_digest_mismatch" ++
    when (negb (String.eqb (dget_str review "report_artifact_digest") expected_digest))
      "accepted_edition_certificate_report_digest_mismatch" ++
    flat_map (field_errors package candidate trusted) bound_fields ++
    flat_map (fun f => when (negb (truthy (text_of (dget candidate f)))) ("accepted_edition_identity_missing:" +:+ f))
      ["tree_sha"; "scanner_run_id"; "evidence_bundle_hash"]).

Definition validate_accepted_edition (bundle_check : res unit) (package candidate : dict) (trusted : option dict)
    : res dict :=
  _ ← bundle_check;
  errors ← edition_guard_errors package candidate trusted;
  let ok := bool_decide (errors = []) in
  Ok [("artifact_schema", JStr guard_version); ("status", JStr (if ok then "valid" else "invalid"));
      ("validation_errors", JArr (map JStr errors));
      ("current_report_artifact_digest", JStr (current_report_artifact_digest package));
      ("current_report_artifact_digests", JObj (current_report_artifact_digests package));
      ("human_approval_valid", JBool ok);
      ("client_delivery_allowed", JBool (ok && is_true (dget candidate "client_delivery_allowed")))].

(** The package with its edition checked: an edition that does not hold is
    kept, but blocked. *)
Definition guard_report_package_accepted_edition (bundle_check : res unit) (package : dict) : res dict :=
  match dget package "accepted_edition" with
  | JObj candidate =>
      validation ← validate_accepted_edition bundle_check package candidate None;
      let package := dset package "accepted_edition_validation" (JObj validation) in
      if bool_decide (dget validation "status" = JStr "valid") then Ok package
      else
        recorded ← iter_or_empty (dget candidate "validation_errors");
        found ← py_iter (dget validation "validation_errors");
        let blocked := dset (dset (dset (dset candidate
          "accepted_edition" (JBool false)) "client_delivery_allowed" (JBool false))
          "delivery_status" (JStr "blocked"))
          "validation_errors" (JArr (map JStr (sorted (dict_fromkeys (map py_str (recorded ++ found)))))) in
        Ok (dset package "accepted_edition" (JObj blocked))
  | _ =>
      Ok (dset package "accepted_edition_validation" (JObj
        [("artifact_schema", JStr guard_version); ("status", JStr "not_present");
         ("validation_errors", JArr [JStr "accepted_edition_not_present"]);
         ("client_delivery_allowed", JBool false)]))
  end.

(** The artifacts [build_reviewed_edition] of
    nico/comprehensive_review_decision_v1.py takes from a report package. *)
Definition reviewed_artifacts (package : dict) : artifacts :=
  [("markdown", AJson (dget package "markdown")); ("html", AJson (dget package "html"));
   ("pdf", ABytes (package_pdf package)); ("json", AJson (dget package "json"));
   ("evidence_manifest", AJson (dget package "evidence_manifest_json"))].

(** ** Lemmas *)

Lemma in_digests names d n e :
  (n, e) ∈ digests_of names d <-> n ∈ names /\ absent (artifact_get d n) = false /\ e = digest_entry (artifact_get d n).
Proof.
  unfold digests_of. rewrite list_elem_of_In, in_flat_map. split.
  - intros (x & Hx & Hin). destruct (absent (artifact_get d x)) eqn:Ha; [done|].
    destruct Hin as [[= <- <-]|[]]. by rewrite list_elem_of_In.
  - intros (Hn & Ha & ->). exists n. rewrite Ha. split; [by apply list_elem_of_In|]. by left.
Qed.

Lemma keys_digests names d n : n ∈ keys (digests_of names d) <-> n ∈ names /\ absent (artifact_get d n) = false.
Proof.
  unfold keys. rewrite list_elem_of_fmap. split.
  - intros ([n' e] & -> & Hin). apply in_digests in Hin. simpl. tauto.
  - intros [Hn Ha]. exists (n, digest_entry (artifact_get d n)). split; [done|]. by apply in_digests.
Qed.

Lemma NoDup_digests names d : NoDup names -> NoDup (keys (digests_of names d)).
Proof.
  unfold keys, digests_of. induction 1 as [|n names Hn _ IH]; simpl; [constructor|].
  destruct (absent (artifact_get d n)); [done|]. simpl. constructor; [|done].
  intros H. apply (keys_digests names d n) in H as [H _]. done.
Qed.

Lemma py_eq_obj a w : py_eq (JObj a) w = true ->
  exists b, w = JObj b /\ forall k v, (k, v) ∈ a -> exists y, dlookup k b = Some y /\ py_eq v y = true.
Proof.
  destruct w; try discriminate. cbn [py_eq]. intros [_ H]%andb_true_iff. exists l. split; [done|].
  intros k v Hin. rewrite forallb_forall in H. specialize (H (k, v)). rewrite <- list_elem_of_In in H.
  specialize (H Hin). simpl in H. destruct (dlookup k l) as [y|]; [eauto|discriminate].
Qed.

Lemma py_eq_digests names d : NoDup names -> py_eq (JObj (digests_of names d)) (JObj (digests_of names d)) = true.
Proof.
  intros Hn. cbn [py_eq]. rewrite Nat.eqb_refl. cbn [andb]. apply forallb_forall. intros [n e] Hin.
  rewrite <- list_elem_of_In in Hin. simpl. pose proof (NoDup_digests names d Hn) as Hd.
  rewrite (proj2 (dlookup_elem n e _ Hd) Hin). apply in_digests in Hin as (_ & _ & ->).
  cbn -[_bytes]. by rewrite String.eqb_refl, Z.eqb_refl.
Qed.

Lemma package_names_nodup package : NoDup (package_names package).
Proof.
  unfold package_names. destruct (has_manifest package); apply (bool_decide_unpack _); vm_compute; reflexivity.
Qed.

Lemma flat_map_nil {A B} (f : A -> list B) l : flat_map f l = [] <-> forall x, x ∈ l -> f x = [].
Proof.
  induction l as [|x l IH]; simpl; [split; [set_solver|done]|]. rewrite app_nil, IH.
  split; [intros [? ?] y [->|?]%elem_of_cons; auto|]. intros H. split; [|intros y Hy]; apply H; set_solver.
Qed.

(** When the guard finds nothing. *)
Lemma guard_nil package candidate trusted errors :
  edition_guard_errors package candidate trusted = Ok errors ->
  let review := candidate_review candidate in
  (errors = [] <->
   dget candidate "artifact_schema" = JStr edition_version /\
   is_true (dget candidate "accepted_edition") = true /\
   dget_str candidate "delivery_status" =
     (if is_true (dget candidate "client_delivery_allowed") then "approved_for_delivery" else "pending_authorization") /\
   iter_or_empty (dget candidate "validation_errors") = Ok [] /\
   casefold (dget_str review "decision") = "approved" /\
   truthy (text_of (dget review "reviewer")) = true /\ truthy (text_of (dget review "reviewer_role")) = true /\
   (forall n, n ∈ package_names package -> absent (artifact_get (package_artifacts package) n) = false) /\
   py_eq (JObj (current_report_artifact_digests package)) (dget candidate "artifact_digests") = true /\
   dget_str candidate "report_artifact_digest" = current_report_artifact_digest package /\
   dget_str review "report_artifact_digest" = current_report_artifact_digest package /\
   (forall f, f ∈ bound_fields -> field_errors package candidate trusted f = []) /\
   (forall f, f ∈ ["tree_sha"; "scanner_run_id"; "evidence_bundle_hash"] -> truthy (text_of (dget candidate f)) = true)).
Proof.
  intros H review. unfold edition_guard_errors in H. apply bind_ok_inv in H as (recorded & -> & H).
  apply Ok_inj in H as <-. fold review.
  rewrite !app_nil, !when_nil, !negb_false_iff, !bool_decide_eq_true, !String.eqb_eq, !flat_map_nil.
  assert (forall l, forallb (fun n => bool_decide (n ∈ keys (current_report_artifact_digests package))) l = true <->
    forall n, n ∈ l -> n ∈ keys (current_report_artifact_digests package)) as ->.
  { intros l. rewrite forallb_forall. by setoid_rewrite bool_decide_eq_true; setoid_rewrite <- list_elem_of_In. }
  assert ((forall n, n ∈ package_names package -> n ∈ keys (current_report_artifact_digests package)) <->
    (forall n, n ∈ package_names package -> absent (artifact_get (package_artifacts package) n) = false)) as ->.
  { split; intros H n Hn; [by apply H, keys_digests in Hn as [_ ?]|]. apply keys_digests. auto. }
  assert (Ok recorded = Ok [] <-> recorded = []) as -> by (split; [by intros [=]|by intros ->]).
  setoid_rewrite when_nil. by setoid_rewrite negb_false_iff.
Qed.

(** What a candidate that passes the guard says about the package's bytes. *)
Lemma guard_binds package candidate trusted :
  edition_guard_errors package candidate trusted = Ok [] ->
  forall n, n ∈ package_names package -> exists d e, dget candidate "artifact_digests" = JObj d /\
    dlookup n d = Some (JObj e) /\
    dlookup "sha256" e = Some (JStr (sha256_hex (_bytes (artifact_get (package_artifacts package) n)))).
Proof.
  intros H n Hn. apply guard_nil in H as Hg. apply proj1 in Hg. specialize (Hg eq_refl).
  destruct Hg as (_ & _ & _ & _ & _ & _ & _ & Ha & Heq & _).
  apply py_eq_obj in Heq as (d & Hd & Hin).
  destruct (Hin n (digest_entry (artifact_get (package_artifacts package) n))) as (y & Hy & Hpy);
    [apply in_digests; auto|].
  apply py_eq_obj in Hpy as (e & -> & He).
  destruct (He "sha256" (JStr (sha256_hex (_bytes (artifact_get (package_artifacts package) n))))) as (z & Hz & Hpz);
    [by left|].
  exists d, e. split_and!; [done|done|]. rewrite Hz. destruct z; try discriminate.
  simpl in Hpz. by apply String.eqb_eq in Hpz as ->.
Qed.

Lemma digests_agree package r :
  rq_artifacts r = reviewed_artifacts package -> edition_digests r = current_report_artifact_digests package.
Proof.
  intros Hr. unfold edition_digests, current_report_artifact_digests. rewrite Hr.
  unfold package_names, package_artifacts, digests_of. rewrite flat_map_app.
  destruct (has_manifest package) eqn:Hm; [done|]. f_equal.
  assert (absent (AJson (dget package "evidence_manifest_json")) = true) as Ha.
  { destruct (absent _) eqn:Ha; [done|]. unfold has_manifest in Hm. cbn [manifest_keys existsb] in Hm.
    rewrite Ha in Hm. by destruct (negb (absent (AJson (dget package "artifact_manifest")))). }
  cbn [flat_map app]. change (artifact_get (reviewed_artifacts package) "evidence_manifest")
    with (AJson (dget package "evidence_manifest_json")). by rewrite Ha.
Qed.

Lemma present_artifacts package r : rq_artifacts r = reviewed_artifacts package ->
  (has_manifest package = true -> absent (AJson (dget package "evidence_manifest_json")) = false) ->
  (forall n, n ∈ _REQUIRED_ARTIFACTS -> absent (artifact_get (rq_artifacts r) n) = false) ->
  forall n, n ∈ package_names package -> absent (artifact_get (package_artifacts package) n) = false.
Proof.
  intros Hr Hm Hart n. unfold package_names. rewrite elem_of_app. intros [Hn|Hn].
  - specialize (Hart n Hn). rewrite Hr in Hart. unfold _REQUIRED_ARTIFACTS in Hn.
    repeat (apply elem_of_cons in Hn as [->|Hn]; [exact Hart|]). by apply not_elem_of_nil in Hn.
  - unfold package_artifacts. destruct (has_manifest package) eqn:Hh; [|by apply not_elem_of_nil in Hn].
    apply list_elem_of_singleton in Hn as ->. exact (Hm eq_refl).
Qed.

(** No errors: every text is there, and every artifact. *)
Lemma required_text_nil v f : snd (_required_text v f) = [] <-> truthy (strip v) = true.
Proof. unfold _required_text. simpl. by destruct (truthy (strip v)). Qed.

Lemma errors_nil now r : edition_errors now r = [] <->
  Forall (fun v => truthy (strip v) = true) (identity_values (rq_identity r)) /\
  truthy (strip (rq_reviewer r)) = true /\ truthy (strip (rq_reviewer_role r)) = true /\
  truthy (strip (rq_decision_reason r)) = true /\ casefold (strip (rq_decision r)) ∈ _ALLOWED_DECISIONS /\
  (forall n, n ∈ _REQUIRED_ARTIFACTS -> absent (artifact_get (rq_artifacts r) n) = false) /\
  truthy (edition_timestamp now r) = true.
Proof.
  unfold edition_errors. rewrite !app_nil, !when_nil, !required_text_nil, !negb_false_iff, !bool_decide_eq_true.
  assert (flat_map (fun m => snd (_required_text (snd m) ("identity:" +:+ fst m)))
    (combine identity_fields (identity_values (rq_identity r))) = [] <->
    Forall (fun v => truthy (strip v) = true) (identity_values (rq_identity r))) as ->.
  { destruct (rq_identity r). cbn -[_required_text truthy strip].
    rewrite !app_nil, !required_text_nil. unfold identity_values. rewrite !Forall_cons. split; [intros; destruct_and!; by split_and!|].
    intros; destruct_and!; by split_and!. }
  assert (missing_artifacts r = [] <-> forall n, n ∈ _REQUIRED_ARTIFACTS -> absent (artifact_get (rq_artifacts r) n) = false) as ->.
  { unfold missing_artifacts. generalize _REQUIRED_ARTIFACTS. intros l. induction l as [|n l IH]; simpl; [split; [set_solver|done]|].
    destruct (absent (artifact_get (rq_artifacts r) n)) eqn:Ha.
    - split; [done|]. intros H. rewrite (H n) in Ha by set_solver. done.
    - rewrite IH. split; [intros H m [->|Hm]%elem_of_cons; auto|]. intros H m Hm. apply H. set_solver. }
  done.
Qed.

Lemma truthy_text_of s : truthy (text_of (JStr (strip s))) = truthy (strip s).
Proof. by rewrite text_of_str, strip_idemp. Qed.

(** What the manifest of a request says. *)
Lemma built_fields now r m : build_accepted_report_edition (Ok tt) now r = Ok m ->
  let approved := String.eqb (casefold (strip (rq_decision r))) "approved" && bool_decide (edition_errors now r = []) in
  dget m "artifact_schema" = JStr edition_version /\ dget m "accepted_edition" = JBool approved /\
  dget m "client_delivery_allowed" = JBool false /\
  dget m "delivery_status" = JStr (if approved then "pending_authorization" else "blocked") /\
  dget m "validation_errors" = JArr (map JStr (edition_errors now r)) /\
  dget m "artifact_digests" = JObj (edition_digests r) /\
  dget m "report_artifact_digest" = JStr (json_digest (JObj (edition_digests r))) /\
  dget m "review" = JObj (review_certificate now r) /\
  (forall f, f ∈ identity_fields -> exists v, v ∈ identity_values (rq_identity r) /\ dget m f = JStr (strip v)).
Proof.
  intros [= <-]. do 8 (split; [reflexivity|]). intros f Hf. unfold identity_fields in Hf.
  repeat (apply elem_of_cons in Hf as [->|Hf]; [eexists; split; [|reflexivity]; unfold identity_values; set_solver|]).
  by apply not_elem_of_nil in Hf.
Qed.

Lemma dget_str_of d k s : dget d k = JStr s -> dget_str d k = s.
Proof. unfold dget_str. intros ->. by destruct s. Qed.

(** What a validation says. *)
Lemma validation_inv package candidate trusted v :
  validate_accepted_edition (Ok tt) package candidate trusted = Ok v ->
  exists errors, edition_guard_errors package candidate trusted = Ok errors /\
    (dget v "status" = JStr "valid" <-> errors = []) /\
    (errors <> [] -> dget v "client_delivery_allowed" = JBool false).
Proof.
  unfold validate_accepted_edition. cbn [mbind res_bind]. intros H. apply bind_ok_inv in H as (errors & He & H).
  apply Ok_inj in H as <-. exists errors. split; [done|]. cbn.
  case_bool_decide; (split; [split|]); intros; done.
Qed.

Lemma blocked_invalid package candidate errors : dget candidate "accepted_edition" = JBool false ->
  edition_guard_errors package candidate None = Ok errors -> errors <> [].
Proof. intros Hc He ->. apply guard_nil in He as [H _]. destruct (H eq_refl) as (_ & Ha & _). by rewrite Hc in Ha. Qed.

Lemma again_invalid guarded : (forall c, dget guarded "accepted_edition" = JObj c -> dget c "accepted_edition" = JBool false) ->
  forall again, guard_report_package_accepted_edition (Ok tt) guarded = Ok again ->
  dget (as_dict (dget again "accepted_edition_validation")) "status" <> JStr "valid".
Proof.
  intros Hc again. unfold guard_report_package_accepted_edition.
  destruct (dget guarded "accepted_edition") as [| | | | | |c] eqn:Ha;
    try (intros H; apply Ok_inj in H as <-; rewrite dget_dset_eq; discriminate).
  intros H. apply bind_ok_inv in H as (v & Hv & H). destruct (validation_inv _ _ _ _ Hv) as (errors & He & Hs & _).
  assert (dget v "status" <> JStr "valid") as Hn.
  { rewrite Hs. eapply blocked_invalid; eauto. }
  rewrite bool_decide_eq_false_2 in H by done.
  apply bind_ok_inv in H as (rec & _ & H). apply bind_ok_inv in H as (found & _ & H). apply Ok_inj in H as <-.
  rewrite dget_dset_ne by discriminate. by rewrite dget_dset_eq.
Qed.

(** A complete request for an approval. *)
Definition complete_approval (now : string) (r : edition_request) : Prop :=
  casefold (strip (rq_decision r)) = "approved" /\
  Forall (fun v => truthy (strip v) = true) (identity_values (rq_identity r)) /\
  truthy (strip (rq_reviewer r)) = true /\ truthy (strip (rq_reviewer_role r)) = true /\
  truthy (strip (rq_decision_reason r)) = true /\
  (forall n, n ∈ _REQUIRED_ARTIFACTS -> absent (artifact_get (rq_artifacts r) n) = false) /\
  truthy (edition_timestamp now r) = true.

Lemma complete_approval_nil now r : complete_approval now r <->
  casefold (strip (rq_decision r)) = "approved" /\ edition_errors now r = [].
Proof.
  rewrite errors_nil. split.
  - intros (Hd & H1 & H2 & H3 & H4 & H5 & H6). split; [exact Hd|]. rewrite Hd. unfold _ALLOWED_DECISIONS.
    split_and!; try done. set_solver.
  - intros (Hd & H1 & H2 & H3 & H4 & _ & H5 & H6). by split_and!.
Qed.

Lemma guard_total package m trusted l : dget m "validation_errors" = JArr l ->
  exists errors, edition_guard_errors package m trusted = Ok errors.
Proof. intros H. unfold edition_guard_errors. rewrite H. unfold iter_or_empty. destruct (py_truthy _); eexists; reflexivity. Qed.

Lemma built_clean package trusted now r m :
  rq_artifacts r = reviewed_artifacts package ->
  (has_manifest package = true -> absent (AJson (dget package "evidence_manifest_json")) = false) ->
  build_accepted_report_edition (Ok tt) now r = Ok m ->
  (forall f, f ∈ bound_fields -> expected_field package trusted f = text_of (dget m f)) ->
  complete_approval now r -> edition_guard_errors package m trusted = Ok [].
Proof.
  intros Hr Hm Hb Hf Happ. destruct (built_fields _ _ _ Hb) as (F1 & F2 & F3 & F4 & F5 & F6 & F7 & F8 & F9).
  destruct (guard_total package m trusted _ F5) as [errors He].
  pose proof Happ as [Hd Hnil]%complete_approval_nil. destruct Happ as (_ & Hid & Hrev & Hrole & Hreason & Hart & Ht).
  rewrite Hnil, Hd in F2, F4. rewrite Hnil in F5. rewrite He. f_equal. apply (guard_nil _ _ _ _ He).
  unfold candidate_review. rewrite F8. cbn [as_dict].
  pose proof (digests_agree package r Hr) as Hag.
  assert (forall f, f ∈ identity_fields -> truthy (text_of (dget m f)) = true) as Hids.
  { intros f Hin. destruct (F9 f Hin) as (w & Hw & ->). rewrite truthy_text_of.
    rewrite Forall_forall in Hid. auto. }
  split_and!.
  - done.
  - by rewrite F2.
  - rewrite F3. by rewrite (dget_str_of _ _ _ F4).
  - by rewrite F5.
  - erewrite dget_str_of; [|reflexivity]. rewrite Hd. reflexivity.
  - change (dget (review_certificate now r) "reviewer") with (JStr (strip (rq_reviewer r))). by rewrite truthy_text_of.
  - change (dget (review_certificate now r) "reviewer_role") with (JStr (strip (rq_reviewer_role r))).
    by rewrite truthy_text_of.
  - intros n Hn. apply (present_artifacts package r); auto.
  - rewrite F6, Hag. apply py_eq_digests, package_names_nodup.
  - rewrite (dget_str_of _ _ _ F7). by rewrite Hag.
  - erewrite dget_str_of; [|reflexivity]. by rewrite Hag.
  - intros f Hin. unfold field_errors. rewrite (Hf f Hin). rewrite Hids.
    + simpl. by rewrite String.eqb_refl.
    + revert f Hin. apply issubset_spec. by vm_compute.
  - intros f Hin. apply Hids. revert f Hin. apply issubset_spec. by vm_compute.
Qed.

(** ** Properties *)

(** C35: a reviewer's approval is what the guard accepts.  For the artifacts of
    a package (with an evidence manifest where the package names one) and its
    own identity, the edition that is built passes the guard exactly when the
    decision is an approval and the request is complete: every identity, the
    reviewer, the role, the reason, the time and every artifact is there.
    Approval alone never allows delivery. *)
Theorem approval_is_validated package trusted now r m :
  rq_artifacts r = reviewed_artifacts package ->
  (has_manifest package = true -> absent (AJson (dget package "evidence_manifest_json")) = false) ->
  build_accepted_report_edition (Ok tt) now r = Ok m ->
  (forall f, f ∈ bound_fields -> expected_field package trusted f = text_of (dget m f)) ->
  exists v, validate_accepted_edition (Ok tt) package m trusted = Ok v /\
    dget v "client_delivery_allowed" = JBool false /\
    (dget v "status" = JStr "valid" <-> complete_approval now r).
Proof.
  intros Hr Hm Hb Hf. destruct (built_fields _ _ _ Hb) as (_ & F2 & F3 & _ & F5 & _).
  destruct (guard_total package m trusted _ F5) as [errors He].
  assert (exists v, validate_accepted_edition (Ok tt) package m trusted = Ok v) as (v & Hv)
    by (unfold validate_accepted_edition; cbn [mbind res_bind]; rewrite He; eexists; reflexivity).
  exists v. split; [exact Hv|]. split.
  { unfold validate_accepted_edition in Hv. cbn [mbind res_bind] in Hv. rewrite He in Hv.
    apply Ok_inj in Hv as <-. cbn -[bool_decide]. rewrite F3. cbn [is_true]. by rewrite andb_false_r. }
  destruct (validation_inv _ _ _ _ Hv) as (errors' & He' & -> & _).
  rewrite He in He'. injection He' as <-. split.
  - intros ->. apply guard_nil in He as [Hg _]. destruct (Hg eq_refl) as (_ & H & _). rewrite F2 in H. cbn [is_true] in H.
    apply andb_true_iff in H as [Hd%String.eqb_eq Hn%bool_decide_eq_true]. apply complete_approval_nil. by split.
  - intros Happ. rewrite (built_clean _ _ _ _ _ Hr Hm Hb Hf Happ) in He. by injection He.
Qed.

(** An edition holds for one set of bytes.  Two packages that both pass
    the guard with the same edition have the same bytes for each of the
    required artifacts, and for the evidence manifest where both have one, or
    else SHA-256 collides. *)
Theorem edition_fixes_bytes package package' candidate trusted trusted' :
  edition_guard_errors package candidate trusted = Ok [] ->
  edition_guard_errors package' candidate trusted' = Ok [] ->
  forall n, n ∈ package_names package -> n ∈ package_names package' ->
    let b := _bytes (artifact_get (package_artifacts package) n) in
    let b' := _bytes (artifact_get (package_artifacts package') n) in
    b = b' \/ (b <> b' /\ sha256_hex b = sha256_hex b').
Proof.
  intros H H' n Hn Hn' b b'.
  destruct (guard_binds _ _ _ H n Hn) as (d & e & Hd & He & Hs).
  destruct (guard_binds _ _ _ H' n Hn') as (d' & e' & Hd' & He' & Hs').
  rewrite Hd in Hd'. injection Hd' as <-. rewrite He in He'. injection He' as <-.
  rewrite Hs in Hs'. injection Hs' as Hs'. fold b b' in Hs'. destruct (decide (b = b')); auto.
Qed.

(** The guard fails closed.  A guarded package carries a valid
    certificate of validation with its edition untouched, or an edition that is
    not accepted, not deliverable and blocked, or no edition at all; and
    guarding once more never lifts a block. *)
Theorem guard_fails_closed package guarded :
  guard_report_package_accepted_edition (Ok tt) package = Ok guarded ->
  (dget (as_dict (dget guarded "accepted_edition_validation")) "status" = JStr "valid" /\
   dget guarded "accepted_edition" = dget package "accepted_edition" /\
   edition_guard_errors package (as_dict (dget package "accepted_edition")) None = Ok []) \/
  (dget (as_dict (dget guarded "accepted_edition_validation")) "client_delivery_allowed" = JBool false /\
   (forall candidate, dget guarded "accepted_edition" = JObj candidate ->
      dget candidate "accepted_edition" = JBool false /\ dget candidate "client_delivery_allowed" = JBool false /\
      dget candidate "delivery_status" = JStr "blocked") /\
   forall again, guard_report_package_accepted_edition (Ok tt) guarded = Ok again ->
     dget (as_dict (dget again "accepted_edition_validation")) "status" <> JStr "valid").
Proof.
  intros H. unfold guard_report_package_accepted_edition in H.
  destruct (dget package "accepted_edition") as [| | | | | |c] eqn:Ha.
  7: {
    apply bind_ok_inv in H as (v & Hv & H). destruct (validation_inv _ _ _ _ Hv) as (errors & He & Hs & Hd).
    case_bool_decide as Hst.
    - apply Ok_inj in H as <-. left. rewrite dget_dset_eq, ?dget_dset_ne, ?Ha by discriminate.
      split_and!; [exact Hst|done|]. apply Hs in Hst as ->. exact He.
    - apply bind_ok_inv in H as (rec & _ & H). apply bind_ok_inv in H as (found & _ & H). apply Ok_inj in H as <-. right.
      rewrite (dget_dset_ne _ "accepted_edition_validation") by discriminate. rewrite !dget_dset_eq.
      cbn [as_dict]. split_and!.
      + apply Hd. by rewrite <- Hs.
      + intros candidate [= <-]. split_and!; repeat (rewrite dget_dset_ne by discriminate); by rewrite dget_dset_eq.
      + apply again_invalid. intros c'. rewrite dget_dset_eq. intros [= <-].
        repeat (rewrite dget_dset_ne by discriminate). by rewrite dget_dset_eq. }
  all: apply Ok_inj in H as <-; right; rewrite dget_dset_eq, ?dget_dset_ne, ?Ha by discriminate.
  all: split_and!; [reflexivity|discriminate|].
  all: apply again_invalid; intros c; rewrite ?dget_dset_ne, ?Ha by discriminate; discriminate.
Qed.

(** ** Witnesses *)

Module EditionDemo.

Definition package : dict :=
  [("markdown", JStr "# Report"); ("html", JStr "<h1>Report</h1>"); ("pdf_base64", JStr "TklDTw==");
   ("json", JObj [("identity", JObj [("repository", JStr "octo/repo"); ("commit_sha", JStr "c0ffee");
     ("run_id", JStr "run-1"); ("report_language", JStr "en"); ("assessment_depth", JStr "strategic")])])].
Definition request : edition_request := {|
  rq_identity := mkEditionIdentity "octo/repo" " c0ffee" "7ree" "run-1" "scan-1" "e71d" "en" "strategic";
  rq_artifacts := reviewed_artifacts package;
  rq_reviewer := "Ada"; rq_reviewer_role := "principal"; rq_decision := " Approved ";
  rq_decision_reason := "complete"; rq_decided_at := Some "2026-07-01T00:00:00+00:00" |}.
Definition manifest : dict :=
  match build_accepted_report_edition (Ok tt) "2026-07-01T00:00:00+00:00" request with Ok m => m | Raise _ => [] end.
(** The same report with a title beside it, and one with another text. *)
Definition retitled : dict := ("title", JStr "Report") :: package.
Definition edited : dict := dset (dset package "markdown" (JStr "# Edited")) "accepted_edition" (JObj manifest).
Definition guarded : dict :=
  match guard_report_package_accepted_edition (Ok tt) edited with Ok p => p | Raise _ => [] end.

Example edited_is_blocked :
  dget (as_dict (dget guarded "accepted_edition")) "validation_errors" =
  JArr [JStr "accepted_edition_artifact_digests_mismatch";
        JStr "accepted_edition_certificate_report_digest_mismatch";
        JStr "accepted_edition_report_digest_mismatch"].
Proof. vm_compute. reflexivity. Qed.

End EditionDemo.

Lemma approval_is_validated_witness :
  exists v, validate_accepted_edition (Ok tt) EditionDemo.package EditionDemo.manifest None = Ok v /\
    dget v "client_delivery_allowed" = JBool false.
Proof.
  destruct (approval_is_validated EditionDemo.package None "2026-07-01T00:00:00+00:00" EditionDemo.request
    EditionDemo.manifest) as (v & Hv & Hd & _).
  - reflexivity.
  - intros H. vm_compute in H. discriminate H.
  - vm_compute. reflexivity.
  - assert (forallb (fun f => String.eqb (expected_field EditionDemo.package None f)
      (text_of (dget EditionDemo.manifest f))) bound_fields = true) as Hall by (vm_compute; reflexivity).
    rewrite forallb_forall in Hall. intros f Hf. apply String.eqb_eq, Hall, list_elem_of_In, Hf.
  - exists v. split; [exact Hv|exact Hd].
Defined.

Lemma edition_fixes_bytes_witness :
  "markdown" ∈ package_names EditionDemo.package /\
  (let b := _bytes (artifact_get (package_artifacts EditionDemo.package) "markdown") in
   let b' := _bytes (artifact_get (package_artifacts EditionDemo.retitled) "markdown") in
   b = b' \/ (b <> b' /\ sha256_hex b = sha256_hex b')).
Proof.
  assert ("markdown" ∈ package_names EditionDemo.package) as Hn by (left).
  split; [exact Hn|].
  apply (edition_fixes_bytes EditionDemo.package EditionDemo.retitled EditionDemo.manifest None None).
  - vm_compute. reflexivity.
  - vm_compute. reflexivity.
  - exact Hn.
  - left.
Defined.

Lemma guard_fails_closed_witness :
  guard_report_package_accepted_edition (Ok tt) EditionDemo.edited = Ok EditionDemo.guarded /\
  ((dget (as_dict (dget EditionDemo.guarded "accepted_edition_validation")) "status" = JStr "valid" /\
    dget EditionDemo.guarded "accepted_edition" = dget EditionDemo.edited "accepted_edition" /\
    edition_guard_errors EditionDemo.edited (as_dict (dget EditionDemo.edited "accepted_edition")) None = Ok []) \/
   (dget (as_dict (dget EditionDemo.guarded "accepted_edition_validation")) "client_delivery_allowed" = JBool false /\
    (forall candidate, dget EditionDemo.guarded "accepted_edition" = JObj candidate ->
       dget candidate "accepted_edition" = JBool false /\ dget candidate "client_delivery_allowed" = JBool false /\
       dget candidate "delivery_status" = JStr "blocked") /\
    forall again, guard_report_package_accepted_edition (Ok tt) EditionDemo.guarded = Ok again ->
      dget (as_dict (dget again "accepted_edition_validation")) "status" <> JStr "valid")).
Proof.
  assert (guard_report_package_accepted_edition (Ok tt) EditionDemo.edited = Ok EditionDemo.guarded) as H
    by (vm_compute; reflexivity).
  split; [exact H|]. exact (guard_fails_closed EditionDemo.edited EditionDemo.guarded H).
Defined.
