(* ===== verification/HumanEvidence.v ===== *)
(** * Strategic human evidence (nico/strategic_human_evidence_v1.py)

    The ten modules of evidence only people can give are normalised into one
    package: each module gets a status from what is there and what is missing,
    a digest of its own, and the package a digest over all.  Values are JSON. *)

From S2P Require Import Prelude PyStr Sha256 PyFloat Json JsonFacts Orchestration AcceptedEdition.

(** [MODULES], from [MODULE_DEFINITIONS] of nico/decision_grade_human_evidence_v1.py. *)
Record module_definition := ModuleDefinition {
  module_id : string; label : string; description : string; required_fields : list string }.
Definition MODULES : list module_definition := [
  ModuleDefinition "functional_qa" "Functional QA"
    "Human-observed functional scenarios, expected behavior, actual behavior, environment, evidence, and disposition."
    ["test_cases"; "observed_results"];
  ModuleDefinition "platform_parity" "Browser, device, and platform parity"
    "Observed parity results by supported browser, device, operating system, application surface, and release."
    ["matrix"];
  ModuleDefinition "accessibility_ux" "Accessibility and UX review"
    "Human accessibility and workflow-friction observations that repository analysis cannot prove alone."
    ["observations"];
  ModuleDefinition "stakeholder_context" "Stakeholder objectives and constraints"
    "Named stakeholder goals, pain points, constraints, desired state, and decision priorities."
    ["objectives"; "constraints"];
  ModuleDefinition "incident_history" "Incident and support history"
    "Human-confirmed incidents, customer-impacting defects, support themes, and operational consequences."
    ["incidents"];
  ModuleDefinition "product_objectives" "Product objectives and release outcomes"
    "Target outcomes and success measures used to connect technical findings to product decisions."
    ["objectives"; "success_measures"];
  ModuleDefinition "release_constraints" "Release deadlines and delivery constraints"
    "Deadlines, contractual commitments, rollout constraints, rollback limits, and dependency dates."
    ["constraints"];
  ModuleDefinition "compliance_requirements" "Regulatory and contractual requirements"
    "Explicit obligations supplied by authorized stakeholders; this is readiness evidence, not certification."
    ["requirements"];
  ModuleDefinition "budget_staffing" "Budget, staffing, and capacity constraints"
    "Available roles, capacity, budget ranges, hiring constraints, and delivery ownership assumptions."
    ["constraints"];
  ModuleDefinition "accepted_risks" "Known decisions and accepted risks"
    "Named, time-bounded risk acceptances and architecture decisions with owner, rationale, and review date."
    ["decisions"]].

Definition human_evidence_version : string := "nico.strategic_human_evidence.v2".
Definition _REQUIRED_METADATA : list string := ["reviewer"; "observed_at"; "source_reference"].
Definition _EXACT_ENGAGEMENT_FIELD_LIMITS : list (string * Z) :=
  [("customer_name", 180); ("project_name", 180); ("primary_technical_contact", 600);
   ("access_method", 1200); ("authorized_scope", 4000)].
Definition exact_limit (key : string) : option Z :=
  snd <$> List.find (fun m => String.eqb (fst m) key) _EXACT_ENGAGEMENT_FIELD_LIMITS.

Definition str_len (s : string) : Z := Z.of_nat (String.length s).
(** [s[:n]] *)
Definition str_head (n : Z) (s : string) : string := str_take (Z.to_nat n) s.

(** At most 120 members and items of a container are kept; below five levels
    a container is its [str]. *)
Definition item_limit : nat := 120.

Fixpoint _safe (depth : Z) (v : json) : res json :=
  match v with
  | JNull | JBool _ | JInt _ | JFloat _ => Ok v
  | JStr s => if 4000 <? str_len s then fail ValueError "human_evidence_value_exceeds_4000_characters" else Ok v
  | JObj l =>
      if 5 <=? depth then Ok (JStr (str_head 4000 (py_str v)))
      else (fix go n l output := match n, l with
        | S n, (key, item) :: l =>
            y ← _safe (depth + 1) item; go n l (dset output (str_head 160 key) y)
        | _, _ => Ok (JObj output) end) item_limit l []
  | JArr l =>
      if 5 <=? depth then Ok (JStr (str_head 4000 (py_str v)))
      else JArr <$> (fix go n l := match n, l with
        | S n, item :: l => y ← _safe (depth + 1) item; ys ← go n l; Ok (y :: ys)
        | _, _ => Ok [] end) item_limit l
  end.

Definition engagement_too_long (limit : Z) : string :=
  "engagement_evidence_value_exceeds_" +:+ str_of_Z limit +:+ "_characters".
Fixpoint _exact_engagement_value (limit depth : Z) (v : json) : res json :=
  match v with
  | JNull | JBool _ | JInt _ | JFloat _ => Ok v
  | JStr s => if limit <? str_len s then fail ValueError (engagement_too_long limit) else Ok v
  | JObj l =>
      if 5 <=? depth then
        if limit <? str_len (py_str v) then fail ValueError (engagement_too_long limit) else Ok (JStr (py_str v))
      else (fix go n l output := match n, l with
        | S n, (key, item) :: l =>
            y ← _exact_engagement_value limit (depth + 1) item; go n l (dset output (str_head 160 key) y)
        | _, _ => Ok (JObj output) end) item_limit l []
  | JArr l =>
      if 5 <=? depth then
        if limit <? str_len (py_str v) then fail ValueError (engagement_too_long limit) else Ok (JStr (py_str v))
      else JArr <$> (fix go n l := match n, l with
        | S n, item :: l => y ← _exact_engagement_value limit (depth + 1) item; ys ← go n l; Ok (y :: ys)
        | _, _ => Ok [] end) item_limit l
  end.

Definition _canonical_hash (v : json) : string := sha256_hex (utf8_encode (dumps compact_unicode v)).

Definition known_module (id : string) : bool := existsb (fun m => String.eqb (module_id m) id) MODULES.

(** The raw module inputs, from a dict or a list of modules or the package itself. *)
Definition known_members (source : dict) : dict :=
  fold_left (fun out m => if known_module (fst m) then dset out (fst m) (JObj (as_dict (snd m))) else out) source [].
Definition _module_inputs (value : json) : dict :=
  let source := as_dict value in
  match dget source "modules" with
  | JObj modules => known_members modules
  | JArr modules =>
      fold_left (fun out item => match item with
        | JObj d => let id := dget_str d "module_id" in if known_module id then dset out id (JObj d) else out
        | _ => out end) modules []
  | _ => known_members source
  end.

Definition _present (v : json) : bool :=
  match v with JNull | JStr "" | JArr [] | JObj [] => false | _ => true end.

(** [" ".join(str(v or "").split())[:n]] *)
Definition token (n : Z) (v : json) : string := str_head n (join " " (split (py_str (jor v (JStr ""))))).

Definition has_key (d : dict) (k : string) : bool := bool_decide (k ∈ keys d).

(** The evidence of a module: what it carries, and the required fields that
    stand beside it. *)
Fixpoint lift_fields (source : dict) (fields : list string) (evidence : dict) : res dict :=
  match fields with
  | [] => Ok evidence
  | field :: fields =>
      if has_key source field && negb (has_key evidence field)
      then v ← _safe 0 (dget source field); lift_fields source fields (dset evidence field v)
      else lift_fields source fields evidence
  end.
Definition checked_member (m : string * json) : res (string * json) :=
  v ← match exact_limit (fst m) with
      | Some limit => _exact_engagement_value limit 0 (snd m)
      | None => _safe 0 (snd m)
      end;
  Ok (fst m, v).

Record module_parts := ModuleParts {
  mp_evidence : dict; mp_reviewer : string; mp_observed_at : string; mp_source_reference : string;
  mp_excluded : bool; mp_exclusion_rationale : string }.

Definition read_module (definition : module_definition) (raw : json) : res module_parts :=
  let source := as_dict raw in
  lifted ← lift_fields source (required_fields definition) (as_dict (dget source "evidence"));
  evidence ← mapR checked_member lifted;
  Ok {| mp_evidence := dict_of_pairs evidence;
        mp_reviewer := token 240 (dget source "reviewer");
        mp_observed_at := token 120 (jor (dget source "observed_at") (dget source "captured_at"));
        mp_source_reference := token 600 (jor (jor (dget source "source_reference")
          (dget source "attachment_reference")) (dget source "attachment_ref"));
        mp_excluded := is_true (dget source "excluded") ||
          bool_decide (casefold (dget_str source "status") ∈ ["excluded"; "out_of_scope"]);
        mp_exclusion_rationale := token 1200 (jor (dget source "exclusion_rationale") (dget source "reason")) |}.

Definition metadata (p : module_parts) : list (string * string) :=
  [("reviewer", mp_reviewer p); ("observed_at", mp_observed_at p); ("source_reference", mp_source_reference p)].
Definition present_fields (definition : module_definition) (p : module_parts) : list string :=
  List.filter (fun f => _present (dget (mp_evidence p) f)) (required_fields definition).
Definition missing_fields (definition : module_definition) (p : module_parts) : list string :=
  List.filter (fun f => bool_decide (f ∉ present_fields definition p)) (required_fields definition).
Definition present_metadata (p : module_parts) : list string :=
  map fst (List.filter (fun m => truthy (snd m)) (metadata p)).
Definition missing_metadata (p : module_parts) : list string :=
  List.filter (fun f => bool_decide (f ∉ present_metadata p)) _REQUIRED_METADATA.
Definition has_content (p : module_parts) : bool :=
  negb (bool_decide (mp_evidence p = [])) || negb (bool_decide (present_metadata p = [])) ||
  truthy (mp_exclusion_rationale p) || mp_excluded p.

(** Status, assurance and the metadata that is still missing. *)
Definition module_status (definition : module_definition) (p : module_parts) : string * string * list string :=
  if mp_excluded p && truthy (mp_exclusion_rationale p) then
    ("excluded", "EXCLUDED WITH RATIONALE", missing_metadata p)
  else if has_content p && bool_decide (missing_fields definition p = []) && bool_decide (missing_metadata p = []) then
    ("complete", "HUMAN EVIDENCE RETAINED " +:+ String (chr 183) " REVIEW REQUIRED", missing_metadata p)
  else if has_content p then
    ("partial", "REVIEW LIMITED",
     missing_metadata p ++ if mp_excluded p && negb (truthy (mp_exclusion_rationale p)) then ["exclusion_rationale"] else [])
  else ("not_assessed", "NOT ASSESSED", missing_metadata p).

Definition jstrs (l : list string) : json := JArr (map JStr l).

Definition module_document (definition : module_definition) (p : module_parts) : dict :=
  let '(status, assurance, missing) := module_status definition p in
  let module :=
    [("module_id", JStr (module_id definition)); ("label", JStr (label definition));
     ("description", JStr (description definition)); ("status", JStr status); ("assurance", JStr assurance);
     ("required_fields", jstrs (required_fields definition));
     ("present_fields", jstrs (present_fields definition p));
     ("missing_fields", jstrs (missing_fields definition p));
     ("required_metadata", jstrs _REQUIRED_METADATA); ("present_metadata", jstrs (present_metadata p));
     ("missing_metadata", jstrs (sorted (dict_fromkeys missing))); ("evidence", JObj (mp_evidence p));
     ("reviewer", JStr (mp_reviewer p)); ("observed_at", JStr (mp_observed_at p));
     ("source_reference", JStr (mp_source_reference p)); ("excluded", JBool (mp_excluded p));
     ("exclusion_rationale", JStr (mp_exclusion_rationale p)); ("human_observation_required", JBool true);
     ("repository_inference_allowed", JBool false); ("directly_scored", JBool false)] in
  module ++ [("module_sha256", JStr (_canonical_hash (JObj module)))].

Definition _normalize_module (definition : module_definition) (raw : json) : res dict :=
  p ← read_module definition raw; Ok (module_document definition p).

Definition value_records (v : json) : Z :=
  match v with
  | JArr l => Z.of_nat (length l)
  | JObj d => Z.of_nat (length d)
  | v => if _present v then 1 else 0
  end.
Definition _structured_record_count (modules : list dict) : Z :=
  foldr Z.add 0 (flat_map (fun m => map (fun e => value_records (snd e)) (as_dict (dget m "evidence"))) modules).

Definition with_status (s : string) (modules : list dict) : list dict :=
  List.filter (fun m => bool_decide (dget m "status" = JStr s)) modules.
Definition ids (modules : list dict) : list string := map (fun m => dget_str m "module_id") modules.

Definition package_document (modules : list dict) : dict :=
  let complete := with_status "complete" modules in
  let partial := with_status "partial" modules in
  let excluded := with_status "excluded" modules in
  let not_assessed := with_status "not_assessed" modules in
  let active := complete ++ partial ++ excluded in
  let count l := JInt (Z.of_nat (length l)) in
  let package :=
    [("artifact_schema", JStr human_evidence_version);
     ("status", JStr (if bool_decide (partial = []) && bool_decide (not_assessed = []) then "complete" else "review_limited"));
     ("module_count", count modules);
     ("status_counts", JObj [("complete", count complete); ("partial", count partial);
                             ("not_assessed", count not_assessed); ("excluded", count excluded)]);
     ("complete_modules", jstrs (ids complete)); ("partial_modules", jstrs (ids partial));
     ("not_assessed_modules", jstrs (ids not_assessed)); ("excluded_modules", jstrs (ids excluded));
     ("provided_module_ids", jstrs (ids active)); ("human_statement_count", JInt 0);
     ("attachment_reference_count",
      count (List.filter (fun m => py_truthy (dget m "source_reference")) active));
     ("structured_record_count", JInt (_structured_record_count modules));
     ("modules", JObj (map (fun m => (dget_str m "module_id", JObj m)) modules));
     ("repository_inference_allowed", JBool false); ("repository_inference_prohibited", JBool true);
     ("directly_scored", JBool false); ("human_review_required", JBool true);
     ("client_delivery_allowed", JBool false)] in
  package ++ [("human_evidence_sha256", JStr (_canonical_hash (JObj package)))].

Definition normalize_strategic_human_evidence (value : json) : res dict :=
  let inputs := _module_inputs value in
  modules ← mapR (fun d => _normalize_module d (dget inputs (module_id d))) MODULES;
  Ok (package_document modules).

(** [source.pop(k, "")] leaves the other members. *)
Definition dremove (k : string) (d : dict) : dict := List.filter (fun m => negb (String.eqb (fst m) k)) d.

Definition seal_holds (k : string) (d : dict) : bool :=
  let claimed := dget_str d k in truthy claimed && String.eqb claimed (_canonical_hash (JObj (dremove k d))).

Definition verify_module (m : string * json) : bool :=
  match snd m with
  | JObj raw => String.eqb (dget_str raw "module_id") (fst m) && seal_holds "module_sha256" raw
  | _ => false
  end.
Definition verify_strategic_human_evidence (value : json) : bool :=
  match value with
  | JObj source =>
      seal_holds "human_evidence_sha256" source &&
      match dget source "modules" with
      | JObj modules =>
          issubset (keys modules) (map module_id MODULES) && issubset (map module_id MODULES) (keys modules) &&
          forallb verify_module modules
      | _ => false
      end
  | _ => false
  end.

(** ** Lemmas *)

Lemma dget_app d e k : k ∈ keys d -> dget (d ++ e) k = dget d k.
Proof.
  unfold dget. induction d as [|[k' v] d IH]; simpl; [by intros ?%not_elem_of_nil|].
  intros [->|H]%elem_of_cons; [by rewrite String.eqb_refl|]. destruct (String.eqb k k'); [done|]. by apply IH.
Qed.

Lemma dget_last d k v : k ∉ keys d -> dget (d ++ [(k, v)]) k = v.
Proof.
  unfold dget. induction d as [|[k' w] d IH]; simpl; [by rewrite String.eqb_refl|].
  intros H. destruct (String.eqb_spec k k') as [->|]; [exfalso; apply H; left|]. apply IH. intros Hk. apply H. by right.
Qed.

Lemma dremove_last d k v : k ∉ keys d -> dremove k (d ++ [(k, v)]) = d.
Proof.
  unfold dremove. rewrite List.filter_app. simpl. rewrite String.eqb_refl. simpl. rewrite app_nil_r.
  induction d as [|[k' w] d IH]; simpl; [done|]. intros H.
  destruct (String.eqb_spec k' k) as [->|]; [exfalso; apply H; left|]. simpl. f_equal. apply IH. intros Hk. apply H. by right.
Qed.

(** A document that ends in its own digest holds its seal. *)
Lemma sealed_holds k d : k ∉ keys d -> seal_holds k (d ++ [(k, JStr (_canonical_hash (JObj d)))]) = true.
Proof.
  intros H. unfold seal_holds, dget_str. rewrite dget_last, dremove_last by done.
  assert (py_str (jor (JStr (_canonical_hash (JObj d))) (JStr "")) = _canonical_hash (JObj d)) as ->.
  { unfold jor. simpl. by destruct (_canonical_hash (JObj d)). }
  rewrite String.eqb_refl, andb_true_r. apply sha256_hex_truthy.
Qed.

Lemma dremove_wf k d : json_wf (JObj d) = true -> json_wf (JObj (dremove k d)) = true.
Proof.
  simpl. rewrite !andb_true_iff, !bool_decide_eq_true, !forallb_forall. intros [Hn Hw]. split.
  - unfold dremove. induction d as [|m d IH]; simpl in *; [done|]. apply NoDup_cons in Hn as [Hm Hn].
    destruct (negb _); [|apply IH; auto]. simpl. apply NoDup_cons. split; [|apply IH; auto].
    rewrite list_elem_of_fmap. intros (x & Hx & Hin). apply Hm. rewrite list_elem_of_fmap. exists x. split; [done|].
    apply list_elem_of_In. apply list_elem_of_In, filter_In in Hin. tauto.
  - intros m [Hm _]%filter_In. auto.
Qed.

(** Two sealed documents with one digest are one document, up to the order of
    their keys, or a collision. *)
Lemma seal_binds k a b :
  json_wf (JObj a) = true -> json_wf (JObj b) = true ->
  seal_holds k a = true -> seal_holds k b = true -> dget_str a k = dget_str b k ->
  sort_json (JObj (dremove k a)) = sort_json (JObj (dremove k b)) \/
  collision (utf8_encode (dumps compact_unicode (JObj (dremove k a))))
            (utf8_encode (dumps compact_unicode (JObj (dremove k b)))).
Proof.
  unfold seal_holds. intros Ha%(dremove_wf k) Hb%(dremove_wf k) [_ H1%String.eqb_eq]%andb_true_iff
    [_ H2%String.eqb_eq]%andb_true_iff H.
  rewrite H1, H2 in H. unfold _canonical_hash in H.
  destruct (decide (utf8_encode (dumps compact_unicode (JObj (dremove k a))) =
                    utf8_encode (dumps compact_unicode (JObj (dremove k b))))) as [He|]; [|by right].
  left. apply utf8_encode_inj in He. pose proof (loads_dumps _ _ sep_ok_compact_unicode Ha) as La.
  rewrite He, (loads_dumps _ _ sep_ok_compact_unicode Hb) in La.
  apply (inj Some) in La. exact (eq_sym La).
Qed.

Lemma module_id_head definition p : dget_str (module_document definition p) "module_id" = module_id definition.
Proof.
  unfold module_document. destruct (module_status definition p) as [[s a] m].
  apply dget_str_of. reflexivity.
Qed.

Lemma module_sealed definition p : seal_holds "module_sha256" (module_document definition p) = true.
Proof.
  unfold module_document. destruct (module_status definition p) as [[s a] m]. apply sealed_holds.
  rewrite <- (bool_decide_eq_false (_ ∈ _)). vm_compute. reflexivity.
Qed.

(** The documents of all modules, in the order of [MODULES]. *)
Definition documents (value : json) (ms : list dict) : Prop :=
  Forall2 (fun d m => exists p, read_module d (dget (_module_inputs value) (module_id d)) = Ok p /\
                                m = module_document d p) MODULES ms.

Lemma normalize_inv value package : normalize_strategic_human_evidence value = Ok package ->
  exists ms, documents value ms /\ package = package_document ms.
Proof.
  unfold normalize_strategic_human_evidence. intros H. apply bind_ok_inv in H as (ms & Hms & H).
  exists ms. split; [|by injection H as <-]. apply mapR_ok in Hms. unfold documents.
  eapply Forall2_impl; [exact Hms|]. intros d m Hm. unfold _normalize_module in Hm. simpl in Hm.
  apply bind_ok_inv in Hm as (p & Hp & [= <-]). eauto.
Qed.

Lemma documents_ids value ms : documents value ms -> map (fun m => dget_str m "module_id") ms = map module_id MODULES.
Proof.
  unfold documents. generalize MODULES. intros l H. induction H as [|d m l ms (p & _ & ->) _ IH]; simpl; [done|].
  by rewrite module_id_head, IH.
Qed.

Lemma documents_verify value ms : documents value ms ->
  forallb verify_module (map (fun m => (dget_str m "module_id", JObj m)) ms) = true.
Proof.
  unfold documents. generalize MODULES. intros l H. induction H as [|d m l ms (p & _ & ->) _ IH]; cbn [map forallb]; [done|].
  rewrite IH, andb_true_r. unfold verify_module. cbn [fst snd]. by rewrite String.eqb_refl, module_sealed.
Qed.

Lemma package_modules ms : dget (package_document ms) "modules" = JObj (map (fun m => (dget_str m "module_id", JObj m)) ms).
Proof. reflexivity. Qed.

Lemma package_sealed ms : seal_holds "human_evidence_sha256" (package_document ms) = true.
Proof.
  unfold package_document. apply sealed_holds. rewrite <- (bool_decide_eq_false (_ ∈ _)). vm_compute. reflexivity.
Qed.

(** A module is complete exactly when nothing is missing (and it is not
    excluded with a rationale). *)
Lemma missing_nil_iff {A} `{EqDecision A} (l k : list A) :
  List.filter (fun f => bool_decide (f ∉ k)) l = [] <-> forall f, f ∈ l -> f ∈ k.
Proof.
  induction l as [|x l IH]; simpl; [split; [set_solver|done]|]. case_bool_decide as Hx.
  - split; [done|]. intros H. destruct Hx. apply H. left.
  - rewrite IH. split; [intros H f [->|Hf]%elem_of_cons; auto|].
    intros H f Hf. apply H. by right.
Qed.

Lemma filter_elem {A} (p : A -> bool) l x : x ∈ List.filter p l <-> x ∈ l /\ p x = true.
Proof. by rewrite !list_elem_of_In, filter_In. Qed.

Definition module_is_complete (definition : module_definition) (p : module_parts) : Prop :=
  ~ (mp_excluded p = true /\ mp_exclusion_rationale p <> "") /\
  (forall f, f ∈ required_fields definition -> _present (dget (mp_evidence p) f) = true) /\
  mp_reviewer p <> "" /\ mp_observed_at p <> "" /\ mp_source_reference p <> "".

Lemma missing_fields_nil definition p : missing_fields definition p = [] <->
  forall f, f ∈ required_fields definition -> _present (dget (mp_evidence p) f) = true.
Proof.
  unfold missing_fields. rewrite missing_nil_iff. unfold present_fields. setoid_rewrite filter_elem. naive_solver.
Qed.

Lemma missing_metadata_nil p : missing_metadata p = [] <->
  mp_reviewer p <> "" /\ mp_observed_at p <> "" /\ mp_source_reference p <> "".
Proof.
  unfold missing_metadata. rewrite missing_nil_iff, <- !truthy_spec. unfold present_metadata, metadata.
  cbn [List.filter snd].
  destruct (truthy (mp_reviewer p)), (truthy (mp_observed_at p)), (truthy (mp_source_reference p)); cbn [map fst];
    (split; [intros H|intros (H1 & H2 & H3); done || (intros f; done)]);
    try (apply issubset_spec in H; vm_compute in H; discriminate H); done.
Qed.

Lemma complete_iff definition p :
  fst (fst (module_status definition p)) = "complete" <-> module_is_complete definition p.
Proof.
  unfold module_status, module_is_complete. rewrite <- missing_fields_nil, <- missing_metadata_nil, <- truthy_spec.
  assert (missing_metadata p = [] -> has_content p = true) as Hc.
  { intros H. apply missing_metadata_nil in H as [H%truthy_spec _]. unfold has_content, present_metadata, metadata.
    cbn [List.filter snd]. rewrite H. cbn. by destruct (bool_decide (mp_evidence p = [])). }
  destruct (mp_excluded p && truthy (mp_exclusion_rationale p)) eqn:He.
  - apply andb_true_iff in He as [He1 He2]. split; [discriminate|]. intros [H _]. by destruct H.
  - apply andb_false_iff in He.
    destruct (has_content p && bool_decide (missing_fields definition p = []) && bool_decide (missing_metadata p = [])) eqn:Hm.
    + rewrite !andb_true_iff, !bool_decide_eq_true in Hm. destruct Hm as [[_ Hf] Hm]. split; [|done].
      intros _. split_and!; [|done|done]. intros [H1 H2]. destruct He; congruence.
    + assert (fst (fst (if has_content p then ("partial", "REVIEW LIMITED",
        missing_metadata p ++ if mp_excluded p && negb (truthy (mp_exclusion_rationale p)) then ["exclusion_rationale"] else [])
        else ("not_assessed", "NOT ASSESSED", missing_metadata p))) <> "complete") as Hn by (destruct (has_content p); discriminate).
      split; [done|]. intros (_ & Hf & Hmm). rewrite Hf, Hmm, Hc in Hm by done. discriminate Hm.
Qed.

Lemma document_status definition p :
  dget (module_document definition p) "status" = JStr (fst (fst (module_status definition p))).
Proof. unfold module_document. by destruct (module_status definition p) as [[s a] m]. Qed.

Lemma package_verifies value ms : documents value ms ->
  verify_strategic_human_evidence (JObj (package_document ms)) = true.
Proof.
  intros Hms. unfold verify_strategic_human_evidence.
  rewrite package_sealed, package_modules, (documents_verify _ _ Hms).
  assert (keys (map (fun m => (dget_str m "module_id", JObj m)) ms) = map module_id MODULES) as ->.
  { rewrite <- (documents_ids _ _ Hms). unfold keys. by rewrite map_map. }
  vm_compute. reflexivity.
Qed.

Lemma normalized_verifies value package : normalize_strategic_human_evidence value = Ok package ->
  verify_strategic_human_evidence (JObj package) = true.
Proof. intros (ms & Hms & ->)%normalize_inv. by eapply package_verifies. Qed.

(** ** Properties *)

(** What is normalised verifies.  Whatever the input, a package that
    [normalize_strategic_human_evidence] returns passes
    [verify_strategic_human_evidence]; it holds one document for each of the ten
    modules, in order, whose status is [complete] exactly when it is not
    excluded with a rationale and no required field and no metadata is missing. *)
Theorem normalized_package_verifies value package :
  normalize_strategic_human_evidence value = Ok package ->
  verify_strategic_human_evidence (JObj package) = true /\
  exists ms, dget package "modules" = JObj (map (fun m => (dget_str m "module_id", JObj m)) ms) /\
    Forall2 (fun d m => dget_str m "module_id" = module_id d /\ exists p,
      read_module d (dget (_module_inputs value) (module_id d)) = Ok p /\
      (dget m "status" = JStr "complete" <-> module_is_complete d p)) MODULES ms.
Proof.
  intros (ms & Hms & ->)%normalize_inv. split.
  - by eapply package_verifies.
  - exists ms. split; [exact (package_modules ms)|]. eapply Forall2_impl; [exact Hms|]. cbv beta.
    intros d m (p & Hp & ->). split; [apply module_id_head|]. exists p. split; [exact Hp|].
    rewrite document_status, <- complete_iff. split; [by intros [= H]|by intros ->].
Qed.

(** Verified evidence cannot be exchanged.  Two packages that verify and
    carry the same digest have the same content, up to the order of keys, or
    SHA-256 collides. *)
Lemma evidence_digest_binds a b :
  json_wf (JObj a) = true -> json_wf (JObj b) = true ->
  verify_strategic_human_evidence (JObj a) = true -> verify_strategic_human_evidence (JObj b) = true ->
  dget_str a "human_evidence_sha256" = dget_str b "human_evidence_sha256" ->
  sort_json (JObj (dremove "human_evidence_sha256" a)) = sort_json (JObj (dremove "human_evidence_sha256" b)) \/
  collision (utf8_encode (dumps compact_unicode (JObj (dremove "human_evidence_sha256" a))))
            (utf8_encode (dumps compact_unicode (JObj (dremove "human_evidence_sha256" b)))).
Proof.
  intros Ha Hb [Sa _]%andb_true_iff [Sb _]%andb_true_iff H. by apply seal_binds.
Qed.

(** ** Witnesses *)

Module EvidenceDemo.
Definition intake : json := JObj [("modules", JArr [JObj
  [("module_id", JStr "platform_parity"); ("matrix", JArr [JStr "Firefox / Linux"]);
   ("reviewer", JStr " Ada  Lovelace "); ("observed_at", JStr "2026-07-01"); ("source_reference", JStr "qa-17")]])].
Definition package : dict :=
  match normalize_strategic_human_evidence intake with Ok p => p | Raise _ => [] end.
Example complete_modules : dget package "complete_modules" = JArr [JStr "platform_parity"].
Proof. vm_compute. reflexivity. Qed.
End EvidenceDemo.

Lemma normalized_package_verifies_witness :
  exists package, normalize_strategic_human_evidence EvidenceDemo.intake = Ok package /\
    verify_strategic_human_evidence (JObj package) = true.
Proof.
  assert (is_ok (normalize_strategic_human_evidence EvidenceDemo.intake) = true) as H by (vm_compute; reflexivity).
  destruct (normalize_strategic_human_evidence EvidenceDemo.intake) as [package|e] eqn:He; [|discriminate H].
  exists package. split; [reflexivity|]. exact (proj1 (normalized_package_verifies _ _ He)).
Defined.
