(* ===== verification/ReviewDecision.v ===== *)
(** * The review of a report (nico/comprehensive_review_decision_v1.py)

    Which report package a run record holds, the identity of the very bytes a
    reviewer sees, and the edition a decision makes of them, with the binding to
    the review ledger.  [reviewer_binding] is that of
    nico/comprehensive_client_delivery_contract_v1.py: who may decide.

    The ledger of a record ([ledger_for_record] of
    nico/comprehensive_review_work_v2.py, here [Phase2.ledger_for_record] of
    ReviewSampling) is an argument of the section. *)

From S2P Require Import Prelude PyStr Sha256 PyFloat Json JsonFacts BundleBoundary CanonicalHash Orchestration AcceptedEdition HumanEvidence.

(** [str(exc).split(":", 1)[0]] *)
Definition split_once (p : Ascii.ascii -> bool) (s : string) : string * option string :=
  let '(a, r) := span (fun c => negb (p c)) s in
  match r with String _ r => (a, Some r) | "" => (a, None) end.
Definition before_colon (s : string) : string := fst (split_once (fun c => Ascii.eqb c ":"%char) s).

(** ** Reviewers *)

Definition _AUTOMATION : list string :=
  ["automation"; "automated reviewer"; "bot"; "nico automation"; "system"; "system reviewer"].
Definition _AUTHORIZED_REVIEWER_ROLES : list string :=
  ["cybersecurity specialist"; "cybersecurity reviewer"; "security specialist"; "security reviewer"].
Definition review_basis : string := "protected_admin_write_and_explicit_review_authorization".
Definition delivery_basis : string := "protected_admin_write_and_explicit_delivery_authorization".
Definition _AUTHORIZED_REVIEWER_BASES : list string := [review_basis; delivery_basis].

(** [_require(condition, code)] *)
Definition _require (condition : bool) (code : string) : res unit := unless condition ClientDeliveryContractError code.

Definition human_reviewer_identity (reviewer reviewer_role : string) : res (string * string) :=
  let reviewer := strip reviewer in
  let role := strip reviewer_role in
  _ ← _require (truthy reviewer) "missing_reviewer_identity";
  _ ← _require (negb (bool_decide (casefold reviewer ∈ _AUTOMATION))) "automation_cannot_create_final_human_approval";
  _ ← _require (truthy role) "missing_reviewer_role";
  _ ← _require (negb (bool_decide (casefold role ∈ _AUTOMATION))) "automation_cannot_create_final_human_approval";
  Ok (reviewer, role).

Record reviewer_claim := ReviewerClaim {
  rc_reviewer : string; rc_role : string; rc_decision : string; rc_decided_at : string; rc_reason : string;
  rc_basis : string }.

Definition binding_payload (reviewer role basis decision decided_at reason : string) : dict :=
  [("reviewer_identity", JStr reviewer); ("reviewer_role", JStr role); ("authorization_basis", JStr basis);
   ("review_decision", JStr decision); ("review_timestamp", JStr decided_at);
   ("residual_risk_decision",
      JStr (if String.eqb decision "approved" then "accepted_with_recorded_reason" else "not_accepted"));
   ("reviewer_notes", JStr reason);
   ("reviewer_session_requirement", JStr "not_applicable_protected_admin_token_boundary");
   ("human_action_required", JBool true); ("automation_may_not_approve", JBool true)].

Definition reviewer_binding (c : reviewer_claim) : res dict :=
  '(reviewer, role) ← human_reviewer_identity (rc_reviewer c) (rc_role c);
  _ ← _require (bool_decide (casefold role ∈ _AUTHORIZED_REVIEWER_ROLES)) "reviewer_role_not_authorized";
  let decision := casefold (strip (rc_decision c)) in
  let basis := strip (rc_basis c) in
  _ ← _require (bool_decide (decision ∈ _ALLOWED_DECISIONS)) "invalid_review_decision";
  _ ← _require (truthy (strip (rc_decided_at c))) "missing_review_timestamp";
  _ ← _require (truthy (strip (rc_reason c))) "reviewer_notes_required";
  _ ← _require (truthy basis) "reviewer_authorization_basis_missing";
  _ ← _require (bool_decide (basis ∈ _AUTHORIZED_REVIEWER_BASES)) "reviewer_authorization_basis_invalid";
  let payload := binding_payload reviewer role basis decision (strip (rc_decided_at c)) (strip (rc_reason c)) in
  Ok (payload ++ [("approval_record_id", JStr ("approval_" +:+ str_take 24 (json_digest (JObj payload))))]).

(** ** What a record says about its report *)

Definition _REPORT_STAGE_IDS : list string :=
  ["final_comprehensive_report_generation"; "risk_reduction_and_executive_briefing"; "decision_report_generation"].

(** The report package of the latest stage that has one, else the record's. *)
Fixpoint stage_package (stages : dict) (ids : list string) : option dict :=
  match ids with
  | [] => None
  | id :: ids =>
      match dget stages id with
      | JObj stage =>
          match dget stage "report_package", dget stage "reports" with
          | JObj p, _ | _, JObj p => Some p
          | _, _ => stage_package stages ids
          end
      | _ => stage_package stages ids
      end
  end.
Definition report_package_from_record (record : dict) : dict :=
  let own := as_dict (dget record "reports") in
  match dget record "stage_results" with
  | JObj stages => default own (stage_package stages _REPORT_STAGE_IDS)
  | _ => own
  end.

Definition record_identity (record : dict) : dict := as_dict (dget record "identity").
(** [stages.get(id)] when both are mappings *)
Definition stage_of (record : dict) (id : string) : option dict :=
  match dget record "stage_results" with
  | JObj stages => match dget stages id with JObj stage => Some stage | _ => None end
  | _ => None
  end.

(** [isinstance(part, Mapping) and part.get("tree_sha")] *)
Definition tree_in (part : json) : option string :=
  match part with
  | JObj d => if py_truthy (dget d "tree_sha") then Some (strip (py_str (dget d "tree_sha"))) else None
  | _ => None
  end.
Definition _tree_sha (record : dict) : string :=
  match stage_of record "immutable_repository_snapshot" with
  | None => ""
  | Some stage =>
      match tree_in (dget stage "snapshot"), tree_in (dget stage "evidence") with
      | Some t, _ | None, Some t => t
      | None, None => text_of (dget stage "tree_sha")
      end
  end.

(** [str(d.get("scan_id") or d.get("scanner_run_id") or "").strip()] *)
Definition scan_in (d : dict) : string := text_of (jor (dget d "scan_id") (dget d "scanner_run_id")).
Fixpoint first_scan (record : dict) (ids : list string) : string :=
  match ids with
  | [] => ""
  | id :: ids =>
      match stage_of record id with
      | None => first_scan record ids
      | Some stage =>
          let direct := scan_in stage in
          let nested := scan_in (as_dict (dget stage "scanner")) in
          if truthy direct then direct else if truthy nested then nested else first_scan record ids
      end
  end.
Definition _scanner_run_id (record : dict) : string :=
  first_scan record ["deep_scanner_triage"; "dependency_security_static_analysis"].

Fixpoint first_text (candidates : list json) : string :=
  match candidates with
  | [] => ""
  | v :: candidates => if truthy (text_of v) then text_of v else first_text candidates
  end.
Definition _evidence_bundle_hash (record package : dict) : string :=
  first_text (
    [dget package "evidence_bundle_sha256"; dget package "canonical_truth_sha256"] ++
    match dget package "json" with
    | JObj canonical => [dget canonical "evidence_bundle_sha256"; dget canonical "canonical_truth_sha256"]
    | _ => []
    end ++
    match dget record "identity" with JObj identity => [dget identity "evidence_bundle_hash"] | _ => [] end).

(** ** The bytes under review *)

Definition review_artifact_identity (record : dict) : res dict :=
  let package := report_package_from_record record in
  revision ← py_int (jor (dget record "revision") (JInt 0));
  _ ← require_legacy_single_pdf [JObj package];
  Ok [("artifact_schema", JStr "nico.comprehensive_review_artifact_identity.v1");
      ("run_id", JStr (dget_str (record_identity record) "run_id"));
      ("revision", JInt revision);
      ("report_artifact_digest", JStr (current_report_artifact_digest package));
      ("artifact_digests", JObj (current_report_artifact_digests package))].

Definition assert_expected_review_artifact_identity (record : dict) (expected : json) : res dict :=
  current ← review_artifact_identity record;
  _ ← unless (is_mapping expected && py_eq expected (JObj current)) ValueError "stale_review_artifact_identity";
  Ok current.

(** ** The reviewed edition *)

Section Edition.
Context (ledger_for_record : dict -> res dict).

Definition _review_ledger_binding (record : dict) : list (string * string) :=
  let ledger := match ledger_for_record record with
                | Ok ledger => ledger
                | Raise _ => as_dict (dget record "review_work_ledger")
                end in
  if bool_decide (ledger = []) then []
  else [("review_work_ledger_sha256", json_digest (JObj ledger));
        ("review_work_source_sha256", text_of (dget ledger "review_source_sha256"))].

(** [d.pop(k, None)] and then [d[k] = hash(d)] *)
Definition reseal (k : string) (d : dict) : dict := sealed k (dremove k d).

(** [str(binding.get(k) or "").strip()] *)
Definition bound_text (binding : list (string * string)) (k : string) : string :=
  strip (default "" (snd <$> find (fun m => String.eqb (fst m) k) binding)).
(** The two members that name the ledger. *)
Definition bind_hashes (ledger_hash source_hash : string) (d : dict) : dict :=
  let d := dset d "review_work_ledger_sha256" (JStr ledger_hash) in
  if truthy source_hash then dset d "review_work_source_sha256" (JStr source_hash) else d.

Definition _bind_review_ledger_to_manifest (manifest : dict) (binding : list (string * string)) : dict :=
  let ledger_hash := bound_text binding "review_work_ledger_sha256" in
  let source_hash := bound_text binding "review_work_source_sha256" in
  if negb (truthy ledger_hash) then manifest
  else
    let output := bind_hashes ledger_hash source_hash manifest in
    let review := reseal "approval_certificate_sha256"
                    (bind_hashes ledger_hash source_hash (as_dict (dget output "review"))) in
    reseal "accepted_edition_manifest_sha256" (dset output "review" (JObj review)).

Record decision_request := DecisionRequest {
  dr_reviewer : string; dr_role : string; dr_decision : string; dr_reason : string; dr_decided_at : option string }.

Definition edition_request_of (record : dict) (q : decision_request) : edition_request :=
  let identity := record_identity record in
  let package := report_package_from_record record in {|
    rq_identity := {|
      id_repository := dget_str identity "repository"; id_commit_sha := dget_str identity "commit_sha";
      id_tree_sha := _tree_sha record; id_run_id := dget_str identity "run_id";
      id_scanner_run_id := _scanner_run_id record;
      id_evidence_bundle_hash := _evidence_bundle_hash record package;
      id_report_language := dget_str identity "report_language";
      id_assessment_depth := dget_str identity "assessment_depth" |};
    rq_artifacts := reviewed_artifacts package;
    rq_reviewer := dr_reviewer q; rq_reviewer_role := dr_role q; rq_decision := dr_decision q;
    rq_decision_reason := dr_reason q; rq_decided_at := dr_decided_at q |}.

(** The artifacts as the boundary sees them: the PDF bytes are no container. *)
Definition artifacts_view (package : dict) : json :=
  JObj [("markdown", dget package "markdown"); ("html", dget package "html"); ("pdf", JNull);
        ("json", dget package "json"); ("evidence_manifest", dget package "evidence_manifest_json")].

Definition build_reviewed_edition (now : string) (record : dict) (q : decision_request) : res dict :=
  _ ← require_legacy_single_pdf [JObj record];
  let package := report_package_from_record record in
  manifest ← build_accepted_report_edition (require_legacy_single_pdf [artifacts_view package]) now
               (edition_request_of record q);
  let review := candidate_review manifest in
  _ ← reviewer_binding {| rc_reviewer := dget_str review "reviewer"; rc_role := dget_str review "reviewer_role";
        rc_decision := dget_str review "decision"; rc_decided_at := dget_str review "decided_at";
        rc_reason := dget_str review "reason"; rc_basis := review_basis |};
  Ok (_bind_review_ledger_to_manifest manifest (_review_ledger_binding record)).

End Edition.

(** ** Lemmas: documents *)

Lemma dremove_dset k v d : dremove k (dset d k v) = dremove k d.
Proof.
  unfold dremove. induction d as [|[k' w] d IH]; simpl; [by rewrite String.eqb_refl|].
  destruct (String.eqb_spec k k') as [<-|H]; simpl.
  - by rewrite String.eqb_refl.
  - rewrite IH. done.
Qed.

Lemma dget_dremove_ne d k k' : k <> k' -> dget (dremove k d) k' = dget d k'.
Proof.
  intros H. unfold dget, dremove. f_equal. induction d as [|[k0 w] d IH]; simpl; [done|].
  destruct (String.eqb_spec k0 k) as [->|]; simpl; rewrite IH; [|done].
  by destruct (String.eqb_spec k' k) as [->|].
Qed.

Lemma dget_dremove_eq d k : dget (dremove k d) k = JNull.
Proof.
  unfold dget. replace (dlookup k (dremove k d)) with (@None json); [done|]. symmetry. apply dlookup_None.
  unfold keys, dremove. rewrite list_elem_of_fmap. intros (m & -> & Hm). apply filter_elem in Hm as [_ Hm].
  by rewrite String.eqb_refl in Hm.
Qed.

(** A JSON value without floats and duplicate keys equals itself. *)
Fixpoint plain (v : json) : bool :=
  match v with
  | JFloat _ => false
  | JArr l => forallb plain l
  | JObj l => bool_decide (NoDup (keys l)) && forallb (fun m => plain (snd m)) l
  | _ => true
  end.

Lemma plain_obj l : NoDup (keys l) -> List.Forall (fun m => plain (snd m) = true) l -> plain (JObj l) = true.
Proof. intros Hn Hl. cbn [plain]. rewrite bool_decide_eq_true_2 by exact Hn. by apply forallb_Forall. Qed.

Lemma py_eq_refl v : plain v = true -> py_eq v v = true.
Proof.
  induction v as [|b|z|f|s|l IH|l IH] using json_ind'; intros Hv; try discriminate; try done.
  - cbn. by rewrite Z.eqb_refl.
  - cbn. by rewrite Z.eqb_refl.
  - cbn. apply String.eqb_refl.
  - cbn [plain] in Hv. cbn [py_eq]. induction IH as [|x l Hx _ IHl]; [done|]. simpl in Hv.
    apply andb_true_iff in Hv as [Hv1 Hv2]. by rewrite Hx, IHl.
  - cbn [plain] in Hv. apply andb_true_iff in Hv as [Hn%bool_decide_eq_true Hv]. cbn [py_eq].
    rewrite Nat.eqb_refl. cbn [andb]. rewrite forallb_forall in Hv. apply forallb_forall. intros [k v] Hin. simpl.
    rewrite (proj2 (dlookup_elem k v l Hn)) by (by apply list_elem_of_In).
    rewrite Forall_forall in IH. apply (IH (k, v)); [by apply list_elem_of_In|]. exact (Hv (k, v) Hin).
Qed.

Lemma digests_plain names d : NoDup names -> plain (JObj (digests_of names d)) = true.
Proof.
  intros Hn. cbn [plain]. rewrite bool_decide_eq_true_2 by (by apply NoDup_digests). apply forallb_forall.
  intros [n e] Hin%list_elem_of_In. apply in_digests in Hin as (_ & _ & ->). reflexivity.
Qed.

Lemma built_plain now q m : build_accepted_report_edition (Ok tt) now q = Ok m -> plain (JObj m) = true.
Proof.
  intros [= <-].
  assert (plain (JObj (edition_digests q)) = true) as Hd.
  { unfold edition_digests, digests_of. rewrite <- flat_map_app. apply (digests_plain (_REQUIRED_ARTIFACTS ++ ["evidence_manifest"])).
    unwritten. }
  assert (forall l, forallb plain (map JStr l) = true) as Hl by (intros l; by induction l).
  unfold sealed, review_certificate, identity_fields, request_identity, identity_values. cbn [map combine app].
  apply plain_obj; [unwritten|].
  repeat (apply List.Forall_cons; [first [exact Hd | exact (Hl _) | apply plain_obj; [unwritten|] | reflexivity]|]); constructor.
Qed.

(** ** Lemmas: reviewers *)

(** Who may decide: a named human in an authorized role, with a decision, a
    time, a reason and an accepted basis. *)
Definition may_decide (c : reviewer_claim) : Prop :=
  truthy (strip (rc_reviewer c)) = true /\ casefold (strip (rc_reviewer c)) ∉ _AUTOMATION /\
  casefold (strip (rc_role c)) ∈ _AUTHORIZED_REVIEWER_ROLES /\
  casefold (strip (rc_decision c)) ∈ _ALLOWED_DECISIONS /\
  truthy (strip (rc_decided_at c)) = true /\ truthy (strip (rc_reason c)) = true /\
  strip (rc_basis c) ∈ _AUTHORIZED_REVIEWER_BASES.

Lemma absurd_mem (x : string) (l : list string) : x ∈ l -> bool_decide (x ∈ l) = false -> False.
Proof. intros H. by rewrite bool_decide_eq_true_2. Qed.

Lemma authorized_role role : casefold role ∈ _AUTHORIZED_REVIEWER_ROLES -> truthy role = true /\ casefold role ∉ _AUTOMATION.
Proof.
  intros H. split.
  - destruct role; [|reflexivity]. apply absurd_mem in H; [done|reflexivity].
  - assert (Forall (fun r => r ∉ _AUTOMATION) _AUTHORIZED_REVIEWER_ROLES) as Ha
      by (apply (bool_decide_unpack _); vm_compute; exact I).
    rewrite Forall_forall in Ha. by apply Ha.
Qed.

(** What a binding answers. *)
Definition bound (c : reviewer_claim) (r : res dict) : Prop :=
  match r with
  | Ok p => may_decide c /\ dget p "reviewer_identity" = JStr (strip (rc_reviewer c)) /\
            dget p "reviewer_role" = JStr (strip (rc_role c)) /\
            dget p "reviewer_notes" = JStr (strip (rc_reason c)) /\
            dget p "review_timestamp" = JStr (strip (rc_decided_at c)) /\
            dget p "review_decision" = JStr (casefold (strip (rc_decision c)))
  | Raise e => exn_class e = ClientDeliveryContractError /\ ~ may_decide c
  end.

Lemma binding_spec c : bound c (reviewer_binding c).
Proof.
  unfold reviewer_binding, human_reviewer_identity, _require, unless, fail.
  destruct (truthy (strip (rc_reviewer c))) eqn:H1; simpl; [|split; [done|]; by intros [? _]; congruence].
  destruct (bool_decide (casefold (strip (rc_reviewer c)) ∈ _AUTOMATION)) eqn:H2; simpl;
    rewrite ?bool_decide_eq_true, ?bool_decide_eq_false in H2; [by split; [|intros (_ & ? & _)]|].
  destruct (truthy (strip (rc_role c))) eqn:H3; simpl.
  2:{ split; [done|]. intros (_ & _ & [Ht _]%authorized_role & _). congruence. }
  destruct (bool_decide (casefold (strip (rc_role c)) ∈ _AUTOMATION)) eqn:H4; simpl;
    rewrite ?bool_decide_eq_true, ?bool_decide_eq_false in H4;
    [by split; [|intros (_ & _ & [_ Hn]%authorized_role & _)]|].
  destruct (bool_decide (casefold (strip (rc_role c)) ∈ _AUTHORIZED_REVIEWER_ROLES)) eqn:H5; simpl;
    rewrite ?bool_decide_eq_true, ?bool_decide_eq_false in H5; [|by split; [|intros (_ & _ & ? & _)]].
  destruct (bool_decide (casefold (strip (rc_decision c)) ∈ _ALLOWED_DECISIONS)) eqn:H6; simpl;
    rewrite ?bool_decide_eq_true, ?bool_decide_eq_false in H6; [|by split; [|intros (_ & _ & _ & ? & _)]].
  destruct (truthy (strip (rc_decided_at c))) eqn:H7; simpl; [|by split; [|intros (_ & _ & _ & _ & ? & _); congruence]].
  destruct (truthy (strip (rc_reason c))) eqn:H8; simpl; [|by split; [|intros (_ & _ & _ & _ & _ & ? & _); congruence]].
  destruct (truthy (strip (rc_basis c))) eqn:H9; simpl.
  2:{ split; [done|]. intros (_ & _ & _ & _ & _ & _ & H). apply truthy_false in H9. rewrite H9 in H.
      apply absurd_mem in H; [done|reflexivity]. }
  destruct (bool_decide (strip (rc_basis c) ∈ _AUTHORIZED_REVIEWER_BASES)) eqn:H10; simpl;
    rewrite ?bool_decide_eq_true, ?bool_decide_eq_false in H10; [|by split; [|intros (_ & _ & _ & _ & _ & _ & ?)]].
  unfold may_decide. by split_and!.
Qed.

Lemma may_decide_strip c : may_decide c <->
  may_decide {| rc_reviewer := strip (rc_reviewer c); rc_role := strip (rc_role c); rc_decision := rc_decision c;
                rc_decided_at := strip (rc_decided_at c); rc_reason := strip (rc_reason c); rc_basis := rc_basis c |}.
Proof. unfold may_decide. simpl. by rewrite !strip_idemp. Qed.

(** ** Lemmas: the binding to the ledger *)

Lemma keys_dset d k v : keys (dset d k v) = if bool_decide (k ∈ keys d) then keys d else keys d ++ [k].
Proof.
  induction d as [|[k' w] d IH]; [reflexivity|]. cbn [dset].
  change (keys ((k', w) :: d)) with (k' :: keys d). destruct (String.eqb_spec k k') as [<-|Hne].
  - rewrite bool_decide_eq_true_2 by (by left). reflexivity.
  - change (keys ((k', w) :: dset d k v)) with (k' :: keys (dset d k v)). rewrite IH.
    destruct (decide (k ∈ keys d)) as [H|H].
    + rewrite !bool_decide_eq_true_2; [done|by right|done].
    + rewrite !bool_decide_eq_false_2; [done|set_solver|done].
Qed.

Lemma forallb_dset (p : string * json -> bool) d k v :
  forallb p d = true -> p (k, v) = true -> forallb p (dset d k v) = true.
Proof.
  intros Hd Hv. induction d as [|[k' w] d IH]; simpl in *; [by rewrite Hv|].
  apply andb_true_iff in Hd as [H1 H2]. destruct (String.eqb_spec k k') as [<-|]; simpl; [by rewrite Hv, H2|].
  by rewrite H1, IH.
Qed.

Lemma plain_dset d k v : plain (JObj d) = true -> plain v = true -> plain (JObj (dset d k v)) = true.
Proof.
  cbn [plain]. rewrite !andb_true_iff, !bool_decide_eq_true. intros [Hn Hd] Hv. split; [|by apply forallb_dset].
  rewrite keys_dset. case_bool_decide; [done|]. apply NoDup_app. split_and!; [done|set_solver|apply NoDup_singleton].
Qed.

Lemma not_key_dremove k d : k ∉ keys (dremove k d).
Proof.
  unfold keys, dremove. rewrite list_elem_of_fmap. intros (m & -> & Hm). apply filter_elem in Hm as [_ Hm].
  by rewrite String.eqb_refl in Hm.
Qed.

Lemma plain_reseal k d : plain (JObj d) = true -> plain (JObj (reseal k d)) = true.
Proof.
  cbn [plain]. rewrite !andb_true_iff, !bool_decide_eq_true, !forallb_forall. intros [Hn Hd]. unfold reseal, sealed. split.
  - unfold keys. rewrite map_app. apply NoDup_app. split_and!; [|intros x Hx Hk; simpl in Hk; apply list_elem_of_singleton in Hk as ->; by apply (not_key_dremove k d)|apply NoDup_singleton].
    + clear Hd. unfold dremove. induction d as [|m d IH]; [constructor|]. apply NoDup_cons in Hn as [Hm Hn]. simpl.
      destruct (negb _); [|by apply IH]. simpl. apply NoDup_cons. split; [|by apply IH].
      intros (x & Hx & [Hin _]%filter_elem)%list_elem_of_fmap. apply Hm. apply list_elem_of_fmap. eauto.
  - intros m [[Hm _]%filter_In|[<-|[]]]%in_app_or; [by apply Hd|done].
Qed.

Lemma seal_reseal k d : seal_holds k (reseal k d) = true.
Proof. apply sealed_holds, not_key_dremove. Qed.

Lemma dget_reseal k d k' : k' <> k -> dget (reseal k d) k' = dget d k'.
Proof.
  intros H. unfold reseal, sealed. destruct (decide (k' ∈ keys (dremove k d))) as [Hin|Hin].
  - rewrite dget_app by exact Hin. by apply dget_dremove_ne.
  - rewrite <- (dget_dremove_ne d k k') by done. unfold dget. f_equal. transitivity (@None json); [|symmetry; by apply dlookup_None].
    apply dlookup_None. unfold keys. rewrite map_app, elem_of_app. intros [?|?%list_elem_of_singleton]; done.
Qed.

(** The members a binding writes in the manifest and in its certificate. *)
Definition manifest_bound : list string :=
  ["review"; "review_work_ledger_sha256"; "review_work_source_sha256"; "accepted_edition_manifest_sha256"].
Definition review_bound : list string :=
  ["review_work_ledger_sha256"; "review_work_source_sha256"; "approval_certificate_sha256"].

(** [rebinds m m']: [m'] is [m] with a sealed binding. *)
Record rebinds (m m' : dict) : Prop := Rebinds {
  rb_frame : forall k, k ∉ manifest_bound -> dget m' k = dget m k;
  rb_review : forall k, k ∉ review_bound -> dget (candidate_review m') k = dget (candidate_review m) k;
  rb_manifest_seal : seal_holds "accepted_edition_manifest_sha256" m' = true;
  rb_review_seal : seal_holds "approval_certificate_sha256" (candidate_review m') = true;
  rb_plain : plain (JObj m') = true;
  rb_keys : forall k, k ∈ keys m' -> k ∈ keys m \/ k ∈ manifest_bound }.

Ltac bound_key H := unfold manifest_bound, review_bound in H; rewrite !not_elem_of_cons in H; destruct_and!.

Lemma dget_bind_hashes lh sh d k : k ∉ ["review_work_ledger_sha256"; "review_work_source_sha256"] ->
  dget (bind_hashes lh sh d) k = dget d k.
Proof.
  intros Hk. rewrite !not_elem_of_cons in Hk. destruct_and!. unfold bind_hashes. destruct (truthy sh); by rewrite !dget_dset_ne.
Qed.

Lemma plain_bind_hashes lh sh d : plain (JObj d) = true -> plain (JObj (bind_hashes lh sh d)) = true.
Proof. intros Hd. unfold bind_hashes. destruct (truthy sh); repeat (apply plain_dset; [|done]); done. Qed.

Lemma dset_keys d k v k' : k' ∈ keys (dset d k v) -> k' = k \/ k' ∈ keys d.
Proof. rewrite keys_dset. case_bool_decide; [by right|]. rewrite elem_of_app, list_elem_of_singleton. tauto. Qed.

Lemma dremove_keys d k k' : k' ∈ keys (dremove k d) -> k' ∈ keys d.
Proof. intros (x & -> & [Hin _]%filter_elem)%list_elem_of_fmap. apply list_elem_of_fmap. eauto. Qed.

Lemma bind_hashes_keys lh sh d k : k ∈ keys (bind_hashes lh sh d) ->
  k ∈ ["review_work_ledger_sha256"; "review_work_source_sha256"; "accepted_edition_manifest_sha256"] \/ k ∈ keys d.
Proof.
  unfold bind_hashes. destruct (truthy sh); intros H.
  - apply dset_keys in H as [->|H]; [left; unwritten|]. apply dset_keys in H as [->|H]; [left; unwritten|by right].
  - apply dset_keys in H as [->|H]; [left; unwritten|by right].
Qed.

Lemma bind_rebinds m binding : plain (JObj m) = true -> plain (JObj (candidate_review m)) = true ->
  seal_holds "accepted_edition_manifest_sha256" m = true ->
  seal_holds "approval_certificate_sha256" (candidate_review m) = true ->
  rebinds m (_bind_review_ledger_to_manifest m binding).
Proof.
  intros Hp Hr Hm Hc. unfold _bind_review_ledger_to_manifest.
  set (lh := bound_text binding "review_work_ledger_sha256").
  set (sh := bound_text binding "review_work_source_sha256").
  destruct (negb (truthy lh)); [constructor; auto|].
  change (as_dict (dget (bind_hashes lh sh m) "review")) with (candidate_review (bind_hashes lh sh m)).
  assert (candidate_review (bind_hashes lh sh m) = candidate_review m) as ->
    by (unfold candidate_review; by rewrite dget_bind_hashes by unwritten).
  set (review := reseal "approval_certificate_sha256" (bind_hashes lh sh (candidate_review m))).
  set (m' := reseal "accepted_edition_manifest_sha256" _).
  assert (dget m' "review" = JObj review) as Hrev.
  { unfold m'. rewrite dget_reseal by discriminate. apply dget_dset_eq. }
  constructor.
  - intros k Hk. bound_key Hk. unfold m'. rewrite dget_reseal by done. rewrite dget_dset_ne by done. apply dget_bind_hashes. set_solver.
  - intros k Hk. unfold candidate_review at 1. rewrite Hrev. cbn [as_dict]. bound_key Hk. unfold review.
    rewrite dget_reseal by done. apply dget_bind_hashes. set_solver.
  - apply seal_reseal.
  - unfold candidate_review at 1. rewrite Hrev. apply seal_reseal.
  - apply plain_reseal. apply plain_dset; [by apply plain_bind_hashes|]. by apply plain_reseal, plain_bind_hashes.
  - intros k Hk. unfold m', reseal, sealed in Hk. unfold keys in Hk. rewrite map_app, elem_of_app in Hk.
    destruct Hk as [Hk|Hk]; [|apply list_elem_of_singleton in Hk as ->; right; unwritten].
    apply dremove_keys, dset_keys in Hk as [->|Hk]; [right; unwritten|].
    apply bind_hashes_keys in Hk as [Hk|Hk]; [right; by right|by left].
Qed.

(** The guard does not look at the binding. *)
Lemma guard_frame package m m' trusted : rebinds m m' ->
  edition_guard_errors package m' trusted = edition_guard_errors package m trusted.
Proof.
  intros H. unfold edition_guard_errors, field_errors.
  assert (forall k, k ∉ manifest_bound -> dget m' k = dget m k) as Hm by apply (rb_frame _ _ H).
  assert (forall k, k ∉ manifest_bound -> dget_str m' k = dget_str m k) as Hms by (intros k Hk; unfold dget_str; by rewrite Hm).
  assert (forall k, k ∉ review_bound -> dget_str (candidate_review m') k = dget_str (candidate_review m) k) as Hrs
    by (intros k Hk; unfold dget_str; by rewrite (rb_review _ _ H)).
  assert (forall l (f g : string -> list string), (forall k, k ∈ l -> f k = g k) -> flat_map f l = flat_map g l) as Hext.
  { intros l f g Hl. induction l as [|k l IH]; [done|]. simpl. rewrite Hl, IH; [done|set_solver|set_solver]. }
  assert (forall k, k ∈ bound_fields -> k ∉ manifest_bound) as Hb.
  { assert (Forall (fun k => k ∉ manifest_bound) bound_fields) as Ha by unwritten. by rewrite Forall_forall in Ha. }
  rewrite !Hm by unwritten. rewrite !Hms by unwritten. rewrite !Hrs by unwritten.
  rewrite !(rb_review _ _ H) by unwritten.
  destruct (iter_or_empty (dget m "validation_errors")) as [recorded|e]; [|done]. cbn [mbind res_bind].
  rewrite (Hext bound_fields
    (fun f => if negb (truthy (expected_field package trusted f)) then ["current_report_identity_missing:" +:+ f]
              else when (negb (String.eqb (text_of (dget m' f)) (expected_field package trusted f)))
                     ("accepted_edition_identity_mismatch:" +:+ f))
    (fun f => if negb (truthy (expected_field package trusted f)) then ["current_report_identity_missing:" +:+ f]
              else when (negb (String.eqb (text_of (dget m f)) (expected_field package trusted f)))
                     ("accepted_edition_identity_mismatch:" +:+ f))) by (intros k Hk; by rewrite Hm by auto).
  rewrite (Hext ["tree_sha"; "scanner_run_id"; "evidence_bundle_hash"]
    (fun f => when (negb (truthy (text_of (dget m' f)))) ("accepted_edition_identity_missing:" +:+ f))
    (fun f => when (negb (truthy (text_of (dget m f)))) ("accepted_edition_identity_missing:" +:+ f))).
  2:{ intros k Hk. rewrite Hm; [done|]. revert k Hk. apply Forall_forall. unwritten. }
  reflexivity.
Qed.

Lemma built_sealed now q m : build_accepted_report_edition (Ok tt) now q = Ok m ->
  seal_holds "accepted_edition_manifest_sha256" m = true /\
  seal_holds "approval_certificate_sha256" (candidate_review m) = true /\ plain (JObj (candidate_review m)) = true.
Proof.
  intros Hb. destruct (built_fields _ _ _ Hb) as (_ & _ & _ & _ & _ & _ & _ & Hr & _). unfold candidate_review. rewrite Hr.
  cbn [as_dict]. split_and!.
  - injection Hb as <-. apply sealed_holds. unwritten.
  - apply sealed_holds. unwritten.
  - unfold review_certificate, sealed. cbn [app]. apply plain_obj; [unwritten|]. repeat constructor.
Qed.

Lemma built_checked check now q m :
  build_accepted_report_edition check now q = Ok m -> build_accepted_report_edition (Ok tt) now q = Ok m.
Proof. destruct check as [[]|e]; [exact id|discriminate]. Qed.

(** The reviewer a manifest names, as [build_reviewed_edition] checks it. *)
Definition claim_in (m : dict) : reviewer_claim :=
  let review := candidate_review m in
  {| rc_reviewer := dget_str review "reviewer"; rc_role := dget_str review "reviewer_role";
     rc_decision := dget_str review "decision"; rc_decided_at := dget_str review "decided_at";
     rc_reason := dget_str review "reason"; rc_basis := review_basis |}.

Lemma reviewed_inv ledger now record q m' : build_reviewed_edition ledger now record q = Ok m' ->
  require_legacy_single_pdf [JObj record] = Ok tt /\
  exists m, build_accepted_report_edition (Ok tt) now (edition_request_of record q) = Ok m /\
    may_decide (claim_in m) /\ rebinds m m' /\
    m' = _bind_review_ledger_to_manifest m (_review_ledger_binding ledger record).
Proof.
  unfold build_reviewed_edition. intros H. apply bind_ok_inv in H as ([] & Hl & H). split; [exact Hl|].
  apply bind_ok_inv in H as (m & Hm & H). apply bind_ok_inv in H as (p & Hp & H). apply Ok_inj in H as <-.
  pose proof (built_checked _ _ _ _ Hm) as Hb. exists m. split; [exact Hb|]. fold (claim_in m) in Hp. pose proof (binding_spec (claim_in m)) as Hs.
  rewrite Hp in Hs. split; [apply Hs|]. split; [|reflexivity].
  destruct (built_sealed _ _ _ Hb) as (H1 & H2 & H3). exact (bind_rebinds m _ (built_plain _ _ _ Hb) H3 H1 H2).
Qed.

Lemma bound_text_ledger ledger record l : ledger record = Ok l -> l <> [] ->
  bound_text (_review_ledger_binding ledger record) "review_work_ledger_sha256" = json_digest (JObj l).
Proof.
  intros Hl Hn. unfold _review_ledger_binding. rewrite Hl, bool_decide_eq_false_2 by exact Hn.
  unfold bound_text. cbn [find fst snd String.eqb Ascii.eqb Bool.eqb fmap option_fmap option_map default].
  apply strip_no_space, sha256_hex_no_space.
Qed.

(** What the binding adds when there is a ledger. *)
Lemma bind_ledger m binding h : bound_text binding "review_work_ledger_sha256" = h -> truthy h = true ->
  let m' := _bind_review_ledger_to_manifest m binding in
  dget m' "review_work_ledger_sha256" = JStr h /\ dget (candidate_review m') "review_work_ledger_sha256" = JStr h.
Proof.
  intros Hh Ht. unfold _bind_review_ledger_to_manifest. rewrite Hh, Ht. cbn [negb].
  set (sh := bound_text binding "review_work_source_sha256").
  assert (forall d, dget (bind_hashes h sh d) "review_work_ledger_sha256" = JStr h) as Hb.
  { intros d. unfold bind_hashes. destruct (truthy sh); [rewrite dget_dset_ne by discriminate|]; apply dget_dset_eq. }
  split.
  - rewrite dget_reseal by discriminate. rewrite dget_dset_ne by discriminate. apply Hb.
  - unfold candidate_review. rewrite dget_reseal by discriminate. rewrite dget_dset_eq. cbn [as_dict].
    rewrite dget_reseal by discriminate. apply Hb.
Qed.

Lemma claim_rebinds m m' : rebinds m m' -> claim_in m' = claim_in m.
Proof. intros H. unfold claim_in, dget_str. by rewrite !(rb_review _ _ H) by unwritten. Qed.

Lemma package_frame r u : dget u "stage_results" = dget r "stage_results" -> dget u "reports" = dget r "reports" ->
  report_package_from_record u = report_package_from_record r.
Proof. intros H1 H2. unfold report_package_from_record. by rewrite H1, H2. Qed.

(** ** Lemmas: the boundary *)

Lemma package_within record package : report_package_from_record record = package -> package <> [] ->
  within_reports (JObj record) package.
Proof.
  unfold report_package_from_record. intros H Hp.
  assert (as_dict (dget record "reports") = package -> within_reports (JObj record) package) as Hown.
  { intros Ho. destruct (dget record "reports") as [| | | | | |d] eqn:Hd; cbn in Ho; try congruence. subst d.
    eapply within_slot; [|constructor]. apply (slot_container _ _ "reports"); [unwritten|].
    unfold container_child. by rewrite Hd. }
  destruct (dget record "stage_results") as [| | | | | |stages] eqn:Hs; try (by apply Hown).
  assert (forall ids, (forall id, id ∈ ids -> id ∈ _REPORT_STAGES) ->
    match stage_package stages ids with Some p => within_reports (JObj record) p | None => True end) as Hst.
  { induction ids as [|id ids IH]; intros Hids; [done|]. cbn [stage_package].
    assert (match stage_package stages ids with Some p => within_reports (JObj record) p | None => True end) as IH'
      by (apply IH; intros id' Hid'; apply Hids; by right).
    destruct (dget stages id) as [| | | | | |stage] eqn:Hid; try exact IH'.
    assert (forall key p, key ∈ _CONTAINERS -> dget stage key = JObj p -> within_reports (JObj record) p) as Hin.
    { intros key p Hk Hd. apply (within_slot _ (JObj stage)).
      - apply slot_stage. unfold stage_children. rewrite Hs, <- Hid. apply list_elem_of_fmap. exists id. split; [done|].
        apply Hids. by left.
      - eapply within_slot; [|constructor]. apply (slot_container _ _ key Hk). unfold container_child. by rewrite Hd. }
    assert ("report_package" ∈ _CONTAINERS /\ "reports" ∈ _CONTAINERS) as [Hk1 Hk2] by (split; unwritten).
    destruct (dget stage "report_package") eqn:E1; destruct (dget stage "reports") eqn:E2; try exact IH';
      first [exact (Hin _ _ Hk1 E1) | exact (Hin _ _ Hk2 E2)]. }
  specialize (Hst _REPORT_STAGE_IDS (fun id H => H)). destruct (stage_package stages _REPORT_STAGE_IDS); cbn in H; [by subst|by apply Hown].
Qed.

(** A record that passes the boundary has a package that does. *)
Lemma package_boundary record : require_legacy_single_pdf [JObj record] = Ok tt ->
  require_legacy_single_pdf [JObj (report_package_from_record record)] = Ok tt.
Proof.
  intros H. destruct (report_package_from_record record) eqn:E; [reflexivity|].
  eapply require_within; [exact H|]. by apply package_within.
Qed.

(** So does every edition that is built. *)
Lemma built_leaf now q m : build_accepted_report_edition (Ok tt) now q = Ok m -> leaf m /\ forall k, k ∈ markers -> k ∉ keys m.
Proof.
  intros Hb. assert (forall k, k ∈ markers -> k ∉ keys m) as Hk by (injection Hb as <-; apply Forall_forall; unwritten).
  split; [|exact Hk]. constructor; [exact Hk| |].
  - assert (Forall (fun k => k ∈ keys m -> k = "accepted_edition") pushed) as Hp by (injection Hb as <-; unwritten).
    intros k Hin. rewrite Forall_forall in Hp. specialize (Hp k Hin).
    destruct (decide (k ∈ keys m)) as [Hkm|Hkm]; [|by rewrite dget_absent].
    rewrite (Hp Hkm). by destruct (built_fields _ _ _ Hb) as (_ & -> & _).
  - unfold bundle_schema. by destruct (built_fields _ _ _ Hb) as (-> & _).
Qed.

Lemma edition_boundary now q m m' : build_accepted_report_edition (Ok tt) now q = Ok m -> rebinds m m' ->
  require_legacy_single_pdf [JObj m'] = Ok tt.
Proof.
  intros Hb R. destruct (built_leaf _ _ _ Hb) as [[_ Hi Hs] Hk]. apply require_leaf. constructor.
  - intros k Hin [H|H]%(rb_keys _ _ R); [by apply (Hk k)|]. revert H.
    assert (Forall (fun k => k ∉ manifest_bound) markers) as Ha by unwritten. rewrite Forall_forall in Ha. by apply Ha.
  - intros k Hin. rewrite (rb_frame _ _ R); [by apply Hi|].
    assert (Forall (fun k => k ∉ manifest_bound) pushed) as Ha by unwritten. rewrite Forall_forall in Ha. by apply Ha.
  - unfold bundle_schema. rewrite (rb_frame _ _ R) by unwritten. exact Hs.
Qed.

(** A decision that may be taken is kept as it is. *)
Lemma decision_kept now record q m : build_accepted_report_edition (Ok tt) now (edition_request_of record q) = Ok m ->
  may_decide (claim_in m) -> dget (candidate_review m) "decision" = JStr (casefold (strip (dr_decision q))).
Proof.
  intros Hb Hc. destruct (built_fields _ _ _ Hb) as (_ & _ & _ & _ & _ & _ & _ & F8 & _).
  assert (candidate_review m = review_certificate now (edition_request_of record q)) as Hr
    by (unfold candidate_review; by rewrite F8).
  destruct Hc as (_ & _ & _ & Hdec & _). unfold claim_in in Hdec. cbn [rc_decision] in Hdec. rewrite Hr in Hdec |- *.
  change (dget (review_certificate now (edition_request_of record q)) "decision")
    with (JStr (str_or (casefold (strip (dr_decision q))) "invalid")).
  destruct (casefold (strip (dr_decision q))) eqn:E; [|by rewrite str_or_truthy].
  erewrite dget_str_of in Hdec by reflexivity. cbn [rq_decision edition_request_of] in Hdec. rewrite E in Hdec.
  apply absurd_mem in Hdec; [done|reflexivity].
Qed.

(** The reviewed edition names the identity of the run. *)
Lemma built_bound now r q m f : build_accepted_report_edition (Ok tt) now (edition_request_of r q) = Ok m ->
  f ∈ bound_fields -> dget m f = JStr (strip (dget_str (record_identity r) f)).
Proof.
  intros [= <-] Hf. unfold bound_fields in Hf.
  repeat (apply elem_of_cons in Hf as [->|Hf]; [reflexivity|]). by apply not_elem_of_nil in Hf.
Qed.

(** What is known of a complete approval of the report of a record. *)
Record reviewed (r m : dict) : Prop := Reviewed {
  rv_boundary : require_legacy_single_pdf [JObj r; JObj (report_package_from_record r); JObj m] = Ok tt;
  rv_guard : edition_guard_errors (report_package_from_record r) m (Some (record_identity r)) = Ok [];
  rv_manifest_seal : seal_holds "accepted_edition_manifest_sha256" m = true;
  rv_review_seal : seal_holds "approval_certificate_sha256" (candidate_review m) = true;
  rv_plain : plain (JObj m) = true;
  rv_undelivered : dget m "client_delivery_allowed" = JBool false;
  rv_decision : dget (candidate_review m) "decision" = JStr "approved";
  rv_bound : forall f, f ∈ bound_fields -> dget m f = dget (record_identity r) f }.

Lemma reviewed_edition ledger r q built_at m :
  let package := report_package_from_record r in
  (forall f, f ∈ bound_fields -> exists s, dget (record_identity r) f = JStr s /\ strip s = s) ->
  (has_manifest package = true -> absent (AJson (dget package "evidence_manifest_json")) = false) ->
  (forall f, f ∈ bound_fields ->
     expected_field package (Some (record_identity r)) f = text_of (dget (record_identity r) f)) ->
  build_reviewed_edition ledger built_at r q = Ok m -> complete_approval built_at (edition_request_of r q) ->
  reviewed r m.
Proof.
  intros package H Hman Hf Hb Happ. destruct (reviewed_inv _ _ _ _ _ Hb) as (Hl & m0 & Hb0 & Hmay & R & _).
  assert (forall f, f ∈ bound_fields -> dget m0 f = dget (record_identity r) f) as Hbf.
  { intros f Hin. rewrite (built_bound _ _ _ _ _ Hb0 Hin). destruct (H f Hin) as (s & Hs & Hst).
    rewrite (dget_str_of _ _ _ Hs), Hs. by rewrite Hst. }
  constructor.
  - apply require_legacy_all. intros v Hv. rewrite !elem_of_cons in Hv. destruct Hv as [->|[->|[->|Hv]]].
    + exact Hl.
    + exact (package_boundary _ Hl).
    + exact (edition_boundary _ _ _ _ Hb0 R).
    + by apply not_elem_of_nil in Hv.
  - rewrite (guard_frame _ _ _ _ R). refine (built_clean package _ _ (edition_request_of r q) _ eq_refl Hman Hb0 _ Happ).
    intros f Hin. rewrite (Hbf f Hin). by apply Hf.
  - exact (rb_manifest_seal _ _ R).
  - exact (rb_review_seal _ _ R).
  - exact (rb_plain _ _ R).
  - rewrite (rb_frame _ _ R) by unwritten. by destruct (built_fields _ _ _ Hb0) as (_ & _ & F3 & _).
  - rewrite (rb_review _ _ R) by unwritten. rewrite (decision_kept _ _ _ _ Hb0 Hmay). f_equal. exact (proj1 Happ).
  - intros f Hin. rewrite (rb_frame _ _ R); [by apply Hbf|]. revert f Hin. apply Forall_forall. unwritten.
Qed.

Lemma reviewed_frame r u m : report_package_from_record u = report_package_from_record r -> record_identity u = record_identity r ->
  require_legacy_single_pdf [JObj u] = Ok tt -> reviewed r m -> reviewed u m.
Proof.
  intros Hp Hi Hb [V1 V2 V3 V4 V5 V6 V7 V8]. constructor; rewrite ?Hp, ?Hi; try done.
  apply require_legacy_all. intros v [->|Hv]%elem_of_cons; [exact Hb|].
  apply (proj1 (require_legacy_all _) V1). by right.
Qed.

(** ** Properties *)

(** C34: what a reviewed edition binds.  When [build_reviewed_edition] answers,
    the reviewer it names is a person in an authorized role, with a decision, a
    time and a reason; the manifest and its certificate name the digests of the
    very report the record holds and, when the record has a review ledger, the
    digest of that ledger; both carry their own seals.  The edition is accepted
    exactly for a complete approval, and it never allows delivery. *)
Theorem reviewed_edition_binds ledger now record q m :
  build_reviewed_edition ledger now record q = Ok m ->
  let package := report_package_from_record record in
  let review := candidate_review m in
  may_decide (claim_in m) /\
  dget review "reviewer" = JStr (strip (dr_reviewer q)) /\
  dget review "decision" = JStr (casefold (strip (dr_decision q))) /\
  dget m "artifact_digests" = JObj (current_report_artifact_digests package) /\
  dget m "report_artifact_digest" = JStr (current_report_artifact_digest package) /\
  dget review "report_artifact_digest" = JStr (current_report_artifact_digest package) /\
  seal_holds "accepted_edition_manifest_sha256" m = true /\ seal_holds "approval_certificate_sha256" review = true /\
  dget m "client_delivery_allowed" = JBool false /\
  (dget m "accepted_edition" = JBool true <-> complete_approval now (edition_request_of record q)) /\
  forall l, ledger record = Ok l -> l <> [] ->
    dget m "review_work_ledger_sha256" = JStr (json_digest (JObj l)) /\
    dget review "review_work_ledger_sha256" = JStr (json_digest (JObj l)).
Proof.
  intros H package review. destruct (reviewed_inv _ _ _ _ _ H) as (_ & m0 & Hb & Hc & R & Hm).
  destruct (built_fields _ _ _ Hb) as (_ & F2 & F3 & _ & _ & F6 & F7 & F8 & _).
  pose proof (digests_agree package (edition_request_of record q) eq_refl) as Hd. rewrite Hd in F6, F7.
  assert (candidate_review m0 = review_certificate now (edition_request_of record q)) as Hr
    by (unfold candidate_review; by rewrite F8).
  pose proof (decision_kept _ _ _ _ Hb Hc) as Hdec.
  split_and!.
  - rewrite (claim_rebinds _ _ R). exact Hc.
  - unfold review. rewrite (rb_review _ _ R) by unwritten. rewrite Hr. reflexivity.
  - unfold review. rewrite (rb_review _ _ R) by unwritten. exact Hdec.
  - rewrite (rb_frame _ _ R) by unwritten. exact F6.
  - rewrite (rb_frame _ _ R) by unwritten. exact F7.
  - unfold review. rewrite (rb_review _ _ R) by unwritten. rewrite Hr.
    change (dget (review_certificate now (edition_request_of record q)) "report_artifact_digest")
      with (JStr (json_digest (JObj (edition_digests (edition_request_of record q))))). by rewrite Hd.
  - exact (rb_manifest_seal _ _ R).
  - exact (rb_review_seal _ _ R).
  - rewrite (rb_frame _ _ R) by unwritten. exact F3.
  - rewrite (rb_frame _ _ R) by unwritten. rewrite F2, complete_approval_nil. split.
    + intros [= [H1%String.eqb_eq H2%bool_decide_eq_true]%andb_true_iff]. by split.
    + intros [-> ->]. by rewrite bool_decide_eq_true_2.
  - intros l Hl Hn. unfold review. rewrite Hm. apply bind_ledger; [by apply bound_text_ledger|apply sha256_hex_truthy].
Qed.

(** ** Witnesses *)

Module ReviewDemo.

(** A finished record with the report of [EditionDemo]. *)
Definition package : dict := EditionDemo.package ++ [("evidence_bundle_sha256", JStr "e71d")].
Definition record : dict :=
  [("status", JStr "approved"); ("revision", JInt 25); ("human_review_completed", JBool true);
   ("identity", JObj [("run_id", JStr "run-1"); ("repository", JStr "octo/repo"); ("commit_sha", JStr "c0ffee");
      ("report_language", JStr "en"); ("assessment_depth", JStr "strategic")]);
   ("stage_results", JObj
     [("immutable_repository_snapshot", JObj [("snapshot", JObj [("tree_sha", JStr "7ree")])]);
      ("deep_scanner_triage", JObj [("scanner", JObj [("scan_id", JStr "scan-1")])]);
      ("final_comprehensive_report_generation", JObj [("report_package", JObj package)])])].
Definition ledger (_ : dict) : res dict := Ok [("review_source_sha256", JStr "5eed")].
Definition t0 : string := "2026-07-01T00:00:00+00:00".
Definition approval : decision_request := DecisionRequest "Ada" "Security Reviewer" " Approved" "complete" (Some t0).
Definition manifest : dict :=
  match build_reviewed_edition ledger t0 record approval with Ok m => m | Raise _ => [] end.

Lemma manifest_ok : build_reviewed_edition ledger t0 record approval = Ok manifest.
Proof.
  assert (is_ok (build_reviewed_edition ledger t0 record approval) = true) as H by (vm_compute; reflexivity).
  unfold manifest. revert H. by destruct (build_reviewed_edition ledger t0 record approval).
Qed.

(** A bot in the same role is refused. *)
Example automation_refused :
  build_reviewed_edition ledger t0 record (DecisionRequest " BOT" "Security Reviewer" "approved" "complete" (Some t0)) =
  fail ClientDeliveryContractError "automation_cannot_create_final_human_approval".
Proof. vm_compute. reflexivity. Qed.

End ReviewDemo.

Lemma reviewed_edition_binds_witness :
  dget ReviewDemo.manifest "client_delivery_allowed" = JBool false /\ may_decide (claim_in ReviewDemo.manifest).
Proof.
  pose proof (reviewed_edition_binds _ _ _ _ _ ReviewDemo.manifest_ok) as (Hm & _ & _ & _ & _ & _ & _ & _ & Hd & _).
  split; [exact Hd|exact Hm].
Defined.
