(* ===== verification/DeliveryAuthorization.v ===== *)
(** * Authorizing delivery (nico/comprehensive_delivery_authorization_v1.py)

    The receipt of a separate human act that permits the delivery of an approved
    edition.  [authorize_accepted_edition] makes it for the report the record
    holds now; [validate_delivery_authorization] is what every later reader asks. *)

From S2P Require Import Prelude PyStr Sha256 PyFloat Json JsonFacts BundleBoundary CanonicalHash Orchestration AcceptedEdition HumanEvidence ReviewDecision.

Definition authorization_version : string := "nico.comprehensive_delivery_authorization.v1".
Definition AUTHORIZATION_BASIS : string := "protected_admin_write_and_explicit_delivery_authorization".

Definition _authorization_hash (payload : dict) : string :=
  json_digest (JObj (dremove "delivery_authorization_sha256" payload)).

Definition _accepted_manifest_hash (manifest : dict) : res string :=
  let claimed := text_of (dget manifest "accepted_edition_manifest_sha256") in
  _ ← unless (truthy claimed &&
        String.eqb claimed (json_digest (JObj (dremove "accepted_edition_manifest_sha256" manifest))))
      ValueError "accepted_edition_manifest_hash_mismatch";
  Ok claimed.

Definition _assert_current_accepted_edition (record manifest : dict) : res unit :=
  let package := report_package_from_record record in
  validation ← validate_accepted_edition (require_legacy_single_pdf [JObj package; JObj manifest])
                 package manifest (Some (record_identity record));
  unless (bool_decide (dget validation "status" = JStr "valid")) ValueError
    ("invalid_accepted_edition:" +:+
     match dget validation "validation_errors" with JArr l => join "," (map py_str l) | _ => "" end).

(** [except ValueError as exc: errors.append(...)]: the value, or what is
    appended; any other exception goes on. *)
Definition caught {A} (r : res A) (default : A) (message : exn -> string) : res (A * list string) :=
  match r with
  | Ok a => Ok (a, [])
  | Raise e => if isinstance e ValueError then Ok (default, [message e]) else Raise e
  end.

Definition required_receipt_fields : list string :=
  ["delivery_authorization_id"; "authorizer_identity"; "authorizer_role"; "authorization_basis";
   "authorization_reason"; "authorized_at"; "run_id"; "report_artifact_digest";
   "accepted_edition_manifest_sha256"; "review_artifact_identity_sha256"; "delivery_authorization_sha256"].
Definition identity_receipt_fields : list string :=
  ["artifact_schema"; "run_id"; "report_artifact_digest"; "artifact_digests"].

Definition validation_document (errors : list string) : dict :=
  [("artifact_schema", JStr authorization_version);
   ("status", JStr (if bool_decide (errors = []) then "valid" else "invalid"));
   ("validation_errors", JArr (map JStr (sorted (dict_fromkeys errors))));
   ("client_delivery_allowed", JBool (bool_decide (errors = [])))].

(** The identity a receipt was given for, against the report as it is now. *)
Definition identity_errors (record authorization : dict) : res (list string) :=
  match dget authorization "review_artifact_identity" with
  | JObj supplied =>
      current ← review_artifact_identity record;
      Ok (when (negb (String.eqb (text_of (dget authorization "review_artifact_identity_sha256"))
                       (json_digest (JObj supplied)))) "delivery_authorization_review_artifact_identity_hash_mismatch" ++
          flat_map (fun f => when (negb (py_eq (dget supplied f) (dget current f)))
            ("delivery_authorization_current_artifact_mismatch:" +:+ f)) identity_receipt_fields)
  | _ => Ok ["delivery_authorization_review_artifact_identity_required"]
  end.

Definition authorizer_claim (authorization : dict) : reviewer_claim :=
  let text k := text_of (dget authorization k) in {|
    rc_reviewer := text "authorizer_identity"; rc_role := text "authorizer_role"; rc_decision := "approved";
    rc_decided_at := text "authorized_at"; rc_reason := text "authorization_reason"; rc_basis := AUTHORIZATION_BASIS |}.

Definition authorization_errors (record manifest authorization : dict) : res (list string) :=
  let text d k := text_of (dget d k) in
  '(manifest_sha, hash_errors) ← caught (_accepted_manifest_hash manifest) "" (fun e => strip (exn_msg e));
  '(_, edition_errors) ← caught (_assert_current_accepted_edition record manifest) tt (fun e => strip (exn_msg e));
  identity ← identity_errors record authorization;
  '(_, authorizer_errors) ← caught (reviewer_binding (authorizer_claim authorization)) []
     (fun e => str_or (before_colon (strip (exn_msg e))) "delivery_authorizer_invalid");
  Ok (hash_errors ++ edition_errors ++
    when (negb (String.eqb (casefold (text record "status")) "approved")) "delivery_authorization_requires_approved_run" ++
    when (negb (is_true (dget record "human_review_completed"))) "delivery_authorization_requires_completed_human_review" ++
    when (negb (bool_decide (dget authorization "artifact_schema" = JStr authorization_version)))
      "delivery_authorization_schema_mismatch" ++
    when (negb (is_true (dget authorization "human_action_required"))) "delivery_authorization_human_action_missing" ++
    when (negb (is_true (dget authorization "automation_may_not_authorize")))
      "delivery_authorization_automation_boundary_missing" ++
    when (negb (is_true (dget manifest "accepted_edition"))) "delivery_authorization_accepted_edition_required" ++
    when (negb (String.eqb (casefold (text (candidate_review manifest) "decision")) "approved"))
      "delivery_authorization_human_approval_required" ++
    flat_map (fun f => when (negb (truthy (text authorization f))) ("delivery_authorization_" +:+ f +:+ "_required"))
      required_receipt_fields ++
    when (negb (String.eqb (text authorization "authorization_basis") AUTHORIZATION_BASIS))
      "delivery_authorization_basis_invalid" ++
    when (negb (String.eqb (text authorization "run_id") (text (record_identity record) "run_id")))
      "delivery_authorization_run_mismatch" ++
    when (negb (String.eqb (text authorization "report_artifact_digest") (text manifest "report_artifact_digest")))
      "delivery_authorization_report_digest_mismatch" ++
    when (negb (String.eqb (text authorization "accepted_edition_manifest_sha256") manifest_sha))
      "delivery_authorization_accepted_manifest_mismatch" ++
    identity ++
    when (negb (String.eqb (text authorization "delivery_authorization_sha256") (_authorization_hash authorization)))
      "delivery_authorization_hash_mismatch" ++
    authorizer_errors).

Definition validate_delivery_authorization (record manifest : dict) (authorization : json) : res dict :=
  _ ← require_legacy_single_pdf [JObj record; JObj manifest; authorization];
  match authorization with
  | JObj authorization =>
      errors ← authorization_errors record manifest authorization;
      Ok (validation_document errors)
  | _ => Ok [("artifact_schema", JStr authorization_version); ("status", JStr "invalid");
             ("validation_errors", JArr [JStr "delivery_authorization_required"]);
             ("client_delivery_allowed", JBool false)]
  end.

(** ** Making a receipt *)

Record authorizer := Authorizer { au_name : string; au_role : string; au_reason : string; au_at : string }.

Definition claim_of (a : authorizer) : reviewer_claim := {|
  rc_reviewer := au_name a; rc_role := au_role a; rc_decision := "approved"; rc_decided_at := au_at a;
  rc_reason := au_reason a; rc_basis := AUTHORIZATION_BASIS |}.

Definition receipt_body (manifest human identity : dict) (manifest_sha : string) : dict :=
  [("artifact_schema", JStr authorization_version);
   ("authorizer_identity", dget human "reviewer_identity"); ("authorizer_role", dget human "reviewer_role");
   ("authorization_basis", JStr AUTHORIZATION_BASIS);
   ("authorization_reason", dget human "reviewer_notes"); ("authorized_at", dget human "review_timestamp");
   ("run_id", JStr (text_of (dget manifest "run_id")));
   ("report_artifact_digest", JStr (text_of (dget manifest "report_artifact_digest")));
   ("accepted_edition_manifest_sha256", JStr manifest_sha);
   ("review_artifact_identity", JObj identity);
   ("review_artifact_identity_sha256", JStr (json_digest (JObj identity)));
   ("human_action_required", JBool true); ("automation_may_not_authorize", JBool true)].

(** The receipt names itself by the digest of its body and ends in its seal. *)
Definition receipt (manifest human identity : dict) (manifest_sha : string) : dict :=
  let body := receipt_body manifest human identity manifest_sha in
  sealed "delivery_authorization_sha256"
    (body ++ [("delivery_authorization_id", JStr ("delivery_authorization_" +:+ str_take 24 (json_digest (JObj body))))]).

Definition authorize_accepted_edition (record manifest : dict) (a : authorizer) (expected : json) : res dict :=
  _ ← require_legacy_single_pdf [JObj record; JObj manifest];
  _ ← unless (String.eqb (casefold (text_of (dget record "status"))) "approved") ValueError
        "delivery_authorization_requires_approved_run";
  _ ← unless (is_true (dget record "human_review_completed")) ValueError
        "delivery_authorization_requires_completed_human_review";
  _ ← unless (negb (is_true (dget record "client_delivery_allowed") || is_mapping (dget record "delivery_authorization")))
        ValueError "client_delivery_already_authorized";
  _ ← unless (is_true (dget manifest "accepted_edition") &&
              String.eqb (casefold (text_of (dget (candidate_review manifest) "decision"))) "approved")
        ValueError "delivery_authorization_requires_accepted_edition";
  manifest_sha ← _accepted_manifest_hash manifest;
  _ ← _assert_current_accepted_edition record manifest;
  identity ← assert_expected_review_artifact_identity record expected;
  human ← reviewer_binding (claim_of a);
  let authorization := receipt manifest human identity manifest_sha in
  validation ← validate_delivery_authorization record manifest (JObj authorization);
  _ ← unless (bool_decide (dget validation "status" = JStr "valid")) ValueError
        ("invalid_delivery_authorization:" +:+
         match dget validation "validation_errors" with JArr l => join "," (map py_str l) | _ => "" end);
  Ok authorization.

(** ** Lemmas *)

Lemma text_idem v : text_of (JStr (text_of v)) = text_of v.
Proof. rewrite text_of_str. apply strip_idemp. Qed.

Lemma text_digest v : text_of (JStr (json_digest v)) = json_digest v.
Proof. rewrite text_of_str. apply strip_no_space, sha256_hex_no_space. Qed.

Lemma caught_inv {A} (r : res A) d f a l : caught r d f = Ok (a, l) -> l = [] <-> r = Ok a.
Proof.
  destruct r as [b|e]; simpl; [intros [= <- <-]; by split|].
  destruct (isinstance e ValueError); [intros [= <- <-]|discriminate]. split; discriminate.
Qed.

Lemma assert_edition_ok record manifest :
  let package := report_package_from_record record in
  _assert_current_accepted_edition record manifest = Ok tt <->
  require_legacy_single_pdf [JObj package; JObj manifest] = Ok tt /\
  edition_guard_errors package manifest (Some (record_identity record)) = Ok [].
Proof.
  intros package. unfold _assert_current_accepted_edition, validate_accepted_edition. fold package.
  destruct (require_legacy_single_pdf _) as [[]|e]; cbn [mbind res_bind]; [|by split; [|intros [? _]]].
  destruct (edition_guard_errors _ _ _) as [errors|e]; cbn [mbind res_bind]; [|by split; [|intros [_ ?]]].
  change (dget _ "status") with (JStr (if bool_decide (errors = []) then "valid" else "invalid")).
  destruct errors as [|x l]; [by split|]. split; [discriminate|]. by intros [_ ?].
Qed.

Lemma manifest_hash_ok manifest sha : _accepted_manifest_hash manifest = Ok sha <->
  sha = text_of (dget manifest "accepted_edition_manifest_sha256") /\ truthy sha = true /\
  sha = json_digest (JObj (dremove "accepted_edition_manifest_sha256" manifest)).
Proof.
  unfold _accepted_manifest_hash. set (c := text_of _). set (h := json_digest _). unfold unless, fail. split.
  - destruct (truthy c && String.eqb c h) eqn:E; [|discriminate]. intros [= <-].
    apply andb_true_iff in E as [Ht Hs%String.eqb_eq]. by split_and!.
  - intros (-> & Ht & Hs). rewrite Ht, <- Hs, String.eqb_refl. reflexivity.
Qed.

(** A receipt that holds for a record and its edition. *)
Record receipt_holds (record manifest a : dict) : Prop := ReceiptHolds {
  rh_manifest : _accepted_manifest_hash manifest = Ok (text_of (dget a "accepted_edition_manifest_sha256"));
  rh_edition : _assert_current_accepted_edition record manifest = Ok tt;
  rh_status : casefold (text_of (dget record "status")) = "approved";
  rh_reviewed : is_true (dget record "human_review_completed") = true;
  rh_schema : dget a "artifact_schema" = JStr authorization_version;
  rh_human : is_true (dget a "human_action_required") = true;
  rh_automation : is_true (dget a "automation_may_not_authorize") = true;
  rh_accepted : is_true (dget manifest "accepted_edition") = true;
  rh_decision : casefold (text_of (dget (candidate_review manifest) "decision")) = "approved";
  rh_fields : forall f, f ∈ required_receipt_fields -> truthy (text_of (dget a f)) = true;
  rh_basis : text_of (dget a "authorization_basis") = AUTHORIZATION_BASIS;
  rh_run : text_of (dget a "run_id") = text_of (dget (record_identity record) "run_id");
  rh_report : text_of (dget a "report_artifact_digest") = text_of (dget manifest "report_artifact_digest");
  rh_identity : exists supplied current, dget a "review_artifact_identity" = JObj supplied /\
    review_artifact_identity record = Ok current /\
    text_of (dget a "review_artifact_identity_sha256") = json_digest (JObj supplied) /\
    forall f, f ∈ identity_receipt_fields -> py_eq (dget supplied f) (dget current f) = true;
  rh_seal : text_of (dget a "delivery_authorization_sha256") = _authorization_hash a;
  rh_authorizer : may_decide (authorizer_claim a) }.

Lemma identity_errors_nil record a l : identity_errors record a = Ok l ->
  l = [] <-> exists supplied current, dget a "review_artifact_identity" = JObj supplied /\
    review_artifact_identity record = Ok current /\
    text_of (dget a "review_artifact_identity_sha256") = json_digest (JObj supplied) /\
    forall f, f ∈ identity_receipt_fields -> py_eq (dget supplied f) (dget current f) = true.
Proof.
  unfold identity_errors. intros H. destruct (dget a "review_artifact_identity") as [| | | | | |supplied];
    try (injection H as <-; split; [discriminate|by intros (? & ? & ? & _)]).
  apply bind_ok_inv in H as (current & Hc & H). apply Ok_inj in H as <-.
  rewrite app_nil, when_nil, negb_false_iff, String.eqb_eq, flat_map_nil. setoid_rewrite when_nil.
  setoid_rewrite negb_false_iff. split.
  - intros [H1 H2]. exists supplied, current. by split_and!.
  - intros (s & c & [= <-] & Hc' & H1 & H2). rewrite Hc in Hc'. injection Hc' as <-. by split.
Qed.

Lemma binding_caught c p l f : caught (reviewer_binding c) [] f = Ok (p, l) -> l = [] <-> may_decide c.
Proof.
  intros H. rewrite (caught_inv _ _ _ _ _ H). pose proof (binding_spec c) as Hs.
  destruct (reviewer_binding c) as [b|e]; [|split; [discriminate|by intros ?; destruct Hs]].
  destruct Hs as [Hs _]. injection H as <- _. by split.
Qed.

Lemma errors_hold record manifest a errors : authorization_errors record manifest a = Ok errors ->
  errors = [] <-> receipt_holds record manifest a.
Proof.
  unfold authorization_errors. intros H.
  apply bind_ok_inv in H as ([sha l1] & E1 & H). apply bind_ok_inv in H as ([[] l2] & E2 & H).
  apply bind_ok_inv in H as (l3 & E3 & H). apply bind_ok_inv in H as ([p l4] & E4 & H). apply Ok_inj in H as <-.
  rewrite !app_nil, !when_nil, !negb_false_iff, !bool_decide_eq_true, !String.eqb_eq, flat_map_nil.
  setoid_rewrite when_nil. setoid_rewrite negb_false_iff.
  rewrite (caught_inv _ _ _ _ _ E1), (caught_inv _ _ _ _ _ E2), (identity_errors_nil _ _ _ E3), (binding_caught _ _ _ _ E4).
  split.
  - intros (H1 & H2 & H3 & H4 & H5 & H6 & H7 & H8 & H9 & H10 & H11 & H12 & H13 & H14 & H15 & H16 & H17).
    constructor; try done. by rewrite H14.
  - intros [R1 R2 R3 R4 R5 R6 R7 R8 R9 R10 R11 R12 R13 R14 R15 R16].
    assert (_accepted_manifest_hash manifest = Ok sha) as Hsha.
    { rewrite R1 in E1. injection E1 as <- _. exact R1. }
    split_and!; try done. rewrite R1 in Hsha. by injection Hsha.
Qed.

Lemma validation_valid errors : dget (validation_document errors) "status" = JStr "valid" <-> errors = [].
Proof. destruct errors; by split. Qed.

Lemma receipt_validation_spec record manifest auth v : validate_delivery_authorization record manifest auth = Ok v ->
  (dget v "status" = JStr "valid" <-> exists a, auth = JObj a /\ receipt_holds record manifest a) /\
  (dget v "client_delivery_allowed" = JBool true <-> dget v "status" = JStr "valid").
Proof.
  unfold validate_delivery_authorization. intros H. apply bind_ok_inv in H as ([] & _ & H).
  destruct auth as [| | | | | |a];
    try (apply Ok_inj in H as <-; split; [split; [discriminate|by intros (? & ? & _)]|by split]).
  apply bind_ok_inv in H as (errors & He & H). apply Ok_inj in H as <-. split.
  - rewrite validation_valid, (errors_hold _ _ _ _ He). split; [eauto|]. by intros (? & [= <-] & ?).
  - destruct errors; by split.
Qed.

Lemma strip_head a s : is_space a = false -> truthy (strip (String a s)) = true.
Proof. intros H. unfold strip. cbn [lstrip]. rewrite H. cbn [rstrip]. rewrite H. reflexivity. Qed.

(** The edition a guard accepted names its run and its report. *)
Lemma guarded_texts package manifest trusted : edition_guard_errors package manifest trusted = Ok [] ->
  truthy (text_of (dget manifest "run_id")) = true /\
  text_of (dget manifest "report_artifact_digest") = current_report_artifact_digest package.
Proof.
  intros H. apply guard_nil in H as [Hn _]. destruct (Hn eq_refl) as (_ & _ & _ & _ & _ & _ & _ & _ & _ & Hd & _ & Hf & _).
  split.
  - specialize (Hf "run_id" ltac:(unwritten)). unfold field_errors in Hf.
    destruct (truthy (expected_field package trusted "run_id")) eqn:Ht; [|discriminate Hf]. cbn [negb] in Hf.
    apply when_nil, negb_false_iff, String.eqb_eq in Hf. by rewrite Hf.
  - unfold text_of. fold (dget_str manifest "report_artifact_digest"). rewrite Hd.
    apply strip_no_space, sha256_hex_no_space.
Qed.

(** What a record must be for a person to authorize its delivery. *)
Record authorizable (record manifest : dict) (a : authorizer) (expected : json) : Prop := Authorizable {
  az_boundary : require_legacy_single_pdf [JObj record; JObj manifest] = Ok tt;
  az_status : casefold (text_of (dget record "status")) = "approved";
  az_reviewed : is_true (dget record "human_review_completed") = true;
  az_fresh : is_true (dget record "client_delivery_allowed") = false /\ is_mapping (dget record "delivery_authorization") = false;
  az_accepted : is_true (dget manifest "accepted_edition") = true;
  az_decision : casefold (text_of (dget (candidate_review manifest) "decision")) = "approved";
  az_seal : exists sha, _accepted_manifest_hash manifest = Ok sha;
  az_edition : edition_guard_errors (report_package_from_record record) manifest (Some (record_identity record)) = Ok [];
  az_expected : exists current, review_artifact_identity record = Ok current /\
                  is_mapping expected = true /\ py_eq expected (JObj current) = true;
  az_run : text_of (dget manifest "run_id") = text_of (dget (record_identity record) "run_id");
  az_authorizer : may_decide (claim_of a) }.

Lemma identity_py_eq record current : review_artifact_identity record = Ok current ->
  forall f, f ∈ identity_receipt_fields -> py_eq (dget current f) (dget current f) = true.
Proof.
  unfold review_artifact_identity. intros H. apply bind_ok_inv in H as (z & _ & H). apply bind_ok_inv in H as (u & _ & H).
  apply Ok_inj in H as <-. apply Forall_forall. repeat apply Forall_cons_2; try apply Forall_nil_2.
  - reflexivity.
  - apply py_eq_refl. reflexivity.
  - apply py_eq_refl. reflexivity.
  - apply py_eq_refl. apply digests_plain, package_names_nodup.
Qed.

(** The members of a receipt. *)
Lemma receipt_fields manifest human identity sha :
  let r := receipt manifest human identity sha in
  dget r "authorizer_identity" = dget human "reviewer_identity" /\ dget r "authorizer_role" = dget human "reviewer_role" /\
  dget r "authorization_reason" = dget human "reviewer_notes" /\ dget r "authorized_at" = dget human "review_timestamp" /\
  dget r "run_id" = JStr (text_of (dget manifest "run_id")) /\
  dget r "report_artifact_digest" = JStr (text_of (dget manifest "report_artifact_digest")) /\
  dget r "accepted_edition_manifest_sha256" = JStr sha /\
  dget r "review_artifact_identity" = JObj identity /\
  dget r "review_artifact_identity_sha256" = JStr (json_digest (JObj identity)) /\
  (exists t, dget r "delivery_authorization_id" = JStr ("delivery_authorization_" +:+ t)) /\
  dget r "delivery_authorization_sha256" = JStr (_authorization_hash r).
Proof.
  do 9 (split; [reflexivity|]). split; [by eexists|]. unfold _authorization_hash, receipt.
  set (body := _ ++ [_]). unfold sealed. rewrite dremove_last by unwritten. apply dget_last. unwritten.
Qed.

Lemma fresh_holds record manifest a expected sha current human :
  authorizable record manifest a expected -> _accepted_manifest_hash manifest = Ok sha ->
  review_artifact_identity record = Ok current -> reviewer_binding (claim_of a) = Ok human ->
  receipt_holds record manifest (receipt manifest human current sha).
Proof.
  intros Z Hsha Hcur Hhum. pose proof (binding_spec (claim_of a)) as Hb. rewrite Hhum in Hb.
  destruct Hb as (Hmay & B1 & B2 & B3 & B4 & _).
  destruct (receipt_fields manifest human current sha) as (F1 & F2 & F3 & F4 & F5 & F6 & F7 & F8 & F9 & (t & F10) & F11).
  rewrite B1 in F1. rewrite B2 in F2. rewrite B3 in F3. rewrite B4 in F4.
  set (r := receipt manifest human current sha) in *.
  destruct (guarded_texts _ _ _ (az_edition _ _ _ _ Z)) as [G1 G2].
  apply manifest_hash_ok in Hsha as Hs. destruct Hs as (Hs & Ht & _).
  assert (may_decide (authorizer_claim r)) as Hclaim.
  { unfold authorizer_claim. rewrite F1, F2, F3, F4, !text_of_str, !strip_idemp. by apply may_decide_strip in Hmay. }
  constructor.
  - rewrite F7, text_of_str, Hs. unfold text_of. rewrite strip_idemp. fold (text_of (dget manifest "accepted_edition_manifest_sha256")).
    by rewrite <- Hs.
  - apply assert_edition_ok. split; [|apply (az_edition _ _ _ _ Z)]. apply require_legacy_all. intros v Hv.
    pose proof (proj1 (require_legacy_all _) (az_boundary _ _ _ _ Z)) as Hall.
    apply elem_of_cons in Hv as [->|Hv]; [apply package_boundary, Hall; by left|].
    apply Hall. by right.
  - apply (az_status _ _ _ _ Z).
  - apply (az_reviewed _ _ _ _ Z).
  - reflexivity.
  - reflexivity.
  - reflexivity.
  - apply (az_accepted _ _ _ _ Z).
  - apply (az_decision _ _ _ _ Z).
  - destruct Hclaim as (C1 & _ & C3 & _ & C5 & C6 & _). apply authorized_role in C3 as [C3 _].
    unfold authorizer_claim in C1, C3, C5, C6. cbn [rc_reviewer rc_role rc_decided_at rc_reason] in C1, C3, C5, C6.
    unfold text_of in C1, C3, C5, C6. rewrite strip_idemp in C1, C3, C5, C6.
    apply Forall_forall. unfold required_receipt_fields. repeat apply Forall_cons_2; try apply Forall_nil_2.
    + rewrite F10, text_of_str. by apply strip_head.
    + exact C1.
    + exact C3.
    + reflexivity.
    + exact C6.
    + exact C5.
    + rewrite F5, text_idem. exact G1.
    + rewrite F6, text_idem, G2. apply sha256_hex_truthy.
    + rewrite F7, Hs, text_idem, <- Hs. exact Ht.
    + rewrite F9, text_digest. apply sha256_hex_truthy.
    + rewrite F11. unfold _authorization_hash. rewrite text_digest. apply sha256_hex_truthy.
  - reflexivity.
  - rewrite F5, text_idem. apply (az_run _ _ _ _ Z).
  - by rewrite F6, text_idem.
  - exists current, current. split_and!; [exact F8|exact Hcur|by rewrite F9, text_digest|].
    by apply (identity_py_eq record).
  - rewrite F11. unfold _authorization_hash. by rewrite text_digest.
  - exact Hclaim.
Qed.

Lemma receipt_leaf manifest human identity sha : leaf (receipt manifest human identity sha).
Proof.
  constructor.
  - apply Forall_forall. unwritten.
  - apply Forall_forall. repeat apply Forall_cons_2; try apply Forall_nil_2; reflexivity.
  - reflexivity.
Qed.

(** A receipt that holds is found valid. *)
Lemma holds_valid record manifest r :
  require_legacy_single_pdf [JObj record; JObj manifest; JObj r] = Ok tt -> receipt_holds record manifest r ->
  validate_delivery_authorization record manifest (JObj r) = Ok (validation_document []).
Proof.
  intros Hb Hr. unfold validate_delivery_authorization. rewrite Hb. cbn [mbind res_bind].
  assert (exists errors, authorization_errors record manifest r = Ok errors) as [errors He].
  { unfold authorization_errors, identity_errors. rewrite (rh_manifest _ _ _ Hr), (rh_edition _ _ _ Hr).
    destruct (rh_identity _ _ _ Hr) as (s & c & -> & -> & _). cbn [caught mbind res_bind].
    pose proof (binding_spec (authorizer_claim r)) as Hs.
    destruct (reviewer_binding (authorizer_claim r)) as [p|e]; [cbn [caught mbind res_bind]; by eexists|].
    by destruct Hs as [_ []]; apply (rh_authorizer _ _ _ Hr). }
  rewrite He. apply (errors_hold _ _ _ _ He) in Hr as ->. reflexivity.
Qed.

Lemma authorize_inv record manifest a expected r : authorize_accepted_edition record manifest a expected = Ok r ->
  exists sha current human, _accepted_manifest_hash manifest = Ok sha /\ review_artifact_identity record = Ok current /\
    reviewer_binding (claim_of a) = Ok human /\ r = receipt manifest human current sha /\
    require_legacy_single_pdf [JObj record; JObj manifest] = Ok tt /\
    casefold (text_of (dget record "status")) = "approved" /\ is_true (dget record "human_review_completed") = true /\
    is_true (dget record "client_delivery_allowed") = false /\ is_mapping (dget record "delivery_authorization") = false /\
    is_mapping expected = true /\ py_eq expected (JObj current) = true /\ receipt_holds record manifest r.
Proof.
  unfold authorize_accepted_edition, assert_expected_review_artifact_identity. intros H.
  apply bind_ok_inv in H as ([] & H1 & H). apply bind_ok_inv in H as (u2 & H2%unless_ok & H).
  apply bind_ok_inv in H as (u3 & H3%unless_ok & H). apply bind_ok_inv in H as (u4 & H4%unless_ok & H).
  apply bind_ok_inv in H as (u5 & H5%unless_ok & H). apply bind_ok_inv in H as (sha & H6 & H).
  apply bind_ok_inv in H as ([] & H7 & H). apply bind_ok_inv in H as (current & H8 & H).
  apply bind_ok_inv in H as (human & H9 & H). apply bind_ok_inv in H as (v & Hv & H).
  apply bind_ok_inv in H as (u10 & H10%unless_ok & H). apply Ok_inj in H as <-.
  apply bind_ok_inv in H8 as (c & Hc & H8). apply bind_ok_inv in H8 as (u8 & H8'%unless_ok & H8). apply Ok_inj in H8 as <-.
  apply String.eqb_eq in H2. apply andb_true_iff in H8' as [He1 He2].
  apply negb_true_iff, orb_false_iff in H4 as [H4 H4']. apply bool_decide_eq_true in H10.
  apply receipt_validation_spec in Hv as [Hv _]. apply Hv in H10 as (r & [= <-] & Hr).
  exists sha, c, human. by split_and!.
Qed.

Lemma authorize_complete record manifest a expected sha current human :
  let r := receipt manifest human current sha in
  authorizable record manifest a expected -> _accepted_manifest_hash manifest = Ok sha ->
  review_artifact_identity record = Ok current -> is_mapping expected = true -> py_eq expected (JObj current) = true ->
  reviewer_binding (claim_of a) = Ok human -> _assert_current_accepted_edition record manifest = Ok tt ->
  validate_delivery_authorization record manifest (JObj r) = Ok (validation_document []) ->
  authorize_accepted_edition record manifest a expected = Ok r.
Proof.
  intros r Z Hsha Hcur Hm Heq Hhum Hed Hv. destruct (az_fresh _ _ _ _ Z) as [Hf1 Hf2].
  unfold authorize_accepted_edition.
  eapply bind_step; [exact (az_boundary _ _ _ _ Z)|].
  eapply bind_step; [apply unless_true; rewrite (az_status _ _ _ _ Z); exact (String.eqb_refl _)|].
  eapply bind_step; [apply unless_true; exact (az_reviewed _ _ _ _ Z)|].
  eapply bind_step; [apply unless_true; rewrite Hf1, Hf2; reflexivity|].
  eapply bind_step; [apply unless_true; rewrite (az_accepted _ _ _ _ Z), (az_decision _ _ _ _ Z); exact (String.eqb_refl _)|].
  eapply bind_step; [exact Hsha|]. eapply bind_step; [exact Hed|].
  eapply bind_step.
  { unfold assert_expected_review_artifact_identity. eapply bind_step; [exact Hcur|].
    eapply bind_step; [apply unless_true; rewrite Hm, Heq; reflexivity|]. exact eq_refl. }
  eapply bind_step; [exact Hhum|]. cbv zeta. eapply bind_step; [exact Hv|].
  eapply bind_step; [apply unless_true, bool_decide_eq_true, validation_valid; reflexivity|]. exact eq_refl.
Qed.

(** Reports with one digest have one set of artifact digests, or its text collides. *)
Definition digests_text (package : dict) : string :=
  utf8_encode (dumps compact_unicode (JObj (current_report_artifact_digests package))).

Lemma digests_wf package : json_wf (JObj (current_report_artifact_digests package)) = true.
Proof.
  cbn [json_wf]. rewrite bool_decide_eq_true_2 by (apply NoDup_digests, package_names_nodup). cbn [andb].
  apply forallb_forall. intros [n e] Hin%list_elem_of_In. apply in_digests in Hin as (_ & _ & ->). reflexivity.
Qed.

Lemma digests_lookup package n : n ∈ package_names package -> absent (artifact_get (package_artifacts package) n) = false ->
  dget (current_report_artifact_digests package) n = digest_entry (artifact_get (package_artifacts package) n).
Proof.
  intros Hn Ha. unfold dget, current_report_artifact_digests. rewrite (proj2 (dlookup_elem n (digest_entry (artifact_get (package_artifacts package) n)) _
    (NoDup_digests _ _ (package_names_nodup package)))); [reflexivity|]. by apply in_digests.
Qed.

Lemma guarded_present package manifest trusted : edition_guard_errors package manifest trusted = Ok [] ->
  forall n, n ∈ package_names package -> absent (artifact_get (package_artifacts package) n) = false.
Proof. intros H. apply guard_nil in H as [Hn _]. by destruct (Hn eq_refl) as (_ & _ & _ & _ & _ & _ & _ & Ha & _). Qed.

Lemma digests_bind package package' :
  current_report_artifact_digest package = current_report_artifact_digest package' ->
  (forall n, n ∈ package_names package -> absent (artifact_get (package_artifacts package) n) = false) ->
  (forall n, n ∈ package_names package' -> absent (artifact_get (package_artifacts package') n) = false) ->
  collision (digests_text package) (digests_text package') \/
  forall n, n ∈ package_names package -> n ∈ package_names package' ->
    let b := _bytes (artifact_get (package_artifacts package) n) in
    let b' := _bytes (artifact_get (package_artifacts package') n) in
    b = b' \/ collision b b'.
Proof.
  intros Hd Ha Ha'. destruct (decide (digests_text package = digests_text package')) as [He|Hne]; [right|left; by split].
  intros n Hn Hn' b b'. destruct (decide (b = b')) as [|Hb]; [by left|right]. split; [exact Hb|].
  unfold digests_text in He. apply utf8_encode_inj in He.
  pose proof (loads_dumps _ _ sep_ok_compact_unicode (digests_wf package)) as L. rewrite He in L.
  rewrite (loads_dumps _ _ sep_ok_compact_unicode (digests_wf package')) in L. apply (inj Some) in L.
  assert (forall p, dget (sorted_dict (current_report_artifact_digests p)) n = sort_json (dget (current_report_artifact_digests p) n)) as Hs
    by (intros p; apply dget_sorted, NoDup_digests, package_names_nodup).
  assert (sort_json (dget (current_report_artifact_digests package) n) = sort_json (dget (current_report_artifact_digests package') n)) as Hj.
  { rewrite <- !Hs. unfold sorted_dict. assert (sort_json (JObj (current_report_artifact_digests package)) =
      sort_json (JObj (current_report_artifact_digests package'))) as -> by (exact (eq_sym L)). reflexivity. }
  rewrite (digests_lookup _ _ Hn (Ha n Hn)), (digests_lookup _ _ Hn' (Ha' n Hn')) in Hj.
  unfold digest_entry in Hj. fold b b' in Hj. clearbody b b'. cbn in Hj. by injection Hj.
Qed.

(** The boundary lets a receipt pass with what it is for. *)
Lemma receipt_boundary record manifest human current sha :
  require_legacy_single_pdf [JObj record; JObj manifest] = Ok tt ->
  require_legacy_single_pdf [JObj record; JObj manifest; JObj (receipt manifest human current sha)] = Ok tt.
Proof.
  intros Hb. pose proof (proj1 (require_legacy_all _) Hb) as Hall. apply require_legacy_all. intros v Hv.
  rewrite !elem_of_cons in Hv. destruct Hv as [->|[->|[->|Hv]]].
  - apply Hall. by left.
  - apply Hall. right; left.
  - apply require_leaf, receipt_leaf.
  - by apply elem_of_nil in Hv.
Qed.

Lemma authorizable_receipt record manifest a expected : authorizable record manifest a expected ->
  exists r, authorize_accepted_edition record manifest a expected = Ok r /\ receipt_holds record manifest r.
Proof.
  intros Z. destruct (az_seal _ _ _ _ Z) as [sha Hsha]. destruct (az_expected _ _ _ _ Z) as (current & Hcur & Hm & Heq).
  pose proof (binding_spec (claim_of a)) as Hs. destruct (reviewer_binding (claim_of a)) as [human|e'] eqn:Hhum.
  2:{ destruct Hs as [_ []]. apply (az_authorizer _ _ _ _ Z). }
  pose proof (fresh_holds _ _ _ _ _ _ _ Z Hsha Hcur Hhum) as Hh. exists (receipt manifest human current sha).
  split; [|exact Hh].
  exact (authorize_complete _ _ _ _ _ _ _ Z Hsha Hcur Hm Heq Hhum (rh_edition _ _ _ Hh)
           (holds_valid _ _ _ (receipt_boundary _ _ _ _ _ (az_boundary _ _ _ _ Z)) Hh)).
Qed.

(** The members of the record a receipt looks at. *)
Lemma receipt_frame u d m receipt :
  (forall k, k ∈ ["stage_results"; "reports"; "identity"; "status"; "human_review_completed"; "revision"] -> dget d k = dget u k) ->
  receipt_holds u m receipt -> receipt_holds d m receipt.
Proof.
  intros Hk [R1 R2 R3 R4 R5 R6 R7 R8 R9 R10 R11 R12 R13 R14 R15 R16].
  assert (report_package_from_record d = report_package_from_record u) as Hp by (apply package_frame; apply Hk; unwritten).
  assert (record_identity d = record_identity u) as Hi by (unfold record_identity; by rewrite Hk by unwritten).
  assert (review_artifact_identity d = review_artifact_identity u) as Ha
    by (unfold review_artifact_identity; by rewrite Hp, Hi, Hk by unwritten).
  constructor; try done.
  - apply assert_edition_ok. rewrite Hp, Hi. by apply assert_edition_ok.
  - by rewrite Hk by unwritten.
  - by rewrite Hk by unwritten.
  - by rewrite Hi.
  - by rewrite Ha.
Qed.

(** A complete approval makes an approved record authorizable. *)
Lemma reviewed_authorizable u m a current : reviewed u m ->
  casefold (text_of (dget u "status")) = "approved" -> is_true (dget u "human_review_completed") = true ->
  is_true (dget u "client_delivery_allowed") = false /\ is_mapping (dget u "delivery_authorization") = false ->
  review_artifact_identity u = Ok current -> py_eq (JObj current) (JObj current) = true -> may_decide (claim_of a) ->
  authorizable u m a (JObj current).
Proof.
  intros V Hst Hrev Hfresh Hcur Heq Ha. constructor; try done.
  - apply require_legacy_all. intros v Hv. apply (proj1 (require_legacy_all _) (rv_boundary _ _ V)).
    apply elem_of_cons in Hv as [->|Hv]; [by left|by do 2 right].
  - by destruct (proj1 (guard_nil _ _ _ _ (rv_guard _ _ V)) eq_refl) as (_ & Hacc & _).
  - by rewrite (rv_decision _ _ V).
  - pose proof (rv_manifest_seal _ _ V) as Hs. unfold seal_holds in Hs. apply andb_true_iff in Hs as [Ht Hs%String.eqb_eq].
    assert (text_of (dget m "accepted_edition_manifest_sha256") = dget_str m "accepted_edition_manifest_sha256") as Hstrip.
    { unfold text_of. fold (dget_str m "accepted_edition_manifest_sha256"). rewrite Hs. apply strip_no_space, sha256_hex_no_space. }
    eexists. apply manifest_hash_ok. split_and!; [reflexivity|by rewrite Hstrip|by rewrite Hstrip].
  - exact (rv_guard _ _ V).
  - exists current. by split_and!.
  - by rewrite (rv_bound _ _ V "run_id") by unwritten.
Qed.

(** ** Properties *)

(** C33: who can authorize a delivery, and when.  A receipt is made exactly for
    a record whose run is approved with its human review completed, that has no
    authorization yet, and an accepted, sealed edition the guard accepts for
    the report the record holds now; for the identity of exactly that report at
    this revision; and by a named person in an authorized role with a time and
    a reason.  A receipt that is made validates at once, and permits delivery. *)
Theorem authorization_exact record manifest a expected :
  match authorize_accepted_edition record manifest a expected with
  | Ok r => authorizable record manifest a expected /\
            exists v, validate_delivery_authorization record manifest (JObj r) = Ok v /\
              dget v "status" = JStr "valid" /\ dget v "client_delivery_allowed" = JBool true
  | Raise _ => ~ authorizable record manifest a expected
  end.
Proof.
  destruct (authorize_accepted_edition record manifest a expected) as [r|e] eqn:E.
  - apply authorize_inv in E as (sha & current & human & Hsha & Hcur & Hhum & Hr & Hb & Hst & Hrev & Hf1 & Hf2 & Hm & Heq & Hh).
    pose proof (binding_spec (claim_of a)) as Hs. rewrite Hhum in Hs. destruct Hs as [Hmay _].
    destruct (receipt_fields manifest human current sha) as (_ & _ & _ & _ & F5 & _). rewrite <- Hr in F5. split.
    + constructor; [exact Hb|exact Hst|exact Hrev|by split|apply (rh_accepted _ _ _ Hh)|apply (rh_decision _ _ _ Hh)| | | | |exact Hmay].
      * by exists sha.
      * apply assert_edition_ok, (rh_edition _ _ _ Hh).
      * exists current. by split_and!.
      * pose proof (rh_run _ _ _ Hh) as Hrun. by rewrite F5, text_idem in Hrun.
    + eexists. split; [apply holds_valid; [|exact Hh]|by split]. rewrite Hr. by apply receipt_boundary.
  - intros Z. destruct (authorizable_receipt _ _ _ _ Z) as (r & Hr & _). rewrite Hr in E. discriminate E.
Qed.

(** A receipt is for one report.  When one delivery receipt is found valid
    for two records (with their editions), the runs have one id, and the two
    reports have the same bytes for every required artifact and for the evidence
    manifest where both have one; or else SHA-256 collides on two artifacts or
    on the two lists of their digests. *)
Theorem receipt_fixes_report record record' manifest manifest' r v v' :
  validate_delivery_authorization record manifest (JObj r) = Ok v -> dget v "status" = JStr "valid" ->
  validate_delivery_authorization record' manifest' (JObj r) = Ok v' -> dget v' "status" = JStr "valid" ->
  text_of (dget (record_identity record) "run_id") = text_of (dget (record_identity record') "run_id") /\
  let package := report_package_from_record record in
  let package' := report_package_from_record record' in
  collision (digests_text package) (digests_text package') \/
  forall n, n ∈ package_names package -> n ∈ package_names package' ->
    let b := _bytes (artifact_get (package_artifacts package) n) in
    let b' := _bytes (artifact_get (package_artifacts package') n) in
    b = b' \/ collision b b'.
Proof.
  intros Hv Hs Hv' Hs'. apply receipt_validation_spec in Hv as [Hv _], Hv' as [Hv' _].
  apply Hv in Hs as (? & [= <-] & H). apply Hv' in Hs' as (? & [= <-] & H'). split.
  { by rewrite <- (rh_run _ _ _ H), <- (rh_run _ _ _ H'). }
  intros package package'. destruct (proj1 (assert_edition_ok _ _) (rh_edition _ _ _ H)) as [_ Hg].
  destruct (proj1 (assert_edition_ok _ _) (rh_edition _ _ _ H')) as [_ Hg'].
  apply digests_bind; [|exact (guarded_present _ _ _ Hg)|exact (guarded_present _ _ _ Hg')].
  apply guarded_texts in Hg as [_ Hg], Hg' as [_ Hg']. unfold package, package'.
  by rewrite <- Hg, <- Hg', <- (rh_report _ _ _ H), <- (rh_report _ _ _ H').
Qed.

(** ** Witnesses *)

Module AuthorizationDemo.
Import ReviewDemo.

Definition person : authorizer := Authorizer "Grace" "Security specialist" "contract signed" t0.

Lemma person_may : may_decide (claim_of person).
Proof. split_and!; try (vm_compute; reflexivity); unwritten. Qed.

Lemma record_reviewed : reviewed record manifest.
Proof.
  apply (reviewed_edition ledger record approval t0 manifest).
  - apply Forall_forall. repeat (apply Forall_cons; split; [eexists; split; reflexivity|]). constructor.
  - intros H. vm_compute in H. discriminate H.
  - apply Forall_forall. repeat (apply Forall_cons; split; [vm_compute; reflexivity|]). constructor.
  - exact manifest_ok.
  - split_and!; try (vm_compute; reflexivity).
    + repeat (apply Forall_cons; split; [vm_compute; reflexivity|]). constructor.
    + apply Forall_forall. repeat (apply Forall_cons; split; [vm_compute; reflexivity|]). constructor.
Qed.

Lemma identity_ok : exists current, review_artifact_identity record = Ok current /\ py_eq (JObj current) (JObj current) = true.
Proof.
  eexists. split.
  - eapply bind_step; [reflexivity|]. eapply bind_step; [|exact eq_refl].
    apply (proj1 (require_legacy_all _) (rv_boundary _ _ record_reviewed)). right; left.
  - apply py_eq_refl, plain_obj; [unwritten|]. do 4 (apply List.Forall_cons; [reflexivity|]).
    apply List.Forall_cons; [apply digests_plain, package_names_nodup|constructor].
Qed.

Lemma receipt_ok : exists r, receipt_holds record manifest r /\ leaf r.
Proof.
  destruct identity_ok as (current & Hc & He).
  destruct (authorizable_receipt record manifest person (JObj current)) as (r & Hr & Hh).
  { by apply reviewed_authorizable; [exact record_reviewed|reflexivity..|split; reflexivity|exact Hc|exact He|exact person_may]. }
  exists r. split; [exact Hh|]. apply authorize_inv in Hr as (sha & c & human & _ & _ & _ & -> & _). apply receipt_leaf.
Qed.

(** The same record after a note was added. *)
Definition noted : dict := record ++ [("note", JStr "sent to the client")].

Lemma valid_for rec r : (forall k, k ∈ ["stage_results"; "reports"; "identity"; "status"; "human_review_completed"; "revision"] ->
    dget rec k = dget record k) -> require_legacy_single_pdf [JObj rec] = Ok tt -> receipt_holds record manifest r -> leaf r ->
  validate_delivery_authorization rec manifest (JObj r) = Ok (validation_document []).
Proof.
  intros Hk Hb Hh Hl. apply holds_valid; [|by apply (receipt_frame record)]. apply require_legacy_all. intros v Hv.
  rewrite !elem_of_cons in Hv. destruct Hv as [->|[->|[->|Hv]]].
  - exact Hb.
  - apply (proj1 (require_legacy_all _) (rv_boundary _ _ record_reviewed)). right; right; left.
  - by apply require_leaf.
  - by apply not_elem_of_nil in Hv.
Qed.

End AuthorizationDemo.

Lemma receipt_fixes_report_witness : exists r,
  validate_delivery_authorization ReviewDemo.record ReviewDemo.manifest (JObj r) = Ok (validation_document []) /\
  text_of (dget (record_identity ReviewDemo.record) "run_id") = text_of (dget (record_identity AuthorizationDemo.noted) "run_id").
Proof.
  destruct AuthorizationDemo.receipt_ok as (r & Hh & Hl).
  assert (validate_delivery_authorization ReviewDemo.record ReviewDemo.manifest (JObj r) = Ok (validation_document [])) as H1
    by (apply AuthorizationDemo.valid_for; [done|reflexivity|exact Hh|exact Hl]).
  assert (validate_delivery_authorization AuthorizationDemo.noted ReviewDemo.manifest (JObj r) = Ok (validation_document [])) as H2.
  { apply AuthorizationDemo.valid_for; [|reflexivity|exact Hh|exact Hl].
    apply Forall_forall. repeat (apply Forall_cons; split; [reflexivity|]). constructor. }
  exists r. split; [exact H1|].
  exact (proj1 (receipt_fixes_report _ _ _ _ _ _ _ H1 eq_refl H2 eq_refl)).
Defined.
