(* ===== verification/RunRecord.v ===== *)
(** * The record of a Comprehensive run (nico/comprehensive_run_record.py)

    A run record is a JSON document: identity, stage results, status, review
    and an integrity hash over everything else.  It is created once and moves
    by stage results and review decisions; every operation validates the record
    it is given.

    The test for report bundles and the validation of a delivery authorization
    are those of BundleBoundary and DeliveryAuthorization.  The validation of an
    operator delivery (nico/comprehensive_operator_delivery_v1.py) is an argument
    of the section.  Records are values here: the copies the code makes of them
    are the identity. *)

From S2P Require Import Prelude PyStr Sha256 PyFloat Json JsonFacts BundleBoundary CanonicalHash Orchestration AcceptedEdition HumanEvidence ReviewDecision DeliveryAuthorization.

Definition VERSION : string := "nico.comprehensive_run_record.v5".
Definition LEGACY_VERSION : string := "nico.comprehensive_run_record.v2".
Definition TERMINAL_STATUSES : list string := ["review_required"; "approved"; "rejected"; "failed"; "blocked"].
Definition ACTIVE_STAGE_STATUSES : list string := ["queued"; "running"; "pending"; "planned"; "in_progress"].
Definition SUCCESS_STAGE_STATUSES : list string := ["complete"; "completed"; "passed"; "review_required"].

Definition _required (value field : string) : res string :=
  let normalized := strip value in
  if truthy normalized then Ok normalized else fail ValueError (field +:+ "_required").

(** [float(v)] *)
Definition is_infinite (f : float) : bool := match f with S754_infinity _ => true | _ => false end.
Definition digit_count (s : string) : Z := Z.of_nat (length (List.filter is_decimal (String.list_ascii_of_string s))).
(** Digits with single underscores between; [empty] when nothing may stand. *)
Definition digits_or (empty : bool) (s : string) : option Z :=
  if truthy s then int_digits_value 0 false s else if empty then Some 0 else None.
Definition signed (s : string) : bool * string :=
  match s with
  | String a r => if Ascii.eqb a "-"%char then (true, r) else if Ascii.eqb a "+"%char then (false, r) else (false, s)
  | "" => (false, s)
  end.
Definition decimal_of_str (s : string) : option (Z * Z) :=
  let '(mantissa, exponent) := split_once (fun c => Ascii.eqb c "e"%char || Ascii.eqb c "E"%char) s in
  let '(whole, fraction) := split_once (fun c => Ascii.eqb c "."%char) mantissa in
  let part := default "" fraction in
  w ← digits_or (truthy part) whole;
  p ← digits_or true part;
  e ← match exponent with
      | None => Some 0
      | Some t => let '(neg, t) := signed t in z ← digits_or false t; Some (if neg then - z else z)
      end;
  Some (w * 10 ^ digit_count part + p, e - digit_count part).
Definition float_of_str (s : string) : option float :=
  let '(neg, t) := signed (strip s) in
  if bool_decide (lower t ∈ ["inf"; "infinity"]) then Some (S754_infinity neg)
  else if bool_decide (lower t = "nan") then Some S754_nan
  else '(m, e) ← decimal_of_str t;
       Some (if m =? 0 then S754_zero neg else float_of_decimal (if neg then - m else m) e).
Definition py_float (v : json) : res float :=
  match v with
  | JFloat f => Ok f
  | JInt z => if is_infinite (float_of_Z z) then fail OverflowError "int too large to convert to float"
              else Ok (float_of_Z z)
  | JBool b => Ok (float_of_Z (if b then 1 else 0))
  | JStr s => match float_of_str s with
              | Some f => Ok f | None => fail ValueError "could not convert string to float" end
  | _ => fail TypeError "float() argument must be a string or a real number"
  end.
Example float_of_str_examples :
  float_of_str " 4.35 " = Some (float_of_decimal 435 (-2)) /\ float_of_str "-1_0.5e1" = Some (float_of_decimal (-1050) (-1)) /\
  float_of_str ".5" = Some (float_of_decimal 5 (-1)) /\ float_of_str "." = None /\ float_of_str "-inf" = Some (S754_infinity true).
Proof. split_and!; vm_compute; reflexivity. Qed.

(** [round((n / 23) * 100, 2)] *)
Definition progress_of (n : nat) : float :=
  float_round 2 (fmul (fdiv (float_of_Z (Z.of_nat n)) (float_of_Z (Z.of_nat (length COMPREHENSIVE_STAGES)))) (float_of_Z 100)).

(** ** Creation *)

Record run_request := RunRequest {
  rr_run_id : string; rr_repository : string; rr_commit_sha : string; rr_evidence_ledger_id : string;
  rr_customer_id : string; rr_project_id : string; rr_authorized : bool; rr_assessment_depth : string;
  rr_report_language : string; rr_human_evidence : json; rr_repository_provider : string;
  rr_provider_access_mode : string; rr_provider_credential_used : option bool }.

Definition _record_hash (record : dict) : string := CanonicalHash._canonical_hash (JObj (dremove "integrity_sha256" record)).
Definition hashed (record : dict) : dict := dset record "integrity_sha256" (JStr (_record_hash record)).

Definition run_identity (q : run_request) : res dict :=
  run_id ← _required (rr_run_id q) "run_id";
  repository ← _required (rr_repository q) "repository";
  commit_sha ← _required (rr_commit_sha q) "commit_sha";
  ledger ← _required (rr_evidence_ledger_id q) "evidence_ledger_id";
  customer ← _required (rr_customer_id q) "customer_id";
  project ← _required (rr_project_id q) "project_id";
  depth ← _required (rr_assessment_depth q) "assessment_depth";
  language ← _required (rr_report_language q) "report_language";
  Ok [("run_id", JStr run_id); ("repository", JStr repository); ("commit_sha", JStr commit_sha);
      ("evidence_ledger_id", JStr ledger); ("customer_id", JStr customer); ("project_id", JStr project);
      ("assessment_depth", JStr depth); ("report_language", JStr language)].

Definition initial_record (created_at : string) (identity human_evidence : dict) : dict :=
  [("artifact_schema", JStr VERSION); ("service_id", JStr "comprehensive"); ("identity", JObj identity);
   ("human_evidence", JObj human_evidence); ("status", JStr "ready"); ("current_stage", JNull);
   ("completed_stages", JArr []); ("stage_results", JObj []); ("progress_percent", JFloat (S754_zero false));
   ("created_at", JStr created_at); ("updated_at", JStr created_at); ("revision", JInt 1);
   ("human_review_required", JBool true); ("human_review_completed", JBool false);
   ("client_delivery_allowed", JBool false); ("terminal", JBool false)].

Definition access_binding_ok (mode : string) (used : option bool) : bool :=
  (String.eqb mode "anonymous_public" && bool_decide (used = Some false)) ||
  (String.eqb mode "authenticated_read_only" && bool_decide (used = Some true)).

Definition create_comprehensive_run_record (now : string) (q : run_request) : res dict :=
  _ ← unless (rr_authorized q) ValueError "explicit_authorization_required";
  identity ← run_identity q;
  human_evidence ← normalize_strategic_human_evidence (rr_human_evidence q);
  let record := initial_record now identity human_evidence in
  let provider := strip (rr_repository_provider q) in
  let mode := strip (rr_provider_access_mode q) in
  let record := if truthy provider then dset record "repository_provider" (JStr provider) else record in
  record ← if truthy mode then
             _ ← unless (access_binding_ok mode (rr_provider_credential_used q)) ValueError "provider_access_binding_invalid";
             Ok (dset (dset record "provider_access_mode" (JStr mode)) "provider_credential_used"
                   (match rr_provider_credential_used q with Some b => JBool b | None => JNull end))
           else Ok record;
  Ok (hashed record).

(** ** Validation *)

(** [dict(a) != dict(b)] and its kin *)
Definition differ (a b : json) : bool := negb (py_eq a b).

Definition _manifest_hash_valid (candidate : dict) : bool :=
  let claimed := dget_str candidate "accepted_edition_manifest_sha256" in
  truthy claimed && String.eqb claimed (CanonicalHash._canonical_hash (JObj (dremove "accepted_edition_manifest_sha256" candidate))).
Definition _certificate_hash_valid (review : dict) : bool :=
  let claimed := dget_str review "approval_certificate_sha256" in
  truthy claimed && String.eqb claimed (CanonicalHash._canonical_hash (JObj (dremove "approval_certificate_sha256" review))).

(** [len(set(l)) != len(l)] *)
Definition hashable (v : json) : bool := match v with JArr _ | JObj _ => false | _ => true end.
Fixpoint has_duplicate (l : list json) : bool :=
  match l with [] => false | x :: l => existsb (fun y => py_eq y x) l || has_duplicate l end.

Definition required_identity (strategic : bool) : list string :=
  ["run_id"; "repository"; "commit_sha"; "evidence_ledger_id"; "customer_id"; "project_id"] ++
  (if strategic then ["assessment_depth"; "report_language"] else []).
Definition record_status (record : dict) : string := lower (dget_str record "status").

(** The status a review decision leaves. *)
Definition decision_status (decision : string) : option string :=
  if String.eqb decision "approved" then Some "approved"
  else if String.eqb decision "rejected" then Some "rejected"
  else if String.eqb decision "request_more_evidence" then Some "review_required"
  else None.

Section RunRecord.
Context (validated_operator_delivery : dict -> res bool).

Definition _review_manifest_errors (record : dict) (candidate : json) : res (list string) :=
  match candidate with
  | JObj candidate =>
      recorded ← iter_or_empty (dget candidate "validation_errors");
      let review := candidate_review candidate in
      let decision := casefold (dget_str review "decision") in
      let head :=
        when (negb (bool_decide (recorded = []))) "review_manifest_contains_validation_errors" ++
        when (negb (_manifest_hash_valid candidate)) "review_manifest_hash_mismatch" ++
        when (negb (bool_decide (decision ∈ _ALLOWED_DECISIONS))) "review_decision_invalid" ++
        when (negb (_certificate_hash_valid review)) "review_certificate_hash_mismatch" in
      let package := report_package_from_record record in
      if bool_decide (package = []) then Ok (head ++ ["review_report_package_required"])
      else
        _ ← require_legacy_single_pdf [JObj package];
        let expected_digests := current_report_artifact_digests package in
        let expected_digest := current_report_artifact_digest package in
        let identity := record_identity record in
        tail ←
          if String.eqb decision "approved" then
            validation ← validate_accepted_edition (require_legacy_single_pdf [JObj package; JObj candidate])
                           package candidate (Some identity);
            items ← iter_or_empty (dget validation "validation_errors");
            Ok (map py_str items)
          else Ok (
            when (negb (is_false (dget candidate "accepted_edition"))) "nonapproval_must_not_create_accepted_edition" ++
            when (negb (is_false (dget candidate "client_delivery_allowed"))) "nonapproval_must_block_delivery" ++
            when (negb (String.eqb (dget_str candidate "delivery_status") "blocked")) "nonapproval_delivery_status_invalid");
        Ok (sorted (dict_fromkeys (head ++
          when (negb (forallb (fun n => bool_decide (n ∈ keys expected_digests)) (package_names package)))
            "review_report_artifacts_incomplete" ++
          when (negb (py_eq (JObj expected_digests) (dget candidate "artifact_digests"))) "review_artifact_digests_mismatch" ++
          when (negb (String.eqb (dget_str candidate "report_artifact_digest") expected_digest)) "review_report_digest_mismatch" ++
          when (negb (String.eqb (dget_str review "report_artifact_digest") expected_digest))
            "review_certificate_report_digest_mismatch" ++
          flat_map (fun f => when (negb (String.eqb (dget_str candidate f) (dget_str identity f)))
            ("review_identity_mismatch:" +:+ f)) bound_fields ++
          flat_map (fun f => when (negb (truthy (text_of (dget candidate f)))) ("review_identity_missing:" +:+ f))
            ["tree_sha"; "scanner_run_id"; "evidence_bundle_hash"] ++
          tail)))
  | _ => Ok ["review_manifest_required"]
  end.

(** The part of [_validate_record] on the delivery of an approved record. *)
Definition authorization_violations (record accepted : dict) : res (list string) :=
  match (validation ← validate_delivery_authorization record accepted (dget record "delivery_authorization");
         items ← iter_or_empty (dget validation "validation_errors");
         Ok (map (fun i => "delivery_authorization:" +:+ py_str i) items)) with
  | Ok l => Ok l
  | Raise e =>
      if isinstance e TypeError || isinstance e ValueError
      then Ok ["delivery_authorization:validation_failed:" +:+ before_colon (exn_msg e)] else Raise e
  end.

Definition delivery_violations (record : dict) (status : string) : res (list string) :=
  let delivery_allowed := is_true (dget record "client_delivery_allowed") in
  if String.eqb status "approved" then
    review_errors ← _review_manifest_errors record (dget record "accepted_edition");
    delivered ←
      if delivery_allowed then
        let accepted := as_dict (dget record "accepted_edition") in
        authorization ← authorization_violations record accepted;
        Ok (when (negb (is_false (dget accepted "client_delivery_allowed")))
              "approved_delivery_accepted_edition_must_remain_immutable" ++
            when (negb (String.eqb (dget_str accepted "delivery_status") "pending_authorization"))
              "approved_delivery_accepted_edition_status_changed" ++
            authorization ++
            when (negb (is_mapping (dget record "approved_delivery_package"))) "approved_delivery_package_required")
      else Ok [];
    Ok (when (negb (is_true (dget record "human_review_completed"))) "approved_run_requires_completed_review" ++
        map (fun e => "accepted_edition:" +:+ e) review_errors ++ delivered)
  else if delivery_allowed then
    delivered ← validated_operator_delivery record;
    Ok (when (negb delivered) "client_delivery_must_remain_blocked")
  else Ok [].

Definition review_history (record : dict) : list json :=
  match dget record "review_history" with JArr l => l | _ => [] end.
(** [not isinstance(h[-1], Mapping) or dict(h[-1]) != dict(decision)] *)
Definition last_differs (history : list json) (decision : json) : bool :=
  match last history with
  | Some (JObj d) => differ (JObj d) (JObj (as_dict decision))
  | _ => true
  end.

Definition history_violations (record : dict) (status : string) : list string :=
  let history := review_history record in
  let decision := dget record "review_decision" in
  when (match dget record "review_history" with JNull | JArr _ => false | _ => true end) "review_history_invalid" ++
  (if bool_decide (history = []) then []
   else if negb (is_mapping decision) then ["review_history_requires_review_decision"]
   else when (last_differs history decision) "review_decision_history_mismatch") ++
  (if bool_decide (status ∈ ["approved"; "rejected"])
   then when (bool_decide (history = [])) (status +:+ "_review_history_required") ++
        when (negb (is_mapping decision)) (status +:+ "_review_decision_required")
   else []).

Definition decision_violations (record : dict) (status : string) : res (list string) :=
  let history := review_history record in
  let decision := dget record "review_decision" in
  let accepted := dget record "accepted_edition" in
  if bool_decide (decision = JNull) then Ok []
  else
    review_errors ← _review_manifest_errors record decision;
    let verdict := casefold (dget_str (candidate_review (as_dict decision)) "decision") in
    Ok (map (fun e => "review_decision:" +:+ e) review_errors ++
        match decision_status verdict with
        | Some expected => when (negb (String.eqb status expected)) "review_decision_status_mismatch"
        | None => []
        end ++
        (if bool_decide (history = []) then ["review_decision_history_required"]
         else when (last_differs history decision) "review_decision_history_mismatch") ++
        (if String.eqb verdict "approved"
         then when (negb (is_mapping accepted) || differ accepted (JObj (as_dict decision)))
                "approved_accepted_edition_history_mismatch"
         else when (is_mapping accepted) "nonapproval_must_not_retain_accepted_edition")).

Definition edition_violations (record : dict) (status : string) : list string :=
  let accepted := dget record "accepted_edition" in
  when (String.eqb status "approved" && is_mapping accepted && last_differs (review_history record) accepted)
    "approved_accepted_edition_history_mismatch".

Definition evidence_violations (record : dict) : list string :=
  match dget record "human_evidence" with
  | JObj e =>
      when (negb (bool_decide (dget e "artifact_schema" = JStr human_evidence_version))) "human_evidence_schema_invalid" ++
      when (negb (verify_strategic_human_evidence (JObj e))) "human_evidence_hash_mismatch"
  | _ => ["human_evidence_required"]
  end.

Definition progress_violations (record : dict) : res (list string) :=
  completed ← iter_or_empty (dget record "completed_stages");
  _ ← unless (forallb hashable completed) TypeError "unhashable type";
  progress ← py_float (jor (dget record "progress_percent") (JFloat (S754_zero false)));
  Ok (when (negb (bool_decide (completed = map JStr (take (length completed) COMPREHENSIVE_STAGES))))
        "completed_stages_must_be_ordered_prefix" ++
      when (has_duplicate completed) "duplicate_completed_stages" ++
      when (negb (feqb progress (progress_of (length completed)))) "progress_must_match_completed_stages").

Definition _validate_record (record : dict) (require_strategic_context : bool) : res (list string) :=
  let status := record_status record in
  delivery ← delivery_violations record status;
  decision ← decision_violations record status;
  progress ← progress_violations record;
  Ok (flat_map (fun f => when (negb (truthy (text_of (dget (record_identity record) f)))) (f +:+ "_required"))
        (required_identity require_strategic_context) ++
      when (negb (bool_decide (dget record "service_id" = JStr "comprehensive"))) "service_id_must_be_comprehensive" ++
      when (negb (is_true (dget record "human_review_required"))) "human_review_required" ++
      delivery ++ history_violations record status ++ decision ++ edition_violations record status ++
      (if require_strategic_context then evidence_violations record else []) ++
      progress ++
      when (negb (bool_decide (dget record "integrity_sha256" = JStr (_record_hash record)))) "integrity_hash_mismatch" ++
      when (negb (Bool.eqb (py_truthy (dget record "terminal")) (bool_decide (status ∈ TERMINAL_STATUSES))))
        "terminal_flag_mismatch").

Definition validate_comprehensive_run_record (record : dict) : res dict :=
  violations ← _validate_record record (negb (String.eqb (dget_str record "artifact_schema") LEGACY_VERSION));
  Ok [("status", JStr (if bool_decide (violations = []) then "valid" else "invalid"));
      ("violations", JArr (map JStr violations))].

(** ** Operations *)

Definition violations_of (validation : dict) : string :=
  match dget validation "violations" with JArr l => join "," (map py_str l) | _ => "" end.
(** [if validation["status"] != "valid": raise ValueError(m + ...)] *)
Definition require_valid (m : string) (record : dict) : res unit :=
  validation ← validate_comprehensive_run_record record;
  unless (bool_decide (dget validation "status" = JStr "valid")) ValueError (m +:+ ":" +:+ violations_of validation).

(** [d[k]] *)
Definition item (d : dict) (k : string) : res json :=
  match dlookup k d with Some v => Ok v | None => fail KeyError k end.

Definition _copy_record_for_update (record : dict) : dict :=
  if has_key record "stage_results" then record else record ++ [("stage_results", JObj [])].

(** [updated["stage_results"][stage_id] = normalized] *)
Definition store_stage (record : dict) (stage_id : string) (normalized : dict) : res dict :=
  match dget record "stage_results" with
  | JObj stages => Ok (dset record "stage_results" (JObj (dset stages stage_id (JObj normalized))))
  | _ => fail TypeError "object does not support item assignment"
  end.

Definition drift_fields : list string := ["run_id"; "repository"; "commit_sha"; "evidence_ledger_id"].
Fixpoint check_drift (stage_id : string) (identity result : dict) (fields : list string) : res unit :=
  match fields with
  | [] => Ok tt
  | field :: fields =>
      own ← item identity field;
      let supplied := strip (py_str (jor (dget result field) own)) in
      _ ← unless (bool_decide (own = JStr supplied)) ValueError (stage_id +:+ ":" +:+ field +:+ "_identity_drift");
      check_drift stage_id identity result fields
  end.

(** The stage result as it is kept: identity and review flags are the record's. *)
Definition normalized_result (stage_id status : string) (identity result : dict) (depth language : json) : dict :=
  let d := dset (dset result "stage_id" (JStr stage_id)) "status" (JStr status) in
  let d := fold_left (fun d f => dset d f (dget identity f)) drift_fields d in
  dset (dset (dset (dset d "assessment_depth" depth) "report_language" language)
    "human_review_required" (JBool true)) "client_delivery_allowed" (JBool false).

(** Its three ways on: the stage is done, it goes on, it blocks. *)
Definition advance (stage_id status : string) (updated : dict) (completed : list json) : dict * list json :=
  if bool_decide (status ∈ SUCCESS_STAGE_STATUSES) then
    let completed := completed ++ [JStr stage_id] in
    (dset (dset updated "completed_stages" (JArr completed)) "status"
       (JStr (if (length completed =? length COMPREHENSIVE_STAGES)%nat then "review_required" else "running")), completed)
  else if bool_decide (status ∈ ACTIVE_STAGE_STATUSES) then (dset updated "status" (JStr "running"), completed)
  else (dset updated "status" (JStr "blocked"), completed).

(** Its last lines: progress, time, revision, flags and hash. *)
Definition finish_update (updated : dict) (completed : list json) (now : string) : res dict :=
  let updated := dset updated "progress_percent" (JFloat (progress_of (length completed))) in
  let updated := dset updated "updated_at" (JStr now) in
  revision ← py_int (jor (dget updated "revision") (JInt 0));
  let updated := dset updated "revision" (JInt (revision + 1)) in
  let updated := dset updated "terminal" (JBool (bool_decide (dget_str updated "status" ∈ TERMINAL_STATUSES))) in
  let updated := dset (dset (dset updated "human_review_required" (JBool true)) "human_review_completed" (JBool false))
                   "client_delivery_allowed" (JBool false) in
  Ok (hashed updated).

Definition apply_comprehensive_stage_result (record : dict) (stage_id : string) (result : dict) (now : string) : res dict :=
  _ ← require_valid "invalid_run_record" record;
  let updated := _copy_record_for_update record in
  stages ← item updated "completed_stages";
  completed ← py_iter stages;
  let expected_stage := COMPREHENSIVE_STAGES !! length completed in
  _ ← unless (bool_decide (Some stage_id = expected_stage)) ValueError
        ("unexpected_stage:" +:+ stage_id +:+ ":expected:" +:+ default "None" expected_stage);
  identity ← (v ← item updated "identity"; as_mapping v);
  _ ← check_drift stage_id identity result drift_fields;
  let status := lower (strip (py_str (jor (dget result "status") (JStr "complete")))) in
  depth ← item identity "assessment_depth";
  language ← item identity "report_language";
  updated ← store_stage updated stage_id (normalized_result stage_id status identity result depth language);
  let '(updated, completed) := advance stage_id status (dset updated "current_stage" (JStr stage_id)) completed in
  finish_update updated completed now.

(** The record with a decision written into it. *)
Definition decide_update (updated manifest : dict) (decision status : string) (history : list json) (now : string)
    : res dict :=
  let updated := dset (dset updated "review_history" (JArr history)) "review_decision" (JObj manifest) in
  let updated := if String.eqb decision "approved" then dset updated "accepted_edition" (JObj manifest)
                 else dremove "accepted_edition" updated in
  let updated := dremove "delivery_authorization" (dremove "approved_delivery_package" updated) in
  let package := report_package_from_record updated in
  let updated := dset updated "review_context" (JObj
    [("report_id", JStr (dget_str package "report_id")); ("pdf_filename", JStr (dget_str package "pdf_filename"));
     ("report_regenerated_during_review", JBool false);
     ("artifact_digest", JStr (dget_str manifest "report_artifact_digest"))]) in
  let updated := dset (dset (dset (dset (dset (dset updated "status" (JStr status)) "terminal" (JBool true))
    "human_review_required" (JBool true)) "human_review_completed" (JBool (bool_decide (decision ∈ ["approved"; "rejected"]))))
    "client_delivery_allowed" (JBool false)) "updated_at" (JStr now) in
  revision ← py_int (jor (dget updated "revision") (JInt 0));
  Ok (hashed (dset updated "revision" (JInt (revision + 1)))).

Definition apply_comprehensive_review_decision (record manifest : dict) (now : string) : res dict :=
  _ ← require_valid "invalid_run_record" record;
  _ ← unless (String.eqb (record_status record) "review_required") ValueError "review_decision_requires_review_required_run";
  completed ← iter_or_empty (dget record "completed_stages");
  _ ← unless (bool_decide (completed = map JStr COMPREHENSIVE_STAGES)) ValueError
        "review_decision_requires_complete_stage_sequence";
  errors ← _review_manifest_errors record (JObj manifest);
  _ ← unless (bool_decide (errors = [])) ValueError ("invalid_review_manifest:" +:+ join "," errors);
  let updated := _copy_record_for_update record in
  let decision := casefold (dget_str (candidate_review manifest) "decision") in
  status ← match decision_status decision with Some s => Ok s | None => fail KeyError decision end;
  past ← iter_or_empty (dget updated "review_history");
  let history := map JObj (objects past) ++ [JObj manifest] in
  updated ← decide_update updated manifest decision status history now;
  _ ← require_valid "invalid_reviewed_run_record" updated;
  Ok updated.

(** [d.setdefault(k, v)] *)
Definition setdefault (d : dict) (k : string) (v : json) : dict := if has_key d k then d else d ++ [(k, v)].

Definition restore_comprehensive_run_record (payload : dict) : res dict :=
  let restored := _copy_record_for_update payload in
  _ ← require_valid "invalid_persisted_run_record" restored;
  if bool_decide (dget restored "artifact_schema" = JStr LEGACY_VERSION) then
    identity ← (v ← item restored "identity"; as_mapping v);
    let identity := setdefault (setdefault identity "assessment_depth" (JStr "not_recorded"))
                      "report_language" (JStr "not_recorded") in
    human_evidence ← normalize_strategic_human_evidence JNull;
    let restored := dset (dset restored "identity" (JObj identity)) "human_evidence" (JObj human_evidence) in
    let restored := setdefault restored "human_review_completed" (JBool false) in
    let restored := hashed (dset restored "artifact_schema" (JStr VERSION)) in
    _ ← require_valid "invalid_upgraded_run_record" restored;
    Ok restored
  else Ok restored.

End RunRecord.

(** ** Lemmas *)

Lemma record_hash_hashed r : dget (hashed r) "integrity_sha256" = JStr (_record_hash (hashed r)).
Proof. unfold hashed, _record_hash. by rewrite dget_dset_eq, dremove_dset. Qed.

Lemma dget_hashed r k : k <> "integrity_sha256" -> dget (hashed r) k = dget r k.
Proof. intros H. unfold hashed. by rewrite dget_dset_ne. Qed.

Lemma item_of d k v : dget d k = v -> v <> JNull -> item d k = Ok v.
Proof. unfold dget, item. destruct (dlookup k d); simpl; congruence. Qed.

Lemma has_key_of d k v : dget d k = v -> v <> JNull -> has_key d k = true.
Proof.
  intros H Hv. apply bool_decide_eq_true. destruct (decide (k ∈ keys d)) as [|Hk]; [done|].
  apply dlookup_None in Hk. unfold dget in H. rewrite Hk in H. by subst.
Qed.

Lemma has_duplicate_strs l : NoDup l -> has_duplicate (map JStr l) = false.
Proof.
  induction 1 as [|x l Hx _ IH]; simpl; [done|]. rewrite IH, orb_false_r. clear IH.
  induction l as [|y l IH]; simpl; [done|]. rewrite IH by set_solver. rewrite orb_false_r.
  apply String.eqb_neq. set_solver.
Qed.

Lemma take_stages_nodup n : NoDup (take n COMPREHENSIVE_STAGES).
Proof. eapply (sublist_NoDup _ COMPREHENSIVE_STAGES); [apply stages_nodup|apply sublist_take]. Qed.

Lemma progress_reflexive n : (n <= 23)%nat -> feqb (progress_of n) (progress_of n) = true.
Proof.
  intros H. assert (forallb (fun n => feqb (progress_of n) (progress_of n)) (seq 0 24) = true) as Ha
    by (vm_compute; reflexivity).
  rewrite forallb_forall in Ha. apply Ha, in_seq. lia.
Qed.

Lemma hashable_strs l : forallb hashable (map JStr l) = true.
Proof. induction l; simpl; done. Qed.

Definition active_statuses : list string := ["ready"; "running"; "review_required"; "blocked"].

(** The records that creation and stage results make, after [n] stages. *)
Record run_state (n : nat) (r : dict) : Prop := RunState {
  rs_stages : (n <= 23)%nat;
  rs_schema : dget r "artifact_schema" = JStr VERSION;
  rs_service : dget r "service_id" = JStr "comprehensive";
  rs_identity : exists i, dget r "identity" = JObj i /\
    forall f, f ∈ required_identity true -> exists s, dget i f = JStr s /\ strip s = s /\ s <> "";
  rs_evidence : exists e, dget r "human_evidence" = JObj e /\
    dget e "artifact_schema" = JStr human_evidence_version /\ verify_strategic_human_evidence (JObj e) = true;
  rs_status : exists s, dget r "status" = JStr s /\ s ∈ active_statuses /\
    dget r "terminal" = JBool (bool_decide (s ∈ TERMINAL_STATUSES)) /\ (s = "review_required" <-> n = 23%nat);
  rs_completed : dget r "completed_stages" = JArr (map JStr (take n COMPREHENSIVE_STAGES));
  rs_results : exists stages, dget r "stage_results" = JObj stages;
  rs_progress : dget r "progress_percent" = JFloat (progress_of n);
  rs_revision : exists z, dget r "revision" = JInt z /\ 1 <= z;
  rs_review : dget r "human_review_required" = JBool true;
  rs_delivery : dget r "client_delivery_allowed" = JBool false;
  rs_decision : dget r "review_decision" = JNull;
  rs_history : dget r "review_history" = JNull;
  rs_integrity : dget r "integrity_sha256" = JStr (_record_hash r) }.

Lemma active_cases s : s ∈ active_statuses ->
  s = "ready" \/ s = "running" \/ s = "review_required" \/ s = "blocked".
Proof. unfold active_statuses. rewrite !elem_of_cons, elem_of_nil. tauto. Qed.

Lemma active_lower s : s ∈ active_statuses -> lower s = s.
Proof. intros H. destruct (active_cases s H) as [->|[->|[->| ->]]]; reflexivity. Qed.

Lemma state_status n r : run_state n r -> exists s, record_status r = s /\ s ∈ active_statuses /\
  dget r "status" = JStr s /\ dget r "terminal" = JBool (bool_decide (s ∈ TERMINAL_STATUSES)).
Proof.
  intros H. destruct (rs_status _ _ H) as (s & Hs & Hin & Ht & _). exists s. unfold record_status.
  rewrite (dget_str_of _ _ _ Hs). split_and!; [by apply active_lower|done|done|done].
Qed.

Lemma state_identity n r f : run_state n r -> f ∈ required_identity true ->
  truthy (text_of (dget (record_identity r) f)) = true.
Proof.
  intros H Hf. destruct (rs_identity _ _ H) as (i & Hi & Hall). unfold record_identity. rewrite Hi. cbn [as_dict].
  destruct (Hall f Hf) as (s & -> & Hs & Hn). rewrite text_of_str, Hs. by apply truthy_spec.
Qed.

(** [kept F] rewrites with a
    frame equation [F] at a concrete key, [field] proves a member of a new record. *)
Ltac kept F := rewrite F by unwritten.
Ltac field :=
  match goal with Hd : forall k v, _ -> _ -> dget _ k = v |- _ => apply Hd; [unwritten|reflexivity] end.

(** [look] reads a member of a record built by updates. *)
Ltac look := rewrite ?dget_hashed by discriminate;
  repeat first [rewrite dget_dset_eq | rewrite dget_dset_ne by discriminate].

(** ** Creation makes a run state *)

Lemma required_inv v f s : _required v f = Ok s -> s = strip v /\ strip s = s /\ s <> "".
Proof.
  unfold _required. intros H. destruct (truthy (strip v)) eqn:Ht; [|discriminate H]. injection H as <-.
  split_and!; [done|apply strip_idemp|by apply truthy_spec].
Qed.

Lemma identity_fields_ok q i : run_identity q = Ok i ->
  forall f, f ∈ required_identity true -> exists s, dget i f = JStr s /\ strip s = s /\ s <> "".
Proof.
  unfold run_identity. intros H. do 8 (apply bind_ok_inv in H as (? & ?%required_inv & H)). injection H as <-.
  intros f Hf. unfold required_identity in Hf. destruct_and!.
  repeat (apply elem_of_cons in Hf as [->|Hf]; [eexists; split; [reflexivity|]; by split|]).
  by apply not_elem_of_nil in Hf.
Qed.

Lemma evidence_ok v p : normalize_strategic_human_evidence v = Ok p ->
  dget p "artifact_schema" = JStr human_evidence_version /\ verify_strategic_human_evidence (JObj p) = true.
Proof. intros H. split; [|by eapply normalized_verifies]. apply normalize_inv in H as (ms & _ & ->). reflexivity. Qed.

(** The members of a new record are those of [initial_record], but for the
    provider and the hash. *)
Lemma record_create_inv now q r : create_comprehensive_run_record now q = Ok r ->
  rr_authorized q = true /\ exists i e, run_identity q = Ok i /\
    normalize_strategic_human_evidence (rr_human_evidence q) = Ok e /\
    dget r "integrity_sha256" = JStr (_record_hash r) /\
    forall k, k ∉ ["integrity_sha256"; "repository_provider"; "provider_access_mode"; "provider_credential_used"] ->
      dget r k = dget (initial_record now i e) k.
Proof.
  unfold create_comprehensive_run_record. intros H. apply bind_ok_inv in H as (u & Hu%unless_ok & H).
  apply bind_ok_inv in H as (i & Hi & H). apply bind_ok_inv in H as (e & He & H).
  apply bind_ok_inv in H as (rec & Hrec & H). injection H as <-.
  split; [exact Hu|]. exists i, e. split_and!; [done|done|apply record_hash_hashed|].
  intros k Hk. rewrite !not_elem_of_cons in Hk. destruct Hk as (K1 & K2 & K3 & K4 & _).
  rewrite dget_hashed by done.
  assert (dget rec k = dget (if truthy (strip (rr_repository_provider q))
    then dset (initial_record now i e) "repository_provider" (JStr (strip (rr_repository_provider q)))
    else initial_record now i e) k) as ->.
  { destruct (truthy (strip (rr_provider_access_mode q))); [|by injection Hrec as <-].
    apply bind_ok_inv in Hrec as (? & _ & Hrec). injection Hrec as <-. by rewrite !dget_dset_ne by done. }
  destruct (truthy (strip (rr_repository_provider q))); [|reflexivity]. by rewrite dget_dset_ne.
Qed.

Lemma create_state now q r : create_comprehensive_run_record now q = Ok r -> run_state 0 r.
Proof.
  intros H. apply record_create_inv in H as (_ & i & e & Hi & He & Hh & Hk).
  assert (forall k v, k ∉ ["integrity_sha256"; "repository_provider"; "provider_access_mode"; "provider_credential_used"] ->
    dget (initial_record now i e) k = v -> dget r k = v) as Hd by (intros k v Hn <-; auto).
  split; try field; try exact Hh; try lia.
  - exists i. split; [field|]. by eapply identity_fields_ok.
  - exists e. split; [field|]. by eapply evidence_ok.
  - exists "ready". split_and!; [field|left|field|]. split; [discriminate|lia].
  - exists []. field.
  - exists 1. split; [field|lia].
Qed.

Section Facts.
Context (operator_delivery : dict -> res bool).
Notation validates := (_validate_record operator_delivery).
Notation apply_result := (apply_comprehensive_stage_result operator_delivery).

Lemma state_progress n r : run_state n r -> progress_violations r = Ok [].
Proof.
  intros H. unfold progress_violations. rewrite (rs_completed _ _ H), (rs_progress _ _ H).
  assert (iter_or_empty (JArr (map JStr (take n COMPREHENSIVE_STAGES))) = Ok (map JStr (take n COMPREHENSIVE_STAGES))) as ->.
  { unfold iter_or_empty. by destruct (take n COMPREHENSIVE_STAGES). }
  cbn [mbind res_bind]. rewrite hashable_strs. cbn [unless mbind res_bind].
  assert (py_float (jor (JFloat (progress_of n)) (JFloat (S754_zero false))) = Ok (progress_of n) \/
          progress_of n = S754_zero true) as [->|Hz].
  { unfold jor. cbn [py_truthy]. destruct (progress_of n) as [[]| | |]; auto. }
  2: { exfalso. pose proof (rs_stages _ _ H) as Hn. revert Hz.
       assert (forallb (fun n => match progress_of n with S754_zero true => false | _ => true end) (seq 0 24) = true) as Ha
         by (vm_compute; reflexivity).
       rewrite forallb_forall in Ha. specialize (Ha n). rewrite in_seq in Ha. specialize (Ha ltac:(lia)).
       intros Hz. rewrite Hz in Ha. discriminate Ha. }
  cbn [mbind res_bind]. rewrite length_map, length_take.
  assert ((n `min` length COMPREHENSIVE_STAGES)%nat = n) as -> by (pose proof (rs_stages _ _ H); cbn; lia).
  rewrite bool_decide_eq_true_2 by done. rewrite (has_duplicate_strs _ (take_stages_nodup n)).
  by rewrite progress_reflexive by apply (rs_stages _ _ H).
Qed.

Lemma state_valid n r : run_state n r -> validates r true = Ok [].
Proof.
  intros H. destruct (state_status _ _ H) as (s & Hs & Hin & _ & Ht).
  assert (String.eqb s "approved" = false /\ bool_decide (s ∈ ["approved"; "rejected"]) = false) as [Ha Har].
  { destruct (active_cases s Hin) as [->|[->|[->| ->]]]; split; reflexivity. }
  unfold _validate_record. rewrite Hs. unfold delivery_violations. rewrite Ha, (rs_delivery _ _ H). cbn [is_true mbind res_bind].
  unfold decision_violations. rewrite (rs_decision _ _ H), (bool_decide_eq_true_2 (JNull = JNull)) by done. cbn [mbind res_bind].
  rewrite (state_progress _ _ H). cbn [mbind res_bind]. f_equal.
  rewrite !app_nil, !when_nil, !negb_false_iff. split_and!.
  - apply flat_map_nil. intros f Hf. by rewrite (state_identity n r f H Hf).
  - apply bool_decide_eq_true, (rs_service _ _ H).
  - by rewrite (rs_review _ _ H).
  - done.
  - unfold history_violations, review_history. rewrite (rs_history _ _ H), Har. done.
  - done.
  - unfold edition_violations. by rewrite Ha.
  - destruct (rs_evidence _ _ H) as (e & He & Hsch & Hv). unfold evidence_violations. rewrite He, Hsch, Hv.
    by rewrite bool_decide_eq_true_2.
  - done.
  - apply bool_decide_eq_true, (rs_integrity _ _ H).
  - rewrite Ht. cbn [py_truthy]. apply eqb_reflx.
Qed.

Lemma state_require_valid n r m : run_state n r ->
  require_valid operator_delivery m r = Ok tt.
Proof.
  intros H. unfold require_valid, validate_comprehensive_run_record.
  rewrite (dget_str_of _ _ _ (rs_schema _ _ H)). change (negb (String.eqb VERSION LEGACY_VERSION)) with true.
  by rewrite (state_valid _ _ H).
Qed.

(** ** One stage result *)

(** The result repeats the identity of the run or leaves it out. *)
Definition keeps_identity (identity result : dict) : Prop :=
  forall f, f ∈ drift_fields -> dget identity f = JStr (strip (py_str (jor (dget result f) (dget identity f)))).

Lemma check_drift_spec id identity result fields :
  (forall f, f ∈ fields -> dget identity f <> JNull) ->
  match check_drift id identity result fields with
  | Ok _ => forall f, f ∈ fields -> dget identity f = JStr (strip (py_str (jor (dget result f) (dget identity f))))
  | Raise e => exn_class e = ValueError /\ exists f, f ∈ fields /\
      dget identity f <> JStr (strip (py_str (jor (dget result f) (dget identity f))))
  end.
Proof.
  induction fields as [|f fields IH]; cbn [check_drift]; intros H; [by intros f ?%not_elem_of_nil|].
  rewrite (item_of identity f _ eq_refl) by (apply H; left). cbn [mbind res_bind]. unfold unless, fail.
  case_bool_decide as Hf; cbn [mbind res_bind].
  - specialize (IH (fun g Hg => H g (list_elem_of_further _ _ _ Hg))).
    destruct (check_drift id identity result fields) as [u|e].
    + intros g [->|Hg]%elem_of_cons; [exact Hf|auto].
    + destruct IH as [He (g & Hg & Hd)]. split; [done|]. exists g. split; [by right|done].
  - split; [done|]. exists f. split; [left|done].
Qed.

Definition stage_status (result : dict) : string := lower (strip (py_str (jor (dget result "status") (JStr "complete")))).

Lemma take_next n id : COMPREHENSIVE_STAGES !! n = Some id ->
  map JStr (take n COMPREHENSIVE_STAGES) ++ [JStr id] = map JStr (take (S n) COMPREHENSIVE_STAGES).
Proof. intros H. rewrite (take_S_r _ _ _ H), map_app. reflexivity. Qed.

Lemma lookup_stage_le n id : COMPREHENSIVE_STAGES !! n = Some id -> (n < 23)%nat.
Proof. intros H%lookup_lt_Some. exact H. Qed.

(** The stages done and the status after a result. *)
Definition stages_after (n : nat) (status : string) : nat :=
  if bool_decide (status ∈ SUCCESS_STAGE_STATUSES) then S n else n.
Definition status_after (n : nat) (status : string) : string :=
  if bool_decide (status ∈ SUCCESS_STAGE_STATUSES) then if (S n =? 23)%nat then "review_required" else "running"
  else if bool_decide (status ∈ ACTIVE_STAGE_STATUSES) then "running" else "blocked".

Lemma status_after_active n status : status_after n status ∈ active_statuses.
Proof.
  apply (bool_decide_unpack _). unfold status_after.
  destruct (bool_decide (status ∈ SUCCESS_STAGE_STATUSES)), (S n =? 23)%nat, (bool_decide (status ∈ ACTIVE_STAGE_STATUSES));
    vm_compute; exact I.
Qed.

(** The members a stage result writes. *)
Definition written : list string :=
  ["current_stage"; "stage_results"; "completed_stages"; "status"; "progress_percent"; "updated_at"; "revision";
   "terminal"; "human_review_required"; "human_review_completed"; "client_delivery_allowed"; "integrity_sha256"].

(** The record that a stage result leaves. *)
Record stage_effect (n : nat) (r : dict) (id : string) (result : dict) (now : string) (r' : dict) : Prop := StageEffect {
  se_revision : exists z, dget r "revision" = JInt z /\ dget r' "revision" = JInt (z + 1);
  se_completed : dget r' "completed_stages" =
    JArr (map JStr (take (stages_after n (stage_status result)) COMPREHENSIVE_STAGES));
  se_status : dget r' "status" = JStr (status_after n (stage_status result));
  se_terminal : dget r' "terminal" = JBool (bool_decide (status_after n (stage_status result) ∈ TERMINAL_STATUSES));
  se_progress : dget r' "progress_percent" = JFloat (progress_of (stages_after n (stage_status result)));
  se_review : dget r' "human_review_required" = JBool true;
  se_delivery : dget r' "client_delivery_allowed" = JBool false;
  se_integrity : dget r' "integrity_sha256" = JStr (_record_hash r');
  se_results : exists stages stages' kept, dget r "stage_results" = JObj stages /\ dget r' "stage_results" = JObj stages' /\
    dget stages' id = JObj kept /\ dget kept "client_delivery_allowed" = JBool false /\
    dget kept "human_review_required" = JBool true /\ dget kept "status" = JStr (stage_status result) /\
    forall k, k <> id -> dget stages' k = dget stages k;
  se_frame : forall k, k ∉ written -> dget r' k = dget r k }.


Lemma effect_state n r id result now r' : run_state n r -> COMPREHENSIVE_STAGES !! n = Some id ->
  stage_effect n r id result now r' -> run_state (stages_after n (stage_status result)) r'.
Proof.
  intros H Hid E. pose proof (lookup_stage_le _ _ Hid) as Hn.
  assert (forall k v, dget r k = v -> k ∉ written -> dget r' k = v) as Hd
    by (intros k v <- Hk; exact (se_frame _ _ _ _ _ _ E k Hk)).
  split.
  - unfold stages_after. case_bool_decide; lia.
  - apply Hd; [apply (rs_schema _ _ H)|unwritten].
  - apply Hd; [apply (rs_service _ _ H)|unwritten].
  - destruct (rs_identity _ _ H) as (i & Hi & Hall). exists i. split; [apply Hd; [exact Hi|unwritten]|exact Hall].
  - destruct (rs_evidence _ _ H) as (e & He & Hv). exists e. split; [apply Hd; [exact He|unwritten]|exact Hv].
  - exists (status_after n (stage_status result)).
    split_and!; [apply (se_status _ _ _ _ _ _ E)|apply status_after_active|apply (se_terminal _ _ _ _ _ _ E)|].
    unfold status_after, stages_after. case_bool_decide.
    + destruct (Nat.eqb_spec (S n) 23); (split; [|by intros]); intros; [done|discriminate].
    + split; [|lia]. case_bool_decide; discriminate.
  - apply (se_completed _ _ _ _ _ _ E).
  - destruct (se_results _ _ _ _ _ _ E) as (s1 & s2 & _ & _ & Hs & _). eauto.
  - apply (se_progress _ _ _ _ _ _ E).
  - destruct (se_revision _ _ _ _ _ _ E) as (z & Hz & Hz'). exists (z + 1). split; [exact Hz'|].
    destruct (rs_revision _ _ H) as (z' & Hr & Hpos). rewrite Hz in Hr. injection Hr as ->. lia.
  - apply (se_review _ _ _ _ _ _ E).
  - apply (se_delivery _ _ _ _ _ _ E).
  - apply Hd; [apply (rs_decision _ _ H)|unwritten].
  - apply Hd; [apply (rs_history _ _ H)|unwritten].
  - apply (se_integrity _ _ _ _ _ _ E).
Qed.

Lemma advance_spec n id status d : COMPREHENSIVE_STAGES !! n = Some id ->
  dget d "completed_stages" = JArr (map JStr (take n COMPREHENSIVE_STAGES)) ->
  exists d', advance id status d (map JStr (take n COMPREHENSIVE_STAGES)) =
               (d', map JStr (take (stages_after n status) COMPREHENSIVE_STAGES)) /\
    dget d' "completed_stages" = JArr (map JStr (take (stages_after n status) COMPREHENSIVE_STAGES)) /\
    dget d' "status" = JStr (status_after n status) /\
    forall k, k <> "completed_stages" -> k <> "status" -> dget d' k = dget d k.
Proof.
  intros Hid Hd. unfold advance, stages_after, status_after. pose proof (lookup_stage_le _ _ Hid) as Hn.
  destruct (bool_decide (status ∈ SUCCESS_STAGE_STATUSES)).
  - rewrite (take_next _ _ Hid). rewrite length_map, length_take.
    assert ((S n `min` length COMPREHENSIVE_STAGES)%nat = S n) as -> by (cbn; lia).
    eexists. split_and!; [reflexivity| | |].
    + rewrite dget_dset_ne by discriminate. by rewrite dget_dset_eq.
    + by rewrite dget_dset_eq.
    + intros k K1 K2. by rewrite !dget_dset_ne by done.
  - destruct (bool_decide (status ∈ ACTIVE_STAGE_STATUSES)); eexists; (split_and!; [reflexivity| | |]).
    all: try (rewrite dget_dset_ne by discriminate; exact Hd).
    all: try (by rewrite dget_dset_eq).
    all: intros k _ K2; by rewrite dget_dset_ne.
Qed.

Lemma finish_spec d completed now z s : dget d "revision" = JInt z -> 1 <= z -> dget d "status" = JStr s ->
  exists r', finish_update d completed now = Ok r' /\ dget r' "revision" = JInt (z + 1) /\
    dget r' "terminal" = JBool (bool_decide (s ∈ TERMINAL_STATUSES)) /\
    dget r' "progress_percent" = JFloat (progress_of (length completed)) /\
    dget r' "human_review_required" = JBool true /\ dget r' "client_delivery_allowed" = JBool false /\
    dget r' "integrity_sha256" = JStr (_record_hash r') /\
    forall k, k ∉ ["progress_percent"; "updated_at"; "revision"; "terminal"; "human_review_required";
      "human_review_completed"; "client_delivery_allowed"; "integrity_sha256"] -> dget r' k = dget d k.
Proof.
  intros Hz Hpos Hs. unfold finish_update. do 2 rewrite dget_dset_ne by discriminate. rewrite Hz.
  assert (py_int (jor (JInt z) (JInt 0)) = Ok z) as ->.
  { unfold jor. cbn [py_truthy]. by replace (z =? 0) with false by lia. }
  cbn [mbind res_bind]. eexists. split; [reflexivity|].
  split; [look; reflexivity|]. split.
  { look. do 2 f_equal. unfold dget_str. look. rewrite Hs. by destruct s. }
  split; [look; reflexivity|]. split; [look; reflexivity|]. split; [look; reflexivity|].
  split; [apply record_hash_hashed|]. intros k Hk. rewrite !not_elem_of_cons in Hk. destruct_and!.
  rewrite dget_hashed by done. by rewrite !dget_dset_ne by done.
Qed.

Lemma apply_spec n r id result now : run_state n r ->
  match apply_result r id result now with
  | Ok r' => COMPREHENSIVE_STAGES !! n = Some id /\ keeps_identity (record_identity r) result /\
             stage_effect n r id result now r'
  | Raise e => exn_class e = ValueError /\
               (COMPREHENSIVE_STAGES !! n <> Some id \/ ~ keeps_identity (record_identity r) result)
  end.
Proof.
  intros H. destruct (rs_identity _ _ H) as (i & Hi & Hall). destruct (rs_results _ _ H) as (stages & Hst).
  destruct (rs_revision _ _ H) as (z & Hz & Hpos). unfold record_identity. rewrite Hi. cbn [as_dict].
  unfold apply_comprehensive_stage_result. rewrite (state_require_valid _ _ _ H). cbn [mbind res_bind].
  assert (_copy_record_for_update r = r) as ->.
  { unfold _copy_record_for_update. by rewrite (has_key_of _ _ _ Hst). }
  rewrite (item_of _ _ _ (rs_completed _ _ H)) by discriminate. cbn [mbind res_bind py_iter].
  rewrite length_map, length_take.
  assert ((n `min` length COMPREHENSIVE_STAGES)%nat = n) as -> by (pose proof (rs_stages _ _ H); cbn; lia).
  destruct (decide (Some id = COMPREHENSIVE_STAGES !! n)) as [Hid|Hid].
  2: { rewrite (bool_decide_eq_false_2 (Some id = _)) by exact Hid. split; [done|]. left. by intros Heq. }
  rewrite (bool_decide_eq_true_2 (Some id = _)) by exact Hid. cbn [unless mbind res_bind].
  rewrite (item_of _ _ _ Hi) by discriminate. cbn [mbind res_bind as_mapping].
  assert (forall f, f ∈ required_identity true -> dget i f <> JNull) as Hnull
    by (intros f Hf; destruct (Hall f Hf) as (s & -> & _); discriminate).
  assert (forall f, f ∈ drift_fields -> f ∈ required_identity true) as Hsub by (apply issubset_spec; by vm_compute).
  pose proof (check_drift_spec id i result drift_fields (fun f Hf => Hnull f (Hsub f Hf))) as Hdrift.
  destruct (check_drift id i result drift_fields) as [u|e]; cbn [mbind res_bind].
  2: { destruct Hdrift as [He (f & Hf & Hne)]. split; [done|]. right. intros Hk. by apply Hne, Hk. }
  rewrite (item_of i "assessment_depth" _ eq_refl) by (apply Hnull; apply (bool_decide_unpack _); vm_compute; exact I).
  rewrite (item_of i "report_language" _ eq_refl) by (apply Hnull; apply (bool_decide_unpack _); vm_compute; exact I).
  unfold store_stage. rewrite Hst. cbn [mbind res_bind].
  fold (stage_status result).
  destruct (advance_spec n id (stage_status result) (dset (dset r "stage_results" (JObj (dset stages id (JObj
    (normalized_result id (stage_status result) i result (dget i "assessment_depth") (dget i "report_language")))))) "current_stage" (JStr id)))
    as (d & -> & Hc & Hs & Hd); [done| |].
  { do 2 rewrite dget_dset_ne by discriminate. apply (rs_completed _ _ H). }
  assert (dget d "revision" = JInt z) as Hdz
    by (rewrite Hd by discriminate; do 2 rewrite dget_dset_ne by discriminate; exact Hz).
  destruct (finish_spec d (map JStr (take (stages_after n (stage_status result)) COMPREHENSIVE_STAGES)) now z _ Hdz Hpos Hs)
    as (r' & -> & F1 & F2 & F3 & F4 & F5 & F6 & F7).
  split; [done|]. split; [exact Hdrift|].
  assert (length (map JStr (take (stages_after n (stage_status result)) COMPREHENSIVE_STAGES)) =
    stages_after n (stage_status result)) as Hlen.
  { rewrite length_map, length_take. pose proof (lookup_stage_le _ _ (eq_sym Hid)). unfold stages_after.
    change (length COMPREHENSIVE_STAGES) with 23%nat.
    destruct (bool_decide (stage_status result ∈ SUCCESS_STAGE_STATUSES)); lia. }
  rewrite Hlen in F3.
  split; [by exists z|kept F7; exact Hc|kept F7; exact Hs|exact F2|exact F3|exact F4|exact F5|exact F6| |].
  - exists stages. eexists _, _. split; [exact Hst|]. split.
    { kept F7. rewrite Hd by discriminate. look. reflexivity. }
    rewrite dget_dset_eq. split; [reflexivity|]. split; [unfold normalized_result; look; reflexivity|].
    split; [unfold normalized_result; look; reflexivity|]. split.
    { unfold normalized_result. cbn [drift_fields fold_left]. look. reflexivity. }
    intros k Hk. by rewrite dget_dset_ne.
  - unfold written. intros k Hk. rewrite !not_elem_of_cons in Hk. destruct_and!.
    rewrite F7 by (rewrite !not_elem_of_cons; split_and!; auto; apply not_elem_of_nil).
    rewrite Hd by done. by rewrite !dget_dset_ne by done.
Qed.

(** ** Review *)

Lemma sorted_fromkeys_nil l : sorted (dict_fromkeys l) = [] -> l = [].
Proof.
  intros H. apply dict_fromkeys_nil. apply Permutation_nil. rewrite <- H. apply sorted_perm.
Qed.

(** A manifest without errors. *)
Lemma manifest_clean record m : _review_manifest_errors record (JObj m) = Ok [] ->
  let package := report_package_from_record record in
  _manifest_hash_valid m = true /\ _certificate_hash_valid (candidate_review m) = true /\
  (casefold (dget_str (candidate_review m) "decision") = "approved" ->
   edition_guard_errors package m (Some (record_identity record)) = Ok []).
Proof.
  unfold _review_manifest_errors. intros H. apply bind_ok_inv in H as (recorded & _ & H).
  destruct (bool_decide (report_package_from_record record = [])).
  { apply Ok_inj in H. apply app_nil in H as [_ H]. discriminate H. }
  apply bind_ok_inv in H as (u & _ & H). apply bind_ok_inv in H as (tail & Ht & H). apply Ok_inj in H.
  apply sorted_fromkeys_nil in H. rewrite !app_nil, !when_nil, !negb_false_iff in H.
  destruct H as ((_ & Hm & _ & Hc) & _ & _ & _ & _ & _ & _ & Hnil). split; [exact Hm|]. split; [exact Hc|].
  intros Hd. rewrite Hd in Ht. cbn [String.eqb Ascii.eqb Bool.eqb] in Ht.
  apply bind_ok_inv in Ht as (v & Hv & Ht). apply bind_ok_inv in Ht as (items & Hi & Ht). apply Ok_inj in Ht as <-.
  unfold validate_accepted_edition in Hv. apply bind_ok_inv in Hv as (u' & _ & Hv).
  apply bind_ok_inv in Hv as (errors & He & Hv). apply Ok_inj in Hv as <-. rewrite He. f_equal.
  change (dget _ "validation_errors") with (JArr (map JStr errors)) in Hi. unfold iter_or_empty in Hi.
  destruct errors as [|e errors]; [done|]. cbn in Hi. injection Hi as <-. discriminate Hnil.
Qed.

(** ** An approval that goes through *)

Lemma hash_valid_holds k d :
  (let claimed := dget_str d k in truthy claimed && String.eqb claimed (CanonicalHash._canonical_hash (JObj (dremove k d)))) = seal_holds k d.
Proof. unfold seal_holds. by rewrite canonical_hash_plain. Qed.

Lemma manifest_accepted record m :
  let package := report_package_from_record record in
  require_legacy_single_pdf [JObj package; JObj m] = Ok tt -> package <> [] ->
  _manifest_hash_valid m = true -> _certificate_hash_valid (candidate_review m) = true ->
  edition_guard_errors package m (Some (record_identity record)) = Ok [] ->
  (forall f, f ∈ bound_fields -> dget_str m f = dget_str (record_identity record) f) ->
  _review_manifest_errors record (JObj m) = Ok [].
Proof.
  intros package Hbound Hp Hm Hc Hg Hf. pose proof Hg as Hn. apply guard_nil in Hn as [Hn _].
  destruct (Hn eq_refl) as (_ & _ & _ & Hve & Hd & _ & _ & Ha & Heq & Hrd & Hcd & _ & Hids).
  unfold _review_manifest_errors. eapply bind_step; [exact Hve|]. cbv zeta. fold package.
  rewrite (bool_decide_eq_false_2 (package = [])) by exact Hp.
  eapply bind_step; [apply (proj1 (require_legacy_all _) Hbound); left|].
  eapply (bind_step _ _ []).
  { rewrite Hd. cbn [String.eqb Ascii.eqb Bool.eqb]. eapply bind_step.
    { unfold validate_accepted_edition. eapply bind_step; [exact Hbound|]. eapply bind_step; [exact Hg|]. exact eq_refl. }
    exact eq_refl. }
  rewrite Hd, Hm, Hc, Heq, Hrd, Hcd, !String.eqb_refl.
  assert (forallb (fun n => bool_decide (n ∈ keys (current_report_artifact_digests package))) (package_names package) = true) as ->.
  { apply forallb_forall. intros n Hin%list_elem_of_In. apply bool_decide_eq_true, keys_digests. auto. }
  assert (flat_map (fun f => when (negb (String.eqb (dget_str m f) (dget_str (record_identity record) f)))
    ("review_identity_mismatch:" +:+ f)) bound_fields = []) as ->.
  { apply flat_map_nil. intros f Hin. by rewrite (Hf f Hin), String.eqb_refl. }
  assert (flat_map (fun f => when (negb (truthy (text_of (dget m f)))) ("review_identity_missing:" +:+ f))
    ["tree_sha"; "scanner_run_id"; "evidence_bundle_hash"] = []) as ->.
  { apply flat_map_nil. intros f Hin. by rewrite (Hids f Hin). }
  exact eq_refl.
Qed.

(** The members a review decision writes. *)
Definition decided : list string :=
  ["review_history"; "review_decision"; "accepted_edition"; "approved_delivery_package"; "delivery_authorization";
   "review_context"; "status"; "terminal"; "human_review_required"; "human_review_completed";
   "client_delivery_allowed"; "updated_at"; "revision"; "integrity_sha256"].

(** [u] is [r] approved with the edition [m], and delivered or not. *)
Record approves (r : dict) (m : dict) (delivered : bool) (u : dict) : Prop := Approves {
  ap_status : dget u "status" = JStr "approved";
  ap_terminal : dget u "terminal" = JBool true;
  ap_required : dget u "human_review_required" = JBool true;
  ap_completed : dget u "human_review_completed" = JBool true;
  ap_delivery : dget u "client_delivery_allowed" = JBool delivered;
  ap_history : dget u "review_history" = JArr [JObj m];
  ap_decision : dget u "review_decision" = JObj m;
  ap_edition : dget u "accepted_edition" = JObj m;
  ap_integrity : dget u "integrity_sha256" = JStr (_record_hash u);
  ap_unauthorized : delivered = false -> dget u "delivery_authorization" = JNull;
  ap_revision : exists z, dget u "revision" = JInt z;
  ap_keys : forall k, k ∈ keys u -> k ∈ keys r \/ k ∈ decided;
  ap_frame : forall k, k ∉ decided -> dget u k = dget r k }.

Lemma undelivered_clean r m u : approves r m false u -> _review_manifest_errors u (JObj m) = Ok [] ->
  delivery_violations operator_delivery u "approved" = Ok [].
Proof.
  intros A He. unfold delivery_violations. change (String.eqb "approved" "approved") with true. cbv iota.
  rewrite (ap_edition _ _ _ _ A), He. cbn [mbind res_bind]. rewrite (ap_delivery _ _ _ _ A), (ap_completed _ _ _ _ A).
  reflexivity.
Qed.

Lemma approved_valid n r m delivered u : run_state n r -> approves r m delivered u -> py_eq (JObj m) (JObj m) = true ->
  casefold (dget_str (candidate_review m) "decision") = "approved" ->
  _review_manifest_errors u (JObj m) = Ok [] -> delivery_violations operator_delivery u "approved" = Ok [] ->
  validates u true = Ok [].
Proof.
  intros H A Heq Hd He Hdel.
  assert (record_status u = "approved") as Hs by (unfold record_status; by rewrite (dget_str_of _ _ _ (ap_status _ _ _ _ A))).
  assert (last_differs [JObj m] (JObj m) = false) as Hlast by (unfold last_differs, differ; simpl last; cbn [as_dict]; by rewrite Heq).
  assert (forall k v, dget r k = v -> k ∉ decided -> dget u k = v) as Hk
    by (intros k v <- Hin; exact (ap_frame _ _ _ _ A k Hin)).
  unfold _validate_record. rewrite Hs, Hdel. cbn [mbind res_bind].
  unfold decision_violations. rewrite (ap_decision _ _ _ _ A), (bool_decide_eq_false_2 (JObj m = JNull)) by done.
  rewrite He. unfold review_history. rewrite (ap_history _ _ _ _ A), (ap_edition _ _ _ _ A). cbn [mbind res_bind map app as_dict].
  rewrite Hd. change (decision_status "approved") with (Some "approved"). cbv iota.
  change (String.eqb "approved" "approved") with true. rewrite (bool_decide_eq_false_2 ([JObj m] = [])) by done.
  rewrite Hlast. unfold differ. rewrite Heq. cbn [negb when is_mapping orb app].
  assert (progress_violations u = Ok []) as ->.
  { rewrite <- (state_progress _ _ H). unfold progress_violations.
    kept (ap_frame _ _ _ _ A). by kept (ap_frame _ _ _ _ A). }
  cbn [mbind res_bind]. f_equal. rewrite !app_nil, !when_nil, !negb_false_iff. split_and!.
  - apply flat_map_nil. intros f Hf. unfold record_identity. kept (ap_frame _ _ _ _ A).
    fold (record_identity r). by rewrite (state_identity n r f H Hf).
  - apply bool_decide_eq_true. apply Hk; [apply (rs_service _ _ H)|unwritten].
  - by rewrite (ap_required _ _ _ _ A).
  - unfold history_violations, review_history. rewrite (ap_history _ _ _ _ A), (ap_decision _ _ _ _ A).
    rewrite (bool_decide_eq_false_2 ([JObj m] = [])) by done. rewrite Hlast. reflexivity.
  - unfold edition_violations, review_history. rewrite (ap_edition _ _ _ _ A), (ap_history _ _ _ _ A), Hlast. reflexivity.
  - destruct (rs_evidence _ _ H) as (e & Hev & Hsch & Hv). unfold evidence_violations. kept (ap_frame _ _ _ _ A).
    rewrite Hev, Hsch, Hv. by rewrite bool_decide_eq_true_2.
  - done.
  - apply bool_decide_eq_true, (ap_integrity _ _ _ _ A).
  - rewrite (ap_terminal _ _ _ _ A). reflexivity.
Qed.

Lemma decide_update_spec r m status history now z : dget r "revision" = JInt z -> 1 <= z ->
  exists u, decide_update r m "approved" status history now = Ok u /\
    dget u "status" = JStr status /\ dget u "terminal" = JBool true /\ dget u "human_review_required" = JBool true /\
    dget u "human_review_completed" = JBool true /\ dget u "client_delivery_allowed" = JBool false /\
    dget u "review_history" = JArr history /\ dget u "review_decision" = JObj m /\
    dget u "accepted_edition" = JObj m /\ dget u "integrity_sha256" = JStr (_record_hash u) /\
    dget u "delivery_authorization" = JNull /\ (exists z, dget u "revision" = JInt z) /\ (forall k, k ∈ keys u -> k ∈ keys r \/ k ∈ decided) /\
    forall k, k ∉ decided -> dget u k = dget r k.
Proof.
  intros Hz Hpos. unfold decide_update. change (String.eqb "approved" "approved") with true. cbv iota zeta.
  do 7 rewrite dget_dset_ne by discriminate. do 2 rewrite dget_dremove_ne by discriminate.
  do 3 rewrite dget_dset_ne by discriminate. rewrite Hz.
  assert (py_int (jor (JInt z) (JInt 0)) = Ok z) as ->.
  { unfold jor. cbn [py_truthy]. by replace (z =? 0) with false by lia. }
  cbn [mbind res_bind]. eexists. split; [reflexivity|].
  do 5 (split; [look; reflexivity|]).
  do 3 (split; [look; do 2 rewrite dget_dremove_ne by discriminate; look; reflexivity|]).
  split; [apply record_hash_hashed|]. split; [look; apply dget_dremove_eq|].
  split; [eexists; look; reflexivity|]. split.
  { intros k Hk. unfold hashed in Hk.
    repeat (apply dset_keys in Hk as [->|Hk]; [right; unwritten|] || apply dremove_keys in Hk). by left. }
  unfold decided. intros k Hk. rewrite !not_elem_of_cons in Hk. destruct_and!.
  rewrite dget_hashed by done. repeat first [rewrite dget_dset_ne by done | rewrite dget_dremove_ne by done]. done.
Qed.

(** An approval the guard accepts for a finished run goes through. *)
Lemma approval_accepted r m now :
  let package := report_package_from_record r in
  run_state 23 r -> package <> [] -> require_legacy_single_pdf [JObj package; JObj m] = Ok tt ->
  edition_guard_errors package m (Some (record_identity r)) = Ok [] ->
  _manifest_hash_valid m = true -> _certificate_hash_valid (candidate_review m) = true -> plain (JObj m) = true ->
  (forall f, f ∈ bound_fields -> dget_str m f = dget_str (record_identity r) f) ->
  exists u, approves r m false u /\ validates u true = Ok [] /\
    apply_comprehensive_review_decision operator_delivery r m now = Ok u.
Proof.
  intros package H Hp Hbound Hg Hm Hc Hpl Hs. pose proof (py_eq_refl _ Hpl) as Heq.
  pose proof (manifest_accepted r m Hbound Hp Hm Hc Hg Hs) as He.
  assert (casefold (dget_str (candidate_review m) "decision") = "approved") as Hd.
  { apply guard_nil in Hg as [Hg _]. by destruct (Hg eq_refl) as (_ & _ & _ & _ & Hd & _). }
  destruct (rs_status _ _ H) as (s & Hst & _ & _ & Hrr). rewrite (proj2 Hrr eq_refl) in Hst.
  destruct (rs_revision _ _ H) as (z & Hz & Hpos). destruct (rs_results _ _ H) as (stages & Hres).
  assert (_copy_record_for_update r = r) as Hcopy by (unfold _copy_record_for_update; by rewrite (has_key_of _ _ _ Hres)).
  assert (forall u, approves r m false u -> validates u true = Ok [] /\ dget u "artifact_schema" = JStr VERSION) as Hvalid.
  { intros u A. split; [|kept (ap_frame _ _ _ _ A); apply (rs_schema _ _ H)].
    assert (_review_manifest_errors u (JObj m) = Ok []) as Hu.
    2:{ exact (approved_valid 23 r m false u H A Heq Hd Hu (undelivered_clean r m u A Hu)). }
    assert (report_package_from_record u = package) as Hpu.
    { apply package_frame; [kept (ap_frame _ _ _ _ A)|kept (ap_frame _ _ _ _ A)]; done. }
    assert (record_identity u = record_identity r) as Hiu by (unfold record_identity; by kept (ap_frame _ _ _ _ A)).
    apply manifest_accepted; rewrite ?Hpu, ?Hiu; done. }
  destruct (decide_update_spec r m "approved" [JObj m] now z Hz Hpos)
    as (u & Hu & U1 & U2 & U3 & U4 & U5 & U6 & U7 & U8 & U9 & U10 & U11 & U12 & U13).
  destruct (Hvalid u (Approves r m false u U1 U2 U3 U4 U5 U6 U7 U8 U9 (fun _ => U10) U11 U12 U13)) as [Hv Hsch].
  assert (forall msg, require_valid operator_delivery msg u = Ok tt) as Hreq.
  { intros msg. unfold require_valid, validate_comprehensive_run_record. rewrite (dget_str_of _ _ _ Hsch).
    change (negb (String.eqb VERSION LEGACY_VERSION)) with true. by rewrite Hv. }
  exists u. split; [exact (Approves r m false u U1 U2 U3 U4 U5 U6 U7 U8 U9 (fun _ => U10) U11 U12 U13)|]. split; [exact Hv|].
  unfold apply_comprehensive_review_decision. rewrite (state_require_valid _ _ _ H). cbn [mbind res_bind].
  unfold record_status. rewrite (dget_str_of _ _ _ Hst). change (String.eqb (lower "review_required") "review_required") with true.
  rewrite (rs_completed _ _ H). cbn [unless mbind res_bind].
  change (take 23 COMPREHENSIVE_STAGES) with COMPREHENSIVE_STAGES.
  change (iter_or_empty (JArr (map JStr COMPREHENSIVE_STAGES))) with (@Ok (list json) (map JStr COMPREHENSIVE_STAGES)).
  cbn [mbind res_bind].
  rewrite (bool_decide_eq_true_2 (map JStr COMPREHENSIVE_STAGES = _)) by done. cbn [unless mbind res_bind].
  rewrite He. cbn [mbind res_bind]. rewrite (bool_decide_eq_true_2 ([] = [])) by done. cbn [unless mbind res_bind].
  rewrite Hcopy, Hd, (rs_history _ _ H). change (decision_status "approved") with (Some "approved").
  change (iter_or_empty JNull) with (@Ok (list json) []). cbn [mbind res_bind objects flat_map map app]. rewrite Hu. cbn [mbind res_bind].
  rewrite Hreq. reflexivity.
Qed.

Lemma state_bound n r f : run_state n r -> f ∈ bound_fields ->
  exists s, dget (record_identity r) f = JStr s /\ strip s = s.
Proof.
  intros H Hf. destruct (rs_identity _ _ H) as (i & Hi & Hall). unfold record_identity. rewrite Hi.
  destruct (Hall f) as (s & Hs & Hst & _); [revert f Hf; apply Forall_forall; unwritten|]. by exists s.
Qed.

Lemma reviewed_accepted r m now : run_state 23 r -> report_package_from_record r <> [] -> reviewed r m ->
  exists u, approves r m false u /\ validates u true = Ok [] /\ apply_comprehensive_review_decision operator_delivery r m now = Ok u.
Proof.
  intros H Hp V. apply approval_accepted.
  - exact H.
  - exact Hp.
  - apply require_legacy_all. intros v Hv. apply (proj1 (require_legacy_all _) (rv_boundary _ _ V)). by right.
  - exact (rv_guard _ _ V).
  - unfold _manifest_hash_valid. rewrite hash_valid_holds. exact (rv_manifest_seal _ _ V).
  - unfold _certificate_hash_valid. rewrite hash_valid_holds. exact (rv_review_seal _ _ V).
  - exact (rv_plain _ _ V).
  - intros f Hin. unfold dget_str. by rewrite (rv_bound _ _ V f Hin).
Qed.

(** An approved record passes the boundary, and its delivery can be authorized. *)
Lemma approved_boundary n r m b u : run_state n r -> approves r m b u -> reviewed r m ->
  require_legacy_single_pdf [JObj u] = Ok tt.
Proof.
  intros H A V. assert (require_legacy_single_pdf [JObj r; JObj m] = Ok tt) as Hrm.
  { apply require_legacy_all. intros v Hv. apply (proj1 (require_legacy_all _) (rv_boundary _ _ V)).
    apply elem_of_cons in Hv as [->|Hv]; [by left|by do 2 right]. }
  apply (boundary_update r u m Hrm).
  - intros k Hk [Hin|Hin]%(ap_keys _ _ _ _ A).
    + assert (clean r) as [Hm _].
      { apply (proj1 (proj1 (require_legacy_spec _)) Hrm (JObj r)); [by left|constructor]. }
      unfold has_marker in Hm. apply orb_false_iff in Hm as [[M1%bool_decide_eq_false M2%bool_decide_eq_false]%orb_false_iff _].
      unfold markers in Hk. rewrite !elem_of_cons in Hk. destruct Hk as [->|[->|Hk]]; [done|done|by apply not_elem_of_nil in Hk].
    + revert Hin. assert (Forall (fun k => k ∉ decided) markers) as Ha by unwritten. rewrite Forall_forall in Ha. by apply Ha.
  - unfold bundle_schema. kept (ap_frame _ _ _ _ A). by rewrite (rs_schema _ _ H).
  - by kept (ap_frame _ _ _ _ A).
  - intros k Hk. destruct (decide (k = "accepted_edition")) as [->|Hne]; [right; apply (ap_edition _ _ _ _ A)|left].
    apply (ap_frame _ _ _ _ A). assert (Forall (fun k => k = "accepted_edition" \/ k ∉ decided) _CONTAINERS) as Ha by unwritten.
    rewrite Forall_forall in Ha. by destruct (Ha k Hk).
Qed.

Lemma approved_identity n r m u : run_state n r -> approves r m false u -> reviewed r m ->
  exists current, review_artifact_identity u = Ok current /\ py_eq (JObj current) (JObj current) = true.
Proof.
  intros H A V. pose proof (approved_boundary n r m false u H A V) as Hb. destruct (ap_revision _ _ _ _ A) as [z Hz].
  unfold review_artifact_identity. rewrite Hz.
  assert (py_int (jor (JInt z) (JInt 0)) = Ok z) as Hint.
  { unfold jor. cbn [py_truthy]. destruct (z =? 0) eqn:E; [|reflexivity]. apply Z.eqb_eq in E as ->. reflexivity. }
  eexists. split.
  - eapply bind_step; [exact Hint|]. eapply bind_step; [exact (package_boundary u Hb)|]. exact eq_refl.
  - apply py_eq_refl, plain_obj; [unwritten|]. do 4 (apply List.Forall_cons; [reflexivity|]).
    apply List.Forall_cons; [apply digests_plain, package_names_nodup|constructor].
Qed.

Lemma approved_authorizable n r m u a : run_state n r -> approves r m false u -> reviewed r m ->
  may_decide (claim_of a) -> exists current, review_artifact_identity u = Ok current /\ authorizable u m a (JObj current).
Proof.
  intros H A V Ha. destruct (approved_identity n r m u H A V) as (current & Hcur & Heq). exists current. split; [exact Hcur|].
  assert (report_package_from_record u = report_package_from_record r) as Hp by (apply package_frame; by kept (ap_frame _ _ _ _ A)).
  assert (record_identity u = record_identity r) as Hi by (unfold record_identity; by kept (ap_frame _ _ _ _ A)).
  apply (reviewed_authorizable u m a current); [|by rewrite (ap_status _ _ _ _ A)|by rewrite (ap_completed _ _ _ _ A)| |exact Hcur|exact Heq|exact Ha].
  - apply (reviewed_frame r u m Hp Hi (approved_boundary n r m false u H A V) V).
  - rewrite (ap_delivery _ _ _ _ A). split; [done|]. by rewrite (ap_unauthorized _ _ _ _ A eq_refl).
Qed.

Lemma approves_manifest r m delivered u : report_package_from_record r <> [] -> reviewed r m -> approves r m delivered u ->
  _review_manifest_errors u (JObj m) = Ok [].
Proof.
  intros Hp V A.
  assert (report_package_from_record u = report_package_from_record r) as Hpu by (apply package_frame; by kept (ap_frame _ _ _ _ A)).
  assert (record_identity u = record_identity r) as Hiu by (unfold record_identity; by kept (ap_frame _ _ _ _ A)).
  apply manifest_accepted; rewrite ?Hpu, ?Hiu.
  - apply require_legacy_all. intros v Hv. apply (proj1 (require_legacy_all _) (rv_boundary _ _ V)). by right.
  - exact Hp.
  - unfold _manifest_hash_valid. rewrite hash_valid_holds. exact (rv_manifest_seal _ _ V).
  - unfold _certificate_hash_valid. rewrite hash_valid_holds. exact (rv_review_seal _ _ V).
  - exact (rv_guard _ _ V).
  - intros f Hin. unfold dget_str. by rewrite (rv_bound _ _ V f Hin).
Qed.

(** The record as it is delivered. *)
Definition delivered_record (u receipt delivery : dict) : dict :=
  hashed (dset (dset (dset u "delivery_authorization" (JObj receipt)) "approved_delivery_package" (JObj delivery))
            "client_delivery_allowed" (JBool true)).

Lemma delivered_frame u receipt delivery k :
  k ∉ ["delivery_authorization"; "approved_delivery_package"; "client_delivery_allowed"; "integrity_sha256"] ->
  dget (delivered_record u receipt delivery) k = dget u k.
Proof.
  intros Hk. rewrite !not_elem_of_cons in Hk. destruct_and!. unfold delivered_record. rewrite dget_hashed by done.
  by rewrite !dget_dset_ne by done.
Qed.

Lemma delivered_approves r m u receipt delivery : approves r m false u -> approves r m true (delivered_record u receipt delivery).
Proof.
  intros A. constructor; try (kept delivered_frame; apply A).
  - unfold delivered_record. look. reflexivity.
  - apply record_hash_hashed.
  - discriminate.
  - intros k Hk. unfold delivered_record, hashed in Hk.
    repeat (apply dset_keys in Hk as [->|Hk]; [right; unwritten|]). exact (ap_keys _ _ _ _ A k Hk).
  - intros k Hk. rewrite <- (ap_frame _ _ _ _ A k Hk). apply delivered_frame. unfold decided in Hk. set_solver.
Qed.

Lemma delivered_valid n r m u receipt delivery : run_state n r -> report_package_from_record r <> [] -> reviewed r m ->
  approves r m false u -> receipt_holds u m receipt -> leaf receipt ->
  validate_comprehensive_run_record operator_delivery (delivered_record u receipt delivery) =
    Ok [("status", JStr "valid"); ("violations", JArr [])].
Proof.
  intros H Hp V A Hh Hl. set (d := delivered_record u receipt delivery).
  pose proof (delivered_approves r m u receipt delivery A) as D. fold d in D.
  pose proof (approves_manifest r m true d Hp V D) as He.
  assert (receipt_holds d m receipt) as Hd.
  { apply (receipt_frame u); [|exact Hh]. intros k Hk. apply delivered_frame. revert k Hk. apply Forall_forall. unwritten. }
  assert (require_legacy_single_pdf [JObj d; JObj m; JObj receipt] = Ok tt) as Hb.
  { apply require_legacy_all. intros v Hv. rewrite !elem_of_cons in Hv. destruct Hv as [->|[->|[->|Hv]]].
    - exact (approved_boundary n r m true d H D V).
    - apply (proj1 (require_legacy_all _) (rv_boundary _ _ V)). right; right; left.
    - exact (require_leaf _ Hl).
    - by apply not_elem_of_nil in Hv. }
  assert (authorization_violations d m = Ok []) as Hau.
  { unfold authorization_violations. change (dget d "delivery_authorization") with (dget (delivered_record u receipt delivery) "delivery_authorization").
    assert (dget (delivered_record u receipt delivery) "delivery_authorization" = JObj receipt) as ->
      by (unfold delivered_record; look; reflexivity).
    rewrite (holds_valid _ _ _ Hb Hd). reflexivity. }
  assert (delivery_violations operator_delivery d "approved" = Ok []) as Hdel.
  { unfold delivery_violations. change (String.eqb "approved" "approved") with true. cbv iota.
    rewrite (ap_edition _ _ _ _ D), He. cbn [mbind res_bind as_dict]. rewrite (ap_delivery _ _ _ _ D), Hau, (ap_completed _ _ _ _ D).
    cbn [is_true mbind res_bind].
    assert (dget d "approved_delivery_package" = JObj delivery) as -> by (unfold d, delivered_record; look; reflexivity).
    destruct (proj1 (guard_nil _ _ _ _ (rv_guard _ _ V)) eq_refl) as (_ & _ & Hst & _).
    rewrite (rv_undelivered _ _ V) in Hst |- *. cbn [is_true is_false negb] in *. rewrite Hst. reflexivity. }
  assert (casefold (dget_str (candidate_review m) "decision") = "approved") as Hdec
    by (by rewrite (dget_str_of _ _ _ (rv_decision _ _ V))).
  unfold validate_comprehensive_run_record.
  assert (dget d "artifact_schema" = JStr VERSION) as Hsch by (kept (ap_frame _ _ _ _ D); apply (rs_schema _ _ H)).
  rewrite (dget_str_of _ _ _ Hsch). change (negb (String.eqb VERSION LEGACY_VERSION)) with true.
  by rewrite (approved_valid n r m true d H D (py_eq_refl _ (rv_plain _ _ V)) Hdec He Hdel).
Qed.

(** Without an authorization error the record has a receipt that holds. *)
Lemma authorization_clean record m : authorization_violations record m = Ok [] ->
  exists a, dget record "delivery_authorization" = JObj a /\ receipt_holds record m a.
Proof.
  unfold authorization_violations. intros H.
  destruct (_ ≫= _) as [l|e] eqn:E; [|destruct (isinstance e TypeError || isinstance e ValueError); discriminate H].
  apply Ok_inj in H as ->. apply bind_ok_inv in E as (v & Hv & E). apply bind_ok_inv in E as (items & Hi & E).
  apply Ok_inj in E. apply map_eq_nil in E as ->. unfold validate_delivery_authorization in Hv.
  apply bind_ok_inv in Hv as (u & _ & Hv).
  destruct (dget record "delivery_authorization") as [| | | | | |a]; try (apply Ok_inj in Hv as <-; discriminate Hi).
  apply bind_ok_inv in Hv as (errors & He & Hv). apply Ok_inj in Hv as <-. exists a. split; [done|].
  apply (errors_hold _ _ _ _ He). apply sorted_fromkeys_nil.
  change (dget _ "validation_errors") with (JArr (map JStr (sorted (dict_fromkeys errors)))) in Hi.
  destruct (sorted (dict_fromkeys errors)); [done|discriminate Hi].
Qed.

Lemma is_false_spec v : is_false v = true <-> v = JBool false.
Proof. destruct v as [|[]| | | | |]; by split. Qed.

(** ** Properties *)

(** One stage result.  From a record after [n] stages, a result is
    accepted exactly for stage [n] with the identity of the run.  It then has
    the stated effect: progress, status, revision and hash are recomputed, the
    result is kept under its stage with review required and delivery blocked,
    nothing else changes, and the record is again one after [n] or [n + 1]
    stages.  Anything else raises [ValueError]. *)
Theorem stage_result_spec n r id result now : run_state n r ->
  match apply_result r id result now with
  | Ok r' => (COMPREHENSIVE_STAGES !! n = Some id /\ keeps_identity (record_identity r) result) /\
             stage_effect n r id result now r' /\ run_state (stages_after n (stage_status result)) r'
  | Raise e => exn_class e = ValueError /\
               ~ (COMPREHENSIVE_STAGES !! n = Some id /\ keeps_identity (record_identity r) result)
  end.
Proof.
  intros H. pose proof (apply_spec n r id result now H) as Hs. destruct (apply_result r id result now) as [r'|e].
  - destruct Hs as (Hid & Hk & He). split; [done|]. split; [exact He|]. by eapply effect_state.
  - destruct Hs as [He Hn]. split; [exact He|]. tauto.
Qed.

(** The records a run goes through before its review. *)
Inductive reaches : dict -> Prop :=
  | reaches_create now q r : create_comprehensive_run_record now q = Ok r -> reaches r
  | reaches_stage r id result now r' : reaches r -> apply_result r id result now = Ok r' -> reaches r'.

(** C26: runs stay valid.  Every record that creation and stage results reach
    validates without a violation; its completed stages are the first [n] of
    the contract, its progress is that of [n], it waits for review exactly when
    all 23 stages are done, and it never allows delivery. *)
Theorem reachable_records_valid r : reaches r ->
  validate_comprehensive_run_record operator_delivery r =
    Ok [("status", JStr "valid"); ("violations", JArr [])] /\
  exists n, (n <= 23)%nat /\ dget r "completed_stages" = JArr (map JStr (take n COMPREHENSIVE_STAGES)) /\
    dget r "progress_percent" = JFloat (progress_of n) /\
    (dget r "status" = JStr "review_required" <-> n = 23%nat) /\
    dget r "human_review_required" = JBool true /\ dget r "client_delivery_allowed" = JBool false.
Proof.
  intros H. assert (exists n, run_state n r) as [n Hn].
  { induction H as [now q r H|r id result now r' _ [n IH] H]; [exists 0%nat; by eapply create_state|].
    pose proof (apply_spec n r id result now IH) as Hs. rewrite H in Hs. destruct Hs as (Hid & _ & He).
    eexists. by eapply effect_state. }
  split.
  - unfold validate_comprehensive_run_record. rewrite (dget_str_of _ _ _ (rs_schema _ _ Hn)).
    change (negb (String.eqb VERSION LEGACY_VERSION)) with true. by rewrite (state_valid _ _ Hn).
  - exists n. destruct (rs_status _ _ Hn) as (s & Hs & _ & _ & Hr).
    split_and!; [apply (rs_stages _ _ Hn)|apply (rs_completed _ _ Hn)|apply (rs_progress _ _ Hn)| | |].
    + rewrite Hs, <- Hr. split; [by intros [= ->]|by intros ->].
    + apply (rs_review _ _ Hn).
    + apply (rs_delivery _ _ Hn).
Qed.

(** A review decision.  When it is accepted, the record was waiting for
    review with every stage complete; the manifest and its certificate carry
    their own digests; the new record is valid, has the status the decision
    calls for and keeps delivery blocked; it holds an accepted edition exactly
    for an approval, and then the guard finds nothing wrong with that edition
    for the very report package of the record. *)
Theorem review_decision_spec record m now r :
  apply_comprehensive_review_decision operator_delivery record m now = Ok r ->
  let decision := casefold (dget_str (candidate_review m) "decision") in
  record_status record = "review_required" /\
  iter_or_empty (dget record "completed_stages") = Ok (map JStr COMPREHENSIVE_STAGES) /\
  _manifest_hash_valid m = true /\ _certificate_hash_valid (candidate_review m) = true /\
  (exists status, decision_status decision = Some status /\ dget r "status" = JStr status) /\
  dget r "client_delivery_allowed" = JBool false /\ dget r "review_decision" = JObj m /\
  require_valid operator_delivery "invalid_reviewed_run_record" r = Ok tt /\
  dget r "integrity_sha256" = JStr (_record_hash r) /\
  if bool_decide (decision = "approved") then
    dget r "accepted_edition" = JObj m /\
    edition_guard_errors (report_package_from_record record) m (Some (record_identity record)) = Ok []
  else dget r "accepted_edition" = JNull.
Proof.
  intros H decision. unfold apply_comprehensive_review_decision in H.
  apply bind_ok_inv in H as (u1 & _ & H). apply bind_ok_inv in H as (u2 & Hst%unless_ok & H).
  apply String.eqb_eq in Hst. apply bind_ok_inv in H as (completed & Hc & H).
  apply bind_ok_inv in H as (u3 & Hall%unless_ok & H). apply bool_decide_eq_true in Hall as ->.
  apply bind_ok_inv in H as (errors & He & H). apply bind_ok_inv in H as (u4 & Hnil%unless_ok & H).
  apply bool_decide_eq_true in Hnil as ->. destruct (manifest_clean _ _ He) as (Hm & Hcert & Hg).
  fold decision in H, Hg. apply bind_ok_inv in H as (status & Hd & H).
  apply bind_ok_inv in H as (past & _ & H). apply bind_ok_inv in H as (u & Hu & H).
  apply bind_ok_inv in H as ([] & Hv & H). apply Ok_inj in H as <-.
  unfold decide_update in Hu. apply bind_ok_inv in Hu as (z & _ & Hu). apply Ok_inj in Hu as <-.
  assert (decision_status decision = Some status) as Hds
    by (destruct (decision_status decision); [by injection Hd as ->|discriminate Hd]).
  split_and!; [exact Hst|exact Hc|exact Hm|exact Hcert| | | | | |].
  - exists status. split; [exact Hds|]. look. reflexivity.
  - look. reflexivity.
  - look. do 2 rewrite dget_dremove_ne by discriminate.
    destruct (String.eqb decision "approved"); [|rewrite dget_dremove_ne by discriminate]; look; reflexivity.
  - exact Hv.
  - apply record_hash_hashed.
  - destruct (String.eqb_spec decision "approved") as [Ha|Ha].
    + rewrite bool_decide_eq_true_2 by exact Ha. split; [|exact (Hg Ha)].
      look. do 2 rewrite dget_dremove_ne by discriminate. look. reflexivity.
    + rewrite bool_decide_eq_false_2 by exact Ha. look. do 2 rewrite dget_dremove_ne by discriminate.
      apply dget_dremove_eq.
Qed.

(** C27: a complete approval goes through, and can be delivered.  For a run
    with every stage done and a report, the edition that
    [build_reviewed_edition] makes of a complete approval by an authorized
    reviewer is accepted as a review decision: the run becomes approved with that
    edition, stays valid and keeps delivery blocked.  Any authorized person can
    then make a delivery receipt for the report as it is, and the receipt is
    valid.  (The package names no identity but the run's, and has its evidence
    manifest if it refers to one.) *)
Theorem complete_approval_accepted ledger r q built_at m now :
  let package := report_package_from_record r in
  run_state 23 r -> package <> [] ->
  (has_manifest package = true -> absent (AJson (dget package "evidence_manifest_json")) = false) ->
  (forall f, f ∈ bound_fields ->
     expected_field package (Some (record_identity r)) f = text_of (dget (record_identity r) f)) ->
  build_reviewed_edition ledger built_at r q = Ok m -> complete_approval built_at (edition_request_of r q) ->
  exists r', apply_comprehensive_review_decision operator_delivery r m now = Ok r' /\
    dget r' "status" = JStr "approved" /\ dget r' "accepted_edition" = JObj m /\
    dget r' "client_delivery_allowed" = JBool false /\
    require_valid operator_delivery "invalid_run_record" r' = Ok tt /\
    forall a, may_decide (claim_of a) -> exists current receipt,
      review_artifact_identity r' = Ok current /\
      authorize_accepted_edition r' m a (JObj current) = Ok receipt /\ receipt_holds r' m receipt.
Proof.
  intros package H Hp Hman Hf Hb Happ. pose proof (reviewed_edition _ _ _ _ _ (fun f => state_bound _ _ f H) Hman Hf Hb Happ) as V.
  destruct (reviewed_accepted r m now H Hp V) as (u & A & Hv & Hu).
  exists u. split_and!; [exact Hu|exact (ap_status _ _ _ _ A)|exact (ap_edition _ _ _ _ A)|exact (ap_delivery _ _ _ _ A)| |].
  - unfold require_valid, validate_comprehensive_run_record.
    assert (dget u "artifact_schema" = JStr VERSION) as Hsch by (kept (ap_frame _ _ _ _ A); apply (rs_schema _ _ H)).
    rewrite (dget_str_of _ _ _ Hsch). change (negb (String.eqb VERSION LEGACY_VERSION)) with true. by rewrite Hv.
  - intros a Ha. destruct (approved_authorizable _ _ _ _ a H A V Ha) as (current & Hcur & Z).
    destruct (authorizable_receipt _ _ _ _ Z) as (receipt & Hr & Hh). exists current, receipt. by split.
Qed.

(** C28: nothing is delivered without an authorization.  A valid record that
    allows delivery either holds an approved run, with its human review
    completed, an accepted edition the guard accepts for the report of the
    record and that itself stays undelivered, a delivery receipt that holds for
    both, and a delivery package; or it is not approved and its operator
    delivery edition is valid. *)
Theorem delivered_record_authorized record v :
  validate_comprehensive_run_record operator_delivery record = Ok v -> dget v "status" = JStr "valid" ->
  dget record "client_delivery_allowed" = JBool true ->
  if bool_decide (record_status record = "approved") then
    exists m a, dget record "accepted_edition" = JObj m /\ dget record "delivery_authorization" = JObj a /\
      receipt_holds record m a /\ dget m "client_delivery_allowed" = JBool false /\
      dget_str m "delivery_status" = "pending_authorization" /\
      is_mapping (dget record "approved_delivery_package") = true
  else operator_delivery record = Ok true.
Proof.
  intros Hv Hs Hd. unfold validate_comprehensive_run_record in Hv. apply bind_ok_inv in Hv as (violations & Hviol & Hv).
  apply Ok_inj in Hv as <-. assert (violations = []) as -> by (by destruct violations).
  unfold _validate_record in Hviol. apply bind_ok_inv in Hviol as (delivery & Hdel & Hviol).
  apply bind_ok_inv in Hviol as (decision & _ & Hviol). apply bind_ok_inv in Hviol as (progress & _ & Hviol).
  apply Ok_inj in Hviol. rewrite !app_nil in Hviol. destruct Hviol as (_ & _ & _ & -> & _).
  unfold delivery_violations in Hdel. rewrite Hd in Hdel. cbn [is_true] in Hdel.
  destruct (String.eqb_spec (record_status record) "approved") as [Ha|Ha].
  - rewrite bool_decide_eq_true_2 by exact Ha. apply bind_ok_inv in Hdel as (review_errors & Hre & Hdel).
    apply bind_ok_inv in Hdel as (delivered & Hdl & Hdel). apply bind_ok_inv in Hdl as (auth & Hau & Hdl).
    apply Ok_inj in Hdl as <-. apply Ok_inj in Hdel. rewrite !app_nil, !when_nil, !negb_false_iff in Hdel.
    destruct Hdel as (_ & Hre' & Hun & Hst & -> & Hpk). apply map_eq_nil in Hre' as ->.
    destruct (dget record "accepted_edition") as [| | | | | |m] eqn:Hm; try discriminate Hre. cbn [as_dict] in *.
    destruct (authorization_clean _ _ Hau) as (a & Haz & Hh). exists m, a.
    split_and!; [done|exact Haz|exact Hh|by apply is_false_spec|by apply String.eqb_eq in Hst|exact Hpk].
  - rewrite bool_decide_eq_false_2 by exact Ha. apply bind_ok_inv in Hdel as (b & Hb & Hdel). apply Ok_inj in Hdel.
    apply when_nil, negb_false_iff in Hdel. by subst b.
Qed.

End Facts.

(** ** Witnesses *)

Module RunDemo.

Definition operator_delivery (_ : dict) : res bool := Ok false.
Definition t0 : string := "2026-07-01T00:00:00+00:00".
Definition request : run_request :=
  RunRequest "run-1" "octo/repo" " c0ffee" "ledger-1" "acme" "web" true "strategic" "en" JNull "" "" None.
Definition or_empty (r : res dict) : dict := match r with Ok d => d | Raise _ => [] end.
Definition created : dict := or_empty (create_comprehensive_run_record t0 request).

(** A run whose stages are all complete, with its report; a reviewer approves. *)
Definition package : dict := EditionDemo.package ++ [("evidence_bundle_sha256", JStr "e71d")].
Definition stages : dict :=
  [("immutable_repository_snapshot", JObj [("snapshot", JObj [("tree_sha", JStr "7ree")])]);
   ("deep_scanner_triage", JObj [("scanner", JObj [("scan_id", JStr "scan-1")])]);
   ("final_comprehensive_report_generation", JObj [("report_package", JObj package)])].
Definition finished : dict :=
  let r := dset created "completed_stages" (JArr (map JStr COMPREHENSIVE_STAGES)) in
  let r := dset r "progress_percent" (JFloat (progress_of 23)) in
  let r := dset (dset r "status" (JStr "review_required")) "terminal" (JBool true) in
  hashed (dset r "stage_results" (JObj stages)).
Definition ledger (_ : dict) : res dict := Ok [("review_source_sha256", JStr "5eed")].
Definition approval : decision_request := DecisionRequest "Ada" "Security Reviewer" " Approved" "complete" (Some t0).
Definition manifest : dict := or_empty (build_reviewed_edition ledger t0 finished approval).
Definition person : authorizer := Authorizer "Grace" "Security specialist" "contract signed" t0.

Lemma or_empty_ok r : is_ok r = true -> r = Ok (or_empty r).
Proof. by destruct r. Qed.

Lemma created_ok : create_comprehensive_run_record t0 request = Ok created.
Proof. apply or_empty_ok. vm_compute. reflexivity. Qed.

Lemma edition_ok : build_reviewed_edition ledger t0 finished approval = Ok manifest.
Proof. apply or_empty_ok. vm_compute. reflexivity. Qed.

Lemma finished_state : run_state 23 finished.
Proof.
  pose proof (create_state _ _ _ created_ok) as H. unfold finished.
  split; [done|look..|apply record_hash_hashed].
  - apply (rs_schema _ _ H).
  - apply (rs_service _ _ H).
  - apply (rs_identity _ _ H).
  - apply (rs_evidence _ _ H).
  - exists "review_required". split_and!; [reflexivity|unwritten|reflexivity|done].
  - reflexivity.
  - eexists. reflexivity.
  - reflexivity.
  - apply (rs_revision _ _ H).
  - apply (rs_review _ _ H).
  - apply (rs_delivery _ _ H).
  - apply (rs_decision _ _ H).
  - apply (rs_history _ _ H).
Qed.

Lemma approval_complete : complete_approval t0 (edition_request_of finished approval).
Proof.
  split_and!; try (vm_compute; reflexivity).
  - repeat (apply Forall_cons; split; [vm_compute; reflexivity|]). constructor.
  - apply Forall_forall. repeat (apply Forall_cons; split; [vm_compute; reflexivity|]). constructor.
Qed.

Lemma finished_bound : forall f, f ∈ bound_fields ->
  expected_field (report_package_from_record finished) (Some (record_identity finished)) f =
  text_of (dget (record_identity finished) f).
Proof.
  apply Forall_forall. repeat (apply Forall_cons; split; [vm_compute; reflexivity|]). constructor.
Qed.

Lemma no_manifest : has_manifest (report_package_from_record finished) = true ->
  absent (AJson (dget (report_package_from_record finished) "evidence_manifest_json")) = false.
Proof. intros H. vm_compute in H. discriminate H. Qed.

Lemma finished_package : report_package_from_record finished <> [].
Proof. discriminate. Qed.

Lemma finished_reviewed : reviewed finished manifest.
Proof. exact (reviewed_edition _ _ _ _ _ (fun f => state_bound _ _ f finished_state) no_manifest finished_bound edition_ok approval_complete). Qed.

Lemma authorizer_may : may_decide (claim_of person).
Proof. split_and!; try (vm_compute; reflexivity); unwritten. Qed.

Lemma decided_ok : exists u, approves finished manifest false u /\
  apply_comprehensive_review_decision operator_delivery finished manifest t0 = Ok u.
Proof.
  destruct (reviewed_accepted operator_delivery finished manifest t0 finished_state finished_package finished_reviewed)
    as (u & A & _ & Hu). exists u. split; [exact A|exact Hu].
Qed.

(** The approved run, delivered with a receipt. *)
Lemma delivered_ok : exists u receipt, approves finished manifest false u /\ receipt_holds u manifest receipt /\
  validate_comprehensive_run_record operator_delivery (delivered_record u receipt []) =
    Ok [("status", JStr "valid"); ("violations", JArr [])].
Proof.
  destruct decided_ok as (u & A & _).
  destruct (approved_authorizable _ _ _ _ person finished_state A finished_reviewed authorizer_may) as (current & _ & Z).
  destruct (authorizable_receipt _ _ _ _ Z) as (receipt & Hr & Hh). exists u, receipt. split; [exact A|]. split; [exact Hh|].
  apply authorize_inv in Hr as (sha & c & human & _ & _ & _ & -> & _).
  exact (delivered_valid _ _ _ _ _ _ _ finished_state finished_package finished_reviewed A Hh (receipt_leaf _ _ _ _)).
Qed.

End RunDemo.

Lemma stage_result_spec_witness :
  exists r', apply_comprehensive_stage_result RunDemo.operator_delivery
    RunDemo.created "authorization_and_scope" [("status", JStr "Complete ")] RunDemo.t0 = Ok r' /\ run_state 1 r'.
Proof.
  pose proof (stage_result_spec RunDemo.operator_delivery 0 RunDemo.created
    "authorization_and_scope" [("status", JStr "Complete ")] RunDemo.t0 (create_state _ _ _ RunDemo.created_ok)) as H.
  destruct (apply_comprehensive_stage_result _ _ _ _ _) as [r'|e] eqn:Hr.
  - exists r'. split; [reflexivity|]. destruct H as (_ & _ & H). exact H.
  - exfalso. destruct H as [_ H]. apply H. split; [reflexivity|].
    assert (forallb (fun f => bool_decide (dget (record_identity RunDemo.created) f = JStr (strip (py_str
      (jor (dget [("status", JStr "Complete ")] f) (dget (record_identity RunDemo.created) f)))))) drift_fields = true) as Hall
      by (vm_compute; reflexivity).
    rewrite forallb_forall in Hall. intros f Hf. apply (proj1 (bool_decide_eq_true _)), Hall, list_elem_of_In, Hf.
Defined.

Lemma reachable_records_valid_witness :
  validate_comprehensive_run_record RunDemo.operator_delivery RunDemo.created =
    Ok [("status", JStr "valid"); ("violations", JArr [])].
Proof.
  apply (reachable_records_valid RunDemo.operator_delivery).
  exact (reaches_create _ _ _ _ RunDemo.created_ok).
Defined.

Lemma review_decision_spec_witness :
  exists r, apply_comprehensive_review_decision RunDemo.operator_delivery RunDemo.finished RunDemo.manifest RunDemo.t0 = Ok r /\
    dget r "client_delivery_allowed" = JBool false.
Proof.
  destruct RunDemo.decided_ok as (r & _ & H). exists r. split; [exact H|].
  destruct (review_decision_spec _ _ _ _ _ H) as (_ & _ & _ & _ & _ & Hd & _). exact Hd.
Defined.

Lemma complete_approval_accepted_witness :
  exists r, apply_comprehensive_review_decision RunDemo.operator_delivery RunDemo.finished RunDemo.manifest RunDemo.t0 = Ok r /\
    dget r "status" = JStr "approved" /\
    exists current receipt, authorize_accepted_edition r RunDemo.manifest RunDemo.person (JObj current) = Ok receipt.
Proof.
  destruct (complete_approval_accepted RunDemo.operator_delivery RunDemo.ledger RunDemo.finished RunDemo.approval
    RunDemo.t0 RunDemo.manifest RunDemo.t0 RunDemo.finished_state RunDemo.finished_package RunDemo.no_manifest
    RunDemo.finished_bound RunDemo.edition_ok RunDemo.approval_complete) as (u & Hu & Hs & _ & _ & _ & Hd).
  destruct (Hd _ RunDemo.authorizer_may) as (current & receipt & _ & Hr & _).
  exists u. split; [exact Hu|]. split; [exact Hs|]. exists current, receipt. exact Hr.
Defined.

Lemma delivered_record_authorized_witness :
  exists record m a, dget record "client_delivery_allowed" = JBool true /\ receipt_holds record m a.
Proof.
  destruct RunDemo.delivered_ok as (u & receipt & A & Hh & Hv).
  pose proof (delivered_approves RunDemo.operator_delivery _ _ _ receipt [] A) as D.
  pose proof (delivered_record_authorized RunDemo.operator_delivery (delivered_record u receipt []) _ Hv eq_refl
    (ap_delivery _ _ _ _ D)) as H.
  rewrite bool_decide_eq_true_2 in H by (unfold record_status; rewrite (dget_str_of _ _ _ (ap_status _ _ _ _ D)); reflexivity).
  destruct H as (m & a & _ & _ & H & _). exists (delivered_record u receipt []), m, a.
  split; [exact (ap_delivery _ _ _ _ D)|exact H].
Defined.
