(* ===== verification/ReviewWork.v ===== *)
(** * The work of reviewing candidates (nico/comprehensive_review_work_v1.py)

    The final report of a run holds the register of scanner candidates and their
    clusters.  Specialists work through it before the run can be approved: they
    decide about candidates, singly or by cluster, check each other, ask for
    evidence and have their time measured.  What they did is the ledger, a JSON
    document in the run record, and every action appends to its audit events, a
    chain of digests.

    [apply_review_work_action] takes a record and answers its next ledger, or
    raises.  The time is an argument; so is the time zone of the machine, which
    only matters for a start time that names no offset. *)

From S2P Require Import Prelude PyStr Sha256 PyFloat Json JsonFacts PyTime Orchestration AcceptedEdition HumanEvidence ReviewDecision.

Definition LEDGER_SCHEMA : string := "nico.comprehensive_review_work_ledger.v1".
Definition PROJECTION_SCHEMA : string := "nico.comprehensive_review_work_projection.v1".
Definition _FINAL_REPORT_STAGE_ID : string := "final_comprehensive_report_generation".
Definition _ALLOWED_DISPOSITIONS : list string :=
  ["confirmed"; "false_positive"; "not_applicable"; "accepted_risk"; "needs_more_evidence"].
Definition _QC_OUTCOMES : list string := ["agree"; "disagree"].
Definition _HIGH_SEVERITIES : list string := ["critical"; "high"].

Definition terminal_dispositions : list string := ["confirmed"; "false_positive"; "not_applicable"; "accepted_risk"].
Definition is_terminal_disposition (value : json) : bool :=
  match value with JObj d => bool_decide (casefold (text_of (dget d "disposition")) ∈ terminal_dispositions) | _ => false end.

Definition _canonical_hash (payload : json) : string := sha256_hex (utf8_encode (dumps compact_unicode payload)).

Definition quality_control_blocker (qc disposition : json) : string :=
  match qc with
  | JObj q =>
      if negb (is_terminal_disposition disposition) then "candidate_disposition_incomplete"
      else if negb (String.eqb (casefold (text_of (dget q "qc_outcome"))) "agree") then "quality_control_disagreement"
      else
        let reviewer := casefold (text_of (dget q "reviewer")) in
        let decision_reviewer := casefold (text_of (dget (as_dict disposition) "reviewer")) in
        if negb (is_true (dget q "independent_reviewer_verified")) || negb (truthy reviewer) || negb (truthy decision_reviewer) ||
           String.eqb reviewer decision_reviewer
        then "independent_quality_control_required"
        else
          let digest := text_of (dget q "reviewed_disposition_sha256") in
          if negb (truthy digest) then "quality_control_disposition_binding_missing"
          else if negb (String.eqb digest (_canonical_hash disposition)) then "quality_control_disposition_changed"
          else ""
  | _ => "quality_control_missing"
  end.

Definition _iso (now : datetime) : string := isoformat_body now +:+ "+00:00".

(** ** The register *)

Definition identity_fields : list string := ["run_id"; "repository"; "commit_sha"; "evidence_ledger_id"].

Definition _identity (record : dict) : res (list (string * string)) :=
  match dget record "identity" with
  | JObj raw =>
      let result := map (fun f => (f, text_of (dget raw f))) identity_fields in
      if forallb (fun m => truthy (snd m)) result then Ok result
      else fail ValueError "review_work_identity_incomplete"
  | _ => fail ValueError "review_work_identity_missing"
  end.

(** [d.get(k)] of something that is a mapping, else [None] *)
Definition get_of (v : json) (k : string) : json := match v with JObj d => dget d k | _ => JNull end.

Definition unavailable {A} : res A := fail ValueError "review_work_canonical_register_unavailable".

Fixpoint check_identity (canonical_identity : dict) (identity : list (string * string)) : res unit :=
  match identity with
  | [] => Ok tt
  | (field, expected) :: identity =>
      if negb (String.eqb (text_of (dget canonical_identity field)) expected)
      then fail ValueError ("review_work_identity_mismatch:" +:+ field)
      else check_identity canonical_identity identity
  end.

(** [try: int(v) except (TypeError, ValueError): -1] *)
Definition declared_count (v : json) : res Z :=
  match py_int v with
  | Ok z => Ok z
  | Raise e => if isinstance e TypeError || isinstance e ValueError then Ok (-1) else Raise e
  end.

Definition candidate_id (item : json) : string := text_of (get_of item "candidate_id").

Definition canonical_candidate_register (record : dict) : res dict :=
  identity ← _identity record;
  let stage := get_of (dget record "stage_results") _FINAL_REPORT_STAGE_ID in
  let canonical := get_of (get_of stage "report_package") "json" in
  match canonical, get_of canonical "identity" with
  | JObj _, JObj canonical_identity =>
      _ ← check_identity canonical_identity identity;
      match get_of (get_of canonical "assessment") "canonical_scanner_finding_register" with
      | JObj register =>
          match dget register "findings" with
          | JArr findings =>
              if negb (forallb is_mapping findings) then fail ValueError "review_work_canonical_findings_malformed"
              else
                let ids := map candidate_id findings in
                if negb (forallb truthy ids && bool_decide (NoDup ids)) then fail ValueError "review_work_candidate_identity_invalid"
                else
                  declared ← declared_count (dget register "candidate_record_count");
                  if negb (declared =? Z.of_nat (length findings)) then fail ValueError "review_work_candidate_count_mismatch"
                  else Ok register
          | _ => fail ValueError "review_work_canonical_findings_missing"
          end
      | _ => unavailable
      end
  | _, _ => unavailable
  end.

(** [[_text(x) for x in v or []]] *)
Definition texts (v : json) : res (list string) := l ← iter_or_empty v; Ok (map text_of l).
Definition _cluster_members (cluster : dict) : res (list string) := texts (dget cluster "candidate_ids").

Fixpoint catalog_clusters (candidates : dict) (items : list json) (clusters : dict) : res dict :=
  match items with
  | [] => Ok clusters
  | JObj item :: items =>
      let cluster_id := text_of (dget item "cluster_id") in
      if negb (truthy cluster_id) || has_key clusters cluster_id then fail ValueError "review_work_cluster_identity_invalid"
      else
        candidate_ids ← _cluster_members item;
        if bool_decide (candidate_ids = []) || negb (bool_decide (NoDup candidate_ids))
        then fail ValueError ("review_work_cluster_membership_invalid:" +:+ cluster_id)
        else if negb (forallb (has_key candidates) candidate_ids)
        then fail ValueError ("review_work_cluster_unknown_candidate:" +:+ cluster_id)
        else catalog_clusters candidates items (dset clusters cluster_id (JObj item))
  | _ => fail ValueError "review_work_cluster_malformed"
  end.

Definition catalog_candidates (findings : list json) : dict :=
  fold_left (fun d item => if is_mapping item then dset d (candidate_id item) item else d) findings [].

(** [set(a) == set(b)] *)
Definition same_members (a b : list string) : bool := issubset a b && issubset b a.

Definition _catalog (register : dict) : res (dict * dict) :=
  findings ← iter_or_empty (dget register "findings");
  let candidates := catalog_candidates findings in
  clusters ← match dget register "review_workload_clusters" with
    | JArr raw_clusters => catalog_clusters candidates raw_clusters []
    | _ => Ok []
    end;
  if negb (bool_decide (candidates = [])) && bool_decide (clusters = [])
  then fail ValueError "review_work_cluster_metadata_unavailable"
  else
    members ← mapR (fun m => _cluster_members (as_dict (snd m))) clusters;
    let clustered := concat members in
    let n := length candidates in
    if negb (length clustered =? n)%nat || negb (length (dict_fromkeys clustered) =? n)%nat || negb (same_members clustered (keys candidates))
    then fail ValueError "review_work_clusters_do_not_preserve_candidates"
    else Ok (candidates, clusters).

Fixpoint qc_representatives (clusters : dict) (cluster_ids : list string) : res (list string) :=
  match cluster_ids with
  | [] => Ok []
  | cluster_id :: cluster_ids =>
      let cluster := as_dict (dget clusters cluster_id) in
      if negb (is_true (dget cluster "grouped_review_eligible")) then qc_representatives clusters cluster_ids
      else
        candidate_ids ← _cluster_members cluster;
        if (length candidate_ids <? 2)%nat then qc_representatives clusters cluster_ids
        else
          let representative := text_of (dget cluster "representative_candidate_id") in
          if negb (bool_decide (representative ∈ candidate_ids))
          then fail ValueError ("review_work_qc_representative_invalid:" +:+ cluster_id)
          else result ← qc_representatives clusters cluster_ids; Ok (representative :: result)
  end.
Definition _qc_required_ids (clusters : dict) : res (list string) := qc_representatives clusters (sorted (keys clusters)).

Definition high_impact (candidate : dict) : bool :=
  bool_decide (casefold (text_of (dget candidate "severity")) ∈ _HIGH_SEVERITIES) ||
  String.eqb (upper (text_of (dget candidate "review_routing_class"))) "CRITICAL_ATTENTION".
Definition _high_impact_ids (candidates : dict) : list string :=
  sorted (map fst (List.filter (fun m => high_impact (as_dict (snd m))) candidates)).

(** ** The ledger *)

Definition strs (l : list string) : json := JArr (map JStr l).

Definition _empty_ledger (record register : dict) : res dict :=
  identity ← _identity record;
  '(candidates, clusters) ← _catalog register;
  qc ← _qc_required_ids clusters;
  Ok ([("artifact_schema", JStr LEDGER_SCHEMA); ("version", JInt 1)] ++ map (fun m => (fst m, JStr (snd m))) identity ++
      [("candidate_count", JInt (Z.of_nat (length candidates))); ("cluster_count", JInt (Z.of_nat (length clusters)));
       ("candidate_ids", strs (sorted (keys candidates))); ("qc_required_candidate_ids", strs qc);
       ("high_impact_candidate_ids", strs (_high_impact_ids candidates)); ("reviewer_identities", JObj []);
       ("assignments", JObj []); ("dispositions", JObj []); ("quality_control", JObj []); ("evidence_requests", JArr []);
       ("stakeholder_evidence", JArr []); ("review_sessions", JArr []); ("audit_events", JArr []);
       ("empirical_study", JObj [("status", JStr "not_yet_measured"); ("completed_at", JStr ""); ("completed_by", JStr "")]);
       ("human_review_required", JBool true); ("client_delivery_allowed", JBool false)]).

Definition human_fields : list string :=
  ["reviewer_identities"; "assignments"; "dispositions"; "quality_control"; "evidence_requests"; "stakeholder_evidence";
   "review_sessions"; "audit_events"].
Definition _has_human_review_state (ledger : dict) : bool :=
  existsb (fun f => py_truthy (dget ledger f)) human_fields ||
  match dget ledger "empirical_study" with
  | JObj empirical => negb (bool_decide (text_of (dget empirical "status") ∈ ["" : string; "not_yet_measured"]))
  | _ => false
  end.

(** The loop over the identity of an existing ledger. *)
Fixpoint check_ledger_identity (ledger expected : dict) (fields : list string) : res unit :=
  match fields with
  | [] => Ok tt
  | field :: fields =>
      if negb (String.eqb (text_of (dget ledger field)) (text_of (dget expected field)))
      then fail ValueError ("review_work_ledger_identity_mismatch:" +:+ field)
      else check_ledger_identity ledger expected fields
  end.

(** The strings [_empty_ledger] put under [k]. *)
Definition expected_strs (expected : dict) (k : string) : list string :=
  match dget expected k with JArr l => map py_str l | _ => [] end.

Definition existing_ledger (ledger expected : dict) : res dict :=
  if negb (String.eqb (text_of (dget ledger "artifact_schema")) LEDGER_SCHEMA) then fail ValueError "review_work_ledger_schema_invalid"
  else
    _ ← check_ledger_identity ledger expected identity_fields;
    count ← py_int (jor (dget ledger "candidate_count") (JInt (-1)));
    if negb (bool_decide (JInt count = dget expected "candidate_count")) then
      if _has_human_review_state ledger then fail ValueError "review_work_ledger_candidate_count_mismatch" else Ok expected
    else
      candidate_ids ← texts (dget ledger "candidate_ids");
      if negb (bool_decide (sorted candidate_ids = expected_strs expected "candidate_ids"))
      then fail ValueError "review_work_ledger_candidate_identity_mismatch"
      else
        qc ← texts (dget ledger "qc_required_candidate_ids");
        if negb (bool_decide (sorted qc = sorted (expected_strs expected "qc_required_candidate_ids")))
        then fail ValueError "review_work_ledger_qc_sample_drift"
        else
          high ← texts (dget ledger "high_impact_candidate_ids");
          if negb (bool_decide (sorted high = expected_strs expected "high_impact_candidate_ids"))
          then fail ValueError "review_work_ledger_escalation_drift"
          else Ok ledger.

(** [register or canonical_candidate_register(record)] *)
Definition register_of (record : dict) (register : option dict) : res dict :=
  match register with Some (m :: d) => Ok (m :: d) | _ => canonical_candidate_register record end.

Definition ledger_for_record (record : dict) (register : option dict) : res dict :=
  register ← register_of record register;
  expected ← _empty_ledger record register;
  match dget record "review_work_ledger" with
  | JObj existing => existing_ledger existing expected
  | _ => Ok expected
  end.

(** ** Readiness *)

(** [len(v)] *)
Definition py_len (v : json) : res Z :=
  match v with
  | JArr l => Ok (Z.of_nat (length l))
  | JObj d => Ok (Z.of_nat (length d))
  | JStr s => Ok (blen s)
  | _ => fail TypeError "object has no len()"
  end.
Definition len_or_empty (v : json) : res Z := py_len (jor v (JArr [])).

(** [[dict(x) for x in v or [] if isinstance(x, Mapping)]] *)
Definition mappings (v : json) : res (list dict) := l ← iter_or_empty v; Ok (map as_dict (List.filter is_mapping l)).
Definition has_status (status : string) (item : dict) : bool := String.eqb (text_of (dget item "status")) status.

Definition escalated (disposition : json) : bool :=
  is_terminal_disposition disposition && truthy (text_of (get_of disposition "escalation_resolution")) &&
  truthy (text_of (get_of disposition "escalation_owner")).

(** What [review_work_projection] computes before it lists it. *)
Record progress := mkProgress {
  required_qc : list string;
  high_impact_ids : list string;
  unresolved_high : list string;
  open_requests : list dict;
  qc_complete_ids : list string;
  completed_dispositions : list string;
  ready : bool }.

Definition progress_of (candidates ledger : dict) : res progress :=
  let dispositions := as_dict (dget ledger "dispositions") in
  let qc := as_dict (dget ledger "quality_control") in
  required_qc ← texts (dget ledger "qc_required_candidate_ids");
  high ← texts (dget ledger "high_impact_candidate_ids");
  let unresolved := List.filter (fun id => negb (escalated (dget dispositions id))) high in
  requests ← mappings (dget ledger "evidence_requests");
  let open := List.filter (has_status "open") requests in
  let qc_complete := List.filter (fun id => String.eqb (quality_control_blocker (dget qc id) (dget dispositions id)) "") required_qc in
  let completed := List.filter (fun id => is_terminal_disposition (dget dispositions id)) (keys candidates) in
  Ok (mkProgress required_qc high unresolved open qc_complete completed
        ((length completed =? length candidates)%nat && (length qc_complete =? length required_qc)%nat &&
         bool_decide (open = []) && bool_decide (unresolved = []))).

(** [sum(max(0, int(item.get("duration_seconds") or 0)) for item in completed_sessions)] *)
Fixpoint total_seconds (sessions : list dict) : res Z :=
  match sessions with
  | [] => Ok 0
  | item :: sessions =>
      seconds ← py_int (jor (dget item "duration_seconds") (JInt 0));
      total ← total_seconds sessions;
      Ok (Z.max 0 seconds + total)
  end.

Definition four_hours : Z := 4 * 60 * 60.

Definition empirical_measurement (ledger : dict) (completed_sessions : list dict) (total : Z) : dict :=
  let empirical := as_dict (dget ledger "empirical_study") in
  let study_completed := String.eqb (text_of (dget empirical "status")) "completed" in
  let measured := study_completed && negb (bool_decide (completed_sessions = [])) in
  let target_verified := measured && (total <=? four_hours) in
  [("status", JStr (if target_verified then "verified_within_four_hours"
                    else if measured then "measured_over_four_hours" else "not_yet_measured"));
   ("completed_session_count", JInt (Z.of_nat (length completed_sessions))); ("combined_specialist_seconds", JInt total);
   ("combined_specialist_hours", JFloat (float_round 3 (float_of_ratio total 3600)));
   ("four_hour_target_seconds", JInt four_hours);
   ("four_combined_specialist_hours_empirically_proven", JBool target_verified); ("study_completed", JBool study_completed);
   ("completed_at", JStr (text_of (dget empirical "completed_at"))); ("completed_by", JStr (text_of (dget empirical "completed_by")));
   ("server_measured_only", JBool true)].

Definition length_of {A} (l : list A) : json := JInt (Z.of_nat (length l)).
Definition text_member (ledger : dict) (k : string) : string * json := (k, JStr (text_of (dget ledger k))).

Definition review_work_projection (record : dict) (ledger register : option dict) : res dict :=
  register ← register_of record register;
  '(candidates, clusters) ← _catalog register;
  ledger ← match ledger with Some (m :: d) => Ok (m :: d) | _ => ledger_for_record record (Some register) end;
  p ← progress_of candidates ledger;
  sessions ← mappings (dget ledger "review_sessions");
  let completed_sessions := List.filter (has_status "completed") sessions in
  total ← total_seconds completed_sessions;
  let dispositions := as_dict (dget ledger "dispositions") in
  let qc := as_dict (dget ledger "quality_control") in
  let blockers := dict_of_pairs (map (fun id => (id, JStr (quality_control_blocker (dget qc id) (dget dispositions id))))
                    (List.filter (fun id => negb (bool_decide (id ∈ qc_complete_ids p))) (required_qc p))) in
  identities ← py_len (jor (dget ledger "reviewer_identities") (JObj []));
  assignments ← py_len (jor (dget ledger "assignments") (JObj []));
  stakeholders ← len_or_empty (dget ledger "stakeholder_evidence");
  events ← len_or_empty (dget ledger "audit_events");
  Ok ([("artifact_schema", JStr PROJECTION_SCHEMA); ("service_id", JStr "comprehensive")] ++
      map (text_member ledger) identity_fields ++
      [("candidate_count", length_of candidates); ("cluster_count", length_of clusters);
       ("dispositioned_candidate_count", length_of (completed_dispositions p));
       ("remaining_candidate_count", JInt (Z.of_nat (length candidates) - Z.of_nat (length (completed_dispositions p))));
       ("quality_control_required_count", length_of (required_qc p)); ("quality_control_completed_count", length_of (qc_complete_ids p));
       ("quality_control_required_candidate_ids", strs (required_qc p)); ("quality_control_blockers", JObj blockers);
       ("high_impact_candidate_ids", strs (high_impact_ids p)); ("unresolved_high_impact_candidate_ids", strs (unresolved_high p));
       ("open_evidence_request_count", length_of (open_requests p)); ("open_evidence_requests", JArr (map JObj (open_requests p)));
       ("ready_for_final_approval", JBool (ready p)); ("reviewer_identity_count", JInt identities);
       ("assignment_count", JInt assignments); ("stakeholder_evidence_count", JInt stakeholders);
       ("audit_event_count", JInt events); ("empirical_measurement", JObj (empirical_measurement ledger completed_sessions total));
       ("ledger", JObj ledger); ("human_review_required", JBool true); ("client_delivery_allowed", JBool false)]).

Definition assert_ready_for_approval (record : dict) : res dict :=
  projection ← review_work_projection record None None;
  if is_true (dget projection "ready_for_final_approval") then Ok projection
  else
    required ← py_int (jor (dget projection "quality_control_required_count") (JInt 0));
    completed ← py_int (jor (dget projection "quality_control_completed_count") (JInt 0));
    let blockers := [("remaining_candidate_count", dget projection "remaining_candidate_count");
      ("quality_control_remaining_count", JInt (required - completed));
      ("open_evidence_request_count", dget projection "open_evidence_request_count");
      ("unresolved_high_impact_candidate_ids", dget projection "unresolved_high_impact_candidate_ids")] in
    fail ValueError ("review_work_not_ready_for_approval:" +:+ dumps compact_ascii (JObj blockers)).

(** ** Actions *)

Definition _require_human (payload : dict) : res (string * string) :=
  if negb (is_true (dget payload "review_authorized")) || negb (is_true (dget payload "authorization_confirmed"))
  then fail ValueError "explicit_review_authorization_required"
  else human_reviewer_identity (text_of (dget payload "reviewer")) (text_of (dget payload "reviewer_role")).

Definition last_hash (events : list dict) : string :=
  match last events with Some e => text_of (dget e "event_sha256") | None => "" end.

(** One link of the chain. *)
Definition event (action reviewer reviewer_role : string) (payload : dict) (now : datetime) (events : list dict) : dict :=
  let e := [("sequence", JInt (Z.of_nat (length events) + 1)); ("action", JStr action); ("reviewer", JStr reviewer);
            ("reviewer_role", JStr reviewer_role); ("recorded_at", JStr (_iso now));
            ("previous_event_sha256", JStr (last_hash events)); ("payload", JObj payload)] in
  e ++ [("event_sha256", JStr (_canonical_hash (JObj e)))].

Definition _append_event (ledger : dict) (action reviewer reviewer_role : string) (payload : dict) (now : datetime) : res dict :=
  events ← mappings (dget ledger "audit_events");
  Ok (dset ledger "audit_events" (JArr (map JObj (events ++ [event action reviewer reviewer_role payload now events])))).

(** [dict(ledger.get(k) or {})] *)
Definition dict_member (ledger : dict) (k : string) : res dict := py_dict (jor (dget ledger k) (JObj [])).

Definition _reviewer_identity (ledger : dict) (reviewer reviewer_role : string) (now : datetime) : res dict :=
  identities ← dict_member ledger "reviewer_identities";
  let key := casefold reviewer in
  let previous := as_dict (dget identities key) in
  let entry := [("reviewer", JStr reviewer); ("reviewer_role", JStr reviewer_role);
    ("first_seen_at", JStr (str_or (text_of (dget previous "first_seen_at")) (_iso now))); ("last_seen_at", JStr (_iso now));
    ("explicit_authorization_confirmed", JBool true)] in
  Ok (dset ledger "reviewer_identities" (JObj (dset identities key (JObj entry)))).

Definition _disposition_payload (payload candidate : dict) : res dict :=
  let disposition := casefold (text_of (dget payload "disposition")) in
  let rationale := text_of (dget payload "rationale") in
  let residual_risk := text_of (dget payload "residual_risk") in
  let residual_risk_owner := text_of (dget payload "residual_risk_owner") in
  let escalation_resolution := text_of (dget payload "escalation_resolution") in
  let escalation_owner := text_of (dget payload "escalation_owner") in
  if negb (bool_decide (disposition ∈ _ALLOWED_DISPOSITIONS)) then fail ValueError "review_work_disposition_invalid"
  else if negb (truthy rationale) then fail ValueError "review_work_disposition_rationale_required"
  else if bool_decide (disposition ∈ ["confirmed"; "accepted_risk"]) && (negb (truthy residual_risk) || negb (truthy residual_risk_owner))
  then fail ValueError "review_work_residual_risk_and_owner_required"
  else if high_impact candidate && (negb (truthy escalation_resolution) || negb (truthy escalation_owner))
  then fail ValueError "review_work_high_impact_escalation_resolution_required"
  else Ok [("disposition", JStr disposition); ("rationale", JStr rationale); ("residual_risk", JStr residual_risk);
           ("residual_risk_owner", JStr residual_risk_owner); ("escalation_resolution", JStr escalation_resolution);
           ("escalation_owner", JStr escalation_owner)].

Definition _next_identifier (ledger : dict) (prefix : string) (now : datetime) (material : string) : res string :=
  n ← len_or_empty (dget ledger "audit_events");
  let text := py_str (dget ledger "run_id") +:+ "|" +:+ prefix +:+ "|" +:+ str_of_Z (n + 1) +:+ "|" +:+ _iso now +:+ "|" +:+ material in
  Ok (prefix +:+ "_" +:+ str_take 20 (sha256_hex (utf8_encode text))).

Section Actions.
Context (record register candidates clusters payload : dict) (reviewer reviewer_role : string) (timestamp : datetime).

Definition by_at (by_ at_ : string) : dict := [(by_, JStr reviewer); (at_, JStr (_iso timestamp))].
Definition asked (k : string) : string := text_of (dget payload k).

Definition assign (ledger : dict) : res dict :=
  let target_id := asked "target_id" in
  if negb (has_key candidates target_id) && negb (has_key clusters target_id) then fail ValueError "review_work_assignment_target_invalid"
  else
    let assignee := asked "assignee" in
    let specialist_role := asked "specialist_role" in
    if negb (truthy assignee) || negb (truthy specialist_role)
    then fail ValueError "review_work_assignee_and_specialist_role_required"
    else
      assignments ← dict_member ledger "assignments";
      let entry := [("target_id", JStr target_id); ("target_type", JStr (if has_key clusters target_id then "cluster" else "candidate"));
                    ("assignee", JStr assignee); ("specialist_role", JStr specialist_role)] ++ by_at "assigned_by" "assigned_at" in
      Ok (dset ledger "assignments" (JObj (dset assignments target_id (JObj entry)))).

(** The loop over [target_candidates]. *)
Fixpoint dispose (source cluster_id group_action_id : string) (target_candidates : list string) (dispositions : dict) : res dict :=
  match target_candidates with
  | [] => Ok dispositions
  | candidate_id :: target_candidates =>
      disposition ← _disposition_payload payload (as_dict (dget candidates candidate_id));
      let entry := [("candidate_id", JStr candidate_id); ("cluster_id", JStr cluster_id); ("source", JStr source);
                    ("group_action_id", JStr group_action_id)] ++ disposition ++
                   [("reviewer", JStr reviewer); ("reviewer_role", JStr reviewer_role); ("decided_at", JStr (_iso timestamp));
                    ("human_decision", JBool true)] in
      dispose source cluster_id group_action_id target_candidates (dset dispositions candidate_id (JObj entry))
  end.

Definition disposition_candidate (ledger : dict) : res dict :=
  let target_id := asked "candidate_id" in
  if negb (has_key candidates target_id) then fail ValueError "review_work_candidate_id_invalid"
  else
    let cluster_id := text_of (get_of (dget candidates target_id) "cluster_id") in
    dispositions ← dict_member ledger "dispositions";
    dispositions ← dispose "candidate" cluster_id "" [target_id] dispositions;
    Ok (dset ledger "dispositions" (JObj dispositions)).

Definition disposition_group (ledger : dict) : res dict :=
  let target_id := asked "cluster_id" in
  if negb (has_key clusters target_id) then fail ValueError "review_work_cluster_id_invalid"
  else
    let cluster := as_dict (dget clusters target_id) in
    if negb (is_true (dget cluster "grouped_review_eligible")) || negb (is_true (dget cluster "homogeneous_evidence")) ||
       negb (is_true (dget cluster "homogeneous_verdict"))
    then fail ValueError "review_work_group_disposition_requires_homogeneous_group"
    else
      target_candidates ← _cluster_members cluster;
      dispositions ← dict_member ledger "dispositions";
      group_action_id ← _next_identifier ledger "groupreview" timestamp target_id;
      dispositions ← dispose "group" target_id group_action_id target_candidates dispositions;
      Ok (dset ledger "dispositions" (JObj dispositions)).

(** The ledger, and what the audit event says of the disposition. *)
Definition quality_control (ledger : dict) : res (dict * dict) :=
  let candidate_id := asked "candidate_id" in
  required ← texts (dget ledger "qc_required_candidate_ids");
  if negb (bool_decide (candidate_id ∈ required)) || negb (has_key candidates candidate_id)
  then fail ValueError "review_work_qc_candidate_not_required"
  else
    dispositions ← as_mapping (jor (dget ledger "dispositions") (JObj []));
    match dget dispositions candidate_id with
    | JObj disposition =>
        if String.eqb (casefold (text_of (dget disposition "reviewer"))) (casefold reviewer)
        then fail ValueError "review_work_qc_requires_independent_reviewer"
        else
          let outcome := casefold (asked "qc_outcome") in
          let note := asked "qc_note" in
          if negb (bool_decide (outcome ∈ _QC_OUTCOMES)) || negb (truthy note)
          then fail ValueError "review_work_qc_outcome_and_note_required"
          else
            qc ← dict_member ledger "quality_control";
            let digest := _canonical_hash (JObj disposition) in
            let entry := [("candidate_id", JStr candidate_id); ("qc_outcome", JStr outcome); ("qc_note", JStr note);
                          ("reviewer", JStr reviewer); ("reviewer_role", JStr reviewer_role); ("reviewed_at", JStr (_iso timestamp));
                          ("independent_reviewer_verified", JBool true); ("reviewed_disposition_sha256", JStr digest)] in
            Ok (dset ledger "quality_control" (JObj (dset qc candidate_id (JObj entry))),
                [("reviewed_disposition_sha256", JStr digest); ("reviewed_disposition", JObj disposition)])
    | _ => fail ValueError "review_work_qc_requires_candidate_disposition"
    end.

Definition request_evidence (ledger : dict) : res dict :=
  let request_text := asked "request_text" in
  let owner := asked "owner" in
  let candidate_id := asked "candidate_id" in
  if truthy candidate_id && negb (has_key candidates candidate_id)
  then fail ValueError "review_work_evidence_request_candidate_invalid"
  else if negb (truthy request_text) || negb (truthy owner)
  then fail ValueError "review_work_evidence_request_text_and_owner_required"
  else
    request_id ← _next_identifier ledger "evidence_request" timestamp (candidate_id +:+ request_text);
    requests ← mappings (dget ledger "evidence_requests");
    let entry := [("request_id", JStr request_id); ("candidate_id", JStr candidate_id); ("request_text", JStr request_text);
                  ("owner", JStr owner); ("status", JStr "open")] ++ by_at "requested_by" "requested_at" ++
                 [("resolution_note", JStr ""); ("evidence_references", JArr [])] in
    Ok (dset ledger "evidence_requests" (JArr (map JObj (requests ++ [entry])))).

(** The loop over the requests: whether the request was found, and the new list. *)
Fixpoint resolve (request_id resolution_note : string) (references : list string) (requests : list dict) : res (bool * list dict) :=
  match requests with
  | [] => Ok (false, [])
  | entry :: requests =>
      if String.eqb (text_of (dget entry "request_id")) request_id then
        if negb (has_status "open" entry) then fail ValueError "review_work_evidence_request_already_resolved"
        else
          let entry := dmerge entry ([("status", JStr "resolved"); ("resolution_note", JStr resolution_note);
                                      ("evidence_references", strs references)] ++ by_at "resolved_by" "resolved_at") in
          '(_, rest) ← resolve request_id resolution_note references requests;
          Ok (true, entry :: rest)
      else '(found, rest) ← resolve request_id resolution_note references requests; Ok (found, entry :: rest)
  end.

Definition resolve_evidence_request (ledger : dict) : res dict :=
  let request_id := asked "request_id" in
  let resolution_note := asked "resolution_note" in
  references ← texts (dget payload "evidence_references");
  let references := List.filter truthy references in
  if negb (truthy request_id) || negb (truthy resolution_note) || bool_decide (references = [])
  then fail ValueError "review_work_evidence_resolution_note_and_references_required"
  else
    requests ← mappings (dget ledger "evidence_requests");
    '(found, requests) ← resolve request_id resolution_note references requests;
    if negb (found : bool) then fail ValueError "review_work_evidence_request_not_found"
    else Ok (dset ledger "evidence_requests" (JArr (map JObj requests))).

Definition stakeholder_evidence (ledger : dict) : res dict :=
  let statement := asked "statement" in
  let source_role := asked "source_role" in
  if negb (truthy statement) || negb (truthy source_role)
  then fail ValueError "review_work_stakeholder_statement_and_source_role_required"
  else
    entries ← mappings (dget ledger "stakeholder_evidence");
    evidence_id ← _next_identifier ledger "stakeholder" timestamp statement;
    let entry := [("evidence_id", JStr evidence_id); ("statement", JStr statement); ("source_role", JStr source_role);
                  ("evidence_reference", JStr (asked "evidence_reference"))] ++ by_at "recorded_by" "recorded_at" ++
                 [("human_authored", JBool true); ("technical_score_unchanged", JBool true)] in
    Ok (dset ledger "stakeholder_evidence" (JArr (map JObj (entries ++ [entry])))).

Definition running (item : dict) : bool :=
  has_status "running" item && String.eqb (casefold (text_of (dget item "reviewer"))) (casefold reviewer).

Definition start_session (ledger : dict) : res dict :=
  sessions ← mappings (dget ledger "review_sessions");
  if existsb running sessions then fail ValueError "review_work_session_already_running"
  else
    session_id ← _next_identifier ledger "review_session" timestamp reviewer;
    let entry := [("session_id", JStr session_id); ("reviewer", JStr reviewer); ("reviewer_role", JStr reviewer_role);
                  ("status", JStr "running"); ("started_at", JStr (_iso timestamp)); ("ended_at", JStr "");
                  ("duration_seconds", JNull); ("server_measured", JBool true)] in
    Ok (dset ledger "review_sessions" (JArr (map JObj (sessions ++ [entry])))).

Context (local_to_utc : datetime -> datetime).

(** [datetime.fromisoformat(s).astimezone(UTC)] *)
Definition started_utc (s : string) : res datetime :=
  match fromisoformat s with
  | None => fail ValueError "Invalid isoformat string"
  | Some (t, None) => Ok (local_to_utc t)
  | Some (t, Some off) => dt_add t (- off)
  end.
(** [int((timestamp - started).total_seconds())] *)
Definition seconds_since (started : datetime) : res Z := py_int (JFloat (float_of_ratio (timestamp - started) us_per_second)).

Definition completed (duration : Z) (session : dict) : dict :=
  dmerge session [("status", JStr "completed"); ("ended_at", JStr (_iso timestamp)); ("duration_seconds", JInt duration)].

(** The last running session of the reviewer: what is before it, and after. *)
Fixpoint last_running (sessions : list dict) : option (list dict * dict * list dict) :=
  match sessions with
  | [] => None
  | item :: sessions =>
      match last_running sessions with
      | Some (before, found, after) => Some (item :: before, found, after)
      | None => if running item then Some ([], item, sessions) else None
      end
  end.

Definition stop_session (ledger : dict) : res dict :=
  sessions ← mappings (dget ledger "review_sessions");
  match last_running sessions with
  | None => fail ValueError "review_work_running_session_not_found"
  | Some (before, session, after) =>
      started ← started_utc (text_of (dget session "started_at"));
      duration ← seconds_since started;
      Ok (dset ledger "review_sessions" (JArr (map JObj (before ++ completed (Z.max 0 duration) session :: after))))
  end.

Definition complete_empirical_study (ledger : dict) : res dict :=
  projection ← review_work_projection record (Some ledger) (Some register);
  if negb (is_true (dget projection "ready_for_final_approval"))
  then fail ValueError "review_work_empirical_study_requires_completed_candidate_review"
  else
    sessions ← mappings (dget ledger "review_sessions");
    if negb (existsb (has_status "completed") sessions) then fail ValueError "review_work_empirical_study_requires_measured_session"
    else
      empirical ← dict_member ledger "empirical_study";
      let empirical := dmerge empirical [("status", JStr "completed"); ("completed_at", JStr (_iso timestamp)); ("completed_by", JStr reviewer)] in
      Ok (dset ledger "empirical_study" (JObj empirical)).

(** The branches, each with what it adds to the audit event. *)
Definition act (action : string) (ledger : dict) : res (dict * dict) :=
  let plainly (r : res dict) : res (dict * dict) := (fun ledger => (ledger, [])) <$> r in
  if String.eqb action "assign" then plainly (assign ledger)
  else if String.eqb action "disposition_candidate" then plainly (disposition_candidate ledger)
  else if String.eqb action "disposition_group" then plainly (disposition_group ledger)
  else if String.eqb action "quality_control" then quality_control ledger
  else if String.eqb action "request_evidence" then plainly (request_evidence ledger)
  else if String.eqb action "resolve_evidence_request" then plainly (resolve_evidence_request ledger)
  else if String.eqb action "stakeholder_evidence" then plainly (stakeholder_evidence ledger)
  else if String.eqb action "start_session" then plainly (start_session ledger)
  else if String.eqb action "stop_session" then plainly (stop_session ledger)
  else if String.eqb action "complete_empirical_study" then plainly (complete_empirical_study ledger)
  else fail ValueError ("review_work_action_unsupported:" +:+ action).
End Actions.

Definition open_for_review (record : dict) : res unit :=
  if negb (String.eqb (casefold (dget_str record "status")) "review_required") || negb (is_true (dget record "terminal"))
  then fail ValueError "review_work_requires_terminal_review_required_run"
  else if is_true (dget record "human_review_completed") || is_true (dget record "client_delivery_allowed")
  then fail ValueError "review_work_requires_preapproval_run"
  else Ok tt.

Definition apply_review_work_action (local_to_utc : datetime -> datetime) (record payload : dict) (timestamp : datetime) : res dict :=
  _ ← open_for_review record;
  '(reviewer, reviewer_role) ← _require_human payload;
  let action := casefold (text_of (dget payload "action")) in
  _ ← unless (truthy action) ValueError "review_work_action_required";
  register ← canonical_candidate_register record;
  '(candidates, clusters) ← _catalog register;
  ledger ← ledger_for_record record (Some register);
  ledger ← _reviewer_identity ledger reviewer reviewer_role timestamp;
  '(ledger, audit) ← act record register candidates clusters payload reviewer reviewer_role timestamp local_to_utc action ledger;
  ledger ← _append_event ledger action reviewer reviewer_role (dmerge (dremove "operator_token" payload) audit) timestamp;
  let ledger := dset ledger "updated_at" (JStr (_iso timestamp)) in
  Ok (dset (dset ledger "human_review_required" (JBool true)) "client_delivery_allowed" (JBool false)).
