(* ===== verification/ReviewSampling.v ===== *)
(** * Quality control samples (nico/comprehensive_review_work_v2.py)

    The second phase of the review wraps the first.  It binds the ledger to the
    source it was made for, lets a reviewer choose which automated verdicts are
    checked, accepts checks of those, and projects the candidates into queues.
    Everything else goes on to [ReviewWork.apply_review_work_action].

    What is shown next to the candidates ([build_review_assistance],
    [display_investigation] with [retained_capture], and the fingerprint of an
    investigation) comes from modules that only describe; they are arguments of
    the section at the end.  Names of the first phase are qualified. *)

From S2P Require Import Prelude PyStr Sha256 PyFloat Json JsonFacts PyTime Orchestration AcceptedEdition HumanEvidence ReviewDecision RunRecord ReviewWork.

Definition QC_SAMPLING_VERSION : string := "nico.phase2.qc_sampling.v2".

Module Phase2.

Definition PROJECTION_SCHEMA : string := "nico.comprehensive_review_work_projection.v2".
Definition _ALLOWED_SAMPLING_STRATEGIES : list string := ["deterministic"; "risk_weighted"].
Definition _SCOPE_FIELDS : list string :=
  ["run_id"; "repository"; "commit_sha"; "evidence_ledger_id"; "customer_id"; "project_id"; "client_id"; "workspace_id";
   "organization_id"; "tenant_id"].
Definition _SEVERITY_RANK : list (string * Z) :=
  [("critical", 5); ("material", 5); ("high", 4); ("medium", 3); ("moderate", 3); ("low", 2); ("informational", 1); ("info", 1);
   ("unknown", 0)].

(** ** Scope and source *)

(** [value in (None, "")] *)
Definition missing (v : json) : bool := match v with JNull => true | JStr s => negb (truthy s) | _ => false end.

(** The scope field by field: the identity's, else the record's. *)
Definition scope_value (record : dict) (field : string) : string :=
  let value := dget (record_identity record) field in
  text_of (if missing value then dget record field else value).
Definition _scope_binding (record : dict) : dict :=
  flat_map (fun f => let s := scope_value record f in if truthy s then [(f, JStr s)] else []) _SCOPE_FIELDS.

Definition source_document (record register : dict) : json :=
  JObj [("scope", JObj (_scope_binding record)); ("canonical_scanner_finding_register", JObj register)].
Definition _source_fingerprint (record : dict) : res string :=
  register ← canonical_candidate_register record;
  Ok (_canonical_hash (source_document record register)).

Definition add_row (d : dict) (row : json) : dict :=
  if is_mapping row && truthy (candidate_id row) then dset d (candidate_id row) row else d.
Definition _catalog (record : dict) : res (dict * list dict) :=
  register ← canonical_candidate_register record;
  rows ← iter_or_empty (dget register "findings");
  clusters ← mappings (dget register "review_workload_clusters");
  Ok (fold_left add_row rows [], clusters).

(** ** What is said of a candidate *)

(** [d.get(k, v)] *)
Definition get_default (d : dict) (k : string) (v : json) : json := default v (dlookup k d).

Definition _triage (candidate : dict) : dict := as_dict (dget candidate "technical_triage").
Definition _verdict (candidate : dict) : string :=
  casefold (text_of (jor (dget (_triage candidate) "verdict") (jor (dget candidate "technical_triage_verdict")
    (jor (dget candidate "triage_verdict") (dget candidate "verdict"))))).

Definition confidence_labels : list (string * float) :=
  [("high", float_of_decimal 9 (-1)); ("medium", float_of_decimal 72 (-2)); ("low", float_of_decimal 45 (-2))].
Fixpoint label_of (labels : list (string * float)) (s : string) : option float :=
  match labels with
  | [] => None
  | (l, f) :: labels => if String.eqb s l then Some f else label_of labels s
  end.
Definition _confidence (candidate : dict) : res float :=
  let value := get_default (_triage candidate) "confidence"
    (get_default candidate "technical_triage_confidence" (get_default candidate "triage_confidence" (JFloat (float_of_Z 0)))) in
  match match value with JStr s => label_of confidence_labels (casefold (strip s)) | _ => None end with
  | Some f => Ok f
  | None =>
      match py_float value with
      | Ok f => Ok (fmax (float_of_Z 0) (fmin (float_of_Z 1) f))
      | Raise e => if isinstance e TypeError || isinstance e ValueError then Ok (float_of_Z 0) else Raise e
      end
  end.
Definition confidence_threshold : float := float_of_decimal 85 (-2).

Definition _severity (candidate : dict) : string := casefold (text_of (jor (dget candidate "severity") (JStr "unknown"))).
Definition _evidence_change (candidate : dict) : string :=
  let lineage := as_dict (dget candidate "lineage") in
  casefold (text_of (jor (dget candidate "evidence_change_state") (jor (dget candidate "lineage_status")
    (jor (dget lineage "evidence_change_state") (dget lineage "status"))))).
Definition changes : list string := ["changed"; "materially_changed"; "significant_change"].
Definition _proof_gaps (candidate : dict) : list json :=
  match dget candidate "proof_gaps", dget (_triage candidate) "proof_gaps" with
  | JArr l, _ => l
  | _, JArr l => l
  | _, _ => []
  end.
Definition _conflicting (candidate : dict) : bool :=
  py_truthy (dget candidate "conflicting_evidence") || py_truthy (dget candidate "counterevidence_conflict") ||
  py_truthy (dget (_triage candidate) "conflicting_evidence").
Definition _is_material (candidate : dict) : bool :=
  bool_decide (_severity candidate ∈ ["critical" : string; "material"; "high"]) || String.eqb (_verdict candidate) "confirmed" ||
  String.eqb (upper (text_of (dget candidate "review_routing_class"))) "CRITICAL_ATTENTION".

Definition _needs_individual_attention (candidate : dict) : res bool :=
  if is_true (dget candidate "review_requires_individual_attention") then Ok true
  else
    let verdict := _verdict candidate in
    low_confidence ← (if truthy verdict then f ← _confidence candidate; Ok (fltb f confidence_threshold) else Ok false);
    Ok (_is_material candidate || String.eqb verdict "needs_review" || low_confidence ||
        negb (bool_decide (_proof_gaps candidate = [])) || _conflicting candidate || bool_decide (_evidence_change candidate ∈ changes)).

Definition is_false (v : json) : bool := match v with JBool b => negb b | _ => false end.
Definition _grouped_eligible (candidate : dict) : res bool :=
  if is_true (dget candidate "grouped_review_eligible") && negb (is_false (dget candidate "homogeneous_evidence")) &&
     negb (is_false (dget candidate "homogeneous_verdict"))
  then negb <$> _needs_individual_attention candidate
  else Ok false.

(** ** The population of checks *)

(** One turn of the loop: whether the candidate is appended. *)
Definition in_population (candidate : dict) : res bool :=
  if negb (String.eqb (_verdict candidate) "not_actionable") then Ok false
  else
    f ← _confidence candidate;
    Ok (negb (fltb f confidence_threshold || _is_material candidate) &&
        negb (negb (bool_decide (_proof_gaps candidate = [])) || _conflicting candidate) &&
        negb (bool_decide (_evidence_change candidate ∈ changes))).
Fixpoint population_of (candidates : dict) : res (list (string * dict)) :=
  match candidates with
  | [] => Ok []
  | (id, candidate) :: candidates =>
      b ← in_population (as_dict candidate);
      population ← population_of candidates;
      Ok (if b : bool then (id, as_dict candidate) :: population else population)
  end.
Definition _qc_population (record : dict) : res (list (string * dict)) := '(candidates, _) ← _catalog record; population_of candidates.

Definition rank (severity : string) : Z := default 0 (snd <$> List.find (fun m => String.eqb (fst m) severity) _SEVERITY_RANK).
(** A key of the sort, with the id it is for. *)
Definition _risk_key (item : string * dict) : res (Z * float * string) :=
  f ← _confidence (snd item); Ok (- rank (_severity (snd item)), f, strip (fst item)).
(** The order of such tuples. *)
Definition risk_leb (a b : Z * float * string) : bool :=
  let '(r, f, i) := a in
  let '(s, g, j) := b in
  if negb (r =? s) then r <? s else if negb (feqb f g) then fltb f g else str_leb i j.
(** [sorted(l, key=...)], the keys being given *)
Section SortBy.
Context {K : Type} (leb : K -> K -> bool).
Fixpoint insert_by (x : K) (l : list K) : list K :=
  match l with
  | [] => [x]
  | y :: l' => if leb x y then x :: l else y :: insert_by x l'
  end.
Definition sort_by (l : list K) : list K := foldr insert_by [] l.
End SortBy.

Definition ids_of (population : list (string * dict)) : list string := map (fun item => strip (fst item)) population.

Definition sampling_configuration (strategy : string) (population_ids selected : list string) (reason_basis : dict)
    (by_ role at_ : string) : dict :=
  [("sampling_strategy", JStr strategy); ("sampling_version", JStr QC_SAMPLING_VERSION);
   ("population_candidate_ids", strs population_ids); ("population_size", length_of population_ids);
   ("sample_size", length_of selected); ("selected_candidate_ids", strs selected); ("risk_reason_basis", JObj reason_basis);
   ("configured_by", JStr by_); ("configured_by_role", JStr role); ("configured_at", JStr at_);
   ("sampling_does_not_approve_unsampled_candidates", JBool true)].

Definition _default_sampling_configuration (record ledger : dict) : res dict :=
  population ← _qc_population record;
  let population_ids := sorted (ids_of population) in
  required ← texts (dget ledger "qc_required_candidate_ids");
  let selected := sorted (List.filter (fun id => bool_decide (id ∈ population_ids)) required) in
  Ok (sampling_configuration "deterministic" population_ids selected
        (dict_of_pairs (map (fun id => (id, JStr "retained deterministic cluster representative")) selected))
        "canonical_default" "canonical_default" (text_of (dget ledger "updated_at"))).

Definition with_sampling (record ledger : dict) : res dict :=
  if is_mapping (dget ledger "quality_control_sampling") then Ok ledger
  else config ← _default_sampling_configuration record ledger; Ok (dset ledger "quality_control_sampling" (JObj config)).

Definition _prepare_ledger (record : dict) : res dict :=
  ledger ← ReviewWork.ledger_for_record record None;
  source_sha ← _source_fingerprint record;
  let existing_source := text_of (dget ledger "review_source_sha256") in
  if truthy existing_source && negb (String.eqb existing_source source_sha) then fail ValueError "review_work_source_evidence_changed"
  else
    let scope := _scope_binding record in
    let existing_scope := dget ledger "scope_binding" in
    if is_mapping existing_scope && negb (py_eq existing_scope (JObj scope)) then fail ValueError "review_work_scope_binding_changed"
    else with_sampling record (dset (dset ledger "review_source_sha256" (JStr source_sha)) "scope_binding" (JObj scope)).
Definition ledger_for_record : dict -> res dict := _prepare_ledger.

Definition _record_with_ledger (record ledger : dict) : dict := dset record "review_work_ledger" (JObj ledger).
Definition _require_human : dict -> res (string * string) := ReviewWork._require_human.
Definition _record_reviewer_identity : dict -> string -> string -> datetime -> res dict := ReviewWork._reviewer_identity.

Definition _append_event (ledger : dict) (action reviewer reviewer_role : string) (payload : dict) (timestamp : datetime) : res dict :=
  ledger ← ReviewWork._append_event ledger action reviewer reviewer_role (dremove "operator_token" payload) timestamp;
  Ok (dset (dset (dset ledger "updated_at" (JStr (_iso timestamp))) "human_review_required" (JBool true)) "client_delivery_allowed" (JBool false)).

(** ** Choosing a sample *)

(** [ceil(f)] *)
Definition py_ceil (f : float) : Z := match float_exact f with Some (n, d) => - (- n / d) | None => 0 end.
Definition default_sample_size (n : nat) : nat :=
  match n with
  | O => O
  | _ => Nat.min n (Z.to_nat (Z.max 1 (py_ceil (fmul (float_of_Z (Z.of_nat n)) (float_of_decimal 5 (-2))))))
  end.
Definition requested_sample_size (requested : json) (n : nat) : res nat :=
  if missing requested then Ok (default_sample_size n)
  else
    match py_int requested with
    | Ok z => if (z <? 0) || (Z.of_nat n <? z) then fail ValueError "review_work_qc_sample_size_out_of_range" else Ok (Z.to_nat z)
    | Raise e => if isinstance e TypeError || isinstance e ValueError then fail ValueError "review_work_qc_sample_size_must_be_integer"
                 else Raise e
    end.

Definition ordered_ids (strategy : string) (population : list (string * dict)) : res (list string) :=
  if String.eqb strategy "risk_weighted" then keys ← mapR _risk_key population; Ok (map snd (sort_by risk_leb keys))
  else Ok (sorted (ids_of population)).

Definition reason (strategy : string) (candidate : dict) : res string :=
  f ← _confidence candidate;
  Ok (strategy +:+ "; severity=" +:+ _severity candidate +:+ "; technical_verdict=" +:+ _verdict candidate +:+
      "; confidence=" +:+ format_fixed 3 f).

(** [population[:n]] after sorting, with the reasons. *)
Definition _configure_sampling (record ledger payload : dict) (timestamp : datetime) : res dict :=
  '(reviewer, reviewer_role) ← _require_human payload;
  let strategy := casefold (text_of (jor (dget payload "sampling_strategy") (JStr "deterministic"))) in
  _ ← unless (bool_decide (strategy ∈ _ALLOWED_SAMPLING_STRATEGIES)) ValueError "review_work_qc_sampling_strategy_invalid";
  population ← _qc_population record;
  let population_ids := sorted (ids_of population) in
  sample_size ← requested_sample_size (dget payload "sample_size") (length population_ids);
  ordered ← ordered_ids strategy population;
  let selected := take sample_size ordered in
  '(candidates, _) ← _catalog record;
  reasons ← mapR (fun id => r ← reason strategy (as_dict (dget candidates id)); Ok (id, JStr r)) selected;
  let config := sampling_configuration strategy population_ids selected (dict_of_pairs reasons) reviewer reviewer_role (_iso timestamp) in
  let ledger := dset ledger "quality_control_sampling" (JObj config) in
  ledger ← _record_reviewer_identity ledger reviewer reviewer_role timestamp;
  _append_event ledger "configure_qc_sampling" reviewer reviewer_role
    [("sampling_strategy", JStr strategy); ("sampling_version", JStr QC_SAMPLING_VERSION); ("population_size", length_of population_ids);
     ("sample_size", length_of selected); ("selected_candidate_ids", strs selected)] timestamp.

Definition _configured_qc_ids (ledger : dict) : res (list string) :=
  match dget ledger "quality_control_sampling" with
  | JObj config => ids ← texts (dget config "selected_candidate_ids"); Ok (sorted (dict_fromkeys (List.filter truthy ids)))
  | _ => Ok []
  end.

(** The checks that still have a blocker. *)
Definition outstanding (ledger : dict) : res (list string) :=
  qc ← as_mapping (jor (dget ledger "quality_control") (JObj []));
  ids ← mapR (fun m =>
    dispositions ← as_mapping (jor (dget ledger "dispositions") (JObj []));
    Ok (if truthy (quality_control_blocker (snd m) (dget dispositions (fst m))) then [strip (fst m)] else [])) qc;
  Ok (concat ids).

Definition _effective_qc_ids (ledger : dict) : res (list string) :=
  required ← texts (dget ledger "qc_required_candidate_ids");
  configured ← _configured_qc_ids ledger;
  blocked ← outstanding ledger;
  Ok (sorted (dict_fromkeys (List.filter truthy required ++ configured ++ blocked))).

Definition _additional_quality_control (record ledger payload : dict) (timestamp : datetime) : res dict :=
  '(reviewer, reviewer_role) ← _require_human payload;
  let candidate_id := text_of (dget payload "candidate_id") in
  required ← _effective_qc_ids ledger;
  _ ← unless (bool_decide (candidate_id ∈ required)) ValueError "review_work_qc_candidate_not_required";
  '(candidates, _) ← _catalog record;
  _ ← unless (has_key candidates candidate_id) ValueError "review_work_qc_candidate_not_required";
  match dget (as_dict (dget ledger "dispositions")) candidate_id with
  | JObj disposition =>
      if String.eqb (casefold (text_of (dget disposition "reviewer"))) (casefold reviewer)
      then fail ValueError "review_work_qc_requires_independent_reviewer"
      else
        let outcome := casefold (text_of (dget payload "qc_outcome")) in
        let note := text_of (dget payload "qc_note") in
        if negb (bool_decide (outcome ∈ _QC_OUTCOMES)) || negb (truthy note)
        then fail ValueError "review_work_qc_outcome_and_note_required"
        else
          quality_control ← dict_member ledger "quality_control";
          let digest := ReviewWork._canonical_hash (JObj disposition) in
          let entry := [("candidate_id", JStr candidate_id); ("qc_outcome", JStr outcome); ("qc_note", JStr note);
                        ("reviewer", JStr reviewer); ("reviewer_role", JStr reviewer_role); ("reviewed_at", JStr (_iso timestamp));
                        ("independent_reviewer_verified", JBool true); ("reviewed_disposition_sha256", JStr digest)] in
          let ledger := dset ledger "quality_control" (JObj (dset quality_control candidate_id (JObj entry))) in
          ledger ← _record_reviewer_identity ledger reviewer reviewer_role timestamp;
          _append_event ledger "quality_control" reviewer reviewer_role
            [("candidate_id", JStr candidate_id); ("qc_outcome", JStr outcome); ("qc_note", JStr note);
             ("reviewed_disposition_sha256", JStr digest); ("reviewed_disposition", JObj disposition)] timestamp
  | _ => fail ValueError "review_work_qc_requires_candidate_disposition"
  end.

Definition apply_review_work_action (local_to_utc : datetime -> datetime) (record payload : dict) (now : datetime) : res dict :=
  ledger ← _prepare_ledger record;
  let prepared_record := _record_with_ledger record ledger in
  let action := casefold (text_of (dget payload "action")) in
  let candidate_id := text_of (dget payload "candidate_id") in
  if String.eqb action "configure_qc_sampling" then _configure_sampling prepared_record ledger payload now
  else
    additional ← (if String.eqb action "quality_control" then
        legacy_required ← texts (dget ledger "qc_required_candidate_ids");
        effective ← _effective_qc_ids ledger;
        Ok (bool_decide (candidate_id ∈ effective) && negb (bool_decide (candidate_id ∈ List.filter truthy legacy_required)))
      else Ok false);
    if additional : bool then _additional_quality_control prepared_record ledger payload now
    else
      updated ← ReviewWork.apply_review_work_action local_to_utc prepared_record payload now;
      source_sha ← _source_fingerprint record;
      let updated := dset (dset updated "review_source_sha256" (JStr source_sha)) "scope_binding" (JObj (_scope_binding record)) in
      with_sampling record updated.

(** ** The projection *)

Definition stable_changes : list string := ["stable"; "carried"; "carried_forward"; "carried_forward_exact"; "unchanged"].

Definition _primary_queue (candidate : dict) (disposition : json) : res string :=
  if is_terminal_disposition disposition then Ok "human_disposition_completed"
  else if _is_material candidate then Ok "critical_material"
  else
    individual ← (if is_mapping disposition then Ok true else _needs_individual_attention candidate);
    Ok (if individual : bool then "human_technical_review"
        else if bool_decide (_evidence_change candidate ∈ stable_changes) then "stable_carry_forward"
        else "new_automated_triage_complete").

Definition queues : list string :=
  ["critical_material"; "human_technical_review"; "new_automated_triage_complete"; "stable_carry_forward"; "quality_control_sample";
   "human_disposition_completed"].
Definition count_queue (queue : string) (found : list string) : Z := Z.of_nat (length (List.filter (String.eqb queue) found)).

Definition mapping_or_null (v : json) : json := if is_mapping v then v else JNull.
(** [bool(v) ? "completed" : "pending"] of a terminal disposition *)
Definition disposition_state (disposition : json) : string := if is_terminal_disposition disposition then "completed" else "pending".

(** The sets the projection reads of a ledger. *)
Record review_sets := ReviewSets { rs_dispositions : dict; rs_quality : dict; rs_effective : list string; rs_configured : list string; rs_baseline : list string }.

Definition quality_control_source (s : review_sets) (id : string) : string :=
  if bool_decide (id ∈ rs_configured s) then "configured"
  else if bool_decide (id ∈ rs_baseline s) then "canonical_cluster_representative"
  else if bool_decide (id ∈ rs_effective s) then "retained_unresolved_quality_control"
  else "".

Definition unresolved_of (dispositions : dict) (high_impact : list string) : list string :=
  sorted (List.filter (fun id => negb (escalated (dget dispositions id))) (dict_fromkeys high_impact)).
Definition pending_of (dispositions candidates : dict) : list string :=
  sorted (List.filter (fun id => negb (is_terminal_disposition (dget dispositions id))) (keys candidates)).
Definition missing_qc_of (s : review_sets) : list string :=
  sorted (List.filter (fun id => truthy (quality_control_blocker (dget (rs_quality s) id) (dget (rs_dispositions s) id))) (rs_effective s)).

(** [sum(1 for x in l if test(x))] for a test that may raise *)
Fixpoint countR {A} (test : A -> res bool) (l : list A) : res Z :=
  match l with
  | [] => Ok 0
  | x :: l => b ← test x; n ← countR test l; Ok (if b : bool then 1 + n else n)
  end.

Definition sets_of (ledger : dict) : res review_sets :=
  effective ← _effective_qc_ids ledger;
  configured ← _configured_qc_ids ledger;
  baseline ← texts (dget ledger "qc_required_candidate_ids");
  Ok (ReviewSets (as_dict (dget ledger "dispositions")) (as_dict (dget ledger "quality_control")) effective configured baseline).

(** Whether the review is complete, with the lists that say why not. *)
Record readiness := Readiness {
  rd_pending : list string; rd_missing_qc : list string; rd_open : list dict; rd_unresolved : list string }.
Definition readiness_of (candidates ledger : dict) (s : review_sets) : res readiness :=
  requests ← mappings (dget ledger "evidence_requests");
  high ← texts (dget ledger "high_impact_candidate_ids");
  Ok (Readiness (pending_of (rs_dispositions s) candidates) (missing_qc_of s) (List.filter (has_status "open") requests)
        (unresolved_of (rs_dispositions s) high)).
Definition none_left (r : readiness) : bool :=
  bool_decide (rd_pending r = []) && bool_decide (rd_missing_qc r = []) && bool_decide (rd_open r = []) && bool_decide (rd_unresolved r = []).

(** [{**d, "quality_control_remaining_count": ...}] of the exception *)
Definition remaining_blockers (projection : dict) : res dict :=
  required ← py_int (jor (dget projection "quality_control_required_count") (JInt 0));
  completed ← py_int (jor (dget projection "quality_control_completed_count") (JInt 0));
  Ok [("remaining_candidate_count", dget projection "remaining_candidate_count");
      ("quality_control_remaining_count", JInt (required - completed));
      ("open_evidence_request_count", dget projection "open_evidence_request_count");
      ("unresolved_high_impact_candidate_ids", dget projection "unresolved_high_impact_candidate_ids")].
Definition ready_or_raise (projection : dict) : res dict :=
  if is_true (dget projection "ready_for_final_approval") then Ok projection
  else
    blockers ← remaining_blockers projection;
    fail ValueError ("review_work_not_ready_for_approval:" +:+ dumps compact_ascii (JObj blockers)).

Section Projection.
Context (fingerprint : dict -> res string) (assistance : list dict -> dict -> res dict) (investigation : dict -> dict -> dict -> res json).

Definition candidate_row (s : review_sets) (source_indexes : dict) (m : string * json) : res (dict * string) :=
  let candidate := as_dict (snd m) in
  let candidate_id := fst m in
  let disposition := dget (rs_dispositions s) candidate_id in
  queue ← _primary_queue candidate (mapping_or_null disposition);
  input_sha ← fingerprint candidate;
  needs ← _needs_individual_attention candidate;
  grouped ← _grouped_eligible candidate;
  confidence ← _confidence candidate;
  Ok (dmerge candidate
    [("candidate_id", JStr candidate_id); ("source_record_index", dget source_indexes candidate_id);
     ("source_candidate_input_sha256", JStr input_sha); ("primary_review_queue", JStr queue);
     ("quality_control_sample", JBool (bool_decide (candidate_id ∈ rs_effective s)));
     ("quality_control_source", JStr (quality_control_source s candidate_id));
     ("human_disposition", mapping_or_null disposition); ("human_disposition_state", JStr (disposition_state disposition));
     ("individual_attention_required",
        JBool (needs || (is_mapping disposition && negb (is_terminal_disposition disposition) && negb grouped)));
     ("grouped_review_eligible", JBool grouped); ("technical_triage_verdict", JStr (_verdict candidate));
     ("technical_triage_confidence", JFloat confidence); ("evidence_change_state", JStr (_evidence_change candidate))], queue).

Definition source_indexes_of (rows : list json) : dict :=
  dict_of_pairs (imap (fun i row => (candidate_id row, JInt (Z.of_nat i))) rows).

(** The candidates without a final disposition that may be decided in groups. *)
Fixpoint pending_grouped_of (dispositions candidates : dict) : res (list string) :=
  match candidates with
  | [] => Ok []
  | (id, candidate) :: candidates =>
      b ← (if is_terminal_disposition (dget dispositions id) then Ok false else _grouped_eligible (as_dict candidate));
      ids ← pending_grouped_of dispositions candidates;
      Ok (if b : bool then id :: ids else ids)
  end.
Definition remains (pending_grouped : list string) (cluster : dict) : res bool :=
  ids ← texts (dget cluster "candidate_ids"); Ok (existsb (fun id => bool_decide (id ∈ pending_grouped)) ids).

Definition needs_one (row : dict) : bool :=
  bool_decide (dget row "human_disposition_state" = JStr "pending") && py_truthy (dget row "individual_attention_required").

Definition workload_metrics (candidates ledger : dict) (rows clusters : list dict) (s : review_sets) (r : readiness) : res dict :=
  pending_grouped ← pending_grouped_of (rs_dispositions s) candidates;
  clusters_remaining ← countR (remains pending_grouped) clusters;
  sessions ← mappings (dget ledger "review_sessions");
  measured_seconds ← total_seconds (List.filter (has_status "completed") sessions);
  interactions ← len_or_empty (dget ledger "audit_events");
  seconds ← py_float (JInt measured_seconds);
  Ok [("individual_attention_count", length_of (List.filter needs_one rows)); ("grouped_review_eligible_count", length_of pending_grouped);
      ("quality_control_sample_size", length_of (rs_effective s)); ("human_dispositions_pending", length_of (rd_pending r));
      ("human_dispositions_completed", JInt (Z.of_nat (length candidates) - Z.of_nat (length (rd_pending r))));
      ("clusters_remaining", JInt clusters_remaining); ("reviewer_interactions", JInt interactions);
      ("measured_specialist_seconds", JInt measured_seconds);
      ("measured_specialist_hours", JFloat (float_round 3 (fdiv seconds (float_of_Z 3600))));
      ("four_hour_engineering_target_seconds", JInt four_hours); ("four_hour_target_is_safety_gate", JBool false)].

Definition review_work_projection (record : dict) : res dict :=
  ledger ← _prepare_ledger record;
  let prepared_record := _record_with_ledger record ledger in
  base ← ReviewWork.review_work_projection prepared_record None None;
  '(candidates, clusters) ← _catalog record;
  s ← sets_of ledger;
  register ← canonical_candidate_register record;
  original_rows ← iter_or_empty (dget register "findings");
  rows ← mapR (candidate_row s (source_indexes_of original_rows)) (sort_members candidates);
  let queue_counts := map (fun q => (q, JInt (if String.eqb q "quality_control_sample" then Z.of_nat (length (rs_effective s))
                                              else count_queue q (map snd rows)))) queues in
  let candidate_rows := map fst rows in
  r ← readiness_of candidates ledger s;
  workload ← workload_metrics candidates ledger candidate_rows clusters s r;
  assisted ← assistance candidate_rows (_scope_binding record);
  investigated ← investigation register (_scope_binding record) record;
  let missing_qc := rd_missing_qc r in
  let blockers := map (fun id => (id, JStr (quality_control_blocker (dget (rs_quality s) id) (dget (rs_dispositions s) id)))) missing_qc in
  Ok (dmerge base
    [("artifact_schema", JStr PROJECTION_SCHEMA); ("candidates", JArr (map JObj candidate_rows));
     ("review_assistance", JObj (dset assisted "source_investigation" investigated)); ("clusters", JArr (map JObj clusters));
     ("queue_counts", JObj queue_counts); ("quality_control_sampling", jor (dget ledger "quality_control_sampling") (JObj []));
     ("quality_control_required_candidate_ids", strs (rs_effective s)); ("quality_control_required_count", length_of (rs_effective s));
     ("quality_control_completed_count", JInt (Z.of_nat (length (rs_effective s)) - Z.of_nat (length missing_qc)));
     ("missing_quality_control_candidate_ids", strs missing_qc); ("quality_control_blockers", JObj (dict_of_pairs blockers));
     ("dispositioned_candidate_count", JInt (Z.of_nat (length candidates) - Z.of_nat (length (rd_pending r))));
     ("remaining_candidate_count", length_of (rd_pending r)); ("open_evidence_request_count", length_of (rd_open r));
     ("open_evidence_requests", JArr (map JObj (rd_open r))); ("unresolved_high_impact_candidate_ids", strs (rd_unresolved r));
     ("ready_for_final_approval", JBool (none_left r)); ("workload_metrics", JObj workload);
     ("review_source_sha256", JStr (text_of (dget ledger "review_source_sha256")));
     ("scope_binding", jor (dget ledger "scope_binding") (JObj [])); ("ledger", JObj ledger); ("human_review_required", JBool true);
     ("client_delivery_allowed", JBool false)]).

Definition assert_ready_for_approval (record : dict) : res dict := projection ← review_work_projection record; ready_or_raise projection.
End Projection.

End Phase2.
