(* ===== verification/ReviewQueue.v ===== *)
(** * The exception queue (nico/comprehensive_review_work_safe_v1.py)

    The projection the service uses: only candidates that were routed to people,
    are of high impact, are sampled for quality control or were challenged need
    a human disposition; the others keep their automated verdict.  Whether a
    run may be approved ([assert_ready_for_approval]) and whether a whole group
    may be decided at once ([_validate_group_disposition]) are decided here. *)

From S2P Require Import Prelude PyStr Sha256 PyFloat Json JsonFacts PyTime Orchestration AcceptedEdition HumanEvidence ReviewDecision RunRecord ReviewWork ReviewSampling.

Module Safe.

Definition _HUMAN_ROUTES : list string := ["CRITICAL_ATTENTION"; "HUMAN_TECHNICAL_REVIEW"].
Definition _verdict : dict -> string := Phase2._verdict.
Definition _route (candidate : dict) : string := upper (text_of (dget candidate "review_routing_class")).

Definition _raw_candidates (record : dict) : res dict :=
  register ← canonical_candidate_register record;
  rows ← iter_or_empty (dget register "findings");
  Ok (fold_left Phase2.add_row rows []).
Definition _raw_grouped (candidate : dict) : bool :=
  is_true (dget candidate "grouped_review_eligible") && negb (Phase2.is_false (dget candidate "homogeneous_evidence")) &&
  negb (Phase2.is_false (dget candidate "homogeneous_verdict")).

(** [[_text(x) for x in v or [] if _text(x)]] *)
Definition nonempty_texts (v : json) : res (list string) := l ← texts v; Ok (List.filter truthy l).
(** The ids of the dispositions that satisfy [test]. *)
Definition ids_where (test : json -> bool) (dispositions : dict) : list string :=
  map (fun m => strip (fst m)) (List.filter (fun m => test (snd m)) dispositions).

Definition routed_to_people (candidate : dict) : bool :=
  bool_decide (_route candidate ∈ _HUMAN_ROUTES) || is_true (dget candidate "review_requires_individual_attention") ||
  bool_decide (_verdict candidate ∈ ["needs_review" : string; "confirmed"]).
(** A set, as the list of its elements. *)
Definition _required_human_candidate_ids (record projection : dict) : res (list string) :=
  raw ← _raw_candidates record;
  let routed := map fst (List.filter (fun m => routed_to_people (as_dict (snd m))) raw) in
  qc ← nonempty_texts (dget projection "quality_control_required_candidate_ids");
  of_ledger ← match dget projection "ledger" with
    | JObj ledger =>
        high ← nonempty_texts (dget ledger "high_impact_candidate_ids");
        let challenged := ids_where (fun d => negb (is_terminal_disposition d)) (as_dict (dget ledger "dispositions")) in
        Ok (high ++ List.filter (has_key raw) challenged)
    | _ => Ok []
    end;
  Ok (dict_fromkeys (routed ++ qc ++ of_ledger)).

(** ** Rows and clusters *)

Record queue_sets := QueueSets {
  qs_raw : dict; qs_required : list string; qs_completed : list string; qs_high : list string; qs_quality : list string }.

Definition human_state (s : queue_sets) (id : string) : string :=
  if bool_decide (id ∈ qs_completed s) then "completed"
  else if bool_decide (id ∈ qs_required s) then "pending"
  else "automated_triage_complete".

Definition queue_row (s : queue_sets) (existing : dict) : dict :=
  let candidate_id := text_of (dget existing "candidate_id") in
  let source := as_dict (Phase2.get_default (qs_raw s) candidate_id (JObj existing)) in
  let route := _route source in
  let high := bool_decide (candidate_id ∈ qs_high s) in
  let critical := high || String.eqb route "CRITICAL_ATTENTION" in
  let homogeneous := _raw_grouped source && String.eqb route "HUMAN_TECHNICAL_REVIEW" && negb high in
  let grouped := homogeneous && negb critical in
  let individual := critical ||
    (bool_decide (candidate_id ∈ qs_required s) && negb homogeneous && negb (bool_decide (candidate_id ∈ qs_quality s))) in
  let state := human_state s candidate_id in
  let row := dmerge existing
    [("grouped_review_eligible", JBool grouped); ("individual_attention_required", JBool individual);
     ("human_disposition_required", JBool (bool_decide (candidate_id ∈ qs_required s))); ("human_disposition_state", JStr state)] in
  if String.eqb state "automated_triage_complete" then
    dset row "primary_review_queue"
      (JStr (if String.eqb route "STABLE_CARRY_FORWARD" || bool_decide (Phase2._evidence_change source ∈ Phase2.stable_changes)
             then "stable_carry_forward" else "new_automated_triage_complete"))
  else row.

Definition rows_by_id (rows : list dict) : dict := dict_of_pairs (map (fun row => (text_of (dget row "candidate_id"), JObj row)) rows).

(** The cluster with its eligibility, and its members still to be decided. *)
Definition queue_cluster (s : queue_sets) (row_by_id : dict) (pending_ids : list string) (raw_cluster : dict) : res (dict * list string) :=
  member_ids ← nonempty_texts (dget raw_cluster "candidate_ids");
  let grouped_human :=
    is_true (dget raw_cluster "grouped_human_review_cluster") && negb (Phase2.is_false (dget raw_cluster "homogeneous_evidence")) &&
    negb (Phase2.is_false (dget raw_cluster "homogeneous_verdict")) && negb (bool_decide (member_ids = [])) &&
    forallb (fun id => is_true (dget (as_dict (dget row_by_id id)) "grouped_review_eligible"))
      (List.filter (fun id => bool_decide (id ∈ qs_required s)) member_ids) in
  Ok (dset raw_cluster "grouped_review_eligible" (JBool grouped_human),
      if grouped_human then List.filter (fun id => bool_decide (id ∈ pending_ids)) member_ids else []).

Definition cluster_remains (pending_grouped : list string) (cluster : dict) : res bool :=
  if is_true (dget cluster "grouped_review_eligible") then Phase2.remains pending_grouped cluster else Ok false.

Definition recounted : list string :=
  ["critical_material"; "human_technical_review"; "new_automated_triage_complete"; "stable_carry_forward"; "human_disposition_completed"].
Definition queue_count (rows : list dict) (queue : string) : json :=
  length_of (List.filter (fun row => bool_decide (dget row "primary_review_queue" = JStr queue)) rows).

(** [len(a & b)] of sets *)
Definition common (a b : list string) : Z := Z.of_nat (length (List.filter (fun x => bool_decide (x ∈ b)) (dict_fromkeys a))).

Section Projection.
Context (fingerprint : dict -> res string) (assistance : list dict -> dict -> res dict) (investigation : dict -> dict -> dict -> res json).

Definition review_work_projection (record : dict) : res dict :=
  base ← Phase2.review_work_projection fingerprint assistance investigation record;
  raw ← _raw_candidates record;
  let ledger := as_dict (dget base "ledger") in
  let dispositions := as_dict (dget ledger "dispositions") in
  let disposition_ids := List.filter truthy (map (fun m => strip (fst m)) dispositions) in
  let completed_ids := ids_where is_terminal_disposition dispositions in
  high_impact ← nonempty_texts (dget ledger "high_impact_candidate_ids");
  required_ids ← _required_human_candidate_ids record base;
  let pending_ids := sorted (List.filter (fun id => negb (bool_decide (id ∈ completed_ids))) required_ids) in
  existing ← mappings (dget base "candidates");
  qc_ids ← (l ← iter_or_empty (dget base "quality_control_required_candidate_ids"); Ok (map py_str l));
  let s := QueueSets raw required_ids completed_ids high_impact qc_ids in
  let candidate_rows := map (queue_row s) existing in
  let row_by_id := rows_by_id candidate_rows in
  raw_clusters ← mappings (dget base "clusters");
  grouped ← mapR (queue_cluster s row_by_id pending_ids) raw_clusters;
  let clusters := map fst grouped in
  let pending_grouped := dict_fromkeys (concat (map snd grouped)) in
  missing_qc ← iter_or_empty (dget base "missing_quality_control_candidate_ids");
  open_requests ← iter_or_empty (dget base "open_evidence_requests");
  unresolved_high ← iter_or_empty (dget base "unresolved_high_impact_candidate_ids");
  let ready := bool_decide (pending_ids = []) && bool_decide (missing_qc = []) && bool_decide (open_requests = []) &&
               bool_decide (unresolved_high = []) in
  clusters_remaining ← Phase2.countR (cluster_remains pending_grouped) clusters;
  let required := Z.of_nat (length required_ids) in
  let required_completed := required - Z.of_nat (length pending_ids) in
  queue_counts ← py_dict (jor (dget base "queue_counts") (JObj []));
  let queue_counts := dmerge queue_counts (map (fun q => (q, queue_count candidate_rows q)) recounted) in
  workload ← py_dict (jor (dget base "workload_metrics") (JObj []));
  let alone id := is_true (dget (as_dict (dget row_by_id id)) "individual_attention_required") in
  let workload := dmerge workload
    [("individual_attention_count", length_of (List.filter alone pending_ids)); ("grouped_review_eligible_count", length_of pending_grouped);
     ("human_dispositions_required", JInt required); ("human_dispositions_pending", length_of pending_ids);
     ("human_dispositions_completed", JInt required_completed);
     ("actual_human_disposition_record_count", JInt (common disposition_ids (keys raw))); ("clusters_remaining", JInt clusters_remaining);
     ("exception_first_review", JBool true); ("automated_not_actionable_candidates_require_individual_disposition", JBool false)] in
  Ok (dmerge base
    [("artifact_schema", JStr "nico.comprehensive_review_work_projection.v2.exception_first");
     ("candidates", JArr (map JObj candidate_rows)); ("queue_counts", JObj queue_counts); ("clusters", JArr (map JObj clusters));
     ("required_human_disposition_candidate_ids", strs (sorted required_ids)); ("required_human_disposition_count", JInt required);
     ("required_human_disposition_completed_count", JInt required_completed);
     ("dispositioned_candidate_count", JInt (common completed_ids (keys raw))); ("remaining_candidate_count", length_of pending_ids);
     ("ready_for_final_approval", JBool ready); ("workload_metrics", JObj workload); ("exception_first_review", JBool true)]).

Definition assert_ready_for_approval (record : dict) : res dict :=
  projection ← review_work_projection record; Phase2.ready_or_raise projection.

(** ** Deciding about a group *)

(** [{_text(x.get(k)): x for x in v or [] if isinstance(x, Mapping) and _text(x.get(k))}] *)
Definition by_text (k : string) (v : json) : res dict :=
  l ← mappings v; Ok (dict_of_pairs (map (fun d => (text_of (dget d k), JObj d)) (List.filter (fun d => truthy (text_of (dget d k))) l))).

Definition unsafe_in_group (candidate : json) : bool :=
  match candidate with
  | JObj c =>
      is_true (dget c "individual_attention_required") || negb (is_true (dget c "grouped_review_eligible")) ||
      String.eqb (text_of (dget c "primary_review_queue")) "critical_material" ||
      String.eqb (text_of (dget c "human_disposition_state")) "completed"
  | _ => true
  end.

Definition _validate_group_disposition (record payload : dict) : res unit :=
  let cluster_id := text_of (dget payload "cluster_id") in
  _ ← unless (truthy cluster_id) ValueError "review_work_cluster_id_invalid";
  projection ← review_work_projection record;
  clusters ← by_text "cluster_id" (dget projection "clusters");
  match dget clusters cluster_id with
  | JObj cluster =>
      _ ← unless (is_true (dget cluster "homogeneous_evidence") && is_true (dget cluster "homogeneous_verdict")) ValueError
            "review_work_group_disposition_requires_homogeneous_group";
      candidates ← by_text "candidate_id" (dget projection "candidates");
      candidate_ids ← nonempty_texts (dget cluster "candidate_ids");
      _ ← unless (negb (bool_decide (candidate_ids = []))) ValueError "review_work_group_disposition_requires_candidates";
      let unsafe := List.filter (fun id => unsafe_in_group (dget candidates id)) candidate_ids in
      _ ← unless (bool_decide (unsafe = [])) ValueError
            ("review_work_group_disposition_contains_non_bulk_reviewable_candidates:" +:+ join "," (sorted (dict_fromkeys unsafe)));
      unless (is_true (dget cluster "grouped_review_eligible")) ValueError "review_work_group_disposition_requires_homogeneous_group"
  | _ => fail ValueError "review_work_cluster_id_invalid"
  end.

Definition apply_review_work_action (local_to_utc : datetime -> datetime) (record payload : dict) (now : datetime) : res dict :=
  _ ← (if String.eqb (casefold (text_of (dget payload "action"))) "disposition_group" then _validate_group_disposition record payload else Ok tt);
  Phase2.apply_review_work_action local_to_utc record payload now.
End Projection.

End Safe.
