(* ===== verification/ReviewService.v ===== *)
(** * Review work on a run record

    One request of a reviewer as the service carries it out
    (nico/comprehensive_review_work_runtime_v1.py): the action on the ledger, the
    ledger put into the record (nico/comprehensive_review_work_record_v1.py), and
    the truth about the review written into the report package
    (nico/comprehensive_review_report_truth_v1.py).  Loading and saving are those
    of RunStore.  The text, HTML and PDF of a package, the rebinding of its manifest,
    the program of phases, and the test that the final report is intact are
    arguments of the sections. *)

From S2P Require Import Prelude PyStr Sha256 PyFloat Json JsonFacts PyTime Orchestration AcceptedEdition HumanEvidence ReviewDecision RunRecord ReviewWork ReviewSampling ReviewQueue.

(** ** The truth about a review *)

Definition TRUTH_VERSION : string := "nico.comprehensive_review_report_truth.v1".
Definition _REPORT_STAGE_IDS : list string :=
  ["final_comprehensive_report_generation"; "risk_reduction_and_executive_briefing"; "decision_report_generation"; "report_generation";
   "reports"].

Definition _triage_counts (candidates : list dict) : dict :=
  let verdicts := map (fun c => casefold (text_of (dget c "technical_triage_verdict"))) candidates in
  let count v := length_of (List.filter (String.eqb v) verdicts) in
  let completed := Z.of_nat (length (List.filter truthy verdicts)) in
  let total := Z.of_nat (length candidates) in
  [("raw_scanner_candidates", JInt total); ("technical_triage_completed", JInt completed);
   ("technical_triage_pending", JInt (total - completed));
   ("technical_triage_coverage_pct",
      JFloat (if total =? 0 then float_of_Z 100 else float_round 1 (fmul (float_of_ratio completed total) (float_of_Z 100))));
   ("not_actionable", count "not_actionable"); ("needs_review", count "needs_review"); ("confirmed", count "confirmed")].

(** [_text(a or b)], [_text(a)] *)
Definition either (d : dict) (a b : string) : json := JStr (text_of (jor (dget d a) (dget d b))).
Definition one (d : dict) (k : string) : json := JStr (text_of (dget d k)).

Definition material_finding (candidate : dict) : bool :=
  let disposition := as_dict (dget candidate "human_disposition") in
  String.eqb (casefold (text_of (dget disposition "disposition"))) "confirmed" &&
  bool_decide (casefold (text_of (dget candidate "severity")) ∈ ["critical" : string; "high"; "material"]).

Definition candidate_review_row (candidate : dict) : dict :=
  let disposition := as_dict (dget candidate "human_disposition") in
  [("candidate_id", one candidate "candidate_id"); ("cluster_id", one candidate "cluster_id"); ("category", one candidate "category");
   ("scanner", one candidate "scanner"); ("rule", either candidate "rule" "rule_id");
   ("advisory", either candidate "advisory" "advisory_id"); ("severity", one candidate "severity");
   ("package", either candidate "package" "package_name"); ("version", either candidate "version" "package_version");
   ("ecosystem", one candidate "ecosystem"); ("manifest", either candidate "manifest" "manifest_path");
   ("path", either candidate "path" "file_path"); ("line", jor (dget candidate "line") (dget candidate "line_number"));
   ("technical_triage_verdict", one candidate "technical_triage_verdict");
   ("technical_triage_confidence", dget candidate "technical_triage_confidence");
   ("primary_review_queue", one candidate "primary_review_queue"); ("human_disposition_state", one candidate "human_disposition_state");
   ("human_disposition", JStr (casefold (text_of (dget disposition "disposition")))); ("human_reviewer", one disposition "reviewer");
   ("human_reviewer_role", one disposition "reviewer_role"); ("human_reviewed_at", one disposition "decided_at");
   ("human_rationale", one disposition "rationale"); ("residual_risk", one disposition "residual_risk");
   ("residual_risk_owner", one disposition "residual_risk_owner"); ("confirmed_material_finding", JBool (material_finding candidate));
   ("quality_control_sample", JBool (is_true (dget candidate "quality_control_sample")));
   ("evidence_change_state", one candidate "evidence_change_state")].

Definition concept_boundaries : dict :=
  [("raw_scanner_observation", JStr "scanner evidence only; not a human finding");
   ("nico_automated_technical_triage", JStr "automated recommendation only; not a human disposition");
   ("authorized_human_disposition", JStr "explicit authorized reviewer decision");
   ("confirmed_material_finding", JStr "material finding after authorized human disposition");
   ("final_human_approval", JStr "separate package-level approval gate");
   ("client_delivery_authorization", JStr "separate post-approval delivery gate")].

(** [int(d.get(k) or 0)] *)
Definition int_or_zero (d : dict) (k : string) : res Z := py_int (jor (dget d k) (JInt 0)).

(** The truth of a projection. *)
Definition review_truth (projection : dict) : res dict :=
  candidates ← mappings (dget projection "candidates");
  pending ← int_or_zero projection "remaining_candidate_count";
  completed ← int_or_zero projection "dispositioned_candidate_count";
  required ← int_or_zero projection "quality_control_required_count";
  checked ← int_or_zero projection "quality_control_completed_count";
  let or_empty k := jor (dget projection k) (JObj []) in
  Ok (dmerge [("artifact_schema", JStr TRUTH_VERSION); ("concept_boundaries", JObj concept_boundaries)]
       (_triage_counts candidates ++
        [("authorized_human_disposition_pending", JInt pending); ("authorized_human_disposition_completed", JInt completed);
         ("confirmed_material_findings", length_of (List.filter material_finding candidates));
         ("final_human_approval_status", JStr "pending"); ("client_delivery_authorization_status", JStr "blocked");
         ("technical_triage_is_not_human_disposition", JBool true); ("human_disposition_is_not_final_approval", JBool true);
         ("final_approval_is_not_implicit_client_delivery", JBool true);
         ("review_ready_for_final_approval", JBool (is_true (dget projection "ready_for_final_approval")));
         ("quality_control_sampling", or_empty "quality_control_sampling"); ("quality_control_required_count", JInt required);
         ("quality_control_completed_count", JInt checked); ("workload_metrics", or_empty "workload_metrics");
         ("queue_counts", or_empty "queue_counts"); ("review_source_sha256", one projection "review_source_sha256");
         ("scope_binding", or_empty "scope_binding"); ("candidate_review", JArr (map (fun c => JObj (candidate_review_row c)) candidates));
         ("human_review_required", JBool true); ("client_delivery_allowed", JBool false)])).

(** ** The truth in a report package *)

(** [{**d, k: v}] of each line of the code that puts the truth into a part. *)
Definition with_truth (d truth : dict) : dict := dset d "human_review_truth" (JObj truth).

(** One more candidate of a category. *)
Definition add_count (counts : dict) (k : string) (b : bool) : dict :=
  dset counts k (match dget counts k with JInt n => JInt (n + Z.b2z b) | v => v end).
Definition category_counts (categories : dict) (candidate : dict) : dict :=
  let text := text_of (dget candidate "category") in
  let category := if truthy text then text else "unknown" in
  let counts := if has_key categories category then as_dict (dget categories category)
                else [("raw", JInt 0); ("material", JInt 0); ("review_required", JInt 0)] in
  let counts := add_count (add_count counts "raw" true) "material" (is_true (dget candidate "confirmed_material_finding")) in
  dset categories category (JObj (add_count counts "review_required" (negb (py_truthy (dget candidate "human_disposition"))))).
Definition current_summary (truth : dict) (rows : list dict) : dict :=
  [("raw_total", dget truth "raw_scanner_candidates"); ("review_required_total", dget truth "authorized_human_disposition_pending");
   ("verified_material_total", dget truth "confirmed_material_findings"); ("by_category", JObj (fold_left category_counts rows []));
   ("basis", JStr "current_recorded_dispositions")].

Definition truth_sections : list string :=
  ["executive_brief"; "client_evidence_summary"; "scoring_explanation"; "human_review_section"; "approval_package"].
Definition with_section (truth canonical : dict) (key : string) : dict :=
  dset canonical key (JObj (with_truth (as_dict (dget canonical key)) truth)).

(** The canonical report with the truth in it. *)
Definition canonical_truth (canonical truth : dict) (rows : list dict) : dict :=
  let summary := JObj (current_summary truth rows) in
  let assessment := with_truth (as_dict (dget canonical "assessment")) truth in
  let assessment := dset (dset (dset assessment "review_candidate_summary" summary) "human_review_required" (JBool true))
                      "client_delivery_allowed" (JBool false) in
  let canonical := dset (dset (with_truth canonical truth) "review_candidate_summary" summary) "assessment" (JObj assessment) in
  let canonical := fold_left (with_section truth) truth_sections canonical in
  let canonical := dset canonical "authorized_human_review_candidate_register" (jor (dget truth "candidate_review") (JArr [])) in
  dset (dset canonical "human_review_required" (JBool true)) "client_delivery_allowed" (JBool false).

(** The digests of a package, after it was rendered. *)
Definition text_digest (package : dict) (key digest : string) : dict :=
  if py_truthy (dget package key) then dset package digest (JStr (sha256_hex (utf8_encode (py_str (dget package key))))) else package.
Definition with_digests (package canonical truth : dict) : dict :=
  let sha := JStr (ReviewWork._canonical_hash (JObj canonical)) in
  let package := dset (dset package "canonical_truth_sha256" sha) "phase2_review_truth_sha256" (JStr (ReviewWork._canonical_hash (JObj truth))) in
  let package := dset (text_digest (text_digest package "markdown" "markdown_sha256") "html" "html_sha256") "json_sha256" sha in
  match dget package "content_integrity" with
  | JObj integrity =>
      let get k := Phase2.get_default package k (JStr "") in
      dset package "content_integrity" (JObj (dmerge integrity
        [("markdown_sha256", get "markdown_sha256"); ("html_sha256", get "html_sha256"); ("pdf_sha256", get "pdf_sha256");
         ("json_sha256", get "json_sha256")]))
  | _ => package
  end.

Section Package.
Context (apply_four_phase_program : dict -> res dict) (render : dict -> dict -> dict -> res dict) (rebind_artifact_manifest : dict -> res dict).

Definition _synchronize_package (package truth : dict) : res dict :=
  rows ← (l ← iter_or_empty (dget truth "candidate_review"); mapR as_mapping l);
  let canonical := canonical_truth (as_dict (dget package "json")) truth rows in
  '(canonical, package) ← (if is_mapping (dget canonical "four_phase_program") then
      canonical ← apply_four_phase_program canonical;
      program ← item canonical "four_phase_program"; Ok (canonical, dset package "four_phase_program" program)
    else Ok (canonical, package));
  let package := with_truth (dset package "json" (JObj canonical)) truth in
  package ← render canonical truth package;
  let package := with_digests package canonical truth in
  if is_mapping (dget package "artifact_manifest") then rebind_artifact_manifest package else Ok package.
End Package.

(** ** The ledger in the record *)

Fixpoint check_record_identity (candidate identity : dict) (fields : list string) : res unit :=
  match fields with
  | [] => Ok tt
  | field :: fields =>
      if negb (String.eqb (text_of (dget candidate field)) (text_of (dget identity field)))
      then fail ValueError ("review_work_ledger_identity_mismatch:" +:+ field)
      else check_record_identity candidate identity fields
  end.

(** The record with the ledger and its status in it, not yet hashed. *)
Definition with_ledger (record ledger : dict) (events : Z) (now : string) (revision : Z) : dict :=
  let updated := dset (_copy_record_for_update record) "review_work_ledger" (JObj ledger) in
  let updated := dset updated "review_work_status"
    (JObj [("artifact_schema", JStr "nico.comprehensive_review_work_record.v1"); ("audit_event_count", JInt events);
           ("updated_at", JStr (dget_str ledger "updated_at")); ("human_review_required", JBool true);
           ("client_delivery_allowed", JBool false)]) in
  let updated := dset (dset updated "updated_at" (JStr now)) "revision" (JInt (revision + 1)) in
  dset (dset (dset (dset updated "human_review_required" (JBool true)) "human_review_completed" (JBool false))
    "client_delivery_allowed" (JBool false)) "terminal" (JBool true).

(** A run without candidates: [candidate_count] is passed on as text. *)
Definition _review_action_record (record : dict) : dict :=
  match dget record "review_work_ledger" with
  | JObj existing =>
      if py_eq (dget existing "candidate_count") (JInt 0)
      then dset record "review_work_ledger" (JObj (dset existing "candidate_count" (JStr "0")))
      else record
  | _ => record
  end.
Definition _normalize_review_ledger (ledger : dict) : dict :=
  if bool_decide (dget ledger "candidate_count" = JStr "0") then dset ledger "candidate_count" (JInt 0) else ledger.

Definition _canonical_scanner_register_present (record : dict) : res bool :=
  match canonical_candidate_register record with
  | Ok _ => Ok true
  | Raise e =>
      if isinstance e ValueError && String.eqb (exn_msg e) "review_work_canonical_register_unavailable" then Ok false else Raise e
  end.

Section Service.
Context (validated_operator_delivery : dict -> res bool) (fingerprint : dict -> res string)
  (assistance : list dict -> dict -> res dict) (investigation : dict -> dict -> dict -> res json)
  (local_to_utc : datetime -> datetime) (exact_final_report : dict -> res unit)
  (apply_four_phase_program : dict -> res dict) (render : dict -> dict -> dict -> res dict) (rebind_artifact_manifest : dict -> res dict).

Definition build_review_truth (record : dict) : res dict :=
  projection ← Safe.review_work_projection fingerprint assistance investigation record; review_truth projection.

(** The packages of one stage. *)
Definition shown (package : dict) : bool :=
  py_truthy (dget package "json") || py_truthy (dget package "markdown") || py_truthy (dget package "pdf_base64").
Definition synchronize_member (truth : dict) (stage : dict) (key : string) : res dict :=
  match dget stage key with
  | JObj package =>
      if shown package then package ← _synchronize_package apply_four_phase_program render rebind_artifact_manifest package truth; Ok (dset stage key (JObj package)) else Ok stage
  | _ => Ok stage
  end.
Fixpoint synchronize_stages (truth : dict) (stages : dict) (ids : list string) : res dict :=
  match ids with
  | [] => Ok stages
  | id :: ids =>
      match dget stages id with
      | JObj stage =>
          stage ← synchronize_member truth stage "report_package";
          stage ← synchronize_member truth stage "reports";
          synchronize_stages truth (dset stages id (JObj stage)) ids
      | _ => synchronize_stages truth stages ids
      end
  end.

Definition synchronize_review_truth (record : dict) : res dict :=
  if is_true (dget record "human_review_completed") || is_mapping (dget record "accepted_edition") then Ok record
  else
    truth ← build_review_truth record;
    updated ← match dget record "stage_results" with
      | JObj stages => stages ← synchronize_stages truth stages _REPORT_STAGE_IDS; Ok (dset record "stage_results" (JObj stages))
      | _ => Ok record
      end;
    updated ← synchronize_member truth updated "reports";
    Ok (hashed updated).

Definition apply_review_work_ledger (record ledger : dict) (now : string) : res dict :=
  _ ← require_valid validated_operator_delivery "invalid_run_record" record;
  _ ← unless (String.eqb (casefold (dget_str record "status")) "review_required") ValueError "review_work_requires_review_required_run";
  _ ← unless (String.eqb (dget_str ledger "artifact_schema") LEDGER_SCHEMA) ValueError "review_work_ledger_schema_invalid";
  _ ← check_record_identity ledger (record_identity record) identity_fields;
  events ← len_or_empty (dget ledger "audit_events");
  revision ← py_int (jor (dget (_copy_record_for_update record) "revision") (JInt 0));
  let updated := hashed (with_ledger record ledger events now revision) in
  _ ← require_valid validated_operator_delivery "invalid_review_work_run_record" updated;
  Ok updated.

(** The action itself, around [_review_action_record]. *)
Definition review_action (record payload : dict) (timestamp : datetime) : res dict :=
  ledger ← Safe.apply_review_work_action fingerprint assistance investigation local_to_utc (_review_action_record record) payload timestamp;
  Ok (_normalize_review_ledger ledger).

(** What [review_work] saves for the record it loaded. *)
Definition review_work (record payload : dict) (timestamp : datetime) (now : string) : res dict :=
  _ ← exact_final_report record;
  _ ← (v ← item record "revision"; py_int v);
  ledger ← review_action record payload timestamp;
  updated ← apply_review_work_ledger record ledger now;
  synchronize_review_truth updated.

(** The record [guarded_review] decides about. *)
Definition decision_record (record : dict) (decision : string) : res dict :=
  _ ← exact_final_report record;
  _ ← (v ← item record "revision"; py_int v);
  canonical ← _canonical_scanner_register_present record;
  if canonical && String.eqb (casefold (strip decision)) "approved" then
    projection ← Safe.assert_ready_for_approval fingerprint assistance investigation (_review_action_record record);
    match dget projection "ledger" with
    | JObj ledger =>
        let ledger := _normalize_review_ledger ledger in
        events ← len_or_empty (dget ledger "audit_events");
        let status := [("artifact_schema", JStr "nico.comprehensive_review_work_record.v1"); ("audit_event_count", JInt events);
                       ("updated_at", JStr (dget_str ledger "updated_at")); ("human_review_required", JBool true);
                       ("client_delivery_allowed", JBool false)] in
        Ok (hashed (dset (dset record "review_work_ledger" (JObj ledger)) "review_work_status" (JObj status)))
    | _ => fail ValueError "review_work_ledger_missing"
    end
  else Ok record.
End Service.
