(* ===== verification/ReviewWorkFacts.v ===== *)
(** * The catalog of a review and its new ledger

    The clusters of an accepted register partition its candidates, and a ledger
    with the members of the expected one is read back.  ReviewWork has the
    definitions; ReviewLedger goes on to the actions. *)

From S2P Require Import Prelude PyStr Sha256 PyFloat Json JsonFacts PyTime Orchestration AcceptedEdition HumanEvidence ReviewDecision ReviewWork.

(** ** Lists *)

Lemma fromkeys_from_short {A} `{EqDecision A} (seen l : list A) :
  (length (dict_fromkeys_from seen l) <= length l)%nat /\
  (length (dict_fromkeys_from seen l) = length l -> NoDup l /\ forall x, x ∈ l -> x ∉ seen).
Proof.
  revert seen. induction l as [|x l IH]; intros seen; [split; [done|]; intros _; split; [constructor|set_solver]|].
  cbn [dict_fromkeys_from]. case_bool_decide as Hx.
  - destruct (IH seen) as [H1 _]. cbn [length]. split; [lia|intros Hl; exfalso; lia].
  - destruct (IH (x :: seen)) as [H1 H2]. cbn [length]. split; [lia|]. intros H.
    destruct H2 as [Hn Hs]; [lia|]. split; [constructor; [|done]|set_solver]. intros Hin. apply (Hs x Hin). by left.
Qed.

Lemma fromkeys_length {A} `{EqDecision A} (l : list A) : length (dict_fromkeys l) = length l -> NoDup l.
Proof. intros H. exact (proj1 (proj2 (fromkeys_from_short [] l) H)). Qed.

#[local] Instance str_le_antisymm : AntiSymm (=) (fun a b : string => str_leb a b = true).
Proof. intros a b. apply str_leb_antisym. Qed.

Lemma sorted_fix (a b : list string) : a ≡ₚ b -> sorted a = sorted b.
Proof. intros H. apply (StronglySorted_unique (fun a b => str_leb a b = true)); [apply sorted_sorted..|]. by rewrite !sorted_perm. Qed.

Lemma sorted_idemp l : sorted (sorted l) = sorted l.
Proof. apply sorted_fix, sorted_perm. Qed.

(** ** The catalog *)

Lemma text_of_idemp v : strip (text_of v) = text_of v.
Proof. apply strip_idemp. Qed.

Lemma iter_array l : iter_or_empty (JArr l) = Ok l.
Proof. by destruct l. Qed.

Lemma texts_array l : texts (strs l) = Ok (map strip l).
Proof. unfold texts, strs. rewrite iter_array. cbn [mbind res_bind]. rewrite map_map. f_equal. apply map_ext. intros s. apply text_of_str. Qed.

Lemma register_inv record register : canonical_candidate_register record = Ok register ->
  exists findings, dget register "findings" = JArr findings /\ forallb is_mapping findings = true /\
    forallb truthy (map candidate_id findings) = true /\ NoDup (map candidate_id findings).
Proof.
  unfold canonical_candidate_register. intros H. apply bind_ok_inv in H as (identity & _ & H).
  destruct (get_of (get_of _ "report_package") "json") as [| | | | | |canonical]; try done.
  destruct (get_of (JObj canonical) "identity") as [| | | | | |ci]; try done. apply bind_ok_inv in H as (? & _ & H).
  destruct (get_of (get_of _ _) _) as [| | | | | |r]; try done.
  destruct (dget r "findings") as [| | | | |fs|] eqn:Hf; try done.
  destruct (forallb is_mapping fs) eqn:Hm; [|done]. cbn [negb] in H.
  destruct (forallb truthy (map candidate_id fs) && _) eqn:Hi; [|done]. cbn [negb] in H.
  apply bind_ok_inv in H as (n & _ & H). destruct (negb _); [done|]. injection H as <-.
  apply andb_true_iff in Hi as [Ht Hn]. apply bool_decide_eq_true in Hn. by exists fs.
Qed.

Lemma candidates_of fs : forallb is_mapping fs = true -> NoDup (map candidate_id fs) ->
  catalog_candidates fs = map (fun i => (candidate_id i, i)) fs.
Proof.
  intros Hm Hn. transitivity (dict_of_pairs (map (fun i => (candidate_id i, i)) fs)).
  - unfold catalog_candidates, dict_of_pairs. generalize ([] : dict). induction fs as [|i fs IH]; intros d; [done|].
    cbn [fold_left map fst snd forallb] in *. apply andb_true_iff in Hm as [-> Hm]. apply NoDup_cons in Hn as [_ Hn]. by rewrite IH.
  - apply dict_of_pairs_id. unfold keys. rewrite map_map. exact Hn.
Qed.

Lemma candidates_nodup fs : NoDup (keys (catalog_candidates fs)).
Proof.
  unfold catalog_candidates. assert (NoDup (keys ([] : dict))) as H by apply NoDup_nil_2. revert H. generalize ([] : dict).
  induction fs as [|i fs IH]; intros d H; cbn [fold_left]; [done|]. apply IH. destruct (is_mapping i); [|done].
  rewrite keys_dset. case_bool_decide; [done|]. apply NoDup_app. split_and!; [done|set_solver|apply NoDup_singleton].
Qed.

(** What the loop over the clusters accepts. *)
Definition cluster_ok (candidates : dict) (m : string * json) : Prop :=
  exists cluster ids, snd m = JObj cluster /\ fst m = text_of (dget cluster "cluster_id") /\ _cluster_members cluster = Ok ids /\
    ids <> [] /\ NoDup ids /\ forall id, id ∈ ids -> id ∈ keys candidates.

Lemma catalog_clusters_ok candidates items acc clusters : catalog_clusters candidates items acc = Ok clusters ->
  NoDup (keys acc) -> Forall (cluster_ok candidates) acc -> NoDup (keys clusters) /\ Forall (cluster_ok candidates) clusters.
Proof.
  revert acc. induction items as [|item items IH]; intros acc H Hn Ha; cbn [catalog_clusters] in H; [by injection H as <-|].
  destruct item as [| | | | | |item]; try done. destruct (_ || has_key acc _) eqn:Hid; [done|].
  apply orb_false_iff in Hid as [_ Hk]. apply bool_decide_eq_false in Hk. apply bind_ok_inv in H as (ids & Hids & H).
  destruct (_ || negb (bool_decide (NoDup ids))) eqn:Hd; [done|]. apply orb_false_iff in Hd as [He Hd].
  apply bool_decide_eq_false in He. apply negb_false_iff, bool_decide_eq_true in Hd.
  destruct (negb (forallb (has_key candidates) ids)) eqn:Hu; [done|]. apply negb_false_iff in Hu. rewrite forallb_forall in Hu.
  rewrite dset_app in H by done. apply IH in H; [done| |].
  - unfold keys in *. rewrite map_app. apply NoDup_app. split_and!; [done| |apply NoDup_singleton].
    intros x Hx ->%list_elem_of_singleton. by apply Hk.
  - apply Forall_app. split; [done|]. apply Forall_singleton. exists item, ids. split_and!; try done.
    intros id Hin. apply list_elem_of_In in Hin. apply Hu in Hin. by apply bool_decide_eq_true in Hin.
Qed.

Lemma catalog_inv register candidates clusters : _catalog register = Ok (candidates, clusters) ->
  exists findings members, iter_or_empty (dget register "findings") = Ok findings /\ candidates = catalog_candidates findings /\
    NoDup (keys clusters) /\ Forall (cluster_ok candidates) clusters /\
    mapR (fun m => _cluster_members (as_dict (snd m))) clusters = Ok members /\ NoDup (concat members) /\
    length (concat members) = length candidates /\ forall id, id ∈ concat members <-> id ∈ keys candidates.
Proof.
  unfold _catalog. intros H. apply bind_ok_inv in H as (fs & Hf & H). cbv zeta in H.
  apply bind_ok_inv in H as (cl & Hc & H). destruct (_ && _); [done|]. apply bind_ok_inv in H as (members & Hm & H).
  destruct (_ || _ || _) eqn:Hb; [done|]. injection H as <- <-. apply orb_false_iff in Hb as [[H1 H2]%orb_false_iff H3].
  apply negb_false_iff, Nat.eqb_eq in H1. apply negb_false_iff, Nat.eqb_eq in H2. apply negb_false_iff in H3.
  apply andb_true_iff in H3 as [H3 H4]. rewrite issubset_spec in H3, H4.
  assert (NoDup (keys cl) /\ Forall (cluster_ok (catalog_candidates fs)) cl) as [Hn Ho].
  { destruct (dget register "review_workload_clusters") as [| | | | |raw|]; try (injection Hc as <-; split; [apply NoDup_nil_2|constructor]).
    eapply catalog_clusters_ok; [exact Hc|apply NoDup_nil_2|constructor]. }
  exists fs, members. split_and!; try done; [apply fromkeys_length; lia|]. intros id. split; [apply H3|apply H4].
Qed.

Lemma ids_truthy record register candidates clusters : canonical_candidate_register record = Ok register ->
  _catalog register = Ok (candidates, clusters) -> forall id, id ∈ keys candidates -> truthy id = true.
Proof.
  intros Hr Hc id Hid. destruct (register_inv _ _ Hr) as (fs & Hf & Hm & Ht & Hn). destruct (catalog_inv _ _ _ Hc) as (fs' & _ & Hf' & -> & _).
  rewrite Hf, iter_array in Hf'. injection Hf' as <-. rewrite candidates_of in Hid by done. unfold keys in Hid. rewrite map_map in Hid.
  rewrite forallb_forall in Ht. apply Ht. by apply list_elem_of_In.
Qed.

(** ** A new ledger *)

Lemma stripped (l : list string) : (forall s, s ∈ l -> strip s = s) -> map strip l = l.
Proof.
  intros H. rewrite <- (map_id l) at 2. apply map_ext_in. intros s Hs. apply H. by apply list_elem_of_In.
Qed.

Lemma candidate_keys fs : forall k, k ∈ keys (catalog_candidates fs) -> strip k = k.
Proof.
  unfold catalog_candidates. assert (forall k, k ∈ keys ([] : dict) -> strip k = k) as H by (intros k Hk; by apply elem_of_nil in Hk).
  revert H. generalize ([] : dict). induction fs as [|i fs IH]; intros d H; cbn [fold_left]; [done|]. apply IH.
  destruct (is_mapping i); [|done]. intros k [->|Hk]%dset_keys; [apply text_of_idemp|by apply H].
Qed.

Lemma qc_stripped clusters ids qc : qc_representatives clusters ids = Ok qc -> forall s, s ∈ qc -> strip s = s.
Proof.
  revert qc. induction ids as [|id ids IH]; intros qc H; cbn [qc_representatives] in H.
  - injection H as <-. intros s Hs. by apply elem_of_nil in Hs.
  - destruct (negb (is_true _)); [by apply IH|]. apply bind_ok_inv in H as (members & _ & H).
    destruct (_ <? 2)%nat; [by apply IH|]. destruct (negb _); [done|]. apply bind_ok_inv in H as (rest & Hr & [= <-]).
    intros s [->|Hs]%elem_of_cons; [apply text_of_idemp|by apply (IH _ Hr)].
Qed.

(** The members of a ledger that no action changes. *)
Definition fixed_fields : list string :=
  ["artifact_schema"; "run_id"; "repository"; "commit_sha"; "evidence_ledger_id"; "candidate_count"; "candidate_ids";
   "qc_required_candidate_ids"; "high_impact_candidate_ids"].

Record fresh (candidates clusters : dict) (expected : dict) : Prop := {
  fr_schema : dget expected "artifact_schema" = JStr LEDGER_SCHEMA;
  fr_identity : forall f, f ∈ identity_fields -> exists s, dget expected f = JStr s /\ strip s = s;
  fr_count : dget expected "candidate_count" = JInt (Z.of_nat (length candidates));
  fr_ids : dget expected "candidate_ids" = strs (sorted (keys candidates));
  fr_qc : exists qc, _qc_required_ids clusters = Ok qc /\ dget expected "qc_required_candidate_ids" = strs qc;
  fr_high : dget expected "high_impact_candidate_ids" = strs (_high_impact_ids candidates);
  fr_reviewers : dget expected "reviewer_identities" = JObj [];
  fr_assignments : dget expected "assignments" = JObj [];
  fr_dispositions : dget expected "dispositions" = JObj [];
  fr_quality : dget expected "quality_control" = JObj [];
  fr_requests : dget expected "evidence_requests" = JArr [];
  fr_stakeholders : dget expected "stakeholder_evidence" = JArr [];
  fr_sessions : dget expected "review_sessions" = JArr [];
  fr_events : dget expected "audit_events" = JArr [];
  fr_study : exists d, dget expected "empirical_study" = JObj d /\ text_of (dget d "status") = "not_yet_measured" }.

Lemma empty_ledger_fresh record register expected : _empty_ledger record register = Ok expected ->
  exists candidates clusters, _catalog register = Ok (candidates, clusters) /\ fresh candidates clusters expected.
Proof.
  unfold _empty_ledger. intros H. apply bind_ok_inv in H as (identity & Hi & H). apply bind_ok_inv in H as ([c cl] & Hc & H).
  apply bind_ok_inv in H as (qc & Hq & [= <-]). exists c, cl. split; [done|].
  unfold _identity in Hi. destruct (dget record "identity") as [| | | | | |raw]; try done. destruct (forallb _ _); [|done].
  injection Hi as <-. split; try reflexivity.
  - intros f Hf. unfold identity_fields in Hf. exists (text_of (dget raw f)). split; [|apply text_of_idemp].
    rewrite !elem_of_cons, elem_of_nil in Hf. destruct Hf as [->|[->|[->|[->|[]]]]]; reflexivity.
  - by exists qc.
  - eexists. split; reflexivity.
Qed.

Lemma high_stripped fs : forall s, s ∈ _high_impact_ids (catalog_candidates fs) -> strip s = s.
Proof.
  intros s Hs. unfold _high_impact_ids in Hs. rewrite sorted_perm in Hs. apply list_elem_of_fmap in Hs as (m & -> & Hm).
  apply filter_elem in Hm as [Hm _]. apply (candidate_keys fs). apply list_elem_of_fmap. by exists m.
Qed.

Lemma expected_strs_of expected k l : dget expected k = strs l -> expected_strs expected k = l.
Proof. unfold expected_strs. intros ->. unfold strs. rewrite map_map. apply map_id. Qed.

Lemma check_ledger_identity_ok ledger expected fields : (forall f, f ∈ fields -> dget ledger f = dget expected f) ->
  check_ledger_identity ledger expected fields = Ok tt.
Proof.
  induction fields as [|f fields IH]; intros H; [done|]. cbn [check_ledger_identity]. rewrite (H f) by (by left).
  rewrite String.eqb_refl. apply IH. intros g Hg. apply H. by right.
Qed.

(** A ledger with the members of the expected one is read back, when its count of
    candidates is read as theirs. *)
Lemma existing_counted register candidates clusters expected ledger : _catalog register = Ok (candidates, clusters) ->
  fresh candidates clusters expected ->
  (forall f, f ∈ fixed_fields -> f <> "candidate_count" -> dget ledger f = dget expected f) ->
  py_int (jor (dget ledger "candidate_count") (JInt (-1))) = Ok (Z.of_nat (length candidates)) -> existing_ledger ledger expected = Ok ledger.
Proof.
  intros Hcat F Hf Hn. destruct (catalog_inv _ _ _ Hcat) as (fs & _ & _ & Hfs & _). unfold existing_ledger.
  rewrite (Hf "artifact_schema") by (unfold fixed_fields; set_solver). rewrite (fr_schema _ _ _ F), text_of_str.
  change (negb (String.eqb (strip LEDGER_SCHEMA) LEDGER_SCHEMA)) with false. cbv iota.
  rewrite check_ledger_identity_ok by (intros f Hx; apply Hf; unfold fixed_fields, identity_fields in *; set_solver).
  cbn [mbind res_bind]. rewrite Hn, (fr_count _ _ _ F). cbn [mbind res_bind]. rewrite bool_decide_eq_true_2 by done. cbn [negb].
  destruct (fr_qc _ _ _ F) as (qc & Hq & Hqc).
  rewrite (Hf "candidate_ids"), (Hf "qc_required_candidate_ids"), (Hf "high_impact_candidate_ids") by (unfold fixed_fields; set_solver).
  rewrite (expected_strs_of _ _ _ (fr_ids _ _ _ F)), (expected_strs_of _ _ _ Hqc), (expected_strs_of _ _ _ (fr_high _ _ _ F)).
  rewrite (fr_ids _ _ _ F), Hqc, (fr_high _ _ _ F), !texts_array. cbn [mbind res_bind].
  rewrite (stripped (sorted (keys candidates))) by (intros s Hs; rewrite sorted_perm in Hs; subst candidates; by apply candidate_keys in Hs).
  rewrite (stripped qc) by (by eapply qc_stripped).
  rewrite (stripped (_high_impact_ids candidates)) by (rewrite Hfs; apply high_stripped).
  rewrite !sorted_idemp, !bool_decide_eq_true_2; try done. unfold _high_impact_ids. by rewrite sorted_idemp.
Qed.

(** A count of zero is taken for a missing one. *)
Lemma existing_fixed register candidates clusters expected ledger : _catalog register = Ok (candidates, clusters) ->
  fresh candidates clusters expected -> (forall f, f ∈ fixed_fields -> dget ledger f = dget expected f) ->
  existing_ledger ledger expected =
    if bool_decide (candidates = []) then
      if _has_human_review_state ledger then fail ValueError "review_work_ledger_candidate_count_mismatch" else Ok expected
    else Ok ledger.
Proof.
  intros Hcat F Hf. assert (dget ledger "candidate_count" = JInt (Z.of_nat (length candidates))) as Hn
    by (rewrite Hf by (unfold fixed_fields; set_solver); apply F).
  destruct candidates as [|m cs].
  - unfold existing_ledger. rewrite (Hf "artifact_schema") by (unfold fixed_fields; set_solver). rewrite (fr_schema _ _ _ F), text_of_str.
    change (negb (String.eqb (strip LEDGER_SCHEMA) LEDGER_SCHEMA)) with false. cbv iota.
    rewrite check_ledger_identity_ok by (intros f Hx; apply Hf; unfold fixed_fields, identity_fields in *; set_solver).
    cbn [mbind res_bind]. rewrite Hn, (fr_count _ _ _ F).
    change (py_int (jor (JInt (Z.of_nat (length [])))(JInt (-1)))) with (Ok (-1)). cbn [mbind res_bind].
    rewrite (bool_decide_eq_false_2 (JInt (-1) = _)) by done. by rewrite bool_decide_eq_true_2.
  - rewrite (bool_decide_eq_false_2 (_ :: _ = [])) by done. eapply existing_counted; try done; [by intros f Hx _; apply Hf|]. by rewrite Hn.
Qed.

(** The ledger as the service passes it on: without candidates the count is text. *)
Definition acting (candidates expected : dict) : dict :=
  if bool_decide (candidates = []) then dset expected "candidate_count" (JStr "0") else expected.

Lemma existing_acting register candidates clusters expected ledger : _catalog register = Ok (candidates, clusters) ->
  fresh candidates clusters expected -> (forall f, f ∈ fixed_fields -> dget ledger f = dget (acting candidates expected) f) ->
  existing_ledger ledger expected = Ok ledger.
Proof.
  intros Hcat F Hf. unfold acting in Hf. case_bool_decide as Hc.
  - eapply existing_counted; try done; [intros f Hx Hne; by rewrite Hf, dget_dset_ne|].
    rewrite Hf, dget_dset_eq, Hc by (unfold fixed_fields; set_solver). done.
  - rewrite (existing_fixed _ _ _ _ _ Hcat F Hf). by rewrite bool_decide_eq_false_2.
Qed.

(** ** The clusters of an accepted register *)

(** [id] is a candidate of the cluster named [cluster_id]. *)
Definition member_of (clusters : dict) (id cluster_id : string) : Prop :=
  cluster_id ∈ keys clusters /\ exists ids, _cluster_members (as_dict (dget clusters cluster_id)) = Ok ids /\ id ∈ ids.

Lemma in_concat_of {A B} (f : A -> res (list B)) l members : mapR f l = Ok members ->
  forall x, x ∈ concat members <-> exists a ids, a ∈ l /\ f a = Ok ids /\ x ∈ ids.
Proof.
  intros H%mapR_ok x. induction H as [|a ids l members Ha _ IH]; cbn [concat].
  - split; [by intros ?%elem_of_nil|]. by intros (? & ? & ?%elem_of_nil & _).
  - rewrite elem_of_app, IH. split.
    + intros [Hx|(a' & ids' & Hin & ?)]; [exists a, ids; split_and!; [left|done..]|exists a', ids'; split; [by right|done]].
    + intros (a' & ids' & [->|Hin]%elem_of_cons & Hf & Hx); [left; congruence|right; by exists a', ids'].
Qed.

Lemma concat_owner {A B} (f : A -> res (list B)) l members : mapR f l = Ok members -> NoDup (concat members) ->
  forall x a b ids ids', a ∈ l -> b ∈ l -> f a = Ok ids -> f b = Ok ids' -> x ∈ ids -> x ∈ ids' -> a = b.
Proof.
  revert members. induction l as [|c l IH]; intros members H Hn x a b ids ids' Ha Hb Hf Hg Hx Hy; [by apply elem_of_nil in Ha|].
  cbn [mapR] in H. apply bind_ok_inv in H as (cs & Hc & H). apply bind_ok_inv in H as (rest & Hr & [= <-]).
  cbn [concat] in Hn. apply NoDup_app in Hn as (_ & Hd & Hn).
  assert (forall d ds, d ∈ l -> f d = Ok ds -> x ∈ ds -> x ∈ concat rest) as Hin
    by (intros d ds Hd' Hf' Hx'; apply (in_concat_of _ _ _ Hr); by exists d, ds).
  apply elem_of_cons in Ha as [->|Ha], Hb as [->|Hb]; [done| | |by eapply IH].
  - exfalso. apply (Hd x); [congruence|by eapply Hin].
  - exfalso. apply (Hd x); [congruence|by eapply Hin].
Qed.

Lemma dget_elem (d : dict) k v : NoDup (keys d) -> (k, v) ∈ d -> dget d k = v.
Proof. intros Hn Hin. unfold dget. apply (dlookup_elem k v d Hn) in Hin. by rewrite Hin. Qed.

Lemma keys_elem (d : dict) k : k ∈ keys d <-> exists v, (k, v) ∈ d.
Proof.
  unfold keys. rewrite list_elem_of_fmap. split; [intros ([k' v] & -> & H); by exists v|intros [v H]; by exists (k, v)].
Qed.

Lemma members_spec register candidates clusters : _catalog register = Ok (candidates, clusters) ->
  forall id, id ∈ keys candidates <-> exists cluster_id, member_of clusters id cluster_id.
Proof.
  intros H. destruct (catalog_inv _ _ _ H) as (fs & members & _ & _ & Hn & _ & Hm & _ & _ & Hk). intros id.
  rewrite <- Hk, (in_concat_of _ _ _ Hm). split.
  - intros ([c v] & ids & Hin & Hf & Hx). exists c. split; [apply keys_elem; by exists v|]. exists ids.
    by rewrite (dget_elem _ _ _ Hn Hin).
  - intros (c & [v Hin]%keys_elem & ids & Hf & Hx). rewrite (dget_elem _ _ _ Hn Hin) in Hf. by exists (c, v), ids.
Qed.

(** The clusters the review works with partition the candidates.  When the
    register of a run and its clusters are accepted, the candidates are the
    findings of the final report by their ids, each once; every candidate is in
    a cluster and in no second one, and a cluster names nothing else and nothing
    twice.  So a decision about a group decides about each finding once. *)
Theorem clusters_partition record register candidates clusters :
  canonical_candidate_register record = Ok register -> _catalog register = Ok (candidates, clusters) ->
  (exists findings, dget register "findings" = JArr findings /\ candidates = map (fun i => (candidate_id i, i)) findings) /\
  NoDup (keys candidates) /\ NoDup (keys clusters) /\
  (forall id, id ∈ keys candidates <-> exists cluster_id, member_of clusters id cluster_id) /\
  (forall id c c', member_of clusters id c -> member_of clusters id c' -> c = c') /\
  forall c, c ∈ keys clusters -> exists ids, _cluster_members (as_dict (dget clusters c)) = Ok ids /\ ids <> [] /\ NoDup ids.
Proof.
  intros Hr Hc. destruct (register_inv _ _ Hr) as (fs & Hf & Hm & _ & Hn).
  destruct (catalog_inv _ _ _ Hc) as (fs' & members & Hf' & Hcs & Hk & Ho & Hms & Hd & _ & _).
  rewrite Hf, iter_array in Hf'. injection Hf' as <-. rewrite candidates_of in Hcs by done.
  split_and!; [by exists fs|subst; unfold keys; rewrite map_map; exact Hn|done|by eapply members_spec| |].
  - intros id c c' ([v Hin]%keys_elem & ids & Hf1 & Hx) ([v' Hin']%keys_elem & ids' & Hf2 & Hx').
    rewrite (dget_elem _ _ _ Hk Hin) in Hf1. rewrite (dget_elem _ _ _ Hk Hin') in Hf2.
    assert ((c, v) = (c', v')) as [= ->]; [by eapply (concat_owner _ _ _ Hms Hd id)|done].
  - intros c [v Hin]%keys_elem. rewrite (dget_elem _ _ _ Hk Hin). rewrite Forall_forall in Ho.
    destruct (Ho _ Hin) as (cl & ids & [= ->] & _ & Hids & Hne & Hnd & _). by exists ids.
Qed.

(** ** Two candidates in one group *)

Module CatalogDemo.
Definition identity : dict :=
  [("run_id", JStr "run_1"); ("repository", JStr "acme/app"); ("commit_sha", JStr "c0ffee"); ("evidence_ledger_id", JStr "led_1")].
Definition finding (id severity : string) : json := JObj [("candidate_id", JStr id); ("cluster_id", JStr "k1"); ("severity", JStr severity)].
Definition group : json :=
  JObj [("cluster_id", JStr "k1"); ("candidate_ids", strs ["c1"; "c2"]); ("representative_candidate_id", JStr "c1");
        ("grouped_review_eligible", JBool true); ("homogeneous_evidence", JBool true); ("homogeneous_verdict", JBool true)].
Definition register : dict :=
  [("findings", JArr [finding "c1" "high"; finding "c2" "low"]); ("candidate_record_count", JInt 2); ("review_workload_clusters", JArr [group])].
Definition no_findings : dict := [("findings", JArr []); ("candidate_record_count", JInt 0); ("review_workload_clusters", JArr [])].
Definition record_of (register : dict) : dict :=
  [("identity", JObj identity); ("status", JStr "review_required"); ("terminal", JBool true);
   ("stage_results", JObj [(_FINAL_REPORT_STAGE_ID, JObj [("report_package", JObj [("json",
      JObj [("identity", JObj identity); ("assessment", JObj [("canonical_scanner_finding_register", JObj register)])])])])])].
Definition record : dict := record_of register.
Definition candidates : dict := [("c1", finding "c1" "high"); ("c2", finding "c2" "low")].
Definition clusters : dict := [("k1", group)].

Lemma register_ok : canonical_candidate_register record = Ok register.
Proof. reflexivity. Qed.
Lemma catalog_ok : _catalog register = Ok (candidates, clusters).
Proof. vm_compute. reflexivity. Qed.

Lemma clusters_partition_witness :
  canonical_candidate_register record = Ok register /\ _catalog register = Ok (candidates, clusters) /\
  forall c c', member_of clusters "c2" c -> member_of clusters "c2" c' -> c = c'.
Proof.
  split; [exact register_ok|]. split; [exact catalog_ok|].
  destruct (clusters_partition record register candidates clusters register_ok catalog_ok) as (_ & _ & _ & _ & H & _). apply H.
Defined.
End CatalogDemo.
