(* ===== verification/ReviewLedger.v ===== *)
(** * What a review ledger keeps

    [sound] says what holds of the entries of a ledger when certain audit events
    were recorded: every decision, every check of a decision and every
    resolution in it is one an action made, by a person the audit event of that
    action names.  Every action of the first phase keeps it and adds one event
    to the chain ([step_sound]); ReviewWorks goes on to the later phases and the
    service.  ReviewWork has the definitions, ReviewWorkFacts the catalog. *)

From S2P Require Import Prelude PyStr Sha256 PyFloat Json JsonFacts PyTime Orchestration AcceptedEdition HumanEvidence ReviewDecision ReviewWork ReviewWorkFacts.

(** ** Reading a ledger *)

Definition said (d : dict) (k : string) : string := text_of (dget d k).
Definition member (ledger : dict) (k : string) : dict := as_dict (dget ledger k).
Definition entries (ledger : dict) (k : string) : list dict := match dget ledger k with JArr l => map as_dict l | _ => [] end.

Definition dict_fields : list string := ["reviewer_identities"; "assignments"; "dispositions"; "quality_control"; "empirical_study"].
Definition keyed_fields : list string := ["dispositions"; "quality_control"].
Definition list_fields : list string := ["evidence_requests"; "stakeholder_evidence"; "review_sessions"; "audit_events"].

(** ** What is claimed of the entries *)

(** A name that [human_reviewer_identity] accepts. *)
Definition human (name : string) : Prop := strip name = name /\ truthy name = true /\ casefold name ∉ _AUTOMATION.

(** The audit events name the action, its reviewer and its time. *)
Definition recorded (events : list dict) (actions : list string) (reviewer time : json) (payload : dict -> Prop) : Prop :=
  exists e, e ∈ events /\ (exists a, dget e "action" = JStr a /\ a ∈ actions) /\ dget e "reviewer" = reviewer /\
    dget e "recorded_at" = time /\ payload (as_dict (dget e "payload")).

(** A decision about a candidate. *)
Definition decided (candidates : dict) (events : list dict) (id : string) (v : json) : Prop :=
  exists e, v = JObj e /\ id ∈ keys candidates /\ dget e "candidate_id" = JStr id /\
    said e "disposition" ∈ _ALLOWED_DISPOSITIONS /\ truthy (said e "rationale") = true /\
    (said e "disposition" ∈ ["confirmed"; "accepted_risk"] ->
       truthy (said e "residual_risk") = true /\ truthy (said e "residual_risk_owner") = true) /\
    (high_impact (as_dict (dget candidates id)) = true ->
       truthy (said e "escalation_resolution") = true /\ truthy (said e "escalation_owner") = true) /\
    human (said e "reviewer") /\ dget e "human_decision" = JBool true /\
    recorded events ["disposition_candidate"; "disposition_group"] (dget e "reviewer") (dget e "decided_at") (fun _ => True).

(** A check of a decision [d], which the audit event keeps. *)
Definition checked (candidates : dict) (events : list dict) (id : string) (v : json) : Prop :=
  exists q d, v = JObj q /\ decided candidates events id (JObj d) /\ said q "qc_outcome" ∈ _QC_OUTCOMES /\
    truthy (said q "qc_note") = true /\ human (said q "reviewer") /\
    casefold (said d "reviewer") <> casefold (said q "reviewer") /\
    dget q "reviewed_disposition_sha256" = JStr (_canonical_hash (JObj d)) /\
    recorded events ["quality_control"] (dget q "reviewer") (dget q "reviewed_at") (fun p => dget p "reviewed_disposition" = JObj d).

(** A request for evidence is open, or someone resolved it with references. *)
Definition request_ok (events : list dict) (r : dict) : Prop :=
  has_status "open" r = true \/
  has_status "resolved" r = true /\ truthy (said r "resolution_note") = true /\ human (said r "resolved_by") /\
  (exists refs, dget r "evidence_references" = strs refs /\ refs <> [] /\ Forall (fun s => truthy s = true) refs) /\
  recorded events ["resolve_evidence_request"] (dget r "resolved_by") (dget r "resolved_at") (fun _ => True).

(** A session runs, or it ended and its time was measured. *)
Definition session_ok (s : dict) : Prop :=
  has_status "running" s = true \/
  has_status "completed" s = true /\ exists n, dget s "duration_seconds" = JInt n /\ 0 <= n.
Definition session_owner (s : dict) : string := casefold (said s "reviewer").
Definition running_owners (sessions : list dict) : list string := map session_owner (List.filter (has_status "running") sessions).

(** Audit events as [_append_event] makes them, each from those before. *)
Inductive chained : list dict -> Prop :=
  | chained_nil : chained []
  | chained_snoc events action reviewer role payload now :
      chained events -> chained (events ++ [event action reviewer role payload now events]).

(** What holds of a ledger when [events] were recorded. *)
Record sound (events : list dict) (candidates expected ledger : dict) : Prop := {
  so_fixed : forall f, f ∈ fixed_fields -> dget ledger f = dget expected f;
  so_dicts : forall k, k ∈ dict_fields -> dget ledger k = JObj (member ledger k);
  so_lists : forall k, k ∈ list_fields -> dget ledger k = JArr (map JObj (entries ledger k));
  so_keys : forall k, k ∈ keyed_fields -> NoDup (keys (member ledger k));
  so_decided : Forall (fun m => decided candidates events (fst m) (snd m)) (member ledger "dispositions");
  so_checked : Forall (fun m => checked candidates events (fst m) (snd m)) (member ledger "quality_control");
  so_requests : Forall (request_ok events) (entries ledger "evidence_requests");
  so_sessions : Forall session_ok (entries ledger "review_sessions");
  so_one_session : NoDup (running_owners (entries ledger "review_sessions")) }.

(** ** Lemmas: reading *)

Lemma dict_member_obj ledger k d : dget ledger k = JObj d -> dict_member ledger k = Ok d.
Proof. unfold dict_member. intros ->. by destruct d. Qed.

Lemma objs_id (l : list dict) : map as_dict (List.filter is_mapping (map JObj l)) = l.
Proof. induction l as [|d l IH]; [done|]. cbn. by f_equal. Qed.
Lemma objs_dicts (l : list dict) : map as_dict (map JObj l) = l.
Proof. induction l as [|d l IH]; [done|]. cbn. by f_equal. Qed.

Lemma mappings_objs l : mappings (JArr (map JObj l)) = Ok l.
Proof. unfold mappings. rewrite iter_array. cbn [mbind res_bind]. by rewrite objs_id. Qed.

Lemma member_eq ledger k d : dget ledger k = JObj d -> member ledger k = d.
Proof. unfold member. by intros ->. Qed.
Lemma entries_eq ledger k l : dget ledger k = JArr (map JObj l) -> entries ledger k = l.
Proof. unfold entries. intros ->. apply objs_dicts. Qed.

Lemma member_dset_eq ledger k d : member (dset ledger k (JObj d)) k = d.
Proof. apply member_eq, dget_dset_eq. Qed.
Lemma member_dset_ne ledger k k' v : k <> k' -> member (dset ledger k' v) k = member ledger k.
Proof. intros H. unfold member. by rewrite dget_dset_ne. Qed.
Lemma entries_dset_eq ledger k l : entries (dset ledger k (JArr (map JObj l))) k = l.
Proof. apply entries_eq, dget_dset_eq. Qed.
Lemma entries_dset_ne ledger k k' v : k <> k' -> entries (dset ledger k' v) k = entries ledger k.
Proof. intros H. unfold entries. by rewrite dget_dset_ne. Qed.

(** Membership of a given name in a given list. *)
Ltac concrete := match goal with
  | |- ?P -> False => change (~ P); apply (bool_decide_unpack _); vm_compute; exact I
  | |- _ => apply (bool_decide_unpack _); vm_compute; exact I
  end.

(** What the ledger says after its fields were set. *)
Ltac read := rewrite ?member_dset_eq, ?entries_dset_eq; repeat first [rewrite member_dset_ne by done | rewrite entries_dset_ne by done];
  rewrite ?member_dset_eq, ?entries_dset_eq.

Lemma Forall_dset (P : string -> json -> Prop) d k v : Forall (fun m => P (fst m) (snd m)) d -> P k v ->
  Forall (fun m => P (fst m) (snd m)) (dset d k v).
Proof.
  intros Hd Hv. induction Hd as [|[k' w] d Hw Hd IH]; cbn [dset]; [by constructor|].
  destruct (String.eqb_spec k k') as [->|]; constructor; done.
Qed.

Lemma Forall_dget (P : string -> json -> Prop) d k : Forall (fun m => P (fst m) (snd m)) d -> dget d k <> JNull -> P k (dget d k).
Proof.
  unfold dget. induction 1 as [|[k' w] d Hw Hd IH]; cbn [dlookup]; [done|].
  destruct (String.eqb_spec k k') as [->|]; [done|exact IH].
Qed.

Lemma NoDup_dset (d : dict) k v : NoDup (keys d) -> NoDup (keys (dset d k v)).
Proof. intros H. rewrite keys_dset. case_bool_decide; [done|]. apply NoDup_app. split_and!; [done|set_solver|apply NoDup_singleton]. Qed.

(** ** Lemmas: later events *)

Lemma recorded_more events e actions reviewer time (P : dict -> Prop) :
  recorded events actions reviewer time P -> recorded (events ++ [e]) actions reviewer time P.
Proof. intros (x & Hx & H). exists x. split; [apply elem_of_app; by left|done]. Qed.

Lemma decided_more candidates events e id v : decided candidates events id v -> decided candidates (events ++ [e]) id v.
Proof. intros (x & H). exists x. naive_solver eauto using recorded_more. Qed.

Lemma checked_more candidates events e id v : checked candidates events id v -> checked candidates (events ++ [e]) id v.
Proof. intros (q & d & H). exists q, d. naive_solver eauto using recorded_more, decided_more. Qed.

Lemma request_more events e r : request_ok events r -> request_ok (events ++ [e]) r.
Proof. intros [H|H]; [by left|right]. naive_solver eauto using recorded_more. Qed.

(** ** Lemmas: what an action does *)

Lemma require_human_inv payload reviewer role : _require_human payload = Ok (reviewer, role) ->
  human reviewer /\ human role /\ dget payload "review_authorized" = JBool true /\ dget payload "authorization_confirmed" = JBool true.
Proof.
  unfold _require_human, human_reviewer_identity, _require. destruct (negb _ || _) eqn:Ha; [done|].
  apply orb_false_iff in Ha as [H1%negb_false_iff H2%negb_false_iff].
  intros H. inv_ok. apply negb_true_iff, bool_decide_eq_false in Hv0, Hv2.
  assert (forall v, is_true v = true -> v = JBool true) as Ht by (by intros [| [] | | | | |]).
  split_and!; [split_and!; [apply strip_idemp|done|done]|split_and!; [apply strip_idemp|done|done]|by apply Ht|by apply Ht].
Qed.

Lemma members_known register candidates clusters c ids : _catalog register = Ok (candidates, clusters) ->
  has_key clusters c = true -> _cluster_members (as_dict (dget clusters c)) = Ok ids -> forall id, id ∈ ids -> id ∈ keys candidates.
Proof.
  intros Hc Hk Hm id Hid. apply (members_spec _ _ _ Hc). exists c. split; [by apply bool_decide_eq_true in Hk|]. by exists ids.
Qed.

Section Acted.
Context (record register candidates clusters payload : dict) (reviewer reviewer_role : string) (timestamp : datetime)
  (local_to_utc : datetime -> datetime).

(** The branches by what they put where. *)
Inductive acted (ledger : dict) : string -> dict -> dict -> Prop :=
  | acted_assign v : acted ledger "assign" (dset ledger "assignments" (JObj v)) []
  | acted_dispose action source cluster_id group targets d d' :
      action ∈ ["disposition_candidate"; "disposition_group"] -> dict_member ledger "dispositions" = Ok d ->
      (forall id, id ∈ targets -> id ∈ keys candidates) ->
      dispose candidates payload reviewer reviewer_role timestamp source cluster_id group targets d = Ok d' ->
      acted ledger action (dset ledger "dispositions" (JObj d')) []
  | acted_quality ledger' audit :
      quality_control candidates payload reviewer reviewer_role timestamp ledger = Ok (ledger', audit) ->
      acted ledger "quality_control" ledger' audit
  | acted_request requests entry :
      mappings (dget ledger "evidence_requests") = Ok requests -> has_status "open" entry = true ->
      acted ledger "request_evidence" (dset ledger "evidence_requests" (JArr (map JObj (requests ++ [entry])))) []
  | acted_resolve ledger' :
      resolve_evidence_request payload reviewer timestamp ledger = Ok ledger' -> acted ledger "resolve_evidence_request" ledger' []
  | acted_stakeholder l :
      acted ledger "stakeholder_evidence" (dset ledger "stakeholder_evidence" (JArr (map JObj l))) []
  | acted_start ledger' :
      start_session reviewer reviewer_role timestamp ledger = Ok ledger' -> acted ledger "start_session" ledger' []
  | acted_stop ledger' :
      stop_session reviewer timestamp local_to_utc ledger = Ok ledger' -> acted ledger "stop_session" ledger' []
  | acted_study v : acted ledger "complete_empirical_study" (dset ledger "empirical_study" (JObj v)) [].

Lemma act_inv action ledger ledger' audit : _catalog register = Ok (candidates, clusters) ->
  act record register candidates clusters payload reviewer reviewer_role timestamp local_to_utc action ledger = Ok (ledger', audit) ->
  acted ledger action ledger' audit.
Proof.
  intros Hcat H. unfold act in H.
  assert (forall r : res dict, (fun l : dict => (l, [] : dict)) <$> r = Ok (ledger', audit) -> r = Ok ledger' /\ audit = []) as Hp.
  { intros [l|e]; [by intros [= -> <-]|done]. }
  repeat match type of H with (if String.eqb action ?s then _ else _) = _ => destruct (String.eqb_spec action s) as [->|_] end; [..|done];
    try (apply Hp in H as [H ->]).
  - unfold assign in H. inv_ok. constructor.
  - unfold disposition_candidate in H. inv_ok. eapply acted_dispose; [left|done| |done].
    intros id ->%list_elem_of_singleton. apply negb_false_iff in Hb. by apply bool_decide_eq_true in Hb.
  - unfold disposition_group in H. cbv zeta in H. inv_ok. eapply acted_dispose; [right; left|done| |done].
    eapply members_known; [done| |done]. by apply negb_false_iff in Hb.
  - by constructor.
  - unfold request_evidence in H. inv_ok. by constructor.
  - by constructor.
  - unfold stakeholder_evidence in H. inv_ok. constructor.
  - by constructor.
  - by constructor.
  - unfold complete_empirical_study in H. inv_ok. constructor.
Qed.
End Acted.

(** ** Lemmas: decisions *)

Lemma said_str d k s : dget d k = JStr s -> said d k = strip s.
Proof. unfold said. intros ->. apply text_of_str. Qed.

Lemma allowed_strip s : s ∈ _ALLOWED_DISPOSITIONS -> strip s = s.
Proof. unfold _ALLOWED_DISPOSITIONS. rewrite !elem_of_cons, elem_of_nil. by intros [->|[->|[->|[->|[->|[]]]]]]. Qed.

Lemma disposition_inv payload candidate e : _disposition_payload payload candidate = Ok e ->
  exists disposition, disposition ∈ _ALLOWED_DISPOSITIONS /\
    e = ("disposition", JStr disposition) ::
        map (fun k => (k, JStr (said payload k)))
          ["rationale"; "residual_risk"; "residual_risk_owner"; "escalation_resolution"; "escalation_owner"] /\
    truthy (said payload "rationale") = true /\
    (disposition ∈ ["confirmed"; "accepted_risk"] ->
       truthy (said payload "residual_risk") = true /\ truthy (said payload "residual_risk_owner") = true) /\
    (high_impact candidate = true ->
       truthy (said payload "escalation_resolution") = true /\ truthy (said payload "escalation_owner") = true).
Proof.
  unfold _disposition_payload. cbv zeta. intros H.
  destruct (bool_decide (_ ∈ _ALLOWED_DISPOSITIONS)) eqn:Ha; [|done]. apply bool_decide_eq_true in Ha. cbn [negb] in H.
  destruct (truthy (text_of (dget payload "rationale"))) eqn:Hr; [|done]. cbn [negb] in H.
  destruct (_ && _) eqn:Hk in H; [done|]. destruct (high_impact candidate && _) eqn:Hh in H; [done|]. injection H as <-.
  eexists. split; [exact Ha|]. split_and!; [done|done| |].
  - intros Hd. rewrite (bool_decide_eq_true_2 _ Hd) in Hk. apply orb_false_iff in Hk as [?%negb_false_iff ?%negb_false_iff]. done.
  - intros Hc. rewrite Hc in Hh. apply orb_false_iff in Hh as [?%negb_false_iff ?%negb_false_iff]. done.
Qed.

Lemma dispose_decided candidates events payload reviewer role now source cluster_id group targets d d' :
  human reviewer -> (forall id, id ∈ targets -> id ∈ keys candidates) ->
  recorded events ["disposition_candidate"; "disposition_group"] (JStr reviewer) (JStr (_iso now)) (fun _ => True) ->
  dispose candidates payload reviewer role now source cluster_id group targets d = Ok d' ->
  Forall (fun m => decided candidates events (fst m) (snd m)) d -> Forall (fun m => decided candidates events (fst m) (snd m)) d'.
Proof.
  intros Hh Ht Hrec. revert d. induction targets as [|id targets IH]; intros d H Hd; cbn [dispose] in H; [by injection H as <-|].
  apply bind_ok_inv in H as (e & He & H). apply IH in H; [done|intros x Hx; apply Ht; by right|]. clear IH H d'.
  apply (Forall_dset (decided candidates events)); [done|]. apply disposition_inv in He as (disposition & Ha & -> & Hr & Hk & Hi).
  eexists. split; [reflexivity|]. split; [apply Ht; by left|]. split; [reflexivity|].
  cbn [app map]. repeat erewrite (said_str (_ :: _)) by reflexivity. rewrite (allowed_strip _ Ha), (proj1 Hh).
  assert (forall k, strip (said payload k) = said payload k) as Hs by (intros k; apply text_of_idemp). rewrite !Hs. by split_and!.
Qed.

Lemma dispose_nodup candidates payload reviewer role now source cluster_id group targets d d' :
  dispose candidates payload reviewer role now source cluster_id group targets d = Ok d' -> NoDup (keys d) -> NoDup (keys d').
Proof.
  revert d. induction targets as [|id targets IH]; intros d H Hd; cbn [dispose] in H; [by injection H as <-|].
  apply bind_ok_inv in H as (e & _ & H). apply IH in H; [done|]. by apply NoDup_dset.
Qed.

(** What a check says, and of which decision. *)
Lemma quality_inv candidates payload reviewer role now ledger ledger' audit :
  quality_control candidates payload reviewer role now ledger = Ok (ledger', audit) ->
  exists id d dispositions qc entry, as_mapping (jor (dget ledger "dispositions") (JObj [])) = Ok dispositions /\
    dget dispositions id = JObj d /\ casefold (said d "reviewer") <> casefold reviewer /\ dict_member ledger "quality_control" = Ok qc /\
    ledger' = dset ledger "quality_control" (JObj (dset qc id (JObj entry))) /\
    audit = [("reviewed_disposition_sha256", JStr (_canonical_hash (JObj d))); ("reviewed_disposition", JObj d)] /\
    said entry "qc_outcome" ∈ _QC_OUTCOMES /\ truthy (said entry "qc_note") = true /\ dget entry "reviewer" = JStr reviewer /\
    dget entry "reviewed_at" = JStr (_iso now) /\ dget entry "reviewed_disposition_sha256" = JStr (_canonical_hash (JObj d)).
Proof.
  unfold quality_control. cbv zeta. intros H. apply bind_ok_inv in H as (required & _ & H).
  destruct (_ || _) in H; [done|]. apply bind_ok_inv in H as (dispositions & Hd & H).
  destruct (dget dispositions _) as [| | | | | |d] eqn:Hl; try done. destruct (String.eqb_spec (casefold (text_of (dget d "reviewer"))) (casefold reviewer)) as [|Hn]; [done|].
  destruct (_ || _) eqn:Ho in H; [done|]. apply orb_false_iff in Ho as [Ho%negb_false_iff%bool_decide_eq_true Hnote%negb_false_iff].
  apply bind_ok_inv in H as (qc & Hq & [= <- <-]). do 5 eexists. split_and!; [exact Hd|exact Hl|exact Hn|exact Hq|reflexivity|reflexivity| | |reflexivity..].
  - erewrite said_str by reflexivity. revert Ho. unfold _QC_OUTCOMES. rewrite !elem_of_cons, elem_of_nil. intros [->|[->|[]]]; set_solver.
  - erewrite said_str by reflexivity. unfold asked. by rewrite text_of_idemp.
Qed.

(** ** Lemmas: requests and sessions *)

(** Reading a mapping that was updated with named keys. *)
Ltac updated := unfold dmerge; cbn [fold_left fst snd app]; repeat first [rewrite dget_dset_eq | rewrite dget_dset_ne by done].

Lemma resolve_ok events reviewer now request_id note refs requests found requests' :
  human reviewer -> strip note = note -> truthy note = true -> refs <> [] -> Forall (fun s => truthy s = true) refs ->
  recorded events ["resolve_evidence_request"] (JStr reviewer) (JStr (_iso now)) (fun _ => True) ->
  resolve reviewer now request_id note refs requests = Ok (found, requests') ->
  Forall (request_ok events) requests -> Forall (request_ok events) requests'.
Proof.
  intros Hh Hs Hn Hr Hrs Hrec. revert found requests'. induction requests as [|r requests IH]; intros found requests' H Hf; cbn [resolve] in H.
  { by injection H as <- <-. }
  apply Forall_cons in Hf as [Hf1 Hf]. destruct (String.eqb _ request_id) in H.
  - destruct (has_status "open" r) in H; [|done]. cbn [negb] in H. apply bind_ok_inv in H as ([f rest] & Hrest & [= <- <-]).
    constructor; [|by eapply IH]. right. unfold has_status, said, by_at.
    split; [updated; by rewrite text_of_str|]. split; [updated; by rewrite text_of_str, Hs|].
    split; [updated; rewrite text_of_str; by rewrite (proj1 Hh)|]. split; [exists refs; by updated|]. by updated.
  - apply bind_ok_inv in H as ([f rest] & Hrest & [= <- <-]). constructor; [done|by eapply IH].
Qed.

Lemma resolve_inv payload reviewer now ledger ledger' :
  resolve_evidence_request payload reviewer now ledger = Ok ledger' ->
  exists request_id note refs requests found requests', strip note = note /\ truthy note = true /\ refs <> [] /\
    Forall (fun s => truthy s = true) refs /\ mappings (dget ledger "evidence_requests") = Ok requests /\
    resolve reviewer now request_id note refs requests = Ok (found, requests') /\
    ledger' = dset ledger "evidence_requests" (JArr (map JObj requests')).
Proof.
  unfold resolve_evidence_request. cbv zeta. intros H. apply bind_ok_inv in H as (refs & _ & H). destruct (_ || _) eqn:Hb in H; [done|].
  apply orb_false_iff in Hb as [[_ Hn%negb_false_iff]%orb_false_iff Hr%bool_decide_eq_false].
  apply bind_ok_inv in H as (requests & Hm & H). apply bind_ok_inv in H as ([found requests'] & Hres & H). destruct (negb found); [done|].
  injection H as <-. do 6 eexists. split_and!; [|exact Hn|exact Hr| |exact Hm|exact Hres|done].
  - apply text_of_idemp.
  - apply Forall_forall. intros s Hs. by apply filter_elem in Hs as [_ Hs].
Qed.

Lemma running_owner reviewer s : running reviewer s = true <-> has_status "running" s = true /\ session_owner s = casefold reviewer.
Proof. unfold running, session_owner, said. rewrite andb_true_iff, String.eqb_eq. done. Qed.

Lemma start_inv reviewer role now ledger ledger' sessions : human reviewer -> mappings (dget ledger "review_sessions") = Ok sessions ->
  start_session reviewer role now ledger = Ok ledger' ->
  exists entry, ledger' = dset ledger "review_sessions" (JArr (map JObj (sessions ++ [entry]))) /\ has_status "running" entry = true /\
    session_owner entry = casefold reviewer /\ casefold reviewer ∉ running_owners sessions.
Proof.
  intros Hh Hm H. unfold start_session in H. rewrite Hm in H. cbn [mbind res_bind] in H. destruct (existsb _ sessions) eqn:He; [done|].
  apply bind_ok_inv in H as (id & _ & [= <-]). eexists. split; [reflexivity|]. split; [reflexivity|]. split.
  - unfold session_owner. erewrite said_str by reflexivity. by rewrite (proj1 Hh).
  - intros (s & Hs & [Hin Hrun]%filter_elem)%list_elem_of_fmap. apply not_true_iff_false in He. apply He, existsb_exists.
    exists s. split; [by apply list_elem_of_In|]. by apply running_owner.
Qed.

Lemma last_running_inv reviewer sessions before s after : last_running reviewer sessions = Some (before, s, after) ->
  sessions = before ++ s :: after /\ running reviewer s = true.
Proof.
  revert before. induction sessions as [|x sessions IH]; intros before H; cbn [last_running] in H; [done|].
  destruct (last_running reviewer sessions) as [[[b f] a]|] eqn:Hl.
  - injection H as <- <- <-. destruct (IH b eq_refl) as [-> ?]. done.
  - destruct (running reviewer x) eqn:Hr; [|done]. by injection H as <- <- <-.
Qed.

Lemma stop_inv reviewer now local_to_utc ledger ledger' sessions : mappings (dget ledger "review_sessions") = Ok sessions ->
  stop_session reviewer now local_to_utc ledger = Ok ledger' ->
  exists before s after n, sessions = before ++ s :: after /\ running reviewer s = true /\ 0 <= n /\
    ledger' = dset ledger "review_sessions" (JArr (map JObj (before ++ completed now n s :: after))).
Proof.
  intros Hm H. unfold stop_session in H. rewrite Hm in H. cbn [mbind res_bind] in H.
  destruct (last_running reviewer sessions) as [[[before s] after]|] eqn:Hl; [|done]. apply bind_ok_inv in H as (started & _ & H).
  apply bind_ok_inv in H as (n & _ & [= <-]). apply last_running_inv in Hl as [-> Hr]. exists before, s, after, (Z.max 0 n).
  split_and!; [done|done|lia|done].
Qed.

Lemma running_owners_app a b : running_owners (a ++ b) = running_owners a ++ running_owners b.
Proof. unfold running_owners. by rewrite List.filter_app, map_app. Qed.

Lemma completed_ok now n s : 0 <= n -> session_ok (completed now n s) /\ has_status "running" (completed now n s) = false.
Proof.
  intros Hn. unfold session_ok, has_status, completed. updated. rewrite text_of_str. split; [right|done]. split; [done|]. by exists n.
Qed.

(** ** Lemmas: the invariant *)

Lemma sound_more events e candidates expected ledger :
  sound events candidates expected ledger -> sound (events ++ [e]) candidates expected ledger.
Proof.
  intros []. split; try done; (eapply List.Forall_impl; [|eassumption]); intros; cbv beta in *;
    [by apply decided_more|by apply checked_more|by apply request_more].
Qed.

(** One field is set. *)
Lemma sound_set events candidates expected ledger k v : sound events candidates expected ledger -> k ∉ fixed_fields ->
  (k ∈ dict_fields -> v = JObj (as_dict v)) -> (k ∈ list_fields -> exists l, v = JArr (map JObj l)) ->
  (k ∈ keyed_fields -> NoDup (keys (as_dict v))) ->
  (k = "dispositions" -> Forall (fun m => decided candidates events (fst m) (snd m)) (as_dict v)) ->
  (k = "quality_control" -> Forall (fun m => checked candidates events (fst m) (snd m)) (as_dict v)) ->
  (k = "evidence_requests" -> forall l, v = JArr (map JObj l) -> Forall (request_ok events) l) ->
  (k = "review_sessions" -> forall l, v = JArr (map JObj l) -> Forall session_ok l /\ NoDup (running_owners l)) ->
  sound events candidates expected (dset ledger k v).
Proof.
  intros S Hk Hd Hl H0 H1 H2 H3 H4.
  assert (forall f, f <> k -> member (dset ledger k v) f = member ledger f) as Hm by (intros f ?; by apply member_dset_ne).
  assert (forall f, f <> k -> entries (dset ledger k v) f = entries ledger f) as He by (intros f ?; by apply entries_dset_ne).
  assert (forall l, v = JArr (map JObj l) -> entries (dset ledger k v) k = l) as Hv by (intros l ->; apply entries_dset_eq).
  assert (member (dset ledger k v) k = as_dict v) as Hw by (unfold member; by rewrite dget_dset_eq).
  split.
  - intros f Hf. rewrite dget_dset_ne by (intros ->; done). by apply (so_fixed _ _ _ _ S).
  - intros f Hf. destruct (decide (f = k)) as [->|Hne]; [rewrite dget_dset_eq, Hw; auto|].
    rewrite dget_dset_ne, Hm by done. by apply (so_dicts _ _ _ _ S).
  - intros f Hf. destruct (decide (f = k)) as [->|Hne]; [destruct (Hl Hf) as [l Hx]; by rewrite dget_dset_eq, (Hv l Hx)|].
    rewrite dget_dset_ne, He by done. by apply (so_lists _ _ _ _ S).
  - intros f Hf. destruct (decide (f = k)) as [->|Hne]; [rewrite Hw; auto|]. rewrite Hm by done. by apply (so_keys _ _ _ _ S).
  - destruct (decide (k = "dispositions")) as [->|Hne]; [rewrite Hw; auto|]. rewrite Hm by done. apply S.
  - destruct (decide (k = "quality_control")) as [->|Hne]; [rewrite Hw; auto|]. rewrite Hm by done. apply S.
  - destruct (decide (k = "evidence_requests")) as [->|Hne]; [|rewrite He by done; apply S].
    destruct (Hl ltac:(by left)) as [l Hx]. rewrite (Hv l Hx). auto.
  - destruct (decide (k = "review_sessions")) as [->|Hne]; [|rewrite He by done; apply S].
    destruct (Hl ltac:(by right; right; left)) as [l Hx]. rewrite (Hv l Hx). by apply (H4 eq_refl).
  - destruct (decide (k = "review_sessions")) as [->|Hne]; [|rewrite He by done; apply S].
    destruct (Hl ltac:(by right; right; left)) as [l Hx]. rewrite (Hv l Hx). by apply (H4 eq_refl).
Qed.

Lemma objs_inj (a b : list dict) : JArr (map JObj a) = JArr (map JObj b) -> a = b.
Proof. intros [= H]. rewrite <- (objs_dicts a), <- (objs_dicts b). by rewrite H. Qed.

(** A concrete field. *)
Ltac sound_field := apply sound_set;
  [try done|concrete
  |let H := fresh in intros H; first [reflexivity|exfalso; revert H; concrete]
  |let H := fresh in intros H; first [by eexists|exfalso; revert H; concrete]
  |let H := fresh in try (intros H; exfalso; revert H; concrete)|try done..].

Section Step.
Context (candidates payload : dict) (reviewer role : string) (now : datetime) (local_to_utc : datetime -> datetime).
Context (events : list dict) (expected ledger : dict).
Hypothesis Hh : human reviewer.
Hypothesis S : sound events candidates expected ledger.

Lemma sound_dict k : k ∈ dict_fields -> dict_member ledger k = Ok (member ledger k).
Proof. intros Hk. apply dict_member_obj, S, Hk. Qed.
Lemma sound_list k : k ∈ list_fields -> mappings (dget ledger k) = Ok (entries ledger k).
Proof. intros Hk. rewrite (so_lists _ _ _ _ S) by done. apply mappings_objs. Qed.

(** The audit event of an action says this. *)
Definition recording (action : string) (audit : dict) : Prop :=
  forall actions (P : dict -> Prop), action ∈ actions -> P (dmerge (dremove "operator_token" payload) audit) ->
    recorded events actions (JStr reviewer) (JStr (_iso now)) P.

(** A check of a decision is put in. *)
Lemma check_sound id d entry : dget (member ledger "dispositions") id = JObj d ->
  casefold (said d "reviewer") <> casefold reviewer -> said entry "qc_outcome" ∈ _QC_OUTCOMES -> truthy (said entry "qc_note") = true ->
  dget entry "reviewer" = JStr reviewer -> dget entry "reviewed_at" = JStr (_iso now) ->
  dget entry "reviewed_disposition_sha256" = JStr (_canonical_hash (JObj d)) ->
  recorded events ["quality_control"] (JStr reviewer) (JStr (_iso now)) (fun p => dget p "reviewed_disposition" = JObj d) ->
  sound events candidates expected (dset ledger "quality_control" (JObj (dset (member ledger "quality_control") id (JObj entry)))).
Proof.
  intros Hl Hne Ho Hn Hrv Hat Hsha Hrec. sound_field; [intros _; apply NoDup_dset, S; concrete|]. intros _. cbn [as_dict]. apply (Forall_dset (checked candidates events)); [apply S|].
  exists entry, d. assert (said entry "reviewer" = reviewer) as Hs by (rewrite (said_str _ _ _ Hrv); apply Hh).
  rewrite Hs, Hrv, Hat, Hsha. split_and!; try done. rewrite <- Hl. apply Forall_dget; [apply S|by rewrite Hl].
Qed.

Lemma quality_sound ledger' audit : quality_control candidates payload reviewer role now ledger = Ok (ledger', audit) ->
  recording "quality_control" audit -> sound events candidates expected ledger' /\ dget ledger' "audit_events" = dget ledger "audit_events".
Proof.
  intros Hq Hrec. apply quality_inv in Hq as (id & d & ds & qc & entry & Hds & Hl & Hne & Hqc & -> & -> & Ho & Hn & Hrv & Hat & Hsha).
  rewrite sound_dict in Hqc by concrete. injection Hqc as <-.
  rewrite (so_dicts _ _ _ _ S "dispositions") in Hds by concrete.
  assert (as_mapping (jor (JObj (member ledger "dispositions")) (JObj [])) = Ok (member ledger "dispositions")) as Hx
    by (by destruct (member ledger "dispositions")).
  rewrite Hx in Hds. injection Hds as <-. split; [|by rewrite dget_dset_ne]. eapply check_sound; try done.
  apply Hrec; [by left|]. by updated.
Qed.

Lemma resolve_sound ledger' : resolve_evidence_request payload reviewer now ledger = Ok ledger' ->
  recording "resolve_evidence_request" [] -> sound events candidates expected ledger' /\ dget ledger' "audit_events" = dget ledger "audit_events".
Proof.
  intros Hres Hrec. apply resolve_inv in Hres as (rid & note & refs & rs & found & rs' & Hn & Htn & Hrn & Hrt & Hm & Hres & ->).
  rewrite sound_list in Hm by (concrete). injection Hm as <-.
  split; [|by rewrite dget_dset_ne]. sound_field. intros _ l <-%objs_inj. eapply resolve_ok; try done; [|apply S]. apply Hrec; [by left|done].
Qed.

Lemma start_sound ledger' : start_session reviewer role now ledger = Ok ledger' ->
  sound events candidates expected ledger' /\ dget ledger' "audit_events" = dget ledger "audit_events".
Proof.
  intros Hst. eapply start_inv in Hst as (entry & -> & Hrun & Hown & Hnew); [|done|apply sound_list; concrete].
  split; [|by rewrite dget_dset_ne]. sound_field. intros _ l <-%objs_inj. split.
  - apply Forall_app. split; [apply S|]. apply Forall_singleton. by left.
  - rewrite running_owners_app. unfold running_owners at 2. cbn [List.filter]. rewrite Hrun. cbn [map]. rewrite Hown.
    apply NoDup_app. split_and!; [apply S|intros x Hx ->%list_elem_of_singleton; done|apply NoDup_singleton].
Qed.

Lemma stop_sound ledger' : stop_session reviewer now local_to_utc ledger = Ok ledger' ->
  sound events candidates expected ledger' /\ dget ledger' "audit_events" = dget ledger "audit_events".
Proof.
  intros Hst. eapply stop_inv in Hst as (before & s & after & n & Hs & Hrun & Hn & ->); [|apply sound_list; concrete].
  pose proof (so_sessions _ _ _ _ S) as Hok. pose proof (so_one_session _ _ _ _ S) as Hone. rewrite Hs in Hok, Hone.
  destruct (completed_ok now n s Hn) as [Hc1 Hc2]. apply Forall_app in Hok as [Hb [_ Haf]%Forall_cons].
  split; [|by rewrite dget_dset_ne]. sound_field. intros _ l <-%objs_inj. split; [apply Forall_app; split; [done|by constructor]|].
  revert Hone. change (s :: after) with ([s] ++ after). change (completed now n s :: after) with ([completed now n s] ++ after).
  rewrite !running_owners_app. assert (running_owners [completed now n s] = []) as -> by (unfold running_owners; cbn [List.filter]; by rewrite Hc2).
  intros (H1 & H2 & (_ & _ & H3)%NoDup_app)%NoDup_app. apply NoDup_app. split_and!; [done| |done].
  intros x Hx Hy. apply (H2 x Hx). apply elem_of_app. by right.
Qed.

Lemma acted_sound action ledger' audit : acted candidates payload reviewer role now local_to_utc ledger action ledger' audit ->
  recording action audit -> sound events candidates expected ledger' /\ dget ledger' "audit_events" = dget ledger "audit_events".
Proof.
  intros A Hrec.
  destruct A as [v|action source cl group targets d d' Hin Hd Hts Hdis|ledger' audit Hq|requests entry Hm Hopen|ledger' Hres|l|ledger' Hst|ledger' Hst|v].
  - split; [sound_field|by rewrite dget_dset_ne].
  - rewrite sound_dict in Hd by (concrete). injection Hd as <-.
    split; [|by rewrite dget_dset_ne]. sound_field; [intros _; eapply dispose_nodup; [exact Hdis|apply S; concrete]|].
    intros _. cbn [as_dict]. eapply dispose_decided; [done|done| |done|apply S]. by apply Hrec.
  - by eapply quality_sound.
  - rewrite sound_list in Hm by (concrete). injection Hm as <-.
    split; [|by rewrite dget_dset_ne]. sound_field. intros _ l <-%objs_inj. apply Forall_app. split; [apply S|].
    apply Forall_singleton. by left.
  - by apply resolve_sound.
  - split; [sound_field|by rewrite dget_dset_ne].
  - by apply start_sound.
  - by apply stop_sound.
  - split; [sound_field|by rewrite dget_dset_ne].
Qed.
End Step.

(** ** Lemmas: one action *)

Definition closing (ledger : dict) (events : list dict) (now : datetime) : dict :=
  dset (dset (dset (dset ledger "audit_events" (JArr (map JObj events))) "updated_at" (JStr (_iso now)))
    "human_review_required" (JBool true)) "client_delivery_allowed" (JBool false).

Lemma apply_inv local_to_utc record payload now ledger' :
  apply_review_work_action local_to_utc record payload now = Ok ledger' ->
  exists reviewer role action register candidates clusters l0 l1 l2 audit events,
    _require_human payload = Ok (reviewer, role) /\ canonical_candidate_register record = Ok register /\
    _catalog register = Ok (candidates, clusters) /\ ledger_for_record record (Some register) = Ok l0 /\
    _reviewer_identity l0 reviewer role now = Ok l1 /\
    acted candidates payload reviewer role now local_to_utc l1 action l2 audit /\ mappings (dget l2 "audit_events") = Ok events /\
    ledger' = closing l2 (events ++ [event action reviewer role (dmerge (dremove "operator_token" payload) audit) now events]) now.
Proof.
  unfold apply_review_work_action. cbv zeta. intros H. apply bind_ok_inv in H as (? & _ & H).
  apply bind_ok_inv in H as ([reviewer role] & Hh & H). apply bind_ok_inv in H as (? & _ & H).
  apply bind_ok_inv in H as (register & Hr & H). apply bind_ok_inv in H as ([candidates clusters] & Hc & H).
  apply bind_ok_inv in H as (l0 & H0 & H). apply bind_ok_inv in H as (l1 & H1 & H). apply bind_ok_inv in H as ([l2 audit] & H2 & H).
  apply bind_ok_inv in H as (l3 & H3 & [= <-]). eapply act_inv in H2; [|done]. unfold _append_event in H3.
  apply bind_ok_inv in H3 as (events & He & [= <-]). do 11 eexists. split_and!; try done.
Qed.

(** The members of [event], whatever the payload is. *)
Lemma event_fields action reviewer role payload now events : let e := event action reviewer role payload now events in
  dget e "sequence" = JInt (Z.of_nat (length events) + 1) /\ dget e "action" = JStr action /\ dget e "reviewer" = JStr reviewer /\
  dget e "recorded_at" = JStr (_iso now) /\ dget e "previous_event_sha256" = JStr (last_hash events) /\ dget e "payload" = JObj payload /\
  seal_holds "event_sha256" e = true.
Proof. cbv zeta. split_and!; try reflexivity. unfold event. apply sealed_holds. cbn. set_solver. Qed.

(** The event is appended and the flags are set. *)
Lemma closing_sound events candidates expected ledger all now : sound events candidates expected ledger ->
  sound events candidates expected (closing ledger all now) /\ entries (closing ledger all now) "audit_events" = all.
Proof. intros S. unfold closing. split; [|by read]. do 4 sound_field. Qed.

(** What one action makes of a ledger: one more event, by the reviewer who
    authorised it and at its time, and soundness. *)
Definition stepped (candidates expected ledger ledger' payload : dict) (now : datetime) : Prop :=
  exists e reviewer role, _require_human payload = Ok (reviewer, role) /\ dget e "reviewer" = JStr reviewer /\
    dget e "recorded_at" = JStr (_iso now) /\ entries ledger' "audit_events" = entries ledger "audit_events" ++ [e] /\
    chained (entries ledger' "audit_events") /\ sound (entries ledger' "audit_events") candidates expected ledger'.

Lemma step_sound record register candidates clusters expected l0 ledger' local_to_utc payload now :
  apply_review_work_action local_to_utc record payload now = Ok ledger' -> canonical_candidate_register record = Ok register ->
  _catalog register = Ok (candidates, clusters) -> ledger_for_record record (Some register) = Ok l0 ->
  sound (entries l0 "audit_events") candidates expected l0 -> chained (entries l0 "audit_events") ->
  stepped candidates expected l0 ledger' payload now.
Proof.
  intros H Hr Hc H0 S C. apply apply_inv in H as (reviewer & role & action & rg & cs & cl & l0' & l1 & l2 & audit & events & Hh & Hr' & Hc' & H0' & H1 & A & He & ->).
  rewrite Hr in Hr'. injection Hr' as <-. rewrite Hc in Hc'. injection Hc' as <- <-. rewrite H0 in H0'. injection H0' as <-.
  apply require_human_inv in Hh as Hhr. destruct Hhr as (Hhr & _).
  unfold _reviewer_identity in H1. apply bind_ok_inv in H1 as (ids & _ & [= <-]).
  set (events0 := entries l0 "audit_events") in *.
  set (e := event action reviewer role (dmerge (dremove "operator_token" payload) audit) now events0).
  destruct (event_fields action reviewer role (dmerge (dremove "operator_token" payload) audit) now events0) as (_ & E2 & E3 & E4 & _ & E6 & _).
  assert (dget l0 "audit_events" = JArr (map JObj events0)) as Ha by (apply (so_lists _ _ _ _ S); concrete).
  eapply (acted_sound _ _ _ _ _ _ (events0 ++ [e]) expected) in A as [S2 Ha2]; [|done|sound_field; by apply sound_more|].
  2:{ intros actions P Hin HP. exists e. fold e in E2, E3, E4, E6. rewrite E2, E3, E4, E6.
      split_and!; [apply elem_of_app; right; by left|by exists action|done|done|done]. }
  rewrite dget_dset_ne, Ha in Ha2 by done. rewrite Ha2, mappings_objs in He. injection He as <-.
  fold e. destruct (closing_sound _ _ _ _ (events0 ++ [e]) now S2) as [S3 Hx].
  exists e, reviewer, role. rewrite Hx. split_and!; [done|done|done|done|by constructor|exact S3].
Qed.

(** Soundness is about these fields only. *)
Lemma sound_ext events candidates expected ledger ledger' :
  (forall k, k ∈ fixed_fields ++ dict_fields ++ list_fields -> dget ledger' k = dget ledger k) ->
  sound events candidates expected ledger ->
  sound events candidates expected ledger' /\ entries ledger' "audit_events" = entries ledger "audit_events".
Proof.
  intros H S. assert (forall k, k ∈ dict_fields -> member ledger' k = member ledger k) as Hm
    by (intros k Hk; unfold member; rewrite H; [done|rewrite !elem_of_app; tauto]).
  assert (forall k, k ∈ list_fields -> entries ledger' k = entries ledger k) as He
    by (intros k Hk; unfold entries; rewrite H; [done|rewrite !elem_of_app; tauto]).
  split; [|apply He; concrete]. split.
  - intros f Hf. rewrite H by (rewrite !elem_of_app; tauto). by apply (so_fixed _ _ _ _ S).
  - intros k Hk. rewrite H, Hm by (try done; rewrite !elem_of_app; tauto). by apply (so_dicts _ _ _ _ S).
  - intros k Hk. rewrite H, He by (try done; rewrite !elem_of_app; tauto). by apply (so_lists _ _ _ _ S).
  - intros k Hk. rewrite Hm by (revert k Hk; apply (Forall_forall (fun k => k ∈ dict_fields)); concrete). by apply (so_keys _ _ _ _ S).
  - rewrite Hm by concrete. apply S.
  - rewrite Hm by concrete. apply S.
  - rewrite He by concrete. apply S.
  - rewrite He by concrete. apply S.
  - rewrite He by concrete. apply S.
Qed.

Lemma fresh_sound candidates clusters expected : fresh candidates clusters expected ->
  entries expected "audit_events" = [] /\ sound [] candidates expected expected.
Proof.
  intros F. assert (forall k, dget expected k = JArr [] -> entries expected k = []) as He by (intros k Hk; unfold entries; by rewrite Hk).
  assert (forall k, dget expected k = JObj [] -> member expected k = []) as Hm by (intros k Hk; unfold member; by rewrite Hk).
  destruct F as [_ _ _ _ _ _ Fi Fa Fd Fq Fr Fs Fss Fe (d & Fst & _)]. split; [auto|]. split.
  - done.
  - intros k Hk. unfold dict_fields in Hk. rewrite !elem_of_cons, elem_of_nil in Hk. unfold member.
    destruct Hk as [->|[->|[->|[->|[->|[]]]]]]; by rewrite ?Fi, ?Fa, ?Fd, ?Fq, ?Fst.
  - intros k Hk. unfold list_fields in Hk. rewrite !elem_of_cons, elem_of_nil in Hk. unfold entries.
    destruct Hk as [->|[->|[->|[->|[]]]]]; by rewrite ?Fr, ?Fs, ?Fss, ?Fe.
  - intros k Hk. unfold keyed_fields in Hk. rewrite !elem_of_cons, elem_of_nil in Hk.
    destruct Hk as [->|[->|[]]]; rewrite Hm by done; apply NoDup_nil_2.
  - rewrite Hm by done. constructor.
  - rewrite Hm by done. constructor.
  - rewrite He by done. constructor.
  - rewrite He by done. constructor.
  - rewrite He by done. constructor.
Qed.

(** ** Lemmas: the chain *)

(** One event among those before it. *)
Definition linked (before : list dict) (e : dict) : Prop :=
  dget e "sequence" = JInt (Z.of_nat (length before) + 1) /\ dget e "previous_event_sha256" = JStr (last_hash before) /\
  seal_holds "event_sha256" e = true.

Lemma chain_linked events : chained events -> forall before e after, events = before ++ e :: after -> linked before e.
Proof.
  induction 1 as [|events action reviewer role payload now _ IH]; intros before e after H; [by destruct before|].
  destruct after as [|z rest _] using rev_ind.
  - apply app_inj_tail in H as [-> <-]. destruct (event_fields action reviewer role payload now before) as (H1 & _ & _ & _ & H2 & _ & H3). done.
  - rewrite app_comm_cons, app_assoc in H. apply app_inj_tail in H as [-> _]. by eapply IH.
Qed.

(** Two events with the same content, up to the order of keys. *)
Definition same_event (a b : dict) : Prop :=
  sort_json (JObj (dremove "event_sha256" a)) = sort_json (JObj (dremove "event_sha256" b)) /\ dget a "event_sha256" = dget b "event_sha256".

(** What the digest of an event is computed of. *)
Definition event_text (e : dict) : string := utf8_encode (dumps compact_unicode (JObj (dremove "event_sha256" e))).
Definition wf_event (e : dict) : Prop := json_wf (JObj e) = true.

Lemma event_digest action reviewer role payload now events : let e := event action reviewer role payload now events in
  exists h, dget e "event_sha256" = JStr h /\ strip h = h /\ dget_str e "event_sha256" = h /\ h <> "".
Proof.
  cbv zeta. eexists. split; [reflexivity|]. split; [apply strip_no_space, sha256_hex_no_space|]. split; [by apply dget_str_of|].
  apply truthy_spec, sha256_hex_truthy.
Qed.

Lemma last_snoc_hash events e h : dget e "event_sha256" = JStr h -> strip h = h -> last_hash (events ++ [e]) = h.
Proof. intros He Hh. unfold last_hash. rewrite last_snoc, He. by rewrite text_of_str. Qed.

Lemma previous_same a b : wf_event a -> wf_event b -> same_event a b ->
  dget a "previous_event_sha256" = dget b "previous_event_sha256" \/
  ~ (exists s, dget a "previous_event_sha256" = JStr s) \/ ~ (exists s, dget b "previous_event_sha256" = JStr s).
Proof.
  intros Ha%(dremove_wf "event_sha256") Hb%(dremove_wf "event_sha256") [H _].
  assert (forall d : dict, dget (dremove "event_sha256" d) "previous_event_sha256" = dget d "previous_event_sha256") as Hd by (intros d; by apply dget_dremove_ne).
  assert (dget (sorted_dict (dremove "event_sha256" a)) "previous_event_sha256" = dget (sorted_dict (dremove "event_sha256" b)) "previous_event_sha256") as Hs
    by (unfold sorted_dict; by rewrite H).
  rewrite !dget_sorted, !Hd in Hs by (by apply keys_nodup).
  destruct (dget a "previous_event_sha256") as [| | | |s| |], (dget b "previous_event_sha256") as [| | | |s'| |];
    first [left; exact Hs|right; left; by intros [? ?]|right; right; by intros [? ?]].
Qed.

Lemma chains_agree a b : chained a -> chained b -> Forall wf_event a -> Forall wf_event b -> last_hash a = last_hash b ->
  Forall2 same_event a b \/ exists x y, x ∈ a /\ y ∈ b /\ collision (event_text x) (event_text y).
Proof.
  intros Ca. revert b. induction Ca as [|a action reviewer role payload now _ IH]; intros b Cb Wa Wb Hh.
  { destruct Cb as [|b action' reviewer' role' payload' now' Cb]; [by left; constructor|].
    destruct (event_digest action' reviewer' role' payload' now' b) as (h2 & D2 & N2 & _ & T2).
    by rewrite (last_snoc_hash _ _ _ D2 N2) in Hh. }
  destruct (event_digest action reviewer role payload now a) as (h1 & D1 & N1 & G1 & T1).
  destruct Cb as [|b action' reviewer' role' payload' now' Cb]; [by rewrite (last_snoc_hash _ _ _ D1 N1) in Hh|].
  destruct (event_fields action reviewer role payload now a) as (_ & _ & _ & _ & P1 & _ & S1).
  destruct (event_fields action' reviewer' role' payload' now' b) as (_ & _ & _ & _ & P2 & _ & S2).
  destruct (event_digest action' reviewer' role' payload' now' b) as (h2 & D2 & N2 & G2 & _).
  rewrite (last_snoc_hash _ _ _ D1 N1), (last_snoc_hash _ _ _ D2 N2) in Hh.
  apply Forall_app in Wa as [Wa [Wx _]%Forall_cons], Wb as [Wb [Wy _]%Forall_cons].
  destruct (seal_binds "event_sha256" _ _ Wx Wy S1 S2) as [Hs|Hc]; [congruence| |].
  - assert (same_event (event action reviewer role payload now a) (event action' reviewer' role' payload' now' b)) as He by (split; [done|congruence]).
    destruct (previous_same _ _ Wx Wy He) as [Hp|[Hn|Hn]]; [|exfalso; apply Hn; by eexists..].
    rewrite P1, P2 in Hp. injection Hp as Hp. destruct (IH b Cb Wa Wb Hp) as [Hf|(x & y & Hx & Hy & Hc)].
    + left. apply Forall2_app; [done|]. by constructor.
    + right. exists x, y. split_and!; [apply elem_of_app; by left|apply elem_of_app; by left|done].
  - right. do 2 eexists. split_and!; [apply elem_of_app; right; by left|apply elem_of_app; right; by left|exact Hc].
Qed.

(** ** Lemmas: quality control *)

Definition clears (q : dict) (disposition : json) : Prop :=
  is_terminal_disposition disposition = true /\ casefold (said q "qc_outcome") = "agree" /\
  dget q "independent_reviewer_verified" = JBool true /\ truthy (casefold (said q "reviewer")) = true /\
  truthy (casefold (said (as_dict disposition) "reviewer")) = true /\
  casefold (said q "reviewer") <> casefold (said (as_dict disposition) "reviewer") /\
  said q "reviewed_disposition_sha256" = _canonical_hash disposition.

Lemma cleared qc disposition : quality_control_blocker qc disposition = "" <-> exists q, qc = JObj q /\ clears q disposition.
Proof.
  unfold quality_control_blocker, clears, said. split.
  - destruct qc as [| | | | | |q]; try done. destruct (is_terminal_disposition disposition); [|done]. cbn [negb].
    destruct (String.eqb_spec (casefold (text_of (dget q "qc_outcome"))) "agree"); [|done]. cbn [negb]. cbv zeta.
    destruct (_ || _) eqn:Hb; [done|]. apply orb_false_iff in Hb as [[[H1 H2]%orb_false_iff H3]%orb_false_iff H4%String.eqb_neq].
    apply negb_false_iff in H1, H2, H3. destruct (truthy (text_of (dget q "reviewed_disposition_sha256"))); [|done]. cbn [negb].
    destruct (String.eqb_spec (text_of (dget q "reviewed_disposition_sha256")) (_canonical_hash disposition)); [|done]. intros _. exists q.
    split_and!; try done. by destruct (dget q "independent_reviewer_verified") as [|[]| | | | |].
  - intros (q & -> & -> & -> & -> & H1 & H2 & H3 & H4). cbn [negb is_true orb String.eqb]. cbv zeta.
    rewrite H1, H2, (proj2 (String.eqb_neq _ _) H3), H4. cbn [negb orb]. rewrite (sha256_hex_truthy _ : truthy (_canonical_hash disposition) = true).
    by rewrite String.eqb_refl.
Qed.

