(* ===== verification/ReviewWorks.v ===== *)
(** * The review of a run

    [works] are the ledgers that requests of reviewers lead to, through all
    phases: the service's handling of runs without candidates, the exception
    queue, the samples and the first phase.  They keep the identity of the run
    and its candidates, so they load again; their audit events are a chain; every
    decision in them is a person's; and what may be approved was reviewed. *)

From S2P Require Import Prelude PyStr Sha256 PyFloat Json JsonFacts PyTime Orchestration AcceptedEdition HumanEvidence ReviewDecision RunRecord ReviewWork ReviewSampling ReviewQueue ReviewService ReviewWorkFacts ReviewLedger.

(** ** Lemmas: the second phase *)

(** What the second phase adds to a ledger. *)
Definition added_fields : list string := ["review_source_sha256"; "scope_binding"; "quality_control_sampling"].
Definition agrees (ledger ledger' : dict) : Prop := forall k, k ∉ added_fields -> dget ledger' k = dget ledger k.
Record bound_to (record ledger : dict) : Prop := {
  bo_source : exists fp, Phase2._source_fingerprint record = Ok fp /\ dget ledger "review_source_sha256" = JStr fp;
  bo_scope : dget ledger "scope_binding" = JObj (Phase2._scope_binding record);
  bo_sampling : is_mapping (dget ledger "quality_control_sampling") = true }.

Lemma agrees_set ledger ledger' k v : k ∈ added_fields -> agrees ledger ledger' -> agrees ledger (dset ledger' k v).
Proof. intros Hk H k' Hk'. rewrite dget_dset_ne by (intros ->; done). by apply H. Qed.

Lemma agrees_sound events candidates expected ledger ledger' : agrees ledger ledger' -> sound events candidates expected ledger ->
  sound events candidates expected ledger' /\ entries ledger' "audit_events" = entries ledger "audit_events".
Proof.
  intros H. apply sound_ext. intros k Hk. apply H. intros Hx.
  assert (Forall (fun k => k ∉ fixed_fields ++ dict_fields ++ list_fields) added_fields) as HF by concrete.
  rewrite Forall_forall in HF. by apply (HF k).
Qed.

Lemma with_sampling_inv record ledger ledger' : Phase2.with_sampling record ledger = Ok ledger' ->
  agrees ledger ledger' /\ is_mapping (dget ledger' "quality_control_sampling") = true /\
  (forall k, k <> "quality_control_sampling" -> dget ledger' k = dget ledger k).
Proof.
  unfold Phase2.with_sampling. destruct (is_mapping (dget ledger "quality_control_sampling")) eqn:Hm.
  - intros [= <-]. done.
  - intros H. apply bind_ok_inv in H as (config & _ & [= <-]). split_and!; [apply agrees_set; [concrete|done]|by rewrite dget_dset_eq|].
    intros k Hk. by rewrite dget_dset_ne.
Qed.

(** Source and scope are written, and a sample is chosen. *)
Lemma binding_inv record ledger ledger' fp : Phase2._source_fingerprint record = Ok fp ->
  Phase2.with_sampling record (dset (dset ledger "review_source_sha256" (JStr fp)) "scope_binding" (JObj (Phase2._scope_binding record))) = Ok ledger' ->
  agrees ledger ledger' /\ bound_to record ledger'.
Proof.
  intros Hfp H. apply with_sampling_inv in H as (Ha & Hm & He). split.
  - intros k Hk. rewrite Ha by done. rewrite !dget_dset_ne by (intros ->; apply Hk; unfold added_fields; set_solver). done.
  - split; [exists fp; split; [done|]|..]; rewrite ?He by done; [by rewrite dget_dset_ne, dget_dset_eq|by rewrite dget_dset_eq|done].
Qed.

Lemma prepare_inv record ledger' : Phase2._prepare_ledger record = Ok ledger' ->
  exists ledger, ReviewWork.ledger_for_record record None = Ok ledger /\ agrees ledger ledger' /\ bound_to record ledger'.
Proof.
  unfold Phase2._prepare_ledger. intros H. apply bind_ok_inv in H as (ledger & Hl & H). apply bind_ok_inv in H as (fp & Hfp & H). cbv zeta in H.
  destruct (_ && _) in H; [done|]. destruct (_ && _) in H; [done|]. exists ledger. split; [done|]. by eapply binding_inv.
Qed.

Lemma append_inv ledger events action reviewer role payload now ledger' : dget ledger "audit_events" = JArr (map JObj events) ->
  Phase2._append_event ledger action reviewer role payload now = Ok ledger' ->
  ledger' = closing ledger (events ++ [event action reviewer role (dremove "operator_token" payload) now events]) now.
Proof.
  unfold Phase2._append_event, ReviewWork._append_event. intros -> H. rewrite mappings_objs in H. cbn [mbind res_bind] in H. by injection H as <-.
Qed.

(** The record of a prepared ledger, for the first phase. *)
Lemma prepared_frame record ledger : canonical_candidate_register (Phase2._record_with_ledger record ledger) = canonical_candidate_register record /\
  (forall register, _empty_ledger (Phase2._record_with_ledger record ledger) register = _empty_ledger record register) /\
  dget (Phase2._record_with_ledger record ledger) "review_work_ledger" = JObj ledger.
Proof.
  unfold Phase2._record_with_ledger, canonical_candidate_register, _empty_ledger, _identity. rewrite dget_dset_eq, !dget_dset_ne by done. done.
Qed.

Lemma sound_identities events candidates expected ledger v : sound events candidates expected ledger ->
  sound events candidates expected (dset ledger "reviewer_identities" (JObj v)).
Proof. intros S. sound_field. Qed.

Section Step.
Context (candidates expected ledger payload : dict) (now : datetime).
Hypothesis S : sound (entries ledger "audit_events") candidates expected ledger.
Hypothesis Ch : chained (entries ledger "audit_events").

(** The identity is recorded and the event appended to what [changed] says. *)
Lemma recorded_step changed action reviewer role body ledger' :
  let events := entries ledger "audit_events" in
  _require_human payload = Ok (reviewer, role) -> dget changed "audit_events" = dget ledger "audit_events" ->
  sound (events ++ [event action reviewer role (dremove "operator_token" body) now events]) candidates expected changed ->
  (l ← Phase2._record_reviewer_identity changed reviewer role now; Phase2._append_event l action reviewer role body now) = Ok ledger' ->
  stepped candidates expected ledger ledger' payload now /\ forall k, k ∈ added_fields -> dget ledger' k = dget changed k.
Proof.
  intros events Hh He Hs H. apply bind_ok_inv in H as (l & Hl & H). unfold Phase2._record_reviewer_identity, _reviewer_identity in Hl.
  apply bind_ok_inv in Hl as (ids & _ & [= <-]).
  pose proof (so_lists _ _ _ _ S "audit_events" ltac:(concrete)) as Hev. rewrite <- He in Hev.
  eapply append_inv in H as ->; [|rewrite dget_dset_ne by done; exact Hev]. fold events.
  set (e := event action reviewer role (dremove "operator_token" body) now events) in *.
  destruct (event_fields action reviewer role (dremove "operator_token" body) now events) as (_ & _ & E3 & E4 & _). fold e in E3, E4.
  split.
  - match goal with |- context [closing ?l ?a now] =>
      destruct (closing_sound (events ++ [e]) candidates expected l a now) as [S3 Hx]; [by apply sound_identities|] end.
    exists e, reviewer, role. rewrite Hx. split_and!; [done..|by constructor|exact S3].
  - intros k Hk. unfold closing. rewrite !dget_dset_ne; [done|..]; intros ->; revert Hk; concrete.
Qed.

Lemma agrees_event changed e : agrees ledger changed ->
  sound (entries ledger "audit_events" ++ [e]) candidates expected changed /\ dget changed "audit_events" = dget ledger "audit_events".
Proof.
  intros Ha. destruct (agrees_sound _ _ _ _ _ Ha (sound_more _ e _ _ _ S)) as [S' _]. split; [exact S'|]. apply Ha. concrete.
Qed.

Lemma configure_step record ledger' : is_mapping (dget ledger "quality_control_sampling") = true ->
  Phase2._configure_sampling record ledger payload now = Ok ledger' ->
  stepped candidates expected ledger ledger' payload now /\ (forall k, k ∈ ["review_source_sha256"; "scope_binding"] -> dget ledger' k = dget ledger k) /\
  is_mapping (dget ledger' "quality_control_sampling") = true.
Proof.
  unfold Phase2._configure_sampling. cbv zeta. intros _ H. apply bind_ok_inv in H as ([reviewer role] & Hh & H).
  do 4 (apply bind_ok_inv in H as (? & _ & H)). apply bind_ok_inv in H as ([cands cls] & _ & H). apply bind_ok_inv in H as (reasons & _ & H).
  set (changed := dset ledger "quality_control_sampling" _) in H.
  assert (agrees ledger changed) as Ha by (apply agrees_set; [concrete|done]).
  eapply (recorded_step changed) in H as [Hs Hk]; [|exact Hh|apply Ha; concrete|by apply agrees_event].
  split; [exact Hs|]. split.
  - intros k Hin. rewrite Hk by (unfold added_fields; set_solver). unfold changed. apply dget_dset_ne. intros ->. revert Hin. concrete.
  - rewrite Hk by concrete. unfold changed. by rewrite dget_dset_eq.
Qed.

Lemma additional_step record ledger' : Phase2._additional_quality_control record ledger payload now = Ok ledger' ->
  stepped candidates expected ledger ledger' payload now /\ forall k, k ∈ added_fields -> dget ledger' k = dget ledger k.
Proof.
  unfold Phase2._additional_quality_control. cbv zeta. intros H. apply bind_ok_inv in H as ([reviewer role] & Hh & H).
  do 2 (apply bind_ok_inv in H as (? & _ & H)). apply bind_ok_inv in H as ([cands cls] & _ & H). apply bind_ok_inv in H as (? & _ & H).
  set (id := text_of (dget payload "candidate_id")) in *. change (as_dict (dget ledger "dispositions")) with (member ledger "dispositions") in H.
  destruct (dget (member ledger "dispositions") id) as [| | | | | |d] eqn:Hd; try done.
  destruct (String.eqb_spec (casefold (text_of (dget d "reviewer"))) (casefold reviewer)) as [|Hne]; [done|].
  destruct (_ || _) eqn:Ho in H; [done|]. apply orb_false_iff in Ho as [Ho%negb_false_iff%bool_decide_eq_true Hn%negb_false_iff].
  apply bind_ok_inv in H as (qc & Hq & H). rewrite (sound_dict _ _ _ _ S "quality_control") in Hq by concrete. injection Hq as <-.
  match type of H with Phase2._record_reviewer_identity (dset _ _ (JObj (dset _ _ (JObj ?x)))) _ _ _ ≫= _ = _ => set (entry := x) in * end.
  pose proof Hh as (Hhr & _)%require_human_inv.
  eapply recorded_step in H as [Hs Hk]; [|exact Hh|by rewrite dget_dset_ne|].
  - split; [exact Hs|]. intros k Hin. rewrite Hk by done. apply dget_dset_ne. intros ->. revert Hin. concrete.
  - set (body := dremove "operator_token" _). set (e := event "quality_control" reviewer role body now (entries ledger "audit_events")).
    destruct (event_fields "quality_control" reviewer role body now (entries ledger "audit_events")) as (_ & E2 & E3 & E4 & _ & E6 & _).
    fold e in E2, E3, E4, E6. eapply check_sound; try done; [by apply sound_more| | |].
    + erewrite said_str by reflexivity. revert Ho. unfold _QC_OUTCOMES. rewrite !elem_of_cons, elem_of_nil. intros [->|[->|[]]]; set_solver.
    + erewrite said_str by reflexivity. by rewrite text_of_idemp.
    + exists e. split_and!; [apply elem_of_app; right; by left|exists "quality_control"; by split; [|left]|done|done|by rewrite E6].
Qed.
End Step.

Lemma stepped_from candidates expected ledger prepared ledger' payload now :
  entries prepared "audit_events" = entries ledger "audit_events" ->
  stepped candidates expected prepared ledger' payload now -> stepped candidates expected ledger ledger' payload now.
Proof. unfold stepped. by intros ->. Qed.

Lemma bound_frame record ledger ledger' : (forall k, k ∈ ["review_source_sha256"; "scope_binding"] -> dget ledger' k = dget ledger k) ->
  is_mapping (dget ledger' "quality_control_sampling") = true -> bound_to record ledger -> bound_to record ledger'.
Proof.
  intros H Hm [(fp & Hfp & B1) B2 _]. split; [exists fp; split; [done|]| |done]; rewrite H by (repeat first [by left|right]); done.
Qed.

Lemma register_read_again record register : canonical_candidate_register record = Ok register -> register_of record (Some register) = Ok register.
Proof. intros H. by destruct register. Qed.

(** ** Lemmas: one request *)

Section Request.
Context (record register candidates clusters expected goal ledger : dict).
Hypothesis Hr : canonical_candidate_register record = Ok register.
Hypothesis Hc : ReviewWork._catalog register = Ok (candidates, clusters).
Hypothesis He : _empty_ledger record register = Ok expected.
Hypothesis Hl : ReviewWork.ledger_for_record record None = Ok ledger.
Hypothesis S : sound (entries ledger "audit_events") candidates goal ledger.
Hypothesis Ch : chained (entries ledger "audit_events").
Hypothesis Hg : goal = expected /\ ledger = expected \/ goal = acting candidates expected.

Lemma expected_fresh : fresh candidates clusters expected.
Proof. destruct (empty_ledger_fresh _ _ _ He) as (c & cl & Hc' & F). rewrite Hc in Hc'. by injection Hc' as <- <-. Qed.

(** The first phase reads the prepared ledger, or starts anew. *)
Lemma reread prepared l0 : agrees ledger prepared ->
  ReviewWork.ledger_for_record (Phase2._record_with_ledger record prepared) (Some register) = Ok l0 -> l0 = prepared \/ l0 = ledger.
Proof.
  intros Ha H. destruct (prepared_frame record prepared) as (F1 & F2 & F3). unfold ReviewWork.ledger_for_record in H.
  rewrite register_read_again in H by (by rewrite F1). cbn [mbind res_bind] in H. rewrite F2, He in H. cbn [mbind res_bind] in H. rewrite F3 in H.
  assert (forall f, f ∈ fixed_fields -> dget prepared f = dget goal f) as Hf.
  { intros f Hf. rewrite Ha; [by apply (so_fixed _ _ _ _ S)|]. intros Hx. revert f Hx Hf.
    assert (Forall (fun k => k ∉ fixed_fields) added_fields) as HF by concrete. rewrite Forall_forall in HF. exact HF. }
  destruct Hg as [[Hge Hle]|Hga].
  - rewrite Hge in Hf. rewrite (existing_fixed _ _ _ _ _ Hc expected_fresh Hf) in H. destruct (bool_decide (candidates = [])).
    + destruct (_has_human_review_state prepared); [done|]. injection H as <-. by right.
    + injection H as <-. by left.
  - rewrite Hga in Hf. rewrite (existing_acting _ _ _ _ _ Hc expected_fresh Hf) in H. injection H as <-. by left.
Qed.

Lemma phase1_step local_to_utc prepared payload now ledger' : agrees ledger prepared ->
  ReviewWork.apply_review_work_action local_to_utc (Phase2._record_with_ledger record prepared) payload now = Ok ledger' ->
  stepped candidates goal ledger ledger' payload now.
Proof.
  intros Ha H. destruct (prepared_frame record prepared) as (F1 & _ & _). destruct (agrees_sound _ _ _ _ _ Ha S) as [SP EP].
  pose proof H as H'. apply apply_inv in H' as (? & ? & ? & rg & cs & cl & l0 & _ & _ & _ & _ & _ & Hr' & _ & H0 & _).
  rewrite F1, Hr in Hr'. injection Hr' as <-. pose proof (reread _ _ Ha H0) as [->| ->].
  - eapply step_sound in H; [|by rewrite F1|exact Hc|exact H0|by rewrite EP|by rewrite EP]. by eapply stepped_from.
  - eapply step_sound in H; [exact H|by rewrite F1|exact Hc|exact H0|exact S|exact Ch].
Qed.

Lemma phase2_step local_to_utc payload now ledger' : Phase2.apply_review_work_action local_to_utc record payload now = Ok ledger' ->
  stepped candidates goal ledger ledger' payload now /\ bound_to record ledger'.
Proof.
  unfold Phase2.apply_review_work_action. cbv zeta. intros H. apply bind_ok_inv in H as (prepared & Hp & H).
  apply prepare_inv in Hp as (l & Hl' & Ha & Hb). rewrite Hl in Hl'. injection Hl' as <-.
  destruct (agrees_sound _ _ _ _ _ Ha S) as [SP EP]. assert (SP' := SP). rewrite <- EP in SP'. assert (CP := Ch). rewrite <- EP in CP.
  destruct (String.eqb _ "configure_qc_sampling") in H.
  - eapply configure_step in H as (Hs & Hk & Hm); [|exact SP'|exact CP|apply Hb].
    split; [by eapply stepped_from|by eapply bound_frame].
  - apply bind_ok_inv in H as (additional & _ & H). destruct additional.
    + eapply additional_step in H as [Hs Hk]; [|exact SP'|exact CP].
      split; [by eapply stepped_from|]. eapply bound_frame; [| |exact Hb].
      * intros k Hin. apply Hk. revert k Hin. apply (Forall_forall (fun k => k ∈ added_fields)). concrete.
      * rewrite Hk by concrete. apply Hb.
    + apply bind_ok_inv in H as (updated & Hu & H). apply bind_ok_inv in H as (fp & Hfp & H). apply phase1_step in Hu; [|done].
      apply binding_inv in H as [Ha' Hb']; [|done]. split; [|done].
      destruct Hu as (e & reviewer & role & H1 & H2 & H3 & H4 & H5 & H6). destruct (agrees_sound _ _ _ _ _ Ha' H6) as [S' E'].
      exists e, reviewer, role. rewrite E'. by split_and!.
Qed.
End Request.

(** ** Ledgers of a run *)

(** A later record of the same run, in which [ledger] was stored: the final
    report has the same register and the run the same identity and scope. *)
Record carries (record : dict) (ledger record' : dict) : Prop := {
  ca_identity : dget record' "identity" = dget record "identity";
  ca_register : canonical_candidate_register record' = canonical_candidate_register record;
  ca_scope : Phase2._scope_binding record' = Phase2._scope_binding record;
  ca_ledger : dget record' "review_work_ledger" = JObj ledger }.

(** ** Lemmas: runs without candidates *)

Lemma sound_recount events candidates expected expected' ledger v : sound events candidates expected ledger ->
  (forall f, f <> "candidate_count" -> dget expected' f = dget expected f) -> dget expected' "candidate_count" = v ->
  sound events candidates expected' (dset ledger "candidate_count" v).
Proof.
  intros S Hf Hv.
  assert (forall k, k <> "candidate_count" -> member (dset ledger "candidate_count" v) k = member ledger k) as Hm by (intros; by apply member_dset_ne).
  assert (forall k, k <> "candidate_count" -> entries (dset ledger "candidate_count" v) k = entries ledger k) as He by (intros; by apply entries_dset_ne).
  split; rewrite ?Hm, ?He by done; try apply S.
  - intros f Hin. destruct (decide (f = "candidate_count")) as [->|Hne]; [by rewrite dget_dset_eq|].
    rewrite dget_dset_ne, Hf by done. by apply (so_fixed _ _ _ _ S).
  - intros k Hk. assert (k <> "candidate_count") as Hne by (intros ->; revert Hk; concrete).
    rewrite dget_dset_ne, Hm by done. by apply (so_dicts _ _ _ _ S).
  - intros k Hk. assert (k <> "candidate_count") as Hne by (intros ->; revert Hk; concrete).
    rewrite dget_dset_ne, He by done. by apply (so_lists _ _ _ _ S).
  - intros k Hk. rewrite Hm by (intros ->; revert Hk; concrete). by apply (so_keys _ _ _ _ S).
Qed.

(** The same run, whatever its ledger. *)
Record same_run (record record' : dict) : Prop := {
  sr_identity : dget record' "identity" = dget record "identity";
  sr_register : canonical_candidate_register record' = canonical_candidate_register record;
  sr_scope : Phase2._scope_binding record' = Phase2._scope_binding record }.

Lemma same_run_expected record record' register : same_run record record' -> _empty_ledger record' register = _empty_ledger record register.
Proof. intros [H _ _]. unfold _empty_ledger, _identity. by rewrite H. Qed.

Lemma same_run_source record record' : same_run record record' -> Phase2._source_fingerprint record' = Phase2._source_fingerprint record.
Proof. intros [_ H1 H2]. unfold Phase2._source_fingerprint, Phase2.source_document. by rewrite H1, H2. Qed.

Lemma same_run_bound record record' ledger : same_run record record' -> bound_to record' ledger <-> bound_to record ledger.
Proof.
  intros H. split; intros [(fp & Hfp & B1) B2 B3]; (split; [exists fp; split; [|done]| |done]);
    rewrite ?(same_run_source _ _ H), ?(sr_scope _ _ H) in *; done.
Qed.

Lemma scope_frame record v : Phase2._scope_binding (dset record "review_work_ledger" v) = Phase2._scope_binding record.
Proof.
  unfold Phase2._scope_binding, Phase2.scope_value, record_identity, Phase2._SCOPE_FIELDS. cbn [flat_map]. by rewrite !dget_dset_ne by done.
Qed.

Lemma same_run_set record v : same_run record (dset record "review_work_ledger" v).
Proof.
  split; [by rewrite dget_dset_ne| |apply scope_frame]. unfold canonical_candidate_register, _identity. by rewrite !dget_dset_ne by done.
Qed.

Lemma same_run_trans a b c : same_run a b -> same_run b c -> same_run a c.
Proof. intros [H1 H2 H3] [H4 H5 H6]. split; congruence. Qed.

Lemma carries_same record ledger record' : carries record ledger record' -> same_run record record'.
Proof. by intros []. Qed.

Section Zero.
Context (events : list dict) (candidates clusters expected : dict).
Hypothesis F : fresh candidates clusters expected.

Lemma expected_count : dget expected "candidate_count" = JInt (Z.of_nat (length candidates)).
Proof. apply F. Qed.

(** The record the action sees. *)
Lemma action_record record record' ledger : carries record ledger record' -> sound events candidates expected ledger ->
  exists ledger', dget (_review_action_record record') "review_work_ledger" = JObj ledger' /\ sound events candidates (acting candidates expected) ledger' /\
    entries ledger' "audit_events" = entries ledger "audit_events" /\ same_run record (_review_action_record record') /\
    (forall k, k <> "candidate_count" -> dget ledger' k = dget ledger k) /\ (candidates <> [] -> ledger' = ledger).
Proof.
  intros C S. unfold _review_action_record. rewrite (ca_ledger _ _ _ C), (so_fixed _ _ _ _ S), expected_count by concrete.
  unfold acting. destruct candidates as [|m cs] eqn:Hcs.
  - change (py_eq (JInt (Z.of_nat (length []))) (JInt 0)) with true. cbv iota. rewrite bool_decide_eq_true_2 by done.
    exists (dset ledger "candidate_count" (JStr "0")). rewrite dget_dset_eq. split; [done|].
    split_and!; [|by read|eapply same_run_trans; [by eapply carries_same|apply same_run_set]|intros; by apply dget_dset_ne|done].
    eapply sound_recount; [exact S|intros; by apply dget_dset_ne|by rewrite dget_dset_eq].
  - change (py_eq (JInt (Z.of_nat (length (m :: cs)))) (JInt 0)) with false. cbv iota. rewrite bool_decide_eq_false_2 by done.
    exists ledger. split_and!; [apply C|done|done|by eapply carries_same|done|done].
Qed.

(** The ledger that is stored. *)
Lemma normalized goal ledger : goal = expected \/ goal = acting candidates expected -> sound events candidates goal ledger ->
  sound events candidates expected (_normalize_review_ledger ledger) /\
  entries (_normalize_review_ledger ledger) "audit_events" = entries ledger "audit_events" /\
  (forall k, k <> "candidate_count" -> dget (_normalize_review_ledger ledger) k = dget ledger k).
Proof.
  intros Hg S. unfold _normalize_review_ledger. case_bool_decide as Hz.
  - split_and!; [|by read|intros; by apply dget_dset_ne].
    assert (candidates = []) as Hnil.
    { pose proof (so_fixed _ _ _ _ S "candidate_count" ltac:(concrete)) as Hcount. rewrite Hz in Hcount. destruct Hg as [->| ->].
      - rewrite expected_count in Hcount. discriminate.
      - unfold acting in *. case_bool_decide; [done|]. rewrite expected_count in Hcount. discriminate. }
    eapply sound_recount; [exact S| |by rewrite expected_count, Hnil]. intros f Hf. destruct Hg as [->| ->]; [done|].
    unfold acting. rewrite bool_decide_eq_true_2 by done. by rewrite dget_dset_ne.
  - split_and!; [|done|done]. destruct Hg as [->| ->]; [done|]. unfold acting in S. case_bool_decide as Hnil; [|done].
    exfalso. apply Hz. rewrite (so_fixed _ _ _ _ S) by concrete. apply dget_dset_eq.
Qed.
End Zero.

Lemma stepped_normalized candidates clusters expected goal ledger ledger' payload now : fresh candidates clusters expected ->
  goal = expected \/ goal = acting candidates expected -> stepped candidates goal ledger ledger' payload now ->
  stepped candidates expected ledger (_normalize_review_ledger ledger') payload now.
Proof.
  intros F Hg (e & reviewer & role & H1 & H2 & H3 & H4 & H5 & H6). destruct (normalized _ _ _ _ F _ _ Hg H6) as (S' & E' & _).
  exists e, reviewer, role. rewrite E'. by split_and!.
Qed.

Lemma bound_normalized record ledger : bound_to record ledger -> bound_to record (_normalize_review_ledger ledger).
Proof.
  unfold _normalize_review_ledger. case_bool_decide; [|done]. intros B. eapply bound_frame; [|by rewrite dget_dset_ne by done; apply B|done].
  intros k Hk. apply dget_dset_ne. intros ->. revert Hk. concrete.
Qed.

(** ** Lemmas: reading a prepared ledger *)

Lemma dset_same (d : dict) k v : dlookup k d = Some v -> dset d k v = d.
Proof.
  induction d as [|[k' w] d IH]; cbn [dlookup dset]; [done|]. destruct (String.eqb_spec k k') as [->|]; [by intros [= ->]|].
  intros H. by rewrite IH.
Qed.
Lemma dget_same (d : dict) k v : dget d k = v -> v <> JNull -> dset d k v = d.
Proof. intros H Hn. apply dset_same. unfold dget in H. destruct (dlookup k d); cbn in H; by subst. Qed.

Lemma dget_dmerge a b k : NoDup (keys b) -> dget (dmerge a b) k = match dlookup k b with Some v => v | None => dget a k end.
Proof.
  unfold dmerge. revert a. induction b as [|[k' v] b IH]; intros a Hn; [done|]. cbn [fold_left fst snd dlookup].
  apply NoDup_cons in Hn as [Hk Hn]. rewrite IH by done. destruct (String.eqb_spec k k') as [->|Hne].
  - change (k' ∉ keys b) in Hk. apply dlookup_None in Hk. rewrite Hk. apply dget_dset_eq.
  - destruct (dlookup k b); [done|]. by apply dget_dset_ne.
Qed.

Lemma scope_keys record fs k : k ∈ keys (flat_map (fun f => let s := Phase2.scope_value record f in if truthy s then [(f, JStr s)] else []) fs) -> k ∈ fs.
Proof.
  induction fs as [|f fs IH]; cbn [flat_map]; [by intros ?%elem_of_nil|]. unfold keys. rewrite map_app, elem_of_app. fold (keys (A:=json)).
  intros [H|H]; [|right; by apply IH]. cbv zeta in H. destruct (truthy _); [|by apply elem_of_nil in H].
  apply list_elem_of_singleton in H as ->. by left.
Qed.

Lemma scope_plain record : plain (JObj (Phase2._scope_binding record)) = true.
Proof.
  unfold Phase2._scope_binding. apply plain_obj.
  - assert (NoDup Phase2._SCOPE_FIELDS) as Hn by concrete. revert Hn. generalize Phase2._SCOPE_FIELDS. intros fs.
    induction fs as [|f fs IH]; intros Hn; cbn [flat_map]; [apply NoDup_nil_2|]. apply NoDup_cons in Hn as [Hf Hn].
    cbv zeta. destruct (truthy _); [|by apply IH]. unfold keys. cbn [app map fst]. apply NoDup_cons. split; [|by apply IH].
    intros H. apply Hf. by apply (scope_keys record).
  - generalize Phase2._SCOPE_FIELDS. intros fs. induction fs as [|f fs IH]; cbn [flat_map]; [constructor|].
    cbv zeta. destruct (truthy _); [|exact IH]. by constructor.
Qed.

(** A bound ledger is prepared already. *)
Lemma prepare_bound record ledger : ReviewWork.ledger_for_record record None = Ok ledger -> bound_to record ledger ->
  Phase2._prepare_ledger record = Ok ledger.
Proof.
  intros Hl [(fp & Hfp & B1) B2 B3]. unfold Phase2._prepare_ledger. rewrite Hl. cbn [mbind res_bind]. rewrite Hfp. cbn [mbind res_bind]. cbv zeta.
  assert (text_of (JStr fp) = fp) as Ht.
  { rewrite text_of_str. unfold Phase2._source_fingerprint in Hfp. apply bind_ok_inv in Hfp as (r & _ & [= <-]). apply strip_no_space, sha256_hex_no_space. }
  rewrite B1, B2, Ht, String.eqb_refl. cbn [negb]. rewrite andb_false_r. rewrite py_eq_refl by apply scope_plain. cbn [is_mapping negb andb].
  rewrite (dget_same ledger "review_source_sha256") by done. rewrite (dget_same ledger "scope_binding") by done.
  unfold Phase2.with_sampling. by rewrite B3.
Qed.

(** The second phase sees the candidates of the first. *)
Lemma catalog_same record register candidates clusters : canonical_candidate_register record = Ok register ->
  ReviewWork._catalog register = Ok (candidates, clusters) ->
  exists findings, iter_or_empty (dget register "findings") = Ok findings /\ fold_left Phase2.add_row findings [] = candidates.
Proof.
  intros Hr Hc. destruct (register_inv _ _ Hr) as (fs & Hf & Hm & Ht & _). destruct (catalog_inv _ _ _ Hc) as (fs' & _ & Hf' & -> & _).
  exists fs'. split; [done|]. rewrite Hf, iter_array in Hf'. injection Hf' as <-. unfold catalog_candidates. generalize ([] : dict).
  clear Hf Hc. induction fs as [|i fs IH]; intros d; [done|]. cbn [fold_left map forallb] in *. apply andb_true_iff in Hm as [Hi Hm], Ht as [Hti Ht].
  unfold Phase2.add_row at 2. rewrite Hi, Hti. by apply IH.
Qed.

Lemma elem_sorted x l : x ∈ sorted l <-> x ∈ l.
Proof. by rewrite sorted_perm. Qed.

(** Representatives are candidates. *)
Lemma representatives_of (candidates clusters : dict) ids qc : qc_representatives clusters ids = Ok qc ->
  (forall c, c ∈ ids -> forall members, _cluster_members (as_dict (dget clusters c)) = Ok members -> forall id, id ∈ members -> id ∈ keys candidates) ->
  forall id, id ∈ qc -> id ∈ keys candidates.
Proof.
  revert qc. induction ids as [|c ids IH]; intros qc H Hm id Hid; cbn [qc_representatives] in H; [injection H as <-; by apply elem_of_nil in Hid|].
  assert (forall c', c' ∈ ids -> forall members, _cluster_members (as_dict (dget clusters c')) = Ok members -> forall id, id ∈ members -> id ∈ keys candidates) as Hm'
    by (intros c' Hc'; apply Hm; by right).
  destruct (negb (is_true _)); [by eapply IH|]. apply bind_ok_inv in H as (members & Hms & H). destruct (_ <? 2)%nat; [by eapply IH|].
  destruct (bool_decide (_ ∈ members)) eqn:Hin; [|done]. apply bool_decide_eq_true in Hin. cbn [negb] in H.
  apply bind_ok_inv in H as (rest & Hrest & [= <-]). apply elem_of_cons in Hid as [->|Hid]; [exact (Hm c ltac:(left) members Hms _ Hin)|by eapply IH].
Qed.

Lemma representatives_known register candidates clusters qc : ReviewWork._catalog register = Ok (candidates, clusters) ->
  _qc_required_ids clusters = Ok qc -> forall id, id ∈ qc -> id ∈ keys candidates.
Proof.
  intros Hc Hq. eapply representatives_of; [exact Hq|]. intros c Hin members Hm id Hid. rewrite elem_sorted in Hin.
  apply (members_spec _ _ _ Hc). exists c. split; [done|]. by exists members.
Qed.

(** ** Lemmas: what the projections compute *)

Lemma filter_none {A} (p : A -> bool) l : List.filter p l = [] <-> forall x, x ∈ l -> p x = false.
Proof.
  split.
  - intros H x Hx. destruct (p x) eqn:Hp; [|done]. assert (x ∈ List.filter p l) as Hin by (by apply filter_elem). rewrite H in Hin.
    by apply elem_of_nil in Hin.
  - induction l as [|y l IH]; intros H; [done|]. cbn [List.filter]. rewrite (H y) by (by left). apply IH. intros x Hx. apply H. by right.
Qed.

Lemma sorted_nil l : sorted l = [] <-> l = [].
Proof.
  split; [|by intros ->]. intros H. pose proof (sorted_perm l) as Hp. rewrite H in Hp. by apply Permutation_nil in Hp.
Qed.

Lemma one_status s a b : has_status a s = true -> has_status b s = true -> a = b.
Proof. unfold has_status. intros H1%String.eqb_eq H2%String.eqb_eq. congruence. Qed.

Lemma strs_nil l : strs l = JArr [] <-> l = [].
Proof. split; [|by intros ->]. by destruct l. Qed.

Lemma base_inv fingerprint assistance investigation record ledger base : Phase2._prepare_ledger record = Ok ledger ->
  Phase2.review_work_projection fingerprint assistance investigation record = Ok base ->
  exists candidates clusters s r, Phase2._catalog record = Ok (candidates, clusters) /\ Phase2.sets_of ledger = Ok s /\
    Phase2.readiness_of candidates ledger s = Ok r /\ dget base "ledger" = JObj ledger /\
    dget base "quality_control_required_candidate_ids" = strs (Phase2.rs_effective s) /\
    dget base "missing_quality_control_candidate_ids" = strs (Phase2.rd_missing_qc r) /\
    dget base "open_evidence_requests" = JArr (map JObj (Phase2.rd_open r)) /\
    dget base "unresolved_high_impact_candidate_ids" = strs (Phase2.rd_unresolved r).
Proof.
  intros Hp H. unfold Phase2.review_work_projection in H. rewrite Hp in H. cbn [mbind res_bind] in H. cbv zeta in H.
  apply bind_ok_inv in H as (base0 & _ & H). apply bind_ok_inv in H as ([cs cls] & Hc & H). apply bind_ok_inv in H as (s & Hs & H).
  apply bind_ok_inv in H as (reg & _ & H). apply bind_ok_inv in H as (orig & _ & H). apply bind_ok_inv in H as (rows & _ & H).
  apply bind_ok_inv in H as (r & Hr & H). apply bind_ok_inv in H as (w & _ & H). apply bind_ok_inv in H as (ass & _ & H).
  apply bind_ok_inv in H as (inv & _ & H). apply Ok_inj in H as <-. exists cs, cls, s, r.
  split_and!; try done; (rewrite dget_dmerge; [reflexivity|]); unfold keys; cbn [map fst]; concrete.
Qed.

Lemma safe_inv fingerprint assistance investigation record ledger projection : Phase2._prepare_ledger record = Ok ledger ->
  Safe.review_work_projection fingerprint assistance investigation record = Ok projection ->
  exists candidates clusters raw s r base high required, Phase2._catalog record = Ok (candidates, clusters) /\
    Safe._raw_candidates record = Ok raw /\ Phase2.sets_of ledger = Ok s /\ Phase2.readiness_of candidates ledger s = Ok r /\
    dget base "ledger" = JObj ledger /\ dget base "quality_control_required_candidate_ids" = strs (Phase2.rs_effective s) /\
    Safe.nonempty_texts (dget ledger "high_impact_candidate_ids") = Ok high /\
    Safe._required_human_candidate_ids record base = Ok required /\
    (is_true (dget projection "ready_for_final_approval") = true <->
       (forall id, id ∈ required -> id ∈ Safe.ids_where is_terminal_disposition (member ledger "dispositions")) /\
       Phase2.rd_missing_qc r = [] /\ Phase2.rd_open r = [] /\ Phase2.rd_unresolved r = []).
Proof.
  intros Hp H. unfold Safe.review_work_projection in H. apply bind_ok_inv in H as (base & Hb & H).
  destruct (base_inv _ _ _ _ _ _ Hp Hb) as (cs & cls & s & r & Hc & Hs & Hr & B1 & B2 & B3 & B4 & B5).
  apply bind_ok_inv in H as (raw & Hraw & H). rewrite B1 in H. cbn [as_dict] in H. cbv zeta in H.
  apply bind_ok_inv in H as (high & Hh & H). apply bind_ok_inv in H as (required & Hreq & H).
  apply bind_ok_inv in H as (existing & _ & H). apply bind_ok_inv in H as (qc_ids & _ & H). apply bind_ok_inv in H as (raw_clusters & _ & H).
  apply bind_ok_inv in H as (grouped & _ & H). rewrite B3, B4, B5 in H. unfold strs in H. rewrite !iter_array in H. cbn [mbind res_bind] in H.
  apply bind_ok_inv in H as (remaining & _ & H). apply bind_ok_inv in H as (qcounts & _ & H). apply bind_ok_inv in H as (work & _ & H).
  apply Ok_inj in H as <-. exists cs, cls, raw, s, r, base, high, required. split_and!; try done.
  rewrite dget_dmerge by (unfold keys; cbn [map fst]; concrete).
  match goal with |- context [dlookup ?k ?d] => let v := eval cbv [dlookup String.eqb Ascii.eqb Bool.eqb] in (dlookup k d) in change (dlookup k d) with v end.
  cbv iota beta. cbn [is_true]. rewrite !andb_true_iff, !bool_decide_eq_true, sorted_nil, filter_none.
  assert (forall {A B} (f : A -> B) l, map f l = [] <-> l = []) as Hmap by (intros A B f []; by split).
  rewrite !Hmap. change (as_dict (dget ledger "dispositions")) with (member ledger "dispositions").
  assert (forall id, negb (bool_decide (id ∈ Safe.ids_where is_terminal_disposition (member ledger "dispositions"))) = false <->
    id ∈ Safe.ids_where is_terminal_disposition (member ledger "dispositions")) as Hn
    by (intros id; rewrite negb_false_iff; apply bool_decide_eq_true).
  setoid_rewrite Hn. tauto.
Qed.

Definition decision (ledger : dict) (id : string) : json := dget (member ledger "dispositions") id.
Definition check (ledger : dict) (id : string) : json := dget (member ledger "quality_control") id.

Lemma sets_inv ledger s : Phase2.sets_of ledger = Ok s -> exists effective, Phase2._effective_qc_ids ledger = Ok effective /\
  Phase2.rs_effective s = effective /\ Phase2.rs_dispositions s = member ledger "dispositions" /\ Phase2.rs_quality s = member ledger "quality_control".
Proof.
  unfold Phase2.sets_of. intros H. apply bind_ok_inv in H as (effective & He & H). apply bind_ok_inv in H as (? & _ & H).
  apply bind_ok_inv in H as (? & _ & [= <-]). by exists effective.
Qed.

(** The ledger the action sees differs in the count only. *)
Lemma effective_frame ledger ledger' : (forall k, k <> "candidate_count" -> dget ledger' k = dget ledger k) ->
  Phase2._effective_qc_ids ledger' = Phase2._effective_qc_ids ledger.
Proof. intros H. unfold Phase2._effective_qc_ids, Phase2._configured_qc_ids, Phase2.outstanding. by rewrite !H. Qed.

Section Decisions.
Context (events : list dict) (candidates expected ledger : dict) (findings : list json).
Hypothesis S : sound events candidates expected ledger.
Hypothesis Hfs : candidates = catalog_candidates findings.

Lemma disposition_in id v : (id, v) ∈ member ledger "dispositions" -> id ∈ keys candidates /\ strip id = id /\ decision ledger id = v /\ v <> JNull.
Proof.
  intros Hin. pose proof (so_decided _ _ _ _ S) as HF. rewrite Forall_forall in HF. destruct (HF _ Hin) as (e & He & Hk & _). cbn [fst snd] in He, Hk.
  split; [done|]. split; [rewrite Hfs in Hk; by apply candidate_keys in Hk|]. split; [|by rewrite He].
  unfold decision. apply dget_elem; [apply (so_keys _ _ _ _ S); concrete|done].
Qed.

Lemma decision_in id : decision ledger id <> JNull -> (id, decision ledger id) ∈ member ledger "dispositions".
Proof. unfold decision. intros H. pose proof (Forall_dget (fun k v => (k, v) ∈ member ledger "dispositions") (member ledger "dispositions") id) as HF.
  apply HF; [|done]. apply Forall_forall. by intros [k v] Hin. Qed.

Lemma where_iff test id : test JNull = false -> id ∈ Safe.ids_where test (member ledger "dispositions") <-> test (decision ledger id) = true.
Proof.
  intros Hnull. unfold Safe.ids_where. rewrite list_elem_of_fmap. split.
  - intros ([k v] & -> & [Hin Ht]%filter_elem). cbn [fst snd] in *. destruct (disposition_in _ _ Hin) as (_ & Hs & Hd & _). by rewrite Hs, Hd.
  - intros Ht. assert (decision ledger id <> JNull) as Hn by (intros Hx; rewrite Hx in Ht; congruence). apply decision_in in Hn as Hin.
    destruct (disposition_in _ _ Hin) as (_ & Hs & _). exists (id, decision ledger id). split; [done|]. by apply filter_elem.
Qed.

Lemma challenged_iff id : id ∈ Safe.ids_where (fun d => negb (is_terminal_disposition d)) (member ledger "dispositions") <->
  decision ledger id <> JNull /\ is_terminal_disposition (decision ledger id) = false.
Proof.
  unfold Safe.ids_where. rewrite list_elem_of_fmap. split.
  - intros ([k v] & -> & [Hin Ht%negb_true_iff]%filter_elem). cbn [fst snd] in *. destruct (disposition_in _ _ Hin) as (_ & Hs & Hd & Hn).
    by rewrite Hs, Hd.
  - intros [Hn Ht]. apply decision_in in Hn as Hin. destruct (disposition_in _ _ Hin) as (_ & Hs & _).
    exists (id, decision ledger id). split; [done|]. apply filter_elem. split; [done|]. cbn [snd]. by rewrite Ht.
Qed.

Lemma high_elem id : id ∈ _high_impact_ids candidates <-> id ∈ keys candidates /\ high_impact (as_dict (dget candidates id)) = true.
Proof.
  unfold _high_impact_ids. rewrite elem_sorted. split.
  - intros ([k v] & -> & [Hin Hh]%filter_elem)%list_elem_of_fmap. cbn [fst snd] in *.
    split; [apply keys_elem; by exists v|]. rewrite (dget_elem _ _ v); [done|rewrite Hfs; apply candidates_nodup|done].
  - intros [[v Hin]%keys_elem Hh]. rewrite (dget_elem _ _ v) in Hh by (rewrite ?Hfs; try apply candidates_nodup; by rewrite <- ?Hfs).
    apply list_elem_of_fmap. exists (id, v). split; [done|]. by apply filter_elem.
Qed.

(** A final decision of high impact has its escalation. *)
Lemma high_escalated id : id ∈ _high_impact_ids candidates -> is_terminal_disposition (decision ledger id) = true -> escalated (decision ledger id) = true.
Proof.
  intros [Hk Hh]%high_elem Ht. assert (decision ledger id <> JNull) as Hn by (intros Hx; by rewrite Hx in Ht).
  pose proof (Forall_dget (decided candidates events) _ id (so_decided _ _ _ _ S) Hn) as (e & He & _ & _ & _ & _ & _ & Hesc & _).
  fold (decision ledger id) in He. unfold escalated. rewrite Ht, He. cbn [get_of andb]. destruct (Hesc Hh) as [E1 E2]. unfold said in E1, E2. by rewrite E1, E2.
Qed.
End Decisions.

(** ** The ledgers requests lead to *)

Section Works.
Context (fingerprint : dict -> res string) (assistance : list dict -> dict -> res dict) (investigation : dict -> dict -> dict -> res json)
  (local_to_utc : datetime -> datetime).
Abbreviation action := (review_action fingerprint assistance investigation local_to_utc).
Abbreviation projection_of := (Safe.review_work_projection fingerprint assistance investigation).
Abbreviation ready := (Safe.assert_ready_for_approval fingerprint assistance investigation).

Inductive works (record : dict) : dict -> Prop :=
  | works_first payload now ledger :
      is_mapping (dget record "review_work_ledger") = false -> action record payload now = Ok ledger -> works record ledger
  | works_next ledger record' payload now ledger' :
      works record ledger -> carries record ledger record' -> action record' payload now = Ok ledger' -> works record ledger'.

(** What all of them are. *)
Record kept (record register candidates clusters expected ledger : dict) : Prop := {
  ke_register : canonical_candidate_register record = Ok register;
  ke_catalog : ReviewWork._catalog register = Ok (candidates, clusters);
  ke_expected : _empty_ledger record register = Ok expected;
  ke_fresh : fresh candidates clusters expected;
  ke_sound : sound (entries ledger "audit_events") candidates expected ledger;
  ke_chain : chained (entries ledger "audit_events");
  ke_some : entries ledger "audit_events" <> [];
  ke_bound : bound_to record ledger }.

Lemma action_inv record payload now ledger' : action record payload now = Ok ledger' ->
  exists ledger, Phase2.apply_review_work_action local_to_utc (_review_action_record record) payload now = Ok ledger /\
    ledger' = _normalize_review_ledger ledger.
Proof.
  unfold review_action, Safe.apply_review_work_action. intros H. apply bind_ok_inv in H as (ledger & H & [= <-]).
  apply bind_ok_inv in H as (u & _ & H). by exists ledger.
Qed.

(** What is read from the record an action sees, for a ledger that was kept. *)
Lemma kept_read record register candidates clusters expected ledger record' :
  kept record register candidates clusters expected ledger -> carries record ledger record' ->
  exists ledger', ReviewWork.ledger_for_record (_review_action_record record') None = Ok ledger' /\
    sound (entries ledger' "audit_events") candidates (acting candidates expected) ledger' /\
    entries ledger' "audit_events" = entries ledger "audit_events" /\ same_run record (_review_action_record record') /\
    (forall k, k <> "candidate_count" -> dget ledger' k = dget ledger k) /\ (candidates <> [] -> ledger' = ledger).
Proof.
  intros [Hr Hc He F S Ch Hs B] C. destruct (action_record _ _ _ _ F _ _ _ C S) as (l & Hl & Sl & El & R & Hk & Hn).
  exists l. rewrite El. split_and!; try done. unfold ReviewWork.ledger_for_record.
  change (register_of (_review_action_record record') None) with (canonical_candidate_register (_review_action_record record')).
  rewrite (sr_register _ _ R), Hr. cbn [mbind res_bind]. rewrite (same_run_expected _ _ _ R), He. cbn [mbind res_bind]. rewrite Hl.
  eapply existing_acting; [exact Hc|exact F|]. apply (so_fixed _ _ _ _ Sl).
Qed.

(** One request goes on from a kept ledger. *)
Lemma kept_step record register candidates clusters expected ledger record' payload now ledger' :
  kept record register candidates clusters expected ledger -> carries record ledger record' -> action record' payload now = Ok ledger' ->
  stepped candidates expected ledger ledger' payload now /\ kept record register candidates clusters expected ledger'.
Proof.
  intros K C H. destruct (kept_read _ _ _ _ _ _ _ K C) as (l & Hl & Sl & El & R & _). destruct K as [Hr Hc He F S Ch Hs B].
  apply action_inv in H as (l1 & H & ->).
  eapply (phase2_step _ register candidates clusters expected (acting candidates expected) l) in H as [Hst Hb];
    [|by rewrite (sr_register _ _ R)|exact Hc|by rewrite (same_run_expected _ _ _ R)|exact Hl|exact Sl|by rewrite El|by right].
  eapply stepped_normalized in Hst; [|exact F|by right]. eapply stepped_from in Hst; [|exact El].
  apply bound_normalized in Hb. rewrite (same_run_bound _ _ _ R) in Hb. split; [exact Hst|].
  destruct Hst as (e & ? & ? & _ & _ & _ & Hev & Hch & Hso). split; try done. rewrite Hev. by destruct (entries ledger "audit_events").
Qed.

Lemma works_kept record ledger : works record ledger -> exists register candidates clusters expected, kept record register candidates clusters expected ledger.
Proof.
  induction 1 as [payload now ledger Hno H|ledger record' payload now ledger' _ (register & candidates & clusters & expected & K) C H].
  - apply action_inv in H as (l1 & H & ->).
    assert (_review_action_record record = record) as Hrec by (unfold _review_action_record; by destruct (dget record "review_work_ledger")).
    rewrite Hrec in H. pose proof H as Hp. unfold Phase2.apply_review_work_action in Hp. apply bind_ok_inv in Hp as (p & Hp & _).
    apply prepare_inv in Hp as (l & Hl & _). pose proof Hl as Hl'. unfold ReviewWork.ledger_for_record in Hl'.
    change (register_of record None) with (canonical_candidate_register record) in Hl'.
    apply bind_ok_inv in Hl' as (register & Hr & Hl'). apply bind_ok_inv in Hl' as (expected & He & Hl').
    destruct (empty_ledger_fresh _ _ _ He) as (candidates & clusters & Hc & F). destruct (fresh_sound _ _ _ F) as [Hev S].
    assert (l = expected) as -> by (destruct (dget record "review_work_ledger"); try done; by injection Hl' as <-).
    eapply (phase2_step _ register candidates clusters expected expected expected) in H as [Hst Hb];
      [|exact Hr|exact Hc|exact He|exact Hl|by rewrite Hev|rewrite Hev; constructor|by left].
    eapply stepped_normalized in Hst; [|exact F|by left]. apply bound_normalized in Hb. exists register, candidates, clusters, expected.
    destruct Hst as (e & ? & ? & _ & _ & _ & Hevs & Hch & Hso). split; try done. rewrite Hevs. by destruct (entries expected "audit_events").
  - exists register, candidates, clusters, expected. by eapply kept_step.
Qed.

(** ** Lemmas: readiness *)

(** A candidate that automation alone may not settle. *)
Definition needs_people (candidate : dict) : bool := Safe.routed_to_people candidate || high_impact candidate.

(** What the approval of a run asks of its ledger. *)
Definition reviewed (candidates ledger : dict) (effective : list string) : Prop :=
  (forall id, id ∈ keys candidates -> needs_people (as_dict (dget candidates id)) = true ->
     is_terminal_disposition (decision ledger id) = true) /\
  (forall id, decision ledger id <> JNull -> is_terminal_disposition (decision ledger id) = true) /\
  (forall id, id ∈ effective -> quality_control_blocker (check ledger id) (decision ledger id) = "") /\
  forall r, r ∈ entries ledger "evidence_requests" -> has_status "resolved" r = true.

Lemma prepared_read record register candidates clusters expected ledger record' :
  kept record register candidates clusters expected ledger -> carries record ledger record' ->
  exists ledger', Phase2._prepare_ledger (_review_action_record record') = Ok ledger' /\ bound_to record ledger' /\
    sound (entries ledger' "audit_events") candidates (acting candidates expected) ledger' /\
    (forall k, k <> "candidate_count" -> dget ledger' k = dget ledger k) /\ (candidates <> [] -> ledger' = ledger) /\
    same_run record (_review_action_record record').
Proof.
  intros K C. destruct (kept_read _ _ _ _ _ _ _ K C) as (l & Hl & Sl & El & R & Hk & Hn). exists l.
  assert (bound_to record l) as B.
  { eapply bound_frame; [| |apply (ke_bound _ _ _ _ _ _ K)]; [|rewrite Hk by done; apply (ke_bound _ _ _ _ _ _ K)].
    intros k Hin. apply Hk. intros ->. revert Hin. concrete. }
  split_and!; try done. apply prepare_bound; [done|]. by apply (same_run_bound _ _ _ R).
Qed.

Lemma blocker_elem (effective : list string) quality dispositions :
  sorted (List.filter (fun id => truthy (quality_control_blocker (dget quality id) (dget dispositions id))) effective) = [] <->
  forall id, id ∈ effective -> quality_control_blocker (dget quality id) (dget dispositions id) = "".
Proof. rewrite sorted_nil, filter_none. by setoid_rewrite truthy_false. Qed.

Lemma blocker_terminal q d : quality_control_blocker q d = "" -> is_terminal_disposition d = true.
Proof. by intros (? & _ & ? & _)%cleared. Qed.

Lemma routed_elem (candidates : dict) id : NoDup (keys candidates) ->
  id ∈ map fst (List.filter (fun m => Safe.routed_to_people (as_dict (snd m))) candidates) <->
  id ∈ keys candidates /\ Safe.routed_to_people (as_dict (dget candidates id)) = true.
Proof.
  intros Hn. split.
  - intros ([k v] & -> & [Hin Hh]%filter_elem)%list_elem_of_fmap. cbn [fst snd] in *. split; [apply keys_elem; by exists v|].
    by rewrite (dget_elem _ _ _ Hn Hin).
  - intros [[v Hin]%keys_elem Hh]. rewrite (dget_elem _ _ _ Hn Hin) in Hh. apply list_elem_of_fmap. exists (id, v). split; [done|]. by apply filter_elem.
Qed.

(** The set of candidates that need a disposition. *)
Lemma required_elem record register candidates ledger base effective high required :
  canonical_candidate_register record = Ok register -> NoDup (keys candidates) -> Safe._raw_candidates record = Ok candidates ->
  dget base "ledger" = JObj ledger -> dget base "quality_control_required_candidate_ids" = strs effective ->
  (forall id, id ∈ effective -> strip id = id) ->
  dget ledger "high_impact_candidate_ids" = strs high -> (forall id, id ∈ high -> strip id = id) ->
  Safe._required_human_candidate_ids record base = Ok required ->
  forall id, id ∈ required <->
    id ∈ keys candidates /\ Safe.routed_to_people (as_dict (dget candidates id)) = true \/ id ∈ effective /\ truthy id = true \/
    id ∈ high /\ truthy id = true \/
    id ∈ Safe.ids_where (fun d => negb (is_terminal_disposition d)) (member ledger "dispositions") /\ id ∈ keys candidates.
Proof.
  intros Hr Hn Hraw B1 B2 Heff Hh Hhigh H id. unfold Safe._required_human_candidate_ids in H. rewrite Hraw, B1, B2 in H. cbn [mbind res_bind] in H. cbv zeta in H.
  unfold Safe.nonempty_texts in H. rewrite Hh, !texts_array in H. cbn [mbind res_bind] in H. rewrite (stripped effective), (stripped high) in H by done.
  injection H as <-. rewrite elem_dict_fromkeys, !elem_of_app, !filter_elem, routed_elem by done. unfold has_key. rewrite bool_decide_eq_true.
  change (as_dict (dget ledger "dispositions")) with (member ledger "dispositions"). tauto.
Qed.

Lemma texts_stripped v l : texts v = Ok l -> forall s, s ∈ l -> strip s = s.
Proof. unfold texts. intros H s Hs. apply bind_ok_inv in H as (l0 & _ & [= <-]). apply list_elem_of_fmap in Hs as (y & -> & _). apply text_of_idemp. Qed.

Lemma effective_stripped ledger effective : Phase2._effective_qc_ids ledger = Ok effective -> forall id, id ∈ effective -> strip id = id.
Proof.
  unfold Phase2._effective_qc_ids. intros H id Hid. apply bind_ok_inv in H as (required & Hr & H). apply bind_ok_inv in H as (configured & Hc & H).
  apply bind_ok_inv in H as (blocked & Hb & [= <-]). rewrite elem_sorted, elem_dict_fromkeys, !elem_of_app in Hid. destruct Hid as [Hid|[Hid|Hid]].
  - apply filter_elem in Hid as [Hid _]. by eapply texts_stripped.
  - unfold Phase2._configured_qc_ids in Hc. destruct (dget ledger "quality_control_sampling") as [| | | | | |config];
      try (injection Hc as <-; by apply elem_of_nil in Hid).
    apply bind_ok_inv in Hc as (ids & Hi & [= <-]). rewrite elem_sorted, elem_dict_fromkeys, filter_elem in Hid. by eapply texts_stripped; [|apply Hid].
  - unfold Phase2.outstanding in Hb. apply bind_ok_inv in Hb as (qc & _ & Hb). apply bind_ok_inv in Hb as (ids & Hm & [= <-]).
    apply (in_concat_of _ _ _ Hm) in Hid as (m & ds & _ & Hf & Hid). apply bind_ok_inv in Hf as (dd & _ & [= <-]).
    destruct (truthy _); [apply list_elem_of_singleton in Hid as ->; apply strip_idemp|by apply elem_of_nil in Hid].
Qed.

(** What is open of a ledger, as the second phase lists it. *)
Lemma readiness_sound events candidates clusters expected goal ledger s r fs :
  fresh candidates clusters expected -> candidates = catalog_candidates fs -> (forall f, f <> "candidate_count" -> dget goal f = dget expected f) ->
  sound events candidates goal ledger -> Phase2.sets_of ledger = Ok s -> Phase2.readiness_of candidates ledger s = Ok r ->
  dget ledger "high_impact_candidate_ids" = strs (_high_impact_ids candidates) /\
  (Phase2.rd_missing_qc r = [] <-> forall id, id ∈ Phase2.rs_effective s -> quality_control_blocker (check ledger id) (decision ledger id) = "") /\
  (Phase2.rd_open r = [] <-> forall q, q ∈ entries ledger "evidence_requests" -> has_status "resolved" q = true) /\
  (Phase2.rd_unresolved r = [] <-> forall id, id ∈ _high_impact_ids candidates -> is_terminal_disposition (decision ledger id) = true).
Proof.
  intros F Hfs Hg S Hs H. destruct (sets_inv _ _ Hs) as (eff & _ & _ & Hd & Hq). unfold Phase2.readiness_of in H.
  rewrite (so_lists _ _ _ _ S "evidence_requests"), mappings_objs in H by concrete. cbn [mbind res_bind] in H.
  assert (dget ledger "high_impact_candidate_ids" = strs (_high_impact_ids candidates)) as Hh
    by (rewrite (so_fixed _ _ _ _ S) by concrete; rewrite Hg by done; apply F).
  rewrite Hh, texts_array in H. cbn [mbind res_bind] in H.
  rewrite (stripped (_high_impact_ids candidates)) in H by (rewrite Hfs; apply high_stripped). injection H as <-.
  unfold Phase2.missing_qc_of, Phase2.unresolved_of. cbn [Phase2.rd_missing_qc Phase2.rd_open Phase2.rd_unresolved]. rewrite Hd, Hq.
  split; [exact Hh|]. split; [apply blocker_elem|]. split.
  - rewrite filter_none. pose proof (so_requests _ _ _ _ S) as Hrq. rewrite Forall_forall in Hrq. split.
    + intros Ho q Hin. destruct (Hrq q Hin) as [Hx|[Hx _]]; [by rewrite (Ho q Hin) in Hx|done].
    + intros Hres q Hin. destruct (has_status "open" q) eqn:Ho; [|done]. by pose proof (one_status _ _ _ Ho (Hres q Hin)).
  - rewrite sorted_nil, filter_none. setoid_rewrite elem_dict_fromkeys. setoid_rewrite negb_false_iff. fold (decision ledger). split.
    + intros He id Hid. specialize (He id Hid). unfold escalated in He. fold (decision ledger id) in He.
      by destruct (is_terminal_disposition (decision ledger id)).
    + intros Ht id Hid. eapply high_escalated; [exact S|exact Hfs|exact Hid|by apply Ht].
Qed.

Lemma acting_frame candidates expected f : f <> "candidate_count" -> dget (acting candidates expected) f = dget expected f.
Proof. intros Hf. unfold acting. case_bool_decide; [by apply dget_dset_ne|done]. Qed.

Lemma gate_inv record register candidates clusters expected ledger record' projection :
  kept record register candidates clusters expected ledger -> carries record ledger record' ->
  projection_of (_review_action_record record') = Ok projection ->
  exists effective, Phase2._effective_qc_ids ledger = Ok effective /\
    (is_true (dget projection "ready_for_final_approval") = true <-> reviewed candidates ledger effective).
Proof.
  intros K C H. destruct (prepared_read _ _ _ _ _ _ _ K C) as (l & Hl & Bl & Sl & Hk & _ & R).
  destruct (safe_inv _ _ _ _ _ _ Hl H) as (cs & cls & raw & s & r & base & high & required & Hcat & Hraw & Hs & Hrd & B1 & B2 & Hh & Hreq & Hi).
  pose proof (ke_register _ _ _ _ _ _ K) as Hr. rewrite <- (sr_register _ _ R) in Hr.
  destruct (catalog_same _ _ _ _ Hr (ke_catalog _ _ _ _ _ _ K)) as (findings & Hf & Hfold).
  assert (raw = candidates) as ->.
  { unfold Safe._raw_candidates in Hraw. rewrite Hr in Hraw. cbn [mbind res_bind] in Hraw. rewrite Hf in Hraw. cbn [mbind res_bind] in Hraw.
    injection Hraw as <-. exact Hfold. }
  assert (cs = candidates) as ->.
  { unfold Phase2._catalog in Hcat. rewrite Hr in Hcat. cbn [mbind res_bind] in Hcat. rewrite Hf in Hcat. cbn [mbind res_bind] in Hcat.
    apply bind_ok_inv in Hcat as (? & _ & [= <- _]). exact Hfold. }
  destruct (catalog_inv _ _ _ (ke_catalog _ _ _ _ _ _ K)) as (fs & _ & _ & Hfs & _).
  destruct (readiness_sound _ _ _ _ _ _ _ _ _ (ke_fresh _ _ _ _ _ _ K) Hfs (acting_frame candidates expected) Sl Hs Hrd) as (Hhigh & R1 & R2 & R3).
  destruct (sets_inv _ _ Hs) as (eff & Heff & Hse & _). rewrite Hse in *. exists eff. split; [by rewrite <- (effective_frame _ _ Hk)|].
  assert (forall id, decision l id = decision ledger id) as Hd by (intros id; unfold decision, member; by rewrite Hk).
  assert (forall id, check l id = check ledger id) as Hck by (intros id; unfold check, member; by rewrite Hk).
  assert (entries l "evidence_requests" = entries ledger "evidence_requests") as He by (unfold entries; by rewrite Hk).
  assert (forall id, id ∈ keys candidates -> truthy id = true) as Htr by (by eapply ids_truthy; [exact Hr|apply K]).
  assert (NoDup (keys candidates)) as Hn by (rewrite Hfs; apply candidates_nodup).
  assert (forall id, id ∈ _high_impact_ids candidates -> strip id = id) as Hst by (rewrite Hfs; apply high_stripped).
  pose proof (required_elem _ _ _ _ _ eff _ _ Hr Hn Hraw B1 B2 (effective_stripped _ _ Heff) Hhigh Hst Hreq) as Hrq.
  rewrite Hi, R1, R2, R3, He. unfold reviewed.
  assert (forall id, id ∈ Safe.ids_where is_terminal_disposition (member l "dispositions") <-> is_terminal_disposition (decision ledger id) = true) as Hw
    by (intros id; rewrite <- Hd; by eapply where_iff).
  setoid_rewrite Hw. setoid_rewrite Hck. setoid_rewrite Hd. setoid_rewrite Hrq. setoid_rewrite (challenged_iff _ _ _ _ _ Sl Hfs). setoid_rewrite Hd.
  setoid_rewrite (high_elem _ _ Hfs). unfold needs_people.
  clear - Htr Hd Sl Hfs. split.
  - intros (H1 & H2 & H3 & H4). split_and!; [| |done|done].
    + intros id Hid [Hx|Hx]%orb_true_iff; [apply H1; by left|by apply H4].
    + intros id Hx. destruct (is_terminal_disposition (decision ledger id)) eqn:Ht; [done|].
      assert (id ∈ keys candidates) as Hid by (rewrite <- Hd in Hx; apply (decision_in _ _) in Hx; by eapply disposition_in in Hx as [? _]).
      rewrite (H1 id) in Ht; [done|]. right. right. right. done.
  - intros (H1 & H2 & H3 & H4). split_and!; [|done|done|].
    + intros id [[Hid Hx]|[[Hid _]|[[[Hid Hx] _]|[[Hnn Hx] _]]]].
      * apply H1; [done|]. by rewrite Hx.
      * by eapply blocker_terminal, H3.
      * apply H1; [done|]. by rewrite Hx, orb_true_r.
      * by rewrite (H2 id Hnn) in Hx.
    + intros id [Hid Hx]. apply H1; [done|]. by rewrite Hx, orb_true_r.
Qed.

(** What is read from the record itself, without [_review_action_record]. *)
Lemma stored_read record register candidates clusters expected ledger record' :
  kept record register candidates clusters expected ledger -> carries record ledger record' ->
  ReviewWork.ledger_for_record record' None =
    if bool_decide (candidates = []) then fail ValueError "review_work_ledger_candidate_count_mismatch" else Ok ledger.
Proof.
  intros [Hr Hc He F S Ch Hs B] C. pose proof (carries_same _ _ _ C) as R. unfold ReviewWork.ledger_for_record.
  change (register_of record' None) with (canonical_candidate_register record'). rewrite (sr_register _ _ R), Hr. cbn [mbind res_bind].
  rewrite (same_run_expected _ _ _ R), He. cbn [mbind res_bind]. rewrite (ca_ledger _ _ _ C).
  rewrite (existing_fixed _ _ _ _ _ Hc F (so_fixed _ _ _ _ S)). assert (_has_human_review_state ledger = true) as ->; [|done].
  unfold _has_human_review_state. apply orb_true_iff. left. apply existsb_exists. exists "audit_events".
  split; [unfold human_fields; do 7 right; by left|]. rewrite (so_lists _ _ _ _ S) by concrete. by destruct (entries ledger "audit_events").
Qed.

Lemma stored_prepared record register candidates clusters expected ledger record' :
  kept record register candidates clusters expected ledger -> carries record ledger record' ->
  Phase2.ledger_for_record record' =
    if bool_decide (candidates = []) then fail ValueError "review_work_ledger_candidate_count_mismatch" else Ok ledger.
Proof.
  intros K C. pose proof (stored_read _ _ _ _ _ _ _ K C) as Hl. unfold Phase2.ledger_for_record. case_bool_decide.
  - unfold Phase2._prepare_ledger. by rewrite Hl.
  - apply prepare_bound; [done|]. apply (same_run_bound _ _ _ (carries_same _ _ _ C)). apply K.
Qed.

(** ** Lemmas: required checks *)

Lemma outstanding_elem ledger blocked id : Phase2.outstanding ledger = Ok blocked -> dget ledger "quality_control" = JObj (member ledger "quality_control") ->
  dget ledger "dispositions" = JObj (member ledger "dispositions") -> strip id = id -> check ledger id <> JNull ->
  quality_control_blocker (check ledger id) (decision ledger id) <> "" -> id ∈ blocked.
Proof.
  unfold Phase2.outstanding. intros H Hq Hd Hs Hn Hb. rewrite Hq in H.
  assert (as_mapping (jor (JObj (member ledger "quality_control")) (JObj [])) = Ok (member ledger "quality_control")) as Hx
    by (by destruct (member ledger "quality_control")). rewrite Hx in H. cbn [mbind res_bind] in H.
  apply bind_ok_inv in H as (ids & Hm & [= <-]). apply (in_concat_of _ _ _ Hm).
  pose proof (Forall_dget (fun k v => (k, v) ∈ member ledger "quality_control") (member ledger "quality_control") id) as HF.
  assert ((id, check ledger id) ∈ member ledger "quality_control") as Hin by (apply HF; [apply Forall_forall; by intros [k v]|done]).
  exists (id, check ledger id), [id]. split; [done|]. split; [|by left]. rewrite Hd.
  assert (as_mapping (jor (JObj (member ledger "dispositions")) (JObj [])) = Ok (member ledger "dispositions")) as Hy
    by (by destruct (member ledger "dispositions")). rewrite Hy. cbn [mbind res_bind fst snd]. fold (decision ledger id).
  rewrite (proj2 (truthy_spec _) Hb). by rewrite Hs.
Qed.

(** The required checks: representatives, the sample, and what was blocked. *)
Lemma effective_elem record register candidates clusters expected ledger effective :
  kept record register candidates clusters expected ledger -> Phase2._effective_qc_ids ledger = Ok effective ->
  exists representatives configured, _qc_required_ids clusters = Ok representatives /\ Phase2._configured_qc_ids ledger = Ok configured /\
    forall id, id ∈ representatives /\ truthy id = true \/ id ∈ configured \/
      (check ledger id <> JNull /\ quality_control_blocker (check ledger id) (decision ledger id) <> "") -> id ∈ effective.
Proof.
  intros [Hr Hc He F S Ch Hs B] H. unfold Phase2._effective_qc_ids in H. destruct (fr_qc _ _ _ F) as (qc & Hq & Hqc).
  rewrite (so_fixed _ _ _ _ S), Hqc, texts_array in H by concrete. cbn [mbind res_bind] in H. rewrite (stripped qc) in H by (by eapply qc_stripped).
  apply bind_ok_inv in H as (configured & Hconf & H). apply bind_ok_inv in H as (blocked & Hb & [= <-]). exists qc, configured.
  split; [done|]. split; [done|]. intros id. rewrite elem_sorted, elem_dict_fromkeys, !elem_of_app, filter_elem.
  intros [Hin|[Hin|[Hn Hbl]]]; [by left|by right; left|right; right]. eapply outstanding_elem; try done.
  - apply (so_dicts _ _ _ _ S). concrete.
  - apply (so_dicts _ _ _ _ S). concrete.
  - pose proof (Forall_dget (checked candidates (entries ledger "audit_events")) _ id (so_checked _ _ _ _ S) Hn) as (q & d & _ & (e & _ & Hk & _) & _).
    destruct (catalog_inv _ _ _ Hc) as (fs & _ & _ & Hfs & _). rewrite Hfs in Hk. by apply candidate_keys in Hk.
Qed.

(** ** Theorems *)

(** C6: The review of candidates survives storage.  The ledger that requests of
    reviewers lead to is loaded unchanged from any later record of the run that
    holds it: its run, candidates, quality control representatives, escalations,
    source digest and scope still match the report, so no decision is lost and
    no request is refused for the ledger's sake.  A run without candidates is
    the exception: its count of zero is read as a missing one, so what reads the
    stored record directly refuses it, and only what passes it through
    [_review_action_record] reads it, with the count as text. *)
Theorem review_ledger_reloads record ledger record' : works record ledger -> carries record ledger record' ->
  exists register candidates clusters, canonical_candidate_register record = Ok register /\ ReviewWork._catalog register = Ok (candidates, clusters) /\
    (candidates <> [] -> Phase2.ledger_for_record record' = Ok ledger) /\
    (candidates = [] ->
       Phase2.ledger_for_record record' = fail ValueError "review_work_ledger_candidate_count_mismatch" /\
       exists ledger', Phase2.ledger_for_record (_review_action_record record') = Ok ledger' /\
         forall k, k <> "candidate_count" -> dget ledger' k = dget ledger k).
Proof.
  intros (register & candidates & clusters & expected & K)%works_kept C. exists register, candidates, clusters.
  rewrite (stored_prepared _ _ _ _ _ _ _ K C). split; [apply K|]. split; [apply K|]. split; [intros H; by rewrite bool_decide_eq_false_2|].
  intros H. rewrite bool_decide_eq_true_2 by done. split; [done|].
  destruct (prepared_read _ _ _ _ _ _ _ K C) as (l & Hl & _ & _ & Hk & _). by exists l.
Qed.

(** C4: The audit trail of a review is append-only and names who acted.  Every
    request, of whatever phase, adds one event by the reviewer who authorised it
    and at its time, and keeps all earlier ones; each event has its number, the
    digest of its predecessor and its own digest.  No kind of action, the
    choice of a sample included, goes unrecorded. *)
Theorem audit_trail_extends record ledger record' payload now ledger' : works record ledger -> carries record ledger record' ->
  action record' payload now = Ok ledger' ->
  exists e reviewer role, _require_human payload = Ok (reviewer, role) /\ human reviewer /\
    entries ledger' "audit_events" = entries ledger "audit_events" ++ [e] /\ dget e "reviewer" = JStr reviewer /\
    dget e "recorded_at" = JStr (_iso now) /\
    forall before e' after, entries ledger' "audit_events" = before ++ e' :: after -> linked before e'.
Proof.
  intros (register & candidates & clusters & expected & K)%works_kept C H.
  destruct (kept_step _ _ _ _ _ _ _ _ _ _ K C H) as [(e & reviewer & role & Hh & Her & Het & Hevs & HC & _) _].
  exists e, reviewer, role. split; [done|]. split; [by apply require_human_inv in Hh as [? _]|]. split_and!; try done.
  intros before e' after. by apply chain_linked.
Qed.

(** C3: Every decision about a candidate is a person's.  Whatever the ledger
    says about a candidate, by itself or with its group, is one of the allowed
    dispositions of a known candidate, has a rationale, a residual risk and its
    owner where a finding stands, and an escalation where it is of high impact;
    its reviewer is no automation and an audit event records that reviewer's
    action at that time. *)
Theorem decisions_are_human record ledger : works record ledger ->
  exists register candidates clusters, canonical_candidate_register record = Ok register /\ ReviewWork._catalog register = Ok (candidates, clusters) /\
    forall id, decision ledger id <> JNull -> decided candidates (entries ledger "audit_events") id (decision ledger id).
Proof.
  intros (register & candidates & clusters & expected & K)%works_kept. exists register, candidates, clusters. split; [apply K|]. split; [apply K|].
  intros id Hid. apply (Forall_dget (decided candidates (entries ledger "audit_events"))); [apply (so_decided _ _ _ _ (ke_sound _ _ _ _ _ _ K))|done].
Qed.

(** Measured time is measured once.  In no state of a review do two sessions
    of one reviewer run, however the name is cased; a session that ended has a
    duration that is not negative; and a request for evidence is open or was
    resolved by a person, with a note and references, in a recorded action. *)
Theorem sessions_and_requests record ledger : works record ledger ->
  NoDup (running_owners (entries ledger "review_sessions")) /\ Forall session_ok (entries ledger "review_sessions") /\
  Forall (request_ok (entries ledger "audit_events")) (entries ledger "evidence_requests").
Proof. intros (register & candidates & clusters & expected & [_ _ _ _ S _ _ _])%works_kept. split_and!; apply S. Qed.

Lemma ready_projection record projection : projection_of record = Ok projection ->
  is_ok (ready record) = is_true (dget projection "ready_for_final_approval").
Proof.
  intros H. unfold Safe.assert_ready_for_approval. rewrite H. cbn [mbind res_bind]. unfold Phase2.ready_or_raise.
  destruct (is_true (dget projection "ready_for_final_approval")); [done|]. by destruct (Phase2.remaining_blockers projection).
Qed.

Lemma ready_inv record : is_ok (ready record) = true -> exists projection, projection_of record = Ok projection.
Proof. unfold Safe.assert_ready_for_approval. destruct (projection_of record) as [p|]; [by exists p|done]. Qed.

(** C1: Approval means that people did the review.  When the gate of the approval
    is open, every candidate that automation may not settle has a final decision
    by a person, recorded in the audit trail; the representative of each group,
    every sampled candidate and every candidate that was ever checked has the
    agreement of a second person to that very decision, and the audit event of
    the check keeps a decision with the same digest; and every request for
    evidence was resolved by a person. *)
Theorem approval_means_reviewed record ledger record' : works record ledger -> carries record ledger record' ->
  is_ok (ready (_review_action_record record')) = true ->
  exists register candidates clusters representatives configured,
    canonical_candidate_register record = Ok register /\ ReviewWork._catalog register = Ok (candidates, clusters) /\
    _qc_required_ids clusters = Ok representatives /\ Phase2._configured_qc_ids ledger = Ok configured /\
    let events := entries ledger "audit_events" in
    (forall id, id ∈ keys candidates -> needs_people (as_dict (dget candidates id)) = true ->
       decided candidates events id (decision ledger id) /\ is_terminal_disposition (decision ledger id) = true) /\
    (forall id, id ∈ representatives \/ id ∈ configured \/ check ledger id <> JNull ->
       exists q, check ledger id = JObj q /\ clears q (decision ledger id) /\ human (said q "reviewer") /\
         recorded events ["quality_control"] (dget q "reviewer") (dget q "reviewed_at")
           (fun p => exists d, dget p "reviewed_disposition" = JObj d /\ ReviewWork._canonical_hash (JObj d) = ReviewWork._canonical_hash (decision ledger id))) /\
    (forall r, r ∈ entries ledger "evidence_requests" -> has_status "resolved" r = true /\ human (said r "resolved_by")).
Proof.
  intros (register & candidates & clusters & expected & K)%works_kept C H. destruct (ready_inv _ H) as [p Hp].
  destruct (gate_inv _ _ _ _ _ _ _ _ K C Hp) as (eff & Heff & Hi). rewrite (ready_projection _ _ Hp) in H. apply Hi in H as (H1 & H2 & H3 & H4).
  destruct (effective_elem _ _ _ _ _ _ _ K Heff) as (reps & conf & Hq & Hconf & Hin). pose proof (ke_sound _ _ _ _ _ _ K) as S.
  exists register, candidates, clusters, reps, conf. split; [apply K|]. split; [apply K|]. split; [done|]. split; [done|]. cbv zeta. split_and!.
  - intros id Hid Hn. split; [|by apply H1]. apply (Forall_dget (decided candidates (entries ledger "audit_events"))); [apply S|].
    intros Hx. specialize (H1 id Hid Hn). unfold decision in H1. by rewrite Hx in H1.
  - intros id Hid. assert (quality_control_blocker (check ledger id) (decision ledger id) = "") as Hb.
    { destruct (decide (quality_control_blocker (check ledger id) (decision ledger id) = "")) as [|Hb]; [done|]. apply H3, Hin.
      destruct Hid as [Hid|[Hid|Hid]]; [left; split; [done|]|by right; left|by right; right].
      eapply ids_truthy; [apply K|apply K|]. by eapply representatives_known; [apply K|exact Hq|]. }
    pose proof Hb as (q & Hqc & Hcl)%cleared. exists q. split; [done|]. split; [done|].
    destruct (Forall_dget (checked candidates (entries ledger "audit_events")) _ id (so_checked _ _ _ _ S)) as
      (q' & d & Hv & _ & _ & _ & Hh & _ & Hsha & e & He & Ha & Hrv & Ht & Hpl); [fold (check ledger id); by rewrite Hqc|].
    fold (check ledger id) in Hv. rewrite Hqc in Hv. injection Hv as <-.
    split; [done|]. exists e. split_and!; try done. exists d. split; [done|]. destruct Hcl as (_ & _ & _ & _ & _ & _ & Hd).
    rewrite (said_str _ _ _ Hsha) in Hd. rewrite <- Hd. symmetry. apply strip_no_space, sha256_hex_no_space.
  - intros r Hr'. specialize (H4 r Hr'). split; [done|]. pose proof (so_requests _ _ _ _ S) as Hrq. rewrite Forall_forall in Hrq.
    destruct (Hrq r Hr') as [Ho|(_ & _ & Hh & _)]; [by pose proof (one_status _ _ _ Ho H4)|done].
Qed.
End Works.

(** The same decision, its members in any order, unless two texts collide. *)
Definition same_decision (d d' : json) : Prop :=
  sort_json d = sort_json d' \/ collision (utf8_encode (dumps compact_unicode d)) (utf8_encode (dumps compact_unicode d')).

(** C7: Quality control clears one decision and no other.  A check leaves no
    blocker exactly when it agrees, its reviewer is another person than the one
    who decided, the decision is final, and the check's digest is that of this
    decision; so a check that clears two decisions has seen the same decision
    twice, up to the order of keys, or their texts are a collision of SHA-256. *)
Theorem quality_control_binds qc disposition disposition' :
  (quality_control_blocker qc disposition = "" <-> exists q, qc = JObj q /\ clears q disposition) /\
  (json_wf disposition = true -> json_wf disposition' = true ->
   quality_control_blocker qc disposition = "" -> quality_control_blocker qc disposition' = "" -> same_decision disposition disposition').
Proof.
  split; [apply cleared|]. intros Hw Hw' (q & -> & _ & _ & _ & _ & _ & _ & H)%cleared (q' & [= <-] & _ & _ & _ & _ & _ & _ & H')%cleared.
  rewrite H in H'. destruct (decide (utf8_encode (dumps compact_unicode disposition) = utf8_encode (dumps compact_unicode disposition')))
    as [He%utf8_encode_inj|]; [left|by right].
  by apply (dumps_inj compact_unicode); [reflexivity|apply sep_ok_compact_unicode|..].
Qed.

(** C5: The last digest of a review fixes its whole history.  Two ledgers, of
    whatever runs, whose last audit events have the same digest record the same
    actions, by the same reviewers, at the same times and with the same
    payloads, from the first to the last, unless two of the recorded events are
    a collision of SHA-256: no event can be changed, dropped or inserted
    without a change of the last digest. *)
Theorem last_digest_fixes_history f a i u f' a' i' u' record record' ledger ledger' :
  works f a i u record ledger -> works f' a' i' u' record' ledger' ->
  Forall wf_event (entries ledger "audit_events") -> Forall wf_event (entries ledger' "audit_events") ->
  last_hash (entries ledger "audit_events") = last_hash (entries ledger' "audit_events") ->
  Forall2 same_event (entries ledger "audit_events") (entries ledger' "audit_events") \/
  exists x y, x ∈ entries ledger "audit_events" /\ y ∈ entries ledger' "audit_events" /\ collision (event_text x) (event_text y).
Proof.
  intros (? & ? & ? & ? & [_ _ _ _ _ C _ _])%works_kept (? & ? & ? & ? & [_ _ _ _ _ C' _ _])%works_kept. by apply chains_agree.
Qed.

(** ** A review: two candidates in one group, decided and checked *)

Module ReviewDemo.
Export CatalogDemo.
Definition utc (t : datetime) : datetime := t.
Definition t0 : datetime := 63844806896000000.
Definition fingerprint (_ : dict) : res string := Ok "f00d".
Definition assistance (_ : list dict) (_ : dict) : res dict := Ok [].
Definition investigation (_ _ _ : dict) : res json := Ok JNull.
Abbreviation act := (review_action fingerprint assistance investigation utc).
Abbreviation worked := (works fingerprint assistance investigation utc).
Abbreviation open := (Safe.assert_ready_for_approval fingerprint assistance investigation).

Definition by_human (action reviewer : string) (rest : dict) : dict :=
  [("action", JStr action); ("reviewer", JStr reviewer); ("reviewer_role", JStr "security reviewer");
   ("review_authorized", JBool true); ("authorization_confirmed", JBool true)] ++ rest.
Definition decide (id : string) : dict :=
  by_human "disposition_candidate" "Ann"
    [("candidate_id", JStr id); ("disposition", JStr "false_positive"); ("rationale", JStr "test fixture");
     ("escalation_resolution", JStr "reviewed"); ("escalation_owner", JStr "Cleo")].
Definition check_group : dict :=
  by_human "quality_control" "Bob" [("candidate_id", JStr "c1"); ("qc_outcome", JStr "agree"); ("qc_note", JStr "same conclusion")].

Definition ok_or_nil (r : res dict) : dict := match r with Ok d => d | Raise _ => [] end.
Definition store (record ledger : dict) : dict := dset record "review_work_ledger" (JObj ledger).
Definition decided_ledger : dict := ok_or_nil (act record (decide "c1") t0).
Definition checked_ledger : dict := ok_or_nil (act (store record decided_ledger) check_group t0).
Definition empty_run : dict := record_of no_findings.
Definition first_look : dict := ok_or_nil (act empty_run (by_human "start_session" "Ann" []) t0).

Lemma ok_or_nil_ok r : is_ok r = true -> r = Ok (ok_or_nil r).
Proof. by destruct r. Qed.

Lemma stored record ledger : carries record ledger (store record ledger).
Proof.
  destruct (same_run_set record (JObj ledger)) as [H1 H2 H3]. split; [exact H1|exact H2|exact H3|]. apply dget_dset_eq.
Qed.

Lemma decided_works : worked record decided_ledger.
Proof. apply (works_first _ _ _ _ _ (decide "c1") t0); [reflexivity|]. apply ok_or_nil_ok. vm_compute. reflexivity. Qed.
Lemma checked_ok : act (store record decided_ledger) check_group t0 = Ok checked_ledger.
Proof. apply ok_or_nil_ok. vm_compute. reflexivity. Qed.
Lemma checked_works : worked record checked_ledger.
Proof. eapply works_next; [apply decided_works|apply stored|apply checked_ok]. Qed.
Lemma empty_works : worked empty_run first_look.
Proof. apply (works_first _ _ _ _ _ (by_human "start_session" "Ann" []) t0); [reflexivity|]. apply ok_or_nil_ok. vm_compute. reflexivity. Qed.

Lemma demo_read rg cs cl : canonical_candidate_register record = Ok rg -> ReviewWork._catalog rg = Ok (cs, cl) ->
  rg = register /\ cs = candidates /\ cl = clusters.
Proof. rewrite register_ok. intros [= <-]. rewrite catalog_ok. by intros [= <- <-]. Qed.

Definition passed_on : dict := _review_action_record (store record checked_ledger).

Lemma open_demo : is_ok (open passed_on) = true.
Proof. vm_compute. reflexivity. Qed.

Lemma events_wf : Forall wf_event (entries checked_ledger "audit_events").
Proof. apply forallb_Forall. vm_compute. reflexivity. Qed.

Lemma check_clears : quality_control_blocker (check checked_ledger "c1") (decision checked_ledger "c1") = "".
Proof. vm_compute. reflexivity. Qed.

Lemma review_ledger_reloads_witness :
  Phase2.ledger_for_record (store record checked_ledger) = Ok checked_ledger /\ is_ok (Phase2.ledger_for_record (store empty_run first_look)) = false.
Proof.
  split.
  - destruct (review_ledger_reloads _ _ _ _ record checked_ledger _ checked_works (stored record checked_ledger)) as (rg & cs & cl & Hr & Hc & H & _).
    destruct (demo_read _ _ _ Hr Hc) as (_ & -> & _). apply H. discriminate.
  - destruct (review_ledger_reloads _ _ _ _ empty_run first_look _ empty_works (stored empty_run first_look)) as (rg & cs & cl & Hr & Hc & _ & H).
    assert (canonical_candidate_register empty_run = Ok no_findings) as Hn by reflexivity. rewrite Hn in Hr. injection Hr as <-.
    assert (ReviewWork._catalog no_findings = Ok ([], [])) as Hm by reflexivity. rewrite Hm in Hc. injection Hc as <- <-.
    destruct (H eq_refl) as [H' _]. rewrite H'. reflexivity.
Defined.

Lemma audit_trail_extends_witness :
  exists e, entries checked_ledger "audit_events" = entries decided_ledger "audit_events" ++ [e] /\ dget e "reviewer" = JStr "Bob".
Proof.
  destruct (audit_trail_extends _ _ _ _ record decided_ledger _ check_group t0 checked_ledger decided_works (stored record decided_ledger) checked_ok)
    as (e & reviewer & role & Hh & _ & H1 & H2 & _).
  assert (_require_human check_group = Ok ("Bob", "security reviewer")) as Hb by reflexivity. rewrite Hb in Hh. injection Hh as <- _.
  exists e. split; [exact H1|exact H2].
Defined.

Lemma decisions_are_human_witness : decided candidates (entries checked_ledger "audit_events") "c1" (decision checked_ledger "c1").
Proof.
  destruct (decisions_are_human _ _ _ _ record checked_ledger checked_works) as (rg & cs & cl & Hr & Hc & H).
  destruct (demo_read _ _ _ Hr Hc) as (_ & -> & _). apply (H "c1"). vm_compute. discriminate.
Defined.

Lemma sessions_and_requests_witness :
  NoDup (running_owners (entries first_look "review_sessions")) /\ running_owners (entries first_look "review_sessions") = ["ann"].
Proof. split; [apply (sessions_and_requests _ _ _ _ empty_run first_look empty_works)|vm_compute; reflexivity]. Defined.

Lemma approval_means_reviewed_witness :
  exists q, check checked_ledger "c1" = JObj q /\ clears q (decision checked_ledger "c1") /\ human (said q "reviewer").
Proof.
  destruct (approval_means_reviewed _ _ _ _ record checked_ledger _ checked_works (stored record checked_ledger) open_demo)
    as (rg & cs & cl & reps & conf & _ & _ & _ & _ & _ & H & _).
  destruct (H "c1") as (q & H1 & H2 & H3 & _); [right; right; vm_compute; discriminate|]. exists q. split; [exact H1|]. split; [exact H2|exact H3].
Defined.

(** The decision with its members in another order. *)
Definition reordered : json := JObj (rev (as_dict (decision checked_ledger "c1"))).
Lemma check_clears_reordered : quality_control_blocker (check checked_ledger "c1") reordered = "".
Proof. vm_compute. reflexivity. Qed.
Lemma decision_wf : json_wf (decision checked_ledger "c1") = true.
Proof. vm_compute. reflexivity. Qed.
Lemma reordered_wf : json_wf reordered = true.
Proof. vm_compute. reflexivity. Qed.

Lemma quality_control_binds_witness : same_decision (decision checked_ledger "c1") reordered.
Proof.
  apply (quality_control_binds (check checked_ledger "c1") (decision checked_ledger "c1") reordered);
    [exact decision_wf|exact reordered_wf|exact check_clears|exact check_clears_reordered].
Defined.

Lemma last_digest_fixes_history_witness : Forall2 same_event (entries checked_ledger "audit_events") (entries checked_ledger "audit_events") \/
  exists x y, x ∈ entries checked_ledger "audit_events" /\ y ∈ entries checked_ledger "audit_events" /\ collision (event_text x) (event_text y).
Proof. apply (last_digest_fixes_history _ _ _ _ _ _ _ _ record record checked_ledger checked_ledger checked_works checked_works events_wf events_wf eq_refl). Defined.
End ReviewDemo.
