(* ===== verification/ReviewReady.v ===== *)
(** * When the gate of the approval opens

    The gate computes the whole projection of the review before it looks at it,
    so a part that raises keeps it shut.  Here the projection is followed through
    the three phases: for a ledger that requests of reviewers lead to it answers,
    up to what the parts outside the model and the numbers in the report can do
    ([projectable]).  With the reading of the answer in [ReviewWorks], the gate
    opens exactly when the review is complete. *)

From S2P Require Import Prelude PyStr Sha256 PyFloat Json JsonFacts PyTime Orchestration AcceptedEdition HumanEvidence ReviewDecision RunRecord ReviewWork ReviewSampling ReviewQueue ReviewService ReviewWorkFacts ReviewLedger ReviewWorks.

(** ** Lemmas: results that are there *)

Lemma is_ok_bind {A B} (m : res A) (f : A -> res B) : is_ok m = true -> (forall a, m = Ok a -> is_ok (f a) = true) -> is_ok (m ≫= f) = true.
Proof. destruct m as [a|e]; [|done]. intros _ H. by apply H. Qed.
Lemma is_ok_ex {A} (r : res A) : is_ok r = true -> exists a, r = Ok a.
Proof. destruct r as [a|e]; [by exists a|done]. Qed.

Lemma count_is_ok {A} (test : A -> res bool) l : (forall x, x ∈ l -> is_ok (test x) = true) -> is_ok (Phase2.countR test l) = true.
Proof.
  induction l as [|x l IH]; intros H; [done|]. cbn [Phase2.countR]. apply is_ok_bind; [apply H; by left|]. intros b _.
  apply is_ok_bind; [|done]. apply IH. intros y Hy. apply H. by right.
Qed.

Lemma mapR_source {A B} (f : A -> res B) l ys y : mapR f l = Ok ys -> y ∈ ys -> exists x, x ∈ l /\ f x = Ok y.
Proof.
  intros H%mapR_ok Hy. induction H as [|x z l ys Hx _ IH]; [by apply elem_of_nil in Hy|].
  apply elem_of_cons in Hy as [->|Hy]; [exists x; split; [by left|done]|].
  destruct (IH Hy) as (x' & Hin & Hf). exists x'. split; [by right|done].
Qed.

Lemma jor_obj d : exists d', jor (JObj d) (JObj []) = JObj d'.
Proof. destruct d; [by exists []|by eexists]. Qed.
Lemma as_mapping_or d : as_mapping (jor (JObj d) (JObj [])) = Ok d.
Proof. by destruct d. Qed.
Lemma len_objs l : is_ok (len_or_empty (JArr (map JObj l))) = true.
Proof. unfold len_or_empty. by destruct l. Qed.
Lemma nonempty_strs l : is_ok (Safe.nonempty_texts (strs l)) = true.
Proof. unfold Safe.nonempty_texts. by rewrite texts_array. Qed.

(** ** The sample on record is a list *)

(** Either no sample was chosen, or its ids can be listed. *)
Definition listed (v : json) : Prop :=
  match v with JObj config => is_ok (texts (dget config "selected_candidate_ids")) = true | _ => True end.

Lemma configured_listed ledger : listed (dget ledger "quality_control_sampling") -> is_ok (Phase2._configured_qc_ids ledger) = true.
Proof.
  unfold listed, Phase2._configured_qc_ids. destruct (dget ledger "quality_control_sampling"); try done. intros H.
  by apply is_ok_bind.
Qed.

Lemma config_listed strategy population selected reasons by_ role at_ :
  listed (JObj (Phase2.sampling_configuration strategy population selected reasons by_ role at_)).
Proof.
  unfold listed. change (dget _ "selected_candidate_ids") with (strs selected). by rewrite texts_array.
Qed.

Lemma with_sampling_listed record ledger ledger' : Phase2.with_sampling record ledger = Ok ledger' ->
  listed (dget ledger "quality_control_sampling") -> listed (dget ledger' "quality_control_sampling").
Proof.
  unfold Phase2.with_sampling. destruct (is_mapping _); [by intros [= <-]|]. intros H _. apply bind_ok_inv in H as (config & Hc & [= <-]).
  rewrite dget_dset_eq. unfold Phase2._default_sampling_configuration in Hc. apply bind_ok_inv in Hc as (p & _ & Hc).
  apply bind_ok_inv in Hc as (r & _ & [= <-]). apply config_listed.
Qed.

Lemma binding_listed record ledger ledger' a b :
  Phase2.with_sampling record (dset (dset ledger "review_source_sha256" a) "scope_binding" b) = Ok ledger' ->
  listed (dget ledger "quality_control_sampling") -> listed (dget ledger' "quality_control_sampling").
Proof. intros H Hl. eapply with_sampling_listed; [exact H|]. by rewrite !dget_dset_ne. Qed.

Lemma acted_sampling candidates payload reviewer role now local_to_utc ledger action ledger' audit :
  acted candidates payload reviewer role now local_to_utc ledger action ledger' audit ->
  dget ledger' "quality_control_sampling" = dget ledger "quality_control_sampling".
Proof.
  intros H. inversion H as [| |l a H0| |l H0| |l H0|l H0|]; subst; try (by apply dget_dset_ne).
  - unfold quality_control in H0. cbv zeta in H0. inv_ok. destruct (dget _ (asked _ _)) in H0; try done. inv_ok. by apply dget_dset_ne.
  - unfold resolve_evidence_request in H0. cbv zeta in H0. inv_ok. match goal with H : (let '(_, _) := ?x in _) = Ok _ |- _ => destruct x end.
    inv_ok. by apply dget_dset_ne.
  - unfold start_session in H0. inv_ok. by apply dget_dset_ne.
  - unfold stop_session in H0. inv_ok. destruct (last_running _ _) as [[[? ?] ?]|] in H0; [|done]. inv_ok. by apply dget_dset_ne.
Qed.

(** One request keeps the sample a list. *)
Lemma request_listed record register candidates clusters expected goal ledger local_to_utc payload now ledger' :
  canonical_candidate_register record = Ok register -> ReviewWork._catalog register = Ok (candidates, clusters) ->
  _empty_ledger record register = Ok expected -> ReviewWork.ledger_for_record record None = Ok ledger ->
  sound (entries ledger "audit_events") candidates goal ledger -> goal = expected /\ ledger = expected \/ goal = acting candidates expected ->
  listed (dget ledger "quality_control_sampling") ->
  Phase2.apply_review_work_action local_to_utc record payload now = Ok ledger' -> listed (dget ledger' "quality_control_sampling").
Proof.
  intros Hr Hc He Hl S Hg Hli H. unfold Phase2.apply_review_work_action in H. cbv zeta in H. apply bind_ok_inv in H as (prepared & Hp & H).
  apply prepare_inv in Hp as Hpi. destruct Hpi as (l & Hl' & Ha & _). rewrite Hl in Hl'. injection Hl' as <-.
  assert (listed (dget prepared "quality_control_sampling")) as Hpl.
  { unfold Phase2._prepare_ledger in Hp. rewrite Hl in Hp. cbn [mbind res_bind] in Hp. apply bind_ok_inv in Hp as (fp & _ & Hp). cbv zeta in Hp.
    destruct (_ && _) in Hp; [done|]. destruct (_ && _) in Hp; [done|]. by eapply binding_listed. }
  destruct (String.eqb _ "configure_qc_sampling") in H.
  - unfold Phase2._configure_sampling in H. cbv zeta in H. apply bind_ok_inv in H as ([reviewer role] & _ & H).
    do 4 (apply bind_ok_inv in H as (? & _ & H)). apply bind_ok_inv in H as ([cands cls] & _ & H). apply bind_ok_inv in H as (reasons & _ & H).
    apply bind_ok_inv in H as (l & Hid & H). unfold Phase2._record_reviewer_identity, _reviewer_identity in Hid.
    apply bind_ok_inv in Hid as (ids & _ & [= <-]). unfold Phase2._append_event, _append_event in H.
    apply bind_ok_inv in H as (l & Hev & [= <-]). apply bind_ok_inv in Hev as (evs & _ & [= <-]).
    rewrite !dget_dset_ne by done. rewrite dget_dset_eq. apply config_listed.
  - apply bind_ok_inv in H as (additional & _ & H). destruct additional.
    + unfold Phase2._additional_quality_control in H. cbv zeta in H. apply bind_ok_inv in H as ([reviewer role] & _ & H).
      do 2 (apply bind_ok_inv in H as (? & _ & H)). apply bind_ok_inv in H as ([cands cls] & _ & H). apply bind_ok_inv in H as (? & _ & H).
      destruct (dget (as_dict _) _) in H; try done. inv_ok.
      unfold Phase2._record_reviewer_identity, _reviewer_identity, Phase2._append_event, _append_event in *. inv_ok. by rewrite !dget_dset_ne.
    + apply bind_ok_inv in H as (updated & Hu & H). apply bind_ok_inv in H as (fp & _ & H). eapply binding_listed; [exact H|].
      apply apply_inv in Hu as (reviewer & role & action & rg & cs & cl & l0 & l1 & l2 & audit & events & _ & Hr' & _ & H0 & H1 & A & _ & ->).
      destruct (prepared_frame record prepared) as (F1 & _ & _). rewrite F1, Hr in Hr'. injection Hr' as <-.
      assert (listed (dget l0 "quality_control_sampling")) as Hl0
        by (destruct (reread _ _ _ _ _ _ _ Hr Hc He S Hg _ _ Ha H0) as [-> | ->]; done).
      unfold closing. rewrite !dget_dset_ne by done. rewrite (acted_sampling _ _ _ _ _ _ _ _ _ _ A).
      unfold _reviewer_identity in H1. apply bind_ok_inv in H1 as (ids & _ & [= <-]). by rewrite dget_dset_ne.
Qed.

Lemma expected_unsampled record register expected : _empty_ledger record register = Ok expected ->
  dget expected "quality_control_sampling" = JNull.
Proof.
  unfold _empty_ledger. intros H. apply bind_ok_inv in H as (identity & Hi & H). apply bind_ok_inv in H as ([c cl] & _ & H).
  apply bind_ok_inv in H as (qc & _ & [= <-]). unfold _identity in Hi. destruct (dget record "identity"); try done.
  destruct (forallb _ _); [|done]. by injection Hi as <-.
Qed.

(** ** The phases answer *)

Lemma members_listed candidates items acc clusters : catalog_clusters candidates items acc = Ok clusters ->
  forall c, JObj c ∈ items -> is_ok (texts (dget c "candidate_ids")) = true.
Proof.
  revert acc. induction items as [|item items IH]; intros acc H c Hin; [by apply elem_of_nil in Hin|]. cbn [catalog_clusters] in H.
  destruct item as [| | | | | |item]; try done. destruct (_ || has_key acc _) in H; [done|]. apply bind_ok_inv in H as (ids & Hids & H).
  destruct (_ || negb (bool_decide (NoDup ids))) in H; [done|]. destruct (negb (forallb _ _)) in H; [done|].
  apply elem_of_cons in Hin as [[= ->]|Hin]; [unfold _cluster_members in Hids; by rewrite Hids|by eapply IH].
Qed.

(** The members of every cluster can be listed, where the clusters can. *)
Lemma raw_clusters_total register candidates clusters : ReviewWork._catalog register = Ok (candidates, clusters) ->
  is_ok (iter_or_empty (dget register "review_workload_clusters")) = true ->
  exists raw, mappings (dget register "review_workload_clusters") = Ok raw /\
    forall c, c ∈ raw -> is_ok (texts (dget c "candidate_ids")) = true.
Proof.
  intros Hc Hi. unfold ReviewWork._catalog in Hc. apply bind_ok_inv in Hc as (fs & _ & Hc). cbv zeta in Hc.
  apply bind_ok_inv in Hc as (cl & Hc & _). apply is_ok_ex in Hi as [l Hl]. unfold mappings. rewrite Hl. cbn [mbind res_bind].
  eexists. split; [done|]. intros c (v & -> & [Hin Hm]%filter_elem)%list_elem_of_fmap. destruct v as [| | | | | |c]; try done.
  unfold iter_or_empty in Hl. destruct (dget register "review_workload_clusters") as [|b|z|f|s|raw|d]; cbn [py_iter] in Hl;
    try (destruct (py_truthy _) in Hl; [done|injection Hl as <-; by apply elem_of_nil in Hin]).
  - destruct (py_truthy _) in Hl; injection Hl as <-; [|by apply elem_of_nil in Hin].
    exfalso. clear - Hin. induction s as [|a s IH]; cbn in Hin; [by apply elem_of_nil in Hin|]. apply elem_of_cons in Hin as [|]; [done|auto].
  - assert (l = raw) as -> by (destruct raw; by injection Hl). by eapply members_listed.
  - destruct (py_truthy _) in Hl; injection Hl as <-; [|by apply elem_of_nil in Hin]. by apply list_elem_of_fmap in Hin as (m & ? & _).
Qed.

Lemma total_seconds_total sessions : Forall session_ok sessions ->
  is_ok (total_seconds (List.filter (has_status "completed") sessions)) = true.
Proof.
  induction 1 as [|s sessions Hs _ IH]; cbn [List.filter]; [done|]. destruct (has_status "completed" s) eqn:Hc; [|done].
  destruct Hs as [Hr|(_ & n & Hn & _)]; [by pose proof (one_status _ _ _ Hc Hr)|]. cbn [total_seconds]. rewrite Hn.
  apply is_ok_bind; [unfold jor; by destruct (py_truthy _)|]. intros z _. by apply is_ok_bind.
Qed.

Section Phases.
Context (fingerprint : dict -> res string) (assistance : list dict -> dict -> res dict) (investigation : dict -> dict -> dict -> res json).
Abbreviation projection_of := (Safe.review_work_projection fingerprint assistance investigation).
Abbreviation base_of := (Phase2.review_work_projection fingerprint assistance investigation).
Context (record register candidates clusters expected ledger : dict).
Hypothesis Hr : canonical_candidate_register record = Ok register.
Hypothesis Hc : ReviewWork._catalog register = Ok (candidates, clusters).
Hypothesis He : _empty_ledger record register = Ok expected.
Hypothesis F : fresh candidates clusters expected.
Hypothesis Hp : Phase2._prepare_ledger record = Ok ledger.
Hypothesis S : sound (entries ledger "audit_events") candidates (acting candidates expected) ledger.
Hypothesis L : listed (dget ledger "quality_control_sampling").

Lemma ledger_strs f : f ∈ ["qc_required_candidate_ids"; "high_impact_candidate_ids"] -> exists l, dget ledger f = strs l.
Proof.
  intros Hf. rewrite (so_fixed _ _ _ _ S), acting_frame.
  - apply elem_of_cons in Hf as [->|Hf]; [destruct (fr_qc _ _ _ F) as (qc & _ & Hq); by exists qc|].
    apply list_elem_of_singleton in Hf as ->. eexists. apply F.
  - intros ->. revert Hf. concrete.
  - revert f Hf. apply (Forall_forall (fun f => f ∈ fixed_fields)). concrete.
Qed.
Lemma ledger_texts f : f ∈ ["qc_required_candidate_ids"; "high_impact_candidate_ids"] -> is_ok (texts (dget ledger f)) = true.
Proof. intros [l ->]%ledger_strs. by rewrite texts_array. Qed.
Lemma ledger_mappings k : k ∈ list_fields -> mappings (dget ledger k) = Ok (entries ledger k).
Proof. intros Hk. by rewrite (so_lists _ _ _ _ S), mappings_objs. Qed.

(** The first phase. *)
Lemma first_total : is_ok (ReviewWork.review_work_projection (Phase2._record_with_ledger record ledger) None None) = true.
Proof.
  destruct (prepared_frame record ledger) as (F1 & F2 & F3). unfold ReviewWork.review_work_projection.
  change (register_of (Phase2._record_with_ledger record ledger) None) with (canonical_candidate_register (Phase2._record_with_ledger record ledger)).
  rewrite F1, Hr. cbn [mbind res_bind]. rewrite Hc. cbn [mbind res_bind].
  assert (ReviewWork.ledger_for_record (Phase2._record_with_ledger record ledger) (Some register) = Ok ledger) as ->.
  { unfold ReviewWork.ledger_for_record. rewrite register_read_again by by rewrite F1. cbn [mbind res_bind]. rewrite F2, He. cbn [mbind res_bind].
    rewrite F3. eapply existing_acting; [exact Hc|exact F|apply S]. }
  cbn [mbind res_bind]. apply is_ok_bind.
  { unfold progress_of. apply is_ok_bind; [apply ledger_texts; by left|]. intros qc _. apply is_ok_bind; [apply ledger_texts; right; by left|].
    intros high _. by rewrite ledger_mappings by concrete. }
  intros p _. rewrite ledger_mappings by concrete. cbn [mbind res_bind]. cbv zeta.
  apply is_ok_bind; [apply total_seconds_total, S|]. intros total _.
  rewrite (so_dicts _ _ _ _ S "reviewer_identities"), (so_dicts _ _ _ _ S "assignments") by concrete.
  destruct (jor_obj (member ledger "reviewer_identities")) as [d1 ->]. destruct (jor_obj (member ledger "assignments")) as [d2 ->].
  cbn [py_len mbind res_bind].
  rewrite (so_lists _ _ _ _ S "stakeholder_evidence"), (so_lists _ _ _ _ S "audit_events") by concrete.
  apply is_ok_bind; [apply len_objs|]. intros n1 _. apply is_ok_bind; [apply len_objs|]. done.
Qed.

Lemma sets_total : is_ok (Phase2.sets_of ledger) = true.
Proof.
  unfold Phase2.sets_of. apply is_ok_bind.
  { unfold Phase2._effective_qc_ids. apply is_ok_bind; [apply ledger_texts; by left|]. intros qc _.
    apply is_ok_bind; [by apply configured_listed|]. intros configured _. apply is_ok_bind; [|done]. unfold Phase2.outstanding.
    rewrite (so_dicts _ _ _ _ S "quality_control"), (so_dicts _ _ _ _ S "dispositions"), !as_mapping_or by concrete. cbn [mbind res_bind].
    apply is_ok_bind; [|done]. by apply mapR_is_ok. }
  intros effective _. apply is_ok_bind; [by apply configured_listed|]. intros configured _. apply is_ok_bind; [apply ledger_texts; by left|done].
Qed.

Lemma readiness_total s : is_ok (Phase2.readiness_of candidates ledger s) = true.
Proof.
  unfold Phase2.readiness_of. rewrite ledger_mappings by concrete. cbn [mbind res_bind].
  apply is_ok_bind; [apply ledger_texts; right; by left|done].
Qed.

(** What the parts outside the phases, and the numbers of the report, have to
    allow. *)
Record projectable : Prop := {
  pj_clusters : is_ok (iter_or_empty (dget register "review_workload_clusters")) = true;
  pj_candidates : forall id candidate, (id, candidate) ∈ candidates ->
    is_ok (fingerprint (as_dict candidate)) = true /\ is_ok (Phase2._confidence (as_dict candidate)) = true;
  pj_seconds : forall n, total_seconds (List.filter (has_status "completed") (entries ledger "review_sessions")) = Ok n ->
    is_ok (py_float (JInt n)) = true;
  pj_assistance : forall rows, is_ok (assistance rows (Phase2._scope_binding record)) = true;
  pj_investigation : is_ok (investigation register (Phase2._scope_binding record) record) = true }.

Lemma attention_total candidate : is_ok (Phase2._confidence candidate) = true -> is_ok (Phase2._needs_individual_attention candidate) = true.
Proof.
  intros H. unfold Phase2._needs_individual_attention. destruct (is_true _); [done|]. apply is_ok_bind; [|done].
  destruct (truthy _); [|done]. by apply is_ok_bind.
Qed.
Lemma grouped_total candidate : is_ok (Phase2._confidence candidate) = true -> is_ok (Phase2._grouped_eligible candidate) = true.
Proof.
  intros H%attention_total. unfold Phase2._grouped_eligible. destruct (_ && _); [|done]. by destruct (Phase2._needs_individual_attention _).
Qed.
Lemma row_total s indexes m : is_ok (fingerprint (as_dict (snd m))) = true -> is_ok (Phase2._confidence (as_dict (snd m))) = true ->
  is_ok (Phase2.candidate_row fingerprint s indexes m) = true.
Proof.
  intros Hf Hcf. unfold Phase2.candidate_row. cbv zeta. apply is_ok_bind.
  { unfold Phase2._primary_queue. destruct (is_terminal_disposition _); [done|]. destruct (Phase2._is_material _); [done|].
    apply is_ok_bind; [|done]. destruct (is_mapping _); [done|]. by apply attention_total. }
  intros queue _. apply is_ok_bind; [done|]. intros sha _. apply is_ok_bind; [by apply attention_total|]. intros needs _.
  apply is_ok_bind; [by apply grouped_total|]. intros grouped _. by apply is_ok_bind.
Qed.
Lemma pending_total dispositions (cs : dict) : (forall id c, (id, c) ∈ cs -> is_ok (Phase2._confidence (as_dict c)) = true) ->
  is_ok (Phase2.pending_grouped_of dispositions cs) = true.
Proof.
  induction cs as [|[id c] cs IH]; intros H; [done|]. cbn [Phase2.pending_grouped_of]. apply is_ok_bind.
  { destruct (is_terminal_disposition _); [done|]. apply grouped_total. eapply H. by left. }
  intros b _. apply is_ok_bind; [|done]. apply IH. intros id' c' Hin. eapply H. by right.
Qed.

Lemma catalog_total raw : mappings (dget register "review_workload_clusters") = Ok raw -> Phase2._catalog record = Ok (candidates, raw).
Proof.
  intros Hm. destruct (catalog_same _ _ _ _ Hr Hc) as (fs & Hf & Hfold). unfold Phase2._catalog. rewrite Hr. cbn [mbind res_bind].
  rewrite Hf. cbn [mbind res_bind]. rewrite Hm. cbn [mbind res_bind]. by rewrite Hfold.
Qed.
Lemma raw_total : Safe._raw_candidates record = Ok candidates.
Proof.
  destruct (catalog_same _ _ _ _ Hr Hc) as (fs & Hf & Hfold). unfold Safe._raw_candidates. rewrite Hr. cbn [mbind res_bind].
  rewrite Hf. cbn [mbind res_bind]. by rewrite Hfold.
Qed.

(** The second phase answers, and what it says of rows and clusters. *)
Lemma second_total raw : projectable -> mappings (dget register "review_workload_clusters") = Ok raw ->
  (forall c, c ∈ raw -> is_ok (texts (dget c "candidate_ids")) = true) ->
  exists base, base_of record = Ok base /\ dget base "clusters" = JArr (map JObj raw) /\
    (exists rows, dget base "candidates" = JArr (map JObj rows)) /\ (exists d, dget base "queue_counts" = JObj d) /\
    exists d, dget base "workload_metrics" = JObj d.
Proof.
  intros P Hm Hraw. unfold Phase2.review_work_projection. rewrite Hp. cbn [mbind res_bind]. cbv zeta.
  destruct (is_ok_ex _ first_total) as [base0 ->]. cbn [mbind res_bind]. rewrite (catalog_total _ Hm). cbn [mbind res_bind].
  destruct (is_ok_ex _ sets_total) as [s ->]. cbn [mbind res_bind]. rewrite Hr. cbn [mbind res_bind].
  destruct (catalog_same _ _ _ _ Hr Hc) as (fs & -> & _). cbn [mbind res_bind].
  assert (is_ok (mapR (Phase2.candidate_row fingerprint s (Phase2.source_indexes_of fs)) (sort_members candidates)) = true) as Hrows.
  { apply mapR_is_ok. intros [id c] Hin. rewrite sort_members_perm in Hin. destruct (pj_candidates P _ _ Hin). by apply row_total. }
  destruct (is_ok_ex _ Hrows) as [rows ->]. cbn [mbind res_bind]. destruct (is_ok_ex _ (readiness_total s)) as [r ->]. cbn [mbind res_bind].
  assert (is_ok (Phase2.workload_metrics candidates ledger (map fst rows) raw s r) = true) as Hw.
  { unfold Phase2.workload_metrics. apply is_ok_bind; [apply pending_total; intros id c Hin; by apply (pj_candidates P id)|].
    intros pending _. apply is_ok_bind.
    { apply count_is_ok. intros c Hin. unfold Phase2.remains. apply is_ok_bind; [by apply Hraw|done]. }
    intros remaining _. rewrite ledger_mappings by concrete. cbn [mbind res_bind].
    destruct (is_ok_ex _ (total_seconds_total _ (so_sessions _ _ _ _ S))) as [n Hn]. rewrite Hn. cbn [mbind res_bind].
    rewrite (so_lists _ _ _ _ S "audit_events") by concrete. apply is_ok_bind; [apply len_objs|]. intros interactions _.
    apply is_ok_bind; [by apply (pj_seconds P)|done]. }
  destruct (is_ok_ex _ Hw) as [w ->]. cbn [mbind res_bind]. destruct (is_ok_ex _ (pj_assistance P (map fst rows))) as [ass ->].
  cbn [mbind res_bind]. destruct (is_ok_ex _ (pj_investigation P)) as [inv ->]. cbn [mbind res_bind].
  eexists. split; [done|].
  split_and!; repeat eexists; (rewrite dget_dmerge; [reflexivity|]); unfold keys; cbn [map fst]; concrete.
Qed.

(** So does the exception queue. *)
Lemma projection_total : projectable -> is_ok (projection_of record) = true.
Proof.
  intros P. destruct (raw_clusters_total _ _ _ Hc (pj_clusters P)) as (raw & Hm & Hraw).
  destruct (second_total raw P Hm Hraw) as (base & Hb & Hcl & (rows & Hrows) & (qd & Hqd) & (wd & Hwd)).
  destruct (base_inv _ _ _ _ _ _ Hp Hb) as (cs & cls & s & r & _ & _ & _ & B1 & B2 & B3 & B4 & B5).
  unfold Safe.review_work_projection. rewrite Hb. cbn [mbind res_bind]. rewrite raw_total. cbn [mbind res_bind]. rewrite B1. cbn [as_dict]. cbv zeta.
  destruct (ledger_strs "high_impact_candidate_ids" ltac:(right; by left)) as [high Hhigh]. rewrite Hhigh.
  destruct (is_ok_ex _ (nonempty_strs high)) as [high' Hhigh']. rewrite Hhigh'. cbn [mbind res_bind].
  assert (is_ok (Safe._required_human_candidate_ids record base) = true) as Hreq.
  { unfold Safe._required_human_candidate_ids. rewrite raw_total. cbn [mbind res_bind]. rewrite B2. cbv zeta.
    apply is_ok_bind; [apply nonempty_strs|]. intros qc _. rewrite B1, Hhigh, Hhigh'. done. }
  destruct (is_ok_ex _ Hreq) as [required ->]. cbn [mbind res_bind]. rewrite Hrows, mappings_objs. cbn [mbind res_bind].
  rewrite B2. unfold strs. rewrite iter_array. cbn [mbind res_bind]. rewrite Hcl, mappings_objs. cbn [mbind res_bind].
  match goal with |- is_ok (mapR ?f raw ≫= _) = true => assert (forall l, l = raw -> is_ok (mapR f l) = true /\
    forall grouped, mapR f l = Ok grouped -> forall c, c ∈ map fst grouped -> is_ok (texts (dget c "candidate_ids")) = true) as Hg end.
  { intros l ->. split.
    - apply mapR_is_ok. intros c Hin. unfold Safe.queue_cluster, Safe.nonempty_texts. destruct (is_ok_ex _ (Hraw c Hin)) as [ids ->]. done.
    - intros grouped Hgr c ([c' ids] & -> & Hin)%list_elem_of_fmap. apply (mapR_source _ _ _ _ Hgr) in Hin as (c0 & Hin0 & Hq).
      unfold Safe.queue_cluster in Hq. apply bind_ok_inv in Hq as (ids0 & _ & [= <- _]). cbn [fst]. rewrite dget_dset_ne by done. by apply Hraw. }
  destruct (Hg raw eq_refl) as [Hg1 Hg2]. destruct (is_ok_ex _ Hg1) as [grouped Hgr]. rewrite Hgr. cbn [mbind res_bind]. specialize (Hg2 _ Hgr).
  rewrite B3, B4, B5. unfold strs. rewrite !iter_array. cbn [mbind res_bind]. rewrite Hqd, Hwd.
  apply is_ok_bind.
  { apply count_is_ok. intros c Hin. unfold Safe.cluster_remains. destruct (is_true _); [|done]. unfold Phase2.remains.
    apply is_ok_bind; [by apply Hg2|done]. }
  intros remaining _. destruct (jor_obj qd) as [q1 ->]. destruct (jor_obj wd) as [w1 ->]. done.
Qed.
End Phases.

Section Ready.
Context (fingerprint : dict -> res string) (assistance : list dict -> dict -> res dict) (investigation : dict -> dict -> dict -> res json)
  (local_to_utc : datetime -> datetime).
Abbreviation worked := (works fingerprint assistance investigation local_to_utc).
Abbreviation projection_of := (Safe.review_work_projection fingerprint assistance investigation).
Abbreviation base_of := (Phase2.review_work_projection fingerprint assistance investigation).
Abbreviation ready := (Safe.assert_ready_for_approval fingerprint assistance investigation).

Lemma normalized_sampling ledger : dget (_normalize_review_ledger ledger) "quality_control_sampling" = dget ledger "quality_control_sampling".
Proof. unfold _normalize_review_ledger. case_bool_decide; [by apply dget_dset_ne|done]. Qed.

Lemma works_listed record ledger : worked record ledger -> listed (dget ledger "quality_control_sampling").
Proof.
  induction 1 as [payload now ledger Hno H|ledger record' payload now ledger' W IH C H].
  - apply action_inv in H as (l1 & H & ->). rewrite normalized_sampling.
    assert (_review_action_record record = record) as Hrec by (unfold _review_action_record; by destruct (dget record "review_work_ledger")).
    rewrite Hrec in H. pose proof H as Hp. unfold Phase2.apply_review_work_action in Hp. apply bind_ok_inv in Hp as (p & Hp & _).
    apply prepare_inv in Hp as (l & Hl & _). pose proof Hl as Hl'. unfold ReviewWork.ledger_for_record in Hl'.
    change (register_of record None) with (canonical_candidate_register record) in Hl'.
    apply bind_ok_inv in Hl' as (register & Hr & Hl'). apply bind_ok_inv in Hl' as (expected & He & Hl').
    destruct (empty_ledger_fresh _ _ _ He) as (candidates & clusters & Hc & F). destruct (fresh_sound _ _ _ F) as [Hev S].
    assert (l = expected) as -> by (destruct (dget record "review_work_ledger"); try done; by injection Hl' as <-).
    eapply (request_listed _ register candidates clusters expected expected expected);
      [exact Hr|exact Hc|exact He|exact Hl|by rewrite Hev|by left|by rewrite (expected_unsampled _ _ _ He)|exact H].
  - destruct (works_kept _ _ _ _ _ _ W) as (register & candidates & clusters & expected & K).
    destruct (kept_read _ _ _ _ _ _ _ K C) as (l & Hl & Sl & El & R & Hk & _). destruct K as [Hr Hc He F S Ch Hs B].
    apply action_inv in H as (l1 & H & ->). rewrite normalized_sampling.
    eapply (request_listed _ register candidates clusters expected (acting candidates expected) l);
      [by rewrite (sr_register _ _ R)|exact Hc|by rewrite (same_run_expected _ _ _ R)|exact Hl|exact Sl|by right|by rewrite Hk|exact H].
Qed.

(** ** Theorem *)

End Ready.

Module ReadyDemo.
Import ReviewDemo.

Lemma demo_projectable : projectable fingerprint assistance investigation passed_on register candidates checked_ledger.
Proof.
  assert (total_seconds (List.filter (has_status "completed") (entries checked_ledger "review_sessions")) = Ok 0) as Ht by (vm_compute; reflexivity).
  split; [vm_compute; reflexivity| |intros n; rewrite Ht; intros [= <-]; vm_compute; reflexivity|done|done].
  intros id c [[= -> ->]|[[= -> ->]|[]%elem_of_nil]%elem_of_cons]%elem_of_cons; split; vm_compute; reflexivity.
Qed.

End ReadyDemo.
