(* ===== verification/ReviewGates.v ===== *)
(** * Samples and groups

    Which candidates a quality control sample can hold and which are taken, and
    which groups can be decided at once. *)

From S2P Require Import Prelude PyStr Sha256 PyFloat Json JsonFacts PyTime Orchestration AcceptedEdition HumanEvidence ReviewDecision RunRecord ReviewWork ReviewSampling ReviewQueue ReviewService ReviewWorkFacts ReviewLedger ReviewWorks.

(** ** Lemmas: sorting *)

Section SortBy.
Context {K : Type} (leb : K -> K -> bool) (r : K -> Z).
Hypothesis leb_rank : forall a b, if leb a b then r a <= r b else r b <= r a.

Lemma insert_by_perm x l : Phase2.insert_by leb x l ≡ₚ x :: l.
Proof. induction l as [|y l IH]; cbn [Phase2.insert_by]; [done|]. destruct (leb x y); [done|]. rewrite IH. apply perm_swap. Qed.
Lemma sort_by_perm l : Phase2.sort_by leb l ≡ₚ l.
Proof. induction l as [|x l IH]; cbn; [done|]. by rewrite insert_by_perm, IH. Qed.

Lemma insert_by_sorted x l : StronglySorted (fun a b => r a <= r b) l -> StronglySorted (fun a b => r a <= r b) (Phase2.insert_by leb x l).
Proof using leb_rank.
  induction 1 as [|y l Hl IH Hy]; cbn [Phase2.insert_by]; [repeat constructor|].
  pose proof (leb_rank x y) as Hxy. destruct (leb x y).
  - constructor; [by constructor|]. constructor; [done|]. eapply List.Forall_impl; [|exact Hy]. cbv beta. lia.
  - constructor; [done|]. rewrite Forall_forall in *. intros z Hz. rewrite insert_by_perm in Hz. apply elem_of_cons in Hz as [->|Hz]; auto.
Qed.
Lemma sort_by_sorted l : StronglySorted (fun a b => r a <= r b) (Phase2.sort_by leb l).
Proof using leb_rank. induction l as [|x l IH]; cbn; [constructor|]. by apply insert_by_sorted. Qed.
End SortBy.

(** What is kept of a sorted list is not greater than what is dropped. *)
Lemma take_least {K} (r : K -> Z) n (l : list K) : StronglySorted (fun a b => r a <= r b) l ->
  forall a b, a ∈ take n l -> b ∈ drop n l -> r a <= r b.
Proof.
  revert n. induction l as [|x l IH]; intros n H a b Ha Hb; [destruct n; by apply elem_of_nil in Ha|].
  inversion H as [|? ? Hl Hx]; subst. destruct n as [|n]; [by apply elem_of_nil in Ha|]. cbn [take drop] in *.
  apply elem_of_cons in Ha as [->|Ha]; [|by eapply IH]. rewrite Forall_forall in Hx. apply Hx.
  rewrite <- (take_drop n l). apply elem_of_app. by right.
Qed.

(** ** Lemmas: the population *)

Definition key_rank (k : Z * float * string) : Z := fst (fst k).
Lemma risk_rank a b : if Phase2.risk_leb a b then key_rank a <= key_rank b else key_rank b <= key_rank a.
Proof.
  destruct a as [[r f] i], b as [[s g] j]. unfold Phase2.risk_leb, key_rank. cbn [fst]. destruct (Z.eqb_spec r s) as [->|Hne]; cbn [negb].
  - destruct (negb (feqb f g)); [destruct (fltb f g)|destruct (str_leb i j)]; lia.
  - destruct (Z.ltb_spec r s); lia.
Qed.

(** A candidate that automation settled with confidence, and nothing speaks
    against: what a sample is drawn from. *)
Definition settled (candidate : dict) : Prop :=
  Phase2._verdict candidate = "not_actionable" /\
  (exists f, Phase2._confidence candidate = Ok f /\ fltb f Phase2.confidence_threshold = false) /\
  Phase2._is_material candidate = false /\ Phase2._proof_gaps candidate = [] /\ Phase2._conflicting candidate = false /\
  Phase2._evidence_change candidate ∉ Phase2.changes.

Lemma in_population_iff candidate b : Phase2.in_population candidate = Ok b -> b = true <-> settled candidate.
Proof.
  unfold Phase2.in_population, settled. destruct (String.eqb_spec (Phase2._verdict candidate) "not_actionable") as [Hv|Hv]; cbn [negb].
  - intros H. apply bind_ok_inv in H as (f & Hf & [= <-]).
    rewrite !andb_true_iff, !negb_true_iff, !orb_false_iff, !bool_decide_eq_false, negb_false_iff, bool_decide_eq_true.
    split; [intros [[[? ?] [? ?]] ?]; split_and!; try done; by exists f|].
    intros (_ & (g & Hg & ?) & ? & ? & ? & ?). rewrite Hf in Hg. by injection Hg as <-.
  - intros [= <-]. split; [done|]. by intros [? _].
Qed.

Lemma population_inv candidates population : Phase2.population_of candidates = Ok population ->
  (forall id c, (id, c) ∈ population <-> exists v, (id, v) ∈ candidates /\ c = as_dict v /\ settled c) /\
  sublist (map fst population) (keys candidates).
Proof.
  revert population. induction candidates as [|[id v] candidates IH]; intros population H; cbn [Phase2.population_of] in H.
  { injection H as <-. split; [|constructor]. intros id c. rewrite elem_of_nil. split; [done|]. by intros (? & ?%elem_of_nil & _). }
  apply bind_ok_inv in H as (b & Hb & H). apply bind_ok_inv in H as (rest & Hrest & [= <-]). apply in_population_iff in Hb.
  destruct (IH _ Hrest) as (H1 & H2). split.
  - intros i c. setoid_rewrite elem_of_cons. destruct b.
    + rewrite elem_of_cons, H1. split.
      * intros [[= -> ->]|(w & Hw & ? & ?)]; [exists v; split_and!; [by left|done|by apply Hb]|exists w; split_and!; [by right|done..]].
      * intros (w & [[= -> ->]|Hw] & -> & Hs); [by left|right; by exists w].
    + rewrite H1. split.
      * intros (w & Hw & ? & ?). exists w. split_and!; [by right|done..].
      * intros (w & [[= -> ->]|Hw] & -> & Hs); [by apply Hb in Hs|by exists w].
  - destruct b; cbn [map fst keys]; by constructor.
Qed.

Lemma catalog_keys record candidates clusters : Phase2._catalog record = Ok (candidates, clusters) ->
  NoDup (keys candidates) /\ forall id, id ∈ keys candidates -> strip id = id.
Proof.
  unfold Phase2._catalog. intros H. apply bind_ok_inv in H as (register & _ & H). apply bind_ok_inv in H as (rows & _ & H).
  apply bind_ok_inv in H as (cl & _ & [= <- _]).
  assert (NoDup (keys ([] : dict)) /\ forall id, id ∈ keys ([] : dict) -> strip id = id) as H
    by (split; [apply NoDup_nil_2|by intros ? ?%elem_of_nil]).
  revert H. generalize ([] : dict). induction rows as [|row rows IH]; intros d [Hn Hs]; [done|]. cbn [fold_left]. apply IH.
  unfold Phase2.add_row. destruct (_ && _); [|done]. split; [by apply NoDup_dset|].
  intros id [->|Hk]%dset_keys; [apply text_of_idemp|by apply Hs].
Qed.

(** ** Lemmas: the order a sample is taken in *)

Lemma sample_size_inv requested n k : Phase2.requested_sample_size requested n = Ok k -> (k <= n)%nat.
Proof.
  unfold Phase2.requested_sample_size. destruct (Phase2.missing requested).
  - intros [= <-]. unfold Phase2.default_sample_size. destruct n; lia.
  - destruct (py_int requested) as [z|e]; [|by destruct (_ || _)]. destruct (_ || _) eqn:Hz; [done|]. intros [= <-].
    apply orb_false_iff in Hz as [?%Z.ltb_ge ?%Z.ltb_ge]. lia.
Qed.

Definition severity_rank (candidate : dict) : Z := Phase2.rank (Phase2._severity candidate).

Lemma risk_keys population ks : mapR Phase2._risk_key population = Ok ks ->
  map snd ks = Phase2.ids_of population /\ Forall2 (fun item k => snd k = strip (fst item) /\ key_rank k = - severity_rank (snd item)) population ks.
Proof.
  revert ks. induction population as [|item population IH]; intros ks H; cbn [mapR] in H; [injection H as <-; split; [done|constructor]|].
  apply bind_ok_inv in H as (k & Hk & H). apply bind_ok_inv in H as (rest & Hr & [= <-]). destruct (IH _ Hr) as [H1 H2].
  unfold Phase2._risk_key in Hk. apply bind_ok_inv in Hk as (f & _ & [= <-]).
  split; [unfold Phase2.ids_of in *; cbn [map snd]; by rewrite H1|by constructor].
Qed.

Lemma ordered_perm strategy population ordered : Phase2.ordered_ids strategy population = Ok ordered -> ordered ≡ₚ Phase2.ids_of population.
Proof.
  unfold Phase2.ordered_ids. destruct (String.eqb strategy "risk_weighted"); [|intros [= <-]; apply sorted_perm].
  intros H. apply bind_ok_inv in H as (ks & Hk & [= <-]). rewrite sort_by_perm. by rewrite (proj1 (risk_keys _ _ Hk)).
Qed.

(** With [risk_weighted], what is left out is not more severe than what is taken. *)
Lemma ordered_risk population ordered n a b ca cb : NoDup (Phase2.ids_of population) ->
  Phase2.ordered_ids "risk_weighted" population = Ok ordered -> a ∈ take n ordered -> b ∉ take n ordered ->
  (a, ca) ∈ population -> (b, cb) ∈ population -> strip a = a -> strip b = b -> severity_rank cb <= severity_rank ca.
Proof.
  intros Hn H Ha Hb Hca Hcb Sa Sb. unfold Phase2.ordered_ids in H. cbn [String.eqb Ascii.eqb Bool.eqb] in H.
  apply bind_ok_inv in H as (ks & Hk & [= <-]). destruct (risk_keys _ _ Hk) as [Hids HF].
  assert (NoDup (map snd ks)) as Hns by (by rewrite Hids).
  assert (forall id c, (id, c) ∈ population -> strip id = id -> exists k, k ∈ ks /\ snd k = id /\ key_rank k = - severity_rank c) as Hkey.
  { intros id c Hin Hs. apply list_elem_of_lookup in Hin as [i Hi]. destruct (Forall2_lookup_l _ _ _ _ _ HF Hi) as (k & Hk' & H1 & H2).
    exists k. split; [by eapply list_elem_of_lookup_2|]. cbn [fst snd] in *. by rewrite H1, Hs. }
  destruct (Hkey _ _ Hca Sa) as (ka & Ka & Ka1 & Ka2), (Hkey _ _ Hcb Sb) as (kb & Kb & Kb1 & Kb2).
  set (l := Phase2.sort_by Phase2.risk_leb ks) in *. assert (l ≡ₚ ks) as Hp by apply sort_by_perm.
  assert (forall k k', k ∈ ks -> k' ∈ ks -> snd k = snd k' -> k = k') as Hinj.
  { clear - Hns. induction ks as [|x ks IH]; [by intros ? ? ?%elem_of_nil|]. apply NoDup_cons in Hns as [Hx Hns].
    intros k k' [->|Hk]%elem_of_cons [->|Hk']%elem_of_cons He; try done.
    - destruct Hx. rewrite He. by apply list_elem_of_fmap_2.
    - destruct Hx. rewrite <- He. by apply list_elem_of_fmap_2.
    - by apply IH. }
  assert (ka ∈ take n l) as Hta.
  { rewrite <- fmap_take in Ha. apply list_elem_of_fmap in Ha as (k & Hk1 & Hk2). rewrite (Hinj ka k); [done|done| |congruence].
    rewrite <- Hp, <- (take_drop n l). apply elem_of_app. by left. }
  assert (kb ∈ drop n l) as Htb.
  { assert (kb ∈ l) as Hin by (by rewrite Hp). rewrite <- (take_drop n l) in Hin. apply elem_of_app in Hin as [Hin|]; [|done].
    destruct Hb. rewrite <- Kb1, <- fmap_take. by apply list_elem_of_fmap_2. }
  pose proof (take_least key_rank n l (sort_by_sorted _ _ risk_rank ks) ka kb Hta Htb). lia.
Qed.

(** What the choice of a sample writes. *)
Lemma configure_inv record ledger payload now ledger' : Phase2._configure_sampling record ledger payload now = Ok ledger' ->
  exists strategy population n ordered candidates clusters basis by_ role at_,
    strategy ∈ Phase2._ALLOWED_SAMPLING_STRATEGIES /\ Phase2._qc_population record = Ok population /\
    Phase2.requested_sample_size (dget payload "sample_size") (length population) = Ok n /\
    Phase2.ordered_ids strategy population = Ok ordered /\ Phase2._catalog record = Ok (candidates, clusters) /\
    dget ledger' "quality_control_sampling" =
      JObj (Phase2.sampling_configuration strategy (sorted (Phase2.ids_of population)) (take n ordered) basis by_ role at_).
Proof.
  unfold Phase2._configure_sampling. cbv zeta. intros H. apply bind_ok_inv in H as ([reviewer role] & Hh & H).
  apply bind_ok_inv in H as (u & Hu & H). apply unless_ok, bool_decide_eq_true in Hu. apply bind_ok_inv in H as (population & Hp & H).
  apply bind_ok_inv in H as (n & Hn & H). apply bind_ok_inv in H as (ordered & Ho & H). apply bind_ok_inv in H as ([cs cl] & Hc & H).
  apply bind_ok_inv in H as (reasons & _ & H). do 10 eexists. split_and!; [exact Hu|exact Hp| |exact Ho|exact Hc|].
  - rewrite <- Hn. f_equal. rewrite sorted_perm. unfold Phase2.ids_of. by rewrite length_map.
  - apply bind_ok_inv in H as (l & Hl & H). unfold Phase2._record_reviewer_identity, _reviewer_identity in Hl.
    apply bind_ok_inv in Hl as (ids & _ & [= <-]). unfold Phase2._append_event, ReviewWork._append_event in H.
    apply bind_ok_inv in H as (? & Ha & [= <-]). apply bind_ok_inv in Ha as (? & _ & [= <-]).
    rewrite !dget_dset_ne by done. by rewrite dget_dset_eq.
Qed.

(** C9: A sample of quality control is what it says.  It is drawn from exactly
    the candidates that automation settled with confidence and nothing speaks
    against, has the size that was asked for (which is at most theirs), and names
    nobody twice; with [deterministic] it is the first ids in order, so it cannot
    be steered; with [risk_weighted] no candidate is left out that is more
    severe than one that was taken. *)
Theorem sampling_spec record ledger payload now ledger' : Phase2._configure_sampling record ledger payload now = Ok ledger' ->
  exists candidates clusters population config n selected,
    Phase2._catalog record = Ok (candidates, clusters) /\ dget ledger' "quality_control_sampling" = JObj config /\
    dget config "population_candidate_ids" = strs population /\ dget config "selected_candidate_ids" = strs selected /\
    NoDup population /\ (forall id, id ∈ population <-> id ∈ keys candidates /\ settled (as_dict (dget candidates id))) /\
    Phase2.requested_sample_size (dget payload "sample_size") (length population) = Ok n /\ length selected = n /\
    NoDup selected /\ (forall id, id ∈ selected -> id ∈ population) /\
    (dget config "sampling_strategy" = JStr "deterministic" /\ selected = take n population \/
     dget config "sampling_strategy" = JStr "risk_weighted" /\
       forall a b, a ∈ selected -> b ∈ population -> b ∉ selected ->
         severity_rank (as_dict (dget candidates b)) <= severity_rank (as_dict (dget candidates a))).
Proof.
  intros H. destruct (configure_inv _ _ _ _ _ H) as (strategy & population & n & ordered & cs & cl & basis & by_ & role & at_ & Hst & Hp & Hn & Ho & Hc & Hcfg).
  destruct (catalog_keys _ _ _ Hc) as [Hnd Hs]. unfold Phase2._qc_population in Hp. rewrite Hc in Hp. cbn [mbind res_bind] in Hp.
  destruct (population_inv _ _ Hp) as [Hpop Hsub]. pose proof (ordered_perm _ _ _ Ho) as Hperm.
  assert (Phase2.ids_of population = map fst population) as Hids.
  { unfold Phase2.ids_of. rewrite <- (map_map fst strip). apply stripped. intros s Hin. apply Hs. by eapply sublist_subseteq. }
  assert (NoDup (Phase2.ids_of population)) as Hnp by (rewrite Hids; by eapply sublist_NoDup).
  assert (length (sorted (Phase2.ids_of population)) = length population) as Hlen by (rewrite sorted_perm, Hids; apply length_map).
  assert (forall id, id ∈ map fst population <-> id ∈ keys cs /\ settled (as_dict (dget cs id))) as Helem.
  { intros id. split.
    - intros ([i c] & -> & Hin)%list_elem_of_fmap. apply Hpop in Hin as (v & Hin & -> & Hset). cbn [fst].
      split; [apply keys_elem; by exists v|]. by rewrite (dget_elem _ _ _ Hnd Hin).
    - intros [[v Hin]%keys_elem Hset]. rewrite (dget_elem _ _ _ Hnd Hin) in Hset. apply list_elem_of_fmap. exists (id, as_dict v).
      split; [done|]. apply Hpop. by exists v. }
  exists cs, cl, (sorted (Phase2.ids_of population)), (Phase2.sampling_configuration strategy (sorted (Phase2.ids_of population)) (take n ordered) basis by_ role at_), n, (take n ordered).
  split_and!; try done; [by rewrite sorted_perm| | | | | |].
  - intros id. by rewrite elem_sorted, Hids.
  - by rewrite Hlen.
  - apply sample_size_inv in Hn. rewrite length_take. apply Permutation_length in Hperm. rewrite Hids, length_map in Hperm. lia.
  - eapply sublist_NoDup; [|apply (sublist_take ordered n)]. by rewrite Hperm.
  - intros id Hin. rewrite elem_sorted, <- Hperm. by eapply sublist_subseteq; [apply sublist_take|].
  - unfold Phase2._ALLOWED_SAMPLING_STRATEGIES in Hst. rewrite !elem_of_cons, elem_of_nil in Hst. destruct Hst as [->|[->|[]]].
    + left. split; [done|]. unfold Phase2.ordered_ids in Ho. by injection Ho as <-.
    + right. split; [done|]. intros a b Ha Hb Hnb. rewrite elem_sorted, Hids in Hb.
      assert (a ∈ map fst population) as Ha' by (rewrite <- Hids, <- Hperm; by eapply sublist_subseteq; [apply sublist_take|]).
      assert (forall id, id ∈ map fst population -> (id, as_dict (dget cs id)) ∈ population) as Hin.
      { intros id [[v Hv]%keys_elem Hset]%Helem. rewrite (dget_elem _ _ _ Hnd Hv) in *. apply Hpop. by exists v. }
      eapply (ordered_risk population ordered n a b); try done; [by apply Hin|by apply Hin|..]; apply Hs; by apply Helem.
Qed.

(** ** Lemmas: what the exception queue shows *)

Lemma pairs_elem (l : dict) k : dget (dict_of_pairs l) k <> JNull -> (k, dget (dict_of_pairs l) k) ∈ l.
Proof.
  unfold dict_of_pairs. assert (forall d : dict, dget (fold_left (fun d m => dset d (fst m) (snd m)) l d) k <> JNull ->
    (k, dget (fold_left (fun d m => dset d (fst m) (snd m)) l d) k) ∈ l \/
    dget (fold_left (fun d m => dset d (fst m) (snd m)) l d) k = dget d k) as H.
  { induction l as [|[k' v] l IH]; intros d Hd; cbn [fold_left fst snd] in *; [by right|].
    destruct (IH _ Hd) as [Hin|He]; [left; by right|]. rewrite He. destruct (decide (k = k')) as [->|Hne].
    - left. rewrite dget_dset_eq. by left.
    - right. by apply dget_dset_ne. }
  intros Hk. destruct (H [] Hk) as [|He]; [done|]. by rewrite He in Hk.
Qed.

Lemma by_text_inv k l d id c : Safe.by_text k (JArr (map JObj l)) = Ok d -> dget d id = JObj c ->
  c ∈ l /\ text_of (dget c k) = id.
Proof.
  unfold Safe.by_text. rewrite mappings_objs. cbn [mbind res_bind]. intros [= <-] H.
  match type of H with dget (dict_of_pairs ?x) _ = _ => pose proof (pairs_elem x id) as Hin end. rewrite H in Hin.
  specialize (Hin ltac:(discriminate)). apply list_elem_of_fmap in Hin as (r & [= He ->] & [Hr _]%filter_elem). by rewrite He.
Qed.

(** A row that is no obstacle to a decision about its group. *)
Lemma safe_row s existing id : text_of (dget (Safe.queue_row s existing) "candidate_id") = id ->
  Safe.unsafe_in_group (JObj (Safe.queue_row s existing)) = false ->
  let source := as_dict (Phase2.get_default (Safe.qs_raw s) id (JObj existing)) in
  id ∉ Safe.qs_completed s /\ id ∉ Safe.qs_high s /\ Safe._route source = "HUMAN_TECHNICAL_REVIEW" /\ Safe._raw_grouped source = true.
Proof.
  unfold Safe.queue_row, Safe.unsafe_in_group. cbv zeta. set (i := text_of (dget existing "candidate_id")).
  match goal with |- context [dmerge existing ?x] => set (fields := x) end.
  assert (forall q, text_of (dget (if String.eqb (Safe.human_state s i) "automated_triage_complete"
      then dset (dmerge existing fields) "primary_review_queue" q else dmerge existing fields) "candidate_id") = i) as Hi.
  { intros q. destruct (String.eqb (Safe.human_state s i) "automated_triage_complete"); rewrite ?dget_dset_ne by done; (rewrite dget_dmerge; [reflexivity|unfold fields, keys; cbn [map fst]; concrete]). }
  rewrite Hi. intros <-. clear Hi.
  assert (forall q k, k <> "primary_review_queue" -> dget (if String.eqb (Safe.human_state s i) "automated_triage_complete"
      then dset (dmerge existing fields) "primary_review_queue" q else dmerge existing fields) k = dget (dmerge existing fields) k) as Hk.
  { intros q k Hne. destruct (String.eqb (Safe.human_state s i) "automated_triage_complete"); [by apply dget_dset_ne|done]. }
  rewrite (Hk _ "individual_attention_required"), (Hk _ "grouped_review_eligible"), (Hk _ "human_disposition_state") by done. clear Hk.
  assert (NoDup (keys fields)) as Hn by (unfold fields, keys; cbn [map fst]; concrete). rewrite !dget_dmerge by exact Hn.
  unfold fields. cbn [dlookup String.eqb Ascii.eqb Bool.eqb fst snd]. cbn [is_true]. rewrite text_of_str.
  intros [[[_ Hg%negb_false_iff]%orb_false_iff _]%orb_false_iff Hst]%orb_false_iff.
  apply andb_true_iff in Hg as [[[Hraw Hroute%String.eqb_eq]%andb_true_iff Hh%negb_true_iff%bool_decide_eq_false]%andb_true_iff _].
  split_and!; try done. intros Hc. unfold Safe.human_state in Hst. by rewrite (bool_decide_eq_true_2 _ Hc) in Hst.
Qed.

Section Shown.
Context (fingerprint : dict -> res string) (assistance : list dict -> dict -> res dict) (investigation : dict -> dict -> dict -> res json)
  (local_to_utc : datetime -> datetime).

Lemma rows_inv record ledger projection : Phase2._prepare_ledger record = Ok ledger ->
  Safe.review_work_projection fingerprint assistance investigation record = Ok projection ->
  exists raw s existing clusters, Safe._raw_candidates record = Ok raw /\ Safe.qs_raw s = raw /\
    Safe.qs_completed s = Safe.ids_where is_terminal_disposition (member ledger "dispositions") /\
    Safe.nonempty_texts (dget ledger "high_impact_candidate_ids") = Ok (Safe.qs_high s) /\
    dget projection "candidates" = JArr (map JObj (map (Safe.queue_row s) existing)) /\
    dget projection "clusters" = JArr (map JObj clusters) /\
    forall c, c ∈ clusters -> exists c0 g, c = dset c0 "grouped_review_eligible" (JBool g) /\
      exists cs cls, Phase2._catalog record = Ok (cs, cls) /\ c0 ∈ cls.
Proof.
  intros Hp H. unfold Safe.review_work_projection in H. apply bind_ok_inv in H as (base & Hb & H).
  destruct (base_inv _ _ _ _ _ _ Hp Hb) as (cs & cls & s0 & r & Hc & Hs & Hr & B1 & _).
  apply bind_ok_inv in H as (raw & Hraw & H). rewrite B1 in H. cbn [as_dict] in H. cbv zeta in H.
  apply bind_ok_inv in H as (high & Hh & H). apply bind_ok_inv in H as (required & Hreq & H).
  apply bind_ok_inv in H as (existing & _ & H). apply bind_ok_inv in H as (qc_ids & _ & H). apply bind_ok_inv in H as (raw_clusters & Hrc & H).
  apply bind_ok_inv in H as (grouped & Hg & H). do 6 (apply bind_ok_inv in H as (? & _ & H)).
  match goal with H : context [Safe.QueueSets ?a ?b ?c ?d ?e] |- _ => set (s := Safe.QueueSets a b c d e) in * end.
  apply Ok_inj in H as <-. exists raw, s, existing, (map fst grouped).
  split; [done|]. split; [done|]. split; [done|]. split; [exact Hh|].
  split; [rewrite dget_dmerge; [reflexivity|unfold keys; cbn [map fst]; concrete]|].
  split; [rewrite dget_dmerge; [reflexivity|unfold keys; cbn [map fst]; concrete]|].
  intros c ([c' ids] & -> & Hin)%list_elem_of_fmap. apply mapR_ok in Hg. apply list_elem_of_lookup in Hin as [i Hi].
  destruct (Forall2_lookup_r _ _ _ _ _ Hg Hi) as (c0 & Hi0 & Hq). unfold Safe.queue_cluster in Hq. apply bind_ok_inv in Hq as (m & _ & Hq).
  cbv zeta in Hq. apply Ok_inj in Hq. apply (f_equal fst) in Hq. cbn [fst] in *. exists c0. eexists. split; [by rewrite <- Hq|].
  exists cs, cls. split; [done|]. assert (raw_clusters = cls) as <-; [|by eapply list_elem_of_lookup_2].
  clear - Hb Hc Hrc. unfold Phase2.review_work_projection in Hb. do 2 (apply bind_ok_inv in Hb as (? & _ & Hb)).
  apply bind_ok_inv in Hb as ([cs' cls'] & Hc' & Hb). rewrite Hc in Hc'. injection Hc' as <- <-. cbv zeta in Hb.
  do 8 (apply bind_ok_inv in Hb as (? & _ & Hb)). apply Ok_inj in Hb as <-.
  rewrite dget_dmerge in Hrc by (unfold keys; cbn [map fst]; concrete).
  change (mappings (JArr (map JObj cls)) = Ok raw_clusters) in Hrc. rewrite mappings_objs in Hrc. by injection Hrc.
Qed.
End Shown.

(** ** Lemmas: a decision about a group *)

Lemma dispose_inv candidates payload reviewer role now source cluster_id group targets d d' :
  dispose candidates payload reviewer role now source cluster_id group targets d = Ok d' -> forall id,
  (id ∉ targets -> dget d' id = dget d id) /\
  (id ∈ targets -> exists e, dget d' id = JObj e /\ dget e "cluster_id" = JStr cluster_id /\ dget e "source" = JStr source).
Proof.
  revert d. induction targets as [|t targets IH]; intros d H id; cbn [dispose] in H.
  - injection H as <-. split; [done|by intros ?%elem_of_nil].
  - apply bind_ok_inv in H as (e & _ & H). destruct (IH _ H id) as [H1 H2]. split.
    + intros [Hne Hni]%not_elem_of_cons. rewrite H1 by done. by apply dget_dset_ne.
    + destruct (decide (id ∈ targets)) as [Hi|Hi]; [by intros _; apply H2|]. intros [->|?]%elem_of_cons; [|done].
      rewrite H1, dget_dset_eq by done. eexists. split; [reflexivity|]. by split.
Qed.

Lemma group_inv u record payload now ledger' : ReviewWork.apply_review_work_action u record payload now = Ok ledger' ->
  casefold (text_of (dget payload "action")) = "disposition_group" ->
  exists register candidates clusters l0 ids d d', canonical_candidate_register record = Ok register /\
    ReviewWork._catalog register = Ok (candidates, clusters) /\ ReviewWork.ledger_for_record record (Some register) = Ok l0 /\
    text_of (dget payload "cluster_id") ∈ keys clusters /\
    _cluster_members (as_dict (dget clusters (text_of (dget payload "cluster_id")))) = Ok ids /\
    dict_member l0 "dispositions" = Ok d /\ dget ledger' "dispositions" = JObj d' /\
    forall id, (id ∉ ids -> dget d' id = dget d id) /\
      (id ∈ ids -> exists e, dget d' id = JObj e /\ dget e "cluster_id" = JStr (text_of (dget payload "cluster_id")) /\ dget e "source" = JStr "group").
Proof.
  unfold ReviewWork.apply_review_work_action. cbv zeta. intros H Hact. rewrite Hact in H. apply bind_ok_inv in H as (? & _ & H).
  apply bind_ok_inv in H as ([reviewer role] & Hh & H). apply bind_ok_inv in H as (? & _ & H).
  apply bind_ok_inv in H as (register & Hr & H). apply bind_ok_inv in H as ([candidates clusters] & Hc & H).
  apply bind_ok_inv in H as (l0 & H0 & H). apply bind_ok_inv in H as (l1 & H1 & H). apply bind_ok_inv in H as ([l2 audit] & H2 & H).
  apply bind_ok_inv in H as (l3 & H3 & [= <-]). unfold ReviewWork._append_event in H3. apply bind_ok_inv in H3 as (events & _ & [= <-]).
  unfold _reviewer_identity in H1. apply bind_ok_inv in H1 as (who & _ & [= <-]).
  unfold act in H2. cbn [String.eqb Ascii.eqb Bool.eqb] in H2.
  match type of H2 with _ <$> ?r = _ => destruct r as [l|] eqn:Hg; [|done] end. injection H2 as <- _.
  unfold disposition_group, asked in Hg. cbv zeta in Hg. destruct (negb (has_key clusters _)) eqn:Hk; [done|].
  apply negb_false_iff, bool_decide_eq_true in Hk. destruct (_ || _ || _) in Hg; [done|]. apply bind_ok_inv in Hg as (ids & Hids & Hg).
  apply bind_ok_inv in Hg as (d & Hd & Hg). apply bind_ok_inv in Hg as (gid & _ & Hg). apply bind_ok_inv in Hg as (d' & Hd' & [= <-]).
  exists register, candidates, clusters, l0, ids, d, d'.
  assert (dict_member l0 "dispositions" = Ok d) as Hd0 by (rewrite <- Hd; unfold dict_member; by rewrite dget_dset_ne).
  split_and!; try done; [rewrite !dget_dset_ne by done; apply dget_dset_eq|]. intros id. by eapply dispose_inv in Hd'.
Qed.

(** The catalogs of the two phases. *)
Lemma clusters_same candidates items acc clusters : catalog_clusters candidates items acc = Ok clusters ->
  clusters = acc ++ map (fun i => (text_of (dget (as_dict i) "cluster_id"), i)) items /\ forallb is_mapping items = true.
Proof.
  revert acc. induction items as [|item items IH]; intros acc H; cbn [catalog_clusters] in H; [injection H as <-; by rewrite app_nil_r|].
  destruct item as [| | | | | |item]; try done. destruct (_ || has_key acc _) eqn:Hid; [done|].
  apply orb_false_iff in Hid as [_ Hk]. apply bool_decide_eq_false in Hk. apply bind_ok_inv in H as (ids & _ & H).
  destruct (_ || _) in H; [done|]. destruct (negb _) in H; [done|]. apply IH in H as [-> Hm]. rewrite dset_app by done.
  split; [by rewrite <- app_assoc|done].
Qed.

Lemma no_mappings v rows : (forall l, v <> JArr l) -> mappings v = Ok rows -> rows = [].
Proof.
  intros Hv H. unfold mappings, iter_or_empty in H. apply bind_ok_inv in H as (l & Hl & [= <-]).
  destruct (py_truthy v); [|by injection Hl as <-]. assert (List.filter is_mapping l = []) as ->; [|done]. apply filter_none.
  unfold py_iter in Hl. destruct v as [| | | |s|l'|d]; try discriminate Hl; [|by destruct (Hv l')|]; injection Hl as <-; intros x Hx.
  - induction s as [|a s IH]; cbn [str_chars] in Hx; [by apply elem_of_nil in Hx|]. apply elem_of_cons in Hx as [->|Hx]; [done|by apply IH].
  - by apply list_elem_of_fmap in Hx as (y & -> & _).
Qed.

Lemma cluster_read record register candidates clusters cs cls c : canonical_candidate_register record = Ok register ->
  ReviewWork._catalog register = Ok (candidates, clusters) -> Phase2._catalog record = Ok (cs, cls) -> c ∈ cls ->
  dget clusters (text_of (dget c "cluster_id")) = JObj c.
Proof.
  intros Hr Hc Hp Hin. destruct (catalog_inv _ _ _ Hc) as (fs & _ & _ & _ & Hn & _). unfold ReviewWork._catalog in Hc.
  apply bind_ok_inv in Hc as (fs' & _ & Hc). cbv zeta in Hc. apply bind_ok_inv in Hc as (cl & Hcl & Hc). destruct (_ && _) in Hc; [done|].
  apply bind_ok_inv in Hc as (ms & _ & Hc). destruct (_ || _ || _) in Hc; [done|]. injection Hc as _ ->.
  unfold Phase2._catalog in Hp. rewrite Hr in Hp. cbn [mbind res_bind] in Hp. apply bind_ok_inv in Hp as (? & _ & Hp).
  apply bind_ok_inv in Hp as (cls' & Hm & [= _ <-]).
  destruct (dget register "review_workload_clusters") as [| | | | |raw|] eqn:Hd;
    try (apply no_mappings in Hm; [by rewrite Hm in Hin; apply elem_of_nil in Hin|done]).
  apply clusters_same in Hcl as [-> Hall]. apply dget_elem; [done|]. unfold mappings in Hm. rewrite iter_array in Hm.
  cbn [mbind res_bind] in Hm. injection Hm as <-. apply list_elem_of_fmap in Hin as (v & -> & [Hv Hmv]%filter_elem).
  destruct v; try done. cbn [app as_dict]. apply list_elem_of_fmap. by eexists; split; [|exact Hv].
Qed.

Section Group.
Context (fingerprint : dict -> res string) (assistance : list dict -> dict -> res dict) (investigation : dict -> dict -> dict -> res json)
  (local_to_utc : datetime -> datetime).
Abbreviation action := (review_action fingerprint assistance investigation local_to_utc).
Abbreviation works := (works fingerprint assistance investigation local_to_utc).

(** A candidate that people review, and may review together with others. *)
Definition reviewable_in_group (candidate : dict) : Prop :=
  high_impact candidate = false /\ Safe._route candidate = "HUMAN_TECHNICAL_REVIEW" /\ Safe._raw_grouped candidate = true.

(** What the test of a group lets through. *)
Lemma validated_inv record register candidates clusters ledger events goal payload ids :
  canonical_candidate_register record = Ok register -> ReviewWork._catalog register = Ok (candidates, clusters) ->
  Phase2._prepare_ledger record = Ok ledger -> sound events candidates goal ledger ->
  dget ledger "high_impact_candidate_ids" = strs (_high_impact_ids candidates) ->
  _cluster_members (as_dict (dget clusters (text_of (dget payload "cluster_id")))) = Ok ids ->
  Safe._validate_group_disposition fingerprint assistance investigation record payload = Ok tt ->
  forall id, id ∈ ids -> id ∈ keys candidates ->
    reviewable_in_group (as_dict (dget candidates id)) /\ is_terminal_disposition (decision ledger id) = false.
Proof.
  intros Hr Hc Hp S Hhigh Hids H id Hid Hk. set (candidate := as_dict (dget candidates id)). unfold Safe._validate_group_disposition in H. cbv zeta in H.
  apply bind_ok_inv in H as (? & _ & H). apply bind_ok_inv in H as (projection & Hproj & H).
  destruct (rows_inv _ _ _ _ _ _ Hp Hproj) as (raw & s & existing & shown & Hraw & Hs1 & Hs2 & Hs3 & Hrows & Hshown & Hcl).
  rewrite Hrows, Hshown in H. apply bind_ok_inv in H as (by_id & Hby & H).
  destruct (dget by_id (text_of (dget payload "cluster_id"))) as [| | | | | |cluster] eqn:Hcluster; try done.
  destruct (by_text_inv _ _ _ _ _ Hby Hcluster) as [Hin Hname]. destruct (Hcl _ Hin) as (c0 & g & -> & cs & cls & Hcat & Hc0).
  rewrite dget_dset_ne in Hname by done. apply bind_ok_inv in H as (? & _ & H). apply bind_ok_inv in H as (rows & Hby' & H).
  apply bind_ok_inv in H as (members & Hm & H). apply bind_ok_inv in H as (? & _ & H). apply bind_ok_inv in H as (? & Hu & _).
  apply unless_ok, bool_decide_eq_true in Hu. rewrite filter_none in Hu.
  pose proof (cluster_read _ _ _ _ _ _ _ Hr Hc Hcat Hc0) as Hread. rewrite Hname in Hread. rewrite Hread in Hids. cbn [as_dict] in Hids.
  rewrite dget_dset_ne in Hm by done. unfold Safe.nonempty_texts in Hm. unfold _cluster_members in Hids. rewrite Hids in Hm.
  cbn [mbind res_bind] in Hm. injection Hm as <-.
  assert (Safe.unsafe_in_group (dget rows id) = false) as Hsafe by (apply Hu, filter_elem; split; [done|by eapply ids_truthy]).
  destruct (dget rows id) as [| | | | | |row] eqn:Hrow; try done. destruct (by_text_inv _ _ _ _ _ Hby' Hrow) as [Hinr Hnr].
  apply list_elem_of_fmap in Hinr as (row0 & -> & _). destruct (safe_row _ _ _ Hnr Hsafe) as (G1 & G2 & G3 & G4). clear Hu Hby Hby' Hproj.
  destruct (catalog_same _ _ _ _ Hr Hc) as (findings & Hf & Hfold). destruct (catalog_inv _ _ _ Hc) as (fs & _ & _ & Hfs & _).
  assert (raw = candidates) as ->.
  { unfold Safe._raw_candidates in Hraw. rewrite Hr in Hraw. cbn [mbind res_bind] in Hraw. rewrite Hf in Hraw. cbn [mbind res_bind] in Hraw.
    injection Hraw as <-. exact Hfold. }
  assert (as_dict (Phase2.get_default (Safe.qs_raw s) id (JObj row0)) = candidate) as Hsrc.
  { rewrite Hs1. unfold Phase2.get_default, candidate, dget. destruct (dlookup id candidates) eqn:Hl; [done|]. by apply dlookup_None in Hl. }
  rewrite Hsrc in G3, G4. unfold reviewable_in_group. split; [split_and!; try done|].
  - apply not_true_iff_false. intros Hh. apply G2. unfold Safe.nonempty_texts in Hs3. rewrite Hhigh, texts_array in Hs3.
    cbn [mbind res_bind] in Hs3. rewrite (stripped (_high_impact_ids candidates)) in Hs3 by (rewrite Hfs; apply high_stripped).
    injection Hs3 as <-. apply filter_elem. split; [by apply (high_elem _ _ Hfs)|by eapply ids_truthy].
  - apply not_true_iff_false. intros Ht. apply G1. rewrite Hs2. by apply (where_iff _ _ _ _ _ S Hfs).
Qed.
(** The decisions the first phase starts from are those of the ledger. *)
Lemma reread_decisions record register candidates clusters expected ledger record' prepared l0 :
  kept record register candidates clusters expected ledger -> carries record ledger record' ->
  Phase2._prepare_ledger (_review_action_record record') = Ok prepared ->
  ReviewWork.ledger_for_record (Phase2._record_with_ledger (_review_action_record record') prepared) (Some register) = Ok l0 ->
  dict_member l0 "dispositions" = Ok (member ledger "dispositions").
Proof.
  intros K C Hp H0. destruct (kept_read _ _ _ _ _ _ _ K C) as (l & Hl & Sl & _ & R & Hk & _).
  destruct (prepare_inv _ _ Hp) as (l' & Hl' & Ha & _). rewrite Hl in Hl'. injection Hl' as <-.
  assert (dget l "dispositions" = JObj (member ledger "dispositions")) as Hd.
  { rewrite Hk by done. apply (so_dicts _ _ _ _ (ke_sound _ _ _ _ _ _ K)). concrete. }
  assert (dget l0 "dispositions" = JObj (member ledger "dispositions")) as Hd0.
  { destruct (reread (_review_action_record record') register candidates clusters expected (acting candidates expected) l) with prepared l0 as [->| ->];
      try done; [by rewrite (sr_register _ _ R); apply K|apply K|by rewrite (same_run_expected _ _ _ R); apply K|by right|by rewrite Ha by concrete]. }
  unfold dict_member. rewrite Hd0. by destruct (member ledger "dispositions").
Qed.

(** C8: A decision about a group is safe.  When the service accepts one for a
    review that is under way, the cluster is one of the report's and every member
    of it was routed to technical review, may be reviewed in a group, is not of
    high impact and had no final decision, which a group decision would replace;
    exactly the members get the decision, which names the cluster, and what the
    ledger says about all other candidates is unchanged. *)
Theorem group_decision_safe record ledger record' payload now ledger' : works record ledger -> carries record ledger record' ->
  action record' payload now = Ok ledger' -> casefold (text_of (dget payload "action")) = "disposition_group" ->
  exists register candidates clusters ids, canonical_candidate_register record = Ok register /\
    ReviewWork._catalog register = Ok (candidates, clusters) /\ text_of (dget payload "cluster_id") ∈ keys clusters /\
    _cluster_members (as_dict (dget clusters (text_of (dget payload "cluster_id")))) = Ok ids /\
    (forall id, id ∈ ids -> reviewable_in_group (as_dict (dget candidates id)) /\ is_terminal_disposition (decision ledger id) = false) /\
    forall id, (id ∉ ids -> decision ledger' id = decision ledger id) /\
      (id ∈ ids -> exists e, decision ledger' id = JObj e /\ dget e "cluster_id" = JStr (text_of (dget payload "cluster_id")) /\
                     dget e "source" = JStr "group").
Proof.
  intros (register & candidates & clusters & expected & K)%works_kept C H Hact.
  destruct (prepared_read _ _ _ _ _ _ _ K C) as (l & Hl & _ & Sl & Hk & _ & R).
  unfold review_action in H. apply bind_ok_inv in H as (ledger1 & H & [= <-]). unfold Safe.apply_review_work_action in H. rewrite Hact in H.
  cbn [String.eqb Ascii.eqb Bool.eqb] in H. apply bind_ok_inv in H as ([] & Hval & H).
  unfold Phase2.apply_review_work_action in H. cbv zeta in H. rewrite Hact, Hl in H. cbn [mbind res_bind String.eqb Ascii.eqb Bool.eqb] in H.
  apply bind_ok_inv in H as (updated & Hu & H). apply bind_ok_inv in H as (fp & Hfp & H). apply binding_inv in H as [Ha _]; [|done].
  apply group_inv in Hu as (rg & cs & cl & l0 & ids & d & d' & Hr & Hc & H0 & Hin & Hids & Hd & Hd' & Heff); [|done].
  destruct (prepared_frame (_review_action_record record') l) as (F1 & _ & _). rewrite F1 in Hr. pose proof Hr as Hr'.
  rewrite (sr_register _ _ R), (ke_register _ _ _ _ _ _ K) in Hr'. injection Hr' as <-. rewrite (ke_catalog _ _ _ _ _ _ K) in Hc. injection Hc as <- <-.
  rewrite (reread_decisions _ _ _ _ _ _ _ _ _ K C Hl H0) in Hd. injection Hd as <-.
  exists register, candidates, clusters, ids. split; [apply K|]. split; [apply K|]. split; [done|]. split; [done|]. split.
  - intros id Hid. assert (decision ledger id = decision l id) as -> by (unfold decision, member; by rewrite Hk).
    eapply validated_inv; try done; [apply K| |].
    + rewrite (so_fixed _ _ _ _ Sl), acting_frame by concrete. apply (ke_fresh _ _ _ _ _ _ K).
    + eapply members_known; [apply K| |exact Hids|exact Hid]. by apply bool_decide_eq_true.
  - intros id. assert (member (_normalize_review_ledger ledger1) "dispositions" = d') as Hm.
    { apply member_eq. rewrite <- Hd'. unfold _normalize_review_ledger. case_bool_decide; rewrite ?dget_dset_ne by done; apply Ha; concrete. }
    unfold decision at 1 3. rewrite Hm. apply Heff.
Qed.
End Group.

(** A confidence that is no number counts as certainty. *)
Lemma nan_is_certain : Phase2._confidence [("technical_triage", JObj [("confidence", JStr "nan")])] = Ok (float_of_Z 1).
Proof. vm_compute. reflexivity. Qed.

(** ** A run with a group and two settled candidates *)

Module GatesDemo.
Export ReviewDemo.
(** Two findings for people to review as a group, two that automation settled. *)
Definition routed (id : string) : json :=
  JObj [("candidate_id", JStr id); ("cluster_id", JStr "k1"); ("severity", JStr "low"); ("review_routing_class", JStr "HUMAN_TECHNICAL_REVIEW");
        ("grouped_review_eligible", JBool true)].
Definition triaged (id severity : string) : json :=
  JObj [("candidate_id", JStr id); ("cluster_id", JStr "k2"); ("severity", JStr severity);
        ("technical_triage", JObj [("verdict", JStr "not_actionable"); ("confidence", JStr "high")])].
Definition cluster (id a b : string) (grouped : bool) : json :=
  JObj [("cluster_id", JStr id); ("candidate_ids", strs [a; b]); ("representative_candidate_id", JStr a);
        ("grouped_review_eligible", JBool grouped); ("grouped_human_review_cluster", JBool grouped);
        ("homogeneous_evidence", JBool true); ("homogeneous_verdict", JBool true)].
Definition found : dict :=
  [("findings", JArr [routed "c1"; routed "c2"; triaged "c3" "low"; triaged "c4" "medium"]); ("candidate_record_count", JInt 4);
   ("review_workload_clusters", JArr [cluster "k1" "c1" "c2" true; cluster "k2" "c3" "c4" false])].
Definition run : dict := record_of found.

Definition sample : dict := by_human "configure_qc_sampling" "Ann" [("sampling_strategy", JStr "risk_weighted"); ("sample_size", JInt 1)].
Definition sampled : dict := ok_or_nil (Phase2._configure_sampling run [] sample t0).
Definition opened : dict := ok_or_nil (act run (by_human "start_session" "Ann" []) t0).
Definition decide_group : dict :=
  by_human "Disposition_group" "Ann" [("cluster_id", JStr "k1"); ("disposition", JStr "not_applicable"); ("rationale", JStr "test fixture")].
Definition grouped : dict := ok_or_nil (act (store run opened) decide_group t0).

Lemma sampled_ok : Phase2._configure_sampling run [] sample t0 = Ok sampled.
Proof. apply ok_or_nil_ok. vm_compute. reflexivity. Qed.
Lemma opened_works : works fingerprint assistance investigation utc run opened.
Proof. apply (works_first _ _ _ _ _ (by_human "start_session" "Ann" []) t0); [reflexivity|]. apply ok_or_nil_ok. vm_compute. reflexivity. Qed.
Lemma grouped_ok : act (store run opened) decide_group t0 = Ok grouped.
Proof. apply ok_or_nil_ok. vm_compute. reflexivity. Qed.

Lemma sampling_spec_witness : exists config, dget sampled "quality_control_sampling" = JObj config /\
  dget config "selected_candidate_ids" = strs ["c4"] /\ exists selected, dget config "selected_candidate_ids" = strs selected /\ length selected = 1%nat.
Proof.
  destruct (sampling_spec run [] sample t0 sampled sampled_ok) as (cs & cl & population & config & n & selected & _ & Hc & _ & Hs & _ & _ & Hn & Hl & _).
  exists config. split; [exact Hc|]. split.
  - apply (f_equal (fun v => dget (as_dict v) "selected_candidate_ids")) in Hc. cbn [as_dict] in Hc. rewrite <- Hc. vm_compute. reflexivity.
  - exists selected. split; [exact Hs|]. rewrite Hl. change (dget sample "sample_size") with (JInt 1) in Hn.
    unfold Phase2.requested_sample_size in Hn. cbn [Phase2.missing] in Hn. change (py_int (JInt 1)) with (Ok 1) in Hn. cbv iota in Hn.
    destruct (_ || _) in Hn; [discriminate Hn|]. injection Hn as <-. reflexivity.
Defined.

Lemma group_decision_safe_witness : exists e, decision opened "c1" = JNull /\ decision grouped "c1" = JObj e /\ dget e "source" = JStr "group".
Proof.
  destruct (group_decision_safe fingerprint assistance investigation utc run opened (store run opened) decide_group t0 grouped
    opened_works (stored run opened) grouped_ok) as (rg & cs & cl & ids & Hr & Hc & _ & Hids & _ & H); [vm_compute; reflexivity|].
  destruct (H "c1") as [_ He]. destruct He as (e & H1 & _ & H2).
  - assert (canonical_candidate_register run = Ok found) as Hf by reflexivity. rewrite Hf in Hr. injection Hr as <-.
    assert (ReviewWork._catalog found = Ok ([("c1", routed "c1"); ("c2", routed "c2"); ("c3", triaged "c3" "low"); ("c4", triaged "c4" "medium")],
      [("k1", cluster "k1" "c1" "c2" true); ("k2", cluster "k2" "c3" "c4" false)])) as Hcat by (vm_compute; reflexivity).
    rewrite Hcat in Hc. injection Hc as <- <-. assert (Ok ["c1"; "c2"] = Ok ids :> res (list string)) as [= <-] by exact Hids. by left.
  - exists e. split; [vm_compute; reflexivity|]. split; [exact H1|exact H2].
Defined.
End GatesDemo.
