(* ===== verification/ReviewRuns.v ===== *)
(** * The review in the stored record

    What one request of a reviewer leaves in the run record: the next ledger of
    [works], under flags that never approve or deliver, in a record that carries
    it, so that the theorems of ReviewWorks hold of any record that requests lead
    to.  A run without candidates cannot take that step. *)

From S2P Require Import Prelude PyStr Sha256 PyFloat Json JsonFacts PyTime Orchestration AcceptedEdition HumanEvidence ReviewDecision RunRecord ReviewWork ReviewSampling ReviewQueue ReviewService ReviewWorkFacts ReviewLedger ReviewWorks.

(** ** Lemmas: what the register of a record is read from *)

Definition report_json (record : dict) : json :=
  get_of (get_of (get_of (dget record "stage_results") _FINAL_REPORT_STAGE_ID) "report_package") "json".
Definition report_register (canonical : json) : json := get_of (get_of canonical "assessment") "canonical_scanner_finding_register".

(** The parts of two reports that a review reads. *)
Definition same_report (a b : json) : Prop :=
  get_of b "identity" = get_of a "identity" /\ report_register b = report_register a.

Lemma register_frame record record' : dget record' "identity" = dget record "identity" ->
  same_report (report_json record) (report_json record') -> canonical_candidate_register record' = canonical_candidate_register record.
Proof.
  unfold canonical_candidate_register, _identity, report_json, same_report, report_register. cbv zeta. intros -> [Hi Hr].
  match goal with |- (?r ≫= _) = _ => destruct r as [identity|e]; [|done] end. cbn [mbind res_bind].
  match type of Hi with get_of ?a _ = get_of ?b _ => generalize dependent a; intros j' Hi Hr; generalize dependent b; intros j Hi Hr end.
  rewrite Hr. clear Hr. destruct j as [| | | | | |d], j' as [| | | | | |d']; cbn [get_of] in *; try done; by rewrite ?Hi, <- ?Hi.
Qed.

(** A record that differs in its ledger, its report and its status. *)
Definition status_fields : list string :=
  ["review_work_ledger"; "review_work_status"; "updated_at"; "revision"; "human_review_required"; "human_review_completed";
   "client_delivery_allowed"; "terminal"; "stage_results"; "reports"; "integrity_sha256"].

Lemma same_run_frame record record' : (forall k, k ∉ status_fields -> dget record' k = dget record k) ->
  same_report (report_json record) (report_json record') -> same_run record record'.
Proof.
  intros Hk Hj. assert (dget record' "identity" = dget record "identity") as Hi by (apply Hk; concrete).
  split; [done|by apply register_frame|]. unfold Phase2._scope_binding, Phase2.scope_value, record_identity, Phase2._SCOPE_FIELDS. cbn [flat_map].
  rewrite Hi. rewrite !Hk by concrete. done.
Qed.

Lemma copied record : (forall k, k <> "stage_results" -> dget (_copy_record_for_update record) k = dget record k) /\
  report_json (_copy_record_for_update record) = report_json record.
Proof.
  unfold _copy_record_for_update. destruct (has_key record "stage_results") eqn:Hk; [done|]. apply bool_decide_eq_false in Hk.
  rewrite <- dset_app by done. split; [intros k Hne; by apply dget_dset_ne|].
  unfold report_json. rewrite dget_dset_eq. unfold dget at 1. by rewrite (proj2 (dlookup_None _ _) Hk).
Qed.

Lemma same_report_refl j : same_report j j.
Proof. done. Qed.
Lemma same_report_trans a b c : same_report a b -> same_report b c -> same_report a c.
Proof. intros [H1 H2] [H3 H4]. split; congruence. Qed.

(** ** Lemmas: the truth in a report *)

Lemma with_section_same truth c key : key ∉ ["identity" : string; "assessment"] -> same_report (JObj c) (JObj (with_section truth c key)).
Proof.
  rewrite !not_elem_of_cons. intros (H1 & H2 & _).
  unfold same_report, report_register, with_section. cbn [get_of]. by rewrite !dget_dset_ne.
Qed.

Lemma canonical_truth_same j truth rows : same_report j (JObj (canonical_truth (as_dict j) truth rows)).
Proof.
  assert (same_report j (JObj (as_dict j))) as Hj by (by destruct j). eapply same_report_trans; [exact Hj|]. clear Hj.
  generalize (as_dict j); intros c. unfold canonical_truth. cbv zeta.
  match goal with |- context [fold_left _ _ (dset ?d "assessment" ?a)] => set (start := dset d "assessment" a) end.
  assert (same_report (JObj c) (JObj start)) as Hs.
  { unfold start, same_report, report_register, with_truth. cbn [get_of]. rewrite dget_dset_eq. rewrite !dget_dset_ne by done.
    split; [done|]. cbn [get_of]. rewrite !dget_dset_ne by done. by destruct (dget c "assessment"). }
  assert (forall keys d, Forall (fun k => k ∉ ["identity" : string; "assessment"]) keys -> same_report (JObj d) (JObj (fold_left (with_section truth) keys d))) as Hf.
  { induction keys as [|k keys IH]; intros d Hk; [done|]. inversion Hk; subst. cbn [fold_left].
    eapply same_report_trans; [by apply with_section_same|by apply IH]. }
  eapply same_report_trans; [exact Hs|]. eapply same_report_trans; [apply (Hf truth_sections start); unfold truth_sections; concrete|].
  unfold same_report, report_register. cbn [get_of]. by rewrite !dget_dset_ne by done.
Qed.

Lemma digests_json package canonical truth : dget (with_digests package canonical truth) "json" = dget package "json".
Proof.
  unfold with_digests, text_digest. cbv zeta.
  match goal with |- context [match dget ?p "content_integrity" with _ => _ end] => set (q := p); assert (dget q "json" = dget package "json") as Hq end.
  { unfold q. repeat (destruct (py_truthy _)); by rewrite !dget_dset_ne by done. }
  destruct (dget q "content_integrity"); try done. by rewrite dget_dset_ne.
Qed.

(** ** Lemmas: one request of the service *)

Section Runs.
Context (validated_operator_delivery : dict -> res bool) (fingerprint : dict -> res string)
  (assistance : list dict -> dict -> res dict) (investigation : dict -> dict -> dict -> res json)
  (local_to_utc : datetime -> datetime) (exact_final_report : dict -> res unit)
  (apply_four_phase_program : dict -> res dict) (render : dict -> dict -> dict -> res dict) (rebind_artifact_manifest : dict -> res dict).
Abbreviation action := (review_action fingerprint assistance investigation local_to_utc).
Abbreviation works := (works fingerprint assistance investigation local_to_utc).
Abbreviation truth_synchronized :=
  (synchronize_review_truth fingerprint assistance investigation apply_four_phase_program render rebind_artifact_manifest).
Abbreviation requested := (review_work validated_operator_delivery fingerprint assistance investigation local_to_utc exact_final_report
  apply_four_phase_program render rebind_artifact_manifest).
Abbreviation with_package := (_synchronize_package apply_four_phase_program render rebind_artifact_manifest).
(** The program of phases adds its own members to the report, rendering writes
    the texts of a package, and rebinding resets the approvals in its report. *)
Hypothesis phases_keep : forall c c', apply_four_phase_program c = Ok c' -> same_report (JObj c) (JObj c').
Hypothesis render_keeps : forall c t p p', render c t p = Ok p' -> dget p' "json" = dget p "json".
Hypothesis rebind_keeps : forall p p', rebind_artifact_manifest p = Ok p' -> same_report (dget p "json") (dget p' "json").

Lemma package_same p truth p' : with_package p truth = Ok p' -> same_report (dget p "json") (dget p' "json").
Proof using phases_keep render_keeps rebind_keeps.
  unfold _synchronize_package. intros H. apply bind_ok_inv in H as (rows & _ & H). cbv zeta in H. set (c := canonical_truth _ _ _) in H.
  apply bind_ok_inv in H as ([c' q] & Hc & H). apply bind_ok_inv in H as (p1 & Hp & H).
  assert (same_report (dget p "json") (JObj c')) as Hs.
  { eapply same_report_trans; [apply (canonical_truth_same _ truth rows)|]. fold c. destruct (is_mapping _) in Hc.
    - apply bind_ok_inv in Hc as (c1 & Hc1 & Hc). apply bind_ok_inv in Hc as (? & _ & [= -> _]). by apply phases_keep.
    - by injection Hc as -> _. }
  assert (dget (with_digests p1 c' truth) "json" = JObj c') as Hj.
  { rewrite digests_json, (render_keeps _ _ _ _ Hp). unfold with_truth. by rewrite dget_dset_ne, dget_dset_eq. }
  destruct (is_mapping _) in H; [|injection H as <-; by rewrite Hj].
  apply rebind_keeps in H. rewrite Hj in H. by eapply same_report_trans.
Qed.

Definition stage_json (stage : json) : json := get_of (get_of stage "report_package") "json".

Lemma member_same truth stage key stage' : synchronize_member apply_four_phase_program render rebind_artifact_manifest truth stage key = Ok stage' ->
  (forall k, k <> key -> dget stage' k = dget stage k) /\ same_report (get_of (dget stage key) "json") (get_of (dget stage' key) "json").
Proof using phases_keep render_keeps rebind_keeps.
  unfold synchronize_member. destruct (dget stage key) as [| | | | | |p] eqn:Hd; try (intros [= <-]; by rewrite Hd).
  destruct (shown p); [|intros [= <-]; by rewrite Hd]. intros H. apply bind_ok_inv in H as (p' & Hp & [= <-]).
  split; [intros k Hk; by apply dget_dset_ne|]. rewrite dget_dset_eq. by apply package_same in Hp.
Qed.

Lemma stages_same truth ids stages stages' : synchronize_stages apply_four_phase_program render rebind_artifact_manifest truth stages ids = Ok stages' ->
  forall id, same_report (stage_json (dget stages id)) (stage_json (dget stages' id)).
Proof using phases_keep render_keeps rebind_keeps.
  revert stages. induction ids as [|i ids IH]; intros stages H id; cbn [synchronize_stages] in H; [by injection H as <-|].
  destruct (dget stages i) as [| | | | | |stage] eqn:Hi; try by apply IH.
  apply bind_ok_inv in H as (s1 & H1 & H). apply bind_ok_inv in H as (s2 & H2 & H). apply IH with (id := id) in H.
  eapply same_report_trans; [|exact H]. destruct (decide (id = i)) as [->|Hne]; [|by rewrite dget_dset_ne].
  rewrite Hi, dget_dset_eq. unfold stage_json. cbn [get_of]. destruct (member_same _ _ _ _ H1) as [_ G]. destruct (member_same _ _ _ _ H2) as [K _].
  by rewrite (K "report_package") by done.
Qed.

Lemma synchronized_same record record' : truth_synchronized record = Ok record' ->
  (forall k, k ∉ ["stage_results"; "reports"; "integrity_sha256"] -> dget record' k = dget record k) /\
  same_report (report_json record) (report_json record').
Proof using phases_keep render_keeps rebind_keeps.
  unfold synchronize_review_truth. destruct (_ || _); [by intros [= <-]|]. intros H.
  apply bind_ok_inv in H as (truth & _ & H). apply bind_ok_inv in H as (r1 & H1 & H). apply bind_ok_inv in H as (r2 & H2 & [= <-]).
  assert ((forall k, k <> "stage_results" -> dget r1 k = dget record k) /\ same_report (report_json record) (report_json r1)) as [G1 G2].
  { destruct (dget record "stage_results") as [| | | | | |stages] eqn:Hst; try (by injection H1 as <-).
    apply bind_ok_inv in H1 as (stages' & Hs & [= <-]). split; [intros k Hk; by apply dget_dset_ne|].
    apply stages_same with (id := _FINAL_REPORT_STAGE_ID) in Hs. unfold report_json. rewrite Hst, dget_dset_eq. unfold stage_json in Hs. cbn [get_of]. done. }
  destruct (member_same _ _ _ _ H2) as [G3 _]. unfold hashed. split.
  - intros k Hk. rewrite !not_elem_of_cons in Hk. destruct Hk as (? & ? & ? & _).
    by rewrite dget_dset_ne, G3, G1.
  - unfold report_json in *. rewrite dget_dset_ne, (G3 "stage_results") by done. exact G2.
Qed.
(** The ledger put into the record. *)
Lemma stored_inv record ledger now updated : apply_review_work_ledger validated_operator_delivery record ledger now = Ok updated ->
  exists revision, py_int (jor (dget record "revision") (JInt 0)) = Ok revision /\ dget updated "revision" = JInt (revision + 1) /\
    casefold (dget_str record "status") = "review_required" /\ dget updated "review_work_ledger" = JObj ledger /\
    dget updated "human_review_required" = JBool true /\ dget updated "human_review_completed" = JBool false /\
    dget updated "client_delivery_allowed" = JBool false /\ (forall k, k ∉ status_fields -> dget updated k = dget record k) /\
    report_json updated = report_json record.
Proof.
  unfold apply_review_work_ledger. intros H. apply bind_ok_inv in H as (? & _ & H). apply bind_ok_inv in H as (? & Hst & H).
  apply unless_ok, String.eqb_eq in Hst. do 2 (apply bind_ok_inv in H as (? & _ & H)). apply bind_ok_inv in H as (events & _ & H).
  apply bind_ok_inv in H as (revision & Hrev & H). cbv zeta in H. apply bind_ok_inv in H as (? & _ & H). apply Ok_inj in H as <-.
  destruct (copied record) as [Hk Hj]. rewrite Hk in Hrev by done. exists revision. unfold hashed, with_ledger.
  split_and!; try done; try (rewrite !dget_dset_ne by done; apply dget_dset_eq).
  - intros k Hn. unfold status_fields in Hn. rewrite !not_elem_of_cons in Hn. destruct_and! Hn. rewrite !dget_dset_ne by done. by apply Hk.
  - unfold report_json in *. by rewrite !dget_dset_ne.
Qed.

(** A record of a run whose review has not begun, or that carries its ledger. *)
Inductive under_review (record : dict) : Prop :=
  | untouched : is_mapping (dget record "review_work_ledger") = false -> under_review record
  | touched first ledger : works first ledger -> carries first ledger record -> under_review record.

Lemma under_review_step record payload timestamp now ledger updated : under_review record -> action record payload timestamp = Ok ledger ->
  apply_review_work_ledger validated_operator_delivery record ledger now = Ok updated ->
  exists first, works first ledger /\ carries first ledger updated /\ same_run first record.
Proof.
  intros U Ha Hu. destruct (stored_inv _ _ _ _ Hu) as (_ & _ & _ & _ & Hl & _ & _ & _ & Hk & Hj).
  assert (same_run record updated) as R by (apply same_run_frame; [done|by rewrite Hj]).
  assert (exists first, works first ledger /\ same_run first record) as (first & W & F).
  { destruct U as [Hno|first old W C]; [exists record; split; [by eapply works_first|by split]|].
    exists first. split; [by eapply works_next|by eapply carries_same]. }
  exists first. split; [done|]. split; [|done]. destruct (same_run_trans _ _ _ F R). by split.
Qed.

(** C10: A request of a reviewer is carried out on the stored record.  When the
    service accepts one, the record it saves carries the ledger of that request,
    has the next revision, still requires review, is not approved and allows no
    delivery; identity, report findings and scope are
    those of the record before, so the next request finds the same run: what is
    proved of [works] holds of every record that requests lead to. *)
Theorem review_work_step record payload timestamp now record' : under_review record -> requested record payload timestamp now = Ok record' ->
  exists first ledger revision, action record payload timestamp = Ok ledger /\ works first ledger /\ carries first ledger record' /\
    same_run record record' /\ under_review record' /\
    py_int (jor (dget record "revision") (JInt 0)) = Ok revision /\ dget record' "revision" = JInt (revision + 1) /\
    dget record' "status" = dget record "status" /\ casefold (dget_str record "status") = "review_required" /\
    dget record' "human_review_required" = JBool true /\ dget record' "human_review_completed" = JBool false /\
    dget record' "client_delivery_allowed" = JBool false.
Proof using phases_keep render_keeps rebind_keeps.
  intros U H. unfold review_work in H. do 2 (apply bind_ok_inv in H as (? & _ & H)). apply bind_ok_inv in H as (ledger & Ha & H).
  apply bind_ok_inv in H as (updated & Hu & H). destruct (under_review_step _ _ _ _ _ _ U Ha Hu) as (first & W & C & F).
  destruct (stored_inv _ _ _ _ Hu) as (revision & Hrev & Hr & Hs & Hl & F1 & F2 & F3 & Hk & Hj).
  destruct (synchronized_same _ _ H) as [Hk' Hj'].
  assert (same_run updated record') as R.
  { apply same_run_frame; [|exact Hj']. intros k Hn. apply Hk'. intros Hx. apply Hn. unfold status_fields. clear - Hx.
    rewrite !elem_of_cons, elem_of_nil in *. tauto. }
  assert (carries first ledger record') as C'.
  { destruct (same_run_trans _ _ _ (carries_same _ _ _ C) R). split; try done. rewrite Hk' by concrete. exact Hl. }
  assert (same_run record record') as R' by (eapply same_run_trans; [|exact R]; apply same_run_frame; [done|by rewrite Hj]).
  exists first, ledger, revision. split_and!; try done; try (rewrite Hk' by concrete; done); [by eapply touched|].
  rewrite Hk' by concrete. apply Hk. concrete.
Qed.

(** C11: A run without candidates cannot record any review.  Whatever a reviewer
    asks for, the service raises: the action itself and the ledger put into the
    record are in order, but the truth about the review is then read from that
    record, whose candidate count of zero is taken for a missing one.  So the
    request fails before anything is saved. *)
Theorem no_review_without_candidates record register clusters payload timestamp now : under_review record ->
  canonical_candidate_register record = Ok register -> ReviewWork._catalog register = Ok ([], clusters) ->
  is_mapping (dget record "accepted_edition") = false -> is_ok (requested record payload timestamp now) = false.
Proof.
  intros U Hr Hc Hacc. apply not_true_iff_false. intros Hok. destruct (requested record payload timestamp now) as [record'|] eqn:H; [|done].
  unfold review_work in H. do 2 (apply bind_ok_inv in H as (? & _ & H)). apply bind_ok_inv in H as (ledger & Ha & H).
  apply bind_ok_inv in H as (updated & Hu & H). destruct (under_review_step _ _ _ _ _ _ U Ha Hu) as (first & W & C & F).
  destruct (stored_inv _ _ _ _ Hu) as (_ & _ & _ & _ & _ & _ & F2 & _ & Hk & _).
  destruct (works_kept _ _ _ _ _ _ W) as (rg & cs & cl & expected & K).
  assert (rg = register) as -> by (pose proof (ke_register _ _ _ _ _ _ K) as Hr'; rewrite <- (sr_register _ _ F), Hr in Hr'; by injection Hr').
  pose proof (ke_catalog _ _ _ _ _ _ K) as Hc'. rewrite Hc in Hc'. injection Hc' as <- <-.
  pose proof (stored_prepared _ _ _ _ _ _ _ K C) as Hp. rewrite bool_decide_eq_true_2 in Hp by done.
  unfold synchronize_review_truth in H. rewrite F2, (Hk "accepted_edition"), Hacc in H by concrete. cbn [is_true orb] in H.
  apply bind_ok_inv in H as (truth & Ht & _). unfold build_review_truth in Ht. apply bind_ok_inv in Ht as (projection & Ht & _).
  unfold Safe.review_work_projection in Ht. apply bind_ok_inv in Ht as (base & Ht & _). unfold Phase2.review_work_projection in Ht.
  apply bind_ok_inv in Ht as (l & Ht & _). change (Phase2._prepare_ledger updated) with (Phase2.ledger_for_record updated) in Ht.
  rewrite Hp in Ht. discriminate Ht.
Qed.
End Runs.

(** ** Requests on a finished run *)

Module RunsDemo.
Export ReviewDemo.
Definition exact (_ : dict) : res unit := Ok tt.
(** The report of one phase: identity, assessment and the phases. *)
Definition phases (c : dict) : res dict :=
  Ok [("identity", dget c "identity");
      ("assessment", JObj [("canonical_scanner_finding_register", report_register (JObj c))]); ("four_phase_program", JObj [])].
Definition rendered (_ _ p : dict) : res dict := Ok p.
Definition rebound (p : dict) : res dict := Ok p.
Abbreviation request := (review_work RunDemo.operator_delivery fingerprint assistance investigation utc exact phases rendered rebound).

(** A small finished run, as the first version of records was, whose final
    report has the register. *)
Definition whose : json := JObj (identity ++ [("customer_id", JStr "acme"); ("project_id", JStr "web")]).
Definition run_of (register : dict) : dict :=
  let report := JObj [("identity", whose); ("assessment", JObj [("canonical_scanner_finding_register", JObj register)]);
                      ("four_phase_program", JObj [])] in
  hashed
    [("artifact_schema", JStr LEGACY_VERSION); ("identity", whose); ("service_id", JStr "comprehensive"); ("status", JStr "review_required");
     ("terminal", JBool true); ("human_review_required", JBool true); ("progress_percent", JInt 0); ("revision", JInt 7);
     ("stage_results", JObj [(_FINAL_REPORT_STAGE_ID, JObj [("report_package", JObj [("json", report)])])])].
Definition run : dict := run_of register.
Definition bare : dict := run_of no_findings.
Definition now : string := "2026-07-02T00:00:00+00:00".
Definition start : dict := by_human "start_session" "Ann" [].
Definition started : dict := ok_or_nil (request run start t0 now).

Lemma started_ok : request run start t0 now = Ok started.
Proof. apply ok_or_nil_ok. vm_compute. reflexivity. Qed.

Lemma run_new : under_review fingerprint assistance investigation utc run.
Proof. apply untouched. vm_compute. reflexivity. Qed.
Lemma bare_new : under_review fingerprint assistance investigation utc bare.
Proof. apply untouched. vm_compute. reflexivity. Qed.

Lemma phases_same c c' : phases c = Ok c' -> same_report (JObj c) (JObj c').
Proof. intros [= <-]. by split. Qed.
Lemma rendered_same c t p p' : rendered c t p = Ok p' -> dget p' "json" = dget p "json".
Proof. by intros [= <-]. Qed.
Lemma rebound_same p p' : rebound p = Ok p' -> same_report (dget p "json") (dget p' "json").
Proof. by intros [= <-]. Qed.

Lemma bare_register : canonical_candidate_register bare = Ok no_findings.
Proof. vm_compute. reflexivity. Qed.
Lemma bare_catalog : ReviewWork._catalog no_findings = Ok ([], []).
Proof. vm_compute. reflexivity. Qed.
(** The action itself is accepted, also with the ledger in the record. *)
Lemma bare_action : is_ok (ledger ← review_action fingerprint assistance investigation utc bare start t0;
  apply_review_work_ledger RunDemo.operator_delivery bare ledger now) = true.
Proof. vm_compute. reflexivity. Qed.

Lemma review_work_step_witness : exists first ledger, works fingerprint assistance investigation utc first ledger /\ carries first ledger started.
Proof.
  destruct (review_work_step RunDemo.operator_delivery fingerprint assistance investigation utc exact phases rendered rebound
    phases_same rendered_same rebound_same run start t0 now started run_new started_ok) as (first & ledger & _ & _ & H1 & H2 & _).
  exists first, ledger. split; [exact H1|exact H2].
Defined.

Lemma no_review_without_candidates_witness : is_ok (ledger ← review_action fingerprint assistance investigation utc bare start t0;
    apply_review_work_ledger RunDemo.operator_delivery bare ledger now) = true /\ is_ok (request bare start t0 now) = false.
Proof.
  split; [exact bare_action|].
  apply (no_review_without_candidates RunDemo.operator_delivery fingerprint assistance investigation utc exact phases rendered rebound
    bare no_findings [] start t0 now bare_new bare_register bare_catalog). vm_compute. reflexivity.
Defined.
End RunsDemo.
