(* ===== verification/RunStore.v ===== *)
(** * The store of Comprehensive runs (nico/comprehensive_run_store.py)

    Three tables hold a run: its row with the stored record, the commitment to
    its review history, and the projection browsers are served.  [create] and
    [save] write all three in one transaction; [save] is guarded by the revision
    of the row, the commitment it read and, for a publication, the renderer's
    lease.  A method that reads before it writes takes the state it read, [seen],
    and the state it changes; one that raises commits nothing.

    Records are values: the copies the code makes are the identity.  The
    projection builder, the validation of an operator delivery and zlib are
    arguments, [time.time()] is one of [save].  The dialect is sqlite. *)

From S2P Require Import Prelude PyStr Sha256 PyFloat Json JsonFacts Snapshots Sqlite Inflate RunStorage ReportJobs.
From S2P Require Import HumanEvidence ReviewDecision RunRecord.

(** ** The review history and its digest *)

Definition _review_history (record : dict) : res (list dict) :=
  match dget record "review_history" with
  | JNull => Ok []
  | JArr l => if forallb is_mapping l then Ok (map as_dict l) else fail ValueError "review_history_commitment_payload_invalid"
  | _ => fail ValueError "review_history_commitment_payload_invalid"
  end.
Definition history_text (history : list dict) : string := utf8_encode (dumps compact_unicode (JArr (map JObj history))).
Definition _review_history_sha256 (history : list dict) : string := sha256_hex (history_text history).

Definition _assert_review_history_commitment (record : dict) (committed_count : Z) (committed_sha256 : string)
    (allow_append : bool) : res (list dict) :=
  let committed_digest := casefold (strip committed_sha256) in
  history ← _review_history record;
  let n := Z.of_nat (length history) in
  if (committed_count <? 0) || (n <? committed_count) then fail ValueError "review_history_commitment_cannot_be_truncated"
  else if negb (String.eqb (_review_history_sha256 (take (Z.to_nat committed_count) history)) committed_digest)
  then fail ValueError "review_history_commitment_prefix_mismatch"
  else if negb allow_append && negb (n =? committed_count) then fail ValueError "review_history_commitment_uncommitted_events"
  else Ok history.

Definition _browser_projection_json (projection : dict) : string := dumps compact_unicode (JObj projection).
Definition _browser_projection_sha256 (projection : dict) : string := sha256_hex (utf8_encode (_browser_projection_json projection)).

(** ** The tables *)

(** A row of [nico_comprehensive_runs] under its [run_id]. *)
Record run_row := mkRun {
  run_customer_id : string;
  run_project_id : string;
  run_repository : string;
  run_commit_sha : string;
  run_evidence_ledger_id : string;
  run_status : string;
  run_revision : Z;
  run_terminal : Z;
  run_integrity_sha256 : string;
  run_updated_at : string;
  run_payload : string }.

Record projection_row := mkProjection {
  pj_revision : Z;
  pj_run_integrity_sha256 : string;
  pj_projection_sha256 : string;
  pj_updated_at : string;
  pj_projection : string }.

Record db := mkDb {
  d_runs : gmap string run_row;
  d_commitments : gmap string (Z * string);
  d_projections : gmap string projection_row;
  d_jobs : gmap string job_row }.

Definition with_commitment (run_id : string) (c : Z * string) (t : db) : db :=
  mkDb (d_runs t) (<[run_id := c]> (d_commitments t)) (d_projections t) (d_jobs t).
Definition with_projections (p : gmap string projection_row) (t : db) : db := mkDb (d_runs t) (d_commitments t) p (d_jobs t).
Definition with_jobs (j : gmap string job_row) (t : db) : db := mkDb (d_runs t) (d_commitments t) (d_projections t) j.

(** [v[k]] *)
Definition subscript (v : json) (k : string) : res json :=
  match v with JObj d => item d k | _ => fail TypeError "object is not subscriptable" end.

(** A column that may turn out NULL. *)
Definition text_or_null (v : json) : res (option string) := match v with JNull => Ok None | _ => Some <$> text_column v end.

(** The values of [_row_values], before they are bound. *)
Record row_values := mkValues {
  rv_identity : list json;
  rv_status : json;
  rv_revision : Z;
  rv_terminal : bool;
  rv_integrity : json;
  rv_updated_at : json;
  rv_payload : string }.

(** Binding them: the key and the row, or [None] when there is a NULL. *)
Definition bind_row (v : row_values) : res (option (string * run_row)) :=
  identity ← mapR text_or_null (rv_identity v);
  status ← text_or_null (rv_status v);
  revision ← int_column (rv_revision v);
  integrity ← text_or_null (rv_integrity v);
  updated_at ← text_or_null (rv_updated_at v);
  Ok (match identity, status, integrity, updated_at with
      | [Some run; Some customer; Some project; Some repository; Some commit; Some ledger], Some s, Some i, Some u =>
          Some (run, mkRun customer project repository commit ledger s revision (bool_column (rv_terminal v)) i u (rv_payload v))
      | _, _, _, _ => None
      end).

Section Store.
Context (validated_operator_delivery : dict -> res bool) `{zlib : Zlib}.
Context (browser_projection_builder : option (dict -> res json)).

Definition _decode_run_payload (payload : json) : res dict :=
  d ← _decode_json_object_payload payload; decode_run_storage d.

(** [_copy_record_for_store] has the value of [_copy_record_for_update]. *)
Definition _copy_record_for_store (record : dict) : dict :=
  if has_key record "stage_results" then record else record ++ [("stage_results", JObj [])].

Definition _validated_copy (record : dict) : res dict :=
  let canonical := _copy_record_for_store record in
  _ ← require_valid validated_operator_delivery "invalid_run_record" canonical;
  Ok canonical.

Definition identity_columns : list string :=
  ["run_id"; "customer_id"; "project_id"; "repository"; "commit_sha"; "evidence_ledger_id"].

Definition _row_values (record : dict) : res row_values :=
  identity ← item record "identity";
  payload ← encode_run_storage record;
  columns ← mapR (subscript identity) identity_columns;
  status ← item record "status";
  revision ← (v ← item record "revision"; py_int v);
  terminal ← item record "terminal";
  integrity ← item record "integrity_sha256";
  updated_at ← item record "updated_at";
  Ok (mkValues columns status revision (py_truthy terminal) integrity updated_at payload).

Definition _build_browser_projection (record : dict) : res (option dict) :=
  match browser_projection_builder with
  | None => Ok None
  | Some builder =>
      projection ← builder record;
      match projection with JObj p => Ok (Some p) | _ => fail TypeError "browser_projection_must_be_object" end
  end.

Definition _write_browser_projection (record : dict) (projection : option dict) (t : db) : res db :=
  match projection with
  | None => Ok t
  | Some projection =>
      identity ← item record "identity";
      run_id ← subscript identity "run_id";
      revision ← (v ← item record "revision"; py_int v);
      run_integrity ← item record "integrity_sha256";
      updated_at ← item record "updated_at";
      revision ← int_column revision;
      Ok (with_projections (<[py_str run_id := mkProjection revision (py_str run_integrity) (_browser_projection_sha256 projection)
            (py_str updated_at) (_browser_projection_json projection)]> (d_projections t)) t)
  end.

Definition _initialize_missing_review_history_commitment (run_id : string) (payload : json) (t : db) : res ((Z * string) * db) :=
  let normalized := strip run_id in
  if negb (truthy normalized) then fail ValueError "review_history_commitment_run_id_required"
  else
    record ← _decode_run_payload payload;
    history ← _review_history record;
    let digest := _review_history_sha256 history in
    let n := Z.of_nat (length history) in
    let t := match d_commitments t !! normalized with Some _ => t | None => with_commitment normalized (n, digest) t end in
    match d_commitments t !! normalized with
    | Some (count, sha) =>
        if negb ((count =? n) && String.eqb (casefold (strip sha)) digest)
        then fail ValueError "review_history_commitment_backfill_conflict"
        else Ok ((count, sha), t)
    | None => fail ValueError "review_history_commitment_backfill_conflict"
    end.

(** The commitment that the joined SELECT found, or a new one. *)
Definition commitment_for (run_id : string) (payload : json) (seen t : db) : res ((Z * string) * db) :=
  match d_commitments seen !! run_id with
  | Some c => Ok (c, t)
  | None => _initialize_missing_review_history_commitment run_id payload t
  end.

(** ** create *)

(** The statements of the transaction. *)
Definition create_rows (canonical : dict) (values : row_values) (run_id : json) (history : list dict) (projection : option dict)
    (t : db) : res db :=
  row ← bind_row values;
  match row with
  | None => null_error
  | Some (k, row) =>
      _ ← unless (bool_decide (d_runs t !! k = None)) DatabaseError "UNIQUE constraint failed";
      let t := mkDb (<[k := row]> (d_runs t)) (d_commitments t) (d_projections t) (d_jobs t) in
      key ← text_column run_id;
      _ ← unless (bool_decide (d_commitments t !! key = None)) DatabaseError "UNIQUE constraint failed";
      let t := with_commitment key (Z.of_nat (length history), _review_history_sha256 history) t in
      _write_browser_projection canonical projection t
  end.

Definition create (record : dict) (t : db) : res (dict * db) :=
  canonical ← _validated_copy record;
  projection ← _build_browser_projection canonical;
  identity ← item canonical "identity";
  values ← _row_values canonical;
  history ← _review_history canonical;
  run_id ← subscript identity "run_id";
  match create_rows canonical values run_id history projection t with
  | Ok t => Ok (canonical, t)
  | Raise _ => fail ComprehensiveRunConflict ("run_already_exists:" +:+ py_str run_id)
  end.

(** ** load *)

(** [restore] in [_consume_read_snapshot] *)
Definition restore (normalized : string) (row : run_row) (seen t : db) : res (dict * db) :=
  payload ← _decode_run_payload (JStr (run_payload row));
  '((count, sha), t) ← commitment_for normalized (JObj payload) seen t;
  _ ← _assert_review_history_commitment payload count sha false;
  restored ← restore_comprehensive_run_record validated_operator_delivery payload;
  Ok (restored, t).

Definition _consume_read_snapshot {A} (run_id : string) (consume : string -> run_row -> res A) (seen : db) : res A :=
  let normalized := strip run_id in
  if negb (truthy normalized) then fail ValueError "run_id_required"
  else match d_runs seen !! normalized with
       | None => fail ComprehensiveRunNotFound normalized
       | Some row => consume normalized row
       end.

Definition load (run_id : string) (seen t : db) : res (dict * db) :=
  _consume_read_snapshot run_id (fun normalized row => restore normalized row seen t) seen.

Definition load_without_maintenance (run_id : string) (seen : db) : res dict :=
  _consume_read_snapshot run_id (fun normalized row =>
    match d_commitments seen !! normalized with
    | None => fail ValueError "capture_diagnostic_review_commitment_unavailable"
    | Some (count, sha) =>
        payload ← _decode_run_payload (JStr (run_payload row));
        _ ← _assert_review_history_commitment payload count sha false;
        restore_comprehensive_run_record validated_operator_delivery payload
    end) seen.

(** [ORDER BY updated_at DESC, run_id DESC] *)
Definition newer (a b : string * run_row) : bool :=
  let ua := run_updated_at (snd a) in
  let ub := run_updated_at (snd b) in
  if String.eqb ua ub then str_leb (fst b) (fst a) else str_leb ub ua.
Fixpoint insert_newer (x : string * run_row) (l : list (string * run_row)) : list (string * run_row) :=
  match l with
  | [] => [x]
  | y :: l' => if newer x y then x :: l else y :: insert_newer x l'
  end.
Definition recent_rows (customer project : string) (seen : db) : list (string * run_row) :=
  foldr insert_newer []
    (List.filter (fun m => String.eqb (run_customer_id (snd m)) customer && String.eqb (run_project_id (snd m)) project)
       (map_to_list (d_runs seen))).

(** The loop of [list_recent] over the rows. *)
Fixpoint restore_rows (rows : list (string * run_row)) (seen t : db) : res (list dict * db) :=
  match rows with
  | [] => Ok ([], t)
  | (run_id, row) :: rows =>
      '(record, t) ← restore run_id row seen t;
      '(records, t) ← restore_rows rows seen t;
      Ok (record :: records, t)
  end.

Definition list_recent (customer_id project_id : string) (limit : Z) (seen t : db) : res (list dict * db) :=
  let customer := strip customer_id in
  let project := strip project_id in
  if negb (truthy customer) || negb (truthy project) then fail ValueError "customer_and_project_required"
  else
    let bounded_limit := Z.max 1 (Z.min 200 limit) in
    restore_rows (take (Z.to_nat bounded_limit) (recent_rows customer project seen)) seen t.

(** ** save *)

(** [d.get(k, {})] *)
Definition get_or_empty (v : json) (k : string) : res json :=
  d ← as_mapping v; Ok (default (JObj []) (dlookup k d)).

(** [x in v] for a string [x] *)
Definition contains_text (v : json) (x : string) : res bool :=
  match v with
  | JArr l => Ok (bool_decide (JStr x ∈ l))
  | JObj d => Ok (has_key d x)
  | JStr s => Ok (contains x s)
  | _ => fail TypeError "argument is not iterable"
  end.

Definition FINAL_REPORT_STAGE_ID : string := "final_comprehensive_report_generation".

Definition publication_status (canonical : dict) (lease : string) : res string :=
  stages ← get_or_empty (JObj canonical) "stage_results";
  result ← get_or_empty stages FINAL_REPORT_STAGE_ID;
  matches ← (if negb (truthy lease) then Ok false
             else execution ← get_or_empty result "stage_execution";
                  execution ← as_mapping execution;
                  Ok (bool_decide (dget execution "publication_lease_id" = JStr lease)));
  if negb matches then fail ValueError "final_report_publication_lease_mismatch"
  else
    complete ← contains_text (default (JArr []) (dlookup "completed_stages" canonical)) FINAL_REPORT_STAGE_ID;
    Ok (if (complete : bool) then "complete" else "blocked").

(** UPDATE of the run, guarded by its revision: [None] when no row matches. *)
Definition update_run (values : row_values) (run_id : string) (expected : Z) (t : db) : res (option db) :=
  row ← bind_row values;
  expected ← int_column expected;
  match d_runs t !! run_id with
  | Some r =>
      if run_revision r =? expected then
        match row with
        | Some (_, row) => Ok (Some (mkDb (<[run_id := row]> (d_runs t)) (d_commitments t) (d_projections t) (d_jobs t)))
        | None => null_error
        end
      else Ok None
  | None => Ok None
  end.

(** UPDATE of the commitment, guarded by the one that was read. *)
Definition update_commitment (run_id : string) (old new : Z * string) (t : db) : option db :=
  if bool_decide (d_commitments t !! run_id = Some old) then Some (with_commitment run_id new t) else None.

Definition settle_publication (publication : option (string * string)) (canonical : dict) (run_id : string) (now : float)
    (t : db) : res db :=
  match publication with
  | None => Ok t
  | Some (lease, status) =>
      updated_at ← (v ← item canonical "updated_at"; text_column v);
      let '(answer, jobs) := publish_job status now updated_at lease run_id (d_jobs t) in
      published ← answer;
      _ ← unless published ComprehensiveRunConflict "final_report_publication_lease_inactive";
      Ok (with_jobs jobs t)
  end.

(** The transaction of [save], from its first read on. *)
Definition save_rows (canonical : dict) (projection : option dict) (values : row_values) (run_id : string) (expected : Z)
    (publication : option (string * string)) (now : float) (seen t : db) : res db :=
  match d_runs seen !! run_id with
  | None => fail ComprehensiveRunConflict ("review_history_commitment_missing:" +:+ run_id)
  | Some persisted =>
      '(commitment, t) ← commitment_for run_id (JStr (run_payload persisted)) seen t;
      history ← _assert_review_history_commitment canonical (fst commitment) (snd commitment) true;
      t ← (r ← update_run values run_id expected t;
           match r with
           | Some t => Ok t
           | None => fail ComprehensiveRunConflict ("stale_revision:" +:+ run_id +:+ ":expected:" +:+ str_of_Z expected)
           end);
      t ← (match update_commitment run_id commitment (Z.of_nat (length history), _review_history_sha256 history) t with
           | Some t => Ok t
           | None => fail ComprehensiveRunConflict ("review_history_commitment_conflict:" +:+ run_id)
           end);
      t ← settle_publication publication canonical run_id now t;
      _write_browser_projection canonical projection t
  end.

Definition save (record : dict) (expected_revision : Z) (publication_lease_id : option string) (now : float) (seen t : db)
    : res (dict * db) :=
  canonical ← _validated_copy record;
  projection ← _build_browser_projection canonical;
  identity ← item canonical "identity";
  publication ← match publication_lease_id with
    | None => Ok None
    | Some lease => status ← publication_status canonical lease; Ok (Some (lease, status))
    end;
  current_revision ← (v ← item canonical "revision"; py_int v);
  _ ← unless (current_revision =? expected_revision + 1) ComprehensiveRunConflict
        ("revision_must_advance_once:expected:" +:+ str_of_Z (expected_revision + 1) +:+ ":actual:" +:+ str_of_Z current_revision);
  values ← _row_values canonical;
  run_id ← subscript identity "run_id";
  run_id ← text_column run_id;
  t ← save_rows canonical projection values run_id expected_revision publication now seen t;
  Ok (canonical, t).

(** ** The projections *)

(** [d[k] if isinstance(d.get(k), Mapping) else {}] *)
Definition mapping_or_empty (d : dict) (k : string) : dict := as_dict (dget d k).

(** The loop over [expected_values]. *)
Definition observed (projection identity : dict) (field : string) : string :=
  strip (py_str (if has_key projection field then dget projection field else jor (dget identity field) (JStr ""))).
Fixpoint check_identity (projection identity : dict) (expected : list (string * string)) : res unit :=
  match expected with
  | [] => Ok tt
  | (field, value) :: expected =>
      if negb (String.eqb (observed projection identity field) value)
      then fail ValueError ("browser_projection_identity_mismatch:" +:+ field)
      else check_identity projection identity expected
  end.

Definition load_browser_projection (run_id : string) (t : db) : res (option dict) :=
  let normalized := strip run_id in
  if negb (truthy normalized) then fail ValueError "run_id_required"
  else match d_projections t !! normalized, d_runs t !! normalized with
  | Some p, Some run =>
      projection ← _decode_json_object_payload (JStr (pj_projection p));
      _ ← unless (String.eqb (casefold (strip (pj_projection_sha256 p))) (_browser_projection_sha256 projection))
            ValueError "browser_projection_hash_mismatch";
      let projection_run_integrity := casefold (strip (pj_run_integrity_sha256 p)) in
      let run_integrity := casefold (strip (run_integrity_sha256 run)) in
      _ ← unless (pj_revision p =? run_revision run) ValueError "browser_projection_revision_mismatch";
      _ ← unless (String.eqb projection_run_integrity run_integrity) ValueError "browser_projection_run_integrity_mismatch";
      let identity := mapping_or_empty (mapping_or_empty projection "record") "identity" in
      let response_projection := mapping_or_empty projection "response_projection" in
      _ ← check_identity projection identity
            [("run_id", normalized); ("customer_id", run_customer_id run); ("project_id", run_project_id run);
             ("repository", run_repository run); ("commit_sha", run_commit_sha run)];
      revision ← py_int (jor (dget projection "revision") (JInt (-1)));
      _ ← unless (revision =? run_revision run) ValueError "browser_projection_response_revision_mismatch";
      _ ← unless (String.eqb (casefold (text_of (dget projection "integrity_sha256"))) run_integrity)
            ValueError "browser_projection_response_integrity_mismatch";
      _ ← unless (String.eqb (text_of (dget projection "canonical_status")) (run_status run)) ValueError "browser_projection_status_mismatch";
      _ ← unless (Bool.eqb (py_truthy (dget projection "terminal")) (column_bool (run_terminal run)))
            ValueError "browser_projection_terminal_mismatch";
      _ ← unless (bool_decide (dget response_projection "browser_projection" = JBool true)) ValueError "browser_projection_contract_missing";
      _ ← unless (bool_decide (dget response_projection "durable_projection" = JBool true))
            ValueError "browser_projection_durability_contract_missing";
      Ok (Some projection)
  | _, _ => Ok None
  end.

(** The UPDATE of [refresh_browser_projection]. *)
Definition refresh_write (run_id : string) (expected record projection : dict) (t : db) : res db :=
  revision ← (v ← item record "revision"; py_int v);
  integrity ← (v ← item record "integrity_sha256"; Ok (py_str v));
  revision ← int_column revision;
  let current := match d_runs t !! run_id with
    | Some r => (run_revision r =? revision) && String.eqb (run_integrity_sha256 r) integrity
    | None => false end in
  let digest := _browser_projection_sha256 projection in
  let matches p := String.eqb (pj_projection_sha256 p) (_browser_projection_sha256 expected) && (pj_revision p =? revision) &&
                   String.eqb (pj_run_integrity_sha256 p) integrity && current in
  let set p := mkProjection (pj_revision p) (pj_run_integrity_sha256 p) digest (pj_updated_at p) (_browser_projection_json projection) in
  Ok (with_projections (snd (update_row matches set run_id (d_projections t))) t).

(** Three transactions of one client: the load, which may commit a missing
    commitment, the UPDATE, and the read of what is stored then. *)
Definition refresh_browser_projection (run_id : string) (expected : dict) (seen t : db) : res (option dict) * db :=
  match load run_id seen t with
  | Raise e => (Raise e, t)
  | Ok (record, t) =>
      match _build_browser_projection record with
      | Raise e => (Raise e, t)
      | Ok None => (Ok None, t)
      | Ok (Some projection) =>
          match refresh_write run_id expected record projection t with
          | Raise e => (Raise e, t)
          | Ok t => (load_browser_projection run_id t, t)
          end
      end
  end.

(** ** The clients *)

Inductive call :=
  | Create (record : dict)
  | Save (record : dict) (expected_revision : Z) (publication_lease_id : option string) (now : float)
  | LoadRun (run_id : string)
  | ListRecent (customer_id project_id : string) (limit : Z)
  | Refresh (run_id : string) (expected : dict)
  | CreateJob (lease_id run_id : string) (started heartbeat : float) (now_text status : string)
  | RenderJob (lease_id : string) (started heartbeat : float) (now_text : string)
  | UpdateJob (lease_id status : string) (heartbeat : float) (now_text : string) (started : option float).
Inductive reply :=
  | RRecord (record : dict) | RRecords (records : list dict) | RDone | RJob (job : string * job_row) | RChanged (b : bool).

Definition job_call {A} (f : jobs_tx A) (reply_of : A -> reply) (t : db) : res (reply * db) :=
  match f (d_jobs t) with (Ok a, jobs) => Ok (reply_of a, with_jobs jobs t) | (Raise e, _) => Raise e end.

(** [Refresh] is the UPDATE of [refresh_browser_projection]: what it writes was
    loaded from [seen]. *)
Definition perform (c : call) (seen t : db) : res (reply * db) :=
  match c with
  | Create record => '(r, t) ← create record t; Ok (RRecord r, t)
  | Save record expected lease now => '(r, t) ← save record expected lease now seen t; Ok (RRecord r, t)
  | LoadRun run_id => '(r, t) ← load run_id seen t; Ok (RRecord r, t)
  | ListRecent c p n => '(rs, t) ← list_recent c p n seen t; Ok (RRecords rs, t)
  | Refresh run_id expected =>
      '(record, _) ← load run_id seen seen;
      projection ← _build_browser_projection record;
      match projection with
      | None => Ok (RDone, t)
      | Some projection => t ← refresh_write run_id expected record projection t; Ok (RDone, t)
      end
  | CreateJob l r s h u st => job_call (create_final_report_job l r s h u st) RJob t
  | RenderJob l s h u => job_call (transition_final_report_job_to_rendering l s h u) RChanged t
  | UpdateJob l st h u s => job_call (update_final_report_job l st h u s) RChanged t
  end.

(** Records are Python dicts: no key twice, floats that print.  Their run id has
    no space around it, as [create_comprehensive_run_record] makes it. *)
Definition trimmed (record : dict) : Prop :=
  forall identity run_id, dget record "identity" = JObj identity -> dget identity "run_id" = JStr run_id -> strip run_id = run_id.
Definition call_wf (c : call) : Prop :=
  match c with Create record | Save record _ _ _ => json_wf (JObj record) = true /\ trimmed record | _ => True end.
Definition commits (seen t : db) (l : call * reply) (t' : db) : Prop :=
  call_wf (fst l) /\ perform (fst l) seen t = Ok (snd l, t').

(** ** What the tables hold *)

Definition sha_of (history : list dict) : Z * string := (Z.of_nat (length history), _review_history_sha256 history).

(** [record] is what the row of [run_id] was written from. *)
Record holds (run_id : string) (r : run_row) (record : dict) : Prop := {
  h_wf : json_wf (JObj record) = true;
  h_trimmed : strip run_id = run_id;
  h_key : dlookup ENVELOPE_KEY record = None;
  h_stored : stored record (run_payload r);
  h_history : exists history, _review_history record = Ok history;
  h_identity : exists identity, dget record "identity" = JObj identity /\ dget identity "run_id" = JStr run_id;
  h_revision : py_int (dget record "revision") = Ok (run_revision r);
  h_integrity : dget record "integrity_sha256" = JStr (run_integrity_sha256 r) }.

(** The review history in a row. *)
Definition row_history (r : run_row) : res (list dict) :=
  record ← _decode_run_payload (JStr (run_payload r)); _review_history record.

(** [q] was built from the record in the row. *)
Definition shows (run_id : string) (r : run_row) (q : dict) : Prop :=
  exists record builder, browser_projection_builder = Some builder /\ builder record = Ok (JObj q) /\
    (holds run_id r record \/
     exists written, holds run_id r written /\
       restore_comprehensive_run_record validated_operator_delivery (sorted_dict written) = Ok record).

Record projects (run_id : string) (r : run_row) (p : projection_row) : Prop := {
  p_content : exists q, json_wf (JObj q) = true /\ pj_projection p = _browser_projection_json q /\
    pj_projection_sha256 p = _browser_projection_sha256 q /\ (pj_revision p = run_revision r -> shows run_id r q);
  p_revision : pj_revision p <= run_revision r;
  p_integrity : pj_revision p = run_revision r -> pj_run_integrity_sha256 p = run_integrity_sha256 r }.

Record store_ok (t : db) : Prop := {
  ok_runs : forall k r, d_runs t !! k = Some r -> exists record, holds k r record;
  ok_commitments : forall k c, d_commitments t !! k = Some c ->
    exists r history, d_runs t !! k = Some r /\ row_history r = Ok history /\ c = sha_of history;
  ok_projections : forall k p, d_projections t !! k = Some p -> exists r, d_runs t !! k = Some r /\ projects k r p }.

(** ** How the tables move on *)

Record run_moves (r r' : run_row) : Prop := {
  moves_revision : run_revision r <= run_revision r';
  moves_same : run_revision r' = run_revision r -> r' = r }.
#[export] Instance run_moves_preorder : PreOrder run_moves.
Proof.
  split; [by split|]. intros r s u [R1 S1] [R2 S2]. split; [lia|]. intros H.
  rewrite S2 by lia. apply S1. lia.
Qed.

Definition kept {A} : relation A := fun _ _ => True.
#[export] Instance kept_preorder {A} : PreOrder (@kept A).
Proof. by split. Qed.

Record store_moves (t t' : db) : Prop := {
  m_runs : rows_evolve run_moves (d_runs t) (d_runs t');
  m_commitments : rows_evolve kept (d_commitments t) (d_commitments t');
  m_uncommitted : forall k r, d_runs t !! k = Some r -> d_commitments t' !! k = None -> d_runs t' !! k = Some r;
  m_jobs : rows_evolve job_moves (d_jobs t) (d_jobs t') }.
#[export] Instance store_moves_preorder : PreOrder store_moves.
Proof.
  split; [by split|]. intros t u v [R1 C1 U1 J1] [R2 C2 U2 J2]. split; [by etrans|by etrans| |by etrans].
  intros k r Hr Hv. apply U2; [|done]. apply U1; [done|].
  destruct (d_commitments u !! k) as [c|] eqn:Hc; [|done]. destruct (C2 k c Hc) as (c' & Hc' & _). congruence.
Qed.

(** ** Histories *)

Lemma history_inv record h : _review_history record = Ok h ->
  dget record "review_history" = match h with [] => dget record "review_history" | _ => JArr (map JObj h) end /\
  (dget record "review_history" = JNull \/ dget record "review_history" = JArr (map JObj h)).
Proof.
  unfold _review_history. destruct (dget record "review_history") as [| | | | |l|]; try done.
  - intros [= <-]. split; [done|by left].
  - destruct (forallb is_mapping l) eqn:Hl; [|done]. intros [= <-].
    assert (map JObj (map as_dict l) = l) as Hm.
    { induction l as [|[] l IH]; simpl in *; try done. by rewrite IH. }
    rewrite Hm. split; [by destruct (map as_dict l)|by right].
Qed.

Lemma history_wf record h : json_wf (JObj record) = true -> _review_history record = Ok h -> json_wf (JArr (map JObj h)) = true.
Proof.
  intros Hw Hh. destruct (history_inv _ _ Hh) as [_ [H|H]].
  - unfold _review_history in Hh. rewrite H in Hh. by injection Hh as <-.
  - rewrite <- H. by apply dget_wf.
Qed.

Lemma history_sorted record h : json_wf (JObj record) = true -> _review_history record = Ok h ->
  _review_history (sorted_dict record) = Ok (map sorted_dict h).
Proof.
  intros Hw Hh. unfold _review_history in *. rewrite dget_sorted by by apply keys_nodup.
  destruct (dget record "review_history") as [| | | | |l|]; try done; cbn [sort_json].
  - by injection Hh as <-.
  - destruct (forallb is_mapping l) eqn:Hl; [|done]. injection Hh as <-.
    assert (forallb is_mapping (map sort_json l) = true /\ map as_dict (map sort_json l) = map sorted_dict (map as_dict l)) as [-> ->]; [|done].
    induction l as [|[] l IH]; simpl in *; try done. destruct (IH Hl) as [-> ->]. done.
Qed.

Lemma sort_history h : sort_json (JArr (map JObj h)) = JArr (map JObj (map sorted_dict h)).
Proof. cbn [sort_json]. rewrite !map_map. done. Qed.

(** The digest does not depend on the order of keys. *)
Lemma history_text_sorted h : history_text (map sorted_dict h) = history_text h.
Proof. unfold history_text. by rewrite <- sort_history, dumps_sorted. Qed.
Lemma sha_of_sorted h : sha_of (map sorted_dict h) = sha_of h.
Proof. unfold sha_of, _review_history_sha256. by rewrite length_map, history_text_sorted. Qed.

Lemma history_text_inj h h' : json_wf (JArr (map JObj h)) = true -> json_wf (JArr (map JObj h')) = true ->
  history_text h = history_text h' -> map sorted_dict h = map sorted_dict h'.
Proof.
  intros Hh Hh' H. apply utf8_encode_inj in H. apply dumps_inj in H; [|done|exact sep_ok_compact_unicode|done|done].
  rewrite !sort_history in H. injection H as H.
  assert (forall a b : list dict, map JObj a = map JObj b -> a = b) as Hj; [|by apply Hj].
  intros a. induction a as [|x a IH]; intros [|y b] He; try done. injection He as -> He. f_equal. by apply IH.
Qed.

(** What [_assert_review_history_commitment] accepts. *)
Lemma assert_history record old allow_append h :
  _assert_review_history_commitment record (fst (sha_of old)) (snd (sha_of old)) allow_append = Ok h <->
  _review_history record = Ok h /\ (length old <= length h)%nat /\ _review_history_sha256 (take (length old) h) = _review_history_sha256 old /\
  (allow_append = false -> length h = length old).
Proof.
  unfold _assert_review_history_commitment, sha_of. cbn [fst snd]. unfold _review_history_sha256 at 2. rewrite digest_folded.
  fold (_review_history_sha256 old). destruct (_review_history record) as [h'|e]; cbn [mbind res_bind]; [|by split; [|intros [? _]]].
  rewrite Nat2Z.id. destruct (Z.ltb_spec (Z.of_nat (length old)) 0); [lia|]. cbn [orb].
  destruct (Z.ltb_spec (Z.of_nat (length h')) (Z.of_nat (length old))) as [Hl|Hl].
  { split; [done|]. intros ([= ->] & Hle & _). lia. }
  destruct (String.eqb_spec (_review_history_sha256 (take (length old) h')) (_review_history_sha256 old)) as [He|Hn]; cbn [negb].
  - destruct allow_append; cbn [negb andb].
    + split; [intros [= ->]; split_and!; try done; lia|by intros ([= ->] & _)].
    + destruct (Z.eqb_spec (Z.of_nat (length h')) (Z.of_nat (length old))); cbn [negb].
      * split; [intros [= ->]; split_and!; try done; lia|by intros ([= ->] & _)].
      * split; [done|]. intros ([= ->] & _ & _ & Hx). specialize (Hx eq_refl). lia.
  - split; [done|]. by intros ([= ->] & _ & Hx & _).
Qed.

(** ** What a row is written from *)

Context {laws : ZlibLaws zlib}.

Lemma decode_row k r record : holds k r record -> _decode_run_payload (JStr (run_payload r)) = Ok (sorted_dict record).
Proof.
  intros H. destruct (decode_stored record (run_payload r) (h_stored _ _ _ H) (h_wf _ _ _ H) (h_key _ _ _ H)) as (p & Hl & Hd).
  unfold _decode_run_payload, _decode_json_object_payload. by rewrite Hl.
Qed.

Lemma decode_again k r record : holds k r record -> _decode_run_payload (JObj (sorted_dict record)) = Ok (sorted_dict record).
Proof.
  intros H. unfold _decode_run_payload, _decode_json_object_payload, decode_run_storage. cbn [mbind res_bind].
  by rewrite dlookup_sorted, (h_key _ _ _ H) by (apply keys_nodup, (h_wf _ _ _ H)).
Qed.

Lemma row_history_of k r record h : holds k r record -> _review_history record = Ok h -> row_history r = Ok (map sorted_dict h).
Proof.
  intros H Hh. unfold row_history. rewrite (decode_row _ _ _ H). cbn [mbind res_bind].
  apply history_sorted; [apply (h_wf _ _ _ H)|done].
Qed.

Lemma row_history_ok k r record : holds k r record -> exists h, _review_history record = Ok h /\ row_history r = Ok (map sorted_dict h).
Proof. intros H. destruct (h_history _ _ _ H) as [h Hh]. exists h. split; [done|]. by eapply row_history_of. Qed.

Lemma item_dget d k v : item d k = Ok v -> dget d k = v.
Proof. unfold item, dget. destruct (dlookup k d); [by intros [= ->]|done]. Qed.

Lemma copy_wf record : json_wf (JObj record) = true -> json_wf (JObj (_copy_record_for_store record)) = true.
Proof.
  intros H. unfold _copy_record_for_store, has_key. destruct (bool_decide _) eqn:Hk; [done|]. apply bool_decide_eq_false in Hk.
  cbn [json_wf] in *. apply andb_true_iff in H as [Hn Hf]. apply bool_decide_eq_true in Hn.
  rewrite forallb_app, Hf. cbn. rewrite andb_true_r. apply bool_decide_eq_true. rewrite map_app. cbn [map fst].
  apply NoDup_app. split; [done|]. split; [|apply NoDup_singleton]. intros x Hx ->%list_elem_of_singleton. by apply Hk.
Qed.

Lemma copy_trimmed record : trimmed record -> trimmed (_copy_record_for_store record).
Proof.
  intros H identity run_id Hi. apply H. revert Hi. unfold _copy_record_for_store, has_key. destruct (bool_decide _) eqn:Hk; [done|].
  apply bool_decide_eq_false in Hk. rewrite <- dset_app by done. by rewrite dget_dset_ne.
Qed.

Lemma validated_wf record canonical : json_wf (JObj record) = true -> trimmed record -> _validated_copy record = Ok canonical ->
  json_wf (JObj canonical) = true /\ trimmed canonical /\ canonical = _copy_record_for_store record /\
  require_valid validated_operator_delivery "invalid_run_record" canonical = Ok tt.
Proof.
  unfold _validated_copy. intros Hw Ht H. cbv zeta in H. apply bind_ok_inv in H as ([] & Hv & [= <-]).
  split_and!; [by apply copy_wf|by apply copy_trimmed|done|done].
Qed.

Lemma text_or_null_some v s : text_or_null v = Ok (Some s) -> v = JStr s.
Proof. destruct v; simpl; try done. by intros [= ->]. Qed.

Lemma mapR_cons {A B} (f : A -> res B) x l y ys : mapR f (x :: l) = Ok (y :: ys) -> f x = Ok y /\ mapR f l = Ok ys.
Proof. cbn [mapR]. intros H. apply bind_ok_inv in H as (y' & Hy & H). apply bind_ok_inv in H as (ys' & Hys & [= -> ->]). done. Qed.

Lemma bind_row_inv values k row : bind_row values = Ok (Some (k, row)) ->
  (exists rest, rv_identity values = JStr k :: rest) /\ rv_integrity values = JStr (run_integrity_sha256 row) /\
  run_revision row = rv_revision values /\ run_payload row = rv_payload values.
Proof.
  unfold bind_row. intros H. apply bind_ok_inv in H as (ids & Hi & H). apply bind_ok_inv in H as (s & Hs & H).
  apply bind_ok_inv in H as (n & Hn & H). apply bind_ok_inv in H as (i & Hint & H). apply bind_ok_inv in H as (u & Hu & H).
  unfold int_column in Hn. destruct (_ && _); [|done]. injection Hn as <-.
  destruct ids as [|[k'|] [|[a|] [|[b|] [|[c|] [|[d|] [|[e|] [|]]]]]]]; try done.
  destruct s as [s|]; [|done]. destruct i as [i|]; [|done]. destruct u as [u|]; [|done]. injection H as -> <-.
  destruct (rv_identity values) as [|v rest] eqn:Hv; [done|]. apply mapR_cons in Hi as [Hk _].
  apply text_or_null_some in Hk as ->. apply text_or_null_some in Hint. split_and!; try done. by exists rest.
Qed.

Lemma row_values_inv canonical values : _row_values canonical = Ok values ->
  encode_run_storage canonical = Ok (rv_payload values) /\ py_int (dget canonical "revision") = Ok (rv_revision values) /\
  dget canonical "integrity_sha256" = rv_integrity values /\
  exists identity, item canonical "identity" = Ok (JObj identity) /\ rv_identity values = map (dget identity) identity_columns.
Proof.
  unfold _row_values. intros H. apply bind_ok_inv in H as (identity & Hid & H). apply bind_ok_inv in H as (payload & Hp & H).
  apply bind_ok_inv in H as (cols & Hc & H). apply bind_ok_inv in H as (status & _ & H).
  apply bind_ok_inv in H as (rev & Hrev & H). apply bind_ok_inv in Hrev as (v & Hv & Hrev).
  apply bind_ok_inv in H as (term & _ & H). apply bind_ok_inv in H as (integ & Hi & H).
  apply bind_ok_inv in H as (upd & _ & [= <-]). cbn [rv_payload rv_revision rv_integrity rv_identity].
  apply item_dget in Hi, Hv. split_and!; [done|by rewrite Hv|done|].
  destruct identity as [| | | | | |identity]; try done. exists identity. split; [done|].
  apply mapR_ok in Hc. clear - Hc. induction Hc as [|f c fs cs Hf _ IH]; [done|]. cbn [map].
  apply item_dget in Hf. by rewrite Hf, IH.
Qed.

Lemma row_written canonical values k row : json_wf (JObj canonical) = true -> trimmed canonical -> _row_values canonical = Ok values ->
  (exists h, _review_history canonical = Ok h) -> bind_row values = Ok (Some (k, row)) -> holds k row canonical.
Proof.
  intros Hw Ht Hv Hh Hb. apply row_values_inv in Hv as (He & Hr & Hi & identity & Hid & Hc).
  apply bind_row_inv in Hb as ((rest & Hk) & Hint & Hrev & Hp). apply encode_stored in He as [Hkey Hs].
  apply item_dget in Hid. assert (dget identity "run_id" = JStr k) as Hrun by (rewrite Hc in Hk; by injection Hk as ->).
  split; try done.
  - by apply (Ht identity k).
  - by rewrite Hp.
  - by exists identity.
  - by rewrite Hrev.
  - congruence.
Qed.

(** ** Writing a run *)

Definition new_projection (row : run_row) (updated_at : string) (q : dict) : projection_row :=
  mkProjection (run_revision row) (run_integrity_sha256 row) (_browser_projection_sha256 q) updated_at (_browser_projection_json q).

(** The three tables after a run was written. *)
Definition wrote (k : string) (row : run_row) (c : Z * string) (q : option (string * dict)) (jobs : gmap string job_row) (t : db) : db :=
  mkDb (<[k := row]> (d_runs t)) (<[k := c]> (d_commitments t))
    (match q with Some (u, q) => <[k := new_projection row u q]> (d_projections t) | None => d_projections t end) jobs.

Lemma write_projection k row canonical projection t t' : holds k row canonical ->
  _write_browser_projection canonical projection t = Ok t' ->
  exists u, t' = with_projections (match projection with Some q => <[k := new_projection row u q]> (d_projections t)
                                   | None => d_projections t end) t.
Proof.
  intros H Hw. destruct projection as [q|]; cbn [_write_browser_projection] in Hw.
  - apply bind_ok_inv in Hw as (identity & Hid & Hw). apply bind_ok_inv in Hw as (run & Hrun & Hw).
    apply bind_ok_inv in Hw as (rev & Hrev & Hw). apply bind_ok_inv in Hrev as (v & Hv & Hrev).
    apply bind_ok_inv in Hw as (int & Hint & Hw). apply bind_ok_inv in Hw as (upd & Hupd & Hw).
    apply bind_ok_inv in Hw as (n & Hn & [= <-]). exists (py_str upd).
    apply item_dget in Hid, Hv, Hint. destruct (h_identity _ _ _ H) as (i & Hi & Hk). assert (identity = JObj i) as -> by congruence.
    apply item_dget in Hrun. rewrite Hk in Hrun. subst run. rewrite (h_integrity _ _ _ H) in Hint. subst int.
    pose proof (h_revision _ _ _ H) as Hr. rewrite Hv in Hr. rewrite Hr in Hrev. injection Hrev as <-.
    unfold int_column in Hn. destruct (_ && _); [|done]. injection Hn as <-. done.
  - injection Hw as <-. exists "". by destruct t.
Qed.

Lemma built_projection canonical projection : _build_browser_projection canonical = Ok projection ->
  forall q, projection = Some q -> exists builder, browser_projection_builder = Some builder /\ builder canonical = Ok (JObj q).
Proof.
  intros H q ->. unfold _build_browser_projection in H. destruct browser_projection_builder as [builder|]; [|done].
  exists builder. split; [done|]. apply bind_ok_inv in H as (v & Hv & H). rewrite Hv. destruct v; try done. by injection H as ->.
Qed.

(** ** What a record of the pipeline can count on *)

(** A record that fits the columns: of the pipeline, under key [k] at revision [z]. *)
Record writable (k : string) (z : Z) (canonical : dict) : Prop := {
  w_state : exists n, run_state n canonical;
  w_wf : json_wf (JObj canonical) = true;
  w_key : dget (record_identity canonical) "run_id" = JStr k;
  w_revision : dget canonical "revision" = JInt z;
  w_width : z < 2 ^ 63;
  w_updated : exists u, dget canonical "updated_at" = JStr u;
  w_payload : exists payload, encode_run_storage canonical = Ok payload }.

Lemma writable_identity k z canonical : writable k z canonical -> exists identity, dget canonical "identity" = JObj identity /\
  dget identity "run_id" = JStr k /\ strip k = k /\ truthy k = true /\
  forall f, f ∈ required_identity true -> exists s, dget identity f = JStr s.
Proof.
  intros H. destruct (w_state _ _ _ H) as (n & Hn). destruct (rs_identity _ _ Hn) as (i & Hi & Hf).
  pose proof (w_key _ _ _ H) as Hk. unfold record_identity in Hk. rewrite Hi in Hk. cbn [as_dict] in Hk.
  destruct (Hf "run_id") as (s & Hs & Hstrip & Hne); [unfold required_identity; set_solver|].
  exists i. assert (s = k) as -> by congruence. split_and!; try done.
  - by destruct k.
  - intros f Hin. destruct (Hf f Hin) as (s & Hs1 & _). by exists s.
Qed.

Lemma writable_validated k z canonical : writable k z canonical ->
  _validated_copy canonical = Ok canonical /\ trimmed canonical /\ _review_history canonical = Ok [].
Proof.
  intros H. destruct (w_state _ _ _ H) as (n & Hn). destruct (rs_results _ _ Hn) as (st & Hst). split_and!.
  - unfold _validated_copy, _copy_record_for_store. rewrite (has_key_of _ _ _ Hst) by done. cbv zeta.
    by rewrite (state_require_valid _ _ _ _ Hn).
  - intros i run Hi Hr. destruct (writable_identity _ _ _ H) as (i' & Hi' & Hk & Hs & _). congruence.
  - unfold _review_history. by rewrite (rs_history _ _ Hn).
Qed.

Lemma columns_ok identity : (forall f, f ∈ required_identity true -> exists s, dget identity f = JStr s) ->
  mapR (subscript (JObj identity)) identity_columns = Ok (map (dget identity) identity_columns) /\
  exists ss, mapR text_or_null (map (dget identity) identity_columns) = Ok (map Some ss) /\ length ss = 6%nat /\
    map JStr ss = map (dget identity) identity_columns.
Proof.
  intros H. assert (forall f, f ∈ identity_columns -> exists s, dget identity f = JStr s) as Hc.
  { intros f Hf. apply H. unfold identity_columns, required_identity in *. set_solver. }
  clear H. change 6%nat with (length identity_columns). induction identity_columns as [|f fs IH]; [by split; [|exists []]|].
  destruct IH as [IH1 (ss & IH2 & IH3 & IH4)]; [intros g Hg; apply Hc; by right|]. destruct (Hc f) as (s & Hs); [by left|]. split.
  - cbn [mapR map subscript]. by rewrite (item_of _ _ _ Hs), IH1, Hs.
  - exists (s :: ss). cbn [mapR map]. rewrite IH2, Hs. cbn. by rewrite IH3, IH4.
Qed.

(** Such a record makes a row. *)
Lemma writable_row k z canonical : writable k z canonical -> exists values row, _row_values canonical = Ok values /\
  bind_row values = Ok (Some (k, row)) /\ run_revision row = z /\ rv_revision values = z.
Proof.
  intros H. destruct (w_state _ _ _ H) as (n & Hn). destruct (writable_identity _ _ _ H) as (i & Hi & Hk & _ & _ & Hf).
  destruct (columns_ok i Hf) as [Hcols (ss & Hss & Hlen & Hmap)]. destruct (w_payload _ _ _ H) as (payload & Hp).
  destruct (rs_status _ _ Hn) as (s & Hs & _ & Ht & _). destruct (w_updated _ _ _ H) as (u & Hu).
  destruct (rs_revision _ _ Hn) as (z' & Hz & Hpos). rewrite (w_revision _ _ _ H) in Hz. injection Hz as <-.
  unfold _row_values. rewrite (item_of _ _ _ Hi) by done. cbn [mbind res_bind]. rewrite Hp. cbn [mbind res_bind]. rewrite Hcols.
  cbn [mbind res_bind]. rewrite (item_of _ _ _ Hs), (item_of _ _ _ (w_revision _ _ _ H)), (item_of _ _ _ Ht),
    (item_of _ _ _ (rs_integrity _ _ Hn)), (item_of _ _ _ Hu) by done.
  destruct ss as [|k' [|a [|b [|c [|d [|e [|]]]]]]]; try done.
  assert (k' = k) as -> by (cbn [map identity_columns] in Hmap; congruence).
  eexists _, _. split; [reflexivity|]. unfold bind_row. cbn [rv_identity rv_status rv_revision rv_integrity rv_updated_at].
  rewrite Hss. cbn [mbind res_bind text_or_null text_column]. unfold int_column. pose proof (w_width _ _ _ H).
  destruct (Z.leb_spec (- 2 ^ 63) z); [|lia]. destruct (Z.ltb_spec z (2 ^ 63)); [|lia]. by split_and!.
Qed.

Lemma writable_projection k z canonical row projection t : writable k z canonical -> holds k row canonical -> run_revision row = z ->
  exists u, _write_browser_projection canonical projection t =
    Ok (with_projections (match projection with Some q => <[k := new_projection row u q]> (d_projections t)
                          | None => d_projections t end) t).
Proof.
  intros H Hk Hz. destruct projection as [q|]; [|exists ""; by destruct t].
  destruct (writable_identity _ _ _ H) as (i & Hi & Hik & _). destruct (w_updated _ _ _ H) as (u & Hu). exists u.
  unfold _write_browser_projection. rewrite (item_of _ _ _ Hi) by done. cbn [mbind res_bind subscript].
  rewrite (item_of _ _ _ Hik), (item_of _ _ _ (w_revision _ _ _ H)), (item_of _ _ _ (h_integrity _ _ _ Hk)), (item_of _ _ _ Hu) by done.
  cbn [mbind res_bind py_int py_str]. unfold int_column. destruct (w_state _ _ _ H) as (n & Hn). pose proof (w_width _ _ _ H).
  destruct (rs_revision _ _ Hn) as (z' & Hz' & Hpos). rewrite (w_revision _ _ _ H) in Hz'. injection Hz' as <-.
  destruct (Z.leb_spec (- 2 ^ 63) z); [|lia]. destruct (Z.ltb_spec z (2 ^ 63)); [|lia]. cbn [andb mbind res_bind].
  unfold new_projection. by rewrite Hz.
Qed.

(** Creating a run answers.  A new pipeline record is stored, with its
    commitment and its projection, unless there is a run of that id already:
    then the call raises a conflict and commits nothing. *)
Theorem create_answers k z canonical projection t : store_ok t -> writable k z canonical ->
  _build_browser_projection canonical = Ok projection ->
  match d_runs t !! k with
  | Some _ => create canonical t = fail ComprehensiveRunConflict ("run_already_exists:" +:+ k)
  | None => exists row u, holds k row canonical /\ run_revision row = z /\
      create canonical t = Ok (canonical, wrote k row (sha_of []) (pair u <$> projection) (d_jobs t) t)
  end.
Proof.
  intros Ht H Hb. destruct (writable_validated _ _ _ H) as (Hv & Htrim & Hh). destruct (writable_identity _ _ _ H) as (i & Hi & Hik & _).
  destruct (writable_row _ _ _ H) as (values & row & Hval & Hrow & Hz & _).
  pose proof (row_written _ _ _ _ (w_wf _ _ _ H) Htrim Hval (ex_intro _ _ Hh) Hrow) as Hk.
  destruct (writable_projection _ _ _ _ projection (with_commitment k (sha_of []) (mkDb (<[k := row]> (d_runs t)) (d_commitments t) (d_projections t) (d_jobs t))) H Hk Hz) as (u & Hp).
  unfold create. rewrite Hv. cbn [mbind res_bind]. rewrite Hb. cbn [mbind res_bind]. rewrite (item_of _ _ _ Hi) by done. cbn [mbind res_bind].
  rewrite Hval, Hh. cbn [mbind res_bind subscript]. rewrite (item_of _ _ _ Hik) by done. cbn [mbind res_bind].
  unfold create_rows. rewrite Hrow. cbn [mbind res_bind]. destruct (d_runs t !! k) as [r|] eqn:Hr.
  - by rewrite bool_decide_eq_false_2.
  - rewrite bool_decide_eq_true_2 by done. cbn [unless mbind res_bind text_column d_commitments].
    destruct (d_commitments t !! k) as [c|] eqn:Hc.
    { destruct (ok_commitments _ Ht _ _ Hc) as (r & _ & Hr' & _). congruence. }
    rewrite bool_decide_eq_true_2 by done. cbn [unless mbind res_bind]. unfold sha_of in Hp. cbn [length Z.of_nat] in *. rewrite Hp.
    exists row, u. split_and!; try done. unfold wrote. do 3 f_equal. by destruct projection.
Qed.

(** Read and written in one state, a commitment is there or is made. *)
Lemma commitment_now k r h t : store_ok t -> d_runs t !! k = Some r -> row_history r = Ok h -> truthy k = true ->
  exists t', commitment_for k (JStr (run_payload r)) t t = Ok (sha_of h, t') /\ d_commitments t' !! k = Some (sha_of h) /\
    (t' = t \/ t' = with_commitment k (sha_of h) t).
Proof.
  intros Ht Hr Hh Hk. unfold commitment_for. destruct (d_commitments t !! k) as [c|] eqn:Hc.
  - destruct (ok_commitments _ Ht _ _ Hc) as (r' & h' & Hr' & Hh' & ->). exists t.
    assert (h' = h) as -> by congruence. split_and!; [done..|by left].
  - destruct (ok_runs _ Ht _ _ Hr) as (record & Hrec). exists (with_commitment k (sha_of h) t).
    unfold _initialize_missing_review_history_commitment. rewrite (h_trimmed _ _ _ Hrec), Hk. cbn [negb].
    unfold row_history in Hh. rewrite (decode_row _ _ _ Hrec) in *. cbn [mbind res_bind] in *. rewrite Hh. cbn [mbind res_bind].
    rewrite Hc. cbn [with_commitment d_commitments]. rewrite lookup_insert_eq. unfold sha_of. cbv beta iota. unfold _review_history_sha256 at 1.
    rewrite digest_folded, Z.eqb_refl, String.eqb_refl. split_and!; [done|by rewrite lookup_insert_eq|by right].
Qed.

(** What a publication under [lease] does to the leases, if it is one. *)
Definition publication_leaves (canonical : dict) (k : string) (lease : option string) (clock : float) (jobs jobs' : gmap string job_row)
    (publication : option (string * string)) : Prop :=
  match lease with
  | None => jobs' = jobs /\ publication = None
  | Some l => exists status u, publication_status canonical l = Ok status /\ dget canonical "updated_at" = JStr u /\
      publish_job status clock u l k jobs = (Ok true, jobs') /\ publication = Some (l, status)
  end.

Lemma save_enters k expected canonical projection lease clock jobs jobs' publication seen t : writable k (expected + 1) canonical ->
  _build_browser_projection canonical = Ok projection -> publication_leaves canonical k lease clock jobs jobs' publication ->
  exists values row, holds k row canonical /\ run_revision row = expected + 1 /\ bind_row values = Ok (Some (k, row)) /\
    save canonical expected lease clock seen t =
    (t ← save_rows canonical projection values k expected publication clock seen t; Ok (canonical, t)).
Proof.
  intros H Hb Hl. destruct (writable_validated _ _ _ H) as (Hv & Htrim & Hh). destruct (writable_identity _ _ _ H) as (i & Hi & Hik & _).
  destruct (writable_row _ _ _ H) as (values & row & Hval & Hrow & Hz & _). exists values, row.
  split_and!; [by eapply row_written; [apply (w_wf _ _ _ H)|..|exists []|]|done..|].
  assert ((match lease with None => Ok None | Some lease => status ← publication_status canonical lease; Ok (Some (lease, status)) end)
    = Ok publication) as Hp.
  { destruct lease as [l|]; [|by destruct Hl as [_ ->]]. by destruct Hl as (status & u & -> & _ & _ & ->). }
  unfold save. rewrite Hv. cbn [mbind res_bind]. rewrite Hb. cbn [mbind res_bind]. rewrite (item_of _ _ _ Hi) by done.
  cbn [mbind res_bind]. rewrite Hp. cbn [mbind res_bind]. rewrite (item_of _ _ _ (w_revision _ _ _ H)) by done.
  cbn [mbind res_bind py_int]. rewrite Z.eqb_refl.
  cbn [unless mbind res_bind]. rewrite Hval. cbn [mbind res_bind subscript]. by rewrite (item_of _ _ _ Hik).
Qed.

Lemma settle_publication_ok canonical k lease clock jobs jobs' publication t :
  publication_leaves canonical k lease clock jobs jobs' publication -> d_jobs t = jobs ->
  settle_publication publication canonical k clock t = Ok (with_jobs jobs' t).
Proof.
  intros Hl <-. revert Hl. destruct lease as [l|]; cbn [publication_leaves].
  - intros (status & u & _ & Hu & Hj & ->). unfold settle_publication. rewrite (item_of _ _ _ Hu) by done. cbn [mbind res_bind text_column].
    by rewrite Hj.
  - intros [-> ->]. cbn [settle_publication]. by destruct t.
Qed.

(** The transaction, read and written in one state. *)
Lemma save_rows_now k expected canonical projection values row lease clock jobs' publication t r : store_ok t ->
  writable k (expected + 1) canonical -> holds k row canonical -> run_revision row = expected + 1 -> bind_row values = Ok (Some (k, row)) ->
  publication_leaves canonical k lease clock (d_jobs t) jobs' publication -> d_runs t !! k = Some r -> row_history r = Ok [] ->
  if run_revision r =? expected then exists u,
    save_rows canonical projection values k expected publication clock t t =
      Ok (wrote k row (sha_of []) (pair u <$> projection) jobs' t)
  else save_rows canonical projection values k expected publication clock t t =
    fail ComprehensiveRunConflict ("stale_revision:" +:+ k +:+ ":expected:" +:+ str_of_Z expected).
Proof.
  intros Ht H Hk Hz Hrow Hl Hr Hr0. destruct (writable_validated _ _ _ H) as (_ & _ & Hh).
  destruct (writable_identity _ _ _ H) as (_ & _ & _ & _ & Htk & _).
  destruct (w_state _ _ _ H) as (n & Hn). destruct (rs_revision _ _ Hn) as (z' & Hz' & Hpos).
  rewrite (w_revision _ _ _ H) in Hz'. injection Hz' as <-. pose proof (w_width _ _ _ H).
  destruct (commitment_now k r [] t Ht Hr Hr0 Htk) as (t' & Hc & Hc' & Ht').
  unfold save_rows. rewrite Hr, Hc. cbn [mbind res_bind].
  rewrite (proj2 (assert_history canonical [] true [])) by by (split_and!; done). cbn [mbind res_bind].
  unfold update_run. rewrite Hrow. cbn [mbind res_bind]. unfold int_column.
  destruct (Z.leb_spec (- 2 ^ 63) expected); [|lia]. destruct (Z.ltb_spec expected (2 ^ 63)); [|lia]. cbn [andb mbind res_bind].
  assert (d_runs t' = d_runs t /\ d_jobs t' = d_jobs t /\ d_projections t' = d_projections t) as (R1 & J1 & P1)
    by (destruct Ht' as [-> | ->]; done).
  rewrite R1, Hr. destruct (run_revision r =? expected); [|done]. cbn [mbind res_bind].
  unfold update_commitment. cbn [d_commitments]. rewrite bool_decide_eq_true_2 by done. cbn [mbind res_bind].
  rewrite (settle_publication_ok _ _ _ _ _ _ _ _ Hl) by exact J1. cbn [mbind res_bind].
  set (s := with_jobs _ _). destruct (writable_projection _ _ _ _ projection s H Hk Hz) as (u & ->). exists u. f_equal.
  subst s. unfold wrote, with_projections. cbn [with_jobs with_commitment d_runs d_commitments d_projections d_jobs fst snd].
  rewrite P1. f_equal; [|by destruct projection]. destruct Ht' as [-> | ->]; [done|]. cbn [with_commitment d_commitments]. apply insert_insert_eq.
Qed.

(** A pipeline record holds no decision, so it cannot follow one. *)
Lemma save_rows_truncates k expected canonical projection values lease clock jobs' publication t r h : store_ok t ->
  writable k (expected + 1) canonical -> publication_leaves canonical k lease clock (d_jobs t) jobs' publication ->
  d_runs t !! k = Some r -> row_history r = Ok h -> h <> [] ->
  save_rows canonical projection values k expected publication clock t t = fail ValueError "review_history_commitment_cannot_be_truncated".
Proof.
  intros Ht H Hl Hr Hh Hne. destruct (writable_validated _ _ _ H) as (_ & _ & H0).
  destruct (writable_identity _ _ _ H) as (_ & _ & _ & _ & Htk & _).
  destruct (commitment_now k r h t Ht Hr Hh Htk) as (t' & Hc & _). unfold save_rows. rewrite Hr, Hc. cbn [mbind res_bind].
  unfold _assert_review_history_commitment, sha_of. cbn [fst snd]. rewrite H0. cbn [mbind res_bind length].
  destruct h as [|x h]; [done|]. rewrite (proj2 (Z.ltb_ge (Z.of_nat (length (x :: h))) 0)) by lia.
  by rewrite (proj2 (Z.ltb_lt (Z.of_nat 0) _)) by (simpl; lia).
Qed.

(** C22: saving the next revision answers.  A pipeline record that can be written
    and has no decision, numbered as the revision after [expected], for which the
    projection builder succeeds and which, if it publishes a report, does so under
    an active lease, is saved with no other commit between the transaction's read
    and its writes.  Then the save has one of four outcomes: no row raises a
    conflict, a row with decisions on record refuses to lose them, a row at
    another revision than [expected] raises the stale-revision conflict, and
    otherwise the save commits the record as the row's next revision.  Nothing
    else stops it, and only the last commits anything. *)
Theorem save_answers k expected canonical projection lease clock jobs' publication t : store_ok t ->
  writable k (expected + 1) canonical -> _build_browser_projection canonical = Ok projection ->
  publication_leaves canonical k lease clock (d_jobs t) jobs' publication ->
  match d_runs t !! k with
  | None => save canonical expected lease clock t t = fail ComprehensiveRunConflict ("review_history_commitment_missing:" +:+ k)
  | Some r => exists h, row_history r = Ok h /\
      if bool_decide (h <> []) then
        save canonical expected lease clock t t = fail ValueError "review_history_commitment_cannot_be_truncated"
      else if run_revision r =? expected then exists row u, holds k row canonical /\ run_revision row = expected + 1 /\
        save canonical expected lease clock t t = Ok (canonical, wrote k row (sha_of []) (pair u <$> projection) jobs' t)
      else save canonical expected lease clock t t =
        fail ComprehensiveRunConflict ("stale_revision:" +:+ k +:+ ":expected:" +:+ str_of_Z expected)
  end.
Proof.
  intros Ht H Hb Hl. destruct (save_enters _ _ _ _ _ _ _ _ _ t t H Hb Hl) as (values & row & Hk & Hz & Hrow & ->).
  destruct (d_runs t !! k) as [r|] eqn:Hr; [|unfold save_rows; by rewrite Hr].
  destruct (ok_runs _ Ht _ _ Hr) as [record Hrec]. destruct (row_history_ok _ _ _ Hrec) as (h0 & _ & Hh).
  exists (map sorted_dict h0). split; [done|]. case_bool_decide as Hne.
  - by rewrite (save_rows_truncates _ _ _ _ _ _ _ _ _ _ _ _ Ht H Hl Hr Hh Hne).
  - rewrite Hne in Hh.
    pose proof (save_rows_now _ _ _ projection _ _ _ _ _ _ _ _ Ht H Hk Hz Hrow Hl Hr Hh) as Hs.
    destruct (run_revision r =? expected); [|by rewrite Hs]. destruct Hs as (u & ->). by exists row, u.
Qed.

(** ** A projection is JSON *)

Context (builder_wf : forall builder record q, browser_projection_builder = Some builder ->
  builder record = Ok (JObj q) -> json_wf (JObj q) = true).

Lemma new_projection_projects k row canonical u q : holds k row canonical ->
  (exists builder, browser_projection_builder = Some builder /\ builder canonical = Ok (JObj q)) ->
  projects k row (new_projection row u q).
Proof.
  intros H (builder & Hb & Hq). split; [|done|done]. exists q. split_and!; try done; [by eapply builder_wf|].
  intros _. exists canonical, builder. auto.
Qed.

Lemma wrote_ok k row canonical h projection u jobs t :
  store_ok t -> holds k row canonical -> _review_history canonical = Ok h -> _build_browser_projection canonical = Ok projection ->
  (forall r, d_runs t !! k = Some r -> run_revision r < run_revision row) ->
  store_ok (wrote k row (sha_of h) (pair u <$> projection) jobs t).
Proof.
  intros [Hr Hc Hp] Hk Hh Hb Hnew. split; cbn [wrote d_runs d_commitments d_projections].
  - intros j r [[<- <-]|[Hj H]]%lookup_insert_Some; [by exists canonical|by apply Hr].
  - intros j c [[<- <-]|[Hj H]]%lookup_insert_Some.
    + exists row, (map sorted_dict h). rewrite lookup_insert_eq, sha_of_sorted. split_and!; try done. by eapply row_history_of.
    + rewrite lookup_insert_ne by done. by apply Hc.
  - intros j p H. destruct (decide (k = j)) as [<-|Hn].
    + exists row. rewrite lookup_insert_eq. split; [done|].
      destruct projection as [q|]; cbn [fmap option_fmap option_map] in H.
      * rewrite lookup_insert_eq in H. injection H as <-. eapply new_projection_projects; [exact Hk|]. by eapply built_projection.
      * destruct (Hp k p H) as (r & Hkr & [(q & Hq1 & Hq2 & Hq3 & _) Hle _]). specialize (Hnew r Hkr).
        split; [exists q; split_and!; try done; lia|lia|lia].
    + rewrite lookup_insert_ne by done. apply Hp. destruct projection as [q|]; cbn [fmap option_fmap option_map] in H; [|done].
      by rewrite lookup_insert_ne in H.
Qed.

Lemma wrote_moves k row c q jobs t : (forall r, d_runs t !! k = Some r -> run_revision r < run_revision row) ->
  rows_evolve job_moves (d_jobs t) jobs -> store_moves t (wrote k row c q jobs t).
Proof.
  intros Hnew Hj. split; cbn [wrote d_runs d_commitments d_jobs]; [| | |exact Hj].
  - apply (rows_evolve_insert run_moves). intros r Hr. specialize (Hnew r Hr). split; lia.
  - by apply (rows_evolve_insert kept).
  - intros j r Hr Hn. apply lookup_insert_None in Hn as [_ Hne]. by rewrite lookup_insert_ne.
Qed.

(** ** The operations, step by step *)

Lemma store_create_inv record t canonical t' : json_wf (JObj record) = true -> trimmed record -> create record t = Ok (canonical, t') ->
  exists k row h projection u, holds k row canonical /\ _review_history canonical = Ok h /\
    _build_browser_projection canonical = Ok projection /\ d_runs t !! k = None /\ d_commitments t !! k = None /\
    t' = wrote k row (sha_of h) (pair u <$> projection) (d_jobs t) t.
Proof.
  intros Hw Htr H. unfold create in H. apply bind_ok_inv in H as (c & Hcan & H). apply validated_wf in Hcan as (Hcw & Hct & _); [|done..].
  apply bind_ok_inv in H as (projection & Hb & H). apply bind_ok_inv in H as (identity & Hid & H).
  apply bind_ok_inv in H as (values & Hv & H). apply bind_ok_inv in H as (h & Hh & H).
  apply bind_ok_inv in H as (run & Hrun & H). destruct (create_rows _ _ _ _ _ _) as [t1|] eqn:Hc; [|done].
  injection H as <- <-. unfold create_rows in Hc. apply bind_ok_inv in Hc as ([[k row]|] & Hrow & Hc); [|done].
  pose proof (row_written _ _ _ _ Hcw Hct Hv (ex_intro _ h Hh) Hrow) as Hk.
  apply bind_ok_inv in Hc as (? & Hu1 & Hc). apply unless_ok, bool_decide_eq_true in Hu1.
  apply bind_ok_inv in Hc as (key & Hkey & Hc). apply bind_ok_inv in Hc as (? & Hu2 & Hc). apply unless_ok, bool_decide_eq_true in Hu2.
  assert (key = k) as ->.
  { destruct (h_identity _ _ _ Hk) as (i & Hi & Hki). apply item_dget in Hid. assert (identity = JObj i) as -> by congruence.
    apply item_dget in Hrun. rewrite Hki in Hrun. subst run. by injection Hkey as ->. }
  destruct (write_projection _ _ _ _ _ _ Hk Hc) as (u & ->). exists k, row, h, projection, u.
  cbn [d_commitments with_commitment] in *. split_and!; try done. by destruct projection.
Qed.

(** The commitment an operation works with: the one it read, or one that is
    there by now, or a new one for the row it read. *)
Lemma commitment_cases k p record payload seen t c t1 : holds k p record -> _decode_run_payload payload = Ok (sorted_dict record) ->
  commitment_for k payload seen t = Ok (c, t1) ->
  (d_commitments seen !! k = Some c /\ t1 = t) \/
  (d_commitments seen !! k = None /\ d_commitments t !! k = Some c /\ t1 = t) \/
  (d_commitments seen !! k = None /\ d_commitments t !! k = None /\ exists h, row_history p = Ok h /\ c = sha_of h /\ t1 = with_commitment k c t).
Proof.
  intros Hk Hp H. unfold commitment_for in H. destruct (d_commitments seen !! k) as [c'|] eqn:Hs.
  { injection H as -> ->. by left. }
  right. unfold _initialize_missing_review_history_commitment in H. rewrite (h_trimmed _ _ _ Hk) in H.
  destruct (negb (truthy k)); [done|]. rewrite Hp in H. cbn [mbind res_bind] in H.
  destruct (row_history_ok _ _ _ Hk) as (h & Hh & Hrow). rewrite (history_sorted _ _ (h_wf _ _ _ Hk) Hh) in H.
  cbn [mbind res_bind] in H. fold (sha_of (map sorted_dict h)) in H. destruct (d_commitments t !! k) as [[n sha]|] eqn:Ht.
  - left. rewrite Ht in H. destruct (negb _); [done|]. by injection H as <- <-.
  - right. cbn [with_commitment d_commitments] in H. rewrite lookup_insert_eq in H. cbn [fst snd] in H.
    unfold sha_of in H at 1. destruct (negb _); [done|]. injection H as <- <-. split_and!; try done. eauto.
Qed.

Lemma init_ok k c t : store_ok t -> d_commitments t !! k = None ->
  (exists r h, d_runs t !! k = Some r /\ row_history r = Ok h /\ c = sha_of h) ->
  store_ok (with_commitment k c t) /\ store_moves t (with_commitment k c t).
Proof.
  intros [Hr Hc Hp] Hn (r & h & Hk & Hh & ->). split; split; cbn [with_commitment d_runs d_commitments d_projections d_jobs]; try done.
  - intros j c [[<- <-]|[Hj H]]%lookup_insert_Some; [by exists r, h|by apply Hc].
  - apply (rows_evolve_insert kept). by rewrite Hn.
Qed.

(** Whichever it is, afterwards it belongs to the row as it is. *)
Lemma commitment_ok k p record payload seen t c t1 : store_ok seen -> store_ok t -> store_moves seen t ->
  d_runs seen !! k = Some p -> holds k p record -> _decode_run_payload payload = Ok (sorted_dict record) ->
  commitment_for k payload seen t = Ok (c, t1) ->
  store_ok t1 /\ store_moves t t1 /\ (t1 = t \/ t1 = with_commitment k c t) /\
  (exists r h, d_commitments t1 !! k = Some c -> d_runs t !! k = Some r /\ row_history r = Ok h /\ c = sha_of h).
Proof.
  intros Hs Ht Hm Hp Hk Hd H.
  assert (forall c', d_commitments t !! k = Some c' -> exists r h, d_runs t !! k = Some r /\ row_history r = Ok h /\ c' = sha_of h) as Hold
    by apply (ok_commitments _ Ht).
  destruct (commitment_cases _ _ _ _ _ _ _ _ Hk Hd H) as [[H1 ->]|[(H1 & H2 & ->)|(H1 & H2 & h & Hh & Hc & ->)]].
  - split_and!; [done..|by left|]. destruct (d_commitments t !! k) as [c'|] eqn:Hc'.
    + destruct (Hold c' eq_refl) as (r & h & Hr). exists r, h. by intros [= ->].
    + destruct (row_history_ok _ _ _ Hk) as (h & _ & _). by exists p, h.
  - split_and!; [done..|by left|]. destruct (Hold c H2) as (r & h & Hr). by exists r, h.
  - pose proof (m_uncommitted _ _ Hm k p Hp H2) as Hpt.
    destruct (init_ok k c t Ht H2) as [Ho Hmv]; [eauto|]. split_and!; [done..|by right|]. by exists p, h.
Qed.

(** A committed save: what it found and what it left. *)
Record saved (canonical : dict) (expected : Z) (lease : option string) (now : float) (t t' : db) (k : string) (row : run_row) : Prop := {
  sv_holds : holds k row canonical;
  sv_found : exists r h0 h, d_runs t !! k = Some r /\ run_revision r = expected /\ row_history r = Ok h0 /\
    _review_history canonical = Ok h /\ (length h0 <= length h)%nat /\
    _review_history_sha256 (take (length h0) h) = _review_history_sha256 h0;
  sv_next : run_revision row = expected + 1;
  sv_wrote : exists h projection u, _review_history canonical = Ok h /\ _build_browser_projection canonical = Ok projection /\
    t' = wrote k row (sha_of h) (pair u <$> projection) (d_jobs t') t;
  sv_jobs : match lease with
    | None => d_jobs t' = d_jobs t
    | Some l => exists status u, publication_status canonical l = Ok status /\ publish_job status now u l k (d_jobs t) = (Ok true, d_jobs t')
    end }.

Lemma settle_inv publication canonical k now t t' : settle_publication publication canonical k now t = Ok t' ->
  exists jobs, t' = with_jobs jobs t /\
    match publication with
    | None => jobs = d_jobs t
    | Some (l, status) => exists u, publish_job status now u l k (d_jobs t) = (Ok true, jobs)
    end.
Proof.
  unfold settle_publication. destruct publication as [[l st]|].
  - intros H. apply bind_ok_inv in H as (u & _ & H). destruct (publish_job _ _ _ _ _ _) as [a jobs] eqn:Hj.
    apply bind_ok_inv in H as (b & -> & H). apply bind_ok_inv in H as (? & ->%unless_ok & [= <-]). exists jobs. eauto.
  - intros [= <-]. exists (d_jobs t). by destruct t.
Qed.

Lemma save_rows_inv canonical projection values k expected publication now seen t t' :
  store_ok seen -> store_ok t -> store_moves seen t -> json_wf (JObj canonical) = true -> trimmed canonical ->
  _row_values canonical = Ok values -> rv_revision values = expected + 1 -> _build_browser_projection canonical = Ok projection ->
  (exists i, item canonical "identity" = Ok (JObj i) /\ dget i "run_id" = JStr k) ->
  save_rows canonical projection values k expected publication now seen t = Ok t' ->
  exists row r h0 h u jobs, holds k row canonical /\ d_runs t !! k = Some r /\ run_revision r = expected /\ row_history r = Ok h0 /\
    _review_history canonical = Ok h /\ (length h0 <= length h)%nat /\
    _review_history_sha256 (take (length h0) h) = _review_history_sha256 h0 /\ run_revision row = expected + 1 /\
    t' = wrote k row (sha_of h) (pair u <$> projection) jobs t /\
    match publication with
    | None => jobs = d_jobs t
    | Some (l, status) => exists u', publish_job status now u' l k (d_jobs t) = (Ok true, jobs)
    end.
Proof.
  intros Hs Ht Hm Hw Htr Hv Hrev Hb (i & Hi & Hik) H. unfold save_rows in H.
  destruct (d_runs seen !! k) as [p|] eqn:Hp; [|done]. destruct (ok_runs _ Hs _ _ Hp) as [rec Hrec].
  apply bind_ok_inv in H as ([c t1] & Hc & H).
  destruct (commitment_ok _ _ _ _ _ _ _ _ Hs Ht Hm Hp Hrec (decode_row _ _ _ Hrec) Hc) as (_ & _ & Ht1 & r & h0 & Hcr).
  apply bind_ok_inv in H as (h & Ha & H). apply bind_ok_inv in H as (t2 & Hu & H). apply bind_ok_inv in Hu as ([t2'|] & Hu & [= ->]).
  apply bind_ok_inv in H as (t3 & Hup & H). apply bind_ok_inv in H as (t4 & Hset & H).
  unfold update_run in Hu. apply bind_ok_inv in Hu as (brow & Hbind & Hu). apply bind_ok_inv in Hu as (e & He & Hu).
  unfold int_column in He. destruct (_ && _); [|done]. injection He as <-.
  assert (d_runs t1 = d_runs t /\ d_jobs t1 = d_jobs t /\ d_projections t1 = d_projections t) as (R1 & J1 & P1)
    by (destruct Ht1 as [-> | ->]; done).
  rewrite R1 in Hu. destruct (d_runs t !! k) as [r'|] eqn:Hr'; [|done]. destruct (Z.eqb_spec (run_revision r') expected) as [Hexp|]; [|done].
  destruct brow as [[k' row]|]; [|done]. injection Hu as <-.
  unfold update_commitment in Hup. cbn [d_commitments] in Hup. destruct (bool_decide (d_commitments t1 !! k = Some c)) eqn:Hcas; [|done].
  apply bool_decide_eq_true in Hcas. destruct (Hcr Hcas) as ([= ->] & Hh0 & ->). injection Hup as <-.
  apply assert_history in Ha as (Hh & Hlen & Hsha & _). fold (sha_of h) in *.
  pose proof (row_written _ _ _ _ Hw Htr Hv (ex_intro _ h Hh) Hbind) as Hrow.
  assert (k' = k) as ->.
  { destruct (h_identity _ _ _ Hrow) as (i' & Hi' & Hk'). apply item_dget in Hi. assert (i' = i) as -> by congruence. congruence. }
  destruct (write_projection _ _ _ _ _ _ Hrow H) as (u & ->).
  apply bind_row_inv in Hbind as (_ & _ & Hrr & _).
  destruct (settle_inv _ _ _ _ _ _ Hset) as (jobs & -> & Hjobs). cbn [with_commitment d_jobs] in Hjobs. rewrite J1 in Hjobs.
  exists row, r, h0, h, u, jobs. split_and!; try done; [lia|].
  unfold wrote, with_projections. cbn [with_jobs with_commitment d_runs d_commitments d_projections d_jobs]. rewrite P1.
  f_equal; [|by destruct projection]. destruct Ht1 as [-> | ->]; [done|]. cbn [with_commitment d_commitments]. apply insert_insert_eq.
Qed.

Lemma save_inv record expected lease now seen t canonical t' : store_ok seen -> store_ok t -> store_moves seen t ->
  json_wf (JObj record) = true -> trimmed record -> save record expected lease now seen t = Ok (canonical, t') ->
  exists k row, saved canonical expected lease now t t' k row.
Proof.
  intros Hs Ht Hm Hw Htr H. unfold save in H. apply bind_ok_inv in H as (c & Hcan & H).
  apply validated_wf in Hcan as (Hcw & Hct & _); [|done..].
  apply bind_ok_inv in H as (projection & Hb & H). apply bind_ok_inv in H as (identity & Hid & H).
  apply bind_ok_inv in H as (publication & Hpub & H). apply bind_ok_inv in H as (rev & Hrev & H).
  apply bind_ok_inv in Hrev as (v & Hv & Hrev). apply bind_ok_inv in H as (? & Hnext%unless_ok & H).
  apply bind_ok_inv in H as (values & Hval & H). apply bind_ok_inv in H as (run & Hrun & H).
  apply bind_ok_inv in H as (k & Hk & H). apply bind_ok_inv in H as (t1 & Hrows & [= <- <-]).
  destruct identity as [| | | | | |i]; try done.
  assert (run = JStr k) as -> by (destruct run; try done; by injection Hk as ->).
  apply item_dget in Hrun, Hv. apply Z.eqb_eq in Hnext.
  assert (rv_revision values = expected + 1) as Hrv.
  { destruct (row_values_inv _ _ Hval) as (_ & Hr & _). rewrite Hv in Hr. rewrite Hr in Hrev. injection Hrev as ->. exact Hnext. }
  destruct (save_rows_inv _ _ _ _ _ _ _ _ _ _ Hs Ht Hm Hcw Hct Hval Hrv Hb (ex_intro _ i (conj Hid Hrun)) Hrows)
    as (row & r & h0 & h & u & jobs & H1 & H2 & H3 & H4 & H5 & H6 & H7 & H8 & -> & H9).
  exists k, row. split; [done|by exists r, h0, h|done|by exists h, projection, u|].
  cbn [wrote d_jobs]. destruct lease as [l|].
  - apply bind_ok_inv in Hpub as (status & Hst & [= <-]). destruct H9 as [u' H9]. by exists status, u'.
  - by injection Hpub as <-.
Qed.

Lemma saved_ok canonical expected lease now t t' k row : store_ok t -> saved canonical expected lease now t t' k row ->
  store_ok t' /\ store_moves t t'.
Proof.
  intros Ht [H1 (r & h0 & h & Hr & He & _) Hn (h' & projection & u & Hh' & Hb & Hw) Hj].
  assert (forall r, d_runs t !! k = Some r -> run_revision r < run_revision row) as Hlt.
  { intros r' Hr'. rewrite Hr in Hr'. injection Hr' as <-. lia. }
  rewrite Hw. split; [by eapply wrote_ok|]. apply wrote_moves; [exact Hlt|]. destruct lease as [l|].
  - destruct Hj as (status & u' & _ & Hp). pose proof (publish_job_moves status now u' l k (d_jobs t)) as Hm. by rewrite Hp in Hm.
  - by rewrite Hj.
Qed.

(** Restoring a row answers what restoring the sorted record does. *)
Lemma restore_inv k p record seen t x t1 : store_ok seen -> store_ok t -> store_moves seen t ->
  d_runs seen !! k = Some p -> holds k p record -> restore k p seen t = Ok (x, t1) ->
  restore_comprehensive_run_record validated_operator_delivery (sorted_dict record) = Ok x /\ store_ok t1 /\ store_moves t t1 /\
  d_runs t1 = d_runs t.
Proof.
  intros Hs Ht Hm Hp Hk H. unfold restore in H. rewrite (decode_row _ _ _ Hk) in H. cbn [mbind res_bind] in H.
  apply bind_ok_inv in H as ([[n sha] t2] & Hc & H). apply bind_ok_inv in H as (? & _ & H). apply bind_ok_inv in H as (y & Hy & [= <- <-]).
  destruct (commitment_ok _ _ _ _ _ _ _ _ Hs Ht Hm Hp Hk (decode_again _ _ _ Hk) Hc) as (Ho & Hmv & [-> | ->] & _); done.
Qed.

Lemma load_inv run_id seen t x t1 : store_ok seen -> store_ok t -> store_moves seen t -> load run_id seen t = Ok (x, t1) ->
  exists p record, d_runs seen !! strip run_id = Some p /\ holds (strip run_id) p record /\
    restore_comprehensive_run_record validated_operator_delivery (sorted_dict record) = Ok x /\ store_ok t1 /\ store_moves t t1 /\
    d_runs t1 = d_runs t.
Proof.
  intros Hs Ht Hm H. unfold load, _consume_read_snapshot in H. destruct (negb _); [done|].
  destruct (d_runs seen !! strip run_id) as [p|] eqn:Hp; [|done]. destruct (ok_runs _ Hs _ _ Hp) as [record Hk].
  destruct (restore_inv _ _ _ _ _ _ _ Hs Ht Hm Hp Hk H) as (? & ? & ? & ?). exists p, record. done.
Qed.

Lemma insert_newer_perm x l : insert_newer x l ≡ₚ x :: l.
Proof. induction l as [|y l IH]; [done|]. cbn [insert_newer]. destruct (newer x y); [done|]. rewrite IH. apply Permutation_swap. Qed.

Lemma recent_rows_in c p seen k r : (k, r) ∈ recent_rows c p seen ->
  d_runs seen !! k = Some r /\ run_customer_id r = c /\ run_project_id r = p.
Proof.
  intros H. unfold recent_rows in H. set (l := List.filter _ _) in H.
  assert (foldr insert_newer [] l ≡ₚ l) as Hp by (clear H; induction l as [|x l IH]; [done|]; cbn [foldr]; by rewrite insert_newer_perm, IH).
  rewrite Hp in H. unfold l in H. apply list_elem_of_In, filter_In in H as [Hin Hc]. apply list_elem_of_In, elem_of_map_to_list in Hin.
  cbn [snd] in Hc. apply andb_true_iff in Hc as [->%String.eqb_eq ->%String.eqb_eq]. done.
Qed.

Lemma restore_rows_inv rows seen t xs t1 : store_ok seen -> store_ok t -> store_moves seen t ->
  (forall k r, (k, r) ∈ rows -> d_runs seen !! k = Some r) -> restore_rows rows seen t = Ok (xs, t1) ->
  store_ok t1 /\ store_moves t t1 /\ d_runs t1 = d_runs t.
Proof.
  intros Hs. revert t xs. induction rows as [|[k r] rows IH]; intros t xs Ht Hm Hin H; cbn [restore_rows] in H.
  - injection H as _ <-. by split.
  - apply bind_ok_inv in H as ([x t2] & Hx & H). apply bind_ok_inv in H as ([ys t3] & Hys & [= _ <-]).
    assert (d_runs seen !! k = Some r) as Hk by (apply Hin; by left). destruct (ok_runs _ Hs _ _ Hk) as [record Hr].
    destruct (restore_inv _ _ _ _ _ _ _ Hs Ht Hm Hk Hr Hx) as (_ & Ho & Hmv & He).
    destruct (IH t2 ys Ho) as (Ho3 & Hm3 & He3); [by etrans|intros j q Hj; apply Hin; by right|done|].
    split_and!; [done|by etrans|congruence].
Qed.

Lemma setdefault_frame d k v j : j <> k -> dget (setdefault d k v) j = dget d j.
Proof.
  intros Hn. unfold setdefault, has_key. destruct (bool_decide _) eqn:Hk; [done|]. apply bool_decide_eq_false in Hk.
  rewrite <- dset_app by done. by apply dget_dset_ne.
Qed.

Lemma copy_frame d j : j <> "stage_results" -> dget (_copy_record_for_update d) j = dget d j.
Proof. exact (setdefault_frame d "stage_results" (JObj []) j). Qed.

Lemma restored_frame payload r j : restore_comprehensive_run_record validated_operator_delivery payload = Ok r ->
  j ∉ ["stage_results"; "identity"; "human_evidence"; "human_review_completed"; "artifact_schema"; "integrity_sha256"] ->
  dget r j = dget payload j.
Proof.
  intros H Hj. rewrite !not_elem_of_cons in Hj. destruct Hj as (J1 & J2 & J3 & J4 & J5 & J6 & _).
  unfold restore_comprehensive_run_record in H. apply bind_ok_inv in H as (? & _ & H). destruct (bool_decide _).
  - apply bind_ok_inv in H as (i & _ & H). apply bind_ok_inv in H as (e & _ & H). cbv zeta in H.
    apply bind_ok_inv in H as (? & _ & [= <-]). unfold hashed. rewrite !dget_dset_ne, setdefault_frame, !dget_dset_ne by done.
    by apply copy_frame.
  - injection H as <-. by apply copy_frame.
Qed.

Lemma py_int_sorted v : py_int (sort_json v) = py_int v.
Proof. by destruct v. Qed.

Lemma restored_revision k r record x : holds k r record ->
  restore_comprehensive_run_record validated_operator_delivery (sorted_dict record) = Ok x -> py_int (dget x "revision") = Ok (run_revision r).
Proof.
  intros H Hx. rewrite (restored_frame _ _ _ Hx) by (apply (bool_decide_eq_false_1 _); by vm_compute).
  rewrite dget_sorted, py_int_sorted by apply keys_nodup, (h_wf _ _ _ H). apply (h_revision _ _ _ H).
Qed.

Lemma refresh_step run_id expected record projection p written t seen t' :
  store_ok t -> store_moves seen t -> d_runs seen !! strip run_id = Some p -> holds (strip run_id) p written ->
  restore_comprehensive_run_record validated_operator_delivery (sorted_dict written) = Ok record ->
  _build_browser_projection record = Ok (Some projection) -> refresh_write run_id expected record projection t = Ok t' ->
  store_ok t' /\ store_moves t t' /\ d_runs t' = d_runs t.
Proof.
  intros [Hr Hc Hp] Hm Hseen Hk Hx Hb H. unfold refresh_write in H.
  apply bind_ok_inv in H as (rev & Hrev & H). apply bind_ok_inv in Hrev as (v & Hv & Hrev). apply item_dget in Hv.
  rewrite <- Hv, (restored_revision _ _ _ _ Hk Hx) in Hrev. injection Hrev as <-.
  apply bind_ok_inv in H as (integ & _ & H). apply bind_ok_inv in H as (n & Hn & [= <-]).
  unfold int_column in Hn. destruct (_ && _); [|done]. injection Hn as <-.
  set (m := fun q : projection_row => _). set (f := fun q : projection_row => _).
  split_and!; [split|split|]; cbn [with_projections d_runs d_commitments d_projections d_jobs]; try done.
  intros j q Hj. destruct (update_row_cases m f run_id (d_projections t)) as [(q0 & Hq0 & Hm0 & He)|[He _]]; rewrite He in Hj; cbn [snd] in Hj; [|by apply Hp].
  apply lookup_insert_Some in Hj as [[<- <-]|[Hne Hj]]; [|by apply Hp].
  destruct (Hp _ _ Hq0) as (r & Hrr & [_ Hle Hint]). exists r. split; [done|].
  unfold m in Hm0. rewrite Hrr in Hm0. apply andb_true_iff in Hm0 as [_ [Hrev%Z.eqb_eq _]%andb_true_iff].
  destruct (Hr _ _ Hrr) as [other Hother]. pose proof (h_trimmed _ _ _ Hother) as Htrim. rewrite Htrim in Hseen, Hk.
  destruct (m_runs _ _ Hm _ _ Hseen) as (r1 & Hr1 & [_ Hsame]). rewrite Hrr in Hr1. injection Hr1 as <-.
  specialize (Hsame Hrev) as ->. destruct (built_projection _ _ Hb projection eq_refl) as (builder & Hbd & Hq).
  split; [|exact Hle|exact Hint]. exists projection. split_and!; [by eapply builder_wf|done|done|].
  intros _. exists record, builder. split_and!; [done|done|]. right. by exists written.
Qed.

Lemma with_jobs_step jobs t : store_ok t -> rows_evolve job_moves (d_jobs t) jobs -> store_ok (with_jobs jobs t) /\ store_moves t (with_jobs jobs t).
Proof. intros [Hr Hc Hp] Hj. by split; split. Qed.

Lemma job_call_step {A} (f : jobs_tx A) g t r t' : store_ok t -> rows_evolve job_moves (d_jobs t) (snd (f (d_jobs t))) ->
  job_call f g t = Ok (r, t') -> store_ok t' /\ store_moves t t' /\ d_runs t' = d_runs t.
Proof.
  intros Ht Hm H. unfold job_call in H. destruct (f (d_jobs t)) as [[a|e] jobs]; [|done]. injection H as _ <-.
  split_and!; [by apply with_jobs_step..|done].
Qed.

(** What a committed call wrote: a new run, the next revision of one, or no run. *)
Inductive effect (t : db) (l : call * reply) (t' : db) : Prop :=
  | effect_create record canonical k row h projection u : l = (Create record, RRecord canonical) ->
      holds k row canonical -> _review_history canonical = Ok h -> _build_browser_projection canonical = Ok projection ->
      d_runs t !! k = None -> t' = wrote k row (sha_of h) (pair u <$> projection) (d_jobs t) t -> effect t l t'
  | effect_save record canonical expected lease now k row : l = (Save record expected lease now, RRecord canonical) ->
      saved canonical expected lease now t t' k row -> effect t l t'
  | effect_none : (forall record a, l <> (Create record, a)) -> (forall record e p n a, l <> (Save record e p n, a)) ->
      d_runs t' = d_runs t -> store_ok t' -> store_moves t t' -> effect t l t'.

Lemma perform_effect seen t l t' : store_ok seen -> store_ok t -> store_moves seen t -> commits seen t l t' -> effect t l t'.
Proof.
  intros Hs Ht Hm [Hw H]. destruct l as [[record|record expected lease now|run_id|c p n|run_id expected|l r s h u st|l s h u|l st h u s] a];
    cbn [fst snd perform call_wf] in *.
  - destruct Hw as [Hw Htr]. apply bind_ok_inv in H as ([x t1] & H & [= <- <-]).
    destruct (store_create_inv _ _ _ _ Hw Htr H) as (k & row & h & projection & u & Hk & Hh & Hb & Hn & _ & ->). by eapply effect_create.
  - destruct Hw as [Hw Htr]. apply bind_ok_inv in H as ([x t1] & H & [= <- <-]).
    destruct (save_inv _ _ _ _ _ _ _ _ Hs Ht Hm Hw Htr H) as (k & row & Hsv). by eapply effect_save.
  - apply bind_ok_inv in H as ([x t1] & H & [= _ <-]). destruct (load_inv _ _ _ _ _ Hs Ht Hm H) as (p & record & _ & _ & _ & ? & ? & ?).
    by apply effect_none.
  - apply bind_ok_inv in H as ([xs t1] & H & [= _ <-]). unfold list_recent in H. destruct (_ || _); [done|].
    apply restore_rows_inv in H as (? & ? & ?); try done; [by apply effect_none|]. intros k r Hin. set (rows := recent_rows _ _ _) in Hin.
    assert ((k, r) ∈ rows) as Hi by (rewrite <- (take_drop (Z.to_nat (Z.max 1 (Z.min 200 n))) rows); apply elem_of_app; by left).
    exact (proj1 (recent_rows_in _ _ _ _ _ Hi)).
  - apply bind_ok_inv in H as ([x t1] & Hl & H). apply bind_ok_inv in H as ([q|] & Hb & H); [|injection H as _ <-; by apply effect_none].
    apply bind_ok_inv in H as (t2 & H & [= _ <-]).
    destruct (load_inv _ _ _ _ _ Hs Hs ltac:(done) Hl) as (p & record & Hp & Hk & Hx & _).
    destruct (refresh_step _ _ _ _ _ _ _ _ _ Ht Hm Hp Hk Hx Hb H) as (? & ? & ?). by apply effect_none.
  - apply job_call_step in H as (? & ? & ?); [by apply effect_none|done|apply create_job_moves].
  - apply job_call_step in H as (? & ? & ?); [by apply effect_none|done|apply transition_job_moves].
  - apply job_call_step in H as (? & ? & ?); [by apply effect_none|done|apply update_final_job_moves].
Qed.

Lemma effect_step t l t' : store_ok t -> effect t l t' -> store_ok t' /\ store_moves t t'.
Proof.
  intros Ht [record canonical k row h projection u _ Hk Hh Hb Hn ->|record canonical expected lease now k row _ Hsv|_ _ _ Ho Hmv]; [|by eapply saved_ok|done].
  split; [eapply wrote_ok; try done; by rewrite Hn|apply wrote_moves; [by rewrite Hn|done]].
Qed.

Lemma store_step seen t l t' : store_ok seen -> store_ok t -> store_moves seen t -> commits seen t l t' ->
  store_ok t' /\ store_moves t t'.
Proof. intros Hs Ht Hm H. eapply effect_step; [exact Ht|]. exact (perform_effect seen t l t' Hs Ht Hm H). Qed.

(** ** Records in the order of their keys *)

Lemma insert_member_filter (p : string -> bool) (m : string * json) l : StronglySorted member_le l ->
  List.filter (fun x => p (fst x)) (insert_member m l) =
    if p (fst m) then insert_member m (List.filter (fun x => p (fst x)) l) else List.filter (fun x => p (fst x)) l.
Proof.
  induction 1 as [|n l Hl IH Hn]; cbn [insert_member List.filter]; [by destruct (p (fst m))|].
  destruct (str_leb (fst m) (fst n)) eqn:Hmn; cbn [List.filter].
  - destruct (p (fst m)); [|done]. rewrite insert_member_id; [done|].
    apply Forall_forall. intros x Hx. unfold member_le. destruct (p (fst n)).
    + apply elem_of_cons in Hx as [->|Hx]; [done|]. apply list_elem_of_In, filter_In in Hx as [Hx _]. apply list_elem_of_In in Hx.
      rewrite Forall_forall in Hn. eapply str_leb_trans; [exact Hmn|]. by apply Hn.
    + apply list_elem_of_In, filter_In in Hx as [Hx _]. apply list_elem_of_In in Hx.
      rewrite Forall_forall in Hn. eapply str_leb_trans; [exact Hmn|]. by apply Hn.
  - rewrite IH. destruct (p (fst n)) eqn:Hpn; [|done]. destruct (p (fst m)); [|done]. cbn [insert_member]. by rewrite Hmn.
Qed.

Lemma dremove_sorted k d : dremove k (sorted_dict d) = sorted_dict (dremove k d).
Proof.
  unfold dremove, sorted_dict. cbn [sort_json as_dict].
  set (p := fun x => negb (String.eqb x k)). set (g := fun m : string * json => (fst m, sort_json (snd m))).
  induction d as [|m d IH]; [done|]. cbn [map List.filter].
  change (sort_members (?a :: ?l)) with (insert_member a (sort_members l)).
  rewrite (insert_member_filter p) by apply sort_members_sorted. fold (p (fst m)) in *. cbn [g fst].
  change (fun m => negb (String.eqb (fst m) k)) with (fun m : string * json => p (fst m)) in *.
  destruct (p (fst m)); [|exact IH]. by rewrite IH.
Qed.

Lemma text_sorted k d : dumps compact_unicode (JObj (dremove k (sorted_dict d))) = dumps compact_unicode (JObj (dremove k d)).
Proof. rewrite dremove_sorted. exact (dumps_sorted compact_unicode (JObj (dremove k d)) eq_refl). Qed.

(** Only containers are changed by sorting, and their text starts with a bracket. *)
Definition bracket (s : string) : bool := match s with String a _ => (code a =? 91) || (code a =? 123) | "" => false end.
Lemma sorted_or_bracket v : sort_json v = v \/ bracket (py_str (jor v (JStr ""))) = true \/ py_truthy v = false.
Proof.
  destruct v as [| | | | |l|l]; try (by left); [destruct l as [|x l]|destruct l as [|x l]]; try (by left); right; left; reflexivity.
Qed.

Lemma dget_str_sorted d k s : json_wf (JObj d) = true -> dget_str d k = s -> truthy s = true -> bracket s = false ->
  dget_str (sorted_dict d) k = s.
Proof.
  intros Hw <- Ht Hb. unfold dget_str in *. rewrite dget_sorted by by apply keys_nodup.
  destruct (sorted_or_bracket (dget d k)) as [-> |[Hx|Hx]]; [done|congruence|]. unfold jor in Ht. by rewrite Hx in Ht.
Qed.

Lemma hex_not_bracket s : bracket (sha256_hex s) = false.
Proof.
  pose proof (sha256_hex_shape s) as H. unfold is_sha256 in H. apply andb_true_iff in H as [_ H].
  destruct (sha256_hex s) as [|a t]; [done|]. cbn [all_chars bracket] in *. apply andb_true_iff in H as [H _]. unfold hex_char in H. lia.
Qed.

Lemma seal_sorted k d : json_wf (JObj d) = true -> seal_holds k d = true -> seal_holds k (sorted_dict d) = true.
Proof.
  unfold seal_holds. intros Hw [Ht He%String.eqb_eq]%andb_true_iff. cbv zeta in *. unfold _canonical_hash in *. rewrite text_sorted.
  rewrite (dget_str_sorted d k _ Hw eq_refl Ht); [by rewrite Ht, <- He, String.eqb_refl|].
  rewrite He. apply hex_not_bracket.
Qed.

Lemma issubset_perm (a b l : list string) : a ≡ₚ b -> issubset a l = issubset b l /\ issubset l a = issubset l b.
Proof.
  intros H. split; apply eq_true_iff_eq; rewrite !issubset_spec; split; intros Hx x Hin; [|rewrite H in Hin| |].
  - rewrite <- H in Hin. by apply Hx.
  - by apply Hx.
  - rewrite <- H. by apply Hx.
  - rewrite H. by apply Hx.
Qed.

Lemma module_sorted id v : json_wf v = true -> truthy id && negb (bracket id) = true -> verify_module (id, v) = true ->
  verify_module (id, sort_json v) = true.
Proof.
  unfold verify_module. cbn [fst snd]. intros Hw [H1 H2%negb_true_iff]%andb_true_iff Hv. destruct v as [| | | | | |raw]; try done.
  apply andb_true_iff in Hv as [Hid%String.eqb_eq Hseal].
  change (String.eqb (dget_str (sorted_dict raw) "module_id") id && seal_holds "module_sha256" (sorted_dict raw) = true).
  by rewrite (seal_sorted _ _ Hw Hseal), (dget_str_sorted raw "module_id" id Hw Hid H1 H2), String.eqb_refl.
Qed.

Lemma evidence_sorted e : json_wf (JObj e) = true -> verify_strategic_human_evidence (JObj e) = true ->
  verify_strategic_human_evidence (JObj (sorted_dict e)) = true.
Proof.
  intros Hw H. cbn [verify_strategic_human_evidence] in *. apply andb_true_iff in H as [Hs H]. rewrite (seal_sorted _ _ Hw Hs). cbn [andb].
  rewrite dget_sorted by by apply keys_nodup. pose proof (dget_wf e "modules" Hw) as Hwm.
  destruct (dget e "modules") as [| | | | | |ms]; try done. change (sort_json (JObj ms)) with (JObj (sorted_dict ms)). cbv iota.
  apply andb_true_iff in H as [[Hk1 Hk2]%andb_true_iff Hv].
  destruct (issubset_perm _ _ (map module_id MODULES) (keys_sorted ms)) as [-> ->]. rewrite Hk1, Hk2. cbn [andb].
  apply forallb_Forall. rewrite sorted_dict_perm. apply List.Forall_map. apply forallb_Forall in Hv.
  cbn [json_wf] in Hwm. apply andb_true_iff in Hwm as [_ Hwm]. apply forallb_Forall in Hwm.
  assert (forallb (fun id => truthy id && negb (bracket id)) (map module_id MODULES) = true) as Hall by (vm_compute; reflexivity).
  rewrite issubset_spec in Hk1. rewrite Forall_forall in Hv, Hwm |- *. intros [id v] Hin.
  apply module_sorted; [exact (Hwm _ Hin)| |exact (Hv _ Hin)].
  apply (proj1 (forallb_forall _ _) Hall), list_elem_of_In, Hk1, list_elem_of_fmap. by exists (id, v).
Qed.

(** Storing keeps a record of the pipeline one. *)
Lemma run_state_sorted n r : json_wf (JObj r) = true -> run_state n r -> run_state n (sorted_dict r).
Proof.
  intros Hw H. pose proof (keys_nodup _ Hw) as Hn. pose proof (fun k => dget_sorted r k Hn) as Hd.
  destruct (rs_identity _ _ H) as (i & Hi & Hfields). destruct (rs_evidence _ _ H) as (e & He & Hschema & Hver).
  destruct (rs_status _ _ H) as (s & Hs & Hact & Hterm & Hrev). destruct (rs_results _ _ H) as (st & Hst).
  destruct (rs_revision _ _ H) as (z & Hz & Hz1).
  pose proof (dget_wf r "identity" Hw) as Wi. pose proof (dget_wf r "human_evidence" Hw) as We. rewrite Hi in Wi. rewrite He in We.
  split; rewrite ?Hd; try (by rewrite ?(rs_schema _ _ H), ?(rs_service _ _ H), ?(rs_progress _ _ H), ?(rs_review _ _ H),
    ?(rs_delivery _ _ H), ?(rs_decision _ _ H), ?(rs_history _ _ H)); [apply (rs_stages _ _ H)|..].
  - exists (sorted_dict i). split; [by rewrite Hi|]. intros f Hf. destruct (Hfields f Hf) as (s' & Hs' & Hx). exists s'.
    rewrite dget_sorted, Hs' by by apply keys_nodup. done.
  - exists (sorted_dict e). split_and!; [by rewrite He| |by apply evidence_sorted]. by rewrite dget_sorted, Hschema by by apply keys_nodup.
  - exists s. rewrite ?Hd, Hs, Hterm. done.
  - rewrite (rs_completed _ _ H). cbn [sort_json]. by rewrite !map_map.
  - exists (sorted_dict st). by rewrite Hst.
  - exists z. by rewrite Hz.
  - rewrite (rs_integrity _ _ H). unfold _record_hash. by rewrite !CanonicalHash.canonical_hash_plain, text_sorted.
Qed.

(** ** Properties *)

Section Histories.
Context (start : db) (start_ok : store_ok start).
Abbreviation run_history := (history commits start).
Abbreviation now ts := (current start ts).

Lemma run_monotone ts : run_history ts -> forall t, t ∈ states start ts -> store_ok t /\ store_moves t (now ts).
Proof. apply (history_monotone commits start store_ok store_moves start_ok store_step). Qed.

Lemma run_ok ts : run_history ts -> store_ok (now ts).
Proof. apply (history_invariant commits start store_ok store_moves start_ok store_step). Qed.

(** The effect of an event of a history. *)
Lemma event_effect later l t ts : run_history (later ++ (l, t) :: ts) ->
  effect (now ts) l t /\ store_ok (now ts) /\ store_ok t /\ store_moves t (now (later ++ (l, t) :: ts)).
Proof.
  intros H. destruct (history_at commits start store_ok store_moves start_ok store_step _ _ _ _ H) as (seen & Hc & H1 & H2 & H3 & H4).
  pose proof (perform_effect _ _ _ _ H1 H2 H3 Hc) as He. split_and!; try done. by apply (effect_step _ _ _ H2 He).
Qed.

(** C25: the tables agree.  In every state of a history the stored text of a run
    decodes to a record under the key of its row, whose revision and digest are
    the row's columns and whose review history is an array of objects; the
    commitment of the run, if it has one, is that history's; a projection is of
    this revision, with the run's digest, or of an earlier one; and commitments
    and projections have runs. *)
Theorem tables_agree ts : run_history ts ->
  let t := now ts in
  (forall k r, d_runs t !! k = Some r -> exists record h,
    _decode_run_payload (JStr (run_payload r)) = Ok record /\
    dget (record_identity record) "run_id" = JStr k /\ py_int (dget record "revision") = Ok (run_revision r) /\
    dget record "integrity_sha256" = JStr (run_integrity_sha256 r) /\ _review_history record = Ok h /\
    (forall c, d_commitments t !! k = Some c -> c = (Z.of_nat (length h), _review_history_sha256 h)) /\
    forall p, d_projections t !! k = Some p -> pj_revision p <= run_revision r /\
      (pj_revision p = run_revision r -> pj_run_integrity_sha256 p = run_integrity_sha256 r)) /\
  (forall k, d_runs t !! k = None -> d_commitments t !! k = None /\ d_projections t !! k = None).
Proof.
  intros H t. pose proof (run_ok _ H) as [Hr Hc Hp]. fold t in Hr, Hc, Hp. split.
  - intros k r Hk. destruct (Hr _ _ Hk) as [record Hrec]. destruct (row_history_ok _ _ _ Hrec) as (h & Hh & Hrow).
    exists (sorted_dict record), (map sorted_dict h). pose proof (keys_nodup _ (h_wf _ _ _ Hrec)) as Hn.
    destruct (h_identity _ _ _ Hrec) as (i & Hi & Hik).
    split_and!.
    + by apply decode_row with (k := k).
    + unfold record_identity. rewrite dget_sorted, Hi by done. change (as_dict (sort_json (JObj i))) with (sorted_dict i).
      pose proof (dget_wf record "identity" (h_wf _ _ _ Hrec)) as Hw. rewrite Hi in Hw. by rewrite dget_sorted, Hik by by apply keys_nodup.
    + rewrite dget_sorted, py_int_sorted by done. apply (h_revision _ _ _ Hrec).
    + by rewrite dget_sorted, (h_integrity _ _ _ Hrec) by done.
    + apply history_sorted; [apply (h_wf _ _ _ Hrec)|done].
    + intros c Hkc. destruct (Hc _ _ Hkc) as (r' & h' & Hk' & Hh' & ->). assert (h' = map sorted_dict h) as -> by congruence. done.
    + intros p Hkp. destruct (Hp _ _ Hkp) as (r' & Hk' & [_ Hle Hint]). assert (r' = r) as -> by congruence. done.
  - intros k Hk. split; apply eq_None_not_Some.
    + intros [c Hkc]. destruct (Hc _ _ Hkc) as (r & _ & Hk' & _). congruence.
    + intros [p Hkp]. destruct (Hp _ _ Hkp) as (r & Hk' & _). congruence.
Qed.

Lemma row_history_sorted k r record h : holds k r record -> row_history r = Ok h ->
  map sorted_dict h = h /\ json_wf (JArr (map JObj h)) = true.
Proof.
  intros Hk Hh. destruct (row_history_ok _ _ _ Hk) as (h0 & H0 & Hs). rewrite Hs in Hh. injection Hh as <-. split.
  - rewrite map_map. apply map_ext. intros d. exact (f_equal as_dict (sort_json_idemp (JObj d))).
  - rewrite <- sort_history. apply sort_json_wf. eapply history_wf; [apply (h_wf _ _ _ Hk)|done].
Qed.

Lemma wf_take n h : json_wf (JArr (map JObj h)) = true -> json_wf (JArr (map JObj (take n h))) = true.
Proof.
  cbn [json_wf]. rewrite !forallb_forall. intros H v Hv. apply H. rewrite <- (take_drop n h), map_app. apply in_or_app. by left.
Qed.

(** Histories with one digest are one history, or a collision. *)
Lemma prefix_or_collision h h' : map sorted_dict h = h -> map sorted_dict h' = h' ->
  json_wf (JArr (map JObj h)) = true -> json_wf (JArr (map JObj h')) = true ->
  _review_history_sha256 (take (length h) h') = _review_history_sha256 h ->
  h `prefix_of` h' \/ collision (history_text h) (history_text (take (length h) h')).
Proof.
  intros Hs Hs' Hw Hw' Hsha. destruct (decide (history_text h = history_text (take (length h) h'))) as [He|Hn]; [|by right; split].
  left. apply history_text_inj in He; [|done|by apply wf_take]. rewrite Hs in He. exists (drop (length h) h').
  assert (map sorted_dict (take (length h) h') = take (length h) h') as Ht
    by (rewrite <- Hs' at 2; by rewrite <- (firstn_map sorted_dict)).
  rewrite Ht in He. transitivity (take (length h) h' ++ drop (length h) h'); [by rewrite take_drop|by rewrite <- He].
Qed.

(** C19: saving extends the stored history.  Whenever a save commits, whatever it
    read before and whoever wrote in between, the row had the revision the caller
    expected and now has the next one; it holds the saved record; the review
    history in the row before is a prefix of the one in the row now, and that is
    what the commitment says; other runs are as they were.  The one exception to
    the prefix is a SHA-256 collision of the two named texts. *)
Theorem save_extends_history later record canonical expected lease clock t ts :
  run_history (later ++ ((Save record expected lease clock, RRecord canonical), t) :: ts) ->
  exists k r r' h h', d_runs (now ts) !! k = Some r /\ run_revision r = expected /\
    d_runs t !! k = Some r' /\ run_revision r' = expected + 1 /\ holds k r' canonical /\
    row_history r = Ok h /\ row_history r' = Ok h' /\
    (h `prefix_of` h' \/ collision (history_text h) (history_text (take (length h) h'))) /\
    d_commitments t !! k = Some (sha_of h') /\ forall j, j <> k -> d_runs t !! j = d_runs (now ts) !! j.
Proof.
  intros H. destruct (event_effect _ _ _ _ H) as (He & Ho & _ & _).
  destruct He as [? ? ? ? ? ? ? [=]|record' canonical' expected' lease' clock' k r' [= <- <- <- <- <-] Hsv|_ Hn]; [|by destruct (Hn _ _ _ _ _ eq_refl)].
  destruct Hsv as [Hk (r & h & h1 & Hr & Hrev & Hh & Hh1 & Hlen & Hsha) Hnext (h2 & projection & u & Hh2 & _ & Hw) _].
  assert (h2 = h1) as -> by congruence. pose proof (row_history_of _ _ _ _ Hk Hh1) as Hrow.
  destruct (ok_runs _ Ho _ _ Hr) as [old Hold]. destruct (row_history_sorted _ _ _ _ Hold Hh) as [S1 W1].
  destruct (row_history_sorted _ _ _ _ Hk Hrow) as [S2 W2].
  exists k, r, r', h, (map sorted_dict h1). rewrite Hw. cbn [wrote d_runs d_commitments]. rewrite !lookup_insert_eq, sha_of_sorted.
  split_and!; try done.
  - apply prefix_or_collision; try done. rewrite <- Hsha. unfold _review_history_sha256. by rewrite firstn_map, history_text_sorted.
  - intros j Hj. by rewrite lookup_insert_ne.
Qed.

(** The run an event saved. *)
Definition save_of (k : string) (l : call * reply) : bool :=
  match l with
  | (Save _ _ _ _, RRecord canonical) => bool_decide (dget (as_dict (dget canonical "identity")) "run_id" = JStr k)
  | _ => false
  end.
Definition saves_of (k : string) (events : list ((call * reply) * db)) : Z :=
  Z.of_nat (length (List.filter (fun e => save_of k (fst e)) events)).

Lemma effect_revision k l t t' r : effect t l t' -> d_runs t !! k = Some r ->
  exists r', d_runs t' !! k = Some r' /\ run_revision r' = run_revision r + (if save_of k l then 1 else 0) /\
    (save_of k l = false -> r' = r).
Proof.
  intros [record canonical k' row h projection u -> Hk Hh Hb Hn ->|record canonical expected lease clock k' row -> Hsv|Hc Hs He Ho Hmv] Hr.
  - exists r. cbn [wrote d_runs save_of]. rewrite lookup_insert_ne by congruence. split_and!; [done|lia|done].
  - destruct Hsv as [Hk (r0 & _ & _ & Hr0 & Hrev & _) Hnext (h & projection & u & _ & _ & ->) _]. cbn [wrote d_runs save_of].
    destruct (h_identity _ _ _ Hk) as (i & -> & Hi). cbn [as_dict]. rewrite Hi. destruct (decide (k' = k)) as [->|Hne].
    + rewrite bool_decide_eq_true_2 by done. exists row. rewrite lookup_insert_eq. split_and!; [done|congruence|done].
    + rewrite bool_decide_eq_false_2 by congruence. exists r. rewrite lookup_insert_ne by done. split_and!; [done|lia|done].
  - exists r. rewrite He. assert (save_of k l = false) as ->; [|split_and!; [done|lia|done]].
    destruct l as [[] []]; try done. by destruct (Hs _ _ _ _ _ eq_refl).
Qed.

(** C20: no save is lost.  From any moment of a history to any later one, a run
    stays, and its revision has grown by the number of saves of it that were
    acknowledged in between; with none its row is untouched. *)
Theorem no_save_lost later ts k r : run_history (later ++ ts) -> d_runs (now ts) !! k = Some r ->
  exists r', d_runs (now (later ++ ts)) !! k = Some r' /\ run_revision r' = run_revision r + saves_of k later /\
    (saves_of k later = 0 -> r' = r).
Proof.
  intros H Hr. induction later as [|[l t] later IH]; [exists r; split_and!; [done|unfold saves_of; simpl; lia|done]|].
  cbn [app] in H. destruct (event_effect [] l t _ H) as (He & _).
  destruct IH as (r1 & Hr1 & Hrev & Hsame); [by inversion H|].
  destruct (effect_revision k l _ _ _ He Hr1) as (r2 & Hr2 & Hrev2 & Hsame2).
  exists r2. split; [exact Hr2|]. unfold saves_of in *. cbn [List.filter fst]. destruct (save_of k l); cbn [length].
  - split; lia.
  - split; [lia|]. intros H0. rewrite Hsame2 by done. by apply Hsame.
Qed.

(** The call of a client that writes a run. *)
Definition writes (c : call) : bool := match c with Create _ | Save _ _ _ _ => true | _ => false end.

Lemma effect_writes c canonical t t' : writes c = true -> effect t (c, RRecord canonical) t' ->
  exists k row, holds k row canonical /\ d_runs t' !! k = Some row /\ is_Some (d_commitments t' !! k).
Proof.
  intros Hw [record canonical' k row h projection u [= -> ->] Hk Hh Hb Hn ->|record canonical' expected lease clock k row [= -> ->] Hsv|Hc Hs _ _ _].
  - exists k, row. cbn [wrote d_runs d_commitments]. rewrite !lookup_insert_eq. by split_and!.
  - destruct Hsv as [Hk _ _ (h & projection & u & _ & _ & ->) _]. exists k, row.
    cbn [wrote d_runs d_commitments]. rewrite !lookup_insert_eq. by split_and!.
  - destruct c; try done; [by destruct (Hc _ _ eq_refl)|by destruct (Hs _ _ _ _ _ eq_refl)].
Qed.

(** A row with its commitment restores without a write. *)
Lemma restore_committed k r record t : store_ok t -> d_runs t !! k = Some r -> holds k r record -> is_Some (d_commitments t !! k) ->
  restore k r t t =
    (x ← restore_comprehensive_run_record validated_operator_delivery (sorted_dict record); Ok (x, t)).
Proof.
  intros Ht Hr Hk [c Hc]. destruct (ok_commitments _ Ht _ _ Hc) as (r' & h & Hr' & Hh & ->). assert (r' = r) as -> by congruence.
  unfold restore, commitment_for. rewrite (decode_row _ _ _ Hk), Hc. cbn [mbind res_bind].
  assert (_assert_review_history_commitment (sorted_dict record) (fst (sha_of h)) (snd (sha_of h)) false = Ok h) as Ha.
  { apply assert_history. unfold row_history in Hh. rewrite (decode_row _ _ _ Hk) in Hh. cbn [mbind res_bind] in Hh.
    rewrite firstn_all. by split_and!. }
  unfold sha_of in *. cbn [fst snd] in Ha. by rewrite Ha.
Qed.

Lemma restore_state n r : run_state n r -> restore_comprehensive_run_record validated_operator_delivery r = Ok r.
Proof.
  intros H. unfold restore_comprehensive_run_record. destruct (rs_results _ _ H) as (st & Hst).
  assert (_copy_record_for_update r = r) as -> by (unfold _copy_record_for_update, setdefault; by rewrite (has_key_of _ _ _ Hst)).
  rewrite (state_require_valid _ _ _ _ H). cbn [mbind res_bind]. by rewrite (rs_schema _ _ H).
Qed.

(** C21: a load answers what was written.  After a create or a save answered
    [canonical], as long as the row of its run is at that revision, [load] of the
    run answers what restoring [canonical], its keys sorted, answers, and writes
    nothing; a record of the pipeline comes back as it was. *)
Theorem load_returns_written later c canonical t ts k r :
  run_history (later ++ ((c, RRecord canonical), t) :: ts) -> writes c = true ->
  dget (as_dict (dget canonical "identity")) "run_id" = JStr k -> k <> "" ->
  d_runs (now (later ++ ((c, RRecord canonical), t) :: ts)) !! k = Some r ->
  py_int (dget canonical "revision") = Ok (run_revision r) ->
  let s := now (later ++ ((c, RRecord canonical), t) :: ts) in
  load k s s = (x ← restore_comprehensive_run_record validated_operator_delivery (sorted_dict canonical); Ok (x, s)) /\
  forall n, run_state n canonical -> load k s s = Ok (sorted_dict canonical, s).
Proof.
  intros H Hw Hid Hne Hr Hz s. destruct (event_effect _ _ _ _ H) as (He & _ & _ & Hm). pose proof (run_ok _ H) as Ho.
  destruct (effect_writes _ _ _ _ Hw He) as (k' & row & Hk & Hrow & [c0 Hc]).
  destruct (h_identity _ _ _ Hk) as (i & Hi & Hik). rewrite Hi in Hid. cbn [as_dict] in Hid. assert (k' = k) as -> by congruence.
  destruct (m_runs _ _ Hm _ _ Hrow) as (r' & Hr' & [_ Hsame]). fold s in Hr, Hr', Ho. assert (r' = r) as -> by congruence.
  rewrite (h_revision _ _ _ Hk) in Hz. injection Hz as Hrev. specialize (Hsame (eq_sym Hrev)) as ->.
  destruct (m_commitments _ _ Hm _ _ Hc) as (c1 & Hc1 & _).
  assert (load k s s = (x ← restore_comprehensive_run_record validated_operator_delivery (sorted_dict canonical); Ok (x, s))) as Hl.
  { unfold load, _consume_read_snapshot. rewrite (h_trimmed _ _ _ Hk). assert (truthy k = true) as -> by (by destruct k).
    cbn [negb]. rewrite Hr. by apply (restore_committed _ _ _ _ Ho Hr Hk). }
  split; [exact Hl|]. intros n Hn. rewrite Hl, (restore_state n); [done|]. apply run_state_sorted; [apply (h_wf _ _ _ Hk)|done].
Qed.

Lemma check_identity_ok projection identity expected : check_identity projection identity expected = Ok tt ->
  forall field value, (field, value) ∈ expected -> observed projection identity field = value.
Proof.
  induction expected as [|[f v] expected IH]; cbn [check_identity]; intros H field value Hin; [by apply elem_of_nil in Hin|].
  destruct (String.eqb_spec (observed projection identity f) v) as [Ho|]; [|done].
  apply elem_of_cons in Hin as [[= -> ->]|Hin]; [done|]. by apply IH.
Qed.

(** C24: browsers see the record.  A projection that is served is the one the
    builder makes, keys sorted, of the record in the row (as it was written or as
    it is restored), and its revision, integrity, status and terminal flag are
    the row's. *)
Theorem projection_faithful ts id q : run_history ts -> load_browser_projection id (now ts) = Ok (Some q) ->
  exists r q0, d_runs (now ts) !! strip id = Some r /\ shows (strip id) r q0 /\ q = sorted_dict q0 /\
    py_int (jor (dget q "revision") (JInt (-1))) = Ok (run_revision r) /\
    casefold (text_of (dget q "integrity_sha256")) = casefold (strip (run_integrity_sha256 r)) /\
    text_of (dget q "canonical_status") = run_status r /\ py_truthy (dget q "terminal") = column_bool (run_terminal r) /\
    forall field value, (field, value) ∈ [("run_id", strip id); ("customer_id", run_customer_id r); ("project_id", run_project_id r);
        ("repository", run_repository r); ("commit_sha", run_commit_sha r)] ->
      observed q (mapping_or_empty (mapping_or_empty q "record") "identity") field = value.
Proof.
  intros H Hl. pose proof (run_ok _ H) as Ho. unfold load_browser_projection in Hl. destruct (negb _); [done|].
  destruct (d_projections (now ts) !! strip id) as [p|] eqn:Hp; [|done]. destruct (d_runs (now ts) !! strip id) as [r|] eqn:Hr; [|done].
  destruct (ok_projections _ Ho _ _ Hp) as (r' & Hr' & [(q0 & Hw & Hq & _ & Hshow) _ _]). assert (r' = r) as -> by congruence.
  unfold _decode_json_object_payload in Hl. rewrite Hq in Hl. unfold _browser_projection_json in Hl.
  rewrite loads_dumps in Hl by (done || exact sep_ok_compact_unicode). cbn [mbind res_bind sort_keys compact_unicode] in Hl.
  change (sort_json (JObj q0)) with (JObj (sorted_dict q0)) in Hl. cbv iota zeta in Hl. cbn [mbind res_bind] in Hl.
  apply bind_ok_inv in Hl as (? & _ & Hl). apply bind_ok_inv in Hl as (? & Hrev%unless_ok%Z.eqb_eq & Hl).
  apply bind_ok_inv in Hl as (? & _ & Hl). apply bind_ok_inv in Hl as ([] & Hid & Hl).
  apply bind_ok_inv in Hl as (n & Hn & Hl). apply bind_ok_inv in Hl as (? & ->%unless_ok%Z.eqb_eq & Hl).
  apply bind_ok_inv in Hl as (? & Hint%unless_ok%String.eqb_eq & Hl). apply bind_ok_inv in Hl as (? & Hst%unless_ok%String.eqb_eq & Hl).
  apply bind_ok_inv in Hl as (? & Ht%unless_ok%eqb_prop & Hl). apply bind_ok_inv in Hl as (? & _ & Hl). apply bind_ok_inv in Hl as (? & _ & [= <-]).
  exists r, q0. split_and!; try done; [by apply Hshow|]. intros f v. by apply check_identity_ok.
Qed.

(** A publication under a lease. *)
Definition publishes (lease : string) (l : call * reply) : bool :=
  match l with (Save _ _ (Some l) _, RRecord _) => String.eqb l lease | _ => false end.

Lemma publication_statuses canonical lease status : publication_status canonical lease = Ok status ->
  status = "complete" \/ status = "blocked".
Proof.
  unfold publication_status. intros H. do 3 apply bind_ok_inv in H as (? & _ & H). destruct (negb _); [done|].
  apply bind_ok_inv in H as (complete & _ & [= <-]). destruct complete; auto.
Qed.

Lemma publish_job_inv status u now k lease (t t' : gmap string job_row) : publish_job status now u lease k t = (Ok true, t') ->
  exists j j', t !! lease = Some j /\ job_run_id j = k /\ job_status j ∈ publishable_statuses /\
    t' !! lease = Some j' /\ job_run_id j' = k /\ job_status j' = status /\ forall l, l <> lease -> t' !! l = t !! l.
Proof.
  intros (j & j' & Hj & [Hk%String.eqb_eq Hp%bool_decide_eq_true]%andb_true_iff & Hf & ->)%update_job_true.
  exists j, j'. rewrite lookup_insert_eq. cbn [mbind option_bind] in Hf. destruct (bind_real now); [|done]. injection Hf as <-.
  split_and!; try done. intros l Hl. by rewrite lookup_insert_ne.
Qed.

Lemma lease_settled lease j later ts : run_history (later ++ ts) -> d_jobs (now ts) !! lease = Some j -> terminal j = true ->
  exists j', d_jobs (now (later ++ ts)) !! lease = Some j' /\ job_run_id j' = job_run_id j /\ job_status j' = job_status j.
Proof.
  intros H Hj Ht. pose proof (history_ordered commits start store_ok store_moves start_ok store_step _ _ H) as Hm.
  destruct (m_jobs _ _ Hm _ _ Hj) as (j' & Hj' & [Hrun Hst]). exists j'. auto.
Qed.

Lemma publish_effect t lease l t' : effect t l t' -> publishes lease l = true ->
  exists k canonical j j', dget (as_dict (dget canonical "identity")) "run_id" = JStr k /\ snd l = RRecord canonical /\
    (exists row, d_runs t' !! k = Some row /\ holds k row canonical) /\
    d_jobs t !! lease = Some j /\ job_run_id j = k /\ terminal j = false /\
    d_jobs t' !! lease = Some j' /\ job_run_id j' = k /\ terminal j' = true /\ publication_status canonical lease = Ok (job_status j').
Proof.
  intros He Hp. destruct He as [? ? ? ? ? ? ? -> |record canonical expected l' clock k row -> Hsv|Hc Hs].
  - done.
  - destruct l' as [l'|]; [|done]. cbn [publishes] in Hp. apply String.eqb_eq in Hp as ->.
    destruct Hsv as [Hk _ _ (h & projection & u & _ & _ & Hw) (status & u' & Hst & Hj)].
    destruct (publish_job_inv _ _ _ _ _ _ _ Hj) as (j & j' & H1 & H2 & H3 & H4 & H5 & H6 & _).
    destruct (h_identity _ _ _ Hk) as (i & Hi & Hik). exists k, canonical, j, j'. rewrite Hi. split_and!; try done.
    + exists row. rewrite Hw. cbn [wrote d_runs]. by rewrite lookup_insert_eq.
    + unfold terminal. apply bool_decide_eq_false. by apply active_not_terminal.
    + unfold terminal. apply bool_decide_eq_true. rewrite H6.
      destruct (publication_statuses _ _ _ Hst) as [-> | ->]; unfold _FINAL_REPORT_JOB_TERMINAL_STATUSES; set_solver.
    + by rewrite H6.
  - destruct l as [[] []]; try done; [by destruct (Hs _ _ _ _ _ eq_refl)|..]; cbn [publishes] in Hp; by case_match.
Qed.

(** C23: a lease publishes once.  A publication commits only under a lease of its
    own run that is still active; in the same commit the row holds the published
    record and the lease is settled as the record says, [complete] or [blocked];
    it stays settled so, and nothing is published under it again. *)
Theorem lease_publishes_once lease later l t ts : run_history (later ++ (l, t) :: ts) -> publishes lease l = true ->
  exists k canonical j j', dget (as_dict (dget canonical "identity")) "run_id" = JStr k /\ snd l = RRecord canonical /\
    (exists row, d_runs t !! k = Some row /\ holds k row canonical) /\
    d_jobs (now ts) !! lease = Some j /\ job_run_id j = k /\ terminal j = false /\
    d_jobs (now (later ++ (l, t) :: ts)) !! lease = Some j' /\ job_run_id j' = k /\
    publication_status canonical lease = Ok (job_status j') /\ job_status j' ∈ ["complete"; "blocked"] /\
    forall e, e ∈ later -> publishes lease (fst e) = false.
Proof.
  intros H Hp. destruct (event_effect _ _ _ _ H) as (He & _).
  destruct (publish_effect _ _ _ _ He Hp) as (k & canonical & j & j' & H1 & H2 & H3 & H4 & H5 & H6 & H7 & H8 & H9 & H10).
  destruct (lease_settled lease j' later ((l, t) :: ts) H H7 H9) as (j1 & Hj1 & Hrun & Hst).
  exists k, canonical, j, j1. rewrite Hrun, Hst. split_and!; try done.
  - destruct (publication_statuses _ _ _ H10) as [-> | ->]; set_solver.
  - intros e Hin. apply not_true_is_false. intros Hpe. apply list_elem_of_split in Hin as (l1 & l2 & ->).
    rewrite <- app_assoc in H. cbn [app] in H. destruct e as [le te]. cbn [fst] in Hpe.
    destruct (event_effect _ _ _ _ H) as (He' & _).
    destruct (publish_effect _ _ _ _ He' Hpe) as (_ & _ & j2 & _ & _ & _ & _ & Hj2 & _ & Hn & _).
    apply history_app in H. assert (run_history (l2 ++ (l, t) :: ts)) as H' by (by inversion H).
    destruct (lease_settled lease j' l2 ((l, t) :: ts) H' H7 H9) as (j3 & Hj3 & _ & Hs3). assert (j3 = j2) as -> by congruence.
    unfold terminal in *. by rewrite Hs3, H9 in Hn.
Qed.

End Histories.
End Store.

(** ** An example *)

Module StoreDemo.
Definition delivery : dict -> res bool := RunDemo.operator_delivery.
Definition builder (record : dict) : res json :=
  let identity := record_identity record in
  Ok (JObj [("record", JObj [("identity", JObj (map (fun f => (f, JStr (text_of (dget identity f)))) identity_columns))]);
    ("revision", match dget record "revision" with JInt z => JInt z | _ => JNull end);
    ("integrity_sha256", JStr (text_of (dget record "integrity_sha256"))); ("canonical_status", JStr (text_of (dget record "status")));
    ("terminal", JBool (py_truthy (dget record "terminal")));
    ("response_projection", JObj [("browser_projection", JBool true); ("durable_projection", JBool true)])]).
Lemma builder_wf b record q : Some builder = Some b -> b record = Ok (JObj q) -> json_wf (JObj q) = true.
Proof. intros [= <-] [= <-]. cbn [json_wf]. destruct (dget record "revision"); vm_compute; reflexivity. Qed.

(** A run at revision 1 whose report is being rendered. *)
Definition small : dict :=
  [("identity", JObj [("run_id", JStr "run-1"); ("customer_id", JStr "acme"); ("project_id", JStr "web");
     ("repository", JStr "octo/repo"); ("commit_sha", JStr "c0ffee"); ("evidence_ledger_id", JStr "ledger-1")]);
   ("integrity_sha256", JStr "feed"); ("revision", JInt 1); ("status", JStr "ready"); ("terminal", JBool false)].
Definition shown : dict := match builder small with Ok (JObj q) => q | _ => [] end.
Definition row : run_row :=
  mkRun "acme" "web" "octo/repo" "c0ffee" "ledger-1" "ready" 1 0 "feed" RunDemo.t0 (dumps compact_unicode (JObj small)).
Definition clock : float := S754_zero false.
Definition rendering : job_row := mkJob "run-1" "rendering" clock clock RunDemo.t0.
Definition start : db := mkDb {["run-1" := row]} {["run-1" := sha_of []]} {["run-1" := new_projection row RunDemo.t0 shown]}
  {["lease-1" := rendering]}.

Lemma small_held : holds (zlib := stored_zlib) "run-1" row small.
Proof.
  split; try reflexivity.
  - apply stored_plain. vm_compute. discriminate.
  - by exists [].
  - eexists. by split.
Qed.

Lemma start_ok : store_ok delivery (zlib := stored_zlib) (Some builder) start.
Proof.
  split; cbn [start d_runs d_commitments d_projections].
  - intros k r [<- <-]%lookup_singleton_Some. exists small. exact small_held.
  - intros k c [<- <-]%lookup_singleton_Some. exists row, []. split_and!; [done| |done].
    apply (row_history_of (zlib := stored_zlib) _ _ _ [] small_held). reflexivity.
  - intros k p [<- <-]%lookup_singleton_Some. exists row. split; [done|].
    apply (new_projection_projects delivery _ builder_wf _ _ small); [exact small_held|]. by exists builder.
Qed.

(** Its next revision publishes the report. *)
Definition second : dict := hashed (dset (dset RunDemo.created "revision" (JInt 2)) "stage_results" (JObj
  [(FINAL_REPORT_STAGE_ID, JObj [("stage_execution", JObj [("publication_lease_id", JStr "lease-1")])])])).

Lemma second_state : run_state 0 second.
Proof.
  pose proof (create_state _ _ _ RunDemo.created_ok) as H. unfold second. split; [lia|look..|apply record_hash_hashed].
  - apply (rs_schema _ _ H).
  - apply (rs_service _ _ H).
  - apply (rs_identity _ _ H).
  - apply (rs_evidence _ _ H).
  - apply (rs_status _ _ H).
  - apply (rs_completed _ _ H).
  - eexists. reflexivity.
  - apply (rs_progress _ _ H).
  - exists 2. by split.
  - apply (rs_review _ _ H).
  - apply (rs_delivery _ _ H).
  - apply (rs_decision _ _ H).
  - apply (rs_history _ _ H).
Qed.

Lemma second_fits : blen (canonical second) <=? COMPRESSION_THRESHOLD_BYTES = true.
Proof. vm_compute. reflexivity. Qed.

Lemma second_wf : json_wf (JObj second) = true.
Proof. vm_compute. reflexivity. Qed.

Lemma second_writable : writable (zlib := stored_zlib) "run-1" (1 + 1) second.
Proof.
  split; [exists 0%nat; exact second_state|exact second_wf|reflexivity|reflexivity|done|eexists; reflexivity|].
  pose proof (encode_storage_spec (zlib := stored_zlib) second eq_refl) as H.
  destruct (encode_run_storage second) as [text|e]; [by exists text|]. exfalso. pose proof second_fits as Hf%Z.leb_le.
  cbn [yields] in H. destruct H as [[_ Hl]|[_ Hl]]; revert Hl Hf; unfold MAX_UNCOMPRESSED_BYTES, COMPRESSION_THRESHOLD_BYTES; lia.
Qed.

Definition save_second : call := Save second 1 (Some "lease-1") clock.
Abbreviation demo_history := (history (commits delivery (zlib := stored_zlib) (Some builder)) start).

Lemma second_saved : exists t, demo_history [((save_second, RRecord second), t)] /\
  exists row', d_runs t !! "run-1" = Some row' /\ run_revision row' = 2.
Proof.
  assert (exists q, _build_browser_projection (Some builder) second = Ok (Some q)) as [q Hq] by (eexists; reflexivity).
  assert (exists jobs', publication_leaves second "run-1" (Some "lease-1") clock (d_jobs start) jobs' (Some ("lease-1", "blocked")))
    as [jobs' Hl] by (eexists _, "blocked", _; split_and!; reflexivity).
  destruct (save_enters delivery (zlib := stored_zlib) (Some builder) "run-1" 1 second (Some q) (Some "lease-1") clock _ _ _ start start
    second_writable Hq Hl) as (values & row' & Hk & Hz & Hrow & Hs).
  destruct (save_rows_now delivery (zlib := stored_zlib) (Some builder) "run-1" 1 second (Some q) values row' (Some "lease-1") clock jobs' _ start row
    start_ok second_writable Hk Hz Hrow Hl eq_refl) as (u & Hw).
  { apply (row_history_of (zlib := stored_zlib) _ _ _ [] small_held). reflexivity. }
  rewrite Hw in Hs. cbn [mbind res_bind] in Hs. set (t := wrote _ _ _ _ _ _) in Hs. exists t. split.
  - apply history_commit with (seen := start); [apply history_start|exact (current_state start [])|]. split.
    + split; [exact second_wf|]. exact (proj1 (proj2 (writable_validated delivery _ _ _ second_writable))).
    + cbn [fst snd perform save_second]. unfold current. by rewrite Hs.
  - exists row'. subst t. cbn [wrote d_runs]. split; [apply lookup_insert_eq|exact Hz].
Qed.
End StoreDemo.


Lemma save_extends_history_witness : exists k r r' h h', d_runs StoreDemo.start !! k = Some r /\ run_revision r = 1 /\
  run_revision r' = 1 + 1 /\ holds (zlib := stored_zlib) k r' StoreDemo.second /\ row_history r = Ok h /\ row_history r' = Ok h'.
Proof.
  destruct StoreDemo.second_saved as (t & H & _).
  destruct (save_extends_history StoreDemo.delivery (zlib := stored_zlib) (Some StoreDemo.builder) StoreDemo.builder_wf
    StoreDemo.start StoreDemo.start_ok [] _ _ _ _ _ _ _ H) as (k & r & r' & h & h' & H1 & H2 & _ & H4 & H5 & H6 & H7 & _).
  exists k, r, r', h, h'. repeat (split; [assumption|]). assumption.
Defined.

Lemma no_save_lost_witness : exists t r, d_runs t !! "run-1" = Some r /\ run_revision r = 1 + 1.
Proof.
  destruct StoreDemo.second_saved as (t & H & _). exists t.
  destruct (no_save_lost StoreDemo.delivery (zlib := stored_zlib) (Some StoreDemo.builder) StoreDemo.builder_wf
    StoreDemo.start StoreDemo.start_ok [_] [] "run-1" StoreDemo.row H eq_refl) as (r & H1 & H2 & _). exists r. split; [exact H1|exact H2].
Defined.

Lemma load_returns_written_witness : exists t, load StoreDemo.delivery (zlib := stored_zlib) "run-1" t t = Ok (sorted_dict StoreDemo.second, t).
Proof.
  destruct StoreDemo.second_saved as (t & H & r & Hr & Hrev). exists t.
  destruct (load_returns_written StoreDemo.delivery (zlib := stored_zlib) (Some StoreDemo.builder) StoreDemo.builder_wf
    StoreDemo.start StoreDemo.start_ok [] _ _ _ [] "run-1" r H eq_refl eq_refl ltac:(discriminate) Hr (f_equal Ok (eq_sym Hrev))) as [_ Hl].
  exact (Hl 0%nat StoreDemo.second_state).
Defined.

Lemma projection_faithful_witness : exists r q0, d_runs StoreDemo.start !! "run-1" = Some r /\
  shows StoreDemo.delivery (zlib := stored_zlib) (Some StoreDemo.builder) "run-1" r q0.
Proof.
  destruct (projection_faithful StoreDemo.delivery (zlib := stored_zlib) (Some StoreDemo.builder) StoreDemo.builder_wf
    StoreDemo.start StoreDemo.start_ok [] "run-1" (sorted_dict StoreDemo.shown)) as (r & q0 & H1 & H2 & _).
  - apply history_start.
  - vm_compute. reflexivity.
  - exists r, q0. split; [exact H1|exact H2].
Defined.

Lemma lease_publishes_once_witness : exists t j, d_jobs t !! "lease-1" = Some j /\ job_status j ∈ ["complete"; "blocked"].
Proof.
  destruct StoreDemo.second_saved as (t & H & _). exists t.
  destruct (lease_publishes_once StoreDemo.delivery (zlib := stored_zlib) (Some StoreDemo.builder) StoreDemo.builder_wf
    StoreDemo.start StoreDemo.start_ok "lease-1" [] _ _ [] H eq_refl) as (_ & _ & _ & j & _ & _ & _ & _ & _ & _ & Hj & _ & _ & Hs & _).
  exists j. split; [exact Hj|exact Hs].
Defined.

Lemma create_answers_witness :
  create StoreDemo.delivery (zlib := stored_zlib) (Some StoreDemo.builder) StoreDemo.second StoreDemo.start =
    fail ComprehensiveRunConflict "run_already_exists:run-1".
Proof.
  assert (exists q, _build_browser_projection (Some StoreDemo.builder) StoreDemo.second = Ok q) as [q Hq] by (eexists; reflexivity).
  exact (create_answers StoreDemo.delivery (zlib := stored_zlib) (Some StoreDemo.builder) "run-1" _ _ q _
    StoreDemo.start_ok StoreDemo.second_writable Hq).
Defined.

Lemma save_answers_witness : exists row u jobs' q,
  save StoreDemo.delivery (zlib := stored_zlib) (Some StoreDemo.builder) StoreDemo.second 1 None StoreDemo.clock StoreDemo.start StoreDemo.start =
    Ok (StoreDemo.second, wrote "run-1" row (sha_of []) (pair u <$> q) jobs' StoreDemo.start).
Proof.
  assert (exists q, _build_browser_projection (Some StoreDemo.builder) StoreDemo.second = Ok q) as [q Hq] by (eexists; reflexivity).
  pose proof (save_answers StoreDemo.delivery (zlib := stored_zlib) (Some StoreDemo.builder) "run-1" 1 _ q None StoreDemo.clock _ None _
    StoreDemo.start_ok StoreDemo.second_writable Hq (conj eq_refl eq_refl)) as H.
  change (d_runs StoreDemo.start !! "run-1") with (Some StoreDemo.row) in H. cbv iota in H. destruct H as (h & Hh & H).
  rewrite (row_history_of (zlib := stored_zlib) _ _ _ [] StoreDemo.small_held eq_refl) in Hh. injection Hh as <-.
  destruct H as (row & u & _ & _ & H). exists row, u, (d_jobs StoreDemo.start), q. exact H.
Defined.

Lemma tables_agree_witness : exists record h, _decode_run_payload (zlib := stored_zlib) (JStr (run_payload StoreDemo.row)) = Ok record /\
  _review_history record = Ok h /\ (0, _review_history_sha256 []) = (Z.of_nat (length h), _review_history_sha256 h).
Proof.
  destruct (tables_agree StoreDemo.delivery (zlib := stored_zlib) (Some StoreDemo.builder) StoreDemo.builder_wf StoreDemo.start
    StoreDemo.start_ok [] (history_start _ _)) as [H _].
  destruct (H "run-1" StoreDemo.row eq_refl) as (record & h & Hd & _ & _ & _ & Hh & Hc & _). exists record, h.
  split; [exact Hd|]. split; [exact Hh|]. exact (Hc _ eq_refl).
Defined.
